(* ===== verification/_CoqProject ===== *)
-Q . S2P
Prelude.v
Ctype.v
Mem.v
CStr.v
Strings.v
Circbuf.v
Lmb.v
NandEcc.v
Qsort.v
Hashtable.v
HashProbe.v
HashSpec.v
HashExport.v
Div64.v
Vsprintf.v
VsprintfSpec.v
EnvAttr.v
EnvFlags.v
Crc.v
EnvVar.v
EnvSpec.v
Pll.v
Clk.v
ClkSpec.v
Cmdline.v
CmdSpec.v
Shell.v
Tftp.v
TftpSpec.v
Net.v
NetSpec.v
Store.v
Nor.v
Mmc.v
EnvSave.v
Image.v
Bootm.v
BootSpec.v
Part.v
PartSpec.v
Fat.v
FatSpec.v
FatDir.v
Dhcp.v
DhcpSpec.v
Nand.v
NandSpec.v
CmdNand.v
CmdNandSpec.v
EnvNand.v
EnvNandSpec.v
