(* ===== verification/Prelude.v ===== *)
(** * U-Boot for Ingenic XBurst: a verification library

    U-Boot 2013.07 is the boot loader of the boards with an Ingenic X1000 or X1501 (cu1000-neo,
    notkia-168x, x1501-pico).  It starts the clocks and the memory, keeps a set of environment
    variables, and runs a command line that loads an operating system from a memory card, from
    flash or over the network, and starts it.  This library
    models the parts of it that compute: what they do is written as Rocq functions that follow
    the C functions of the same names, and what they promise is proved about these functions.

    ** The target

    The model is the code as the XBurst boards compile it, for a 32-bit little-endian MIPS:
    [int], [long], [size_t] and pointers have 32 bits and [char] is signed.  A C integer is a
    [Z]; each conversion to a fixed width is written out ([u8] to [s64] below), so overflow
    wraps in the model where it does in the code.  The configuration is that of
    include/configs/cu1000-neo.h: the built-in parser, no [CONFIG_SYS_VSNPRINTF], no
    [CONFIG_REGEX], no watchdog, [CONFIG_CMD_NET] and [CONFIG_ENV_OVERWRITE].

    ** How C is modelled

    A function that cannot fail is a function.  A result [None] is behaviour without a
    meaning: an access outside of an array or allocation, through [NULL] or a dangling
    pointer, a division by zero, or a loop that ran out of fuel.  An error return of the code
    is a value of the result and never [None].  So a theorem that a result is [Some] says that
    the code returns and that every access was in bounds.  Three levels of memory are used,
    each where the code depends on it: a byte-addressed memory ([Mem]) for the string library,
    arrays with their bounds for the tables and buffers, and lists of characters for strings
    whose address does not matter.  Effects are explicit: the state a function changes is an
    argument and part of the result.  Devices and code that is not modelled are classes of
    operations ([Clk.Device], [Mmc.MmcCard], [Nor.NorChip], [Nand.MtdDriver], [Part.BlockReader],
    [Bootm.Decompressors], [Bootm.Board]), with a class of laws where a theorem relies on what a device promises; the
    commands of the command line, the callbacks of variables and the handlers of packets are
    parameters.

    ** The files

    - [Prelude]: machine integers, bit operations, tactics and lists.
    - [Ctype], [Mem], [CStr]: character classes (lib/ctype.c), memory, and C strings as lists.
    - [Strings]: lib/string.c on memory.  [Circbuf]: lib/circbuf.c.  [Qsort]: lib/qsort.c.
    - [Lmb]: lib/lmb.c, the memory regions that booting reserves.
    - [NandEcc]: drivers/mtd/nand/nand_ecc.c, the Hamming code of the NAND flash.
    - [Div64], [Vsprintf], [VsprintfSpec]: lib/div64.c, lib/vsprintf.c and lib/net_utils.c,
      numbers to text and back.
    - [Crc]: lib/crc32.c and lib/crc16.c.
    - [Hashtable], [HashProbe], [HashSpec], [HashExport]: lib/hashtable.c, the table of the
      environment; its functions, the number theory of double hashing, the table as a finite
      map, and the text form of the environment.
    - [EnvAttr], [EnvFlags]: common/env_attr.c with lib/linux_string.c, and
      common/env_flags.c: the lists of attributes and the types and access rights of variables.
    - [EnvVar], [EnvSpec]: common/cmd_nvedit.c, common/env_common.c and
      common/env_callback.c: reading and setting variables, and their specification.
    - [Pll], [Clk], [ClkSpec]: arch/mips/cpu/xburst/x1000: the host program that computes the
      clock parameters (pll_params_creator.c, clk_params_creator.c), the code that sets the
      clocks (pllsetting.c, clk.c, soc.c), and the proof that they fit together.
    - [Cmdline], [CmdSpec]: common/main.c and common/command.c: the parser of the command
      line, the lookup of commands and running them.
    - [Shell]: the commands [setenv] and [run] (common/cmd_nvedit.c) on top of both.
    - [Tftp], [TftpSpec]: net/tftp.c, the client of the file transfer, and what it does with
      any sequence of packets and timeouts.
    - [Net], [NetSpec]: net/net.c, net/arp.c and net/ping.c: sending, address resolution, echo
      requests and the way of a received frame to its handler.
    - [Store]: ranges of bytes on a device.  [Nor]: drivers/mtd/devices/jz_sfc_nor.c, serial NOR
      flash.  [Mmc]: drivers/mmc/mmc.c and mmc_write.c, the blocks of memory cards.
    - [Nand], [NandSpec]: drivers/mtd/mtdcore.c and drivers/mtd/nand/nand_util.c: reading, writing
      and erasing a NAND flash with bad blocks, and what it comes to.
    - [CmdNand], [CmdNandSpec]: common/cmd_nand.c, the command [nand], and what its printed forms do.
    - [EnvSave]: common/env_mmc.c (module [EnvMmc]), common/env_sfc.c (module [EnvSfc]) and
      [env_relocate] of common/env_common.c: saving and loading the environment.
    - [EnvNand], [EnvNandSpec]: common/env_sfcnand.c, two copies of the environment in serial NAND
      flash, and what a loss of power leaves of them.
    - [Image]: the legacy image format, as common/image.c and include/image.h read it and as
      tools/mkimage.c and tools/default_image.c write it.
    - [Bootm], [BootSpec]: common/cmd_bootm.c, the ramdisk of common/image.c, and
      arch/mips/lib/bootm.c: the command [bootm], and its specification.
    - [Part], [PartSpec]: disk/part_dos.c and disk/part.c, the partition table of a PC and the
      choice of a partition by its name.
    - [Fat], [FatSpec], [FatDir]: fs/fat/fat.c, reading a FAT file system: its code, chains of
      clusters, and directories with the file that a path names.
    - [Dhcp], [DhcpSpec]: net/bootp.c, the client of DHCP with its packets and options, and the
      exchange with a server.

    ** How the parts interact

    The environment is a hash table ([HashSpec.rep] relates it to a finite map).  The table
    calls the attribute functions and the callbacks of variables through the class
    [Hashtable.EnvHooks]; [HashSpec.EnvHooksOk] has the laws that are assumed of them, and
    [EnvSpec] proves its theorems for every instance and works with the attributes of entries
    through the class [EnvSpec.Attribute].  Setting a variable goes through [EnvVar.setenv] to
    [Hashtable.hsearch_r]; the image that [HashExport.hexport_r] makes is what
    [EnvVar.getenv_f] reads before the import.  The command line asks for variables through a
    parameter [getenv] that every command may change; [Shell] instantiates it with the
    environment, for [setenv] and for [run] nested to any depth.  The clock code runs on a
    [Clk.Device]; the class [ClkSpec.DeviceLaws] states what the device promises (registers
    keep what is written to them but for status bits, and changes go through after finitely
    many reads), and [ClkSpec.slow_device] is a device that keeps these promises.

    The TFTP client sends through [Tftp.udp_out], which is what [Net.NetSendUDPPacket] puts on the
    wire, and it is one of the handlers to which [Net.NetReceive] gives the packets of its
    port.  DHCP sends through the same headers, is the handler of the packets of its port in the
    loop of [Net], puts the name of the file into [bootfile] with [EnvVar.setenv] and starts
    [Tftp.TftpStart].  Partitions and FAT read through the class [Part.BlockReader], which a
    memory card implements ([PartSpec.mmc_disk] on [Mmc.mmc_bread]).  [saveenv] exports the table with [HashExport.hexport_r], adds the checksum of [Crc]
    and writes through [Mmc.mmc_bwrite] or [Nor.sfc_nor_write]; the laws [Mmc.MmcCardLaws] say
    what a card does for a command that succeeds, not which commands succeed.  [env_relocate] reads
    the bytes back and gives them to [EnvVar.env_import].  In NAND flash [EnvNand.saveenv] prints commands with
    [Vsprintf.sprintf] and runs them with [Cmdline.run_command]; they reach [CmdNand.do_nand], and
    through it the functions of [Nand], which run on a driver that keeps the laws [NandSpec.MtdLaws].  [bootm] checks an image with [Crc],
    moves the system with [Strings.memmove], reads [bootargs] and [verify] with [EnvVar.getenv],
    prints the environment of Linux with [Vsprintf.sprintf] and finds its subcommands with
    [Cmdline.find_cmd_tbl].

    ** The theorems

    - NAND: every single error is corrected and every double error is detected; an error in
      the code itself is recognised.
    - Memory regions: the invariant (sorted, disjoint, inside of the array) is kept by
      reserving and freeing, an allocation is aligned, free and inside of the
      memory, and a reservation of free addresses covers exactly what was asked for.
    - Environment: search, insertion and deletion are those of a finite map, within the size of
      the table; creating finds a prime size; export is bounded by its buffer, and importing
      an export gives back the map; [setenv] and [getenv] implement a map; before the import the
      first characters of plain values are read from the exported image; access rights and types are checked as declared;
      the handlers of the lists of flags keep every entry tidy.
    - Numbers: division is exact; printing and parsing are inverse; the layout of a printed
      number follows its format; addresses round-trip.
    - Checksums: the table-driven code is polynomial division and detects all bursts of 32
      bits.
    - Strings, sorting, buffer: equivalence with list functions, a sorted permutation, a
      bounded queue.
    - Clocks: the search for PLL parameters succeeds exactly for feasible frequencies and
      always ends; dividers are the least that respect the limits; starting the clocks ends
      on every device that follows the laws, and the rates read back are the configured ones.
    - Command line: a script of commands of at most 16 words runs as its specification says,
      command by command; variables,
      escapes and quotations are replaced; commands are found by name or unique abbreviation;
      a script put into a variable by [setenv] does under [run] what it says.

    - Network: whatever packets arrive in whatever order, the TFTP client stays within its
      buffers and state, and with a server that answers it stores the file, also past the
      wrap-around of the block number; a datagram sent by one host is what the handler of
      another gets, after the addresses are resolved; an echo request is answered; no frame
      makes the receiver read outside of the buffer.
    - Storage: what is written to a card or a NOR flash is what is read back, no other byte
      changes whatever commands fail, and a reported success is one; [saveenv] followed by a
      restart gives the variables back, and a short run of damaged bytes in the copy on a card is
      noticed; what is written around bad blocks is read back around them; of two copies
      in NAND flash one survives a loss of power while the environment is saved.
    - Loading: a client that asks for an address gets the one a server offers, with the other
      settings, and starts the transfer of the file; a partition is found as the tables on the disk
      have it, where their chain has an end (it is followed for ever where it comes back:
      [PartSpec.cyclic_never_ends]); a file is read from a FAT file system by its path.
    - Booting: an image that [mkimage] made is booted by [bootm] with its data, arguments and
      ramdisk in place, and one with a short run of damaged bytes is refused; the arguments of Linux are the words of
      [bootargs].

    Where the code does not do what it means to, a lemma at the end of a file shows it on an
    input (the sections "Observations" and the lemmas with such names as
    [EnvAttr.lookup_reads_below], [CmdSpec.command_list_inverted] and
    [ClkSpec.cpu_divider_overflows]).

    ** Fuel and bounds

    A loop that is not structural takes a number of iterations.  The functions choose it from
    their data, and the theorems show that it is enough: the length of the array or string
    plus one or two for the scans, the size of the table for the probes (each slot is visited
    once), the first value of the decreasing index for the shell sort, 200 for the PLL search
    (the multiplier passes 128 after at most 180 rounds) and 32 for the dividers (the largest
    frequency over the smallest limit is below 29).  Waiting for a device has no bound in the
    code; there the fuel is an argument and the theorems hold for every fuel of at least the
    [settle] of the device.  The waits for the PLLs are bounded in the code, by 65536 reads.
    For a chain of extended partitions the fuel is an argument, and the theorem holds for more than the tables
    of the chain, which are at most as many as the disk has blocks, and one
    ([PartSpec.chain_length]); a chain of clusters or a path is followed for as many steps as there are
    clusters and characters; each round over the options of a DHCP packet advances by two bytes at least in a field of fixed size.
    The loops over blocks, pages and sectors run as often as their range has units (around the bad blocks of a
    NAND flash, at most the blocks of the flash and two); a card is
    polled as often as the code polls; the arguments of Linux take a step for every character
    at most, and the table of an image of several files has fewer words than the memory bytes.

    ** What is not modelled

    Output to the console, and what only moves data: most drivers, start-up code,
    other processors and boards.  Imported libraries (zlib, LZMA, LZO, bzip2, libfdt, the
    allocator, ext4, the other file systems and UBI from Linux) and code that the boards do not configure (the
    other parser, watchdogs, [vsnprintf], flattened images, device trees) are left out.  Of the
    modelled parts: [buf_free]; the listing of flags; the commands that print, edit, search,
    import and export variables; [otg_phy_init] and the UART gate; line editing, history,
    completion at the prompt and the boot delay; the listing of FAT directories and writing
    to them; other tables of partitions; [netboot_update_env], BOOTP without DHCP and the other
    protocols, fragments of IP packets and the choice of a network device; the identification of a memory card and its
    controller; the other ways of saving the environment; access to spare bytes, YAFFS images, locking and torture of NAND flash, [nand
    dump] and the raw accesses of the command [nand]; [iminfo], [imls], and the functions
    that start other systems than Linux.

    What could be added with the same means: S-records (common/s_record.c), the reassembly of IP
    fragments (net/net.c, not configured), AES (lib/aes.c), the parser of common/cmd_mtdparts.c, and
    the memory parameters of tools/ingenic-tools/ddr_creator. *)
From Stdlib Require Export ZArith Lia ZifyBool ZifyNat.
From stdpp Require Export prelude list gmap strings sorting.

#[global] Open Scope Z_scope.

(** ** Notations

    The bit operations of C, in a scope of their own. *)
Declare Scope c_scope.
Delimit Scope c_scope with C.
Infix ".&" := Z.land (at level 38, left associativity) : c_scope.
Infix ".^" := Z.lxor (at level 39, left associativity) : c_scope.
Infix ".|" := Z.lor (at level 40, left associativity) : c_scope.
#[global] Open Scope c_scope.

(** ** Machine integers

    A C integer is a [Z]; a conversion to a fixed-width type is written out where the
    source performs it.  The target is the 32-bit little-endian MIPS of the XBurst cores:
    [int], [long], [size_t] and pointers have 32 bits and [char] is signed. *)
Definition u8 (z : Z) : Z := z mod 0x100.
Definition u16 (z : Z) : Z := z mod 0x10000.
Definition u32 (z : Z) : Z := z mod 0x100000000.
Definition u64 (z : Z) : Z := z mod 0x10000000000000000.
Definition s8 (z : Z) : Z := if u8 z <? 0x80 then u8 z else u8 z - 0x100.
Definition s16 (z : Z) : Z := if u16 z <? 0x8000 then u16 z else u16 z - 0x10000.
Definition s32 (z : Z) : Z := if u32 z <? 0x80000000 then u32 z else u32 z - 0x100000000.
Definition s64 (z : Z) : Z :=
  if u64 z <? 0x8000000000000000 then u64 z else u64 z - 0x10000000000000000.

Lemma u8_range z : 0 <= u8 z < 0x100.
Proof. apply Z.mod_pos_bound; lia. Qed.
Lemma u16_range z : 0 <= u16 z < 0x10000.
Proof. apply Z.mod_pos_bound; lia. Qed.
Lemma u32_range z : 0 <= u32 z < 0x100000000.
Proof. apply Z.mod_pos_bound; lia. Qed.
Lemma u64_range z : 0 <= u64 z < 0x10000000000000000.
Proof. apply Z.mod_pos_bound; lia. Qed.
Lemma u8_small z : 0 <= z < 0x100 -> u8 z = z.
Proof. apply Z.mod_small. Qed.
Lemma u16_small z : 0 <= z < 0x10000 -> u16 z = z.
Proof. apply Z.mod_small. Qed.
Lemma u32_small z : 0 <= z < 0x100000000 -> u32 z = z.
Proof. apply Z.mod_small. Qed.
Lemma u64_small z : 0 <= z < 0x10000000000000000 -> u64 z = z.
Proof. apply Z.mod_small. Qed.
Lemma s32_small z : -0x80000000 <= z < 0x80000000 -> s32 z = z.
Proof. unfold s32, u32. intros. case_match; Z.div_mod_to_equations; lia. Qed.
Lemma s32_range z : -0x80000000 <= s32 z < 0x80000000.
Proof. unfold s32. pose proof (u32_range z). case_match; lia. Qed.

(** The mask of [ALIGN] and of its relatives, [x & ~(2^k - 1)], rounds down. *)
Lemma land_align_down x k : 0 <= x < 0x100000000 -> 0 <= k < 32 ->
  x .& u32 (Z.lnot (2 ^ k - 1)) = 2 ^ k * (x / 2 ^ k).
Proof.
  intros Hx Hk. unfold u32.
  replace (2 ^ k - 1) with (Z.ones k) by (rewrite Z.ones_equiv; lia).
  change 0x100000000 with (2 ^ 32). rewrite <- Z.land_ones by lia.
  rewrite (Z.land_comm (Z.lnot _)), Z.land_assoc, Z.land_ones, (Z.mod_small x) by lia.
  rewrite <- Z.ldiff_land, Z.ldiff_ones_r, Z.shiftl_mul_pow2, Z.shiftr_div_pow2 by lia. lia.
Qed.

(** [unwrap] removes the conversions that [lia] can show to be the identity. *)
Ltac unwrap :=
  repeat match goal with
  | |- context [u32 ?z] => rewrite (u32_small z) by lia
  | |- context [s32 ?z] => rewrite (s32_small z) by lia
  | |- context [u16 ?z] => rewrite (u16_small z) by lia
  | |- context [u8 ?z] => rewrite (u8_small z) by lia
  | |- context [u64 ?z] => rewrite (u64_small z) by lia
  | H : context [u32 ?z] |- _ => rewrite (u32_small z) in H by lia
  | H : context [s32 ?z] |- _ => rewrite (s32_small z) in H by lia
  | H : context [u16 ?z] |- _ => rewrite (u16_small z) in H by lia
  | H : context [u8 ?z] |- _ => rewrite (u8_small z) in H by lia
  | H : context [u64 ?z] |- _ => rewrite (u64_small z) in H by lia
  end.

(** [by_computation] proves a decidable proposition about constants. *)
Ltac by_computation := apply (bool_decide_unpack _); by vm_compute.

(** [zdm] is [lia] with division and remainder. *)
Ltac zdm := Z.div_mod_to_equations; lia.

(** [eq_lia] proves an equality of terms whose integer parts agree by arithmetic. *)
Ltac eq_lia := first [reflexivity | lia | progress f_equal; eq_lia].

(** [case_if] splits on the boolean of an [if] of the goal and keeps the equation, which
    [lia] reads. *)
Ltac case_if :=
  match goal with
  | |- context [if ?b then _ else _] => let E := fresh "E" in destruct b eqn:E
  end.


(** ** Lists *)
Abbreviation zlen l := (Z.of_nat (length l)).

Lemma list_insert_middle {A} (l1 l2 : list A) (x y : A) :
  <[length l1 := y]> (l1 ++ x :: l2) = l1 ++ y :: l2.
Proof. induction l1 as [|z l1 IH]; cbn; [done|]. by f_equal. Qed.

(** The character codes of a string literal. *)
Definition codes (s : string) : list Z :=
  map (fun a => Z.of_N (Ascii.N_of_ascii a)) (String.list_ascii_of_string s).

(** [in_app] proves a membership in an explicit append by propositional reasoning. *)
Ltac in_app := rewrite ?elem_of_app, ?elem_of_cons; tauto.

(** ** Bits *)
Create Rewrite HintDb cbits.

Lemma testbit_land_pow2 a k n :
  0 <= k -> Z.testbit (a .& 2 ^ k) n = (n =? k) && Z.testbit a k.
Proof.
  intros Hk. rewrite Z.land_spec, Z.pow2_bits_eqb by done. rewrite Z.eqb_sym.
  destruct (Z.eqb_spec n k) as [->|]; [apply andb_true_r|apply andb_false_r].
Qed.

(** A mask of one bit, for each bit of a byte. *)
Lemma testbit_land_01 a n : Z.testbit (a .& 0x01) n = (n =? 0) && Z.testbit a 0.
Proof. by apply (testbit_land_pow2 a 0). Qed.
Lemma testbit_land_02 a n : Z.testbit (a .& 0x02) n = (n =? 1) && Z.testbit a 1.
Proof. by apply (testbit_land_pow2 a 1). Qed.
Lemma testbit_land_04 a n : Z.testbit (a .& 0x04) n = (n =? 2) && Z.testbit a 2.
Proof. by apply (testbit_land_pow2 a 2). Qed.
Lemma testbit_land_08 a n : Z.testbit (a .& 0x08) n = (n =? 3) && Z.testbit a 3.
Proof. by apply (testbit_land_pow2 a 3). Qed.
Lemma testbit_land_10 a n : Z.testbit (a .& 0x10) n = (n =? 4) && Z.testbit a 4.
Proof. by apply (testbit_land_pow2 a 4). Qed.
Lemma testbit_land_20 a n : Z.testbit (a .& 0x20) n = (n =? 5) && Z.testbit a 5.
Proof. by apply (testbit_land_pow2 a 5). Qed.
Lemma testbit_land_40 a n : Z.testbit (a .& 0x40) n = (n =? 6) && Z.testbit a 6.
Proof. by apply (testbit_land_pow2 a 6). Qed.
Lemma testbit_land_80 a n : Z.testbit (a .& 0x80) n = (n =? 7) && Z.testbit a 7.
Proof. by apply (testbit_land_pow2 a 7). Qed.

Lemma testbit_u8 z n : 0 <= n -> Z.testbit (u8 z) n = (n <? 8) && Z.testbit z n.
Proof.
  intros Hn. change (u8 z) with (z mod 2 ^ 8). destruct (Z.ltb_spec n 8).
  - by rewrite Z.mod_pow2_bits_low by lia.
  - by rewrite Z.mod_pow2_bits_high by lia.
Qed.

(** Bits put side by side: the bitwise or is a sum. *)
Lemma testbit_above b k n : 0 <= b < 2 ^ k -> k <= n -> Z.testbit b n = false.
Proof.
  intros Hb Hn. destruct (decide (0 <= k)) as [Hk|]; [|rewrite Z.pow_neg_r in Hb; lia].
  rewrite <- (Z.mod_small b (2 ^ k)) by done. by apply Z.mod_pow2_bits_high.
Qed.
Lemma lor_add a b k : 0 <= k -> 0 <= b < 2 ^ k -> (a * 2 ^ k) .| b = a * 2 ^ k + b.
Proof.
  intros Hk Hb. assert ((a * 2 ^ k) .& b = 0) as H0.
  { apply Z.bits_inj'. intros n Hn. rewrite Z.land_spec, Z.bits_0.
    destruct (decide (n < k)).
    - by rewrite Z.mul_pow2_bits_low.
    - rewrite (testbit_above b k n) by (done || lia). apply andb_false_r. }
  by rewrite Z.add_nocarry_lxor, Z.lxor_lor.
Qed.

#[export] Hint Rewrite testbit_land_01 testbit_land_02 testbit_land_04 testbit_land_08
  testbit_land_10 testbit_land_20 testbit_land_40 testbit_land_80
  Z.lor_spec Z.lxor_spec : cbits.
#[export] Hint Rewrite testbit_u8 Z.shiftl_spec Z.shiftr_spec Z.lnot_spec
  using lia : cbits.

(** [bits8] proves an equality of two bytes bit by bit: the bits 0 to 7 one after the
    other, and no bit above. *)
Ltac const_bits :=
  repeat match goal with
  | |- context [?a =? ?b] =>
      let v := eval compute in (a =? b) in
      lazymatch v with true => idtac | false => idtac end; change (a =? b) with v
  | |- context [?a <? ?b] =>
      let v := eval compute in (a <? b) in
      lazymatch v with true => idtac | false => idtac end; change (a <? b) with v
  | |- context [Z.testbit (Zpos ?p) ?k] =>
      let v := eval compute in (Z.testbit (Zpos p) k) in
      lazymatch v with true => idtac | false => idtac end;
      change (Z.testbit (Zpos p) k) with v
  | |- context [Z.testbit ?a (?k - ?j)] =>
      let v := eval compute in (k - j) in change (k - j) with v
  | |- context [Z.testbit ?a (?k + ?j)] =>
      let v := eval compute in (k + j) in change (k + j) with v
  end.
Ltac split_bits :=
  cbn -[Z.testbit Z.eqb Z.ltb]; const_bits; rewrite ?Z.testbit_neg_r by lia;
  autorewrite with cbits; const_bits; cbn -[Z.testbit];
  repeat match goal with |- context [Z.testbit ?a ?k] => destruct (Z.testbit a k) end;
  reflexivity.
Ltac bits8 :=
  apply Z.bits_inj'; let n := fresh "n" in let Hn := fresh "Hn" in intros n Hn;
  autorewrite with cbits;
  let H := fresh "H" in
  assert (n = 0 \/ n = 1 \/ n = 2 \/ n = 3 \/ n = 4 \/ n = 5 \/ n = 6 \/ n = 7 \/ 8 <= n)
    as H by lia;
  destruct H as [->|[->|[->|[->|[->|[->|[->|[->|H]]]]]]]];
  [ split_bits .. | repeat match goal with
         | |- context [?x =? ?k] => replace (x =? k) with false by lia
         | |- context [?x <? ?k] => replace (x <? k) with false by lia
         end; cbn -[Z.testbit]; reflexivity ].

(** ** Exhaustive checks of small ranges by computation *)
Definition all_below (n : Z) (P : Z -> bool) : bool := forallb P (seqZ 0 n).
Lemma all_below_spec n P : all_below n P = true -> forall i, 0 <= i < n -> P i = true.
Proof.
  unfold all_below. intros H i Hi. apply (proj1 (List.forallb_forall P _) H).
  apply list_elem_of_In, elem_of_seqZ. lia.
Qed.
