(* ===== verification/Ctype.v ===== *)
(** * Character classes: [lib/ctype.c] and [include/linux/ctype.h]

    The classification table and the predicates and conversions that index it. *)
From S2P Require Import Prelude.

Definition _U : Z := 0x01.
Definition _L : Z := 0x02.
Definition _D : Z := 0x04.
Definition _C : Z := 0x08.
Definition _P : Z := 0x10.
Definition _S : Z := 0x20.
Definition _X : Z := 0x40.
Definition _SP : Z := 0x80.

Definition _ctype : list Z :=
  [_C;_C;_C;_C;_C;_C;_C;_C;
   _C;_C.|_S;_C.|_S;_C.|_S;_C.|_S;_C.|_S;_C;_C;
   _C;_C;_C;_C;_C;_C;_C;_C;
   _C;_C;_C;_C;_C;_C;_C;_C;
   _S.|_SP;_P;_P;_P;_P;_P;_P;_P;
   _P;_P;_P;_P;_P;_P;_P;_P;
   _D;_D;_D;_D;_D;_D;_D;_D;
   _D;_D;_P;_P;_P;_P;_P;_P;
   _P;_U.|_X;_U.|_X;_U.|_X;_U.|_X;_U.|_X;_U.|_X;_U;
   _U;_U;_U;_U;_U;_U;_U;_U;
   _U;_U;_U;_U;_U;_U;_U;_U;
   _U;_U;_U;_P;_P;_P;_P;_P;
   _P;_L.|_X;_L.|_X;_L.|_X;_L.|_X;_L.|_X;_L.|_X;_L;
   _L;_L;_L;_L;_L;_L;_L;_L;
   _L;_L;_L;_L;_L;_L;_L;_L;
   _L;_L;_L;_P;_P;_P;_P;_C;
   0;0;0;0;0;0;0;0;0;0;0;0;0;0;0;0;
   0;0;0;0;0;0;0;0;0;0;0;0;0;0;0;0;
   _S.|_SP;_P;_P;_P;_P;_P;_P;_P;_P;_P;_P;_P;_P;_P;_P;_P;
   _P;_P;_P;_P;_P;_P;_P;_P;_P;_P;_P;_P;_P;_P;_P;_P;
   _U;_U;_U;_U;_U;_U;_U;_U;_U;_U;_U;_U;_U;_U;_U;_U;
   _U;_U;_U;_U;_U;_U;_U;_P;_U;_U;_U;_U;_U;_U;_U;_L;
   _L;_L;_L;_L;_L;_L;_L;_L;_L;_L;_L;_L;_L;_L;_L;_L;
   _L;_L;_L;_L;_L;_L;_L;_P;_L;_L;_L;_L;_L;_L;_L;_L].

(** [(int)(unsigned char)(x)] indexes the 256 entries, so the default is never used. *)
Definition __ismask (x : Z) : Z := default 0 (_ctype !! Z.to_nat (u8 x)).

Definition isalnum (c : Z) : bool := negb (__ismask c .& (_U .| _L .| _D) =? 0).
Definition isalpha (c : Z) : bool := negb (__ismask c .& (_U .| _L) =? 0).
Definition isdigit (c : Z) : bool := negb (__ismask c .& _D =? 0).
Definition islower (c : Z) : bool := negb (__ismask c .& _L =? 0).
Definition isprint (c : Z) : bool :=
  negb (__ismask c .& (_P .| _U .| _L .| _D .| _SP) =? 0).
Definition isspace (c : Z) : bool := negb (__ismask c .& _S =? 0).
Definition isupper (c : Z) : bool := negb (__ismask c .& _U =? 0).
Definition isxdigit (c : Z) : bool := negb (__ismask c .& (_D .| _X) =? 0).
Definition isblank (c : Z) : bool := (c =? 32) || (c =? 9).

Definition __tolower (c : Z) : Z := if isupper c then u8 (c - (65 - 97)) else c.
Definition __toupper (c : Z) : Z := if islower c then u8 (c - (97 - 65)) else c.

(** Every statement about single characters is checked on the 256 bytes. *)
Definition byte (c : Z) : Prop := 0 <= c < 256.

Lemma length_ctype : length _ctype = 256%nat.
Proof. reflexivity. Qed.

Lemma isdigit_spec c : byte c -> isdigit c = (48 <=? c) && (c <=? 57).
Proof.
  intros Hc. apply eqb_prop. revert c Hc.
  apply (all_below_spec 256). vm_compute. reflexivity.
Qed.
Lemma isxdigit_spec c : byte c ->
  isxdigit c = (48 <=? c) && (c <=? 57) || (65 <=? c) && (c <=? 70) || (97 <=? c) && (c <=? 102).
Proof.
  intros Hc. apply eqb_prop. revert c Hc.
  apply (all_below_spec 256). vm_compute. reflexivity.
Qed.
Lemma isspace_ascii c : 0 <= c < 128 -> isspace c = (9 <=? c) && (c <=? 13) || (c =? 32).
Proof.
  intros Hc. apply eqb_prop. revert c Hc.
  apply (all_below_spec 128). vm_compute. reflexivity.
Qed.
Lemma tolower_ascii c : 0 <= c < 128 ->
  __tolower c = if (65 <=? c) && (c <=? 90) then c + 32 else c.
Proof.
  intros Hc. apply Z.eqb_eq. revert c Hc.
  apply (all_below_spec 128). vm_compute. reflexivity.
Qed.
Lemma tolower_byte c : byte c -> byte (__tolower c) /\ __tolower (__tolower c) = __tolower c.
Proof.
  intros Hc.
  assert (all_below 256 (fun c => (0 <=? __tolower c) && (__tolower c <? 256)
    && (__tolower (__tolower c) =? __tolower c)) = true) as H by (vm_compute; reflexivity).
  pose proof (all_below_spec _ _ H c Hc) as Hb. cbn beta in Hb. unfold byte. lia.
Qed.
Lemma tolower_zero c : byte c -> __tolower c = 0 -> c = 0.
Proof.
  intros Hc.
  assert (all_below 256 (fun c => negb (__tolower c =? 0) || (c =? 0)) = true) as H
    by (vm_compute; reflexivity).
  pose proof (all_below_spec _ _ H c Hc) as Hb. cbn beta in Hb. lia.
Qed.
