(* ===== verification/Mem.v ===== *)
(** * Byte-addressed memory

    The memory the C functions of [lib/string.c] work on: a finite map from addresses to
    bytes.  An access outside of the map is a fault, the [None] of the option monad, so a
    result [Some] also says that every access stayed inside allocated memory. *)
From S2P Require Import Prelude Ctype.

Abbreviation mem := (gmap Z Z).

Definition load (m : mem) (a : Z) : option Z := m !! a.
Definition store (m : mem) (a v : Z) : option mem := _ ← m !! a; Some (<[a := u8 v]> m).

(** Little-endian word accesses. *)
Definition load32 (m : mem) (a : Z) : option Z :=
  b0 ← load m a; b1 ← load m (a + 1); b2 ← load m (a + 2); b3 ← load m (a + 3);
  Some (b0 + b1 * 0x100 + b2 * 0x10000 + b3 * 0x1000000).
Definition store32 (m : mem) (a v : Z) : option mem :=
  m ← store m a v; m ← store m (a + 1) (v / 0x100);
  m ← store m (a + 2) (v / 0x10000); store m (a + 3) (v / 0x1000000).
Definition load64 (m : mem) (a : Z) : option Z :=
  lo ← load32 m a; hi ← load32 m (a + 4); Some (lo + hi * 0x100000000).

(** A loop that reads a new address in each iteration ends, or faults, within
    [fuel m] iterations. *)
Definition fuel (m : mem) : nat := S (size m).

(** ** Contents *)
Fixpoint bytes_at (m : mem) (p : Z) (l : list Z) : Prop :=
  match l with [] => True | c :: l => m !! p = Some c /\ bytes_at m (p + 1) l end.
Fixpoint mwrite (m : mem) (p : Z) (l : list Z) : mem :=
  match l with [] => m | c :: l => mwrite (<[p := c]> m) (p + 1) l end.
Definition allocated (m : mem) (p : Z) (n : nat) : Prop :=
  forall i, 0 <= i < Z.of_nat n -> is_Some (m !! (p + i)).

(** The NUL-terminated string at [p]: its characters, none of them 0. *)
Definition char_ok (c : Z) : Prop := 0 < c < 256.
Definition str_ok (s : list Z) : Prop := Forall char_ok s.
Definition cstr (m : mem) (p : Z) (s : list Z) : Prop :=
  bytes_at m p (s ++ [0]) /\ str_ok s.

Lemma bytes_at_lookup m p l :
  bytes_at m p l <-> forall i c, l !! i = Some c -> m !! (p + Z.of_nat i) = Some c.
Proof.
  revert p; induction l as [|d l IH]; intros p; cbn; [naive_solver|].
  rewrite IH. split.
  - intros [Hd Hl] [|i] c; cbn; intros Hi.
    + simplify_eq. by rewrite Z.add_0_r.
    + replace (p + Z.of_nat (S i)) with (p + 1 + Z.of_nat i) by lia. by apply Hl.
  - intros H. split.
    + specialize (H O d eq_refl). by rewrite Z.add_0_r in H.
    + intros i c Hi. replace (p + 1 + Z.of_nat i) with (p + Z.of_nat (S i)) by lia.
      by apply H.
Qed.

Lemma bytes_at_app m p l1 l2 :
  bytes_at m p (l1 ++ l2) <-> bytes_at m p l1 /\ bytes_at m (p + zlen l1) l2.
Proof.
  revert p; induction l1 as [|c l1 IH]; intros p; cbn.
  - rewrite Z.add_0_r. tauto.
  - rewrite IH. replace (p + 1 + zlen l1) with (p + Z.of_nat (S (length l1))) by lia. tauto.
Qed.

Lemma bytes_at_allocated m p l : bytes_at m p l -> allocated m p (length l).
Proof.
  rewrite bytes_at_lookup. intros H i Hi.
  destruct (lookup_lt_is_Some_2 l (Z.to_nat i)) as [c Hc]; [lia|].
  exists c. replace (p + i) with (p + Z.of_nat (Z.to_nat i)) by lia. by apply H.
Qed.

Lemma allocated_size m p n : allocated m p n -> (n <= size m)%nat.
Proof.
  intros H.
  assert (list_to_set (C := gset Z) (seqZ p (Z.of_nat n)) ⊆ dom m) as Hs.
  { intros x. rewrite elem_of_list_to_set, elem_of_seqZ. intros Hx. apply elem_of_dom.
    destruct (H (x - p)) as [c Hc]; [lia|]. exists c. by replace x with (p + (x - p)) by lia. }
  apply subseteq_size in Hs. rewrite size_dom, size_list_to_set in Hs by apply NoDup_seqZ.
  rewrite length_seqZ in Hs. lia.
Qed.

Lemma lookup_mwrite m p l a :
  mwrite m p l !! a =
  if decide (p <= a < p + zlen l) then l !! Z.to_nat (a - p) else m !! a.
Proof.
  revert m p; induction l as [|c l IH]; intros m p; cbn.
  - case_decide; [lia|done].
  - rewrite IH. repeat case_decide; try lia.
    + replace (Z.to_nat (a - p)) with (S (Z.to_nat (a - (p + 1)))) by lia. done.
    + assert (a = p) as -> by lia. by rewrite lookup_insert_eq, Z.sub_diag.
    + by rewrite lookup_insert_ne by lia.
Qed.

Lemma bytes_at_mwrite m p l : bytes_at (mwrite m p l) p l.
Proof.
  apply bytes_at_lookup. intros i c Hi. pose proof (lookup_lt_Some _ _ _ Hi).
  rewrite lookup_mwrite, decide_True by lia.
  by replace (Z.to_nat (p + Z.of_nat i - p)) with i by lia.
Qed.

Lemma bytes_at_mwrite_disjoint m p q l l' :
  q + zlen l' <= p \/ p + zlen l <= q ->
  bytes_at (mwrite m p l) q l' <-> bytes_at m q l'.
Proof.
  intros H. rewrite !bytes_at_lookup.
  split; intros Hl i c Hi; pose proof (lookup_lt_Some _ _ _ Hi); specialize (Hl i c Hi);
    (rewrite lookup_mwrite, decide_False in Hl by lia) || (rewrite lookup_mwrite, decide_False by lia);
    done.
Qed.

Lemma bytes_at_insert_ne m p l a v :
  ~ (p <= a < p + zlen l) -> bytes_at (<[a := v]> m) p l <-> bytes_at m p l.
Proof. intros H. apply (bytes_at_mwrite_disjoint m a p [v] l). cbn. lia. Qed.

Lemma mwrite_app m p l1 l2 :
  mwrite m p (l1 ++ l2) = mwrite (mwrite m p l1) (p + zlen l1) l2.
Proof.
  revert m p; induction l1 as [|c l1 IH]; intros m p; cbn; [by rewrite Z.add_0_r|].
  rewrite IH. f_equal. lia.
Qed.

Lemma mwrite_snoc m p l c : mwrite m p (l ++ [c]) = <[p + zlen l := c]> (mwrite m p l).
Proof. by rewrite mwrite_app. Qed.

Lemma mwrite_insert_comm m p l a v :
  ~ (p <= a < p + zlen l) -> mwrite (<[a := v]> m) p l = <[a := v]> (mwrite m p l).
Proof.
  intros H. apply map_eq. intros b. rewrite lookup_mwrite.
  destruct (decide (b = a)) as [->|].
  - by rewrite decide_False, !lookup_insert_eq by done.
  - by rewrite !lookup_insert_ne, lookup_mwrite by done.
Qed.

Lemma allocated_mwrite m p l q n : allocated m q n -> allocated (mwrite m p l) q n.
Proof.
  intros H i Hi. rewrite lookup_mwrite. case_decide; [|by apply H].
  apply lookup_lt_is_Some_2. lia.
Qed.
Lemma allocated_insert m a v q n : allocated m q n -> allocated (<[a := v]> m) q n.
Proof. apply (allocated_mwrite m a [v]). Qed.
Lemma allocated_tail m p n : allocated m p (S n) -> allocated m (p + 1) n.
Proof. intros H i Hi. rewrite <- Z.add_assoc. apply H. lia. Qed.
Lemma allocated_head m p n : allocated m p (S n) -> is_Some (m !! p).
Proof. intros H. specialize (H 0). rewrite Z.add_0_r in H. apply H. lia. Qed.
Lemma allocated_le m p n k : allocated m p n -> (k <= n)%nat -> allocated m p k.
Proof. intros H Hk i Hi. apply H. lia. Qed.

Lemma mwrite_same m p l : bytes_at m p l -> mwrite m p l = m.
Proof.
  revert m p; induction l as [|c l IH]; intros m p; cbn; [done|].
  intros [Hc Hl]. rewrite insert_id by done. by apply IH.
Qed.
Lemma mwrite_take_drop m p k l : (k <= length l)%nat ->
  mwrite (mwrite m p (take k l)) (p + Z.of_nat k) (drop k l) = mwrite m p l.
Proof.
  intros Hk. rewrite <- (take_drop k l) at 3. rewrite mwrite_app.
  by rewrite length_take_le.
Qed.

(** An access to allocated memory succeeds. *)
Lemma store_ok m a v n : allocated m a (S n) -> store m a v = Some (<[a := u8 v]> m).
Proof. intros [c Hc]%allocated_head. unfold store. by rewrite Hc. Qed.

Lemma cstr_cons m p c s : cstr m p (c :: s) <-> m !! p = Some c /\ char_ok c /\ cstr m (p + 1) s.
Proof. unfold cstr, str_ok. cbn. rewrite Forall_cons. tauto. Qed.
Lemma cstr_nil m p : cstr m p [] <-> m !! p = Some 0.
Proof. unfold cstr, str_ok. cbn. rewrite Forall_nil. tauto. Qed.
Lemma cstr_fuel m p s : cstr m p s -> (length s < size m)%nat.
Proof.
  intros [H%bytes_at_allocated%allocated_size _]. rewrite length_app in H. cbn in H. lia.
Qed.
Lemma cstr_bytes m p s : cstr m p s -> bytes_at m p s.
Proof. intros [[H _]%bytes_at_app _]. done. Qed.
Lemma str_ok_byte s : str_ok s -> Forall byte s.
Proof. intros H. apply (Forall_impl _ _ _ H). unfold char_ok, byte. lia. Qed.
