(* ===== verification/CStr.v ===== *)
(** * C strings as lists

    The list of characters in front of the terminator stands for a C string in the files
    that do not need its address.  The functions here read 0 behind the last character, as
    the code does; [Strings] proves that the functions of [lib/string.c] on memory compute
    them. *)
From S2P Require Import Prelude Ctype Mem.

(** The first character, the terminator for an empty string. *)
Definition chr (s : list Z) : Z := hd 0 s.

Fixpoint strcmp (cs ct : list Z) : Z :=
  let __res := s8 (s8 (chr cs) - s8 (chr ct)) in
  match cs with
  | [] => __res
  | _ :: cs => if negb (__res =? 0) then __res else strcmp cs (tail ct)
  end.

Fixpoint strncmp (count : nat) (cs ct : list Z) : Z :=
  match count with
  | O => 0
  | S count =>
      let __res := s8 (s8 (chr cs) - s8 (chr ct)) in
      if negb (__res =? 0) || (chr cs =? 0) then __res
      else strncmp count (tail cs) (tail ct)
  end.

(** [prefix_of]-style test: does [s] start with [t]? *)
Fixpoint starts_with (t s : list Z) : bool :=
  match t, s with
  | [], _ => true
  | c :: t, d :: s => (c =? d) && starts_with t s
  | _ :: _, [] => false
  end.
(** The offset of the first occurrence of [t] in [s]. *)
Fixpoint find_sub (s t : list Z) : option nat :=
  if starts_with t s then Some O
  else match s with [] => None | _ :: s => k ← find_sub s t; Some (S k) end.
Definition strstr (s t : list Z) : bool := if find_sub s t is Some _ then true else false.

(** Lexicographic order on character codes. *)
Fixpoint lex_lt (s t : list Z) : bool :=
  match s, t with
  | _, [] => false
  | [], _ :: _ => true
  | c :: s, d :: t => (c <? d) || (c =? d) && lex_lt s t
  end.

(** ** Lemmas *)
Lemma s8_diff_zero a b : byte a -> byte b -> s8 (s8 a - s8 b) = 0 <-> a = b.
Proof. unfold byte, s8, u8. intros. repeat case_match; zdm. Qed.

Lemma chr_byte s : str_ok s -> byte (chr s).
Proof. unfold byte. intros [|c s' Hc _]; cbn; [lia|]. unfold char_ok in Hc. lia. Qed.

Lemma strcmp_refl s : strcmp s s = 0.
Proof. induction s as [|c s IH]; cbn; [done|]. by rewrite Z.sub_diag, IH. Qed.

Lemma strcmp_eq s t : str_ok s -> str_ok t -> strcmp s t = 0 <-> s = t.
Proof.
  intros Hs Ht. split; [|intros ->; apply strcmp_refl].
  revert t Ht; induction Hs as [|c s Hc Hs IH]; intros t Ht; cbn.
  - intros H0. pose proof (chr_byte t Ht) as Hb. destruct Ht as [|d t Hd Ht]; [done|].
    apply (s8_diff_zero 0) in H0; cbn in *; unfold byte, char_ok in *; lia.
  - pose proof (chr_byte t Ht) as Hb. case_if.
    + intros. lia.
    + intros H. assert (c = chr t) as ->.
      { apply s8_diff_zero; [unfold byte, char_ok in *; lia|done|lia]. }
      destruct Ht as [|d t Hd Ht]; cbn in *; [unfold char_ok in Hc; lia|].
      f_equal. by apply IH.
Qed.

Definition ascii (s : list Z) : Prop := Forall (fun c => 0 < c < 128) s.
Lemma ascii_ok s : ascii s -> str_ok s.
Proof. intros H. apply (Forall_impl _ _ _ H). unfold char_ok. lia. Qed.

Lemma s8_ascii a b : 0 <= a < 128 -> 0 <= b < 128 -> s8 (s8 a - s8 b) = a - b.
Proof. unfold s8, u8. intros. repeat case_match; zdm. Qed.

(** On ASCII strings the sign of the result is the lexicographic order. *)
Lemma strcmp_lt s t : ascii s -> ascii t -> strcmp s t < 0 <-> lex_lt s t = true.
Proof.
  intros Hs. revert t. induction Hs as [|c s Hc Hs IH]; intros t Ht; cbn.
  - destruct Ht as [|d t Hd Ht]; [done|]. rewrite s8_ascii; cbn; lia.
  - destruct Ht as [|d t Hd Ht]; cbn; rewrite s8_ascii by lia.
    + case_if; lia.
    + case_if; [|rewrite IH by done]; destruct (lex_lt s t); lia.
Qed.

Lemma lex_lt_total s t : lex_lt s t = true \/ s = t \/ lex_lt t s = true.
Proof.
  revert t; induction s as [|c s IH]; intros [|d t]; cbn; try tauto.
  destruct (IH t) as [H|[->|H]]; rewrite ?H; [| |];
    destruct (Z.lt_total c d) as [?|[->|?]]; try (left; lia); try (right; right; lia); auto.
Qed.
Lemma lex_lt_trans s t u : lex_lt s t = true -> lex_lt t u = true -> lex_lt s u = true.
Proof.
  revert t u; induction s as [|c s IH]; intros [|d t] [|e u]; cbn; try done.
  intros H1 H2. destruct (lex_lt s t) eqn:E1, (lex_lt t u) eqn:E2;
    try (rewrite (IH _ _ E1 E2)); lia.
Qed.
Lemma lex_lt_irrefl s : lex_lt s s = false.
Proof. induction s as [|c s IH]; cbn; [done|]. rewrite IH. lia. Qed.

Lemma starts_with_spec t s : starts_with t s = true <-> exists r, s = t ++ r.
Proof.
  revert s; induction t as [|c t IH]; intros s; cbn.
  - split; [by exists s|done].
  - destruct s as [|d s]; [split; [done|by intros [r [=]]]|].
    rewrite andb_true_iff, IH, Z.eqb_eq. split.
    + intros [-> [r ->]]. by exists r.
    + intros [r [= -> ->]]. eauto.
Qed.

Lemma find_sub_spec s t k :
  find_sub s t = Some k <->
  starts_with t (drop k s) = true /\ (k <= length s)%nat
  /\ forall i, (i < k)%nat -> starts_with t (drop i s) = false.
Proof.
  revert k; induction s as [|c s IH]; intros k.
  - cbn. destruct t; cbn; [|split; [done|intros (H & _); by destruct k]].
    split; [intros [= <-]; split_and!; [done|cbn; lia|lia]|].
    intros (_ & Hk & H). destruct k; [done|cbn in Hk; lia].
  - cbn [find_sub]. destruct (starts_with t (c :: s)) eqn:E.
    + split; [intros [= <-]; split_and!; [done|cbn; lia|lia]|].
      intros (_ & _ & H). destruct k as [|k]; [done|]. specialize (H O ltac:(lia)). cbn [drop] in H. congruence.
    + destruct (find_sub s t) as [j|] eqn:Ej; cbn.
      * destruct (proj1 (IH j) eq_refl) as (H1 & H2 & H3). split.
        { intros [= <-]. cbn. split_and!; [done|lia|]. intros [|i] Hi; [done|]. apply H3. lia. }
        { intros (G1 & G2 & G3). destruct k as [|k]; [cbn in G1; congruence|]. do 2 f_equal.
          cbn in G1, G2. enough (Some j = Some k) as [=] by done. apply IH. split_and!; [done|lia|].
          intros i Hi. apply (G3 (S i)). lia. }
      * split; [done|]. intros (G1 & G2 & G3).
        destruct k as [|k]; [cbn in G1; congruence|]. cbn in G1, G2.
        enough (None = Some k) by done. apply IH. split_and!; [done|lia|].
        intros i Hi. apply (G3 (S i)). lia.
Qed.
