(* ===== verification/Strings.v ===== *)
(** * The C string library: [lib/string.c]

    Each function over the memory of [Mem], loop by loop.  A pointer is an address, 0 is
    [NULL], and a result [None] is an access outside of allocated memory. *)
From S2P Require Import Prelude Ctype Mem CStr.

(** ** Comparison *)
Fixpoint strncasecmp_loop (n : nat) (m : mem) (s1 s2 len : Z) : option Z :=
  match n with
  | O => None
  | S n =>
      c1 ← load m s1; c2 ← load m s2;
      if (c1 =? 0) || (c2 =? 0) then Some (c1 - c2)
      else
        let d1 := __tolower c1 in
        let d2 := __tolower c2 in
        if negb (c1 =? c2) && negb (d1 =? d2) then Some (d1 - d2)
        else
          let len := u32 (len - 1) in
          if len =? 0 then Some (if c1 =? c2 then c1 - c2 else d1 - d2)
          else strncasecmp_loop n m (s1 + 1) (s2 + 1) len
  end.
Definition strncasecmp (m : mem) (s1 s2 len : Z) : option Z :=
  if len =? 0 then Some 0 else strncasecmp_loop (fuel m) m s1 s2 len.
Definition strcasecmp (m : mem) (s1 s2 : Z) : option Z := strncasecmp m s1 s2 (u32 (-1)).

Fixpoint strcmp_loop (n : nat) (m : mem) (cs ct : Z) : option Z :=
  match n with
  | O => None
  | S n =>
      a ← load m cs; b ← load m ct;
      let __res := s8 (s8 a - s8 b) in
      if negb (__res =? 0) || (a =? 0) then Some __res
      else strcmp_loop n m (cs + 1) (ct + 1)
  end.
Definition strcmp (m : mem) (cs ct : Z) : option Z := strcmp_loop (fuel m) m cs ct.

Fixpoint strncmp_loop (n : nat) (m : mem) (cs ct count __res : Z) : option Z :=
  if count =? 0 then Some __res else
  match n with
  | O => None
  | S n =>
      a ← load m cs; b ← load m ct;
      let __res := s8 (s8 a - s8 b) in
      if negb (__res =? 0) || (a =? 0) then Some __res
      else strncmp_loop n m (cs + 1) (ct + 1) (count - 1) __res
  end.
Definition strncmp (m : mem) (cs ct count : Z) : option Z :=
  strncmp_loop (fuel m) m cs ct count 0.

Fixpoint memcmp_loop (count : nat) (m : mem) (su1 su2 : Z) : option Z :=
  match count with
  | O => Some 0
  | S count =>
      a ← load m su1; b ← load m su2;
      if negb (a - b =? 0) then Some (a - b) else memcmp_loop count m (su1 + 1) (su2 + 1)
  end.
Definition memcmp (m : mem) (cs ct count : Z) : option Z :=
  memcmp_loop (Z.to_nat count) m cs ct.

(** ** Length *)
Fixpoint strlen_loop (n : nat) (m : mem) (sc : Z) : option Z :=
  match n with
  | O => None
  | S n => c ← load m sc; if c =? 0 then Some sc else strlen_loop n m (sc + 1)
  end.
Definition strlen (m : mem) (s : Z) : option Z :=
  sc ← strlen_loop (fuel m) m s; Some (u32 (sc - s)).

Fixpoint strnlen_loop (n : nat) (m : mem) (sc count : Z) : option Z :=
  if count =? 0 then Some sc else
  match n with
  | O => None
  | S n => c ← load m sc; if c =? 0 then Some sc else strnlen_loop n m (sc + 1) (count - 1)
  end.
Definition strnlen (m : mem) (s count : Z) : option Z :=
  sc ← strnlen_loop (fuel m) m s count; Some (u32 (sc - s)).

(** ** Copying strings *)
Fixpoint strcpy_loop (n : nat) (m : mem) (dest src : Z) : option mem :=
  match n with
  | O => None
  | S n =>
      c ← load m src; m ← store m dest c;
      if c =? 0 then Some m else strcpy_loop n m (dest + 1) (src + 1)
  end.
Definition strcpy (m : mem) (dest src : Z) : option (mem * Z) :=
  m' ← strcpy_loop (fuel m) m dest src; Some (m', dest).

Fixpoint strncpy_loop (n : nat) (m : mem) (dest src count : Z) : option mem :=
  if count =? 0 then Some m else
  match n with
  | O => None
  | S n =>
      c ← load m src; m ← store m dest c;
      if c =? 0 then Some m else strncpy_loop n m (dest + 1) (src + 1) (count - 1)
  end.
Definition strncpy (m : mem) (dest src count : Z) : option (mem * Z) :=
  m' ← strncpy_loop (fuel m) m dest src count; Some (m', dest).

(** [while ( *dest) dest++;] is the loop of [strlen]. *)
Definition strcat (m : mem) (dest src : Z) : option (mem * Z) :=
  e ← strlen_loop (fuel m) m dest; m' ← strcpy_loop (fuel m) m e src; Some (m', dest).

Fixpoint strncat_loop (n : nat) (m : mem) (dest src count : Z) : option mem :=
  match n with
  | O => None
  | S n =>
      c ← load m src; m ← store m dest c;
      if c =? 0 then Some m
      else
        let count := u32 (count - 1) in
        if count =? 0 then store m (dest + 1) 0
        else strncat_loop n m (dest + 1) (src + 1) count
  end.
Definition strncat (m : mem) (dest src count : Z) : option (mem * Z) :=
  if count =? 0 then Some (m, dest)
  else e ← strlen_loop (fuel m) m dest;
       m' ← strncat_loop (fuel m) m e src count; Some (m', dest).

(** [malloc] allocates a block and returns its address, 0 when there is none. *)
Definition strdup (malloc : mem -> Z -> mem * Z) (m : mem) (s : Z) : option (mem * Z) :=
  if s =? 0 then Some (m, 0)
  else
    len ← strlen m s;
    let (m, new) := malloc m (u32 (len + 1)) in
    if new =? 0 then Some (m, 0) else strcpy m new s.

(** ** Searching *)
Fixpoint strchr_loop (n : nat) (m : mem) (s c : Z) : option Z :=
  match n with
  | O => None
  | S n =>
      x ← load m s;
      if s8 x =? s8 c then Some s else if x =? 0 then Some 0 else strchr_loop n m (s + 1) c
  end.
Definition strchr (m : mem) (s c : Z) : option Z := strchr_loop (fuel m) m s c.

Fixpoint strrchr_loop (n : nat) (m : mem) (s p c : Z) : option Z :=
  match n with
  | O => None
  | S n =>
      x ← load m p;
      if s8 x =? s8 c then Some p
      else if s <=? p - 1 then strrchr_loop n m s (p - 1) c else Some 0
  end.
Definition strrchr (m : mem) (s c : Z) : option Z :=
  len ← strlen m s; strrchr_loop (fuel m) m s (s + len) c.

(** The inner loop of [strspn] and [strpbrk]: the address of the first character of the
    string at [a] that equals [x], or of its terminator. *)
Fixpoint accept_loop (n : nat) (m : mem) (x a : Z) : option Z :=
  match n with
  | O => None
  | S n =>
      y ← load m a; if (y =? 0) || (x =? y) then Some a else accept_loop n m x (a + 1)
  end.
Fixpoint strspn_loop (n : nat) (m : mem) (p accept count : Z) : option Z :=
  match n with
  | O => None
  | S n =>
      x ← load m p;
      if x =? 0 then Some count
      else
        a ← accept_loop (fuel m) m x accept; y ← load m a;
        if y =? 0 then Some count else strspn_loop n m (p + 1) accept (u32 (count + 1))
  end.
Definition strspn (m : mem) (s accept : Z) : option Z := strspn_loop (fuel m) m s accept 0.

Fixpoint strpbrk_loop (n : nat) (m : mem) (sc1 ct : Z) : option Z :=
  match n with
  | O => None
  | S n =>
      x ← load m sc1;
      if x =? 0 then Some 0
      else
        a ← accept_loop (fuel m) m x ct; y ← load m a;
        if y =? 0 then strpbrk_loop n m (sc1 + 1) ct else Some sc1
  end.
Definition strpbrk (m : mem) (cs ct : Z) : option Z := strpbrk_loop (fuel m) m cs ct.

(** [strtok] keeps the rest of the string in the global [___strtok], here [tok]. *)
Definition strtok (m : mem) (tok s ct : Z) : option (mem * Z * Z) :=
  let sbegin := if s =? 0 then tok else s in
  if sbegin =? 0 then Some (m, tok, 0)
  else
    k ← strspn m sbegin ct;
    let sbegin := sbegin + k in
    c ← load m sbegin;
    if c =? 0 then Some (m, 0, 0)
    else
      send ← strpbrk m sbegin ct;
      if send =? 0 then Some (m, send, sbegin)
      else
        d ← load m send;
        if d =? 0 then Some (m, send, sbegin)
        else m ← store m send 0; Some (m, send + 1, sbegin).

(** [strsep] reads and updates the pointer [*s]: the new value is the second result. *)
Definition strsep (m : mem) (s ct : Z) : option (mem * Z * Z) :=
  if s =? 0 then Some (m, s, 0)
  else
    e ← strpbrk m s ct;
    if e =? 0 then Some (m, e, s) else m ← store m e 0; Some (m, e + 1, s).

Fixpoint strstr_loop (n : nat) (m : mem) (s1 s2 l1 l2 : Z) : option Z :=
  if l1 <? l2 then Some 0 else
  match n with
  | O => None
  | S n =>
      r ← memcmp m s1 s2 l2;
      if r =? 0 then Some s1 else strstr_loop n m (s1 + 1) s2 (l1 - 1) l2
  end.
Definition strstr (m : mem) (s1 s2 : Z) : option Z :=
  n2 ← strlen m s2;
  let l2 := s32 n2 in
  if l2 =? 0 then Some s1
  else n1 ← strlen m s1; let l1 := s32 n1 in strstr_loop (fuel m) m s1 s2 l1 l2.

Fixpoint strswab_loop (n : nat) (m : mem) (p q : Z) : option mem :=
  match n with
  | O => None
  | S n =>
      x ← load m p;
      if x =? 0 then Some m
      else
        y ← load m q;
        if y =? 0 then Some m
        else m ← store m p y; m ← store m q x; strswab_loop n m (p + 2) (q + 2)
  end.
Definition strswab (m : mem) (s : Z) : option (mem * Z) :=
  if s =? 0 then Some (m, 0)
  else
    c ← load m s;
    if c =? 0 then Some (m, 0) else m' ← strswab_loop (fuel m) m s (s + 1); Some (m', s).

(** ** Memory blocks *)
Fixpoint memset_words (n : nat) (m : mem) (sl cl count : Z) : option (mem * Z * Z) :=
  match n with
  | O => Some (m, sl, count)
  | S n =>
      if 4 <=? count then m ← store32 m sl cl; memset_words n m (sl + 4) cl (count - 4)
      else Some (m, sl, count)
  end.
Fixpoint memset_bytes (count : nat) (m : mem) (p c : Z) : option mem :=
  match count with
  | O => Some m
  | S count => m ← store m p c; memset_bytes count m (p + 1) c
  end.
Definition memset_cl_step (c cl : Z) : Z := u32 (cl ≪ 8) .| (c .& 0xff).
Definition memset (m : mem) (s c count : Z) : option (mem * Z) :=
  let cl := memset_cl_step c (memset_cl_step c (memset_cl_step c (memset_cl_step c 0))) in
  '(m, sl, count) ←
    if s .& 3 =? 0 then memset_words (Z.to_nat count) m s cl count else Some (m, s, count);
  m ← memset_bytes (Z.to_nat count) m sl c; Some (m, s).

(** The forward byte loop shared by [bcopy], [memcpy] and [memmove]. *)
Fixpoint copy_up (count : nat) (m : mem) (d s : Z) : option mem :=
  match count with
  | O => Some m
  | S count => c ← load m s; m ← store m d c; copy_up count m (d + 1) (s + 1)
  end.
Fixpoint copy_down (count : nat) (m : mem) (d s : Z) : option mem :=
  match count with
  | O => Some m
  | S count => c ← load m (s - 1); m ← store m (d - 1) c; copy_down count m (d - 1) (s - 1)
  end.
Definition bcopy (m : mem) (src dest count : Z) : option (mem * Z) :=
  m ← copy_up (Z.to_nat (u32 count)) m dest src; Some (m, dest).

Fixpoint memcpy_words (n : nat) (m : mem) (dl sl count : Z) : option (mem * Z * Z * Z) :=
  match n with
  | O => Some (m, dl, sl, count)
  | S n =>
      if 4 <=? count then
        w ← load32 m sl; m ← store32 m dl w; memcpy_words n m (dl + 4) (sl + 4) (count - 4)
      else Some (m, dl, sl, count)
  end.
Definition memcpy (m : mem) (dest src count : Z) : option (mem * Z) :=
  if src =? dest then Some (m, dest)
  else
    '(m, dl, sl, count) ←
      if (dest .| src) .& 3 =? 0 then memcpy_words (Z.to_nat count) m dest src count
      else Some (m, dest, src, count);
    m ← copy_up (Z.to_nat count) m dl sl; Some (m, dest).

Definition memmove (m : mem) (dest src count : Z) : option (mem * Z) :=
  if src =? dest then Some (m, dest)
  else if dest <=? src then m ← copy_up (Z.to_nat count) m dest src; Some (m, dest)
  else m ← copy_down (Z.to_nat count) m (dest + count) (src + count); Some (m, dest).

Fixpoint memscan_loop (size : nat) (m : mem) (p c : Z) : option Z :=
  match size with
  | O => Some p
  | S size => x ← load m p; if x =? c then Some p else memscan_loop size m (p + 1) c
  end.
Definition memscan (m : mem) (addr c size : Z) : option Z :=
  memscan_loop (Z.to_nat size) m addr c.

Fixpoint memchr_loop (n : nat) (m : mem) (p c : Z) : option Z :=
  match n with
  | O => Some 0
  | S n => x ← load m p; if u8 c =? x then Some p else memchr_loop n m (p + 1) c
  end.
Definition memchr (m : mem) (s c n : Z) : option Z := memchr_loop (Z.to_nat n) m s c.

Fixpoint check_bytes8 (bytes : nat) (m : mem) (start value : Z) : option Z :=
  match bytes with
  | O => Some 0
  | S bytes =>
      x ← load m start;
      if negb (x =? value) then Some start else check_bytes8 bytes m (start + 1) value
  end.
Fixpoint memchr_inv_words (words : nat) (m : mem) (start value value64 bytes : Z) : option Z :=
  match words with
  | O => check_bytes8 (Z.to_nat (bytes mod 8)) m start value
  | S words =>
      w ← load64 m start;
      if negb (w =? value64) then check_bytes8 8 m start value
      else memchr_inv_words words m (start + 8) value value64 bytes
  end.
Definition memchr_inv_value64 (value : Z) : Z :=
  let v := value in
  let v := v .| u64 (v ≪ 8) in
  let v := v .| u64 (v ≪ 16) in
  v .| u64 (v ≪ 32).
Definition memchr_inv (m : mem) (start c bytes : Z) : option Z :=
  let value := u8 c in
  if bytes <=? 16 then check_bytes8 (Z.to_nat bytes) m start value
  else
    let value64 := memchr_inv_value64 value in
    let prefix := start mod 8 in
    if negb (prefix =? 0) then
      let prefix := 8 - prefix in
      r ← check_bytes8 (Z.to_nat prefix) m start value;
      if negb (r =? 0) then Some r
      else
        let start := start + prefix in
        let bytes := bytes - prefix in
        memchr_inv_words (Z.to_nat (bytes / 8)) m start value value64 bytes
    else memchr_inv_words (Z.to_nat (bytes / 8)) m start value value64 bytes.

(** ** Loops over memory *)
Lemma copy_up_ok l : forall m d s,
  Forall byte l -> bytes_at m s l -> allocated m d (length l) ->
  d <= s \/ s + zlen l <= d -> copy_up (length l) m d s = Some (mwrite m d l).
Proof.
  induction l as [|c l IH]; intros m d s Hb Hs Hd Hdis; [done|].
  apply Forall_cons in Hb as [Hc Hb]. destruct Hs as [Hc' Hs]. cbn [length copy_up mwrite] in *.
  unfold load. rewrite Hc'. cbn [mbind option_bind].
  rewrite (store_ok _ _ _ _ Hd). cbn [mbind option_bind]. rewrite u8_small by done.
  apply IH; [done| |by apply allocated_insert, allocated_tail|lia].
  apply bytes_at_insert_ne; [lia|done].
Qed.

Lemma copy_down_ok l : forall m d s,
  Forall byte l -> bytes_at m s l -> allocated m d (length l) -> s <= d ->
  copy_down (length l) m (d + zlen l) (s + zlen l) = Some (mwrite m d l).
Proof.
  induction l as [|c l IH] using rev_ind; intros m d s Hb Hs Hd Hdis; [done|].
  apply Forall_app in Hb as [Hb Hc]. apply Forall_cons in Hc as [Hc _].
  apply bytes_at_app in Hs as [Hs [Hc' _]].
  rewrite length_app in *. cbn [length] in *.
  replace (length l + 1)%nat with (S (length l)) in * by lia. cbn [copy_down].
  replace (s + Z.of_nat (S (length l)) - 1) with (s + zlen l) by lia.
  replace (d + Z.of_nat (S (length l)) - 1) with (d + zlen l) by lia.
  unfold load. rewrite Hc'. cbn [mbind option_bind].
  rewrite (store_ok _ _ _ 0) by (intros i Hi; rewrite <- Z.add_assoc; apply Hd; lia).
  cbn [mbind option_bind]. rewrite u8_small by done. rewrite IH; [|done| | |done].
  - rewrite mwrite_snoc, mwrite_insert_comm; [done|lia].
  - apply bytes_at_insert_ne; [lia|done].
  - apply allocated_insert. apply (allocated_le _ _ _ _ Hd). lia.
Qed.

Definition le32 (c0 c1 c2 c3 : Z) : Z := c0 + c1 * 0x100 + c2 * 0x10000 + c3 * 0x1000000.

Lemma load32_ok m s c0 c1 c2 c3 :
  bytes_at m s [c0; c1; c2; c3] -> load32 m s = Some (le32 c0 c1 c2 c3).
Proof.
  cbn. replace (s + 1 + 1) with (s + 2) by lia. replace (s + 2 + 1) with (s + 3) by lia.
  intros (H0 & H1 & H2 & H3 & _). unfold load32, load. by rewrite H0, H1, H2, H3.
Qed.

Lemma store32_ok m d c0 c1 c2 c3 :
  Forall byte [c0; c1; c2; c3] -> allocated m d 4 ->
  store32 m d (le32 c0 c1 c2 c3) = Some (mwrite m d [c0; c1; c2; c3]).
Proof.
  rewrite !Forall_cons. intros (H0 & H1 & H2 & H3 & _) Hd. unfold byte in *.
  assert (u8 (le32 c0 c1 c2 c3) = c0 /\ u8 (le32 c0 c1 c2 c3 / 0x100) = c1
    /\ u8 (le32 c0 c1 c2 c3 / 0x10000) = c2 /\ u8 (le32 c0 c1 c2 c3 / 0x1000000) = c3)
    as (E0 & E1 & E2 & E3) by (unfold le32, u8; split_and!; zdm).
  unfold store32.
  rewrite (store_ok _ _ _ 0) by (by apply (allocated_le _ _ _ _ Hd); lia).
  cbn [mbind option_bind].
  rewrite (store_ok _ _ _ 0)
    by (apply allocated_insert; intros i Hi; rewrite <- Z.add_assoc; apply Hd; lia).
  cbn [mbind option_bind].
  rewrite (store_ok _ _ _ 0)
    by (do 2 apply allocated_insert; intros i Hi; rewrite <- Z.add_assoc; apply Hd; lia).
  cbn [mbind option_bind].
  rewrite (store_ok _ _ _ 0)
    by (do 3 apply allocated_insert; intros i Hi; rewrite <- Z.add_assoc; apply Hd; lia).
  rewrite E0, E1, E2, E3. cbn.
  replace (d + 1 + 1) with (d + 2) by lia. by replace (d + 2 + 1) with (d + 3) by lia.
Qed.

(** The word loop of [memcpy] copies a prefix and leaves a rest for the byte loop. *)
Lemma memcpy_words_ok n : forall l m d s,
  Forall byte l -> bytes_at m s l -> allocated m d (length l) ->
  d <= s \/ s + zlen l <= d ->
  exists k, (k <= length l)%nat /\
    memcpy_words n m d s (zlen l) =
      Some (mwrite m d (take k l), d + Z.of_nat k, s + Z.of_nat k, zlen l - Z.of_nat k).
Proof.
  induction n as [|n IH]; intros l m d s Hb Hs Hd Hdis; cbn [memcpy_words].
  { exists O. split; [lia|]. cbn. eq_lia. }
  case_if; [|exists O; split; [lia|cbn; eq_lia]].
  destruct l as [|c0 [|c1 [|c2 [|c3 l]]]]; cbn [length] in E; try lia.
  change (c0 :: c1 :: c2 :: c3 :: l) with ([c0; c1; c2; c3] ++ l) in *.
  apply Forall_app in Hb as [Hb4 Hb]. apply bytes_at_app in Hs as [Hs4 Hs].
  rewrite (load32_ok _ _ _ _ _ _ Hs4). cbn [mbind option_bind].
  rewrite store32_ok by (done || (apply (allocated_le _ _ _ _ Hd); cbn; lia)).
  cbn [mbind option_bind]. rewrite length_app in *. cbn [length] in *.
  destruct (IH l (mwrite m d [c0; c1; c2; c3]) (d + 4) (s + 4)) as (k & Hk & Hr).
  - done.
  - apply bytes_at_mwrite_disjoint; [cbn [length]; lia|done].
  - apply allocated_mwrite. intros i Hi. rewrite <- Z.add_assoc. apply Hd. lia.
  - lia.
  - exists (4 + k)%nat. split; [lia|].
    replace (Z.of_nat (4 + length l) - 4) with (zlen l) by lia. rewrite Hr.
    change (4 + k)%nat with (length [c0; c1; c2; c3] + k)%nat.
    rewrite take_app_add', mwrite_app by done. cbn [length].
    eq_lia.
Qed.

Lemma memset_bytes_ok n : forall m p c, allocated m p n ->
  memset_bytes n m p c = Some (mwrite m p (replicate n (u8 c))).
Proof.
  induction n as [|n IH]; intros m p c Hp; cbn; [done|].
  rewrite (store_ok _ _ _ _ Hp). cbn. apply IH. by apply allocated_insert, allocated_tail.
Qed.

Definition memset_cl (c : Z) : Z :=
  memset_cl_step c (memset_cl_step c (memset_cl_step c (memset_cl_step c 0))).
Lemma memset_cl_ok c : memset_cl c = le32 (u8 c) (u8 c) (u8 c) (u8 c).
Proof.
  assert (c .& 0xff = u8 c) as H1 by apply (Z.land_ones c 8 ltac:(lia)).
  assert (u8 c .& 0xff = u8 c) as H2.
  { etrans; [apply (Z.land_ones (u8 c) 8); lia|]. apply u8_small, u8_range. }
  assert (forall x, memset_cl_step c x = memset_cl_step (u8 c) x) as H
    by (intros x; unfold memset_cl_step; by rewrite H1, H2).
  unfold memset_cl. rewrite !H.
  change (memset_cl (u8 c) = le32 (u8 c) (u8 c) (u8 c) (u8 c)).
  apply Z.eqb_eq. generalize (u8_range c). generalize (u8 c). clear.
  apply (all_below_spec 256). vm_compute. reflexivity.
Qed.

Lemma memset_words_ok v n : byte v -> forall k m p, allocated m p k ->
  exists j, (j <= k)%nat /\
    memset_words n m p (le32 v v v v) (Z.of_nat k) =
      Some (mwrite m p (replicate j v), p + Z.of_nat j, Z.of_nat k - Z.of_nat j).
Proof.
  intros Hv. induction n as [|n IH]; intros k m p Hp; cbn [memset_words].
  { exists O. split; [lia|]. cbn. eq_lia. }
  case_if; [|exists O; split; [lia|cbn; eq_lia]].
  rewrite store32_ok
    by (first [by rewrite !Forall_cons, Forall_nil | apply (allocated_le _ _ _ _ Hp); lia]).
  cbn [mbind option_bind].
  destruct (IH (k - 4)%nat (mwrite m p [v; v; v; v]) (p + 4)) as (j & Hj & Hr).
  - apply allocated_mwrite. intros i Hi. rewrite <- Z.add_assoc. apply Hp. lia.
  - exists (4 + j)%nat. split; [lia|].
    replace (Z.of_nat k - 4) with (Z.of_nat (k - 4)) by lia. rewrite Hr.
    rewrite replicate_add, mwrite_app. cbn [length replicate].
    eq_lia.
Qed.

(** ** Memory blocks *)

(** [memmove] copies a block to any allocated destination, overlapping the source or
    not: the bytes the source held before the call end up at the destination, nothing else
    changes, and no access leaves allocated memory.  [memcpy] and [bcopy] do the same when
    the destination is not inside the source behind its start. *)
Theorem memmove_correct m dest src l
    (Hl : Forall byte l) (Hsrc : bytes_at m src l) (Hdest : allocated m dest (length l))
    (Hsize : zlen l < 0x80000000) :
  memmove m dest src (zlen l) = Some (mwrite m dest l, dest)
  /\ (dest <= src \/ src + zlen l <= dest ->
      memcpy m dest src (zlen l) = Some (mwrite m dest l, dest)
      /\ bcopy m src dest (zlen l) = Some (mwrite m dest l, dest)).
Proof.
  split.
  - unfold memmove. case_if; [|case_if].
    + replace dest with src by lia. by rewrite mwrite_same.
    + rewrite Nat2Z.id, copy_up_ok by (done || lia). done.
    + rewrite Nat2Z.id, copy_down_ok by (done || lia). done.
  - intros Hdis. split.
    + unfold memcpy. case_if; [replace dest with src by lia; by rewrite mwrite_same|].
      rewrite Nat2Z.id. case_if.
      * destruct (memcpy_words_ok (length l) l m dest src Hl Hsrc Hdest Hdis) as (k & Hk & ->).
        cbn [mbind option_bind]. rewrite <- (take_drop k l) in Hsrc, Hl.
        apply Forall_app in Hl as [_ Hl]. apply bytes_at_app in Hsrc as [_ Hsrc].
        rewrite length_take_le in Hsrc by done.
        replace (Z.to_nat (zlen l - Z.of_nat k)) with (length (drop k l))
          by (rewrite length_drop; lia).
        rewrite copy_up_ok; [| done | | |].
        { cbn. by rewrite mwrite_take_drop. }
        { apply bytes_at_mwrite_disjoint; [|done]. rewrite length_take_le, length_drop by done. lia. }
        { apply allocated_mwrite. intros i. rewrite length_drop. intros Hi.
          rewrite <- Z.add_assoc. apply Hdest. lia. }
        { rewrite length_drop. lia. }
      * cbn [mbind option_bind]. rewrite Nat2Z.id, copy_up_ok by done. done.
    + unfold bcopy. rewrite u32_small, Nat2Z.id, copy_up_ok by (done || lia). done.
Qed.

(** [memset] fills exactly the block with the low byte of its argument, by words when
    the address is aligned, by bytes otherwise. *)
Theorem memset_correct m p c n (Hp : allocated m p n) :
  memset m p c (Z.of_nat n) = Some (mwrite m p (replicate n (u8 c)), p).
Proof.
  unfold memset. change (memset_cl_step c _) with (memset_cl c). rewrite memset_cl_ok.
  rewrite Nat2Z.id. case_if.
  - destruct (memset_words_ok (u8 c) n (u8_range c) n m p Hp) as (j & Hj & ->).
    cbn [mbind option_bind]. replace (Z.to_nat (Z.of_nat n - Z.of_nat j)) with (n - j)%nat by lia.
    rewrite memset_bytes_ok.
    + cbn. replace n with (j + (n - j))%nat at 2 by lia.
      by rewrite replicate_add, mwrite_app, length_replicate.
    + apply allocated_mwrite. intros i Hi. rewrite <- Z.add_assoc. apply Hp. lia.
  - cbn [mbind option_bind]. by rewrite Nat2Z.id, memset_bytes_ok.
Qed.

(** ** Loops over strings *)
#[local] Ltac step_load H := unfold load; rewrite H; cbn [mbind option_bind].

Lemma strlen_loop_ok s : forall n m p, cstr m p s -> (length s < n)%nat ->
  strlen_loop n m p = Some (p + zlen s).
Proof.
  induction s as [|c s IH]; intros n m p Hs Hn; (destruct n as [|n]; [cbn in Hn; lia|]);
    cbn [strlen_loop length] in *.
  - apply cstr_nil in Hs. step_load Hs. cbn. by rewrite Z.add_0_r.
  - apply cstr_cons in Hs as (Hc & Hok & Hs). step_load Hc. unfold char_ok in Hok.
    case_if; [lia|]. rewrite (IH _ _ _ Hs) by lia. f_equal. lia.
Qed.
Lemma strlen_ok m p s : cstr m p s -> zlen s < 0x100000000 -> strlen m p = Some (zlen s).
Proof.
  intros Hs Hl. unfold strlen. pose proof (cstr_fuel _ _ _ Hs).
  rewrite (strlen_loop_ok _ _ _ _ Hs) by (unfold fuel; lia). cbn.
  rewrite u32_small by lia. f_equal. lia.
Qed.

Lemma cstr_insert m p s a v : ~ (p <= a <= p + zlen s) -> cstr m p s -> cstr (<[a := v]> m) p s.
Proof.
  intros Ha [Hs Hok]. split; [|done]. apply bytes_at_insert_ne; [|done].
  rewrite length_app. cbn. lia.
Qed.
Lemma cstr_mwrite m p s a l :
  a + zlen l <= p \/ p + zlen s < a -> cstr m p s -> cstr (mwrite m a l) p s.
Proof.
  intros Ha [Hs Hok]. split; [|done]. apply bytes_at_mwrite_disjoint; [|done].
  rewrite length_app. cbn. lia.
Qed.

Lemma strcpy_loop_ok s : forall n m d p, cstr m p s -> allocated m d (S (length s)) ->
  d + zlen s < p \/ p + zlen s < d -> (length s < n)%nat ->
  strcpy_loop n m d p = Some (mwrite m d (s ++ [0])).
Proof.
  induction s as [|c s IH]; intros n m d p Hs Hd Hdis Hn;
    (destruct n as [|n]; [cbn in Hn; lia|]); cbn [strcpy_loop length] in *.
  - apply cstr_nil in Hs. step_load Hs. rewrite (store_ok _ _ _ _ Hd). done.
  - apply cstr_cons in Hs as (Hc & Hok & Hs). step_load Hc.
    rewrite (store_ok _ _ _ _ Hd). unfold char_ok in Hok. cbn. case_if; [lia|].
    rewrite u8_small by lia. rewrite (IH n _ (d + 1) (p + 1)); [done| | |lia|lia].
    + apply cstr_insert; [lia|done].
    + by apply allocated_insert, allocated_tail.
Qed.

Lemma strncpy_loop_ok s : forall n m d p count, cstr m p s -> 0 <= count ->
  allocated m d (Nat.min (Z.to_nat count) (S (length s))) ->
  d + zlen s < p \/ p + zlen s < d -> (length s < n)%nat ->
  strncpy_loop n m d p count = Some (mwrite m d (take (Z.to_nat count) (s ++ [0]))).
Proof.
  induction s as [|c s IH]; intros n m d p count Hs Hc0 Hd Hdis Hn;
    (destruct n as [|n]; [cbn in Hn; lia|]); cbn [strncpy_loop length] in *; case_if.
  - by replace (Z.to_nat count) with O by lia.
  - apply cstr_nil in Hs. step_load Hs. rewrite (store_ok _ _ _ 0). { cbn.
    destruct (Z.to_nat count) eqn:?; [lia|]. cbn. by rewrite take_nil. }
    apply (allocated_le _ _ _ _ Hd). lia.
  - by replace (Z.to_nat count) with O by lia.
  - apply cstr_cons in Hs as (Hc & Hok & Hs). step_load Hc. unfold char_ok in Hok.
    rewrite (store_ok _ _ _ 0) by (apply (allocated_le _ _ _ _ Hd); lia). cbn.
    case_if; [lia|]. rewrite u8_small by lia.
    rewrite (IH n _ (d + 1) (p + 1) (count - 1)); [|apply cstr_insert; [lia|done]|lia| |lia|lia].
    + replace (Z.to_nat count) with (S (Z.to_nat (count - 1))) by lia. done.
    + apply allocated_insert, allocated_tail. apply (allocated_le _ _ _ _ Hd). lia.
Qed.

Lemma strncat_loop_ok s : forall n m d p count, cstr m p s ->
  1 <= count < 0x100000000 -> allocated m d (S (Nat.min (Z.to_nat count) (length s))) ->
  d + zlen s < p \/ p + zlen s < d -> (length s < n)%nat ->
  strncat_loop n m d p count = Some (mwrite m d (take (Z.to_nat count) s ++ [0])).
Proof.
  induction s as [|c s IH]; intros n m d p count Hs Hcount Hd Hdis Hn;
    (destruct n as [|n]; [cbn in Hn; lia|]); cbn [strncat_loop length] in *.
  - apply cstr_nil in Hs. step_load Hs. rewrite (store_ok _ _ _ _ Hd). cbn.
    by rewrite take_nil.
  - apply cstr_cons in Hs as (Hc & Hok & Hs). step_load Hc. unfold char_ok in Hok.
    rewrite (store_ok _ _ _ _ Hd). cbn. case_if; [lia|]. rewrite !u8_small, u32_small by lia.
    apply allocated_tail in Hd as Hd'.
    replace (Z.to_nat count) with (S (Z.to_nat (count - 1))) in * by lia. cbn in *.
    case_if.
    + replace (Z.to_nat (count - 1)) with O in * by lia. cbn. rewrite take_0.
      rewrite (store_ok _ _ _ 0); [done|]. apply allocated_insert.
      apply (allocated_le _ _ _ _ Hd'). lia.
    + rewrite (IH n _ (d + 1) (p + 1)); [done|apply cstr_insert; [lia|done]|lia| |lia|lia].
      apply allocated_insert. apply (allocated_le _ _ _ _ Hd'). lia.
Qed.

Lemma cstr_written m p s : str_ok s -> cstr (mwrite m p (s ++ [0])) p s.
Proof. intros Hs. split; [apply bytes_at_mwrite|done]. Qed.

(** Writing behind a string makes the concatenation. *)
Lemma cstr_concat m p t s : cstr m p t -> str_ok s ->
  cstr (mwrite m (p + zlen t) (s ++ [0])) p (t ++ s).
Proof.
  intros Ht Hs. split; [|by apply Forall_app; split; [destruct Ht|]].
  rewrite <- app_assoc. apply bytes_at_app. split; [|apply bytes_at_mwrite].
  apply bytes_at_mwrite_disjoint; [lia|]. by apply cstr_bytes.
Qed.

Lemma strcmp_loop_ok s : forall t n m p q, cstr m p s -> cstr m q t -> (length s < n)%nat ->
  strcmp_loop n m p q = Some (CStr.strcmp s t).
Proof.
  induction s as [|c s IH]; intros t n m p q Hs Ht Hn;
    (destruct n as [|n]; [cbn in Hn; lia|]); cbn [strcmp_loop length CStr.strcmp] in *.
  - apply cstr_nil in Hs. step_load Hs. destruct t as [|d t].
    + apply cstr_nil in Ht. by step_load Ht.
    + apply cstr_cons in Ht as (Hd & _ & _). step_load Hd. cbn. by rewrite orb_true_r.
  - apply cstr_cons in Hs as (Hc & Hok & Hs). step_load Hc. unfold char_ok in Hok.
    destruct t as [|d t].
    + apply cstr_nil in Ht. step_load Ht. cbn [chr hd].
      case_if; [by case_if; [|lia]|].
      assert (c = 0) by (apply s8_diff_zero; unfold byte; lia). lia.
    + apply cstr_cons in Ht as (Hd & _ & Ht). step_load Hd. cbn [chr hd tail].
      case_if; case_if; try done; try lia. apply IH; [done|done|lia].
Qed.
Lemma strcmp_ok m p q s t : cstr m p s -> cstr m q t ->
  strcmp m p q = Some (CStr.strcmp s t).
Proof.
  intros Hs Ht. pose proof (cstr_fuel _ _ _ Hs).
  unfold strcmp. apply strcmp_loop_ok; [done|done|]. unfold fuel. lia.
Qed.

Lemma strncmp_loop_ok s : forall t n m p q count r, cstr m p s -> cstr m q t ->
  (length s < n)%nat -> 0 <= count ->
  strncmp_loop n m p q count r =
    Some (if count =? 0 then r else CStr.strncmp (Z.to_nat count) s t).
Proof.
  induction s as [|c s IH]; intros t n m p q count r Hs Ht Hn Hc0;
    (destruct n as [|n]; [cbn in Hn; lia|]); cbn [strncmp_loop length] in *; case_if; try done;
    replace (Z.to_nat count) with (S (Z.to_nat (count - 1))) by lia; cbn [CStr.strncmp].
  - apply cstr_nil in Hs. step_load Hs. destruct t as [|d t].
    + apply cstr_nil in Ht. by step_load Ht.
    + apply cstr_cons in Ht as (Hd & _ & _). step_load Hd. cbn. by rewrite orb_true_r.
  - apply cstr_cons in Hs as (Hc & Hok & Hs). step_load Hc. unfold char_ok in Hok.
    destruct t as [|d t].
    + apply cstr_nil in Ht. step_load Ht. cbn [chr hd]. case_if; [done|].
      assert (c = 0) by (apply s8_diff_zero; unfold byte; lia). lia.
    + apply cstr_cons in Ht as (Hd & _ & Ht). step_load Hd. cbn [chr hd tail].
      case_if; [done|]. rewrite (IH t) by (done || lia). case_if; [|done].
      replace (Z.to_nat (count - 1)) with O by lia. cbn. f_equal.
      destruct (s8 (s8 c - s8 d) =? 0) eqn:?; [lia|done].
Qed.

(** The four functions that build strings: [strcpy] and [strncpy] write the string (at
    most [count] bytes of it, without padding), [strcat] and [strncat] leave the
    concatenation with (at most [count] characters of) the source, always terminated, and
    write nothing outside of it. *)
Theorem string_builders_correct m dest src t s
    (Hs : cstr m src s) (Ht : cstr m dest t)
    (Hd : allocated m dest (S (length t + length s)))
    (Hdis : dest + zlen t + zlen s < src \/ src + zlen s < dest) :
  strcpy m dest src = Some (mwrite m dest (s ++ [0]), dest)
  /\ (forall count, 0 <= count ->
        strncpy m dest src count = Some (mwrite m dest (take (Z.to_nat count) (s ++ [0])), dest))
  /\ (exists m', strcat m dest src = Some (m', dest) /\ cstr m' dest (t ++ s)
        /\ m' = mwrite m (dest + zlen t) (s ++ [0]))
  /\ (forall count, 1 <= count < 0x100000000 -> exists m',
        strncat m dest src count = Some (m', dest)
        /\ cstr m' dest (t ++ take (Z.to_nat count) s)
        /\ m' = mwrite m (dest + zlen t) (take (Z.to_nat count) s ++ [0])).
Proof.
  pose proof (cstr_fuel _ _ _ Hs) as Hfs. pose proof (cstr_fuel _ _ _ Ht) as Hft.
  assert (allocated m (dest + zlen t) (S (length s))) as Hd'.
  { intros i Hi. rewrite <- Z.add_assoc. apply Hd. lia. }
  split_and!.
  - unfold strcpy. rewrite (strcpy_loop_ok _ _ _ _ _ Hs); [done| |lia|unfold fuel; lia].
    apply (allocated_le _ _ _ _ Hd). lia.
  - intros count Hc. unfold strncpy.
    rewrite (strncpy_loop_ok _ _ _ _ _ _ Hs); [done|done| |lia|unfold fuel; lia].
    apply (allocated_le _ _ _ _ Hd). lia.
  - eexists. unfold strcat. rewrite (strlen_loop_ok _ _ _ _ Ht) by (unfold fuel; lia).
    cbn [mbind option_bind].
    rewrite (strcpy_loop_ok _ _ _ _ _ Hs); [|done|lia|unfold fuel; lia].
    split; [done|]. split; [|done]. apply cstr_concat; [done|apply Hs].
  - intros count Hc. eexists. unfold strncat. case_if; [lia|].
    rewrite (strlen_loop_ok _ _ _ _ Ht) by (unfold fuel; lia). cbn [mbind option_bind].
    rewrite (strncat_loop_ok _ _ _ _ _ _ Hs); [|done| |lia|unfold fuel; lia].
    2:{ apply (allocated_le _ _ _ _ Hd'). lia. }
    split; [done|]. split; [|done]. apply cstr_concat; [done|].
    apply Forall_take. apply Hs.
Qed.

(** [strcmp] and [strncmp] on memory compute the list comparison; [strcmp] returns 0
    exactly for equal strings, and on ASCII strings its sign is the lexicographic order. *)
Theorem strcmp_correct m p q s t (Hs : cstr m p s) (Ht : cstr m q t) :
  exists r, strcmp m p q = Some r /\ r = CStr.strcmp s t
  /\ (r = 0 <-> s = t)
  /\ (ascii s -> ascii t -> r < 0 <-> lex_lt s t = true)
  /\ (forall count, 0 <= count ->
        strncmp m p q count = Some (CStr.strncmp (Z.to_nat count) s t)).
Proof.
  eexists. split; [by apply strcmp_ok|]. split; [done|]. split_and!.
  - apply strcmp_eq; [apply Hs|apply Ht].
  - apply strcmp_lt.
  - intros count Hc. pose proof (cstr_fuel _ _ _ Hs).
    unfold strncmp. rewrite (strncmp_loop_ok s t) by (done || unfold fuel; lia).
    case_if; [|done]. by replace (Z.to_nat count) with O by lia.
Qed.

(** With characters above 127 the difference does not fit [signed char]: each of two
    different strings compares below the other. *)
Lemma strcmp_not_antisymmetric : CStr.strcmp [0x61] [0xe1] = -128 /\ CStr.strcmp [0xe1] [0x61] = -128.
Proof. by split. Qed.

Lemma memcmp_loop_ok a : forall b m p q, length a = length b ->
  bytes_at m p a -> bytes_at m q b ->
  exists r, memcmp_loop (length a) m p q = Some r /\ (r = 0 <-> a = b).
Proof.
  induction a as [|x a IH]; intros [|y b] m p q Hl Ha Hb; try done; [by exists 0|].
  cbn in *. destruct Ha as [Hx Ha], Hb as [Hy Hb]. step_load Hx. step_load Hy. case_if.
  - eexists. split; [done|]. split; [lia|]. intros [=]. lia.
  - destruct (IH b m (p + 1) (q + 1)) as (r & -> & Hr); [lia|done|done|].
    exists r. split; [done|]. rewrite Hr. split; [intros ->; f_equal; lia|by intros [=]].
Qed.

Lemma bytes_at_take m p k l : bytes_at m p l -> bytes_at m p (take k l).
Proof. intros H. rewrite <- (take_drop k l) in H. by apply bytes_at_app in H as [H _]. Qed.

Lemma starts_with_take t s : (length t <= length s)%nat ->
  starts_with t s = true <-> take (length t) s = t.
Proof.
  rewrite starts_with_spec. intros Hl. split.
  - intros [r ->]. by rewrite take_app_length.
  - intros H. exists (drop (length t) s). rewrite <- H at 1. by rewrite take_drop.
Qed.
Lemma starts_with_short t s : (length s < length t)%nat -> starts_with t s = false.
Proof.
  intros Hl. apply not_true_is_false. rewrite starts_with_spec. intros [r ->].
  rewrite length_app in Hl. lia.
Qed.
Lemma find_sub_short t s : (length s < length t)%nat -> find_sub s t = None.
Proof.
  induction s as [|c s IH]; intros Hl; cbn [find_sub]; rewrite starts_with_short by done; [done|].
  rewrite IH; [done|]. cbn in Hl. lia.
Qed.

Lemma strstr_loop_ok t s : forall n m p q, cstr m p s -> cstr m q t -> t <> [] ->
  (length s < n)%nat ->
  strstr_loop n m p q (zlen s) (zlen t) =
    Some (match find_sub s t with Some k => p + Z.of_nat k | None => 0 end).
Proof.
  induction s as [|c s IH]; intros n m p q Hs Ht Hne Hn;
    (destruct n as [|n]; [cbn in Hn; lia|]); cbn [strstr_loop]; case_if;
    try (by rewrite find_sub_short by lia); (destruct t as [|d t]; [done|]); [cbn in E; lia|].
  set (t' := d :: t) in *. assert (length t' <= length (c :: s))%nat as Hle by lia.
  destruct (memcmp_loop_ok (take (length t') (c :: s)) t' m p q) as (r' & Hr & Hr').
  { by rewrite length_take_le. } { by apply bytes_at_take, cstr_bytes. } { by apply cstr_bytes. }
  rewrite length_take_le in Hr by done. unfold memcmp. rewrite Nat2Z.id, Hr.
  cbn [mbind option_bind find_sub]. rewrite <- starts_with_take in Hr' by done.
  destruct (starts_with t' (c :: s)) eqn:Es; case_if.
  - f_equal. lia.
  - exfalso. assert (r' = 0) by (by apply Hr'). lia.
  - exfalso. assert (r' = 0) as H0 by lia. by apply Hr' in H0.
  - apply cstr_cons in Hs as (_ & _ & Hs).
    replace (zlen (c :: s) - 1) with (zlen s) by (cbn; lia).
    rewrite (IH n m (p + 1) q) by (done || (cbn in Hn; lia)).
    destruct (find_sub s t') as [k|]; cbn; f_equal; lia.
Qed.

(** [strstr] returns the address of the first occurrence, or [NULL] when there is none,
    and the start of the string for an empty pattern. *)
Theorem strstr_correct m p q s t (Hs : cstr m p s) (Ht : cstr m q t)
    (Hls : zlen s < 0x80000000) (Hlt : zlen t < 0x80000000) :
  strstr m p q = Some (match find_sub s t with Some k => p + Z.of_nat k | None => 0 end)
  /\ (forall k, find_sub s t = Some k ->
        (exists r, drop k s = t ++ r) /\ forall i r, (i < k)%nat -> drop i s <> t ++ r).
Proof.
  split.
  - unfold strstr. rewrite (strlen_ok _ _ _ Ht) by lia. cbn [mbind option_bind].
    rewrite s32_small by lia. case_if.
    + destruct t; [|cbn in E; lia]. destruct s; cbn; f_equal; lia.
    + rewrite (strlen_ok _ _ _ Hs) by lia. cbn [mbind option_bind]. rewrite s32_small by lia.
      pose proof (cstr_fuel _ _ _ Hs).
      apply strstr_loop_ok; [done|done|by intros ->|unfold fuel; lia].
  - intros k (H1 & _ & H3)%find_sub_spec. split; [by apply starts_with_spec|].
    intros i r Hi Hd. enough (starts_with t (drop i s) = true) by (rewrite H3 in *; done).
    apply starts_with_spec. eauto.
Qed.

(** ** [memchr_inv] *)
(** The reference: the offset of the first byte other than [v]. *)
Fixpoint first_other (v : Z) (l : list Z) : option nat :=
  match l with
  | [] => None
  | c :: l => if c =? v then k ← first_other v l; Some (S k) else Some O
  end.
Definition other_addr (start v : Z) (l : list Z) : Z :=
  match first_other v l with Some k => start + Z.of_nat k | None => 0 end.

Lemma first_other_app v l1 l2 :
  first_other v (l1 ++ l2) =
  match first_other v l1 with
  | Some k => Some k
  | None => k ← first_other v l2; Some (length l1 + k)%nat
  end.
Proof.
  induction l1 as [|c l1 IH]; cbn; [by destruct (first_other v l2)|].
  case_if; [|done]. rewrite IH. destruct (first_other v l1); [done|].
  by destruct (first_other v l2).
Qed.
Lemma first_other_none v l : first_other v l = None <-> Forall (eq v) l.
Proof.
  induction l as [|c l IH]; cbn; [split; [constructor|done]|]. rewrite Forall_cons, <- IH.
  case_if; destruct (first_other v l); cbn; split; try done; try lia.
  - intros [_ ?]. done.
  - split; [lia|done].
Qed.

Lemma check_bytes8_ok l : forall m start v, bytes_at m start l ->
  check_bytes8 (length l) m start v = Some (other_addr start v l).
Proof.
  unfold other_addr. induction l as [|c l IH]; intros m start v H; cbn in *; [done|].
  destruct H as [Hc H]. step_load Hc. rewrite (IH _ _ _ H). destruct (c =? v); cbn [negb].
  - destruct (first_other v l); cbn; eq_lia.
  - eq_lia.
Qed.

Lemma other_addr_app start v l1 l2 : 0 < start ->
  other_addr start v (l1 ++ l2) =
  if other_addr start v l1 =? 0 then other_addr (start + zlen l1) v l2 else other_addr start v l1.
Proof.
  intros Hs. unfold other_addr. rewrite first_other_app.
  destruct (first_other v l1) as [k|]; cbn; [case_if; [lia|done]|].
  destruct (first_other v l2); cbn; [lia|done].
Qed.

Fixpoint le64 (l : list Z) : Z := match l with [] => 0 | c :: l => c + 0x100 * le64 l end.
Lemma load64_ok m p l : length l = 8%nat -> bytes_at m p l -> load64 m p = Some (le64 l).
Proof.
  intros Hl H. do 9 (destruct l as [|? l]; try done). clear Hl.
  change (?c0 :: ?c1 :: ?c2 :: ?c3 :: ?l) with ([c0; c1; c2; c3] ++ l) in H.
  apply bytes_at_app in H as [H1 H2]. change (p + zlen _) with (p + 4) in H2. unfold load64.
  rewrite (load32_ok _ _ _ _ _ _ H1). cbn [mbind option_bind].
  rewrite (load32_ok _ _ _ _ _ _ H2). cbn [mbind option_bind]. f_equal. unfold le32. cbn [le64]. lia.
Qed.
Lemma le64_inj l1 : forall l2, length l1 = length l2 -> Forall byte l1 -> Forall byte l2 ->
  le64 l1 = le64 l2 -> l1 = l2.
Proof.
  induction l1 as [|a l1 IH]; intros [|b l2] Hl H1 H2 H; try done.
  apply Forall_cons in H1 as [Ha H1], H2 as [Hb H2]. cbn in H, Hl. unfold byte in *.
  assert (a = b) as -> by lia. f_equal. apply IH; [lia|done|done|lia].
Qed.
Lemma memchr_inv_value64_ok v : byte v -> memchr_inv_value64 v = le64 (replicate 8 v).
Proof.
  intros Hv. apply Z.eqb_eq. revert v Hv. apply (all_below_spec 256). vm_compute. reflexivity.
Qed.

Lemma memchr_inv_words_ok v words : byte v -> forall l m start bytes, Forall byte l -> 0 < start ->
  bytes_at m start l -> zlen l = 8 * Z.of_nat words + bytes mod 8 ->
  memchr_inv_words words m start v (memchr_inv_value64 v) bytes = Some (other_addr start v l).
Proof.
  intros Hv. induction words as [|words IH]; intros l m start bytes Hl Hpos H Hlen;
    cbn [memchr_inv_words].
  - replace (bytes mod 8) with (zlen l) by lia. rewrite Nat2Z.id. by apply check_bytes8_ok.
  - assert (bytes mod 8 >= 0) by zdm.
    rewrite <- (take_drop 8 l) in H, Hl |- *.
    apply bytes_at_app in H as [H8 H]. apply Forall_app in Hl as [Hl8 Hl].
    assert (length (take 8 l) = 8%nat) as Hl8' by (rewrite length_take; lia).
    rewrite Hl8' in H. rewrite (load64_ok _ _ _ Hl8' H8). cbn [mbind option_bind].
    rewrite other_addr_app, Hl8' by done. rewrite memchr_inv_value64_ok by done.
    case_if; rewrite ?negb_true_iff, ?negb_false_iff in E.
    + replace 8%nat with (length (take 8 l)) at 1 by done. rewrite check_bytes8_ok by done.
      case_if; [|done]. exfalso. unfold other_addr in E0.
      destruct (first_other v (take 8 l)) eqn:Ef; [lia|].
      apply first_other_none, (replicate_as_Forall_2 _ _ _ Hl8') in Ef.
      rewrite Ef in E. lia.
    + assert (take 8 l = replicate 8 v) as Hr.
      { apply le64_inj; [by rewrite length_replicate|done|by apply Forall_replicate|lia]. }
      rewrite <- (memchr_inv_value64_ok v Hv).
      rewrite (IH (drop 8 l)); [|done|lia|done|rewrite length_drop; lia].
      case_if; [done|]. exfalso. unfold other_addr in E0.
      destruct (first_other v (take 8 l)) eqn:Ef; [|done].
      assert (first_other v (take 8 l) = None) as Hn; [|congruence].
      apply first_other_none. rewrite Hr. by apply Forall_replicate.
Qed.

(** The word-wise [memchr_inv] agrees with the byte-wise search: it returns the address
    of the first byte that differs from [c], or [NULL] when the block is uniform, whatever
    the length and alignment of the block. *)
Theorem memchr_inv_correct m start c l
    (Hl : Forall byte l) (H : bytes_at m start l) (Hstart : 0 < start) :
  memchr_inv m start c (zlen l) = Some (other_addr start (u8 c) l).
Proof.
  unfold memchr_inv. pose proof (u8_range c). case_if.
  { rewrite Nat2Z.id. by apply check_bytes8_ok. }
  assert (0 <= start mod 8 < 8) as Hmod by (apply Z.mod_pos_bound; lia).
  case_if; cbn [negb].
  - assert (bytes_at m start l) as H' by done.
    set (k := Z.to_nat (8 - start mod 8)).
    assert (length (take k l) = k) as Hk by (rewrite length_take; unfold k; lia).
    rewrite <- (take_drop k l) in H', Hl |- *.
    apply bytes_at_app in H' as [Hp H']. apply Forall_app in Hl as [_ Hl].
    pose proof (check_bytes8_ok (take k l) m start (u8 c) Hp) as Hr. rewrite Hk in Hr.
    rewrite Hr. cbn [mbind option_bind].
    rewrite other_addr_app by done.
    destruct (other_addr start (u8 c) (take k l) =? 0); cbn [negb]; [|done].
    rewrite Hk in *. replace (start + (8 - start mod 8)) with (start + Z.of_nat k) by lia.
    rewrite length_app, length_drop, Hk.
    apply memchr_inv_words_ok; [done|done|lia|done|]. rewrite length_drop.
    replace (Z.of_nat (k + (length l - k)) - (8 - start mod 8)) with (zlen l - Z.of_nat k) by lia.
    zdm.
  - apply memchr_inv_words_ok; try done. zdm.
Qed.

(** ** The theorems at concrete memories *)
Definition mem_digits : mem := mwrite ∅ 100 [1; 2; 3; 4; 5; 6; 7; 8].
Definition mem_hello : mem := mwrite (mwrite ∅ 100 (codes "abcb" ++ [0])) 200 (codes "bc" ++ repeat 0 8).

Lemma mem_digits_allocated : allocated mem_digits 102 6.
Proof. apply (bytes_at_allocated _ _ [3; 4; 5; 6; 7; 8]). vm_compute. tauto. Qed.
Lemma mem_hello_src : cstr mem_hello 100 (codes "abcb").
Proof. split; [vm_compute; tauto|]. repeat constructor. Qed.
Lemma mem_hello_dest : cstr mem_hello 200 (codes "bc").
Proof. split; [vm_compute; tauto|]. repeat constructor. Qed.
Lemma mem_hello_room : allocated mem_hello 200 10.
Proof. apply (bytes_at_allocated _ _ (codes "bc" ++ repeat 0 8)). vm_compute. tauto. Qed.

Lemma memmove_correct_witness :
  memmove mem_digits 102 100 6 = Some (mwrite mem_digits 102 [1; 2; 3; 4; 5; 6], 102).
Proof.
  refine (proj1 (memmove_correct mem_digits 102 100 [1; 2; 3; 4; 5; 6] _ _ _ _)).
  - by repeat constructor.
  - vm_compute. tauto.
  - apply mem_digits_allocated.
  - done.
Defined.

Lemma memset_correct_witness :
  memset mem_digits 102 (-1) 6 = Some (mwrite mem_digits 102 (replicate 6 255), 102).
Proof. exact (memset_correct mem_digits 102 (-1) 6 mem_digits_allocated). Defined.

Lemma string_builders_correct_witness : exists m',
  strcat mem_hello 200 100 = Some (m', 200) /\ cstr m' 200 (codes "bcabcb").
Proof.
  destruct (string_builders_correct mem_hello 200 100 (codes "bc") (codes "abcb")
    mem_hello_src mem_hello_dest) as (_ & _ & (m' & H1 & H2 & _) & _).
  - apply (allocated_le _ _ _ _ mem_hello_room). cbn. lia.
  - cbn. lia.
  - exists m'. by split.
Defined.

Lemma strcmp_correct_witness : exists r, strcmp mem_hello 100 200 = Some r /\ r < 0.
Proof.
  destruct (strcmp_correct mem_hello 100 200 _ _ mem_hello_src mem_hello_dest)
    as (r & H1 & _ & _ & H2 & _).
  exists r. split; [done|]. apply H2; [by repeat constructor..|reflexivity].
Defined.

Lemma strstr_correct_witness : strstr mem_hello 100 200 = Some 101.
Proof.
  exact (proj1 (strstr_correct mem_hello 100 200 _ _ mem_hello_src mem_hello_dest
    eq_refl eq_refl)).
Defined.

Definition mem_blank : mem := mwrite ∅ 101 (repeat 0xff 21 ++ [7; 0xff; 0xff; 0xff]).
Lemma memchr_inv_correct_witness : memchr_inv mem_blank 101 (-1) 25 = Some 122.
Proof.
  refine (memchr_inv_correct mem_blank 101 (-1) (repeat 0xff 21 ++ [7; 0xff; 0xff; 0xff]) _ _ _).
  - by repeat constructor.
  - vm_compute. tauto.
  - done.
Defined.
