(* ===== verification/Circbuf.v ===== *)
(** * lib/circbuf.c: the circular byte buffer

    The four pointers of [circbuf_t] are offsets into the allocation [data]; [end] is the
    offset [length data].  A read or write outside of the allocation is [None]. *)
From S2P Require Import Prelude.

Record circbuf := mk_circbuf {
  cb_size : nat;
  cb_totalsize : nat;
  cb_top : nat;
  cb_tail : nat;
  cb_data : list Z
}.

Definition cb_end (buf : circbuf) : nat := length (cb_data buf).

(** The allocation of [buf_init]: its bytes are what [malloc] returns. *)
Definition buf_init (malloc : nat -> list Z) (size : nat) : circbuf :=
  {| cb_size := 0; cb_totalsize := size; cb_top := 0; cb_tail := 0;
     cb_data := malloc size |}.

Fixpoint buf_pop_loop (buf : circbuf) (p : nat) (n : nat) (dest : list Z)
  : option (list Z * nat) :=
  match n with
  | O => Some (dest, p)
  | S n' =>
      c ← cb_data buf !! p;
      let p := S p in
      let p := if (p =? cb_end buf)%nat then 0%nat else p in
      buf_pop_loop buf p n' (dest ++ [c])
  end.

Definition buf_pop (buf : circbuf) (len : nat) : option (list Z * nat * circbuf) :=
  let len := if (cb_size buf <? len)%nat then cb_size buf else len in
  '(dest, p) ← buf_pop_loop buf (cb_top buf) len [];
  Some (dest, len,
        {| cb_size := cb_size buf - len; cb_totalsize := cb_totalsize buf;
           cb_top := p; cb_tail := cb_tail buf; cb_data := cb_data buf |}).

Fixpoint buf_push_loop (buf : circbuf) (p : nat) (src : list Z) : option (circbuf * nat) :=
  match src with
  | [] => Some (buf, p)
  | c :: src' =>
      if (p <? cb_end buf)%nat then
        let data := <[p := c]> (cb_data buf) in
        let p := S p in
        let p := if (p =? cb_end buf)%nat then 0%nat else p in
        let buf' :=
          if (cb_size buf <? cb_totalsize buf)%nat then
            {| cb_size := S (cb_size buf); cb_totalsize := cb_totalsize buf;
               cb_top := cb_top buf; cb_tail := cb_tail buf; cb_data := data |}
          else
            let top := S (cb_top buf) in
            let top := if (top =? cb_end buf)%nat then 0%nat else top in
            {| cb_size := cb_size buf; cb_totalsize := cb_totalsize buf;
               cb_top := top; cb_tail := cb_tail buf; cb_data := data |} in
        buf_push_loop buf' p src'
      else None
  end.

Definition buf_push (buf : circbuf) (src : list Z) : option (nat * circbuf) :=
  '(buf', p) ← buf_push_loop buf (cb_tail buf) src;
  Some (length src,
        {| cb_size := cb_size buf'; cb_totalsize := cb_totalsize buf';
           cb_top := cb_top buf'; cb_tail := p; cb_data := cb_data buf' |}).

(** ** Specification: a bounded queue that drops its oldest bytes *)
Definition queue_pop (q : list Z) (len : nat) : list Z * list Z := (take len q, drop len q).
Definition queue_push (cap : nat) (q src : list Z) : list Z :=
  let q' := q ++ src in drop (length q' - cap) q'.

Record circbuf_wf (b : circbuf) : Prop := {
  wf_total : cb_totalsize b = length (cb_data b);
  wf_top : (cb_top b < length (cb_data b))%nat;
  wf_size : (cb_size b <= length (cb_data b))%nat;
  wf_tail : cb_tail b = ((cb_top b + cb_size b) mod length (cb_data b))%nat
}.

(** The bytes held, oldest first. *)
Definition contents (b : circbuf) : list Z :=
  take (cb_size b) (drop (cb_top b) (cb_data b) ++ take (cb_top b) (cb_data b)).

(** ** Lemmas on ring indices *)
#[local] Arguments Nat.eqb : simpl never.
#[local] Arguments Nat.ltb : simpl never.

Lemma mod_once (a n : nat) :
  (a < 2 * n)%nat -> (a mod n = if decide (a < n) then a else a - n)%nat.
Proof.
  intros H. case_decide; [by apply Nat.mod_small|].
  symmetry. apply (Nat.mod_unique _ _ 1); lia.
Qed.

Lemma ring_lookup {A} (d : list A) (t i : nat) :
  (t < length d)%nat -> (i < length d)%nat ->
  (drop t d ++ take t d) !! i = d !! ((t + i) mod length d)%nat.
Proof.
  intros Ht Hi. rewrite mod_once by lia. case_decide.
  - rewrite lookup_app_l by (rewrite length_drop; lia). by rewrite lookup_drop.
  - rewrite lookup_app_r by (rewrite length_drop; lia).
    rewrite length_drop, lookup_take_lt by lia. f_equal; lia.
Qed.

#[local] Arguments contents : simpl never.

Lemma contents_lookup b i :
  circbuf_wf b ->
  contents b !! i =
    if decide (i < cb_size b)%nat
    then cb_data b !! ((cb_top b + i) mod length (cb_data b))%nat else None.
Proof.
  intros [? ? ? ?]. unfold contents. case_decide.
  - rewrite lookup_take_lt by done. apply ring_lookup; lia.
  - apply lookup_take_ge; lia.
Qed.

Lemma contents_length b : circbuf_wf b -> length (contents b) = cb_size b.
Proof.
  intros [? ? ? ?]. unfold contents.
  rewrite length_take, length_app, length_drop, length_take. lia.
Qed.

(** The state between two bytes of [buf_push]: the tail is still in the local [p]. *)
Definition with_tail (b : circbuf) (p : nat) : circbuf :=
  {| cb_size := cb_size b; cb_totalsize := cb_totalsize b; cb_top := cb_top b;
     cb_tail := p; cb_data := cb_data b |}.

(** A byte written at the tail goes behind the contents while there is room, and takes the
    place of the oldest byte when the buffer is full. *)
Lemma contents_grow b p c : circbuf_wf (with_tail b p) -> (cb_size b < length (cb_data b))%nat ->
  contents (mk_circbuf (S (cb_size b)) (length (cb_data b)) (cb_top b) (cb_tail b) (<[p := c]> (cb_data b)))
  = contents b ++ [c].
Proof.
  intros [_ Htop _ Htail] Hlt. cbn in *. unfold contents. cbn [cb_size cb_top cb_data]. apply list_eq. intros i.
  set (n := length (cb_data b)) in *.
  assert (Hring : forall (d : list Z) j, length d = n -> (j < n)%nat ->
    (drop (cb_top b) d ++ take (cb_top b) d) !! j = d !! ((cb_top b + j) mod n)%nat).
  { intros d j Hd Hj. rewrite <- Hd. apply ring_lookup; lia. }
  assert (Hlen : length (take (cb_size b) (drop (cb_top b) (cb_data b) ++ take (cb_top b) (cb_data b)))
    = cb_size b) by (rewrite length_take, length_app, length_drop, length_take; fold n; lia).
  destruct (lt_eq_lt_dec i (cb_size b)) as [[Hi| ->]|Hi].
  - rewrite lookup_app_l, !lookup_take_lt by lia.
    rewrite !Hring by (done || apply length_insert || lia). apply list_lookup_insert_ne.
    rewrite Htail, !mod_once by lia. repeat case_decide; lia.
  - rewrite lookup_app_r, Hlen, Nat.sub_diag, lookup_take_lt by lia.
    rewrite Hring, <- Htail by (apply length_insert || lia). apply list_lookup_insert_eq.
    fold n. rewrite Htail. apply Nat.mod_upper_bound. lia.
  - rewrite lookup_take_ge by lia. symmetry. apply lookup_ge_None. rewrite length_app, Hlen. cbn. lia.
Qed.
Lemma contents_turn b c : (cb_top b < length (cb_data b))%nat -> cb_size b = length (cb_data b) ->
  contents (mk_circbuf (cb_size b) (length (cb_data b)) (S (cb_top b) mod length (cb_data b)) (cb_tail b)
              (<[cb_top b := c]> (cb_data b)))
  = drop 1 (contents b ++ [c]).
Proof.
  intros Htop Hs. unfold contents. cbn [cb_size cb_top cb_data]. rewrite Hs.
  assert (Hall : forall l : list Z, length l = length (cb_data b) -> take (length (cb_data b)) l = l)
    by (intros l <-; apply firstn_all).
  rewrite !Hall by (rewrite length_app, length_drop, length_take, ?length_insert; lia).
  set (d := cb_data b) in *. set (t := cb_top b) in *.
  destruct (lookup_lt_is_Some_2 d t Htop) as [x Hx].
  assert (Hd : drop (S t) (<[t:=c]> d) ++ take (S t) (<[t:=c]> d) = drop 1 ((drop t d ++ take t d) ++ [c])).
  { rewrite (take_S_r _ _ c) by (apply list_lookup_insert_eq; lia).
    rewrite take_insert_ge, drop_insert_lt by lia. rewrite (drop_S d x t Hx). cbn. by rewrite app_assoc. }
  rewrite <- Hd. destruct (decide (S t = length d)) as [Ht|Ht]; [|by rewrite Nat.mod_small by lia].
  rewrite Ht, Nat.Div0.mod_same, drop_0, take_0, app_nil_r.
  by rewrite drop_ge, take_ge by (rewrite length_insert; lia).
Qed.

Lemma buf_push_step b p c src :
  circbuf_wf (with_tail b p) ->
  exists b' p', buf_push_loop b p (c :: src) = buf_push_loop b' p' src
    /\ circbuf_wf (with_tail b' p')
    /\ length (cb_data b') = length (cb_data b)
    /\ contents b' = queue_push (length (cb_data b)) (contents b) [c].
Proof.
  intros Hwf. pose proof Hwf as [Htot Htop Hsize Htail]. cbn in *.
  set (n := length (cb_data b)) in *.
  assert (Hp : (p < n)%nat) by (rewrite Htail; apply Nat.mod_upper_bound; lia).
  assert (Hwrap : forall a, (a < n)%nat ->
            (if (S a =? n)%nat then 0%nat else S a) = (S a mod n)%nat).
  { intros a Ha. rewrite mod_once by lia. case_decide; case_if; lia. }
  assert (Hcl : length (contents b) = cb_size b) by exact (contents_length (with_tail b p) Hwf).
  unfold queue_push. rewrite length_app, Hcl. cbn [buf_push_loop length]. unfold cb_end; fold n.
  destruct (Nat.ltb_spec p n); [|lia]. rewrite Htot, !Hwrap by lia.
  destruct (Nat.ltb_spec (cb_size b) n); eexists _, _; (split; [done|]);
    cbn [cb_data]; rewrite length_insert; (split; [split|split; [done|]]);
    cbn; rewrite ?length_insert; fold n; try done; try lia.
  - rewrite Htail, <- Nat.add_1_r, Nat.Div0.add_mod_idemp_l. f_equal; lia.
  - replace (cb_size b + 1 - n)%nat with 0%nat by lia. by apply (contents_grow b p c).
  - rewrite Htail, Nat.Div0.add_mod_idemp_l, <- Nat.add_1_r, Nat.Div0.add_mod_idemp_l.
    f_equal; lia.
  - assert (cb_size b = n) as Hs by lia. replace (cb_size b + 1 - n)%nat with 1%nat by lia.
    assert (p = cb_top b) as -> by (rewrite Htail, Hs, mod_once by lia; case_decide; lia).
    by apply (contents_turn b c).
Qed.

Lemma queue_push_app cap q s1 s2 :
  (length q <= cap)%nat ->
  queue_push cap (queue_push cap q s1) s2 = queue_push cap q (s1 ++ s2).
Proof.
  intros Hq. unfold queue_push. cbn zeta.
  rewrite !length_app, length_drop, length_app, app_assoc.
  rewrite <- (drop_app_le (q ++ s1) s2) by (rewrite length_app; lia).
  rewrite drop_drop. f_equal. lia.
Qed.

Lemma buf_push_loop_spec src : forall b p,
  circbuf_wf (with_tail b p) ->
  exists b' p', buf_push_loop b p src = Some (b', p')
    /\ circbuf_wf (with_tail b' p')
    /\ contents b' = queue_push (length (cb_data b)) (contents b) src.
Proof.
  induction src as [|c src IH]; intros b p Hwf.
  - exists b, p. split_and!; [done|done|].
    unfold queue_push. rewrite app_nil_r.
    pose proof (contents_length _ Hwf) as Hl. cbn in Hl.
    change (contents (with_tail b p)) with (contents b) in Hl. rewrite Hl.
    destruct Hwf; cbn in *.
    by replace (cb_size b - length (cb_data b))%nat with 0%nat by lia.
  - destruct (buf_push_step b p c src Hwf) as (b1 & p1 & -> & Hwf1 & Hlen & Hc).
    destruct (IH b1 p1 Hwf1) as (b' & p' & -> & ? & Hc'). exists b', p'. split_and!; try done.
    rewrite Hc', Hc, Hlen. apply queue_push_app.
    change (contents b) with (contents (with_tail b p)).
    rewrite contents_length by done. apply Hwf.
Qed.

Lemma buf_pop_loop_spec b n : forall p dest,
  (p < length (cb_data b))%nat -> (n <= length (cb_data b))%nat ->
  buf_pop_loop b p n dest =
    Some (dest ++ take n (drop p (cb_data b) ++ take p (cb_data b)),
          ((p + n) mod length (cb_data b))%nat).
Proof.
  induction n as [|n IH]; intros p dest Hp Hn; cbn [buf_pop_loop].
  - by rewrite take_0, app_nil_r, Nat.add_0_r, Nat.mod_small.
  - destruct (lookup_lt_is_Some_2 (cb_data b) p Hp) as [c Hc]. rewrite Hc; cbn.
    assert (Hdrop : drop p (cb_data b) = c :: drop (S p) (cb_data b))
      by (by apply drop_S).
    unfold cb_end. destruct (Nat.eqb_spec (S p) (length (cb_data b))) as [He|Hne].
    + rewrite IH by lia. rewrite Hdrop, He, drop_all. cbn.
      rewrite <- app_assoc. cbn. f_equal. f_equal.
      * f_equal. f_equal. rewrite app_nil_r, take_take, Nat.min_l by lia. done.
      * replace (p + S n)%nat with (n + 1 * length (cb_data b))%nat by lia.
        by rewrite Nat.Div0.mod_add.
    + rewrite IH by lia. rewrite Hdrop. cbn. rewrite <- app_assoc. cbn.
      f_equal. f_equal; [|f_equal; lia].
      f_equal. f_equal. rewrite (take_S_r (cb_data b) p c) by done.
      rewrite app_assoc. rewrite (take_app_le _ [c]); [done|].
      rewrite length_app, length_drop, length_take. lia.
Qed.

Lemma buf_push_loop_total src : forall b q b' p,
  buf_push_loop b q src = Some (b', p) -> cb_totalsize b' = cb_totalsize b.
Proof.
  induction src as [|c src IH]; cbn; intros b q b' p H; [by simplify_eq|].
  case_match; [|done]. apply IH in H. rewrite H. by case_match.
Qed.

Lemma buf_push_spec b src :
  circbuf_wf b ->
  exists b', buf_push b src = Some (length src, b') /\ circbuf_wf b'
    /\ cb_totalsize b' = cb_totalsize b
    /\ contents b' = queue_push (cb_totalsize b) (contents b) src.
Proof.
  intros Hwf.
  destruct (buf_push_loop_spec src b (cb_tail b)) as (b' & p & Heq & Hwf' & Hc).
  { by destruct b. }
  exists (with_tail b' p). unfold buf_push. rewrite Heq. split_and!; [done|done| |].
  - by apply (buf_push_loop_total src b (cb_tail b) b' p).
  - rewrite (wf_total _ Hwf). exact Hc.
Qed.

Lemma buf_pop_spec b len :
  circbuf_wf b ->
  exists b', buf_pop b len = Some (take len (contents b), Nat.min len (cb_size b), b')
    /\ circbuf_wf b' /\ cb_totalsize b' = cb_totalsize b
    /\ contents b' = drop len (contents b).
Proof.
  intros Hwf. pose proof Hwf as [Htot Htop Hsize Htail].
  assert (Hlen : (if (cb_size b <? len)%nat then cb_size b else len)
                 = Nat.min len (cb_size b)) by (case_if; lia).
  unfold buf_pop. rewrite Hlen. set (k := Nat.min len (cb_size b)).
  rewrite buf_pop_loop_spec by lia. cbn.
  set (b' := {| cb_size := _ |}).
  assert (Hwf' : circbuf_wf b').
  { split; cbn; try done; try lia.
    rewrite Nat.Div0.add_mod_idemp_l, Htail. f_equal; lia. }
  exists b'. split_and!; [|done|done|].
  - f_equal. f_equal. f_equal. unfold contents. by rewrite take_take.
  - apply list_eq. intros i. rewrite lookup_drop, !contents_lookup by done. cbn.
    destruct (decide (len + i < cb_size b)%nat).
    + rewrite decide_True by lia. f_equal.
      rewrite Nat.Div0.add_mod_idemp_l. f_equal; lia.
    + by rewrite decide_False by lia.
Qed.

Lemma buf_init_wf malloc size :
  (0 < size)%nat -> length (malloc size) = size ->
  circbuf_wf (buf_init malloc size) /\ contents (buf_init malloc size) = [].
Proof.
  intros Hs Hm. split; [|done]. split; cbn; rewrite ?Hm; try lia.
  by rewrite Nat.mod_small.
Qed.

(** ** Traces: a sequence of calls and what each one hands back *)
Inductive cb_op := CbPush (src : list Z) | CbPop (len : nat).

Definition cb_step (b : circbuf) (o : cb_op) : option (list Z * nat * circbuf) :=
  match o with
  | CbPush src => '(n, b') ← buf_push b src; Some ([], n, b')
  | CbPop len => buf_pop b len
  end.

Definition queue_step (cap : nat) (q : list Z) (o : cb_op) : list Z * nat * list Z :=
  match o with
  | CbPush src => ([], length src, queue_push cap q src)
  | CbPop len => (take len q, Nat.min len (length q), drop len q)
  end.

Fixpoint cb_run (b : circbuf) (ops : list cb_op) : option (list (list Z * nat)) :=
  match ops with
  | [] => Some []
  | o :: ops =>
      '(out, n, b') ← cb_step b o;
      rest ← cb_run b' ops; Some ((out, n) :: rest)
  end.

Fixpoint queue_run (cap : nat) (q : list Z) (ops : list cb_op) : list (list Z * nat) :=
  match ops with
  | [] => []
  | o :: ops => let '(out, n, q') := queue_step cap q o in (out, n) :: queue_run cap q' ops
  end.

Lemma cb_run_refines ops : forall b,
  circbuf_wf b -> cb_run b ops = Some (queue_run (cb_totalsize b) (contents b) ops).
Proof.
  induction ops as [|[src|len] ops IH]; intros b Hwf; [done| |]; cbn [cb_run cb_step].
  - destruct (buf_push_spec b src Hwf) as (b' & -> & Hwf' & Ht & Hc). cbn.
    by rewrite (IH b' Hwf'), Hc, Ht.
  - destruct (buf_pop_spec b len Hwf) as (b' & -> & Hwf' & Ht & Hc). cbn.
    by rewrite (IH b' Hwf'), Hc, Ht, contents_length.
Qed.

(** C40: from a freshly initialised buffer of positive size, every sequence of [buf_push]
    and [buf_pop] calls stays inside the allocation and hands back, call by call, exactly
    the bytes and counts of a bounded first-in first-out queue that drops its oldest bytes
    when it is full. *)
Theorem circbuf_refines_bounded_queue (malloc : nat -> list Z) (size : nat)
    (ops : list cb_op)
    (Hsize : (0 < size)%nat) (Hmalloc : length (malloc size) = size) :
  cb_run (buf_init malloc size) ops = Some (queue_run size [] ops).
Proof.
  destruct (buf_init_wf malloc size Hsize Hmalloc) as [Hwf Hc].
  rewrite cb_run_refines by done. by rewrite Hc.
Qed.

Lemma circbuf_refines_bounded_queue_witness :
  cb_run (buf_init (fun n => replicate n 7) 3) [CbPush [1; 2; 3; 4]; CbPop 2; CbPush [5]; CbPop 9]
  = Some [([], 4%nat); ([2; 3], 2%nat); ([], 1%nat); ([4; 5], 2%nat)].
Proof.
  rewrite (circbuf_refines_bounded_queue (fun n => replicate n 7) 3); [reflexivity|lia|done].
Defined.
