(* ===== verification/Lmb.v ===== *)
(** * lib/lmb.c: logical memory blocks

    [struct lmb_region] is a counter and an array of [MAX_LMB_REGIONS + 1] slots, of which
    the first [cnt] are live.  Reading or writing outside of the array is [None], so that the
    array bounds are part of every result.  [phys_addr_t] and [phys_size_t] are 32-bit. *)
From S2P Require Import Prelude.

Definition MAX_LMB_REGIONS : Z := 8.
Definition LMB_ALLOC_ANYWHERE : Z := 0.

Record lmb_property := mk_prop { p_base : Z; p_size : Z }.
#[export] Instance lmb_property_eq_dec : EqDecision lmb_property.
Proof. solve_decision. Defined.

Record lmb_region := mk_region { cnt : Z; rgn_size : Z; region : list lmb_property }.
Record lmb := mk_lmb { memory : lmb_region; reserved : lmb_region }.

(** [rgn->region[i]] as a value and as the target of an assignment. *)
Definition rgn_get (rgn : lmb_region) (i : Z) : option lmb_property :=
  if 0 <=? i then region rgn !! Z.to_nat i else None.
Definition rgn_set (rgn : lmb_region) (i : Z) (p : lmb_property) : option lmb_region :=
  if (0 <=? i) && (i <? Z.of_nat (length (region rgn)))
  then Some (mk_region (cnt rgn) (rgn_size rgn) (<[Z.to_nat i := p]> (region rgn)))
  else None.
Definition set_cnt (rgn : lmb_region) (c : Z) : lmb_region :=
  mk_region c (rgn_size rgn) (region rgn).

Definition lmb_addrs_overlap (base1 size1 base2 size2 : Z) : bool :=
  (base1 <? u32 (base2 + size2)) && (base2 <? u32 (base1 + size1)).

Definition lmb_addrs_adjacent (base1 size1 base2 size2 : Z) : Z :=
  if base2 =? u32 (base1 + size1) then 1
  else if base1 =? u32 (base2 + size2) then -1
  else 0.

Definition lmb_regions_adjacent (rgn : lmb_region) (r1 r2 : Z) : option Z :=
  p1 ← rgn_get rgn r1;
  p2 ← rgn_get rgn r2;
  Some (lmb_addrs_adjacent (p_base p1) (p_size p1) (p_base p2) (p_size p2)).

(** [for (i = r; i < rgn->cnt - 1; i++)]: the bound is unsigned, so [cnt = 0] makes it
    [0xffffffff] and the loop leaves the array. *)
Fixpoint lmb_remove_loop (fuel : nat) (rgn : lmb_region) (i : Z) : option lmb_region :=
  match fuel with
  | O => None
  | S fuel =>
      if i <? u32 (cnt rgn - 1) then
        p ← rgn_get rgn (i + 1);
        rgn ← rgn_set rgn i p;
        lmb_remove_loop fuel rgn (i + 1)
      else Some rgn
  end.

Definition lmb_remove_region (rgn : lmb_region) (r : Z) : option lmb_region :=
  rgn ← lmb_remove_loop (S (S (length (region rgn)))) rgn r;
  Some (set_cnt rgn (u32 (cnt rgn - 1))).

Definition lmb_coalesce_regions (rgn : lmb_region) (r1 r2 : Z) : option lmb_region :=
  p1 ← rgn_get rgn r1;
  p2 ← rgn_get rgn r2;
  rgn ← rgn_set rgn r1 (mk_prop (p_base p1) (u32 (p_size p1 + p_size p2)));
  lmb_remove_region rgn r2.

Definition lmb_init_region (slots : list lmb_property) : lmb_region :=
  mk_region 1 0 (<[0%nat := mk_prop 0 0]> slots).
Definition lmb_init (l : lmb) : lmb :=
  mk_lmb (lmb_init_region (region (memory l))) (lmb_init_region (region (reserved l))).

(** The first loop of [lmb_add_region]: look for the region itself or for a neighbour. *)
Inductive add_scan := AlreadyThere | Scanned (rgn : lmb_region) (i : Z) (coalesced : Z).

Fixpoint lmb_add_scan (fuel : nat) (rgn : lmb_region) (base size i : Z) : option add_scan :=
  match fuel with
  | O => None
  | S fuel =>
      if i <? cnt rgn then
        p ← rgn_get rgn i;
        if (p_base p =? base) && (p_size p =? size) then Some AlreadyThere
        else
          let adjacent := lmb_addrs_adjacent base size (p_base p) (p_size p) in
          if 0 <? adjacent then
            rgn ← rgn_set rgn i (mk_prop (u32 (p_base p - size)) (u32 (p_size p + size)));
            Some (Scanned rgn i 1)
          else if adjacent <? 0 then
            rgn ← rgn_set rgn i (mk_prop (p_base p) (u32 (p_size p + size)));
            Some (Scanned rgn i 1)
          else lmb_add_scan fuel rgn base size (i + 1)
      else Some (Scanned rgn i 0)
  end.

(** The insertion loop [for (i = rgn->cnt - 1; i >= 0; i--)]. *)
Fixpoint lmb_insert_loop (fuel : nat) (rgn : lmb_region) (base size i : Z)
  : option lmb_region :=
  match fuel with
  | O => None
  | S fuel =>
      if 0 <=? i then
        p ← rgn_get rgn i;
        if base <? p_base p then
          rgn ← rgn_set rgn (i + 1) p;
          lmb_insert_loop fuel rgn base size (i - 1)
        else rgn_set rgn (i + 1) (mk_prop base size)
      else Some rgn
  end.

(** The join with the following neighbour, after the first loop. *)
Definition lmb_add_merge (rgn : lmb_region) (i coalesced : Z) : option (lmb_region * Z) :=
  if i <? u32 (cnt rgn - 1) then
    adj ← lmb_regions_adjacent rgn i (i + 1);
    if negb (adj =? 0) then
      rgn ← lmb_coalesce_regions rgn i (i + 1); Some (rgn, coalesced + 1)
    else Some (rgn, coalesced)
  else Some (rgn, coalesced).

Definition lmb_add_region (rgn : lmb_region) (base size : Z) : option (Z * lmb_region) :=
  p0 ← rgn_get rgn 0;
  if (cnt rgn =? 1) && (p_size p0 =? 0) then
    rgn ← rgn_set rgn 0 (mk_prop base size); Some (0, rgn)
  else
    scan ← lmb_add_scan (S (S (length (region rgn)))) rgn base size 0;
    match scan with
    | AlreadyThere => Some (0, rgn)
    | Scanned rgn i coalesced =>
        '(rgn, coalesced) ← lmb_add_merge rgn i coalesced;
        if negb (coalesced =? 0) then Some (coalesced, rgn)
        else if MAX_LMB_REGIONS <=? cnt rgn then Some (-1, rgn)
        else
          rgn ← lmb_insert_loop (S (S (length (region rgn)))) rgn base size
                  (s32 (cnt rgn - 1));
          p0 ← rgn_get rgn 0;
          rgn ← (if base <? p_base p0 then rgn_set rgn 0 (mk_prop base size) else Some rgn);
          Some (0, set_cnt rgn (u32 (cnt rgn + 1)))
    end.

Definition lmb_add (l : lmb) (base size : Z) : option (Z * lmb) :=
  '(rc, rgn) ← lmb_add_region (memory l) base size; Some (rc, mk_lmb rgn (reserved l)).

Definition lmb_reserve (l : lmb) (base size : Z) : option (Z * lmb) :=
  '(rc, rgn) ← lmb_add_region (reserved l) base size; Some (rc, mk_lmb (memory l) rgn).

(** The search loop of [lmb_free]: the index of the region that holds [base, end_). *)
Fixpoint lmb_free_find (fuel : nat) (rgn : lmb_region) (base end_ i : Z) : option Z :=
  match fuel with
  | O => None
  | S fuel =>
      if i <? cnt rgn then
        p ← rgn_get rgn i;
        let rgnbegin := p_base p in
        let rgnend := u32 (rgnbegin + p_size p) in
        if (rgnbegin <=? base) && (end_ <=? rgnend) then Some i
        else lmb_free_find fuel rgn base end_ (i + 1)
      else Some i
  end.

Definition lmb_free_region (rgn : lmb_region) (base size : Z) : option (Z * lmb_region) :=
  let end_ := u32 (base + size) in
  i ← lmb_free_find (S (S (length (region rgn)))) rgn base end_ 0;
  if i =? cnt rgn then Some (-1, rgn)
  else
    p ← rgn_get rgn i;
    let rgnbegin := p_base p in
    let rgnend := u32 (rgnbegin + p_size p) in
    if (rgnbegin =? base) && (rgnend =? end_) then
      rgn ← lmb_remove_region rgn i; Some (0, rgn)
    else if rgnbegin =? base then
      rgn ← rgn_set rgn i (mk_prop end_ (u32 (p_size p - size))); Some (0, rgn)
    else if rgnend =? end_ then
      rgn ← rgn_set rgn i (mk_prop rgnbegin (u32 (p_size p - size))); Some (0, rgn)
    else
      rgn ← rgn_set rgn i (mk_prop rgnbegin (u32 (base - rgnbegin)));
      lmb_add_region rgn end_ (u32 (rgnend - end_)).

Definition lmb_free (l : lmb) (base size : Z) : option (Z * lmb) :=
  '(rc, rgn) ← lmb_free_region (reserved l) base size; Some (rc, mk_lmb (memory l) rgn).

Fixpoint lmb_overlaps_loop (fuel : nat) (rgn : lmb_region) (base size i : Z) : option Z :=
  match fuel with
  | O => None
  | S fuel =>
      if i <? cnt rgn then
        p ← rgn_get rgn i;
        if lmb_addrs_overlap base size (p_base p) (p_size p) then Some i
        else lmb_overlaps_loop fuel rgn base size (i + 1)
      else Some i
  end.

Definition lmb_overlaps_region (rgn : lmb_region) (base size : Z) : option Z :=
  i ← lmb_overlaps_loop (S (S (length (region rgn)))) rgn base size 0;
  Some (if i <? cnt rgn then i else -1).

Definition lmb_align_down (addr size : Z) : Z := addr .& u32 (Z.lnot (size - 1)).
Definition lmb_align_up (addr size : Z) : Z :=
  u32 (addr + (size - 1)) .& u32 (Z.lnot (size - 1)).

(** The inner [while (base && lmbbase <= base)] of [__lmb_alloc_base].  [AllocBreak] leaves
    it without a result, [AllocRet] returns from the function. *)
Inductive alloc_loop := AllocBreak | AllocRet (base : Z) (l : lmb).

Fixpoint lmb_alloc_while (fuel : nat) (l : lmb) (size align lmbbase base : Z)
  : option alloc_loop :=
  match fuel with
  | O => None
  | S fuel =>
      if negb (base =? 0) && (lmbbase <=? base) then
        j ← lmb_overlaps_region (reserved l) base size;
        if j <? 0 then
          '(rc, rgn) ← lmb_add_region (reserved l) base (lmb_align_up size align);
          let l' := mk_lmb (memory l) rgn in
          Some (AllocRet (if rc <? 0 then 0 else base) l')
        else
          p ← rgn_get (reserved l) j;
          let res_base := p_base p in
          if res_base <? size then Some AllocBreak
          else lmb_alloc_while fuel l size align lmbbase
                 (lmb_align_down (u32 (res_base - size)) align)
      else Some AllocBreak
  end.

Fixpoint lmb_alloc_for (n : nat) (l : lmb) (size align max_addr : Z) : option (Z * lmb) :=
  match n with
  | O => Some (0, l)
  | S n =>
      p ← rgn_get (memory l) (Z.of_nat n);
      let lmbbase := p_base p in
      let lmbsize := p_size p in
      if lmbsize <? size then lmb_alloc_for n l size align max_addr
      else
        let start :=
          if max_addr =? LMB_ALLOC_ANYWHERE then
            Some (lmb_align_down (u32 (lmbbase + lmbsize - size)) align)
          else if lmbbase <? max_addr then
            Some (lmb_align_down (u32 (Z.min (u32 (lmbbase + lmbsize)) max_addr - size)) align)
          else None in
        match start with
        | None => lmb_alloc_for n l size align max_addr
        | Some base =>
            r ← lmb_alloc_while (S (S (length (region (reserved l))))) l size align lmbbase base;
            match r with
            | AllocRet base l' => Some (base, l')
            | AllocBreak => lmb_alloc_for n l size align max_addr
            end
        end
  end.

Definition __lmb_alloc_base (l : lmb) (size align max_addr : Z) : option (Z * lmb) :=
  lmb_alloc_for (Z.to_nat (cnt (memory l))) l size align max_addr.

(** [lmb_alloc_base] adds an error message when nothing was found. *)
Definition lmb_alloc_base (l : lmb) (size align max_addr : Z) : option (Z * lmb) :=
  __lmb_alloc_base l size align max_addr.
Definition lmb_alloc (l : lmb) (size align : Z) : option (Z * lmb) :=
  lmb_alloc_base l size align LMB_ALLOC_ANYWHERE.

Fixpoint lmb_is_reserved_loop (fuel : nat) (rgn : lmb_region) (addr i : Z) : option Z :=
  match fuel with
  | O => None
  | S fuel =>
      if i <? cnt rgn then
        p ← rgn_get rgn i;
        let upper := u32 (p_base p + p_size p - 1) in
        if (p_base p <=? addr) && (addr <=? upper) then Some 1
        else lmb_is_reserved_loop fuel rgn addr (i + 1)
      else Some 0
  end.
Definition lmb_is_reserved (l : lmb) (addr : Z) : option Z :=
  lmb_is_reserved_loop (S (S (length (region (reserved l))))) (reserved l) addr 0.

(** ** Well-formed tables and the addresses they cover *)
Definition live (r : lmb_region) : list lmb_property := take (Z.to_nat (cnt r)) (region r).

Definition p_end (p : lmb_property) : Z := p_base p + p_size p.
Definition prop_ok (p : lmb_property) : Prop :=
  0 <= p_base p /\ 0 < p_size p /\ p_end p < 0x100000000.
Definition before (p q : lmb_property) : Prop := p_end p <= p_base q.

Record rgn_wf (r : lmb_region) : Prop := {
  rw_len : length (region r) = 9%nat;
  rw_cnt : 1 <= cnt r <= 8;
  rw_ok : Forall prop_ok (live r);
  rw_sorted : StronglySorted before (live r)
}.

Definition in_prop (a : Z) (p : lmb_property) : Prop := p_base p <= a < p_end p.
Definition covers (r : lmb_region) (a : Z) : Prop := Exists (in_prop a) (live r).
Definition apart (p q : lmb_property) : Prop := before p q \/ before q p.

(** ** Array accesses seen on the live list *)
Lemma rgn_get_nat r (i : nat) : rgn_get r (Z.of_nat i) = region r !! i.
Proof. unfold rgn_get. case_if; [|lia]. by rewrite Nat2Z.id. Qed.

Lemma rgn_set_nat r (i : nat) p :
  (i < length (region r))%nat ->
  rgn_set r (Z.of_nat i) p = Some (mk_region (cnt r) (rgn_size r) (<[i := p]> (region r))).
Proof. intros. unfold rgn_set. case_if; [|lia]. by rewrite Nat2Z.id. Qed.

Lemma live_lookup r i :
  live r !! i = if decide (Z.of_nat i < cnt r) then region r !! i else None.
Proof.
  unfold live. case_decide.
  - by rewrite lookup_take_lt by lia.
  - apply lookup_take_ge; lia.
Qed.

Lemma live_length r : rgn_wf r -> length (live r) = Z.to_nat (cnt r).
Proof. intros [Hl Hc _ _]. unfold live. rewrite length_take. lia. Qed.

Lemma live_insert r i p :
  live (mk_region (cnt r) (rgn_size r) (<[i := p]> (region r))) = <[i := p]> (live r).
Proof.
  unfold live; cbn. rewrite take_insert. case_decide; [done|].
  symmetry. apply list_insert_ge. rewrite length_take. lia.
Qed.

(** The shape every step below works on: slot [i] of the live list. *)
Lemma live_split r i p :
  live r !! i = Some p ->
  exists l1 l2, live r = l1 ++ p :: l2 /\ length l1 = i.
Proof. intros H. apply list_elem_of_split_length in H as (l1 & l2 & ? & ?). eauto. Qed.

Lemma covers_split r a l1 l2 p :
  live r = l1 ++ p :: l2 ->
  covers r a <-> Exists (in_prop a) l1 \/ in_prop a p \/ Exists (in_prop a) l2.
Proof. intros H. unfold covers. by rewrite H, Exists_app, Exists_cons. Qed.

Lemma sorted_split l1 p l2 :
  StronglySorted before (l1 ++ p :: l2) <->
  StronglySorted before l1 /\ StronglySorted before l2
  /\ Forall (fun x => before x p) l1 /\ Forall (before p) l2
  /\ (forall x y, x ∈ l1 -> y ∈ l2 -> before x y).
Proof.
  rewrite StronglySorted_app. split.
  - intros (H1 & H2 & H3). apply StronglySorted_inv in H3 as [H3 H4].
    split_and!; try done; [apply Forall_forall|]; intros; apply H1; set_solver.
  - intros (H1 & H2 & H3 & H4 & H5). rewrite Forall_forall in H3.
    split_and!; [|done|by constructor]. intros x y Hx [->|Hy]%elem_of_cons; auto.
Qed.

(** *** Removal *)
Lemma lmb_remove_loop_spec fuel : forall r (i : nat),
  length (region r) = 9%nat -> 1 <= cnt r <= 9 -> Z.of_nat i < cnt r ->
  (Z.to_nat (cnt r) - i <= fuel)%nat ->
  exists r', lmb_remove_loop fuel r (Z.of_nat i) = Some r' /\ cnt r' = cnt r
    /\ length (region r') = 9%nat
    /\ forall k, region r' !! k =
         if decide ((i <= k)%nat /\ Z.of_nat k < cnt r - 1) then region r !! S k
         else region r !! k.
Proof.
  induction fuel as [|fuel IH]; intros r i Hlen Hcnt Hi Hfuel; [lia|].
  cbn [lmb_remove_loop]. rewrite u32_small by lia. case_if.
  - replace (Z.of_nat i + 1) with (Z.of_nat (S i)) by lia. rewrite rgn_get_nat.
    destruct (lookup_lt_is_Some_2 (region r) (S i)) as [p Hp]; [lia|].
    rewrite Hp; cbn [mbind option_bind]. rewrite rgn_set_nat by lia.
    cbn [mbind option_bind].
    destruct (IH (mk_region (cnt r) (rgn_size r) (<[i:=p]> (region r))) (S i))
      as (r' & -> & Hc & Hl & Hk); cbn [cnt region]; rewrite ?length_insert; try lia.
    cbn [cnt region] in *. exists r'. split_and!; try done. intros k. rewrite Hk.
    destruct (decide (k = i)) as [->|].
    + rewrite decide_False, decide_True by lia.
      by rewrite list_lookup_insert_eq by lia.
    + repeat case_decide; try lia; by rewrite list_lookup_insert_ne by lia.
  - exists r. split_and!; try done. intros k. by rewrite decide_False by lia.
Qed.

Lemma lmb_remove_region_live r (i : nat) :
  length (region r) = 9%nat -> 1 <= cnt r <= 9 -> Z.of_nat i < cnt r ->
  exists r', lmb_remove_region r (Z.of_nat i) = Some r' /\ cnt r' = cnt r - 1
    /\ length (region r') = 9%nat /\ live r' = delete i (live r).
Proof.
  intros Hlen Hcnt Hi. unfold lmb_remove_region.
  destruct (lmb_remove_loop_spec (S (S (length (region r)))) r i)
    as (r' & -> & Hc & Hl & Hk); try lia.
  exists (set_cnt r' (u32 (cnt r' - 1))). cbn [mbind option_bind set_cnt cnt region].
  rewrite Hc. rewrite (u32_small (cnt r - 1)) by lia. split_and!; try done.
  apply list_eq. intros k. rewrite live_lookup. cbn.
  destruct (decide (k < i)%nat).
  - rewrite list_lookup_delete_lt, live_lookup by lia. rewrite Hk.
    repeat case_decide; try done; lia.
  - rewrite list_lookup_delete_ge, live_lookup by lia. rewrite Hk.
    repeat case_decide; try done; lia.
Qed.

(** *** The steps of [lmb_add_region] *)
Lemma lmb_add_scan_spec fuel : forall r base size (i : nat),
  length (region r) = 9%nat -> 1 <= cnt r <= 8 -> Z.of_nat i <= cnt r ->
  (Z.to_nat (cnt r) - i < fuel)%nat ->
  (forall p, p ∈ live r -> p <> mk_prop base size) ->
  exists k : nat, (i <= k)%nat /\
    ((Z.of_nat k = cnt r
      /\ lmb_add_scan fuel r base size (Z.of_nat i) = Some (Scanned r (Z.of_nat k) 0))
     \/ exists p p', live r !! k = Some p
       /\ (lmb_addrs_adjacent base size (p_base p) (p_size p) = 1
             /\ p' = mk_prop (u32 (p_base p - size)) (u32 (p_size p + size))
           \/ lmb_addrs_adjacent base size (p_base p) (p_size p) = -1
             /\ p' = mk_prop (p_base p) (u32 (p_size p + size)))
       /\ lmb_add_scan fuel r base size (Z.of_nat i)
          = Some (Scanned (mk_region (cnt r) (rgn_size r) (<[k := p']> (region r)))
                    (Z.of_nat k) 1)).
Proof.
  induction fuel as [|fuel IH]; intros r base size i Hlen Hcnt Hi Hfuel Hne; [lia|].
  cbn [lmb_add_scan]. case_if; cycle 1.
  { exists i. split; [done|]. left. split; [lia|done]. }
  rewrite rgn_get_nat. destruct (lookup_lt_is_Some_2 (region r) i) as [p Hp]; [lia|].
  rewrite Hp; cbn [mbind option_bind].
  assert (Hlive : live r !! i = Some p) by (rewrite live_lookup, decide_True by lia; done).
  destruct ((p_base p =? base) && (p_size p =? size)) eqn:Heq.
  { exfalso. apply (Hne p); [by eapply list_elem_of_lookup_2|].
    destruct p; cbn in *. f_equal; lia. }
  assert (Hadj : let a := lmb_addrs_adjacent base size (p_base p) (p_size p) in
            a = 1 \/ a = -1 \/ a = 0) by (unfold lmb_addrs_adjacent; repeat case_if; auto).
  destruct Hadj as [Ha|[Ha|Ha]]; rewrite Ha; cbn [Z.ltb Z.compare].
  - exists i. split; [done|]. right. exists p. eexists. split_and!; [done| |].
    + left. eauto.
    + by rewrite rgn_set_nat by lia.
  - exists i. split; [done|]. right. exists p. eexists. split_and!; [done| |].
    + right. eauto.
    + by rewrite rgn_set_nat by lia.
  - replace (Z.of_nat i + 1) with (Z.of_nat (S i)) by lia.
    destruct (IH r base size (S i)) as (k & Hk & H); try done; try lia.
    exists k. split; [lia|done].
Qed.

Lemma adjacent_1 b1 s1 b2 s2 :
  0 <= b1 + s1 < 0x100000000 -> lmb_addrs_adjacent b1 s1 b2 s2 = 1 -> b2 = b1 + s1.
Proof. unfold lmb_addrs_adjacent. intros H. unwrap. repeat case_if; lia. Qed.
Lemma adjacent_m1 b1 s1 b2 s2 :
  0 <= b2 + s2 < 0x100000000 -> lmb_addrs_adjacent b1 s1 b2 s2 = -1 -> b1 = b2 + s2.
Proof. unfold lmb_addrs_adjacent. intros H. unwrap. repeat case_if; lia. Qed.

(** A table whose live list is [l1 ++ p :: l2], sorted and in bounds, with slot [length l1]
    possibly touching the next one. *)
Lemma lmb_add_merge_spec r l1 p l2 c :
  rgn_wf r -> live r = l1 ++ p :: l2 ->
  exists r' c', lmb_add_merge r (Z.of_nat (length l1)) c = Some (r', c')
    /\ (c' = c \/ c' = c + 1) /\ rgn_wf r' /\ (forall a, covers r' a <-> covers r a).
Proof.
  intros Hwf Hl. pose proof Hwf as [Hlen Hcnt Hok Hs].
  pose proof (live_length _ Hwf) as Hll. rewrite Hl, length_app in Hll. cbn in Hll.
  unfold lmb_add_merge. rewrite u32_small by lia. case_if; [|by eauto 10].
  destruct l2 as [|q l3]; cbn in Hll; [lia|].
  replace (Z.of_nat (length l1) + 1) with (Z.of_nat (S (length l1))) by lia.
  assert (Hp : region r !! length l1 = Some p).
  { assert (H : live r !! length l1 = Some p) by (rewrite Hl; by apply list_lookup_middle).
    rewrite live_lookup in H. by case_decide. }
  assert (Hq : region r !! S (length l1) = Some q).
  { assert (H : live r !! S (length l1) = Some q).
    { rewrite Hl, lookup_app_r by lia. by replace (S (length l1) - length l1)%nat with 1%nat by lia. }
    rewrite live_lookup in H. by case_decide. }
  unfold lmb_regions_adjacent. rewrite !rgn_get_nat, Hp, Hq; cbn [mbind option_bind].
  destruct (negb _) eqn:Hadj; [|by eauto 10].
  rewrite Hl in Hok, Hs. apply sorted_split in Hs as (Hs1 & Hs2 & Hbp & Hpb & Hb12).
  apply Forall_app in Hok as [Hok1 Hok2]. inversion_clear Hok2 as [|? ? Hokp Hok3].
  inversion_clear Hok3 as [|? ? Hokq Hok4].
  apply StronglySorted_inv in Hs2 as [Hs3 Hq3].
  inversion_clear Hpb as [|? ? Hpq Hp3].
  unfold prop_ok, before, p_end in *.
  assert (Hjoin : p_base q = p_base p + p_size p).
  { apply (adjacent_1 _ _ _ (p_size q)); [lia|]. unfold lmb_addrs_adjacent in *. revert Hadj. unwrap.
    repeat case_if; try done; lia. }
  unfold lmb_coalesce_regions. rewrite !rgn_get_nat, Hp, Hq; cbn [mbind option_bind].
  rewrite rgn_set_nat by lia. cbn [mbind option_bind]. rewrite u32_small by lia.
  set (p' := mk_prop (p_base p) (p_size p + p_size q)).
  set (r1 := mk_region _ _ _).
  destruct (lmb_remove_region_live r1 (S (length l1))) as (r' & -> & Hc & Hl' & Hlv);
    unfold r1; cbn [cnt region]; rewrite ?length_insert; try lia.
  cbn [mbind option_bind]. unfold r1 in Hlv. rewrite live_insert, Hl in Hlv.
  rewrite list_insert_middle in Hlv.
  assert (Hlive' : live r' = l1 ++ p' :: l3).
  { rewrite Hlv. rewrite (cons_middle p' l1 (q :: l3)), app_assoc.
    replace (S (length l1)) with (length (l1 ++ [p'])) by (rewrite length_app; cbn; lia).
    rewrite delete_middle. by rewrite <- app_assoc. }
  exists r', (c + 1). split_and!; [done|by right| |].
  - split; [done|unfold r1 in Hc; cbn in Hc; lia| |]; rewrite Hlive'.
    + apply Forall_app; split; [done|]. constructor; [|done].
      unfold prop_ok, p_end; subst p'; cbn; lia.
    + apply sorted_split. split_and!; try done.
      * eapply Forall_impl; [exact Hq3|]. unfold before, p_end; subst p'; cbn; lia.
      * intros x y Hx Hy. apply Hb12; [done|by apply list_elem_of_further].
  - intros a. rewrite (covers_split r' a _ _ _ Hlive'), (covers_split r a _ _ _ Hl).
    rewrite Exists_cons. unfold in_prop, p_end; subst p'; cbn. intuition lia.
Qed.

Lemma lmb_insert_loop_spec fuel : forall r base size (n : nat),
  length (region r) = 9%nat -> (n <= 8)%nat -> (n < fuel)%nat ->
  exists r' k, lmb_insert_loop fuel r base size (Z.of_nat n - 1) = Some r'
    /\ cnt r' = cnt r /\ rgn_size r' = rgn_size r /\ length (region r') = 9%nat
    /\ (k <= n)%nat
    /\ (forall m p, (k <= m < n)%nat -> region r !! m = Some p -> base < p_base p)
    /\ (forall m p, k = S m -> region r !! m = Some p -> p_base p <= base)
    /\ forall m, region r' !! m =
         if decide (k < m <= n)%nat then region r !! pred m
         else if decide (m = k /\ (0 < k)%nat) then Some (mk_prop base size)
         else region r !! m.
Proof.
  induction fuel as [|fuel IH]; intros r base size n Hlen Hn Hfuel; [lia|].
  cbn [lmb_insert_loop]. destruct n as [|n].
  { case_if; [lia|]. exists r, 0%nat. split_and!; try done; try lia.
    intros m. by rewrite !decide_False by lia. }
  case_if; [|lia]. replace (Z.of_nat (S n) - 1) with (Z.of_nat n) by lia.
  rewrite rgn_get_nat. destruct (lookup_lt_is_Some_2 (region r) n) as [p Hp]; [lia|].
  rewrite Hp; cbn [mbind option_bind]. replace (Z.of_nat n + 1) with (Z.of_nat (S n)) by lia.
  rewrite !rgn_set_nat by lia. cbn [mbind option_bind]. case_if.
  - set (r1 := mk_region _ _ _).
    assert (Hlk : forall m, (m <= n)%nat -> region r1 !! m = region r !! m).
    { intros m Hm. unfold r1; cbn. by rewrite list_lookup_insert_ne by lia. }
    destruct (IH r1 base size n) as (r' & k & Heq & Hc & Hsz & Hl & Hkn & Hgt & Hle & Hlook);
      unfold r1; cbn [region]; rewrite ?length_insert; try lia.
    exists r', k. split_and!; try done; try lia.
    + intros m q Hm Hq. destruct (decide (m = n)) as [->|]; [by simplify_eq; lia|].
      apply (Hgt m q); [lia|]. by rewrite Hlk by lia.
    + intros m q -> Hq. apply (Hle m q); [done|]. by rewrite Hlk by lia.
    + intros m. rewrite Hlook. unfold r1; cbn [region].
      destruct (decide (m = S n)) as [->|].
      * rewrite decide_False, decide_False, decide_True by lia. cbn.
        rewrite list_lookup_insert_eq by lia. done.
      * repeat case_decide; try done; try lia; by rewrite list_lookup_insert_ne by lia.
  - eexists _, (S n). split; [done|]. cbn [cnt rgn_size region].
    rewrite length_insert. split_and!; try done; try lia.
    + intros m q [= <-] Hq. simplify_eq. lia.
    + intros m. rewrite decide_False by lia. case_decide as Hm.
      * destruct Hm as [-> _]. by rewrite list_lookup_insert_eq by lia.
      * by rewrite list_lookup_insert_ne by lia.
Qed.

(** Putting a region that is apart from all the others at its place in the order. *)
Lemma insert_sorted_place l1 l2 p :
  prop_ok p -> Forall prop_ok (l1 ++ l2) -> StronglySorted before (l1 ++ l2) ->
  Forall (apart p) (l1 ++ l2) ->
  (forall x, last l1 = Some x -> p_base x <= p_base p) ->
  (forall x, x ∈ l2 -> p_base p < p_base x) ->
  StronglySorted before (l1 ++ p :: l2).
Proof.
  intros Hp Hok Hs Hap Hl1 Hl2.
  apply StronglySorted_app in Hs as (H12 & Hs1 & Hs2).
  rewrite Forall_app, !Forall_forall in Hok, Hap.
  unfold apart, before, prop_ok, p_end in *. destruct Hok as [Hok1 Hok2].
  destruct Hap as [Hap1 Hap2].
  apply sorted_split. split_and!; try done.
  - apply Forall_forall. intros x Hx.
    assert (Hxp : p_base x <= p_base p).
    { destruct (last l1) as [y|] eqn:Hy; [|by apply last_None in Hy as ->; set_solver].
      specialize (Hl1 y eq_refl). apply last_Some in Hy as [l1' ->].
      apply elem_of_app in Hx as [Hx|Hx%list_elem_of_singleton]; [|by subst].
      apply StronglySorted_app in Hs1 as (Hb & _).
      specialize (Hb x y Hx ltac:(by left)).
      specialize (Hok1 x ltac:(apply elem_of_app; by left)). unfold before, p_end in *. lia. }
    specialize (Hap1 x Hx). specialize (Hok1 x Hx). unfold before, p_end. lia.
  - apply Forall_forall. intros y Hy. specialize (Hap2 y Hy). specialize (Hl2 y Hy).
    specialize (Hok2 y Hy). unfold before, p_end. lia.
Qed.

(** The table after the loop, with the new region at its place [k], as a list. *)
Lemma insert_live_eq r r2 k new :
  rgn_wf r -> cnt r < 8 -> cnt r2 = cnt r -> (k <= Z.to_nat (cnt r))%nat ->
  (forall m, region r2 !! m =
     if decide (k < m <= Z.to_nat (cnt r))%nat then region r !! pred m
     else if decide (m = k) then Some new else region r !! m) ->
  live (set_cnt r2 (u32 (cnt r2 + 1))) = take k (live r) ++ new :: drop k (live r).
Proof.
  intros Hwf Hc8 Hc2 Hk Hl2. pose proof (rw_cnt r Hwf). pose proof (live_length r Hwf) as Hll.
  apply list_eq. intros m. rewrite live_lookup. cbn. rewrite Hc2, u32_small by lia. rewrite Hl2.
  destruct (lt_eq_lt_dec m k) as [[Hm | ->]|Hm].
  - rewrite lookup_app_l by (rewrite length_take; lia).
    rewrite lookup_take_lt, live_lookup by lia. repeat case_decide; try done; lia.
  - rewrite list_lookup_middle by (rewrite length_take; lia).
    repeat case_decide; try done; lia.
  - rewrite lookup_app_r by (rewrite length_take; lia). rewrite length_take.
    replace (m - k `min` length (live r))%nat with (S (pred m - k)) by lia.
    rewrite <- lookup_tail. cbn [tail]. rewrite lookup_drop, live_lookup.
    replace (k + (pred m - k))%nat with (pred m) by lia.
    repeat case_decide; try done; lia.
Qed.

(** The first region is the one with the least address. *)
Lemma live_first r p0 k q : rgn_wf r -> region r !! 0%nat = Some p0 ->
  (k < Z.to_nat (cnt r))%nat -> region r !! k = Some q -> p_base p0 <= p_base q.
Proof.
  intros [_ Hcnt Hok Hs] Hp0 Hk Hq. destruct k as [|k]; [by simplify_eq|].
  assert (Hq' : live r !! S k = Some q) by (rewrite live_lookup, decide_True by lia; done).
  assert (Hp' : live r !! 0%nat = Some p0) by (rewrite live_lookup, decide_True by lia; done).
  destruct (live r) as [|x l]; [done|]. cbn in Hp', Hq'. simplify_eq.
  apply StronglySorted_inv in Hs as [_ Hs]. rewrite Forall_forall in Hs.
  specialize (Hs q ltac:(by eapply list_elem_of_lookup_2)). apply Forall_cons in Hok as [Hok _].
  unfold before, prop_ok, p_end in *. lia.
Qed.

(** A table with a region entered at its place is well formed. *)
Lemma insert_wf r r' k new :
  rgn_wf r -> length (region r') = 9%nat -> 1 <= cnt r' <= 8 -> prop_ok new ->
  Forall (apart new) (live r) -> (k <= length (live r))%nat ->
  (forall m p, k = S m -> live r !! m = Some p -> p_base p <= p_base new) ->
  (forall m p, (k <= m)%nat -> live r !! m = Some p -> p_base new < p_base p) ->
  live r' = take k (live r) ++ new :: drop k (live r) ->
  rgn_wf r' /\ forall a, covers r' a <-> covers r a \/ in_prop a new.
Proof.
  intros [_ _ Hok Hs] Hlen Hcnt Hp Hap Hk Hle Hgt Hlive.
  rewrite <- (take_drop k (live r)) in Hok, Hap, Hs. split; [split|]; try done.
  - rewrite Hlive. apply Forall_app in Hok as [? ?]. apply Forall_app.
    split; [done|by constructor].
  - rewrite Hlive. apply insert_sorted_place; try done.
    + intros x Hx. destruct k as [|k]; [done|]. rewrite last_lookup, length_take in Hx.
      replace (pred (S k `min` length (live r))) with k in Hx by lia.
      rewrite lookup_take_lt in Hx by lia. by eapply Hle.
    + intros x Hx. apply list_elem_of_lookup in Hx as [i Hi]. rewrite lookup_drop in Hi.
      apply (Hgt (k + i)%nat); [lia|done].
  - intros a. rewrite (covers_split _ a _ _ _ Hlive). unfold covers.
    rewrite <- (take_drop k (live r)) at 3. rewrite Exists_app. tauto.
Qed.

Lemma lmb_insert_live r base size :
  rgn_wf r -> cnt r < 8 -> prop_ok (mk_prop base size) ->
  Forall (apart (mk_prop base size)) (live r) ->
  exists r1 r2,
    lmb_insert_loop (S (S (length (region r)))) r base size (s32 (cnt r - 1)) = Some r1
    /\ (exists p0, rgn_get r1 0 = Some p0 /\
         (if base <? p_base p0 then rgn_set r1 0 (mk_prop base size) else Some r1) = Some r2)
    /\ let r' := set_cnt r2 (u32 (cnt r2 + 1)) in
       rgn_wf r' /\ (forall a, covers r' a <-> covers r a \/ in_prop a (mk_prop base size)).
Proof.
  intros Hwf Hc8 Hp Hap. pose proof Hwf as [Hlen Hcnt Hok Hs]. set (new := mk_prop base size) in *.
  rewrite s32_small by lia.
  destruct (lmb_insert_loop_spec (S (S (length (region r)))) r base size (Z.to_nat (cnt r)))
    as (r1 & k & Heq & Hc & Hsz & Hl & Hkn & Hgt & Hle & Hlook); try lia.
  rewrite Z2Nat.id in Heq by lia. pose proof (live_length r Hwf) as Hll.
  destruct (lookup_lt_is_Some_2 (region r1) 0%nat) as [p0 Hp0]; [lia|].
  assert (H0 : base < p_base p0 <-> k = 0%nat).
  { pose proof Hp0 as Hp1. rewrite Hlook in Hp1. rewrite decide_False in Hp1 by lia.
    case_decide as Hd; [destruct Hd; simplify_eq; cbn; lia|]. split; intros H.
    - destruct k as [|k]; [done|]. exfalso.
      destruct (lookup_lt_is_Some_2 (region r) k) as [q Hq]; [lia|].
      specialize (Hle k q eq_refl Hq). pose proof (live_first r p0 k q Hwf Hp1 Hkn Hq). lia.
    - subst k. apply (Hgt 0%nat); [lia|done]. }
  set (r2 := if base <? p_base p0
             then mk_region (cnt r1) (rgn_size r1) (<[0%nat := new]> (region r1)) else r1).
  assert (Hc2 : cnt r2 = cnt r) by (subst r2; by case_if).
  exists r1, r2. split; [done|]. split.
  { exists p0. change 0 with (Z.of_nat 0). rewrite rgn_get_nat. split; [done|].
    subst r2. case_if; [|done]. by rewrite rgn_set_nat by lia. }
  apply (insert_wf r _ k new); try done; try lia.
  - cbn. subst r2. case_if; cbn; rewrite ?length_insert; done.
  - cbn. rewrite Hc2, u32_small by lia. lia.
  - intros m q -> Hq. rewrite live_lookup in Hq. case_decide; [|done]. by apply (Hle m).
  - intros m q Hm Hq. rewrite live_lookup in Hq. case_decide; [|done]. by apply (Hgt m); [lia|].
  - apply insert_live_eq; try done. intros m. subst r2. case_if.
    + assert (k = 0%nat) as -> by (apply H0; lia). cbn [region]. destruct m as [|m]; cbn.
      * rewrite list_lookup_insert_eq by lia. done.
      * rewrite list_lookup_insert_ne by lia. rewrite Hlook. repeat case_decide; try done; lia.
    + assert (k <> 0%nat) by (rewrite <- H0; lia). rewrite Hlook.
      repeat case_decide; try done; lia.
Qed.

(** ** Contracts *)
Definition rgn_empty (r : lmb_region) : Prop :=
  length (region r) = 9%nat /\ cnt r = 1
  /\ region r !! 0%nat = Some (mk_prop 0 0).
(** The invariant between calls: a sorted table of disjoint, non-empty regions, or the
    dummy region of [lmb_init]. *)
Definition rgn_inv (r : lmb_region) : Prop := rgn_wf r \/ rgn_empty r.
Definition disjoint_from (r : lmb_region) (p : lmb_property) : Prop :=
  forall a, in_prop a p -> ~ covers r a.

Lemma empty_covers r a : rgn_empty r -> ~ covers r a.
Proof.
  intros (Hl & Hc & Hp) Hcov. apply Exists_exists in Hcov as (q & Hq & Hin).
  apply list_elem_of_lookup in Hq as [i Hi]. rewrite live_lookup, Hc in Hi.
  case_decide; [|done]. assert (i = 0%nat) as -> by lia. simplify_eq.
  unfold in_prop, p_end in Hin. cbn in Hin. lia.
Qed.

Lemma disjoint_apart r p :
  rgn_wf r -> prop_ok p -> disjoint_from r p -> Forall (apart p) (live r).
Proof.
  intros [_ _ Hok _] Hp Hd. rewrite Forall_forall in Hok |- *. intros q Hq.
  specialize (Hok q Hq). unfold apart, before. destruct (Z.le_gt_cases (p_end p) (p_base q)); [by left|].
  destruct (Z.le_gt_cases (p_end q) (p_base p)); [by right|]. exfalso.
  unfold prop_ok, in_prop, disjoint_from, p_end in *.
  apply (Hd (Z.max (p_base p) (p_base q))); [unfold in_prop, p_end; lia|].
  apply Exists_exists. exists q. split; [done|]. unfold in_prop, p_end. lia.
Qed.

Lemma wf_update r l1 p p' l2 :
  rgn_wf r -> live r = l1 ++ p :: l2 -> prop_ok p' ->
  Forall (fun x => before x p') l1 -> Forall (before p') l2 ->
  let r' := mk_region (cnt r) (rgn_size r) (<[length l1 := p']> (region r)) in
  rgn_wf r' /\ live r' = l1 ++ p' :: l2.
Proof.
  intros [Hlen Hcnt Hok Hs] Hl Hp' H1 H2 r'.
  assert (Hl' : live r' = l1 ++ p' :: l2)
    by (unfold r'; by rewrite live_insert, Hl, list_insert_middle).
  split; [|done]. rewrite Hl in Hok, Hs.
  apply sorted_split in Hs as (Hs1 & Hs2 & _ & _ & H12).
  apply Forall_app in Hok as [Hok1 Hok2]. inversion_clear Hok2.
  split; [by unfold r'; cbn; rewrite length_insert|done| |]; rewrite Hl'.
  - apply Forall_app. split; [done|by constructor].
  - by apply sorted_split.
Qed.

(** The first region of an empty table. *)
Lemma first_region r new : rgn_empty r -> prop_ok new ->
  let r' := mk_region 1 (rgn_size r) (<[0%nat := new]> (region r)) in
  rgn_wf r' /\ forall a, covers r' a <-> covers r a \/ in_prop a new.
Proof.
  intros He Hp r'. pose proof (fun a => empty_covers r a He) as Hno. destruct He as (Hl & _ & _).
  assert (Hlv : live r' = [new]) by (unfold live, r'; cbn; by destruct (region r)).
  split.
  - split; unfold r' in *; cbn [cnt region]; rewrite ?length_insert, ?Hlv; try done; try lia.
    + by apply Forall_singleton.
    + by repeat constructor.
  - intros a. unfold covers at 1. rewrite Hlv, Exists_cons, Exists_nil.
    specialize (Hno a). tauto.
Qed.

(** A region enlarged by a neighbour stays at its place among the others. *)
Lemma neighbour_grow l1 p l2 base size p' :
  Forall prop_ok (l1 ++ p :: l2) -> StronglySorted before (l1 ++ p :: l2) ->
  Forall (apart (mk_prop base size)) (l1 ++ p :: l2) -> prop_ok (mk_prop base size) ->
  p_end p' = Z.max (p_end p) (base + size) -> p_base p' = Z.min (p_base p) base ->
  p_end p = base \/ base + size = p_base p ->
  prop_ok p' /\ Forall (fun x => before x p') l1 /\ Forall (before p') l2
  /\ forall a, in_prop a p' <-> in_prop a p \/ in_prop a (mk_prop base size).
Proof.
  intros Hok Hs Hap Hp He Hb Hadj.
  apply sorted_split in Hs as (_ & _ & Hb1 & Hb2 & _).
  rewrite Forall_forall in Hok, Hap, Hb1, Hb2. pose proof (Hok p ltac:(in_app)) as Hpok.
  unfold prop_ok, apart, before, in_prop, p_end in *; cbn in *. split_and!; [lia|lia|lia| | |lia].
  - apply Forall_forall. intros x Hx. specialize (Hb1 x Hx).
    specialize (Hap x ltac:(in_app)). specialize (Hok x ltac:(in_app)). lia.
  - apply Forall_forall. intros x Hx. specialize (Hb2 x Hx).
    specialize (Hap x ltac:(in_app)). specialize (Hok x ltac:(in_app)). lia.
Qed.

Lemma lmb_add_region_ok r base size :
  rgn_inv r -> prop_ok (mk_prop base size) -> disjoint_from r (mk_prop base size) ->
  exists rc r', lmb_add_region r base size = Some (rc, r')
    /\ ((0 <= rc /\ rgn_wf r' /\
          forall a, covers r' a <-> covers r a \/ in_prop a (mk_prop base size))
        \/ (rc = -1 /\ r' = r /\ cnt r = 8)).
Proof.
  intros Hinv Hp Hd. unfold lmb_add_region.
  change (rgn_get r 0) with (rgn_get r (Z.of_nat 0)).
  rewrite rgn_get_nat. destruct Hinv as [Hwf|He].
  2: { destruct (first_region r _ He Hp) as [Hwf Hcov].
    destruct He as (Hl & Hc & Hp0). rewrite Hp0; cbn [mbind option_bind p_size].
    rewrite Hc. cbn [andb Z.eqb Pos.eqb].
    change (rgn_set r 0) with (rgn_set r (Z.of_nat 0)). rewrite rgn_set_nat by lia.
    cbn [mbind option_bind]. eexists _, _. split; [done|]. left. rewrite Hc. by split. }
  pose proof (disjoint_apart _ _ Hwf Hp Hd) as Hap. pose proof Hwf as [Hlen Hcnt Hok Hs].
  destruct (lookup_lt_is_Some_2 (region r) 0%nat) as [p0 Hp0]; [lia|].
  assert (Hp0s : 0 < p_size p0).
  { rewrite Forall_forall in Hok. apply (Hok p0), (list_elem_of_lookup_2 _ 0%nat).
    by rewrite live_lookup, decide_True by lia. }
  rewrite Hp0; cbn [mbind option_bind]. destruct ((cnt r =? 1) && _) eqn:E; [lia|clear E].
  change (lmb_add_scan ?f r base size 0) with (lmb_add_scan f r base size (Z.of_nat 0)).
  destruct (lmb_add_scan_spec (S (S (length (region r)))) r base size 0)
    as (k & _ & [[Hk ->]|(p & p' & Hk & Hp' & ->)]); try lia.
  { intros q Hq ->. rewrite Forall_forall in Hap. specialize (Hap _ Hq).
    unfold apart, before, prop_ok, p_end in *. cbn in *; lia. }
  - (* no neighbour *)
    cbn [mbind option_bind]. unfold lmb_add_merge. rewrite u32_small by lia.
    case_if; [lia|]. cbn [mbind option_bind]. change (negb (0 =? 0)) with false. cbn iota.
    unfold MAX_LMB_REGIONS. case_if.
    + eexists _, _. split; [done|]. right. split_and!; [done|done|lia].
    + destruct (lmb_insert_live r base size) as (r1 & r2 & -> & (q & Hq & Hr2) & Hwf' & Hcov);
        try done; try lia.
      cbn [mbind option_bind]. rewrite Hq; cbn [mbind option_bind].
      rewrite Hr2. cbn [mbind option_bind]. eexists _, _. split; [done|]. left. by split.
  - (* a neighbour, enlarged, and perhaps joined with the next region *)
    cbn [mbind option_bind]. apply live_split in Hk as (l1 & l2 & Hl & <-).
    rewrite Hl in Hok, Hap, Hs.
    assert (Hnew : prop_ok p' /\ Forall (fun x => before x p') l1 /\ Forall (before p') l2
      /\ forall a, in_prop a p' <-> in_prop a p \/ in_prop a (mk_prop base size)).
    { pose proof (proj1 (Forall_forall _ _) Hok p ltac:(in_app)) as Hpok.
      unfold prop_ok, p_end in Hp, Hpok. cbn in Hp.
      apply (neighbour_grow l1 p l2 base size); try done; unfold p_end;
        (destruct Hp' as [[Hadj ->]|[Hadj ->]];
         [apply adjacent_1 in Hadj; [|lia]|apply adjacent_m1 in Hadj; [|lia]];
         rewrite ?u32_small by lia; cbn; lia). }
    destruct Hnew as (Hok' & H1 & H2 & Hin).
    destruct (wf_update r l1 p p' l2 Hwf Hl Hok' H1 H2) as [Hwf1 Hl1].
    destruct (lmb_add_merge_spec _ l1 p' l2 1 Hwf1 Hl1) as (r' & c' & -> & Hc' & Hwf' & Hcov).
    cbn [mbind option_bind]. destruct (c' =? 0) eqn:E; [lia|]. cbn [negb].
    eexists _, _. split; [done|]. left. split; [lia|]. split; [done|].
    intros a. rewrite Hcov, (covers_split _ a _ _ _ Hl1), (covers_split r a _ _ _ Hl), Hin. tauto.
Qed.

(** *** A region that overlaps entries *)
Lemma lmb_add_scan_total fuel : forall r base size (i : nat),
  length (region r) = 9%nat -> 1 <= cnt r <= 8 -> Z.of_nat i <= cnt r -> (Z.to_nat (cnt r) - i < fuel)%nat ->
  lmb_add_scan fuel r base size (Z.of_nat i) = Some AlreadyThere
  \/ exists r' (k : nat) c, lmb_add_scan fuel r base size (Z.of_nat i) = Some (Scanned r' (Z.of_nat k) c)
       /\ length (region r') = 9%nat /\ cnt r' = cnt r /\ (c = 0 /\ r' = r \/ c = 1).
Proof.
  induction fuel as [|fuel IH]; intros r base size i Hlen Hcnt Hi Hfuel; [lia|].
  cbn [lmb_add_scan]. case_if; [|right; exists r, i, 0; auto 10]. rewrite rgn_get_nat.
  destruct (lookup_lt_is_Some_2 (region r) i) as [p Hp]; [lia|]. rewrite Hp; cbn [mbind option_bind].
  destruct ((p_base p =? base) && (p_size p =? size)); [by left|]. rewrite !rgn_set_nat by lia. cbn [mbind option_bind].
  destruct (0 <? _); [|destruct (_ <? 0)]; try (right; eexists _, i, 1; split; [reflexivity|]; cbn [region cnt]; rewrite length_insert; by auto).
  replace (Z.of_nat i + 1) with (Z.of_nat (S i)) by lia. apply IH; lia.
Qed.
Lemma lmb_add_merge_total r (k : nat) c : length (region r) = 9%nat -> 1 <= cnt r <= 8 ->
  exists r' c', lmb_add_merge r (Z.of_nat k) c = Some (r', c') /\ (c' = c /\ r' = r \/ c' = c + 1).
Proof.
  intros Hlen Hcnt. unfold lmb_add_merge. rewrite u32_small by lia. case_if; [|by eauto 10].
  replace (Z.of_nat k + 1) with (Z.of_nat (S k)) by lia. unfold lmb_regions_adjacent. rewrite !rgn_get_nat.
  destruct (lookup_lt_is_Some_2 (region r) k) as [p Hp]; [lia|].
  destruct (lookup_lt_is_Some_2 (region r) (S k)) as [q Hq]; [lia|]. rewrite Hp, Hq; cbn [mbind option_bind].
  destruct (negb _); [|by eauto 10]. unfold lmb_coalesce_regions. rewrite !rgn_get_nat, Hp, Hq; cbn [mbind option_bind].
  rewrite rgn_set_nat by lia. cbn [mbind option_bind]. set (r1 := mk_region _ _ _).
  destruct (lmb_remove_region_live r1 (S k)) as (r' & -> & _); unfold r1; cbn [cnt region]; rewrite ?length_insert; try lia.
  cbn [mbind option_bind]. eauto 10.
Qed.
Lemma lmb_add_region_total r base size : length (region r) = 9%nat -> 1 <= cnt r <= 8 ->
  exists rc r', lmb_add_region r base size = Some (rc, r') /\ (rc < 0 -> r' = r).
Proof.
  intros Hlen Hcnt. unfold lmb_add_region. change (rgn_get ?r 0) with (rgn_get r (Z.of_nat 0)).
  change (rgn_set ?r 0) with (rgn_set r (Z.of_nat 0)). rewrite rgn_get_nat.
  destruct (lookup_lt_is_Some_2 (region r) 0%nat) as [p0 Hp0]; [lia|]. rewrite Hp0; cbn [mbind option_bind].
  case_if; [rewrite rgn_set_nat by lia; cbn [mbind option_bind]; eexists _, _; split; [done|lia]|].
  change (lmb_add_scan ?f r base size 0) with (lmb_add_scan f r base size (Z.of_nat 0)).
  destruct (lmb_add_scan_total (S (S (length (region r)))) r base size 0) as [->|(r1 & k & c & -> & Hl1 & Hc1 & Hc)]; try lia;
    cbn [mbind option_bind]; [by eexists _, _|].
  destruct (lmb_add_merge_total r1 k c Hl1) as (r2 & c2 & -> & Hc2); [lia|]. cbn [mbind option_bind].
  destruct (Z.eqb_spec c2 0) as [Ec|Ec]; cbn [negb]; [|eexists _, _; split; [done|lia]].
  assert (r2 = r) as -> by (destruct Hc2 as [[-> ->]| ->], Hc as [[-> ->]| ->]; done || lia).
  unfold MAX_LMB_REGIONS. case_if; [by eexists _, _|]. rewrite s32_small by lia.
  destruct (lmb_insert_loop_spec (S (S (length (region r)))) r base size (Z.to_nat (cnt r)))
    as (r3 & j & Heq & Hc3 & _ & Hl3 & _); try lia.
  rewrite Z2Nat.id in Heq by lia. rewrite Heq; cbn [mbind option_bind]. rewrite rgn_get_nat.
  destruct (lookup_lt_is_Some_2 (region r3) 0%nat) as [p3 Hp3]; [lia|]. rewrite Hp3; cbn [mbind option_bind].
  rewrite rgn_set_nat by lia. case_if; cbn [mbind option_bind]; eexists _, _; (split; [done|lia]).
Qed.

#[local] Arguments lmb_add_region : simpl never.

(** *** The search loops *)
Lemma lmb_free_find_spec fuel : forall r base end_ (i : nat),
  length (region r) = 9%nat -> 1 <= cnt r <= 8 -> Z.of_nat i <= cnt r ->
  (Z.to_nat (cnt r) - i < fuel)%nat -> Forall prop_ok (live r) ->
  exists k, (i <= k)%nat /\ lmb_free_find fuel r base end_ (Z.of_nat i) = Some (Z.of_nat k)
    /\ ((Z.of_nat k = cnt r /\
          forall m p, (i <= m)%nat -> live r !! m = Some p -> ~ (p_base p <= base /\ end_ <= p_end p))
        \/ exists p, live r !! k = Some p /\ p_base p <= base /\ end_ <= p_end p).
Proof.
  induction fuel as [|fuel IH]; intros r base end_ i Hlen Hcnt Hi Hfuel Hok; [lia|].
  cbn [lmb_free_find]. case_if; cycle 1.
  { exists i. split_and!; [done|done|]. left. split; [lia|].
    intros m p Hm Hp. rewrite live_lookup in Hp. case_decide; [lia|done]. }
  rewrite rgn_get_nat. destruct (lookup_lt_is_Some_2 (region r) i) as [p Hp]; [lia|].
  rewrite Hp; cbn [mbind option_bind].
  assert (Hlive : live r !! i = Some p) by (rewrite live_lookup, decide_True by lia; done).
  assert (Hpok : prop_ok p).
  { rewrite Forall_forall in Hok. apply Hok. by eapply list_elem_of_lookup_2. }
  rewrite u32_small by (unfold prop_ok, p_end in Hpok; lia). case_if.
  - exists i. split_and!; [done|done|]. right. exists p. unfold p_end. split; [done|lia].
  - replace (Z.of_nat i + 1) with (Z.of_nat (S i)) by lia.
    destruct (IH r base end_ (S i)) as (k & Hk & -> & H); try done; try lia.
    exists k. split_and!; [lia|done|]. destruct H as [[Hkc Hno]|H]; [left|by right].
    split; [done|]. intros m q Hm Hq. destruct (decide (m = i)) as [->|].
    + simplify_eq. unfold p_end. lia.
    + apply (Hno m); [lia|done].
Qed.

Lemma lmb_overlaps_loop_spec fuel : forall r base size (i : nat),
  length (region r) = 9%nat -> 1 <= cnt r <= 8 -> Z.of_nat i <= cnt r ->
  (Z.to_nat (cnt r) - i < fuel)%nat ->
  exists k, (i <= k)%nat /\ lmb_overlaps_loop fuel r base size (Z.of_nat i) = Some (Z.of_nat k)
    /\ ((Z.of_nat k = cnt r /\ forall m p, (i <= m)%nat -> live r !! m = Some p ->
           lmb_addrs_overlap base size (p_base p) (p_size p) = false)
        \/ exists p, live r !! k = Some p
             /\ lmb_addrs_overlap base size (p_base p) (p_size p) = true).
Proof.
  induction fuel as [|fuel IH]; intros r base size i Hlen Hcnt Hi Hfuel; [lia|].
  cbn [lmb_overlaps_loop]. case_if; cycle 1.
  { exists i. split_and!; [done|done|]. left. split; [lia|].
    intros m p Hm Hp. rewrite live_lookup in Hp. case_decide; [lia|done]. }
  rewrite rgn_get_nat. destruct (lookup_lt_is_Some_2 (region r) i) as [p Hp]; [lia|].
  rewrite Hp; cbn [mbind option_bind].
  assert (Hlive : live r !! i = Some p) by (rewrite live_lookup, decide_True by lia; done).
  case_if.
  - exists i. split_and!; [done|done|]. right. exists p. by split.
  - replace (Z.of_nat i + 1) with (Z.of_nat (S i)) by lia.
    destruct (IH r base size (S i)) as (k & Hk & -> & H); try done; try lia.
    exists k. split_and!; [lia|done|]. destruct H as [[Hkc Hno]|H]; [left|by right].
    split; [done|]. intros m q Hm Hq. destruct (decide (m = i)) as [->|].
    + by simplify_eq.
    + apply (Hno m); [lia|done].
Qed.

Lemma inv_bounds r : rgn_inv r -> length (region r) = 9%nat /\ 1 <= cnt r <= 8.
Proof. intros [[]|(? & ? & ?)]; split; done || lia. Qed.

(** [lmb_overlaps_region] finds a region that meets [base, base + size), if there is one. *)
Lemma lmb_overlaps_region_spec r base size :
  rgn_inv r -> 0 <= base -> 0 < size -> base + size < 0x100000000 ->
  (lmb_overlaps_region r base size = Some (-1) /\ disjoint_from r (mk_prop base size))
  \/ exists (k : nat) p, lmb_overlaps_region r base size = Some (Z.of_nat k)
       /\ live r !! k = Some p /\ 0 <= Z.of_nat k < cnt r
       /\ p_base p < base + size /\ base < u32 (p_base p + p_size p).
Proof.
  intros Hinv Hb Hs He. destruct (inv_bounds r Hinv) as [Hlen Hcnt].
  unfold lmb_overlaps_region.
  change (lmb_overlaps_loop ?f r base size 0)
    with (lmb_overlaps_loop f r base size (Z.of_nat 0)).
  destruct (lmb_overlaps_loop_spec (S (S (length (region r)))) r base size 0)
    as (k & _ & -> & H); try done; try lia. cbn [mbind option_bind].
  destruct H as [[Hk Hno]|(p & Hp & Hov)].
  - left. case_if; [lia|]. split; [done|]. destruct Hinv as [Hwf|Hemp]; cycle 1.
    { intros a _. by apply empty_covers. }
    intros a Hin Hcov. apply Exists_exists in Hcov as (p & Hp & Hin').
    pose proof Hwf as [_ _ Hok _]. rewrite Forall_forall in Hok. specialize (Hok p Hp).
    apply list_elem_of_lookup in Hp as [m Hm]. specialize (Hno m p ltac:(lia) Hm).
    unfold lmb_addrs_overlap, in_prop, p_end, prop_ok, p_end in *. cbn in *.
    revert Hno. unwrap. lia.
  - right. assert (Z.of_nat k < cnt r).
    { rewrite live_lookup in Hp. by case_decide. }
    exists k, p. case_if; [|lia]. split_and!; try done; try lia;
      unfold lmb_addrs_overlap in Hov; revert Hov; unwrap; lia.
Qed.

(** *** Freeing *)
Definition rgn_none (r : lmb_region) : Prop := cnt r = 0.

(** A table seen from one of its regions, [q]. *)
Section one_region.
Context (r : lmb_region) (l1 l2 : list lmb_property) (q : lmb_property).
Context (Hwf : rgn_wf r) (Hl : live r = l1 ++ q :: l2).

Lemma one_ok : prop_ok q /\ Forall (fun x => before x q) l1 /\ Forall (before q) l2.
Proof using Hwf Hl.
  pose proof Hwf as [_ _ Hok Hs]. rewrite Hl in Hok, Hs.
  apply sorted_split in Hs as (_ & _ & Hb1 & Hb2 & _).
  apply Forall_app in Hok as [_ Hok]. by apply Forall_cons in Hok as [Hok _].
Qed.
Lemma one_alone a : in_prop a q -> ~ (Exists (in_prop a) l1 \/ Exists (in_prop a) l2).
Proof using Hwf Hl.
  destruct one_ok as (_ & Hb1 & Hb2). rewrite Forall_forall in Hb1, Hb2.
  intros Ha [Hx|Hx]; apply Exists_exists in Hx as (x & Hx & Hax); [specialize (Hb1 x Hx)|specialize (Hb2 x Hx)];
    unfold in_prop, before, p_end in *; lia.
Qed.
Lemma one_only p a : p ∈ live r -> in_prop a p -> in_prop a q -> p = q.
Proof using Hwf Hl.
  rewrite Hl. intros Hp Hap Haq. pose proof (one_alone a Haq) as Hno.
  apply elem_of_app in Hp as [Hp|[Hp|Hp]%elem_of_cons]; [|done|]; destruct Hno; [left|right];
    apply Exists_exists; by exists p.
Qed.
(** Without the region: what is left is well formed, if there is any. *)
Lemma one_removed r' : length (region r') = 9%nat -> cnt r' = cnt r - 1 -> live r' = l1 ++ l2 ->
  (cnt r' = 0 /\ cnt r = 1 \/ rgn_wf r')
  /\ forall a, covers r' a <-> covers r a /\ ~ in_prop a q.
Proof using Hwf Hl.
  intros Hlen Hc Hlv. pose proof Hwf as [_ Hcnt Hok Hs]. rewrite Hl in Hok, Hs. split.
  - destruct (decide (cnt r = 1)); [left; lia|right].
    apply sorted_split in Hs as (Hs1 & Hs2 & _ & _ & H12).
    apply Forall_app in Hok as [? Hok]. apply Forall_cons in Hok as [_ ?].
    split; [done|lia| |]; rewrite Hlv; [by apply Forall_app|].
    apply StronglySorted_app. by split_and!.
  - intros a. rewrite (covers_split r a l1 l2 q Hl). unfold covers. rewrite Hlv, Exists_app.
    pose proof (one_alone a). tauto.
Qed.
(** With a part of the region in its place. *)
Lemma one_shrunk q' : prop_ok q' -> p_base q <= p_base q' -> p_end q' <= p_end q ->
  exists r', rgn_set r (Z.of_nat (length l1)) q' = Some r' /\ rgn_wf r' /\ cnt r' = cnt r
    /\ forall a, covers r' a <-> covers r a /\ ~ (in_prop a q /\ ~ in_prop a q').
Proof using Hwf Hl.
  intros Hq' Hb He. pose proof (rw_len r Hwf) as Hlen. pose proof (rw_cnt r Hwf) as Hcnt.
  pose proof (live_length r Hwf) as Hll. rewrite Hl, length_app in Hll. cbn [length] in Hll.
  rewrite rgn_set_nat by lia. eexists. split; [done|]. destruct one_ok as (_ & Hb1 & Hb2).
  destruct (wf_update r l1 q q' l2 Hwf Hl Hq') as [Hwf' Hl'].
  - eapply Forall_impl; [exact Hb1|]. unfold before; lia.
  - eapply Forall_impl; [exact Hb2|]. unfold before; lia.
  - split; [done|]. split; [done|]. intros a.
    rewrite (covers_split _ a _ _ _ Hl'), (covers_split r a l1 l2 q Hl).
    pose proof (one_alone a). assert (in_prop a q' -> in_prop a q) by (unfold in_prop; lia).
    assert (in_prop a q' \/ ~ in_prop a q') by (unfold in_prop; lia). tauto.
Qed.
(** A hole in the middle: the front stays and the tail is entered as a region of its own. *)
Lemma one_pierced base size : 0 < size -> p_base q < base -> base + size < p_end q ->
  exists r1 rc r',
    rgn_set r (Z.of_nat (length l1)) (mk_prop (p_base q) (base - p_base q)) = Some r1
    /\ lmb_add_region r1 (base + size) (p_end q - (base + size)) = Some (rc, r')
    /\ rgn_wf r'
    /\ (0 <= rc /\ (forall a, covers r' a <-> covers r a /\ ~ in_prop a (mk_prop base size))
        \/ rc = -1 /\ cnt r = 8
           /\ forall a, covers r' a <-> covers r a /\ ~ (base <= a < p_end q)).
Proof using Hwf Hl.
  intros Hsize Hb He. destruct one_ok as (Hq & _). unfold prop_ok, p_end in *.
  set (front := mk_prop (p_base q) (base - p_base q)).
  set (back := mk_prop (base + size) (p_base q + p_size q - (base + size))).
  destruct (one_shrunk front) as (r1 & Hr1 & Hwf1 & Hc1 & Hcov1); unfold prop_ok, p_end; cbn; try lia.
  destruct (lmb_add_region_ok r1 (p_base back) (p_size back)) as (rc & r' & Heq & H);
    [by left|unfold prop_ok, p_end; cbn; lia| |].
  { intros a Ha. rewrite Hcov1. unfold in_prop, p_end in *; cbn in *. lia. }
  exists r1, rc, r'. split; [exact Hr1|]. split; [exact Heq|].
  destruct H as [(Hrc & Hwf' & Hcov)|(-> & -> & Hc)]; (split; [done|]); [left|right];
    (split_and!; [lia..|]); intros a; pose proof (covers_split r a l1 l2 q Hl) as Hsplit;
    rewrite ?Hcov, Hcov1; change (mk_prop (p_base back) (p_size back)) with back.
  - assert (in_prop a q <-> in_prop a front \/ in_prop a (mk_prop base size) \/ in_prop a back)
      by (unfold in_prop, p_end, front, back; cbn; lia).
    assert (~ (in_prop a (mk_prop base size) /\ (in_prop a front \/ in_prop a back)))
      by (unfold in_prop, p_end, front, back; cbn; lia).
    assert (forall x, in_prop a x \/ ~ in_prop a x) as Hdec by (unfold in_prop; lia).
    pose proof (Hdec q). pose proof (Hdec front). tauto.
  - assert (in_prop a q <-> in_prop a front \/ base <= a < p_base q + p_size q)
      by (unfold in_prop, p_end, front; cbn; lia).
    assert (~ (in_prop a front /\ base <= a < p_base q + p_size q))
      by (unfold in_prop, p_end, front; cbn; lia).
    assert (forall x, in_prop a x \/ ~ in_prop a x) as Hdec by (unfold in_prop; lia).
    pose proof (Hdec q). pose proof (Hdec front). tauto.
Qed.
End one_region.

Lemma lmb_free_region_ok r base size p :
  rgn_wf r -> prop_ok (mk_prop base size) -> p ∈ live r ->
  p_base p <= base -> base + size <= p_end p ->
  exists rc r', lmb_free_region r base size = Some (rc, r')
    /\ ((rc = 0 /\ (cnt r' = 0 /\ cnt r = 1 \/ rgn_wf r') /\
          forall a, covers r' a <-> covers r a /\ ~ in_prop a (mk_prop base size))
        \/ (0 < rc /\ rgn_wf r' /\
          forall a, covers r' a <-> covers r a /\ ~ in_prop a (mk_prop base size))
        \/ (rc = -1 /\ cnt r = 8 /\ rgn_wf r' /\
          forall a, covers r' a <-> covers r a /\ ~ (base <= a < p_end p))).
Proof.
  intros Hwf Hnew Hp Hpb Hpe. pose proof Hwf as [Hlen Hcnt Hok Hs].
  unfold lmb_free_region. unfold prop_ok, p_end in Hnew; cbn in Hnew.
  rewrite (u32_small (base + size)) by lia.
  change (lmb_free_find ?f r base (base + size) 0)
    with (lmb_free_find f r base (base + size) (Z.of_nat 0)).
  destruct (lmb_free_find_spec (S (S (length (region r)))) r base (base + size) 0)
    as (k & _ & -> & H); try done; try lia. cbn [mbind option_bind].
  destruct H as [[Hk Hno]|(q & Hq & Hqb & Hqe)].
  { exfalso. apply list_elem_of_lookup in Hp as [m Hm]. apply (Hno m p); [lia|done|done]. }
  pose proof Hq as Hqr. rewrite live_lookup in Hqr. case_decide as Hkc; [|done].
  case_if; [lia|]. rewrite rgn_get_nat, Hqr. cbn [mbind option_bind].
  destruct (live_split r k q Hq) as (l1 & l2 & Hl & <-).
  assert (p = q) as -> by (apply (one_only r l1 l2 q Hwf Hl p base Hp); unfold in_prop; lia).
  pose proof (proj1 (one_ok r l1 l2 q Hwf Hl)) as Hqok. unfold prop_ok, p_end in *.
  rewrite (u32_small (p_base q + p_size q)) by lia.
  destruct ((p_base q =? base) && (p_base q + p_size q =? base + size)) eqn:Eall.
  { (* the whole region *)
    destruct (lmb_remove_region_live r (length l1)) as (r' & -> & Hc & Hl' & Hlv); try done; try lia.
    cbn [mbind option_bind]. eexists _, _. split; [done|]. left. split; [done|].
    rewrite Hl, delete_middle in Hlv.
    destruct (one_removed r l1 l2 q Hwf Hl r' Hl' Hc Hlv) as [Hwf' Hcov]. split; [done|].
    intros a. rewrite Hcov. unfold in_prop, p_end. cbn. intuition lia. }
  assert (Hsz : u32 (p_size q - size) = p_size q - size) by (apply u32_small; lia).
  destruct (p_base q =? base) eqn:Eb; [|destruct (p_base q + p_size q =? base + size) eqn:Ee].
  - (* at the front *)
    rewrite Hsz. destruct (one_shrunk r l1 l2 q Hwf Hl (mk_prop (base + size) (p_size q - size)))
      as (r' & -> & Hwf' & _ & Hcov); unfold prop_ok, p_end; cbn; try lia.
    eexists _, _. split; [done|]. left. split_and!; [done|by right|]. intros a. rewrite Hcov.
    unfold in_prop, p_end in *; cbn. intuition lia.
  - (* at the end *)
    rewrite Hsz. destruct (one_shrunk r l1 l2 q Hwf Hl (mk_prop (p_base q) (p_size q - size)))
      as (r' & -> & Hwf' & _ & Hcov); unfold prop_ok, p_end; cbn; try lia.
    eexists _, _. split; [done|]. left. split_and!; [done|by right|]. intros a. rewrite Hcov.
    unfold in_prop, p_end in *; cbn. intuition lia.
  - (* in the middle *)
    rewrite (u32_small (base - p_base q)) by lia.
    destruct (one_pierced r l1 l2 q Hwf Hl base size) as (r1 & rc & r' & -> & Heq & Hwf' & H);
      unfold p_end; try lia.
    cbn [mbind option_bind]. rewrite u32_small by lia. exists rc, r'. split; [exact Heq|].
    destruct H as [[Hrc Hcov]|(-> & Hc & Hcov)].
    + destruct (decide (rc = 0)); [left|right; left]; split_and!; try done; [by right|lia].
    + right; right. by split_and!.
Qed.

(** *** Alignment *)
Lemma lmb_align_down_spec addr k :
  0 <= addr < 0x100000000 -> 0 <= k < 32 ->
  lmb_align_down addr (2 ^ k) = 2 ^ k * (addr / 2 ^ k).
Proof. apply land_align_down. Qed.

Lemma align_down_bounds addr k :
  0 <= addr < 0x100000000 -> 0 <= k < 32 ->
  0 <= lmb_align_down addr (2 ^ k) <= addr /\ lmb_align_down addr (2 ^ k) mod 2 ^ k = 0.
Proof.
  intros Ha Hk. rewrite lmb_align_down_spec by done.
  assert (0 < 2 ^ k) by (apply Z.pow_pos_nonneg; lia). split.
  - pose proof (Z.mul_div_le addr (2 ^ k)). pose proof (Z.div_pos addr (2 ^ k)). nia.
  - rewrite Z.mul_comm. apply Z_mod_mult.
Qed.

(** The size that is entered into the table: a multiple of the alignment. *)
Definition padded (size k : Z) : Z := (size + 2 ^ k - 1) / 2 ^ k * 2 ^ k.
Lemma align_up_padded size k : 0 < size -> 0 <= k < 32 -> size + 2 ^ k <= 0x100000000 ->
  lmb_align_up size (2 ^ k) = padded size k.
Proof.
  intros Hs Hk Hub. assert (Hp : 0 < 2 ^ k) by (apply Z.pow_pos_nonneg; lia).
  change (lmb_align_up size (2 ^ k)) with (lmb_align_down (u32 (size + (2 ^ k - 1))) (2 ^ k)).
  rewrite u32_small by lia. rewrite lmb_align_down_spec by lia. unfold padded.
  rewrite Z.mul_comm. f_equal. f_equal. lia.
Qed.
Lemma padded_aligned size k : 0 <= k -> size mod 2 ^ k = 0 -> padded size k = size.
Proof.
  intros Hk Hm. assert (Hp : 0 < 2 ^ k) by (apply Z.pow_pos_nonneg; lia).
  apply Z_div_exact_full_2 in Hm; [|lia]. unfold padded. set (q := size / 2 ^ k) in *.
  rewrite Hm. replace (2 ^ k * q + 2 ^ k - 1) with (2 ^ k - 1 + q * 2 ^ k) by lia.
  rewrite Z.div_add, Z.div_small by lia. lia.
Qed.

(** *** Allocation *)
Definition below (x : Z) (l : list lmb_property) : nat :=
  length (filter (fun q => p_base q < x) l).

Lemma below_mono x y l : x <= y -> (below x l <= below y l)%nat.
Proof.
  intros Hxy. unfold below. induction l as [|q l IH]; [done|].
  rewrite !filter_cons. repeat case_decide; cbn; lia.
Qed.

Lemma below_lt x y p l :
  p ∈ l -> x <= p_base p < y -> (below x l < below y l)%nat.
Proof.
  intros Hp Hxy. unfold below. induction Hp as [p l|p q l Hp IH]; rewrite !filter_cons.
  - rewrite decide_False, decide_True by lia. cbn.
    pose proof (below_mono x y l). unfold below in *. lia.
  - specialize (IH Hxy). repeat case_decide; cbn; lia.
Qed.

Lemma below_le x r : rgn_inv r -> (below x (live r) <= 8)%nat.
Proof.
  intros Hinv. destruct (inv_bounds r Hinv) as [Hl Hc].
  unfold below. pose proof (length_filter (fun q => p_base q < x) (live r)).
  unfold live in *. rewrite length_take in *. lia.
Qed.

(** The block at [b] is in the table, with what is behind it up to a multiple of the alignment,
    if nothing is reserved there. *)
Definition entered (l : lmb) (size k b : Z) (l' : lmb) : Prop :=
  let block := mk_prop b (padded size k) in
  prop_ok block -> disjoint_from (reserved l) block ->
  rgn_wf (reserved l') /\ forall a, covers (reserved l') a <-> covers (reserved l) a \/ in_prop a block.
Definition alloc_ok (l : lmb) (size k lmbbase top b : Z) (l' : lmb) : Prop :=
  memory l' = memory l /\
  ((b = 0 /\ reserved l' = reserved l)
   \/ (0 < b /\ lmbbase <= b /\ b + size <= top /\ b mod 2 ^ k = 0
       /\ disjoint_from (reserved l) (mk_prop b size) /\ entered l size k b l')).

Lemma lmb_alloc_while_spec fuel : forall l size k lmbbase base,
  rgn_inv (reserved l) -> 0 < size -> 0 <= k < 32 -> size + 2 ^ k <= 0x100000000 ->
  0 <= base -> base + size < 0x100000000 -> base mod 2 ^ k = 0 ->
  (below (base + size) (live (reserved l)) < fuel)%nat ->
  exists r, lmb_alloc_while fuel l size (2 ^ k) lmbbase base = Some r
    /\ match r with
       | AllocBreak => True
       | AllocRet b l' => alloc_ok l size k lmbbase (base + size) b l'
       end.
Proof.
  induction fuel as [|fuel IH]; intros l size k lmbbase base Hinv Hs Hk Hm Hb He Hal Hf; [lia|].
  cbn [lmb_alloc_while]. case_if; [|by eexists].
  destruct (lmb_overlaps_region_spec (reserved l) base size)
    as [[-> Hd]|(j & p & -> & Hp & Hj & Hp1 & Hp2)]; try done; try lia; cbn [mbind option_bind].
  - cbn [Z.ltb Z.compare]. rewrite align_up_padded by done. destruct (inv_bounds _ Hinv) as [Hlen Hcnt].
    destruct (lmb_add_region_total (reserved l) base (padded size k) Hlen Hcnt) as (rc & r' & Hadd & Hneg).
    rewrite Hadd. cbn [mbind option_bind]. eexists. split; [done|]. unfold alloc_ok; cbn [memory reserved].
    split; [done|]. case_if; [left; split; [done|apply Hneg; lia]|]. right. split_and!; try done; try lia.
    intros Hok Hfree. destruct (lmb_add_region_ok (reserved l) base (padded size k) Hinv Hok Hfree)
      as (rc' & r2 & Hadd2 & [(_ & H)|(-> & _)]); rewrite Hadd in Hadd2; simplify_eq.
    exact H.
  - case_if; [lia|]. rewrite rgn_get_nat.
    assert (Hpr : region (reserved l) !! j = Some p).
    { rewrite live_lookup in Hp. by case_decide. }
    rewrite Hpr; cbn [mbind option_bind]. case_if; [by eexists|].
    assert (Hpb : 0 <= p_base p < 0x100000000).
    { destruct Hinv as [[_ _ Hok _]|(Hl & Hc & H0)].
      - rewrite Forall_forall in Hok.
        destruct (Hok p (list_elem_of_lookup_2 _ _ _ Hp)) as (? & ? & Hpe).
        unfold p_end in Hpe. lia.
      - assert (j = 0%nat) as -> by lia. simplify_eq. cbn in *. lia. }
    rewrite u32_small by lia.
    destruct (align_down_bounds (p_base p - size) k) as [Hlo Hal']; try lia.
    destruct (IH l size k lmbbase (lmb_align_down (p_base p - size) (2 ^ k)))
      as (r & -> & Hr); try done; try lia.
    { assert (below (lmb_align_down (p_base p - size) (2 ^ k) + size) (live (reserved l))
              < below (base + size) (live (reserved l)))%nat; [|lia].
      apply (below_lt _ _ p); [by eapply list_elem_of_lookup_2|lia]. }
    exists r. split; [done|]. destruct r as [|b l']; [done|].
    destruct Hr as [? [?|(? & ? & ? & ?)]]; (split; [done|]); [by left|right].
    split_and!; done || lia || apply H3.
Qed.

Lemma live_ok r i p : rgn_inv r -> live r !! i = Some p ->
  0 <= p_base p /\ 0 <= p_size p /\ p_end p < 0x100000000.
Proof.
  intros [[_ _ Hok _]|(Hl & Hc & H0)] Hp.
  - rewrite Forall_forall in Hok.
    destruct (Hok p (list_elem_of_lookup_2 _ _ _ Hp)) as (? & ? & ?). lia.
  - rewrite live_lookup, Hc in Hp. case_decide; [|done].
    assert (i = 0%nat) as -> by lia. simplify_eq. by cbn.
Qed.

(** What an allocation returns: 0, or an aligned block inside a memory region, below the limit and
    apart from everything reserved before, which is reserved now. *)
Definition alloc_result (l : lmb) (size k max_addr b : Z) (l' : lmb) : Prop :=
  memory l' = memory l /\
  ((b = 0 /\ reserved l' = reserved l)
   \/ ((exists p, p ∈ live (memory l) /\ p_base p <= b /\ b + size <= p_end p)
       /\ 0 < b /\ (max_addr = 0 \/ b + size <= max_addr) /\ b mod 2 ^ k = 0
       /\ disjoint_from (reserved l) (mk_prop b size) /\ entered l size k b l')).

Lemma lmb_alloc_for_spec n : forall l size k max_addr,
  rgn_inv (memory l) -> rgn_inv (reserved l) -> Z.of_nat n <= cnt (memory l) ->
  0 < size -> 0 <= k < 32 -> size + 2 ^ k <= 0x100000000 ->
  max_addr = 0 \/ size <= max_addr < 0x100000000 ->
  exists b l', lmb_alloc_for n l size (2 ^ k) max_addr = Some (b, l')
    /\ alloc_result l size k max_addr b l'.
Proof.
  induction n as [|n IH]; intros l size k max_addr Hm Hr Hn Hs Hk Hal Hmax.
  { exists 0, l. split; [done|]. split; [done|by left]. }
  cbn [lmb_alloc_for]. destruct (inv_bounds _ Hm) as [Hlen Hcnt].
  rewrite rgn_get_nat. destruct (lookup_lt_is_Some_2 (region (memory l)) n) as [p Hp]; [lia|].
  rewrite Hp; cbn [mbind option_bind].
  assert (Hpl : live (memory l) !! n = Some p) by (rewrite live_lookup, decide_True by lia; done).
  destruct (live_ok _ _ _ Hm Hpl) as (Hp0 & Hp1 & Hp2). unfold p_end in Hp2.
  assert (Hskip : exists b l', lmb_alloc_for n l size (2 ^ k) max_addr = Some (b, l')
            /\ alloc_result l size k max_addr b l') by (apply IH; try done; lia).
  case_if; [exact Hskip|]. rewrite !(u32_small (p_base p + p_size p)) by lia.
  set (top := if max_addr =? 0 then p_base p + p_size p
              else Z.min (p_base p + p_size p) max_addr).
  set (start := if max_addr =? LMB_ALLOC_ANYWHERE then _ else _).
  assert (Hstart : start = None \/ start = Some (lmb_align_down (top - size) (2 ^ k))).
  { unfold start, top, LMB_ALLOC_ANYWHERE. repeat case_if; auto; right; by unwrap. }
  destruct Hstart as [-> | ->]; [exact Hskip|].
  assert (Htop : size <= top <= p_base p + p_size p) by (unfold top; case_if; lia).
  destruct (align_down_bounds (top - size) k) as [Hlo Hmod]; try lia.
  destruct (lmb_alloc_while_spec (S (S (length (region (reserved l))))) l size k (p_base p)
              (lmb_align_down (top - size) (2 ^ k))) as (res & -> & Hres); try done; try lia.
  { pose proof (below_le (lmb_align_down (top - size) (2 ^ k) + size) _ Hr).
    destruct (inv_bounds _ Hr). lia. }
  cbn [mbind option_bind]. destruct res as [|b l']; [exact Hskip|].
  exists b, l'. split; [done|]. destruct Hres as [Hmem [Hz|(H1 & H2 & H3 & H4 & H5)]].
  - split; [done|by left].
  - split; [done|right]. split_and!; try done; try apply H5.
    + exists p. split; [by eapply list_elem_of_lookup_2|]. unfold p_end. lia.
    + unfold top in *. revert Hlo H3. case_if; [left; lia|right; lia].
Qed.

(** *** Theorems *)

(** C30: entering a region that overlaps no entry into a well-formed table either makes the
    table cover exactly the old addresses and the new ones, in sorted disjoint entries, or
    reports -1 on a table of [MAX_LMB_REGIONS] entries and leaves it alone. *)
Theorem lmb_reserve_correct l base size
    (Hinv : rgn_inv (reserved l)) (Hok : prop_ok (mk_prop base size))
    (Hd : disjoint_from (reserved l) (mk_prop base size)) :
  exists rc l', lmb_reserve l base size = Some (rc, l') /\ memory l' = memory l
    /\ ((0 <= rc /\ rgn_wf (reserved l') /\ forall a, covers (reserved l') a <->
            covers (reserved l) a \/ in_prop a (mk_prop base size))
        \/ (rc = -1 /\ l' = l /\ cnt (reserved l) = MAX_LMB_REGIONS)).
Proof.
  destruct (lmb_add_region_ok (reserved l) base size Hinv Hok Hd) as (rc & r' & Heq & H).
  unfold lmb_reserve. rewrite Heq. cbn [mbind option_bind]. eexists _, _.
  split_and!; [done|done|]. destruct H as [H|(-> & -> & Hc)]; [by left|right].
  by destruct l.
Qed.

(** freeing a block that lies inside one reserved region removes exactly its addresses
    from the table; the only exception is a block in the middle of a region of a full
    table, where -1 is reported and the reservation after the block is lost as well. *)
Theorem lmb_free_correct l base size p
    (Hwf : rgn_wf (reserved l)) (Hok : prop_ok (mk_prop base size))
    (Hp : p ∈ live (reserved l)) (Hlo : p_base p <= base) (Hhi : base + size <= p_end p) :
  exists rc l', lmb_free l base size = Some (rc, l') /\ memory l' = memory l
    /\ (cnt (reserved l') = 0 /\ cnt (reserved l) = 1 \/ rgn_wf (reserved l'))
    /\ ((0 <= rc /\ forall a, covers (reserved l') a <->
           covers (reserved l) a /\ ~ in_prop a (mk_prop base size))
        \/ (rc = -1 /\ cnt (reserved l) = MAX_LMB_REGIONS /\ forall a,
              covers (reserved l') a <-> covers (reserved l) a /\ ~ (base <= a < p_end p))).
Proof.
  destruct (lmb_free_region_ok (reserved l) base size p Hwf Hok Hp Hlo Hhi)
    as (rc & r' & Heq & H).
  unfold lmb_free. rewrite Heq. cbn [mbind option_bind]. eexists _, _.
  split_and!; [done|done|cbn; tauto|cbn].
  destruct H as [(-> & _ & Hc)|[(Hrc & _ & Hc)|(-> & Hc8 & _ & Hc)]].
  - left. split; [lia|done].
  - left. split; [lia|done].
  - right. by split_and!.
Qed.

(** C11: An allocation of [size] bytes with an alignment of [2 ^ k], where [size] is not above [max_addr]
    when that is given, always returns.  It reports 0 and changes nothing, or it returns a non-zero
    aligned block of [size] bytes that lies inside one memory region, ends at or below
    [max_addr] when that is given, and overlaps nothing that was reserved.  The block with what is behind it up to a
    multiple of the alignment (nothing, for an aligned size) is then reserved, the table sorted and
    disjoint, as long as these bytes do not overlap a reservation themselves. *)
Theorem lmb_alloc_base_correct l size k max_addr
    (Hm : rgn_inv (memory l)) (Hr : rgn_inv (reserved l))
    (Hs : 0 < size) (Hk : 0 <= k < 32) (Hal : size + 2 ^ k <= 0x100000000)
    (Hmax : max_addr = 0 \/ size <= max_addr < 0x100000000) :
  exists b l', lmb_alloc_base l size (2 ^ k) max_addr = Some (b, l')
    /\ alloc_result l size k max_addr b l' /\ (size mod 2 ^ k = 0 -> padded size k = size).
Proof.
  destruct (inv_bounds _ Hm). unfold lmb_alloc_base, __lmb_alloc_base.
  destruct (lmb_alloc_for_spec (Z.to_nat (cnt (memory l))) l size k max_addr) as (b & l' & E & H'); try done; try lia.
  exists b, l'. split; [done|]. split; [done|]. apply padded_aligned. lia.
Qed.

(** ** Concrete tables *)
Definition slots0 : list lmb_property := replicate 9 (mk_prop 0 0).
Definition table (ps : list lmb_property) : lmb_region :=
  mk_region (Z.of_nat (length ps)) 0 (ps ++ drop (length ps) slots0).
Definition lmb0 : lmb := lmb_init (mk_lmb (table []) (table [])).

Lemma table_wf ps :
  (1 <= length ps <= 8)%nat -> Forall prop_ok ps -> StronglySorted before ps ->
  rgn_wf (table ps) /\ live (table ps) = ps.
Proof.
  intros Hl Hok Hs.
  assert (Hlive : live (table ps) = ps)
    by (unfold live, table; cbn [cnt region]; rewrite Nat2Z.id; by rewrite take_app_length).
  split; [|done]. split; rewrite ?Hlive; try done.
  - unfold table; cbn [region]. rewrite length_app, length_drop. unfold slots0.
    rewrite length_replicate. lia.
  - cbn. lia.
Qed.

(** [props_ok] proves the bounds of an explicit list of regions. *)
Ltac props_ok :=
  repeat (apply Forall_cons; split); try apply Forall_nil; unfold prop_ok, p_end; cbn; lia.

Lemma lmb_reserve_correct_witness :
  exists rc l', lmb_reserve lmb0 0x1000 0x100 = Some (rc, l') /\ memory l' = memory lmb0
    /\ ((0 <= rc /\ rgn_wf (reserved l') /\ forall a, covers (reserved l') a <->
            covers (reserved lmb0) a \/ in_prop a (mk_prop 0x1000 0x100))
        \/ (rc = -1 /\ l' = lmb0 /\ cnt (reserved lmb0) = MAX_LMB_REGIONS)).
Proof.
  assert (He : rgn_empty (reserved lmb0)) by (split_and!; reflexivity).
  apply (lmb_reserve_correct lmb0 0x1000 0x100).
  - by right.
  - unfold prop_ok, p_end; cbn; lia.
  - intros a _. by apply empty_covers.
Defined.

Definition lmb_split : lmb := mk_lmb (table []) (table [mk_prop 0x1000 0x3000]).
Lemma lmb_free_correct_witness :
  lmb_free lmb_split 0x2000 0x100
    = Some (0, mk_lmb (table []) (table [mk_prop 0x1000 0x1000; mk_prop 0x2100 0x1f00]))
  /\ exists rc l', lmb_free lmb_split 0x2000 0x100 = Some (rc, l').
Proof.
  split; [reflexivity|].
  destruct (table_wf [mk_prop 0x1000 0x3000]) as [Hwf Hl]; [cbn; lia| | |].
  { props_ok. }
  { repeat constructor. }
  destruct (lmb_free_correct lmb_split 0x2000 0x100 (mk_prop 0x1000 0x3000))
    as (rc & l' & H & _); try done; try (unfold prop_ok, p_end; cbn; lia).
  - cbn [reserved lmb_split]. rewrite Hl. by left.
  - by exists rc, l'.
Defined.

Definition lmb_mem : lmb :=
  mk_lmb (table [mk_prop 0x100000 0x10000]) (table [mk_prop 0x10e800 0x1000]).
Lemma lmb_alloc_base_correct_witness :
  lmb_alloc_base lmb_mem 0xf00 (2 ^ 12) 0
    = Some (0x10d000, mk_lmb (table [mk_prop 0x100000 0x10000])
                        (table [mk_prop 0x10d000 0x1000; mk_prop 0x10e800 0x1000]))
  /\ exists b l', lmb_alloc_base lmb_mem 0xf00 (2 ^ 12) 0 = Some (b, l')
       /\ alloc_result lmb_mem 0xf00 12 0 b l' /\ (0xf00 mod 2 ^ 12 = 0 -> padded 0xf00 12 = 0xf00).
Proof.
  split; [reflexivity|]. apply lmb_alloc_base_correct; try lia; try done.
  - left. apply table_wf; [cbn; lia| |repeat constructor].
    props_ok.
  - left. apply table_wf; [cbn; lia| |repeat constructor].
    props_ok.
Defined.

(** ** Where the code departs from its purpose *)

(** Once the last region has been freed, [cnt] is 0 and slot 0 still holds the old region:
    the next reservation is reported as done and is not in the table, which shows the freed
    region again instead. *)
Lemma lmb_reserve_after_free_all :
  ('(_, l) ← lmb_reserve lmb0 0x1000 0x100;
   '(_, l) ← lmb_free l 0x1000 0x100;
   '(rc, l) ← lmb_reserve l 0x2000 0x100;
   hit ← lmb_is_reserved l 0x2000; old ← lmb_is_reserved l 0x1000;
   Some (rc, hit, old)) = Some (0, 0, 1).
Proof. reflexivity. Qed.

(** With [max_addr < size] the subtraction [base - size] wraps and the block returned lies
    outside of every memory region. *)
Lemma lmb_alloc_base_wraps :
  ('(b, _) ← lmb_alloc_base (mk_lmb (table [mk_prop 0 0x10000]) (table [mk_prop 0 0]))
                0x1000 0x100 0x100; Some b) = Some 0xfffff100.
Proof. reflexivity. Qed.

(** The overlap test covers [size] bytes and the reservation [lmb_align_up size align]
    bytes, so the table can come to hold overlapping regions. *)
Lemma lmb_alloc_reserves_overlap :
  ('(b, l) ← lmb_alloc_base (mk_lmb (table [mk_prop 0 0x10000])
                (table [mk_prop 0xf100 0xf00])) 0x100 0x1000 0;
   Some (b, live (reserved l))) = Some (0xf000, [mk_prop 0xf000 0x1000; mk_prop 0xf100 0xf00]).
Proof. reflexivity. Qed.
