(* ===== verification/NandEcc.v ===== *)
(** * drivers/mtd/nand/nand_ecc.c: the 1-bit-correcting code of 256-byte NAND blocks

    Without [CONFIG_MTD_NAND_ECC_SMC], as the XBurst boards build it.  A buffer is a list of
    bytes; reading past its end is [None]. *)
From S2P Require Import Prelude.

Definition nand_ecc_precalc_table : list Z :=
  [0x00; 0x55; 0x56; 0x03; 0x59; 0x0c; 0x0f; 0x5a; 0x5a; 0x0f; 0x0c; 0x59; 0x03; 0x56; 0x55; 0x00;
   0x65; 0x30; 0x33; 0x66; 0x3c; 0x69; 0x6a; 0x3f; 0x3f; 0x6a; 0x69; 0x3c; 0x66; 0x33; 0x30; 0x65;
   0x66; 0x33; 0x30; 0x65; 0x3f; 0x6a; 0x69; 0x3c; 0x3c; 0x69; 0x6a; 0x3f; 0x65; 0x30; 0x33; 0x66;
   0x03; 0x56; 0x55; 0x00; 0x5a; 0x0f; 0x0c; 0x59; 0x59; 0x0c; 0x0f; 0x5a; 0x00; 0x55; 0x56; 0x03;
   0x69; 0x3c; 0x3f; 0x6a; 0x30; 0x65; 0x66; 0x33; 0x33; 0x66; 0x65; 0x30; 0x6a; 0x3f; 0x3c; 0x69;
   0x0c; 0x59; 0x5a; 0x0f; 0x55; 0x00; 0x03; 0x56; 0x56; 0x03; 0x00; 0x55; 0x0f; 0x5a; 0x59; 0x0c;
   0x0f; 0x5a; 0x59; 0x0c; 0x56; 0x03; 0x00; 0x55; 0x55; 0x00; 0x03; 0x56; 0x0c; 0x59; 0x5a; 0x0f;
   0x6a; 0x3f; 0x3c; 0x69; 0x33; 0x66; 0x65; 0x30; 0x30; 0x65; 0x66; 0x33; 0x69; 0x3c; 0x3f; 0x6a;
   0x6a; 0x3f; 0x3c; 0x69; 0x33; 0x66; 0x65; 0x30; 0x30; 0x65; 0x66; 0x33; 0x69; 0x3c; 0x3f; 0x6a;
   0x0f; 0x5a; 0x59; 0x0c; 0x56; 0x03; 0x00; 0x55; 0x55; 0x00; 0x03; 0x56; 0x0c; 0x59; 0x5a; 0x0f;
   0x0c; 0x59; 0x5a; 0x0f; 0x55; 0x00; 0x03; 0x56; 0x56; 0x03; 0x00; 0x55; 0x0f; 0x5a; 0x59; 0x0c;
   0x69; 0x3c; 0x3f; 0x6a; 0x30; 0x65; 0x66; 0x33; 0x33; 0x66; 0x65; 0x30; 0x6a; 0x3f; 0x3c; 0x69;
   0x03; 0x56; 0x55; 0x00; 0x5a; 0x0f; 0x0c; 0x59; 0x59; 0x0c; 0x0f; 0x5a; 0x00; 0x55; 0x56; 0x03;
   0x66; 0x33; 0x30; 0x65; 0x3f; 0x6a; 0x69; 0x3c; 0x3c; 0x69; 0x6a; 0x3f; 0x65; 0x30; 0x33; 0x66;
   0x65; 0x30; 0x33; 0x66; 0x3c; 0x69; 0x6a; 0x3f; 0x3f; 0x6a; 0x69; 0x3c; 0x66; 0x33; 0x30; 0x65;
   0x00; 0x55; 0x56; 0x03; 0x59; 0x0c; 0x0f; 0x5a; 0x5a; 0x0f; 0x0c; 0x59; 0x03; 0x56; 0x55; 0x00].

Definition EBADMSG : Z := 74.

(** The column-parity loop over the 256 bytes: [n] bytes are left, [i] is the index. *)
Fixpoint ecc_loop (n : nat) (i : Z) (dat : list Z) (reg1 reg2 reg3 : Z)
  : option (Z * Z * Z) :=
  match n with
  | O => Some (reg1, reg2, reg3)
  | S n =>
      match dat with
      | [] => None
      | d :: dat =>
          idx ← nand_ecc_precalc_table !! Z.to_nat d;
          let reg1 := reg1 .^ (idx .& 0x3f) in
          if negb (idx .& 0x40 =? 0)
          then ecc_loop n (i + 1) dat reg1 (reg2 .^ u8 (Z.lnot (u8 i))) (reg3 .^ u8 i)
          else ecc_loop n (i + 1) dat reg1 reg2 reg3
      end
  end.

Definition ecc_tmp1 (reg3 reg2 : Z) : Z :=
  ((reg3 .& 0x80) ≫ 0) .| ((reg2 .& 0x80) ≫ 1) .| ((reg3 .& 0x40) ≫ 1)
  .| ((reg2 .& 0x40) ≫ 2) .| ((reg3 .& 0x20) ≫ 2) .| ((reg2 .& 0x20) ≫ 3)
  .| ((reg3 .& 0x10) ≫ 3) .| ((reg2 .& 0x10) ≫ 4).

Definition ecc_tmp2 (reg3 reg2 : Z) : Z :=
  ((reg3 .& 0x08) ≪ 4) .| ((reg2 .& 0x08) ≪ 3) .| ((reg3 .& 0x04) ≪ 3)
  .| ((reg2 .& 0x04) ≪ 2) .| ((reg3 .& 0x02) ≪ 2) .| ((reg2 .& 0x02) ≪ 1)
  .| ((reg3 .& 0x01) ≪ 1) .| ((reg2 .& 0x01) ≪ 0).

Definition nand_calculate_ecc (dat : list Z) : option (Z * Z * Z) :=
  '(reg1, reg2, reg3) ← ecc_loop 256 0 dat 0 0 0;
  Some (u8 (Z.lnot (ecc_tmp1 reg3 reg2)),
        u8 (Z.lnot (ecc_tmp2 reg3 reg2)),
        u8 ((Z.lnot reg1 ≪ 2) .| 0x03)).

(** [for (; byte; byte >>= 1) res += byte & 1] on a [uint32_t]. *)
Fixpoint countbits_loop (fuel : nat) (byte res : Z) : Z :=
  match fuel with
  | O => res
  | S fuel => if byte =? 0 then res else countbits_loop fuel (byte ≫ 1) (res + (byte .& 0x01))
  end.
Definition countbits (byte : Z) : Z := countbits_loop 32 byte 0.

Definition ecc_byteoffs (s0 s1 : Z) : Z :=
  ((s1 ≪ 0) .& 0x80) .| ((s1 ≪ 1) .& 0x40) .| ((s1 ≪ 2) .& 0x20) .| ((s1 ≪ 3) .& 0x10)
  .| ((s0 ≫ 4) .& 0x08) .| ((s0 ≫ 3) .& 0x04) .| ((s0 ≫ 2) .& 0x02) .| ((s0 ≫ 1) .& 0x01).

Definition ecc_bitnum (s2 : Z) : Z :=
  ((s2 ≫ 5) .& 0x04) .| ((s2 ≫ 4) .& 0x02) .| ((s2 ≫ 3) .& 0x01).

(** The result code and the data as they are left in the buffer. *)
Definition nand_correct_data (dat : list Z) (read_ecc calc_ecc : Z * Z * Z)
  : option (Z * list Z) :=
  let '(r0, r1, r2) := read_ecc in
  let '(c0, c1, c2) := calc_ecc in
  let s1 := c0 .^ r0 in
  let s0 := c1 .^ r1 in
  let s2 := c2 .^ r2 in
  if s0 .| s1 .| s2 =? 0 then Some (0, dat)
  else if ((s0 .^ (s0 ≫ 1)) .& 0x55 =? 0x55) && ((s1 .^ (s1 ≫ 1)) .& 0x55 =? 0x55)
          && ((s2 .^ (s2 ≫ 1)) .& 0x54 =? 0x54) then
    let byteoffs := ecc_byteoffs s0 s1 in
    let bitnum := ecc_bitnum s2 in
    d ← dat !! Z.to_nat byteoffs;
    Some (1, <[Z.to_nat byteoffs := u8 (d .^ (1 ≪ bitnum))]> dat)
  else if countbits (s0 .| (s1 ≪ 8) .| (s2 ≪ 16)) =? 1 then Some (1, dat)
  else Some (- EBADMSG, dat).

(** ** The code as a linear map *)
Definition T (d : Z) : Z := default 0 (nand_ecc_precalc_table !! Z.to_nat d).

Lemma T_lookup d : 0 <= d < 256 -> nand_ecc_precalc_table !! Z.to_nat d = Some (T d).
Proof.
  intros Hd. unfold T.
  destruct (nand_ecc_precalc_table !! Z.to_nat d) eqn:E; [done|].
  apply lookup_ge_None in E. cbn in E. lia.
Qed.

Definition flip (b : Z) (d : Z) : Z := d .^ (1 ≪ b).

Lemma T_flip d b :
  0 <= d < 256 -> 0 <= b < 8 ->
  0 <= flip b d < 256 /\ T (flip b d) .& 0x3f = (T d .& 0x3f) .^ (T (1 ≪ b) .& 0x3f)
  /\ (T (flip b d) .& 0x40 =? 0) = negb (T d .& 0x40 =? 0).
Proof.
  intros Hd Hb.
  assert (H : all_below 256 (fun d => all_below 8 (fun b =>
    (0 <=? flip b d) && (flip b d <? 256)
    && (T (flip b d) .& 0x3f =? (T d .& 0x3f) .^ (T (1 ≪ b) .& 0x3f))
    && Bool.eqb (T (flip b d) .& 0x40 =? 0) (negb (T d .& 0x40 =? 0)))) = true)
    by (vm_compute; reflexivity).
  pose proof (all_below_spec _ _ (all_below_spec _ _ H d Hd) b Hb) as Hc. cbn beta in Hc.
  rewrite !andb_true_iff, Bool.eqb_true_iff in Hc. destruct Hc as [[[? ?] ?] ?].
  split_and!; lia || done.
Qed.

Lemma ecc_loop_xor n : forall i dat r1 r2 r3 x1 x2 x3,
  ecc_loop n i dat (r1 .^ x1) (r2 .^ x2) (r3 .^ x3) =
  '(a, b, c) ← ecc_loop n i dat r1 r2 r3; Some (a .^ x1, b .^ x2, c .^ x3).
Proof.
  assert (Hx : forall a b c, (a .^ b) .^ c = (a .^ c) .^ b).
  { intros. by rewrite !Z.lxor_assoc, (Z.lxor_comm b). }
  induction n as [|n IH]; intros i dat r1 r2 r3 x1 x2 x3; [done|].
  destruct dat as [|d dat]; [done|]. cbn [ecc_loop].
  destruct (nand_ecc_precalc_table !! Z.to_nat d) as [idx|]; [|done]. cbn [mbind option_bind].
  rewrite (Hx r1). case_if; [rewrite (Hx r2), (Hx r3)|]; apply IH.
Qed.

(** Flipping bit [b] of byte [j] changes the three registers by a value that depends on
    [j] and [b] only. *)
Lemma ecc_loop_flip n : forall i j b dat r1 r2 r3,
  (j < n)%nat -> 0 <= b < 8 -> (n <= length dat)%nat ->
  Forall (fun d => 0 <= d < 256) dat ->
  ecc_loop n i (alter (flip b) j dat) r1 r2 r3 =
  '(x, y, z) ← ecc_loop n i dat r1 r2 r3;
  Some (x .^ (T (1 ≪ b) .& 0x3f), y .^ u8 (Z.lnot (u8 (i + Z.of_nat j))),
        z .^ u8 (i + Z.of_nat j)).
Proof.
  induction n as [|n IH]; intros i j b dat r1 r2 r3 Hj Hb Hl Hok; [lia|].
  destruct dat as [|d dat]; [cbn in Hl; lia|]. inversion_clear Hok as [|? ? Hd Hok'].
  destruct j as [|j]; cbn [alter list_alter ecc_loop].
  - destruct (T_flip d b Hd Hb) as (Hf & H1 & H2).
    rewrite !T_lookup by done. cbn [mbind option_bind]. rewrite H1, H2, negb_involutive.
    rewrite Z.add_0_r, <- Z.lxor_assoc.
    set (i2 := u8 (Z.lnot (u8 i))). set (i3 := u8 i). set (k := T (1 ≪ b) .& 0x3f).
    destruct (T d .& 0x40 =? 0); cbn [negb]; rewrite <- ecc_loop_xor.
    + done.
    + f_equal; rewrite Z.lxor_assoc, Z.lxor_nilpotent, Z.lxor_0_r; done.
  - rewrite T_lookup by done. cbn [mbind option_bind].
    replace (i + Z.of_nat (S j)) with (i + 1 + Z.of_nat j) by lia.
    case_if; apply IH; try done; cbn in Hl; lia.
Qed.

Lemma ecc_loop_total n : forall i dat r1 r2 r3,
  (n <= length dat)%nat -> Forall (fun d => 0 <= d < 256) dat ->
  is_Some (ecc_loop n i dat r1 r2 r3).
Proof.
  induction n as [|n IH]; intros i dat r1 r2 r3 Hl Hok; [by eexists|].
  destruct dat as [|d dat]; [cbn in Hl; lia|]. inversion_clear Hok as [|? ? Hd Hok'].
  cbn [ecc_loop]. rewrite T_lookup by done. cbn [mbind option_bind].
  case_if; apply IH; try done; cbn in Hl; lia.
Qed.

Lemma ecc_tmp1_xor a b c d : ecc_tmp1 (a .^ c) (b .^ d) = ecc_tmp1 a b .^ ecc_tmp1 c d.
Proof. unfold ecc_tmp1. bits8. Qed.
Lemma ecc_tmp2_xor a b c d : ecc_tmp2 (a .^ c) (b .^ d) = ecc_tmp2 a b .^ ecc_tmp2 c d.
Proof. unfold ecc_tmp2. bits8. Qed.
Lemma ecc_tmp1_u8 a b : u8 (ecc_tmp1 a b) = ecc_tmp1 a b.
Proof. unfold ecc_tmp1. bits8. Qed.
Lemma ecc_tmp2_u8 a b : u8 (ecc_tmp2 a b) = ecc_tmp2 a b.
Proof. unfold ecc_tmp2. bits8. Qed.
Lemma lnot_xor a b : u8 (Z.lnot a) .^ u8 (Z.lnot b) = u8 (a .^ b).
Proof. bits8. Qed.
Lemma ecc2_xor a b :
  u8 ((Z.lnot a ≪ 2) .| 0x03) .^ u8 ((Z.lnot b ≪ 2) .| 0x03) = u8 ((a .^ b) ≪ 2).
Proof. bits8. Qed.

Definition xor3 (p q : Z * Z * Z) : Z * Z * Z :=
  let '(a, b, c) := p in let '(x, y, z) := q in (a .^ x, b .^ y, c .^ z).

(** The difference of the codes of two blocks that differ in bit [b] of byte [j]. *)
Definition syndrome (j b : Z) : Z * Z * Z :=
  (ecc_tmp1 (u8 j) (u8 (Z.lnot (u8 j))), ecc_tmp2 (u8 j) (u8 (Z.lnot (u8 j))),
   u8 ((T (1 ≪ b) .& 0x3f) ≪ 2)).

Definition block (dat : list Z) : Prop :=
  length dat = 256%nat /\ Forall (fun d => 0 <= d < 256) dat.

Lemma block_flip dat j b : block dat -> 0 <= b < 8 -> block (alter (flip b) j dat).
Proof.
  intros [Hl Hok] Hb. split; [by rewrite length_alter|].
  apply Forall_alter; [done|]. intros d _ Hd. by apply T_flip.
Qed.

Lemma xor_cancel_l a b : (a .^ b) .^ a = b.
Proof. by rewrite (Z.lxor_comm a), Z.lxor_assoc, Z.lxor_nilpotent, Z.lxor_0_r. Qed.

Lemma calculate_flip dat (j : nat) b :
  block dat -> (j < 256)%nat -> 0 <= b < 8 ->
  exists e e', nand_calculate_ecc dat = Some e
    /\ nand_calculate_ecc (alter (flip b) j dat) = Some e'
    /\ xor3 e' e = syndrome (Z.of_nat j) b.
Proof.
  intros [Hl Hok] Hj Hb. unfold nand_calculate_ecc.
  rewrite ecc_loop_flip by (done || lia).
  destruct (ecc_loop_total 256 0 dat 0 0 0) as [[[x y] z] Hlp]; [lia|done|].
  rewrite Hlp. cbn [mbind option_bind]. eexists _, _. split_and!; [done|done|].
  unfold xor3, syndrome. rewrite Z.add_0_l.
  rewrite !lnot_xor, ecc2_xor, ecc_tmp1_xor, ecc_tmp2_xor, !xor_cancel_l.
  by rewrite ecc_tmp1_u8, ecc_tmp2_u8.
Qed.

(** ** What a syndrome makes [nand_correct_data] do *)
Definition single_pattern (s : Z * Z * Z) : bool :=
  let '(s1, s0, s2) := s in
  ((s0 .^ (s0 ≫ 1)) .& 0x55 =? 0x55) && ((s1 .^ (s1 ≫ 1)) .& 0x55 =? 0x55)
  && ((s2 .^ (s2 ≫ 1)) .& 0x54 =? 0x54).
Definition zero_pattern (s : Z * Z * Z) : bool :=
  let '(s1, s0, s2) := s in s0 .| s1 .| s2 =? 0.
Definition pattern_bits (s : Z * Z * Z) : Z :=
  let '(s1, s0, s2) := s in countbits (s0 .| (s1 ≪ 8) .| (s2 ≪ 16)).

Lemma correct_pattern dat r c s1 s0 s2 :
  xor3 c r = (s1, s0, s2) ->
  nand_correct_data dat r c =
    if zero_pattern (s1, s0, s2) then Some (0, dat)
    else if single_pattern (s1, s0, s2) then
      d ← dat !! Z.to_nat (ecc_byteoffs s0 s1);
      Some (1, <[Z.to_nat (ecc_byteoffs s0 s1) := u8 (d .^ (1 ≪ ecc_bitnum s2))]> dat)
    else if pattern_bits (s1, s0, s2) =? 1 then Some (1, dat)
    else Some (- EBADMSG, dat).
Proof. destruct r as [[r0 r1] r2], c as [[c0 c1] c2]. cbn. by intros [= <- <- <-]. Qed.

Lemma syndrome_single j b :
  0 <= j < 256 -> 0 <= b < 8 ->
  zero_pattern (syndrome j b) = false /\ single_pattern (syndrome j b) = true
  /\ (let '(s1, s0, s2) := syndrome j b in
      ecc_byteoffs s0 s1 = j /\ ecc_bitnum s2 = b).
Proof.
  intros Hj Hb.
  assert (H : all_below 256 (fun j => all_below 8 (fun b =>
    negb (zero_pattern (syndrome j b)) && single_pattern (syndrome j b)
    && (let '(s1, s0, s2) := syndrome j b in
        (ecc_byteoffs s0 s1 =? j) && (ecc_bitnum s2 =? b)))) = true)
    by (vm_compute; reflexivity).
  pose proof (all_below_spec _ _ (all_below_spec _ _ H j Hj) b Hb) as Hc. cbn beta in Hc.
  destruct (syndrome j b) as [[s1 s0] s2].
  rewrite !andb_true_iff, negb_true_iff in Hc. destruct Hc as [[? ?] [? ?]].
  split_and!; lia || done.
Qed.

(** Two flips in different places never look like one, nor like a flipped code bit. *)
Lemma syndrome_double d b1 b2 :
  0 <= d < 256 -> 0 <= b1 < 8 -> 0 <= b2 < 8 -> d <> 0 \/ b1 <> b2 ->
  let s := (ecc_tmp1 d d, ecc_tmp2 d d,
            u8 ((T (1 ≪ b1) .& 0x3f) ≪ 2) .^ u8 ((T (1 ≪ b2) .& 0x3f) ≪ 2)) in
  zero_pattern s = false /\ single_pattern s = false /\ (pattern_bits s =? 1) = false.
Proof.
  intros Hd Hb1 Hb2 Hne s.
  assert (H : all_below 256 (fun d => all_below 8 (fun b1 => all_below 8 (fun b2 =>
    let s := (ecc_tmp1 d d, ecc_tmp2 d d,
              u8 ((T (1 ≪ b1) .& 0x3f) ≪ 2) .^ u8 ((T (1 ≪ b2) .& 0x3f) ≪ 2)) in
    ((d =? 0) && (b1 =? b2))
    || negb (zero_pattern s) && negb (single_pattern s) && negb (pattern_bits s =? 1)))) = true)
    by (vm_compute; reflexivity).
  pose proof (all_below_spec _ _ (all_below_spec _ _ (all_below_spec _ _ H d Hd) b1 Hb1) b2 Hb2)
    as Hc. cbn beta zeta in Hc. fold s in Hc.
  rewrite orb_true_iff, !andb_true_iff, !negb_true_iff in Hc.
  destruct Hc as [?|[[? ?] ?]]; [lia|]. by split_and!.
Qed.

Lemma flip_flip b d : 0 <= d < 256 -> 0 <= b < 8 -> u8 (flip b d .^ (1 ≪ b)) = d.
Proof.
  intros Hd Hb. unfold flip. rewrite Z.lxor_assoc, Z.lxor_nilpotent, Z.lxor_0_r.
  by apply u8_small.
Qed.

Lemma xor_chain x y z : z .^ x = (y .^ x) .^ (z .^ y).
Proof.
  apply Z.bits_inj'. intros n Hn. rewrite !Z.lxor_spec.
  by destruct (Z.testbit x n), (Z.testbit y n), (Z.testbit z n).
Qed.

(** *** Theorems *)

(** C1: for every block and every single flipped bit, correction with the code of the
    original block restores the block and reports one corrected bit. *)
Theorem nand_ecc_corrects_one_bit dat (j : nat) b
    (Hblk : block dat) (Hj : (j < 256)%nat) (Hb : 0 <= b < 8) :
  exists read_ecc calc_ecc, nand_calculate_ecc dat = Some read_ecc
    /\ nand_calculate_ecc (alter (flip b) j dat) = Some calc_ecc
    /\ nand_correct_data (alter (flip b) j dat) read_ecc calc_ecc = Some (1, dat).
Proof.
  destruct (calculate_flip dat j b Hblk Hj Hb) as (e & e' & He & He' & Hs).
  exists e, e'. split_and!; [done|done|].
  destruct (syndrome_single (Z.of_nat j) b) as (Hz & H1 & Hloc); [lia|done|].
  destruct (syndrome (Z.of_nat j) b) as [[s1 s0] s2]. destruct Hloc as [Hoff Hbit].
  rewrite (correct_pattern _ _ _ _ _ _ Hs), Hz, H1, Hoff, Hbit, Nat2Z.id.
  destruct Hblk as [Hl Hok].
  destruct (lookup_lt_is_Some_2 dat j) as [d Hd]; [lia|].
  rewrite list_lookup_alter_eq, Hd. cbn. rewrite flip_flip; [|apply (Forall_lookup_1 _ _ _ _ Hok Hd)|done].
  do 2 f_equal. apply list_eq. intros i.
  destruct (decide (i = j)) as [->|].
  - rewrite list_lookup_insert_eq by (rewrite length_alter; lia). done.
  - by rewrite list_lookup_insert_ne, list_lookup_alter_ne by done.
Qed.

(** C5: two flipped bits in different places are reported as uncorrectable and the data is
    left as it was read. *)
Theorem nand_ecc_detects_two_bits dat (j1 j2 : nat) b1 b2
    (Hblk : block dat) (Hj1 : (j1 < 256)%nat) (Hj2 : (j2 < 256)%nat)
    (Hb1 : 0 <= b1 < 8) (Hb2 : 0 <= b2 < 8) (Hne : j1 <> j2 \/ b1 <> b2) :
  let bad := alter (flip b2) j2 (alter (flip b1) j1 dat) in
  exists read_ecc calc_ecc, nand_calculate_ecc dat = Some read_ecc
    /\ nand_calculate_ecc bad = Some calc_ecc
    /\ nand_correct_data bad read_ecc calc_ecc = Some (- EBADMSG, bad).
Proof.
  intros bad.
  destruct (calculate_flip dat j1 b1 Hblk Hj1 Hb1) as (e & e1 & He & He1 & Hs1).
  destruct (calculate_flip _ j2 b2 (block_flip dat j1 b1 Hblk Hb1) Hj2 Hb2)
    as (e1' & e2 & He1' & He2 & Hs2).
  exists e, e2. split_and!; [done|done|]. simplify_eq.
  set (d := u8 (Z.of_nat j1) .^ u8 (Z.of_nat j2)).
  assert (Hx : xor3 e2 e = (ecc_tmp1 d d, ecc_tmp2 d d,
      u8 ((T (1 ≪ b1) .& 0x3f) ≪ 2) .^ u8 ((T (1 ≪ b2) .& 0x3f) ≪ 2))).
  { assert (Hchain : xor3 e2 e = xor3 (xor3 e1 e) (xor3 e2 e1)).
    { destruct e as [[a0 a1] a2], e1 as [[m0 m1] m2], e2 as [[n0 n1] n2]; cbn.
      by rewrite (xor_chain a0 m0), (xor_chain a1 m1), (xor_chain a2 m2). }
    rewrite Hchain, Hs1, Hs2. unfold syndrome, xor3.
    rewrite <- ecc_tmp1_xor, <- ecc_tmp2_xor, lnot_xor.
    assert (Hd : u8 d = d) by (unfold d; bits8). fold d. by rewrite Hd. }
  assert (Hd : 0 <= d < 256 /\ (d = 0 -> j1 = j2)).
  { assert (Hu : u8 d = d) by (unfold d; bits8). split; [rewrite <- Hu; apply u8_range|].
    intros H0%Z.lxor_eq. rewrite !u8_small in H0 by lia. lia. }
  destruct (syndrome_double d b1 b2) as (Hz & H1 & H2); [tauto|done|done|lia|].
  by rewrite (correct_pattern _ _ _ _ _ _ Hx), Hz, H1, H2.
Qed.

(** Flipping bit [k] of the three code bytes, counted from the first byte. *)
Definition flip_ecc (k : Z) (e : Z * Z * Z) : Z * Z * Z :=
  xor3 e (if k <? 8 then (1 ≪ k, 0, 0) else if k <? 16 then (0, 1 ≪ (k - 8), 0)
          else (0, 0, 1 ≪ (k - 16))).

(** An intact block is accepted, and one flipped bit in the stored code is reported as
    corrected without touching the data. *)
Theorem nand_ecc_code_bit_error dat e k (Hk : 0 <= k < 24) :
  nand_correct_data dat e e = Some (0, dat)
  /\ nand_correct_data dat (flip_ecc k e) e = Some (1, dat).
Proof.
  split.
  - rewrite (correct_pattern dat e e 0 0 0); [done|].
    destruct e as [[? ?] ?]. cbn. by rewrite !Z.lxor_nilpotent.
  - set (s := xor3 (0, 0, 0) (flip_ecc k (0, 0, 0))).
    assert (Hs : xor3 e (flip_ecc k e) = s).
    { destruct e as [[e0 e1] e2]. unfold s, flip_ecc.
      destruct (if k <? 8 then _ else _) as [[x y] z]. cbn.
      by rewrite <- !Z.lxor_assoc, !Z.lxor_nilpotent, !Z.lxor_0_l. }
    assert (H : all_below 24 (fun k => let s := xor3 (0, 0, 0) (flip_ecc k (0, 0, 0)) in
      negb (zero_pattern s) && negb (single_pattern s) && (pattern_bits s =? 1)) = true)
      by (vm_compute; reflexivity).
    pose proof (all_below_spec _ _ H k Hk) as Hc. cbn beta zeta in Hc. fold s in Hc.
    rewrite !andb_true_iff, !negb_true_iff in Hc. destruct Hc as [[Hz H1] H2].
    destruct s as [[s1 s0] s2].
    by rewrite (correct_pattern _ _ _ _ _ _ Hs), Hz, H1, H2.
Qed.

Definition blank : list Z := replicate 256 0xff.
Lemma blank_block : block blank.
Proof. split; [done|]. apply Forall_replicate. lia. Qed.

Lemma nand_ecc_corrects_one_bit_witness :
  exists read_ecc calc_ecc, nand_calculate_ecc blank = Some read_ecc
    /\ nand_calculate_ecc (alter (flip 5) 77%nat blank) = Some calc_ecc
    /\ nand_correct_data (alter (flip 5) 77%nat blank) read_ecc calc_ecc = Some (1, blank).
Proof. apply (nand_ecc_corrects_one_bit blank 77 5 blank_block); lia. Defined.

Lemma nand_ecc_detects_two_bits_witness :
  let bad := alter (flip 5) 78%nat (alter (flip 5) 77%nat blank) in
  exists read_ecc calc_ecc, nand_calculate_ecc blank = Some read_ecc
    /\ nand_calculate_ecc bad = Some calc_ecc
    /\ nand_correct_data bad read_ecc calc_ecc = Some (- EBADMSG, bad).
Proof. apply (nand_ecc_detects_two_bits blank 77 78 5 5 blank_block); lia. Defined.

Lemma nand_ecc_code_bit_error_witness :
  nand_correct_data blank (0xff, 0xff, 0xff) (0xff, 0xff, 0xff) = Some (0, blank)
  /\ nand_correct_data blank (flip_ecc 9 (0xff, 0xff, 0xff)) (0xff, 0xff, 0xff) = Some (1, blank).
Proof. apply (nand_ecc_code_bit_error blank (0xff, 0xff, 0xff) 9). lia. Defined.
