(* ===== verification/Qsort.v ===== *)
(** * Sorting: [lib/qsort.c]

    The shell sort of an array of [nel] elements.  An element of [width] bytes is one value
    and the indices [i], [j] and [wgap] count elements instead of bytes; an access outside
    of the array is a fault ([None]). *)
From S2P Require Import Prelude.

Section qsort.
Context {A : Type} (comp : A -> A -> Z).

(** [do { ... } while (j >= wgap)]: exchange with the element [wgap] places below until
    the order holds.  [j] decreases, so its first value bounds the iterations. *)
Fixpoint sift (n : nat) (a : list A) (wgap j : nat) : option (list A) :=
  match n with
  | O => None
  | S n =>
      let j := (j - wgap)%nat in
      x ← a !! j; y ← a !! (j + wgap)%nat;
      if comp x y <=? 0 then Some a
      else
        let a := <[j := y]> (<[(j + wgap)%nat := x]> a) in
        if (wgap <=? j)%nat then sift n a wgap j else Some a
  end.

(** [do { ... i += width; } while (i < nel)] *)
Fixpoint qsort_pass (n : nat) (a : list A) (wgap i : nat) : option (list A) :=
  match n with
  | O => None
  | S n =>
      a ← sift (S i) a wgap i;
      if (S i <? length a)%nat then qsort_pass n a wgap (S i) else Some a
  end.

(** [do { ... wgap = (wgap - width)/3; } while (wgap)] *)
Fixpoint qsort_gaps (n : nat) (a : list A) (wgap : nat) : option (list A) :=
  match n with
  | O => None
  | S n =>
      a ← qsort_pass (length a) a wgap wgap;
      let wgap := ((wgap - 1) / 3)%nat in
      if (wgap =? 0)%nat then Some a else qsort_gaps n a wgap
  end.

(** [do { wgap = 3 * wgap + 1; } while (wgap < (nel-1)/3)] *)
Fixpoint first_gap (n : nat) (nel wgap : nat) : nat :=
  match n with
  | O => wgap
  | S n =>
      let wgap := (3 * wgap + 1)%nat in
      if (wgap <? (nel - 1) / 3)%nat then first_gap n nel wgap else wgap
  end.

Definition qsort (a : list A) : option (list A) :=
  let nel := length a in
  if (1 <? nel)%nat then
    let wgap := first_gap nel nel 0 in qsort_gaps wgap a wgap
  else Some a.

(** ** Every pass permutes *)
Lemma sift_perm n : forall a wgap j, (1 <= wgap <= j)%nat -> (j < length a)%nat -> (j < n)%nat ->
  exists a', sift n a wgap j = Some a' /\ a' ≡ₚ a.
Proof.
  induction n as [|n IH]; intros a wgap j Hg Hj Hn; [lia|]. cbn [sift].
  destruct (lookup_lt_is_Some_2 a (j - wgap)) as [x Hx]; [lia|].
  destruct (lookup_lt_is_Some_2 a (j - wgap + wgap)) as [y Hy]; [lia|].
  rewrite Hx, Hy. cbn [mbind option_bind]. case_if; [by exists a|].
  assert (<[(j - wgap)%nat := y]> (<[(j - wgap + wgap)%nat := x]> a) ≡ₚ a) as Hp
    by by apply Permutation_insert_swap.
  case_if; [|by eexists].
  destruct (IH (<[(j - wgap)%nat := y]> (<[(j - wgap + wgap)%nat := x]> a)) wgap (j - wgap)%nat)
    as (a' & -> & Ha'); [lia|by rewrite !length_insert; lia|lia|].
  exists a'. split; [done|]. by rewrite Ha'.
Qed.

Lemma qsort_pass_perm n : forall a wgap i, (1 <= wgap <= i)%nat -> (i < length a)%nat ->
  (length a <= i + n)%nat -> exists a', qsort_pass n a wgap i = Some a' /\ a' ≡ₚ a.
Proof.
  induction n as [|n IH]; intros a wgap i Hg Hi Hn; [lia|]. cbn [qsort_pass].
  destruct (sift_perm (S i) a wgap i) as (a' & -> & Ha'); [lia..|]. cbn [mbind option_bind].
  pose proof (Permutation_length Ha') as Hl.
  case_if; [|by exists a'].
  destruct (IH a' wgap (S i)) as (a'' & -> & Ha''); [lia..|].
  exists a''. split; [done|]. by rewrite Ha''.
Qed.

(** ** The pass with gap 1 is an insertion sort

    The comparison is a total preorder on the elements that satisfy [P]. *)
Context (P : A -> Prop)
  (Htotal : forall x y, P x -> P y -> comp x y <= 0 \/ comp y x <= 0)
  (Htrans : forall x y z, P x -> P y -> P z -> comp x y <= 0 -> comp y z <= 0 -> comp x z <= 0).
Definition ordered (x y : A) : Prop := comp x y <= 0.

Lemma swap_adjacent (p r : list A) x y :
  <[length p := y]> (<[S (length p) := x]> (p ++ x :: y :: r)) = p ++ y :: x :: r.
Proof. induction p as [|z p IH]; cbn; [done|]. by f_equal. Qed.

Lemma sift_insert x : P x -> forall p r n, Forall P p -> StronglySorted ordered p -> p <> [] -> (length p < n)%nat ->
  exists q, sift n (p ++ x :: r) 1 (length p) = Some (q ++ r) /\ StronglySorted ordered q
    /\ q ≡ₚ p ++ [x].
Proof.
  intros Hx0. induction p as [|y p IH] using rev_ind; intros r n HP Hp Hne Hn; [done|].
  apply Forall_app in HP as [HP Hy0]. apply Forall_cons in Hy0 as [Hy0 _].
  assert (forall z, z ∈ p -> P z) as HPin by (intros z; apply (proj1 (Forall_forall P p) HP)).
  rewrite length_app in *. cbn [length] in *.
  destruct n as [|n]; [lia|]. cbn [sift].
  replace (length p + 1 - 1)%nat with (length p) by lia.
  rewrite <- (app_assoc p [y] (x :: r)). cbn [app].
  rewrite (list_lookup_middle p _ y (length p)) by done. cbn [mbind option_bind].
  replace (length p + 1)%nat with (S (length p)) by lia.
  assert ((p ++ y :: x :: r) !! S (length p) = Some x) as Hx.
  { rewrite lookup_app_r by lia. by replace (S (length p) - length p)%nat with 1%nat by lia. }
  rewrite Hx. cbn [mbind option_bind]. rewrite swap_adjacent.
  apply StronglySorted_app in Hp as (Hpy & Hp & _).
  assert (forall z, z ∈ p -> ordered z y) as Hle by (intros z Hz; apply Hpy; [done|in_app]).
  case_if.
  - exists (p ++ [y; x]). rewrite <- !app_assoc. split_and!; [done| |done].
    apply StronglySorted_app. split_and!; [|done|].
    + intros z w Hz Hw. rewrite !elem_of_cons in Hw.
      destruct Hw as [->|[->|Hw]]; [by apply Hle| |by apply not_elem_of_nil in Hw].
      apply (Htrans _ y); [by apply HPin|done|done|by apply Hle|lia].
    + repeat constructor. unfold ordered. lia.
  - assert (ordered x y) as Hxy by (unfold ordered; destruct (Htotal x y Hx0 Hy0); [done|lia]).
    assert (forall q, StronglySorted ordered q -> q ≡ₚ p ++ [x] -> StronglySorted ordered (q ++ [y])) as Hq.
    { intros q Hs Hperm. apply StronglySorted_app. split_and!; [|done|repeat constructor].
      intros z w Hz ->%list_elem_of_singleton. rewrite Hperm in Hz.
      rewrite elem_of_app, list_elem_of_singleton in Hz. destruct Hz as [Hz| ->]; [by apply Hle|done]. }
    case_if.
    + destruct (IH (y :: r) n HP Hp) as (q & -> & Hs & Hperm); [intros ->; cbn in *; lia|lia|].
      exists (q ++ [y]). rewrite <- app_assoc. split_and!; [done|by apply Hq|].
      rewrite Hperm. solve_Permutation.
    + destruct p; [|cbn in *; lia]. exists ([x] ++ [y]). split_and!; [done| |solve_Permutation].
      apply Hq; [repeat constructor|done].
Qed.

Lemma qsort_pass_sorted n : forall p r, Forall P (p ++ r) -> StronglySorted ordered p -> p <> [] -> r <> [] ->
  (length r <= n)%nat ->
  exists a', qsort_pass n (p ++ r) 1 (length p) = Some a' /\ StronglySorted ordered a'.
Proof.
  induction n as [|n IH]; intros p [|x r] HP Hp Hne Hr Hn; cbn [length] in *; try done; [lia|].
  cbn [qsort_pass]. apply Forall_app in HP as [HPp HPr]. apply Forall_cons in HPr as [HPx HPr].
  destruct (sift_insert x HPx p r (S (length p)) HPp Hp Hne) as (q & -> & Hq & Hperm); [lia|].
  assert (Forall P q) as HPq.
  { rewrite Hperm. apply Forall_app. split; [done|]. by apply Forall_cons. }
  cbn [mbind option_bind]. apply Permutation_length in Hperm. rewrite length_app in *. cbn in Hperm.
  replace (S (length p)) with (length q) by lia.
  destruct r as [|z r].
  - rewrite app_nil_r. case_if; [cbn [length] in E; lia|]. by exists q.
  - case_if; [|cbn [length] in E; lia]. apply IH; [by apply Forall_app|done|intros ->; cbn in *; lia|done|cbn [length] in *; lia].
Qed.

(** ** The gaps end with 1 *)
Inductive gap : nat -> Prop :=
| gap_one : gap 1
| gap_next g : gap g -> gap (3 * g + 1).

Lemma gap_pos g : gap g -> (1 <= g)%nat.
Proof. induction 1; lia. Qed.

Lemma qsort_gaps_ok n : forall g a, Forall P a -> gap g -> (g <= n)%nat -> (g < length a)%nat ->
  exists a', qsort_gaps n a g = Some a' /\ a' ≡ₚ a /\ StronglySorted ordered a'.
Proof.
  induction n as [|n IH]; intros g a HP Hgap Hn Ha; [apply gap_pos in Hgap; lia|].
  cbn [qsort_gaps]. pose proof (gap_pos _ Hgap).
  destruct (qsort_pass_perm (length a) a g g) as (a' & Hpass & Ha'); [lia..|].
  pose proof (Permutation_length Ha') as Hl. rewrite Hpass. cbn [mbind option_bind].
  destruct Hgap as [|g Hgap].
  - cbn. exists a'. split_and!; [done|done|].
    destruct a as [|x a]; [cbn in Ha; lia|].
    destruct (qsort_pass_sorted (length (x :: a)) [x] a) as (a'' & Hs & Hsort).
    + done.
    + repeat constructor.
    + done.
    + intros ->. cbn in Ha. lia.
    + cbn. lia.
    + cbn [app length] in Hs, Hpass. rewrite Hs in Hpass. by simplify_eq.
  - pose proof (gap_pos _ Hgap).
    replace ((3 * g + 1 - 1) / 3)%nat with g
      by (rewrite Nat.add_sub, Nat.mul_comm, Nat.div_mul; lia).
    case_if; [lia|].
    destruct (IH g a' ltac:(by rewrite Ha') Hgap) as (a'' & -> & Hp & Hs); [lia..|].
    exists a''. split_and!; [done|by rewrite Hp|done].
Qed.

Lemma first_gap_ok n : forall g nel, gap (3 * g + 1) -> (1 < nel)%nat ->
  (g = 0 \/ g < (nel - 1) / 3)%nat -> (0 < n)%nat ->
  gap (first_gap n nel g) /\ (first_gap n nel g < nel)%nat.
Proof.
  induction n as [|n IH]; intros g nel Hg Hnel Hlt Hn; [lia|]. cbn [first_gap].
  assert (3 * g + 1 < nel)%nat by lia.
  case_if; [|by split]. destruct n as [|n]; [by split|].
  apply IH; [by apply gap_next|done|lia|lia].
Qed.

Lemma qsort_ok a : Forall P a -> exists a', qsort a = Some a' /\ a' ≡ₚ a /\ StronglySorted ordered a'.
Proof.
  intros HP. unfold qsort. case_if.
  - destruct (first_gap_ok (length a) 0 (length a)) as [Hg Hlt]; [constructor|lia..|].
    by apply qsort_gaps_ok.
  - exists a. split_and!; [done|done|].
    destruct a as [|x [|y a]]; [constructor|repeat constructor|cbn in E; lia].
Qed.
End qsort.

(** C37: for a comparison that is a total preorder [qsort] returns, never leaves the array,
    and its result is the sorted permutation of the elements. *)
Theorem qsort_correct {A} (comp : A -> A -> Z) (a : list A)
    (Htotal : forall x y, comp x y <= 0 \/ comp y x <= 0)
    (Htrans : forall x y z, comp x y <= 0 -> comp y z <= 0 -> comp x z <= 0) :
  exists a', qsort comp a = Some a' /\ a' ≡ₚ a
    /\ StronglySorted (fun x y => comp x y <= 0) a'.
Proof.
  apply (qsort_ok comp (fun _ => True)); [intros; apply Htotal|by intros; eapply Htrans|].
  by apply Forall_true.
Qed.

Lemma qsort_correct_witness :
  exists a', qsort Z.sub [5; 3; 9; 1; 7; 3; 8; 2; 6; 4] = Some a'
    /\ a' ≡ₚ [5; 3; 9; 1; 7; 3; 8; 2; 6; 4] /\ StronglySorted (fun x y => x - y <= 0) a'.
Proof. apply (qsort_correct Z.sub); lia. Defined.

Example qsort_run : qsort Z.sub [5; 3; 9; 1; 7; 3; 8; 2; 6; 4] = Some [1; 2; 3; 3; 4; 5; 6; 7; 8; 9].
Proof. reflexivity. Qed.
