(* ===== verification/Hashtable.v ===== *)
(** * The environment hash table: [lib/hashtable.c] and [include/search.h]

    Open addressing with double hashing.  A pointer into the table is the index of its slot;
    a [char *] is [None] when it is [NULL] or dangling; a result [None] is an access through
    such a pointer or outside of the table. *)
From S2P Require Import Prelude Ctype Mem CStr Qsort.

Definition EPERM : Z := 1.
Definition ESRCH : Z := 3.
Definition ENOMEM : Z := 12.
Definition EINVAL : Z := 22.

Inductive env_op := env_op_create | env_op_delete | env_op_overwrite.
Inductive ACTION := FIND | ENTER.

(** [callback] is a function pointer; [EnvHooks.call] runs the function it stands for. *)
Record ENTRY := mkENTRY {
  key : option (list Z);
  data : option (list Z);
  callback : option Z;
  flags : Z }.
Record _ENTRY := mk_ENTRY { used : Z; entry : ENTRY }.
Record hsearch_data := mkhsearch {
  table : option (list _ENTRY);
  size : Z;
  filled : Z;
  change_ok : option (ENTRY -> option (list Z) -> env_op -> Z -> Z) }.

Definition no_ENTRY : ENTRY := mkENTRY None None None 0.
Definition no__ENTRY : _ENTRY := mk_ENTRY 0 no_ENTRY.
Definition set_table (h : hsearch_data) (t : option (list _ENTRY)) : hsearch_data :=
  mkhsearch t (size h) (filled h) (change_ok h).
Definition set_filled (h : hsearch_data) (n : Z) : hsearch_data :=
  mkhsearch (table h) (size h) n (change_ok h).
Definition set_data (e : ENTRY) (d : option (list Z)) : ENTRY :=
  mkENTRY (key e) d (callback e) (flags e).

Definition H_NOCLEAR : Z := 1 ≪ 0.
Definition H_HIDE_DOT : Z := 1 ≪ 3.
Definition H_MATCH_KEY : Z := 1 ≪ 4.
Definition H_MATCH_DATA : Z := 1 ≪ 5.
Definition H_MATCH_IDENT : Z := 1 ≪ 6.
Definition H_MATCH_SUBSTR : Z := 1 ≪ 7.
Definition H_MATCH_REGEX : Z := 1 ≪ 8.
Definition H_MATCH_METHOD : Z := H_MATCH_IDENT .| H_MATCH_SUBSTR .| H_MATCH_REGEX.

(** The functions the table calls: the allocator (a copy of the string, or [NULL]), the two
    functions that look up the attributes of a new variable, and the callbacks of the
    variables, which may change the table. *)
Class EnvHooks := {
  strdup : list Z -> option (list Z);
  calloc_ok : Z -> bool;
  env_callback_init : hsearch_data -> ENTRY -> ENTRY;
  env_flags_init : hsearch_data -> ENTRY -> ENTRY;
  call : Z -> hsearch_data -> list Z -> option (list Z) -> env_op -> Z -> Z * hsearch_data }.

(** A slot of the table, and writing it. *)
Definition slot (h : hsearch_data) (i : Z) : option _ENTRY :=
  t ← table h; t !! Z.to_nat i.
Definition set_slot (h : hsearch_data) (i : Z) (s : _ENTRY) : hsearch_data :=
  set_table h (t ← table h; Some (<[Z.to_nat i := s]> t)).

(** What a function leaves: its value, the entry stored through [retval], [errno] (0 when
    it was not set) and the table. *)
Record hres := mkhres { ret : Z; retval : option Z; errno : Z; tab : hsearch_data }.

(** ** hcreate, hdestroy *)
Fixpoint isprime_loop (n : nat) (number div : Z) : option Z :=
  match n with
  | O => None
  | S n =>
      if (u32 (div * div) <? number) && negb (number mod div =? 0)
      then isprime_loop n number (u32 (div + 2))
      else Some div
  end.
(** [div] grows by 2 up to the square root of a 32-bit number. *)
Definition isprime (number : Z) : option bool :=
  div ← isprime_loop (2 ^ 15)%nat number 3; Some (negb (number mod div =? 0)).

Fixpoint next_prime (n : nat) (nel : Z) : option Z :=
  match n with
  | O => None
  | S n =>
      p ← isprime nel;
      if (p : bool) then Some nel else next_prime n (u32 (nel + 2))
  end.

Section hashtable.
Context `{!EnvHooks}.

Definition hcreate_r (nel : Z) (htab : hsearch_data) : option (Z * hsearch_data) :=
  match table htab with
  | Some _ => Some (0, htab)
  | None =>
      nel ← next_prime (2 ^ 15)%nat (nel .| 1);
      if calloc_ok (nel + 1)
      then Some (1, mkhsearch (Some (replicate (Z.to_nat (nel + 1)) no__ENTRY)) nel 0 (change_ok htab))
      else Some (0, mkhsearch None nel 0 (change_ok htab))
  end.

(** [hdestroy_r] releases the strings of the used slots and the table. *)
Definition hdestroy_r (htab : hsearch_data) : hsearch_data := set_table htab None.

(** ** hsearch *)
Fixpoint hmatch_loop (n : nat) (match_ : list Z) (idx : Z) (htab : hsearch_data)
    : option (option Z) :=
  match n with
  | O => Some None
  | S n =>
      if idx <? size htab then
        s ← slot htab idx;
        if used s <=? 0 then hmatch_loop n match_ (u32 (idx + 1)) htab
        else
          k ← key (entry s);
          if strncmp (length match_) match_ k =? 0 then Some (Some idx)
          else hmatch_loop n match_ (u32 (idx + 1)) htab
      else Some None
  end.
Definition hmatch_r (match_ : list Z) (last_idx : Z) (htab : hsearch_data) : option hres :=
  r ← hmatch_loop (Z.to_nat (size htab)) match_ (u32 (last_idx + 1)) htab;
  match r with
  | Some idx => Some (mkhres idx (Some idx) 0 htab)
  | None => Some (mkhres 0 None ESRCH htab)
  end.

(** A [NULL] [change_ok] or [callback] is not called. *)
Definition ask_change_ok (htab : hsearch_data) (e : ENTRY) (newval : option (list Z))
    (op : env_op) (flag : Z) : Z :=
  match change_ok htab with Some f => f e newval op flag | None => 0 end.
Definition run_callback (htab : hsearch_data) (e : ENTRY) (name : list Z)
    (value : option (list Z)) (op : env_op) (flag : Z) : Z * hsearch_data :=
  match callback e with Some f => call f htab name value op flag | None => (0, htab) end.

Definition _compare_and_overwrite_entry (item : ENTRY) (action : ACTION) (htab : hsearch_data)
    (flag hval idx : Z) : option hres :=
  s ← slot htab idx;
  if u32 (used s) =? hval then
    ik ← key item; k ← key (entry s);
    if strcmp ik k =? 0 then
      match action, data item with
      | ENTER, Some d =>
          if negb (ask_change_ok htab (entry s) (Some d) env_op_overwrite flag =? 0) then
            Some (mkhres 0 None EPERM htab)
          else
            let (r, htab) := run_callback htab (entry s) ik (Some d) env_op_overwrite flag in
            if negb (r =? 0) then Some (mkhres 0 None EINVAL htab)
            else
              s ← slot htab idx;
              let htab := set_slot htab idx (mk_ENTRY (used s) (set_data (entry s) (strdup d))) in
              match strdup d with
              | None => Some (mkhres 0 None ENOMEM htab)
              | Some _ => Some (mkhres idx (Some idx) 0 htab)
              end
      | _, _ => Some (mkhres idx (Some idx) 0 htab)
      end
    else Some (mkhres (-1) None 0 htab)
  else Some (mkhres (-1) None 0 htab).

Definition _hdelete (htab : hsearch_data) (idx : Z) : option hsearch_data :=
  s ← slot htab idx;
  let htab := set_slot htab idx (mk_ENTRY (-1) (mkENTRY None None None 0)) in
  Some (set_filled htab (u32 (filled htab - 1))).

(** [while (count-- > 0) { hval <<= 4; hval += item.key[count]; }]: from the last character
    to the first. *)
Definition hash_step (c hval : Z) : Z := u32 (u32 (hval ≪ 4) + s8 c).
Definition hash (k : list Z) (sz : Z) : Z :=
  let hval := foldr hash_step (u32 (zlen k)) k in
  let hval := hval mod sz in
  if hval =? 0 then 1 else hval.

(** The probes after the first one: [inl idx] where the loop stops without the key. *)
Fixpoint hsearch_loop (n : nat) (item : ENTRY) (action : ACTION) (htab : hsearch_data)
    (flag hval hval2 idx : Z) : option (Z + hres) :=
  match n with
  | O => None
  | S n =>
      let idx := if idx <=? hval2 then u32 (size htab + idx - hval2) else u32 (idx - hval2) in
      if idx =? hval then Some (inl idx)
      else
        r ← _compare_and_overwrite_entry item action htab flag hval idx;
        if negb (ret r =? -1) then Some (inr r)
        else
          s ← slot htab idx;
          if used s =? 0 then Some (inl idx)
          else hsearch_loop n item action htab flag hval hval2 idx
  end.

(** The part of [hsearch_r] behind the search: a new entry at the slot [idx]. *)
Definition hsearch_enter (item : ENTRY) (ik : list Z) (htab : hsearch_data)
    (flag hval idx first_deleted : Z) : option hres :=
  if filled htab =? size htab then Some (mkhres 0 None ENOMEM htab)
  else
    let idx := if negb (first_deleted =? 0) then first_deleted else idx in
    s ← slot htab idx;
    let k := strdup ik in
    let d := d ← data item; strdup d in
    let e := mkENTRY k d (callback (entry s)) (flags (entry s)) in
    let htab := set_slot htab idx (mk_ENTRY hval e) in
    match k, d with
    | Some _, Some _ =>
        let htab := set_filled htab (u32 (filled htab + 1)) in
        let e := env_callback_init htab e in
        let htab := set_slot htab idx (mk_ENTRY hval e) in
        let e := env_flags_init htab e in
        let htab := set_slot htab idx (mk_ENTRY hval e) in
        if negb (ask_change_ok htab e (data item) env_op_create flag =? 0) then
          htab ← _hdelete htab idx; Some (mkhres 0 None EPERM htab)
        else
          let (r, htab) := run_callback htab e ik (data item) env_op_create flag in
          if negb (r =? 0) then
            htab ← _hdelete htab idx; Some (mkhres 0 None EINVAL htab)
          else Some (mkhres 1 (Some idx) 0 htab)
    | _, _ => Some (mkhres 0 None ENOMEM htab)
    end.

Definition hsearch_r (item : ENTRY) (action : ACTION) (htab : hsearch_data) (flag : Z)
    : option hres :=
  ik ← key item;
  let hval := hash ik (size htab) in
  let idx := hval in
  s ← slot htab idx;
  '(first_deleted, found) ←
    (if negb (used s =? 0) then
      let first_deleted := if used s =? -1 then idx else 0 in
      r ← _compare_and_overwrite_entry item action htab flag hval idx;
      if negb (ret r =? -1) then Some (first_deleted, inr r)
      else
        let hval2 := 1 + hval mod u32 (size htab - 2) in
        f ← hsearch_loop (Z.to_nat (size htab)) item action htab flag hval hval2 idx;
        Some (first_deleted, f)
    else Some (0, inl idx));
  match found with
  | inr r => Some r
  | inl idx =>
      match action with
      | ENTER => hsearch_enter item ik htab flag hval idx first_deleted
      | FIND => Some (mkhres 0 None ESRCH htab)
      end
  end.

(** ** hdelete *)
Definition hdelete_r (k : list Z) (htab : hsearch_data) (flag : Z) : option hres :=
  r ← hsearch_r (mkENTRY (Some k) None None 0) FIND htab 0;
  let idx := ret r in
  let htab := tab r in
  if idx =? 0 then Some (mkhres 0 None ESRCH htab)
  else
    s ← slot htab idx;
    if negb (ask_change_ok htab (entry s) None env_op_delete flag =? 0) then
      Some (mkhres 0 None EPERM htab)
    else
      let (c, htab) := run_callback htab (entry s) k None env_op_delete flag in
      if negb (c =? 0) then Some (mkhres 0 None EINVAL htab)
      else htab ← _hdelete htab idx; Some (mkhres 1 None 0 htab).
End hashtable.
