(* ===== verification/HashProbe.v ===== *)
(** * Prime sizes and the probe sequence of the hash table

    Number theory for [Hashtable]: the primality test of [lib/hashtable.c] and the sequence
    of the slots that double hashing visits. *)
From S2P Require Import Prelude Ctype Mem CStr Qsort Hashtable.
From Stdlib Require Import Znumtheory.
#[local] Open Scope Z_scope.

(** ** The primality test *)
Definition odd_trial (number div : Z) : Prop :=
  forall d, 3 <= d < div -> Z.odd d = true -> number mod d <> 0.

Lemma isprime_loop_ok n : forall number div,
  3 <= div -> Z.odd div = true -> div <= 65537 -> 5 <= number < 0x80000000 ->
  (div = 3 \/ (div - 2) * (div - 2) < number) ->
  65537 - div < 2 * Z.of_nat n -> odd_trial number div ->
  exists div', isprime_loop n number div = Some div' /\ 3 <= div' /\ Z.odd div' = true
    /\ (number <= div' * div' \/ number mod div' = 0) /\ div' < number
    /\ odd_trial number div'.
Proof.
  induction n as [|n IH]; intros number div H3 Hodd Hle Hn Hprev Hfuel Htrial; [lia|].
  cbn [isprime_loop].
  assert (div <= 46343) as Hdiv by nia.
  rewrite (u32_small (div * div)) by nia. rewrite u32_small by lia.
  case_if.
  - apply IH; try lia; try nia.
    + by rewrite Z.odd_add, Hodd.
    + intros d Hd Hd'. destruct (decide (d < div)); [apply Htrial; [lia|done]|].
      destruct (decide (d = div)) as [->|]; [lia|]. assert (d = div + 1) as -> by lia.
      rewrite Z.odd_add, Hodd in Hd'. done.
  - exists div. split_and!; try done; [lia|]. destruct Hprev as [->|Hprev]; [lia|nia].
Qed.

Lemma odd_trial_prime number div :
  5 <= number -> Z.odd number = true -> 3 <= div -> number <= div * div ->
  number mod div <> 0 -> Z.odd div = true -> odd_trial number div -> prime number.
Proof.
  intros Hn Hodd H3 Hsq Hdiv Hdodd Htrial. apply prime_alt. split; [lia|].
  assert (forall d, 1 < d -> d * d <= number -> ~ (d | number)) as Hsmall.
  { intros d Hd Hdd Hdn. assert (Z.odd d = true) as Ho.
    { destruct Hdn as [q ->]. rewrite Z.odd_mul in Hodd. by apply andb_prop in Hodd as [_ ?]. }
    assert (number mod d = 0) as Hm by (by apply Z.mod_divide; [lia|]).
    destruct (decide (d = 2)) as [->|]; [done|].
    destruct (decide (d < div)); [apply (Htrial d); [lia|done|done]|].
    assert (d = div) as -> by nia. done. }
  intros d Hd [q Hq].
  destruct (decide (d * d <= number)).
  - apply (Hsmall d); [lia|done|]. by exists q.
  - apply (Hsmall q); [nia|nia|]. exists d. lia.
Qed.

Lemma isprime_ok number : 5 <= number < 0x80000000 -> Z.odd number = true ->
  exists b, isprime number = Some b /\ (b = true <-> prime number).
Proof.
  intros Hn Hodd. unfold isprime.
  destruct (isprime_loop_ok (2 ^ 15)%nat number 3) as (div & -> & H3 & Hdodd & Hstop & Hlt & Htrial);
    try done; try lia.
  { intros d Hd. lia. }
  cbn. eexists. split; [done|]. rewrite negb_true_iff, Z.eqb_neq. split.
  - intros Hm. destruct Hstop as [Hsq|]; [|done]. apply (odd_trial_prime number div); (done || lia).
  - intros Hp Hm. apply prime_alt in Hp as [_ Hp]. apply (Hp div); [lia|].
    by apply Z.mod_divide; [lia|].
Qed.

(** ** The probe sequence *)
(** The [j]-th slot that is looked at for the hash value [hv]. *)
Definition second_hash (sz hv : Z) : Z := 1 + hv mod (sz - 2).
Definition pos (sz hv j : Z) : Z := (hv - j * second_hash sz hv - 1) mod sz + 1.

Section probe.
Context (sz hv : Z) (Hsz : 5 <= sz) (Hhv : 1 <= hv < sz).
#[local] Abbreviation hv2 := (second_hash sz hv).

Lemma second_hash_range : 1 <= hv2 <= sz - 2.
Proof. unfold second_hash. pose proof (Z.mod_pos_bound hv (sz - 2)). lia. Qed.

Lemma pos_range j : 1 <= pos sz hv j <= sz.
Proof. unfold pos. pose proof (Z.mod_pos_bound (hv - j * hv2 - 1) sz). lia. Qed.

Lemma pos_0 : pos sz hv 0 = hv.
Proof. unfold pos. rewrite Z.mod_small; lia. Qed.

Lemma pos_next j : pos sz hv (j + 1) =
  if pos sz hv j <=? hv2 then sz + pos sz hv j - hv2 else pos sz hv j - hv2.
Proof.
  unfold pos. pose proof second_hash_range.
  replace (hv - (j + 1) * hv2 - 1) with (hv - j * hv2 - 1 - hv2) by lia.
  set (x := hv - j * hv2 - 1). pose proof (Z.mod_pos_bound x sz ltac:(lia)).
  rewrite Zminus_mod, (Z.mod_small hv2) by lia.
  case_if.
  - rewrite <- (Z.mod_add _ 1), Z.mod_small by lia. lia.
  - rewrite Z.mod_small by lia. lia.
Qed.

Context (Hprime : prime sz).

Lemma pos_inj i j : 0 <= i < sz -> 0 <= j < sz -> pos sz hv i = pos sz hv j -> i = j.
Proof.
  intros Hi Hj Heq. unfold pos in Heq. pose proof second_hash_range.
  assert ((hv - i * hv2 - 1) mod sz = (hv - j * hv2 - 1) mod sz) as Hm by lia.
  assert (sz | (i - j) * hv2) as Hd.
  { apply Z.mod_divide; [lia|].
    replace ((i - j) * hv2) with ((hv - j * hv2 - 1) - (hv - i * hv2 - 1)) by lia.
    rewrite Zminus_mod, Hm, Z.sub_diag. done. }
  apply prime_mult in Hd; [|done]. destruct Hd as [[q Hq]|[q Hq]]; [|exfalso; destruct (decide (q <= 0)); nia].
  assert (q = 0) as -> by (destruct (decide (q <= 0)), (decide (0 <= q)); nia). lia.
Qed.

Lemma pos_hv j : 0 <= j <= sz -> pos sz hv j = hv -> j = 0 \/ j = sz.
Proof.
  intros Hj Heq. destruct (decide (j = sz)); [by right|]. left.
  apply pos_inj; [lia|lia|]. by rewrite pos_0.
Qed.
Lemma pos_sz : pos sz hv sz = hv.
Proof.
  unfold pos. replace (hv - sz * hv2 - 1) with (hv - 1 + (- hv2) * sz) by lia.
  rewrite Z.mod_add, Z.mod_small; lia.
Qed.

(** Double hashing with a prime size visits every slot. *)
Lemma pos_surj i : 1 <= i <= sz -> exists j, 0 <= j < sz /\ pos sz hv j = i.
Proof.
  intros Hi. pose proof second_hash_range.
  assert (rel_prime hv2 sz) as Hrel.
  { apply rel_prime_sym, prime_rel_prime; [done|]. intros [q Hq]. destruct (decide (q <= 0)); nia. }
  apply rel_prime_bezout in Hrel as [u v Huv].
  exists (((hv - i) * u) mod sz). split; [apply Z.mod_pos_bound; lia|].
  unfold pos. rewrite (Zmod_eq ((hv - i) * u) sz) by lia. set (q := (hv - i) * u / sz).
  replace (hv - ((hv - i) * u - q * sz) * hv2 - 1)
    with (i - 1 + ((hv - i) * v + q * hv2) * sz).
  - rewrite Z.mod_add, Z.mod_small; lia.
  - transitivity (hv - (hv - i) * (u * hv2) + q * sz * hv2 - 1); [|lia].
    replace (u * hv2) with (1 - v * sz) by lia. lia.
Qed.
End probe.
