(* ===== verification/HashSpec.v ===== *)
(** * The environment hash table implements a finite map

    The invariant of the table, the map it stands for, and the proofs that [hsearch_r] and
    [hdelete_r] of [Hashtable] are lookup, insertion and removal of that map. *)
From S2P Require Import Prelude Ctype Mem CStr Qsort Hashtable HashProbe.
From Stdlib Require Import Znumtheory.
#[local] Open Scope Z_scope.

(** What the functions the table calls promise: a copy of a string has its characters, the
    attribute functions change the attributes only, and so do the callbacks. *)
Definition same_slot (s s' : _ENTRY) : Prop :=
  used s' = used s /\ key (entry s') = key (entry s) /\ data (entry s') = data (entry s).
Definition same_slots (h h' : hsearch_data) : Prop :=
  size h' = size h /\ filled h' = filled h /\ change_ok h' = change_ok h
  /\ match table h, table h' with
     | Some t, Some t' => Forall2 same_slot t t'
     | None, None => True
     | _, _ => False
     end.
Class EnvHooksOk {Hooks : EnvHooks} : Prop := {
  strdup_copy s s' : strdup s = Some s' -> s' = s;
  callback_init_frame h e :
    key (env_callback_init h e) = key e /\ data (env_callback_init h e) = data e;
  flags_init_frame h e :
    key (env_flags_init h e) = key e /\ data (env_flags_init h e) = data e;
  call_frame f h name value op flag : same_slots h (snd (call f h name value op flag)) }.

(** ** The invariant *)
Definition live (s : _ENTRY) : bool := 0 <? used s.
(** Slot [i] holds the variable [k] with the value [d]. *)
Definition holds (h : hsearch_data) (i : Z) (k d : list Z) : Prop :=
  0 <= i /\ exists s, slot h i = Some s /\ live s = true
    /\ key (entry s) = Some k /\ data (entry s) = Some d.
Definition nonempty (h : hsearch_data) (i : Z) : Prop :=
  exists s, slot h i = Some s /\ used s <> 0.

Definition count (t : list _ENTRY) : nat := length (List.filter live t).

Definition slot_ok (sz : Z) (s : _ENTRY) : Prop :=
  used s = 0 \/ used s = -1
  \/ exists k d, key (entry s) = Some k /\ data (entry s) = Some d /\ str_ok k
       /\ used s = hash k sz.
(** Every probe before the slot of a variable finds a slot in use. *)
Definition reachable (h : hsearch_data) (i : Z) (k : list Z) : Prop :=
  exists j, 0 <= j < size h /\ i = pos (size h) (hash k (size h)) j
    /\ forall j', 0 <= j' < j -> nonempty h (pos (size h) (hash k (size h)) j').

Record wf (h : hsearch_data) : Prop := {
  wf_prime : prime (size h);
  wf_size : 5 <= size h < 0x40000000;
  wf_table : exists t, table h = Some t /\ length t = S (Z.to_nat (size h))
    /\ Forall (slot_ok (size h)) t /\ filled h = Z.of_nat (count t);
  wf_zero s : slot h 0 = Some s -> used s = 0;
  wf_reach i k d : holds h i k d -> reachable h i k;
  wf_unique i j k d d' : holds h i k d -> holds h j k d' -> i = j }.

(** The map the table stands for. *)
Definition denotes (h : hsearch_data) (M : gmap (list Z) (list Z)) : Prop :=
  forall k d, M !! k = Some d <-> exists i, holds h i k d.
Definition rep (h : hsearch_data) (M : gmap (list Z) (list Z)) : Prop := wf h /\ denotes h M.
(** No slot is marked as deleted. *)
Definition clean (h : hsearch_data) : Prop := forall i s, slot h i = Some s -> 0 <= used s.
(** A free slot: the search for a new variable ends at one. *)
Definition room (h : hsearch_data) : Prop := exists i s, 1 <= i <= size h
  /\ slot h i = Some s /\ used s = 0.

(** ** Slots *)
Lemma hash_range k sz : 5 <= sz -> 1 <= hash k sz < sz.
Proof.
  intros Hsz. unfold hash. set (x := foldr _ _ _).
  pose proof (Z.mod_pos_bound x sz ltac:(lia)). case_if; lia.
Qed.

Lemma slot_some h i : wf h -> 0 <= i <= size h ->
  exists s, slot h i = Some s /\ slot_ok (size h) s.
Proof.
  intros [_ _ (t & Ht & Hl & Hok & _) _ _ _] Hi. unfold slot. rewrite Ht. cbn.
  destruct (lookup_lt_is_Some_2 t (Z.to_nat i)) as [s Hs]; [lia|].
  exists s. split; [done|]. by apply (Forall_lookup_1 _ _ _ _ Hok Hs).
Qed.
Lemma slot_range h i s : wf h -> slot h i = Some s -> i <= size h.
Proof.
  intros [_ Hs (t & Ht & Hl & _) _ _ _] H. unfold slot in H. rewrite Ht in H. cbn in H.
  apply lookup_lt_Some in H. lia.
Qed.
Lemma holds_range h i k d : wf h -> holds h i k d -> 1 <= i <= size h.
Proof.
  intros Hwf [Hi (s & Hs & Hl & _)]. pose proof (slot_range _ _ _ Hwf Hs).
  destruct (decide (i = 0)) as [->|]; [|lia].
  apply (wf_zero h Hwf) in Hs. unfold live in Hl. lia.
Qed.
Lemma holds_hash h i k d s : wf h -> holds h i k d -> slot h i = Some s ->
  used s = hash k (size h) /\ str_ok k.
Proof.
  intros Hwf Hh Hs. pose proof (holds_range _ _ _ _ Hwf Hh) as Hi.
  destruct Hh as [_ (s' & Hs' & Hl & Hk & _)]. simplify_eq.
  destruct (slot_some h i Hwf) as (s'' & Hs'' & Hok); [lia|]. simplify_eq.
  unfold live in Hl. destruct Hok as [?|[?|(k' & d' & Hk' & _ & Hok & Hu)]]; [lia|lia|].
  simplify_eq. done.
Qed.

Lemma slot_set_eq h i s s' : 0 <= i -> slot h i = Some s -> slot (set_slot h i s') i = Some s'.
Proof.
  unfold slot, set_slot, set_table. destruct (table h) as [t|]; cbn; [|done].
  intros Hi Hs. apply list_lookup_insert_eq. by apply lookup_lt_Some in Hs.
Qed.
Lemma slot_set_ne h i j s' : 0 <= i -> 0 <= j -> i <> j -> slot (set_slot h i s') j = slot h j.
Proof.
  unfold slot, set_slot, set_table. destruct (table h) as [t|]; cbn; [|done].
  intros. apply list_lookup_insert_ne. lia.
Qed.
Lemma slot_set_filled h n i : slot (set_filled h n) i = slot h i.
Proof. done. Qed.

(** ** Frames: changes of attributes *)
Lemma same_slot_refl s : same_slot s s.
Proof. done. Qed.
Lemma same_slots_refl h : same_slots h h.
Proof.
  split_and!; [done..|]. destruct (table h) as [t|]; [|done].
  apply Forall2_same_length_lookup. split; [done|]. intros. simplify_eq. apply same_slot_refl.
Qed.
Lemma same_slots_sym h h' : same_slots h h' -> same_slots h' h.
Proof.
  intros (H1 & H2 & H3 & H4). split_and!; [done..|].
  destruct (table h), (table h'); try done. apply Forall2_flip.
  apply (Forall2_impl _ _ _ _ H4). unfold same_slot, flip. naive_solver.
Qed.
Lemma same_slots_slot h h' i s : same_slots h h' -> slot h i = Some s ->
  exists s', slot h' i = Some s' /\ same_slot s s'.
Proof.
  intros (_ & _ & _ & H). unfold slot. destruct (table h) as [t|]; cbn; [|done].
  destruct (table h') as [t'|]; [|done]. intros Hs. cbn.
  by apply (Forall2_lookup_l _ _ _ _ _ H Hs).
Qed.
Lemma same_slots_holds h h' i k d : same_slots h h' -> holds h i k d -> holds h' i k d.
Proof.
  intros H [Hi (s & Hs & Hl & Hk & Hd)]. split; [done|].
  destruct (same_slots_slot _ _ _ _ H Hs) as (s' & Hs' & Hu & Hk' & Hd').
  exists s'. unfold live in *. by rewrite Hu, Hk', Hd'.
Qed.
Lemma same_slots_nonempty h h' i : same_slots h h' -> nonempty h i -> nonempty h' i.
Proof.
  intros H (s & Hs & Hu). destruct (same_slots_slot _ _ _ _ H Hs) as (s' & Hs' & Hu' & _).
  exists s'. by rewrite Hu'.
Qed.

Lemma same_count t t' : Forall2 same_slot t t' -> count t' = count t.
Proof.
  unfold count. induction 1 as [|s s' t t' (Hu & _) _ IH]; cbn; [done|].
  unfold live in *. rewrite Hu. case_if; cbn; by rewrite IH.
Qed.
Lemma same_slots_wf h h' : same_slots h h' -> wf h -> wf h'.
Proof.
  intros H Hwf. pose proof (same_slots_sym _ _ H) as H'.
  destruct Hwf as [Hp Hs (t & Ht & Hl & Hok & Hf) Hz Hr Hu].
  destruct H as (Hsz & Hfi & Hch & Htab).
  rewrite Ht in Htab. destruct (table h') as [t'|] eqn:Ht'; [|done].
  split; rewrite ?Hsz; try done.
  - exists t'. split_and!; [done| | |].
    + by rewrite <- (Forall2_length _ _ _ Htab).
    + apply Forall_lookup_2. intros i s' Hs'.
      destruct (Forall2_lookup_r _ _ _ _ _ Htab Hs') as (s & Hsl & Hu' & Hk' & Hd').
      unfold slot_ok. rewrite Hu', Hk', Hd'. by apply (Forall_lookup_1 _ _ _ _ Hok Hsl).
    + by rewrite Hfi, Hf, (same_count _ _ Htab).
  - intros s' Hs'. destruct (same_slots_slot _ _ _ _ H' Hs') as (s & Hss & Hus & _).
    rewrite <- Hus. by apply Hz.
  - intros i k d Hh. apply (same_slots_holds _ _ _ _ _ H') in Hh.
    destruct (Hr _ _ _ Hh) as (j & Hj & -> & Hne). exists j. rewrite Hsz.
    split_and!; [lia..|done|]. intros j' Hj'.
    apply (same_slots_nonempty h h'); [by apply same_slots_sym|by apply Hne].
  - intros i j k d d' Hi Hj. eapply Hu; by apply (same_slots_holds _ _ _ _ _ H').
Qed.
Lemma same_slots_rep h h' M : same_slots h h' -> rep h M -> rep h' M.
Proof.
  intros H [Hwf Hd]. split; [by apply (same_slots_wf h)|]. intros k d. rewrite (Hd k d).
  split; intros [i Hi]; exists i; by apply (same_slots_holds h h') || apply (same_slots_holds h' h); try by apply same_slots_sym.
Qed.
Lemma same_slots_trans h1 h2 h3 : same_slots h1 h2 -> same_slots h2 h3 -> same_slots h1 h3.
Proof.
  intros (A1 & A2 & A3 & A4) (B1 & B2 & B3 & B4). split_and!; [congruence..|].
  destruct (table h1), (table h2), (table h3); try done.
  apply Forall2_same_length_lookup. split.
  - by rewrite (Forall2_length _ _ _ A4), (Forall2_length _ _ _ B4).
  - intros i x z Hx Hz. destruct (Forall2_lookup_l _ _ _ _ _ A4 Hx) as (y & Hy & Hxy).
    destruct (Forall2_lookup_l _ _ _ _ _ B4 Hy) as (z' & Hz' & Hyz). simplify_eq.
    unfold same_slot in *. naive_solver congruence.
Qed.
Lemma set_slot_same h i s s' : 0 <= i -> slot h i = Some s -> same_slot s s' ->
  same_slots h (set_slot h i s').
Proof.
  intros Hi Hs Hsame. split_and!; [done..|]. unfold slot, set_slot in *.
  destruct (table h) as [t|] eqn:E; cbn in *; [|done].
  apply Forall2_same_length_lookup. split; [by rewrite length_insert|].
  intros j x y Hx Hy. destruct (decide (Z.to_nat i = j)) as [<-|].
  - rewrite list_lookup_insert_eq in Hy by by apply lookup_lt_Some in Hs. by simplify_eq.
  - rewrite list_lookup_insert_ne in Hy by done. simplify_eq. apply same_slot_refl.
Qed.

Lemma clean_same h h' : same_slots h h' -> clean h -> clean h'.
Proof.
  intros H Hc i s' Hs'. destruct (same_slots_slot _ _ _ _ (same_slots_sym _ _ H) Hs') as (s & Hs & Hu & _).
  rewrite <- Hu. by apply (Hc i).
Qed.
Lemma clean_set h i s : 0 <= i -> 0 <= used s -> clean h -> clean (set_slot h i s).
Proof.
  intros Hi Hu Hc j x Hx. unfold slot, set_slot in Hx. cbn in Hx.
  destruct (table h) as [t|] eqn:Et; cbn in Hx; [|done].
  apply list_lookup_insert_Some in Hx as [(_ & -> & _)|[_ Hx]]; [done|].
  apply (Hc j). unfold slot. by rewrite Et.
Qed.

(** ** Searching *)
Section search.
Context {Hooks : EnvHooks}.

Definition keep (htab : hsearch_data) : hres := mkhres (-1) None 0 htab.

Lemma compare_other h item k action flag i s :
  wf h -> key item = Some k -> str_ok k -> 0 <= i -> slot h i = Some s ->
  (forall d, ~ holds h i k d) ->
  _compare_and_overwrite_entry item action h flag (hash k (size h)) i = Some (keep h).
Proof.
  intros Hwf Hk Hok Hi Hs Hno. unfold _compare_and_overwrite_entry. rewrite Hs.
  cbn [mbind option_bind]. pose proof (wf_size h Hwf).
  pose proof (hash_range k (size h)) as Hh. pose proof (slot_range _ _ _ Hwf Hs).
  destruct (slot_some h i Hwf) as (s' & Hs' & Hsok); [lia|]. simplify_eq.
  destruct Hsok as [Hu|[Hu|(k' & d & Hk' & Hd & Hok' & Hu)]]; rewrite Hu.
  - case_if; [|done]. rewrite u32_small in E; lia.
  - case_if; [|done]. change (u32 (-1)) with 0xffffffff in E. lia.
  - rewrite Hk, Hk'. cbn [mbind option_bind].
    pose proof (hash_range k' (size h)). case_if; [|done]. case_if; [|done].
    exfalso. apply (Hno d). split; [done|]. exists s. split; [done|].
    assert (k = k') as -> by (apply strcmp_eq; [done|done|lia]). unfold live. split_and!; [lia|done..].
Qed.

Lemma next_pos h k j : wf h -> 0 <= j ->
  (if pos (size h) (hash k (size h)) j <=? second_hash (size h) (hash k (size h))
   then u32 (size h + pos (size h) (hash k (size h)) j - second_hash (size h) (hash k (size h)))
   else u32 (pos (size h) (hash k (size h)) j - second_hash (size h) (hash k (size h))))
  = pos (size h) (hash k (size h)) (j + 1).
Proof.
  intros Hwf Hj. pose proof (wf_size h Hwf). pose proof (hash_range k (size h)).
  rewrite pos_next by lia.
  pose proof (pos_range (size h) (hash k (size h)) ltac:(lia) j).
  pose proof (second_hash_range (size h) (hash k (size h)) ltac:(lia)).
  case_if; rewrite u32_small by lia; done.
Qed.

Section key.
Context (h : hsearch_data) (item : ENTRY) (k : list Z) (action : ACTION) (flag : Z)
  (Hwf : wf h) (Hk : key item = Some k) (Hok : str_ok k).
#[local] Abbreviation hv := (hash k (size h)).
#[local] Abbreviation p := (pos (size h) hv).
#[local] Abbreviation hv2 := (second_hash (size h) hv).

Lemma probe_range j : 1 <= p j <= size h.
Proof. pose proof (wf_size h Hwf). pose proof (hash_range k (size h)). apply pos_range; lia. Qed.

(** Without the key the loop stops at the first free slot, or after a full round. *)
Lemma hsearch_loop_missing n : forall j, 0 <= j < size h -> size h - j <= Z.of_nat n ->
  (forall j', 0 <= j' <= j -> nonempty h (p j')) -> (forall i d, ~ holds h i k d) ->
  exists idx, hsearch_loop n item action h flag hv hv2 (p j) = Some (inl idx)
    /\ ((exists j' s, j < j' < size h /\ idx = p j' /\ slot h idx = Some s /\ used s = 0
           /\ forall j'', 0 <= j'' < j' -> nonempty h (p j''))
        \/ forall j'', 0 <= j'' < size h -> nonempty h (p j'')).
Proof.
  induction n as [|n IH]; intros j Hj Hn Hne Hno; [lia|]. cbn [hsearch_loop].
  pose proof (wf_size h Hwf). pose proof (hash_range k (size h)).
  rewrite (next_pos h k j) by (done || lia).
  case_if.
  - exists (p (j + 1)). split; [done|]. right.
    destruct (pos_hv (size h) hv ltac:(lia) ltac:(lia) (wf_prime h Hwf) (j + 1)); [lia|lia|lia|].
    intros j'' Hj''. apply Hne. lia.
  - pose proof (probe_range (j + 1)) as Hr.
    assert (j + 1 < size h) as Hlt.
    { destruct (decide (j + 1 = size h)) as [He|]; [|lia]. rewrite He, pos_sz in E by lia. lia. }
    destruct (slot_some h (p (j + 1)) Hwf) as (s & Hs & _); [lia|].
    rewrite (compare_other h item k action flag _ s) by (done || lia || (intros ?; apply Hno)).
    cbn [mbind option_bind keep ret Z.eqb Pos.eqb negb]. rewrite Hs. cbn [mbind option_bind].
    case_if.
    + exists (p (j + 1)). split; [done|]. left. exists (j + 1), s.
      split_and!; [lia..|done|done|lia|]. intros j'' Hj''. apply Hne. lia.
    + destruct (IH (j + 1)) as (idx & Hl & Hor); [lia|lia| |done|].
      { intros j' Hj'. destruct (decide (j' = j + 1)) as [->|]; [|apply Hne; lia].
        exists s. split; [done|lia]. }
      exists idx. split; [done|]. destruct Hor as [(j' & s' & ? & Hrest)|Hr']; [left|by right].
      exists j', s'. split; [lia|done].
Qed.

(** With the key the loop ends at its slot, with what the comparison does there. *)
Lemma hsearch_loop_found n : forall j jt d r, 0 <= j < jt -> jt < size h ->
  jt - j <= Z.of_nat n ->
  (forall j', 0 <= j' < jt -> nonempty h (p j')) -> holds h (p jt) k d ->
  _compare_and_overwrite_entry item action h flag hv (p jt) = Some r -> ret r <> -1 ->
  hsearch_loop n item action h flag hv hv2 (p j) = Some (inr r).
Proof.
  induction n as [|n IH]; intros j jt d r Hj Hjt Hn Hne Hh Hr Hret; [lia|].
  cbn [hsearch_loop].
  pose proof (wf_size h Hwf). pose proof (hash_range k (size h)).
  rewrite (next_pos h k j) by (done || lia).
  case_if.
  { destruct (pos_hv (size h) hv ltac:(lia) ltac:(lia) (wf_prime h Hwf) (j + 1)); lia. }
  destruct (decide (j + 1 = jt)) as [->|].
  - rewrite Hr. cbn [mbind option_bind]. case_if; [done|lia].
  - pose proof (probe_range (j + 1)).
    destruct (slot_some h (p (j + 1)) Hwf) as (s & Hs & _); [lia|].
    rewrite (compare_other h item k action flag _ s); [|done|done|done|lia|done|].
    2:{ intros d' Hh'. pose proof (wf_unique h Hwf _ _ _ _ _ Hh Hh') as He.
        apply pos_inj in He; [lia|lia|lia|apply (wf_prime h Hwf)|lia|lia]. }
    cbn [mbind option_bind keep ret Z.eqb Pos.eqb negb]. rewrite Hs. cbn [mbind option_bind].
    case_if.
    { destruct (Hne (j + 1)) as (s' & Hs' & Hu); [lia|]. simplify_eq. lia. }
    apply (IH (j + 1) jt d); (done || lia).
Qed.

(** The whole search of [hsearch_r], up to the point where the outcome is used. *)
Lemma hsearch_found i d r : holds h i k d ->
  _compare_and_overwrite_entry item action h flag hv i = Some r -> ret r <> -1 ->
  hsearch_r item action h flag = Some r.
Proof.
  intros Hh Hr Hret. unfold hsearch_r. rewrite Hk. cbn [mbind option_bind].
  pose proof (wf_size h Hwf). pose proof (hash_range k (size h)).
  destruct (wf_reach h Hwf _ _ _ Hh) as (jt & Hjt & -> & Hne).
  destruct (slot_some h hv Hwf) as (s & Hs & _); [lia|]. rewrite Hs. cbn [mbind option_bind].
  destruct (decide (jt = 0)) as [->|].
  - rewrite (pos_0 (size h) hv ltac:(lia)) in *. destruct Hh as [_ (s' & Hs' & Hl & _)]. simplify_eq.
    unfold live in Hl. destruct (used s' =? 0) eqn:Eu; [lia|]. cbn [negb].
    rewrite Hr. cbn [mbind option_bind].
    destruct (ret r =? -1) eqn:Er; [lia|]. done.
  - destruct (Hne 0) as (s' & Hs' & Hu); [lia|]. rewrite pos_0 in Hs' by lia. simplify_eq.
    destruct (used s =? 0) eqn:Eu; [lia|]. cbn [negb].
    rewrite (compare_other h item k action flag hv s); [|done|done|done|lia|done|].
    2:{ intros d' Hh'. pose proof (wf_unique h Hwf _ _ _ _ _ Hh Hh') as He.
        destruct (pos_hv (size h) hv ltac:(lia) ltac:(lia) (wf_prime h Hwf) jt); lia. }
    cbn [mbind option_bind keep ret Z.eqb Pos.eqb negb].
    rewrite (u32_small (size h - 2)) by lia. fold (second_hash (size h) hv).
    pose proof (hsearch_loop_found (Z.to_nat (size h)) 0 jt d r) as Hl.
    rewrite pos_0 in Hl by lia. rewrite Hl by (done || lia). done.
Qed.

Lemma hsearch_missing : (forall i d, ~ holds h i k d) -> exists idx fd,
  hsearch_r item action h flag =
    match action with
    | ENTER => hsearch_enter item k h flag hv idx fd
    | FIND => Some (mkhres 0 None ESRCH h)
    end
  /\ (room h -> exists i j s, i = (if negb (fd =? 0) then fd else idx) /\ 1 <= i <= size h
        /\ slot h i = Some s /\ used s <= 0 /\ 0 <= j < size h /\ i = p j
        /\ forall j', 0 <= j' < j -> nonempty h (p j')).
Proof.
  intros Hno. unfold hsearch_r. rewrite Hk. cbn [mbind option_bind].
  pose proof (wf_size h Hwf). pose proof (hash_range k (size h)).
  destruct (slot_some h hv Hwf) as (s & Hs & _); [lia|]. rewrite Hs. cbn [mbind option_bind].
  destruct (used s =? 0) eqn:Eu; cbn [negb].
  { exists hv, 0. split; [by destruct action|]. intros _. cbn. exists hv, 0, s.
      rewrite (pos_0 (size h) hv ltac:(lia)). split_and!; try done; try lia. }
  rewrite (compare_other h item k action flag hv s) by (done || lia || (intros ?; apply Hno)).
  cbn [mbind option_bind keep ret Z.eqb Pos.eqb negb].
  rewrite (u32_small (size h - 2)) by lia. fold (second_hash (size h) hv).
  destruct (hsearch_loop_missing (Z.to_nat (size h)) 0) as (idx & Hl & Hor); [lia|lia| |done|].
  { intros j' Hj'. assert (j' = 0) as -> by lia. rewrite pos_0 by lia. exists s. split; [done|lia]. }
  rewrite pos_0 in Hl by lia. rewrite Hl. cbn [mbind option_bind].
  exists idx, (if used s =? -1 then hv else 0). split; [by destruct action|].
  intros (i0 & s0 & Hi0 & Hs0 & Hu0).
  destruct (used s =? -1) eqn:Ed; cbn.
  - case_if; [|lia]. exists hv, 0, s. rewrite (pos_0 (size h) hv ltac:(lia)).
    split_and!; try done; lia.
  - destruct Hor as [(j' & s' & Hj' & -> & Hs' & Hu' & Hne)|Hne].
    + exists (p j'), j', s'. pose proof (probe_range j').
      split_and!; try done; try lia. 
    + exfalso. destruct (pos_surj (size h) hv ltac:(lia) ltac:(lia) (wf_prime h Hwf) i0 Hi0)
        as (j & Hj & <-).
      destruct (Hne j Hj) as (s' & Hs' & Hu'). by simplify_eq.
Qed.
End key.
End search.

(** ** Writing a slot *)
Definition put (h : hsearch_data) (i : Z) (s : _ENTRY) (n : Z) : hsearch_data :=
  set_filled (set_slot h i s) n.

Lemma count_insert t n s s' : t !! n = Some s ->
  (count (<[n := s']> t) + Nat.b2n (live s) = count t + Nat.b2n (live s'))%nat.
Proof.
  revert n; induction t as [|x t IH]; intros [|n] H; try done.
  - cbn in H. simplify_eq. unfold count. cbn. destruct (live s), (live s'); cbn; lia.
  - specialize (IH n H). change (<[S n := s']> (x :: t)) with (x :: <[n := s']> t).
    unfold count in *. cbn [List.filter]. destruct (live x); cbn [length]; lia.
Qed.

Section put.
Context (h : hsearch_data) (i : Z) (s s' : _ENTRY) (n : Z)
  (Hwf : wf h) (Hi : 1 <= i <= size h) (Hs : slot h i = Some s).

Lemma put_holds j k d : holds (put h i s' n) j k d <->
  (j = i /\ live s' = true /\ key (entry s') = Some k /\ data (entry s') = Some d)
  \/ (j <> i /\ holds h j k d).
Proof.
  unfold holds, put. rewrite slot_set_filled.
  destruct (decide (j = i)) as [->|Hne].
  - rewrite (slot_set_eq h i s) by (done || lia). split.
    + intros [_ (x & [= <-] & ?)]. by left.
    + intros [(_ & ?)|[]]; [|done]. split; [lia|]. by exists s'.
  - split.
    + intros [Hj (x & Hx & ?)]. rewrite slot_set_ne in Hx by lia. right. eauto.
    + intros [[-> _]|[_ [Hj (x & Hx & ?)]]]; [done|]. split; [done|]. exists x.
      by rewrite slot_set_ne by lia.
Qed.

Lemma put_nonempty j : 0 <= j -> used s' <> 0 -> nonempty h j -> nonempty (put h i s' n) j.
Proof.
  intros Hj Hu (x & Hx & Hux). unfold nonempty, put. rewrite slot_set_filled.
  destruct (decide (j = i)) as [->|Hne].
  - rewrite (slot_set_eq h i s) by (done || lia). by exists s'.
  - rewrite slot_set_ne by lia. by exists x.
Qed.

Lemma put_wf : slot_ok (size h) s' -> used s' <> 0 ->
  n = filled h + Z.b2z (live s') - Z.b2z (live s) ->
  (forall k, live s' = true -> key (entry s') = Some k -> reachable h i k) ->
  (forall k j d, live s' = true -> key (entry s') = Some k -> holds h j k d -> j = i) ->
  wf (put h i s' n).
Proof.
  intros Hok Hu Hn Hreach Huniq.
  assert (forall k, reachable h i k -> reachable (put h i s' n) i k) as Hmono.
  { intros k (j & Hj & Hp & Hne). exists j. split; [done|]. split; [done|]. intros j' Hj'.
    pose proof (wf_size h Hwf). pose proof (hash_range k (size h)).
    pose proof (pos_range (size h) (hash k (size h)) ltac:(lia) j').
    apply put_nonempty; [|done|by apply Hne]. cbn. lia. }
  destruct Hwf as [Hp Hsz (t & Ht & Hl & Htok & Hf) Hz Hr Hun]. split; try done.
  - exists (<[Z.to_nat i := s']> t). unfold slot in Hs. rewrite Ht in Hs. cbn in Hs.
    split_and!; [cbn; by rewrite Ht|by rewrite length_insert|by apply Forall_insert|].
    cbn. rewrite Hn, Hf. pose proof (count_insert t (Z.to_nat i) s s' Hs).
    destruct (live s), (live s'); cbn in *; lia.
  - intros x Hx. unfold put in Hx. rewrite slot_set_filled, slot_set_ne in Hx by lia. by apply Hz.
  - intros j k d [(-> & Hlive & Hk & _)|[Hne Hh]]%put_holds; [by apply Hmono, Hreach|].
    destruct (Hr _ _ _ Hh) as (q & Hq & -> & Hnem). exists q. split; [done|]. split; [done|].
    intros j' Hj'. pose proof (hash_range k (size h)).
    pose proof (pos_range (size h) (hash k (size h)) ltac:(lia) j').
    apply put_nonempty; [cbn; lia|done|by apply Hnem].
  - intros j1 j2 k d d' H1%put_holds H2%put_holds.
    destruct H1 as [(-> & Hl1 & Hk1 & _)|[Hne1 H1]], H2 as [(-> & Hl2 & Hk2 & _)|[Hne2 H2]]; [done| | |].
    + symmetry. by apply (Huniq k _ d').
    + by apply (Huniq k _ d).
    + by apply (Hun _ _ _ _ _ H1 H2).
Qed.
End put.

Lemma rep_overwrite h M i s k d d' : rep h M -> slot h i = Some s -> holds h i k d ->
  rep (set_slot h i (mk_ENTRY (used s) (set_data (entry s) (Some d')))) (<[k := d']> M).
Proof.
  intros [Hwf Hden] Hs Hh. pose proof (holds_range _ _ _ _ Hwf Hh) as Hi.
  destruct (holds_hash _ _ _ _ _ Hwf Hh Hs) as [Hu Hok].
  set (s' := mk_ENTRY _ _).
  change (set_slot h i s') with (put h i s' (filled h)).
  pose proof Hh as [_ (x & Hx & Hlive & Hk & Hd)]. simplify_eq.
  split.
  - apply (put_wf h i s); try done.
    + right; right. exists k, d'. done.
    + cbn. unfold live in *. lia.
    + unfold live. cbn. lia.
    + intros k' _ Hk'. cbn in Hk'. simplify_eq. by apply (wf_reach h Hwf _ _ d).
    + intros k' j d0 _ Hk' Hj. cbn in Hk'. simplify_eq. by apply (wf_unique h Hwf _ _ _ _ _ Hj Hh).
  - intros k' v. rewrite lookup_insert. case_decide.
    + subst k'. split.
      * intros [= <-]. exists i. apply (put_holds h i s); [done|done|]. left. done.
      * intros [j [(_ & _ & _ & Hv)|[Hne Hj]]%(put_holds h i s s' _ Hi Hs)].
        { cbn in Hv. congruence. }
        { exfalso. by apply Hne, (wf_unique h Hwf _ _ _ _ _ Hj Hh). }
    + rewrite (Hden k' v). split; intros [j Hj]; exists j.
      * apply (put_holds h i s); [done|done|]. right. split; [|done]. intros ->.
        destruct Hj as [_ (y & Hy & _ & Hky & _)]. congruence.
      * apply (put_holds h i s s' _ Hi Hs) in Hj as [(_ & _ & Hk' & _)|[_ ?]]; [|done].
        cbn in Hk'. congruence.
Qed.

Lemma rep_create h M i s k d e : rep h M -> 1 <= i <= size h -> slot h i = Some s ->
  used s <= 0 -> str_ok k -> M !! k = None -> reachable h i k ->
  key e = Some k -> data e = Some d ->
  rep (put h i (mk_ENTRY (hash k (size h)) e) (filled h + 1)) (<[k := d]> M).
Proof.
  intros [Hwf Hden] Hi Hs Hu Hok HM Hreach Hk Hd. set (s' := mk_ENTRY _ e).
  pose proof (wf_size h Hwf). pose proof (hash_range k (size h)).
  assert (forall j v, ~ holds h j k v) as Hno.
  { intros j v Hj. assert (M !! k = Some v) by (apply Hden; eauto). congruence. }
  assert (live s' = true) as Hlive by (unfold live; cbn; lia).
  split.
  - apply (put_wf h i s); try done.
    + right; right. exists k, d. done.
    + cbn. lia.
    + rewrite Hlive. unfold live. cbn. destruct (0 <? used s) eqn:E; cbn; lia.
    + intros k' _ Hk'. cbn in Hk'. by simplify_eq.
    + intros k' j v _ Hk' Hj. cbn in Hk'. simplify_eq. by apply Hno in Hj.
  - intros k' v. rewrite lookup_insert. case_decide.
    + subst k'. split.
      * intros [= <-]. exists i. apply (put_holds h i s); [done|done|]. left. done.
      * intros [j [(_ & _ & _ & Hv)|[_ Hj]]%(put_holds h i s s' _ Hi Hs)]; [cbn in Hv; congruence|].
        by apply Hno in Hj.
    + rewrite (Hden k' v). split; intros [j Hj]; exists j.
      * apply (put_holds h i s); [done|done|]. right. split; [|done]. intros ->.
        destruct Hj as [_ (y & Hy & Hl & _)]. simplify_eq. unfold live in Hl. lia.
      * apply (put_holds h i s s' _ Hi Hs) in Hj as [(_ & _ & Hk' & _)|[_ ?]]; [|done].
        cbn in Hk'. congruence.
Qed.

Lemma rep_delete h M i s k d e : rep h M -> slot h i = Some s -> holds h i k d ->
  rep (put h i (mk_ENTRY (-1) e) (filled h - 1)) (delete k M).
Proof.
  intros [Hwf Hden] Hs Hh. pose proof (holds_range _ _ _ _ Hwf Hh) as Hi.
  set (s' := mk_ENTRY _ e).
  split.
  - apply (put_wf h i s); try done.
    + right. by left.
    + destruct Hh as [_ (x & Hx & Hlive & _)]. simplify_eq. rewrite Hlive. cbn. lia.
  - intros k' v. rewrite lookup_delete. case_decide.
    + subst k'. split; [done|].
      intros [j [(_ & Hl & _)|[Hne Hj]]%(put_holds h i s s' _ Hi Hs)]; [done|].
      exfalso. by apply Hne, (wf_unique h Hwf _ _ _ _ _ Hj Hh).
    + rewrite (Hden k' v). split; intros [j Hj]; exists j.
      * apply (put_holds h i s); [done|done|]. right. split; [|done]. intros ->.
        destruct Hj as [_ (y & Hy & _ & Hky & _)], Hh as [_ (z & Hz & _ & Hkz & _)]. congruence.
      * by apply (put_holds h i s s' _ Hi Hs) in Hj as [(_ & Hl & _)|[_ ?]].
Qed.

(** With a free slot the table is not full. *)
Lemma room_not_full h : wf h -> room h -> 0 <= filled h < size h.
Proof.
  intros Hwf (i & s & Hi & Hs & Hu).
  pose proof (slot_some h 0 Hwf) as (s0 & Hs0 & _); [pose proof (wf_size h Hwf); lia|].
  assert (live s0 = false) as Hl0 by (pose proof (wf_zero h Hwf _ Hs0); unfold live; lia).
  assert (live s = false) as Hls by (unfold live; lia).
  destruct (wf_table h Hwf) as (t & Ht & Hl & _ & ->). unfold slot in *. rewrite Ht in *. cbn in *.
  destruct t as [|x t]; [done|]. injection Hs0 as ->.
  destruct (Z.to_nat i) as [|n] eqn:En; [lia|]. cbn in Hs, Hl.
  apply list_elem_of_split_length in Hs as (t1 & t2 & -> & _).
  unfold count. cbn [List.filter]. rewrite Hl0, List.filter_app, length_app.
  cbn [List.filter]. rewrite Hls.
  pose proof (List.filter_length_le live t1). pose proof (List.filter_length_le live t2).
  rewrite length_app in Hl. cbn in Hl. lia.
Qed.

(** ** The operations *)
Section operations.
Context {Hooks : EnvHooks} {HooksOk : EnvHooksOk}.

Lemma run_callback_frame h e name v op flag : same_slots h (snd (run_callback h e name v op flag)).
Proof. unfold run_callback. destruct (callback e); [apply call_frame|apply same_slots_refl]. Qed.

Lemma filled_range h i k d : wf h -> holds h i k d -> 1 <= filled h <= size h + 1.
Proof.
  intros Hwf [Hi (s & Hs & Hl & _)].
  destruct (wf_table h Hwf) as (t & Ht & Hlen & _ & ->). unfold slot in Hs. rewrite Ht in Hs. cbn in Hs.
  pose proof (List.filter_length_le live t). unfold count in *.
  assert (s ∈ List.filter live t) as Hin.
  { apply list_elem_of_In, List.filter_In. split; [|done]. apply list_elem_of_In.
    by apply list_elem_of_lookup_2 in Hs. }
  destruct (List.filter live t); [by apply not_elem_of_nil in Hin|].
  pose proof (wf_size h Hwf). cbn in *. lia.
Qed.

Lemma hdelete_rep h M i k d : rep h M -> holds h i k d ->
  exists h', _hdelete h i = Some h' /\ rep h' (delete k M).
Proof.
  intros Hrep Hh. pose proof Hrep as [Hwf _].
  pose proof (filled_range _ _ _ _ Hwf Hh). pose proof (wf_size h Hwf).
  pose proof Hh as [Hi (s & Hs & Hrest)].
  eexists. unfold _hdelete. rewrite Hs. cbn [mbind option_bind]. split; [done|].
  rewrite u32_small by (cbn; lia). apply (rep_delete h M i s k d); [done|done|]. split; eauto.
Qed.

(** Whether the change is accepted: neither [change_ok] nor a callback objects. *)
Definition accepts (h : hsearch_data) (flag : Z) : Prop :=
  (forall e v op, ask_change_ok h e v op flag = 0)
  /\ forall f h' name v op, fst (call f h' name v op flag) = 0.
Lemma run_callback_accepts h h' e name v op flag :
  accepts h flag -> fst (run_callback h' e name v op flag) = 0.
Proof. intros [_ Ha]. unfold run_callback. destruct (callback e); [apply Ha|done]. Qed.

(** What an insertion leaves. *)
Definition entered (h : hsearch_data) (M : gmap (list Z) (list Z)) (k d : list Z) (r : hres) : Prop :=
  (errno r = 0 /\ rep (tab r) (<[k := d]> M) /\ size (tab r) = size h
     /\ change_ok (tab r) = change_ok h /\ (clean h -> clean (tab r))
     /\ exists i, retval r = Some i /\ holds (tab r) i k d)
  \/ (retval r = None /\ ret r = 0 /\ (errno r = EPERM \/ errno r = EINVAL) /\ rep (tab r) M).

Definition item (k d : list Z) : ENTRY := mkENTRY (Some k) (Some d) None 0.

Lemma compare_enter h M k d d0 flag i : rep h M -> holds h i k d0 -> strdup d = Some d ->
  exists r, _compare_and_overwrite_entry (item k d) ENTER h flag (hash k (size h)) i = Some r
    /\ ret r <> -1 /\ entered h M k d r /\ (accepts h flag -> errno r = 0).
Proof.
  intros Hrep Hh Hdup. pose proof Hrep as [Hwf _].
  pose proof (holds_range _ _ _ _ Hwf Hh) as Hi.
  unfold _compare_and_overwrite_entry. pose proof Hh as [_ (s & Hs & _ & Hk & _)].
  destruct (holds_hash _ _ _ _ _ Hwf Hh Hs) as [Hu Hok].
  pose proof (wf_size h Hwf). pose proof (hash_range k (size h)).
  rewrite Hs. cbn [mbind option_bind key item data]. rewrite Hu, u32_small, Z.eqb_refl by lia.
  rewrite Hk. cbn [mbind option_bind]. rewrite strcmp_refl. cbn [Z.eqb Pos.eqb].
  destruct (ask_change_ok h (entry s) (Some d) env_op_overwrite flag =? 0) eqn:Ea; cbn [negb].
  2:{ eexists. split; [done|]. cbn. split_and!; [lia| |].
      - right. cbn. auto.
      - intros [Ha _]. rewrite Ha in Ea. lia. }
  destruct (run_callback h (entry s) k (Some d) env_op_overwrite flag) as [c h2] eqn:Ec.
  assert (same_slots h h2) as Hsame.
  { by pose proof (run_callback_frame h (entry s) k (Some d) env_op_overwrite flag) as Hf;
    rewrite Ec in Hf. }
  pose proof (same_slots_rep _ _ _ Hsame Hrep) as Hrep2.
  destruct (c =? 0) eqn:Ec0; cbn [negb].
  2:{ eexists. split; [done|]. cbn. split_and!; [lia| |].
      - right. cbn. auto.
      - intros Ha. pose proof (run_callback_accepts h h (entry s) k (Some d) env_op_overwrite flag Ha)
          as Hz0. rewrite Ec in Hz0. cbn in Hz0. lia. }
  destruct (same_slots_slot _ _ _ _ Hsame Hs) as (s2 & Hs2 & Hu2 & _).
  rewrite Hs2. cbn [mbind option_bind]. rewrite Hdup.
  pose proof (same_slots_holds _ _ _ _ _ Hsame Hh) as Hh2.
  pose proof (rep_overwrite _ _ _ _ _ _ d Hrep2 Hs2 Hh2) as Hrep3.
  eexists. split; [done|]. cbn [ret errno]. split_and!; [lia| |done].
  left. cbn [errno tab retval]. split_and!; [done|done|apply Hsame..| |].
  { intros Hc. pose proof (clean_same _ _ Hsame Hc) as Hc2.
    apply clean_set; [lia|exact (Hc2 i _ Hs2)|done]. }
  exists i. split; [done|].
  split; [lia|]. rewrite (slot_set_eq h2 i s2) by (done || lia).
  destruct Hh2 as [_ (x & Hx & Hl & Hkx & _)]. eexists. split; [done|]. simplify_eq. done.
Qed.

Lemma enter_rep h M k d flag idx fd i j s : rep h M -> room h -> str_ok k -> M !! k = None ->
  strdup k = Some k -> strdup d = Some d ->
  i = (if negb (fd =? 0) then fd else idx) -> 1 <= i <= size h -> slot h i = Some s -> used s <= 0 ->
  0 <= j < size h -> i = pos (size h) (hash k (size h)) j ->
  (forall j', 0 <= j' < j -> nonempty h (pos (size h) (hash k (size h)) j')) ->
  exists r, hsearch_enter (item k d) k h flag (hash k (size h)) idx fd = Some r
    /\ entered h M k d r /\ (accepts h flag -> errno r = 0).
Proof.
  intros Hrep Hroom Hok HM Hdk Hdd Hidx Hi Hs Hu Hj Hpos Hne. pose proof Hrep as [Hwf _].
  pose proof (room_not_full h Hwf Hroom). pose proof (wf_size h Hwf).
  pose proof (hash_range k (size h)).
  unfold hsearch_enter. destruct (filled h =? size h) eqn:Ef; [lia|].
  rewrite <- Hidx, Hs. cbn [mbind option_bind item data]. rewrite Hdk, Hdd. cbv zeta.
  set (e0 := mkENTRY (Some k) (Some d) _ _).
  rewrite u32_small by (cbn; lia).
  change (set_filled (set_slot h i (mk_ENTRY (hash k (size h)) e0)) _)
    with (put h i (mk_ENTRY (hash k (size h)) e0) (filled h + 1)).
  set (h2 := put h i _ _). set (e1 := env_callback_init h2 e0).
  destruct (callback_init_frame h2 e0) as [Hk1 Hd1]. fold e1 in Hk1, Hd1.
  assert (rep h2 (<[k := d]> M)) as Hrep2.
  { apply (rep_create h M i s); try done. by exists j. }
  assert (slot h2 i = Some (mk_ENTRY (hash k (size h)) e0)) as Hs2.
  { unfold h2, put. by rewrite slot_set_filled, (slot_set_eq h i s) by (done || lia). }
  assert (same_slots h2 (set_slot h2 i (mk_ENTRY (hash k (size h)) e1))) as Hsame2.
  { by apply (set_slot_same h2 i _ _ ltac:(lia) Hs2). }
  assert (slot (set_slot h2 i (mk_ENTRY (hash k (size h)) e1)) i = Some (mk_ENTRY (hash k (size h)) e1))
    as Hs3 by by rewrite (slot_set_eq h2 i _ _ ltac:(lia) Hs2).
  set (h3 := set_slot h2 i _) in *. set (e2 := env_flags_init h3 e1).
  destruct (flags_init_frame h3 e1) as [Hk2 Hd2]. fold e2 in Hk2, Hd2.
  assert (same_slots h2 (set_slot h3 i (mk_ENTRY (hash k (size h)) e2))) as Hsame3.
  { apply (same_slots_trans _ _ _ Hsame2). by apply (set_slot_same h3 i _ _ ltac:(lia) Hs3). }
  assert (holds (set_slot h3 i (mk_ENTRY (hash k (size h)) e2)) i k d) as Hh4.
  { split; [lia|]. eexists. split; [apply (slot_set_eq h3 i _ _ ltac:(lia) Hs3)|].
    unfold live. cbn. rewrite Hk2, Hk1, Hd2, Hd1. split_and!; [lia|done..]. }
  assert (change_ok (set_slot h3 i (mk_ENTRY (hash k (size h)) e2)) = change_ok h) as Hch by done.
  set (h4 := set_slot h3 i _) in *. pose proof (same_slots_rep _ _ _ Hsame3 Hrep2) as Hrep4.
  destruct (ask_change_ok h4 e2 (Some d) env_op_create flag =? 0) eqn:Ea; cbn [negb].
  2:{ destruct (hdelete_rep _ _ _ _ _ Hrep4 Hh4) as (h5 & -> & Hrep5). cbn [mbind option_bind].
      rewrite delete_insert_id in Hrep5 by done.
      eexists. split; [done|]. split; [right; cbn; auto|].
      intros [Ha _]. specialize (Ha e2 (Some d) env_op_create). unfold ask_change_ok in *.
      rewrite Hch in Ea. lia. }
  destruct (run_callback h4 e2 k (Some d) env_op_create flag) as [c h5] eqn:Ec.
  assert (same_slots h4 h5) as Hsame5.
  { by pose proof (run_callback_frame h4 e2 k (Some d) env_op_create flag) as Hf; rewrite Ec in Hf. }
  pose proof (same_slots_rep _ _ _ Hsame5 Hrep4) as Hrep5.
  pose proof (same_slots_holds _ _ _ _ _ Hsame5 Hh4) as Hh5.
  destruct (c =? 0) eqn:Ec0; cbn [negb].
  - eexists. split; [done|]. split; [|done]. left. cbn. split_and!; [done|done|apply Hsame5..| |by eauto].
    intros Hc. apply (clean_same _ _ Hsame5). apply clean_set; [lia|cbn; lia|].
    apply clean_set; [lia|cbn; lia|]. apply (clean_set h i); [lia|cbn; lia|done].
  - destruct (hdelete_rep _ _ _ _ _ Hrep5 Hh5) as (h6 & -> & Hrep6). cbn [mbind option_bind].
    rewrite delete_insert_id in Hrep6 by done.
    eexists. split; [done|]. split; [right; cbn; auto|].
    intros Ha. pose proof (run_callback_accepts h h4 e2 k (Some d) env_op_create flag Ha) as Hz0'.
    rewrite Ec in Hz0'. cbn in Hz0'. lia.
Qed.

Lemma find_ok h M k flag : rep h M -> str_ok k ->
  (M !! k = None -> hsearch_r (mkENTRY (Some k) None None 0) FIND h flag = Some (mkhres 0 None ESRCH h))
  /\ (forall d, M !! k = Some d -> exists i, holds h i k d
        /\ hsearch_r (mkENTRY (Some k) None None 0) FIND h flag = Some (mkhres i (Some i) 0 h)).
Proof.
  intros [Hwf Hden] Hok. split.
  - intros HM. destruct (hsearch_missing h (mkENTRY (Some k) None None 0) k FIND flag Hwf eq_refl Hok)
      as (idx & fd & -> & _); [|done].
    intros i d Hi. assert (M !! k = Some d) by (apply Hden; eauto). congruence.
  - intros d HM. apply Hden in HM as [i Hi]. exists i. split; [done|].
    pose proof (holds_range _ _ _ _ Hwf Hi).
    apply (hsearch_found h (mkENTRY (Some k) None None 0) k FIND flag Hwf eq_refl Hok i d); [done| |cbn; lia].
    pose proof Hi as [_ (s & Hs & _ & Hk & _)]. destruct (holds_hash _ _ _ _ _ Hwf Hi Hs) as [Hu _].
    pose proof (wf_size h Hwf). pose proof (hash_range k (size h)).
    unfold _compare_and_overwrite_entry. rewrite Hs. cbn [mbind option_bind key].
    rewrite Hu, u32_small, Z.eqb_refl, Hk by lia. cbn [mbind option_bind].
    by rewrite strcmp_refl.
Qed.

Lemma enter_ok h M k d flag : rep h M -> str_ok k -> room h \/ is_Some (M !! k) ->
  strdup k = Some k -> strdup d = Some d ->
  exists r, hsearch_r (item k d) ENTER h flag = Some r
    /\ entered h M k d r /\ (accepts h flag -> errno r = 0).
Proof.
  intros Hrep Hok Hroom Hdk Hdd. pose proof Hrep as [Hwf Hden].
  destruct (M !! k) as [d0|] eqn:HM.
  - apply Hden in HM as [i Hi].
    destruct (compare_enter h M k d d0 flag i Hrep Hi Hdd) as (r & Hr & Hret & Hent & Hacc).
    exists r. split; [|done].
    by apply (hsearch_found h (item k d) k ENTER flag Hwf eq_refl Hok i d0).
  - destruct Hroom as [Hroom|[? [=]]].
    destruct (hsearch_missing h (item k d) k ENTER flag Hwf eq_refl Hok) as (idx & fd & -> & Hpos).
    { intros i d1 Hi. assert (M !! k = Some d1) by (apply Hden; eauto). congruence. }
    destruct (Hpos Hroom) as (i & j & s & Hidx & Hi & Hs & Hu & Hj & Hij & Hne).
    by apply (enter_rep h M k d flag idx fd i j s).
Qed.

Lemma delete_ok h M k flag : rep h M -> str_ok k ->
  exists r, hdelete_r k h flag = Some r
    /\ (M !! k = None -> r = mkhres 0 None ESRCH h)
    /\ (is_Some (M !! k) ->
          (ret r = 1 /\ rep (tab r) (delete k M))
          \/ (ret r = 0 /\ (errno r = EPERM \/ errno r = EINVAL) /\ rep (tab r) M))
    /\ (accepts h flag -> is_Some (M !! k) -> ret r = 1).
Proof.
  intros Hrep Hok. pose proof Hrep as [Hwf _].
  destruct (find_ok h M k 0 Hrep Hok) as [Hnone Hsome]. unfold hdelete_r.
  destruct (M !! k) as [d|] eqn:HM.
  2:{ rewrite Hnone by done. cbn [mbind option_bind ret tab Z.eqb].
      eexists. split; [done|]. split_and!; [done|by intros []|by intros _ []]. }
  destruct (Hsome d eq_refl) as (i & Hi & ->). cbn [mbind option_bind ret tab].
  pose proof (holds_range _ _ _ _ Hwf Hi). destruct (i =? 0) eqn:Ei; [lia|].
  pose proof Hi as [_ (s & Hs & _)]. rewrite Hs. cbn [mbind option_bind].
  destruct (ask_change_ok h (entry s) None env_op_delete flag =? 0) eqn:Ea; cbn [negb].
  2:{ eexists. split; [done|]. split_and!; [done|intros _; right; cbn; auto|].
      intros [Hacc _]. rewrite Hacc in Ea. lia. }
  destruct (run_callback h (entry s) k None env_op_delete flag) as [c h2] eqn:Ec.
  assert (same_slots h h2) as Hsame.
  { by pose proof (run_callback_frame h (entry s) k None env_op_delete flag) as Hf; rewrite Ec in Hf. }
  pose proof (same_slots_rep _ _ _ Hsame Hrep) as Hrep2.
  pose proof (same_slots_holds _ _ _ _ _ Hsame Hi) as Hi2.
  destruct (c =? 0) eqn:Ec0; cbn [negb].
  - destruct (hdelete_rep _ _ _ _ _ Hrep2 Hi2) as (h3 & -> & Hrep3). cbn [mbind option_bind].
    eexists. split; [done|]. cbn [ret tab errno]. split_and!; [done|intros _; by left|done].
  - eexists. split; [done|]. split_and!; [done|intros _; right; cbn; auto|].
    intros Hacc. pose proof (run_callback_accepts h h (entry s) k None env_op_delete flag Hacc) as Hz0.
    rewrite Ec in Hz0. cbn in Hz0. lia.
Qed.

(** ** Creating a table *)
Definition create_check (nel : Z) : bool :=
  match next_prime 40 (nel .| 1) with
  | Some p => (nel <=? p) && (5 <=? p) && (p <? 2000) && Z.odd p
      && match isprime p with Some b => b | None => false end
      && forallb (fun q => Z.even q || match isprime q with Some b => negb b | None => false end)
           (seqZ nel (p - nel))
  | None => false
  end.

Lemma next_prime_S n nel : next_prime (S n) nel =
  match isprime nel with
  | Some p => if p then Some nel else next_prime n (u32 (nel + 2))
  | None => None
  end.
Proof. reflexivity. Qed.
Lemma next_prime_more n n' nel p : (n <= n')%nat -> next_prime n nel = Some p ->
  next_prime n' nel = Some p.
Proof.
  revert n' nel; induction n as [|n IH]; intros n' nel Hn H; [done|].
  destruct n' as [|n']; [lia|]. rewrite next_prime_S in H |- *.
  destruct (isprime nel) as [[|]|]; [exact H| |discriminate H].
  apply IH; [lia|exact H].
Qed.

Lemma create_checked : forallb create_check (seqZ 5 1020) = true.
Proof. vm_compute. reflexivity. Qed.

Lemma fuel_le : (40 <= 2 ^ 15)%nat.
Proof. apply Nat.leb_le. vm_compute. reflexivity. Qed.

Lemma create_size nel : 5 <= nel < 1025 -> exists p,
  next_prime (2 ^ 15)%nat (nel .| 1) = Some p /\ nel <= p < 2000 /\ 5 <= p /\ prime p
  /\ forall q, nel <= q < p -> ~ prime q.
Proof.
  intros Hn. pose proof create_checked as Hc.
  rewrite List.forallb_forall in Hc. specialize (Hc nel).
  rewrite <- list_elem_of_In, elem_of_seqZ in Hc. specialize (Hc ltac:(lia)).
  unfold create_check in Hc.
  destruct (next_prime 40 (nel .| 1)) as [p|] eqn:Ep; [|done].
  rewrite !andb_true_iff in Hc. destruct Hc as [[[[[H1 H2] H3] H4] H5] H6].
  exists p. split; [exact (next_prime_more _ _ _ _ fuel_le Ep)|].
  destruct (isprime_ok p) as (b & Hb & Hpb); [lia|done|]. rewrite Hb in H5.
  split_and!; [lia..|by apply Hpb|]. intros q Hq Hprime.
  rewrite List.forallb_forall in H6. specialize (H6 q).
  rewrite <- list_elem_of_In, elem_of_seqZ in H6. specialize (H6 ltac:(lia)).
  destruct (Z.odd q) eqn:Eo.
  - destruct (isprime_ok q) as (b' & Hb' & Hpb'); [lia|done|].
    rewrite <- Z.negb_odd, Eo, Hb' in H6. cbn in H6. destruct b'; [done|].
    apply Hpb' in Hprime. done.
  - apply prime_alt in Hprime as [_ Hprime]. apply (Hprime 2); [lia|].
    apply Z.mod_divide; [lia|]. rewrite Zmod_odd, Eo. done.
Qed.

Lemma fresh_slot h n i s : table h = Some (replicate n no__ENTRY) -> slot h i = Some s -> s = no__ENTRY.
Proof. unfold slot. intros ->. cbn. by intros [-> _]%lookup_replicate. Qed.

Lemma fresh_rep h : table h = Some (replicate (S (Z.to_nat (size h))) no__ENTRY) ->
  5 <= size h < 0x40000000 -> prime (size h) -> filled h = 0 -> rep h ∅ /\ room h.
Proof.
  intros Ht Hsz Hp Hf.
  assert (forall i k d, ~ holds h i k d) as Hno.
  { intros i k d [_ (s & Hs & Hl & _)]. by rewrite (fresh_slot _ _ _ _ Ht Hs) in Hl. }
  split; [split|].
  - split; try done.
    + eexists. split; [done|]. split_and!; [by rewrite length_replicate| |].
      * apply Forall_replicate. by left.
      * rewrite Hf. symmetry. change 0 with (Z.of_nat 0). f_equal. generalize (S (Z.to_nat (size h))). clear.
        intros n. unfold count. induction n; [done|]. cbn. done.
    + intros s Hs. by rewrite (fresh_slot _ _ _ _ Ht Hs).
    + intros i k d Hi. by apply Hno in Hi.
    + intros i j k d d' Hi. by apply Hno in Hi.
  - intros k d. rewrite lookup_empty. split; [done|]. intros [i Hi]. by apply Hno in Hi.
  - exists 1, no__ENTRY. split; [lia|]. split; [|done]. unfold slot. rewrite Ht. cbn.
    apply lookup_replicate. split; [done|lia].
Qed.
End operations.

(** ** The properties *)

(** [hcreate_r] makes an empty table: for every number of entries from 5 to 1024 (the
    environment asks for 64 to 512) it ends, the size is the smallest prime that is not
    below the number, and for every key the probe sequence visits each slot of the table
    exactly once before it returns to its start. *)
Theorem hcreate_correct {Hooks : EnvHooks} nel h
    (Hn : 5 <= nel < 1025) (Hempty : table h = None) (Hmem : forall n, calloc_ok n = true) :
  exists h', hcreate_r nel h = Some (1, h') /\ rep h' ∅ /\ room h'
    /\ nel <= size h' /\ prime (size h') /\ (forall q, nel <= q < size h' -> ~ prime q)
    /\ forall k i, 1 <= i <= size h' ->
         exists j, 0 <= j < size h' /\ pos (size h') (hash k (size h')) j = i
           /\ forall j', 0 <= j' < size h' -> pos (size h') (hash k (size h')) j' = i -> j' = j.
Proof.
  destruct (create_size nel Hn) as (p & Hp & Hle & H5 & Hprime & Hmin).
  unfold hcreate_r. rewrite Hempty, Hp. cbn [mbind option_bind]. rewrite Hmem.
  set (h' := mkhsearch _ p 0 _). exists h'. split; [done|].
  destruct (fresh_rep h') as [Hrep Hroom]; [|cbn; lia|done|done|].
  { cbn. by replace (Z.to_nat (p + 1)) with (S (Z.to_nat p)) by lia. }
  split_and!; [apply Hrep..|done|cbn; lia|done|done|].
  change (size h') with p. intros k i Hi. pose proof (hash_range k p H5).
  destruct (pos_surj p (hash k p) H5 ltac:(lia) Hprime i Hi) as (j & Hj & Hji).
  exists j. split_and!; [lia..|done|]. intros j' Hj' Hji'.
  apply (pos_inj p (hash k p) H5 ltac:(lia) Hprime); [done|done|congruence].
Qed.

(** C16: lookup: [hsearch_r] with [FIND] returns the slot that holds the value the map gives
    the variable, and 0 with [ESRCH] exactly when the map has no such variable; the table is
    not changed. *)
Theorem hsearch_find_correct {Hooks : EnvHooks} h M k flag
    (Hrep : rep h M) (Hok : str_ok k) :
  let r := hsearch_r (mkENTRY (Some k) None None 0) FIND h flag in
  match M !! k with
  | Some d => exists i, holds h i k d /\ r = Some (mkhres i (Some i) 0 h)
  | None => r = Some (mkhres 0 None ESRCH h)
  end.
Proof.
  destruct (find_ok h M k flag Hrep Hok) as [Hnone Hsome]. cbn zeta.
  destruct (M !! k) as [d|]; [by apply Hsome|by apply Hnone].
Qed.

(** C12: insertion: while the table has a free slot, or for a variable that exists,
    [hsearch_r] with [ENTER] ends and either stores the value and returns its slot, or is
    rejected by [change_ok] ([EPERM]) or a callback ([EINVAL]) and leaves the map as it was;
    it is never rejected when neither objects.  All other variables keep their values. *)
Theorem hsearch_enter_correct {Hooks : EnvHooks} {HooksOk : EnvHooksOk} h M k d flag
    (Hrep : rep h M) (Hok : str_ok k) (Hroom : room h \/ is_Some (M !! k))
    (Hkey : strdup k = Some k) (Hdata : strdup d = Some d) :
  exists r, hsearch_r (item k d) ENTER h flag = Some r
    /\ ((errno r = 0 /\ rep (tab r) (<[k := d]> M)
           /\ exists i, retval r = Some i /\ holds (tab r) i k d)
        \/ (retval r = None /\ ret r = 0 /\ (errno r = EPERM \/ errno r = EINVAL)
           /\ rep (tab r) M))
    /\ (accepts h flag -> errno r = 0).
Proof.
  destruct (enter_ok h M k d flag) as (r & Hr & Hent & Hacc); [done..|].
  exists r. split_and!; [done| |done].
  destruct Hent as [(H1 & H2 & _ & _ & _ & H3)|]; [left|right]; done.
Qed.

(** removal: [hdelete_r] returns 1 and removes exactly the named variable, or returns 0
    and leaves the map as it was: with [ESRCH] for an unknown variable, with [EPERM] or
    [EINVAL] when [change_ok] or the callback objects. *)
Theorem hdelete_correct {Hooks : EnvHooks} {HooksOk : EnvHooksOk} h M k flag
    (Hrep : rep h M) (Hok : str_ok k) :
  exists r, hdelete_r k h flag = Some r
    /\ (M !! k = None -> r = mkhres 0 None ESRCH h)
    /\ (is_Some (M !! k) ->
          (ret r = 1 /\ rep (tab r) (delete k M))
          \/ (ret r = 0 /\ (errno r = EPERM \/ errno r = EINVAL) /\ rep (tab r) M))
    /\ (accepts h flag -> is_Some (M !! k) -> ret r = 1).
Proof. by apply delete_ok. Qed.

(** ** The theorems at a concrete table *)

(** Hooks that accept everything. *)
#[export] Instance plain_hooks : EnvHooks := {
  strdup s := Some s; calloc_ok _ := true; env_callback_init _ e := e; env_flags_init _ e := e;
  call _ h _ _ _ _ := (0, h) }.
#[export] Instance plain_hooks_ok : EnvHooksOk.
Proof. split; try done; [by intros s s' [=]|]. intros. apply same_slots_refl. Qed.

Definition no_table : hsearch_data := mkhsearch None 0 0 None.
Definition fresh11 : hsearch_data := mkhsearch (Some (replicate 12 no__ENTRY)) 11 0 None.
Lemma prime_11 : prime 11.
Proof. destruct (isprime_ok 11) as (b & Hb & H); [lia|done|]. vm_compute in Hb. simplify_eq. by apply H. Qed.
Lemma fresh11_rep : rep fresh11 ∅ /\ room fresh11.
Proof. apply fresh_rep; [done|cbn; lia|apply prime_11|done]. Qed.

Lemma hcreate_correct_witness : exists h', hcreate_r 64 no_table = Some (1, h') /\ rep h' ∅.
Proof.
  destruct (hcreate_correct 64 no_table ltac:(lia) eq_refl ltac:(done)) as (h' & H1 & H2 & _).
  by exists h'.
Defined.
Lemma hsearch_find_correct_witness :
  hsearch_r (mkENTRY (Some (codes "baudrate")) None None 0) FIND fresh11 0
  = Some (mkhres 0 None ESRCH fresh11).
Proof.
  apply (hsearch_find_correct fresh11 ∅ (codes "baudrate") 0 (proj1 fresh11_rep)).
  by repeat constructor.
Defined.
Lemma hsearch_enter_correct_witness : exists r,
  hsearch_r (item (codes "baudrate") (codes "115200")) ENTER fresh11 0 = Some r /\ errno r = 0.
Proof.
  destruct (hsearch_enter_correct fresh11 ∅ (codes "baudrate") (codes "115200") 0)
    as (r & H1 & _ & H2); [apply fresh11_rep|by repeat constructor|left; apply fresh11_rep|done|done|].
  exists r. split; [done|]. apply H2. by split.
Defined.
Lemma hdelete_correct_witness :
  hdelete_r (codes "baudrate") fresh11 0 = Some (mkhres 0 None ESRCH fresh11).
Proof.
  destruct (hdelete_correct fresh11 ∅ (codes "baudrate") 0) as (r & -> & H & _);
    [apply fresh11_rep|by repeat constructor|]. by rewrite H.
Defined.

(** ** What the table does without a free slot *)
Definition enter (k d : string) (h : hsearch_data) : hsearch_data :=
  match hsearch_r (item (codes k) (codes d)) ENTER h 0 with Some r => tab r | None => h end.
Definition remove (k : string) (h : hsearch_data) : hsearch_data :=
  match hdelete_r (codes k) h 0 with Some r => tab r | None => h end.
Definition found (k : string) (h : hsearch_data) : bool :=
  match hsearch_r (mkENTRY (Some (codes k)) None None 0) FIND h 0 with
  | Some r => negb (ret r =? 0) | None => false end.
Definition five : hsearch_data := mkhsearch (Some (replicate 6 no__ENTRY)) 5 0 None.

(** Five variables fill the five slots and one of them is deleted: [filled] is 4 and no slot
    is free.  Inserting a sixth variable then overwrites the live variable at its home slot,
    because a deleted slot is remembered only when it is the first one probed. *)
Lemma enter_overwrites_live_variable :
  let h := remove "a" (enter "e" "5" (enter "d" "4" (enter "c" "3" (enter "b" "2" (enter "a" "1" five))))) in
  filled h = 4 /\ found "c" h = true
  /\ exists k, found "c" (enter k "6" h) = false.
Proof. split; [vm_compute; reflexivity|]. split; [vm_compute; reflexivity|].
  exists "h"%string. vm_compute. reflexivity. Qed.
