(* ===== verification/HashExport.v ===== *)
(** * Export and import of the environment: [hexport_r], [himport_r], [hwalk_r]

    The text of the environment is a list of bytes.  [dp], the read pointer of the import, is
    the list of the bytes from there to the end of the buffer; reading it when it is empty is
    the access behind the buffer. *)
From S2P Require Import Prelude Ctype Mem CStr Qsort Hashtable HashProbe HashSpec.
From Stdlib Require Import Znumtheory.
#[local] Open Scope Z_scope.

(** ** hexport *)
Definition cmpkey (p1 p2 : ENTRY) : Z := strcmp (default [] (key p1)) (default [] (key p2)).

Definition match_string (flag : Z) (str pat : list Z) : bool :=
  let method := flag .& H_MATCH_METHOD in
  if method =? H_MATCH_IDENT then strcmp str pat =? 0
  else if method =? H_MATCH_SUBSTR then strstr str pat
  else false.

Fixpoint match_entry (ep : ENTRY) (flag : Z) (args : list (list Z)) : option bool :=
  match args with
  | [] => Some false
  | arg :: args =>
      k ← (if negb (flag .& H_MATCH_KEY =? 0)
           then k ← key ep; Some (match_string flag k arg) else Some false);
      if (k : bool) then Some true
      else
        d ← (if negb (flag .& H_MATCH_DATA =? 0)
             then d ← data ep; Some (match_string flag d arg) else Some false);
        if (d : bool) then Some true else match_entry ep flag args
  end.

(** The length of a value with its escapes. *)
Fixpoint escaped_len (sep : Z) (s : list Z) : Z :=
  match s with
  | [] => 0
  | c :: s => (if (c =? sep) || (c =? 92) then 2 else 1) + escaped_len sep s
  end.

(** Pass 1: the used slots from [i] on and the total length. *)
Fixpoint export_scan (n : nat) (htab : hsearch_data) (sep flag : Z) (argv : list (list Z))
    (i : Z) (list_ : list ENTRY) (totlen : Z) : option (list ENTRY * Z) :=
  match n with
  | O => Some (list_, totlen)
  | S n =>
      s ← slot htab i;
      if 0 <? used s then
        let ep := entry s in
        found ← match_entry ep flag (tail argv);
        k ← key ep;
        if (0 <? zlen argv) && negb found then
          export_scan n htab sep flag argv (i + 1) list_ totlen
        else if negb (flag .& H_HIDE_DOT =? 0) && (chr k =? 46) then
          export_scan n htab sep flag argv (i + 1) list_ totlen
        else
          d ← data ep;
          let totlen := u32 (totlen + (zlen k + 2)) in
          let totlen := u32 (totlen + (if sep =? 0 then zlen d else escaped_len sep d)) in
          let totlen := u32 (totlen + 2) in
          export_scan n htab sep flag argv (i + 1) (list_ ++ [ep]) totlen
      else export_scan n htab sep flag argv (i + 1) list_ totlen
  end.

(** Pass 2: the characters stored through [p], one after the other. *)
Fixpoint escape (sep : Z) (s : list Z) : list Z :=
  match s with
  | [] => []
  | c :: s => (if (c =? sep) || (c =? 92) then [92; c] else [c]) ++ escape sep s
  end.
Definition export_entry (sep : Z) (e : ENTRY) : option (list Z) :=
  k ← key e; d ← data e; Some (k ++ [61] ++ escape sep d ++ [sep]).
Fixpoint export_text (sep : Z) (l : list ENTRY) : option (list Z) :=
  match l with
  | [] => Some []
  | e :: l => x ← export_entry sep e; y ← export_text sep l; Some (x ++ y)
  end.

(** [resp] is the capacity of the caller's buffer when there is one; the result is the
    return value, [errno] and the contents of the buffer.  Storing more than the buffer
    holds is a fault. *)
Definition hexport_r `{!EnvHooks} (htab : hsearch_data) (sep flag : Z) (resp : option Z) (sz : Z)
    (argv : list (list Z)) : option (Z * Z * list Z) :=
  '(list_, totlen) ← export_scan (Z.to_nat (size htab)) htab sep flag argv 1 [] 0;
  list_ ← qsort cmpkey list_;
  if negb (sz =? 0) && (sz <? u32 (totlen + 1)) then Some (-1, ENOMEM, [])
  else
    let sz := if negb (sz =? 0) then sz else u32 (totlen + 1) in
    let cap := match resp with Some cap => cap | None => sz end in
    if cap <? sz then None
    else if (match resp with None => negb (calloc_ok sz) | Some _ => false end)
    then Some (-1, ENOMEM, [])
    else
      text ← export_text sep list_;
      if cap <? zlen text + 1 then None
      else Some (sz, 0, text ++ [0] ++ repeat 0 (Z.to_nat (sz - (zlen text + 1)))).

(** ** himport *)
(** The names that are left; [None] stands for the [NULL] of a name that was seen. *)
Definition drop_var_from_set (name : list Z) (vars : list (option (list Z)))
    : bool * list (option (list Z)) :=
  let hit v := match v with Some v => strcmp name v =? 0 | None => false end in
  if (zlen vars =? 0) then (true, vars)
  else (existsb hit vars, map (fun v => if hit v then None else v) vars).

Fixpoint skip_blank (dp : list Z) : option (list Z) :=
  match dp with
  | [] => None
  | c :: r => if isblank c then skip_blank r else Some dp
  end.
(** [while ( *dp && ( *dp != sep)) ++dp; ++dp;] *)
Fixpoint skip_comment (sep : Z) (dp : list Z) : option (list Z) :=
  match dp with
  | [] => None
  | c :: r => if (c =? 0) || (c =? sep) then Some r else skip_comment sep r
  end.
Fixpoint parse_name (sep : Z) (dp : list Z) : option (list Z * list Z) :=
  match dp with
  | [] => None
  | c :: r =>
      if (c =? 61) || (c =? 0) || (c =? sep) then Some ([], dp)
      else '(name, rest) ← parse_name sep r; Some (c :: name, rest)
  end.
Fixpoint parse_value (sep : Z) (dp : list Z) : option (list Z * list Z) :=
  match dp with
  | [] => None
  | c :: r =>
      if (c =? 0) || (c =? sep) then Some ([], r)
      else if c =? 92 then
        match r with
        | [] => None
        | d :: r' =>
            if negb (d =? 0) then '(v, rest) ← parse_value sep r'; Some (d :: v, rest)
            else '(v, rest) ← parse_value sep r; Some (c :: v, rest)
        end
      else '(v, rest) ← parse_value sep r; Some (c :: v, rest)
  end.

Section import.
Context {Hooks : EnvHooks}.

(** One turn of the [do ... while] loop: [inr] is the early return for an empty name. *)
Definition import_step (sep flag : Z) (dp : list Z) (htab : hsearch_data)
    (vars : list (option (list Z)))
    : option (list Z * hsearch_data * list (option (list Z)) + hsearch_data) :=
  dp ← skip_blank dp;
  c ← head dp;
  if c =? 35 then dp ← skip_comment sep dp; Some (inl (dp, htab, vars))
  else
    '(name, dp) ← parse_name sep dp;
    c ← head dp;
    delete_ ← (if c =? 0 then Some true
               else d ← head (tail dp); Some ((d =? 0) || (c =? sep) || (d =? sep)));
    if (delete_ : bool) then
      let dp := if c =? 61 then tail dp else dp in
      let dp := tail dp in
      let (hit, vars) := drop_var_from_set name vars in
      if negb hit then Some (inl (dp, htab, vars))
      else r ← hdelete_r name htab flag; Some (inl (dp, tab r, vars))
    else
      '(value, dp) ← parse_value sep (tail dp);
      if zlen name =? 0 then Some (inr htab)
      else
        let (hit, vars) := drop_var_from_set name vars in
        if negb hit then Some (inl (dp, htab, vars))
        else
          r ← hsearch_r (mkENTRY (Some name) (Some value) None 0) ENTER htab flag;
          Some (inl (dp, tab r, vars)).

Fixpoint import_loop (n : nat) (sep flag : Z) (dp : list Z) (htab : hsearch_data)
    (vars : list (option (list Z))) : option (hsearch_data * list (option (list Z)) + hsearch_data) :=
  match n with
  | O => None
  | S n =>
      r ← import_step sep flag dp htab vars;
      match r with
      | inr htab => Some (inr htab)
      | inl (dp, htab, vars) =>
          match dp with
          | c :: _ => if negb (c =? 0) then import_loop n sep flag dp htab vars
                      else Some (inl (htab, vars))
          | [] => Some (inl (htab, vars))
          end
      end
  end.

(** The names that did not occur are removed. *)
Fixpoint import_rest (flag : Z) (htab : hsearch_data) (vars : list (option (list Z)))
    : option hsearch_data :=
  match vars with
  | [] => Some htab
  | None :: vars => import_rest flag htab vars
  | Some v :: vars => r ← hdelete_r v htab flag; import_rest flag (tab r) vars
  end.

Definition CONFIG_ENV_MIN_ENTRIES : Z := 64.
Definition CONFIG_ENV_MAX_ENTRIES : Z := 512.
Definition import_entries (sz : Z) : Z :=
  let nent := s32 (CONFIG_ENV_MIN_ENTRIES + sz / 8) in
  if CONFIG_ENV_MAX_ENTRIES <? nent then CONFIG_ENV_MAX_ENTRIES else nent.

(** [env] is the block of [size] bytes; the result is the return value and the table. *)
Definition himport_r (htab : hsearch_data) (env : list Z) (sep flag : Z)
    (vars : list (list Z)) : option (Z * hsearch_data) :=
  let sz := zlen env in
  if negb (calloc_ok sz) then Some (0, htab)
  else
    let htab :=
      if flag .& H_NOCLEAR =? 0
      then match table htab with Some _ => hdestroy_r htab | None => htab end else htab in
    '(created, htab) ← (match table htab with
                        | Some _ => Some (1, htab)
                        | None => hcreate_r (import_entries sz) htab
                        end);
    if created =? 0 then Some (0, htab)
    else
      r ← import_loop (S (length env)) sep flag env htab (map Some vars);
      match r with
      | inr htab => Some (0, htab)
      | inl (htab, vars) => htab ← import_rest flag htab vars; Some (1, htab)
      end.
End import.

(** ** hwalk *)
(** The callback gets the entry and may change its attributes. *)
Fixpoint hwalk_loop (n : nat) (i : Z) (htab : hsearch_data) (callback_ : ENTRY -> Z * ENTRY)
    : option (Z * hsearch_data) :=
  match n with
  | O => Some (0, htab)
  | S n =>
      s ← slot htab i;
      if 0 <? used s then
        let (retval, e) := callback_ (entry s) in
        let htab := set_slot htab i (mk_ENTRY (used s) e) in
        if negb (retval =? 0) then Some (retval, htab) else hwalk_loop n (i + 1) htab callback_
      else hwalk_loop n (i + 1) htab callback_
  end.
Definition hwalk_r (htab : hsearch_data) (callback_ : ENTRY -> Z * ENTRY) : option (Z * hsearch_data) :=
  hwalk_loop (Z.to_nat (size htab)) 1 htab callback_.

(** ** What is exported *)
Abbreviation pair := (list Z * list Z)%type.
Definition entry_pair (e : ENTRY) : option pair := k ← key e; d ← data e; Some (k, d).
Definition live_entries (t : list _ENTRY) : list ENTRY :=
  omap (fun s => if live s then Some (entry s) else None) t.
Definition pairs (t : list _ENTRY) : list pair := omap entry_pair (live_entries t).
Definition pair_text (sep : Z) (p : pair) : list Z := fst p ++ [61] ++ escape sep (snd p) ++ [sep].
Fixpoint text_of (sep : Z) (l : list pair) : list Z :=
  match l with [] => [] | p :: l => pair_text sep p ++ text_of sep l end.
Definition pair_len (sep : Z) (p : pair) : Z :=
  zlen (fst p) + 2 + (if sep =? 0 then zlen (snd p) else escaped_len sep (snd p)) + 2.
Fixpoint total_len (sep : Z) (l : list pair) : Z :=
  match l with [] => 0 | p :: l => pair_len sep p + total_len sep l end.

Lemma escape_len sep d : zlen (escape sep d) = escaped_len sep d.
Proof.
  induction d as [|c d IH]; cbn [escape escaped_len]; [done|].
  rewrite length_app. case_if; cbn [length]; lia.
Qed.
Lemma pair_len_pos sep p : 0 <= pair_len sep p.
Proof. unfold pair_len. rewrite <- escape_len. case_if; lia. Qed.
Lemma total_len_pos sep l : 0 <= total_len sep l.
Proof. induction l as [|p l IH]; cbn [total_len]; [done|]. pose proof (pair_len_pos sep p). lia. Qed.
Lemma total_len_perm sep l1 l2 : l1 ≡ₚ l2 -> total_len sep l1 = total_len sep l2.
Proof. induction 1; cbn [total_len]; lia. Qed.

(** The pass over the slots collects the used ones, in order. *)
Lemma export_scan_ok h sep suf : forall pre ps acc tot,
  table h = Some (pre ++ suf) ->
  Forall2 (fun e p => entry_pair e = Some p) (live_entries suf) ps ->
  0 <= tot -> tot + total_len sep ps < 0x100000000 ->
  export_scan (length suf) h sep 0 [] (zlen pre) acc tot =
    Some (acc ++ live_entries suf, tot + total_len sep ps).
Proof.
  induction suf as [|s suf IH]; intros pre ps acc tot Ht Hps H0 Hlim; cbn [length export_scan].
  { apply Forall2_nil_inv_l in Hps as ->. cbn. by rewrite app_nil_r, Z.add_0_r. }
  unfold slot at 1. rewrite Ht. cbn [mbind option_bind].
  rewrite Nat2Z.id, list_lookup_middle by done. cbn [mbind option_bind].
  assert (table h = Some ((pre ++ [s]) ++ suf)) as Ht' by by rewrite <- app_assoc.
  specialize (IH (pre ++ [s])). rewrite length_app, Nat2Z.inj_add in IH. cbn [length] in IH.
  change (Z.of_nat 1) with 1 in IH.
  unfold live_entries in *. cbn [omap list_omap] in *. fold (live s).
  destruct (live s) eqn:Hl.
  - apply Forall2_cons_inv_l in Hps as (p & ps' & Hp & Hps & ->).
    unfold entry_pair in Hp. cbn [match_entry tail mbind option_bind].
    destruct (key (entry s)) as [k|]; [|done]. destruct (data (entry s)) as [d|]; [|done].
    cbn in Hp. injection Hp as <-. cbn [mbind option_bind].
    cbn [total_len] in *. pose proof (total_len_pos sep ps').
    pose proof (pair_len_pos sep (k, d)). unfold pair_len in *. cbn [fst snd] in *.
    assert (0 <= if sep =? 0 then zlen d else escaped_len sep d) by (rewrite <- escape_len; case_if; lia).
    change (0 <? Z.of_nat 0) with false. cbn [andb negb].
    change (negb (0 .& H_HIDE_DOT =? 0)) with false. cbn [andb].
    unwrap.
    rewrite (IH ps') by (done || lia). rewrite <- app_assoc. cbn [app]. eq_lia.
  - by rewrite (IH ps).
Qed.

(** ** The used slots are the map *)
Definition uniq_keys (t : list _ENTRY) : Prop := forall i j s s' k,
  t !! i = Some s -> t !! j = Some s' -> live s = true -> live s' = true ->
  key (entry s) = Some k -> key (entry s') = Some k -> i = j.

Lemma elem_of_pairs t k d : (k, d) ∈ pairs t <->
  exists i s, t !! i = Some s /\ live s = true /\ key (entry s) = Some k /\ data (entry s) = Some d.
Proof.
  unfold pairs, live_entries. rewrite list_elem_of_omap. split.
  - intros (e & (s & Hs & Hl)%list_elem_of_omap & Hp). destruct (live s) eqn:E; [|done].
    apply list_elem_of_lookup in Hs as [i Hs]. injection Hl as <-. unfold entry_pair in Hp.
    exists i, s. destruct (key (entry s)); [|done]. destruct (data (entry s)); [|done].
    cbn in Hp. by simplify_eq.
  - intros (i & s & Hs & Hl & Hk & Hd). exists (entry s). split.
    + apply list_elem_of_omap. exists s. rewrite Hl. split; [by apply list_elem_of_lookup_2 in Hs|done].
    + unfold entry_pair. by rewrite Hk, Hd.
Qed.

Lemma pairs_cons s t : pairs (s :: t) =
  match (if live s then entry_pair (entry s) else None) with
  | Some p => p :: pairs t | None => pairs t end.
Proof. unfold pairs, live_entries. cbn. destruct (live s); [|done]. cbn. by destruct (entry_pair (entry s)). Qed.

Lemma pairs_nodup t : uniq_keys t -> NoDup (pairs t).*1.
Proof.
  induction t as [|s t IH]; intros Hu; [constructor|]. rewrite pairs_cons.
  assert (uniq_keys t) as Hu'.
  { intros i j s1 s2 k H1 H2 ? ? ? ?. enough (S i = S j) by lia. by apply (Hu (S i) (S j) s1 s2 k). }
  destruct (live s) eqn:Hl; [|by apply IH].
  destruct (entry_pair (entry s)) as [[k d]|] eqn:Hp; [|by apply IH].
  cbn. constructor; [|by apply IH].
  intros ([k' d'] & Hk & Hin)%list_elem_of_fmap. cbn in Hk. subst k'.
  apply elem_of_pairs in Hin as (i & s' & Hs' & Hl' & Hk' & _).
  unfold entry_pair in Hp. destruct (key (entry s)) as [k1|] eqn:Hk1; [|done].
  destruct (data (entry s)); [|done]. cbn in Hp. simplify_eq.
  by specialize (Hu 0%nat (S i) s s' k eq_refl Hs' Hl Hl' Hk1 Hk').
Qed.

(** The table without its unused slot 0. *)
Lemma rep_pairs h M : rep h M -> exists s0 t, table h = Some (s0 :: t)
  /\ length t = Z.to_nat (size h) /\ pairs t ≡ₚ map_to_list M /\ filled h = Z.of_nat (count t)
  /\ Forall2 (fun e p => entry_pair e = Some p) (live_entries t) (pairs t).
Proof.
  intros [Hwf Hden]. destruct (wf_table h Hwf) as (t0 & Ht & Hl & Hok & Hf).
  destruct t0 as [|s0 t]; [done|]. exists s0, t.
  assert (slot h 0 = Some s0) as Hs0 by by unfold slot; rewrite Ht.
  pose proof (wf_zero h Hwf s0 Hs0) as Hu0.
  assert (live s0 = false) as Hl0 by (unfold live; lia).
  assert (forall i s, t !! i = Some s -> slot h (Z.of_nat (S i)) = Some s) as Hslot.
  { intros i s Hs. unfold slot. rewrite Ht. cbn [mbind option_bind]. by rewrite Nat2Z.id. }
  apply Forall_cons in Hok as [_ Hok].
  assert (forall i s, t !! i = Some s -> live s = true ->
    exists k d, key (entry s) = Some k /\ data (entry s) = Some d) as Hstr.
  { intros i s Hs Hlive. destruct (Forall_lookup_1 _ _ _ _ Hok Hs) as [?|[?|(k & d & Hk & Hd & _)]];
      [unfold live in Hlive; lia..|eauto]. }
  split_and!; [done|cbn in Hl; lia| | |].
  - apply NoDup_Permutation; [|apply NoDup_map_to_list|].
    + apply NoDup_fmap_1 with (f := fst), pairs_nodup.
      intros i j s s' k Hi Hj Hli Hlj Hki Hkj.
      destruct (Hstr _ _ Hi Hli) as (? & d & ? & Hd), (Hstr _ _ Hj Hlj) as (? & d' & ? & Hd').
      enough (Z.of_nat (S i) = Z.of_nat (S j)) by lia.
      apply (wf_unique h Hwf _ _ k d d'); (split; [lia|]); [exists s|exists s']; auto.
    + intros [k d]. rewrite elem_of_map_to_list, (Hden k d), elem_of_pairs. split.
      * intros (i & s & Hs & Hls & Hk & Hd). exists (Z.of_nat (S i)). split; [lia|].
        exists s. auto.
      * intros [i Hi]. pose proof (holds_range _ _ _ _ Hwf Hi).
        destruct Hi as [_ (s & Hs & Hls & Hk & Hd)].
        unfold slot in Hs. rewrite Ht in Hs. cbn [mbind option_bind] in Hs.
        destruct (Z.to_nat i) as [|n] eqn:En; [lia|]. exists n, s. auto.
  - rewrite Hf. unfold count. cbn [List.filter]. by rewrite Hl0.
  - clear -Hstr. induction t as [|s t IH]; [constructor|]. rewrite pairs_cons.
    unfold live_entries. cbn [omap list_omap].
    assert (forall i s, t !! i = Some s -> live s = true ->
      exists k d, key (entry s) = Some k /\ data (entry s) = Some d) as Hstr' by (intros i; apply (Hstr (S i))).
    destruct (live s) eqn:Hl; [|by apply IH].
    destruct (Hstr 0%nat s eq_refl Hl) as (k & d & Hk & Hd).
    unfold entry_pair at 2. rewrite Hk, Hd. constructor; [|by apply IH].
    unfold entry_pair. by rewrite Hk, Hd.
Qed.

(** Without deleted slots a table that is not full has a free slot. *)
Lemma clean_room h M : rep h M -> clean h -> (Z.of_nat (base.size M) < size h) -> room h.
Proof.
  intros Hrep Hc Hlt. destruct (rep_pairs h M Hrep) as (s0 & t & Ht & Hl & Hp & Hf & Hf2).
  pose proof (wf_size h (proj1 Hrep)).
  destruct (decide (Exists (fun s => used s = 0) t)) as [He|Hne].
  - apply Exists_exists in He as (s & Hs & Hu). apply list_elem_of_lookup in Hs as [i Hs].
    exists (Z.of_nat (S i)), s. pose proof (lookup_lt_Some _ _ _ Hs). split; [lia|].
    split; [|done]. unfold slot. rewrite Ht. cbn [mbind option_bind]. by rewrite Nat2Z.id.
  - exfalso. apply Permutation_length in Hp.
    assert (length (map_to_list M) = base.size M) as Hm by apply length_map_to_list.
    apply Forall2_length in Hf2.
    assert (length (live_entries t) = length t) as Hall; [|lia].
    apply not_Exists_Forall in Hne; [|intros ?; apply _].
    assert (Forall (fun s => live s = true) t) as Hlive.
    { apply Forall_lookup_2. intros i s Hs. unfold live.
      assert (slot h (Z.of_nat (S i)) = Some s) as Hsl.
      { unfold slot. rewrite Ht. cbn [mbind option_bind]. by rewrite Nat2Z.id. }
      pose proof (Hc _ _ Hsl). pose proof (Forall_lookup_1 _ _ _ _ Hne Hs). cbn in *. lia. }
    clear -Hlive. induction Hlive as [|s t Hs Hlive IH]; [done|].
    unfold live_entries in *. cbn. rewrite Hs. cbn. by rewrite IH.
Qed.

(** ** Export *)
Definition key_le (e1 e2 : ENTRY) : Prop := cmpkey e1 e2 <= 0.
Definition pair_le (p1 p2 : pair) : Prop := strcmp (fst p1) (fst p2) <= 0.
Definition ascii_key (e : ENTRY) : Prop := ascii (default [] (key e)).

Lemma strcmp_le s t : ascii s -> ascii t -> strcmp s t <= 0 <-> lex_lt t s = false.
Proof.
  intros Hs Ht. pose proof (strcmp_lt s t Hs Ht) as H1.
  pose proof (strcmp_eq s t (ascii_ok _ Hs) (ascii_ok _ Ht)) as H2.
  destruct (lex_lt_total s t) as [H|[->|H]].
  - destruct (lex_lt t s) eqn:E; [|split; [done|intros _; apply H1 in H; lia]].
    pose proof (lex_lt_trans _ _ _ H E) as Hi. by rewrite lex_lt_irrefl in Hi.
  - rewrite lex_lt_irrefl, strcmp_refl. done.
  - rewrite H. split; [|done]. intros Hle.
    destruct (decide (strcmp s t = 0)) as [He|].
    + apply H2 in He as ->. by rewrite lex_lt_irrefl in H.
    + assert (lex_lt s t = true) as Hl by (apply H1; lia).
      pose proof (lex_lt_trans _ _ _ H Hl) as Hi. by rewrite lex_lt_irrefl in Hi.
Qed.

Lemma cmpkey_total x y : ascii_key x -> ascii_key y -> cmpkey x y <= 0 \/ cmpkey y x <= 0.
Proof.
  unfold cmpkey, ascii_key. intros Hx Hy. rewrite !strcmp_le by done.
  destruct (lex_lt (default [] (key y)) (default [] (key x))) eqn:E; [|by left]. right.
  destruct (lex_lt (default [] (key x)) (default [] (key y))) eqn:E'; [|done].
  pose proof (lex_lt_trans _ _ _ E E') as Hi. by rewrite lex_lt_irrefl in Hi.
Qed.
Lemma cmpkey_trans x y z : ascii_key x -> ascii_key y -> ascii_key z ->
  cmpkey x y <= 0 -> cmpkey y z <= 0 -> cmpkey x z <= 0.
Proof.
  unfold cmpkey, ascii_key. intros Hx Hy Hz. rewrite !strcmp_le by done.
  set (a := default [] (key x)). set (b := default [] (key y)). set (c := default [] (key z)).
  intros H1 H2. destruct (lex_lt c a) eqn:E; [|done]. exfalso.
  destruct (lex_lt_total a b) as [H|[Hab|H]]; [|congruence|congruence].
  pose proof (lex_lt_trans _ _ _ E H). congruence.
Qed.

Lemma export_text_ok sep es ps : Forall2 (fun e p => entry_pair e = Some p) es ps ->
  export_text sep es = Some (text_of sep ps).
Proof.
  induction 1 as [|e [k d] es ps Hp _ IH]; [done|]. cbn [export_text text_of].
  unfold entry_pair in Hp. unfold export_entry.
  destruct (key e); [|done]. destruct (data e); [|done]. cbn in Hp. simplify_eq.
  cbn [mbind option_bind]. by rewrite IH.
Qed.

(** With [sep = 0] the room for escapes is not counted: no backslashes then. *)
Definition counted (sep : Z) (p : pair) : Prop :=
  str_ok (snd p) /\ (sep = 0 -> 92 ∉ snd p).
Lemma escaped_len_plain d : str_ok d -> 92 ∉ d -> escaped_len 0 d = zlen d.
Proof.
  induction 1 as [|c d Hc Hd IH]; [done|]. rewrite not_elem_of_cons. intros [Hne H].
  cbn [escaped_len length]. unfold char_ok in Hc. case_if; [lia|]. rewrite IH by done. lia.
Qed.
Lemma text_len sep l : Forall (counted sep) l ->
  zlen (text_of sep l) + 2 * zlen l = total_len sep l.
Proof.
  induction 1 as [|[k d] l [Hd Hb] Hl IH]; [done|]. cbn [text_of total_len length].
  unfold pair_text, pair_len. cbn [fst snd] in *. rewrite !length_app. cbn [length].
  assert ((if sep =? 0 then zlen d else escaped_len sep d) = zlen (escape sep d)) as ->; [|lia].
  rewrite escape_len. case_if; [|done]. assert (sep = 0) as -> by lia.
  by rewrite escaped_len_plain by auto.
Qed.

Lemma Forall2_perm {A B} (R : A -> B -> Prop) l l' k : Forall2 R l k -> l' ≡ₚ l ->
  exists k', Forall2 R l' k' /\ k' ≡ₚ k.
Proof.
  intros HR Hp. revert k HR. induction Hp as [|x l1 l2 Hp IH|x y l1|l1 l2 l3 H1 IH1 H2 IH2]; intros k HR.
  - exists k. by apply Forall2_nil_inv_l in HR as ->.
  - apply Forall2_cons_inv_l in HR as (b & k' & Hb & HR & ->).
    destruct (IH _ HR) as (k'' & HR' & Hk). exists (b :: k''). split; [by constructor|by rewrite Hk].
  - apply Forall2_cons_inv_l in HR as (b & k' & Hb & HR & ->).
    apply Forall2_cons_inv_l in HR as (c & k'' & Hc & HR & ->).
    exists (c :: b :: k''). split; [by repeat constructor|apply Permutation_swap].
  - destruct (IH2 _ HR) as (k2 & HR2 & Hk2). destruct (IH1 _ HR2) as (k1 & HR1 & Hk1).
    exists k1. split; [done|by rewrite Hk1].
Qed.

(** What the two passes compute: the variables, sorted, and their text. *)
Lemma export_parts {Hooks : EnvHooks} h M sep : rep h M ->
  (forall k d, M !! k = Some d -> ascii k /\ counted sep (k, d)) ->
  total_len sep (map_to_list M) + 1 < 0x100000000 ->
  exists l0 es l, export_scan (Z.to_nat (size h)) h sep 0 [] 1 [] 0 = Some (l0, total_len sep (map_to_list M))
    /\ qsort cmpkey l0 = Some es /\ export_text sep es = Some (text_of sep l)
    /\ l ≡ₚ map_to_list M /\ StronglySorted pair_le l
    /\ zlen (text_of sep l) <= total_len sep (map_to_list M).
Proof.
  intros Hrep HM Hlen. destruct (rep_pairs h M Hrep) as (s0 & t & Ht & Hl & Hp & _ & Hf2).
  pose proof (total_len_perm sep _ _ Hp) as Htl. pose proof (total_len_pos sep (map_to_list M)).
  rewrite <- Hl.
  pose proof (export_scan_ok h sep t [s0] (pairs t) [] 0 Ht Hf2 ltac:(lia) ltac:(lia)) as Hs.
  change (zlen [s0]) with 1 in Hs. rewrite Z.add_0_l, Htl in Hs.
  assert (Forall ascii_key (live_entries t)) as Hasc.
  { apply Forall_lookup_2. intros i e He. destruct (Forall2_lookup_l _ _ _ _ _ Hf2 He) as ([k d] & Hp' & Hkd).
    apply list_elem_of_lookup_2 in Hp'. rewrite Hp, elem_of_map_to_list in Hp'.
    unfold entry_pair in Hkd. unfold ascii_key. destruct (key e) as [k'|]; [|done].
    destruct (data e); [|done]. cbn in *. simplify_eq. by apply HM in Hp' as [? _]. }
  destruct (qsort_ok cmpkey ascii_key cmpkey_total cmpkey_trans (live_entries t) Hasc)
    as (es & Hq & Hperm & Hsort).
  destruct (Forall2_perm _ _ _ _ Hf2 Hperm) as (l & Hel & Hlp).
  assert (l ≡ₚ map_to_list M) as HlM by by rewrite Hlp.
  assert (Forall (counted sep) l) as Hcnt.
  { rewrite HlM. apply Forall_forall. intros [k d] Hin. apply elem_of_map_to_list in Hin.
    by apply HM in Hin as [_ ?]. }
  pose proof (text_len sep l Hcnt) as Htext. rewrite (total_len_perm sep _ _ HlM) in Htext.
  exists (live_entries t), es, l. split_and!; [exact Hs|exact Hq|by apply export_text_ok|done| |lia].
  - clear -Hsort Hel. induction Hel as [|e [k d] es l He Hel IH]; [constructor|].
    apply StronglySorted_inv in Hsort as [Hsort Hall]. constructor; [by apply IH|].
    apply Forall_lookup_2. intros i [k' d'] Hi.
    destruct (Forall2_lookup_r _ _ _ _ _ Hel Hi) as (e' & He' & Hp').
    pose proof (Forall_lookup_1 _ _ _ _ Hall He') as Hle. unfold ordered, cmpkey in Hle.
    unfold entry_pair in *. destruct (key e), (data e), (key e'), (data e'); try done.
    cbn in *. by simplify_eq.
Qed.
(** Into a new buffer of the size that pass 1 computes. *)
Lemma export_ok {Hooks : EnvHooks} h M sep : rep h M -> (forall n, calloc_ok n = true) ->
  (forall k d, M !! k = Some d -> ascii k /\ counted sep (k, d)) ->
  total_len sep (map_to_list M) + 1 < 0x100000000 ->
  exists l, l ≡ₚ map_to_list M /\ StronglySorted pair_le l
    /\ zlen (text_of sep l) + 1 <= total_len sep (map_to_list M) + 1
    /\ hexport_r h sep 0 None 0 [] =
      Some (total_len sep (map_to_list M) + 1, 0,
            text_of sep l ++ [0]
              ++ repeat 0 (Z.to_nat (total_len sep (map_to_list M) + 1 - (zlen (text_of sep l) + 1)))).
Proof.
  intros Hrep Hmem HM Hlen. destruct (export_parts h M sep Hrep HM Hlen) as (l0 & es & l & Hs & Hq & Ht & Hp & Hst & Hle).
  pose proof (total_len_pos sep (map_to_list M)). exists l. split_and!; [done..|lia|].
  unfold hexport_r. rewrite Hs. cbn [mbind option_bind]. rewrite Hq. cbn [mbind option_bind].
  change (negb (0 =? 0)) with false. cbn [andb]. rewrite u32_small by lia. rewrite Hmem. cbn [negb].
  case_if; [lia|]. rewrite Ht. cbn [mbind option_bind]. case_if; [lia|done].
Qed.
(** Into a given buffer: it is filled up with NUL bytes, or it is too small. *)
Lemma export_sized {Hooks : EnvHooks} h M sep cap : rep h M ->
  (forall k d, M !! k = Some d -> ascii k /\ counted sep (k, d)) ->
  total_len sep (map_to_list M) + 1 < 0x100000000 -> 0 < cap ->
  if cap <? total_len sep (map_to_list M) + 1 then hexport_r h sep 0 (Some cap) cap [] = Some (-1, ENOMEM, [])
  else exists l, l ≡ₚ map_to_list M /\ StronglySorted pair_le l /\ zlen (text_of sep l) + 1 <= cap
    /\ hexport_r h sep 0 (Some cap) cap []
       = Some (cap, 0, text_of sep l ++ [0] ++ repeat 0 (Z.to_nat (cap - (zlen (text_of sep l) + 1)))).
Proof.
  intros Hrep HM Hlen Hcap. destruct (export_parts h M sep Hrep HM Hlen) as (l0 & es & l & Hs & Hq & Ht & Hp & Hst & Hle).
  pose proof (total_len_pos sep (map_to_list M)).
  unfold hexport_r. rewrite Hs. cbn [mbind option_bind]. rewrite Hq. cbn [mbind option_bind].
  rewrite u32_small by lia. replace (cap =? 0) with false by lia. cbn [negb andb]. case_if; [done|].
  exists l. split_and!; [done..|lia|]. rewrite Z.ltb_irrefl. rewrite Ht. cbn [mbind option_bind]. case_if; [lia|done].
Qed.

(** ** Import *)
(** A variable that survives the text form: its name is not empty, starts with neither a
    blank nor '#', and has no '=' or separator; its value is not empty. *)
Definition valid (sep : Z) (p : pair) : Prop :=
  str_ok (fst p) /\ str_ok (snd p) /\ snd p <> [] /\ 61 ∉ fst p /\ sep ∉ fst p
  /\ match fst p with [] => False | c :: _ => isblank c = false /\ c <> 35 end.

Lemma parse_name_ok sep k r : str_ok k -> 61 ∉ k -> sep ∉ k ->
  parse_name sep (k ++ 61 :: r) = Some (k, 61 :: r).
Proof.
  induction 1 as [|c k Hc Hk IH]; intros He Hs; [done|].
  rewrite not_elem_of_cons in He, Hs. cbn [app parse_name]. unfold char_ok in Hc.
  destruct ((c =? 61) || (c =? 0) || (c =? sep)) eqn:E; [lia|].
  by rewrite IH by tauto.
Qed.
Lemma parse_value_ok sep d r : str_ok d -> sep <> 92 ->
  parse_value sep (escape sep d ++ sep :: r) = Some (d, r).
Proof.
  intros Hd Hsep. induction Hd as [|c d Hc Hd IH]; cbn [escape app].
  - cbn [parse_value]. destruct ((sep =? 0) || (sep =? sep)) eqn:E; [done|lia].
  - unfold char_ok in Hc. destruct ((c =? sep) || (c =? 92)) eqn:E; cbn [app parse_value].
    + destruct ((92 =? 0) || (92 =? sep)) eqn:E1; [lia|]. cbn [Z.eqb Pos.eqb].
      destruct (c =? 0) eqn:E2; [lia|]. cbn [negb]. by rewrite IH.
    + destruct ((c =? 0) || (c =? sep)) eqn:E1; [lia|].
      destruct (c =? 92) eqn:E2; [lia|]. by rewrite IH.
Qed.

Lemma text_entries sep l : (length l <= length (text_of sep l))%nat.
Proof.
  induction l as [|p l IH]; cbn [length text_of]; [lia|].
  unfold pair_text. rewrite !length_app. cbn [length]. lia.
Qed.

Section import_proofs.
Context {Hooks : EnvHooks} {HooksOk : EnvHooksOk} (sep : Z)
  (Hsep : sep <> 92 /\ sep <> 61) (Hdup : forall s, strdup s = Some s).

Lemma escape_head d : str_ok d -> d <> [] -> exists c r, escape sep d = c :: r /\ c <> 0 /\ c <> sep.
Proof.
  intros Hd Hne. destruct Hd as [|c d Hc Hd]; [done|]. cbn [escape]. unfold char_ok in Hc.
  destruct ((c =? sep) || (c =? 92)) eqn:E; cbn [app]; eexists _, _; (split; [done|lia]).
Qed.

(** One entry of the text becomes one insertion. *)
Lemma import_step_ok p r h : valid sep p ->
  import_step sep 0 (pair_text sep p ++ r) h [] =
    (x ← hsearch_r (item (fst p) (snd p)) ENTER h 0; Some (inl (r, tab x, []))).
Proof.
  destruct p as [k d]. unfold valid, pair_text. cbn [fst snd].
  intros (Hk & Hd & Hne & He & Hs & Hhd). destruct k as [|c k]; [done|]. destruct Hhd as [Hb H35].
  unfold import_step. cbn [app skip_blank]. rewrite Hb. cbn [mbind option_bind head].
  destruct (c =? 35) eqn:E35; [lia|].
  rewrite <- (app_assoc k). cbn [app]. rewrite <- (app_assoc (escape sep d)). cbn [app].
  pose proof (parse_name_ok sep (c :: k) (escape sep d ++ sep :: r) Hk He Hs) as Hp.
  cbn [app] in Hp. rewrite Hp. cbn [mbind option_bind head tail].
  destruct (escape_head d Hd Hne) as (c1 & r1 & Hesc & Hc0 & Hcs).
  rewrite Hesc at 1. cbn [app head mbind option_bind]. change (61 =? 0) with false.
  cbn [mbind option_bind].
  destruct ((c1 =? 0) || (61 =? sep) || (c1 =? sep)) eqn:E1; [lia|].
  rewrite parse_value_ok by tauto. cbn [mbind option_bind].
  destruct (zlen (c :: k) =? 0) eqn:E2; [cbn in E2; lia|]. done.
Qed.

Definition insert_pair (M : gmap (list Z) (list Z)) (p : pair) : gmap (list Z) (list Z) :=
  <[fst p := snd p]> M.

Lemma size_insert_le M p : (base.size (insert_pair M p) <= S (base.size M))%nat.
Proof.
  unfold insert_pair. rewrite map_size_insert. destruct (M !! fst p); cbn; lia.
Qed.

Lemma pair_text_cons p r : valid sep p -> exists c r', pair_text sep p ++ r = c :: r' /\ c <> 0.
Proof.
  destruct p as [k d]. intros (Hk & _ & _ & _ & _ & Hhd). cbn in *. destruct k as [|c k]; [done|].
  apply Forall_cons in Hk as [Hc _]. unfold char_ok in Hc. cbn. eexists _, _. split; [done|lia].
Qed.

Definition accepting (h : hsearch_data) : Prop :=
  (forall e v op, ask_change_ok h e v op 0 = 0)
  /\ forall f h' name v op, fst (call f h' name v op 0) = 0.

Lemma import_loop_ok l : forall n h M pad, Forall (valid sep) l -> l <> [] -> rep h M -> clean h ->
  accepting h -> (base.size M + length l <= Z.to_nat (size h))%nat -> (length l <= n)%nat ->
  exists h', import_loop n sep 0 (text_of sep l ++ 0 :: pad) h [] = Some (inl (h', []))
    /\ rep h' (foldl insert_pair M l).
Proof.
  induction l as [|p l IH]; intros n h M pad Hv Hne Hrep Hc Hacc Hroom Hn; [done|].
  apply Forall_cons in Hv as [Hp Hv]. destruct n as [|n]; [cbn in Hn; lia|].
  cbn [import_loop text_of length] in *. rewrite <- app_assoc, import_step_ok by done.
  pose proof (wf_size h (proj1 Hrep)).
  assert (room h) as Hr by (apply (clean_room h M); [done|done|lia]).
  destruct (enter_ok h M (fst p) (snd p) 0 Hrep (proj1 Hp) (or_introl Hr) (Hdup _) (Hdup _))
    as (x & -> & Hent & Hok). cbn [mbind option_bind].
  assert (errno x = 0) as He by (apply Hok; exact Hacc).
  destruct Hent as [(_ & Hrep' & Hsz & Hch & Hc' & _)|(_ & _ & [He'|He'] & _)];
    [|rewrite He' in He; done..].
  cbn [foldl]. destruct l as [|q l].
  - cbn. by eexists.
  - apply Forall_cons in Hv as Hv'. destruct Hv' as [Hq _].
    destruct (pair_text_cons q (text_of sep l ++ 0 :: pad) Hq) as (c & r & Heq & Hc0).
    cbn [text_of]. rewrite <- app_assoc, Heq. destruct (c =? 0) eqn:E; [lia|]. cbn [negb].
    rewrite <- Heq, app_assoc. change (pair_text sep q ++ text_of sep l) with (text_of sep (q :: l)).
    apply IH; [done|done|done|by apply Hc'| | |cbn in *; lia].
    + destruct Hacc as [Ha1 Ha2]. split; [|done]. intros e v op. specialize (Ha1 e v op).
      unfold ask_change_ok in *. by rewrite Hch.
    + rewrite Hsz. pose proof (size_insert_le M p). unfold insert_pair in *. cbn in *. lia.
Qed.

Lemma fold_insert_perm l M : NoDup l.*1 -> l ≡ₚ map_to_list M -> foldl insert_pair ∅ l = M.
Proof.
  intros Hnd Hp.
  assert (foldl insert_pair ∅ l = list_to_map (reverse l)) as ->.
  { rewrite <- (reverse_involutive l) at 1. generalize (reverse l). clear.
    induction l as [|[k d] l IH]; [done|]. rewrite reverse_cons, foldl_app, IH. done. }
  rewrite <- (list_to_map_to_list M). apply list_to_map_proper.
  - by rewrite fmap_reverse, reverse_Permutation.
  - by rewrite reverse_Permutation.
Qed.
End import_proofs.

(** The text of the variables of [M], followed by a NUL byte and anything, is read into a table for [M]. *)
Lemma import_text_ok {Hooks : EnvHooks} {HooksOk : EnvHooksOk} M h0 sep l pad
    (sz := zlen (text_of sep l ++ [0] ++ pad)) :
  l ≡ₚ map_to_list M -> M <> ∅ -> (forall n, calloc_ok n = true) -> (forall s, strdup s = Some s) -> accepting h0 ->
  sep <> 92 /\ sep <> 61 -> (forall k d, M !! k = Some d -> ascii k /\ counted sep (k, d) /\ valid sep (k, d)) ->
  sz < 0x40000000 -> Z.of_nat (base.size M) <= import_entries sz ->
  exists h', himport_r h0 (text_of sep l ++ [0] ++ pad) sep 0 [] = Some (1, h') /\ rep h' M.
Proof.
  intros Hp Hne Hmem Hdup Hacc Hsep HM Hlen Hnum.
  assert (64 <= import_entries sz <= 512) as Hnent.
  { assert (0 <= sz / 8 < 0x8000000) by zdm.
    unfold import_entries, CONFIG_ENV_MIN_ENTRIES, CONFIG_ENV_MAX_ENTRIES.
    rewrite s32_small by lia. case_if; lia. }
  destruct (create_size (import_entries sz)) as (p & Hnp & Hpn & H5 & Hprime & _); [lia|].
  set (h1 := mkhsearch (Some (replicate (Z.to_nat (p + 1)) no__ENTRY)) p 0 (change_ok h0)).
  assert (rep h1 ∅) as Hrep1.
  { apply fresh_rep; [|cbn; lia|done|done]. cbn.
    by replace (Z.to_nat (p + 1)) with (S (Z.to_nat p)) by lia. }
  assert (clean h1) as Hclean.
  { intros i s Hs. unfold slot in Hs. cbn in Hs. by apply lookup_replicate in Hs as [-> _]. }
  assert (length l = base.size M) as Hll by by rewrite (Permutation_length Hp), length_map_to_list.
  assert (NoDup l.*1) as Hnd by (rewrite Hp; apply NoDup_fst_map_to_list).
  assert (Forall (valid sep) l) as Hval.
  { rewrite Hp. apply Forall_forall. intros [k d] Hin. apply elem_of_map_to_list in Hin.
    by apply HM in Hin as (_ & _ & ?). }
  assert (l <> []) as Hlne.
  { intros ->. apply Hne, map_size_empty_inv. cbn in Hll. lia. }
  destruct (import_loop_ok sep Hsep Hdup l (S (length (text_of sep l ++ [0] ++ pad))) h1 ∅ pad Hval Hlne
    Hrep1 Hclean Hacc) as (h' & Hloop & Hrep').
  { rewrite map_size_empty, Hll. cbn [size h1]. lia. }
  {
    rewrite length_app. pose proof (text_entries sep l). lia. }
  exists h'. split; [|by rewrite <- (fold_insert_perm l M Hnd Hp)].
  unfold himport_r. rewrite Hmem. fold sz. cbn [negb]. change (0 .& H_NOCLEAR =? 0) with true. cbn iota.
  assert ((match table (match table h0 with Some _ => hdestroy_r h0 | None => h0 end) with
          | Some _ => Some (1, match table h0 with Some _ => hdestroy_r h0 | None => h0 end)
          | None => hcreate_r (import_entries sz) (match table h0 with Some _ => hdestroy_r h0 | None => h0 end)
          end) = Some (1, h1)) as ->.
  { destruct (table h0) eqn:Et; cbn [hdestroy_r set_table table]; rewrite ?Et; unfold hcreate_r;
      cbn [hdestroy_r set_table table]; rewrite ?Et, Hnp; cbn [mbind option_bind]; by rewrite Hmem. }
  cbn [mbind option_bind]. change (1 =? 0) with false. cbn iota.
  cbn [map] in *. change ([0] ++ pad) with (0 :: pad) in *. by rewrite Hloop.
Qed.

(** ** The properties *)

(** C39: [hexport_r] into a new buffer, with a separator other than NUL: the text is the list
    of all variables sorted by name, each as name, '=', escaped value and separator,
    followed by NUL bytes up to the size that pass 1 computed, and pass 2 never stores
    outside of the buffer.  With NUL as separator the same holds when no value has a
    backslash. *)
Theorem hexport_correct {Hooks : EnvHooks} h M sep
    (Hrep : rep h M) (Hmem : forall n, calloc_ok n = true)
    (HM : forall k d, M !! k = Some d -> ascii k /\ counted sep (k, d))
    (Hlen : total_len sep (map_to_list M) + 1 < 0x100000000) :
  exists l pad sz, hexport_r h sep 0 None 0 [] = Some (sz, 0, text_of sep l ++ [0] ++ repeat 0 pad)
    /\ l ≡ₚ map_to_list M /\ StronglySorted pair_le l
    /\ zlen (text_of sep l ++ [0] ++ repeat 0 pad) = sz.
Proof.
  destruct (export_ok h M sep Hrep Hmem HM Hlen) as (l & Hp & Hs & Hle & Hr).
  exists l. eexists _, _. split_and!; [exact Hr|done|done|].
  rewrite !length_app, repeat_length. cbn [length]. lia.
Qed.

(** C20: the round trip: the text [hexport_r] makes of a table is read back by [himport_r]
    into a new table that stands for the same map, as long as the hooks accept the
    variables, every variable is representable and their number fits the new table. *)
Theorem env_roundtrip {Hooks : EnvHooks} {HooksOk : EnvHooksOk} h M h0 sep
    (Hrep : rep h M) (Hne : M <> ∅) (Hmem : forall n, calloc_ok n = true)
    (Hdup : forall s, strdup s = Some s) (Hacc : accepting h0)
    (Hsep : sep <> 92 /\ sep <> 61)
    (HM : forall k d, M !! k = Some d -> ascii k /\ counted sep (k, d) /\ valid sep (k, d))
    (Hlen : total_len sep (map_to_list M) + 1 < 0x40000000)
    (Hnum : Z.of_nat (base.size M) <= import_entries (total_len sep (map_to_list M) + 1)) :
  exists sz buf h', hexport_r h sep 0 None 0 [] = Some (sz, 0, buf)
    /\ himport_r h0 buf sep 0 [] = Some (1, h') /\ rep h' M.
Proof.
  destruct (export_ok h M sep Hrep Hmem) as (l & Hp & _ & Hle & Hr);
    [intros k d Hkd; by apply HM in Hkd as (? & ? & _)|lia|].
  set (sz := total_len sep (map_to_list M) + 1) in *. set (pad := Z.to_nat _) in Hr.
  assert (zlen (text_of sep l ++ [0] ++ repeat 0 pad) = sz) as Hsz.
  { rewrite !length_app, repeat_length. cbn [length]. unfold pad. lia. }
  destruct (import_text_ok M h0 sep l (repeat 0 pad) Hp Hne Hmem Hdup Hacc Hsep HM) as (h' & Himp & Hrep'); [lia|by rewrite Hsz|].
  by exists sz, (text_of sep l ++ [0] ++ repeat 0 pad), h'.
Qed.

(** ** The theorems at a concrete table *)
Definition one_var : gmap (list Z) (list Z) := {[ codes "baudrate" := codes "115200" ]}.
Definition one_table : hsearch_data := enter "baudrate" "115200" fresh11.
Lemma one_table_rep : rep one_table one_var.
Proof.
  destruct (enter_ok fresh11 ∅ (codes "baudrate") (codes "115200") 0) as (r & Hr & Hent & Hacc);
    [apply fresh11_rep|by repeat constructor|left; apply fresh11_rep|done|done|].
  assert (tab r = one_table) as Ht by (unfold one_table, enter; by rewrite Hr).
  destruct Hent as [(_ & Hrep & _)|(_ & _ & He & _)].
  - by rewrite <- Ht.
  - rewrite Hacc in He by (by split). by destruct He.
Qed.
Lemma one_var_ok k d : one_var !! k = Some d ->
  ascii k /\ counted 10 (k, d) /\ valid 10 (k, d).
Proof.
  unfold one_var. intros [<- <-]%lookup_singleton_Some.
  split; [by repeat constructor|]. split; [split; [by repeat constructor|done]|].
  unfold valid; cbn [fst snd]. split_and!; [by repeat constructor|by repeat constructor|done| | |done].
  - apply (bool_decide_unpack (61 ∉ codes "baudrate")). vm_compute. done.
  - apply (bool_decide_unpack (10 ∉ codes "baudrate")). vm_compute. done.
Qed.
Lemma one_var_len : total_len 10 (map_to_list one_var) = 18.
Proof. unfold one_var. rewrite map_to_list_singleton. reflexivity. Qed.

Lemma hexport_correct_witness : exists l pad sz,
  hexport_r one_table 10 0 None 0 [] = Some (sz, 0, text_of 10 l ++ [0] ++ repeat 0 pad)
  /\ l ≡ₚ map_to_list one_var.
Proof.
  destruct (hexport_correct one_table one_var 10 one_table_rep ltac:(done)) as (l & pad & sz & H1 & H2 & _).
  - intros k d Hk. destruct (one_var_ok k d Hk) as (? & ? & _). done.
  - rewrite one_var_len. done.
  - by exists l, pad, sz.
Defined.

Lemma env_roundtrip_witness : exists sz buf h',
  hexport_r one_table 10 0 None 0 [] = Some (sz, 0, buf)
  /\ himport_r no_table buf 10 0 [] = Some (1, h') /\ rep h' one_var.
Proof.
  apply (env_roundtrip one_table one_var no_table 10 one_table_rep).
  - unfold one_var; apply map_non_empty_singleton.
  - done.
  - done.
  - by split.
  - by split.
  - apply one_var_ok.
  - rewrite one_var_len. done.
  - rewrite one_var_len. unfold one_var. rewrite map_size_singleton. done.
Defined.

(** With NUL as separator pass 1 does not count the escapes that pass 2 writes: a value of
    three backslashes already overruns the buffer. *)
Lemma hexport_overflows :
  hexport_r (enter "a" "\\\" fresh11) 0 0 None 0 [] = None.
Proof. vm_compute. reflexivity. Qed.

(** [hmatch_r] stops before the last slot, which holds variables like every other. *)
Lemma hmatch_misses_last_slot :
  let h := enter "e" "5" (enter "d" "4" (enter "c" "3" (enter "b" "2" (enter "a" "1" five)))) in
  exists k, found k h = true /\ hmatch_r (codes k) 0 h = Some (mkhres 0 None ESRCH h).
Proof. exists "e"%string. vm_compute. split; reflexivity. Qed.
