(* ===== verification/Div64.v ===== *)
(** * 64-bit division: [lib/div64.c] and [include/div64.h] *)
From S2P Require Import Prelude.

(** [while ((int64_t)b > 0 && b < rem) { b = b+b; d = d+d; }] *)
Fixpoint div64_up (n : nat) (b d rem : Z) : option (Z * Z) :=
  match n with
  | O => None
  | S n =>
      if (0 <? s64 b) && (b <? rem) then div64_up n (u64 (b + b)) (u64 (d + d)) rem
      else Some (b, d)
  end.

(** [do { ... } while (d);] *)
Fixpoint div64_down (n : nat) (b d rem res : Z) : option (Z * Z) :=
  match n with
  | O => None
  | S n =>
      let '(rem, res) := if b <=? rem then (u64 (rem - b), u64 (res + d)) else (rem, res) in
      let b := b ≫ 1 in
      let d := d ≫ 1 in
      if negb (d =? 0) then div64_down n b d rem res else Some (rem, res)
  end.

(** The quotient, left in [*n], and the remainder that is returned. *)
Definition __div64_32 (n base : Z) : option (Z * Z) :=
  let rem := n in
  let b := base in
  let high := u32 (rem ≫ 32) in
  let '(res, rem) :=
    if base <=? high then
      let high := high / base in
      (u64 (high ≪ 32), u64 (rem - u64 (u32 (high * base) ≪ 32)))
    else (0, rem) in
  '(b, d) ← div64_up 65 b 1 rem;
  '(rem, res) ← div64_down 65 b d rem res;
  Some (res, u32 rem).

Definition do_div (n base : Z) : option (Z * Z) :=
  if n ≫ 32 =? 0 then Some (u32 n / base, u32 n mod base) else __div64_32 n base.

Lemma s64_pos b : 0 <= b < 0x10000000000000000 -> (0 <? s64 b) = (0 <? b) && (b <? 0x8000000000000000).
Proof. intros Hb. unfold s64. rewrite u64_small by done. case_if; lia. Qed.

Lemma pow2_succ k : 2 ^ Z.of_nat (S k) = 2 * 2 ^ Z.of_nat k.
Proof. rewrite Nat2Z.inj_succ, Z.pow_succ_r; lia. Qed.
Lemma pow2_pos k : 0 < 2 ^ Z.of_nat k.
Proof. apply Z.pow_pos_nonneg; lia. Qed.

Lemma div64_up_ok base rem : 0 < base -> 0 <= rem < 0x10000000000000000 ->
  forall n k, base * 2 ^ Z.of_nat k < 0x10000000000000000 -> (64 <= n + k)%nat -> (k <= 64)%nat ->
  (0 < n)%nat ->
  exists k', div64_up n (base * 2 ^ Z.of_nat k) (2 ^ Z.of_nat k) rem
      = Some (base * 2 ^ Z.of_nat k', 2 ^ Z.of_nat k')
    /\ base * 2 ^ Z.of_nat k' < 0x10000000000000000 /\ rem < 2 * (base * 2 ^ Z.of_nat k').
Proof.
  intros Hb Hr. induction n as [|n IH]; intros k Hk Hn Hk64 Hpos; [lia|]. cbn [div64_up].
  pose proof (pow2_pos k). rewrite s64_pos by nia. case_if.
  - assert (base * 2 ^ Z.of_nat (S k) < 0x10000000000000000) by (rewrite pow2_succ; nia).
    assert (k < 64)%nat as Hklt.
    { destruct (decide (k = 64)%nat) as [->|]; [|lia]. change (2 ^ Z.of_nat 64) with 0x10000000000000000 in Hk. nia. }
    replace (u64 (base * 2 ^ Z.of_nat k + base * 2 ^ Z.of_nat k)) with (base * 2 ^ Z.of_nat (S k))
      by (rewrite u64_small by (rewrite pow2_succ in *; nia); rewrite pow2_succ; nia).
    replace (u64 (2 ^ Z.of_nat k + 2 ^ Z.of_nat k)) with (2 ^ Z.of_nat (S k))
      by (rewrite u64_small by (rewrite pow2_succ in *; nia); rewrite pow2_succ; nia).
    destruct n as [|n].
    + assert (k = 63)%nat as -> by lia. cbn [div64_up] in *. exfalso.
      change (2 ^ Z.of_nat 63) with 0x8000000000000000 in *. nia.
    + apply IH; [done|lia|lia|lia].
  - exists k. split_and!; [done|done|]. nia.
Qed.

Lemma div64_down_ok base n0 : 0 < base -> 0 <= n0 < 0x10000000000000000 ->
  forall n k rem res, base * 2 ^ Z.of_nat k < 0x10000000000000000 -> (k < n)%nat ->
  0 <= rem < 2 * (base * 2 ^ Z.of_nat k) -> rem < 0x10000000000000000 -> 0 <= res ->
  n0 = res * base + rem ->
  div64_down n (base * 2 ^ Z.of_nat k) (2 ^ Z.of_nat k) rem res = Some (n0 mod base, n0 / base).
Proof.
  intros Hb Hn0. induction n as [|n IH]; intros k rem res Hk Hn Hrem Hr64 Hres Heq; [lia|].
  cbn [div64_down]. pose proof (pow2_pos k).
  assert (exists rem' res',
    (if base * 2 ^ Z.of_nat k <=? rem
     then (u64 (rem - base * 2 ^ Z.of_nat k), u64 (res + 2 ^ Z.of_nat k)) else (rem, res))
    = (rem', res') /\ n0 = res' * base + rem' /\ 0 <= rem' < base * 2 ^ Z.of_nat k /\ 0 <= res')
    as (rem' & res' & -> & Heq' & Hrem' & Hres').
  { case_if.
    - exists (rem - base * 2 ^ Z.of_nat k), (res + 2 ^ Z.of_nat k).
      assert (res + 2 ^ Z.of_nat k <= n0) by nia.
      rewrite !u64_small by nia. split; [done|nia].
    - exists rem, res. split_and!; [done|done|lia|lia|done]. }
  rewrite !Z.shiftr_div_pow2 by lia. change (2 ^ 1) with 2.
  destruct k as [|k].
  - change (2 ^ Z.of_nat 0 / 2) with 0. cbn [Z.eqb negb]. do 2 f_equal.
    + change (2 ^ Z.of_nat 0) with 1 in *. apply (Z.mod_unique_pos _ _ res'); lia.
    + change (2 ^ Z.of_nat 0) with 1 in *. apply (Z.div_unique_pos _ _ _ rem'); lia.
  - rewrite pow2_succ in *. pose proof (pow2_pos k).
    replace (2 * 2 ^ Z.of_nat k / 2) with (2 ^ Z.of_nat k) by (rewrite Z.mul_comm, Z.div_mul; lia).
    replace (base * (2 * 2 ^ Z.of_nat k) / 2) with (base * 2 ^ Z.of_nat k)
      by (replace (base * (2 * 2 ^ Z.of_nat k)) with (base * 2 ^ Z.of_nat k * 2) by lia; rewrite Z.div_mul; lia).
    case_if; [|lia]. apply IH; try lia; try nia.
Qed.

Lemma div64_ok n base : 0 <= n < 0x10000000000000000 -> 0 < base < 0x100000000 ->
  __div64_32 n base = Some (n / base, n mod base).
Proof.
  intros Hn Hb. unfold __div64_32. rewrite Z.shiftr_div_pow2 by lia.
  change (2 ^ 32) with 0x100000000. set (high := n / 0x100000000).
  assert (0 <= high < 0x100000000) as Hh by (unfold high; zdm). rewrite (u32_small high) by done.
  assert (exists res rem,
    (if base <=? high
     then (u64 ((high / base) ≪ 32), u64 (n - u64 (u32 (high / base * base) ≪ 32)))
     else (0, n)) = (res, rem) /\ n = res * base + rem /\ 0 <= rem < 0x10000000000000000 /\ 0 <= res)
    as (res & rem & -> & Heq & Hrem & Hres).
  { case_if.
    - exists (high / base * 0x100000000), (n - high / base * base * 0x100000000).
      assert (0 <= high / base /\ 0 <= high / base * base <= high) by zdm.
      assert (0 <= high / base < 0x100000000) by zdm.
      rewrite u32_small by lia. rewrite !Z.shiftl_mul_pow2 by lia. change (2 ^ 32) with 0x100000000.
      assert (high * 0x100000000 <= n) by (unfold high; zdm).
      assert (high / base <= high / base * base) by nia.
      rewrite (u64_small (high / base * base * _)), (u64_small (high / base * _)), u64_small by lia.
      split; [done|lia].
    - exists 0, n. split; [done|lia]. }
  destruct (div64_up_ok base rem ltac:(lia) Hrem 65 0) as (k & Hup & Hk & Hlt);
    [change (2 ^ Z.of_nat 0) with 1; lia|lia|lia|lia|].
  change (2 ^ Z.of_nat 0) with 1 in Hup. rewrite Z.mul_1_r in Hup. rewrite Hup. cbn [mbind option_bind].
  assert (k < 65)%nat as Hk65.
  { destruct (decide (k < 65)%nat); [done|]. exfalso.
    assert (2 ^ 65 <= 2 ^ Z.of_nat k) by (apply Z.pow_le_mono_r; lia). nia. }
  rewrite (div64_down_ok base n) by (done || lia). cbn [mbind option_bind].
  rewrite u32_small; [done|]. pose proof (Z.mod_pos_bound n base). lia.
Qed.

Lemma do_div_ok n base : 0 <= n < 0x10000000000000000 -> 0 < base < 0x100000000 ->
  do_div n base = Some (n / base, n mod base).
Proof.
  intros Hn Hb. unfold do_div. case_if; [|by apply div64_ok].
  rewrite Z.shiftr_div_pow2 in E by lia. rewrite u32_small; [done|].
  change (2 ^ 32) with 0x100000000 in E. zdm.
Qed.

(** The shift-and-subtract division ends and computes quotient and remainder for every
    64-bit dividend and every 32-bit divisor but 0, and so does [do_div] with its fast
    path. *)
Theorem div64_correct n base
    (Hn : 0 <= n < 0x10000000000000000) (Hbase : 0 < base < 0x100000000) :
  __div64_32 n base = Some (n / base, n mod base)
  /\ do_div n base = Some (n / base, n mod base).
Proof. split; [by apply div64_ok|by apply do_div_ok]. Qed.

Lemma div64_correct_witness :
  __div64_32 0xffffffffffffffff 10 = Some (1844674407370955161, 5)
  /\ do_div 0xffffffffffffffff 10 = Some (1844674407370955161, 5).
Proof. apply (div64_correct 0xffffffffffffffff 10); lia. Defined.
