(* ===== verification/Vsprintf.v ===== *)
(** * Number parsing and formatted output: [lib/vsprintf.c], [lib/net_utils.c]

    A string is the list of its characters; [*endp] is the rest of the string.  The output
    of a formatting function is the list of the characters it stores, in order: without
    [CONFIG_SYS_VSNPRINTF] [ADDCH] stores unconditionally, and [str - buf] is the length.  A
    result [None] is a call outside of the C semantics: an argument of another type than the
    one [va_arg] asks for, or a local buffer overrun. *)
From S2P Require Import Prelude Ctype Mem CStr Div64.

Definition EINVAL : Z := 22.

(** ** Parsing *)
Definition digit_value (c : Z) : Z :=
  if isdigit c then c - 48 else (if islower c then __toupper c else c) - 65 + 10.

(** The digit loop, with the wrap-around of the result type. *)
Fixpoint strto_digits (wrap : Z -> Z) (base : Z) (cp : list Z) (result : Z) : Z * list Z :=
  match cp with
  | [] => (result, [])
  | c :: r =>
      if isxdigit c && (digit_value c <? base)
      then strto_digits wrap base r (wrap (wrap (result * base) + digit_value c))
      else (result, cp)
  end.

(** The prefix: "0x" before a hexadecimal digit, "0", and the default base. *)
Definition strto_prefix (cp : list Z) (base : Z) : list Z * Z :=
  let '(cp, base) :=
    if chr cp =? 48 then
      let cp := tail cp in
      let '(cp, base) :=
        if (chr cp =? 120) && isxdigit (chr (tail cp)) then (tail cp, 16) else (cp, base) in
      (cp, if base =? 0 then 8 else base)
    else (cp, base) in
  (cp, if base =? 0 then 10 else base).

Definition simple_strtoul (cp : list Z) (base : Z) : Z * list Z :=
  let '(cp, base) := strto_prefix cp base in strto_digits u32 base cp 0.
Definition simple_strtoull (cp : list Z) (base : Z) : Z * list Z :=
  let '(cp, base) := strto_prefix cp base in strto_digits u64 base cp 0.

(** The error code and the value of [*res]. *)
Definition strict_strtoul (cp : list Z) (base : Z) : Z * Z :=
  let len := zlen cp in
  if len =? 0 then (- EINVAL, 0)
  else
    let '(val, tail_) := simple_strtoul cp base in
    if zlen tail_ =? len then (- EINVAL, 0)
    else if (chr tail_ =? 0) || (len =? len - zlen tail_ + 1) && (chr tail_ =? 10) then (0, val)
    else (- EINVAL, 0).

Definition simple_strtol (cp : list Z) (base : Z) : Z * list Z :=
  if chr cp =? 45 then
    let '(v, e) := simple_strtoul (tail cp) base in (s32 (u32 (- v)), e)
  else let '(v, e) := simple_strtoul cp base in (s32 v, e).

(** The suffixes of [ustrtoul] and [ustrtoull]; each case falls through to the next. *)
Definition size_suffix (wrap : Z -> Z) (result : Z) (e : list Z) : Z * list Z :=
  let c := chr e in
  let result := if c =? 71 then wrap (result * 1024) else result in
  let result := if (c =? 71) || (c =? 77) then wrap (result * 1024) else result in
  if (c =? 71) || (c =? 77) || (c =? 75) || (c =? 107) then
    let result := wrap (result * 1024) in
    if chr (tail e) =? 105 then
      (result, if chr (tail (tail e)) =? 66 then drop 3 e else drop 2 e)
    else (result, e)
  else (result, e).
Definition ustrtoul (cp : list Z) (base : Z) : Z * list Z :=
  let '(result, e) := simple_strtoul cp base in size_suffix u32 result e.
Definition ustrtoull (cp : list Z) (base : Z) : Z * list Z :=
  let '(result, e) := simple_strtoull cp base in size_suffix u64 result e.

Definition is_digit (c : Z) : bool := (48 <=? c) && (c <=? 57).
Fixpoint skip_atoi_loop (s : list Z) (i : Z) : Z * list Z :=
  match s with
  | c :: r => if is_digit c then skip_atoi_loop r (s32 (i * 10 + c - 48)) else (i, s)
  | [] => (i, s)
  end.
Definition skip_atoi (s : list Z) : Z * list Z := skip_atoi_loop s 0.

(** ** Decimal digits, least significant first *)
Definition put_dec_trunc (q : Z) : list Z :=
  let d1 := (q ≫ 4) .& 0xf in
  let d2 := (q ≫ 8) .& 0xf in
  let d3 := q ≫ 12 in
  let d0 := 6 * (d3 + d2 + d1) + (q .& 0xf) in
  let q := (d0 * 0xcd) ≫ 11 in
  let d0 := d0 - 10 * q in
  d0 + 48 ::
  let d1 := q + 9 * d3 + 5 * d2 + d1 in
  if negb (d1 =? 0) then
    let q := (d1 * 0xcd) ≫ 11 in
    let d1 := d1 - 10 * q in
    d1 + 48 ::
    let d2 := q + 2 * d2 in
    if negb (d2 =? 0) || negb (d3 =? 0) then
      let q := (d2 * 0xd) ≫ 7 in
      let d2 := d2 - 10 * q in
      d2 + 48 ::
      let d3 := q + 4 * d3 in
      if negb (d3 =? 0) then
        let q := (d3 * 0xcd) ≫ 11 in
        let d3 := d3 - 10 * q in
        d3 + 48 :: if negb (q =? 0) then [q + 48] else []
      else []
    else []
  else [].

Definition put_dec_full (q : Z) : list Z :=
  let d1 := (q ≫ 4) .& 0xf in
  let d2 := (q ≫ 8) .& 0xf in
  let d3 := q ≫ 12 in
  let d0 := 6 * (d3 + d2 + d1) + (q .& 0xf) in
  let q := (d0 * 0xcd) ≫ 11 in
  let d0 := d0 - 10 * q in
  let d1 := q + 9 * d3 + 5 * d2 + d1 in
  let q := (d1 * 0xcd) ≫ 11 in
  let d1 := d1 - 10 * q in
  let d2 := q + 2 * d2 in
  let q := (d2 * 0xd) ≫ 7 in
  let d2 := d2 - 10 * q in
  let d3 := q + 4 * d3 in
  let q := (d3 * 0xcd) ≫ 11 in
  let d3 := d3 - 10 * q in
  [d0 + 48; d1 + 48; d2 + 48; d3 + 48; q + 48].

(** A 64-bit number has at most four groups of five digits. *)
Fixpoint put_dec_loop (n : nat) (num : Z) : option (list Z) :=
  match n with
  | O => None
  | S n =>
      if num <? 100000 then Some (put_dec_trunc num)
      else
        '(num, rem) ← do_div num 100000;
        rest ← put_dec_loop n num; Some (put_dec_full rem ++ rest)
  end.
Definition put_dec (num : Z) : option (list Z) := put_dec_loop 4 num.

(** ** Conversions *)
Definition ZEROPAD : Z := 1.
Definition SIGN : Z := 2.
Definition PLUS : Z := 4.
Definition SPACE : Z := 8.
Definition LEFT : Z := 16.
Definition SMALL : Z := 32.
Definition SPECIAL : Z := 64.
Definition flag_set (type f : Z) : bool := negb (type .& f =? 0).

Definition digits : list Z := codes "0123456789ABCDEF".

(** [do { ... num >>= shift; } while (num);] *)
Fixpoint digits_loop (n : nat) (num mask shift locase : Z) : option (list Z) :=
  match n with
  | O => None
  | S n =>
      d ← digits !! Z.to_nat (u8 num .& mask);
      let num := num ≫ shift in
      if negb (num =? 0) then r ← digits_loop n num mask shift locase; Some (d .| locase :: r)
      else Some [d .| locase]
  end.

(** [while (--size >= 0) ADDCH(buf, c);]: the characters; [size] is below 0 behind it. *)
Definition pad (size : Z) (c : Z) : list Z := repeat c (Z.to_nat size).
Definition padded (size : Z) : Z := if 0 <? size then -1 else size - 1.

(** The part of [number] behind the conversion to [tmp]: padding, sign, prefix, digits. *)
Definition number_out (type size precision : Z) (sign prefix tmp : list Z) : list Z :=
  let i := zlen tmp in
  let precision := if precision <? i then i else precision in
  let size := size - precision in
  let '(lead, size) :=
    if negb (flag_set type ZEROPAD) && negb (flag_set type LEFT)
    then (pad size 32, padded size) else ([], size) in
  let '(fill, size) :=
    if negb (flag_set type LEFT)
    then (pad size (if flag_set type ZEROPAD then 48 else 32), padded size) else ([], size) in
  lead ++ sign ++ prefix ++ fill ++ pad (precision - i) 48 ++ reverse tmp ++ pad size 32.

Definition number (num base size precision type : Z) : option (list Z) :=
  let need_pfx := flag_set type SPECIAL && negb (base =? 10) in
  let locase := type .& SMALL in
  let type := if flag_set type LEFT then type .& Z.lnot ZEROPAD else type in
  let '(sign, num, size) :=
    if flag_set type SIGN then
      if s64 num <? 0 then ([45], u64 (- s64 num), size - 1)
      else if flag_set type PLUS then ([43], num, size - 1)
      else if flag_set type SPACE then ([32], num, size - 1)
      else ([], num, size)
    else ([], num, size) in
  let size := if need_pfx then (if base =? 16 then size - 1 - 1 else size - 1) else size in
  tmp ←
    (if num =? 0 then Some [48]
     else if negb (base =? 10) then
       digits_loop 64 num (base - 1) (if base =? 16 then 4 else 3) locase
     else put_dec num);
  if 66 <? zlen tmp then None
  else
    let prefix :=
      if need_pfx then 48 :: (if base =? 16 then [88 .| locase] else []) else [] in
    Some (number_out type size precision sign prefix tmp).

Definition string_ (s : option (list Z)) (field_width precision flags : Z) : list Z :=
  let s := default (codes "<NULL>") s in
  let len := if precision <? 0 then zlen s else Z.min (zlen s) precision in
  let '(lead, field_width) :=
    if negb (flag_set flags LEFT)
    then (pad (field_width - len) 32, if len <? field_width then len - 1 else field_width - 1)
    else ([], field_width) in
  lead ++ take (Z.to_nat len) s ++ pad (field_width - len) 32.

Definition hex_asc : list Z := codes "0123456789abcdef".
Definition pack_hex_byte (b : Z) : option (list Z) :=
  hi ← hex_asc !! Z.to_nat ((b .& 0xf0) ≫ 4); lo ← hex_asc !! Z.to_nat (b .& 0x0f);
  Some [hi; lo].

(** The six groups of a MAC address from the [i]-th on. *)
Fixpoint mac_loop (n : nat) (i : Z) (addr : list Z) (flags : Z) : option (list Z) :=
  match n with
  | O => Some []
  | S n =>
      b ← addr !! Z.to_nat i; p ← pack_hex_byte b;
      r ← mac_loop n (i + 1) addr flags;
      Some (p ++ (if negb (flag_set flags SPECIAL) && negb (i =? 5) then [58] else []) ++ r)
  end.
Definition mac_address_string (addr : list Z) (field_width precision flags : Z) : option (list Z) :=
  mac_addr ← mac_loop 6 0 addr flags;
  Some (string_ (Some mac_addr) field_width precision (flags .& Z.lnot SPECIAL)).

Fixpoint ip6_loop (n : nat) (i : Z) (addr : list Z) (flags : Z) : option (list Z) :=
  match n with
  | O => Some []
  | S n =>
      b1 ← addr !! Z.to_nat (2 * i); p1 ← pack_hex_byte b1;
      b2 ← addr !! Z.to_nat (2 * i + 1); p2 ← pack_hex_byte b2;
      r ← ip6_loop n (i + 1) addr flags;
      Some (p1 ++ p2 ++ (if negb (flag_set flags SPECIAL) && negb (i =? 7) then [58] else []) ++ r)
  end.
Definition ip6_addr_string (addr : list Z) (field_width precision flags : Z) : option (list Z) :=
  ip6_addr ← ip6_loop 8 0 addr flags;
  Some (string_ (Some ip6_addr) field_width precision (flags .& Z.lnot SPECIAL)).

Fixpoint ip4_loop (n : nat) (i : Z) (addr : list Z) : option (list Z) :=
  match n with
  | O => Some []
  | S n =>
      b ← addr !! Z.to_nat i; r ← ip4_loop n (i + 1) addr;
      Some (reverse (put_dec_trunc b) ++ (if negb (i =? 3) then [46] else []) ++ r)
  end.
Definition ip4_addr_string (addr : list Z) (field_width precision flags : Z) : option (list Z) :=
  ip4_addr ← ip4_loop 4 0 addr;
  Some (string_ (Some ip4_addr) field_width precision (flags .& Z.lnot SPECIAL)).

(** [pointer] with [CONFIG_CMD_NET]; [bytes] is what the pointer points to. *)
Definition pointer (fmt : list Z) (ptr : Z) (bytes : list Z) (field_width precision flags : Z)
    : option (list Z) :=
  let plain flags :=
    let flags := flags .| SMALL in
    let '(field_width, flags) :=
      if field_width =? -1 then (8, flags .| ZEROPAD) else (field_width, flags) in
    number ptr 16 field_width precision flags in
  let ip flags :=
    if chr (tail fmt) =? 54 then ip6_addr_string bytes field_width precision flags
    else if chr (tail fmt) =? 52 then ip4_addr_string bytes field_width precision flags
    else plain (flags .& Z.lnot SPECIAL) in
  if chr fmt =? 109 then mac_address_string bytes field_width precision (flags .| SPECIAL)
  else if chr fmt =? 77 then mac_address_string bytes field_width precision flags
  else if chr fmt =? 105 then ip (flags .| SPECIAL)
  else if chr fmt =? 73 then ip flags
  else plain flags.

(** ** The format string *)
(** An argument as [va_arg] finds it: a 32-bit integer ([int], [long], [size_t]), a 64-bit
    one, a string, or a pointer with the bytes behind it. *)
Inductive varg :=
| VInt (v : Z)
| VQuad (v : Z)
| VStr (s : option (list Z))
| VPtr (p : Z) (bytes : list Z).

Definition next_int (args : list varg) : option (Z * list varg) :=
  match args with VInt v :: args => Some (v, args) | _ => None end.

Fixpoint parse_flags (fmt : list Z) (flags : Z) : list Z * Z :=
  match fmt with
  | c :: r =>
      if c =? 45 then parse_flags r (flags .| LEFT)
      else if c =? 43 then parse_flags r (flags .| PLUS)
      else if c =? 32 then parse_flags r (flags .| SPACE)
      else if c =? 35 then parse_flags r (flags .| SPECIAL)
      else if c =? 48 then parse_flags r (flags .| ZEROPAD)
      else (fmt, flags)
  | [] => (fmt, flags)
  end.

Definition parse_width (fmt : list Z) (args : list varg) (flags : Z)
    : option (list Z * list varg * Z * Z) :=
  if is_digit (chr fmt) then let '(w, fmt) := skip_atoi fmt in Some (fmt, args, flags, w)
  else if chr fmt =? 42 then
    '(w, args) ← next_int args;
    let w := s32 w in
    if w <? 0 then Some (tail fmt, args, flags .| LEFT, s32 (- w))
    else Some (tail fmt, args, flags, w)
  else Some (fmt, args, flags, -1).

Definition parse_precision (fmt : list Z) (args : list varg) : option (list Z * list varg * Z) :=
  if chr fmt =? 46 then
    let fmt := tail fmt in
    '(fmt, args, p) ←
      (if is_digit (chr fmt) then let '(p, fmt) := skip_atoi fmt in Some (fmt, args, p)
       else if chr fmt =? 42 then '(p, args) ← next_int args; Some (tail fmt, args, s32 p)
       else Some (fmt, args, -1));
    Some (fmt, args, if p <? 0 then 0 else p)
  else Some (fmt, args, -1).

(** The qualifier, -1 when there is none; "ll" counts as 'L'. *)
Definition parse_qualifier (fmt : list Z) : list Z * Z :=
  let c := chr fmt in
  if (c =? 104) || (c =? 108) || (c =? 76) || (c =? 90) || (c =? 122) || (c =? 116) then
    if (c =? 108) && (chr (tail fmt) =? 108) then (tail (tail fmt), 76) else (tail fmt, c)
  else (fmt, -1).

(** The argument of an integer conversion, as the 64-bit number [number] gets. *)
Definition int_arg (args : list varg) (qualifier flags : Z) : option (Z * list varg) :=
  if qualifier =? 76 then
    match args with VQuad v :: args => Some (u64 v, args) | _ => None end
  else
    '(v, args) ← next_int args;
    let num :=
      if qualifier =? 108 then if flag_set flags SIGN then u64 (s32 v) else u32 v
      else if (qualifier =? 90) || (qualifier =? 122) then u32 v
      else if qualifier =? 116 then u64 (s32 v)
      else if qualifier =? 104 then if flag_set flags SIGN then u64 (s16 v) else u16 v
      else if flag_set flags SIGN then u64 (s32 v) else u32 v in
    Some (num, args).

(** The characters of "%c": padded to the field width. *)
Definition put_char (c field_width flags : Z) : list Z :=
  let '(lead, field_width) :=
    if negb (flag_set flags LEFT)
    then (pad (field_width - 1) 32, if 1 <? field_width then 0 else field_width - 1)
    else ([], field_width) in
  lead ++ [u8 c] ++ pad (field_width - 1) 32.

Fixpoint skip_alnum (fmt : list Z) : list Z :=
  match fmt with c :: r => if isalnum c then skip_alnum r else fmt | [] => [] end.

(** The result is the output and the values stored through the pointers of "%n". *)
Fixpoint vsnprintf_loop (n : nat) (fmt : list Z) (args : list varg) (str : list Z)
    (stores : list (Z * Z)) : option (list Z * list (Z * Z)) :=
  match n with
  | O => None
  | S n =>
      match fmt with
      | [] => Some (str, stores)
      | c :: fmt =>
          if negb (c =? 37) then vsnprintf_loop n fmt args (str ++ [c]) stores
          else
            let '(fmt, flags) := parse_flags fmt 0 in
            '(fmt, args, flags, field_width) ← parse_width fmt args flags;
            '(fmt, args, precision) ← parse_precision fmt args;
            let '(fmt, qualifier) := parse_qualifier fmt in
            let conv base flags :=
              '(num, args) ← int_arg args qualifier flags;
              out ← number num base field_width precision flags;
              vsnprintf_loop n (tail fmt) args (str ++ out) stores in
            let c := chr fmt in
            if c =? 99 then
              '(v, args) ← next_int args;
              vsnprintf_loop n (tail fmt) args (str ++ put_char v field_width flags) stores
            else if c =? 115 then
              match args with
              | VStr s :: args =>
                  vsnprintf_loop n (tail fmt) args (str ++ string_ s field_width precision flags) stores
              | _ => None
              end
            else if c =? 112 then
              match args with
              | VPtr p bytes :: args =>
                  out ← pointer (tail fmt) p bytes field_width precision flags;
                  vsnprintf_loop n (skip_alnum (tail fmt)) args (str ++ out) stores
              | _ => None
              end
            else if c =? 110 then
              match args with
              | VPtr p _ :: args =>
                  vsnprintf_loop n (tail fmt) args str (stores ++ [(p, zlen str)])
              | _ => None
              end
            else if c =? 37 then vsnprintf_loop n (tail fmt) args (str ++ [37]) stores
            else if c =? 111 then conv 8 flags
            else if c =? 120 then conv 16 (flags .| SMALL)
            else if c =? 88 then conv 16 flags
            else if (c =? 100) || (c =? 105) then conv 10 (flags .| SIGN)
            else if c =? 117 then conv 10 flags
            else
              vsnprintf_loop n (tail fmt) args
                (str ++ [37] ++ if negb (c =? 0) then [c] else []) stores
      end
  end.
(** The output without its terminating NUL. *)
Definition vsnprintf_internal (fmt : list Z) (args : list varg) : option (list Z * list (Z * Z)) :=
  vsnprintf_loop (S (length fmt)) fmt args [] [].
Definition sprintf (fmt : string) (args : list varg) : option (list Z) :=
  '(out, _) ← vsnprintf_internal (codes fmt) args; Some out.

(** [simple_itoa] fills its buffer of 22 bytes from the end. *)
Fixpoint simple_itoa_loop (n : nat) (i : Z) (p : list Z) : option (list Z) :=
  match n with
  | O => None
  | S n =>
      let p := 48 + i mod 10 :: p in
      let i := i / 10 in
      if 0 <? i then simple_itoa_loop n i p else Some p
  end.
Definition simple_itoa (i : Z) : option (list Z) := simple_itoa_loop 21 i [].

(** ** IP addresses *)
Definition htonl (x : Z) : Z :=
  (x .& 0xff) ≪ 24 .| ((x .& 0xff00) ≪ 8) .| ((x .& 0xff0000) ≫ 8) .| ((x .& 0xff000000) ≫ 24).
Fixpoint string_to_ip_loop (n : nat) (s : list Z) (addr : Z) : Z :=
  match n with
  | O => addr
  | S n =>
      let '(val, e) := simple_strtoul s 10 in
      let addr := u32 (addr ≪ 8) .| (val .& 0xff) in
      string_to_ip_loop n (tail e) addr
  end.
Definition string_to_ip (s : option (list Z)) : Z :=
  match s with None => 0 | Some s => htonl (string_to_ip_loop 4 s 0) end.
