(* ===== verification/VsprintfSpec.v ===== *)
(** * Numbers and their text

    What [put_dec], [number] and the parsers of [Vsprintf] compute: positional notation. *)
From S2P Require Import Prelude Ctype Mem CStr Div64 Vsprintf.

(** ** Positional notation, least significant digit first *)
Fixpoint value (b : Z) (ds : list Z) : Z :=
  match ds with [] => 0 | d :: ds => d + b * value b ds end.
(** [ds] are the digits of [num] without superfluous zeros. *)
Definition is_digits (b num : Z) (ds : list Z) : Prop :=
  Forall (fun d => 0 <= d < b) ds /\ value b ds = num /\ ds <> []
  /\ (num <> 0 -> last ds <> Some 0) /\ (num = 0 -> ds = [0]).

Lemma value_app b ds es : value b (ds ++ es) = value b ds + b ^ zlen ds * value b es.
Proof.
  induction ds as [|d ds IH]; cbn [value app length].
  - change (b ^ zlen []) with 1. lia.
  - rewrite IH, Nat2Z.inj_succ, Z.pow_succ_r by lia. lia.
Qed.
Lemma value_nonneg b ds : 0 < b -> Forall (fun d => 0 <= d < b) ds -> 0 <= value b ds.
Proof. induction 2 as [|d ds Hd Hds IH]; cbn [value]; nia. Qed.

Lemma is_digits_cons b d num ds : 0 < b -> 0 <= d < b -> 0 < num -> is_digits b num ds ->
  is_digits b (d + b * num) (d :: ds).
Proof.
  intros Hb Hd Hn (Hf & Hv & Hne & Hl & _). split_and!.
  - by constructor.
  - cbn [value]. by rewrite Hv.
  - done.
  - intros _. destruct ds as [|e ds]; [done|]. cbn [last]. apply Hl. lia.
  - nia.
Qed.
Lemma is_digits_one b d : 0 <= d < b -> is_digits b d [d].
Proof.
  intros Hd. split_and!; [apply Forall_cons; split; [done|constructor]|cbn [value]; lia|done| |by intros ->].
  intros Hne. cbn. intros [= ->]. done.
Qed.

(** ** Decimal digits *)
Lemma div10_cd x : 0 <= x < 1000 -> (x * 0xcd) ≫ 11 = x / 10.
Proof.
  intros Hx. apply Z.eqb_eq. revert x Hx. apply (all_below_spec 1000). vm_compute. reflexivity.
Qed.
Lemma div10_0d x : 0 <= x < 64 -> (x * 0xd) ≫ 7 = x / 10.
Proof.
  intros Hx. apply Z.eqb_eq. revert x Hx. apply (all_below_spec 64). vm_compute. reflexivity.
Qed.
Lemma nibbles q : 0 <= q < 100000 -> exists d0 d1 d2 d3,
  q .& 0xf = d0 /\ (q ≫ 4) .& 0xf = d1 /\ (q ≫ 8) .& 0xf = d2 /\ q ≫ 12 = d3
  /\ 0 <= d0 < 16 /\ 0 <= d1 < 16 /\ 0 <= d2 < 16 /\ 0 <= d3 <= 24
  /\ q = 4096 * d3 + 256 * d2 + 16 * d1 + d0.
Proof.
  intros Hq. rewrite !Z.shiftr_div_pow2 by lia.
  pose proof (fun a => Z.land_ones a 4 ltac:(lia)) as Hl.
  change (Z.ones 4) with 0xf in Hl. change (2 ^ 4) with 16 in *.
  change (2 ^ 8) with 256. change (2 ^ 12) with 4096. rewrite !Hl.
  eexists _, _, _, _. do 4 (split; [reflexivity|]). split_and!; zdm.
Qed.

Lemma put_dec_full_ok q : 0 <= q < 100000 -> exists ds,
  put_dec_full q = map (Z.add 48) ds /\ length ds = 5%nat
  /\ Forall (fun d => 0 <= d < 10) ds /\ value 10 ds = q.
Proof.
  intros Hq. destruct (nibbles q Hq) as (d0 & d1 & d2 & d3 & H0 & H1 & H2 & H3 & R0 & R1 & R2 & R3 & Hv).
  unfold put_dec_full. rewrite H0, H1, H2, H3.
  set (x0 := 6 * (d3 + d2 + d1) + d0). rewrite (div10_cd x0) by (unfold x0; lia).
  set (x1 := x0 / 10 + 9 * d3 + 5 * d2 + d1).
  assert (0 <= x1 < 400) by (unfold x1, x0; zdm). rewrite (div10_cd x1) by lia.
  set (x2 := x1 / 10 + 2 * d2). assert (0 <= x2 < 64) by (unfold x2, x1, x0; zdm).
  rewrite (div10_0d x2) by lia.
  set (x3 := x2 / 10 + 4 * d3). assert (0 <= x3 < 200) by (unfold x3, x2, x1, x0; zdm).
  rewrite (div10_cd x3) by lia.
  exists [x0 - 10 * (x0 / 10); x1 - 10 * (x1 / 10); x2 - 10 * (x2 / 10); x3 - 10 * (x3 / 10); x3 / 10].
  split; [cbn [map]; eq_lia|]. split; [done|].
  assert (x3 / 10 < 10) by (unfold x3, x2, x1, x0 in *; zdm).
  split.
  - assert (0 <= x0) by (unfold x0; lia). repeat (apply Forall_cons; split; [zdm|]). constructor.
  - cbn [value]. unfold x3, x2, x1, x0 in *. zdm.
Qed.

Lemma put_dec_trunc_ok q : 0 <= q < 100000 -> exists ds,
  put_dec_trunc q = map (Z.add 48) ds /\ is_digits 10 q ds.
Proof.
  intros Hq. destruct (nibbles q Hq) as (d0 & d1 & d2 & d3 & H0 & H1 & H2 & H3 & R0 & R1 & R2 & R3 & Hv).
  unfold put_dec_trunc. rewrite H0, H1, H2, H3.
  set (x0 := 6 * (d3 + d2 + d1) + d0). rewrite (div10_cd x0) by (unfold x0; lia).
  assert (0 <= x0 < 400) by (unfold x0; lia).
  set (x1 := x0 / 10 + 9 * d3 + 5 * d2 + d1).
  assert (0 <= x1 < 400) by (unfold x1, x0; zdm). rewrite (div10_cd x1) by lia.
  set (x2 := x1 / 10 + 2 * d2). assert (0 <= x2 < 64) by (unfold x2, x1, x0; zdm).
  rewrite (div10_0d x2) by lia.
  set (x3 := x2 / 10 + 4 * d3). assert (0 <= x3 < 200) by (unfold x3, x2, x1, x0; zdm).
  rewrite (div10_cd x3) by lia.
  assert (q = x0 + 10 * (9 * d3 + 5 * d2 + d1) + 100 * (2 * d2) + 1000 * (4 * d3)) as Hq'
    by (unfold x0; lia).
  assert (0 <= x0 - 10 * (x0 / 10) < 10) by zdm. assert (0 <= x1 - 10 * (x1 / 10) < 10) by zdm.
  assert (0 <= x2 - 10 * (x2 / 10) < 10) by zdm. assert (0 <= x3 - 10 * (x3 / 10) < 10) by zdm.
  destruct (Z.eqb_spec x1 0) as [E1|E1]; cbn [negb].
  { exists [x0 - 10 * (x0 / 10)]. split; [cbn [map]; eq_lia|].
    replace q with (x0 - 10 * (x0 / 10)) by (unfold x1 in *; zdm). by apply is_digits_one. }
  destruct (Z.eqb_spec x2 0) as [E2|E2], (Z.eqb_spec d3 0) as [E3|E3]; cbn [negb orb].
  { exists [x0 - 10 * (x0 / 10); x1 - 10 * (x1 / 10)]. split; [cbn [map]; eq_lia|].
    replace q with (x0 - 10 * (x0 / 10) + 10 * (x1 - 10 * (x1 / 10))) by (unfold x1, x2 in *; zdm).
    apply is_digits_cons; [lia|lia| |by apply is_digits_one]. unfold x2 in *. zdm. }
  all: destruct (Z.eqb_spec x3 0) as [E4|E4]; cbn [negb].
  1: unfold x3 in *; exfalso; lia.
  2: { exists [x0 - 10 * (x0 / 10); x1 - 10 * (x1 / 10); x2 - 10 * (x2 / 10)].
    split; [cbn [map]; eq_lia|].
    replace q with (x0 - 10 * (x0 / 10) + 10 * (x1 - 10 * (x1 / 10) + 10 * (x2 - 10 * (x2 / 10))))
      by (unfold x3, x1, x2 in *; zdm).
    assert (0 < x2 - 10 * (x2 / 10)) by (unfold x3 in *; zdm).
    apply is_digits_cons; [lia|lia|lia|]. apply is_digits_cons; [lia|lia|lia|by apply is_digits_one]. }
  3: unfold x3 in *; exfalso; lia.
  all: destruct (Z.eqb_spec (x3 / 10) 0) as [E5|E5]; cbn [negb].
  all: try (exists [x0 - 10 * (x0 / 10); x1 - 10 * (x1 / 10); x2 - 10 * (x2 / 10); x3 - 10 * (x3 / 10)];
    split; [cbn [map]; eq_lia|];
    replace q with (x0 - 10 * (x0 / 10) + 10 * (x1 - 10 * (x1 / 10) + 10 * (x2 - 10 * (x2 / 10)
      + 10 * (x3 - 10 * (x3 / 10))))) by (unfold x3, x1, x2 in *; zdm);
    assert (0 < x3 - 10 * (x3 / 10)) by zdm;
    repeat (apply is_digits_cons; [lia|lia|lia|]); by apply is_digits_one).
  all: exists [x0 - 10 * (x0 / 10); x1 - 10 * (x1 / 10); x2 - 10 * (x2 / 10); x3 - 10 * (x3 / 10); x3 / 10];
    (split; [cbn [map]; eq_lia|]);
    replace q with (x0 - 10 * (x0 / 10) + 10 * (x1 - 10 * (x1 / 10) + 10 * (x2 - 10 * (x2 / 10)
      + 10 * (x3 - 10 * (x3 / 10) + 10 * (x3 / 10))))) by (unfold x3, x1, x2 in *; zdm);
    (assert (0 < x3 / 10 < 10) by (unfold x3, x2, x1, x0 in *; zdm));
    repeat (apply is_digits_cons; [lia|lia|lia|]); apply is_digits_one; lia.
Qed.

Lemma is_digits_app num rem full rest : Forall (fun d => 0 <= d < 10) full -> length full = 5%nat ->
  value 10 full = rem -> 0 < num -> is_digits 10 num rest ->
  is_digits 10 (100000 * num + rem) (full ++ rest).
Proof.
  intros Hf Hl Hv Hn (Hr & Hvr & Hne & Hlast & _). split_and!.
  - by apply Forall_app.
  - rewrite value_app, Hl, Hv, Hvr. change (10 ^ Z.of_nat 5) with 100000. lia.
  - by destruct full.
  - intros _. rewrite last_app. destruct (last rest) eqn:E; [apply Hlast; lia|].
    by apply last_None in E.
  - pose proof (value_nonneg 10 full ltac:(lia) Hf). lia.
Qed.

Lemma put_dec_loop_ok n : forall num, 0 <= num < 0x10000000000000000 -> (0 < n)%nat ->
  num < 100000 ^ Z.of_nat n -> exists ds, put_dec_loop n num = Some (map (Z.add 48) ds)
    /\ is_digits 10 num ds.
Proof.
  induction n as [|n IH]; intros num Hnum Hn Hlim; [lia|]. cbn [put_dec_loop].
  case_if.
  { destruct (put_dec_trunc_ok num) as (ds & -> & Hds); [lia|]. by exists ds. }
  rewrite do_div_ok by lia. cbn [mbind option_bind].
  rewrite Nat2Z.inj_succ, Z.pow_succ_r in Hlim by lia.
  destruct n as [|n]; [change (100000 ^ Z.of_nat 0) with 1 in Hlim; lia|].
  destruct (IH (num / 100000)) as (rest & -> & Hrest); [zdm|lia| |].
  { apply Z.div_lt_upper_bound; lia. }
  destruct (put_dec_full_ok (num mod 100000)) as (full & -> & Hl & Hf & Hv);
    [apply Z.mod_pos_bound; lia|].
  cbn [mbind option_bind]. exists (full ++ rest). rewrite map_app. split; [done|].
  rewrite (Z.div_mod num 100000) by lia. apply is_digits_app; try done. zdm.
Qed.
Lemma put_dec_ok num : 0 <= num < 0x10000000000000000 ->
  exists ds, put_dec num = Some (map (Z.add 48) ds) /\ is_digits 10 num ds.
Proof. intros H. apply put_dec_loop_ok; [done|lia|]. change (100000 ^ Z.of_nat 4) with 100000000000000000000. lia. Qed.

(** ** Digit characters *)
Definition dchar (locase d : Z) : Z := default 0 (digits !! Z.to_nat d) .| locase.

Definition base_ok (b : Z) : Prop := b = 8 \/ b = 10 \/ b = 16.
Definition locase_ok (l : Z) : Prop := l = 0 \/ l = SMALL.

Lemma dchar_spec l d : locase_ok l -> 0 <= d < 16 ->
  isxdigit (dchar l d) = true /\ digit_value (dchar l d) = d /\ dchar l d <> 120
  /\ (dchar l d = 48 <-> d = 0).
Proof.
  intros Hl Hd.
  assert (forall l, locase_ok l -> all_below 16 (fun d => isxdigit (dchar l d)
    && (digit_value (dchar l d) =? d) && negb (dchar l d =? 120)
    && Bool.eqb (dchar l d =? 48) (d =? 0)) = true) as H by (intros ? [->| ->]; vm_compute; reflexivity).
  pose proof (all_below_spec _ _ (H l Hl) d Hd) as Hc. cbn beta in Hc.
  rewrite !andb_true_iff, eqb_true_iff, negb_true_iff in Hc.
  destruct Hc as [[[H1 H2] H3] H4]. split_and!; [done|lia|lia|].
  destruct (Z.eqb_spec (dchar l d) 48), (Z.eqb_spec d 0); naive_solver.
Qed.
Lemma dchar_decimal d : 0 <= d < 10 -> dchar 0 d = 48 + d.
Proof. intros Hd. apply Z.eqb_eq. revert d Hd. apply (all_below_spec 10). vm_compute. reflexivity. Qed.
Lemma dchar_decimal_small d : 0 <= d < 10 -> dchar SMALL d = 48 + d.
Proof. intros Hd. apply Z.eqb_eq. revert d Hd. apply (all_below_spec 10). vm_compute. reflexivity. Qed.

Lemma digits_loop_ok shift locase : 0 < shift <= 4 -> forall n num, 0 < num ->
  num < 2 ^ (shift * Z.of_nat n) -> exists ds,
  digits_loop n num (2 ^ shift - 1) shift locase = Some (map (dchar locase) ds)
  /\ is_digits (2 ^ shift) num ds.
Proof.
  intros Hs. induction n as [|n IH]; intros num Hnum Hlim.
  { rewrite Z.mul_0_r in Hlim. change (2 ^ 0) with 1 in Hlim. lia. }
  cbn [digits_loop].
  assert (u8 num .& (2 ^ shift - 1) = num mod 2 ^ shift) as Hm.
  { rewrite Z.sub_1_r, <- Z.ones_equiv, Z.land_ones by lia. unfold u8.
    assert (shift = 1 \/ shift = 2 \/ shift = 3 \/ shift = 4) as [->|[->|[->| ->]]] by lia;
      [change (2 ^ 1) with 2|change (2 ^ 2) with 4|change (2 ^ 3) with 8|change (2 ^ 4) with 16];
      zdm. }
  rewrite Hm, Z.shiftr_div_pow2 by lia.
  assert (0 < 2 ^ shift <= 16) as Hp.
  { split; [apply Z.pow_pos_nonneg; lia|]. change 16 with (2 ^ 4). apply Z.pow_le_mono_r; lia. }
  pose proof (Z.mod_pos_bound num (2 ^ shift)) as Hmod.
  destruct (lookup_lt_is_Some_2 digits (Z.to_nat (num mod 2 ^ shift))) as [c Hc]; [cbn; lia|].
  rewrite Hc. cbn [mbind option_bind].
  assert (c .| locase = dchar locase (num mod 2 ^ shift)) as -> by (unfold dchar; by rewrite Hc).
  pose proof (Z.div_mod num (2 ^ shift) ltac:(lia)) as Hdm.
  destruct (Z.eqb_spec (num / 2 ^ shift) 0) as [E|E]; cbn [negb].
  - exists [num mod 2 ^ shift]. split; [done|].
    rewrite Hdm at 1. rewrite E, Z.mul_0_r, Z.add_0_l. apply is_digits_one. lia.
  - assert (0 <= num / 2 ^ shift) by (apply Z.div_pos; lia).
    destruct (IH (num / 2 ^ shift)) as (ds & -> & Hds); [lia| |].
    { apply Z.div_lt_upper_bound; [lia|]. rewrite <- Z.pow_add_r by lia.
      by replace (shift + shift * Z.of_nat n) with (shift * Z.of_nat (S n)) by lia. }
    cbn [mbind option_bind]. exists (num mod 2 ^ shift :: ds). split; [done|].
    rewrite Hdm at 1. rewrite Z.add_comm. apply is_digits_cons; [lia|lia|lia|done].
Qed.

(** The digits [number] generates in [tmp]. *)
Definition number_digits (num base locase : Z) : option (list Z) :=
  if num =? 0 then Some [48]
  else if negb (base =? 10) then
    digits_loop 64 num (base - 1) (if base =? 16 then 4 else 3) locase
  else put_dec num.

Lemma number_digits_ok num base locase : base_ok base -> locase_ok locase ->
  0 <= num < 0x10000000000000000 -> exists ds,
  number_digits num base locase = Some (map (dchar locase) ds) /\ is_digits base num ds
  /\ (length ds <= 64)%nat.
Proof.
  intros Hb Hl Hn. unfold number_digits.
  assert (forall ds, is_digits base num ds -> (length ds <= 64)%nat) as Hlen.
  { intros ds (Hf & Hv & Hne & Hlast & Hz).
    destruct (decide (num = 0)) as [->|Hnz]; [rewrite Hz by done; cbn; lia|].
    destruct (last ds) as [d|] eqn:El; [|by apply last_None in El].
    apply last_Some in El as [es ->]. rewrite value_app in Hv. cbn [value] in Hv.
    apply Forall_app in Hf as [Hf Hd]. apply Forall_cons in Hd as [Hd _].
    assert (d <> 0) by (intros ->; apply Hlast; [lia|by rewrite ?last_snoc]).
    pose proof (value_nonneg base es) as Hvn. rewrite length_app. cbn [length].
    destruct (decide (length es < 64)%nat); [lia|]. exfalso.
    assert (2 ^ 64 <= base ^ zlen es).
    { transitivity (base ^ 64); [apply Z.pow_le_mono_l|apply Z.pow_le_mono_r];
        destruct Hb as [->|[->| ->]]; lia. }
    assert (0 <= value base es) by (apply Hvn; [destruct Hb as [->|[->| ->]]; lia|done]).
    change (2 ^ 64) with 0x10000000000000000 in *. nia. }
  destruct (Z.eqb_spec num 0) as [->|Hnz].
  { exists [0]. split; [destruct Hl as [->| ->]; reflexivity|].
    split; [|cbn; lia]. apply is_digits_one. destruct Hb as [->|[->| ->]]; lia. }
  destruct Hb as [->|[->| ->]]; cbn [Z.eqb Pos.eqb negb].
  - destruct (digits_loop_ok 3 locase ltac:(lia) 64 num) as (ds & Hd & Hds);
      [lia|change (2 ^ (3 * Z.of_nat 64)) with (2 ^ 192); lia|].
    exists ds. split; [done|]. split; [done|by apply Hlen].
  - destruct (put_dec_ok num Hn) as (ds & -> & Hds). exists ds.
    split; [|split; [done|by apply Hlen]]. f_equal. apply map_ext_Forall.
    destruct Hds as (Hf & _). apply (Forall_impl _ _ _ Hf). intros d Hd.
    destruct Hl as [->| ->]; [by rewrite dchar_decimal|by rewrite dchar_decimal_small].
  - destruct (digits_loop_ok 4 locase ltac:(lia) 64 num) as (ds & Hd & Hds);
      [lia|change (2 ^ (4 * Z.of_nat 64)) with (2 ^ 256); lia|].
    exists ds. split; [done|]. split; [done|by apply Hlen].
Qed.

(** ** Parsing digits *)
Fixpoint horner (b acc : Z) (es : list Z) : Z :=
  match es with [] => acc | e :: es => horner b (acc * b + e) es end.
Lemma horner_value b es acc : horner b acc es = value b (reverse es) + b ^ zlen es * acc.
Proof.
  revert acc; induction es as [|e es IH]; intros acc; cbn [horner length].
  - change (b ^ zlen []) with 1. rewrite reverse_nil. cbn [value]. lia.
  - rewrite IH, reverse_cons, value_app, length_reverse, Nat2Z.inj_succ, Z.pow_succ_r by lia.
    cbn [value]. lia.
Qed.

(** The character behind a number ends it. *)
Definition ends_number (b : Z) (rest : list Z) : Prop :=
  match rest with [] => True | c :: _ => isxdigit c && (digit_value c <? b) = false /\ c <> 120 end.

(** The result types: arithmetic modulo a power of two. *)
Definition wraps (wrap : Z -> Z) : Prop := wrap 0 = 0 /\ forall a b c, wrap (wrap (wrap a * b) + c) = wrap (a * b + c).
Lemma mod_wraps m : wraps (fun z => z mod m).
Proof.
  split; [apply Zmod_0_l|]. intros a b c.
  by rewrite Zplus_mod_idemp_l, <- (Zplus_mod_idemp_l (a mod _ * b)), Zmult_mod_idemp_l, Zplus_mod_idemp_l.
Qed.
Lemma u32_wraps : wraps u32.
Proof. apply (mod_wraps 0x100000000). Qed.
Lemma u64_wraps : wraps u64.
Proof. apply (mod_wraps 0x10000000000000000). Qed.
Lemma strto_digits_ok wrap l b es : wraps wrap -> locase_ok l -> b <= 16 -> Forall (fun d => 0 <= d < b) es ->
  forall acc rest, ends_number b rest ->
  strto_digits wrap b (map (dchar l) es ++ rest) (wrap acc) = (wrap (horner b acc es), rest).
Proof.
  intros [_ Hwrap] Hl Hb. induction 1 as [|e es He Hes IH]; intros acc rest Hr; cbn [map app strto_digits horner].
  - destruct rest as [|c rest]; [done|]. cbn [strto_digits]. destruct Hr as [Hr _]. by rewrite Hr.
  - destruct (dchar_spec l e Hl ltac:(lia)) as (Hx & Hv & _). rewrite Hx, Hv.
    destruct (Z.ltb_spec e b); [|lia]. cbn [andb]. rewrite Hwrap. by apply IH.
Qed.

Lemma is_digits_head b num ds : is_digits b num ds ->
  (num = 0 /\ ds = [0]) \/ (num <> 0 /\ exists d es, reverse ds = d :: es /\ d <> 0 /\ 0 <= d < b).
Proof.
  intros (Hf & Hv & Hne & Hlast & Hz). destruct (decide (num = 0)); [left; auto|right].
  split; [done|]. destruct (reverse ds) as [|d es] eqn:E.
  { apply (f_equal reverse) in E. by rewrite reverse_involutive in E. }
  assert (ds = reverse es ++ [d]) as Hds.
  { rewrite <- (reverse_involutive ds), E, reverse_cons. done. }
  exists d, es. split; [done|]. rewrite Hds in Hf, Hlast. apply Forall_app in Hf as [_ Hd].
  apply Forall_cons in Hd as [Hd _]. split; [|done]. intros ->. apply Hlast; [done|].
  by rewrite last_snoc.
Qed.

(** Parsing the digits of a number gives the number. *)
Lemma strtoul_digits l b num ds rest : locase_ok l -> base_ok b -> is_digits b num ds ->
  ends_number b rest ->
  simple_strtoul (reverse (map (dchar l) ds) ++ rest) b = (u32 num, rest).
Proof.
  intros Hl Hb Hds Hr. assert (b <> 0 /\ b <= 16) as [Hb0 Hb16] by (destruct Hb as [->|[->| ->]]; lia).
  unfold simple_strtoul, strto_prefix.
  destruct (is_digits_head _ _ _ Hds) as [[-> ->]|(Hnz & d & es & Hrev & Hd & Hdb)].
  - assert (map (dchar l) [0] = [48]) as -> by (destruct Hl as [->| ->]; reflexivity).
    change (reverse [48]) with [48]. cbn [app chr hd]. cbn [Z.eqb Pos.eqb tail].
    assert ((chr rest =? 120) = false) as ->.
    { destruct rest as [|c rest]; [done|]. destruct Hr as [_ Hr]. cbn. lia. }
    cbn [andb]. destruct (Z.eqb_spec b 0); [lia|]. destruct (Z.eqb_spec b 0); [lia|].
    pose proof (strto_digits_ok u32 l b [] u32_wraps Hl Hb16 ltac:(constructor) 0 rest Hr) as H0. done.
  - assert (reverse (map (dchar l) ds) = map (dchar l) (reverse ds)) as ->
      by (symmetry; apply fmap_reverse).
    assert (Forall (fun d => 0 <= d < b) (reverse ds)) as Hf by (apply Forall_reverse; apply Hds).
    pose proof (strto_digits_ok u32 l b (reverse ds) u32_wraps Hl Hb16 Hf 0 rest Hr) as H0.
    rewrite horner_value, reverse_involutive in H0.
    destruct Hds as (_ & Hv & _). rewrite Hv, Z.mul_0_r, Z.add_0_r in H0.
    rewrite Hrev in *. cbn [map app chr hd] in *.
    destruct (dchar_spec l d Hl ltac:(lia)) as (_ & _ & _ & H48).
    destruct (Z.eqb_spec (dchar l d) 48); [by apply H48 in e|].
    destruct (Z.eqb_spec b 0); [lia|]. done.
Qed.

(** ** Layout *)
Lemma flag_set_bit t k : 0 <= k -> flag_set t (2 ^ k) = Z.testbit t k.
Proof.
  intros Hk. unfold flag_set. destruct (Z.testbit t k) eqn:E.
  - destruct (Z.eqb_spec (t .& 2 ^ k) 0) as [H|]; [|done].
    assert (Z.testbit (t .& 2 ^ k) k = false) as Hb by (by rewrite H, Z.bits_0).
    rewrite Z.land_spec, E, Z.pow2_bits_true in Hb by done. done.
  - destruct (Z.eqb_spec (t .& 2 ^ k) 0) as [H|H]; [done|]. exfalso. apply H.
    apply Z.bits_inj'. intros n Hn. rewrite Z.land_spec, Z.bits_0, Z.pow2_bits_eqb by done.
    destruct (Z.eqb_spec k n) as [->|]; [by rewrite E|apply andb_false_r].
Qed.
Lemma flag_set_unpad t k : 0 < k ->
  flag_set (t .& Z.lnot ZEROPAD) (2 ^ k) = flag_set t (2 ^ k).
Proof.
  intros Hk. rewrite !flag_set_bit, Z.land_spec, Z.lnot_spec by lia.
  change ZEROPAD with (2 ^ 0). rewrite Z.pow2_bits_false by lia. apply andb_true_r.
Qed.
Lemma flag_set_unpad_0 t : flag_set (t .& Z.lnot ZEROPAD) ZEROPAD = false.
Proof.
  change ZEROPAD with (2 ^ 0) at 2. rewrite flag_set_bit, Z.land_spec, Z.lnot_spec by lia.
  change ZEROPAD with (2 ^ 0). rewrite Z.pow2_bits_true by lia. apply andb_false_r.
Qed.

Definition number_sign (num type : Z) : list Z :=
  if flag_set type SIGN then
    if s64 num <? 0 then [45]
    else if flag_set type PLUS then [43] else if flag_set type SPACE then [32] else []
  else [].
Definition number_prefix (base type : Z) : list Z :=
  if flag_set type SPECIAL && negb (base =? 10)
  then 48 :: (if base =? 16 then [88 .| (type .& SMALL)] else []) else [].
(** The magnitude that is printed. *)
Definition magnitude (num type : Z) : Z :=
  if flag_set type SIGN && (s64 num <? 0) then - s64 num else num.

Lemma s64_range z : -0x8000000000000000 <= s64 z < 0x8000000000000000.
Proof. unfold s64. pose proof (u64_range z). case_if; lia. Qed.
Lemma magnitude_range num type : 0 <= num < 0x10000000000000000 ->
  0 <= magnitude num type < 0x10000000000000000.
Proof. intros Hn. unfold magnitude. pose proof (s64_range num). case_if; lia. Qed.

(** The flags [number] works with: LEFT switches ZEROPAD off. *)
Definition eff (type : Z) : Z := if flag_set type LEFT then type .& Z.lnot ZEROPAD else type.
Lemma eff_flag type k : 0 < k -> flag_set (eff type) (2 ^ k) = flag_set type (2 ^ k).
Proof. intros Hk. unfold eff. case_if; [by apply flag_set_unpad|done]. Qed.
Lemma eff_zeropad type : flag_set (eff type) ZEROPAD = flag_set type ZEROPAD && negb (flag_set type LEFT).
Proof. unfold eff. case_if; [rewrite flag_set_unpad_0; by rewrite andb_false_r|by rewrite andb_true_r]. Qed.
Lemma eff_sign type : flag_set (eff type) SIGN = flag_set type SIGN.
Proof. by apply (eff_flag type 1). Qed.
Lemma eff_plus type : flag_set (eff type) PLUS = flag_set type PLUS.
Proof. by apply (eff_flag type 2). Qed.
Lemma eff_space type : flag_set (eff type) SPACE = flag_set type SPACE.
Proof. by apply (eff_flag type 3). Qed.
Lemma eff_left type : flag_set (eff type) LEFT = flag_set type LEFT.
Proof. by apply (eff_flag type 4). Qed.

Lemma number_unfold num base size precision type : 0 <= num < 0x10000000000000000 ->
  number num base size precision type =
  (tmp ← number_digits (magnitude num type) base (type .& SMALL);
   if 66 <? zlen tmp then None
   else Some (number_out (eff type)
     (size - zlen (number_sign num type) - zlen (number_prefix base type)) precision
     (number_sign num type) (number_prefix base type) tmp)).
Proof.
  intros Hn. unfold number. fold (eff type). rewrite eff_sign, eff_plus, eff_space.
  unfold magnitude, number_sign, number_prefix, number_digits. pose proof (s64_range num).
  assert (u64 (- s64 num) = - s64 num \/ (s64 num <? 0) = false) as Hneg.
  { destruct (Z.ltb_spec (s64 num) 0); [left; apply u64_small; lia|by right]. }
  assert (forall tmp type size size' pr s p, size = size' ->
    number_out type size pr s p tmp = number_out type size' pr s p tmp) as Hout by by intros; subst.
  destruct (flag_set type SIGN); cbn [andb].
  1: destruct (s64 num <? 0); [destruct Hneg as [Hneg|Hneg]; [rewrite Hneg|done]|
       destruct (flag_set type PLUS); [|destruct (flag_set type SPACE)]].
  all: destruct (flag_set type SPECIAL && negb (base =? 10)); [destruct (base =? 16) eqn:Eb|].
  all: destruct (if _ =? 0 then _ else _) as [tmp|]; cbn [mbind option_bind]; [|done].
  all: destruct (66 <? zlen tmp); [done|].
  all: f_equal; apply Hout; cbn [length]; lia.
Qed.

(** The closed form of [number]. *)
Lemma number_closed num base size precision type : base_ok base ->
  0 <= num < 0x10000000000000000 ->
  exists ds lead fill zeros trail, is_digits base (magnitude num type) ds
    /\ number num base size precision type =
       Some (repeat 32 lead ++ number_sign num type ++ number_prefix base type
         ++ repeat (if flag_set (eff type) ZEROPAD then 48 else 32) fill ++ repeat 48 zeros
         ++ reverse (map (dchar (type .& SMALL)) ds) ++ repeat 32 trail)
    /\ Z.of_nat (lead + fill + zeros + trail) + zlen (number_sign num type)
         + zlen (number_prefix base type) + zlen ds
       = Z.max size (zlen (number_sign num type) + zlen (number_prefix base type)
           + Z.max precision (zlen ds))
    /\ Z.of_nat zeros = Z.max 0 (precision - zlen ds)
    /\ (flag_set type LEFT = true -> lead = 0%nat /\ fill = 0%nat)
    /\ (flag_set type LEFT = false -> trail = 0%nat)
    /\ (flag_set (eff type) ZEROPAD = true -> lead = 0%nat)
    /\ (flag_set (eff type) ZEROPAD = false -> fill = 0%nat).
Proof.
  intros Hb Hn.
  assert (locase_ok (type .& SMALL)) as Hl.
  { unfold locase_ok. change SMALL with (2 ^ 5). destruct (Z.testbit type 5) eqn:E; [right|left];
      apply Z.bits_inj'; intros n Hnn; rewrite testbit_land_pow2, E by lia;
      rewrite ?Z.bits_0, ?Z.pow2_bits_eqb by lia; rewrite ?(Z.eqb_sym n), ?andb_true_r, ?andb_false_r; done. }
  destruct (number_digits_ok (magnitude num type) base (type .& SMALL) Hb Hl (magnitude_range num type Hn))
    as (ds & Hds & Hdig & Hlen).
  rewrite number_unfold, Hds by done. cbn [mbind option_bind].
  assert (length (map (dchar (type .& SMALL)) ds) = length ds) as Hml by apply length_map.
  rewrite Hml. destruct (66 <? zlen ds) eqn:E66; [lia|].
  set (sg := number_sign num type). set (px := number_prefix base type).
  unfold number_out. rewrite Hml, eff_left.
  set (p := if precision <? zlen ds then zlen ds else precision).
  assert (p = Z.max precision (zlen ds)) as Hp by (unfold p; case_if; lia).
  unfold pad, padded.
  set (m := size - zlen sg - zlen px - p). set (zs := Z.to_nat (p - zlen ds)).
  pose proof (eff_zeropad type) as Hz.
  destruct (flag_set type LEFT), (flag_set (eff type) ZEROPAD); cbn [negb andb].
  - by destruct (flag_set type ZEROPAD).
  - exists ds, 0%nat, 0%nat, zs, (Z.to_nat m). split; [done|]. split; [done|].
    unfold zs, m. split_and!; done || lia.
  - exists ds, 0%nat, (Z.to_nat m), zs, 0%nat. split; [done|]. split.
    { replace (Z.to_nat (if 0 <? m then -1 else m - 1)) with O by (case_if; lia). done. }
    unfold zs, m. split_and!; done || lia.
  - exists ds, (Z.to_nat m), 0%nat, zs, 0%nat. split; [done|]. split.
    { replace (Z.to_nat (if 0 <? m then -1 else m - 1)) with O by (case_if; lia).
      replace (Z.to_nat (if 0 <? _ then -1 else _)) with O by (repeat case_if; lia). done. }
    unfold zs, m. split_and!; done || lia.
Qed.

Lemma number_some num base size precision type : base_ok base -> 0 <= num < 0x10000000000000000 ->
  is_Some (number num base size precision type).
Proof.
  intros Hb Hn. destruct (number_closed num base size precision type Hb Hn) as (? & ? & ? & ? & ? & _ & -> & _).
  by eexists.
Qed.

(** ** Without width and precision *)
Lemma repeat_nil {A} (x : A) n : n = 0%nat -> repeat x n = [].
Proof. by intros ->. Qed.

Lemma number_plain num base type : base_ok base -> type = 0 \/ type = SMALL ->
  0 <= num < 0x10000000000000000 -> exists ds, is_digits base num ds
    /\ number num base (-1) (-1) type = Some (reverse (map (dchar type) ds)).
Proof.
  intros Hb Ht Hn.
  destruct (number_closed num base (-1) (-1) type Hb Hn)
    as (ds & lead & fill & zeros & trail & Hd & Heq & Hlen & Hz & _).
  assert (number_sign num type = [] /\ number_prefix base type = [] /\ magnitude num type = num
    /\ type .& SMALL = type) as (Hs & Hp & Hm & Hsm) by (destruct Ht as [->| ->]; by split_and!).
  rewrite Hs, Hp, Hm, Hsm in *. exists ds. split; [done|]. rewrite Heq. cbn [length] in Hlen.
  rewrite !repeat_nil by lia. cbn [app]. by rewrite app_nil_r.
Qed.

Lemma string_plain s flags : flag_set flags LEFT = false -> string_ (Some s) (-1) (-1) flags = s.
Proof.
  intros Hf. unfold string_. rewrite Hf. cbn [default from_option negb].
  change (-1 <? 0) with true. cbn iota. change (id s) with s. cbn zeta.
  destruct (zlen s <? -1) eqn:E; [lia|]. unfold pad.
  replace (Z.to_nat (-1 - zlen s)) with 0%nat by lia.
  replace (Z.to_nat (-1 - 1 - zlen s)) with 0%nat by lia. cbn [repeat app].
  by rewrite app_nil_r, Nat2Z.id, take_ge.
Qed.

Lemma lor_shl8 a b : 0 <= b < 256 -> (a ≪ 8) .| b = a * 256 + b.
Proof. intros Hb. rewrite Z.shiftl_mul_pow2 by lia. by apply (lor_add a b 8). Qed.
Lemma land_ff a : a .& 0xff = a mod 256.
Proof. by apply (Z.land_ones a 8). Qed.

Lemma ip4_quad b rest : 0 <= b < 256 -> ends_number 10 rest ->
  simple_strtoul (reverse (put_dec_trunc b) ++ rest) 10 = (b, rest).
Proof.
  intros Hb Hr. destruct (put_dec_trunc_ok b) as (ds & -> & Hds); [lia|].
  assert (map (Z.add 48) ds = map (dchar 0) ds) as ->.
  { apply map_ext_Forall. destruct Hds as (Hf & _). apply (Forall_impl _ _ _ Hf).
    intros d Hd. by rewrite dchar_decimal. }
  rewrite (strtoul_digits 0 10 b ds rest); [by rewrite u32_small by lia|by left|by right; left|done|done].
Qed.

Lemma htonl_bytes a b c d : byte a -> byte b -> byte c -> byte d ->
  htonl (((a * 256 + b) * 256 + c) * 256 + d) = a + b * 0x100 + c * 0x10000 + d * 0x1000000.
Proof.
  unfold byte. intros Ha Hb Hc Hd. set (x := ((a * 256 + b) * 256 + c) * 256 + d).
  assert (forall k, 0 <= k -> x .& (0xff * 2 ^ k) = (x / 2 ^ k) mod 256 * 2 ^ k) as Hmask.
  { intros k Hk. rewrite <- land_ff, <- !Z.shiftl_mul_pow2, <- Z.shiftr_div_pow2 by done.
    apply Z.bits_inj'. intros n Hn. rewrite Z.land_spec, !Z.shiftl_spec by done.
    destruct (decide (n < k)).
    - rewrite !(Z.testbit_neg_r _ (n - k)) by lia. apply andb_false_r.
    - rewrite Z.land_spec, Z.shiftr_spec by lia. by replace (n - k + k) with n by lia. }
  unfold htonl.
  rewrite (Hmask 0 ltac:(lia) : x .& 0xff = _), (Hmask 8 ltac:(lia) : x .& 0xff00 = _),
    (Hmask 16 ltac:(lia) : x .& 0xff0000 = _), (Hmask 24 ltac:(lia) : x .& 0xff000000 = _).
  change (2 ^ 0) with 1. change (2 ^ 8) with 256. change (2 ^ 16) with 0x10000.
  change (2 ^ 24) with 0x1000000.
  replace ((x / 1) mod 256 * 1) with d by (unfold x; zdm).
  replace ((x / 256) mod 256 * 256) with (c * 256) by (unfold x; zdm).
  replace ((x / 0x10000) mod 256 * 0x10000) with (b * 0x10000) by (unfold x; zdm).
  replace ((x / 0x1000000) mod 256 * 0x1000000) with (a * 0x1000000) by (unfold x; zdm).
  rewrite !Z.shiftl_mul_pow2, !Z.shiftr_div_pow2 by lia.
  change (2 ^ 8) with 256. change (2 ^ 24) with 0x1000000.
  replace (b * 0x10000 / 256) with (b * 256) by zdm.
  replace (a * 0x1000000 / 0x1000000) with a by zdm.
  pose proof (lor_add d (c * 256 * 256) 24) as H24. change (2 ^ 24) with 0x1000000 in H24.
  rewrite H24 by lia.
  replace (d * 0x1000000 + c * 256 * 256) with ((d * 256 + c) * 2 ^ 16) by lia.
  rewrite (lor_add (d * 256 + c) (b * 256) 16) by lia.
  replace ((d * 256 + c) * 2 ^ 16 + b * 256) with (((d * 256 + c) * 256 + b) * 2 ^ 8) by lia.
  rewrite (lor_add _ a 8) by lia. lia.
Qed.

(** ** The properties *)

(** C35: text and numbers agree: what [number] prints for a 32-bit number in base 8, 10 or
    16, [simple_strtoul] reads back, stopping at the first character behind it;
    [strict_strtoul] accepts the text, alone or with a final newline, and rejects it with
    anything else behind it. *)
Theorem number_strtoul_roundtrip num base type
    (Hbase : base_ok base) (Htype : type = 0 \/ type = SMALL) (Hnum : 0 <= num < 0x100000000) :
  exists out, number num base (-1) (-1) type = Some out
    /\ (forall rest, ends_number base rest -> simple_strtoul (out ++ rest) base = (num, rest))
    /\ strict_strtoul out base = (0, num)
    /\ strict_strtoul (out ++ [10]) base = (0, num)
    /\ forall c rest, ends_number base (c :: rest) -> c <> 0 -> (c <> 10 \/ rest <> []) ->
         strict_strtoul (out ++ c :: rest) base = (- EINVAL, 0).
Proof.
  destruct (number_plain num base type Hbase Htype) as (ds & Hds & Heq); [lia|].
  exists (reverse (map (dchar type) ds)). split; [done|].
  assert (forall rest, ends_number base rest ->
    simple_strtoul (reverse (map (dchar type) ds) ++ rest) base = (num, rest)) as Hparse.
  { intros rest Hr. rewrite (strtoul_digits type base num ds rest) by done.
    by rewrite u32_small by lia. }
  assert (0 < zlen (reverse (map (dchar type) ds))) as Hlen.
  { rewrite length_reverse, length_map. destruct Hds as (_ & _ & Hne & _). destruct ds; [done|cbn; lia]. }
  set (out := reverse (map (dchar type) ds)) in *. split; [done|].
  assert (forall rest, ends_number base rest -> strict_strtoul (out ++ rest) base =
    if (chr rest =? 0) || (zlen rest =? 1) && (chr rest =? 10) then (0, num) else (- EINVAL, 0)) as Hstrict.
  { intros rest Hr. unfold strict_strtoul. rewrite (Hparse rest Hr). rewrite length_app.
    destruct (Z.eqb_spec (Z.of_nat (length out + length rest)) 0); [lia|].
    destruct (Z.eqb_spec (zlen rest) (Z.of_nat (length out + length rest))); [lia|].
    replace (Z.of_nat (length out + length rest) =?
      Z.of_nat (length out + length rest) - zlen rest + 1) with (zlen rest =? 1) by lia. done. }
  split_and!.
  - specialize (Hstrict [] I). rewrite app_nil_r in Hstrict. by rewrite Hstrict.
  - rewrite Hstrict; [done|]. destruct Hbase as [->|[->| ->]]; by split.
  - intros c rest Hr Hc Hor. rewrite Hstrict by done. cbn [chr hd].
    destruct rest as [|c' rest]; [|by rewrite andb_false_l || (cbn [length]; case_if; [lia|done])].
    case_if; [|done]. destruct Hor as [Hor|Hor]; [lia|done].
Qed.

(** The layout of [number]: sign, prefix, zeros for the precision and digits, padded on
    the left with blanks or behind the prefix with zeros, or on the right with blanks, so
    that the length is the larger of the field width and what the number needs. *)
Theorem number_layout num base size precision type
    (Hbase : base_ok base) (Hnum : 0 <= num < 0x10000000000000000) :
  exists ds lead fill zeros trail, is_digits base (magnitude num type) ds
    /\ number num base size precision type =
       Some (repeat 32 lead ++ number_sign num type ++ number_prefix base type
         ++ repeat (if flag_set (eff type) ZEROPAD then 48 else 32) fill ++ repeat 48 zeros
         ++ reverse (map (dchar (type .& SMALL)) ds) ++ repeat 32 trail)
    /\ Z.of_nat (lead + fill + zeros + trail) + zlen (number_sign num type)
         + zlen (number_prefix base type) + zlen ds
       = Z.max size (zlen (number_sign num type) + zlen (number_prefix base type)
           + Z.max precision (zlen ds))
    /\ Z.of_nat zeros = Z.max 0 (precision - zlen ds)
    /\ (flag_set type LEFT = true -> lead = 0%nat /\ fill = 0%nat)
    /\ (flag_set type LEFT = false -> trail = 0%nat)
    /\ (flag_set (eff type) ZEROPAD = true -> lead = 0%nat)
    /\ (flag_set (eff type) ZEROPAD = false -> fill = 0%nat).
Proof. by apply number_closed. Qed.

(** The number whose bytes in memory are the four parts of an address. *)
Definition ip_word (a b c d : Z) : Z := a + b * 0x100 + c * 0x10000 + d * 0x1000000.

(** The dotted text that "%pI4" prints for four bytes is read by [string_to_ip] as the
    address with exactly these bytes in memory. *)
Theorem ip_roundtrip a b c d (Ha : byte a) (Hb : byte b) (Hc : byte c) (Hd : byte d) :
  exists s, ip4_addr_string [a; b; c; d] (-1) (-1) 0 = Some s
    /\ string_to_ip (Some s) = ip_word a b c d.
Proof.
  unfold ip4_addr_string. cbn [ip4_loop lookup list_lookup Z.to_nat Z.add].
  change (0 + 1 + 1 + 1) with 3. change (0 + 1 + 1) with 2. change (0 + 1) with 1.
  change (Z.to_nat 0) with 0%nat. change (Z.to_nat 1) with 1%nat. change (Z.to_nat 2) with 2%nat.
  change (Z.to_nat 3) with 3%nat. cbn [lookup list_lookup mbind option_bind].
  change (negb (0 =? 3)) with true. change (negb (1 =? 3)) with true.
  change (negb (2 =? 3)) with true. change (negb (3 =? 3)) with false. cbn iota.
  eexists. split; [done|]. rewrite app_nil_r.
  set (s := reverse (put_dec_trunc a) ++ _).
  rewrite string_plain by done.
  unfold string_to_ip, s. cbn [string_to_ip_loop].
  rewrite (ip4_quad a) by (done || by split). cbn [tail app].
  rewrite land_ff, (Z.mod_small a) by done.
  rewrite (ip4_quad b) by (done || by split). cbn [tail app].
  rewrite land_ff, (Z.mod_small b) by done.
  rewrite (ip4_quad c) by (done || by split). cbn [tail app].
  rewrite land_ff, (Z.mod_small c) by done.
  pose proof (ip4_quad d [] Hd I) as Hq. rewrite app_nil_r in Hq. rewrite Hq.
  rewrite land_ff, (Z.mod_small d) by done.
  unfold byte in *. change (u32 (0 ≪ 8)) with 0. rewrite Z.lor_0_l.
  assert (forall x y, 0 <= x < 0x1000000 -> 0 <= y < 256 -> u32 (x ≪ 8) .| y = x * 256 + y) as Hstep.
  { intros x y Hx Hy. rewrite u32_small; [by apply lor_shl8|]. rewrite Z.shiftl_mul_pow2 by lia. lia. }
  rewrite (Hstep a b), (Hstep (a * 256 + b) c), (Hstep _ d) by lia. unfold ip_word. by apply htonl_bytes.
Qed.

Lemma number_strtoul_roundtrip_witness : exists out,
  number 0xbeef 16 (-1) (-1) SMALL = Some out /\ strict_strtoul (out ++ [10]) 16 = (0, 0xbeef).
Proof.
  destruct (number_strtoul_roundtrip 0xbeef 16 SMALL) as (out & H1 & _ & _ & H2 & _);
    [by right; right|by right|lia|]. by exists out.
Defined.
Lemma number_layout_witness : exists ds lead fill zeros trail,
  is_digits 10 42 ds /\ number 42 10 5 (-1) ZEROPAD =
    Some (repeat 32 lead ++ number_sign 42 ZEROPAD ++ number_prefix 10 ZEROPAD
         ++ repeat (if flag_set (eff ZEROPAD) ZEROPAD then 48 else 32) fill ++ repeat 48 zeros
         ++ reverse (map (dchar (ZEROPAD .& SMALL)) ds) ++ repeat 32 trail).
Proof.
  destruct (number_layout 42 10 5 (-1) ZEROPAD) as (ds & i & j & k & l & H1 & H2 & _);
    [by right; left|lia|]. by exists ds, i, j, k, l.
Defined.
Lemma ip_roundtrip_witness : exists s,
  ip4_addr_string [192; 168; 1; 100] (-1) (-1) 0 = Some s /\ string_to_ip (Some s) = 0x6401a8c0.
Proof. apply (ip_roundtrip 192 168 1 100); unfold byte; lia. Defined.

Example sprintf_runs :
  sprintf "%5d|%-5d|%05d|%#x|%llu|%.2s|%pM|%%" [VInt 42; VInt (-42); VInt (-42); VInt 255;
    VQuad 18446744073709551615; VStr (Some (codes "abc")); VPtr 0 [1; 2; 3; 0xab; 0xcd; 0xef]]
  = Some (codes "   42|-42  |-0042|0xff|18446744073709551615|ab|01:02:03:ab:cd:ef|%").
Proof. vm_compute. reflexivity. Qed.
