(* ===== verification/EnvAttr.v ===== *)
(** * Attribute lists of variables: [common/env_attr.c] and [lib/linux_string.c]

    A list is [entry,entry,...] and an entry [name] or [name:attributes].  The characters of
    a C string are a list; a pointer into it is an offset.  [env_attr_lookup] also reads
    below the list, so it gets the bytes [before] it, the nearest first; a result [None] is
    an access outside of the bytes given. *)
From S2P Require Import Prelude Ctype Mem CStr Hashtable.

Definition ENV_ATTR_LIST_DELIM : Z := 44.
Definition ENV_ATTR_SEP : Z := 58.

(** ** [lib/linux_string.c] *)
Fixpoint skip_spaces (str : list Z) : list Z :=
  match str with c :: r => if isspace c then skip_spaces r else str | [] => [] end.
(** The loop that moves [end] down, on the characters from the last to the first. *)
Fixpoint strim_end (rev_s : list Z) : list Z :=
  match rev_s with c :: r => if isspace c then strim_end r else rev_s | [] => [] end.
Definition strim (s : list Z) : list Z :=
  let s := skip_spaces s in
  let size := length s in
  if Nat.eqb size 0 then s else reverse (strim_end (reverse s)).

(** The offset of the first [c], of the terminator for 0. *)
Fixpoint strchr (s : list Z) (c : Z) : option nat :=
  match s with
  | [] => if c =? 0 then Some O else None
  | d :: r => if d =? c then Some O else k ← strchr r c; Some (S k)
  end.

(** ** env_attr_walk *)
Section walk.
(** [S_] is the state the callback changes. *)
Context {S_ : Type} (malloc_ok : Z -> bool)
  (callback_ : list Z -> option (list Z) -> S_ -> option (Z * S_)).

(** What is done with the copy of an entry. *)
Definition walk_entry (entry_cpy : list Z) (st : S_) : option (Z * S_) :=
  let '(name, attributes) :=
    match strchr entry_cpy ENV_ATTR_SEP with
    | Some k => (take k entry_cpy, Some (strim (drop (S k) entry_cpy)))
    | None => (entry_cpy, None)
    end in
  let name := strim name in
  if negb (zlen name =? 0) then callback_ name attributes st else Some (0, st).

Fixpoint walk_loop (n : nat) (entry : list Z) (st : S_) : option (Z * S_) :=
  match n with
  | O => None
  | S n =>
      let entry_end := strchr entry ENV_ATTR_LIST_DELIM in
      let entry_cpy := match entry_end with Some k => take k entry | None => entry end in
      let entry_len := zlen entry_cpy in
      if negb (entry_len =? 0) && negb (malloc_ok (entry_len + 1)) then Some (- ENOMEM, st)
      else
        '(retval, st) ←
          (if entry_len =? 0 then Some (0, st) else walk_entry entry_cpy st);
        if negb (retval =? 0) then Some (retval, st)
        else
          match entry_end with
          | Some k => walk_loop n (drop (S k) entry) st
          | None => Some (0, st)
          end
  end.
Definition env_attr_walk (attr_list : option (list Z)) (st : S_) : option (Z * S_) :=
  match attr_list with
  | None => Some (1, st)
  | Some l => walk_loop (S (length l)) l st
  end.
End walk.

(** ** env_attr_lookup *)
Fixpoint reverse_strstr_loop (n : nat) (s search_for : list Z) (searched_start : option nat)
    (searched : nat) (result : option nat) : option (option nat) :=
  match n with
  | O => None
  | S n =>
      match find_sub (drop searched s) search_for with
      | None => Some result
      | Some k =>
          let match_ := (searched + k)%nat in
          if match searched_start with
             | Some start => (start <? match_ + length search_for)%nat
             | None => false
             end
          then Some result
          else reverse_strstr_loop n s search_for searched_start (S match_) (Some match_)
      end
  end.
Definition reverse_strstr (s search_for : list Z) (searched_start : option nat)
    : option (option nat) :=
  match search_for with
  | [] => Some (Some O)
  | _ => reverse_strstr_loop (S (length s)) s search_for searched_start O None
  end.

(** [while ( *prevch == ' ') prevch--]: the character where the loop stops, on the characters
    below the pointer. *)
Fixpoint skip_back (below : list Z) : option Z :=
  match below with c :: r => if c =? 32 then skip_back r else Some c | [] => None end.
(** [while ( *p == ' ') p++]. *)
Fixpoint skip_blanks (p : list Z) : list Z :=
  match p with c :: r => if c =? 32 then skip_blanks r else p | [] => [] end.

(** The loop over the occurrences of [name], from the last to the first. *)
Fixpoint lookup_loop (n : nat) (before s name : list Z) (entry : option nat)
    : option (option nat) :=
  match n, entry with
  | _, None => Some None
  | O, _ => None
  | S n, Some e =>
      prevch ← skip_back (reverse (take e s) ++ before);
      let nextch := chr (skip_blanks (drop (e + length name) s)) in
      if (Nat.eqb e 0 || (prevch =? ENV_ATTR_LIST_DELIM))
         && ((nextch =? ENV_ATTR_SEP) || (nextch =? ENV_ATTR_LIST_DELIM) || (nextch =? 0))
      then Some (Some e)
      else
        entry ← reverse_strstr s name (Some e);
        lookup_loop n before s name entry
  end.

(** The offset of the first character of [delims]. *)
Fixpoint strpbrk (cs delims : list Z) : option nat :=
  match cs with
  | [] => None
  | c :: r => if bool_decide (c ∈ delims) then Some O else k ← strpbrk r delims; Some (S k)
  end.

(** The text copied to the buffer, from behind the name of the entry found. *)
Definition attr_text (entry : list Z) : list Z :=
  let entry := skip_blanks entry in
  if negb (chr entry =? ENV_ATTR_SEP) then []
  else
    let entry := skip_blanks (tail entry) in
    match strpbrk entry [ENV_ATTR_LIST_DELIM; 32] with
    | None => entry
    | Some k => take k entry
    end.

(** [memcpy(attributes, entry, len); attributes[len] = '\0'] on a buffer of any size. *)
Definition put_string (buf text : list Z) : option (list Z) :=
  if (length text <? length buf)%nat
  then Some (text ++ [0] ++ drop (S (length text)) buf) else None.

(** The return value and the buffer. *)
Definition env_attr_lookup (before : list Z) (attr_list : option (list Z)) (name : list Z)
    (attributes : option (list Z)) : option (Z * option (list Z)) :=
  match attributes, attr_list with
  | None, _ => Some (-1, None)
  | _, None => Some (1, attributes)
  | Some buf, Some s =>
      entry ← reverse_strstr s name None;
      entry ← lookup_loop (S (length s)) before s name entry;
      match entry with
      | Some e => buf ← put_string buf (attr_text (drop (e + length name) s)); Some (0, Some buf)
      | None => Some (2, attributes)
      end
  end.

Example lookup_example :
  env_attr_lookup [0] (Some (codes "ethaddr:ma,a:so , serial# : dc,eth")) (codes "serial#") (Some [0; 0; 0])
  = Some (0, Some [100; 99; 0]).
Proof. reflexivity. Qed.

(** ** The list as its entries *)
Fixpoint split (c : Z) (s : list Z) : list (list Z) :=
  match s with
  | [] => [[]]
  | d :: r =>
      if d =? c then [] :: split c r
      else match split c r with e :: l => (d :: e) :: l | [] => [[d]] end
  end.
Definition until (c : Z) (e : list Z) : list Z :=
  match strchr e c with Some k => take k e | None => e end.
Definition trim_blanks (s : list Z) : list Z := reverse (skip_blanks (reverse (skip_blanks s))).
Definition entry_name (e : list Z) : list Z := trim_blanks (until ENV_ATTR_SEP e).
(** The text behind the colon, up to the first blank. *)
Definition entry_attrs (e : list Z) : list Z :=
  match strchr e ENV_ATTR_SEP with
  | None => []
  | Some k => until 32 (skip_blanks (drop (S k) e))
  end.
(** The last entry of that name counts. *)
Definition attrs_of (s name : list Z) : option (list Z) :=
  entry_attrs <$> last (filter (fun e => entry_name e = name) (split ENV_ATTR_LIST_DELIM s)).

Definition name_ok (name : list Z) : Prop :=
  name <> [] /\ str_ok name /\ 44 ∉ name /\ 58 ∉ name /\ 32 ∉ name.
Abbreviation blanks := (Forall (fun c : Z => c = 32)).

Lemma skip_blanks_app b l : blanks b -> skip_blanks (b ++ l) = skip_blanks l.
Proof. by induction 1 as [|c b -> Hb IH]. Qed.
Lemma skip_blanks_split l : exists b, l = b ++ skip_blanks l /\ blanks b.
Proof.
  induction l as [|c l (b & Hl & Hb)]; cbn; [by exists []|]. destruct (Z.eqb_spec c 32) as [->|].
  - exists (32 :: b). split; [cbn; congruence|by constructor].
  - by exists [].
Qed.
Lemma skip_blanks_head l : chr (skip_blanks l) <> 32.
Proof. induction l as [|c l IH]; cbn; [done|]. case_if; [done|cbn; lia]. Qed.
Lemma skip_blanks_id l : chr l <> 32 -> skip_blanks l = l.
Proof. destruct l as [|c l]; cbn; [done|]. intros H. case_if; [lia|done]. Qed.
Lemma skip_blanks_app_stop q c r : c <> 32 -> skip_blanks (q ++ c :: r) = skip_blanks q ++ c :: r.
Proof. intros H. induction q as [|d q IH]; cbn; [|case_if; done]. case_if; [lia|done]. Qed.
Lemma blanks_reverse l : blanks l -> blanks (reverse l).
Proof. intros H. by rewrite Forall_reverse. Qed.

Lemma skip_back_stop q c r : c <> 32 -> skip_back (reverse q ++ c :: r) =
  Some (chr (skip_blanks (reverse q) ++ [c])).
Proof.
  intros H. generalize (reverse q). clear q. intros q.
  induction q as [|d q IH]; cbn; [|case_if; done]. case_if; [lia|done].
Qed.

Lemma strchr_app_not s c r : c ∉ s -> c <> 0 -> strchr (s ++ c :: r) c = Some (length s).
Proof.
  induction s as [|d s IH]; intros Hs Hc; cbn; [by rewrite Z.eqb_refl|].
  apply not_elem_of_cons in Hs as [H1 H2]. rewrite IH by done. case_if; [lia|done].
Qed.
Lemma strchr_none s c : c ∉ s -> c <> 0 -> strchr s c = None.
Proof.
  induction s as [|d s IH]; intros Hs Hc; cbn; [case_if; [lia|done]|].
  apply not_elem_of_cons in Hs as [H1 H2]. rewrite IH by done. case_if; [lia|done].
Qed.
Lemma strchr_cases s c : c <> 0 ->
  (c ∉ s /\ strchr s c = None)
  \/ exists u r, s = u ++ c :: r /\ c ∉ u /\ strchr s c = Some (length u).
Proof.
  intros Hc. destruct (decide (c ∈ s)) as [Hs|Hs]; [right|left; by rewrite strchr_none].
  apply list_elem_of_split in Hs as Hsp. clear Hs.
  assert (exists u r, s = u ++ c :: r /\ c ∉ u) as (u & r & -> & Hu).
  { clear Hc. destruct Hsp as (u & r & ->). induction u as [|d u IH].
    - exists [], r. split; [done|apply not_elem_of_nil].
    - destruct (decide (d = c)) as [->|].
      + exists [], (u ++ c :: r). split; [done|apply not_elem_of_nil].
      + destruct IH as (u' & r' & E & Hu'). exists (d :: u'), r'. cbn. rewrite <- E.
        split; [done|]. rewrite not_elem_of_cons. split; [congruence|done]. }
  exists u, r. by rewrite strchr_app_not.
Qed.
Lemma until_cases s c : c <> 0 ->
  (c ∉ s /\ until c s = s) \/ exists r, s = until c s ++ c :: r /\ c ∉ until c s.
Proof.
  intros Hc. unfold until. destruct (strchr_cases s c Hc) as [[H ->]|(u & r & -> & Hu & ->)].
  - by left.
  - right. exists r. by rewrite take_app_length.
Qed.
Lemma until_app s c r : c ∉ s -> c <> 0 -> until c (s ++ c :: r) = s.
Proof. intros. unfold until. by rewrite strchr_app_not, take_app_length. Qed.
Lemma until_none s c : c ∉ s -> c <> 0 -> until c s = s.
Proof. intros. unfold until. by rewrite strchr_none. Qed.

Lemma strpbrk_app2 q r : 
  match strpbrk (q ++ 44 :: r) [44; 32] with Some k => take k (q ++ 44 :: r) | None => q ++ 44 :: r end
  = match strpbrk q [44; 32] with Some k => take k q | None => q end.
Proof.
  induction q as [|c q IH]; cbn; [by rewrite bool_decide_true by set_solver|].
  case_bool_decide; [done|].
  destruct (strpbrk (q ++ 44 :: r) _), (strpbrk q _); cbn; congruence.
Qed.
Lemma strpbrk_until q : 44 ∉ q ->
  match strpbrk q [44; 32] with Some k => take k q | None => q end = until 32 q.
Proof.
  unfold until. induction q as [|c q IH]; intros Hq; cbn; [done|].
  apply not_elem_of_cons in Hq as [H1 H2]. specialize (IH H2).
  destruct (Z.eqb_spec c 32) as [->|]; [by rewrite bool_decide_true by set_solver|].
  rewrite bool_decide_false by set_solver.
  destruct (strpbrk q _), (strchr q 32); cbn; congruence.
Qed.

Lemma split_none c e : c ∉ e -> split c e = [e].
Proof.
  induction e as [|d e IH]; intros H; cbn; [done|].
  apply not_elem_of_cons in H as [H1 H2]. rewrite IH by done. case_if; [lia|done].
Qed.
Lemma split_nonempty c e : split c e <> [].
Proof. destruct e as [|d e]; cbn; [done|]. case_if; [done|]. by destruct (split c e). Qed.
Lemma split_app c s e : split c (s ++ c :: e) = split c s ++ split c e.
Proof.
  induction s as [|d s IH]; cbn; [by rewrite Z.eqb_refl|]. rewrite IH. case_if; [done|].
  pose proof (split_nonempty c s). by destruct (split c s).
Qed.

(** ** The last occurrence *)
Definition occ (s t : list Z) (p : nat) : Prop := starts_with t (drop p s) = true /\ (p <= length s)%nat.
Definition is_last (P : nat -> Prop) (r : option nat) : Prop :=
  match r with
  | None => forall q, ~ P q
  | Some m => P m /\ forall q, P q -> (q <= m)%nat
  end.
Definition within (bound : option nat) (n : nat) : Prop :=
  match bound with Some b => (n <= b)%nat | None => True end.

Lemma occ_split s t p : occ s t p <-> exists a b, s = a ++ t ++ b /\ length a = p.
Proof.
  unfold occ. rewrite starts_with_spec. split.
  - intros [[r Hr] Hp]. exists (take p s), r. rewrite length_take. split; [|lia].
    etransitivity; [symmetry; apply (take_drop p s)|]. by rewrite Hr.
  - intros (a & b & -> & <-). rewrite drop_app_length. split; [by exists b|rewrite length_app; lia].
Qed.
Lemma occ_le s t p : occ s t p -> (p + length t <= length s)%nat.
Proof. rewrite occ_split. intros (a & b & -> & <-). rewrite !length_app. lia. Qed.

Lemma reverse_strstr_loop_ok s t bound n : t <> [] -> forall a r,
  (a <= length s)%nat -> (length s - a < n)%nat ->
  is_last (fun q => occ s t q /\ (q < a)%nat) r -> (forall q, r = Some q -> within bound (q + length t)) ->
  exists r', reverse_strstr_loop n s t bound a r = Some r'
    /\ is_last (fun q => occ s t q /\ within bound (q + length t)) r'.
Proof.
  intros Ht. induction n as [|n IH]; intros a r Ha Hn Hr Hb; [lia|]. cbn.
  assert (Hend : (forall q, occ s t q -> within bound (q + length t) -> (q < a)%nat) ->
    is_last (fun q => occ s t q /\ within bound (q + length t)) r).
  { intros H. destruct r as [m|]; cbn in *.
    - destruct Hr as [[H1 H2] H3]. split; [by auto|]. intros q [Hq1 Hq2]. apply H3. auto.
    - intros q [H1 H2]. apply (Hr q). auto. }
  destruct (find_sub (drop a s) t) as [k|] eqn:E; cbn.
  - apply find_sub_spec in E as (E1 & E2 & E3). rewrite length_drop in E2. rewrite drop_drop in E1.
    assert (Hk : occ s t (a + k)) by (split; [done|lia]). pose proof (occ_le _ _ _ Hk).
    assert (Hfirst : forall q, occ s t q -> (q < a \/ a + k <= q)%nat).
    { intros q [Hq1 Hq2]. destruct (decide (q < a \/ a + k <= q)%nat) as [?|Hn']; [done|].
      specialize (E3 (q - a)%nat ltac:(lia)). rewrite drop_drop in E3.
      replace (a + (q - a))%nat with q in E3 by lia. congruence. }
    assert (1 <= length t)%nat by (destruct t; [done|cbn; lia]).
    case_if; [destruct bound as [b|]; [|done]; apply Nat.ltb_lt in E|].
    + eexists. split; [done|]. apply Hend. intros q Hq. cbn. destruct (Hfirst q Hq); lia.
    + apply IH; [lia|lia| |].
      * cbn. split; [split; [done|lia]|]. intros q [Hq1 Hq2]. lia.
      * intros q [= <-]. destruct bound as [b|]; cbn; [|done]. apply Nat.ltb_ge in E. lia.
  - eexists. split; [done|]. apply Hend. intros q Hq _.
    destruct (decide (q < a)%nat) as [?|Hge]; [done|]. exfalso.
    enough (exists k, find_sub (drop a s) t = Some k) as [? ?] by congruence.
    destruct Hq as [Hq1 Hq2].
    assert (Hocc : exists k, starts_with t (drop k (drop a s)) = true /\ (k <= length (drop a s))%nat).
    { exists (q - a)%nat. rewrite drop_drop, length_drop.
      replace (a + (q - a))%nat with q by lia. split; [done|lia]. }
    clear -Hocc. destruct Hocc as (k & H1 & H2). revert k H1 H2.
    induction (drop a s) as [|c l IH]; intros k H1 H2.
    + destruct k; cbn in H1; cbn; destruct t; eauto; done.
    + cbn [find_sub]. case_if; [eauto|]. destruct k as [|k]; [cbn in H1; congruence|].
      cbn in H1, H2. destruct (IH k H1 ltac:(lia)) as [j ->]. cbn. eauto.
Qed.

Lemma reverse_strstr_ok s t bound : t <> [] -> exists r, reverse_strstr s t bound = Some r
  /\ is_last (fun q => occ s t q /\ within bound (q + length t)) r.
Proof.
  intros Ht. unfold reverse_strstr. destruct t as [|t0 t]; [done|].
  apply reverse_strstr_loop_ok; [done|lia|lia| |done]. cbn. intros q [_ H]. lia.
Qed.

(** ** Exact matches are entries of the name *)
Definition after_ok (post : list Z) : Prop :=
  let c := chr (skip_blanks post) in c = 58 \/ c = 44 \/ c = 0.
Definition before_ok (before pre : list Z) : Prop :=
  pre = [] \/ skip_back (reverse pre ++ before) = Some 44.
Definition exact (before s name : list Z) (p : nat) : Prop :=
  exists pre post, s = pre ++ name ++ post /\ length pre = p
    /\ before_ok before pre /\ after_ok post.

(** An entry of the name: blanks, the name, blanks and the end or the colon. *)
Definition has_name (e name pre post : list Z) : Prop :=
  e = pre ++ name ++ post /\ blanks pre
  /\ (skip_blanks post = [] \/ exists r, skip_blanks post = 58 :: r).

Lemma name_chr name r : name_ok name -> chr (name ++ r) <> 32.
Proof. intros (H & _ & _ & _ & H32). destruct name; [done|]. cbn. set_solver. Qed.
Lemma name_trim name b : name_ok name -> blanks b -> trim_blanks (name ++ b) = name.
Proof.
  intros Hn Hb. unfold trim_blanks.
  rewrite (skip_blanks_id (name ++ b)) by by apply name_chr.
  rewrite reverse_app, skip_blanks_app by by apply blanks_reverse.
  rewrite skip_blanks_id, reverse_involutive; [done|].
  destruct Hn as (_ & Hs & _ & _ & H32). destruct (reverse name) as [|c l] eqn:E; cbn; [done|].
  intros ->. apply H32. apply (f_equal (@reverse Z)) in E. rewrite reverse_involutive in E.
  rewrite E, reverse_cons. in_app.
Qed.
Lemma trim_name name u : trim_blanks u = name -> exists b1 b2, u = b1 ++ name ++ b2 /\ blanks b1 /\ blanks b2.
Proof.
  unfold trim_blanks. intros <-.
  destruct (skip_blanks_split u) as (b1 & Hu & Hb1).
  destruct (skip_blanks_split (reverse (skip_blanks u))) as (b2 & Hv & Hb2).
  exists b1, (reverse b2). split_and!; [|done|by apply blanks_reverse].
  rewrite Hu at 1. f_equal. rewrite <- reverse_app, <- Hv. by rewrite reverse_involutive.
Qed.

Lemma entry_name_has e name : name_ok name ->
  entry_name e = name <-> exists pre post, has_name e name pre post.
Proof.
  intros Hn. pose proof Hn as (_ & _ & _ & H58 & _). unfold entry_name, has_name, ENV_ATTR_SEP. split.
  - intros (b1 & b2 & Hu & Hb1 & Hb2)%trim_name.
    destruct (until_cases e 58 ltac:(done)) as [[_ He]|(r & He & _)]; rewrite Hu in He.
    + exists b1, b2. split_and!; [congruence|done|left].
      rewrite <- (app_nil_r b2), skip_blanks_app; done.
    + exists b1, (b2 ++ 58 :: r). split_and!; [by rewrite He, <- !app_assoc|done|right].
      exists r. by rewrite skip_blanks_app.
  - intros (pre & post & -> & Hpre & Hpost).
    destruct (skip_blanks_split post) as (b & Hp & Hb).
    assert (Hno : 58 ∉ pre ++ name ++ b).
    { rewrite !elem_of_app. rewrite Forall_forall in Hpre, Hb.
      intros [H|[H|H]]; [specialize (Hpre _ H)|done|specialize (Hb _ H)]; lia. }
    enough (until 58 (pre ++ name ++ post) = pre ++ name ++ b) as ->.
    { transitivity (trim_blanks (name ++ b)); [|by apply name_trim]. unfold trim_blanks.
      by rewrite skip_blanks_app. }
    destruct Hpost as [Hz|[r Hr]]; rewrite Hp.
    + rewrite Hz, app_nil_r. by rewrite until_none.
    + rewrite Hr. replace (pre ++ name ++ b ++ 58 :: r) with ((pre ++ name ++ b) ++ 58 :: r)
        by by rewrite <- !app_assoc. by rewrite until_app.
Qed.

Lemma has_name_unique e name pre post pre' post' : name_ok name ->
  has_name e name pre post -> has_name e name pre' post' -> pre = pre' /\ post = post'.
Proof.
  intros Hn (-> & Hb & _) (He & Hb' & _).
  assert (name ++ post = name ++ post') as Ht%app_inv_head.
  { apply (f_equal skip_blanks) in He. rewrite (skip_blanks_app pre), (skip_blanks_app pre') in He by done.
    rewrite !skip_blanks_id in He by by apply name_chr. done. }
  subst post'. split; [|done]. by apply app_inv_tail in He.
Qed.

Lemma has_name_attrs e name pre post : name_ok name -> 44 ∉ e -> has_name e name pre post ->
  attr_text post = entry_attrs e.
Proof.
  intros Hn Hc (-> & Hb & Hpost). pose proof Hn as (_ & _ & _ & H58 & _).
  destruct (skip_blanks_split post) as (b & Hp & Hb2). rewrite Forall_forall in Hb, Hb2.
  assert (Hno : 58 ∉ pre ++ name ++ b).
  { rewrite !elem_of_app. intros [H|[H|H]]; [specialize (Hb _ H)|done|specialize (Hb2 _ H)]; lia. }
  unfold attr_text, entry_attrs, ENV_ATTR_SEP, ENV_ATTR_LIST_DELIM.
  destruct Hpost as [Hz|[r Hr]].
  - rewrite Hz. cbn. rewrite Hz, app_nil_r in Hp. subst b. by rewrite strchr_none.
  - rewrite Hr. cbn [chr hd tail negb]. rewrite Hr in Hp. subst post.
    replace (pre ++ name ++ b ++ 58 :: r) with ((pre ++ name ++ b) ++ 58 :: r)
        by by rewrite <- !app_assoc.
    rewrite strchr_app_not by done. cbn [Z.eqb Pos.eqb negb].
    replace (S (length (pre ++ name ++ b))) with (length ((pre ++ name ++ b) ++ [58]))
      by (rewrite !length_app; cbn; lia).
    replace ((pre ++ name ++ b) ++ 58 :: r) with (((pre ++ name ++ b) ++ [58]) ++ r)
      by by rewrite <- !app_assoc.
    rewrite drop_app_length. apply strpbrk_until.
    intros H. apply Hc. destruct (skip_blanks_split r) as (b' & Hr' & _).
    rewrite Hr'. rewrite !elem_of_app, elem_of_cons, elem_of_app. tauto.
Qed.

Lemma attr_text_app q r : attr_text (q ++ 44 :: r) = attr_text q.
Proof.
  unfold attr_text. rewrite skip_blanks_app_stop by done.
  destruct (skip_blanks q) as [|c q']; [done|]. cbn [app chr hd tail]. case_if; [done|].
  rewrite skip_blanks_app_stop by done. apply strpbrk_app2.
Qed.
Lemma after_ok_app q r : after_ok (q ++ 44 :: r) <-> after_ok q.
Proof.
  unfold after_ok. rewrite skip_blanks_app_stop by done. destruct (skip_blanks q); cbn; [|done].
  intuition.
Qed.

(** The character below an entry: blanks up to the delimiter or the start of the list. *)
Lemma before_ok_entry before P a : 44 ∉ a -> (P = [] \/ exists s1, P = s1 ++ [44]) ->
  (P = [] -> chr a <> 32) -> before_ok before (P ++ a) <-> (blanks a /\ (P = [] -> a = [])).
Proof.
  intros Ha HP Hhd. unfold before_ok.
  assert (Hback : forall r, (skip_back (reverse a ++ r) = Some 44 ->
     (blanks a /\ skip_back r = Some 44)) /\ (blanks a -> skip_back (reverse a ++ r) = skip_back r)).
  { intros r. rewrite <- (Forall_reverse _ a). assert (44 ∉ reverse a) as Hr by by rewrite elem_of_reverse.
    revert Hr. generalize (reverse a). clear. intros a Ha.
    induction a as [|c a IH]; cbn; [split; intros; try split; done|].
    apply not_elem_of_cons in Ha as [H1 H2]. destruct (Z.eqb_spec c 32) as [->|].
    - destruct (IH H2) as [G1 G2]. split; [intros H; destruct (G1 H); split; [by constructor|done]|].
      intros H. inversion H; subst. by apply G2.
    - split; [intros [= ->]; done|]. intros H. inversion H; subst. lia. }
  destruct HP as [->|[s1 ->]].
  - cbn. split; [|intros [_ H]; left; by apply H].
    destruct a as [|c a]; [done|]. intros [H|H]; [done|].
    apply Hback in H as [Hb _]. inversion Hb; subst. by destruct Hhd.
  - rewrite reverse_app, reverse_snoc, <- (app_assoc (reverse a)). split.
    + intros [H|H]; [by destruct s1|]. apply Hback in H as [Hb _]. split; [done|by destruct s1].
    + intros [Hb _]. right. rewrite (proj2 (Hback _) Hb). done.
Qed.

Lemma exact_entry before P e name p : name_ok name -> 44 ∉ e -> str_ok e ->
  (P = [] \/ exists s1, P = s1 ++ [44]) -> (P = [] -> chr e <> 32) -> (length P <= p)%nat ->
  exact before (P ++ e) name p <->
  exists pre post, has_name e name pre post /\ p = (length P + length pre)%nat.
Proof.
  intros Hn Hc Hok HP Hhd Hp. split.
  - intros (pre & post & He & Hlen & Hbef & Haft).
    assert (exists a, pre = P ++ a /\ e = a ++ name ++ post) as (a & -> & ->).
    { exists (drop (length P) pre).
      assert (take (length P) (P ++ e) = take (length P) (pre ++ name ++ post)) as Ht by by rewrite He.
      rewrite take_app_length, take_app_le in Ht by lia.
      assert (drop (length P) (P ++ e) = drop (length P) (pre ++ name ++ post)) as Hd by by rewrite He.
      rewrite drop_app_length, drop_app_le in Hd by lia.
      split; [|done]. rewrite Ht at 1. by rewrite take_drop. }
    rewrite !not_elem_of_app in Hc. destruct Hc as (Hca & _ & Hcp).
    apply before_ok_entry in Hbef as [Hba _]; [|done|done|].
    + exists a, post. rewrite length_app in Hlen. split; [|lia]. split_and!; [done|done|].
      destruct Haft as [H|[H|H]]; destruct (skip_blanks_split post) as (b & Hb & _);
        destruct (skip_blanks post) as [|c r]; cbn in H; auto; subst c; eauto.
      * destruct Hcp. rewrite Hb. in_app.
      * unfold str_ok in Hok. rewrite Hb, !Forall_app, Forall_cons in Hok. unfold char_ok in Hok. lia.
    + intros HP0 Ha0. apply (Hhd HP0). destruct a; [done|]. exact Ha0.
  - intros (pre & post & (-> & Hb & Hpost) & ->).
    exists (P ++ pre), post. rewrite <- app_assoc, length_app. split_and!; [done|done| |].
    + apply before_ok_entry; [|done| |].
      * rewrite Forall_forall in Hb. intros H. specialize (Hb _ H). lia.
      * intros HP0 H. apply (Hhd HP0). destruct pre; [done|]. exact H.
      * split; [done|]. intros HP0. destruct pre as [|c pre]; [done|].
        apply Forall_cons in Hb as [Hc32 _]. by destruct (Hhd HP0).
    + unfold after_ok. destruct Hpost as [->|[r ->]]; cbn; auto.
Qed.

Lemma exact_prefix before s1 e name p : name_ok name -> (p <= length s1)%nat ->
  exact before (s1 ++ 44 :: e) name p <-> exact before s1 name p.
Proof.
  intros Hn Hp. pose proof Hn as (Hne & _ & Hc & _). split.
  - intros (pre & post & He & Hlen & Hbef & Haft).
    assert (exists q, s1 = pre ++ name ++ q /\ post = q ++ 44 :: e) as (q & -> & ->).
    { apply app_eq_inv in He as [(k & -> & Hk)|(k & -> & Hk)].
      - apply app_eq_inv in Hk as [(j & -> & Hj)|(j & -> & Hj)]; [|by exists j].
        destruct j as [|c j]; cbn in Hj; [exists []; by rewrite !app_nil_r|].
        injection Hj as <- _. destruct Hc. in_app.
      - rewrite length_app in Hlen. destruct k as [|c k]; cbn in Hk, Hlen; [|lia].
        destruct name as [|n name]; [done|]. injection Hk as <- _. destruct Hc. in_app. }
    exists pre, q. rewrite after_ok_app in Haft. done.
  - intros (pre & post & -> & Hlen & Hbef & Haft).
    exists pre, (post ++ 44 :: e). rewrite <- !app_assoc. by rewrite after_ok_app.
Qed.

(** The text at the last exact match is that of the last entry of the name. *)
(** The entries of a list of attributes: the last one, and the list in front of it. *)
Lemma last_entry s : exists P e L, s = P ++ e /\ 44 ∉ e /\ split 44 s = L ++ [e]
  /\ (P = [] /\ L = [] \/ exists s1, P = s1 ++ [44] /\ L = split 44 s1).
Proof.
  destruct (decide (44 ∈ s)) as [Hs|Hs].
  - apply list_elem_of_split_r in Hs as (l1 & l2 & -> & H2).
    exists (l1 ++ [44]), l2, (split 44 l1). rewrite <- app_assoc. cbn.
    rewrite split_app, (split_none _ l2) by done. eauto 7.
  - exists [], s, []. split_and!; [done|done|by apply split_none|by left].
Qed.
(** The last occurrence of a name is not lost by leaving out a last entry that has another one. *)
Lemma is_last_front before s1 e name r : name_ok name ->
  (forall p, exact before (s1 ++ 44 :: e) name p -> (p <= length s1)%nat) ->
  is_last (exact before (s1 ++ 44 :: e) name) r -> is_last (exact before s1 name) r.
Proof.
  intros Hn Hle Hr.
  assert (forall q, exact before s1 name q -> exact before (s1 ++ 44 :: e) name q) as Hup.
  { intros q (pre & post & -> & <- & ?).
    apply exact_prefix; [done|rewrite length_app; lia|]. by exists pre, post. }
  destruct r as [p|]; cbn in *.
  - destruct Hr as [H1 H2]. split; [by apply exact_prefix in H1; auto|]. auto.
  - intros q Hq. by apply (Hr q), Hup.
Qed.
(** The attributes behind an occurrence are the same without the last entry. *)
Lemma attr_text_front before s1 e name p : exact before s1 name p ->
  attr_text (drop (p + length name) (s1 ++ 44 :: e)) = attr_text (drop (p + length name) s1).
Proof.
  intros (pre & post & -> & <- & _). rewrite <- length_app.
  replace ((pre ++ name ++ post) ++ 44 :: e) with ((pre ++ name) ++ post ++ 44 :: e)
    by by rewrite <- !app_assoc.
  replace (pre ++ name ++ post) with ((pre ++ name) ++ post) by by rewrite <- !app_assoc.
  rewrite !drop_app_length. apply attr_text_app.
Qed.

Lemma last_exact before s name : name_ok name -> str_ok s -> chr s <> 32 -> forall r,
  is_last (exact before s name) r ->
  (fun p => attr_text (drop (p + length name) s)) <$> r = attrs_of s name.
Proof.
  intros Hn Hok Hhd. revert Hok Hhd. induction s as [s IH] using (induction_ltof1 _ length).
  unfold ltof in IH. intros Hok Hhd r Hr. unfold attrs_of, ENV_ATTR_LIST_DELIM in *.
  destruct (last_entry s) as (P & e & L & -> & Hc & -> & HPL). apply Forall_app in Hok as [HokP Hoke].
  assert (HP : P = [] \/ exists s1, P = s1 ++ [44])
    by (destruct HPL as [[? _]|(s1 & ? & _)]; [by left|right; by exists s1]).
  assert (Hhe : P = [] -> chr e <> 32) by by intros ->.
  assert (Hex : forall p, (length P <= p)%nat -> exact before (P ++ e) name p <-> _)
    by exact (fun p Hp => exact_entry before P e name p Hn Hc Hoke HP Hhe Hp).
  destruct (decide (entry_name e = name)) as [Hname|Hname].
  - rewrite filter_app, filter_cons_True, filter_nil, last_snoc by done.
    apply entry_name_has in Hname as (pre & post & Hh); [|done].
    assert (Hp : exact before (P ++ e) name (length P + length pre)) by (apply Hex; [lia|eauto]).
    destruct r as [p|]; [|by destruct (Hr _ Hp)]. destruct Hr as [Hp1 Hp2].
    specialize (Hp2 _ Hp). apply Hex in Hp1 as (pre' & post' & Hh' & ->); [|lia].
    destruct (has_name_unique _ _ _ _ _ _ Hn Hh Hh') as [<- <-]. cbn. f_equal.
    rewrite <- (has_name_attrs e name pre post) by done. destruct Hh as (-> & _). f_equal.
    replace (P ++ pre ++ name ++ post) with ((P ++ pre ++ name) ++ post) by by rewrite <- !app_assoc.
    replace (length P + length pre + length name)%nat with (length (P ++ pre ++ name))
      by (rewrite !length_app; lia). apply drop_app_length.
  - rewrite filter_app, (filter_cons_False _ e), filter_nil, app_nil_r by done.
    assert (Hno : forall p, exact before (P ++ e) name p -> (p < length P)%nat).
    { intros p Hp. destruct (decide (length P <= p)%nat) as [Hle|]; [exfalso|lia].
      apply (Hex p Hle) in Hp as (pre & post & Hh & _). apply Hname, entry_name_has; eauto. }
    destruct HPL as [[-> ->]|(s1 & -> & ->)].
    + destruct r as [p|]; [|done]. destruct Hr as [Hr _]. apply Hno in Hr. cbn in Hr. lia.
    + rewrite <- app_assoc in Hr, Hno |- *. cbn [app] in Hr, Hno |- *. rewrite length_app in Hno.
      apply Forall_app in HokP as [Hok1 _].
      assert (Hr1 : is_last (exact before s1 name) r).
      { apply (is_last_front _ _ e); [done| |done]. intros p Hp. apply Hno in Hp. cbn in Hp. lia. }
      rewrite <- (IH s1) with (r := r); [|rewrite !length_app; cbn; lia|done|intros H; apply Hhd; by destruct s1|done].
      destruct r as [p|]; [|done]. cbn. f_equal. by apply (attr_text_front before), Hr1.
Qed.

(** ** The search *)
Lemma skip_back_some l before : (exists c r, before = c :: r /\ c <> 32) ->
  exists c, skip_back (l ++ before) = Some c.
Proof.
  intros (c & r & -> & Hc). induction l as [|d l IH]; cbn.
  - case_if; [lia|eauto].
  - case_if; eauto.
Qed.
Lemma exact_occ before s name p : exact before s name p -> occ s name p.
Proof. intros (pre & post & Hs & Hp & _). apply occ_split. eauto. Qed.

(** An exact match ends before the occurrence that follows it. *)
Lemma exact_disjoint before s name p q : name_ok name -> exact before s name q -> occ s name p ->
  (q < p)%nat -> (q + length name <= p)%nat.
Proof.
  intros Hn (pre & post & Hs & <- & _ & Haft) (a & b & Hs' & <-)%occ_split Hlt.
  destruct (decide (length pre + length name <= length a)%nat) as [?|Hov]; [done|exfalso].
  pose proof Hn as (Hne & Hok & H44 & H58 & H32).
  (* the character behind the exact match is one of the name *)
  set (i := (length pre + length name - length a)%nat).
  destruct (lookup_lt_is_Some_2 name i) as [c Hc]; [unfold i; lia|].
  assert (Hi : s !! (length pre + length name)%nat = Some c).
  { rewrite Hs', lookup_app_r by lia. rewrite lookup_app_l; [done|]. lia. }
  rewrite Hs, app_assoc, lookup_app_r, length_app, Nat.sub_diag in Hi by (rewrite length_app; lia).
  destruct post as [|d post]; [done|]. assert (d = c) by (cbn in Hi; congruence). subst d. apply list_elem_of_lookup_2 in Hc.
  unfold after_ok in Haft. cbn in Haft. unfold str_ok in Hok. rewrite Forall_forall in Hok.
  specialize (Hok c Hc). unfold char_ok in Hok. assert (c <> 32) by congruence. destruct (Z.eqb_spec c 32) as [H0|_]; [done|].
  cbn in Haft. destruct Haft as [Hx|[Hx|Hx]]; [congruence|congruence|lia].
Qed.

Lemma lookup_loop_ok before s name : name_ok name -> (exists c r, before = c :: r /\ c <> 32) ->
  forall (n : nat) bound e,
  match e with Some p => (p < n)%nat | None => True end ->
  is_last (fun q => occ s name q /\ within bound (q + length name)) e ->
  (forall q, exact before s name q -> within bound (q + length name)) ->
  exists r, lookup_loop n before s name e = Some r /\ is_last (exact before s name) r.
Proof.
  intros Hn Hbef. induction n as [|n IH]; intros bound e He Hlast Hb.
  all: destruct e as [e|]; [try lia|eexists; split; [reflexivity|];
    intros q Hq; apply (Hlast q); split; [by eapply exact_occ|by apply Hb]].
  cbn [lookup_loop]. destruct Hlast as [[Hocc Hw] Hmax].
  pose proof (proj1 (occ_split _ _ _) Hocc) as (a & b & Hs & Hlen).
  assert (Hprev : reverse (take e s) = reverse a) by (by rewrite Hs, <- Hlen, take_app_length).
  assert (Hnext : drop (e + length name) s = b).
  { rewrite Hs, app_assoc, <- Hlen, <- length_app. apply drop_app_length. }
  rewrite Hprev, Hnext. destruct (skip_back_some (reverse a) before Hbef) as [c Hc]. rewrite Hc. cbn.
  assert (Hiff : (Nat.eqb e 0 || (c =? 44)) && ((chr (skip_blanks b) =? 58) || (chr (skip_blanks b) =? 44)
     || (chr (skip_blanks b) =? 0)) = true <-> before_ok before a /\ after_ok b).
  { unfold before_ok, after_ok. rewrite Hc. rewrite andb_true_iff, !orb_true_iff, !Z.eqb_eq, Nat.eqb_eq.
    rewrite <- Hlen. destruct a; cbn; split; intros [H1 H2]; split; try tauto; try (destruct H1; [done|]; right; congruence).
    all: destruct H1; [lia|right; congruence]. }
  destruct (_ && _) eqn:E.
  - eexists. split; [done|]. apply proj1 in Hiff. destruct (Hiff eq_refl) as [H1 H2].
    split; [exists a, b; done|]. intros q Hq. apply Hmax. split; [by eapply exact_occ|by apply Hb].
  - destruct (reverse_strstr_ok s name (Some e)) as (r & -> & Hr); [by destruct Hn|]. cbn.
    apply (IH (Some e)); [|done|].
    + destruct r as [p|]; [|done]. destruct Hr as [[_ H] _]. cbn in H.
      destruct Hn as [Hne _]. destruct name; [done|cbn in H; lia].
    + intros q Hq. cbn. apply (exact_disjoint before s name e q); [done|done|done|].
      assert (q <= e)%nat by (apply Hmax; split; [by eapply exact_occ|by apply Hb]).
      destruct (decide (q = e)) as [->|]; [|lia]. exfalso.
      destruct Hq as (a' & b' & Hs' & Hlen' & H1 & H2).
      assert (a' = a /\ b' = b) as [-> ->].
      { rewrite Hs in Hs'. apply app_inj_1 in Hs' as [Ha Hs']; [|lia].
        apply app_inv_head in Hs'. done. }
      apply proj2 in Hiff. specialize (Hiff (conj H1 H2)). congruence.
Qed.

(** ** The walk *)
Definition entry_binding (e : list Z) : list Z * option (list Z) :=
  (strim (until ENV_ATTR_SEP e),
   k ← strchr e ENV_ATTR_SEP; Some (strim (drop (S k) e))).
Definition entry_bindings (s : list Z) : list (list Z * option (list Z)) :=
  filter (fun b => fst b <> []) (entry_binding <$> split ENV_ATTR_LIST_DELIM s).

(** The callbacks in order until one does not return 0. *)
Fixpoint run_bindings {S_} (f : list Z -> option (list Z) -> S_ -> option (Z * S_))
    (l : list (list Z * option (list Z))) (st : S_) : option (Z * S_) :=
  match l with
  | [] => Some (0, st)
  | (n, v) :: l =>
      '(r, st) ← f n v st;
      if negb (r =? 0) then Some (r, st) else run_bindings f l st
  end.

Lemma walk_loop_ok {S_} f : forall n s (st : S_), (length s < n)%nat ->
  walk_loop (fun _ => true) f n s st = run_bindings f (entry_bindings s) st.
Proof.
  induction n as [|n IH]; intros s st Hn; [lia|]. cbn. rewrite andb_false_r.
  change (match strchr s ENV_ATTR_LIST_DELIM with Some k => take k s | None => s end)
    with (until ENV_ATTR_LIST_DELIM s).
  assert (Hone : forall x v, (if negb (zlen x =? 0) then f x v st else Some (0, st)) =
     run_bindings f (filter (fun b => fst b <> []) [(x, v)]) st).
  { intros x v. destruct (decide (x = [])) as [->|Hx]; [done|].
    rewrite filter_cons_True by done. replace (zlen x =? 0) with false by (destruct x; [done|cbn; lia]).
    cbn. destruct (f x v st) as [[r st']|]; cbn; [|done]. destruct (Z.eqb_spec r 0) as [->|]; done. }
  assert (Hstep : forall e, (if zlen e =? 0 then Some (0, st) else walk_entry f e st) =
     run_bindings f (filter (fun b => fst b <> []) [entry_binding e]) st).
  { intros e. destruct (decide (e = [])) as [->|He]; [done|].
    replace (zlen e =? 0) with false by (destruct e; [done|cbn; lia]).
    unfold walk_entry, entry_binding, until.
    destruct (strchr e ENV_ATTR_SEP) as [k|]; apply Hone. }
  rewrite Hstep. clear Hstep Hone. unfold entry_bindings, ENV_ATTR_LIST_DELIM.
  destruct (strchr_cases s 44 ltac:(done)) as [[Hs E]|(u & r & -> & Hu & E)]; rewrite E.
  - unfold until. rewrite E. rewrite split_none by done. cbn [fmap list_fmap].
    destruct (run_bindings _ _ _) as [[r st']|]; cbn; [|done].
    case_if; [done|]. by replace r with 0 by lia.
  - unfold until. rewrite E, take_app_length, split_app, fmap_app, filter_app.
    rewrite split_none by done. cbn [fmap list_fmap].
    replace (drop (S (length u)) (u ++ 44 :: r)) with r
      by (clear; induction u; done).
    assert (Hlen : (length r < n)%nat) by (rewrite length_app in Hn; cbn in Hn; lia).
    generalize (filter (fun b => fst b <> []) [entry_binding u]). intros l. revert st.
    induction l as [|[m v] l IHl]; intros st; cbn; [by apply IH|].
    destruct (f m v st) as [[x st']|]; cbn; [|done]. case_if; [cbn; by rewrite E0|]. apply IHl.
Qed.

(** ** Walk and lookup agree *)
(** The grammar of the source: the only white space is the blank, none inside attributes. *)
Definition plain (s : list Z) : Prop := forall c, c ∈ s -> isspace c = true -> c = 32.
Definition tidy (s : list Z) : Prop :=
  plain s /\ Forall (fun e => 32 ∉ default [] (snd (entry_binding e))) (split ENV_ATTR_LIST_DELIM s).
(** What a walk says last about a name. *)
Definition last_binding (name : list Z) (l : list (list Z * option (list Z))) : option (list Z) :=
  (fun b => default [] (snd b)) <$> last (filter (fun b => fst b = name) l).

Lemma plain_app s1 s2 : plain (s1 ++ s2) <-> plain s1 /\ plain s2.
Proof. unfold plain. setoid_rewrite elem_of_app. naive_solver. Qed.
Lemma plain_reverse s : plain s -> plain (reverse s).
Proof. intros H c Hc Hsp. rewrite elem_of_reverse in Hc. by apply H. Qed.
Lemma skip_spaces_blanks s : plain s -> skip_spaces s = skip_blanks s.
Proof.
  induction s as [|c s IH]; intros Hs; cbn; [done|].
  assert (plain s) as Hp by (intros d Hd; apply Hs; by apply elem_of_cons; right).
  destruct (Z.eqb_spec c 32) as [->|].
  - by apply IH.
  - destruct (isspace c) eqn:E; [|done]. destruct n. apply Hs; [apply elem_of_cons; by left|done].
Qed.
Lemma strim_end_blanks s : plain s -> strim_end s = skip_blanks s.
Proof. apply skip_spaces_blanks. Qed.
Lemma plain_skip s : plain s -> plain (skip_blanks s).
Proof. intros H. destruct (skip_blanks_split s) as (b & Hs & _). rewrite Hs in H. apply plain_app in H as [_ H]. done. Qed.
Lemma strim_plain s : plain s -> strim s = trim_blanks s.
Proof.
  intros H. unfold strim, trim_blanks. rewrite skip_spaces_blanks by done.
  rewrite strim_end_blanks by by apply plain_reverse, plain_skip.
  destruct (skip_blanks s); done.
Qed.
Lemma trim_until s : 32 ∉ trim_blanks s -> trim_blanks s = until 32 (skip_blanks s).
Proof.
  unfold trim_blanks. intros H.
  destruct (skip_blanks_split (reverse (skip_blanks s))) as (b & Hv & Hb).
  apply (f_equal reverse) in Hv. rewrite reverse_involutive, reverse_app in Hv.
  remember (reverse (skip_blanks (reverse (skip_blanks s)))) as w. rewrite Hv.
  apply blanks_reverse in Hb. destruct (reverse b) as [|c r].
  - rewrite app_nil_r. by rewrite until_none.
  - apply Forall_cons in Hb as [-> _]. by rewrite until_app.
Qed.

Lemma binding_ok e : plain e -> 32 ∉ default [] (snd (entry_binding e)) ->
  fst (entry_binding e) = entry_name e /\ default [] (snd (entry_binding e)) = entry_attrs e.
Proof.
  unfold entry_binding, entry_name, entry_attrs, until, ENV_ATTR_SEP. intros Hp Ht.
  destruct (strchr_cases e 58 ltac:(done)) as [[_ E]|(u & r & -> & _ & E)]; rewrite E in *; cbn in *.
  - by rewrite strim_plain.
  - rewrite take_app_length. apply plain_app in Hp as [Hu Hr].
    replace (drop (S (length u)) (u ++ 58 :: r)) with r in * by (clear; induction u; done).
    assert (plain r) by (intros c Hc; apply Hr; by apply elem_of_cons; right).
    rewrite strim_plain in * by done. rewrite strim_plain by done. split; [done|by apply trim_until].
Qed.

Lemma plain_nil : plain [].
Proof. by intros c ?%elem_of_nil. Qed.
Lemma plain_split s : plain s -> Forall plain (split ENV_ATTR_LIST_DELIM s).
Proof.
  induction s as [|c s IH]; intros Hp; cbn; [apply Forall_singleton, plain_nil|].
  change (c :: s) with ([c] ++ s) in Hp. apply plain_app in Hp as [Hc Hs]. specialize (IH Hs).
  case_if; [constructor; [apply plain_nil|done]|].
  destruct (split _ s) as [|e l]; [by apply Forall_singleton|].
  apply Forall_cons in IH as [He Hl]. constructor; [|done]. apply (proj2 (plain_app [c] e)). done.
Qed.

Lemma bindings_attrs s name : tidy s -> name <> [] ->
  last_binding name (entry_bindings s) = attrs_of s name.
Proof.
  intros [Hp Ht] Hn. apply plain_split in Hp. unfold last_binding, entry_bindings, attrs_of.
  induction (split ENV_ATTR_LIST_DELIM s) as [|e l IH] using rev_ind; [done|].
  apply Forall_app in Hp as [Hpl [Hpe _]%Forall_cons], Ht as [Htl [Hte _]%Forall_cons].
  destruct (binding_ok e Hpe Hte) as [H1 H2].
  rewrite fmap_app, !filter_app. cbn [fmap list_fmap].
  destruct (decide (entry_name e = name)) as [He|He].
  - rewrite (filter_cons_True _ e), filter_nil, last_snoc by done.
    rewrite (filter_cons_True _ (entry_binding e)), filter_nil by (rewrite H1, He; done).
    rewrite filter_cons_True, filter_nil, last_snoc by (by rewrite H1, He). exact (f_equal Some H2).
  - rewrite (filter_cons_False _ e), filter_nil, app_nil_r, <- IH by done. f_equal. f_equal.
    destruct (decide (fst (entry_binding e) = [])) as [Hz|Hz].
    + rewrite (filter_cons_False _ (entry_binding e)) by tauto. by rewrite filter_nil, app_nil_r.
    + rewrite (filter_cons_True _ (entry_binding e)), filter_nil by done.
      rewrite filter_cons_False, filter_nil, app_nil_r; [done|]. by rewrite H1.
Qed.

(** ** Properties *)
Lemma lookup_ok before s name buf : name_ok name -> str_ok s -> chr s <> 32 ->
  (exists c r, before = c :: r /\ c <> 32) ->
  env_attr_lookup before (Some s) name (Some buf) =
  match attrs_of s name with
  | Some text => b ← put_string buf text; Some (0, Some b)
  | None => Some (2, Some buf)
  end.
Proof.
  intros Hn Hs Hhd Hb. unfold env_attr_lookup. destruct (reverse_strstr_ok s name None) as (r & -> & Hr); [by destruct Hn|].
  cbn [mbind option_bind]. destruct (lookup_loop_ok before s name Hn Hb (S (length s)) None r) as (r' & -> & Hr').
  - destruct r as [p|]; [|done]. destruct Hr as [[[_ ?] _] _]. lia.
  - done.
  - done.
  - cbn. rewrite <- (last_exact before s name Hn Hs Hhd r' Hr'). by destruct r'.
Qed.

(** C33: [env_attr_lookup] finds the last entry of the list that has the name, whatever the
    spacing: it returns 0 with the text of its attributes and a terminator in front of the
    rest of the buffer, and faults when the text with its terminator is longer than the buffer
    ("no protection").  When no entry has the name the result is not 0 and the buffer is
    untouched.  The byte that it reads below the list does not influence this when the list does
    not start with a blank and that byte is not one. *)
Theorem env_attr_lookup_correct before s name buf
    (Hname : name_ok name) (Hs : str_ok s) (Hfirst : chr s <> 32)
    (Hbefore : exists c r, before = c :: r /\ c <> 32) :
  match attrs_of s name with
  | Some text =>
      env_attr_lookup before (Some s) name (Some buf) =
      if (length text <? length buf)%nat
      then Some (0, Some (text ++ [0] ++ drop (S (length text)) buf)) else None
  | None => exists r, env_attr_lookup before (Some s) name (Some buf) = Some (r, Some buf) /\ r <> 0
  end.
Proof.
  rewrite lookup_ok by done. destruct (attrs_of s name); [unfold put_string; by case_if|]. by exists 2.
Qed.

(** [env_attr_walk] calls the callback once for each entry with a name, in the order of
    the list, with the trimmed name and the trimmed attributes ([NULL] without a colon), stops
    at the first call that does not return 0 and returns its value; on a list that follows
    the grammar of the source the last call for a name carries what [env_attr_lookup] finds. *)
Theorem env_attr_walk_correct {S_} (f : list Z -> option (list Z) -> S_ -> option (Z * S_)) s st :
  env_attr_walk (fun _ => true) f (Some s) st = run_bindings f (entry_bindings s) st
  /\ (tidy s -> forall name, name <> [] -> last_binding name (entry_bindings s) = attrs_of s name).
Proof.
  split; [apply walk_loop_ok; lia|]. intros Ht name Hn. by apply bindings_attrs.
Qed.

(** ** Witnesses *)
Lemma env_attr_lookup_correct_witness :
  env_attr_lookup [0] (Some (codes "a:x,serial# : dc")) (codes "serial#") (Some [1; 1; 1; 1])
  = Some (0, Some [100; 99; 0; 1]).
Proof.
  apply (env_attr_lookup_correct [0] (codes "a:x,serial# : dc") (codes "serial#") [1; 1; 1; 1]).
  - unfold name_ok, str_ok, char_ok. split_and!; by_computation.
  - unfold str_ok, char_ok. by_computation.
  - done.
  - by exists 0, [].
Defined.

Lemma env_attr_walk_correct_witness :
  last_binding (codes "a") (entry_bindings (codes "a:x,b, a : y ")) = Some (codes "y").
Proof.
  rewrite (proj2 (env_attr_walk_correct (fun _ _ (st : unit) => Some (0, st))
    (codes "a:x,b, a : y ") tt)); [reflexivity| |done].
  split; [|by_computation].
  assert (Forall (fun c => isspace c = true -> c = 32) (codes "a:x,b, a : y ")) as H
    by (by_computation).
  rewrite Forall_forall in H. exact H.
Defined.

(** A name that is not in the list gives 2 and a list that is not there gives 1; the header has them the
    other way round. *)
Lemma lookup_codes_swapped :
  env_attr_lookup [0] (Some (codes "a:x")) (codes "b") (Some [1; 1]) = Some (2, Some [1; 1])
  /\ env_attr_lookup [0] None (codes "b") (Some [1; 1]) = Some (1, Some [1; 1]).
Proof. vm_compute. done. Qed.
(** What is read below the list decides when the list starts with a blank: the first entry
    is found only with a comma in front of the list. *)
Lemma lookup_reads_below :
  env_attr_lookup [44] (Some (codes " a:x")) (codes "a") (Some [1; 1]) = Some (0, Some [120; 0])
  /\ env_attr_lookup [0] (Some (codes " a:x")) (codes "a") (Some [1; 1]) = Some (2, Some [1; 1])
  /\ env_attr_lookup [] (Some (codes "a:x")) (codes "a") (Some [1; 1]) = None.
Proof. vm_compute. done. Qed.
