(* ===== verification/EnvFlags.v ===== *)
(** * Variable flags: [common/env_flags.c] and [include/env_flags.h]

    The type and the access rights of a variable, their parsing from an attribute list, the
    check of a value against a type and the check that [env_htab] makes before it changes a
    variable ([change_ok]).  The constants are those of the boards: [CONFIG_CMD_NET] and
    [CONFIG_ENV_OVERWRITE] are defined.  What the functions print is not modelled. *)
From S2P Require Import Prelude Ctype Mem CStr Hashtable EnvAttr.

(** ** Constants *)
Definition env_flags_vartype_string : Z := 0.
Definition env_flags_vartype_decimal : Z := 1.
Definition env_flags_vartype_hex : Z := 2.
Definition env_flags_vartype_bool : Z := 3.
Definition env_flags_vartype_ipaddr : Z := 4.
Definition env_flags_vartype_macaddr : Z := 5.
Definition env_flags_vartype_end : Z := 6.
Definition env_flags_varaccess_any : Z := 0.
Definition env_flags_varaccess_readonly : Z := 1.
Definition env_flags_varaccess_writeonce : Z := 2.
Definition env_flags_varaccess_changedefault : Z := 3.

Definition ENV_FLAGS_VAR : list Z := codes ".flags".
Definition ENV_FLAGS_ATTR_MAX_LEN : Z := 2.
Definition ENV_FLAGS_VARTYPE_LOC : Z := 0.
Definition ENV_FLAGS_VARACCESS_LOC : Z := 1.
Definition ENV_FLAGS_LIST_STATIC : list Z := codes "ethaddr:ma,".
Definition ENV_FLAGS_VARTYPE_BIN_MASK : Z := 0x00000007.
Definition ENV_FLAGS_VARACCESS_PREVENT_DELETE : Z := 0x00000008.
Definition ENV_FLAGS_VARACCESS_PREVENT_CREATE : Z := 0x00000010.
Definition ENV_FLAGS_VARACCESS_PREVENT_OVERWR : Z := 0x00000020.
Definition ENV_FLAGS_VARACCESS_PREVENT_NONDEF_OVERWR : Z := 0x00000040.
Definition ENV_FLAGS_VARACCESS_BIN_MASK : Z := 0x00000078.
Definition H_FORCE : Z := 1 ≪ 1.

Definition env_flags_vartype_rep : list Z := codes "sdxbim".
Definition env_flags_varaccess_rep : list Z := codes "aroc".
Definition env_flags_varaccess_mask : list Z :=
  [0;
   ENV_FLAGS_VARACCESS_PREVENT_DELETE .| ENV_FLAGS_VARACCESS_PREVENT_CREATE
     .| ENV_FLAGS_VARACCESS_PREVENT_OVERWR;
   ENV_FLAGS_VARACCESS_PREVENT_DELETE .| ENV_FLAGS_VARACCESS_PREVENT_OVERWR;
   ENV_FLAGS_VARACCESS_PREVENT_DELETE .| ENV_FLAGS_VARACCESS_PREVENT_NONDEF_OVERWR].
(** [sizeof(env_flags_varaccess_mask)]: four integers of four bytes. *)
Definition sizeof_varaccess_mask : Z := 4 * zlen env_flags_varaccess_mask.

(** ** Parsing of the attributes *)
(** The character [flags[loc]] selects the position in [rep]. *)
Definition env_flags_parse_vartype (flags : list Z) : Z :=
  if zlen flags <=? ENV_FLAGS_VARTYPE_LOC then env_flags_vartype_string
  else
    match strchr env_flags_vartype_rep (nth (Z.to_nat ENV_FLAGS_VARTYPE_LOC) flags 0) with
    | Some type => Z.of_nat type
    | None => env_flags_vartype_string
    end.
Definition env_flags_parse_varaccess (flags : list Z) : Z :=
  if zlen flags <=? ENV_FLAGS_VARACCESS_LOC then env_flags_varaccess_any
  else
    match strchr env_flags_varaccess_rep (nth (Z.to_nat ENV_FLAGS_VARACCESS_LOC) flags 0) with
    | Some access => Z.of_nat access
    | None => env_flags_varaccess_any
    end.
(** [None] is a read behind the array. *)
Fixpoint binflags_loop (n : nat) (i binflags : Z) : option Z :=
  match n with
  | O => Some env_flags_varaccess_any
  | S n =>
      mask ← env_flags_varaccess_mask !! Z.to_nat i;
      if mask =? binflags .& ENV_FLAGS_VARACCESS_BIN_MASK then Some i
      else binflags_loop n (i + 1) binflags
  end.
Definition env_flags_parse_varaccess_from_binflags (binflags : Z) : option Z :=
  binflags_loop (Z.to_nat sizeof_varaccess_mask) 0 binflags.
Definition env_parse_flags_to_bin (flags : list Z) : option Z :=
  let binflags := env_flags_parse_vartype flags .& ENV_FLAGS_VARTYPE_BIN_MASK in
  mask ← env_flags_varaccess_mask !! Z.to_nat (env_flags_parse_varaccess flags);
  Some (binflags .| mask).

(** ** Checking a value *)
Definition is_hex_prefix (value : list Z) : bool :=
  match value with
  | c0 :: c1 :: _ => (c0 =? 48) && ((c1 =? 120) || (c1 =? 88))
  | _ => false
  end.
(** The loop ends at the terminator, which is no digit; -1 does not count down to 0. *)
Fixpoint skip_digits (hex : bool) (i : Z) (value : list Z) : list Z :=
  match value with
  | [] => []
  | c :: r =>
      if i =? 0 then value
      else if hex && negb (isxdigit c) then value
      else if negb hex && negb (isdigit c) then value
      else skip_digits hex (i - 1) r
  end.
(** The text at [*end]. *)
Definition skip_num (hex : bool) (value : list Z) (max_digits : Z) : list Z :=
  skip_digits hex max_digits (if hex && is_hex_prefix value then drop 2 value else value).

(** Two pointers into the same text are equal when the same text follows. *)
Definition same_place (p q : list Z) : bool := Nat.eqb (length p) (length q).

Fixpoint ipaddr_loop (n : nat) (i : Z) (cur : list Z) : Z :=
  match n with
  | O => 0
  | S n =>
      let end_ := skip_num false cur 3 in
      if same_place cur end_ then -1
      else if negb (i =? 3) && negb (chr end_ =? 46) then -1
      else if (i =? 3) && negb (chr end_ =? 0) then -1
      else ipaddr_loop n (i + 1) (tail end_)
  end.
Fixpoint macaddr_loop (n : nat) (i : Z) (cur : list Z) : Z :=
  match n with
  | O => 0
  | S n =>
      let end_ := skip_num true cur 2 in
      if same_place cur end_ then -1
      else if same_place (drop 2 cur) end_ && is_hex_prefix cur then -1
      else if negb (i =? 5) && negb (chr end_ =? 58) then -1
      else if (i =? 5) && negb (chr end_ =? 0) then -1
      else macaddr_loop n (i + 1) (tail end_)
  end.

Definition bool_chars : list Z := codes "1ytYT0nfNF".
Definition _env_flags_validate_type (value : list Z) (type : Z) : Z :=
  if type =? env_flags_vartype_string then 0
  else if type =? env_flags_vartype_decimal then
    if negb (chr (skip_num false value (-1)) =? 0) then -1 else 0
  else if type =? env_flags_vartype_hex then
    let end_ := skip_num true value (-1) in
    if negb (chr end_ =? 0) then -1
    else if same_place (drop 2 value) end_ && is_hex_prefix value then -1 else 0
  else if type =? env_flags_vartype_bool then
    if negb (bool_decide (chr value ∈ bool_chars)) then -1
    else if negb (chr (tail value) =? 0) then -1 else 0
  else if type =? env_flags_vartype_ipaddr then ipaddr_loop 4 0 value
  else if type =? env_flags_vartype_macaddr then macaddr_loop 6 0 value
  else if type =? env_flags_vartype_end then -1
  else 0.

(** ** Looking flags up *)
(** [before] and [before_static] are the bytes below the two lists (see [EnvAttr]); the
    buffer starts with three bytes. *)
Section lookup.
Context (before before_static : list Z).

Definition env_flags_lookup (flags_list : option (list Z)) (name : list Z)
    (flags : option (list Z)) : option (Z * option (list Z)) :=
  match flags with
  | None => Some (-1, None)
  | Some _ =>
      '(ret, flags) ←
        match flags_list with
        | Some _ => env_attr_lookup before flags_list name flags
        | None => Some (1, flags)
        end;
      if negb (ret =? 0)
      then env_attr_lookup before_static (Some ENV_FLAGS_LIST_STATIC) name flags
      else Some (ret, flags)
  end.

(** The string in a buffer: up to its first NUL. *)
Fixpoint buf_string (buf : list Z) : list Z :=
  match buf with c :: r => if c =? 0 then [] else c :: buf_string r | [] => [] end.

Definition set_flags_of (e : ENTRY) (f : Z) : ENTRY := mkENTRY (key e) (data e) (callback e) f.
(** [flags_list] is what [getenv(ENV_FLAGS_VAR)] returned. *)
Definition env_flags_init (flags_list : option (list Z)) (var_entry : ENTRY) : option ENTRY :=
  var_name ← key var_entry;
  '(ret, flags) ← env_flags_lookup flags_list var_name
                    (Some (replicate (Z.to_nat (ENV_FLAGS_ATTR_MAX_LEN + 1)) 0));
  let flags := buf_string (default [] flags) in
  if (ret =? 0) && negb (zlen flags =? 0)
  then b ← env_parse_flags_to_bin flags; Some (set_flags_of var_entry b)
  else Some var_entry.

(** The functions for the tools: [flags_list] is the value of the [.flags] variable. *)
Definition env_flags_get_type (flags_list : option (list Z)) (name : list Z) : option Z :=
  '(ret, flags) ← env_flags_lookup flags_list name
                    (Some (replicate (Z.to_nat (ENV_FLAGS_ATTR_MAX_LEN + 1)) 0));
  let flags := buf_string (default [] flags) in
  if negb (ret =? 0) then Some env_flags_vartype_string
  else if zlen flags <=? ENV_FLAGS_VARTYPE_LOC then Some env_flags_vartype_string
  else Some (env_flags_parse_vartype flags).
Definition env_flags_get_varaccess (flags_list : option (list Z)) (name : list Z) : option Z :=
  '(ret, flags) ← env_flags_lookup flags_list name
                    (Some (replicate (Z.to_nat (ENV_FLAGS_ATTR_MAX_LEN + 1)) 0));
  let flags := buf_string (default [] flags) in
  if negb (ret =? 0) then Some env_flags_varaccess_any
  else if zlen flags <=? ENV_FLAGS_VARACCESS_LOC then Some env_flags_varaccess_any
  else Some (env_flags_parse_varaccess flags).
Definition env_flags_validate_type (flags_list : option (list Z)) (name : list Z)
    (value : option (list Z)) : option Z :=
  match value with
  | None => Some 0
  | Some value =>
      type ← env_flags_get_type flags_list name;
      if _env_flags_validate_type value type <? 0 then Some (-1) else Some 0
  end.
Definition env_flags_validate_varaccess (flags_list : option (list Z)) (name : list Z)
    (check_mask : Z) : option bool :=
  access ← env_flags_get_varaccess flags_list name;
  access_mask ← env_flags_varaccess_mask !! Z.to_nat access;
  Some (negb (check_mask .& access_mask =? 0)).
Definition env_flags_validate_env_set_params (flags_list : option (list Z))
    (argv : list (option (list Z))) : option Z :=
  match argv with
  | _ :: name :: Some value :: rest =>
      name ← name;
      type ← env_flags_get_type flags_list name;
      if negb (type =? env_flags_vartype_string) && (0 <? zlen rest) then Some (-1)
      else env_flags_validate_type flags_list name (Some value)
  | _ => Some 0
  end.
End lookup.

(** ** The check before a change *)
(** [getenv_default] reads the default environment. *)
Definition env_flags_validate (getenv_default : list Z -> option (list Z)) (item : ENTRY)
    (newval : option (list Z)) (op : env_op) (flag : Z) : option Z :=
  let oldval := match op with env_op_create => None | _ => data item end in
  name ← key item;
  let newval := default [] newval in
  let type := ENV_FLAGS_VARTYPE_BIN_MASK .& flags item in
  let bad_type :=
    match op with env_op_delete => false | _ => _env_flags_validate_type newval type <? 0 end in
  if bad_type then Some (-1)
  else if negb (flag .& H_FORCE =? 0) then Some 0
  else
    match op with
    | env_op_delete =>
        Some (if negb (flags item .& ENV_FLAGS_VARACCESS_PREVENT_DELETE =? 0) then 1 else 0)
    | env_op_overwrite =>
        if negb (flags item .& ENV_FLAGS_VARACCESS_PREVENT_OVERWR =? 0) then Some 1
        else if negb (flags item .& ENV_FLAGS_VARACCESS_PREVENT_NONDEF_OVERWR =? 0) then
          let defval := default [] (getenv_default name) in
          old ← oldval;
          Some (if negb (strcmp old defval =? 0) then 1 else 0)
        else Some 0
    | env_op_create =>
        Some (if negb (flags item .& ENV_FLAGS_VARACCESS_PREVENT_CREATE =? 0) then 1 else 0)
    end.

(** ** Types of values *)
Definition digit (hex : bool) (c : Z) : bool := if hex then isxdigit c else isdigit c.
(** A number of at most [max] digits (any number for a negative [max]) with the optional
    prefix of a hexadecimal one. *)
Definition group (hex : bool) (max : Z) (g : list Z) : Prop :=
  exists p d, g = p ++ d /\ (p = [] \/ hex = true /\ (p = codes "0x" \/ p = codes "0X"))
    /\ d <> [] /\ Forall (fun c => digit hex c = true) d /\ (max < 0 \/ zlen d <= max).
Fixpoint join (sep : Z) (l : list (list Z)) : list Z :=
  match l with
  | [] => []
  | [g] => g
  | g :: l => g ++ sep :: join sep l
  end.
Definition type_ok (type : Z) (value : list Z) : Prop :=
  if type =? env_flags_vartype_decimal then Forall (fun c => isdigit c = true) value
  else if type =? env_flags_vartype_hex then value = [] \/ group true (-1) value
  else if type =? env_flags_vartype_bool then exists c, value = [c] /\ c ∈ bool_chars
  else if type =? env_flags_vartype_ipaddr then
    exists l, length l = 4%nat /\ Forall (group false 3) l /\ value = join 46 l
  else if type =? env_flags_vartype_macaddr then
    exists l, length l = 6%nat /\ Forall (group true 2) l /\ value = join 58 l
  else type <> env_flags_vartype_end.

(** The text behind a number: the end, or a character that continues no number. *)
Definition stops (hex : bool) (r : list Z) : Prop :=
  digit hex (chr r) = false /\ chr r <> 120 /\ chr r <> 88.

Lemma skip_digits_step hex i c r : skip_digits hex i (c :: r) =
  if (i =? 0) || negb (digit hex c) then c :: r else skip_digits hex (i - 1) r.
Proof. cbn. unfold digit. destruct hex, (i =? 0); cbn; try done; by destruct (_ c). Qed.

Lemma skip_digits_app hex : forall d i r, Forall (fun c => digit hex c = true) d ->
  (i < 0 \/ zlen d <= i) -> digit hex (chr r) = false -> skip_digits hex i (d ++ r) = r.
Proof.
  induction d as [|c d IH]; intros i r Hd Hi Hr.
  - destruct r as [|c r]; [done|]. cbn [app]. rewrite skip_digits_step. cbn in Hr. rewrite Hr.
    by rewrite orb_true_r.
  - apply Forall_cons in Hd as [Hc Hd]. cbn [app]. rewrite skip_digits_step, Hc. cbn in Hi.
    replace (i =? 0) with false by lia. cbn. apply IH; [done|lia|done].
Qed.
Lemma skip_digits_split hex : forall v i, exists d, v = d ++ skip_digits hex i v
  /\ Forall (fun c => digit hex c = true) d /\ (i < 0 \/ zlen d <= i).
Proof.
  induction v as [|c v IH]; intros i.
  - exists []. cbn. split_and!; [done|constructor|lia].
  - rewrite skip_digits_step. destruct ((i =? 0) || negb (digit hex c)) eqn:E.
    + exists []. cbn. split_and!; [done|constructor|lia].
    + destruct (IH (i - 1)) as (d & Hv & Hd & Hi). exists (c :: d).
      apply orb_false_iff in E as [Ei Ec]. apply negb_false_iff in Ec.
      cbn [app length]. split_and!; [by rewrite <- Hv|by constructor|lia].
Qed.

Lemma is_hex_prefix_spec v : is_hex_prefix v = true <->
  exists r, v = codes "0x" ++ r \/ v = codes "0X" ++ r.
Proof.
  destruct v as [|c0 [|c1 v]]; cbn; [split; [done|naive_solver]..|].
  rewrite andb_true_iff, orb_true_iff, !Z.eqb_eq. split.
  - intros [-> [->| ->]]; eauto.
  - intros [r [[= -> -> ->]|[= -> -> ->]]]; tauto.
Qed.
Lemma is_hex_prefix_digits d r : d <> [] -> Forall (fun c => isxdigit c = true) d -> stops true r ->
  is_hex_prefix (d ++ r) = false.
Proof.
  intros Hne Hd (_ & Hx & HX). apply not_true_iff_false. rewrite is_hex_prefix_spec.
  destruct d as [|c0 [|c1 d]]; [done| |].
  - intros [q [[= _ ->]|[= _ ->]]]; done.
  - apply Forall_cons in Hd as [_ [H1 _]%Forall_cons].
    intros [q [[= _ -> _]|[= _ -> _]]]; done.
Qed.

(** [skip_num] reads a number and stops behind it; where it does not move, or moves over the
    prefix only, there is no number. *)
Lemma skip_num_group hex max g r : group hex max g -> stops hex r ->
  let v := g ++ r in
  skip_num hex v max = r /\ same_place v r = false
  /\ (same_place (drop 2 v) r && is_hex_prefix v = false \/ hex = false).
Proof.
  intros (p & d & -> & Hp & Hne & Hd & Hmax) Hr v. unfold v, skip_num, same_place.
  assert (1 <= zlen d) by (destruct d; [done|cbn; lia]).
  destruct Hp as [->|[-> Hp]].
  - cbn [app]. assert (hex && is_hex_prefix (d ++ r) = false) as E.
    { destruct hex; [|done]. cbn. by apply is_hex_prefix_digits; auto. }
    rewrite E. rewrite skip_digits_app by (try done; apply Hr). rewrite length_app.
    split_and!; [done|apply Nat.eqb_neq; lia|].
    destruct hex; [|by right]. left. cbn in E. by rewrite E, andb_false_r.
  - assert (is_hex_prefix ((p ++ d) ++ r) = true /\ drop 2 ((p ++ d) ++ r) = d ++ r /\ length p = 2%nat)
      as (E & Hdrop & Hlen).
    { split_and!; [apply is_hex_prefix_spec; exists (d ++ r)|..];
        destruct Hp as [->| ->]; cbn; auto. }
    rewrite E, Hdrop. cbn [andb]. rewrite skip_digits_app by (try done; apply Hr).
    rewrite !length_app. split_and!; [done|apply Nat.eqb_neq; lia|].
    left. rewrite andb_true_r. apply Nat.eqb_neq. lia.
Qed.
Lemma skip_num_inv hex max v : let r := skip_num hex v max in
  same_place v r = false -> (same_place (drop 2 v) r && is_hex_prefix v = false \/ hex = false) ->
  exists g, v = g ++ r /\ group hex max g.
Proof.
  unfold skip_num, same_place. cbn zeta. destruct (hex && is_hex_prefix v) eqn:E.
  - apply andb_true_iff in E as [-> E]. apply is_hex_prefix_spec in E as Ep.
    assert (exists p, v = p ++ drop 2 v /\ length p = 2%nat /\ (p = codes "0x" \/ p = codes "0X"))
      as (p & Hv & Hlen & Hp).
    { destruct Ep as [r [->| ->]]; [exists (codes "0x")|exists (codes "0X")]; auto. }
    destruct (skip_digits_split true (drop 2 v) max) as (d & Hd & Hdig & Hmax).
    remember (skip_digits true max (drop 2 v)) as r.
    intros _ [H|H]; [|done]. rewrite E, andb_true_r, Hd, length_app in H. apply Nat.eqb_neq in H.
    exists (p ++ d). split; [rewrite Hv at 1; by rewrite Hd, app_assoc|].
    exists p, d. split_and!; [done|tauto| |done|done]. by intros ->.
  - destruct (skip_digits_split hex v max) as (d & Hd & Hdig & Hmax).
    remember (skip_digits hex max v) as r. rewrite Hd, length_app. intros H _.
    apply Nat.eqb_neq in H. exists d. split; [done|]. exists [], d.
    split_and!; [done|tauto| |done|done]. by intros ->.
Qed.

Lemma skip_digits_all hex v : skip_digits hex (-1) v = [] <-> Forall (fun c => digit hex c = true) v.
Proof.
  destruct (skip_digits_split hex v (-1)) as (d & Hd & Hdig & _). split.
  - intros E. rewrite E, app_nil_r in Hd. by subst.
  - intros H. rewrite <- (app_nil_r v). apply skip_digits_app; [done|lia|by destruct hex].
Qed.

(** ** The two address loops *)
Section address.
Context (hex : bool) (max last_ sep : Z) (Hsep : digit hex sep = false /\ sep <> 120 /\ sep <> 88 /\ sep <> 0).

(** The common shape of the loops: at each step a group and its delimiter. *)
Fixpoint addr_loop (n : nat) (i : Z) (cur : list Z) : Z :=
  match n with
  | O => 0
  | S n =>
      let end_ := skip_num hex cur max in
      if same_place cur end_ || (hex && (same_place (drop 2 cur) end_ && is_hex_prefix cur)) then -1
      else if negb (chr end_ =? (if i =? last_ then 0 else sep)) then -1
      else addr_loop n (i + 1) (tail end_)
  end.

Definition address (n : nat) (cur : list Z) : Prop :=
  exists l, length l = n /\ Forall (group hex max) l /\ cur = join sep l.

Lemma stops_sep r : stops hex (sep :: r).
Proof. destruct Hsep as (? & ? & ? & ?). done. Qed.
Lemma stops_nil : stops hex [].
Proof. by destruct hex. Qed.

(** The text behind the first group of an address. *)
Definition rest_of (l : list (list Z)) : list Z := match l with [] => [] | _ => sep :: join sep l end.
Lemma join_cons g l : join sep (g :: l) = g ++ rest_of l.
Proof. destruct l; cbn; [by rewrite app_nil_r|done]. Qed.
Lemma stops_rest l : stops hex (rest_of l).
Proof. destruct l; [apply stops_nil|apply stops_sep]. Qed.

Lemma address_first g l : group hex max g -> let cur := join sep (g :: l) in
  skip_num hex cur max = rest_of l
  /\ same_place cur (rest_of l) || (hex && (same_place (drop 2 cur) (rest_of l) && is_hex_prefix cur)) = false.
Proof.
  intros Hg cur. unfold cur. rewrite join_cons.
  destruct (skip_num_group hex max g (rest_of l) Hg (stops_rest l)) as (H1 & H2 & H3).
  split; [done|]. rewrite H2. destruct H3 as [->| ->]; [by rewrite andb_false_r|done].
Qed.

Lemma addr_loop_ok : forall n i cur, Z.of_nat n + i = last_ + 1 -> (n <> 0)%nat -> str_ok cur ->
  (addr_loop n i cur = 0 \/ addr_loop n i cur = -1) /\ (addr_loop n i cur = 0 <-> address n cur).
Proof.
  induction n as [|n IH]; intros i cur Hi Hn Hok; [done|]. cbn [addr_loop].
  assert (Hinv : address (S n) cur -> exists g l, group hex max g /\ length l = n
    /\ Forall (group hex max) l /\ cur = join sep (g :: l) /\ skip_num hex cur max = rest_of l).
  { intros (l & Hl & Hg & Hc). destruct l as [|g l]; [done|]. apply Forall_cons in Hg as [Hg Hgl].
    injection Hl as Hl. exists g, l. split_and!; try done.
    rewrite Hc. apply (proj1 (address_first g l Hg)). }
  destruct (_ || _) eqn:Emove; [|destruct (negb _) eqn:Edelim].
  - split; [by right|]. split; [done|]. intros (g & l & Hg & _ & _ & -> & E)%Hinv. rewrite E in Emove.
    by rewrite (proj2 (address_first g l Hg)) in Emove.
  - split; [by right|]. split; [done|]. intros (g & l & _ & Hl & _ & _ & E)%Hinv.
    rewrite E in Edelim. destruct (Z.eqb_spec i last_) as [->|]; destruct l; cbn in Hl, Edelim; lia.
  - apply orb_false_iff in Emove as [Em1 Em2]. apply negb_false_iff, Z.eqb_eq in Edelim.
    destruct (skip_num_inv hex max cur Em1) as (g & Hcur & Hg).
    { destruct hex; [by left|by right]. }
    assert (Hokr : str_ok (skip_num hex cur max)) by (rewrite Hcur in Hok; by apply Forall_app in Hok as [_ ?]).
    destruct (skip_num hex cur max) as [|c r] eqn:Er; cbn [chr hd tail] in *.
    + destruct (Z.eqb_spec i last_) as [->|]; [|lia]. assert (n = 0%nat) as -> by lia.
      split; [by left|]. split; [intros _|done]. exists [g]. rewrite app_nil_r in Hcur. cbn. auto.
    + apply Forall_cons in Hokr as [Hc Hokr]. unfold char_ok in Hc.
      destruct (Z.eqb_spec i last_) as [->|]; [lia|]. subst c.
      assert (Hn' : n <> 0%nat) by lia.
      destruct (IH (i + 1) r ltac:(lia) Hn' Hokr) as [IH1 IH2]. split; [done|]. rewrite IH2. split.
      * intros (l & Hl & Hgl & ->). exists (g :: l). rewrite join_cons.
        destruct l as [|g' l]; [by destruct Hn'|]. split_and!; [cbn; cbn in Hl; lia|by constructor|done].
      * intros (g' & l & _ & Hl & Hgl & _ & E)%Hinv. exists l.
        destruct l as [|g'' l]; [by destruct Hn'|]. injection E as ->. done.
Qed.
End address.

Lemma ipaddr_addr : forall n i cur, ipaddr_loop n i cur = addr_loop false 3 3 46 n i cur.
Proof.
  induction n as [|n IH]; intros i cur; cbn; [done|]. rewrite orb_false_r, IH.
  destruct (same_place _ _), (i =? 3); cbn; try done; by case_if.
Qed.
Lemma macaddr_addr : forall n i cur, macaddr_loop n i cur = addr_loop true 2 5 58 n i cur.
Proof.
  induction n as [|n IH]; intros i cur; cbn; [done|]. rewrite IH.
  destruct (same_place cur _), (i =? 5), (same_place (drop 2 cur) _ && _); cbn; try done; by case_if.
Qed.

(** A function that returns 0 or -1 decides a property. *)
Definition decides (r : Z) (P : Prop) : Prop := (r = 0 \/ r = -1) /\ (r = 0 <-> P).
Lemma decides_if (b : bool) P : (b = false <-> P) -> decides (if b then -1 else 0) P.
Proof. intros H. destruct b; split; [by right| |by left|]; rewrite <- H; done. Qed.

Lemma str_ok_suffix p r : str_ok (p ++ r) -> chr r = 0 -> r = [].
Proof.
  intros Hok Hr. apply Forall_app in Hok as [_ Hok]. destruct r as [|c r]; [done|].
  apply Forall_cons in Hok as [Hc _]. unfold char_ok in Hc. cbn in Hr. lia.
Qed.
Lemma digits_end hex v : str_ok v ->
  chr (skip_digits hex (-1) v) = 0 <-> Forall (fun c => digit hex c = true) v.
Proof.
  intros Hok. rewrite <- skip_digits_all. split; [|by intros ->].
  destruct (skip_digits_split hex v (-1)) as (d & Hd & _). rewrite Hd in Hok.
  by apply (str_ok_suffix d).
Qed.

Lemma hex_ok value : str_ok value ->
  decides (let end_ := skip_num true value (-1) in
    if negb (chr end_ =? 0) then -1
    else if same_place (drop 2 value) end_ && is_hex_prefix value then -1 else 0)
  (value = [] \/ group true (-1) value).
Proof.
  intros Hok. cbn zeta. destruct value as [|c v]; [cbn; split; [by left|]; split; [by left|done]|].
  set (value := c :: v) in *. set (r := skip_num true value (-1)).
  assert (Hgroup : group true (-1) value -> r = [] /\ same_place (drop 2 value) [] && is_hex_prefix value = false).
  { intros Hg. destruct (skip_num_group true (-1) value [] Hg ltac:(done)) as (H1 & _ & H3).
    rewrite app_nil_r in H1, H3. split; [done|]. by destruct H3. }
  replace (if negb (chr r =? 0) then -1 else _) with
    (if negb (chr r =? 0) || same_place (drop 2 value) r && is_hex_prefix value then -1 else 0)
    by (by destruct (chr r =? 0)).
  apply decides_if. split.
  - intros [E1 E2]%orb_false_iff. right. apply negb_false_iff, Z.eqb_eq in E1.
    assert (Hsuf : exists p, value = p ++ r).
    { unfold r, skip_num. destruct (true && is_hex_prefix value).
      - destruct (skip_digits_split true (drop 2 value) (-1)) as (d & Hd & _).
        exists (take 2 value ++ d). etransitivity; [symmetry; apply (take_drop 2 value)|].
        rewrite <- app_assoc. f_equal. exact Hd.
      - destruct (skip_digits_split true value (-1)) as (d & Hd & _). by exists d. }
    destruct Hsuf as [p Hp]. assert (r = []) as Hr by (apply (str_ok_suffix p); [by rewrite <- Hp|done]).
    destruct (skip_num_inv true (-1) value) as (g & Hg & Hgr); fold r;
      [by rewrite Hr|by left|]. fold r in Hg. rewrite Hr, app_nil_r in Hg. by rewrite Hg.
  - intros [?|Hg]; [done|]. destruct (Hgroup Hg) as [-> ->]. done.
Qed.

Lemma bool_ok value : str_ok value ->
  decides (if negb (bool_decide (chr value ∈ bool_chars)) then -1
    else if negb (chr (tail value) =? 0) then -1 else 0)
  (exists c, value = [c] /\ c ∈ bool_chars).
Proof.
  intros Hok. replace (if negb (bool_decide _) then -1 else _) with
    (if negb (bool_decide (chr value ∈ bool_chars)) || negb (chr (tail value) =? 0) then -1 else 0)
    by (by destruct (bool_decide _)).
  apply decides_if. split.
  - intros [E1 E2]%orb_false_iff. apply negb_false_iff, bool_decide_eq_true in E1.
    apply negb_false_iff, Z.eqb_eq in E2. destruct value as [|c v].
    { exfalso. revert E1. by apply (bool_decide_unpack _). }
    exists c. cbn in E2. by rewrite (str_ok_suffix [c] v Hok E2).
  - intros (c & -> & Hc). cbn [chr hd tail]. by rewrite bool_decide_true.
Qed.

Lemma validate_type_ok value type : str_ok value ->
  decides (_env_flags_validate_type value type) (type_ok type value).
Proof.
  intros Hok. unfold _env_flags_validate_type, type_ok.
  destruct (Z.eqb_spec type env_flags_vartype_string) as [->|_]; [split; [by left|done]|].
  destruct (type =? env_flags_vartype_decimal).
  { apply decides_if. rewrite negb_false_iff, Z.eqb_eq. apply (digits_end false), Hok. }
  destruct (type =? env_flags_vartype_hex); [by apply hex_ok|].
  destruct (type =? env_flags_vartype_bool); [by apply bool_ok|].
  destruct (type =? env_flags_vartype_ipaddr).
  { rewrite ipaddr_addr. apply addr_loop_ok; [by vm_compute|lia|done|done]. }
  destruct (type =? env_flags_vartype_macaddr).
  { rewrite macaddr_addr. apply addr_loop_ok; [by vm_compute|lia|done|done]. }
  apply decides_if. rewrite Z.eqb_neq. done.
Qed.

(** ** Attributes and binary flags *)
(** The position of a character in [rep], as the two parsers look it up. *)
Definition position (rep : list Z) (loc : nat) (t : list Z) : Z :=
  match drop loc t with [] => 0 | c :: _ => from_option Z.of_nat 0 (strchr rep c) end.
Lemma parse_vartype_position t : env_flags_parse_vartype t = position env_flags_vartype_rep 0 t.
Proof.
  unfold env_flags_parse_vartype, position, ENV_FLAGS_VARTYPE_LOC. destruct t as [|c t]; [done|].
  replace (zlen (c :: t) <=? 0) with false by (cbn; lia). change (Z.to_nat 0) with 0%nat. cbn [nth drop].
  by destruct (strchr env_flags_vartype_rep c).
Qed.
Lemma parse_varaccess_position t : env_flags_parse_varaccess t = position env_flags_varaccess_rep 1 t.
Proof.
  unfold env_flags_parse_varaccess, position, ENV_FLAGS_VARACCESS_LOC.
  destruct t as [|c0 [|c1 t]]; [done..|]. replace (zlen (c0 :: c1 :: t) <=? 1) with false by (cbn; lia).
  change (Z.to_nat 1) with 1%nat. cbn [nth drop]. by destruct (strchr env_flags_varaccess_rep c1).
Qed.
Lemma position_range rep loc t : str_ok t -> rep <> [] -> 0 <= position rep loc t < zlen rep.
Proof.
  intros Ht Hrep. unfold position. assert (1 <= zlen rep) by (destruct rep; [done|cbn; lia]).
  assert (str_ok (drop loc t)) as Hd by by apply Forall_drop.
  destruct (drop loc t) as [|c r]; [lia|]. apply Forall_cons in Hd as [Hc _]. unfold char_ok in Hc.
  destruct (strchr_cases rep c ltac:(lia)) as [[_ ->]|(u & q & -> & _ & ->)]; cbn; [lia|].
  rewrite length_app. cbn. lia.
Qed.

(** The binary flags of a type and an access. *)
Definition bin_flags (type access : Z) : Z := type .| nth (Z.to_nat access) env_flags_varaccess_mask 0.
Definition bin_check (v : Z) : bool :=
  let '(t, a) := (v / 4, v mod 4) in
  (bin_flags t a .& ENV_FLAGS_VARTYPE_BIN_MASK =? t)
  && match env_flags_parse_varaccess_from_binflags (bin_flags t a) with Some x => x =? a | None => false end.
Lemma bin_flags_parts t a : 0 <= t < 6 -> 0 <= a < 4 ->
  bin_flags t a .& ENV_FLAGS_VARTYPE_BIN_MASK = t
  /\ env_flags_parse_varaccess_from_binflags (bin_flags t a) = Some a.
Proof.
  intros Ht Ha. assert (H : bin_check (4 * t + a) = true).
  { apply (all_below_spec 24); [by vm_compute|lia]. }
  unfold bin_check in H. replace ((4 * t + a) / 4) with t in H by zdm.
  replace ((4 * t + a) mod 4) with a in H by zdm.
  apply andb_true_iff in H as [H1 H2]. destruct (env_flags_parse_varaccess_from_binflags _); [|done].
  split; [lia|]. f_equal. lia.
Qed.

Lemma parse_to_bin t : str_ok t ->
  env_parse_flags_to_bin t = Some (bin_flags (env_flags_parse_vartype t) (env_flags_parse_varaccess t)).
Proof.
  intros Ht. unfold env_parse_flags_to_bin.
  assert (0 <= env_flags_parse_vartype t < 6) as H1.
  { rewrite parse_vartype_position. by apply (position_range env_flags_vartype_rep). }
  assert (0 <= env_flags_parse_varaccess t < 4) as H2.
  { rewrite parse_varaccess_position. by apply (position_range env_flags_varaccess_rep). }
  assert (Hm : forall a, 0 <= a < 4 -> env_flags_varaccess_mask !! Z.to_nat a =
    Some (nth (Z.to_nat a) env_flags_varaccess_mask 0)).
  { intros a Ha. assert (a = 0 \/ a = 1 \/ a = 2 \/ a = 3) as [-> |[-> |[-> | ->]]] by lia; done. }
  rewrite Hm by done. cbn [mbind option_bind]. unfold bin_flags. do 2 f_equal.
  unfold ENV_FLAGS_VARTYPE_BIN_MASK. change 7 with (Z.ones 3). rewrite Z.land_ones by lia.
  apply Z.mod_small. lia.
Qed.

(** ** New variables *)
(** The attributes of a name: from the variable [.flags], else from the static list. *)
Definition flags_text (flags_list : option (list Z)) (name : list Z) : option (list Z) :=
  match flags_list with
  | Some l => match attrs_of l name with Some t => Some t | None => attrs_of ENV_FLAGS_LIST_STATIC name end
  | None => attrs_of ENV_FLAGS_LIST_STATIC name
  end.

Lemma entry_attrs_str_ok e : str_ok e -> str_ok (entry_attrs e).
Proof.
  intros He. unfold entry_attrs, until. destruct (strchr e ENV_ATTR_SEP) as [k|]; [|constructor].
  assert (str_ok (skip_blanks (drop (S k) e))) as Hs.
  { destruct (skip_blanks_split (drop (S k) e)) as (b & Hb & _).
    assert (str_ok (drop (S k) e)) as Hd by by apply Forall_drop.
    rewrite Hb in Hd. by apply Forall_app in Hd as [_ ?]. }
  destruct (strchr _ 32); [by apply Forall_take|done].
Qed.
Lemma split_str_ok c s : str_ok s -> Forall str_ok (split c s).
Proof.
  induction 1 as [|d s Hd Hs IH]; cbn; [repeat constructor|].
  case_if; [constructor; [constructor|done]|].
  destruct (split c s) as [|e l]; [apply Forall_singleton, Forall_singleton, Hd|].
  apply Forall_cons in IH as [He Hl]. constructor; [by constructor|done].
Qed.
Lemma attrs_of_str_ok s name t : str_ok s -> attrs_of s name = Some t -> str_ok t.
Proof.
  intros Hs. unfold attrs_of. destruct (last _) as [e|] eqn:E; [|done]. intros [= <-].
  apply last_Some_elem_of, list_elem_of_filter in E as [_ He].
  pose proof (split_str_ok ENV_ATTR_LIST_DELIM s Hs) as H. rewrite Forall_forall in H.
  by apply entry_attrs_str_ok, H.
Qed.
Lemma static_str_ok : str_ok ENV_FLAGS_LIST_STATIC.
Proof. unfold str_ok, char_ok. by_computation. Qed.

(** A list the lookup reads, with a byte below it. *)
Definition list_ok (before s : list Z) : Prop :=
  str_ok s /\ chr s <> 32 /\ exists c r, before = c :: r /\ c <> 32.

Lemma buf_string_put t r : str_ok t -> buf_string (t ++ [0] ++ r) = t.
Proof.
  induction 1 as [|c t Hc Ht IH]; cbn in *; [done|]. unfold char_ok in Hc. rewrite IH. case_if; [lia|done].
Qed.

Section init.
Context (before before_static : list Z) (flags_list : option (list Z)) (name : list Z)
  (Hname : name_ok name) (Hstatic : list_ok before_static ENV_FLAGS_LIST_STATIC)
  (Hlist : match flags_list with Some l => list_ok before l | None => True end).

(** Three zero bytes hold the attributes when they are at most two characters. *)
Lemma flags_lookup_ok : env_flags_lookup before before_static flags_list name (Some [0; 0; 0]) =
  match flags_text flags_list name with
  | Some t => b ← put_string [0; 0; 0] t; Some (0, Some b)
  | None => Some (2, Some [0; 0; 0])
  end.
Proof.
  unfold env_flags_lookup, flags_text. destruct Hstatic as (Hs1 & Hs2 & Hs3).
  destruct flags_list as [l|]; cbn [mbind option_bind].
  - destruct Hlist as (Hl1 & Hl2 & Hl3). rewrite lookup_ok by done.
    destruct (attrs_of l name) as [t|]; cbn [mbind option_bind]; [by destruct (put_string _ t)|].
    cbn [negb Z.eqb]. rewrite lookup_ok by done. done.
  - cbn [negb Z.eqb]. by rewrite lookup_ok.
Qed.
Lemma flags_text_ok t : flags_text flags_list name = Some t -> str_ok t.
Proof.
  unfold flags_text. destruct flags_list as [l|].
  - destruct Hlist as (Hl & _). destruct (attrs_of l name) as [t'|] eqn:E.
    + intros [= <-]. by apply attrs_of_str_ok in E.
    + apply attrs_of_str_ok, static_str_ok.
  - apply attrs_of_str_ok, static_str_ok.
Qed.

(** The flags a new variable gets; [None]: the text does not fit in the buffer. *)
Definition init_flags (old : Z) : option Z :=
  match flags_text flags_list name with
  | None | Some [] => Some old
  | Some t =>
      if zlen t <=? ENV_FLAGS_ATTR_MAX_LEN
      then Some (bin_flags (env_flags_parse_vartype t) (env_flags_parse_varaccess t)) else None
  end.

Lemma flags_init_ok e : key e = Some name ->
  env_flags_init before before_static flags_list e = set_flags_of e <$> init_flags (flags e).
Proof.
  intros He. unfold env_flags_init, init_flags. rewrite He. cbn [mbind option_bind].
  change (replicate _ 0) with [0; 0; 0]. rewrite flags_lookup_ok.
  assert (Hsame : set_flags_of e (flags e) = e) by by destruct e.
  destruct (flags_text flags_list name) as [t|] eqn:E; [|cbn; by rewrite Hsame].
  apply flags_text_ok in E as Ht. unfold put_string, ENV_FLAGS_ATTR_MAX_LEN.
  assert ((length t <? 3)%nat = (zlen t <=? 2)) as E3 by (destruct (Nat.ltb_spec (length t) 3); lia).
  change (length [0; 0; 0]) with 3%nat. rewrite E3.
  destruct t as [|c t]; [cbn; by rewrite Hsame|]. destruct (zlen (c :: t) <=? 2); [|by cbn].
  cbn [mbind option_bind default]. unfold default, id. rewrite (buf_string_put (c :: t)) by done.
  replace (zlen (c :: t) =? 0) with false by (cbn; lia). cbn [Z.eqb negb andb]. by rewrite parse_to_bin.
Qed.
End init.

(** ** What the check allows *)
Definition permitted (access : Z) (op : env_op) (unchanged_default : bool) : bool :=
  match op with
  | env_op_create => negb (access =? env_flags_varaccess_readonly)
  | env_op_delete => access =? env_flags_varaccess_any
  | env_op_overwrite => (access =? env_flags_varaccess_any)
      || (access =? env_flags_varaccess_changedefault) && unchanged_default
  end.
Definition mask_check (v : Z) : bool :=
  let '(t, a) := (v / 4, v mod 4) in
  let f := bin_flags t a in
  eqb (f .& ENV_FLAGS_VARACCESS_PREVENT_DELETE =? 0) (permitted a env_op_delete false)
  && eqb (f .& ENV_FLAGS_VARACCESS_PREVENT_CREATE =? 0) (permitted a env_op_create false)
  && eqb (f .& ENV_FLAGS_VARACCESS_PREVENT_OVERWR =? 0) (permitted a env_op_overwrite true)
  && eqb (f .& ENV_FLAGS_VARACCESS_PREVENT_NONDEF_OVERWR =? 0) (negb (a =? env_flags_varaccess_changedefault)).
Lemma mask_parts t a : 0 <= t < 6 -> 0 <= a < 4 -> mask_check (4 * t + a) = true.
Proof. intros. apply (all_below_spec 24); [by vm_compute|lia]. Qed.

Lemma validate_access f t a old def : 0 <= t < 6 -> 0 <= a < 4 -> f = bin_flags t a ->
  str_ok old -> str_ok def ->
  (f .& ENV_FLAGS_VARACCESS_PREVENT_DELETE =? 0) = permitted a env_op_delete (bool_decide (old = def))
  /\ (f .& ENV_FLAGS_VARACCESS_PREVENT_CREATE =? 0) = permitted a env_op_create (bool_decide (old = def))
  /\ (f .& ENV_FLAGS_VARACCESS_PREVENT_OVERWR =? 0)
     && ((f .& ENV_FLAGS_VARACCESS_PREVENT_NONDEF_OVERWR =? 0) || (strcmp old def =? 0))
     = permitted a env_op_overwrite (bool_decide (old = def)).
Proof.
  intros Ht Ha -> Hold Hdef. pose proof (mask_parts t a Ht Ha) as H. unfold mask_check in H.
  replace ((4 * t + a) / 4) with t in H by zdm. replace ((4 * t + a) mod 4) with a in H by zdm.
  apply andb_true_iff in H as [[[H1 H2]%andb_true_iff H3]%andb_true_iff H4].
  apply eqb_prop in H1, H2, H3, H4. rewrite H1, H2, H3, H4.
  assert ((strcmp old def =? 0) = bool_decide (old = def)) as ->.
  { apply eq_true_iff_eq. rewrite Z.eqb_eq, bool_decide_eq_true. by apply strcmp_eq. }
  split_and!; [done|done|]. cbn.
  assert (a = 0 \/ a = 1 \/ a = 2 \/ a = 3) as [-> |[-> |[-> | ->]]] by lia; by destruct (bool_decide _).
Qed.


Definition is_delete (op : env_op) : bool := match op with env_op_delete => true | _ => false end.
Lemma validate_eq gd_default item name old t a newval op flag :
  key item = Some name -> data item = Some old -> 0 <= t < 6 -> 0 <= a < 4 ->
  flags item = bin_flags t a -> str_ok old -> str_ok (default [] (gd_default name)) ->
  env_flags_validate gd_default item newval op flag =
  Some (if negb (is_delete op) && (_env_flags_validate_type (default [] newval) t <? 0) then -1
        else if negb (flag .& H_FORCE =? 0)
          || permitted a op (bool_decide (old = default [] (gd_default name))) then 0 else 1).
Proof.
  intros Hname Hold Ht Ha Hflags Hok Hdef.
  destruct (validate_access (flags item) t a old (default [] (gd_default name))) as (H1 & H2 & H3); [done..|].
  destruct (bin_flags_parts t a Ht Ha) as [Htype _].
  unfold env_flags_validate. rewrite Hname, Hold. cbn [mbind option_bind].
  rewrite Z.land_comm, Hflags, Htype, <- Hflags. cbn zeta.
  destruct op; cbn [is_delete negb andb]; rewrite <- ?H1, <- ?H2, <- ?H3.
  - destruct (_ <? 0); [done|]. destruct (flag .& H_FORCE =? 0); [|done]. cbn [negb orb].
    by destruct (flags item .& ENV_FLAGS_VARACCESS_PREVENT_CREATE =? 0).
  - destruct (flag .& H_FORCE =? 0); [|done]. cbn [negb orb].
    by destruct (flags item .& ENV_FLAGS_VARACCESS_PREVENT_DELETE =? 0).
  - destruct (_ <? 0); [done|]. destruct (flag .& H_FORCE =? 0); [|done]. cbn [negb orb].
    destruct (flags item .& ENV_FLAGS_VARACCESS_PREVENT_OVERWR =? 0); [|done]. cbn [negb andb].
    destruct (flags item .& ENV_FLAGS_VARACCESS_PREVENT_NONDEF_OVERWR =? 0); [done|]. cbn [negb orb].
    cbn [mbind option_bind]. by destruct (strcmp old (default [] (gd_default name)) =? 0).
Qed.

(** ** Properties *)
(** [_env_flags_validate_type] decides the types: it returns 0 when the value has the
    type and -1 when not.  A decimal is digits only, a hexadecimal number is empty or digits
    behind an optional prefix, a boolean one of ten characters, an IP address four groups of
    one to three digits between dots and a MAC address six groups of one or two digits, each
    with an optional prefix, between colons; strings and the unused type 7 accept
    everything. *)
Theorem validate_type_correct value type (Hvalue : str_ok value) :
  (_env_flags_validate_type value type = 0 <-> type_ok type value)
  /\ (_env_flags_validate_type value type = -1 <-> ~ type_ok type value).
Proof.
  destruct (validate_type_ok value type Hvalue) as [H1 H2]. split; [done|]. rewrite <- H2.
  destruct H1 as [-> | ->]; split; (done || lia).
Qed.

(** The text of a flag attribute and its binary form agree: the low bits of
    [env_parse_flags_to_bin] are the type [env_flags_parse_vartype] finds, and
    [env_flags_parse_varaccess_from_binflags] reads back the access that
    [env_flags_parse_varaccess] finds, within its array. *)
Theorem binflags_roundtrip t (Ht : str_ok t) :
  exists b, env_parse_flags_to_bin t = Some b
    /\ b .& ENV_FLAGS_VARTYPE_BIN_MASK = env_flags_parse_vartype t
    /\ env_flags_parse_varaccess_from_binflags b = Some (env_flags_parse_varaccess t).
Proof.
  rewrite parse_to_bin by done. eexists. split; [reflexivity|]. apply bin_flags_parts.
  - rewrite parse_vartype_position. by apply (position_range env_flags_vartype_rep).
  - rewrite parse_varaccess_position. by apply (position_range env_flags_varaccess_rep).
Qed.

(** C32: The check before a change of a variable with type [t] and access [a] succeeds, with 0, exactly
    when the new value has the type (nothing is asked of a deletion) and the change is forced or the
    access permits it: all for "any", only creation for "write-once", creation and the overwriting
    of the default value for "change-default", nothing for "read-only".  A change that only the
    access forbids is refused with 1; force does not help against the type. *)
Theorem env_flags_validate_correct gd_default item name old t a newval op flag
    (Hname : key item = Some name) (Hold : data item = Some old)
    (Ht : 0 <= t < 6) (Ha : 0 <= a < 4) (Hflags : flags item = bin_flags t a)
    (Hnew : str_ok (default [] newval)) (Holdok : str_ok old)
    (Hdefault : str_ok (default [] (gd_default name))) :
  let typed := op = env_op_delete \/ type_ok t (default [] newval) in
  let allowed := flag .& H_FORCE <> 0 \/ permitted a op (bool_decide (old = default [] (gd_default name))) = true in
  exists r, env_flags_validate gd_default item newval op flag = Some r
    /\ (r = 0 <-> typed /\ allowed) /\ (typed -> ~ allowed -> r = 1).
Proof.
  rewrite (validate_eq gd_default item name old t a newval op flag) by done. intros typed allowed.
  destruct (validate_type_ok (default [] newval) t Hnew) as [Hv1 Hv2]. set (v := _env_flags_validate_type _ _) in *.
  assert (allowed <-> negb (flag .& H_FORCE =? 0) || permitted a op (bool_decide (old = default [] (gd_default name))) = true)
    as Hall by (unfold allowed; rewrite orb_true_iff, negb_true_iff, Z.eqb_neq; done).
  assert (typed <-> negb (is_delete op) && (v <? 0) = false) as Htyped.
  { unfold typed. rewrite andb_false_iff, negb_false_iff, Z.ltb_ge, <- Hv2. destruct op; cbn [is_delete]; intuition (done || lia). }
  eexists. split; [reflexivity|]. rewrite Hall, Htyped. clear. destruct (negb _ && _), (_ || _); intuition done.
Qed.

(** A new variable gets the flags its attributes say: those of its last entry in the list
    of the variable [.flags], else those of the static list; an entry without attributes
    leaves the flags.  Attributes of more than two characters do not fit in the buffer of
    three bytes: the result is a fault. *)
Theorem env_flags_init_correct before before_static flags_list name e
    (Hkey : key e = Some name) (Hname : name_ok name)
    (Hstatic : list_ok before_static ENV_FLAGS_LIST_STATIC)
    (Hlist : match flags_list with Some l => list_ok before l | None => True end) :
  env_flags_init before before_static flags_list e =
  match flags_text flags_list name with
  | None | Some [] => Some e
  | Some t =>
      if zlen t <=? ENV_FLAGS_ATTR_MAX_LEN
      then Some (set_flags_of e (bin_flags (env_flags_parse_vartype t) (env_flags_parse_varaccess t)))
      else None
  end.
Proof.
  rewrite flags_init_ok with (name := name) by done. unfold init_flags.
  destruct (flags_text flags_list name) as [[|c t]|]; cbn [fmap option_fmap option_map];
    [by destruct e| |by destruct e]. by destruct (zlen (c :: t) <=? _).
Qed.

(** ** Witnesses *)
Lemma validate_type_correct_witness :
  _env_flags_validate_type (codes "0x1F") env_flags_vartype_hex = 0 /\ type_ok env_flags_vartype_hex (codes "0x1F").
Proof.
  split; [reflexivity|]. apply (validate_type_correct (codes "0x1F") env_flags_vartype_hex); [|reflexivity].
  unfold str_ok, char_ok. by_computation.
Defined.
Lemma binflags_roundtrip_witness :
  exists b, env_parse_flags_to_bin (codes "dc") = Some b
    /\ b .& ENV_FLAGS_VARTYPE_BIN_MASK = env_flags_parse_vartype (codes "dc")
    /\ env_flags_parse_varaccess_from_binflags b = Some (env_flags_parse_varaccess (codes "dc")).
Proof. apply (binflags_roundtrip (codes "dc")). unfold str_ok, char_ok. by_computation. Defined.
Definition bootdelay : ENTRY := mkENTRY (Some (codes "bootdelay")) (Some (codes "5")) None (bin_flags 1 3).
Lemma env_flags_validate_correct_witness :
  exists r, env_flags_validate (fun _ => Some (codes "1")) bootdelay (Some (codes "7")) env_op_overwrite 0 = Some r
    /\ r = 1.
Proof.
  destruct (env_flags_validate_correct (fun _ => Some (codes "1")) bootdelay (codes "bootdelay") (codes "5") 1 3
    (Some (codes "7")) env_op_overwrite 0) as (r & Hr & _ & H);
    [reflexivity|reflexivity|lia|lia|reflexivity|unfold str_ok, char_ok; by_computation..|].
  exists r. split; [exact Hr|]. apply H.
  - right. unfold type_ok. cbn. by_computation.
  - intros [?|?]; done.
Defined.
Lemma env_flags_init_correct_witness :
  env_flags_init [0] [0] (Some (codes "bootdelay:dc")) (mkENTRY (Some (codes "bootdelay")) None None 0)
  = Some (mkENTRY (Some (codes "bootdelay")) None None (bin_flags 1 3)).
Proof.
  rewrite (env_flags_init_correct [0] [0] (Some (codes "bootdelay:dc")) (codes "bootdelay"));
    [reflexivity|reflexivity|unfold name_ok, str_ok, char_ok; split_and!; by_computation|..].
  all: split_and!; [unfold str_ok, char_ok; by_computation|by vm_compute|by exists 0, []].
Defined.

(** The loop bound of [env_flags_parse_varaccess_from_binflags] is the size of the array in
    bytes: flags that are in none of its four entries read behind it. *)
Lemma binflags_reads_behind : env_flags_parse_varaccess_from_binflags ENV_FLAGS_VARACCESS_PREVENT_DELETE = None.
Proof. reflexivity. Qed.
(** A value of the wrong type is refused with -1, where the comment says 1. *)
Lemma wrong_type_refused :
  env_flags_validate (fun _ => None) bootdelay (Some (codes "x")) env_op_overwrite 0 = Some (-1).
Proof. vm_compute. reflexivity. Qed.
(** Three attribute characters overflow the buffer of [env_flags_init]. *)
Lemma flags_init_overflows :
  env_flags_init [0] [0] (Some (codes "a:sox")) (mkENTRY (Some (codes "a")) None None 0) = None.
Proof. reflexivity. Qed.
