(* ===== verification/Crc.v ===== *)
(** * Checksums: [lib/crc32.c] and [lib/crc16.c]

    A buffer is its address and its bytes: [crc32_no_comp] reads single bytes up to a word
    boundary, then words, then the last bytes.  The processor is little-endian, so [tole]
    and [cpu_to_le32] are the identity. *)
From S2P Require Import Prelude Ctype.

Definition crc_table : list Z :=
  [0x00000000; 0x77073096; 0xee0e612c; 0x990951ba; 0x076dc419; 0x706af48f; 0xe963a535; 0x9e6495a3;
   0x0edb8832; 0x79dcb8a4; 0xe0d5e91e; 0x97d2d988; 0x09b64c2b; 0x7eb17cbd; 0xe7b82d07; 0x90bf1d91;
   0x1db71064; 0x6ab020f2; 0xf3b97148; 0x84be41de; 0x1adad47d; 0x6ddde4eb; 0xf4d4b551; 0x83d385c7;
   0x136c9856; 0x646ba8c0; 0xfd62f97a; 0x8a65c9ec; 0x14015c4f; 0x63066cd9; 0xfa0f3d63; 0x8d080df5;
   0x3b6e20c8; 0x4c69105e; 0xd56041e4; 0xa2677172; 0x3c03e4d1; 0x4b04d447; 0xd20d85fd; 0xa50ab56b;
   0x35b5a8fa; 0x42b2986c; 0xdbbbc9d6; 0xacbcf940; 0x32d86ce3; 0x45df5c75; 0xdcd60dcf; 0xabd13d59;
   0x26d930ac; 0x51de003a; 0xc8d75180; 0xbfd06116; 0x21b4f4b5; 0x56b3c423; 0xcfba9599; 0xb8bda50f;
   0x2802b89e; 0x5f058808; 0xc60cd9b2; 0xb10be924; 0x2f6f7c87; 0x58684c11; 0xc1611dab; 0xb6662d3d;
   0x76dc4190; 0x01db7106; 0x98d220bc; 0xefd5102a; 0x71b18589; 0x06b6b51f; 0x9fbfe4a5; 0xe8b8d433;
   0x7807c9a2; 0x0f00f934; 0x9609a88e; 0xe10e9818; 0x7f6a0dbb; 0x086d3d2d; 0x91646c97; 0xe6635c01;
   0x6b6b51f4; 0x1c6c6162; 0x856530d8; 0xf262004e; 0x6c0695ed; 0x1b01a57b; 0x8208f4c1; 0xf50fc457;
   0x65b0d9c6; 0x12b7e950; 0x8bbeb8ea; 0xfcb9887c; 0x62dd1ddf; 0x15da2d49; 0x8cd37cf3; 0xfbd44c65;
   0x4db26158; 0x3ab551ce; 0xa3bc0074; 0xd4bb30e2; 0x4adfa541; 0x3dd895d7; 0xa4d1c46d; 0xd3d6f4fb;
   0x4369e96a; 0x346ed9fc; 0xad678846; 0xda60b8d0; 0x44042d73; 0x33031de5; 0xaa0a4c5f; 0xdd0d7cc9;
   0x5005713c; 0x270241aa; 0xbe0b1010; 0xc90c2086; 0x5768b525; 0x206f85b3; 0xb966d409; 0xce61e49f;
   0x5edef90e; 0x29d9c998; 0xb0d09822; 0xc7d7a8b4; 0x59b33d17; 0x2eb40d81; 0xb7bd5c3b; 0xc0ba6cad;
   0xedb88320; 0x9abfb3b6; 0x03b6e20c; 0x74b1d29a; 0xead54739; 0x9dd277af; 0x04db2615; 0x73dc1683;
   0xe3630b12; 0x94643b84; 0x0d6d6a3e; 0x7a6a5aa8; 0xe40ecf0b; 0x9309ff9d; 0x0a00ae27; 0x7d079eb1;
   0xf00f9344; 0x8708a3d2; 0x1e01f268; 0x6906c2fe; 0xf762575d; 0x806567cb; 0x196c3671; 0x6e6b06e7;
   0xfed41b76; 0x89d32be0; 0x10da7a5a; 0x67dd4acc; 0xf9b9df6f; 0x8ebeeff9; 0x17b7be43; 0x60b08ed5;
   0xd6d6a3e8; 0xa1d1937e; 0x38d8c2c4; 0x4fdff252; 0xd1bb67f1; 0xa6bc5767; 0x3fb506dd; 0x48b2364b;
   0xd80d2bda; 0xaf0a1b4c; 0x36034af6; 0x41047a60; 0xdf60efc3; 0xa867df55; 0x316e8eef; 0x4669be79;
   0xcb61b38c; 0xbc66831a; 0x256fd2a0; 0x5268e236; 0xcc0c7795; 0xbb0b4703; 0x220216b9; 0x5505262f;
   0xc5ba3bbe; 0xb2bd0b28; 0x2bb45a92; 0x5cb36a04; 0xc2d7ffa7; 0xb5d0cf31; 0x2cd99e8b; 0x5bdeae1d;
   0x9b64c2b0; 0xec63f226; 0x756aa39c; 0x026d930a; 0x9c0906a9; 0xeb0e363f; 0x72076785; 0x05005713;
   0x95bf4a82; 0xe2b87a14; 0x7bb12bae; 0x0cb61b38; 0x92d28e9b; 0xe5d5be0d; 0x7cdcefb7; 0x0bdbdf21;
   0x86d3d2d4; 0xf1d4e242; 0x68ddb3f8; 0x1fda836e; 0x81be16cd; 0xf6b9265b; 0x6fb077e1; 0x18b74777;
   0x88085ae6; 0xff0f6a70; 0x66063bca; 0x11010b5c; 0x8f659eff; 0xf862ae69; 0x616bffd3; 0x166ccf45;
   0xa00ae278; 0xd70dd2ee; 0x4e048354; 0x3903b3c2; 0xa7672661; 0xd06016f7; 0x4969474d; 0x3e6e77db;
   0xaed16a4a; 0xd9d65adc; 0x40df0b66; 0x37d83bf0; 0xa9bcae53; 0xdebb9ec5; 0x47b2cf7f; 0x30b5ffe9;
   0xbdbdf21c; 0xcabac28a; 0x53b39330; 0x24b4a3a6; 0xbad03605; 0xcdd70693; 0x54de5729; 0x23d967bf;
   0xb3667a2e; 0xc4614ab8; 0x5d681b02; 0x2a6f2b94; 0xb40bbe37; 0xc30c8ea1; 0x5a05df1b; 0x2d02ef8d].

(** The table as [make_crc_table] computes it ([DYNAMIC_CRC_TABLE]). *)
Definition poly_terms : list Z := [0; 1; 2; 4; 5; 7; 8; 10; 11; 12; 16; 22; 23; 26].
Definition make_crc_poly : Z := foldl (fun poly p => poly .| (1 ≪ (31 - p))) 0 poly_terms.
Fixpoint make_crc_entry (k : nat) (poly c : Z) : Z :=
  match k with
  | O => c
  | S k => make_crc_entry k poly (if negb (c .& 1 =? 0) then poly .^ (c ≫ 1) else c ≫ 1)
  end.
Definition make_crc_table : list Z := map (make_crc_entry 8 make_crc_poly) (seqZ 0 256).

Definition DO_CRC (crc x : Z) : Z :=
  default 0 (crc_table !! Z.to_nat ((crc .^ x) .& 255)) .^ (crc ≫ 8).

(** The bytes in front of the first word boundary. *)
Fixpoint crc_align (addr crc : Z) (data : list Z) : Z * list Z :=
  match data with
  | [] => (crc, [])
  | x :: r =>
      let crc := DO_CRC crc x in
      if negb (zlen r =? 0) && negb ((addr + 1) .& 3 =? 0) then crc_align (addr + 1) crc r else (crc, r)
  end.
Fixpoint crc_words (len : nat) (crc : Z) (data : list Z) : Z * list Z :=
  match len, data with
  | S len, b0 :: b1 :: b2 :: b3 :: r =>
      let crc := crc .^ (b0 + b1 * 0x100 + b2 * 0x10000 + b3 * 0x1000000) in
      crc_words len (DO_CRC (DO_CRC (DO_CRC (DO_CRC crc 0) 0) 0) 0) r
  | _, _ => (crc, data)
  end.
Definition crc32_no_comp (crc addr : Z) (data : list Z) : Z :=
  let '(crc, data) :=
    if negb (addr .& 3 =? 0) && negb (zlen data =? 0) then crc_align addr crc data else (crc, data) in
  let '(crc, data) := crc_words (Z.to_nat (zlen data ≫ 2)) crc data in
  foldl DO_CRC crc data.
Definition crc32 (crc addr : Z) (data : list Z) : Z :=
  crc32_no_comp (crc .^ 0xffffffff) addr data .^ 0xffffffff.

(** With a watchdog [crc32_wd] works in chunks; [watchdog] is the configuration. *)
Fixpoint crc32_wd_loop (n : nat) (crc addr : Z) (data : list Z) (chunk_sz : Z) : option Z :=
  match n with
  | O => None
  | S n =>
      if 0 <? zlen data then
        let chunk := if chunk_sz <? zlen data then chunk_sz else zlen data in
        let crc := crc32 crc addr (take (Z.to_nat chunk) data) in
        crc32_wd_loop n crc (addr + chunk) (drop (Z.to_nat chunk) data) chunk_sz
      else Some crc
  end.
Definition crc32_wd (watchdog : bool) (crc addr : Z) (data : list Z) (chunk_sz : Z) : option Z :=
  if watchdog then crc32_wd_loop (S (length data)) crc addr data chunk_sz
  else Some (crc32 crc addr data).
(** The four bytes stored: the checksum in network order. *)
Definition crc32_wd_buf (watchdog : bool) (addr : Z) (input : list Z) (chunk_sz : Z) : option (list Z) :=
  crc ← crc32_wd watchdog 0 addr input chunk_sz;
  Some [crc ≫ 24; (crc ≫ 16) .& 0xff; (crc ≫ 8) .& 0xff; crc .& 0xff].

Definition crc16_tab : list Z :=
  [0x0000; 0x1021; 0x2042; 0x3063; 0x4084; 0x50a5; 0x60c6; 0x70e7;
   0x8108; 0x9129; 0xa14a; 0xb16b; 0xc18c; 0xd1ad; 0xe1ce; 0xf1ef;
   0x1231; 0x0210; 0x3273; 0x2252; 0x52b5; 0x4294; 0x72f7; 0x62d6;
   0x9339; 0x8318; 0xb37b; 0xa35a; 0xd3bd; 0xc39c; 0xf3ff; 0xe3de;
   0x2462; 0x3443; 0x0420; 0x1401; 0x64e6; 0x74c7; 0x44a4; 0x5485;
   0xa56a; 0xb54b; 0x8528; 0x9509; 0xe5ee; 0xf5cf; 0xc5ac; 0xd58d;
   0x3653; 0x2672; 0x1611; 0x0630; 0x76d7; 0x66f6; 0x5695; 0x46b4;
   0xb75b; 0xa77a; 0x9719; 0x8738; 0xf7df; 0xe7fe; 0xd79d; 0xc7bc;
   0x48c4; 0x58e5; 0x6886; 0x78a7; 0x0840; 0x1861; 0x2802; 0x3823;
   0xc9cc; 0xd9ed; 0xe98e; 0xf9af; 0x8948; 0x9969; 0xa90a; 0xb92b;
   0x5af5; 0x4ad4; 0x7ab7; 0x6a96; 0x1a71; 0x0a50; 0x3a33; 0x2a12;
   0xdbfd; 0xcbdc; 0xfbbf; 0xeb9e; 0x9b79; 0x8b58; 0xbb3b; 0xab1a;
   0x6ca6; 0x7c87; 0x4ce4; 0x5cc5; 0x2c22; 0x3c03; 0x0c60; 0x1c41;
   0xedae; 0xfd8f; 0xcdec; 0xddcd; 0xad2a; 0xbd0b; 0x8d68; 0x9d49;
   0x7e97; 0x6eb6; 0x5ed5; 0x4ef4; 0x3e13; 0x2e32; 0x1e51; 0x0e70;
   0xff9f; 0xefbe; 0xdfdd; 0xcffc; 0xbf1b; 0xaf3a; 0x9f59; 0x8f78;
   0x9188; 0x81a9; 0xb1ca; 0xa1eb; 0xd10c; 0xc12d; 0xf14e; 0xe16f;
   0x1080; 0x00a1; 0x30c2; 0x20e3; 0x5004; 0x4025; 0x7046; 0x6067;
   0x83b9; 0x9398; 0xa3fb; 0xb3da; 0xc33d; 0xd31c; 0xe37f; 0xf35e;
   0x02b1; 0x1290; 0x22f3; 0x32d2; 0x4235; 0x5214; 0x6277; 0x7256;
   0xb5ea; 0xa5cb; 0x95a8; 0x8589; 0xf56e; 0xe54f; 0xd52c; 0xc50d;
   0x34e2; 0x24c3; 0x14a0; 0x0481; 0x7466; 0x6447; 0x5424; 0x4405;
   0xa7db; 0xb7fa; 0x8799; 0x97b8; 0xe75f; 0xf77e; 0xc71d; 0xd73c;
   0x26d3; 0x36f2; 0x0691; 0x16b0; 0x6657; 0x7676; 0x4615; 0x5634;
   0xd94c; 0xc96d; 0xf90e; 0xe92f; 0x99c8; 0x89e9; 0xb98a; 0xa9ab;
   0x5844; 0x4865; 0x7806; 0x6827; 0x18c0; 0x08e1; 0x3882; 0x28a3;
   0xcb7d; 0xdb5c; 0xeb3f; 0xfb1e; 0x8bf9; 0x9bd8; 0xabbb; 0xbb9a;
   0x4a75; 0x5a54; 0x6a37; 0x7a16; 0x0af1; 0x1ad0; 0x2ab3; 0x3a92;
   0xfd2e; 0xed0f; 0xdd6c; 0xcd4d; 0xbdaa; 0xad8b; 0x9de8; 0x8dc9;
   0x7c26; 0x6c07; 0x5c64; 0x4c45; 0x3ca2; 0x2c83; 0x1ce0; 0x0cc1;
   0xef1f; 0xff3e; 0xcf5d; 0xdf7c; 0xaf9b; 0xbfba; 0x8fd9; 0x9ff8;
   0x6e17; 0x7e36; 0x4e55; 0x5e74; 0x2e93; 0x3eb2; 0x0ed1; 0x1ef0].


Definition crc16_step (cksum b : Z) : Z :=
  u16 (default 0 (crc16_tab !! Z.to_nat (((cksum ≫ 8) .^ b) .& 0xFF)) .^ (cksum ≪ 8)).
Definition cyg_crc16 (buf : list Z) : Z := foldl crc16_step 0 buf.

Example crc32_check : crc32 0 0x80000001 (codes "123456789") = 0xcbf43926.
Proof. vm_compute. reflexivity. Qed.
Example crc16_check : cyg_crc16 (codes "123456789") = 0x31c3.
Proof. vm_compute. reflexivity. Qed.

(** ** The polynomial division, bit by bit *)
Definition poly : Z := 0xedb88320.
Definition crc_bit (c : Z) : Z := if Z.odd c then poly .^ (c ≫ 1) else c ≫ 1.
Definition crc_byte (c x : Z) : Z := Nat.iter 8 crc_bit (c .^ x).
Definition crc_ref (c : Z) (data : list Z) : Z := foldl crc_byte c data.
(** A 32-bit register. *)
Definition reg (c : Z) : Prop := 0 <= c < 2 ^ 32.

Lemma lxor_range a b k : 0 <= k -> 0 <= a < 2 ^ k -> 0 <= b < 2 ^ k -> 0 <= a .^ b < 2 ^ k.
Proof.
  intros Hk Ha Hb. assert (0 <= a .^ b) as H0 by (apply Z.lxor_nonneg; lia). split; [done|].
  destruct (Z.eq_dec (a .^ b) 0) as [->|Hn]; [lia|].
  apply Z.log2_lt_pow2; [lia|]. destruct (Z.lt_ge_cases (Z.log2 (a .^ b)) k) as [?|Hge]; [done|].
  pose proof (Z.bit_log2 (a .^ b) ltac:(lia)) as Hbit. rewrite Z.lxor_spec in Hbit.
  by rewrite (testbit_above a k), (testbit_above b k) in Hbit.
Qed.
Lemma lxor_cancel_r a b c : a .^ c = b .^ c -> a = b.
Proof.
  intros H. rewrite <- (Z.lxor_0_r a), <- (Z.lxor_0_r b), <- (Z.lxor_nilpotent c), <- !Z.lxor_assoc.
  by rewrite H.
Qed.
Lemma lxor_add a b k : 0 <= k -> 0 <= b < 2 ^ k -> a * 2 ^ k + b = (a ≪ k) .^ b.
Proof.
  intros Hk Hb. rewrite Z.shiftl_mul_pow2 by lia. apply Z.add_nocarry_lxor.
  apply Z.bits_inj'. intros n Hn. rewrite Z.land_spec, Z.bits_0.
  destruct (Z.lt_ge_cases n k).
  - by rewrite Z.mul_pow2_bits_low.
  - by rewrite (testbit_above b k n), andb_false_r.
Qed.

Lemma crc_bit_lxor a b : crc_bit (a .^ b) = crc_bit a .^ crc_bit b.
Proof.
  unfold crc_bit. rewrite Z.shiftr_lxor, <- !Z.bit0_odd, Z.lxor_spec.
  destruct (Z.testbit a 0), (Z.testbit b 0); cbn [xorb]; apply Z.bits_inj'; intros n Hn;
    rewrite !Z.lxor_spec; repeat (destruct (Z.testbit _ n)); done.
Qed.
Lemma crc_bit_even x : crc_bit (2 * x) = x.
Proof.
  unfold crc_bit. rewrite Z.odd_even. rewrite Z.shiftr_div_pow2 by lia. change (2 ^ 1) with 2.
  by rewrite Z.mul_comm, Z.div_mul.
Qed.
Lemma crc_bit_reg c : reg c -> reg (crc_bit c).
Proof.
  unfold reg, crc_bit. intros Hc. assert (0 <= c ≫ 1 < 2 ^ 32).
  { rewrite Z.shiftr_div_pow2 by lia. change (2 ^ 1) with 2. zdm. }
  destruct (Z.odd c); [|done]. apply lxor_range; [lia|done|done].
Qed.
(** The bit shifted out is the top bit of the result: nothing is lost. *)
Lemma crc_bit_inj a b : reg a -> reg b -> crc_bit a = crc_bit b -> a = b.
Proof.
  unfold reg. intros Ha Hb H.
  assert (Htop : forall c, 0 <= c < 2 ^ 32 -> Z.testbit (crc_bit c) 31 = Z.odd c).
  { intros c Hc. assert (Z.testbit (c ≫ 1) 31 = false) as H1.
    { rewrite Z.shiftr_spec by lia. by apply (testbit_above c 32). }
    unfold crc_bit. destruct (Z.odd c); [|done]. rewrite Z.lxor_spec, H1. done. }
  assert (Hodd : Z.odd a = Z.odd b) by (by rewrite <- (Htop a Ha), <- (Htop b Hb), H).
  assert (Hhalf : a ≫ 1 = b ≫ 1).
  { unfold crc_bit in H. rewrite Hodd in H. destruct (Z.odd b); [|done].
    rewrite !(Z.lxor_comm poly) in H. by apply lxor_cancel_r in H. }
  rewrite (Z.div2_odd a), (Z.div2_odd b), Hodd, !Z.div2_spec. by rewrite Hhalf.
Qed.

Lemma iter_lxor n a b : Nat.iter n crc_bit (a .^ b) = Nat.iter n crc_bit a .^ Nat.iter n crc_bit b.
Proof. induction n as [|n IH]; [done|]. by rewrite !Nat.iter_succ, IH, crc_bit_lxor. Qed.
Lemma iter_reg n c : reg c -> reg (Nat.iter n crc_bit c).
Proof. intros Hc. induction n; [done|]. rewrite Nat.iter_succ. by apply crc_bit_reg. Qed.
Lemma iter_inj n a b : reg a -> reg b -> Nat.iter n crc_bit a = Nat.iter n crc_bit b -> a = b.
Proof.
  intros Ha Hb. induction n as [|n IH]; [done|]. rewrite !Nat.iter_succ. intros H. apply IH.
  apply crc_bit_inj; [by apply iter_reg|by apply iter_reg|done].
Qed.
Lemma iter_shift n x : Nat.iter n crc_bit (x ≪ Z.of_nat n) = x.
Proof.
  revert x; induction n as [|n IH]; intros x; [by rewrite Z.shiftl_0_r|].
  rewrite Nat.iter_succ_r. replace (x ≪ Z.of_nat (S n)) with (2 * (x ≪ Z.of_nat n)).
  - by rewrite crc_bit_even, IH.
  - rewrite !Z.shiftl_mul_pow2 by lia. replace (Z.of_nat (S n)) with (Z.of_nat n + 1) by lia.
    rewrite Z.pow_add_r by lia. lia.
Qed.

Lemma iter8_shift x : Nat.iter 8 crc_bit (x ≪ 8) = x.
Proof. exact (iter_shift 8 x). Qed.

Lemma split_low c : c = (c .& 255) .^ ((c ≫ 8) ≪ 8).
Proof.
  change 255 with (Z.ones 8). rewrite Z.land_ones, Z.lxor_comm by lia.
  rewrite <- lxor_add by (zdm). rewrite Z.shiftr_div_pow2 by lia. zdm.
Qed.

Definition table_check (i : Z) : bool := default 0 (crc_table !! Z.to_nat i) =? Nat.iter 8 crc_bit i.
Lemma crc_table_ok i : 0 <= i < 256 -> default 0 (crc_table !! Z.to_nat i) = Nat.iter 8 crc_bit i.
Proof. intros Hi. apply Z.eqb_eq. apply (all_below_spec 256 table_check); [by vm_compute|done]. Qed.
Lemma land_255 c : 0 <= c .& 255 < 256.
Proof. change 255 with (Z.ones 8). rewrite Z.land_ones by lia. apply Z.mod_pos_bound. lia. Qed.

Lemma DO_CRC_ok c x : byte x -> DO_CRC c x = crc_byte c x.
Proof.
  intros Hx. unfold DO_CRC, crc_byte. rewrite crc_table_ok by apply land_255.
  rewrite (split_low (c .^ x)) at 2. rewrite iter_lxor. f_equal.
  rewrite iter8_shift, Z.shiftr_lxor.
  replace (x ≫ 8) with 0; [by rewrite Z.lxor_0_r|].
  rewrite Z.shiftr_div_pow2 by lia. unfold byte in Hx. symmetry. apply Z.div_small. lia.
Qed.

(** ** Whole buffers *)
(** The little-endian number of some bytes. *)
Fixpoint le (l : list Z) : Z := match l with [] => 0 | c :: l => c + le l * 2 ^ 8 end.
Lemma le_range l : Forall byte l -> 0 <= le l < 2 ^ (8 * zlen l).
Proof.
  induction 1 as [|c l Hc Hl IH]; cbn [le length]; [cbn; lia|]. unfold byte in Hc.
  replace (8 * Z.of_nat (S (length l))) with (8 + 8 * zlen l) by lia. rewrite Z.pow_add_r by lia. lia.
Qed.
Lemma le_inj l l' : Forall byte l -> Forall byte l' -> length l = length l' -> le l = le l' -> l = l'.
Proof.
  intros Hl. revert l'; induction Hl as [|c l Hc Hl IH]; intros l' Hl' Hlen H; destruct Hl' as [|d l' Hd Hl'];
    cbn in *; try done. unfold byte in *. f_equal; [lia|]. apply IH; [done|lia|lia].
Qed.
(** A few bytes at once: the number goes into the register. *)
Lemma crc_ref_le l : Forall byte l -> forall c, crc_ref c l = Nat.iter (8 * length l) crc_bit (c .^ le l).
Proof.
  unfold crc_ref. induction 1 as [|x l Hx Hl IH]; intros c; cbn [foldl le length].
  - cbn. by rewrite Z.lxor_0_r.
  - rewrite IH. replace (8 * S (length l))%nat with (8 * length l + 8)%nat by lia.
    rewrite Nat.iter_add. f_equal. unfold crc_byte.
    rewrite <- (iter8_shift (le l)) at 1. rewrite <- iter_lxor. f_equal.
    rewrite Z.lxor_assoc. f_equal. rewrite Z.add_comm, lxor_add, Z.lxor_comm by (unfold byte in *; lia). done.
Qed.
Lemma crc_ref_app c l l' : crc_ref c (l ++ l') = crc_ref (crc_ref c l) l'.
Proof. apply foldl_app. Qed.
Lemma crc_ref_reg c l : reg c -> Forall byte l -> reg (crc_ref c l).
Proof.
  unfold crc_ref. intros Hc Hl. revert c Hc; induction Hl as [|x l Hx Hl IH]; intros c Hc; cbn; [done|].
  apply IH, (iter_reg 8), lxor_range; [lia|done|unfold byte in Hx; lia].
Qed.
Lemma crc_ref_inj c c' l : reg c -> reg c' -> Forall byte l -> crc_ref c l = crc_ref c' l -> c = c'.
Proof.
  unfold crc_ref. intros Hc Hc' Hl. revert c c' Hc Hc'; induction Hl as [|x l Hx Hl IH]; intros c c' Hc Hc'; cbn [foldl]; [done|].
  assert (reg x) as Hrx by (unfold byte, reg in *; lia).
  assert (Hr : forall c, reg c -> reg (c .^ x)) by (intros; by apply lxor_range).
  intros H. apply IH in H; [|by apply (iter_reg 8), Hr..].
  apply (iter_inj 8) in H; [|by apply Hr..]. by apply lxor_cancel_r in H.
Qed.

Lemma foldl_DO_CRC l : Forall byte l -> forall c, foldl DO_CRC c l = crc_ref c l.
Proof. unfold crc_ref. induction 1 as [|x l Hx Hl IH]; intros c; cbn [foldl]; [done|]. by rewrite DO_CRC_ok, IH. Qed.

(** Each phase of the loop consumes a prefix. *)
Definition consumes (c : Z) (data : list Z) (r : Z * list Z) : Prop :=
  exists l, data = l ++ snd r /\ fst r = crc_ref c l.
Lemma crc_align_ok data : Forall byte data -> forall addr c, consumes c data (crc_align addr c data).
Proof.
  induction 1 as [|x l Hx Hl IH]; intros addr c; cbn [crc_align]; [by exists []|].
  rewrite DO_CRC_ok by done. case_if.
  - destruct (IH (addr + 1) (crc_byte c x)) as (l' & Hl' & Hc'). exists (x :: l'). by rewrite Hc', Hl' at 1.
  - by exists [x].
Qed.
Lemma crc_words_ok n : forall data c, Forall byte data -> consumes c data (crc_words n c data).
Proof.
  induction n as [|n IH]; intros data c Hd; cbn [crc_words]; [by exists []|].
  destruct data as [|b0 [|b1 [|b2 [|b3 r]]]]; [by exists []..|].
  apply Forall_cons in Hd as [H0 [H1 [H2 [H3 Hr]%Forall_cons]%Forall_cons]%Forall_cons].
  rewrite !DO_CRC_ok by (unfold byte; lia).
  match goal with |- context [crc_words n ?x r] => assert (x = crc_ref c [b0; b1; b2; b3]) as -> end.
  { rewrite crc_ref_le by by repeat (apply Forall_cons; split; [done|]).
    replace (b0 + _ + _ + _) with (le [b0; b1; b2; b3]) by (cbn [le]; lia).
    change (8 * length [b0; b1; b2; b3])%nat with (8 + (8 + (8 + 8)))%nat.
    rewrite !Nat.iter_add. unfold crc_byte. by rewrite !Z.lxor_0_r. }
  destruct (IH r (crc_ref c [b0; b1; b2; b3]) Hr) as (l & Hl & Hc).
  exists ([b0; b1; b2; b3] ++ l). rewrite crc_ref_app, <- Hc. cbn [app]. by rewrite <- Hl.
Qed.
Lemma crc32_no_comp_ok c addr data : Forall byte data -> crc32_no_comp c addr data = crc_ref c data.
Proof.
  intros Hd. unfold crc32_no_comp.
  assert (Hal : consumes c data (if negb (addr .& 3 =? 0) && negb (zlen data =? 0)
    then crc_align addr c data else (c, data))).
  { case_if; [by apply crc_align_ok|by exists []]. }
  destruct (if negb (addr .& 3 =? 0) && negb (zlen data =? 0) then _ else _) as [c1 d1].
  destruct Hal as (l1 & Ed & Ec). cbn [fst snd] in Ed, Ec. subst data c1. apply Forall_app in Hd as [_ Hd1].
  pose proof (crc_words_ok (Z.to_nat (zlen d1 ≫ 2)) d1 (crc_ref c l1) Hd1) as Hw.
  destruct (crc_words _ _ d1) as [c2 d2]. destruct Hw as (l2 & Ed & Ec).
  cbn [fst snd] in Ed, Ec. subst d1 c2. apply Forall_app in Hd1 as [_ Hd2]. by rewrite foldl_DO_CRC, !crc_ref_app.
Qed.

(** ** CRC-16 *)
Definition poly16 : Z := 0x1021.
Definition crc16_bit (c : Z) : Z := if Z.testbit c 15 then u16 (c ≪ 1) .^ poly16 else u16 (c ≪ 1).
Definition crc16_byte (c x : Z) : Z := Nat.iter 8 crc16_bit (c .^ (x ≪ 8)).

Lemma u16_bits z : u16 z = z .& Z.ones 16.
Proof. by rewrite Z.land_ones. Qed.
Lemma crc16_bit_lxor a b : crc16_bit (a .^ b) = crc16_bit a .^ crc16_bit b.
Proof.
  assert (H : u16 ((a .^ b) ≪ 1) = u16 (a ≪ 1) .^ u16 (b ≪ 1)).
  { rewrite !u16_bits, Z.shiftl_lxor. apply Z.bits_inj'. intros n Hn.
    rewrite !Z.lxor_spec, !Z.land_spec, !Z.lxor_spec. by repeat destruct (Z.testbit _ n). }
  unfold crc16_bit. rewrite H, Z.lxor_spec.
  destruct (Z.testbit a 15), (Z.testbit b 15); cbn [xorb]; apply Z.bits_inj'; intros n Hn;
    rewrite !Z.lxor_spec; repeat (destruct (Z.testbit _ n)); done.
Qed.
Lemma iter16_lxor n a b :
  Nat.iter n crc16_bit (a .^ b) = Nat.iter n crc16_bit a .^ Nat.iter n crc16_bit b.
Proof. induction n as [|n IH]; [done|]. by rewrite !Nat.iter_succ, IH, crc16_bit_lxor. Qed.

Definition tab16_check (i : Z) : bool :=
  (default 0 (crc16_tab !! Z.to_nat i) =? Nat.iter 8 crc16_bit (i ≪ 8))
  && (Nat.iter 8 crc16_bit i =? i ≪ 8) && (default 0 (crc16_tab !! Z.to_nat i) <? 0x10000)
  && (0 <=? default 0 (crc16_tab !! Z.to_nat i)).
Lemma crc16_tab_ok i : 0 <= i < 256 ->
  default 0 (crc16_tab !! Z.to_nat i) = Nat.iter 8 crc16_bit (i ≪ 8)
  /\ Nat.iter 8 crc16_bit i = i ≪ 8 /\ 0 <= default 0 (crc16_tab !! Z.to_nat i) < 0x10000.
Proof.
  intros Hi. pose proof (all_below_spec 256 tab16_check ltac:(by vm_compute) i Hi) as H.
  unfold tab16_check in H. rewrite !andb_true_iff, !Z.eqb_eq, Z.ltb_lt, Z.leb_le in H. lia.
Qed.

Lemma crc16_step_ok c x : 0 <= c < 0x10000 -> byte x ->
  crc16_step c x = crc16_byte c x /\ 0 <= crc16_step c x < 0x10000.
Proof.
  unfold byte, crc16_step, crc16_byte. intros Hc Hx. split; [|apply u16_range].
  assert (Hhi : 0 <= c ≫ 8 < 2 ^ 8) by (rewrite Z.shiftr_div_pow2 by lia; zdm).
  assert (Hi : 0 <= (c ≫ 8) .^ x < 2 ^ 8) by (apply lxor_range; lia).
  change 0xFF with (Z.ones 8). rewrite Z.land_ones by lia. rewrite Z.mod_small by done.
  destruct (crc16_tab_ok ((c ≫ 8) .^ x) Hi) as (-> & _ & Ht).
  rewrite (split_low c) at 3. rewrite Z.lxor_assoc, <- Z.shiftl_lxor, iter16_lxor.
  pose proof (land_255 c) as Hlo. destruct (crc16_tab_ok _ Hlo) as (_ & -> & _).
  rewrite u16_bits, Z.lxor_comm. apply Z.bits_inj'. intros n Hn.
  rewrite Z.land_spec, !Z.lxor_spec, !Z.shiftl_spec, Z.testbit_ones_nonneg, Z.land_spec by lia.
  change 255 with (Z.ones 8).
  destruct (Z.ltb_spec n 16).
  - rewrite andb_true_r. destruct (Z.lt_ge_cases (n - 8) 0).
    + by rewrite !(Z.testbit_neg_r _ (n - 8)) by lia.
    + rewrite Z.testbit_ones_nonneg by lia. replace (n - 8 <? 8) with true by lia. by rewrite andb_true_r.
  - rewrite andb_false_r, Z.testbit_ones_nonneg by lia. replace (n - 8 <? 8) with false by lia.
    rewrite andb_false_r. symmetry. apply (testbit_above _ 16); [exact Ht|lia].
Qed.
Lemma crc16_foldl l : Forall byte l -> forall c, 0 <= c < 0x10000 ->
  foldl crc16_step c l = foldl crc16_byte c l.
Proof.
  induction 1 as [|x l Hx Hl IH]; intros c Hc; cbn [foldl]; [done|].
  destruct (crc16_step_ok c x Hc Hx) as [E Hr]. rewrite <- E. by apply IH.
Qed.

(** ** Properties *)
Lemma reg_not c : reg c -> reg (c .^ 0xffffffff).
Proof. intros Hc. by apply lxor_range. Qed.
Lemma not_not c : (c .^ 0xffffffff) .^ 0xffffffff = c.
Proof. by rewrite Z.lxor_assoc, Z.lxor_nilpotent, Z.lxor_0_r. Qed.
Lemma crc32_ok c addr data : Forall byte data ->
  crc32 c addr data = crc_ref (c .^ 0xffffffff) data .^ 0xffffffff.
Proof. intros Hd. unfold crc32. by rewrite crc32_no_comp_ok. Qed.
Lemma crc32_app c addr addr1 addr2 a b : Forall byte a -> Forall byte b ->
  crc32 c addr (a ++ b) = crc32 (crc32 c addr1 a) addr2 b.
Proof.
  intros Ha Hb. rewrite !crc32_ok by (try apply Forall_app; done).
  by rewrite not_not, crc_ref_app.
Qed.

Lemma crc32_burst c addr addr' pre w w' post : reg c -> Forall byte pre -> Forall byte w -> Forall byte w' ->
  Forall byte post -> length w = length w' -> (length w <= 4)%nat -> w <> w' ->
  crc32 c addr (pre ++ w ++ post) <> crc32 c addr' (pre ++ w' ++ post).
Proof.
  intros Hc Hpre Hw Hw' Hpost Hlen H4 Hne.
  rewrite !crc32_ok by (repeat apply Forall_app_2; done). intros H%lxor_cancel_r. apply Hne.
  rewrite !crc_ref_app in H. set (c1 := crc_ref _ pre) in H.
  assert (reg c1) as Hc1 by (by apply crc_ref_reg; [apply reg_not|]).
  assert (Hle : forall l, Forall byte l -> (length l <= 4)%nat -> reg (le l)).
  { intros l Hl Hl4. pose proof (le_range l Hl).
    pose proof (Z.pow_le_mono_r 2 (8 * zlen l) 32 ltac:(lia) ltac:(lia)). unfold reg. lia. }
  apply crc_ref_inj in H; [|by apply crc_ref_reg..|done].
  rewrite !crc_ref_le, Hlen in H by done.
  apply iter_inj in H; [|by apply lxor_range; [lia|..|apply Hle; [|lia]]..].
  rewrite !(Z.lxor_comm c1) in H. apply lxor_cancel_r in H. by apply le_inj.
Qed.

(** C38: [crc32] is the division of the source's comment, one bit at a time, by the polynomial
    x^32+x^26+...+1, whatever the address: the static table is the one [make_crc_table]
    computes, the word loop agrees with the byte loop, and a checksum can be continued over
    the pieces of a buffer. *)
Theorem crc32_correct c addr data addr1 addr2 a b
    (Hdata : Forall byte data) (Ha : Forall byte a) (Hb : Forall byte b) :
  crc32 c addr data = crc_ref (c .^ 0xffffffff) data .^ 0xffffffff
  /\ crc32 c addr (a ++ b) = crc32 (crc32 c addr1 a) addr2 b
  /\ crc_table = make_crc_table.
Proof.
  split_and!; [by apply crc32_ok|by apply crc32_app|]. by vm_compute.
Qed.

(** [crc32] detects every error burst of at most 32 bits: two buffers that differ only
    within four consecutive bytes have different checksums. *)
Theorem crc32_detects_burst c addr addr' pre w w' post
    (Hc : reg c) (Hpre : Forall byte pre) (Hw : Forall byte w) (Hw' : Forall byte w')
    (Hpost : Forall byte post) (Hlen : length w = length w') (H4 : (length w <= 4)%nat) (Hne : w <> w') :
  crc32 c addr (pre ++ w ++ post) <> crc32 c addr' (pre ++ w' ++ post).
Proof. by apply crc32_burst. Qed.

(** [crc32_wd] ends for every positive chunk size and gives the checksum of the whole
    buffer, with and without a watchdog. *)
Theorem crc32_wd_correct watchdog c addr data chunk_sz
    (Hdata : Forall byte data) (Hchunk : 0 < chunk_sz) :
  crc32_wd watchdog c addr data chunk_sz = Some (crc32 c addr data).
Proof.
  unfold crc32_wd. destruct watchdog; [|done].
  assert (Hgen : forall n c addr data, Forall byte data -> (length data < n)%nat ->
    crc32_wd_loop n c addr data chunk_sz = Some (crc32 c 0 data)).
  { clear -Hchunk. induction n as [|n IH]; intros c addr data Hd Hn; [lia|]. cbn [crc32_wd_loop].
    destruct (0 <? zlen data) eqn:E.
    - set (k := Z.to_nat (if chunk_sz <? zlen data then chunk_sz else zlen data)).
      assert (1 <= k <= length data)%nat by (unfold k; case_if; lia).
      rewrite <- (take_drop k data) in Hd. apply Forall_app in Hd as [Ht Hdr].
      rewrite IH by (done || (rewrite length_drop; lia)). f_equal.
      rewrite <- (crc32_app c 0 addr 0) by done. by rewrite take_drop.
    - destruct data; [|cbn in E; lia]. f_equal. rewrite crc32_ok by done. symmetry. apply not_not. }
  rewrite Hgen by (done || lia). f_equal. by rewrite !crc32_ok.
Qed.

(** [cyg_crc16] is the bitwise division by x^16+x^12+x^5+1, highest bit first. *)
Theorem cyg_crc16_correct buf (Hbuf : Forall byte buf) :
  cyg_crc16 buf = foldl crc16_byte 0 buf.
Proof. by apply crc16_foldl. Qed.

(** ** Witnesses *)
Ltac bytes := unfold byte; by_computation.
Lemma crc32_correct_witness :
  crc32 0 2 (codes "U-Boot") = crc_ref (0 .^ 0xffffffff) (codes "U-Boot") .^ 0xffffffff.
Proof. apply (crc32_correct 0 2 (codes "U-Boot") 0 0 [1] [2]); bytes. Defined.
Lemma crc32_detects_burst_witness :
  crc32 0 0 (codes "U-Boot") <> crc32 0 0 (codes "U-Root").
Proof.
  apply (crc32_detects_burst 0 0 0 (codes "U-") (codes "B") (codes "R") (codes "oot"));
    [unfold reg; lia|bytes..|reflexivity|cbn; lia|done].
Defined.
Lemma crc32_wd_correct_witness :
  crc32_wd true 0 1 (codes "U-Boot") 4 = Some (crc32 0 1 (codes "U-Boot")).
Proof. apply (crc32_wd_correct true 0 1 (codes "U-Boot") 4); [bytes|lia]. Defined.
Lemma cyg_crc16_correct_witness : cyg_crc16 (codes "AB") = foldl crc16_byte 0 (codes "AB").
Proof. apply (cyg_crc16_correct (codes "AB")). bytes. Defined.
