(* ===== verification/EnvVar.v ===== *)
(** * The environment: [common/cmd_nvedit.c], [common/env_common.c], [common/env_callback.c]

    Reading and setting variables, before and after the import into the hash table, the
    callbacks of the variables and the handlers of [.flags] and [.callbacks].  A string is
    the list of its characters; what the functions print is not modelled. *)
From S2P Require Import Prelude Ctype Mem CStr Qsort Hashtable HashExport Vsprintf EnvAttr.
From S2P Require Import EnvFlags Crc.

Definition CMD_RET_USAGE : Z := -1.
Definition H_INTERACTIVE : Z := 1 ≪ 2.
Definition ENV_CALLBACK_VAR : list Z := codes ".callbacks".
Definition ENV_CALLBACK_LIST_STATIC : list Z :=
  ENV_CALLBACK_VAR ++ codes ":callbacks," ++ ENV_FLAGS_VAR ++ codes ":flags,"
  ++ codes "baudrate:baudrate," ++ codes "bootfile:bootfile," ++ codes "loadaddr:loadaddr,"
  ++ codes "stdin:console,stdout:console,stderr:console,".

(** The parts of [gd] and the globals that hold the environment: whether the hash table is
    filled ([GD_FLG_ENV_READY]), whether the saved image is good ([env_valid]), the image at
    [env_addr], the table and [env_id]. *)
Record genv := mkgenv {
  env_ready : bool;
  env_valid : bool;
  env_addr : list Z;
  env_htab : hsearch_data;
  env_id : Z }.
Definition set_htab (g : genv) (h : hsearch_data) : genv :=
  mkgenv (env_ready g) (env_valid g) (env_addr g) h (env_id g).
Definition set_ready (g : genv) : genv :=
  mkgenv true (env_valid g) (env_addr g) (env_htab g) (env_id g).

Section env.
Context {Hooks : EnvHooks}.
(** The configuration: the environment compiled in, the size of the saved one, and the
    allocator. *)
Context (default_environment : list Z) (CONFIG_ENV_SIZE : Z) (malloc_ok : Z -> bool).

(** ** Reading the image *)
Definition env_get_addr (g : genv) : list Z :=
  if env_valid g then env_addr g else default_environment.
Definition env_get_char (g : genv) (index : Z) : option Z := env_get_addr g !! Z.to_nat index.

(** The end of [s1] inside of a variable without '=' is a read behind [s1]. *)
Fixpoint envmatch (g : genv) (s1 : list Z) (i2 : Z) : option Z :=
  match s1 with
  | [] =>
      d ← env_get_char g i2;
      if d =? 0 then None else if d =? 61 then Some (i2 + 1) else Some (-1)
  | c :: s1 =>
      d ← env_get_char g i2;
      if c =? d then (if c =? 61 then Some (i2 + 1) else envmatch g s1 (i2 + 1)) else Some (-1)
  end.

(** [for (nxt = i; env_get_char(nxt) != '\0'; ++nxt)]: [Some None] is the return of -1. *)
Fixpoint find_end (n : nat) (g : genv) (nxt : Z) : option (option Z) :=
  match n with
  | O => None
  | S n =>
      c ← env_get_char g nxt;
      if c =? 0 then Some (Some nxt)
      else if CONFIG_ENV_SIZE <=? nxt then Some None
      else find_end n g (nxt + 1)
  end.
(** The copy: the number of characters and the characters; [len] of them when the value does
    not fit. *)
Fixpoint copy_value (len : nat) (g : genv) (val : Z) : option (list Z * bool) :=
  match len with
  | O => Some ([], false)
  | S len =>
      c ← env_get_char g val;
      if c =? 0 then Some ([], true)
      else '(l, fits) ← copy_value len g (val + 1); Some (c :: l, fits)
  end.
Fixpoint getenv_f_loop (n : nat) (g : genv) (name : list Z) (len i : Z) : option (Z * list Z) :=
  match n with
  | O => None
  | S n =>
      c ← env_get_char g i;
      if c =? 0 then Some (-1, [])
      else
        nxt ← find_end (S (length (env_get_addr g))) g i;
        match nxt with
        | None => Some (-1, [])
        | Some nxt =>
            val ← envmatch g name i;
            if val <? 0 then getenv_f_loop n g name len (nxt + 1)
            else
              '(l, fits) ← copy_value (Z.to_nat len) g val;
              if (fits : bool) then Some (zlen l, l)
              else Some (zlen l, take (length l - 1) l)
        end
  end.
(** The return value and the string in the buffer. *)
Definition getenv_f (g : genv) (name : list Z) (len : Z) : option (Z * list Z) :=
  getenv_f_loop (S (length (env_get_addr g))) g name len 0.

(** ** Reading variables *)
Definition sizeof_env_buf : Z := 32.
Definition getenv (g : genv) (name : list Z) : option (option (list Z)) :=
  if env_ready g then
    r ← hsearch_r (mkENTRY (Some name) None None 0) FIND (env_htab g) 0;
    match retval r with
    | Some ep => s ← slot (env_htab g) ep; Some (data (entry s))
    | None => Some None
    end
  else
    '(n, buf) ← getenv_f g name sizeof_env_buf;
    if 0 <? n then Some (Some buf) else Some None.
Definition getenv_default (g : genv) (name : list Z) : option (option (list Z)) :=
  getenv (mkgenv false false (env_addr g) (env_htab g) (env_id g)) name.
Definition getenv_ulong (g : genv) (name : list Z) (base default_val : Z) : option Z :=
  str ← getenv g name;
  Some (match str with Some s => fst (simple_strtoul s base) | None => default_val end).
Definition getenv_hex (g : genv) (varname : list Z) (default_val : Z) : option Z :=
  s ← getenv g varname;
  Some (match s with
        | None => default_val
        | Some s =>
            let '(value, endp) := simple_strtoul s 16 in
            if same_place endp s then default_val else value
        end).
Definition getenv_yesno (g : genv) (var : list Z) : option Z :=
  s ← getenv g var;
  Some (match s with
        | None => -1
        | Some s =>
            let c := chr s in
            if (c =? 49) || (c =? 121) || (c =? 89) || (c =? 116) || (c =? 84) then 1 else 0
        end).

(** ** Setting variables *)
(** The characters of an option; [None] is an unknown one. *)
Fixpoint set_options (arg : list Z) (env_flag : Z) : option Z :=
  match arg with
  | [] => Some env_flag
  | c :: r => if c =? 102 then set_options r (env_flag .| H_FORCE) else None
  end.
(** The options in front of the name. *)
Fixpoint skip_options (argv : list (list Z)) (env_flag : Z) : option (list (list Z) * Z) :=
  match argv with
  | a :: r =>
      if chr a =? 45 then f ← set_options (tail a) env_flag; skip_options r f
      else Some (argv, env_flag)
  | [] => Some ([], env_flag)
  end.
(** The values with a blank between them. *)
Fixpoint join_values (args : list (list Z)) : list Z :=
  match args with
  | [] => []
  | [a] => a
  | a :: args => a ++ 32 :: join_values args
  end.
Fixpoint values_len (args : list (list Z)) : Z :=
  match args with [] => 0 | a :: args => zlen a + 1 + values_len args end.

(** [argv] starts behind the name of the command.  Without a name the code reads the
    string at [NULL]. *)
Definition _do_env_set (g : genv) (argv : list (list Z)) : option (Z * genv) :=
  match skip_options argv H_INTERACTIVE with
  | None => Some (CMD_RET_USAGE, g)
  | Some ([], _) => None
  | Some (name :: values, env_flag) =>
      match strchr name 61 with
      | Some _ => Some (1, g)
      | None =>
          let g := mkgenv (env_ready g) (env_valid g) (env_addr g) (env_htab g) (s32 (env_id g + 1)) in
          match values with
          | [] =>
              r ← hdelete_r name (env_htab g) env_flag;
              Some (if ret r =? 0 then 1 else 0, set_htab g (tab r))
          | _ =>
              if negb (malloc_ok (values_len values)) then Some (1, g)
              else
                r ← hsearch_r (mkENTRY (Some name) (Some (join_values values)) None 0) ENTER
                      (env_htab g) env_flag;
                let g := set_htab g (tab r) in
                match retval r with
                | None => Some (1, g)
                | Some _ => Some (0, g)
                end
          end
      end
  end.
Definition do_env_set (g : genv) (argv : list (list Z)) : option (Z * genv) :=
  match argv with [] => Some (CMD_RET_USAGE, g) | _ => _do_env_set g argv end.
Definition setenv (g : genv) (varname : list Z) (varvalue : option (list Z)) : option (Z * genv) :=
  if negb (env_ready g) then Some (1, g)
  else
    match varvalue with
    | None | Some [] => _do_env_set g [varname]
    | Some v => _do_env_set g [varname; v]
    end.
Definition setenv_ulong (g : genv) (varname : list Z) (value : Z) : option (Z * genv) :=
  str ← simple_itoa value; setenv g varname (Some str).
(** The buffer has room for 16 characters. *)
Definition setenv_hex (g : genv) (varname : list Z) (value : Z) : option (Z * genv) :=
  str ← sprintf "%lx" [VInt value];
  if 16 <? zlen str then None else setenv g varname (Some str).

(** ** Flags of the variables *)
Definition set_slot_flags (h : hsearch_data) (ep f : Z) : option hsearch_data :=
  s ← slot h ep; Some (set_slot h ep (mk_ENTRY (used s) (set_flags_of (entry s) f))).
Definition clear_flags (e : ENTRY) : Z * ENTRY := (0, set_flags_of e 0).
Definition set_flags (name : list Z) (value : option (list Z)) (h : hsearch_data)
    : option (Z * hsearch_data) :=
  r ← hsearch_r (mkENTRY (Some name) None None 0) FIND h 0;
  match retval r with
  | None => Some (0, tab r)
  | Some ep =>
      f ← match value with
          | None | Some [] => Some 0
          | Some v => env_parse_flags_to_bin v
          end;
      h ← set_slot_flags (tab r) ep f; Some (0, h)
  end.
(** The callback of [.flags] on a new value. *)
Definition on_flags (h : hsearch_data) (value : option (list Z)) : option (Z * hsearch_data) :=
  '(_, h) ← hwalk_r h clear_flags;
  '(_, h) ← env_attr_walk malloc_ok set_flags (Some ENV_FLAGS_LIST_STATIC) h;
  '(_, h) ← env_attr_walk malloc_ok set_flags value h;
  Some (0, h).

(** ** Callbacks of the variables *)
(** The linker list: the names and the functions of the callbacks. *)
Context (env_clbk : list (list Z * Z)).

Fixpoint find_env_callback_loop (tbl : list (list Z * Z)) (name : list Z) : option Z :=
  match tbl with
  | [] => None
  | (n, f) :: tbl => if strcmp name n =? 0 then Some f else find_env_callback_loop tbl name
  end.
Definition find_env_callback (name : option (list Z)) : option Z :=
  match name with None => None | Some name => find_env_callback_loop env_clbk name end.

Definition set_callback_of (e : ENTRY) (f : option Z) : ENTRY := mkENTRY (key e) (data e) f (flags e).
(** [callback_list] is what [getenv(ENV_CALLBACK_VAR)] returned. *)
Definition env_callback_init (before before_static : list Z) (callback_list : option (list Z))
    (var_entry : ENTRY) : option ENTRY :=
  var_name ← key var_entry;
  let callback_name := replicate 256 0 in
  '(ret, buf) ←
    match callback_list with
    | Some _ => env_attr_lookup before callback_list var_name (Some callback_name)
    | None => Some (1, Some callback_name)
    end;
  '(ret, buf) ←
    (if negb (ret =? 0) then env_attr_lookup before_static (Some ENV_CALLBACK_LIST_STATIC) var_name buf
     else Some (ret, buf));
  let callback_name := buf_string (default [] buf) in
  if (ret =? 0) && negb (zlen callback_name =? 0) then
    match find_env_callback (Some callback_name) with
    | Some clbkp => Some (set_callback_of var_entry (Some clbkp))
    | None => Some var_entry
    end
  else Some var_entry.

Definition set_slot_callback (h : hsearch_data) (ep : Z) (f : option Z) : option hsearch_data :=
  s ← slot h ep; Some (set_slot h ep (mk_ENTRY (used s) (set_callback_of (entry s) f))).
Definition clear_callback (e : ENTRY) : Z * ENTRY := (0, set_callback_of e None).
Definition set_callback (name : list Z) (value : option (list Z)) (h : hsearch_data)
    : option (Z * hsearch_data) :=
  r ← hsearch_r (mkENTRY (Some name) None None 0) FIND h 0;
  match retval r with
  | None => Some (0, tab r)
  | Some ep =>
      match value with
      | None | Some [] => h ← set_slot_callback (tab r) ep None; Some (0, h)
      | Some v =>
          match find_env_callback (Some v) with
          | Some clbkp => h ← set_slot_callback (tab r) ep (Some clbkp); Some (0, h)
          | None => Some (0, tab r)
          end
      end
  end.
Definition on_callbacks (h : hsearch_data) (value : option (list Z)) : option (Z * hsearch_data) :=
  '(_, h) ← hwalk_r h clear_callback;
  '(_, h) ← env_attr_walk malloc_ok set_callback (Some ENV_CALLBACK_LIST_STATIC) h;
  '(_, h) ← env_attr_walk malloc_ok set_callback value h;
  Some (0, h).

(** ** Importing *)
Definition ENV_SIZE : Z := CONFIG_ENV_SIZE - 4.
(** [s] is the message: one that starts with '!' is a warning. *)
Definition set_default_env (g : genv) (s : option (list Z)) : option genv :=
  if ENV_SIZE <? zlen default_environment then Some g
  else
    let flags := match s with Some s => if chr s =? 33 then 0 else H_INTERACTIVE | None => 0 end in
    '(_, h) ← himport_r (env_htab g) default_environment 0 flags [];
    Some (set_ready (set_htab g h)).
Definition set_default_vars (g : genv) (vars : list (list Z)) : option (Z * genv) :=
  '(r, h) ← himport_r (env_htab g) default_environment 0 (H_NOCLEAR .| H_INTERACTIVE) vars;
  Some (r, set_htab g h).
(** [buf] is [env_t]: a little-endian checksum and [ENV_SIZE] bytes at the address [addr]. *)
Definition env_import (g : genv) (addr : Z) (buf : list Z) (check : bool) : option (Z * genv) :=
  let env_data := take (Z.to_nat ENV_SIZE) (drop 4 buf) in
  if check && negb (crc32 0 (addr + 4) env_data =? le (take 4 buf)) then
    g ← set_default_env g (Some (codes "!bad CRC")); Some (0, g)
  else
    '(r, h) ← himport_r (env_htab g) env_data 0 0 [];
    let g := set_htab g h in
    if negb (r =? 0) then Some (1, set_ready g)
    else g ← set_default_env g (Some (codes "!import failed")); Some (0, g).
End env.

(** ** The image read character by character *)
Section image.
Context {Hooks : EnvHooks} (default_environment : list Z) (CONFIG_ENV_SIZE : Z).
Abbreviation image := (env_get_addr default_environment).

Lemma get_char_app g a c b : image g = a ++ c :: b ->
  env_get_char default_environment g (zlen a) = Some c.
Proof. intros H. unfold env_get_char. rewrite H, Nat2Z.id. by apply list_lookup_middle. Qed.

Lemma envmatch_ok g : forall name k a r, str_ok name -> 61 ∉ name -> str_ok k -> 61 ∉ k ->
  image g = a ++ k ++ 61 :: r ->
  envmatch default_environment g name (zlen a) =
  Some (if bool_decide (name = k) then zlen a + zlen k + 1 else -1).
Proof.
  intros name k a r Hname. revert k a r.
  induction Hname as [|c name Hc Hname IH]; intros k a r Hn61 Hk Hk61 Hg; cbn [envmatch].
  - destruct Hk as [|d k Hd Hk]; rewrite (get_char_app g a _ _ Hg); cbn [mbind option_bind].
    + cbn. by rewrite Z.add_0_r.
    + apply not_elem_of_cons in Hk61 as [Hd61 _]. unfold char_ok in Hd.
      destruct (Z.eqb_spec d 0), (Z.eqb_spec d 61); try lia. done.
  - apply not_elem_of_cons in Hn61 as [Hc61 Hn61].
    destruct Hk as [|d k Hd Hk]; rewrite (get_char_app g a _ _ Hg); cbn [mbind option_bind].
    + destruct (Z.eqb_spec c 61); [lia|]. done.
    + apply not_elem_of_cons in Hk61 as [Hd61 Hk61].
      destruct (Z.eqb_spec c d) as [->|Hcd]; [|by rewrite bool_decide_false by congruence].
      destruct (Z.eqb_spec d 61); [lia|].
      replace (zlen a + 1) with (zlen (a ++ [d])) by (rewrite length_app; cbn; lia).
      rewrite (IH k (a ++ [d]) r) by (try done; by rewrite <- app_assoc).
      rewrite (bool_decide_ext (d :: name = d :: k) (name = k)) by (split; congruence).
      f_equal. case_bool_decide; [|done]. rewrite length_app. cbn. lia.
Qed.

Lemma find_end_ok g : forall n s a r, 0 ∉ s -> (length s < n)%nat -> zlen a + zlen s <= CONFIG_ENV_SIZE ->
  image g = a ++ s ++ 0 :: r ->
  find_end default_environment CONFIG_ENV_SIZE n g (zlen a) = Some (Some (zlen a + zlen s)).
Proof.
  induction n as [|n IH]; intros s a r Hs Hn Hsz Hg; [lia|]. cbn [find_end].
  destruct s as [|c s]; rewrite (get_char_app g a _ _ Hg); cbn [mbind option_bind].
  - cbn. by rewrite Z.add_0_r.
  - apply not_elem_of_cons in Hs as [Hc Hs]. cbn in Hn, Hsz.
    destruct (Z.eqb_spec c 0); [lia|]. destruct (Z.leb_spec CONFIG_ENV_SIZE (zlen a)); [lia|].
    replace (zlen a + 1) with (zlen (a ++ [c])) by (rewrite length_app; cbn; lia).
    rewrite (IH s (a ++ [c]) r) by (try done; rewrite ?length_app, <- ?app_assoc; cbn; try done; lia).
    rewrite length_app. cbn. do 2 f_equal. lia.
Qed.

Lemma copy_value_ok g : forall len v a r, 0 ∉ v -> image g = a ++ v ++ 0 :: r ->
  copy_value default_environment len g (zlen a) = Some (take len v, bool_decide (length v < len)%nat).
Proof.
  induction len as [|len IH]; intros v a r Hv Hg; cbn [copy_value]; [by rewrite bool_decide_false by lia|].
  destruct v as [|c v]; rewrite (get_char_app g a _ _ Hg); cbn [mbind option_bind].
  - cbn. by rewrite bool_decide_true by lia.
  - apply not_elem_of_cons in Hv as [Hc Hv]. destruct (Z.eqb_spec c 0); [lia|].
    replace (zlen a + 1) with (zlen (a ++ [c])) by (rewrite length_app; cbn; lia).
    rewrite (IH v (a ++ [c]) r) by (try done; by rewrite <- app_assoc). cbn [mbind option_bind take].
    do 2 f_equal. apply bool_decide_ext. cbn. lia.
Qed.

(** The variables of an image. *)
Definition readable (p : pair) : Prop := str_ok (fst p) /\ 61 ∉ fst p /\ str_ok (snd p).
Fixpoint first_value (name : list Z) (l : list pair) : option (list Z) :=
  match l with
  | [] => None
  | (k, d) :: l => if bool_decide (name = k) then Some d else first_value name l
  end.
(** What [getenv_f] leaves for a value. *)
Definition fit (len : Z) (v : list Z) : Z * list Z :=
  if zlen v <? len then (zlen v, v) else (len, take (Z.to_nat len - 1) v).

Lemma escape_str_ok d : str_ok d -> str_ok (escape 0 d).
Proof.
  induction 1 as [|c d Hc Hd IH]; cbn [escape]; [constructor|]. unfold str_ok in *. apply Forall_app. split; [|done].
  case_if; repeat (apply Forall_cons; split; [done|]); constructor.
Qed.
Lemma str_ok_no_nul s : str_ok s -> 0 ∉ s.
Proof. intros H H0. unfold str_ok in H. rewrite Forall_forall in H. specialize (H 0 H0). unfold char_ok in H. lia. Qed.

Lemma fit_take len v : 0 <= len ->
  (let '(l, fits) := (take (Z.to_nat len) v, bool_decide (length v < Z.to_nat len)%nat) in
   if (fits : bool) then Some (zlen l, l) else Some (zlen l, take (length l - 1) l)) = Some (fit len v).
Proof.
  intros Hlen. unfold fit. case_bool_decide.
  - rewrite take_ge by lia. by replace (zlen v <? len) with true by lia.
  - replace (zlen v <? len) with false by lia. rewrite length_take, Nat.min_l by lia.
    rewrite take_take, Nat.min_l by lia. do 2 f_equal. lia.
Qed.

Lemma getenv_f_loop_ok g name len : str_ok name -> 61 ∉ name -> 0 <= len ->
  forall l n a pad, Forall readable l -> (length l < n)%nat ->
  zlen a + zlen (text_of 0 l) <= CONFIG_ENV_SIZE -> image g = a ++ text_of 0 l ++ 0 :: pad ->
  getenv_f_loop default_environment CONFIG_ENV_SIZE n g name len (zlen a) =
  Some (match first_value name l with Some d => fit len (escape 0 d) | None => (-1, []) end).
Proof.
  intros Hname H61 Hlen. induction l as [|[k d] l IH]; intros n a pad Hl Hn Hsz Hg;
    (destruct n as [|n]; [cbn in Hn; lia|]); cbn [getenv_f_loop].
  - by rewrite (get_char_app g a _ _ Hg).
  - apply Forall_cons in Hl as [(Hk & Hk61 & Hd) Hl]. cbn [fst snd] in *.
    assert (Hv : 0 ∉ escape 0 d) by by apply str_ok_no_nul, escape_str_ok.
    assert (Hg1 : image g = a ++ (k ++ 61 :: escape 0 d) ++ 0 :: text_of 0 l ++ 0 :: pad).
    { rewrite Hg. cbn [text_of]. unfold pair_text. cbn [fst snd]. by rewrite <- !app_assoc. }
    assert (exists c s, k ++ 61 :: escape 0 d = c :: s /\ c <> 0) as (c0 & s0 & Hhd & Hc0).
    { destruct Hk as [|c k Hc _]; [by eexists _, _|]. unfold char_ok in Hc. cbn. eexists _, _. split; [done|lia]. }
    assert (env_get_char default_environment g (zlen a) = Some c0) as ->.
    { eapply get_char_app. rewrite Hg1, Hhd. done. }
    cbn [mbind option_bind]. destruct (Z.eqb_spec c0 0); [done|].
    assert (Hlen2 : zlen (k ++ 61 :: escape 0 d) + 1 + zlen (text_of 0 l) = zlen (text_of 0 ((k, d) :: l))).
    { cbn [text_of]. unfold pair_text. cbn [fst snd]. rewrite !length_app. cbn [length]. rewrite ?length_app. cbn [length]. lia. }
    rewrite (find_end_ok g _ (k ++ 61 :: escape 0 d) a (text_of 0 l ++ 0 :: pad)); [|..|exact Hg1].
    2: { rewrite elem_of_app, elem_of_cons. intros [H|[H|H]]; [by apply (str_ok_no_nul k)|done|done]. }
    2: { rewrite Hg1, !length_app. cbn [length]. lia. }
    2: lia.
    cbn [mbind option_bind].
    rewrite (envmatch_ok g name k a (escape 0 d ++ 0 :: text_of 0 l ++ 0 :: pad)) by
      (try done; rewrite Hg1; by rewrite <- !app_assoc).
    cbn [mbind option_bind first_value]. case_bool_decide.
    + destruct (Z.ltb_spec (zlen a + zlen k + 1) 0); [lia|].
      replace (zlen a + zlen k + 1) with (zlen (a ++ k ++ [61])) by (rewrite !length_app; cbn; lia).
      rewrite (copy_value_ok g _ (escape 0 d) _ (text_of 0 l ++ 0 :: pad) Hv) by
        (rewrite Hg1, <- !app_assoc; done).
      cbn [mbind option_bind]. by apply fit_take.
    + cbn [Z.ltb Z.compare].
      replace (zlen a + zlen (k ++ 61 :: escape 0 d) + 1) with (zlen (a ++ (k ++ 61 :: escape 0 d) ++ [0]))
        by (rewrite !length_app; cbn; lia).
      apply (IH n _ pad Hl); [cbn in Hn; lia| |rewrite Hg1, <- !app_assoc; done].
      rewrite !length_app. cbn [length]. rewrite length_app in Hlen2. cbn [length] in Hlen2. lia.
Qed.

Lemma getenv_f_ok g name len l pad : str_ok name -> 61 ∉ name -> 0 <= len ->
  Forall readable l -> zlen (text_of 0 l) <= CONFIG_ENV_SIZE -> image g = text_of 0 l ++ 0 :: pad ->
  getenv_f default_environment CONFIG_ENV_SIZE g name len =
  Some (match first_value name l with Some d => fit len (escape 0 d) | None => (-1, []) end).
Proof.
  intros Hname H61 Hlen Hl Hsz Hg.
  apply (getenv_f_loop_ok g name len Hname H61 Hlen l _ [] pad Hl); [|cbn; lia|done].
  rewrite Hg, length_app. cbn [length]. pose proof (text_entries 0 l). lia.
Qed.
End image.

(** The first variable of a name is the one the map has. *)
Lemma first_value_map (M : gmap (list Z) (list Z)) l name : l ≡ₚ map_to_list M -> first_value name l = M !! name.
Proof.
  intros Hp. assert (Hnd : NoDup l.*1) by (rewrite Hp; apply NoDup_fst_map_to_list).
  assert (Hin : forall d, (name, d) ∈ l <-> M !! name = Some d).
  { intros d. by rewrite Hp, elem_of_map_to_list. }
  clear Hp. destruct (first_value name l) as [d|] eqn:E.
  - symmetry. apply Hin. clear -E. induction l as [|[k d'] l IH]; cbn in E; [done|].
    case_bool_decide; simplify_eq; apply elem_of_cons; auto.
  - destruct (M !! name) as [d|] eqn:HM; [|done]. exfalso. specialize (proj2 (Hin d) eq_refl).
    clear -E. intros Hd. induction l as [|[k d'] l IH]; cbn in E; [by apply elem_of_nil in Hd|].
    case_bool_decide; [done|]. apply elem_of_cons in Hd as [[= -> ->]|Hd]; [done|auto].
Qed.
Lemma escape_plain d : str_ok d -> 92 ∉ d -> escape 0 d = d.
Proof.
  induction 1 as [|c d Hc Hd IH]; intros H; [done|]. cbn [escape]. apply not_elem_of_cons in H as [H1 H2].
  unfold char_ok in Hc. rewrite IH by done. case_if; [lia|done].
Qed.
