(* ===== verification/EnvSpec.v ===== *)
(** * The environment follows its specification

    The handlers of [.flags] and [.callbacks] set the attributes that a new variable would
    get, [setenv] and [getenv] implement a finite map, and a variable reads the same from the
    saved image as from the table. *)
From S2P Require Import Prelude Ctype Mem CStr Qsort Hashtable HashProbe HashSpec HashExport.
From S2P Require Import Vsprintf VsprintfSpec EnvAttr EnvFlags Crc EnvVar.

(** ** Attributes of entries *)
(** The flags or the callback of an entry, as a getter and a setter. *)
Class Attribute (A : Type) := {
  get : ENTRY -> A;
  set : ENTRY -> A -> ENTRY;
  get_set e a : get (set e a) = a;
  set_key e a : key (set e a) = key e;
  set_data_ e a : data (set e a) = data e }.
#[export] Instance flags_attribute : Attribute Z.
Proof. by refine {| get := flags; set := set_flags_of |}. Defined.
#[export] Instance callback_attribute : Attribute (option Z).
Proof. by refine {| get := callback; set := set_callback_of |}. Defined.

Section attribute.
Context {Hooks : EnvHooks} {A : Type} {Attr : Attribute A}.

Definition put_attr (s : _ENTRY) (a : A) : _ENTRY := mk_ENTRY (used s) (set (entry s) a).
Lemma put_attr_same s a : same_slot s (put_attr s a).
Proof. unfold same_slot, put_attr. cbn. by rewrite set_key, set_data_. Qed.

(** [h'] is [h] with new attributes, those of the live slots given by [f]. *)
Definition updated (h h' : hsearch_data) (f : Z -> list Z -> A -> A) : Prop :=
  same_slots h h' /\ forall i s k, 0 <= i -> slot h i = Some s -> live s = true -> key (entry s) = Some k ->
    exists s', slot h' i = Some s' /\ get (entry s') = f i k (get (entry s)).
Lemma updated_refl h f : (forall i k a, f i k a = a) -> updated h h f.
Proof. intros Hf. split; [apply same_slots_refl|]. intros i s k _ Hs _ _. exists s. by rewrite Hf. Qed.
Lemma updated_trans h1 h2 h3 f g : updated h1 h2 f -> updated h2 h3 g ->
  updated h1 h3 (fun i k a => g i k (f i k a)).
Proof.
  intros [S1 F1] [S2 F2]. split; [by apply (same_slots_trans _ h2)|].
  intros i s k Hi Hs Hl Hk. destruct (F1 i s k) as (s2 & Hs2 & Hg2); [done..|].
  destruct (same_slots_slot _ _ _ _ S1 Hs) as (s2' & Hs2' & Hu & Hk2 & _). simplify_eq.
  destruct (F2 i s2 k) as (s3 & Hs3 & Hg3); [done|done|unfold live in *; by rewrite Hu|by rewrite Hk2|].
  exists s3. by rewrite Hg3, Hg2.
Qed.
Lemma updated_ext h h' f g : updated h h' f -> (forall i k a, f i k a = g i k a) -> updated h h' g.
Proof.
  intros [S F] H. split; [done|]. intros i s k Hi Hs Hl Hk. destruct (F i s k) as (s' & ? & ?); [done..|].
  exists s'. by rewrite <- H.
Qed.
(** Setting the attribute of one slot. *)
Lemma updated_set h i s a : 0 <= i -> slot h i = Some s ->
  updated h (set_slot h i (put_attr s a)) (fun j _ a0 => if j =? i then a else a0).
Proof.
  intros Hi Hs. split; [apply (set_slot_same h i s); [done|done|apply put_attr_same]|].
  intros j s1 k Hj Hs1 _ _. destruct (Z.eqb_spec j i) as [->|Hne].
  - simplify_eq. exists (put_attr s a). split; [by apply (slot_set_eq h i s)|]. cbn. apply get_set.
  - exists s1. by rewrite slot_set_ne.
Qed.

(** *** The walk over the table *)
Lemma hwalk_loop_ok a0 : forall n i h, wf h -> 1 <= i -> i + Z.of_nat n = size h + 1 ->
  exists h', hwalk_loop n i h (fun e => (0, set e a0)) = Some (0, h')
    /\ updated h h' (fun j _ a => if i <=? j then a0 else a).
Proof.
  induction n as [|n IH]; intros i h Hwf Hi Hn; cbn [hwalk_loop].
  - exists h. split; [done|]. split; [apply same_slots_refl|]. intros j s k Hj Hs _ _. exists s.
    pose proof (slot_range h j s Hwf Hs). destruct (Z.leb_spec i j); [lia|done].
  - destruct (slot_some h i Hwf) as (s & Hs & _); [lia|]. rewrite Hs. cbn [mbind option_bind].
    destruct (0 <? used s) eqn:El.
    + change (mk_ENTRY (used s) (set (entry s) a0)) with (put_attr s a0).
      pose proof (updated_set h i s a0 ltac:(lia) Hs) as Hup.
      destruct (IH (i + 1) (set_slot h i (put_attr s a0))) as (h' & -> & Hup');
        [by apply (same_slots_wf h); [apply Hup|]|lia|cbn; lia|].
      exists h'. split; [done|]. apply (updated_ext _ _ _ _ (updated_trans _ _ _ _ _ Hup Hup')).
      intros j k a. cbn. destruct (Z.leb_spec (i + 1) j), (Z.leb_spec i j), (Z.eqb_spec j i); lia || done.
    + destruct (IH (i + 1) h Hwf) as (h' & -> & [Hsame Hup]); [lia..|].
      exists h'. split; [done|]. split; [done|]. intros j s1 k Hj Hs1 Hl Hk.
      destruct (Hup j s1 k) as (s' & Hs' & Hg); [done..|]. exists s'. split; [done|]. rewrite Hg.
      destruct (Z.leb_spec (i + 1) j), (Z.leb_spec i j); try lia; try done.
      assert (j = i) as -> by lia. simplify_eq. unfold live in Hl. congruence.
Qed.
Lemma hwalk_ok a0 h : wf h -> exists h', hwalk_r h (fun e => (0, set e a0)) = Some (0, h')
    /\ updated h h' (fun _ _ _ => a0).
Proof.
  intros Hwf. pose proof (wf_size h Hwf). unfold hwalk_r.
  destruct (hwalk_loop_ok a0 (Z.to_nat (size h)) 1 h Hwf) as (h' & -> & [Hs Hup]); [lia..|].
  exists h'. split; [done|]. split; [done|]. intros i s k Hi Hsl Hl Hk.
  destruct (Hup i s k) as (s' & Hs' & Hg); [done..|]. exists s'. split; [done|]. rewrite Hg.
  destruct (Z.leb_spec 1 i); [done|]. assert (i = 0) as -> by lia.
  pose proof (wf_zero h Hwf s Hsl). unfold live in Hl. lia.
Qed.

(** *** The walk over a list *)
(** [attr_of v]: the attribute a binding sets, [None] when it leaves the old one. *)
Context (attr_of : option (list Z) -> option A).
Definition bind (k : list Z) (b : list Z * option (list Z)) (a : A) : A :=
  if bool_decide (fst b = k) then default a (attr_of (snd b)) else a.
Definition bind_all (k : list Z) (l : list (list Z * option (list Z))) (a : A) : A :=
  foldl (fun a b => bind k b a) a l.

(** What a callback of the walk has to do with one binding. *)
Definition sets (f : list Z -> option (list Z) -> hsearch_data -> option (Z * hsearch_data))
    (ok : list Z -> Prop) : Prop :=
  forall h M name v, rep h M -> str_ok name -> ok (default [] v) ->
    exists h', f name v h = Some (0, h') /\ updated h h' (fun _ k a => bind k (name, v) a).

Lemma run_bindings_ok f ok : sets f ok -> forall l h M, rep h M ->
  Forall (fun b => str_ok (fst b) /\ ok (default [] (snd b))) l ->
  exists h', run_bindings f l h = Some (0, h') /\ updated h h' (fun _ k a => bind_all k l a).
Proof.
  intros Hf. induction l as [|[name v] l IH]; intros h M Hrep Hl; cbn [run_bindings].
  - exists h. split; [done|]. by apply updated_refl.
  - apply Forall_cons in Hl as [[Hn Hv] Hl]. destruct (Hf h M name v Hrep Hn Hv) as (h1 & -> & Hup1).
    cbn [mbind option_bind]. cbn [Z.eqb negb].
    destruct (IH h1 M) as (h2 & -> & Hup2); [by apply (same_slots_rep h); [apply Hup1|]|done|].
    exists h2. split; [done|]. by apply (updated_ext _ _ _ _ (updated_trans _ _ _ _ _ Hup1 Hup2)).
Qed.

(** Setting the attribute of the slot a search found. *)
Lemma set_found h M name d i s a : rep h M -> holds h i name d -> slot h i = Some s ->
  updated h (set_slot h i (put_attr s a)) (fun _ k a0 => if bool_decide (name = k) then a else a0).
Proof.
  intros [Hwf _] Hh Hs. pose proof Hh as [Hi _]. destruct (updated_set h i s a Hi Hs) as [Hsame Hup].
  split; [done|]. intros j s1 k Hj Hs1 Hl Hk. destruct (Hup j s1 k) as (s' & Hs' & Hg); [done..|].
  exists s'. split; [done|]. rewrite Hg. destruct (Z.eqb_spec j i) as [->|Hne].
  - simplify_eq. destruct Hh as [_ (s0 & ? & _ & Hk0 & _)]. simplify_eq. by rewrite bool_decide_true.
  - rewrite bool_decide_false; [done|]. intros ->. apply Hne.
    destruct (wf_table h Hwf) as (t & Ht & _ & Hok & _). unfold slot in Hs1. rewrite Ht in Hs1. cbn in Hs1.
    apply (Forall_lookup_1 _ _ _ _ Hok) in Hs1 as Hso. unfold live in Hl.
    destruct Hso as [?|[?|(k' & d' & Hk' & Hd' & _)]]; [lia|lia|]. simplify_eq.
    apply (wf_unique h Hwf j i k d' d); [|done]. split; [done|]. exists s1. unfold slot, live. by rewrite Ht.
Qed.
End attribute.

(** ** The handlers of [.flags] and [.callbacks] *)
Definition bin_of (t : list Z) : Z :=
  match t with [] => 0 | _ => bin_flags (env_flags_parse_vartype t) (env_flags_parse_varaccess t) end.
Definition flag_attr (v : option (list Z)) : option Z := Some (bin_of (default [] v)).
Definition callback_attr (clbk : list (list Z * Z)) (v : option (list Z)) : option (option Z) :=
  match v with
  | None | Some [] => Some None
  | Some v => Some <$> find_env_callback clbk (Some v)
  end.

Lemma Forall_skip_spaces P s : Forall P s -> Forall P (skip_spaces s).
Proof. induction 1; cbn; [constructor|]. case_if; [done|by constructor]. Qed.
Lemma strim_str_ok s : str_ok s -> str_ok (strim s).
Proof.
  intros Hs. unfold strim. apply Forall_skip_spaces in Hs. destruct (skip_spaces s); [done|].
  apply Forall_reverse. change strim_end with skip_spaces. by apply Forall_skip_spaces, Forall_reverse.
Qed.
Lemma bindings_str_ok s : str_ok s ->
  Forall (fun b => str_ok (fst b) /\ str_ok (default [] (snd b))) (entry_bindings s).
Proof.
  intros Hs. unfold entry_bindings.
  assert (Forall (fun b => str_ok (fst b) /\ str_ok (default [] (snd b)))
    (entry_binding <$> split ENV_ATTR_LIST_DELIM s)) as H.
  { apply Forall_fmap, (Forall_impl _ _ _ (split_str_ok ENV_ATTR_LIST_DELIM s Hs)). intros e He. cbn.
    unfold entry_binding, until. destruct (strchr e ENV_ATTR_SEP) as [k|]; cbn; split;
      try apply strim_str_ok; try (by apply Forall_take); try (by apply Forall_drop); [done|constructor]. }
  rewrite Forall_forall in H |- *. intros b [_ Hb]%list_elem_of_filter. by apply H.
Qed.

Section handlers.
Context {Hooks : EnvHooks} (clbk : list (list Z * Z)).

Lemma set_slot_flags_ok h i s f : slot h i = Some s -> set_slot_flags h i f = Some (set_slot h i (put_attr s f)).
Proof. intros Hs. unfold set_slot_flags. by rewrite Hs. Qed.
Lemma set_slot_callback_ok h i s f : slot h i = Some s ->
  set_slot_callback h i f = Some (set_slot h i (put_attr s f)).
Proof. intros Hs. unfold set_slot_callback. by rewrite Hs. Qed.

Lemma set_missing {A} {Attr : Attribute A} (attr_of : option (list Z) -> option A) (h : hsearch_data) (M : gmap (list Z) (list Z)) name v :
  rep h M -> M !! name = None -> updated h h (fun _ k a => bind attr_of k (name, v) a).
Proof.
  intros [Hwf Hden] HM. split; [apply same_slots_refl|]. intros i s k Hi Hs Hl Hk. exists s. split; [done|].
  unfold bind. cbn. rewrite bool_decide_false; [done|]. intros ->.
  destruct (wf_table h Hwf) as (t & Ht & _ & Hok & _). unfold slot in Hs. rewrite Ht in Hs. cbn in Hs.
  apply (Forall_lookup_1 _ _ _ _ Hok) in Hs as Hso. unfold live in Hl.
  destruct Hso as [?|[?|(k' & d & Hk' & Hd & _)]]; [lia|lia|]. simplify_eq.
  enough (M !! k = Some d) by congruence. apply Hden. exists i. split; [done|].
  exists s. unfold slot, live. by rewrite Ht.
Qed.

Lemma set_flags_sets : sets flag_attr set_flags str_ok.
Proof.
  intros h M name v Hrep Hn Hv. destruct (find_ok h M name 0 Hrep Hn) as [Hnone Hsome].
  unfold set_flags. destruct (M !! name) as [d|] eqn:HM.
  - destruct (Hsome d eq_refl) as (i & Hh & ->). cbn [mbind option_bind retval tab].
    pose proof Hh as [Hi (s & Hs & _)].
    assert ((match v with None | Some [] => Some 0 | Some v => env_parse_flags_to_bin v end) = Some (bin_of (default [] v))) as ->.
    { destruct v as [[|c v]|]; [done| |done]. cbn [default]. by rewrite parse_to_bin. }
    cbn [mbind option_bind]. rewrite (set_slot_flags_ok h i s) by done. cbn [mbind option_bind].
    eexists. split; [done|].
    exact (updated_ext _ _ _ _ (set_found h M name d i s _ Hrep Hh Hs) (fun _ _ _ => eq_refl)).
  - rewrite Hnone by done. eexists. split; [done|]. by apply (set_missing flag_attr h M).
Qed.
Lemma set_callback_sets : sets (callback_attr clbk) (set_callback clbk) str_ok.
Proof.
  intros h M name v Hrep Hn Hv. destruct (find_ok h M name 0 Hrep Hn) as [Hnone Hsome].
  unfold set_callback. destruct (M !! name) as [d|] eqn:HM.
  - destruct (Hsome d eq_refl) as (i & Hh & ->). cbn [mbind option_bind retval tab].
    pose proof Hh as [Hi (s & Hs & _)].
    assert (Hset : forall f, callback_attr clbk v = Some f ->
      updated h (set_slot h i (put_attr s f)) (fun _ k a => bind (callback_attr clbk) k (name, v) a)).
    { intros f Hf. apply (updated_ext _ _ _ _ (set_found h M name d i s f Hrep Hh Hs)).
      intros _ k a. unfold bind. cbn [fst snd]. by rewrite Hf. }
    destruct v as [[|c v]|]; unfold callback_attr in Hset;
      [|destruct (find_env_callback clbk (Some (c :: v))) as [f|] eqn:E|].
    1,2,4: rewrite (set_slot_callback_ok h i s) by done; eexists; (split; [done|]); by apply Hset.
    exists h. split; [done|]. apply updated_refl. intros j k a. unfold bind, callback_attr. cbn [fst snd].
    rewrite E. by case_bool_decide.
  - rewrite Hnone by done. eexists. split; [done|]. by apply (set_missing (callback_attr clbk) h M).
Qed.

Lemma walk_ok {S_} f s (st : S_) :
  env_attr_walk (fun _ => true) f (Some s) st = run_bindings f (entry_bindings s) st.
Proof. apply walk_loop_ok. lia. Qed.

(** Both handlers: clear, then the static list, then the value. *)
Lemma handler_ok {A} {Attr : Attribute A} (attr_of : option (list Z) -> option A) f a0 (h : hsearch_data) M static v :
  sets attr_of f str_ok -> rep h M -> str_ok static -> str_ok v ->
  exists h', ('(_, h) ← hwalk_r h (fun e => (0, set e a0));
              '(_, h) ← env_attr_walk (fun _ => true) f (Some static) h;
              '(_, h) ← env_attr_walk (fun _ => true) f (Some v) h;
              Some (0, h)) = Some (0, h')
    /\ updated h h' (fun _ k _ => bind_all attr_of k (entry_bindings v)
                                    (bind_all attr_of k (entry_bindings static) a0)).
Proof.
  intros Hf Hrep Hs Hv. pose proof Hrep as [Hwf _].
  destruct (hwalk_ok a0 h Hwf) as (h1 & -> & Hup1). cbn [mbind option_bind].
  assert (rep h1 M) as Hrep1 by (by apply (same_slots_rep h); [apply Hup1|]).
  rewrite walk_ok.
  destruct (run_bindings_ok attr_of f str_ok Hf (entry_bindings static) h1 M Hrep1 (bindings_str_ok _ Hs))
    as (h2 & -> & Hup2). cbn [mbind option_bind].
  assert (rep h2 M) as Hrep2 by (by apply (same_slots_rep h1); [apply Hup2|]).
  rewrite walk_ok.
  destruct (run_bindings_ok attr_of f str_ok Hf (entry_bindings v) h2 M Hrep2 (bindings_str_ok _ Hv))
    as (h3 & -> & Hup3). cbn [mbind option_bind].
  exists h3. split; [done|].
  apply (updated_trans _ _ _ _ _ (updated_trans _ _ _ _ _ Hup1 Hup2) Hup3).
Qed.
End handlers.

Lemma bind_all_last k l a : bind_all flag_attr k l a =
  match last_binding k l with Some t => bin_of t | None => a end.
Proof.
  unfold bind_all, last_binding. induction l as [|b l IH] using rev_ind; [done|].
  rewrite foldl_app, filter_app. cbn [foldl]. unfold bind at 1. cbn [flag_attr default].
  case_bool_decide as E.
  - by rewrite filter_cons_True, filter_nil, last_snoc.
  - by rewrite filter_cons_False, filter_nil, app_nil_r.
Qed.

Lemma static_tidy : tidy ENV_FLAGS_LIST_STATIC.
Proof.
  split; [|by_computation].
  assert (Forall (fun c => isspace c = true -> c = 32) ENV_FLAGS_LIST_STATIC) as H by by_computation.
  rewrite Forall_forall in H. exact H.
Qed.

(** ** Reading and setting variables *)
Lemma value_lower b ds : 1 < b -> Forall (fun d => 0 <= d < b) ds -> ds <> [] -> last ds <> Some 0 ->
  b ^ (zlen ds - 1) <= value b ds.
Proof.
  intros Hb. induction 1 as [|d ds Hd Hds IH]; intros Hne Hl; [done|].
  destruct ds as [|e ds]; [cbn in *; assert (d <> 0) by congruence; lia|].
  specialize (IH ltac:(done) Hl). cbn [value] in *.
  replace (zlen (d :: e :: ds) - 1) with (Z.succ (zlen (e :: ds) - 1)) by (cbn [length]; lia).
  rewrite Z.pow_succ_r by (cbn [length]; lia). nia.
Qed.
Lemma digits_len num ds : is_digits 16 num ds -> 0 <= num < 0x100000000 -> zlen ds <= 8.
Proof.
  intros (Hf & Hv & Hne & Hl & H0) Hn. destruct (Z.eq_dec num 0) as [E|E]; [by rewrite (H0 E)|].
  pose proof (value_lower 16 ds ltac:(lia) Hf Hne (Hl E)) as Hlow. rewrite Hv in Hlow.
  destruct (Z.le_gt_cases (zlen ds) 8) as [?|Hgt]; [done|].
  pose proof (Z.pow_le_mono_r 16 8 (zlen ds - 1) ltac:(lia) ltac:(lia)). lia.
Qed.
(** The text of a number in hexadecimal. *)
Lemma sprintf_lx v : 0 <= v < 0x100000000 -> exists s, sprintf "%lx" [VInt v] = Some s
  /\ s <> [] /\ zlen s <= 16 /\ str_ok s /\ simple_strtoul s 16 = (v, []).
Proof.
  intros Hv. destruct (number_plain v 16 SMALL) as (ds & Hds & Heq); [by right; right|by right|lia|].
  exists (reverse (map (dchar SMALL) ds)).
  assert (sprintf "%lx" [VInt v] = (out ← number (u32 v) 16 (-1) (-1) SMALL; Some out)) as ->.
  { lazy -[number u32]. by destruct (number (u32 v) 16 (-1) (-1) 32). }
  rewrite u32_small, Heq by lia. pose proof (digits_len v ds Hds Hv) as Hlen.
  pose proof Hds as (Hf & _ & Hne & _). split_and!.
  - done.
  - intros H. apply (f_equal length) in H. rewrite length_reverse, length_map in H. by destruct ds.
  - rewrite length_reverse, length_map. lia.
  - apply Forall_reverse, Forall_fmap. apply (Forall_impl _ _ _ Hf). intros d Hd.
    cbn. unfold char_ok. assert (all_below 16 (fun d => (0 <? dchar SMALL d) && (dchar SMALL d <? 256)) = true) as Hc by by vm_compute.
    pose proof (all_below_spec _ _ Hc d Hd). cbn in *. lia.
  - rewrite <- (app_nil_r (reverse _)). rewrite (strtoul_digits SMALL 16 v ds []); [by rewrite u32_small by lia|by right|by right; right|done|done].
Qed.

Section variables.
Context {Hooks : EnvHooks} (default_environment : list Z) (CONFIG_ENV_SIZE : Z).

Lemma getenv_ok g M name : env_ready g = true -> rep (env_htab g) M -> str_ok name ->
  getenv default_environment CONFIG_ENV_SIZE g name = Some (M !! name).
Proof.
  intros Hr Hrep Hn. unfold getenv. rewrite Hr. destruct (find_ok _ M name 0 Hrep Hn) as [Hnone Hsome].
  destruct (M !! name) as [d|].
  - destruct (Hsome d eq_refl) as (i & (Hi & s & Hs & _ & _ & Hd) & ->). cbn. by rewrite Hs, <- Hd.
  - by rewrite Hnone.
Qed.

(** A name that [setenv] does not take for an option. *)
Definition settable (name : list Z) : Prop := str_ok name /\ chr name <> 45 /\ 61 ∉ name.
(** The map after [setenv]: an empty value removes the variable. *)
Definition setenv_map (M : gmap (list Z) (list Z)) (name : list Z) (v : option (list Z)) : gmap (list Z) (list Z) :=
  match v with None | Some [] => delete name M | Some v => <[name := v]> M end.
Definition removes (v : option (list Z)) : bool := match v with None | Some [] => true | _ => false end.

Context {HooksOk : EnvHooksOk} (Hdup : forall s, strdup s = Some s).

Lemma skip_options_name name values : settable name ->
  skip_options (name :: values) H_INTERACTIVE = Some (name :: values, H_INTERACTIVE).
Proof. intros (_ & Hc & _). cbn [skip_options]. destruct (Z.eqb_spec (chr name) 45); done. Qed.

(** Several values become one with blanks between them. *)
Lemma env_set_ok g M name values c v : rep (env_htab g) M -> settable name ->
  room (env_htab g) \/ is_Some (M !! name) -> join_values values = c :: v ->
  exists r g', _do_env_set (fun _ => true) g (name :: values) = Some (r, g')
    /\ env_ready g' = env_ready g
    /\ ((r = 0 /\ rep (env_htab g') (<[name := c :: v]> M)) \/ (r = 1 /\ rep (env_htab g') M))
    /\ (accepts (env_htab g) H_INTERACTIVE -> r = 0).
Proof.
  intros Hrep Hname Hroom Hjoin. pose proof Hname as (Hn & _ & H61).
  assert (Hstr : strchr name 61 = None) by by apply strchr_none.
  destruct values as [|a values]; [done|]. unfold _do_env_set.
  rewrite skip_options_name, Hstr by done. cbn [negb env_htab]. rewrite Hjoin.
  destruct (enter_ok (env_htab g) M name (c :: v) H_INTERACTIVE Hrep Hn Hroom (Hdup _) (Hdup _))
    as (r & Hent & Hres & Hacc). unfold item in Hent. rewrite Hent. cbn [mbind option_bind].
  destruct Hres as [(He & Hrep' & _ & _ & _ & i & Hi & _)|(Hi & _ & He & Hrep')]; rewrite Hi;
    eexists _, _; (split; [done|]); (split; [done|]); cbn [set_htab env_htab].
  - split; [by left|done].
  - split; [by right|]. intros Ha. specialize (Hacc Ha). destruct He; unfold EPERM, Hashtable.EINVAL in *; lia.
Qed.

Lemma setenv_ok g M name v : env_ready g = true -> rep (env_htab g) M -> settable name ->
  room (env_htab g) \/ is_Some (M !! name) ->
  exists r g', setenv (fun _ => true) g name v = Some (r, g') /\ env_ready g' = true
    /\ ((r = 0 /\ rep (env_htab g') (setenv_map M name v)) \/ (r = 1 /\ rep (env_htab g') M))
    /\ (accepts (env_htab g) H_INTERACTIVE -> r = if removes v && bool_decide (M !! name = None) then 1 else 0).
Proof.
  intros Hr Hrep Hname Hroom. pose proof Hname as (Hn & _ & H61). unfold setenv. rewrite Hr. cbn [negb].
  assert (Hstr : strchr name 61 = None) by by apply strchr_none.
  assert (Hdel : exists r g', _do_env_set (fun _ => true) g [name] = Some (r, g') /\ env_ready g' = true
    /\ ((r = 0 /\ rep (env_htab g') (delete name M)) \/ (r = 1 /\ rep (env_htab g') M))
    /\ (accepts (env_htab g) H_INTERACTIVE -> r = if bool_decide (M !! name = None) then 1 else 0)).
  { unfold _do_env_set. rewrite skip_options_name, Hstr by done. cbn [env_htab].
    destruct (delete_ok (env_htab g) M name H_INTERACTIVE Hrep Hn) as (r & -> & Hno & Hyes & Hacc).
    cbn [mbind option_bind]. eexists _, _. split; [done|]. split; [done|]. cbn [set_htab env_htab].
    destruct (M !! name) as [d|] eqn:HM.
    - rewrite bool_decide_false by done. split.
      + destruct (Hyes ltac:(done)) as [[-> ?]|[-> [_ ?]]]; [by left|by right].
      + intros Ha. by rewrite (Hacc Ha ltac:(done)).
    - rewrite bool_decide_true, (Hno eq_refl) by done. split; [right; done|done]. }
  destruct v as [[|c v]|]; [exact Hdel| |exact Hdel]. clear Hdel. cbn [removes andb setenv_map].
  destruct (env_set_ok g M name [c :: v] c v Hrep Hname Hroom eq_refl) as (r & g' & Hset & Hr' & Hres).
  exists r, g'. split; [exact Hset|]. split; [congruence|exact Hres].
Qed.
End variables.

(** ** Properties *)

(** C28: When the variable [.flags] changes, [on_flags] gives every variable of the table the
    flags its name has in the new list, else in the static list, else none, and changes
    nothing else; it is the flags that [env_flags_init] gives to a variable that is created
    afterwards. *)
Theorem on_flags_correct {Hooks : EnvHooks} h M v before before_static
    (Hrep : rep h M) (Hnames : forall k, is_Some (M !! k) -> name_ok k)
    (Hv : list_ok before v) (Htidy : tidy v) (Hstatic : list_ok before_static ENV_FLAGS_LIST_STATIC) :
  exists h', on_flags (fun _ => true) h (Some v) = Some (0, h') /\ same_slots h h' /\ rep h' M
    /\ forall i k d, holds h i k d -> exists s', slot h' i = Some s'
         /\ flags (entry s') = match flags_text (Some v) k with Some t => bin_of t | None => 0 end
         /\ forall c e, env_flags_init before before_static (Some v) (mkENTRY (Some k) (Some d) c 0) = Some e ->
              flags e = flags (entry s').
Proof.
  destruct (handler_ok flag_attr set_flags 0 h M ENV_FLAGS_LIST_STATIC v set_flags_sets Hrep
    static_str_ok (proj1 Hv)) as (h' & Hon & [Hsame Hup]).
  exists h'. split; [exact Hon|]. split; [done|]. split; [by apply (same_slots_rep h)|].
  intros i k d Hh. pose proof Hh as [Hi (s & Hs & Hl & Hk & Hd)].
  assert (Hname : name_ok k) by (apply Hnames; exists d; apply Hrep; eauto).
  pose proof Hname as (Hne & _).
  destruct (Hup i s k Hi Hs Hl Hk) as (s' & Hs' & Hf). exists s'. split; [done|].
  assert (Hfl : flags (entry s') = match flags_text (Some v) k with Some t => bin_of t | None => 0 end).
  { change (get (entry s')) with (flags (entry s')) in Hf. rewrite Hf, !bind_all_last.
    rewrite (bindings_attrs v k Htidy Hne), (bindings_attrs _ k static_tidy Hne).
    unfold flags_text. destruct (attrs_of v k); [done|]. by destruct (attrs_of ENV_FLAGS_LIST_STATIC k). }
  split; [done|]. intros c e He. rewrite Hfl.
  rewrite (flags_init_ok before before_static (Some v) k Hname Hstatic Hv) in He by done.
  unfold init_flags in He. cbn [flags] in He.
  destruct (flags_text (Some v) k) as [[|c0 t]|]; cbn in He; [by simplify_eq| |by simplify_eq].
  destruct (_ <=? _); [|done]. cbn in He. by simplify_eq.
Qed.

(** C27: [setenv] and [getenv] on the table: [setenv] ends and returns 0 with the value
    stored (an empty value removes the variable), or returns 1 and changes no variable; it
    returns 1 for accepted changes only when a variable to remove does not exist; then
    [getenv] of any name returns what the map has. *)
Theorem setenv_getenv_correct {Hooks : EnvHooks} {HooksOk : EnvHooksOk} default_environment CONFIG_ENV_SIZE
    g M name v (Hdup : forall s, strdup s = Some s)
    (Hready : env_ready g = true) (Hrep : rep (env_htab g) M) (Hname : settable name)
    (Hroom : room (env_htab g) \/ is_Some (M !! name)) :
  exists r g' M', setenv (fun _ => true) g name v = Some (r, g') /\ rep (env_htab g') M'
    /\ M' = (if r =? 0 then setenv_map M name v else M) /\ (r = 0 \/ r = 1)
    /\ (accepts (env_htab g) H_INTERACTIVE ->
        r = if removes v && bool_decide (M !! name = None) then 1 else 0)
    /\ forall n, str_ok n -> getenv default_environment CONFIG_ENV_SIZE g' n = Some (M' !! n).
Proof.
  destruct (setenv_ok Hdup g M name v Hready Hrep Hname Hroom) as (r & g' & Hset & Hr' & Hres & Hacc).
  exists r, g'. destruct Hres as [[-> Hrep']|[-> Hrep']]; eexists; (split; [exact Hset|]);
    (split; [exact Hrep'|]); (split; [done|]); (split; [auto|]); (split; [done|]);
    intros n Hn; by apply getenv_ok.
Qed.

(** [getenv_hex] reads back what [setenv_hex] stored: the buffer of 17 bytes holds the
    text of every 32-bit number, and when the variable is stored its value is the number. *)
Theorem setenv_hex_roundtrip {Hooks : EnvHooks} {HooksOk : EnvHooksOk} default_environment CONFIG_ENV_SIZE
    g M name value default_val (Hdup : forall s, strdup s = Some s)
    (Hready : env_ready g = true) (Hrep : rep (env_htab g) M) (Hname : settable name)
    (Hroom : room (env_htab g) \/ is_Some (M !! name)) (Hvalue : 0 <= value < 0x100000000) :
  exists r g', setenv_hex (fun _ => true) g name value = Some (r, g')
    /\ (accepts (env_htab g) H_INTERACTIVE -> r = 0)
    /\ (r = 0 -> getenv_hex default_environment CONFIG_ENV_SIZE g' name default_val = Some value).
Proof.
  destruct (sprintf_lx value Hvalue) as (s & Hs & Hne & Hlen & _ & Hparse).
  unfold setenv_hex. rewrite Hs. cbn [mbind option_bind]. destruct (Z.ltb_spec 16 (zlen s)); [lia|].
  destruct (setenv_ok Hdup g M name (Some s) Hready Hrep Hname Hroom) as (r & g' & Hset & Hr' & Hres & Hacc).
  exists r, g'. split; [exact Hset|]. destruct s as [|c s]; [done|]. split; [exact Hacc|]. intros ->.
  destruct Hres as [[_ Hrep']|[? _]]; [|done]. unfold getenv_hex.
  rewrite (getenv_ok _ _ g' _ name Hr' Hrep') by apply Hname. cbn [setenv_map mbind option_bind].
  rewrite lookup_insert_eq, Hparse. done.
Qed.

(** The environment before the import, with a good saved image. *)
Definition saved (g : genv) (image : list Z) : Prop :=
  env_ready g = false /\ env_valid g = true /\ env_addr g = image.

(** C31: Before the import, [getenv] with the restricted environment reads the image that [hexport_r]
    made of a table: for a map whose values are not empty and have no backslash it gives the
    first 31 characters of the value of a variable, what fits into its buffer, and nothing for a
    name that the map does not have. *)
Theorem early_getenv_agrees {Hooks : EnvHooks} default_environment CONFIG_ENV_SIZE h M g sz image name
    (Hrep : rep h M) (Hmem : forall n, calloc_ok n = true)
    (HM : forall k d, M !! k = Some d -> ascii k /\ 61 ∉ k /\ counted 0 (k, d) /\ d <> [])
    (Hlen : total_len 0 (map_to_list M) + 1 < CONFIG_ENV_SIZE) (Hsize : CONFIG_ENV_SIZE < 0x100000000)
    (Himage : hexport_r h 0 0 None 0 [] = Some (sz, 0, image))
    (Hg : saved g image)
    (Hname : str_ok name) (H61 : 61 ∉ name) :
  getenv default_environment CONFIG_ENV_SIZE g name = Some (take 31 <$> M !! name).
Proof.
  destruct Hg as (Hg & Hvalid & Haddr).
  destruct (export_ok h M 0 Hrep Hmem) as (l & Hp & _ & Hle & Hr);
    [intros k d Hkd; by apply HM in Hkd as (? & _ & ? & _)|lia|].
  rewrite Hr in Himage. injection Himage as _ Himg.
  assert (Hl : Forall readable l).
  { rewrite Hp. apply Forall_forall. intros [k d] Hin. apply elem_of_map_to_list in Hin.
    apply HM in Hin as (Ha & Hk & [Hd _] & _). split; [by apply ascii_ok|]. done. }
  unfold getenv. rewrite Hg.
  rewrite (getenv_f_ok default_environment CONFIG_ENV_SIZE g name sizeof_env_buf l
    (repeat 0 (Z.to_nat (total_len 0 (map_to_list M) + 1 - (zlen (text_of 0 l) + 1)))));
    [|done|done|done|done|lia|unfold env_get_addr; by rewrite Hvalid, Haddr, <- Himg].
  cbn [mbind option_bind]. rewrite (first_value_map M l name Hp).
  destruct (M !! name) as [d|] eqn:Hd; [|done].
  apply HM in Hd as (_ & _ & [Hdok H92] & Hne). rewrite escape_plain by (done || by apply H92).
  unfold fit, sizeof_env_buf. destruct (Z.ltb_spec (zlen d) 32); cbn [fmap option_fmap option_map].
  - destruct (Z.ltb_spec 0 (zlen d)); [|destruct d; [done|cbn in *; lia]]. by rewrite take_ge by lia.
  - done.
Qed.

(** ** The theorems at a concrete environment *)
Definition one_env (h : hsearch_data) : genv := mkgenv true true [] h 0.
Definition one_image : list Z :=
  match hexport_r one_table 0 0 None 0 [] with Some (_, _, i) => i | None => [] end.
Lemma baudrate_ok : str_ok (codes "baudrate") /\ settable (codes "baudrate").
Proof. unfold settable, str_ok, char_ok. split_and!; by_computation. Qed.
Lemma static_list_ok : list_ok [0] ENV_FLAGS_LIST_STATIC.
Proof. split_and!; [exact static_str_ok|by vm_compute|by exists 0, []]. Qed.

Lemma on_flags_correct_witness :
  exists h', on_flags (fun _ => true) one_table (Some (codes "baudrate:dr")) = Some (0, h') /\ rep h' one_var.
Proof.
  destruct (on_flags_correct one_table one_var (codes "baudrate:dr") [0] [0] one_table_rep)
    as (h' & H1 & _ & H2 & _); [| | |exact static_list_ok|exists h'; split; [exact H1|exact H2]].
  - intros k [d Hk]. unfold one_var in Hk. apply lookup_singleton_Some in Hk as [<- _].
    unfold name_ok, str_ok, char_ok. split_and!; by_computation.
  - split_and!; [unfold str_ok, char_ok; by_computation|by vm_compute|by exists 0, []].
  - split; [|by_computation].
    assert (Forall (fun c => isspace c = true -> c = 32) (codes "baudrate:dr")) as H by by_computation.
    rewrite Forall_forall in H. exact H.
Defined.
Lemma setenv_getenv_correct_witness : exists g',
  setenv (fun _ => true) (one_env one_table) (codes "baudrate") (Some (codes "9600")) = Some (0, g')
  /\ getenv [] 0 g' (codes "baudrate") = Some (Some (codes "9600")).
Proof.
  destruct (setenv_getenv_correct [] 0 (one_env one_table) one_var (codes "baudrate") (Some (codes "9600")))
    as (r & g' & M' & Hs & _ & HM & _ & Hr & Hget);
    [done|done|exact one_table_rep|exact (proj2 baudrate_ok)|right; by exists (codes "115200")|].
  assert (accepts one_table H_INTERACTIVE) as Ha by (split; intros; reflexivity).
  specialize (Hr Ha). subst r. exists g'. split; [exact Hs|].
  rewrite Hget by exact (proj1 baudrate_ok). rewrite HM.
  exact (f_equal Some (lookup_insert_eq one_var (codes "baudrate") (codes "9600"))).
Defined.
Lemma setenv_hex_roundtrip_witness : exists g',
  setenv_hex (fun _ => true) (one_env one_table) (codes "baudrate") 0xbeef = Some (0, g')
  /\ getenv_hex [] 0 g' (codes "baudrate") 7 = Some 0xbeef.
Proof.
  destruct (setenv_hex_roundtrip [] 0 (one_env one_table) one_var (codes "baudrate") 0xbeef 7)
    as (r & g' & Hs & Hr & Hget);
    [done|done|exact one_table_rep|exact (proj2 baudrate_ok)|right; by exists (codes "115200")|lia|].
  assert (accepts one_table H_INTERACTIVE) as Ha by (split; intros; reflexivity).
  specialize (Hr Ha). subst r. exists g'. split; [exact Hs|exact (Hget eq_refl)].
Defined.
Lemma early_getenv_agrees_witness :
  getenv [] 4096 (mkgenv false true one_image no_table 0) (codes "baudrate") = Some (Some (codes "115200")).
Proof.
  rewrite (early_getenv_agrees [] 4096 one_table one_var _ 19 one_image (codes "baudrate") one_table_rep);
    [unfold one_var; by rewrite lookup_singleton_eq|by intros| | |lia|by vm_compute|done|exact (proj1 baudrate_ok)|by_computation].
  - intros k d Hk. apply one_var_ok in Hk as Ho. destruct Ho as (Ha & _ & (_ & Hd & Hne & Hk61 & _)).
    split_and!; [exact Ha|exact Hk61|split; [exact Hd|]|exact Hne]. cbn [snd].
    intros _. unfold one_var in Hk. apply lookup_singleton_Some in Hk as [_ <-]. by_computation.
  - unfold one_var. rewrite map_to_list_singleton. by vm_compute.
Defined.

(** [setenv -f] without a name: the options are skipped and the string at [NULL] is read. *)
Lemma do_env_set_reads_null : do_env_set (fun _ => true) (one_env one_table) [codes "-f"] = None.
Proof. reflexivity. Qed.
(** A name that starts with '-' cannot be set by [setenv]: it is taken for an option. *)
Lemma setenv_takes_option :
  setenv (fun _ => true) (one_env one_table) (codes "-x") (Some (codes "1"))
  = Some (CMD_RET_USAGE, one_env one_table).
Proof. reflexivity. Qed.
(** Before the import a backslash is read twice: [getenv_f] does not undo the escapes. *)
Lemma early_getenv_keeps_escapes :
  getenv [] 4096 (mkgenv false true (text_of 0 [(codes "a", [92])] ++ [0]) no_table 0) (codes "a")
  = Some (Some [92; 92]).
Proof. vm_compute. reflexivity. Qed.
