(* ===== verification/Pll.v ===== *)
(** * PLL parameters: [arch/mips/cpu/xburst/x1000/pll_params_creator.c]

    The host program that computes the register fields of the two PLLs and of the system
    clock dividers from the frequencies of the board.  It writes a C header; a problem is an
    [#error] line in it, which stops the compilation of the boot loader. *)
From S2P Require Import Prelude.

(** ** Data *)
Definition M (x : Z) : Z := x * 1000 * 1000.
Definition MAX_H0_CLK : Z := M 200.
Definition MAX_H2_CLK : Z := M 200.
Definition MAX_P_CLK : Z := M 150.
Definition MAX_L2_CLK : Z := M 600.
Definition SEL_APLL : Z := 1.
Definition SEL_MPLL : Z := 2.

Record pll_setting := mk_setting {
  apll_freq : Z;
  mpll_freq : Z;
  cpu_freq : Z;
  cpu_sel_pll : Z;
  ddr_sel_pll : Z }.

Record div_setting := mk_div {
  cdiv : Z;
  l2div : Z;
  h0div : Z;
  h2div : Z;
  pdiv : Z;
  sel_h2pll : Z;
  sel_h0pll : Z;
  sel_cpll : Z;
  sel_src : Z }.

Record pll_control := mk_pll { pllod : Z; plln : Z; pllm : Z; bs : Z }.

(** What [out_error] writes into the header. *)
Inductive diag :=
| no_adjust_parameter (fout fin : Z)
| pll_below_cpu (cpll freq cpu : Z)
| pll_not_divided (cpll freq cpu : Z)
| cpu_div_range (div : Z)
| l2_div_range (div : Z)
| h0_div_range (div : Z)
| h2_div_range (div : Z)
| p_div_range (div : Z).

(** ** A PLL

    The search for the input divider [nrok]; [Some None] is the jump to [err]. *)
Definition pll_divider (fout nf nrok : Z) : option (Z * Z * Z) :=
  if nrok <=? 64 then Some (0, s32 nrok, s32 (fout * 1))
  else if (nrok <=? 128) && (Z.rem nf 2 =? 0) then
    if negb (Z.rem nf 2 =? 0) then None else Some (1, s32 (nrok / 2), s32 (fout * 2))
  else if (nrok <=? 256) && (Z.rem nf 4 =? 0) then
    if negb (Z.rem nf 4 =? 0) then None else Some (2, s32 (nrok / 4), s32 (fout * 4))
  else if (nrok <=? 512) && (Z.rem nf 8 =? 0) then Some (3, s32 (nrok / 8), s32 (fout * 8))
  else None.

Fixpoint nfro_loop (fuel : nat) (fin fout nrok : Z) : option (option (Z * Z * Z * Z)) :=
  match fuel with
  | O => None
  | S fuel =>
      let nrok := u32 (nrok + 1) in
      let nf := s32 (u32 (fout * nrok) / u32 fin) in
      if 128 <? nf then Some None
      else if negb (u32 (s32 (fin * nf)) =? u32 (fout * nrok)) then nfro_loop fuel fin fout nrok
      else match pll_divider fout nf nrok with
      | None => Some None
      | Some (no, nr, fvco) =>
          if (63 <=? fout) && (500 <=? fvco) then Some (Some (nf, nr, no, 1))
          else if (36 <=? fout) && (300 <=? fvco) && (fvco <=? 600) then
            Some (Some (nf, nr, no, 0))
          else nfro_loop fuel fin fout nrok
      end
  end.

(** The bits of the register, the structure behind [p] and the messages. *)
Definition gen_pll_regester_nfro (extern_clk pll_out_clk : Z) (p : pll_control)
  : option (Z * pll_control * list diag) :=
  let fin := s32 (extern_clk / 1000000) in
  let fout := s32 (pll_out_clk / 1000000) in
  let err := Some (0, p, [no_adjust_parameter fout fin]) in
  if (fin <? 10) || (50 <? fin) || (fout <? 36) then err
  else
    r ← nfro_loop 200 fin fout 0;
    match r with
    | None => err
    | Some (nf, nr, no, b) =>
        let mnod := u32 (((b ≪ 31) .| ((nf - 1) ≪ 24)) .| ((nr - 1) ≪ 18) .| (no ≪ 16)) in
        Some (mnod, mk_pll (u32 no mod 2 ^ 2) (u32 (nr - 1) mod 2 ^ 5) (u32 (nf - 1) mod 2 ^ 7)
                           (u32 b mod 2 ^ 1), [])
    end.

(** ** The dividers *)
Fixpoint min_div_loop (fuel : nat) (src_clk max_clk div : Z) : option Z :=
  match fuel with
  | O => None
  | S fuel =>
      if max_clk <? src_clk / u32 div then min_div_loop fuel src_clk max_clk (s32 (div + 1))
      else Some div
  end.
Definition find_min_div (src_clk max_clk : Z) : option Z := min_div_loop 32 src_clk max_clk 1.

(** A range check of the source, with its conjunction. *)
Definition range_check (div : Z) (d : diag) : list diag :=
  if (div <? 0) && (16 <? div) then [d] else [].

(** A division by zero is [None]. *)
Definition udiv (a b : Z) : option Z := if b =? 0 then None else Some (a / b).
Definition umod (a b : Z) : option Z := if b =? 0 then None else Some (a mod b).

Definition pick_pll (s : pll_setting) (i : Z) : Z := if i =? 0 then apll_freq s else mpll_freq s.

(** [pdiv0] is what the field [pdiv] held before. *)
Definition gen_sys_div (setting : pll_setting) (pdiv0 : Z) : option (div_setting * list diag) :=
  let cpll := if cpu_sel_pll setting =? SEL_APLL then 0 else 1 in
  let periph_pll := if ddr_sel_pll setting =? SEL_APLL then 0 else 1 in
  let cfreq := pick_pll setting cpll in
  let pfreq := pick_pll setting periph_pll in
  let cpu := cpu_freq setting in
  let e1 := if cfreq <? cpu then [pll_below_cpu cpll cfreq cpu] else [] in
  r ← umod cfreq cpu;
  let e2 := if negb (r =? 0) then [pll_not_divided cpll cfreq cpu] else [] in
  c ← udiv cfreq cpu;
  let cd := s32 (c - 1) in
  l2 ← find_min_div cfreq MAX_L2_CLK;
  let l2d := s32 (l2 - 1) in
  h0 ← find_min_div pfreq MAX_H0_CLK;
  let h0d := s32 (h0 - 1) in
  h2 ← find_min_div pfreq MAX_H2_CLK;
  let h2d := s32 (h2 - 1) in
  let errs := e1 ++ e2 ++ range_check cd (cpu_div_range cd) ++ range_check l2d (l2_div_range l2d)
                ++ range_check h0d (h0_div_range h0d) in
  let done pd e := Some (mk_div cd l2d h0d h2d pd (periph_pll + 1) (periph_pll + 1) (cpll + 1) 2,
                         errs ++ e) in
  if (h2d <? 0) && (16 <? h2d) then done pdiv0 [h2_div_range h2d]
  else
    h2_freq ← udiv pfreq (u32 (h2d + 1));
    h2_pdiv ← find_min_div h2_freq MAX_P_CLK;
    p_freq ← udiv h2_freq (u32 h2_pdiv);
    p ← udiv pfreq p_freq;
    let pd := s32 (p - 1) in
    done pd (range_check pd (p_div_range pd)).

(** ** The generated header *)
Record pll_config := mk_config {
  CONFIG_SYS_EXTAL : Z;
  CONFIG_SYS_APLL_FREQ : Z;
  CONFIG_SYS_MPLL_FREQ : Z;
  CONFIG_SYS_CPU_FREQ : Z;
  CONFIG_CPU_SEL_PLL : Z;
  CONFIG_DDR_SEL_PLL : Z }.

Record pll_reg_values := mk_values {
  APLL_CTRL : pll_control;
  APLL_EN_VALUE : Z;
  MPLL_CTRL : pll_control;
  MPLL_EN_VALUE : Z;
  DIV_VALUES : div_setting }.

(** [apll0], [mpll0] and [pdiv0] are the uninitialised variables on the stack. *)
Definition pll_params_creator (apll0 mpll0 : pll_control) (pdiv0 : Z) (cfg : pll_config)
  : option (pll_reg_values * list diag) :=
  '(apll, actrl, e1) ←
    gen_pll_regester_nfro (CONFIG_SYS_EXTAL cfg) (CONFIG_SYS_APLL_FREQ cfg) apll0;
  '(mpll, mctrl, e2) ←
    gen_pll_regester_nfro (CONFIG_SYS_EXTAL cfg) (CONFIG_SYS_MPLL_FREQ cfg) mpll0;
  '(div, e3) ← gen_sys_div (mk_setting (CONFIG_SYS_APLL_FREQ cfg) (CONFIG_SYS_MPLL_FREQ cfg)
    (CONFIG_SYS_CPU_FREQ cfg) (CONFIG_CPU_SEL_PLL cfg) (CONFIG_DDR_SEL_PLL cfg)) pdiv0;
  Some (mk_values actrl (if apll =? 0 then 0 else 1) mctrl (if mpll =? 0 then 0 else 1) div,
        e1 ++ e2 ++ e3).

(** The clocks of the cu1000-neo. *)
Definition cu1000_clocks : pll_config :=
  mk_config 24000000 1008000000 600000000 1008000000 SEL_APLL SEL_MPLL.
Definition blank_pll : pll_control := mk_pll 0 0 0 0.
Definition cu1000_regs : pll_reg_values :=
  mk_values (mk_pll 0 0 41 1) 1 (mk_pll 0 0 24 1) 1 (mk_div 0 1 2 2 5 2 2 1 2).
Example cu1000_values :
  pll_params_creator blank_pll blank_pll 0 cu1000_clocks = Some (cu1000_regs, []).
Proof. vm_compute. reflexivity. Qed.

(** ** The search finds the reduced fraction

    The factors of a PLL are the numerator and the denominator of the reduced quotient of the
    two frequencies in MHz. *)
Definition pll_nf (fin fout : Z) : Z := fout / Z.gcd fin fout.
Definition pll_nr (fin fout : Z) : Z := fin / Z.gcd fin fout.

Lemma pll_factors fin fout (Hf : 0 < fin) (Ho : 0 < fout) :
  0 < pll_nf fin fout /\ 0 < pll_nr fin fout <= fin
  /\ fin * pll_nf fin fout = fout * pll_nr fin fout
  /\ forall n, (fin | fout * n) -> (pll_nr fin fout | n).
Proof.
  unfold pll_nf, pll_nr.
  destruct (Z.gcd_divide_l fin fout) as [a Ha], (Z.gcd_divide_r fin fout) as [b Hb].
  pose proof (Z.gcd_nonneg fin fout) as Hn.
  assert (Z.gcd fin fout <> 0) as H0 by (intros H; apply Z.gcd_eq_0 in H; lia).
  set (g := Z.gcd fin fout) in *.
  assert (fin / g = a) as -> by (rewrite Ha; by apply Z.div_mul).
  assert (fout / g = b) as -> by (rewrite Hb; by apply Z.div_mul).
  assert (Z.gcd a b = 1) as Hab.
  { pose proof (Z.gcd_mul_mono_r_nonneg a b g ltac:(lia)) as H. rewrite <- Ha, <- Hb in H.
    fold g in H. nia. }
  split_and!; [nia..|]. intros n [q Hq].
  apply (Z.gauss _ b); [|done]. exists q. nia.
Qed.

(** Every other fraction is an extension of the reduced one. *)
Lemma pll_multiple fin fout m n (Hf : 0 < fin) (Ho : 0 < fout) (Hm : 1 <= m) (Hn : 1 <= n)
  (E : fin * m = fout * n) :
  exists q, 1 <= q /\ m = q * pll_nf fin fout /\ n = q * pll_nr fin fout.
Proof.
  destruct (pll_factors fin fout Hf Ho) as (Hnf & Hnr & Heq & Hdiv).
  destruct (Hdiv n) as [q Hq]; [exists m; lia|]. exists q. assert (1 <= q) by nia.
  split_and!; [done| |done]. apply (Z.mul_reg_l _ _ fin); [lia|]. rewrite E, Hq.
  rewrite Z.mul_shuffle3, <- Heq. ring.
Qed.

(** One round of the search, without the conversions. *)
Lemma nfro_round fuel fin fout k (Hf : 10 <= fin <= 50) (Ho : 36 <= fout <= 4294)
  (Hk : 0 <= k <= 180) :
  let n := k + 1 in let nf := fout * n / fin in
  nfro_loop (S fuel) fin fout k =
  if 128 <? nf then Some None
  else if negb (fin * nf =? fout * n) then nfro_loop fuel fin fout n
  else match pll_divider fout nf n with
  | None => Some None
  | Some (no, nr, fvco) =>
      if (63 <=? fout) && (500 <=? fvco) then Some (Some (nf, nr, no, 1))
      else if (36 <=? fout) && (300 <=? fvco) && (fvco <=? 600) then Some (Some (nf, nr, no, 0))
      else nfro_loop fuel fin fout n
  end.
Proof.
  intros n nf. cbn [nfro_loop]. rewrite (u32_small (k + 1)) by lia. fold n.
  assert (0 <= fout * n < 1000000) by nia.
  rewrite (u32_small (fout * n)), (u32_small fin) by lia.
  assert (0 <= nf < 1000000)
    by (split; [apply Z.div_pos; lia|apply Z.div_lt_upper_bound; lia]).
  fold nf. rewrite (s32_small nf) by lia. destruct (128 <? nf) eqn:E; [done|].
  rewrite s32_small, u32_small by nia. done.
Qed.

Lemma divider_low fout nf n fin (Hf : 10 <= fin <= 50) (Ho : 36 <= fout <= 4294)
  (Hn : 0 < n <= 180) (He : fin * nf = fout * n) (H128 : nf <= 128) :
  if decide (300 <= fout) then pll_divider fout nf n = Some (0, n, fout)
  else pll_divider fout nf n = None
       \/ exists no nr v, pll_divider fout nf n = Some (no, nr, v) /\ v < 300.
Proof.
  assert (fout * n <= 6400) by nia. unfold pll_divider. destruct (decide _).
  - replace (n <=? 64) with true by nia. unwrap. eq_lia.
  - repeat case_if; try (left; reflexivity); right; do 3 eexists; (split; [reflexivity|]);
      rewrite s32_small by lia; nia.
Qed.

Definition nfro_ref (fin fout : Z) : option (Z * Z * Z * Z) :=
  if (300 <=? fout) && (pll_nf fin fout <=? 128) then
    Some (pll_nf fin fout, pll_nr fin fout, 0, if 500 <=? fout then 1 else 0)
  else None.

Lemma nfro_loop_ok fuel fin fout k (Hf : 10 <= fin <= 50) (Ho : 36 <= fout <= 4294)
  (Hk : 0 <= k <= 180) (Hfuel : 181 <= k + Z.of_nat fuel)
  (Hlow : 300 <= fout -> pll_nf fin fout <= 128 -> k < pll_nr fin fout) :
  nfro_loop fuel fin fout k = Some (nfro_ref fin fout).
Proof.
  destruct (pll_factors fin fout) as (Hnf & Hnr & Heq & Hdiv); [lia..|].
  revert k Hk Hfuel Hlow. induction fuel as [|fuel IH]; intros k Hk Hfuel Hlow; [lia|].
  rewrite nfro_round by done. set (n := k + 1) in *. set (nf := fout * n / fin) in *.
  assert (fin * nf <= fout * n < fin * nf + fin) as Hq.
  { pose proof (Z.div_mod (fout * n) fin ltac:(lia)).
    pose proof (Z.mod_pos_bound (fout * n) fin ltac:(lia)). lia. }
  unfold nfro_ref in *. destruct (Z.ltb_spec 128 nf).
  { case_if; [|done]. destruct (Z.lt_irrefl 128). nia. }
  assert (n <= 180) by nia.
  destruct (Z.eqb_spec (fin * nf) (fout * n)) as [Hx|Hx]; cbn [negb].
  2: { apply IH; [lia..|]. intros ? ?. specialize (Hlow ltac:(lia) ltac:(lia)).
       destruct (decide (n = pll_nr fin fout)); [|lia].
       destruct Hx. assert (nf = pll_nf fin fout); nia. }
  destruct (Hdiv n) as [q Hqn]; [exists nf; lia|].
  pose proof (divider_low fout nf n fin Hf Ho ltac:(lia) Hx ltac:(lia)) as Hd.
  destruct (decide (300 <= fout)).
  - rewrite Hd. assert (1 <= q) by nia. assert (nf = q * pll_nf fin fout) by nia.
    replace ((300 <=? fout) && (pll_nf fin fout <=? 128)) with true by nia.
    assert (n = pll_nr fin fout) as Hn by (specialize (Hlow ltac:(lia) ltac:(nia)); nia).
    assert (nf = pll_nf fin fout) as Hnf' by nia. rewrite Hn, Hnf'.
    destruct (500 <=? fout) eqn:E5; repeat case_if; try reflexivity; lia.
  - replace (300 <=? fout) with false by lia. cbn [andb].
    destruct Hd as [->|(no & nr & v & -> & Hv)]; [done|].
    replace ((63 <=? fout) && (500 <=? v)) with false by lia.
    replace ((36 <=? fout) && (300 <=? v) && (v <=? 600)) with false by lia.
    rewrite IH; [|lia..]. replace (300 <=? fout) with false by lia. done.
Qed.

(** ** The PLL register *)
(** The layout of [struct pll_control]. *)
Definition pll_bits (p : pll_control) : Z :=
  bs p * 2 ^ 31 + pllm p * 2 ^ 24 + plln p * 2 ^ 18 + pllod p * 2 ^ 16.
Definition pll_fits (p : pll_control) : Prop :=
  0 <= bs p < 2 /\ 0 <= pllm p < 2 ^ 7 /\ 0 <= plln p < 2 ^ 5 /\ 0 <= pllod p < 2 ^ 2.

Lemma pll_or p : pll_fits p ->
  ((bs p ≪ 31) .| (pllm p ≪ 24)) .| (plln p ≪ 18) .| (pllod p ≪ 16) = pll_bits p.
Proof.
  intros (? & ? & ? & ?). unfold pll_bits. rewrite !Z.shiftl_mul_pow2 by lia.
  rewrite lor_add by lia.
  replace (bs p * 2 ^ 31 + pllm p * 2 ^ 24) with ((bs p * 2 ^ 7 + pllm p) * 2 ^ 24) by lia.
  rewrite lor_add by lia.
  replace ((bs p * 2 ^ 7 + pllm p) * 2 ^ 24 + plln p * 2 ^ 18)
    with ((bs p * 2 ^ 13 + pllm p * 2 ^ 6 + plln p) * 2 ^ 18) by lia.
  rewrite lor_add by lia. lia.
Qed.

(** The frequencies that the search accepts, and the fields it finds for them. *)
Definition pll_valid (fin fout : Z) : bool :=
  (10 <=? fin) && (fin <=? 50) && (300 <=? fout) && (pll_nf fin fout <=? 128).
Definition pll_fields (fin fout : Z) : pll_control :=
  mk_pll 0 (pll_nr fin fout - 1) (pll_nf fin fout - 1) (if 500 <=? fout then 1 else 0).

Lemma pll_fields_fit fin fout : pll_valid fin fout = true -> pll_fits (pll_fields fin fout).
Proof.
  unfold pll_valid. intros H. destruct (pll_factors fin fout) as (? & ? & ? & _); [lia..|].
  unfold pll_fits, pll_fields; cbn [bs pllm plln pllod]. case_if; split_and!; nia.
Qed.

Lemma pll_bits_nonzero fin fout (Hv : pll_valid fin fout = true) :
  (pll_bits (pll_fields fin fout) =? 0) = false.
Proof.
  destruct (pll_fields_fit fin fout Hv) as (Hb & Hm & Hn & Ho). unfold pll_valid in Hv.
  destruct (pll_factors fin fout) as (? & ? & ? & _); [lia..|]. unfold pll_bits.
  assert (1 <= pllm (pll_fields fin fout)); [|lia]. unfold pll_fields; cbn [pllm]. nia.
Qed.

Lemma gen_pll_ok ext out p (He : 0 <= ext < 0x100000000) (Ho : 0 <= out < 0x100000000) :
  let fin := ext / 1000000 in let fout := out / 1000000 in
  gen_pll_regester_nfro ext out p =
  Some (if pll_valid fin fout then (pll_bits (pll_fields fin fout), pll_fields fin fout, [])
        else (0, p, [no_adjust_parameter fout fin])).
Proof.
  intros fin fout. assert (0 <= fin <= 4294) by (subst fin; zdm).
  assert (0 <= fout <= 4294) by (subst fout; zdm).
  unfold gen_pll_regester_nfro. fold fin fout. rewrite (s32_small fin), (s32_small fout) by lia.
  pose proof (pll_fields_fit fin fout) as Hfit. unfold pll_valid in *.
  destruct (_ || _) eqn:E.
  { by replace ((10 <=? fin) && (fin <=? 50) && (300 <=? fout)) with false by lia. }
  rewrite nfro_loop_ok; [|lia..|intros _ _; destruct (pll_factors fin fout); lia].
  replace ((10 <=? fin) && (fin <=? 50)) with true in * by lia. cbn [andb mbind option_bind] in *.
  unfold nfro_ref. destruct (_ && _); [|done]. specialize (Hfit eq_refl).
  pose proof (pll_or _ Hfit) as Hor. destruct Hfit as (Hb & Hm & Hn & _). revert Hor Hb Hm Hn.
  unfold pll_fields. cbn [bs pllm plln pllod]. intros -> Hb Hm Hn.
  rewrite u32_small by (unfold pll_bits; cbn [bs pllm plln pllod]; lia).
  unwrap. rewrite !Z.mod_small by lia. done.
Qed.

(** ** Minimal dividers *)
Lemma min_div_loop_ok fuel src max div (Hs : 0 <= src < 0x100000000) (Hm : M 150 <= max)
  (Hd : 1 <= div <= src / (max + 1) + 1) (Hf : 30 <= div + Z.of_nat fuel) :
  min_div_loop fuel src max div = Some (src / (max + 1) + 1).
Proof.
  change (M 150) with 150000000 in Hm.
  assert (src / (max + 1) <= 28) by (apply Z.lt_succ_r, Z.div_lt_upper_bound; lia).
  revert div Hd Hf. induction fuel as [|fuel IH]; intros div Hd Hf; cbn [min_div_loop]; [lia|].
  rewrite (u32_small div), s32_small by lia.
  pose proof (Z.div_mod src (max + 1) ltac:(lia)). pose proof (Z.mod_pos_bound src (max + 1) ltac:(lia)).
  pose proof (Z.div_mod src div ltac:(lia)). pose proof (Z.mod_pos_bound src div ltac:(lia)).
  destruct (Z.ltb_spec max (src / div)) as [Hlt|Hle].
  - apply IH; [|lia]. split; [lia|]. assert (div <= src / (max + 1)); [|lia].
    apply Z.div_le_lower_bound; [lia|]. nia.
  - f_equal. assert (src / (max + 1) < div); [|lia]. apply Z.div_lt_upper_bound; [lia|]. nia.
Qed.
Lemma find_min_div_ok src max (Hs : 0 <= src < 0x100000000) (Hm : M 150 <= max) :
  find_min_div src max = Some (src / (max + 1) + 1).
Proof.
  assert (0 <= src / (max + 1)) by (apply Z.div_pos; change (M 150) with 150000000 in *; lia).
  apply min_div_loop_ok; lia.
Qed.

(** [d] is the smallest divider that brings [src] down to [max]. *)
Definition least_div (src max d : Z) : Prop :=
  1 <= d <= 29 /\ src / d <= max /\ forall e, 1 <= e < d -> max < src / e.
Lemma find_min_div_least src max (Hs : 0 <= src < 0x100000000) (Hm : M 150 <= max) :
  exists d, find_min_div src max = Some d /\ least_div src max d.
Proof.
  eexists; split; [by apply find_min_div_ok|]. change (M 150) with 150000000 in Hm.
  pose proof (Z.div_mod src (max + 1) ltac:(lia)). pose proof (Z.mod_pos_bound src (max + 1) ltac:(lia)).
  split_and!.
  - assert (0 <= src / (max + 1)) by (apply Z.div_pos; lia). lia.
  - assert (src / (max + 1) <= 28) by (apply Z.lt_succ_r, Z.div_lt_upper_bound; lia). lia.
  - assert (0 <= src / (max + 1)) by (apply Z.div_pos; lia).
    apply Z.lt_succ_r, Z.div_lt_upper_bound; nia.
  - intros e He. apply Z.lt_le_trans with (max + 1); [lia|]. apply Z.div_le_lower_bound; nia.
Qed.

(** ** The dividers of the system clocks *)
Definition cpu_pll (s : pll_setting) : Z :=
  if cpu_sel_pll s =? SEL_APLL then apll_freq s else mpll_freq s.
Definition bus_pll (s : pll_setting) : Z :=
  if ddr_sel_pll s =? SEL_APLL then apll_freq s else mpll_freq s.

Lemma range_check_nil d m : range_check d m = [].
Proof. unfold range_check. case_if; [lia|done]. Qed.

Lemma least_div_pos src max d : 0 < src -> M 150 <= max -> least_div src max d -> 0 < src / d.
Proof.
  change (M 150) with 150000000. intros Hs Hm ([Hd Hd'] & _ & Hlow).
  destruct (decide (d = 1)) as [->|]; [by rewrite Z.div_1_r|].
  specialize (Hlow (d - 1) ltac:(lia)).
  pose proof (Z.div_mod src (d - 1) ltac:(lia)). pose proof (Z.mod_pos_bound src (d - 1) ltac:(lia)).
  apply Z.div_str_pos. nia.
Qed.

Lemma div_twice_exact f a b (Ha : 1 <= a <= 29) (Hb : 1 <= b <= 29) (Hf : M 1 <= f) :
  0 < f / a / b /\ f / (f / a / b) = a * b.
Proof.
  change (M 1) with 1000000 in Hf. rewrite Z.div_div by lia.
  assert (1 <= a * b <= 841) as Hab by nia. set (n := a * b) in *.
  pose proof (Z.div_mod f n ltac:(lia)). pose proof (Z.mod_pos_bound f n ltac:(lia)).
  assert (n < f / n) by nia. split; [lia|].
  symmetry. apply (Z.div_unique_pos _ _ _ (f mod n)); lia.
Qed.

Lemma gen_sys_div_ok s p0 (Hc : 0 < cpu_freq s < 0x100000000)
  (Ha : 0 <= cpu_pll s < 0x100000000) (Hp : M 1 <= bus_pll s < 0x100000000) :
  exists d k, gen_sys_div s p0 = Some (d,
      (if cpu_pll s <? cpu_freq s
       then [pll_below_cpu (sel_cpll d - 1) (cpu_pll s) (cpu_freq s)] else [])
      ++ if cpu_pll s mod cpu_freq s =? 0 then []
         else [pll_not_divided (sel_cpll d - 1) (cpu_pll s) (cpu_freq s)])
    /\ cdiv d = s32 (cpu_pll s / cpu_freq s - 1)
    /\ least_div (cpu_pll s) MAX_L2_CLK (l2div d + 1)
    /\ least_div (bus_pll s) MAX_H0_CLK (h0div d + 1)
    /\ least_div (bus_pll s) MAX_H2_CLK (h2div d + 1)
    /\ least_div (bus_pll s / (h2div d + 1)) MAX_P_CLK k
    /\ pdiv d + 1 = (h2div d + 1) * k
    /\ sel_cpll d = (if cpu_sel_pll s =? SEL_APLL then 1 else 2)
    /\ sel_h0pll d = (if ddr_sel_pll s =? SEL_APLL then 1 else 2)
    /\ sel_h2pll d = (if ddr_sel_pll s =? SEL_APLL then 1 else 2) /\ sel_src d = 2.
Proof.
  assert (M 1 = 1000000) as HM1 by done.
  destruct (find_min_div_least (cpu_pll s) MAX_L2_CLK) as (l2 & El2 & Hl2); [lia|done|].
  destruct (find_min_div_least (bus_pll s) MAX_H2_CLK) as (h2 & Eh2 & Hh2); [lia|done|].
  destruct (find_min_div_least (bus_pll s / h2) MAX_P_CLK) as (k & Ek & Hk);
    [|done|].
  { destruct Hh2 as [[? ?] _]. split; [apply Z.div_pos; lia|apply Z.div_lt_upper_bound; nia]. }
  assert (Hh2r := proj1 Hh2). assert (Hkr := proj1 Hk). assert (Hl2r := proj1 Hl2).
  destruct (div_twice_exact (bus_pll s) h2 k) as [Hpos Hex]; [done..|lia|].
  assert (0 < bus_pll s / h2) by (eapply (least_div_pos _ MAX_H2_CLK); [lia|done|done]).
  unfold gen_sys_div. change MAX_H0_CLK with MAX_H2_CLK.
  replace (pick_pll s (if cpu_sel_pll s =? SEL_APLL then 0 else 1)) with (cpu_pll s)
    by (unfold cpu_pll; by destruct (_ =? _)).
  replace (pick_pll s (if ddr_sel_pll s =? SEL_APLL then 0 else 1)) with (bus_pll s)
    by (unfold bus_pll; by destruct (_ =? _)).
  unfold umod, udiv. replace (cpu_freq s =? 0) with false by lia.
  cbn [mbind option_bind]. rewrite El2, Eh2. cbn [mbind option_bind].
  rewrite !range_check_nil, !(s32_small (h2 - 1)), (s32_small (l2 - 1)) by lia.
  replace ((h2 - 1 <? 0) && (16 <? h2 - 1)) with false by lia.
  rewrite Z.sub_add, !(u32_small h2) by lia. replace (h2 =? 0) with false by lia.
  cbn [mbind option_bind]. rewrite Ek. cbn [mbind option_bind].
  rewrite (u32_small k) by lia. replace (k =? 0) with false by lia. cbn [mbind option_bind].
  replace (bus_pll s / h2 / k =? 0) with false by lia. cbn [mbind option_bind].
  rewrite Hex, range_check_nil, (s32_small (h2 * k - 1)) by nia.
  exists (mk_div (s32 (cpu_pll s / cpu_freq s - 1)) (l2 - 1) (h2 - 1) (h2 - 1) (h2 * k - 1)
    ((if ddr_sel_pll s =? SEL_APLL then 0 else 1) + 1)
    ((if ddr_sel_pll s =? SEL_APLL then 0 else 1) + 1)
    ((if cpu_sel_pll s =? SEL_APLL then 0 else 1) + 1) 2), k.
  cbn [cdiv l2div h0div h2div pdiv sel_cpll sel_h0pll sel_h2pll sel_src].
  rewrite !Z.sub_add, !app_nil_r, Z.add_simpl_r. split_and!; try done.
  1: by destruct (_ mod _ =? 0).
  all: by destruct (_ =? _).
Qed.

Lemma gen_sys_div_off s p0 (Ha : 0 <= cpu_pll s < 0x100000000) (Hz : bus_pll s = 0) :
  gen_sys_div s p0 = None.
Proof.
  unfold gen_sys_div.
  replace (pick_pll s (if cpu_sel_pll s =? SEL_APLL then 0 else 1)) with (cpu_pll s)
    by (unfold cpu_pll; by destruct (_ =? _)).
  replace (pick_pll s (if ddr_sel_pll s =? SEL_APLL then 0 else 1)) with (bus_pll s)
    by (unfold bus_pll; by destruct (_ =? _)).
  rewrite Hz, (find_min_div_ok (cpu_pll s)) by done. unfold umod, udiv.
  by destruct (cpu_freq s =? 0).
Qed.

(** ** Properties *)
(** C36: The search for PLL parameters always ends.  It succeeds exactly for a crystal of 10 to
    50 MHz and an output of at least 300 MHz that is a fraction of the crystal with a
    numerator of at most 128; the fields are then the smallest such fraction, the output
    divider is unused, the band bit is set from 500 MHz on, and the value returned is not 0
    and has the fields in their places.  Otherwise 0 is returned, the structure is not touched
    and an error is written. *)
Theorem gen_pll_correct ext out p (He : 0 <= ext < 0x100000000) (Ho : 0 <= out < 0x100000000) :
  let fin := ext / 1000000 in let fout := out / 1000000 in
  let feasible := 10 <= fin <= 50 /\ 300 <= fout
    /\ exists m n, 1 <= m <= 128 /\ 1 <= n /\ fin * m = fout * n in
  exists r p' e, gen_pll_regester_nfro ext out p = Some (r, p', e)
    /\ (feasible -> e = [] /\ r <> 0 /\ r = pll_bits p' /\ pll_fits p'
        /\ fin * (pllm p' + 1) = fout * (plln p' + 1) /\ pllod p' = 0
        /\ (bs p' = 1 <-> 500 <= fout)
        /\ forall m n, 1 <= m -> 1 <= n -> fin * m = fout * n ->
             pllm p' + 1 <= m /\ plln p' + 1 <= n)
    /\ (~ feasible -> e = [no_adjust_parameter fout fin] /\ r = 0 /\ p' = p).
Proof.
  intros fin fout feasible. rewrite gen_pll_ok by done. fold fin fout.
  assert (feasible -> pll_valid fin fout = true) as Hv.
  { intros (H1 & H2 & m & n & Hm & Hn & E).
    destruct (pll_factors fin fout) as (? & ? & ? & Hdiv); [lia..|].
    destruct (pll_multiple fin fout m n) as (q & Hq & -> & _); [lia..|]. unfold pll_valid. nia. }
  destruct (pll_valid fin fout) eqn:V; do 3 eexists; (split; [reflexivity|]); split; try done.
  2: { intros Hno. destruct Hno. unfold pll_valid in V.
       destruct (pll_factors fin fout) as (? & ? & ? & _); [lia..|].
       split_and!; [lia..|]. exists (pll_nf fin fout), (pll_nr fin fout). lia. }
  2: intros H; by apply Hv in H.
  intros Hf. pose proof (pll_fields_fit fin fout V) as Hfit.
  pose proof (pll_bits_nonzero fin fout V) as Hnz.
  destruct (pll_factors fin fout) as (? & ? & ? & Hdiv); [unfold pll_valid in V; lia..|].
  unfold pll_fields in *; cbn [bs pllm plln pllod] in *. split_and!; try done; try lia.
  - destruct (500 <=? fout) eqn:E5; lia.
  - intros m n Hm Hn E.
    destruct (pll_multiple fin fout m n) as (q & Hq & Em & En); [unfold pll_valid in V; lia..|].
    assert (forall x, 0 < x -> x <= q * x) as Hx by (intros x Hx; nia). rewrite !Z.sub_add.
    split; [rewrite Em|rewrite En]; apply Hx; lia.
Qed.

(** The dividers of the system clocks: with a CPU frequency and a bus PLL of at least 1 MHz
    the CPU divider is the quotient, an error is written exactly when the PLL is slower than
    the CPU or not a multiple of it, the dividers of the L2 cache and the two buses are the
    smallest that respect the limits, and the peripheral divider is a multiple of the divider
    of the second bus that respects its limit.  A CPU frequency of 0 or a bus PLL that is off
    is a division by zero. *)
Theorem gen_sys_div_correct s p0 (Ha : 0 <= apll_freq s < 0x100000000)
  (Hm : 0 <= mpll_freq s < 0x100000000) (Hc : 0 <= cpu_freq s < 0x100000000) :
  (cpu_freq s = 0 \/ bus_pll s = 0 -> gen_sys_div s p0 = None)
  /\ (0 < cpu_freq s -> M 1 <= bus_pll s -> exists d e k, gen_sys_div s p0 = Some (d, e)
      /\ (e = [] <-> exists q, 0 < q /\ cpu_pll s = cpu_freq s * q)
      /\ cdiv d = s32 (cpu_pll s / cpu_freq s - 1)
      /\ least_div (cpu_pll s) MAX_L2_CLK (l2div d + 1)
      /\ least_div (bus_pll s) MAX_H0_CLK (h0div d + 1)
      /\ least_div (bus_pll s) MAX_H2_CLK (h2div d + 1)
      /\ least_div (bus_pll s / (h2div d + 1)) MAX_P_CLK k
      /\ pdiv d + 1 = (h2div d + 1) * k /\ bus_pll s / (pdiv d + 1) <= MAX_P_CLK).
Proof.
  assert (0 <= cpu_pll s < 0x100000000) by (unfold cpu_pll; case_if; lia).
  assert (0 <= bus_pll s < 0x100000000) by (unfold bus_pll; case_if; lia).
  split.
  - intros [Hz|Hz]; [unfold gen_sys_div, umod; by rewrite Hz|]. by apply gen_sys_div_off.
  - intros Hcpu Hbus. destruct (gen_sys_div_ok s p0) as (d & k & Ed & Hcd & H1 & H2 & H3 & H4 & H5 & _);
      [lia..|].
    eexists d, _, k. split; [exact Ed|]. split_and!; try done.
    + split.
      * intros E. destruct (_ <? _) eqn:E1 in E; [done|]. destruct (_ =? 0) eqn:E2 in E; [|done].
        exists (cpu_pll s / cpu_freq s).
        pose proof (Z.div_mod (cpu_pll s) (cpu_freq s) ltac:(lia)). nia.
      * intros (q & Hq & ->). replace (_ <? _) with false by nia.
        by rewrite Z.mul_comm, Z.mod_mul by lia.
    + rewrite H5, <- Z.div_div by (destruct H3 as [? _], H4 as [? _]; lia). apply H4.
Qed.

Theorem gen_pll_correct_witness :
  exists r p' e, gen_pll_regester_nfro 24000000 1008000000 blank_pll = Some (r, p', e)
    /\ e = [] /\ r <> 0 /\ 24 * (pllm p' + 1) = 1008 * (plln p' + 1).
Proof.
  destruct (gen_pll_correct 24000000 1008000000 blank_pll) as (r & p' & e & E & H & _); [lia..|].
  destruct H as (He & Hr & _ & _ & Heq & _).
  { change (24000000 / 1000000) with 24. change (1008000000 / 1000000) with 1008.
    split; [lia|]. split; [lia|]. exists 42, 1. lia. }
  exists r, p', e. split_and!; [exact E|exact He|exact Hr|exact Heq].
Defined.

Theorem gen_sys_div_correct_witness :
  exists d e k, gen_sys_div (mk_setting 1008000000 600000000 1008000000 SEL_APLL SEL_MPLL) 0
      = Some (d, e)
    /\ least_div 600000000 MAX_H2_CLK (h2div d + 1) /\ pdiv d + 1 = (h2div d + 1) * k.
Proof.
  destruct (gen_sys_div_correct (mk_setting 1008000000 600000000 1008000000 SEL_APLL SEL_MPLL) 0)
    as [_ H]; [by vm_compute..|].
  destruct H as (d & e & k & E & _ & _ & _ & _ & H2 & _ & Hp & _); [by vm_compute..|].
  exists d, e, k. split_and!; [exact E|exact H2|exact Hp].
Defined.

(** ** Observations *)
(** The range checks are conjunctions that no divider satisfies: a CPU divider of 21 passes,
    although its field has four bits. *)
Lemma cpu_divider_unchecked : exists d,
  gen_sys_div (mk_setting 1008000000 600000000 48000000 SEL_APLL SEL_MPLL) 0 = Some (d, [])
  /\ cdiv d = 20.
Proof. eexists. split; [vm_compute; reflexivity|done]. Qed.

(** The output dividers are of no use: no frequency below 300 MHz is ever accepted, although
    the search admits 36 MHz. *)
Lemma pll_low_rejected ext out p (He : 0 <= ext < 0x100000000) (Ho : 36000000 <= out < 300000000) :
  exists d, gen_pll_regester_nfro ext out p = Some (0, p, [d]).
Proof.
  rewrite gen_pll_ok by lia. unfold pll_valid.
  replace (300 <=? out / 1000000) with false by (symmetry; apply Z.leb_gt; zdm).
  rewrite andb_false_r. cbn [andb]. by eexists.
Qed.
