(* ===== verification/Clk.v ===== *)
(** * Clocks of the X1000: [clk_params_creator.c], [pllsetting.c] and [clk.c]

    Setting up the PLLs, the system clocks and the clock generators, and reading their rates
    back.  The device is an interface; a program is a state monad over the device that can
    also stop without a result: a wait out of fuel, or a division by zero. *)
From S2P Require Import Prelude Pll.

(** ** The device *)
(** [readl] may change the device and returns what the register shows at that moment. *)
Class Device (H : Type) := {
  readl : Z -> H -> Z * H;
  writel : Z -> Z -> H -> H }.

Definition io (H A : Type) : Type := H -> option (A * H).
#[export] Instance io_ret {H} : MRet (io H) := fun A a h => Some (a, h).
#[export] Instance io_bind {H} : MBind (io H) := fun A B f m h =>
  match m h with Some (a, h) => f a h | None => None end.
Definition io_stop {H A} : io H A := fun _ => None.

(** ** Registers *)
Definition CPM_BASE : Z := 0xb0000000.
Definition CPM_CPCCR : Z := 0x00.
Definition CPM_CPCSR : Z := 0xd4.
Definition CPM_CPAPCR : Z := 0x10.
Definition CPM_CPMPCR : Z := 0x14.
Definition CPM_CLKGR : Z := 0x20.
Definition CPM_DDRCDR : Z := 0x2c.
Definition CPM_USBCDR : Z := 0x50.
Definition CPM_MACCDR : Z := 0x54.
Definition CPM_I2SCDR : Z := 0x60.
Definition CPM_LPCDR : Z := 0x64.
Definition CPM_MSC0CDR : Z := 0x68.
Definition CPM_SSICDR : Z := 0x74.
Definition CPM_CIMCDR : Z := 0x7c.
Definition CPM_PCMCDR : Z := 0x84.
Definition CPM_MSC1CDR : Z := 0xa4.
Definition CPM_CLKGR_DDR : Z := 1 ≪ 31.
Definition CPM_CLKGR_MSC0 : Z := 1 ≪ 4.

(** [enum clk_id] *)
Definition DDR : Z := 0.
Definition I2S : Z := 1.
Definition PCM : Z := 2.
Definition MACPHY : Z := 3.
Definition LCD : Z := 4.
Definition MSC : Z := 5.
Definition MSC0 : Z := MSC.
Definition MSC1 : Z := 6.
Definition OTG : Z := 7.
Definition SFC : Z := 8.
Definition CIM : Z := 9.
Definition CGU_CNT : Z := 10.
Definition CPU : Z := CGU_CNT.
Definition H2CLK : Z := 11.
Definition APLL : Z := 12.
Definition MPLL : Z := 13.
Definition EXCLK : Z := 14.
Definition SRC_EOF : Z := 0xffffffff.

(** ** The table of clock generators: [clk_params_creator.c] *)
Record cgu := mk_cgu {
  cgu_en : Z;
  cgu_off : Z;
  cgu_sel_bit : Z;
  cgu_sel_src : Z;
  cgu_sel : list Z;
  cgu_ce : Z;
  cgu_busy : Z;
  cgu_stop : Z }.
Definition cgu_with_src (c : cgu) (src : Z) : cgu :=
  mk_cgu (cgu_en c) (cgu_off c) (cgu_sel_bit c) (u8 src) (cgu_sel c) (cgu_ce c) (cgu_busy c)
    (cgu_stop c).

Record clk_cgu_setting := mk_cgu_setting {
  addr : Z;
  val : Z;
  ce : Z;
  busy : Z;
  stop : Z;
  cgu_src : Z;
  sel_val : Z }.

(** [ddr_sel] is the board's [CONFIG_DDR_SEL_PLL], here a [clk_id]. *)
Definition cgu_clk_sel (ddr_sel : Z) : list cgu := [
  mk_cgu 1 CPM_DDRCDR 30 ddr_sel [0; APLL; MPLL; 255] 29 28 27;
  mk_cgu 1 CPM_I2SCDR 30 EXCLK [APLL; MPLL; EXCLK; 255] 29 0 0;
  mk_cgu 1 CPM_PCMCDR 30 EXCLK [APLL; EXCLK; MPLL; 255] 29 0 0;
  mk_cgu 1 CPM_MACCDR 31 ddr_sel [APLL; MPLL; 255; 255] 29 28 27;
  mk_cgu 1 CPM_LPCDR 31 ddr_sel [APLL; MPLL; 255; 255] 28 27 26;
  mk_cgu 1 CPM_MSC0CDR 31 ddr_sel [APLL; MPLL; 255; 255] 29 28 27;
  mk_cgu 0 CPM_MSC1CDR 0 0 [255; 255; 255; 255] 29 28 27;
  mk_cgu 1 CPM_USBCDR 30 EXCLK [EXCLK; EXCLK; APLL; MPLL] 29 28 27;
  mk_cgu 1 CPM_SSICDR 31 ddr_sel [APLL; MPLL; EXCLK; 255] 29 28 27;
  mk_cgu 1 CPM_CIMCDR 31 ddr_sel [APLL; MPLL; 255; 255] 29 28 27 ].

(** A store into the table; outside of it is [None]. *)
Definition set_src (l : list cgu) (id src : Z) : option (list cgu) :=
  c ← l !! Z.to_nat id; Some (<[Z.to_nat id := cgu_with_src c src]> l).

(** The pass over [cgu_clk_src], which ends at [SRC_EOF]. *)
Fixpoint apply_srcs (srcs : list (Z * Z)) (l : list cgu) : option (list cgu) :=
  match srcs with
  | [] => None
  | (id, src) :: srcs =>
      if id =? SRC_EOF then Some l
      else
        l ← set_src l id src;
        l ← (if id =? MSC then set_src l MSC1 src else Some l);
        apply_srcs srcs l
  end.

(** The last index of the source in [sel] gives the selection. *)
Fixpoint gen_sel (en : Z) (c : cgu) (i : Z) (sel : list Z) (v : Z) : Z :=
  match sel with
  | [] => v
  | s :: sel =>
      gen_sel en c (i + 1) sel
        (if (cgu_sel_src c =? s) && (en =? 1) then u32 (i ≪ cgu_sel_bit c) else v)
  end.
Definition gen_one (en : Z) (c : cgu) : clk_cgu_setting :=
  let v := gen_sel en c 0 (cgu_sel c) 0 in
  let regval :=
    if negb (cgu_busy c =? 0) then (0xfe .| (1 ≪ cgu_ce c)) .| (1 ≪ cgu_stop c)
    else 0 .& Z.lnot (1 ≪ cgu_ce c) in
  mk_cgu_setting (u32 (CPM_BASE + cgu_off c)) regval (cgu_ce c) (cgu_busy c) (cgu_stop c)
    (cgu_sel_src c) v.

(** [cgu_clk_sel->en] is the flag of the first entry, whatever the entry at hand. *)
Definition gen_cgu_params (ddr_sel : Z) (srcs : list (Z * Z)) : option (list clk_cgu_setting) :=
  l ← apply_srcs srcs (cgu_clk_sel ddr_sel);
  en ← cgu_en <$> l !! 0%nat;
  Some (map (gen_one en) l).

Section clk.
Context {H : Type} {Dev : Device H}.

Definition cpm_readl (off : Z) : io H Z := fun h => Some (readl (CPM_BASE + off) h).
Definition cpm_writel (v off : Z) : io H () := fun h => Some ((), writel v (CPM_BASE + off) h).
Definition io_readl (reg : Z) : io H Z := fun h => Some (readl reg h).
Definition io_writel (v reg : Z) : io H () := fun h => Some ((), writel v reg h).

(** [while (cond(readl(reg)));] *)
Fixpoint wait_while (fuel : nat) (reg : Z) (cond : Z -> bool) : io H () :=
  match fuel with
  | O => io_stop
  | S fuel => v ← io_readl reg; if cond v then wait_while fuel reg cond else mret ()
  end.
Definition nonzero (z : Z) : bool := negb (z =? 0).

(** ** [pllsetting.c] *)
Section pllsetting.
Context (cfg : pll_reg_values) (fuel : nat).
Definition CONFIG_PLL_STABILIZE : Z := 0x20.

(** [while (!(cpm_readl(reg) & mask) && --timeout);] *)
Fixpoint lock_wait (timeout : nat) (reg mask : Z) : io H Z :=
  match timeout with
  | O => mret 0
  | S n =>
      v ← cpm_readl reg;
      if nonzero (v .& mask) then mret (Z.of_nat timeout) else lock_wait n reg mask
  end.

Definition pll_value (en : Z) (en_bit : Z) (p : pll_control) : Z :=
  u32 (((((en ≪ en_bit) .| (pllm p ≪ 24)) .| (plln p ≪ 18)) .| (pllod p ≪ 16)) .| (bs p ≪ 31)).

Definition pll_sets : io H () :=
  val ← cpm_readl CPM_CPAPCR;
  _ ← cpm_writel (val .& u32 (Z.lnot (1 ≪ 8))) CPM_CPAPCR;
  val ← cpm_readl CPM_CPMPCR;
  _ ← cpm_writel (val .& u32 (Z.lnot (1 ≪ 7))) CPM_CPMPCR;
  _ ← (if nonzero (APLL_EN_VALUE cfg)
       then cpm_writel (pll_value (APLL_EN_VALUE cfg) 8 (APLL_CTRL cfg) .| CONFIG_PLL_STABILIZE)
              CPM_CPAPCR
       else mret ());
  _ ← (if nonzero (MPLL_EN_VALUE cfg)
       then cpm_writel (pll_value (MPLL_EN_VALUE cfg) 7 (MPLL_CTRL cfg)) CPM_CPMPCR
       else mret ());
  _ ← (if nonzero (APLL_EN_VALUE cfg)
       then _ ← lock_wait (Z.to_nat 0x10000) CPM_CPAPCR (1 ≪ 10); cpm_readl CPM_CPAPCR
       else mret 0);
  _ ← (if nonzero (MPLL_EN_VALUE cfg)
       then _ ← lock_wait (Z.to_nat 0x10000) CPM_CPMPCR 1; cpm_readl CPM_CPMPCR
       else mret 0);
  mret ().

Definition cpccr_default : io H () :=
  _ ← cpm_writel 0x55700000 CPM_CPCCR;
  wait_while fuel (CPM_BASE + CPM_CPCSR) (fun v => negb (v .& 0xf0000007 =? 0xf0000000)).

(** The dividers in the low bits of CPCCR. *)
Definition cpccr_divs (d : div_setting) : Z :=
  ((((cdiv d ≪ 0) .| (l2div d ≪ 4)) .| (h0div d ≪ 8)) .| (h2div d ≪ 12)) .| (pdiv d ≪ 16).
Definition cpccr_sels (d : div_setting) : Z :=
  (((sel_src d ≪ 30) .| (sel_cpll d ≪ 28)) .| (sel_h0pll d ≪ 26)) .| (sel_h2pll d ≪ 24).

Definition cpccr_sets : io H () :=
  let d := DIV_VALUES cfg in
  _ ← cpm_writel (u32 (0x55700000 .| cpccr_divs d)) CPM_CPCCR;
  _ ← wait_while fuel (CPM_BASE + CPM_CPCSR) (fun v => nonzero (v .& 7));
  _ ← cpm_writel (u32 (cpccr_sels d .| cpccr_divs d)) CPM_CPCCR;
  _ ← wait_while fuel (CPM_BASE + CPM_CPCSR) (fun v => negb (nonzero (v .& 0xf0000000)));
  _ ← cpm_readl CPM_CPCCR;
  mret ().

Definition pll_init : io H () := _ ← cpccr_default; _ ← pll_sets; cpccr_sets.
End pllsetting.

(** ** [clk.c] *)
(** The board: its crystal, the table that [gen_cgu_params] made, and whether the first
    memory card controller is used ([CONFIG_JZ_MMC_MSC0]). *)
Section rates.
Context (EXTAL : Z) (cgusetting : list clk_cgu_setting) (fuel : nat).

Definition div_op (a b : Z) : io H Z := if b =? 0 then io_stop else mret (a / b).

(** ** Rates *)
Definition pll_rate_of (cpxpcr : Z) : Z :=
  let m := (cpxpcr ≫ 24) .& 0x7f + 1 in
  let n := (cpxpcr ≫ 18) .& 0x1f + 1 in
  let od := 1 ≪ ((cpxpcr ≫ 16) .& 0x3) in
  u32 (EXTAL * m) / n / od.
Definition pll_get_rate (pll : Z) : io H Z :=
  if pll =? APLL then cpxpcr ← cpm_readl CPM_CPAPCR; mret (pll_rate_of cpxpcr)
  else if pll =? MPLL then cpxpcr ← cpm_readl CPM_CPMPCR; mret (pll_rate_of cpxpcr)
  else mret 0.

(** The rate behind a selection and a divider: 1 is the APLL, 2 the MPLL. *)
Definition selected_rate (sel div : Z) : io H Z :=
  if sel =? 1 then r ← pll_get_rate APLL; div_op r (u32 (div + 1))
  else if sel =? 2 then r ← pll_get_rate MPLL; div_op r (u32 (div + 1))
  else mret 0.
Definition get_ddr_rate : io H Z :=
  ddrcdr ← cpm_readl CPM_DDRCDR; selected_rate ((ddrcdr ≫ 30) .& 3) (ddrcdr .& 0xf).
Definition get_cclk_rate : io H Z :=
  cpccr ← cpm_readl CPM_CPCCR; selected_rate ((cpccr ≫ 28) .& 3) (cpccr .& 0xf).
Definition cpm_get_h2clk : io H Z :=
  cpccr ← cpm_readl CPM_CPCCR; selected_rate ((cpccr ≫ 24) .& 3) ((cpccr ≫ 12) .& 0xf).

Definition get_msc_rate (xcdr : Z) : io H Z :=
  msc0cdr ← cpm_readl CPM_MSC0CDR;
  mscxcdr ← cpm_readl xcdr;
  let d := u32 ((mscxcdr .& 0xff + 1) * 2) in
  if msc0cdr ≫ 31 =? 0 then r ← pll_get_rate APLL; div_op r d
  else if msc0cdr ≫ 31 =? 1 then r ← pll_get_rate MPLL; div_op r d
  else mret 1.

Definition clk_get_rate (clk : Z) : io H Z :=
  if clk =? APLL then pll_get_rate APLL
  else if clk =? MPLL then pll_get_rate MPLL
  else if clk =? DDR then get_ddr_rate
  else if clk =? CPU then get_cclk_rate
  else if clk =? H2CLK then cpm_get_h2clk
  else if clk =? MSC0 then get_msc_rate CPM_MSC0CDR
  else mret 0.

(** ** Setting *)
Definition clk_prepare_one (c : clk_cgu_setting) : io H () :=
  regval ← io_readl (addr c);
  if nonzero (busy c) then
    _ ← io_writel (regval .| val c) (addr c);
    wait_while fuel (addr c) (fun v => nonzero (v .& (1 ≪ busy c)))
  else io_writel (regval .& u32 (Z.lnot (1 ≪ ce c))) (addr c).
Fixpoint for_each (f : Z -> clk_cgu_setting -> io H ()) (i : Z) (l : list clk_cgu_setting)
  : io H () :=
  match l with [] => mret () | c :: l => _ ← f i c; for_each f (i + 1) l end.
Definition clk_prepare : io H () := for_each (fun _ => clk_prepare_one) 0 cgusetting.

Definition cgu_clk_set (i : Z) (c : clk_cgu_setting) : io H () :=
  if i =? OTG then mret ()
  else
    regval ← io_readl (addr c);
    io_writel (regval .& u32 (Z.lnot (3 ≪ 30)) .| sel_val c) (addr c).
Definition cgu_clks_set : io H () := for_each cgu_clk_set 0 cgusetting.

(** [gate] is the set of clocks that the configuration uses. *)
Definition clk_init (gate : Z) : io H () :=
  reg_clkgr ← cpm_readl CPM_CLKGR;
  _ ← cpm_writel (reg_clkgr .& u32 (Z.lnot gate)) CPM_CLKGR;
  cgu_clks_set.

(** The divider field: rounded up, and for a memory card halved. *)
Definition rate_cdr (clk_id pll_rate rate : Z) : Z :=
  let q := u32 (pll_rate + rate - 1) / rate in
  if (clk_id =? MSC0) || (clk_id =? MSC1) then u32 (q / 2 - 1) .& 0xff
  else u32 (q - 1) .& 0xff.

Definition clk_set_rate (clk_id rate : Z) : io H () :=
  if CGU_CNT <=? clk_id then mret ()
  else if clk_id <? 0 then io_stop
  else match cgusetting !! Z.to_nat clk_id with
  | None => io_stop
  | Some c =>
      pll_rate ← pll_get_rate (cgu_src c);
      if pll_rate =? 0 then mret ()
      else if rate =? 0 then io_stop
      else
        let cdr := rate_cdr clk_id pll_rate rate in
        regval ← io_readl (addr c);
        let regval :=
          if clk_id =? DDR then regval .& u32 (Z.lnot (0xf .| (0x3f ≪ 24)))
          else regval .& u32 (Z.lnot ((3 ≪ stop c) .| 0xff)) in
        _ ← io_writel (regval .| ((1 ≪ ce c) .| cdr)) (addr c);
        wait_while fuel (addr c) (fun v => nonzero (v .& (1 ≪ busy c)))
  end.

(** The clock part of [board_init_f]. *)
Definition board_clocks (cfg : pll_reg_values) (gate : Z) : io H () :=
  _ ← clk_prepare; _ ← pll_init cfg fuel; clk_init gate.
End rates.
End clk.
