(* ===== verification/ClkSpec.v ===== *)
(** * The X1000 clocks run at the configured rates

    On every device that follows the laws below, starting the clocks with the generated
    parameters comes to an end, and the rates read back are those of the configuration. *)
From Stdlib Require Import Btauto.
From S2P Require Import Prelude Pll Clk.

(** ** What the device promises *)
(** The bits that the device sets by itself: the state of a PLL, the change bits of CPCCR, the
    busy bit of a clock generator and the whole status register. *)
Definition status_bits (a : Z) : Z :=
  if (a =? CPM_BASE + CPM_CPAPCR) || (a =? CPM_BASE + CPM_CPMPCR) then 0xffff
  else if a =? CPM_BASE + CPM_CPCCR then 0x700000
  else if a =? CPM_BASE + CPM_CPCSR then 0xffffffff
  else if a =? CPM_BASE + CPM_LPCDR then 1 ≪ 27
  else 1 ≪ 28.

(** When a change has gone through: the switches of all clocks are stable and no divider is
    busy, or the generator is not busy. *)
Definition settled (a v : Z) : Prop :=
  if a =? CPM_BASE + CPM_CPCSR then v .& 0xf0000007 = 0xf0000000
  else if (a =? CPM_BASE + CPM_CPAPCR) || (a =? CPM_BASE + CPM_CPMPCR)
       || (a =? CPM_BASE + CPM_CPCCR) then True
  else v .& status_bits a = 0.

(** A register keeps what was written to it and shows it but for the status bits; a change
    goes through within [settle] reads. *)
Class DeviceLaws (H : Type) {Dev : Device H} := {
  reg : Z -> H -> Z;
  settle : nat;
  reg_write a v h : reg a (writel v a h) = v;
  reg_write_ne a b v h : a <> b -> reg b (writel v a h) = reg b h;
  reg_read a b h : reg b (snd (readl a h)) = reg b h;
  reg_shows a h :
    fst (readl a h) .& Z.lnot (status_bits a) = reg a h .& Z.lnot (status_bits a);
  reg_settles a h : exists n, (n < settle)%nat
    /\ settled a (fst (readl a (Nat.iter n (fun h => snd (readl a h)) h))) }.

(** ** Fields of registers *)
(** Two values that agree outside of [s] have the same fields there. *)
Lemma field_agree s k m x y : 0 <= k -> (m ≪ k) .& s = 0 ->
  x .& Z.lnot s = y .& Z.lnot s -> (x ≫ k) .& m = (y ≫ k) .& m.
Proof.
  intros Hk Hm Hxy. apply Z.bits_inj'. intros n Hn.
  rewrite !Z.land_spec, !Z.shiftr_spec by done.
  destruct (Z.testbit m n) eqn:Em; [|by rewrite !andb_false_r].
  assert (Z.testbit s (n + k) = false) as Hs.
  { pose proof (f_equal (fun z => Z.testbit z (n + k)) Hm) as H. cbn beta in H.
    rewrite Z.bits_0, Z.land_spec, Z.shiftl_spec, Z.add_simpl_r, Em in H by lia. done. }
  pose proof (f_equal (fun z => Z.testbit z (n + k)) Hxy) as H. cbn beta in H.
  rewrite !Z.land_spec, !Z.lnot_spec, Hs in H by lia. by rewrite !andb_true_r in H |- *.
Qed.
Lemma field_lor x y k m : ((x .| y) ≫ k) .& m = ((x ≫ k) .& m) .| ((y ≫ k) .& m).
Proof. by rewrite Z.shiftr_lor, Z.land_lor_distr_l. Qed.
Lemma field_land x y k m : ((x .& y) ≫ k) .& m = ((x ≫ k) .& m) .& (y ≫ k).
Proof. rewrite Z.shiftr_land, <- !Z.land_assoc. f_equal. apply Z.land_comm. Qed.

(** A field of a number made of a high part, the field and a low part. *)
Lemma field_of_sum hi f lo k w : 0 <= k -> 0 <= w -> 0 <= f < 2 ^ w -> 0 <= lo < 2 ^ k ->
  ((hi * 2 ^ (k + w) + f * 2 ^ k + lo) ≫ k) .& Z.ones w = f.
Proof.
  intros Hk Hw Hf Hlo. rewrite Z.shiftr_div_pow2, Z.land_ones by done.
  replace (hi * 2 ^ (k + w) + f * 2 ^ k + lo) with ((hi * 2 ^ w + f) * 2 ^ k + lo)
    by (rewrite Z.pow_add_r by done; ring).
  rewrite Z.div_add_l, (Z.div_small lo), Z.add_0_r, Z.add_comm, Z.mod_add, Z.mod_small by lia.
  done.
Qed.

(** ** The values of the registers *)
Lemma pll_value_or p en_bit x (Hfit : pll_fits p) (Hbit : en_bit = 7 \/ en_bit = 8)
  (Hx : x = 0 \/ x = CONFIG_PLL_STABILIZE) :
  exists lo, 0 <= lo < 2 ^ 16 /\ pll_value 1 en_bit p .| x = pll_bits p + lo.
Proof.
  exists ((1 ≪ en_bit) .| x). split; [by destruct Hbit as [->| ->], Hx as [->| ->]|].
  pose proof (pll_or p Hfit) as Hor. destruct Hfit as (Hb & Hm & Hn & Ho).
  assert (pll_value 1 en_bit p = u32 (pll_bits p .| (1 ≪ en_bit))) as ->.
  { unfold pll_value. f_equal. rewrite <- Hor. apply Z.bits_inj'. intros n _.
    rewrite !Z.lor_spec. btauto. }
  rewrite u32_small.
  - rewrite <- Z.lor_assoc. unfold pll_bits.
    replace (bs p * 2 ^ 31 + pllm p * 2 ^ 24 + plln p * 2 ^ 18 + pllod p * 2 ^ 16)
      with ((bs p * 2 ^ 15 + pllm p * 2 ^ 8 + plln p * 2 ^ 2 + pllod p) * 2 ^ 16) by lia.
    by rewrite lor_add by (destruct Hbit as [->| ->], Hx as [->| ->]; done).
  - unfold pll_bits.
    replace (bs p * 2 ^ 31 + pllm p * 2 ^ 24 + plln p * 2 ^ 18 + pllod p * 2 ^ 16)
      with ((bs p * 2 ^ 15 + pllm p * 2 ^ 8 + plln p * 2 ^ 2 + pllod p) * 2 ^ 16) by lia.
    rewrite lor_add by (destruct Hbit as [->| ->]; done).
    destruct Hbit as [->| ->]; [change (1 ≪ 7) with 128|change (1 ≪ 8) with 256]; lia.
Qed.

(** The rate of a PLL whose register holds [p]. *)
Lemma pll_rate_bits EXTAL p lo v (Hfit : pll_fits p) (Hlo : 0 <= lo < 2 ^ 16)
  (Hv : v .& Z.lnot 0xffff = (pll_bits p + lo) .& Z.lnot 0xffff) :
  pll_rate_of EXTAL v = u32 (EXTAL * (pllm p + 1)) / (plln p + 1) / 2 ^ pllod p.
Proof.
  destruct Hfit as (Hb & Hm & Hn & Ho). unfold pll_rate_of.
  rewrite (field_agree 0xffff 24 0x7f _ _ ltac:(lia) eq_refl Hv).
  rewrite (field_agree 0xffff 18 0x1f _ _ ltac:(lia) eq_refl Hv).
  rewrite (field_agree 0xffff 16 0x3 _ _ ltac:(lia) eq_refl Hv). unfold pll_bits.
  change 0x7f with (Z.ones 7). change 0x1f with (Z.ones 5). change 0x3 with (Z.ones 2).
  rewrite Z.shiftl_1_l.
  replace (bs p * 2 ^ 31 + pllm p * 2 ^ 24 + plln p * 2 ^ 18 + pllod p * 2 ^ 16 + lo)
    with (bs p * 2 ^ (24 + 7) + pllm p * 2 ^ 24 + (plln p * 2 ^ 18 + pllod p * 2 ^ 16 + lo)) at 1
    by lia.
  rewrite field_of_sum by lia.
  replace (bs p * 2 ^ 31 + pllm p * 2 ^ 24 + plln p * 2 ^ 18 + pllod p * 2 ^ 16 + lo)
    with ((bs p * 2 ^ 8 + pllm p * 2) * 2 ^ (18 + 5) + plln p * 2 ^ 18 + (pllod p * 2 ^ 16 + lo))
    at 1 by lia.
  rewrite field_of_sum by lia.
  replace (bs p * 2 ^ 31 + pllm p * 2 ^ 24 + plln p * 2 ^ 18 + pllod p * 2 ^ 16 + lo)
    with ((bs p * 2 ^ 13 + pllm p * 2 ^ 6 + plln p) * 2 ^ (16 + 2) + pllod p * 2 ^ 16 + lo)
    at 1 by lia.
  by rewrite field_of_sum by lia.
Qed.

(** The rate of the parameters found for a frequency of whole MHz is that frequency. *)
Lemma pll_rate_exact fin fout (Hf : 0 < fin <= 33) (Hv : pll_valid fin fout = true) :
  u32 (fin * 1000000 * (pllm (pll_fields fin fout) + 1)) / (plln (pll_fields fin fout) + 1)
    / 2 ^ pllod (pll_fields fin fout) = fout * 1000000.
Proof.
  unfold pll_valid in Hv. destruct (pll_factors fin fout) as (? & ? & Heq & _); [lia..|].
  unfold pll_fields; cbn [pllm plln pllod]. rewrite !Z.sub_add, Z.div_1_r.
  rewrite u32_small by nia. symmetry. apply (Z.div_unique_exact); nia.
Qed.

(** ** Programs that come to an end

    [runs m h Q]: started on [h] the program [m] ends without a stop, in a result and a
    device that satisfy [Q]. *)
Definition runs {H A} (m : io H A) (h : H) (Q : A -> H -> Prop) : Prop :=
  exists a h', m h = Some (a, h') /\ Q a h'.

Section runs.
Context {H : Type}.
Lemma runs_ret {A} (a : A) (h : H) Q : Q a h -> runs (mret a) h Q.
Proof. intros HQ. by exists a, h. Qed.
Lemma runs_bind {A B} (m : io H A) (f : A -> io H B) h Q :
  runs m h (fun a h' => runs (f a) h' Q) -> runs (m ≫= f) h Q.
Proof.
  intros (a & h' & Em & b & h'' & Ef & HQ). exists b, h''. split; [|done].
  unfold mbind, io_bind. by rewrite Em.
Qed.
Lemma runs_mono {A} (m : io H A) h (Q R : A -> H -> Prop) :
  runs m h Q -> (forall a h', Q a h' -> R a h') -> runs m h R.
Proof. intros (a & h' & Em & HQ) HR. exists a, h'. auto. Qed.
End runs.

Section device.
Context {H : Type} {Dev : Device H} {Laws : DeviceLaws H}.

(** The registers outside of [l] are the same. *)
Definition frame (l : list Z) (h h' : H) : Prop := forall b, b ∉ l -> reg b h' = reg b h.
Lemma frame_refl l h : frame l h h.
Proof. by intros b _. Qed.
Lemma frame_trans l h h' h'' : frame l h h' -> frame l h' h'' -> frame l h h''.
Proof. intros H1 H2 b Hb. by rewrite H2, H1. Qed.
Lemma frame_mono l l' h h' : frame l h h' -> l ⊆ l' -> frame l' h h'.
Proof. intros Hf Hl b Hb. apply Hf. auto. Qed.
Lemma frame_reg l h h' b : frame l h h' -> b ∉ l -> reg b h' = reg b h.
Proof. auto. Qed.

(** [v] is what the register [a] shows on [h]. *)
Definition shows (a v : Z) (h : H) : Prop :=
  v .& Z.lnot (status_bits a) = reg a h .& Z.lnot (status_bits a).

Lemma runs_read a h (Q : Z -> H -> Prop) :
  (forall v h', frame [] h h' -> shows a v h' -> Q v h') -> runs (io_readl a) h Q.
Proof.
  intros HQ. exists (fst (readl a h)), (snd (readl a h)). split;
    [by unfold io_readl; destruct (readl a h)|].
  apply HQ; [by intros b _; apply reg_read|]. unfold shows. rewrite reg_read. apply reg_shows.
Qed.
Lemma runs_write a v h (Q : () -> H -> Prop) :
  (forall h', frame [a] h h' -> reg a h' = v -> Q () h') -> runs (io_writel v a) h Q.
Proof.
  intros HQ. exists (), (writel v a h). split; [done|]. apply HQ; [|apply reg_write].
  intros b Hb. apply reg_write_ne. set_solver.
Qed.

Lemma runs_wait fuel a cond h (Q : () -> H -> Prop) :
  (forall v, settled a v -> cond v = false) -> (settle <= fuel)%nat ->
  (forall h', frame [] h h' -> Q () h') -> runs (wait_while fuel a cond) h Q.
Proof.
  intros Hc Hfuel HQ. destruct (reg_settles a h) as (n & Hn & Hs).
  assert (n < fuel)%nat as Hlt by lia. clear Hfuel Hn. revert n h Hlt Hs HQ.
  induction fuel as [|fuel IH]; intros n h Hlt Hs HQ; [lia|]. cbn [wait_while].
  apply runs_bind. exists (fst (readl a h)), (snd (readl a h)).
  split; [by unfold io_readl; destruct (readl a h)|].
  assert (frame [] h (snd (readl a h))) as Hf by (intros b _; apply reg_read).
  destruct n as [|n]; [rewrite Hc by exact Hs; by apply runs_ret, HQ|].
  destruct (cond _); [|by apply runs_ret, HQ]. apply (IH n); [lia| |].
  - by rewrite Nat.iter_succ_r in Hs.
  - intros h' Hh'. apply HQ. by eapply frame_trans.
Qed.

Lemma runs_lock_wait timeout off mask h (Q : Z -> H -> Prop) :
  (forall t h', frame [] h h' -> Q t h') -> runs (lock_wait timeout off mask) h Q.
Proof.
  revert h. induction timeout as [|n IH]; intros h HQ; cbn [lock_wait].
  { apply runs_ret, HQ, frame_refl. }
  apply runs_bind, runs_read. intros v h' Hf _. case_if; [by apply runs_ret, HQ|].
  apply IH. intros t h'' Hf'. apply HQ. by eapply frame_trans.
Qed.

(** A loop over the table that changes only the registers of its entries. *)
Lemma runs_for_each f l i h (P : clk_cgu_setting -> Prop)
  (Hf : forall j c h, P c -> runs (f j c) h (fun _ h' => frame [addr c] h h')) :
  Forall P l -> runs (for_each f i l) h (fun _ h' => frame (map addr l) h h').
Proof.
  intros HP. revert i h. induction HP as [|c l Hc _ IH]; intros i h; cbn [for_each map].
  { apply runs_ret, frame_refl. }
  apply runs_bind. eapply runs_mono; [by apply Hf|]. intros [] h' H1.
  eapply runs_mono; [apply IH|]. intros [] h'' H2. eapply frame_trans.
  - eapply frame_mono; [exact H1|]. set_solver.
  - eapply frame_mono; [exact H2|]. set_solver.
Qed.

(** [io_step] runs the next access; [regs] solves what is left of the registers. *)
Ltac io_step :=
  lazymatch goal with
  | |- runs (cpm_readl _ ≫= _) _ _ => apply runs_bind, runs_read
  | |- runs (io_readl _ ≫= _) _ _ => apply runs_bind, runs_read
  | |- runs (cpm_writel _ _ ≫= _) _ _ => apply runs_bind, runs_write
  | |- runs (io_writel _ _ ≫= _) _ _ => apply runs_bind, runs_write
  | |- runs (io_writel _ _) _ _ => apply runs_write
  | |- runs (lock_wait _ _ _ ≫= _) _ _ => apply runs_bind, runs_lock_wait
  | |- runs (wait_while _ _ _ ≫= _) _ _ => apply runs_bind, runs_wait
  | |- runs (wait_while _ _ _) _ _ => apply runs_wait
  | |- runs (mret _ ≫= _) _ _ => apply runs_bind, runs_ret
  | |- runs (mret _) _ _ => apply runs_ret
  end.

Definition A_CPAPCR : Z := CPM_BASE + CPM_CPAPCR.
Definition A_CPMPCR : Z := CPM_BASE + CPM_CPMPCR.
Definition A_CPCCR : Z := CPM_BASE + CPM_CPCCR.

Lemma not_in_cons (a b : Z) l : (a =? b) = false -> a ∉ l -> a ∉ b :: l.
Proof. intros H1 H2 [->|]%elem_of_cons; [lia|done]. Qed.
(** A register with a known address is not in a list of known addresses. *)
Ltac not_in := repeat first [by apply not_elem_of_nil | apply not_in_cons; [reflexivity|]].

Lemma runs_pll_sets cfg h (Ha : APLL_EN_VALUE cfg = 1) (Hm : MPLL_EN_VALUE cfg = 1) :
  runs (pll_sets cfg) h (fun _ h' => frame [A_CPAPCR; A_CPMPCR] h h'
    /\ reg A_CPAPCR h' = pll_value 1 8 (APLL_CTRL cfg) .| CONFIG_PLL_STABILIZE
    /\ reg A_CPMPCR h' = pll_value 1 7 (MPLL_CTRL cfg)).
Proof.
  unfold pll_sets. rewrite Ha, Hm. change (nonzero 1) with true. cbn iota.
  io_step; intros v h1 F1 _. io_step; intros h2 F2 _. io_step; intros v' h3 F3 _.
  io_step; intros h4 F4 _. io_step; intros h5 F5 R5. io_step; intros h6 F6 R6.
  apply runs_bind. io_step; intros t h7 F7. apply runs_read. intros v7 h8 F8 _.
  apply runs_bind. io_step; intros t' h9 F9. apply runs_read. intros v9 h10 F10 _.
  io_step. split_and!.
  - intros b Hb. apply not_elem_of_cons in Hb as [Hb1 Hb2].
    apply not_elem_of_cons in Hb2 as [Hb2 _].
    rewrite F10, F9, F8, F7, F6, F5, F4, F3, F2, F1; try done; set_solver.
  - rewrite (F10 A_CPAPCR), (F9 A_CPAPCR), (F8 A_CPAPCR), (F7 A_CPAPCR), (F6 A_CPAPCR)
      by not_in. exact R5.
  - rewrite (F10 A_CPMPCR), (F9 A_CPMPCR), (F8 A_CPMPCR), (F7 A_CPMPCR) by not_in. exact R6.
Qed.

Lemma settled_csr v : settled (CPM_BASE + CPM_CPCSR) v -> v .& 0xf0000007 = 0xf0000000.
Proof. done. Qed.
Lemma settled_stable v : settled (CPM_BASE + CPM_CPCSR) v -> nonzero (v .& 7) = false.
Proof.
  intros E%settled_csr. change 7 with (0xf0000007 .& 7). by rewrite Z.land_assoc, E.
Qed.
Lemma settled_switched v :
  settled (CPM_BASE + CPM_CPCSR) v -> negb (nonzero (v .& 0xf0000000)) = false.
Proof.
  intros E%settled_csr. change 0xf0000000 with (0xf0000007 .& 0xf0000000) at 1.
  by rewrite Z.land_assoc, E.
Qed.

Definition PLL_REGS : list Z := [A_CPCCR; A_CPAPCR; A_CPMPCR].
Lemma runs_pll_init cfg fuel h (Ha : APLL_EN_VALUE cfg = 1) (Hm : MPLL_EN_VALUE cfg = 1)
  (Hfuel : (settle <= fuel)%nat) :
  runs (pll_init cfg fuel) h (fun _ h' => frame PLL_REGS h h'
    /\ reg A_CPAPCR h' = pll_value 1 8 (APLL_CTRL cfg) .| CONFIG_PLL_STABILIZE
    /\ reg A_CPMPCR h' = pll_value 1 7 (MPLL_CTRL cfg)
    /\ reg A_CPCCR h' = u32 (cpccr_sels (DIV_VALUES cfg) .| cpccr_divs (DIV_VALUES cfg))).
Proof.
  unfold pll_init, cpccr_default, cpccr_sets.
  apply runs_bind. io_step; intros h1 F1 _. io_step; [|done|intros h2 F2].
  { intros v ->%settled_csr. done. }
  apply runs_bind. eapply runs_mono; [by apply runs_pll_sets|].
  intros [] h3 (F3 & RA & RM).
  io_step; intros h4 F4 _. io_step; [exact settled_stable|done|intros h5 F5].
  io_step; intros h6 F6 R6. io_step; [exact settled_switched|done|intros h7 F7].
  io_step; intros v h8 F8 _. io_step. split_and!.
  - intros b Hb. assert (b <> A_CPCCR /\ b <> A_CPAPCR /\ b <> A_CPMPCR) as (? & ? & ?)
      by set_solver.
    rewrite F8, F7, F6, F5, F4, F3, F2, F1; try done; set_solver.
  - by rewrite (F8 A_CPAPCR), (F7 A_CPAPCR), (F6 A_CPAPCR), (F5 A_CPAPCR), (F4 A_CPAPCR)
      by not_in.
  - by rewrite (F8 A_CPMPCR), (F7 A_CPMPCR), (F6 A_CPMPCR), (F5 A_CPMPCR), (F4 A_CPMPCR)
      by not_in.
  - by rewrite (F8 A_CPCCR), (F7 A_CPCCR) by not_in.
Qed.

(** ** The clock generators *)
(** A generator that can be waited for shows its busy bit, and its register is none of those
    of the system clocks. *)
Definition entry_ok (c : clk_cgu_setting) : Prop :=
  addr c ∉ PLL_REGS /\ (busy c = 0 \/ forall v, settled (addr c) v -> v .& (1 ≪ busy c) = 0).

Lemma runs_prepare t fuel h (Ht : Forall entry_ok t) (Hfuel : (settle <= fuel)%nat) :
  runs (clk_prepare t fuel) h (fun _ h' => frame (map addr t) h h').
Proof.
  apply (runs_for_each _ _ _ _ entry_ok); [|done]. clear h. intros _ c h [_ Hb].
  unfold clk_prepare_one. io_step; intros v h1 F1 _. case_if.
  - io_step; intros h2 F2 _. io_step; [|done|].
    + intros v' Hv. destruct Hb as [Hb|Hb]; [by rewrite Hb in E|]. by rewrite Hb by done.
    + intros h3 F3 b Hb'. rewrite F3, F2, F1; try done; set_solver.
  - io_step; intros h2 F2 _ b Hb'. rewrite F2, F1; try done; set_solver.
Qed.

Lemma runs_cgu_clk_set i c h :
  runs (cgu_clk_set i c) h (fun _ h' => frame [addr c] h h').
Proof.
  unfold cgu_clk_set. case_if; [io_step; apply frame_refl|].
  io_step; intros v h1 F1 _. io_step; intros h2 F2 _ b Hb. rewrite F2, F1; try done; set_solver.
Qed.
Lemma runs_clk_init c t gate h (Hd : addr c ∉ map addr t) :
  runs (clk_init (c :: t) gate) h (fun _ h' =>
    frame ((CPM_BASE + CPM_CLKGR) :: map addr (c :: t)) h h'
    /\ (addr c <> CPM_BASE + CPM_CLKGR -> exists v,
          reg (addr c) h' = (v .& u32 (Z.lnot (3 ≪ 30))) .| sel_val c)).
Proof.
  unfold clk_init, cgu_clks_set. io_step; intros g h1 F1 _. io_step; intros h2 F2 _.
  cbn [for_each]. apply runs_bind. unfold cgu_clk_set at 1. change (0 =? OTG) with false.
  cbn iota. io_step; intros v h3 F3 _. io_step; intros h4 F4 R4.
  eapply runs_mono.
  - apply (runs_for_each _ _ _ _ (fun _ => True)); [|by apply Forall_true].
    intros j c' h' _. apply runs_cgu_clk_set.
  - intros [] h5 F5. split.
    + intros b Hb. cbn [map] in Hb. rewrite F5, F4, F3, F2, F1; try done; set_solver.
    + intros Hne. exists v. rewrite F5, R4; done.
Qed.

(** The part of an entry that the sources do not change. *)
Definition cgu_unit (c : cgu) : Z * Z * Z * list Z * Z * Z * Z :=
  (cgu_en c, cgu_off c, cgu_sel_bit c, cgu_sel c, cgu_ce c, cgu_busy c, cgu_stop c).

Lemma set_src_ok l id src l' : set_src l id src = Some l' ->
  map cgu_unit l' = map cgu_unit l /\ (0 < id -> l' !! 0%nat = l !! 0%nat).
Proof.
  unfold set_src. intros (c & Hc & [= <-])%bind_Some. split.
  - etrans; [apply (list_fmap_insert cgu_unit)|]. apply list_insert_id.
    rewrite list_lookup_fmap, Hc. done.
  - intros Hid. apply list_lookup_insert_ne. lia.
Qed.
Lemma apply_srcs_ok srcs l l' : apply_srcs srcs l = Some l' ->
  map cgu_unit l' = map cgu_unit l
  /\ (Forall (fun p => 0 < p.1) srcs -> l' !! 0%nat = l !! 0%nat).
Proof.
  revert l. induction srcs as [|[id src] srcs IH]; intros l; cbn [apply_srcs]; [done|].
  case_if; [by intros [= <-]|].
  intros (l1 & H1 & (l2 & H2 & H3)%bind_Some)%bind_Some.
  apply set_src_ok in H1 as [U1 L1]. apply IH in H3 as [U3 L3].
  assert (map cgu_unit l2 = map cgu_unit l1 /\ l2 !! 0%nat = l1 !! 0%nat) as [U2 L2].
  { revert H2. case_if; [|by intros [= ->]]. intros [U L]%set_src_ok. split; [done|].
    by apply L. }
  split; [by rewrite U3, U2|]. intros Hs. apply Forall_cons in Hs as [Hid Hs].
  by rewrite L3, L2, L1.
Qed.

Definition ddr_entry (sel : Z) : clk_cgu_setting :=
  mk_cgu_setting (CPM_BASE + CPM_DDRCDR) (0xfe .| (1 ≪ 29) .| (1 ≪ 27)) 29 28 27 sel
    (if sel =? APLL then 1 ≪ 30 else 2 ≪ 30).

Lemma gen_table sel srcs t (Hsel : sel = APLL \/ sel = MPLL)
  (Hsrcs : Forall (fun p => 0 < p.1) srcs) : gen_cgu_params sel srcs = Some t ->
  exists t', t = ddr_entry sel :: t' /\ Forall entry_ok t
    /\ addr (ddr_entry sel) ∉ map addr t' /\ CPM_BASE + CPM_CLKGR ∉ map addr t.
Proof.
  unfold gen_cgu_params. intros (l & (U & L)%apply_srcs_ok & (en & Hen & [= <-])%bind_Some)%bind_Some.
  specialize (L Hsrcs). destruct l as [|c l]; [done|]. cbn in L, Hen.
  injection L as ->. injection Hen as <-. cbn [cgu_en].
  assert (map (fun c => (addr c, busy c)) (map (gen_one 1) l)
          = map (fun u => (u32 (CPM_BASE + u.1.1.1.1.1.2), u.1.2)) (map cgu_unit l)) as E
    by (rewrite !map_map; done).
  cbn [map cgu_clk_sel] in U. injection U as U. rewrite U in E. clear U.
  assert (Forall (fun p => p.1 ∉ PLL_REGS /\ (p.2 = 0 \/ forall v, settled p.1 v -> v .& (1 ≪ p.2) = 0))
    (map (fun c => (addr c, busy c)) (map (gen_one 1) l))) as HF.
  { rewrite E. repeat (apply Forall_cons; split; [|]); try apply Forall_nil_2; (split; [not_in|]);
      first [by left|right; intros v Hv; exact Hv]. }
  assert (map addr (map (gen_one 1) l) = map fst (map (fun c => (addr c, busy c)) (map (gen_one 1) l)))
    as EA by (by rewrite !map_map).
  exists (map (gen_one 1) l). split_and!.
  - cbn [map]. f_equal. by destruct Hsel as [->| ->].
  - constructor; [|by apply Forall_map in HF].
    split; [not_in|]. right. intros v Hv. exact Hv.
  - rewrite EA, E. not_in.
  - cbn [map]. apply not_in_cons; [done|]. rewrite EA, E. not_in.
Qed.

(** ** Rates *)
Section rates.
Context (EXTAL : Z).
Definition A_DDRCDR : Z := CPM_BASE + CPM_DDRCDR.
Definition pll_addr (pll : Z) : Z := if pll =? APLL then A_CPAPCR else A_CPMPCR.

(** The register of [pll] is set for the rate [R], whatever its status bits say. *)
Definition pll_at (pll R : Z) (h : H) : Prop :=
  forall v, v .& Z.lnot 0xffff = reg (pll_addr pll) h .& Z.lnot 0xffff ->
    pll_rate_of EXTAL v = R.
Lemma pll_at_frame pll R l h h' :
  frame l h h' -> pll_addr pll ∉ l -> pll_at pll R h -> pll_at pll R h'.
Proof. intros Hf Hl HR v Hv. apply HR. by rewrite Hv, (Hf _ Hl). Qed.

Lemma runs_pll_get_rate pll R h (Q : Z -> H -> Prop) (Hpll : pll = APLL \/ pll = MPLL) :
  pll_at pll R h -> (forall h', frame [] h h' -> Q R h') -> runs (pll_get_rate EXTAL pll) h Q.
Proof.
  intros HR HQ. unfold pll_get_rate. destruct Hpll as [->| ->]; cbn; apply runs_bind, runs_read;
    intros v h' F S; apply runs_ret; rewrite (HR v); try (by apply HQ).
  - unfold shows in S. by rewrite (F (CPM_BASE + CPM_CPAPCR)) in S by not_in.
  - unfold shows in S. by rewrite (F (CPM_BASE + CPM_CPMPCR)) in S by not_in.
Qed.

Lemma runs_selected_rate sel pll R d h (Hsel : sel = 1 /\ pll = APLL \/ sel = 2 /\ pll = MPLL)
  (Hd : 0 <= d <= 15) :
  pll_at pll R h -> runs (selected_rate EXTAL sel d) h (fun r _ => r = R / (d + 1)).
Proof.
  intros HR.
  assert (forall h' : H, runs (div_op R (u32 (d + 1))) h' (fun r _ => r = R / (d + 1))) as Hdiv.
  { intros h'. unfold div_op. rewrite u32_small by lia. replace (d + 1 =? 0) with false by lia.
    by apply runs_ret. }
  unfold selected_rate. destruct Hsel as [[-> ->]|[-> ->]]; cbn [Z.eqb Pos.eqb]; apply runs_bind;
    (apply (runs_pll_get_rate _ R); [tauto|done|]); intros h' _; apply Hdiv.
Qed.

(** The divider of the memory clock: rounded up, so that the rate is not above the wanted one. *)
Definition up (a b : Z) : Z := (a + b - 1) / b.
Lemma up_spec a b (Ha : 0 < a) (Hb : 0 < b) :
  1 <= up a b /\ a <= b * up a b /\ forall d, d < up a b -> b * d < a.
Proof.
  unfold up. pose proof (Z.div_mod (a + b - 1) b ltac:(lia)).
  pose proof (Z.mod_pos_bound (a + b - 1) b Hb). set (q := (a + b - 1) / b) in *.
  split_and!; [nia|nia|]. intros d Hd. nia.
Qed.

Lemma ddr_fields r v s cdr (Hs : s = 1 ≪ 30 \/ s = 2 ≪ 30) (Hc : 0 <= cdr <= 15)
  (Hr : r .& Z.lnot (1 ≪ 28) = ((v .& u32 (Z.lnot (3 ≪ 30))) .| s) .& Z.lnot (1 ≪ 28)) :
  let w := (r .& u32 (Z.lnot (0xf .| (0x3f ≪ 24)))) .| ((1 ≪ 29) .| cdr) in
  (w ≫ 30) .& 3 = s ≫ 30 /\ w .& 0xf = cdr.
Proof.
  intros w. subst w. split.
  - rewrite field_lor, field_land, field_lor.
    rewrite (field_agree (1 ≪ 28) 30 3 _ _ ltac:(lia) eq_refl Hr), field_lor, field_land.
    replace (cdr ≫ 30) with 0
      by (rewrite Z.shiftr_div_pow2 by lia; symmetry; apply Z.div_small; lia).
    change (u32 (Z.lnot (3 ≪ 30)) ≫ 30) with 0. rewrite Z.land_0_r.
    by destruct Hs as [->| ->].
  - rewrite !Z.land_lor_distr_l, <- Z.land_assoc.
    change (u32 (Z.lnot (0xf .| (0x3f ≪ 24))) .& 0xf) with 0. rewrite Z.land_0_r.
    change ((1 ≪ 29) .& 0xf) with 0. change 0xf with (Z.ones 4).
    rewrite Z.land_ones, Z.mod_small by lia. done.
Qed.

Lemma rate_cdr_up id R rate (Hid : id <> MSC0 /\ id <> MSC1) (HR : 0 < R) (Hr : 0 < rate)
  (H32 : R + rate <= 0x100000000) (Hup : up R rate <= 256) :
  rate_cdr id R rate = up R rate - 1.
Proof.
  destruct (up_spec R rate HR Hr) as (H1 & _). unfold rate_cdr.
  replace ((id =? MSC0) || (id =? MSC1)) with false by (unfold MSC0, MSC, MSC1 in *; lia).
  rewrite (u32_small (R + rate - 1)) by lia. fold (up R rate).
  rewrite u32_small by lia. change 0xff with (Z.ones 8). rewrite Z.land_ones by lia.
  apply Z.mod_small. lia.
Qed.

Lemma runs_set_ddr sel t fuel R mem v h (Hsel : sel = APLL \/ sel = MPLL)
  (Hreg : reg A_DDRCDR h = (v .& u32 (Z.lnot (3 ≪ 30))) .| sel_val (ddr_entry sel))
  (HR : pll_at sel R h) (Hpos : 0 < R) (Hmem : 0 < mem) (H32 : R + mem <= 0x100000000)
  (Hup : up R mem <= 16) (Hfuel : (settle <= fuel)%nat) :
  runs (clk_set_rate EXTAL (ddr_entry sel :: t) fuel DDR mem) h (fun _ h' =>
    frame [A_DDRCDR] h h' /\ reg A_DDRCDR h' .& 0xf = up R mem - 1
    /\ (reg A_DDRCDR h' ≫ 30) .& 3 = if sel =? APLL then 1 else 2).
Proof.
  destruct (up_spec R mem Hpos Hmem) as (H1 & _).
  unfold clk_set_rate. change (CGU_CNT <=? DDR) with false. change (DDR <? 0) with false.
  change ((ddr_entry sel :: t) !! Z.to_nat DDR) with (Some (ddr_entry sel)). cbn iota.
  apply runs_bind. apply (runs_pll_get_rate _ R); [done..|]. intros h1 F1.
  replace (R =? 0) with false by lia. replace (mem =? 0) with false by lia.
  rewrite rate_cdr_up by (done || lia). change (DDR =? DDR) with true. cbn iota.
  io_step; intros r h2 F2 S2. io_step; intros h3 F3 R3. io_step; [|done|].
  { intros v' Hv'. change (v' .& (1 ≪ 28) = 0) in Hv'. cbn [busy ddr_entry]. by rewrite Hv'. }
  intros h4 F4. change (addr (ddr_entry sel)) with A_DDRCDR in *.
  unfold shows in S2. rewrite (F2 A_DDRCDR), (F1 A_DDRCDR), Hreg in S2 by not_in.
  destruct (ddr_fields r v (sel_val (ddr_entry sel)) (up R mem - 1)) as [E1 E2];
    [destruct Hsel as [->| ->]; [by left|by right]|lia|exact S2|].
  rewrite (F4 A_DDRCDR), R3 by not_in. split_and!.
  - intros b Hb. rewrite F4, F3, F2, F1; try done; set_solver.
  - exact E2.
  - etrans; [exact E1|]. by destruct Hsel as [->| ->].
Qed.
End rates.

(** ** The system clock register *)
Definition divs_fit (d : div_setting) : Prop :=
  0 <= cdiv d < 16 /\ 0 <= l2div d < 16 /\ 0 <= h0div d < 16 /\ 0 <= h2div d < 16
  /\ 0 <= pdiv d < 16.
Definition sels_fit (d : div_setting) : Prop :=
  0 <= sel_src d < 4 /\ 0 <= sel_cpll d < 4 /\ 0 <= sel_h0pll d < 4 /\ 0 <= sel_h2pll d < 4.

Lemma lor_low a b k : 0 <= k -> 0 <= a < 2 ^ k -> a .| (b ≪ k) = b * 2 ^ k + a.
Proof. intros. by rewrite Z.lor_comm, Z.shiftl_mul_pow2, lor_add. Qed.
Lemma lor_high a b k j : 0 <= k -> 0 <= j -> 0 <= b < 2 ^ j ->
  (a * 2 ^ (k + j)) .| (b ≪ k) = (a * 2 ^ j + b) * 2 ^ k.
Proof.
  intros Hk Hj Hb. rewrite Z.shiftl_mul_pow2 by done. pose proof (Z.pow_pos_nonneg 2 k).
  rewrite lor_add; [rewrite Z.pow_add_r by done; ring|lia|]. rewrite Z.pow_add_r by done. nia.
Qed.

Lemma cpccr_divs_sum d : divs_fit d -> cpccr_divs d =
  pdiv d * 2 ^ 16 + h2div d * 2 ^ 12 + h0div d * 2 ^ 8 + l2div d * 2 ^ 4 + cdiv d.
Proof.
  intros (? & ? & ? & ? & ?). unfold cpccr_divs. rewrite Z.shiftl_0_r.
  rewrite (lor_low (cdiv d)), (lor_low _ (h0div d)), (lor_low _ (h2div d)), (lor_low _ (pdiv d))
    by lia. lia.
Qed.
Lemma cpccr_sels_sum d : sels_fit d -> cpccr_sels d =
  (sel_src d * 2 ^ 6 + sel_cpll d * 2 ^ 4 + sel_h0pll d * 2 ^ 2 + sel_h2pll d) * 2 ^ 24.
Proof.
  intros (? & ? & ? & ?). unfold cpccr_sels. rewrite (Z.shiftl_mul_pow2 (sel_src d)) by lia.
  rewrite (lor_high (sel_src d) _ 28 2), (lor_high _ _ 26 2), (lor_high _ _ 24 2) by lia. lia.
Qed.

Lemma cpccr_fields d v (Hd : divs_fit d) (Hs : sels_fit d)
  (Hv : v .& Z.lnot 0x700000 = u32 (cpccr_sels d .| cpccr_divs d) .& Z.lnot 0x700000) :
  (v ≫ 28) .& 3 = sel_cpll d /\ v .& 0xf = cdiv d
  /\ (v ≫ 24) .& 3 = sel_h2pll d /\ (v ≫ 12) .& 0xf = h2div d.
Proof.
  rewrite (cpccr_divs_sum d Hd), (cpccr_sels_sum d Hs) in Hv.
  destruct Hd as (? & ? & ? & ? & ?), Hs as (? & ? & ? & ?).
  rewrite lor_add in Hv by lia. rewrite u32_small in Hv by lia.
  rewrite <- (Z.shiftr_0_r v) at 2.
  rewrite (field_agree 0x700000 28 3 _ _ ltac:(lia) eq_refl Hv).
  rewrite (field_agree 0x700000 0 0xf _ _ ltac:(lia) eq_refl Hv).
  rewrite (field_agree 0x700000 24 3 _ _ ltac:(lia) eq_refl Hv).
  rewrite (field_agree 0x700000 12 0xf _ _ ltac:(lia) eq_refl Hv).
  change 0xf with (Z.ones 4). change 3 with (Z.ones 2).
  rewrite !Z.land_ones, !Z.shiftr_div_pow2 by lia. cbn [Z.pow Z.pow_pos Pos.iter Z.mul].
  split_and!; zdm.
Qed.

(** ** The parameters, when the generated header has no error *)
Definition mhz (f : Z) : Prop := f mod 1000000 = 0 /\ 0 <= f < 0x100000000.
Definition config_ok (cfg : pll_config) : Prop :=
  mhz (CONFIG_SYS_EXTAL cfg) /\ CONFIG_SYS_EXTAL cfg <= 33000000
  /\ mhz (CONFIG_SYS_APLL_FREQ cfg) /\ mhz (CONFIG_SYS_MPLL_FREQ cfg)
  /\ 0 < CONFIG_SYS_CPU_FREQ cfg < 0x100000000
  /\ (CONFIG_CPU_SEL_PLL cfg = SEL_APLL \/ CONFIG_CPU_SEL_PLL cfg = SEL_MPLL)
  /\ (CONFIG_DDR_SEL_PLL cfg = SEL_APLL \/ CONFIG_DDR_SEL_PLL cfg = SEL_MPLL).
Definition pll_freq_of (cfg : pll_config) (sel : Z) : Z :=
  if sel =? SEL_APLL then CONFIG_SYS_APLL_FREQ cfg else CONFIG_SYS_MPLL_FREQ cfg.
Definition cfg_fin (cfg : pll_config) : Z := CONFIG_SYS_EXTAL cfg / 1000000.

Lemma creator_ok a0 m0 p0 cfg vals (Hc : config_ok cfg)
  (Hrun : pll_params_creator a0 m0 p0 cfg = Some (vals, [])) (Hfit : divs_fit (DIV_VALUES vals)) :
  let fa := CONFIG_SYS_APLL_FREQ cfg / 1000000 in
  let fm := CONFIG_SYS_MPLL_FREQ cfg / 1000000 in
  let d := DIV_VALUES vals in
  pll_valid (cfg_fin cfg) fa = true /\ pll_valid (cfg_fin cfg) fm = true
  /\ APLL_EN_VALUE vals = 1 /\ APLL_CTRL vals = pll_fields (cfg_fin cfg) fa
  /\ MPLL_EN_VALUE vals = 1 /\ MPLL_CTRL vals = pll_fields (cfg_fin cfg) fm
  /\ pll_freq_of cfg (CONFIG_CPU_SEL_PLL cfg) = CONFIG_SYS_CPU_FREQ cfg * (cdiv d + 1)
  /\ least_div (pll_freq_of cfg (CONFIG_DDR_SEL_PLL cfg)) MAX_H2_CLK (h2div d + 1)
  /\ sel_cpll d = CONFIG_CPU_SEL_PLL cfg /\ sel_h2pll d = CONFIG_DDR_SEL_PLL cfg
  /\ sels_fit d.
Proof.
  intros fa fm d. destruct Hc as ((_ & He) & _ & (_ & Ha) & (_ & Hm) & Hcpu & Hcs & Hds).
  unfold pll_params_creator in Hrun. rewrite !gen_pll_ok in Hrun by done.
  fold (cfg_fin cfg) fa fm in Hrun. cbn [mbind option_bind] in Hrun.
  set (s := mk_setting _ _ _ _ _) in Hrun.
  destruct (pll_valid (cfg_fin cfg) fa) eqn:Va;
    [|by destruct (pll_valid _ fm), (gen_sys_div s p0) as [[]|]].
  destruct (pll_valid (cfg_fin cfg) fm) eqn:Vm; [|by destruct (gen_sys_div s p0) as [[]|]].
  rewrite !pll_bits_nonzero in Hrun by done.
  assert (cpu_pll s = pll_freq_of cfg (CONFIG_CPU_SEL_PLL cfg)) as Ecpu by done.
  assert (bus_pll s = pll_freq_of cfg (CONFIG_DDR_SEL_PLL cfg)) as Ebus by done.
  assert (forall x, 300000000 <= pll_freq_of cfg x < 0x100000000) as Hfr.
  { intros x. unfold pll_freq_of, pll_valid in *. subst fa fm. case_if; zdm. }
  destruct (gen_sys_div_ok s p0) as (d' & k & Ed & Ecd & _ & _ & Hh2 & _ & _ & S1 & S2 & S3 & S4).
  { exact Hcpu. } { rewrite Ecpu. specialize (Hfr (CONFIG_CPU_SEL_PLL cfg)). lia. }
  { rewrite Ebus. change (M 1) with 1000000. specialize (Hfr (CONFIG_DDR_SEL_PLL cfg)). lia. }
  rewrite Ed in Hrun. cbn [mbind option_bind] in Hrun. clear Ed.
  injection Hrun as <- Herr. subst d. cbn [DIV_VALUES APLL_EN_VALUE MPLL_EN_VALUE APLL_CTRL MPLL_CTRL] in *.
  rewrite Ecpu in *. rewrite Ebus in Hh2. change (cpu_freq s) with (CONFIG_SYS_CPU_FREQ cfg) in *.
  change (cpu_sel_pll s) with (CONFIG_CPU_SEL_PLL cfg) in *.
  change (ddr_sel_pll s) with (CONFIG_DDR_SEL_PLL cfg) in *.
  specialize (Hfr (CONFIG_CPU_SEL_PLL cfg)).
  destruct (_ <? _) eqn:E1 in Herr; [done|]. destruct (_ =? 0) eqn:E2 in Herr; [|done].
  split_and!; try done.
  - destruct Hfit as [Hfit _]. rewrite Ecd in Hfit |- *. unfold s32, u32 in Hfit |- *.
    set (f := pll_freq_of _ _) in *. set (c := CONFIG_SYS_CPU_FREQ cfg) in *.
    assert (f = c * (f / c)) as Ef by (pose proof (Z.div_mod f c ltac:(lia)); lia).
    assert (1 <= f / c < 0x100000000) by (split; [apply Z.div_le_lower_bound; lia|
      apply Z.div_lt_upper_bound; nia]).
    rewrite (Z.mod_small (f / c - 1)) in * by lia.
    destruct (f / c - 1 <? _) in Hfit |- *; lia.
  - rewrite S1. by destruct Hcs as [->| ->].
  - rewrite S3. by destruct Hds as [->| ->].
  - unfold sels_fit. rewrite S1, S2, S3, S4. repeat case_if; lia.
Qed.

(** ** The boot sequence *)
(** The configuration names a PLL for both programs; the values of the names differ. *)
Definition as_clk_id (sel : Z) : Z := if sel =? SEL_APLL then APLL else MPLL.

(** The system clocks are set as the configuration says. *)
Definition clocks_at (cfg : pll_config) (d : div_setting) (h : H) : Prop :=
  pll_at (CONFIG_SYS_EXTAL cfg) APLL (CONFIG_SYS_APLL_FREQ cfg) h
  /\ pll_at (CONFIG_SYS_EXTAL cfg) MPLL (CONFIG_SYS_MPLL_FREQ cfg) h
  /\ reg A_CPCCR h = u32 (cpccr_sels d .| cpccr_divs d).
Lemma clocks_at_frame cfg d l h h' :
  frame l h h' -> A_CPAPCR ∉ l -> A_CPMPCR ∉ l -> A_CPCCR ∉ l ->
  clocks_at cfg d h -> clocks_at cfg d h'.
Proof.
  intros Hf Ha Hm Hc (PA & PM & RC). split_and!.
  - by eapply pll_at_frame.
  - by eapply pll_at_frame.
  - by rewrite (Hf _ Hc).
Qed.

Lemma pll_at_config cfg pll fout en_bit x h (Hc : config_ok cfg) (Hpll : pll = APLL \/ pll = MPLL)
  (Hv : pll_valid (cfg_fin cfg) (fout / 1000000) = true) (Hm : mhz fout)
  (Hb : en_bit = 7 \/ en_bit = 8) (Hx : x = 0 \/ x = CONFIG_PLL_STABILIZE)
  (Hr : reg (pll_addr pll) h = pll_value 1 en_bit (pll_fields (cfg_fin cfg) (fout / 1000000)) .| x) :
  pll_at (CONFIG_SYS_EXTAL cfg) pll fout h.
Proof.
  intros v Hs. destruct Hc as ((He0 & He) & He33 & _).
  assert (CONFIG_SYS_EXTAL cfg = cfg_fin cfg * 1000000) as -> by (unfold cfg_fin; zdm).
  destruct (pll_value_or (pll_fields (cfg_fin cfg) (fout / 1000000)) en_bit x) as (lo & Hlo & E);
    [by apply pll_fields_fit|done..|].
  rewrite Hr, E in Hs. rewrite (pll_rate_bits _ _ lo) by (done || by apply pll_fields_fit).
  rewrite pll_rate_exact; [destruct Hm as [Hm _]; zdm|unfold pll_valid in Hv|done].
  unfold cfg_fin in *. zdm.
Qed.

Lemma runs_board_clocks cfg vals c t fuel gate h (Hc : config_ok cfg)
  (Hcgu : Forall entry_ok (c :: t)) (Hd : addr c ∉ map addr t)
  (Hg : CPM_BASE + CPM_CLKGR ∉ map addr (c :: t)) (Hfuel : (settle <= fuel)%nat)
  (Ea : APLL_EN_VALUE vals = 1) (Em : MPLL_EN_VALUE vals = 1)
  (Hva : pll_valid (cfg_fin cfg) (CONFIG_SYS_APLL_FREQ cfg / 1000000) = true)
  (Hvm : pll_valid (cfg_fin cfg) (CONFIG_SYS_MPLL_FREQ cfg / 1000000) = true)
  (Ca : APLL_CTRL vals = pll_fields (cfg_fin cfg) (CONFIG_SYS_APLL_FREQ cfg / 1000000))
  (Cm : MPLL_CTRL vals = pll_fields (cfg_fin cfg) (CONFIG_SYS_MPLL_FREQ cfg / 1000000)) :
  runs (board_clocks (c :: t) fuel vals gate) h (fun _ h' =>
    clocks_at cfg (DIV_VALUES vals) h'
    /\ exists v, reg (addr c) h' = (v .& u32 (Z.lnot (3 ≪ 30))) .| sel_val c).
Proof.
  unfold board_clocks. apply runs_bind. eapply runs_mono; [by apply runs_prepare|]. intros [] h1 _.
  apply runs_bind. eapply runs_mono; [by apply runs_pll_init|]. intros [] h2 (_ & RA & RM & RC).
  eapply runs_mono; [by apply runs_clk_init|]. intros [] h3 [F3 R3]. split.
  - assert (forall a, a ∈ PLL_REGS -> a ∉ (CPM_BASE + CPM_CLKGR) :: map addr (c :: t)) as Hn.
    { intros a Ha [->|(c' & -> & Hc')%list_elem_of_fmap]%elem_of_cons; [by revert Ha; not_in|].
      rewrite Forall_forall in Hcgu. by apply Hcgu in Hc' as [Hc' _]. }
    apply (clocks_at_frame _ _ _ _ _ F3); [apply Hn; set_solver..|]. split_and!; [| |done].
    + eapply (pll_at_config _ _ _ 8 CONFIG_PLL_STABILIZE); eauto; [apply Hc|].
      cbn. by rewrite RA, Ca.
    + eapply (pll_at_config _ _ _ 7 0); eauto; [apply Hc|]. rewrite Z.lor_0_r.
      change (reg (pll_addr MPLL) h2) with (reg A_CPMPCR h2). by rewrite RM, Cm.
  - apply R3. intros E. apply Hg. rewrite <- E. cbn [map]. by left.
Qed.

(** The rates that [clk_get_rate] gives on a device with the clocks set. *)
Lemma runs_get_rate cfg vals h clk r (Hc : config_ok cfg) (Hat : clocks_at cfg (DIV_VALUES vals) h)
  (Hfit : divs_fit (DIV_VALUES vals)) (Hsels : sels_fit (DIV_VALUES vals))
  (Hcs : sel_cpll (DIV_VALUES vals) = CONFIG_CPU_SEL_PLL cfg)
  (Hhs : sel_h2pll (DIV_VALUES vals) = CONFIG_DDR_SEL_PLL cfg)
  (Hclk : clk = APLL /\ r = CONFIG_SYS_APLL_FREQ cfg
    \/ clk = MPLL /\ r = CONFIG_SYS_MPLL_FREQ cfg
    \/ clk = CPU /\ r = pll_freq_of cfg (CONFIG_CPU_SEL_PLL cfg) / (cdiv (DIV_VALUES vals) + 1)
    \/ clk = H2CLK
       /\ r = pll_freq_of cfg (CONFIG_DDR_SEL_PLL cfg) / (h2div (DIV_VALUES vals) + 1)) :
  runs (clk_get_rate (CONFIG_SYS_EXTAL cfg) clk) h (fun r' _ => r' = r).
Proof.
  destruct Hat as (PA & PM & RC), Hc as (_ & _ & _ & _ & _ & Hcpu & Hddr).
  destruct Hclk as [[-> ->]|[[-> ->]|[[-> ->]|[-> ->]]]].
  - by apply (runs_pll_get_rate _ APLL (CONFIG_SYS_APLL_FREQ cfg)); [by left| |].
  - by apply (runs_pll_get_rate _ MPLL (CONFIG_SYS_MPLL_FREQ cfg)); [by right| |].
  - change (runs (get_cclk_rate (CONFIG_SYS_EXTAL cfg)) h
      (fun r' _ => r' = pll_freq_of cfg (CONFIG_CPU_SEL_PLL cfg) / (cdiv (DIV_VALUES vals) + 1))).
    unfold get_cclk_rate. io_step; intros v h1 F1 S1. unfold shows in S1.
    change (CPM_BASE + CPM_CPCCR) with A_CPCCR in S1. rewrite (F1 A_CPCCR), RC in S1 by not_in.
    destruct (cpccr_fields _ _ Hfit Hsels S1) as (-> & -> & _). rewrite Hcs.
    destruct Hfit as [Hfit _].
    destruct Hcpu as [E|E]; rewrite E; [eapply (runs_selected_rate _ _ APLL)|
      eapply (runs_selected_rate _ _ MPLL)]; try tauto; try lia;
      eapply pll_at_frame; try exact F1; try done; not_in.
  - change (runs (cpm_get_h2clk (CONFIG_SYS_EXTAL cfg)) h
      (fun r' _ => r' = pll_freq_of cfg (CONFIG_DDR_SEL_PLL cfg) / (h2div (DIV_VALUES vals) + 1))).
    unfold cpm_get_h2clk. io_step; intros v h1 F1 S1. unfold shows in S1.
    change (CPM_BASE + CPM_CPCCR) with A_CPCCR in S1. rewrite (F1 A_CPCCR), RC in S1 by not_in.
    destruct (cpccr_fields _ _ Hfit Hsels S1) as (_ & _ & -> & ->). rewrite Hhs.
    destruct Hfit as (_ & _ & _ & Hfit & _).
    destruct Hddr as [E|E]; rewrite E; [eapply (runs_selected_rate _ _ APLL)|
      eapply (runs_selected_rate _ _ MPLL)]; try tauto; try lia;
      eapply pll_at_frame; try exact F1; try done; not_in.
Qed.

Lemma runs_get_ddr EXTAL h pll R d (Hpll : pll = APLL \/ pll = MPLL) (Hat : pll_at EXTAL pll R h)
  (Hd : reg A_DDRCDR h .& 0xf = d) (Hd' : 0 <= d <= 15)
  (Hs : (reg A_DDRCDR h ≫ 30) .& 3 = if pll =? APLL then 1 else 2) :
  runs (clk_get_rate EXTAL DDR) h (fun r _ => r = R / (d + 1)).
Proof.
  change (runs (get_ddr_rate EXTAL) h (fun r _ => r = R / (d + 1))). unfold get_ddr_rate.
  io_step; intros v h1 F1 S1. unfold shows in S1.
  change (CPM_BASE + CPM_DDRCDR) with A_DDRCDR in S1. rewrite (F1 A_DDRCDR) in S1 by not_in.
  change (status_bits A_DDRCDR) with (1 ≪ 28) in S1.
  rewrite (field_agree (1 ≪ 28) 30 3 _ _ ltac:(lia) eq_refl S1), Hs.
  rewrite <- (Z.shiftr_0_r v), (field_agree (1 ≪ 28) 0 0xf _ _ ltac:(lia) eq_refl S1).
  rewrite Z.shiftr_0_r, Hd. eapply runs_selected_rate; [|done|eapply pll_at_frame; [exact F1|not_in|exact Hat]].
  destruct Hpll as [->| ->]; [by left|by right].
Qed.

(** C21: Starting the clocks always ends, and the clocks then run at the configured rates: for
    a configuration in whole MHz whose generated header has no error and whose dividers fit
    their fields, the boot sequence and the setting of the memory clock return on every device
    that follows the laws.  [clk_get_rate] then gives the two PLL frequencies, the CPU
    frequency, a bus clock with the smallest divider that respects the limit, and a memory
    clock with the smallest divider that does not exceed the wanted rate. *)
Theorem clock_setup_correct cfg vals a0 m0 p0 srcs t fuel gate mem (h : H)
  (Hc : config_ok cfg) (Hrun : pll_params_creator a0 m0 p0 cfg = Some (vals, []))
  (Hfit : divs_fit (DIV_VALUES vals))
  (Hcgu : gen_cgu_params (as_clk_id (CONFIG_DDR_SEL_PLL cfg)) srcs = Some t)
  (Hsrcs : Forall (fun p => 0 < p.1) srcs) (Hfuel : (settle <= fuel)%nat) (Hmem : 0 < mem)
  (H32 : pll_freq_of cfg (CONFIG_DDR_SEL_PLL cfg) + mem <= 0x100000000)
  (Hup : up (pll_freq_of cfg (CONFIG_DDR_SEL_PLL cfg)) mem <= 16) :
  let bus := pll_freq_of cfg (CONFIG_DDR_SEL_PLL cfg) in
  runs (_ ← board_clocks t fuel vals gate; clk_set_rate (CONFIG_SYS_EXTAL cfg) t fuel DDR mem) h
    (fun _ h' => forall clk r, (clk, r) ∈
      [(APLL, CONFIG_SYS_APLL_FREQ cfg); (MPLL, CONFIG_SYS_MPLL_FREQ cfg);
       (CPU, CONFIG_SYS_CPU_FREQ cfg); (H2CLK, bus / (h2div (DIV_VALUES vals) + 1));
       (DDR, bus / up bus mem)] ->
      runs (clk_get_rate (CONFIG_SYS_EXTAL cfg) clk) h' (fun r' _ => r' = r))
  /\ least_div bus MAX_H2_CLK (h2div (DIV_VALUES vals) + 1)
  /\ bus <= mem * up bus mem /\ (forall d, d < up bus mem -> mem * d < bus).
Proof.
  intros bus.
  destruct (creator_ok a0 m0 p0 cfg vals Hc Hrun Hfit)
    as (Va & Vm & Ea & Ca & Em & Cm & Hcpu & Hh2 & Hsc & Hsh & Hsels).
  assert (0 < bus) as Hbus.
  { subst bus. unfold pll_freq_of, pll_valid in *. case_if; zdm. }
  set (pll := as_clk_id (CONFIG_DDR_SEL_PLL cfg)) in *.
  assert (pll = APLL \/ pll = MPLL) as Hpll by (unfold pll, as_clk_id; case_if; auto).
  destruct (gen_table pll srcs t Hpll Hsrcs Hcgu) as (t' & -> & Hent & Hd & Hg).
  destruct (up_spec bus mem Hbus Hmem) as (H1 & Hle & Hmin). fold bus in Hup. split; [|done].
  apply runs_bind. eapply runs_mono; [by apply runs_board_clocks|]. intros [] h1 (Hat & v & Hv).
  assert (pll_at (CONFIG_SYS_EXTAL cfg) pll bus h1) as Hp.
  { destruct Hat as (PA & PM & _). unfold bus, pll, as_clk_id, pll_freq_of. by case_if. }
  eapply runs_mono; [by apply (runs_set_ddr _ pll t' fuel bus mem v)|].
  intros [] h2 (F2 & Hlow & Hhigh) clk r Hin.
  assert (clocks_at cfg (DIV_VALUES vals) h2) as Hat2
    by (apply (clocks_at_frame _ _ _ _ _ F2); try done; not_in).
  assert (pll_at (CONFIG_SYS_EXTAL cfg) pll bus h2) as Hp2.
  { eapply pll_at_frame; [exact F2| |exact Hp]. destruct Hpll as [->| ->]; not_in. }
  rewrite !elem_of_cons, elem_of_nil in Hin.
  destruct (decide (clk = DDR)) as [->|Hne].
  - assert (r = bus / up bus mem) as -> by naive_solver.
    rewrite <- (Z.sub_add 1 (up bus mem)).
    eapply runs_get_ddr; [exact Hpll|exact Hp2|exact Hlow|lia|exact Hhigh].
  - eapply runs_get_rate; try done.
    assert (CONFIG_SYS_CPU_FREQ cfg
      = pll_freq_of cfg (CONFIG_CPU_SEL_PLL cfg) / (cdiv (DIV_VALUES vals) + 1)) as Ecpu.
    { rewrite Hcpu. symmetry. apply Z.div_mul. destruct Hfit. lia. }
    rewrite <- Ecpu. naive_solver.
Qed.
End device.

(** ** A device *)
(** Registers that are busy until they have been read once after a write. *)
Definition state_bits (a : Z) (changing : bool) : Z :=
  if a =? CPM_BASE + CPM_CPCSR then if changing then 7 else 0xf0000000
  else if changing then status_bits a
  else if a =? CPM_BASE + CPM_CPAPCR then 1 ≪ 10
  else if a =? CPM_BASE + CPM_CPMPCR then 1 else 0.
Lemma state_status a b : state_bits a b .& Z.lnot (status_bits a) = 0.
Proof.
  unfold state_bits. destruct (Z.eqb_spec a (CPM_BASE + CPM_CPCSR)) as [->|]; [by destruct b|].
  destruct b; [apply Z.land_lnot_diag|].
  destruct (Z.eqb_spec a (CPM_BASE + CPM_CPAPCR)) as [->|]; [done|].
  by destruct (Z.eqb_spec a (CPM_BASE + CPM_CPMPCR)) as [->|].
Qed.

#[export] Instance slow_device : Device (gmap Z Z * bool) := {
  readl a h :=
    ((default 0 (h.1 !! a) .& Z.lnot (status_bits a)) .| state_bits a h.2, (h.1, false));
  writel v a h := (<[a := v]> h.1, true) }.

#[export] Instance slow_laws : DeviceLaws (gmap Z Z * bool).
Proof.
  refine {| reg a h := default 0 (h.1 !! a); settle := 2 |}.
  - intros a v h. cbn. by rewrite lookup_insert_eq.
  - intros a b v h Hab. cbn. by rewrite lookup_insert_ne.
  - done.
  - intros a h. cbn. rewrite Z.land_lor_distr_l, state_status, Z.lor_0_r, <- Z.land_assoc.
    by rewrite Z.land_diag.
  - intros a h. exists 1%nat. split; [lia|]. cbn. unfold settled.
    destruct (Z.eqb_spec a (CPM_BASE + CPM_CPCSR)) as [->|Hne].
    + rewrite Z.land_lor_distr_l, <- Z.land_assoc.
      change (Z.lnot (status_bits (CPM_BASE + CPM_CPCSR)) .& 0xf0000007) with 0.
      by rewrite Z.land_0_r.
    + case_if; [done|]. rewrite !orb_false_iff, !Z.eqb_neq in E. destruct E as ((H1 & H2) & H3).
      unfold state_bits. rewrite (proj2 (Z.eqb_neq _ _) Hne), (proj2 (Z.eqb_neq _ _) H1).
      rewrite (proj2 (Z.eqb_neq _ _) H2), Z.lor_0_r, <- Z.land_assoc.
      rewrite (Z.land_comm (Z.lnot _)), Z.land_lnot_diag. apply Z.land_0_r.
Defined.

(** ** The boards *)
(** [CGU_CLK_SRC] of the boards. *)
Definition board_srcs : list (Z * Z) :=
  [(OTG, EXCLK); (LCD, MPLL); (MSC, MPLL); (SFC, MPLL); (CIM, MPLL); (PCM, MPLL);
   (I2S, EXCLK); (SRC_EOF, SRC_EOF)].
Definition board_gate : Z := CPM_CLKGR_DDR .| CPM_CLKGR_MSC0.

Theorem clock_setup_correct_witness :
  let cfg := cu1000_clocks in
  let bus := pll_freq_of cfg (CONFIG_DDR_SEL_PLL cfg) in
  let vals := cu1000_regs in
  exists t, gen_cgu_params MPLL board_srcs = Some t
  /\ bus / (h2div (DIV_VALUES vals) + 1) = 200000000 /\ bus / up bus 200000000 = 200000000
  /\ forall h : gmap Z Z * bool,
    runs (_ ← board_clocks t 2 vals board_gate;
          clk_set_rate (CONFIG_SYS_EXTAL cfg) t 2 DDR 200000000) h
      (fun _ h' => forall clk r, (clk, r) ∈
        [(APLL, CONFIG_SYS_APLL_FREQ cfg); (MPLL, CONFIG_SYS_MPLL_FREQ cfg);
         (CPU, CONFIG_SYS_CPU_FREQ cfg); (H2CLK, bus / (h2div (DIV_VALUES vals) + 1));
         (DDR, bus / up bus 200000000)] ->
        runs (clk_get_rate (CONFIG_SYS_EXTAL cfg) clk) h' (fun r' _ => r' = r)).
Proof.
  intros cfg bus vals.
  destruct (gen_cgu_params MPLL board_srcs) as [t|] eqn:Et; [|by vm_compute in Et].
  exists t. split; [done|]. split; [by vm_compute|]. split; [by vm_compute|]. intros h.
  assert (config_ok cfg) as Hc.
  { unfold config_ok, mhz. split_and!; first [by vm_compute|by left|by right]. }
  assert (divs_fit (DIV_VALUES vals)) as Hfit by by vm_compute.
  assert (Forall (fun p : Z * Z => 0 < p.1) board_srcs) as Hsrcs by by repeat constructor.
  assert (up (pll_freq_of cfg (CONFIG_DDR_SEL_PLL cfg)) 200000000 <= 16) as Hup by by vm_compute.
  assert (pll_freq_of cfg (CONFIG_DDR_SEL_PLL cfg) + 200000000 <= 0x100000000) as H32
    by by vm_compute.
  exact (proj1 (clock_setup_correct cfg vals blank_pll blank_pll 0 board_srcs t 2 board_gate
    200000000 h Hc cu1000_values Hfit Et Hsrcs (le_n 2) eq_refl H32 Hup)).
Defined.

(** ** Observations *)
(** The CPU divider that the checks let pass: a CPU of 48 MHz runs at 201.6 MHz, and the rest
    of the divider is in the field of the L2 cache. *)
Definition slow_cpu_clocks : pll_config :=
  mk_config 24000000 1008000000 600000000 48000000 SEL_APLL SEL_MPLL.
Lemma cpu_divider_overflows : exists vals,
  pll_params_creator blank_pll blank_pll 0 slow_cpu_clocks = Some (vals, [])
  /\ fst <$> (_ ← pll_init vals 2; clk_get_rate 24000000 CPU) (∅ : gmap Z Z, false)
     = Some 201600000.
Proof. eexists. split; [vm_compute; reflexivity|vm_compute; reflexivity]. Qed.

(** A memory card clock is divided by an even number that is rounded down: with a PLL of
    600 MHz a rate of 24 MHz gives 25 MHz. *)
Lemma msc_rate_above :
  600000000 / ((rate_cdr MSC0 600000000 24000000 + 1) * 2) = 25000000.
Proof. reflexivity. Qed.

(** The selection of the crystal for the flash controller is shifted out of the register. *)
Lemma sfc_crystal_lost :
  option_map (fun t => sel_val <$> t !! Z.to_nat SFC)
    (gen_cgu_params MPLL [(SFC, EXCLK); (SRC_EOF, SRC_EOF)]) = Some (Some 0).
Proof. reflexivity. Qed.

(** The audio clocks have no busy bit, and [clk_set_rate] waits for bit 0 of the divider
    instead: it never returns where that bit is set. *)
Lemma wait_bit_0 fuel a m b : Z.testbit (default 0 (m !! a)) 0 = true ->
  Z.testbit (status_bits a) 0 = false ->
  wait_while fuel a (fun v => nonzero (v .& (1 ≪ 0))) ((m, b) : gmap Z Z * bool) = None.
Proof.
  intros Hm Hs. revert b. induction fuel as [|fuel IH]; intros b; [done|]. cbn [wait_while].
  unfold mbind, io_bind, io_readl. cbn [readl slow_device fst snd].
  set (v := _ .| _). assert (Z.testbit v 0 = true) as Hv.
  { subst v. by rewrite Z.lor_spec, Z.land_spec, Z.lnot_spec, Hm, Hs. }
  assert (nonzero (v .& (1 ≪ 0)) = true) as ->; [|apply IH].
  unfold nonzero. destruct (Z.eqb_spec (v .& (1 ≪ 0)) 0) as [E|]; [|done].
  apply (f_equal (fun z => Z.testbit z 0)) in E. cbn beta in E. rewrite Z.land_spec, Hv in E. done.
Qed.
Lemma pcm_rate_hangs fuel : exists t h, gen_cgu_params MPLL board_srcs = Some t
  /\ clk_set_rate 24000000 t fuel PCM 100000000 (h : gmap Z Z * bool) = None.
Proof.
  set (m := {[CPM_BASE + CPM_CPMPCR := pll_bits (mk_pll 0 0 24 1)]} : gmap Z Z).
  eexists _, (m, false). split; [reflexivity|].
  transitivity (wait_while fuel (CPM_BASE + CPM_PCMCDR) (fun v => nonzero (v .& (1 ≪ 0)))
    (<[CPM_BASE + CPM_PCMCDR := (1 ≪ 29) .| 5]> m, true)); [reflexivity|].
  by apply wait_bit_0.
Qed.
