(* ===== verification/Cmdline.v ===== *)
(** * The command line: [common/main.c] and [common/command.c]

    The built-in parser: splitting a line into commands and arguments, replacing variables,
    looking a command up and running it.  What the commands do is a parameter, a function on
    a state; what is printed is not modelled. *)
From S2P Require Import Prelude Ctype Mem CStr EnvAttr.

Definition CONFIG_SYS_CBSIZE : Z := 1024.
Definition CONFIG_SYS_MAXARGS : nat := 16.
Definition CMD_RET_SUCCESS : Z := 0.
Definition CMD_RET_FAILURE : Z := 1.
Definition CMD_RET_USAGE : Z := -1.
Definition CMD_FLAG_REPEAT : Z := 1.
Definition CMD_FLAG_BOOTD : Z := 2.

Definition isblank (c : Z) : bool := (c =? 32) || (c =? 9).

(** ** Arguments *)
Fixpoint skip_space (s : list Z) : list Z :=
  match s with c :: r => if isblank c then skip_space r else s | [] => [] end.
(** The characters up to a blank, and the rest from the blank on. *)
Fixpoint take_word (s : list Z) : list Z * list Z :=
  match s with
  | c :: r => if isblank c then ([], s) else let (w, rest) := take_word r in (c :: w, rest)
  | [] => ([], [])
  end.

(** [n] is the room left in [argv].  The flag says whether the terminating [NULL] was stored. *)
Fixpoint parse_line_loop (n : nat) (line : list Z) (argv : list (list Z)) : list (list Z) * bool :=
  match n with
  | O => (argv, false)
  | S n =>
      match skip_space line with
      | [] => (argv, true)
      | line =>
          let (w, rest) := take_word line in
          let argv := argv ++ [w] in
          match rest with
          | [] => (argv, true)
          | _ :: line => parse_line_loop n line argv
          end
      end
  end.
Definition parse_line (line : list Z) : list (list Z) * bool :=
  parse_line_loop CONFIG_SYS_MAXARGS line [].

(** [make_argv] of the completion leaves a place for the [NULL]. *)
Fixpoint make_argv_loop (n : nat) (s : list Z) (argv : list (list Z)) : list (list Z) :=
  match n with
  | O => argv
  | S n =>
      match skip_space s with
      | [] => argv
      | s =>
          let (w, rest) := take_word s in
          let argv := argv ++ [w] in
          match rest with [] => argv | _ :: s => make_argv_loop n s argv end
      end
  end.
Definition make_argv (s : list Z) (argvsz : nat) : list (list Z) :=
  make_argv_loop (argvsz - 1) s [].

(** The length of the common start of the possible completions. *)
Fixpoint common_len (len : nat) (s t : list Z) : nat :=
  match len, s with
  | S len, c :: s => if chr t =? c then S (common_len len s (tail t)) else O
  | _, _ => O
  end.
Definition find_common_prefix (argv : list (list Z)) : nat :=
  match argv with
  | [] => O
  | anchor :: argv => foldl (fun len t => common_len len anchor t) (length anchor) argv
  end.

(** ** Variables

    [process_macros] as a state machine: 0 waits for a dollar, 1 for a bracket, 2 for the
    closing bracket, 3 for a quote.  [varname] is the input from [varname_start] on. *)
Record mstate := mkm {
  state : Z;
  output : list Z;
  outputcnt : Z;
  varname : list Z }.
Definition set_state (m : mstate) (s : Z) : mstate :=
  mkm s (output m) (outputcnt m) (varname m).
Definition put (m : mstate) (c : Z) : mstate :=
  mkm (state m) (output m ++ [c]) (outputcnt m - 1) (varname m).
(** The value of the variable, while there is room. *)
Fixpoint put_value (m : mstate) (envval : list Z) : mstate :=
  match envval with
  | [] => m
  | c :: envval => if outputcnt m =? 0 then m else put_value (put m c) envval
  end.

Section macros.
Context (getenv : list Z -> option (list Z)).

(** The [switch]; [input] is behind [c]. *)
Definition macro_step (c prev : Z) (input : list Z) (m : mstate) : mstate :=
  if state m =? 0 then
    if (c =? 39) && negb (prev =? 92) then set_state m 3
    else if (c =? 36) && negb (prev =? 92) then set_state m 1
    else put m c
  else if state m =? 1 then
    if (c =? 40) || (c =? 123) then mkm 2 (output m) (outputcnt m) input
    else
      let m := put (set_state m 0) 36 in
      if negb (outputcnt m =? 0) then put m c else m
  else if state m =? 2 then
    if (c =? 41) || (c =? 125) then
      let envcnt := (length (varname m) - length input - 1)%nat in
      let envname := take envcnt (varname m) in
      set_state (match getenv envname with Some v => put_value m v | None => m end) 0
    else m
  else
    if (c =? 39) && negb (prev =? 92) then set_state m 0 else put m c.

Fixpoint macro_loop (input : list Z) (prev : Z) (m : mstate) : mstate :=
  match input with
  | [] => m
  | c :: input =>
      if outputcnt m =? 0 then m
      else if negb (state m =? 3) && ((c =? 92) && negb (prev =? 92)) then
        match input with
        | [] => m
        | d :: input => macro_loop input d (macro_step d c input m)
        end
      else macro_loop input c (macro_step c prev input m)
  end.

(** The terminator takes the place of the last character where there is no room. *)
Definition process_macros (input : list Z) : list Z :=
  let m := macro_loop input 0 (mkm 0 [] CONFIG_SYS_CBSIZE []) in
  if negb (outputcnt m =? 0) then output m else removelast (output m).
End macros.

(** ** Commands *)
Section commands.
(** The state that commands work on, the environment and the keyboard. *)
Context {St : Type} (getenv : St -> list Z -> option (list Z)).
Context (had_ctrlc : St -> bool) (clear_ctrlc : St -> St).

(** A command, its arguments and whether it is [do_bootd]; [cmd] gets the flag and [argv]. *)
Record cmd_tbl := mkcmd {
  cname : list Z;
  maxargs : Z;
  repeatable : Z;
  cmd : Z -> list (list Z) -> St -> Z * St;
  is_bootd : bool }.

Fixpoint find_cmd_loop (c : list Z) (len : nat) (table : list cmd_tbl)
    (cmdtp_temp : option cmd_tbl) (n_found : Z) : option cmd_tbl :=
  match table with
  | [] => if n_found =? 1 then cmdtp_temp else None
  | cmdtp :: table =>
      if strncmp len c (cname cmdtp) =? 0 then
        if Nat.eqb len (length (cname cmdtp)) then Some cmdtp
        else find_cmd_loop c len table (Some cmdtp) (n_found + 1)
      else find_cmd_loop c len table cmdtp_temp n_found
  end.
Definition find_cmd_tbl (c : list Z) (table : list cmd_tbl) : option cmd_tbl :=
  let len := match strchr c 46 with None => length c | Some p => p end in
  find_cmd_loop c len table (head table) 0.

Context (table : list cmd_tbl).

(** The result, what [repeatable] points to, and the state. *)
Definition cmd_process (flag : Z) (argv : list (list Z)) (rep : Z) (s : St) : Z * Z * St :=
  match find_cmd_tbl (default [] (head argv)) table with
  | None => (1, rep, s)
  | Some cmdtp =>
      let '(rc, flag) :=
        if maxargs cmdtp <? zlen argv then (CMD_RET_USAGE, flag)
        else if is_bootd cmdtp then
          if negb (flag .& CMD_FLAG_BOOTD =? 0) then (CMD_RET_FAILURE, flag)
          else (CMD_RET_SUCCESS, flag .| CMD_FLAG_BOOTD)
        else (CMD_RET_SUCCESS, flag) in
      let '(rc, rep, s) :=
        if rc =? 0 then
          let (rc, s) := cmd cmdtp flag argv s in (rc, rep .& repeatable cmdtp, s)
        else (rc, rep, s) in
      (if rc =? CMD_RET_USAGE then 1 else rc, rep, s)
  end.

(** The token up to the separator, and the rest from the separator on.  [prev] is the
    character in front, in memory for the first one. *)
Fixpoint find_sep (prev : Z) (inquotes start : bool) (str : list Z) : list Z * list Z :=
  match str with
  | [] => ([], [])
  | c :: r =>
      let inquotes := if (c =? 39) && negb (prev =? 92) then negb inquotes else inquotes in
      if negb inquotes && (c =? 59) && negb start && negb (prev =? 92) then ([], str)
      else let (t, rest) := find_sep c inquotes false r in (c :: t, rest)
  end.

(** The loop over the tokens; a separator is overwritten with 0. *)
Fixpoint run_tokens (fuel : nat) (flag prev : Z) (str : list Z) (rc rep : Z) (s : St)
    : option (Z * St) :=
  match fuel with
  | O => None
  | S fuel =>
      match str with
      | [] => Some (if negb (rc =? 0) then rc else rep, s)
      | _ =>
          let (token, rest) := find_sep prev false true str in
          let str := tail rest in
          let finaltoken := process_macros (getenv s) token in
          match fst (parse_line finaltoken) with
          | [] => run_tokens fuel flag 0 str (-1) rep s
          | argv =>
              let '(r, rep, s) := cmd_process flag argv rep s in
              let rc := if negb (r =? 0) then -1 else rc in
              if had_ctrlc s then Some (-1, s) else run_tokens fuel flag 0 str rc rep s
          end
      end
  end.

(** [below] is the byte in front of [cmdbuf] on the stack. *)
Definition builtin_run_command (below : Z) (cmd : list Z) (flag : Z) (s : St) : option (Z * St) :=
  let s := clear_ctrlc s in
  match cmd with
  | [] => Some (-1, s)
  | _ =>
      if CONFIG_SYS_CBSIZE <=? zlen cmd then Some (-1, s)
      else run_tokens (S (length cmd)) flag below cmd 0 1 s
  end.
Definition run_command (below : Z) (cmd : list Z) (flag : Z) (s : St) : option (Z * St) :=
  '(r, s) ← builtin_run_command below cmd flag s; Some (if r =? -1 then 1 else 0, s).

(** [line] collects the characters since the last line break. *)
Fixpoint run_list_loop (below : Z) (line next : list Z) (s : St) : option (Z * St) :=
  match next with
  | [] =>
      match line with
      | [] => Some (0, s)
      | _ => '(r, s) ← builtin_run_command below line 0 s; Some (if 0 <=? r then 1 else 0, s)
      end
  | c :: next =>
      if c =? 10 then
        match line with
        | [] => run_list_loop below [] next s
        | _ =>
            '(r, s) ← builtin_run_command below line 0 s;
            if r <? 0 then Some (1, s) else run_list_loop below [] next s
        end
      else run_list_loop below (line ++ [c]) next s
  end.
Definition builtin_run_command_list (below : Z) (cmd : list Z) (s : St) : option (Z * St) :=
  run_list_loop below [] cmd s.

(** A length of -1 stands for a C string; [malloc_ok] is the allocator. *)
Definition run_command_list (malloc_ok : Z -> bool) (below : Z) (cmd : list Z) (len : Z) (s : St)
    : option (Z * St) :=
  let '(need_buff, len) :=
    if len =? -1 then (bool_decide (10 ∈ cmd), zlen cmd) else (true, len) in
  if need_buff && negb (malloc_ok (len + 1)) then Some (1, s)
  else builtin_run_command_list below (take (Z.to_nat len) cmd) s.

Fixpoint do_run_loop (below : Z) (args : list (list Z)) (flag : Z) (s : St) : option (Z * St) :=
  match args with
  | [] => Some (0, s)
  | a :: args =>
      match getenv s a with
      | None => Some (1, s)
      | Some arg =>
          '(r, s) ← run_command below arg flag s;
          if negb (r =? 0) then Some (1, s) else do_run_loop below args flag s
      end
  end.
Definition do_run (below : Z) (flag : Z) (argv : list (list Z)) (s : St) : option (Z * St) :=
  if zlen argv <? 2 then Some (CMD_RET_USAGE, s) else do_run_loop below (tail argv) flag s.
End commands.
