(* ===== verification/CmdSpec.v ===== *)
(** * The command line runs what it says

    A script is a list of commands made of text, escaped characters, quotations and
    variables.  [run_command] on its text runs the commands one after the other, each with
    its variables replaced by the values of that moment and split at blanks. *)
From S2P Require Import Prelude Ctype Mem CStr EnvAttr Cmdline.

(** ** Words *)
(** The pieces between blanks, empty ones included, and the words. *)
Fixpoint pieces (s : list Z) : list (list Z) :=
  match s with
  | [] => [[]]
  | c :: s =>
      if isblank c then [] :: pieces s
      else match pieces s with w :: l => (c :: w) :: l | [] => [[c]] end
  end.
Definition nonempty (w : list Z) : bool := match w with [] => false | _ => true end.
Definition words (s : list Z) : list (list Z) := filter (fun w => nonempty w = true) (pieces s).

Lemma words_blank c s : isblank c = true -> words (c :: s) = words s.
Proof. intros H. unfold words. cbn [pieces]. rewrite H. by rewrite filter_cons_False. Qed.
Lemma words_skip s : words (skip_space s) = words s.
Proof.
  induction s as [|c s IH]; [done|]. cbn [skip_space]. destruct (isblank c) eqn:E; [|done].
  by rewrite IH, words_blank.
Qed.
Lemma skip_space_head s c r : skip_space s = c :: r -> isblank c = false.
Proof.
  induction s as [|d s IH]; [done|]. cbn [skip_space]. case_if; [done|]. by intros [= -> ->].
Qed.
Lemma take_word_pieces s : let (w, rest) := take_word s in
  pieces s = w :: match rest with [] => [] | _ :: r => pieces r end
  /\ (length rest <= length s)%nat
  /\ (match rest with [] => True | c :: _ => isblank c = true end).
Proof.
  induction s as [|c s IH]; [done|]. cbn [take_word]. destruct (isblank c) eqn:E.
  - cbn [pieces]. by rewrite E.
  - destruct (take_word s) as [w rest]. destruct IH as (IH & Hl & Hb). cbn [pieces length].
    rewrite E, IH. split_and!; [done|lia|done].
Qed.
Lemma words_take c s : isblank c = false ->
  let (w, rest) := take_word (c :: s) in
  w <> [] /\ words (c :: s) = w :: match rest with [] => [] | _ :: r => words r end.
Proof.
  intros E. pose proof (take_word_pieces (c :: s)) as H. cbn [take_word] in *. rewrite E in *.
  destruct (take_word s) as [w rest]. destruct H as (H & _). split; [done|].
  unfold words. rewrite H, filter_cons_True by done. by destruct rest.
Qed.

(** The arguments are the first words; the flag tells when there is room for the terminator. *)
Lemma parse_loop_ok n line argv :
  fst (parse_line_loop n line argv) = argv ++ take n (words line)
  /\ (snd (parse_line_loop n line argv) = false -> (n <= length (words line))%nat).
Proof.
  revert line argv. induction n as [|n IH]; intros line argv; cbn [parse_line_loop].
  { rewrite take_0, app_nil_r. split; [done|intros _; lia]. }
  rewrite <- (words_skip line). destruct (skip_space line) as [|c s] eqn:E.
  { by rewrite app_nil_r. }
  apply skip_space_head in E. pose proof (words_take c s E) as H.
  destruct (take_word (c :: s)) as [w rest]. destruct H as [_ ->].
  destruct rest as [|d r]; [by cbn; rewrite take_nil|].
  destruct (IH r (argv ++ [w])) as [IH1 IH2]. rewrite IH1. cbn [firstn length].
  rewrite <- app_assoc. split; [done|]. intros Hf. apply IH2 in Hf. lia.
Qed.
Lemma parse_line_ok line :
  fst (parse_line line) = take CONFIG_SYS_MAXARGS (words line).
Proof. apply (parse_loop_ok CONFIG_SYS_MAXARGS line []). Qed.

(** The completion splits its line in the same way, with a place left for the terminator. *)
Lemma make_argv_loop_ok n s argv : make_argv_loop n s argv = argv ++ take n (words s).
Proof.
  revert s argv. induction n as [|n IH]; intros s argv; cbn [make_argv_loop].
  { by rewrite take_0, app_nil_r. }
  rewrite <- (words_skip s). destruct (skip_space s) as [|c r] eqn:E; [by rewrite app_nil_r|].
  apply skip_space_head in E. pose proof (words_take c r E) as H.
  destruct (take_word (c :: r)) as [w rest]. destruct H as [_ ->].
  destruct rest as [|d rest]; [by cbn; rewrite take_nil|].
  rewrite IH. cbn [firstn]. by rewrite <- app_assoc.
Qed.
Lemma make_argv_ok s argvsz : make_argv s argvsz = take (argvsz - 1) (words s).
Proof. apply make_argv_loop_ok. Qed.

(** The longest common start of two strings, as far as [len]. *)
Lemma common_len_ok len s t : str_ok s ->
  (common_len len s t <= len)%nat /\ take (common_len len s t) s = take (common_len len s t) t
  /\ forall k, (k <= len)%nat -> (k <= length s)%nat -> take k s = take k t ->
       (k <= common_len len s t)%nat.
Proof.
  intros Hs. revert len t. induction Hs as [|c s Hc Hs IH]; intros len t.
  { destruct len; cbn; split_and!; (lia || done || (intros; lia)). }
  destruct len as [|len]; cbn [common_len]; [split_and!; [lia|done|intros; lia]|].
  unfold char_ok in Hc. destruct t as [|d t]; cbn [chr hd tail].
  { replace (0 =? c) with false by lia. split_and!; [lia|done|]. intros [|k] _ _; [lia|done]. }
  destruct (Z.eqb_spec d c) as [->|Hdc].
  - destruct (IH len t) as (H1 & H2 & H3). cbn [firstn]. rewrite H2. split_and!; [lia|done|].
    intros [|k] Hk Hl E; [lia|]. cbn [firstn length] in *. injection E as E.
    apply le_n_S, H3; [lia|lia|done].
  - split_and!; [lia|done|]. intros [|k] _ _ E; [lia|]. cbn in E. congruence.
Qed.
Lemma common_prefix_loop a l len : str_ok a ->
  let n := foldl (fun len t => common_len len a t) len l in
  (n <= len)%nat /\ Forall (fun t => take n a = take n t) l
  /\ forall k, (k <= len)%nat -> (k <= length a)%nat -> Forall (fun t => take k a = take k t) l ->
       (k <= n)%nat.
Proof.
  intros Ha. revert len. induction l as [|t l IH]; intros len; cbn [foldl]; [split_and!; auto|].
  destruct (common_len_ok len a t Ha) as (H1 & H2 & H3).
  destruct (IH (common_len len a t)) as (I1 & I2 & I3).
  set (n := foldl _ _ l) in *. split_and!; [lia| |].
  - constructor; [|done]. apply (f_equal (take n)) in H2. rewrite !take_take in H2.
    by rewrite Nat.min_l in H2 by lia.
  - intros k Hk Hka Hall. apply Forall_cons in Hall as [Ht Hall]. by apply I3; [apply H3| |].
Qed.
Lemma find_common_prefix_ok a l : str_ok a ->
  let n := find_common_prefix (a :: l) in
  Forall (fun t => take n a = take n t) l
  /\ forall k, (k <= length a)%nat -> Forall (fun t => take k a = take k t) l -> (k <= n)%nat.
Proof.
  intros Ha. destruct (common_prefix_loop a l (length a) Ha) as (_ & H2 & H3). split; [done|]. auto.
Qed.

(** ** Looking up a command *)
Lemma strncmp_prefix n c s : (n <= length c)%nat -> str_ok c -> str_ok s ->
  strncmp n c s = 0 <-> starts_with (take n c) s = true.
Proof.
  revert c s. induction n as [|n IH]; intros c s Hn Hc Hs; [done|].
  destruct Hc as [|x c Hx Hc]; [cbn in Hn; lia|]. cbn [strncmp chr hd tail firstn starts_with].
  pose proof (chr_byte s Hs) as Hb. unfold char_ok in Hx.
  pose proof (s8_diff_zero x (chr s) ltac:(unfold byte; lia) Hb) as Hz.
  destruct (Z.eqb_spec (s8 (s8 x - s8 (chr s))) 0) as [E|E]; cbn [negb orb].
  - apply Hz in E. replace (x =? 0) with false by lia.
    destruct Hs as [|y s Hy Hs]; cbn [chr hd tail] in *; [lia|]. subst y.
    rewrite Z.eqb_refl. cbn [andb]. apply IH; [cbn in Hn; lia|done|done].
  - split; [done|]. destruct s as [|y s]; [done|]. cbn [chr hd] in *.
    intros [Hxy _]%andb_prop. destruct E. apply Hz. lia.
Qed.

(** The name of a command ends at the first dot. *)
Fixpoint base_name (c : list Z) : list Z :=
  match c with [] => [] | x :: c => if x =? 46 then [] else x :: base_name c end.
Lemma base_name_len c :
  (match strchr c 46 with None => length c | Some p => p end) = length (base_name c)
  /\ take (length (base_name c)) c = base_name c /\ (length (base_name c) <= length c)%nat.
Proof.
  induction c as [|x c (IH1 & IH2 & IH3)]; [done|]. cbn [strchr base_name].
  destruct (x =? 46); [by cbn; split_and!; [..|lia]|]. cbn [length firstn]. rewrite IH2.
  split_and!; [|done|lia]. destruct (strchr c 46); cbn; by rewrite <- IH1.
Qed.

Section lookup.
Context {St : Type}.
Abbreviation table := (list (@cmd_tbl St)).

(** The first command with the name, else the only one whose name starts with it. *)
Definition resolve (c : list Z) (t : table) : option cmd_tbl :=
  match find (fun e : @cmd_tbl St => bool_decide (cname e = base_name c)) t with
  | Some e => Some e
  | None =>
      match filter (fun e : @cmd_tbl St => starts_with (base_name c) (cname e) = true) t with
      | [e] => Some e
      | _ => None
      end
  end.

Lemma starts_with_full p s : starts_with p s = true -> length p = length s -> s = p.
Proof.
  intros (r & ->)%starts_with_spec H. rewrite length_app in H. destruct r; [by rewrite app_nil_r|].
  cbn in H. lia.
Qed.

Lemma find_cmd_loop_ok c n p t temp k (Hp : p = take n c) (Hn : length p = n)
  (Hc : str_ok c) (Ht : Forall (fun e : @cmd_tbl St => str_ok (cname e)) t) (Hk : 0 <= k) :
  find_cmd_loop c n t temp k =
  match find (fun e : @cmd_tbl St => bool_decide (cname e = p)) t with
  | Some e => Some e
  | None =>
      let l := filter (fun e : @cmd_tbl St => starts_with p (cname e) = true) t in
      if k + zlen l =? 1 then match last l with Some e => Some e | None => temp end else None
  end.
Proof.
  revert temp k Hk. induction Ht as [|e t He Ht IH]; intros temp k Hk; cbn [find_cmd_loop find].
  { cbn. by rewrite Z.add_0_r. }
  assert ((strncmp n c (cname e) =? 0) = starts_with p (cname e)) as ->.
  { assert (n <= length c)%nat as Hl by (rewrite <- Hn, Hp, length_take; lia).
    pose proof (strncmp_prefix n c (cname e) Hl Hc He) as H. rewrite <- Hp in H.
    destruct (Z.eqb_spec (strncmp n c (cname e)) 0), (starts_with p (cname e)); naive_solver. }
  destruct (starts_with p (cname e)) eqn:Es.
  - rewrite filter_cons_True by done. destruct (Nat.eqb_spec n (length (cname e))) as [El|El].
    + apply starts_with_full in Es; [|lia]. by rewrite bool_decide_true.
    + rewrite bool_decide_false by (intros E; apply El; rewrite E; lia).
      rewrite IH by lia. destruct (find _ _); [done|]. cbn zeta. cbn [length].
      set (l := filter _ t). replace (k + 1 + zlen l) with (k + Z.of_nat (S (length l))) by lia.
      destruct (_ =? _); [|done]. rewrite last_cons. by destruct (last l).
  - rewrite filter_cons_False by (by rewrite Es). rewrite bool_decide_false.
    + by apply IH.
    + intros E. assert (starts_with p (cname e) = true); [|congruence].
      apply starts_with_spec. exists []. by rewrite app_nil_r.
Qed.
Lemma find_cmd_ok c t (Hc : str_ok c) (Ht : Forall (fun e : @cmd_tbl St => str_ok (cname e)) t) :
  find_cmd_tbl c t = resolve c t.
Proof.
  destruct (base_name_len c) as (E1 & E2 & _). unfold find_cmd_tbl, resolve. rewrite E1.
  rewrite (find_cmd_loop_ok c _ (base_name c)) by done. destruct (find _ _); [done|].
  set (l := filter _ t). cbn zeta. destruct l as [|e [|e' l]]; [done|done|].
  replace (0 + zlen (e :: e' :: l) =? 1) with false; [done|]. cbn [length]. lia.
Qed.
Lemma find_named t e : e ∈ t -> NoDup (map cname t) ->
  find (fun d : @cmd_tbl St => bool_decide (cname d = cname e)) t = Some e.
Proof.
  intros He Hn. induction He as [t|e d t He IH]; cbn [find map] in *; [by rewrite bool_decide_true|].
  apply NoDup_cons in Hn as [Hd Hn]. rewrite bool_decide_false; [by apply IH|].
  intros E. apply Hd. rewrite E. by apply list_elem_of_fmap_2.
Qed.
Lemma find_unnamed t n : Forall (fun e : @cmd_tbl St => cname e <> n) t ->
  find (fun d : @cmd_tbl St => bool_decide (cname d = n)) t = None.
Proof. induction 1 as [|e t He Ht IH]; [done|]. cbn [find]. by rewrite bool_decide_false. Qed.
End lookup.

(** ** Segments of a command *)
Inductive seg :=
| Lit (s : list Z)
| Esc (c : Z)
| Quo (s : list Z)
| Var (o : Z) (n : list Z) (c : Z).

Definition seg_text (x : seg) : list Z :=
  match x with
  | Lit s => s
  | Esc c => [92; c]
  | Quo s => 39 :: s ++ [39]
  | Var o n c => 36 :: o :: n ++ [c]
  end.
(** Text has no special characters, a quotation no quote and no backslash at its end, and the
    name of a variable none of the characters that end it. *)
Definition seg_ok (x : seg) : Prop :=
  match x with
  | Lit s => Forall (fun c => c <> 92 /\ c <> 36 /\ c <> 39 /\ c <> 59) s
  | Esc c => c <> 92
  | Quo s => 39 ∉ s /\ last s <> Some 92
  | Var o n c => (o = 40 \/ o = 123) /\ (c = 41 \/ c = 125)
      /\ Forall (fun d => d <> 41 /\ d <> 125 /\ d <> 92 /\ d <> 39 /\ d <> 59) n
  end.

#[export] Instance seg_ok_dec x : Decision (seg_ok x).
Proof. destruct x; cbn; apply _. Defined.

Section macros.
Context (getenv : list Z -> option (list Z)).
Definition seg_val (x : seg) : list Z :=
  match x with Lit s => s | Esc c => [c] | Quo s => s | Var _ n _ => default [] (getenv n) end.

Definition out (m : mstate) : list Z * Z := (output m, outputcnt m).
Abbreviation loop := (macro_loop getenv).

Lemma loop_full input prev m : outputcnt m = 0 -> loop input prev m = m.
Proof. intros H. destruct input; cbn [macro_loop]; [done|]. by rewrite H. Qed.
Lemma put_full m l : outputcnt m = 0 -> put_value m l = m.
Proof. intros H. destruct l; cbn [put_value]; [done|]. by rewrite H. Qed.
Lemma put_state m l : state (put_value m l) = state m.
Proof. revert m. induction l as [|c l IH]; intros m; cbn [put_value]; [done|]. case_if; [done|]. by rewrite IH. Qed.
Lemma put_out m m' l : out m = out m' -> out (put_value m l) = out (put_value m' l).
Proof.
  revert m m'. induction l as [|c l IH]; intros m m' H; [done|]. cbn [put_value].
  injection H as H1 H2. rewrite H2. case_if; [unfold out; congruence|]. apply IH. unfold out, put.
  cbn. congruence.
Qed.
Lemma put_app m l1 l2 : put_value m (l1 ++ l2) = put_value (put_value m l1) l2.
Proof.
  revert m. induction l1 as [|c l1 IH]; intros m; [done|]. cbn [put_value app]. case_if; [|apply IH].
  symmetry. apply put_full. lia.
Qed.

(** [goes]: reading [text] with something behind it comes to the state 0 with [val] put, as
    far as there is room; the last character is no backslash. *)
Definition goes (text val : list Z) (m : mstate) (prev : Z) : Prop :=
  forall rest, exists prev' m', prev' <> 92 /\ state m' = 0 /\ out m' = out (put_value m val)
    /\ out (loop (text ++ rest) prev m) = out (loop rest prev' m').
Lemma goes_full text val m prev : outputcnt m = 0 -> goes text val m prev.
Proof.
  intros H rest. exists 0, (set_state m 0). rewrite !loop_full, put_full by done. done.
Qed.

(** A character that is no escape. *)
Lemma loop_step c input prev m : outputcnt m <> 0 -> c <> 92 ->
  loop (c :: input) prev m = loop input c (macro_step getenv c prev input m).
Proof.
  intros H0 Hc. cbn [macro_loop]. replace (outputcnt m =? 0) with false by lia.
  replace (c =? 92) with false by lia. by rewrite andb_false_r.
Qed.
Lemma step_dollar prev input m : state m = 0 -> prev <> 92 ->
  macro_step getenv 36 prev input m = set_state m 1.
Proof. intros Hm Hp. unfold macro_step. rewrite Hm. by replace (prev =? 92) with false by lia. Qed.
Lemma step_open o prev input m : o = 40 \/ o = 123 ->
  macro_step getenv o prev input (set_state m 1) = mkm 2 (output m) (outputcnt m) input.
Proof. by intros [->| ->]. Qed.

Lemma lit_goes s m prev : seg_ok (Lit s) -> state m = 0 -> prev <> 92 -> goes s s m prev.
Proof.
  intros Hs Hm Hp. cbn in Hs. revert m prev Hm Hp. induction Hs as [|c s Hc Hs IH]; intros m prev Hm Hp.
  { intros rest. by exists prev, m. }
  destruct (decide (outputcnt m = 0)) as [H0|H0]; [by apply goes_full|]. intros rest.
  destruct (IH (put m c) c Hm ltac:(tauto) rest) as (prev' & m' & H1 & H2 & H3 & H4).
  exists prev', m'. split_and!; try done.
  - rewrite H3. cbn [put_value]. by replace (outputcnt m =? 0) with false by lia.
  - rewrite <- H4. cbn [app]. rewrite loop_step by lia. unfold macro_step. rewrite Hm.
    by replace (c =? 39) with false by lia; replace (c =? 36) with false by lia.
Qed.

Lemma esc_goes c m prev : seg_ok (Esc c) -> state m = 0 -> prev <> 92 -> goes [92; c] [c] m prev.
Proof.
  intros Hc Hm Hp. cbn in Hc. destruct (decide (outputcnt m = 0)) as [H0|H0]; [by apply goes_full|].
  intros rest. exists c, (put m c). split_and!; [done|done| |].
  - cbn [put_value]. by replace (outputcnt m =? 0) with false by lia.
  - cbn [app macro_loop]. replace (outputcnt m =? 0) with false by lia. rewrite Hm.
    replace (prev =? 92) with false by lia. cbn [Z.eqb Pos.eqb negb andb]. unfold macro_step.
    rewrite Hm, !andb_false_r. done.
Qed.

(** Inside of quotes. *)
Lemma quote_goes s m prev : 39 ∉ s -> last s <> Some 92 -> (s = [] -> prev <> 92) -> state m = 3 ->
  forall rest, exists m', state m' = 0 /\ out m' = out (put_value m s)
    /\ out (loop (s ++ 39 :: rest) prev m) = out (loop rest 39 m').
Proof.
  revert m prev. induction s as [|c s IH]; intros m prev H39 Hl Hp Hm rest;
    (destruct (decide (outputcnt m = 0)) as [H0|H0];
     [exists (set_state m 0); by rewrite !loop_full, put_full|]).
  - exists (set_state m 0). split_and!; [done..|]. cbn [app macro_loop].
    replace (outputcnt m =? 0) with false by lia. rewrite Hm. cbn [Z.eqb negb andb].
    unfold macro_step. rewrite Hm. specialize (Hp eq_refl).
    by replace (prev =? 92) with false by lia.
  - apply not_elem_of_cons in H39 as [Hc H39].
    destruct (IH (put m c) c H39) with (rest := rest) as (m' & H1 & H2 & H3).
    { destruct s; [done|]. exact Hl. }
    { intros ->. cbn in Hl. congruence. }
    { done. }
    exists m'. split_and!; [done| |].
    + rewrite H2. cbn [put_value]. by replace (outputcnt m =? 0) with false by lia.
    + rewrite <- H3. cbn [app macro_loop]. replace (outputcnt m =? 0) with false by lia.
      rewrite Hm. cbn [Z.eqb negb andb]. unfold macro_step. rewrite Hm. cbn [Z.eqb].
      by replace (c =? 39) with false by lia.
Qed.

Lemma quo_goes s m prev : seg_ok (Quo s) -> state m = 0 -> prev <> 92 ->
  goes (39 :: s ++ [39]) s m prev.
Proof.
  intros [H39 Hl] Hm Hp. destruct (decide (outputcnt m = 0)) as [H0|H0]; [by apply goes_full|].
  intros rest.
  destruct (quote_goes s (set_state m 3) 39 H39 Hl ltac:(done) eq_refl rest) as (m' & H1 & H2 & H3).
  exists 39, m'. split_and!; [done|done|by rewrite H2; apply put_out|]. rewrite <- H3.
  cbn [app macro_loop]. replace (outputcnt m =? 0) with false by lia. rewrite Hm.
  replace (prev =? 92) with false by lia. cbn [Z.eqb Pos.eqb negb andb]. unfold macro_step.
  rewrite Hm. cbn [Z.eqb Pos.eqb negb andb]. replace (prev =? 92) with false by lia.
  cbn [negb andb]. by rewrite <- app_assoc.
Qed.

(** Inside of a name: [varname] starts with what was read of it. *)
Lemma name_goes n pre c m prev rest : outputcnt m <> 0 -> state m = 2 -> prev <> 92 ->
  (c = 41 \/ c = 125) -> Forall (fun d => d <> 41 /\ d <> 125 /\ d <> 92 /\ d <> 39 /\ d <> 59) n ->
  varname m = pre ++ n ++ c :: rest ->
  loop (n ++ c :: rest) prev m
  = loop rest c (set_state (put_value m (default [] (getenv (pre ++ n)))) 0).
Proof.
  intros H0 Hm Hp Hc Hn. revert pre prev Hp.
  induction Hn as [|d n Hd Hn IH]; intros pre prev Hp Hv; cbn [app macro_loop];
    replace (outputcnt m =? 0) with false by lia.
  - replace (c =? 92) with false by lia. rewrite andb_false_r. unfold macro_step. rewrite Hm.
    cbn [Z.eqb Pos.eqb]. replace ((c =? 41) || (c =? 125)) with true by lia.
    rewrite Hv. cbn [app]. replace (length (pre ++ c :: rest) - length rest - 1)%nat
      with (length pre) by (rewrite length_app; cbn; lia).
    rewrite take_app_length, app_nil_r. by destruct (getenv pre).
  - replace (d =? 92) with false by lia. rewrite andb_false_r.
    assert (macro_step getenv d prev (n ++ c :: rest) m = m) as ->.
    { unfold macro_step. rewrite Hm. cbn [Z.eqb Pos.eqb].
      by replace ((d =? 41) || (d =? 125)) with false by lia. }
    rewrite (IH (pre ++ [d])); [by rewrite <- app_assoc|lia|]. by rewrite Hv, <- app_assoc.
Qed.

Lemma var_goes o n c m prev : seg_ok (Var o n c) -> state m = 0 -> prev <> 92 ->
  goes (36 :: o :: n ++ [c]) (default [] (getenv n)) m prev.
Proof.
  intros (Ho & Hc & Hn) Hm Hp.
  destruct (decide (outputcnt m = 0)) as [H0|H0]; [by apply goes_full|]. intros rest.
  set (m2 := mkm 2 (output m) (outputcnt m) (n ++ c :: rest)).
  exists c, (set_state (put_value m2 (default [] (getenv n))) 0).
  split_and!; [lia|done|by apply put_out|].
  pose proof (name_goes n [] c m2 o rest H0 eq_refl ltac:(lia) Hc Hn eq_refl) as E.
  cbn [app] in E. rewrite <- E. cbn [app]. rewrite <- app_assoc.
  rewrite loop_step by (done || lia). rewrite step_dollar by done.
  rewrite loop_step by (done || lia). rewrite step_open by done. done.
Qed.

Definition segs_text (l : list seg) : list Z := concat (map seg_text l).
Definition segs_val (l : list seg) : list Z := concat (map seg_val l).
Lemma seg_goes x m prev : seg_ok x -> state m = 0 -> prev <> 92 -> goes (seg_text x) (seg_val x) m prev.
Proof.
  destruct x; [apply lit_goes|apply esc_goes|apply quo_goes|apply var_goes].
Qed.
Lemma segs_go l m prev : Forall seg_ok l -> state m = 0 -> prev <> 92 ->
  goes (segs_text l) (segs_val l) m prev.
Proof.
  intros Hl. revert m prev. induction Hl as [|x l Hx Hl IH]; intros m prev Hm Hp rest.
  { by exists prev, m. }
  unfold segs_text, segs_val. cbn [map concat]. rewrite <- app_assoc.
  destruct (seg_goes x m prev Hx Hm Hp (segs_text l ++ rest)) as (p1 & m1 & H1 & H2 & H3 & H4).
  destruct (IH m1 p1 H2 H1 rest) as (p2 & m2 & H5 & H6 & H7 & H8).
  exists p2, m2. split_and!; [done|done| |].
  - rewrite H7, put_app. by apply put_out.
  - etrans; [exact H4|exact H8].
Qed.

(** The room for the characters and the terminator. *)
Lemma put_room l m k : outputcnt m = Z.of_nat k ->
  out (put_value m l) = (output m ++ take k l, Z.of_nat (k - length l)).
Proof.
  revert m k. induction l as [|c l IH]; intros m k Hk; cbn [put_value].
  { rewrite take_nil, app_nil_r. unfold out. by rewrite Nat.sub_0_r, Hk. }
  destruct k as [|k].
  { rewrite Hk. change (Z.of_nat 0 =? 0) with true. cbn iota. unfold out. rewrite Hk.
    by rewrite take_0, app_nil_r. }
  replace (outputcnt m =? 0) with false by lia. rewrite (IH (put m c) k) by (cbn; lia).
  cbn [output put firstn length]. by rewrite <- app_assoc.
Qed.
Lemma macros_ok l : Forall seg_ok l ->
  process_macros getenv (segs_text l) = take 1023 (segs_val l).
Proof.
  intros Hl. set (m0 := mkm 0 [] CONFIG_SYS_CBSIZE []).
  destruct (segs_go l m0 0 Hl eq_refl ltac:(done) []) as (p & m & _ & _ & H3 & H4).
  rewrite app_nil_r in H4. unfold process_macros. fold m0.
  rewrite (put_room _ m0 1024) in H3 by done. cbn [macro_loop] in H4. rewrite H3 in H4.
  cbn [output m0 app] in H4. injection H4 as -> ->.
  destruct (Z.eqb_spec (Z.of_nat (1024 - length (segs_val l))) 0) as [E|E]; cbn [negb].
  - apply (List.removelast_firstn (n := 1023)). lia.
  - rewrite !take_ge by lia. done.
Qed.
End macros.

(** ** Separators *)
(** [skips text prev prev' start']: no separator is found in [text], and the search goes on
    behind it. *)
Definition skips (text : list Z) (prev prev' : Z) : Prop := forall rest st,
  find_sep prev false st (text ++ rest) =
  let (t, r) := find_sep prev' false (st && negb (nonempty text)) rest in (text ++ t, r).

Lemma skips_app t1 t2 p1 p2 p3 : skips t1 p1 p2 -> skips t2 p2 p3 -> skips (t1 ++ t2) p1 p3.
Proof.
  intros H1 H2 rest st. rewrite <- app_assoc, H1, H2.
  replace (st && negb (nonempty (t1 ++ t2))) with (st && negb (nonempty t1) && negb (nonempty t2))
    by (destruct st, t1, t2; done).
  destruct (find_sep p3 _ _ rest). by rewrite app_assoc.
Qed.
Lemma skips_nil p : skips [] p p.
Proof. intros rest st. cbn. rewrite andb_true_r. by destruct (find_sep _ _ _ _). Qed.
Lemma skips_char c p : c <> 39 -> c <> 59 -> skips [c] p c.
Proof.
  intros H1 H2 rest st. cbn [app find_sep nonempty negb]. replace (c =? 39) with false by lia.
  replace (c =? 59) with false by lia. cbn [andb]. rewrite ?andb_false_r, ?andb_true_r. cbn [andb]. done.
Qed.
Lemma skips_plain s p : Forall (fun c => c <> 92 /\ c <> 39 /\ c <> 59) s -> p <> 92 ->
  exists p', p' <> 92 /\ skips s p p'.
Proof.
  intros Hs. revert p. induction Hs as [|c s (H1 & H2 & H3) Hs IH]; intros p Hp.
  { exists p. split; [done|apply skips_nil]. }
  destruct (IH c H1) as (p' & Hp' & H). exists p'. split; [done|].
  by apply (skips_app [c] s p c p'); [apply skips_char|].
Qed.
Lemma skips_esc c p : c <> 92 -> skips [92; c] p c.
Proof.
  intros Hc rest st. cbn [app find_sep nonempty negb]. change (92 =? 39) with false.
  change (92 =? 59) with false. change (92 =? 92) with true. cbn [negb andb].
  rewrite !andb_false_r. cbn [negb andb]. rewrite ?andb_false_r. cbn [andb].
  by destruct (find_sep c false false rest).
Qed.
Lemma skips_inner s p rest st : 39 ∉ s -> last s <> Some 92 -> (s = [] -> p <> 92) ->
  find_sep p true st (s ++ 39 :: rest) =
  let (t, r) := find_sep 39 false false rest in (s ++ 39 :: t, r).
Proof.
  revert p st. induction s as [|c s IH]; intros p st H39 Hl Hp; cbn [app find_sep].
  - specialize (Hp eq_refl). replace (p =? 92) with false by lia. cbn [Z.eqb Pos.eqb negb andb].
    done.
  - apply not_elem_of_cons in H39 as [Hc H39]. replace (c =? 39) with false by lia.
    cbn [negb andb]. rewrite IH; [by destruct (find_sep 39 false false rest)|done| |].
    + destruct s; [done|]. exact Hl.
    + intros ->. cbn in Hl. congruence.
Qed.
Lemma skips_seg x p : seg_ok x -> p <> 92 -> exists p', p' <> 92 /\ skips (seg_text x) p p'.
Proof.
  destruct x as [s|c|s|o n c]; cbn [seg_ok seg_text].
  - intros Hs. apply skips_plain. eapply Forall_impl; [exact Hs|]. cbn. tauto.
  - intros Hc Hp. exists c. split; [done|by apply skips_esc].
  - intros [H39 Hl] Hp. exists 39. split; [done|]. intros rest st. cbn [app find_sep].
    replace (p =? 92) with false by lia. cbn [Z.eqb Pos.eqb negb andb nonempty].
    rewrite <- app_assoc. cbn [app]. rewrite skips_inner by done. rewrite andb_false_r.
    destruct (find_sep 39 false false rest). cbn [app]. by rewrite <- app_assoc.
  - intros (Ho & Hc & Hn) Hp. apply skips_plain; [|done].
    constructor; [lia|]. constructor; [lia|]. apply Forall_app. split.
    + eapply Forall_impl; [exact Hn|]. cbn. tauto.
    + constructor; [lia|constructor].
Qed.
Lemma skips_segs l p : Forall seg_ok l -> p <> 92 -> exists p', p' <> 92 /\ skips (segs_text l) p p'.
Proof.
  intros Hl. revert p. induction Hl as [|x l Hx Hl IH]; intros p Hp.
  { exists p. split; [done|apply skips_nil]. }
  destruct (skips_seg x p Hx Hp) as (p1 & H1 & S1). destruct (IH p1 H1) as (p2 & H2 & S2).
  exists p2. split; [done|]. unfold segs_text. cbn [map concat]. by apply (skips_app _ _ p p1 p2).
Qed.
Lemma find_sep_segs l p rest : Forall seg_ok l -> p <> 92 -> segs_text l <> [] ->
  (rest = [] \/ exists r, rest = 59 :: r) ->
  find_sep p false true (segs_text l ++ rest) = (segs_text l, rest).
Proof.
  intros Hl Hp Hne Hr. destruct (skips_segs l p Hl Hp) as (p' & Hp' & H). rewrite H.
  replace (nonempty (segs_text l)) with true by (by destruct (segs_text l)).
  destruct Hr as [->|[r ->]]; cbn [find_sep negb andb Z.eqb Pos.eqb]; [by rewrite app_nil_r|].
  replace (p' =? 92) with false by lia. cbn [negb andb]. by rewrite app_nil_r.
Qed.

(** ** Scripts *)
Section scripts.
Context {St : Type} (getenv : St -> list Z -> option (list Z)).
Context (had_ctrlc : St -> bool) (clear_ctrlc : St -> St) (table : list (@cmd_tbl St)).

Definition script := list (list seg).
Fixpoint script_text (l : script) : list Z :=
  match l with
  | [] => []
  | [c] => segs_text c
  | c :: l => segs_text c ++ 59 :: script_text l
  end.
Definition script_ok (l : script) : Prop :=
  Forall (fun c => Forall seg_ok c /\ segs_text c <> []) l.

(** The arguments of a command: its words, at most 16, of the first 1023 characters. *)
Definition args (s : St) (c : list seg) : list (list Z) :=
  take CONFIG_SYS_MAXARGS (words (take 1023 (segs_val (getenv s) c))).

(** The commands one after the other; an interrupt ends the script, a command without a word
    or with a result other than 0 makes it fail but does not end it. *)
Fixpoint exec (flag : Z) (l : script) (rc rep : Z) (s : St) : Z * St :=
  match l with
  | [] => (if negb (rc =? 0) then rc else rep, s)
  | c :: l =>
      match args s c with
      | [] => exec flag l (-1) rep s
      | argv =>
          let '(r, rep, s) := cmd_process table flag argv rep s in
          if had_ctrlc s then (-1, s)
          else exec flag l (if negb (r =? 0) then -1 else rc) rep s
      end
  end.

(** What a script is meant to do, with all words of each command: whether all commands were
    run with success, or nothing if the script was interrupted. *)
Definition all_words (s : St) (c : list seg) : list (list Z) := words (take 1023 (segs_val (getenv s) c)).
Fixpoint meant (flag : Z) (l : script) (ok : bool) (rep : Z) (s : St) : option bool * St :=
  match l with
  | [] => (Some ok, s)
  | c :: l =>
      match all_words s c with
      | [] => meant flag l false rep s
      | argv =>
          let '(r, rep, s) := cmd_process table flag argv rep s in
          if had_ctrlc s then (None, s) else meant flag l (ok && (r =? 0)) rep s
      end
  end.
(** Every command that is reached has at most 16 words. *)
Fixpoint few_words (flag : Z) (l : script) (rep : Z) (s : St) : Prop :=
  match l with
  | [] => True
  | c :: l =>
      (length (all_words s c) <= CONFIG_SYS_MAXARGS)%nat
      /\ match all_words s c with
         | [] => few_words flag l rep s
         | argv => let '(_, rep, s) := cmd_process table flag argv rep s in had_ctrlc s = true \/ few_words flag l rep s
         end
  end.
Lemma cmd_process_rep flag argv rep s : 0 <= rep -> 0 <= (cmd_process table flag argv rep s).1.2.
Proof.
  clear getenv had_ctrlc clear_ctrlc. intros Hrep. unfold cmd_process. destruct (find_cmd_tbl _ _) as [e|]; [|done].
  destruct (maxargs e <? zlen argv); [done|]. destruct (is_bootd e); [destruct (negb _)|];
    cbn [Z.eqb]; rewrite ?Z.eqb_refl; try (destruct (cmd e _ argv s)); cbn; try done; apply Z.land_nonneg; by left.
Qed.
Lemma exec_meant flag l rc rep s : rc = 0 \/ rc = -1 -> 0 <= rep -> few_words flag l rep s ->
  let (out, s') := meant flag l (rc =? 0) rep s in
  snd (exec flag l rc rep s) = s'
  /\ match out with Some ok => (fst (exec flag l rc rep s) =? -1) = negb ok | None => True end.
Proof.
  clear clear_ctrlc. revert rc rep s. induction l as [|c l IH]; intros rc rep s Hrc Hrep Hw; cbn [exec meant few_words] in *.
  { split; [done|]. destruct Hrc as [->| ->]; cbn; [lia|done]. }
  destruct Hw as [Hlen Hw]. unfold args. fold (all_words s c). rewrite take_ge by done.
  destruct (all_words s c) as [|a argv]; [apply (IH (-1)); [by right|done|done]|].
  pose proof (cmd_process_rep flag (a :: argv) rep s Hrep) as Hrep'.
  destruct (cmd_process table flag (a :: argv) rep s) as [[r rep'] s']. cbn [fst snd] in Hrep'.
  destruct (had_ctrlc s') eqn:Ec; [done|]. destruct Hw as [?|Hw]; [done|].
  specialize (IH (if negb (r =? 0) then -1 else rc) rep' s'). destruct (Z.eqb_spec r 0); cbn [negb] in *.
  - rewrite andb_true_r. by apply IH.
  - rewrite andb_false_r. apply IH; [by right|done|done].
Qed.

Lemma script_text_cons c l : exists rest, script_text (c :: l) = segs_text c ++ rest
  /\ (rest = [] /\ l = [] \/ rest = 59 :: script_text l /\ l <> []).
Proof.
  destruct l as [|c' l]; [exists []; rewrite app_nil_r; split; [done|by left]|].
  eexists. split; [reflexivity|by right].
Qed.

Lemma run_tokens_ok fuel flag p l rc rep s : script_ok l -> p <> 92 ->
  (length (script_text l) < fuel)%nat ->
  run_tokens getenv had_ctrlc table fuel flag p (script_text l) rc rep s
  = Some (exec flag l rc rep s).
Proof.
  revert p l rc rep s. induction fuel as [|fuel IH]; intros p l rc rep s Hl Hp Hfuel; [lia|].
  destruct Hl as [|c l [Hc Hne] Hl]; [done|].
  destruct (script_text_cons c l) as (rest & Et & Hrest). rewrite Et in *. cbn [run_tokens exec].
  rewrite find_sep_segs by (done || destruct Hrest as [[-> _]|[-> _]]; eauto).
  rewrite length_app in Hfuel.
  assert (tail rest = script_text l /\ (length (script_text l) < fuel)%nat) as [-> Hfuel'].
  { destruct Hrest as [[-> ->]|[-> _]]; cbn in *; destruct (segs_text c); cbn in *; split; done || lia. }
  unfold args. rewrite macros_ok, parse_line_ok by done.
  destruct (segs_text c ++ rest) eqn:E; [by apply app_eq_nil in E as [? _]|].
  destruct (take _ (words _)) as [|a argv]; [by apply IH|].
  destruct (cmd_process _ _ _ _ _) as [[r rep'] s']. case_if; [done|]. by apply IH.
Qed.

Lemma run_ok below flag l s : script_ok l -> zlen (script_text l) < CONFIG_SYS_CBSIZE ->
  below <> 92 -> l <> [] ->
  run_command getenv had_ctrlc clear_ctrlc table below (script_text l) flag s
  = let (r, s) := exec flag l 0 1 (clear_ctrlc s) in Some (if r =? -1 then 1 else 0, s).
Proof.
  intros Hl Hlen Hb Hne. unfold run_command, builtin_run_command.
  destruct (script_text l) as [|x t] eqn:E.
  { destruct Hl as [|c l [_ Hc] _]; [done|]. destruct (script_text_cons c l) as (rest & Et & _).
    rewrite E in Et. by symmetry in Et; apply app_eq_nil in Et as [? _]. }
  replace (CONFIG_SYS_CBSIZE <=? zlen (x :: t)) with false by lia. rewrite <- E.
  rewrite run_tokens_ok by (done || lia). by destruct (exec _ _ _ _ _).
Qed.
End scripts.

(** ** Properties *)
(** C22: [run_command] runs a script of commands of at most 16 words as its specification says: the
    commands in order, each after its variables are replaced by the values of that moment and
    the result is split into words, until the first interrupt; without an interrupt the result
    is 0, or 1 if a command had no word or failed.  It always ends. *)
Theorem run_command_correct {St} (getenv : St -> list Z -> option (list Z)) had_ctrlc clear_ctrlc
  (table : list (@cmd_tbl St)) below flag (l : script) (s : St)
  (Hl : script_ok l) (Hlen : zlen (script_text l) < CONFIG_SYS_CBSIZE) (Hb : below <> 92)
  (Hne : l <> []) (Hwords : few_words getenv had_ctrlc table flag l 1 (clear_ctrlc s)) :
  let (out, s') := meant getenv had_ctrlc table flag l true 1 (clear_ctrlc s) in
  exists r, run_command getenv had_ctrlc clear_ctrlc table below (script_text l) flag s = Some (r, s')
    /\ match out with Some ok => r = if ok then 0 else 1 | None => True end.
Proof.
  rewrite run_ok by done.
  pose proof (exec_meant getenv had_ctrlc table flag l 0 1 (clear_ctrlc s) ltac:(by left) ltac:(lia) Hwords) as H.
  change (0 =? 0) with true in H. destruct (meant _ _ _ _ _ _ _ _) as [out s']. destruct (exec _ _ _ _ _ _ _) as [r s2].
  cbn [fst snd] in H. destruct H as [-> H]. eexists. split; [done|]. destruct out as [ok|]; [|done]. rewrite H. by destruct ok.
Qed.

(** C34: Replacing variables: text stays, one level of escapes is removed, a quotation stands for
    its contents and a variable for its value (nothing when it is not set), cut to the 1023
    characters that fit the buffer. *)
Theorem process_macros_correct getenv (l : list seg) (Hl : Forall seg_ok l) :
  process_macros getenv (segs_text l) = take 1023 (segs_val getenv l).
Proof. by apply macros_ok. Qed.

(** A command is found under its name, with anything behind a dot, even where the name is
    the start of another one; an abbreviation is found exactly when it is the start of one
    name only. *)
Theorem find_cmd_correct {St} (t : list (@cmd_tbl St)) (c : list Z) (Hc : str_ok c)
  (Ht : Forall (fun e => str_ok (cname e)) t) :
  (forall e, e ∈ t -> NoDup (map cname t) -> base_name c = cname e -> find_cmd_tbl c t = Some e)
  /\ (Forall (fun e => cname e <> base_name c) t -> forall e,
      find_cmd_tbl c t = Some e
      <-> filter (fun e => starts_with (base_name c) (cname e) = true) t = [e]).
Proof.
  rewrite find_cmd_ok by done. unfold resolve. split.
  - intros e He Hn Hb. by rewrite Hb, find_named.
  - intros Hno e. rewrite find_unnamed by done.
    destruct (filter _ t) as [|a [|b r]]; split; congruence.
Qed.

(** ** Witnesses *)
Definition say : @cmd_tbl (list (list (list Z))) := mkcmd (codes "echo") 16 1 (fun _ argv s => (0, s ++ [argv])) false.
Definition test_env (n : list Z) : option (list Z) :=
  if bool_decide (n = codes "a") then Some (codes "x y") else None.
Definition test_script : script :=
  [[Lit (codes "echo "); Var 123 (codes "a") 125; Quo (codes ";z")]; [Lit (codes "ec.b 1")]].

Theorem run_command_correct_witness :
  exists r, run_command (fun _ => test_env) (fun _ => false) id [say] 0
    (codes "echo ${a}';z';ec.b 1") 0 []
  = Some (r, [[codes "echo"; codes "x"; codes "y;z"]; [codes "ec.b"; codes "1"]]) /\ r = 0.
Proof.
  change (codes "echo ${a}';z';ec.b 1") with (script_text test_script).
  apply (run_command_correct (fun _ => test_env) (fun _ => false) id [say] 0 0 test_script []).
  - unfold script_ok. by_computation.
  - by vm_compute.
  - done.
  - done.
  - split; [by_computation|]. right. split; [by_computation|]. by right.
Defined.

Theorem process_macros_correct_witness :
  process_macros test_env (codes "\$a=$(a)") = codes "$a=x y".
Proof.
  change (codes "\$a=$(a)") with (segs_text [Esc 36; Lit (codes "a="); Var 40 (codes "a") 41]).
  rewrite (process_macros_correct test_env [Esc 36; Lit (codes "a="); Var 40 (codes "a") 41]);
    [reflexivity|].
  by_computation.
Defined.

Definition two_cmds : list (@cmd_tbl (list (list (list Z)))) :=
  [mkcmd (codes "cpu") 2 1 (fun _ _ s => (0, s)) false; mkcmd (codes "cp") 4 1 (fun _ _ s => (0, s)) false].
Theorem find_cmd_correct_witness :
  exists e, e ∈ two_cmds /\ cname e = codes "cp" /\ find_cmd_tbl (codes "cp.b") two_cmds = Some e.
Proof.
  destruct (find_cmd_correct two_cmds (codes "cp.b")) as [H _].
  - unfold str_ok, char_ok. by_computation.
  - unfold two_cmds, str_ok, char_ok. cbn [cname]. repeat constructor.
  - eexists. split; [by right; left|]. split; [done|]. apply H; [by right; left| |done].
    by_computation.
Defined.

(** ** Observations *)
(** The result of a list of commands is inverted: a last line that succeeds gives 1, one that
    fails gives 0. *)
Lemma command_list_inverted :
  fst <$> run_command_list (fun _ => test_env) (fun _ => false) id [say] (fun _ => true) 0
    (codes "echo 1") (-1) [] = Some 1
  /\ fst <$> run_command_list (fun _ => test_env) (fun _ => false) id [say] (fun _ => true) 0
    (codes "unknown") (-1) [] = Some 0.
Proof. split; reflexivity. Qed.

(** The byte below the buffer decides whether a quote at its start is one. *)
Lemma quote_reads_below :
  find_sep 0 false true (codes "';'") <> find_sep 92 false true (codes "';'").
Proof. by vm_compute. Qed.

(** Sixteen arguments with a blank behind the last one count as too many, and the argument
    vector has no terminator. *)
Lemma sixteen_args_unterminated :
  parse_line (codes "1 2 3 4 5 6 7 8 9 a b c d e f g ")
  = (fst (parse_line (codes "1 2 3 4 5 6 7 8 9 a b c d e f g")), false).
Proof. reflexivity. Qed.

(** More words than that do not keep a command from being run, with the first sixteen. *)
Lemma too_many_words_run :
  run_command (fun _ => test_env) (fun _ => false) id [say] 0 (codes "echo 2 3 4 5 6 7 8 9 a b c d e f g h") 0 []
  = Some (0, [[codes "echo"; codes "2"; codes "3"; codes "4"; codes "5"; codes "6"; codes "7"; codes "8"; codes "9";
      codes "a"; codes "b"; codes "c"; codes "d"; codes "e"; codes "f"; codes "g"]]).
Proof. vm_compute. reflexivity. Qed.
(** An interrupted command was run, and the result is the one of a command that was not. *)
Lemma interrupt_fails :
  builtin_run_command (fun _ => test_env) (fun _ => true) id [say] 0 (codes "echo 2") 0 []
  = Some (-1, [[codes "echo"; codes "2"]]).
Proof. vm_compute. reflexivity. Qed.

(** A dollar at the end of a command is lost. *)
Lemma trailing_dollar_lost : process_macros test_env (codes "a$") = codes "a".
Proof. reflexivity. Qed.
