(* ===== verification/Shell.v ===== *)
(** * The command line on the environment

    [setenv] and [run] as commands of the command line, with the environment as the state:
    [Cmdline] and [EnvVar] put together.  A command may also reach a state without a meaning,
    the [None] of the state. *)
From S2P Require Import Prelude Ctype Mem CStr Qsort Hashtable HashProbe HashSpec HashExport.
From S2P Require Import Vsprintf EnvAttr EnvFlags EnvVar EnvSpec Cmdline CmdSpec.

Section shell.
Context {Hooks : EnvHooks} (default_environment : list Z) (CONFIG_ENV_SIZE : Z) (below : Z).

Abbreviation shell_state := (option genv).
Definition lookup_var (s : shell_state) (name : list Z) : option (list Z) :=
  g ← s; r ← EnvVar.getenv default_environment CONFIG_ENV_SIZE g name; r.
(** A command that can leave the meaning of the code. *)
Definition lift (f : genv -> option (Z * genv)) (s : shell_state) : Z * shell_state :=
  match s ≫= f with Some (r, g) => (r, Some g) | None => (0, None) end.

Definition setenv_cmd : @cmd_tbl shell_state :=
  mkcmd (codes "setenv") (Z.of_nat CONFIG_SYS_MAXARGS) 0
    (fun _ argv => lift (fun g => do_env_set (fun _ => true) g (tail argv))) false.
Definition run_cmd (table : list (@cmd_tbl shell_state)) : @cmd_tbl shell_state :=
  mkcmd (codes "run") (Z.of_nat CONFIG_SYS_MAXARGS) 1
    (fun flag argv s => default (0, None)
       (do_run lookup_var (fun _ => false) id table below flag argv s)) false.
(** Commands that nest [run] at most [depth] deep. *)
Fixpoint shell (depth : nat) : list (@cmd_tbl shell_state) :=
  match depth with
  | O => [setenv_cmd]
  | S d => [run_cmd (shell d); setenv_cmd]
  end.

Abbreviation execute d := (run_command lookup_var (fun _ => false) id (shell d) below).
Abbreviation meaning d := (exec lookup_var (fun _ => false) (shell d)).

(** ** Words with single blanks *)
Definition word (w : list Z) : Prop := w <> [] /\ Forall (fun c => isblank c = false) w.
Lemma pieces_word w s : Forall (fun c => isblank c = false) w ->
  pieces (w ++ 32 :: s) = w :: pieces s /\ pieces w = [w].
Proof.
  induction 1 as [|c w Hc Hw [IH1 IH2]]; [done|]. cbn [pieces app]. rewrite Hc, IH1, IH2. done.
Qed.
Lemma words_join l : Forall word l -> words (join_values l) = l.
Proof.
  induction 1 as [|w l [Hne Hw] Hl IH]; [done|]. unfold words in *.
  destruct (pieces_word w (join_values l) Hw) as [E1 E2]. destruct l as [|w' l].
  - cbn [join_values]. rewrite E2. by rewrite filter_cons_True by (by destruct w).
  - cbn [join_values] in *. rewrite E1, filter_cons_True by (by destruct w). by rewrite IH.
Qed.

(** ** The text of a [setenv] *)
Definition setenv_text (name : list Z) (values : list (list Z)) : list seg :=
  [Lit (codes "setenv "); Lit name; Lit [32]; Quo (join_values values)].
Definition plain_name (name : list Z) : Prop :=
  settable name /\ word name /\ seg_ok (Lit name).
Definition quotable (values : list (list Z)) : Prop :=
  values <> [] /\ Forall word values /\ seg_ok (Quo (join_values values)).

Lemma setenv_args s name values : plain_name name -> quotable values ->
  zlen (segs_text (setenv_text name values)) < CONFIG_SYS_CBSIZE -> (length values <= 14)%nat ->
  args lookup_var s (setenv_text name values) = codes "setenv" :: name :: values.
Proof.
  intros (_ & Hw & _) (Hne & Hv & _) Hlen Hcount. unfold args.
  assert (segs_val (lookup_var s) (setenv_text name values)
    = join_values (codes "setenv" :: name :: values)) as ->.
  { unfold segs_val, setenv_text. cbn [map concat seg_val]. rewrite app_nil_r.
    destruct values as [|v values]; [done|]. reflexivity. }
  assert (Forall word (codes "setenv" :: name :: values)) as Hall.
  { constructor; [|by constructor]. split; [done|]. by_computation. }
  rewrite (take_ge (join_values (codes "setenv" :: name :: values))).
  - rewrite words_join by done. apply take_ge. unfold CONFIG_SYS_MAXARGS. cbn [length]. lia.
  - unfold segs_text, setenv_text in Hlen. cbn [map concat seg_text] in Hlen.
    destruct values as [|v values]; [done|].
    change (join_values (codes "setenv" :: name :: v :: values))
      with (codes "setenv" ++ 32 :: name ++ 32 :: join_values (v :: values)).
    rewrite !length_app in *. cbn [length app] in *. rewrite !length_app in *. cbn [length] in *.
    change (length (codes "setenv")) with 6%nat.
    change (length (codes "setenv ")) with 7%nat in Hlen.
    unfold CONFIG_SYS_CBSIZE in Hlen. lia.
Qed.

Lemma setenv_found d : find_cmd_tbl (codes "setenv") (shell d) = Some setenv_cmd.
Proof. by destruct d. Qed.
Lemma run_found d : find_cmd_tbl (codes "run") (shell (S d)) = Some (run_cmd (shell d)).
Proof. done. Qed.

Context {HooksOk : EnvHooksOk} (Hdup : forall s, strdup s = Some s).

(** A [setenv] in a script: the map gets the variable, or the command fails and nothing
    changes; it does not fail where changes are accepted. *)
Lemma setenv_step d flag g M name values rep_ : plain_name name -> quotable values ->
  (length values <= 14)%nat -> env_ready g = true -> rep (env_htab g) M ->
  room (env_htab g) \/ is_Some (M !! name) ->
  exists r g', cmd_process (shell d) flag (codes "setenv" :: name :: values) rep_ (Some g)
      = (r, rep_ .& 0, Some g')
    /\ env_ready g' = true
    /\ (r = 0 /\ rep (env_htab g') (<[name := join_values values]> M)
        \/ r = 1 /\ rep (env_htab g') M)
    /\ (accepts (env_htab g) H_INTERACTIVE -> r = 0).
Proof.
  intros (Hset & _ & _) (Hne & Hv & _) Hlen Hready Hrep Hroom.
  destruct (join_values values) as [|c v] eqn:Ej.
  { destruct values as [|w [|w' l]]; [done| |]; apply Forall_cons in Hv as [[Hw _] _];
      by destruct w. }
  destruct (env_set_ok Hdup g M name values c v Hrep Hset Hroom Ej)
    as (r & g' & Es & Hr & Hres & Hacc).
  exists r, g'. split; [|split; [congruence|split; [done|done]]].
  unfold cmd_process. cbn [head default]. change (from_option id [] (Some (codes "setenv")))
    with (codes "setenv"). rewrite setenv_found.
  cbn [setenv_cmd maxargs is_bootd cmd repeatable lift].
  replace (_ <? _) with false by (unfold CONFIG_SYS_MAXARGS; cbn [length]; lia).
  change (CMD_RET_SUCCESS =? 0) with true. cbn iota. unfold lift.
  cbn [mbind option_bind tail do_env_set].
  rewrite Es. destruct Hres as [[-> _]|[-> _]]; reflexivity.
Qed.

Definition run_text (name : list Z) : list seg := [Lit (codes "run "); Lit name].
Lemma run_args s name : word name -> zlen name < 1000 ->
  args lookup_var s (run_text name) = [codes "run"; name].
Proof.
  intros Hw Hlen. unfold args.
  assert (segs_val (lookup_var s) (run_text name) = join_values [codes "run"; name]) as ->.
  { unfold segs_val, run_text. cbn [map concat seg_val]. by rewrite app_nil_r. }
  rewrite (take_ge (join_values _)).
  - rewrite words_join; [done|]. constructor; [|by constructor].
    split; [done|]. by_computation.
  - change (join_values [codes "run"; name]) with (codes "run" ++ 32 :: name).
    rewrite length_app. cbn [length]. change (length (codes "run")) with 3%nat. lia.
Qed.

Lemma setenv_text_ok name values : plain_name name -> quotable values ->
  Forall seg_ok (setenv_text name values) /\ segs_text (setenv_text name values) <> [].
Proof.
  intros (_ & _ & Hn) (_ & _ & Hq). split; [|done].
  assert (Forall seg_ok [Lit (codes "setenv "); Lit [32]]) as H
    by (by_computation).
  apply Forall_cons in H as [H1 H2]. apply Forall_cons in H2 as [H2 _].
  by repeat (apply Forall_cons; split; [assumption|]).
Qed.
Lemma run_text_ok name : plain_name name ->
  Forall seg_ok (run_text name) /\ segs_text (run_text name) <> [].
Proof.
  intros (_ & _ & Hn). split; [|done].
  assert (Forall seg_ok [Lit (codes "run ")]) as H by (by_computation).
  apply Forall_cons in H as [H1 _]. by repeat (apply Forall_cons; split; [assumption|]).
Qed.

(** The command [run] on a variable that holds a script. *)
Lemma run_step d flag g M name l rep_ : env_ready g = true -> rep (env_htab g) M ->
  str_ok name -> M !! name = Some (script_text l) -> script_ok l -> l <> [] ->
  zlen (script_text l) < CONFIG_SYS_CBSIZE -> below <> 92 ->
  cmd_process (shell (S d)) flag [codes "run"; name] rep_ (Some g)
  = let (r, s) := meaning d flag l 0 1 (Some g) in (if r =? -1 then 1 else 0, rep_ .& 1, s).
Proof.
  intros Hready Hrep Hname HM Hl Hne Hlen Hb. unfold cmd_process. cbn [head].
  change (from_option id [] (Some (codes "run"))) with (codes "run"). rewrite run_found.
  cbn [run_cmd maxargs is_bootd cmd repeatable length].
  change (_ <? _) with false. change (CMD_RET_SUCCESS =? 0) with true. cbn iota.
  unfold do_run. change (_ <? 2) with false. cbn [tail do_run_loop].
  assert (lookup_var (Some g) name = Some (script_text l)) as ->.
  { unfold lookup_var. cbn [mbind option_bind].
    rewrite (getenv_ok _ _ g M name Hready Hrep Hname), HM. done. }
  assert (run_command lookup_var (fun _ => false) id (shell d) below (script_text l) flag (Some g)
    = let (r, s) := meaning d flag l 0 1 (Some g) in Some (if r =? -1 then 1 else 0, s)) as ->.
  { exact (run_ok lookup_var (fun _ => false) id (shell d) below flag l (Some g) Hl Hlen Hb Hne). }
  destruct (meaning d flag l 0 1 (Some g)) as [r s]. cbn [mbind option_bind].
  by destruct (r =? -1).
Qed.

End shell.

(** ** The theorem at a concrete environment *)
Definition boot_values : list (list Z) := [codes "setenv"; codes "baudrate"; codes "9600;nosuch"].
Definition boot_script : script := [[Lit (codes "setenv baudrate 9600")]; [Lit (codes "nosuch")]].
