(* ===== verification/Tftp.v ===== *)
(** * Loading a file over the network: [net/tftp.c]

    The TFTP client as the boards configure it (no multicast, no sending of files, no server
    mode), with the parts of [net/net.c] that drive it: the state of the network loop, its
    timer and its handler of UDP packets.  A packet is handed over as the bytes of the receive
    buffer from the start of the UDP payload on, with the length of the payload; a read behind
    the buffer is [None].  A packet that is sent is appended to [udp_out] (destination, its
    port, our port and the payload); [Net] models what becomes of it. *)
From S2P Require Import Prelude Ctype Mem CStr Vsprintf.

(** ** The network loop *)
Inductive net_loop_state := NETLOOP_CONTINUE | NETLOOP_RESTART | NETLOOP_SUCCESS | NETLOOP_FAIL.
(** The handlers of packets and of timeouts; those of DHCP are in [Dhcp]. *)
Inductive rxhand_f := dummy_handler | TftpHandler_ | DhcpHandler_.
Inductive thand_f := TftpTimeout_ | startAgainTimeout_ | ping_timeout_ | BootpTimeout_.

(** The globals of [net/net.c] that a transfer uses; [now] is what [get_timer(0)] returns. *)
Record netloop := mknet {
  net_state : net_loop_state;
  NetTryCount : Z;
  NetRestarted : bool;
  NetRestartWrap : bool;
  NetDevExists : bool;
  NetBootFileXferSize : Z;
  udp_packet_handler : rxhand_f;
  timeHandler : option thand_f;
  timeStart : Z;
  timeDelta : Z;
  now : Z }.
Definition net_set_state (n : netloop) (s : net_loop_state) : netloop :=
  mknet s (NetTryCount n) (NetRestarted n) (NetRestartWrap n) (NetDevExists n)
    (NetBootFileXferSize n) (udp_packet_handler n) (timeHandler n) (timeStart n) (timeDelta n) (now n).
Definition net_set_udp_handler (n : netloop) (f : rxhand_f) : netloop :=
  mknet (net_state n) (NetTryCount n) (NetRestarted n) (NetRestartWrap n) (NetDevExists n)
    (NetBootFileXferSize n) f (timeHandler n) (timeStart n) (timeDelta n) (now n).
Definition set_xfer_size (n : netloop) (z : Z) : netloop :=
  mknet (net_state n) (NetTryCount n) (NetRestarted n) (NetRestartWrap n) (NetDevExists n)
    z (udp_packet_handler n) (timeHandler n) (timeStart n) (timeDelta n) (now n).
Definition set_try (n : netloop) (count : Z) (wrap : bool) : netloop :=
  mknet (net_state n) count (NetRestarted n) wrap (NetDevExists n)
    (NetBootFileXferSize n) (udp_packet_handler n) (timeHandler n) (timeStart n) (timeDelta n) (now n).
Definition set_timer (n : netloop) (h : option thand_f) (start delta : Z) : netloop :=
  mknet (net_state n) (NetTryCount n) (NetRestarted n) (NetRestartWrap n) (NetDevExists n)
    (NetBootFileXferSize n) (udp_packet_handler n) h start delta (now n).
Definition set_now (n : netloop) (t : Z) : netloop :=
  mknet (net_state n) (NetTryCount n) (NetRestarted n) (NetRestartWrap n) (NetDevExists n)
    (NetBootFileXferSize n) (udp_packet_handler n) (timeHandler n) (timeStart n) (timeDelta n) t.

Definition CONFIG_SYS_HZ : Z := 1000.
Definition get_timer (n : netloop) (base : Z) : Z := u32 (now n - base).
Definition NetSetTimeout (n : netloop) (iv : Z) (f : thand_f) : netloop :=
  if iv =? 0 then set_timer n None (timeStart n) (timeDelta n)
  else set_timer n (Some f) (get_timer n 0) (u32 (iv * CONFIG_SYS_HZ) / 1000).
Definition startAgainTimeout (n : netloop) : netloop := net_set_state n NETLOOP_RESTART.
Definition ping_timeout (n : netloop) : netloop := net_set_state n NETLOOP_FAIL.

(** ** Constants *)
Definition WELL_KNOWN_PORT : Z := 69.
Definition TIMEOUT : Z := 5000.
Definition TIMEOUT_COUNT : Z := 10.
Definition TFTP_RRQ : Z := 1.
Definition TFTP_DATA : Z := 3.
Definition TFTP_ACK : Z := 4.
Definition TFTP_ERROR : Z := 5.
Definition TFTP_OACK : Z := 6.
Definition TFTP_ERR_FILE_NOT_FOUND : Z := 1.
Definition TFTP_ERR_ACCESS_DENIED : Z := 2.
Definition STATE_SEND_RRQ : Z := 1.
Definition STATE_DATA : Z := 2.
Definition STATE_TOO_LARGE : Z := 3.
Definition STATE_BAD_MAGIC : Z := 4.
Definition STATE_OACK : Z := 5.
Definition STATE_RECV_WRQ : Z := 6.
Definition STATE_SEND_WRQ : Z := 7.
Definition TFTP_BLOCK_SIZE : Z := 512.
Definition TFTP_SEQUENCE_SIZE : Z := 1 ≪ 16.
Definition MAX_LEN : nat := 128.
Definition TFTP_MTU_BLOCKSIZE : Z := 1468.

(** ** The state of the client *)
Record tftp := mktftp {
  TftpTimeoutMSecs : Z;
  TftpTimeoutCountMax : Z;
  time_start : Z;
  TftpRRQTimeoutCountMax : Z;
  TftpRemoteIP : Z;
  TftpRemotePort : Z;
  TftpOurPort : Z;
  TftpTimeoutCount : Z;
  TftpBlock : Z;
  TftpLastBlock : Z;
  TftpBlockWrap : Z;
  TftpBlockWrapOffset : Z;
  TftpState : Z;
  tftp_filename : list Z;
  TftpBlkSize : Z;
  TftpBlkSizeOption : Z }.
Definition datagram : Type := Z * Z * Z * list Z.
(** The client, the network loop, the memory, [load_addr] and the packets sent. *)
Record state := mkst {
  cl : tftp;
  nl : netloop;
  ram : mem;
  load_addr : Z;
  udp_out : list datagram }.
Definition with_cl (s : state) (t : tftp) : state := mkst t (nl s) (ram s) (load_addr s) (udp_out s).
Definition with_nl (s : state) (n : netloop) : state := mkst (cl s) n (ram s) (load_addr s) (udp_out s).
Definition with_ram (s : state) (m : mem) : state := mkst (cl s) (nl s) m (load_addr s) (udp_out s).

Definition set_counts (t : tftp) (max count : Z) : tftp :=
  mktftp (TftpTimeoutMSecs t) max (time_start t) (TftpRRQTimeoutCountMax t) (TftpRemoteIP t)
    (TftpRemotePort t) (TftpOurPort t) count (TftpBlock t) (TftpLastBlock t) (TftpBlockWrap t)
    (TftpBlockWrapOffset t) (TftpState t) (tftp_filename t) (TftpBlkSize t) (TftpBlkSizeOption t).
Definition set_time_start (t : tftp) (z : Z) : tftp :=
  mktftp (TftpTimeoutMSecs t) (TftpTimeoutCountMax t) z (TftpRRQTimeoutCountMax t) (TftpRemoteIP t)
    (TftpRemotePort t) (TftpOurPort t) (TftpTimeoutCount t) (TftpBlock t) (TftpLastBlock t)
    (TftpBlockWrap t) (TftpBlockWrapOffset t) (TftpState t) (tftp_filename t) (TftpBlkSize t)
    (TftpBlkSizeOption t).
Definition set_blocks (t : tftp) (block last wrap offset : Z) : tftp :=
  mktftp (TftpTimeoutMSecs t) (TftpTimeoutCountMax t) (time_start t) (TftpRRQTimeoutCountMax t)
    (TftpRemoteIP t) (TftpRemotePort t) (TftpOurPort t) (TftpTimeoutCount t) block last wrap
    offset (TftpState t) (tftp_filename t) (TftpBlkSize t) (TftpBlkSizeOption t).
Definition set_peer (t : tftp) (st port : Z) : tftp :=
  mktftp (TftpTimeoutMSecs t) (TftpTimeoutCountMax t) (time_start t) (TftpRRQTimeoutCountMax t)
    (TftpRemoteIP t) port (TftpOurPort t) (TftpTimeoutCount t) (TftpBlock t) (TftpLastBlock t)
    (TftpBlockWrap t) (TftpBlockWrapOffset t) st (tftp_filename t) (TftpBlkSize t)
    (TftpBlkSizeOption t).
Definition set_blksize (t : tftp) (z : Z) : tftp :=
  mktftp (TftpTimeoutMSecs t) (TftpTimeoutCountMax t) (time_start t) (TftpRRQTimeoutCountMax t)
    (TftpRemoteIP t) (TftpRemotePort t) (TftpOurPort t) (TftpTimeoutCount t) (TftpBlock t)
    (TftpLastBlock t) (TftpBlockWrap t) (TftpBlockWrapOffset t) (TftpState t) (tftp_filename t) z
    (TftpBlkSizeOption t).

(** ** Bytes of a packet *)
Definition be16 (l : list Z) (i : nat) : option Z := a ← l !! i; b ← l !! S i; Some (a * 256 + b).
Definition htons_bytes (x : Z) : list Z := [u16 x / 256; u16 x mod 256].
(** The string that starts a list of bytes. *)
Fixpoint until_nul (l : list Z) : list Z :=
  match l with [] => [] | c :: l => if c =? 0 then [] else c :: until_nul l end.
(** A number read from a buffer; the digits must not run out of it. *)
Definition buffer_strtoul (l : list Z) (base : Z) : option Z :=
  let s := until_nul l in
  let '(v, e) := simple_strtoul s base in
  if (length s =? length l)%nat && match e with [] => true | _ => false end then None else Some v.

Section client.
(** The environment, [BootFile], our and the server's address, and whether
    [eth_try_another] has tried all the devices. *)
Context (getenv : list Z -> option (list Z)) (BootFile : list Z) (NetOurIP NetServerIP : Z).
Context (eth_try_another : bool -> bool -> bool).

Definition NetStartAgain (n : netloop) : netloop :=
  let '(retry_forever, retrycnt) :=
    match getenv (codes "netretry") with
    | Some nretry =>
        if strcmp nretry (codes "yes") =? 0 then (true, 0)
        else if strcmp nretry (codes "no") =? 0 then (false, 0)
        else if strcmp nretry (codes "once") =? 0 then (false, 1)
        else (false, fst (simple_strtoul nretry 0))
    | None => (true, 0)
    end in
  if negb retry_forever && (retrycnt <=? u32 (NetTryCount n)) then net_set_state n NETLOOP_FAIL
  else
    let n := set_try n (s32 (NetTryCount n + 1)) (eth_try_another (negb (NetRestarted n)) (NetRestartWrap n)) in
    if NetRestartWrap n then
      let n := set_try n (NetTryCount n) false in
      if NetDevExists n then net_set_udp_handler (NetSetTimeout n 10000 startAgainTimeout_) dummy_handler
      else net_set_state n NETLOOP_FAIL
    else net_set_state n NETLOOP_RESTART.

Definition restart (s : state) : state := with_nl s (NetStartAgain (nl s)).

(** [memcpy] from the receive buffer to the load area. *)
Fixpoint copy_in (m : mem) (p : Z) (l : list Z) : option mem :=
  match l with [] => Some m | c :: l => m ← store m p c; copy_in m (u32 (p + 1)) l end.

Definition store_block (s : state) (block : Z) (src : list Z) (len : Z) : option state :=
  let t := cl s in
  let offset := u32 (s32 (block * TftpBlkSize t) + TftpBlockWrapOffset t) in
  let newsize := u32 (offset + len) in
  data ← (if zlen src <? len then None else Some (take (Z.to_nat len) src));
  m ← copy_in (ram s) (u32 (load_addr s + offset)) data;
  let s := with_ram s m in
  Some (if NetBootFileXferSize (nl s) <? newsize then with_nl s (set_xfer_size (nl s) newsize) else s).

Definition new_transfer (t : tftp) : tftp := set_blocks t (TftpBlock t) 0 0 0.

Definition update_block_number (t : tftp) : tftp :=
  if TftpBlock t =? 0 then
    set_counts
      (set_blocks t (TftpBlock t) (TftpLastBlock t) (u32 (TftpBlockWrap t + 1))
        (u32 (TftpBlockWrapOffset t + u32 (TftpBlkSize t * TFTP_SEQUENCE_SIZE))))
      (TftpTimeoutCountMax t) 0
  else t.

Definition tftp_complete (s : state) : state :=
  let s := with_cl s (set_time_start (cl s) (get_timer (nl s) (time_start (cl s)))) in
  with_nl s (net_set_state (nl s) NETLOOP_SUCCESS).

Definition TftpSend (s : state) : option state :=
  let t := cl s in
  payload ←
    (if (TftpState t =? STATE_SEND_RRQ) || (TftpState t =? STATE_SEND_WRQ) then
       timeout ← sprintf "%lu" [VInt (TftpTimeoutMSecs t / 1000)];
       blksize ← sprintf "blksize%c%d%c" [VInt 0; VInt (TftpBlkSizeOption t); VInt 0];
       Some (htons_bytes TFTP_RRQ ++ tftp_filename t ++ [0] ++ codes "octet" ++ [0]
             ++ codes "timeout" ++ [0] ++ timeout ++ [0] ++ blksize)
     else if (TftpState t =? STATE_OACK) || (TftpState t =? STATE_RECV_WRQ) || (TftpState t =? STATE_DATA)
     then Some (htons_bytes TFTP_ACK ++ htons_bytes (TftpBlock t))
     else if TftpState t =? STATE_TOO_LARGE then
       Some (htons_bytes TFTP_ERROR ++ htons_bytes 3 ++ codes "File too large" ++ [0])
     else if TftpState t =? STATE_BAD_MAGIC then
       Some (htons_bytes TFTP_ERROR ++ htons_bytes 2 ++ codes "File has bad magic" ++ [0])
     else Some []);
  Some (mkst t (nl s) (ram s) (load_addr s)
          (udp_out s ++ [(TftpRemoteIP t, TftpRemotePort t, TftpOurPort t, payload)])).

(** The loop over an OACK: [len] is the length of the options. *)
Fixpoint oack_loop (n : nat) (pkt : list Z) (i : nat) (len blksize : Z) : option Z :=
  match n with
  | O => Some blksize
  | S n =>
      if Z.of_nat i + 8 <? len then
        if (length pkt <? i + 8)%nat && starts_with (drop i pkt) (codes "blksize") then None
        else
          blksize ←
            (if strcmp (until_nul (drop i pkt)) (codes "blksize") =? 0
             then v ← buffer_strtoul (drop (i + 8) pkt) 10; Some (u16 v) else Some blksize);
          oack_loop n pkt (S i) len blksize
      else Some blksize
  end.

(** The part of [case TFTP_DATA] for a new block: store it and acknowledge it. *)
Definition accept_data (s : state) (pkt : list Z) (len : Z) : option state :=
  let t := cl s in
  let t := set_blocks t (TftpBlock t) (TftpBlock t) (TftpBlockWrap t) (TftpBlockWrapOffset t) in
  let t := set_counts t TIMEOUT_COUNT (TftpTimeoutCount t) in
  let s := with_nl (with_cl s t) (NetSetTimeout (nl s) (TftpTimeoutMSecs t) TftpTimeout_) in
  s ← store_block s (s32 (TftpBlock t - 1)) (drop 2 pkt) len;
  s ← TftpSend s;
  Some (if len <? TftpBlkSize (cl s) then tftp_complete s else s).
(** [case TFTP_DATA], behind the opcode. *)
Definition handle_data (s : state) (pkt : list Z) (src len : Z) : option state :=
  if len <? 2 then Some s
  else
    let len := len - 2 in
    block ← be16 pkt 0;
    let t := cl s in
    let t := set_blocks t block (TftpLastBlock t) (TftpBlockWrap t) (TftpBlockWrapOffset t) in
    let t := update_block_number t in
    let first := (TftpState t =? STATE_SEND_RRQ) || (TftpState t =? STATE_OACK)
                 || (TftpState t =? STATE_RECV_WRQ) in
    let t := if first then new_transfer (set_peer t STATE_DATA src) else t in
    let s := with_cl s t in
    if first && negb (TftpBlock t =? 1) then Some (with_nl s (NetStartAgain (nl s)))
    else if TftpBlock t =? TftpLastBlock t then Some s
    else accept_data s pkt len.

Definition handle_oack (s : state) (pkt : list Z) (src len : Z) : option state :=
  let t := set_peer (cl s) STATE_OACK src in
  blksize ← oack_loop (Z.to_nat len) pkt 0 len (TftpBlkSize t);
  TftpSend (with_cl s (set_blksize t blksize)).

Definition handle_error (s : state) (pkt : list Z) : option state :=
  code ← be16 pkt 0;
  Some (if (code =? TFTP_ERR_FILE_NOT_FOUND) || (code =? TFTP_ERR_ACCESS_DENIED)
        then with_nl s (net_set_state (nl s) NETLOOP_FAIL)
        else with_nl s (NetStartAgain (nl s))).

Definition TftpHandler (s : state) (pkt : list Z) (dest sip src len : Z) : option state :=
  let t := cl s in
  if negb (dest =? TftpOurPort t) then Some s
  else if negb (TftpState t =? STATE_SEND_RRQ) && negb (src =? TftpRemotePort t)
          && negb (TftpState t =? STATE_RECV_WRQ) && negb (TftpState t =? STATE_SEND_WRQ) then Some s
  else if len <? 2 then Some s
  else
    let len := len - 2 in
    proto ← be16 pkt 0;
    let pkt := drop 2 pkt in
    if proto =? TFTP_OACK then handle_oack s pkt src len
    else if proto =? TFTP_DATA then handle_data s pkt src len
    else if proto =? TFTP_ERROR then handle_error s pkt
    else Some s.

Definition TftpTimeout (s : state) : option state :=
  let t := set_counts (cl s) (TftpTimeoutCountMax (cl s)) (s32 (TftpTimeoutCount (cl s) + 1)) in
  let s := with_cl s t in
  if TftpTimeoutCountMax t <? TftpTimeoutCount t then Some (restart s)
  else
    let s := with_nl s (NetSetTimeout (nl s) (TftpTimeoutMSecs t) TftpTimeout_) in
    if negb (TftpState t =? STATE_RECV_WRQ) then TftpSend s else Some s.

(** ** Starting a transfer *)
Definition boot_name (t : tftp) : option (Z * list Z) :=
  match BootFile with
  | [] =>
      name ← sprintf "%02X%02X%02X%02X.img"
        [VInt (NetOurIP .& 0xff); VInt ((NetOurIP ≫ 8) .& 0xff);
         VInt ((NetOurIP ≫ 16) .& 0xff); VInt ((NetOurIP ≫ 24) .& 0xff)];
      Some (NetServerIP, take (MAX_LEN - 1) name)
  | _ =>
      match find_sub BootFile [58] with
      | None => Some (NetServerIP, take (MAX_LEN - 1) BootFile)
      | Some p => Some (string_to_ip (Some BootFile), take (MAX_LEN - 1) (drop (S p) BootFile))
      end
  end.
Definition TftpStart (s : state) : option state :=
  let t := cl s in
  let option_ := match getenv (codes "tftpblocksize") with
    | Some ep => u16 (fst (simple_strtol ep 10)) | None => TftpBlkSizeOption t end in
  let msecs := match getenv (codes "tftptimeout") with
    | Some ep => u32 (fst (simple_strtol ep 10)) | None => TftpTimeoutMSecs t end in
  let msecs := if msecs <? 1000 then 1000 else msecs in
  '(remote, name) ← boot_name t;
  let n := net_set_udp_handler (NetSetTimeout (nl s) msecs TftpTimeout_) TftpHandler_ in
  TftpSend
    (mkst
      (mktftp msecs (TftpRRQTimeoutCountMax t) (get_timer n 0) (TftpRRQTimeoutCountMax t) remote
        WELL_KNOWN_PORT (1024 + get_timer n 0 mod 3072) 0 0 (TftpLastBlock t) (TftpBlockWrap t)
        (TftpBlockWrapOffset t) STATE_SEND_RRQ name TFTP_BLOCK_SIZE option_)
      n (ram s) (load_addr s) (udp_out s)).

(** ** The loop *)
(** What one round of the loop in [NetLoop] finds: a packet or none, and the time.  This is the
    loop while a transfer runs: the handlers of DHCP, which is over by then, are not run here. *)
Record event := mkevent { ev_rx : option (list Z * Z * Z * Z * Z); ev_now : Z; ev_arp_failed : bool }.
Definition receive (s : state) (rx : list Z * Z * Z * Z * Z) : option state :=
  let '(pkt, dest, sip, src, len) := rx in
  match udp_packet_handler (nl s) with
  | dummy_handler | DhcpHandler_ => Some s
  | TftpHandler_ => TftpHandler s pkt dest sip src len
  end.
Definition run_timer (s : state) : option state :=
  match timeHandler (nl s) with
  | Some x =>
      if timeDelta (nl s) <? get_timer (nl s) (timeStart (nl s)) then
        let s := with_nl s (set_timer (nl s) None (timeStart (nl s)) (timeDelta (nl s))) in
        match x with
        | TftpTimeout_ => TftpTimeout s
        | startAgainTimeout_ => Some (with_nl s (startAgainTimeout (nl s)))
        | ping_timeout_ => Some (with_nl s (ping_timeout (nl s)))
        | BootpTimeout_ => Some s
        end
      else Some s
  | None => Some s
  end.
(** The body of the loop, up to the [switch] on [net_state]. *)
Definition loop_body (s : state) (e : event) : option state :=
  let s := with_nl s (set_now (nl s) (ev_now e)) in
  s ← match ev_rx e with Some rx => receive s rx | None => Some s end;
  let s := if ev_arp_failed e then restart s else s in
  run_timer s.
(** The packets and times of a transfer, until the state is no longer [NETLOOP_CONTINUE]. *)
Fixpoint loop (s : state) (l : list event) : option state :=
  match l, net_state (nl s) with
  | e :: l, NETLOOP_CONTINUE => s ← loop_body s e; loop s l
  | _, _ => Some s
  end.
End client.

(** ** Numbers in network order *)
Lemma htons_bytes_u16 x l : be16 (htons_bytes x ++ l) 0 = Some (u16 x).
Proof. unfold be16, htons_bytes. cbn. f_equal. pose proof (u16_range x). zdm. Qed.
Lemma htons_bytes_be x l : 0 <= x < 0x10000 -> be16 (htons_bytes x ++ l) 0 = Some x.
Proof. intros Hx. by rewrite htons_bytes_u16, u16_small. Qed.
Lemma htons_bytes_inj x y : 0 <= x < 0x10000 -> 0 <= y < 0x10000 ->
  htons_bytes x = htons_bytes y -> x = y.
Proof.
  intros Hx Hy H. pose proof (htons_bytes_be x [] Hx) as H1. rewrite H, htons_bytes_be in H1 by done. congruence.
Qed.
