(* ===== verification/TftpSpec.v ===== *)
(** * TFTP loads the file it is asked for

    The client of [Tftp] against a server and a network that loses, repeats and reorders
    packets. *)
From S2P Require Import Prelude Ctype Mem CStr Vsprintf VsprintfSpec Tftp.

(** ** Arithmetic and memory *)
Lemma u32_s32_add x y : u32 (s32 x + y) = u32 (x + y).
Proof. unfold s32, u32. case_match; zdm. Qed.
Lemma copy_in_ok m p l : allocated m p (length l) -> 0 <= p -> p + zlen l <= 0x100000000 ->
  Forall byte l -> copy_in m p l = Some (mwrite m p l).
Proof.
  intros Ha Hp He Hl. revert m p Ha Hp He. induction Hl as [|c l Hc Hl IH]; intros m p Ha Hp He; [done|].
  cbn [copy_in mwrite length] in *. rewrite (store_ok _ _ _ _ Ha). cbn [mbind option_bind].
  unfold byte in Hc. rewrite (u8_small c) by lia. destruct l as [|d l]; [done|].
  cbn [length] in *. rewrite u32_small by lia. apply IH; [|lia..].
  by apply allocated_insert, allocated_tail.
Qed.
Lemma lookup_mwrite_ne m p l a : ~ (p <= a < p + zlen l) -> mwrite m p l !! a = m !! a.
Proof. intros H. by rewrite lookup_mwrite, decide_False. Qed.

(** ** The file in blocks *)
Section file.
Context (F : list Z) (B : Z).
Definition chunk (k : Z) : list Z := take (Z.to_nat B) (drop (Z.to_nat ((k - 1) * B)) F).
(** The last block is the first short one; it can be empty. *)
Definition nblocks : Z := zlen F / B + 1.
Context (HB : 0 < B).

Lemma chunk_len k : 1 <= k <= nblocks ->
  zlen (chunk k) = Z.min B (zlen F - (k - 1) * B) /\ (k - 1) * B + zlen (chunk k) <= zlen F
  /\ (zlen (chunk k) < B <-> k = nblocks).
Proof.
  unfold chunk, nblocks. intros Hk. rewrite length_take, length_drop.
  assert (zlen F / B * B <= zlen F < zlen F / B * B + B) by zdm.
  assert ((k - 1) * B <= zlen F / B * B) by (apply Z.mul_le_mono_nonneg_r; lia).
  assert (0 <= (k - 1) * B) by (apply Z.mul_nonneg_nonneg; lia).
  destruct (decide (k = zlen F / B + 1)) as [->|Hne].
  - replace ((zlen F / B + 1 - 1) * B) with (zlen F / B * B) in * by lia. split_and!; lia.
  - assert (k * B <= zlen F / B * B) by (apply Z.mul_le_mono_nonneg_r; lia). split_and!; lia.
Qed.
Lemma chunk_snoc k : 1 <= k -> take (Z.to_nat ((k - 1) * B)) F ++ chunk k = take (Z.to_nat (k * B)) F.
Proof.
  intros Hk. unfold chunk. rewrite take_take_drop. f_equal.
  assert (0 <= (k - 1) * B) by (apply Z.mul_nonneg_nonneg; lia). lia.
Qed.
Lemma chunk_bytes k : Forall byte F -> Forall byte (chunk k).
Proof. intros. unfold chunk. by apply Forall_take, Forall_drop. Qed.

(** The blocks in memory are the file in memory. *)
Lemma chunks_file m p : (forall k, 1 <= k <= nblocks -> bytes_at m (p + (k - 1) * B) (chunk k)) ->
  bytes_at m p F.
Proof.
  intros H. assert (forall k : nat, Z.of_nat k <= nblocks -> bytes_at m p (take (Z.to_nat (Z.of_nat k * B)) F)) as Hk.
  { induction k as [|k IH]; intros Hk; [done|]. rewrite <- (chunk_snoc (Z.of_nat (S k))) by lia.
    replace ((Z.of_nat (S k) - 1) * B) with (Z.of_nat k * B) by lia. apply bytes_at_app. split; [apply IH; lia|].
    destruct (decide (Z.of_nat k * B <= zlen F)).
    - rewrite length_take_le by lia. rewrite Z2Nat.id by lia.
      replace (Z.of_nat k) with (Z.of_nat (S k) - 1) at 1 by lia. apply H. lia.
    - assert (chunk (Z.of_nat (S k)) = []) as ->; [|done]. unfold chunk. rewrite drop_ge by lia. apply take_nil. }
  specialize (Hk (Z.to_nat nblocks)). rewrite take_ge in Hk; [apply Hk|];
    unfold nblocks in *; assert (0 <= zlen F / B) by (apply Z.div_pos; lia);
    assert (zlen F < (zlen F / B + 1) * B) by zdm; lia.
Qed.
End file.

(** ** Packets that are sent *)
(** The texts in a request can always be printed. *)
Lemma number_32 v base size type : base_ok base -> is_Some (number (u32 v) base size (-1) type).
Proof. intros Hb. apply number_some; [done|]. pose proof (u32_range v). lia. Qed.
Lemma sprintf_timeout v : is_Some (sprintf "%lu" [VInt v]).
Proof.
  lazy -[number u32]. destruct (number_32 v 10 (-1) 0) as [x ->]; [by right; left|by eexists].
Qed.
Lemma sprintf_blksize v : is_Some (sprintf "blksize%c%d%c" [VInt 0; VInt v; VInt 0]).
Proof.
  lazy -[number u64 s32 u8].
  destruct (number_some (u64 (s32 v)) 10 (-1) (-1) 2) as [x ->]; [by right; left|pose proof (u64_range (s32 v)); lia|by eexists].
Qed.
Lemma sprintf_file a b c d : is_Some (sprintf "%02X%02X%02X%02X.img" [VInt a; VInt b; VInt c; VInt d]).
Proof.
  lazy -[number u32 s32].
  destruct (number_32 a 16 (s32 2) 1) as [? ->]; [by right; right|].
  destruct (number_32 b 16 (s32 2) 1) as [? ->]; [by right; right|].
  destruct (number_32 c 16 (s32 2) 1) as [? ->]; [by right; right|].
  destruct (number_32 d 16 (s32 2) 1) as [? ->]; [by right; right|by eexists].
Qed.
#[local] Opaque sprintf.
Definition rrq_ok (t : tftp) : Prop :=
  is_Some (sprintf "%lu" [VInt (TftpTimeoutMSecs t / 1000)])
  /\ is_Some (sprintf "blksize%c%d%c" [VInt 0; VInt (TftpBlkSizeOption t); VInt 0]).
Definition ack (k : Z) : list Z := htons_bytes TFTP_ACK ++ htons_bytes k.
Definition acks_data (t : tftp) : Prop := TftpState t = STATE_DATA \/ TftpState t = STATE_OACK.
Definition sent (s : state) (p : list Z) : state :=
  mkst (cl s) (nl s) (ram s) (load_addr s)
    (udp_out s ++ [(TftpRemoteIP (cl s), TftpRemotePort (cl s), TftpOurPort (cl s), p)]).
Definition acked (s : state) (k : Z) : Prop :=
  exists ip port our, (ip, port, our, ack k) ∈ udp_out s.

Lemma send_ack s : acks_data (cl s) -> TftpSend s = Some (sent s (ack (TftpBlock (cl s)))).
Proof. intros H. unfold TftpSend. by destruct H as [-> | ->]. Qed.
Lemma send_some s : rrq_ok (cl s) -> exists p, TftpSend s = Some (sent s p)
  /\ (TftpState (cl s) = STATE_SEND_RRQ -> forall k, p <> ack k).
Proof.
  intros [[p1 H1] [p2 H2]]. unfold TftpSend. rewrite H1, H2. cbn [mbind option_bind].
  repeat case_if; eexists; (split; [done|]); intros Hs; try lia. intros k. by intros [=].
Qed.
Lemma send_rrq s s' : TftpSend s = Some s' -> TftpState (cl s) = STATE_SEND_RRQ -> rrq_ok (cl s).
Proof.
  unfold TftpSend, rrq_ok. cbv zeta. intros H Hs. rewrite Hs in H.
  change ((STATE_SEND_RRQ =? STATE_SEND_RRQ) || _) with true in H. cbn iota in H.
  destruct (sprintf "%lu" _); [|done]. cbn [mbind option_bind] in H.
  destruct (sprintf "blksize%c%d%c" _); [by split|done].
Qed.
(** A transfer always starts. *)
Lemma rrq_some t : rrq_ok t.
Proof. split; [apply sprintf_timeout|apply sprintf_blksize]. Qed.
Lemma boot_name_some file ip server t : is_Some (boot_name file ip server t).
Proof.
  unfold boot_name. destruct file; [|case_match; by eexists].
  destruct (sprintf_file (ip .& 0xff) ((ip ≫ 8) .& 0xff) ((ip ≫ 16) .& 0xff) ((ip ≫ 24) .& 0xff)) as [x ->]. by eexists.
Qed.
Lemma TftpStart_some getenv file ip server s : is_Some (TftpStart getenv file ip server s).
Proof.
  unfold TftpStart. cbv zeta. destruct (boot_name_some file ip server (cl s)) as [[remote name] ->].
  cbn [mbind option_bind]. match goal with |- is_Some (TftpSend ?s) => destruct (send_some s (rrq_some _)) as (p & -> & _) end.
  by eexists.
Qed.
Lemma sent_acked s p k : acked (sent s p) k <-> acked s k \/ p = ack k.
Proof.
  unfold acked, sent. cbn [udp_out]. split.
  - intros (ip & port & our & H). apply elem_of_app in H as [H|H]; [left; eauto|right].
    apply list_elem_of_singleton in H. congruence.
  - intros [(ip & port & our & H)| ->]; do 3 eexists; apply elem_of_app; [left; eauto|right].
    by apply list_elem_of_singleton.
Qed.
Lemma ack_inj j k : 0 <= j < 0x10000 -> 0 <= k < 0x10000 -> ack j = ack k -> j = k.
Proof. intros Hj Hk H. apply app_inv_head in H. by apply htons_bytes_inj. Qed.

(** ** The server and the network *)
Section session.
Context (getenv : list Z -> option (list Z)) (BootFile : list Z) (NetOurIP NetServerIP : Z).
Context (eth_try_another : bool -> bool -> bool).
(** The file, the size of a block, whether the server answers the options, its port, and the
    memory and address the file is loaded to. *)
Context (F : list Z) (B : Z) (opts : bool) (port : Z) (m0 : mem) (load : Z).

Abbreviation n := (nblocks F B).
Abbreviation Start := (TftpStart getenv BootFile NetOurIP NetServerIP).
Abbreviation body := (loop_body getenv eth_try_another).

(** The options of an OACK that agree on blocks of [B] bytes. *)
Definition negotiates (o : list Z) : Prop :=
  forall rest z, oack_loop (length o) (o ++ rest) 0 (zlen o) z = Some B.
(** What the server sends: block [k] when the one before was acknowledged (the first one at
    once, if it does not answer the options), the answer to the options, and errors. *)
Inductive server_packet (s : state) : list Z -> Prop :=
| sp_data k : 1 <= k <= n -> k = 1 /\ opts = false \/ acked s (k - 1) ->
    server_packet s (htons_bytes TFTP_DATA ++ htons_bytes k ++ chunk F B k)
| sp_oack o : opts = true -> negotiates o -> server_packet s (htons_bytes TFTP_OACK ++ o)
| sp_error c msg : server_packet s (htons_bytes TFTP_ERROR ++ htons_bytes c ++ msg).
(** A packet that the client has to leave aside: for another port or from another one, too
    short, or of a kind that a client does not get. *)
Definition stray (s : state) (pkt : list Z) (dest src len : Z) : Prop :=
  dest <> TftpOurPort (cl s)
  \/ TftpState (cl s) <> STATE_SEND_RRQ /\ src <> TftpRemotePort (cl s)
  \/ len < 2
  \/ exists op, be16 pkt 0 = Some op /\ op ∉ [TFTP_DATA; TFTP_ERROR; TFTP_OACK].
(** The network delivers, at any time and any number of times, packets the server may have
    sent, in a buffer with anything behind them, and stray packets. *)
Definition delivered (s : state) (rx : option (list Z * Z * Z * Z * Z)) : Prop :=
  match rx with
  | None => True
  | Some (pkt, dest, sip, src, len) =>
      (exists p rest, server_packet s p /\ pkt = p ++ rest /\ dest = TftpOurPort (cl s)
         /\ src = port /\ len = zlen p)
      \/ 2 <= zlen pkt /\ stray s pkt dest src len
  end.

Inductive session : state -> Prop :=
| session_start s0 s : Start s0 = Some s ->
    net_state (nl s0) = NETLOOP_CONTINUE -> NetBootFileXferSize (nl s0) = 0 ->
    udp_out s0 = [] -> ram s0 = m0 -> load_addr s0 = load -> session s
| session_round s e s' : session s -> net_state (nl s) = NETLOOP_CONTINUE ->
    delivered s (ev_rx e) -> body s e = Some s' -> session s'.

(** ** The invariant *)
Context (HF : Forall byte F) (HB : 0 < B < 0x10000) (Hn : n < 0x10000).
Context (Hload : 0 <= load /\ load + zlen F < 0x100000000).
Context (Hplain : opts = false -> B = TFTP_BLOCK_SIZE).
Context (Halloc : allocated m0 load (length F)).

Definition stored (s : state) (k : Z) : Prop := bytes_at (ram s) (load + (k - 1) * B) (chunk F B k).
Record common (s : state) : Prop := mkcommon {
  c_load : load_addr s = load;
  c_alloc : allocated (ram s) load (length F);
  c_frame : forall a, ~ (load <= a < load + zlen F) -> ram s !! a = m0 !! a;
  c_size : 0 <= NetBootFileXferSize (nl s) <= zlen F;
  c_rrq : rrq_ok (cl s) }.
(** Block [b] is in memory and its predecessor was acknowledged. *)
Definition ackable (s : state) (b : Z) : Prop :=
  b = 0 \/ 1 <= b <= n /\ stored s b /\ (b = 1 \/ acked s (b - 1)).
(** A number that was acknowledged stands for a block in memory. *)
Definition acks_ok (s : state) : Prop :=
  forall k, 0 <= k < 0x10000 -> acked s k -> ackable s k.
Definition waiting (s : state) : Prop :=
  TftpState (cl s) = STATE_SEND_RRQ /\ TftpBlkSize (cl s) = TFTP_BLOCK_SIZE
  /\ forall k, 0 <= k < 0x10000 -> ~ acked s k.
Definition running (s : state) : Prop :=
  (TftpState (cl s) = STATE_OACK \/
   TftpState (cl s) = STATE_DATA /\ TftpBlockWrapOffset (cl s) = 0
   /\ (TftpLastBlock (cl s) = 0 \/ stored s (TftpLastBlock (cl s))))
  /\ TftpBlkSize (cl s) = B /\ ackable s (TftpBlock (cl s)).
Definition alive (s : state) : Prop :=
  net_state (nl s) = NETLOOP_CONTINUE /\ acks_ok s
  /\ (waiting s /\ TftpBlock (cl s) = 0 \/ running s /\ TftpRemotePort (cl s) = port).
Definition done_ (s : state) : Prop :=
  net_state (nl s) = NETLOOP_SUCCESS /\ bytes_at (ram s) load F /\ NetBootFileXferSize (nl s) = zlen F.
Definition over (s : state) : Prop :=
  net_state (nl s) = NETLOOP_RESTART \/ net_state (nl s) = NETLOOP_FAIL.
Definition dead (s : state) : Prop :=
  net_state (nl s) = NETLOOP_CONTINUE /\ udp_packet_handler (nl s) = dummy_handler
  /\ timeHandler (nl s) <> Some TftpTimeout_.
Definition good (s : state) : Prop := common s /\ (alive s \/ done_ s \/ over s \/ dead s).

(** *** Starting again, timeouts *)
Lemma start_again_ok nt : let nt' := NetStartAgain getenv eth_try_another nt in
  NetBootFileXferSize nt' = NetBootFileXferSize nt
  /\ (net_state nt' = NETLOOP_RESTART \/ net_state nt' = NETLOOP_FAIL
      \/ net_state nt' = net_state nt /\ udp_packet_handler nt' = dummy_handler
         /\ timeHandler nt' = Some startAgainTimeout_).
Proof.
  unfold NetStartAgain. cbn zeta.
  destruct (match getenv (codes "netretry") with Some _ => _ | None => _ end) as [f c].
  case_if; [by split; [|right; left]|]. unfold NetSetTimeout. change (10000 =? 0) with false. cbn iota.
  case_if; [|by split; [|left]]. case_if; [by split; [|right; right]|by split; [|right; left]].
Qed.
(** Starting again ends the session, at once or after a while. *)
Lemma restart_over s : net_state (nl s) = NETLOOP_CONTINUE \/ over s ->
  over (with_nl s (NetStartAgain getenv eth_try_another (nl s)))
  \/ dead (with_nl s (NetStartAgain getenv eth_try_another (nl s))).
Proof.
  intros H. unfold over, dead. cbn [nl with_nl].
  destruct (start_again_ok (nl s)) as (_ & [E|[E|(E & Eh & Et)]]); [left; auto..|].
  rewrite E, Eh, Et. destruct H as [H|H]; [by right|by left].
Qed.
Lemma common_nl s nt : common s -> NetBootFileXferSize nt = NetBootFileXferSize (nl s) ->
  common (with_nl s nt).
Proof. intros [] H. split; cbn; rewrite ?H; done. Qed.
Lemma restart_good s : good s -> good (restart getenv eth_try_another s).
Proof.
  intros [Hc H]. pose proof (start_again_ok (nl s)) as (Hx & Hs). split; [by apply common_nl|].
  destruct H as [(H & _)|[H|[H|(H & _)]]].
  - destruct (restart_over s) as [|]; auto.
  - destruct Hs as [E|[E|(E & _)]]; [right; right; left; by left|right; right; left; by right|].
    right; left. destruct H as (H1 & H2 & H3). split_and!; cbn; congruence.
  - destruct (restart_over s) as [|]; auto.
  - destruct (restart_over s) as [|]; auto.
Qed.

Lemma common_sent s p : common s -> common (sent s p).
Proof. by intros []. Qed.
Lemma ackable_sent s p b : ackable s b -> ackable (sent s p) b.
Proof.
  intros [?|(H1 & H2 & H3)]; [by left|right]. split_and!; [lia..|done|].
  destruct H3; [by left|right]. apply sent_acked. by left.
Qed.
(** The acknowledgement of a block that is in memory keeps the invariant. *)
Lemma send_running s : acks_ok s -> running s ->
  let s' := sent s (ack (TftpBlock (cl s))) in
  TftpSend s = Some s' /\ acks_ok s' /\ running s'.
Proof.
  intros Ha Hr s'. pose proof Hr as (Hst & Hb & Hk). split.
  { apply send_ack. unfold acks_data. tauto. }
  split; [|split_and!; [done|done|by apply ackable_sent]].
  intros k Hk16 [Hak|Heq%eq_sym]%sent_acked; [by apply ackable_sent, Ha|].
  assert (0 <= TftpBlock (cl s) < 0x10000) by (destruct Hk as [->|]; lia).
  apply ack_inj in Heq as ->; [|done..]. by apply ackable_sent.
Qed.
Lemma send_waiting s : rrq_ok (cl s) -> acks_ok s -> waiting s ->
  exists p, TftpSend s = Some (sent s p) /\ acks_ok (sent s p) /\ waiting (sent s p).
Proof.
  intros Hq Ha (Hs & Hb & Hno). destruct (send_some s Hq) as (p & Hp & Hnk). exists p. split; [done|].
  assert (forall k, 0 <= k < 0x10000 -> ~ acked (sent s p) k) as Hno'.
  { intros k Hk [H|H]%sent_acked; [by apply (Hno k)|by apply (Hnk Hs k)]. }
  split; [|done]. intros k Hk H. by destruct (Hno' k).
Qed.

Lemma send_alive s : rrq_ok (cl s) -> alive s -> exists p, TftpSend s = Some (sent s p) /\ alive (sent s p).
Proof.
  intros Hq (Hn0 & Ha & [[Hw Hb]|[Hr Hp]]).
  - destruct (send_waiting s Hq Ha Hw) as (p & Hs & Ha' & Hw'). exists p. split; [done|].
    split; [done|]. split; [done|]. by left.
  - destruct (send_running s Ha Hr) as (Hs & Ha' & Hr'). eexists. split; [done|].
    split; [done|]. split; [done|]. by right.
Qed.
(** Sending does not change what the other states are about. *)
Lemma send_good s : good s -> exists s', TftpSend s = Some s' /\ good s'.
Proof.
  intros [Hc H]. destruct (send_some s (c_rrq s Hc)) as (p & Hp & _). destruct H as [H|H].
  - destruct (send_alive s (c_rrq s Hc) H) as (p' & Hp' & Ha). exists (sent s p').
    split; [done|]. split; [by apply common_sent|by left].
  - exists (sent s p). split; [done|]. split; [by apply common_sent|by right].
Qed.
Lemma timeout_good s : common s -> alive s \/ done_ s \/ over s ->
  exists s', TftpTimeout getenv eth_try_another s = Some s' /\ good s'.
Proof.
  intros Hc H. unfold TftpTimeout. set (t := set_counts (cl s) _ _).
  assert (common (with_cl s t)) as Hct by by destruct Hc.
  case_if.
  { eexists. split; [done|]. apply restart_good. split; [done|].
    destruct H as [H|[H|H]]; [left|right; left|right; right; left]; exact H. }
  cbn [nl with_nl with_cl].
  assert (good (with_nl (with_cl s t) (NetSetTimeout (nl s) (TftpTimeoutMSecs t) TftpTimeout_))) as Hg'.
  { unfold NetSetTimeout. split; [apply (common_nl (with_cl s t)); [done|by case_if]|].
    destruct H as [H|[H|H]]; [left|right; left|right; right; left]; case_if; exact H. }
  case_if; [|by eexists]. by apply send_good.
Qed.
Lemma run_timer_good s : good s -> exists s', run_timer getenv eth_try_another s = Some s' /\ good s'.
Proof.
  intros Hg. unfold run_timer. destruct (timeHandler (nl s)) as [x|] eqn:Ex; [|by eexists].
  case_if; [|by eexists]. cbn zeta.
  set (s1 := with_nl s (set_timer (nl s) None _ _)). destruct Hg as [Hc H].
  assert (common s1) as Hc1 by by apply common_nl. destruct x.
  - apply timeout_good; [done|].
    destruct H as [H|[H|[H|(_ & _ & H)]]]; [left; exact H|right; left; exact H|right; right; exact H|done].
  - eexists. split; [done|]. split; [by apply (common_nl s1)|]. right; right; left. by left.
  - eexists. split; [done|]. split; [by apply (common_nl s1)|]. right; right; left. by right.
  - exists s1. split; [done|]. split; [done|].
    destruct H as [H|[H|[H|(H1 & H2 & _)]]]; [left|right; left|right; right; left|right; right; right]; done.
Qed.

(** *** Packets *)
Lemma be16_app x l rest : 0 <= x < 0x10000 -> be16 ((htons_bytes x ++ l) ++ rest) 0 = Some x.
Proof. rewrite <- app_assoc. apply htons_bytes_be. Qed.
Lemma stored_write s k j p : 1 <= k <= n -> 1 <= j <= n ->
  p = load + (k - 1) * B -> stored s j \/ j = k ->
  bytes_at (mwrite (ram s) p (chunk F B k)) (load + (j - 1) * B) (chunk F B j).
Proof.
  intros Hk Hj -> H. destruct (decide (j = k)) as [->|Hne]; [by apply bytes_at_mwrite|].
  destruct H as [H|]; [|done]. apply bytes_at_mwrite_disjoint; [|exact H].
  destruct (chunk_len F B ltac:(lia) k Hk) as (Hlk & _). destruct (chunk_len F B ltac:(lia) j Hj) as (Hlj & _).
  destruct (decide (j < k)).
  - left. assert (j * B <= (k - 1) * B) by (apply Z.mul_le_mono_nonneg_r; lia). lia.
  - right. assert (k * B <= (j - 1) * B) by (apply Z.mul_le_mono_nonneg_r; lia). lia.
Qed.
(** Storing block [k]. *)
Lemma store_block_ok s k rest : common s -> TftpBlkSize (cl s) = B -> TftpBlockWrapOffset (cl s) = 0 ->
  1 <= k <= n ->
  exists s', store_block s (s32 (k - 1)) (chunk F B k ++ rest) (zlen (chunk F B k)) = Some s'
    /\ cl s' = cl s /\ udp_out s' = udp_out s /\ common s'
    /\ net_state (nl s') = net_state (nl s)
    /\ (forall j, 1 <= j <= n -> stored s j \/ j = k -> stored s' j)
    /\ (k = n -> NetBootFileXferSize (nl s') = zlen F).
Proof.
  intros Hc Hb Ho Hk. destruct Hc as [Hl Ha Hf Hx Hq].
  destruct (chunk_len F B ltac:(lia) k Hk) as (Hlen & Hend & Hlast).
  unfold store_block. rewrite Hb, Ho, Hl, (s32_small (k - 1)) by lia. rewrite u32_s32_add, Z.add_0_r.
  assert (0 <= (k - 1) * B) by (apply Z.mul_nonneg_nonneg; lia).
  rewrite (u32_small ((k - 1) * B)) by lia.
  rewrite (u32_small ((k - 1) * B + zlen (chunk F B k))) by lia.
  case_if; [rewrite length_app in E; lia|]. cbn [mbind option_bind].
  rewrite Nat2Z.id, take_app_length.
  assert (copy_in (ram s) (u32 (load + (k - 1) * B)) (chunk F B k)
    = Some (mwrite (ram s) (load + (k - 1) * B) (chunk F B k))) as ->.
  { destruct (decide (chunk F B k = [])) as [->|Hne]; [done|].
    assert (0 < zlen (chunk F B k)) by (destruct (chunk F B k); [done|cbn; lia]).
    rewrite u32_small by lia. apply copy_in_ok; [|lia|lia|by apply chunk_bytes].
    intros i Hi. rewrite <- Z.add_assoc. apply Ha. lia. }
  cbn [mbind option_bind nl with_ram]. set (m := mwrite _ _ _).
  assert (common (with_ram s m)) as Hcm.
  { split; cbn; try done; [by apply allocated_mwrite|].
    intros a Hna. unfold m. rewrite lookup_mwrite_ne by lia. by apply Hf. }
  assert (forall j, 1 <= j <= n -> stored s j \/ j = k -> bytes_at m (load + (j - 1) * B) (chunk F B j)) as Hst
    by (intros j Hj; apply stored_write; [done|done|lia]).
  eexists. split; [done|]. case_if; (split_and!; [done|done| |done|exact Hst|]).
  - destruct Hcm. split; [done..|cbn; lia|done].
  - intros ->. cbn. lia.
  - done.
  - intros ->. cbn in *. lia.
Qed.

(** A block that was acknowledged stands for all the blocks up to it. *)
Lemma all_stored s b : acks_ok s -> ackable s b -> forall j, 1 <= j <= b -> stored s j.
Proof.
  intros Ha Hb j Hj. assert (0 <= b) as H0 by lia. revert Hb j Hj. pattern b.
  apply natlike_ind; [lia| |done]. intros x Hx IH [?|(H1 & H2 & H3)] j Hj; [lia|].
  destruct (decide (j = Z.succ x)) as [->|]; [done|]. destruct H3 as [|H3]; [lia|].
  apply IH; [|lia]. replace x with (Z.succ x - 1) by lia. apply Ha; [lia|done].
Qed.
Lemma ackable_mono s s' b : udp_out s' = udp_out s -> (forall j, 1 <= j <= n -> stored s j -> stored s' j) ->
  ackable s b -> ackable s' b.
Proof.
  intros Ho Hst [?|(H1 & H2 & H3)]; [by left|right]. split_and!; [lia..|by apply Hst|].
  unfold acked in *. by rewrite Ho.
Qed.
Lemma update_nonzero t : TftpBlock t <> 0 -> update_block_number t = t.
Proof. intros H. unfold update_block_number. case_if; [lia|done]. Qed.
Lemma common_cl s t : common s -> TftpTimeoutMSecs t = TftpTimeoutMSecs (cl s) ->
  TftpBlkSizeOption t = TftpBlkSizeOption (cl s) -> common (with_cl s t).
Proof.
  intros [? ? ? ? Hq] H1 H2. split; [done..|]. unfold rrq_ok in *. cbn [cl with_cl]. by rewrite H1, H2.
Qed.

Lemma store_send s k rest : common s -> net_state (nl s) = NETLOOP_CONTINUE -> acks_ok s ->
  TftpState (cl s) = STATE_DATA -> TftpBlkSize (cl s) = B -> TftpBlockWrapOffset (cl s) = 0 ->
  TftpBlock (cl s) = k -> TftpRemotePort (cl s) = port ->
  1 <= k <= n -> k = 1 \/ acked s (k - 1) ->
  exists s', accept_data s (htons_bytes k ++ chunk F B k ++ rest) (zlen (chunk F B k)) = Some s' /\ good s'.
Proof.
  intros Hc0 Hn00 Ha0 Hs0 Hb0 Ho0 Hk0 Hp0 Hkn Hprev. unfold accept_data.
  change (drop 2 (htons_bytes k ++ ?l)) with l. cbn [TftpTimeoutMSecs set_counts set_blocks TftpBlock].
  set (t := set_counts _ _ _). set (s1 := with_nl _ _). rewrite Hk0.
  assert (common s1) as Hc.
  { apply (common_nl (with_cl s t)); [by apply common_cl|]. unfold NetSetTimeout. by case_if. }
  assert (net_state (nl s1) = NETLOOP_CONTINUE) as Hn0 by (cbn; unfold NetSetTimeout; by case_if).
  assert (TftpBlock (cl s1) = k /\ TftpLastBlock (cl s1) = k) as [Hk Hlast] by done.
  destruct (store_block_ok s1 k rest Hc Hb0 Ho0 Hkn) as (s2 & -> & Hcl & Hout & Hc1 & Hn1 & Hst & Hx).
  cbn [mbind option_bind].
  assert (acks_ok s2) as Ha1.
  { intros j Hj Hack. apply (ackable_mono s1); [done|auto|]. apply Ha0; [done|].
    unfold acked in Hack. by rewrite Hout in Hack. }
  assert (running s2) as Hr1.
  { unfold running. rewrite Hcl, Hlast, Hk. split_and!; [right; split_and!; auto|done|].
    right. split_and!; [lia..|auto|]. unfold acked in *. by rewrite Hout. }
  destruct (send_running s2 Ha1 Hr1) as (-> & Ha2 & Hr2). cbn [mbind option_bind].
  set (s3 := sent s2 _) in *. eexists. split; [done|]. assert (common s3) as Hc2 by by apply common_sent.
  assert (TftpBlkSize (cl s3) = B) as -> by apply Hr2. case_if.
  - destruct (chunk_len F B ltac:(lia) k Hkn) as (_ & _ & Hshort).
    assert (k = n) as -> by (apply Hshort; lia). split.
    { unfold tftp_complete. apply common_nl; [by destruct Hc2|done]. }
    right; left. split_and!; [done| |by apply Hx].
    apply (chunks_file F B); [lia|]. intros j Hj. apply (all_stored s3 n Ha2); [|done].
    replace n with (TftpBlock (cl s3)); [apply Hr2|]. transitivity (TftpBlock (cl s1)); [|done].
    exact (f_equal TftpBlock Hcl).
  - split; [done|]. left. split_and!; [cbn; congruence|done|]. right. split; [done|]. cbn. by rewrite Hcl.
Qed.

Lemma data_good s k rest : common s -> alive s -> 1 <= k <= n -> k = 1 /\ opts = false \/ acked s (k - 1) ->
  exists s', handle_data getenv eth_try_another s (htons_bytes k ++ chunk F B k ++ rest) port (2 + zlen (chunk F B k))
    = Some s' /\ good s'.
Proof.
  intros Hc (Hn0 & Ha & Hal) Hk Hprev. unfold handle_data. case_if; [lia|].
  rewrite (htons_bytes_be k) by lia. cbn [mbind option_bind].
  replace (2 + zlen (chunk F B k) - 2) with (zlen (chunk F B k)) by lia.
  rewrite update_nonzero by (cbn; lia).
  set (t1 := set_blocks (cl s) k _ _ _).
  assert (forall t, TftpTimeoutMSecs t = TftpTimeoutMSecs (cl s) -> TftpBlkSizeOption t = TftpBlkSizeOption (cl s) ->
    common (with_cl s t)) as Hct by (intros; by apply common_cl).
  assert (k = 1 \/ acked s (k - 1)) as Hprev' by tauto.
  assert (TftpState t1 = TftpState (cl s)) as -> by done.
  destruct Hal as [[(Hs & Hb & Hno) _]|[(Hs & Hb & Hblk) Hp]].
  - (* the first answer *)
    assert (k = 1 /\ opts = false) as [-> Hop].
    { destruct Hprev as [|Hack]; [done|]. by destruct (Hno (k - 1) ltac:(lia)). }
    rewrite Hs. cbn [orb negb andb Z.eqb Pos.eqb STATE_SEND_RRQ STATE_OACK STATE_RECV_WRQ].
    cbn [TftpBlock new_transfer set_peer set_blocks t1 TftpLastBlock].
    change (1 =? 1) with true. change (1 =? 0) with false. cbn [negb andb]. cbn iota.
    apply store_send; try done; [by apply Hct|cbn; rewrite Hb; symmetry; by apply Hplain].
  - destruct Hs as [Hs|(Hs & Ho & Hlast)]; rewrite Hs;
      cbn [orb negb andb Z.eqb Pos.eqb STATE_SEND_RRQ STATE_OACK STATE_RECV_WRQ STATE_DATA].
    + (* the first block after an agreement *)
      cbn [TftpBlock new_transfer set_peer set_blocks t1 TftpLastBlock].
      destruct (Z.eqb_spec k 1) as [->|Hk1]; cbn [negb andb].
      * change (1 =? 0) with false. cbn iota.
        apply store_send; try done; by apply Hct.
      * eexists. split; [done|]. set (s1 := with_cl s _). split.
        { apply (common_nl s1); [by apply common_cl|]. by apply start_again_ok. }
        right; right. apply (restart_over s1). by left.
    + cbn [TftpBlock new_transfer set_peer set_blocks t1 TftpLastBlock].
      destruct (Z.eqb_spec k (TftpLastBlock (cl s))) as [Hkl|Hkl].
      * eexists. split; [done|]. split; [by apply common_cl|]. left. split_and!; [done|done|].
        right. split; [|done]. split_and!; [right; split_and!; done|done|]. right.
        change (1 <= k <= n /\ stored s k /\ (k = 1 \/ acked s (k - 1))). split_and!; [lia..| |done].
        destruct Hlast as [|Hlast]; [lia|]. by rewrite Hkl.
      * apply store_send; try done; by apply Hct.
Qed.

Lemma oack_good s o rest : common s -> alive s -> opts = true -> negotiates o ->
  exists s', handle_oack s (o ++ rest) port (zlen o) = Some s' /\ good s'.
Proof.
  intros Hc (Hn0 & Ha & Hal) Ho Hneg. unfold handle_oack. rewrite Nat2Z.id, Hneg. cbn [mbind option_bind].
  set (s1 := with_cl s (set_blksize _ B)).
  assert (running s1) as Hr.
  { split; [by left|]. split; [done|]. destruct Hal as [[_ Hb]|[(_ & _ & Hb) _]]; [by left|exact Hb]. }
  destruct (send_running s1 Ha Hr) as (-> & Ha1 & Hr1). eexists. split; [done|].
  split; [by apply common_sent, (common_cl s)|]. left. split; [done|]. split; [done|]. right. by split.
Qed.
Lemma error_good s c msg : common s -> net_state (nl s) = NETLOOP_CONTINUE ->
  exists s', handle_error getenv eth_try_another s (htons_bytes c ++ msg) = Some s' /\ good s'.
Proof.
  intros Hc Hn0. unfold handle_error. cbn [be16 htons_bytes app lookup list_lookup mbind option_bind].
  eexists. split; [done|]. case_if.
  - split; [by apply common_nl|]. right; right; left. by right.
  - split; [apply common_nl; [done|by apply start_again_ok]|]. right; right. apply restart_over. by left.
Qed.
Lemma handler_good s pkt dest sip src len : common s -> alive s ->
  delivered s (Some (pkt, dest, sip, src, len)) ->
  exists s', TftpHandler getenv eth_try_another s pkt dest sip src len = Some s' /\ good s'.
Proof.
  intros Hc Hal [(p & rest & Hp & -> & -> & -> & ->)|[Hlen Hstray]]; unfold TftpHandler.
  - rewrite Z.eqb_refl. cbn [negb].
    assert (negb (TftpState (cl s) =? STATE_SEND_RRQ) && negb (port =? TftpRemotePort (cl s)) = false) as ->.
    { destruct Hal as (_ & _ & [[(-> & _) _]|[_ ->]]); [done|]. rewrite Z.eqb_refl. apply andb_false_r. }
    cbn [andb].
    destruct Hp as [k Hk Hprev|o Ho Hneg|c msg].
    + case_if; [cbn in *; lia|]. rewrite be16_app by done. cbn [mbind option_bind].
      change (TFTP_DATA =? TFTP_OACK) with false. change (TFTP_DATA =? TFTP_DATA) with true. cbn iota.
      rewrite <- !app_assoc.
      change (drop 2 (htons_bytes TFTP_DATA ++ ?l)) with l.
      replace (zlen (htons_bytes TFTP_DATA ++ htons_bytes k ++ chunk F B k) - 2) with (2 + zlen (chunk F B k))
        by (rewrite !length_app; cbn; lia).
      by apply data_good.
    + case_if; [cbn in *; lia|]. rewrite be16_app by done. cbn [mbind option_bind].
      change (TFTP_OACK =? TFTP_OACK) with true. cbn iota. rewrite <- app_assoc.
      change (drop 2 (htons_bytes TFTP_OACK ++ ?l)) with l.
      replace (zlen (htons_bytes TFTP_OACK ++ o) - 2) with (zlen o) by (rewrite length_app; cbn; lia).
      by apply oack_good.
    + case_if; [cbn in *; lia|]. rewrite be16_app by done. cbn [mbind option_bind].
      change (TFTP_ERROR =? TFTP_OACK) with false. change (TFTP_ERROR =? TFTP_DATA) with false.
      change (TFTP_ERROR =? TFTP_ERROR) with true. cbn iota. rewrite <- !app_assoc.
      change (drop 2 (htons_bytes TFTP_ERROR ++ ?l)) with l. apply error_good; [done|apply Hal].
  - assert (good s) as Hg by (split; [done|by left]).
    case_if; [by eexists|]. case_if; [by eexists|]. case_if; [by eexists|].
    destruct Hstray as [?|[[H1 H2]|[?|(op & Hop & Hno)]]]; [lia| |lia|].
    + exfalso. destruct Hal as (_ & _ & [[(Hs & _) _]|[([Hs|(Hs & _)] & _) _]]); rewrite Hs in *; cbn in *; lia.
    + rewrite Hop. cbn [mbind option_bind]. exists s. split; [|done].
      repeat (case_if; [exfalso; apply Hno, list_elem_of_In; cbn; lia|]). done.
Qed.

Lemma delivered_nl s nt rx : delivered s rx -> delivered (with_nl s nt) rx.
Proof.
  destruct rx as [[[[[pkt dest] sip] src] len]|]; [|done].
  intros [(p & rest & Hp & H)|H]; [left; exists p, rest; split; [|done]|by right].
  destruct Hp; by constructor.
Qed.
Lemma body_good s e : good s -> net_state (nl s) = NETLOOP_CONTINUE -> delivered s (ev_rx e) ->
  exists s', body s e = Some s' /\ good s'.
Proof.
  intros [Hc Hg] Hn0 Hd. unfold loop_body. set (s1 := with_nl s (set_now (nl s) (ev_now e))).
  assert (common s1) as Hc1 by by apply common_nl.
  assert (alive s1 \/ dead s1) as Hal.
  { destruct Hg as [H|[H|[H|H]]]; [by left| | |by right]; exfalso.
    - destruct H as [H _]. congruence.
    - destruct H; congruence. }
  assert (exists s2, match ev_rx e with Some rx => receive getenv eth_try_another s1 rx | None => Some s1 end = Some s2
    /\ good s2) as (s2 & -> & Hg2).
  { assert (good s1) as Hg1 by (split; [done|tauto]).
    destruct (ev_rx e) as [[[[[pkt dest] sip] src] len]|]; [|by eexists].
    cbn [receive]. destruct (udp_packet_handler (nl s1)) eqn:Eh; [by eexists| |by eexists].
    destruct Hal as [Hal|(_ & H & _)]; [|congruence].
    by apply handler_good; [| |apply delivered_nl]. }
  cbn [mbind option_bind]. apply run_timer_good. case_if; [by apply restart_good|done].
Qed.
Lemma start_good s0 s : Start s0 = Some s ->
  net_state (nl s0) = NETLOOP_CONTINUE -> NetBootFileXferSize (nl s0) = 0 ->
  udp_out s0 = [] -> ram s0 = m0 -> load_addr s0 = load -> good s.
Proof.
  intros Hs Hn0 Hx Ho Hm Hl. unfold TftpStart in Hs.
  destruct (boot_name BootFile NetOurIP NetServerIP (cl s0)) as [[remote name]|]; [|done].
  cbn [mbind option_bind] in Hs. set (s1 := mkst (mktftp _ _ _ _ _ _ _ _ _ _ _ _ _ _ _ _) _ _ _ _) in Hs.
  assert (rrq_ok (cl s1)) as Hq.
  { by apply (send_rrq s1 s). }
  destruct (send_some s1 Hq) as (p & Hp & Hnk). rewrite Hp in Hs. injection Hs as <-.
  assert (common s1) as Hc1.
  { split; cbn; [done|by rewrite Hm|by rewrite Hm| |done]. unfold NetSetTimeout. case_if; cbn; rewrite Hx; lia. }
  assert (forall k, ~ acked (sent s1 p) k) as Hno.
  { intros k [(ip & pt & our & Hin)|Hk]%sent_acked; [|by apply (Hnk eq_refl k)].
    cbn in Hin. rewrite Ho in Hin. by apply not_elem_of_nil in Hin. }
  split; [by apply common_sent|]. left. split.
  { cbn. unfold NetSetTimeout. by case_if. }
  split; [intros k _ Hk; by destruct (Hno k)|]. left. split; [|done]. split; [done|]. split; [done|]. auto.
Qed.
Lemma session_good s : session s -> good s.
Proof.
  induction 1 as [s0 s Hs|s e s' Hs IH Hn0 Hd Hb]; [by eapply start_good|].
  destruct (body_good s e IH Hn0 Hd) as (s'' & Hb' & Hg). by simplify_eq.
Qed.

(** C14: A file loaded with TFTP is the file of the server.  Whatever the network loses, repeats
    and reorders, and whatever stray packets and timeouts there are in between: when the client
    reports success, the memory from [load_addr] on holds the file and [NetBootFileXferSize] is
    its size; no byte outside of this area changes at any time; and no packet that can arrive
    makes the client leave its memory, its buffers or its program.  The file has fewer than
    65536 blocks. *)
Theorem tftp_safe s (Hs : session s) :
  (net_state (nl s) = NETLOOP_SUCCESS ->
     bytes_at (ram s) load F /\ NetBootFileXferSize (nl s) = zlen F)
  /\ (forall a, ~ (load <= a < load + zlen F) -> ram s !! a = m0 !! a)
  /\ (net_state (nl s) = NETLOOP_CONTINUE -> forall e, delivered s (ev_rx e) ->
       is_Some (body s e)).
Proof.
  destruct (session_good s Hs) as [Hc Hg]. split; [|split].
  - intros Hok. destruct Hg as [[H _]|[(_ & H)|[[H|H]|[H _]]]]; congruence || done.
  - apply (c_frame s Hc).
  - intros Hn0 e Hd. destruct (body_good s e) as (s' & H & _); [by split|done|done|]. by exists s'.
Qed.
End session.

(** ** A transfer without losses *)
Section in_order.
Context (getenv : list Z -> option (list Z)) (BootFile : list Z) (NetOurIP NetServerIP : Z).
Context (eth_try_another : bool -> bool -> bool).
Context (F : list Z) (B : Z) (port sip : Z) (rest : list Z) (m0 : mem) (load our msecs : Z).
Context (HF : Forall byte F) (HB : 0 < B < 0x10000) (Hload : 0 <= load /\ load + zlen F < 0x100000000).
Context (Halloc : allocated m0 load (length F)) (Hms : msecs <> 0).

Abbreviation n := (nblocks F B).
Abbreviation body := (loop_body getenv eth_try_another).
Abbreviation delta := (u32 (msecs * CONFIG_SYS_HZ) / 1000).

(** The packet with block [k], at time [t]; numbers wrap around. *)
Definition data_event (t k : Z) : event :=
  let p := htons_bytes TFTP_DATA ++ htons_bytes k ++ chunk F B k in
  mkevent (Some (p ++ rest, our, sip, port, zlen p)) t false.

(** After block [k]: what is in memory is the file so far. *)
Record progress (t k : Z) (s : state) : Prop := mkprogress {
  p_load : load_addr s = load;
  p_ram : ram s = mwrite m0 load (take (Z.to_nat (k * B)) F);
  p_size : NetBootFileXferSize (nl s) = Z.min (k * B) (zlen F);
  p_state : net_state (nl s) = NETLOOP_CONTINUE;
  p_handler : udp_packet_handler (nl s) = TftpHandler_;
  p_timer : timeHandler (nl s) = Some TftpTimeout_ /\ timeStart (nl s) = u32 t /\ timeDelta (nl s) = delta;
  p_cfg : TftpOurPort (cl s) = our /\ TftpBlkSize (cl s) = B /\ TftpTimeoutMSecs (cl s) = msecs;
  p_peer : (k = 0 /\ (TftpState (cl s) = STATE_SEND_RRQ \/ TftpState (cl s) = STATE_OACK
                     /\ TftpRemotePort (cl s) = port))
           \/ (0 < k /\ TftpState (cl s) = STATE_DATA /\ TftpRemotePort (cl s) = port
              /\ TftpLastBlock (cl s) = u16 k
              /\ TftpBlockWrapOffset (cl s) = u32 (B * 0x10000 * (k / 0x10000))) }.

Lemma u32_add_u32 x y : u32 (s32 x + u32 y) = u32 (x + y).
Proof. rewrite u32_s32_add. unfold u32. by rewrite Zplus_mod_idemp_r. Qed.
(** The place of a block from its 16-bit number and the count of wrap-arounds. *)
Lemma block_offset k : 0 <= k -> k * B < 0x100000000 ->
  let seq := u16 (k + 1) in
  let wrap := u32 (B * 0x10000 * (k / 0x10000)) in
  let wrap' := if seq =? 0 then u32 (wrap + u32 (B * TFTP_SEQUENCE_SIZE)) else wrap in
  wrap' = u32 (B * 0x10000 * ((k + 1) / 0x10000))
  /\ u32 (s32 (s32 (seq - 1) * B) + wrap') = k * B.
Proof.
  intros Hk Hkb. cbn zeta. change TFTP_SEQUENCE_SIZE with 0x10000. unfold u16.
  assert (0 <= (k + 1) mod 0x10000 < 0x10000) as Hm by (apply Z.mod_pos_bound; lia).
  rewrite (s32_small ((k + 1) mod 0x10000 - 1)) by lia.
  assert ((if (k + 1) mod 0x10000 =? 0 then u32 (u32 (B * 0x10000 * (k / 0x10000)) + u32 (B * 0x10000))
           else u32 (B * 0x10000 * (k / 0x10000))) = u32 (B * 0x10000 * ((k + 1) / 0x10000))) as ->.
  { case_if.
    - assert ((k + 1) / 0x10000 = k / 0x10000 + 1) as -> by zdm. unfold u32.
      rewrite <- Zplus_mod. f_equal. lia.
    - assert ((k + 1) / 0x10000 = k / 0x10000) as -> by zdm. done. }
  split; [done|]. rewrite u32_add_u32.
  assert (((k + 1) mod 0x10000 - 1) * B + B * 0x10000 * ((k + 1) / 0x10000) = k * B) as ->.
  { assert (k = 0x10000 * ((k + 1) / 0x10000) + (k + 1) mod 0x10000 - 1) as Heq
      by (pose proof (Z.div_mod (k + 1) 0x10000); lia).
    rewrite Heq at 3. ring. }
  apply u32_small. lia.
Qed.

Lemma timer_in_time s t : timeStart (nl s) = u32 t -> timeDelta (nl s) = delta -> now (nl s) = t ->
  run_timer getenv eth_try_another s = Some s.
Proof.
  intros Hs Hd Hn. unfold run_timer. destruct (timeHandler (nl s)); [|done].
  unfold get_timer. rewrite Hs, Hd, Hn.
  assert (u32 (t - u32 t) = 0) as -> by (unfold u32; rewrite Zminus_mod_idemp_r, Z.sub_diag; done).
  case_if; [|done]. exfalso. assert (0 <= delta) by (unfold u32; zdm). lia.
Qed.

(** The loop around a state that a handler changed. *)
Definition same_loop (s s' : state) : Prop :=
  load_addr s' = load_addr s /\ cl s' = cl s /\ net_state (nl s') = net_state (nl s)
  /\ udp_packet_handler (nl s') = udp_packet_handler (nl s) /\ timeHandler (nl s') = timeHandler (nl s)
  /\ timeStart (nl s') = timeStart (nl s) /\ timeDelta (nl s') = timeDelta (nl s) /\ now (nl s') = now (nl s).

Lemma store_next s k : load_addr s = load -> ram s = mwrite m0 load (take (Z.to_nat (k * B)) F) ->
  NetBootFileXferSize (nl s) = Z.min (k * B) (zlen F) -> TftpBlkSize (cl s) = B ->
  TftpBlockWrapOffset (cl s) = u32 (B * 0x10000 * ((k + 1) / 0x10000)) -> 0 <= k < n ->
  exists s', store_block s (s32 (u16 (k + 1) - 1)) (chunk F B (k + 1) ++ rest) (zlen (chunk F B (k + 1))) = Some s'
    /\ same_loop s s' /\ ram s' = mwrite m0 load (take (Z.to_nat ((k + 1) * B)) F)
    /\ NetBootFileXferSize (nl s') = Z.min ((k + 1) * B) (zlen F).
Proof.
  intros Hl Hm Hx Hb Ho Hk. destruct (chunk_len F B ltac:(lia) (k + 1) ltac:(lia)) as (Hlen & Hend & _).
  replace (k + 1 - 1) with k in * by lia. assert (0 <= k * B) by (apply Z.mul_nonneg_nonneg; lia).
  destruct (block_offset k) as [Hw Hoff]; [lia..|]. cbv zeta in Hw, Hoff. rewrite Hw in Hoff.
  unfold store_block. rewrite Hb, Ho, Hl, Hoff.
  rewrite (u32_small (k * B + _)) by lia. case_if; [rewrite length_app in E; lia|].
  cbn [mbind option_bind]. rewrite Nat2Z.id, take_app_length.
  assert (copy_in (ram s) (u32 (load + k * B)) (chunk F B (k + 1))
    = Some (mwrite m0 load (take (Z.to_nat ((k + 1) * B)) F))) as ->.
  { rewrite <- (chunk_snoc F B ltac:(lia) (k + 1)) by lia. replace (k + 1 - 1) with k by lia.
    rewrite mwrite_app, <- Hm. rewrite length_take_le by lia. rewrite Z2Nat.id by lia.
    destruct (decide (chunk F B (k + 1) = [])) as [->|Hne]; [done|].
    assert (0 < zlen (chunk F B (k + 1))) by (destruct (chunk F B (k + 1)); [done|cbn; lia]).
    rewrite u32_small by lia. apply copy_in_ok; [|lia|lia|by apply chunk_bytes].
    rewrite Hm. apply allocated_mwrite. intros i Hi. rewrite <- Z.add_assoc. apply Halloc. lia. }
  cbn [mbind option_bind nl with_ram]. rewrite Hx. eexists. split; [done|].
  case_if; (split; [by repeat split|]); (split; [done|]); cbn; rewrite ?Hx; lia.
Qed.

(** Storing, acknowledging and, behind a short block, completing. *)
Definition after (t k : Z) (s : state) : Prop :=
  if k =? n then net_state (nl s) = NETLOOP_SUCCESS /\ ram s = mwrite m0 load F
                 /\ NetBootFileXferSize (nl s) = zlen F
  else progress t k s.
Lemma set_timeout_ok nt t : now nt = t ->
  NetSetTimeout nt msecs TftpTimeout_ = set_timer nt (Some TftpTimeout_) (u32 t) delta.
Proof. clear -Hms. intros <-. unfold NetSetTimeout, get_timer. case_if; [lia|]. by rewrite Z.sub_0_r. Qed.
Lemma accept_ok s t k : load_addr s = load -> ram s = mwrite m0 load (take (Z.to_nat (k * B)) F) ->
  NetBootFileXferSize (nl s) = Z.min (k * B) (zlen F) -> net_state (nl s) = NETLOOP_CONTINUE ->
  udp_packet_handler (nl s) = TftpHandler_ -> now (nl s) = t ->
  TftpOurPort (cl s) = our -> TftpBlkSize (cl s) = B -> TftpTimeoutMSecs (cl s) = msecs ->
  TftpState (cl s) = STATE_DATA -> TftpRemotePort (cl s) = port -> TftpBlock (cl s) = u16 (k + 1) ->
  TftpBlockWrapOffset (cl s) = u32 (B * 0x10000 * ((k + 1) / 0x10000)) -> 0 <= k < n ->
  exists s', accept_data s (htons_bytes (k + 1) ++ chunk F B (k + 1) ++ rest) (zlen (chunk F B (k + 1))) = Some s'
    /\ run_timer getenv eth_try_another s' = Some s' /\ after t (k + 1) s'.
Proof.
  intros Hl Hm Hx Hst Hh Hnow Ho Hb Hms' Hs Hp Hbk Hoff Hk. unfold accept_data.
  change (drop 2 (htons_bytes (k + 1) ++ ?l)) with l. cbn [TftpTimeoutMSecs set_counts set_blocks TftpBlock].
  rewrite Hms', (set_timeout_ok _ t Hnow), Hbk. set (s1 := with_nl _ _).
  destruct (store_next s1 k) as (s2 & -> & (E1 & E2 & E3 & E4 & E5 & E6 & E7 & E8) & Hram & Hsz); try done.
  cbn [mbind option_bind].
  assert (TftpState (cl s2) = STATE_DATA) as Hs2 by (rewrite E2; exact Hs).
  rewrite (send_ack s2) by by left. cbn [mbind option_bind]. set (s3 := sent s2 _).
  eexists. split; [done|].
  destruct (chunk_len F B ltac:(lia) (k + 1) ltac:(lia)) as (Hlen & Hend & Hshort).
  assert (TftpBlkSize (cl s3) = B) as -> by (cbn; rewrite E2; exact Hb). split.
  { apply (timer_in_time _ t); case_if; [exact E6|exact E6|exact E7|exact E7|exact (eq_trans E8 Hnow)..]. }
  unfold after. destruct (Z.eqb_spec (k + 1) n) as [Hkn|Hkn].
  - replace (zlen (chunk F B (k + 1)) <? B) with true by lia. split; [done|].
    assert (zlen F < (k + 1) * B) by (rewrite Hkn; unfold nblocks; zdm). cbn. rewrite Hram, Hsz.
    split; [|lia]. by rewrite take_ge by lia.
  - replace (zlen (chunk F B (k + 1)) <? B) with false by lia.
    split.
    + exact (eq_trans E1 Hl).
    + exact Hram.
    + exact Hsz.
    + exact (eq_trans E3 Hst).
    + exact (eq_trans E4 Hh).
    + split_and!; [exact E5|exact E6|exact E7].
    + change (cl s3) with (cl s2). rewrite E2. split_and!; [exact Ho|exact Hb|exact Hms'].
    + right. change (cl s3) with (cl s2). rewrite E2. split_and!; [lia|exact Hs|exact Hp|reflexivity|exact Hoff].
Qed.

Lemma u16_next k : u16 (k + 1) <> u16 k.
Proof. unfold u16. zdm. Qed.

(** One block. *)
Lemma data_step prev t k s : progress prev k s -> 0 <= k < n ->
  exists s', body s (data_event t (k + 1)) = Some s' /\ after t (k + 1) s'.
Proof.
  intros [Hl Hm Hx Hst Hh _ (Ho & Hb & Hmsec) Hpeer] Hk.
  unfold loop_body, data_event. cbn [ev_now ev_rx ev_arp_failed].
  set (s1 := with_nl s (set_now (nl s) t)). set (p := _ ++ _ ++ chunk F B (k + 1)).
  cbn [receive]. change (udp_packet_handler (nl s1)) with (udp_packet_handler (nl s)). rewrite Hh.
  unfold TftpHandler. change (cl s1) with (cl s). rewrite Ho, Z.eqb_refl. cbn [negb].
  assert (negb (TftpState (cl s) =? STATE_SEND_RRQ) && negb (port =? TftpRemotePort (cl s)) = false) as ->.
  { destruct Hpeer as [(_ & [->|[_ ->]])|(_ & _ & -> & _)]; rewrite ?Z.eqb_refl; [done|apply andb_false_r..]. }
  cbn [andb].
  assert (zlen p = 4 + zlen (chunk F B (k + 1))) as Hp by (unfold p; rewrite !length_app; cbn; lia).
  case_if; [lia|].
  assert (be16 (p ++ rest) 0 = Some TFTP_DATA) as -> by (unfold p; by rewrite be16_app).
  cbn [mbind option_bind]. change (TFTP_DATA =? TFTP_OACK) with false. change (TFTP_DATA =? TFTP_DATA) with true.
  cbn iota. unfold p at 1. rewrite <- !app_assoc. change (drop 2 (htons_bytes TFTP_DATA ++ ?l)) with l.
  unfold handle_data. case_if; [lia|]. rewrite Hp, htons_bytes_u16. cbn [mbind option_bind].
  replace (4 + zlen (chunk F B (k + 1)) - 2 - 2) with (zlen (chunk F B (k + 1))) by lia.
  set (t1 := update_block_number _).
  assert (TftpState t1 = TftpState (cl s)) as -> by (unfold t1, update_block_number; by case_if).
  change (cl s1) with (cl s) in t1.
  assert (TftpTimeoutMSecs t1 = msecs /\ TftpOurPort t1 = our /\ TftpBlkSize t1 = B
    /\ TftpBlock t1 = u16 (k + 1) /\ TftpRemotePort t1 = TftpRemotePort (cl s)
    /\ TftpState t1 = TftpState (cl s) /\ TftpLastBlock t1 = TftpLastBlock (cl s)) as (G1 & G2 & G3 & G4 & G5 & G6 & G7)
    by (unfold t1, update_block_number; case_if; cbn; by rewrite ?Hmsec, ?Ho, ?Hb).
  assert (forall f x, f = true -> (if f then new_transfer (set_peer t1 STATE_DATA port) else x)
    = new_transfer (set_peer t1 STATE_DATA port)) as Hf by by intros ? ? ->.
  destruct Hpeer as [(-> & Hs0)|(Hk0 & Hs0 & Hport & Hlast & Hoff)].
  - assert ((TftpState (cl s) =? STATE_SEND_RRQ) || (TftpState (cl s) =? STATE_OACK)
      || (TftpState (cl s) =? STATE_RECV_WRQ) = true) as -> by (by destruct Hs0 as [->|[-> _]]).
    cbn [TftpBlock new_transfer set_peer set_blocks TftpLastBlock]. rewrite G4.
    change (u16 (0 + 1)) with 1. change (1 =? 1) with true. change (1 =? 0) with false. cbn [negb andb]. cbn iota.
    destruct (accept_ok (with_cl s1 (new_transfer (set_peer t1 STATE_DATA port))) t 0) as (s' & Hs' & Htm & Ha);
      try done; [change ((0 + 1) / 0x10000) with 0; by rewrite Z.mul_0_r|].
    exists s'. split; [|exact Ha]. rewrite Hs'. exact Htm.
  - assert ((TftpState (cl s) =? STATE_SEND_RRQ) || (TftpState (cl s) =? STATE_OACK)
      || (TftpState (cl s) =? STATE_RECV_WRQ) = false) as -> by by rewrite Hs0.
    cbn [andb]. rewrite G4, G7, Hlast. pose proof (u16_next k).
    case_if; [lia|].
    destruct (accept_ok (with_cl s1 t1) t k) as (s' & Hs' & Htm & Ha); try done;
      [cbn; congruence..| |].
    { cbn [cl with_cl]. unfold t1, update_block_number. cbn [TftpBlock set_blocks].
      destruct (block_offset k) as [Hw _]; [lia| |]; [|cbv zeta in Hw; rewrite <- Hw; case_if; cbn; by rewrite Hoff, ?Hb].
      destruct (chunk_len F B ltac:(lia) (k + 1) ltac:(lia)) as (_ & Hend & _). replace (k + 1 - 1) with k in Hend by lia. lia. }
    exists s'. split; [|exact Ha]. rewrite Hs'. exact Htm.
Qed.

(** The blocks behind block [k]. *)
Definition data_events (ts : list Z) (k : Z) : list event :=
  zip_with data_event ts (seqZ (k + 1) (n - k)).
Definition loaded (s : state) : Prop :=
  net_state (nl s) = NETLOOP_SUCCESS /\ ram s = mwrite m0 load F /\ NetBootFileXferSize (nl s) = zlen F.
Lemma data_loop ts : forall prev k s, progress prev k s -> 0 <= k < n -> zlen ts = n - k ->
  exists s', loop getenv eth_try_another s (data_events ts k) = Some s' /\ loaded s'.
Proof.
  unfold data_events. induction ts as [|t ts IH]; intros prev k s Hp Hk Hl; [cbn in Hl; lia|].
  cbn [length] in Hl. rewrite seqZ_cons by lia. cbn [zip_with loop].
  rewrite (p_state _ _ _ Hp). destruct (data_step prev t k s Hp Hk) as (s1 & -> & Ha).
  cbn [mbind option_bind]. unfold after in Ha. destruct (Z.eqb_spec (k + 1) n) as [Hkn|Hkn].
  - exists s1. split; [|exact Ha]. destruct ts; [|cbn [length] in Hl; lia]. cbn. done.
  - destruct (IH t (k + 1) s1 Ha) as (s' & Hs' & Hl'); [lia..|]. exists s'. split; [|done].
    rewrite <- Hs'. do 2 f_equal. f_equal; lia.
Qed.

(** The state [TftpStart] leaves, at time [t]. *)
Record started (t : Z) (s : state) : Prop := mkstarted {
  s_load : load_addr s = load;
  s_ram : ram s = m0;
  s_size : NetBootFileXferSize (nl s) = 0;
  s_state : net_state (nl s) = NETLOOP_CONTINUE;
  s_handler : udp_packet_handler (nl s) = TftpHandler_;
  s_timer : timeHandler (nl s) = Some TftpTimeout_ /\ timeStart (nl s) = u32 t /\ timeDelta (nl s) = delta;
  s_cfg : TftpOurPort (cl s) = our /\ TftpTimeoutMSecs (cl s) = msecs;
  s_peer : TftpState (cl s) = STATE_SEND_RRQ /\ TftpBlkSize (cl s) = TFTP_BLOCK_SIZE /\ TftpBlock (cl s) = 0 }.
Lemma started_progress t s : started t s -> B = TFTP_BLOCK_SIZE -> progress t 0 s.
Proof.
  clear. intros [] Hb. split; try done; [by rewrite s_size0; lia|rewrite Hb; tauto|left; tauto].
Qed.
(** The answer to the options. *)
Definition oack_event (t : Z) (o : list Z) : event :=
  let p := htons_bytes TFTP_OACK ++ o in mkevent (Some (p ++ rest, our, sip, port, zlen p)) t false.
Lemma oack_step t t' o s : started t s -> negotiates B o -> u32 (t' - u32 t) <= delta ->
  exists s', body s (oack_event t' o) = Some s' /\ progress t 0 s'.
Proof.
  intros [Hl Hm Hx Hst Hh (Ht & Hts & Htd) (Ho & Hmsec) (Hs & Hb & Hk)] Hneg Hin.
  unfold loop_body, oack_event. cbn [ev_now ev_rx ev_arp_failed]. set (p := _ ++ o). cbn [receive].
  cbn [udp_packet_handler nl with_nl set_now]. rewrite Hh.
  unfold TftpHandler. cbn [cl with_nl]. rewrite Ho, Z.eqb_refl, Hs. cbn [negb andb].
  change (STATE_SEND_RRQ =? STATE_SEND_RRQ) with true. cbn [negb andb].
  assert (zlen p = 2 + zlen o) as Hp by (unfold p; rewrite length_app; cbn; lia). case_if; [lia|].
  assert (be16 (p ++ rest) 0 = Some TFTP_OACK) as -> by (unfold p; by rewrite <- app_assoc).
  cbn [mbind option_bind]. change (TFTP_OACK =? TFTP_OACK) with true. cbn iota.
  unfold p at 1. rewrite <- !app_assoc. change (drop 2 (htons_bytes TFTP_OACK ++ ?l)) with l.
  unfold handle_oack. rewrite Hp. replace (2 + zlen o - 2) with (zlen o) by lia. rewrite Nat2Z.id.
  rewrite Hneg. cbn [mbind option_bind]. rewrite send_ack by by right.
  cbn [mbind option_bind]. eexists. split.
  - unfold run_timer, sent. cbn [timeHandler nl with_cl with_nl set_now timeDelta timeStart].
    rewrite Ht, Hts, Htd. unfold get_timer. cbn [now set_now]. case_if; [lia|]. done.
  - apply mkprogress; try done; [by cbn [nl with_cl with_nl set_now NetBootFileXferSize]; lia|].
    left. split; [done|]. by right.
Qed.
End in_order.

Section transfer.
Context (getenv : list Z -> option (list Z)) (BootFile : list Z) (NetOurIP NetServerIP : Z).
Context (eth_try_another : bool -> bool -> bool).
Abbreviation Start := (TftpStart getenv BootFile NetOurIP NetServerIP).
Abbreviation Loop := (loop getenv eth_try_another).

Lemma start_started s0 s : Start s0 = Some s -> net_state (nl s0) = NETLOOP_CONTINUE ->
  NetBootFileXferSize (nl s0) = 0 ->
  TftpTimeoutMSecs (cl s) <> 0
  /\ started (ram s0) (load_addr s0) (TftpOurPort (cl s)) (TftpTimeoutMSecs (cl s)) (now (nl s0)) s.
Proof.
  intros Hs Hn0 Hx. unfold TftpStart in Hs.
  destruct (boot_name BootFile NetOurIP NetServerIP (cl s0)) as [[remote name]|]; [|done].
  cbn [mbind option_bind] in Hs. set (ms := if _ <? 1000 then 1000 else _) in Hs.
  assert (1000 <= ms) as Hms by (unfold ms; case_if; lia). clearbody ms.
  set (s1 := mkst (mktftp _ _ _ _ _ _ _ _ _ _ _ _ _ _ _ _) _ _ _ _) in Hs.
  destruct (send_some s1 (send_rrq s1 s Hs eq_refl)) as (p & Hp & _). rewrite Hp in Hs. injection Hs as <-.
  split; [cbn; lia|]. unfold s1. rewrite (set_timeout_ok ms ltac:(lia) (nl s0) _ eq_refl). done.
Qed.

(** C24: A file is loaded over a network that loses nothing.  Once [TftpStart] has sent its
    request, the loop runs through the answer to the options, if there is one, and the blocks
    in their order, and ends with success, the file at [load_addr], nothing else changed and
    the size of the file reported.  The file can have any size that fits behind [load_addr];
    the 16-bit block numbers wrap around as often as needed. *)
Theorem tftp_in_order F B port sip rest s0 s o toack ts
  (our := TftpOurPort (cl s)) (load := load_addr s0)
  (Hs : Start s0 = Some s) (Hst : net_state (nl s0) = NETLOOP_CONTINUE)
  (Hx : NetBootFileXferSize (nl s0) = 0)
  (HF : Forall byte F) (HB : 0 < B < 0x10000) (Hload : 0 <= load /\ load + zlen F < 0x100000000)
  (Halloc : allocated (ram s0) load (length F)) (Hts : zlen ts = nblocks F B)
  (Ho : match o with
        | Some o => negotiates B o
            /\ u32 (toack - u32 (now (nl s0))) <= u32 (TftpTimeoutMSecs (cl s) * CONFIG_SYS_HZ) / 1000
        | None => B = TFTP_BLOCK_SIZE end) :
  exists s', Loop s ((match o with Some o => [oack_event port sip rest our toack o] | None => [] end)
                      ++ data_events F B port sip rest our ts 0) = Some s'
    /\ net_state (nl s') = NETLOOP_SUCCESS /\ ram s' = mwrite (ram s0) load F
    /\ NetBootFileXferSize (nl s') = zlen F.
Proof.
  destruct (start_started s0 s Hs Hst Hx) as (Hms & Hstd).
  assert (0 < nblocks F B) by (unfold nblocks; assert (0 <= zlen F / B) by (apply Z.div_pos; lia); lia).
  destruct o as [o|].
  - destruct Ho as [Hneg Hin]. cbn [app loop]. rewrite (s_state _ _ _ _ _ _ Hstd).
    destruct (oack_step getenv eth_try_another F B port sip rest (ram s0) load our _ _ toack o s Hstd Hneg Hin)
      as (s1 & -> & Hp).
    by destruct (data_loop getenv eth_try_another F B port sip rest (ram s0) load our _
      HF HB Hload Halloc Hms ts _ 0 s1 Hp) as (s' & ? & ?); [lia..|exists s'].
  - cbn [app]. pose proof (started_progress F B port (ram s0) load our _ _ s Hstd Ho) as Hp.
    by destruct (data_loop getenv eth_try_another F B port sip rest (ram s0) load our _
      HF HB Hload Halloc Hms ts _ 0 s Hp) as (s' & ? & ?); [lia..|exists s'].
Qed.
End transfer.

(** ** Late packets *)
(** When the numbers have wrapped around, block 65536 carries the number 0.  A second copy of it
    is not stored, but the offset of the wrap-around is added once more: [update_block_number]
    runs before the copy is recognised, and the blocks that follow are stored too high. *)
Lemma late_block_0 s pkt src len : TftpState (cl s) = STATE_DATA -> TftpLastBlock (cl s) = 0 -> 2 <= len ->
  be16 pkt 0 = Some 0 -> forall getenv other, exists s', handle_data getenv other s pkt src len = Some s'
    /\ ram s' = ram s /\ udp_out s' = udp_out s /\ TftpLastBlock (cl s') = 0
    /\ TftpBlockWrapOffset (cl s') = u32 (TftpBlockWrapOffset (cl s) + u32 (TftpBlkSize (cl s) * 0x10000)).
Proof.
  intros Hs Hl Hlen Hb getenv other. unfold handle_data. case_if; [lia|]. rewrite Hb. cbn [mbind option_bind].
  unfold update_block_number. cbn [TftpBlock set_blocks]. change (0 =? 0) with true. cbn iota.
  cbn [TftpState set_counts set_blocks]. rewrite Hs. change (TftpLastBlock (set_counts _ _ _)) with (TftpLastBlock (cl s)).
  rewrite Hl. by eexists.
Qed.
(** A second copy of the answer to the options takes the client back to [STATE_OACK]; the next
    block is not block 1, and the whole transfer starts again. *)
Lemma late_oack s o rest src sip b : TftpState (cl s) = STATE_DATA -> src = TftpRemotePort (cl s) ->
  negotiates b o -> forall getenv other, exists s',
    TftpHandler getenv other s ((htons_bytes TFTP_OACK ++ o) ++ rest) (TftpOurPort (cl s)) sip src (2 + zlen o) = Some s'
    /\ TftpState (cl s') = STATE_OACK /\ nl s' = nl s
    /\ forall pkt len k, 2 <= len -> be16 pkt 0 = Some k -> 2 <= k -> exists s'',
         handle_data getenv other s' pkt src len = Some s'' /\ ram s'' = ram s'
         /\ nl s'' = NetStartAgain getenv other (nl s').
Proof.
  intros Hs -> Hn getenv other. unfold TftpHandler. rewrite Z.eqb_refl, Hs, Z.eqb_refl. cbn [negb andb].
  do 2 (case_if; [lia|]). rewrite <- !app_assoc, htons_bytes_be by (unfold TFTP_OACK; lia). cbn [mbind option_bind].
  rewrite Z.eqb_refl. cbn iota. change (drop 2 (htons_bytes TFTP_OACK ++ ?l)) with l. unfold handle_oack.
  replace (2 + zlen o - 2) with (zlen o) by lia. rewrite Nat2Z.id, Hn. cbn [mbind option_bind].
  rewrite send_ack by by right.
  eexists. split; [reflexivity|]. split; [reflexivity|]. split; [reflexivity|].
  intros pkt len k Hlen Hb Hk. unfold handle_data. case_if; [lia|]. rewrite Hb. cbn [mbind option_bind].
  unfold update_block_number. cbn [TftpBlock set_blocks]. replace (k =? 0) with false by lia.
  cbn. replace (k =? 1) with false by lia. cbn. by eexists.
Qed.

(** ** A file of ten bytes *)
Definition file10 : list Z := codes "0123456789".
Definition ram10 : mem := mwrite ∅ 0x80600000 (replicate 10 0).
Definition idle10 : state :=
  mkst (mktftp TIMEOUT TIMEOUT_COUNT 0 TIMEOUT_COUNT 0 0 0 0 0 0 0 0 0 [] TFTP_BLOCK_SIZE TFTP_MTU_BLOCKSIZE)
    (mknet NETLOOP_CONTINUE 0 false false true 0 dummy_handler None 0 0 1000) ram10 0x80600000 [].
Definition noenv (name : list Z) : option (list Z) := None.
Definition no_other (a b : bool) : bool := true.
Definition begun10 : state :=
  match TftpStart noenv (codes "a.img") 0 0 idle10 with Some s => s | None => idle10 end.
Definition oack8 : list Z := codes "blksize" ++ [0] ++ codes "8" ++ [0].
Definition port10 : Z := TftpOurPort (cl begun10).
Lemma started10 : TftpStart noenv (codes "a.img") 0 0 idle10 = Some begun10.
Proof. by vm_compute. Qed.
Lemma oack8_negotiates : negotiates 8 oack8.
Proof. intros rest z. reflexivity. Qed.
Lemma file10_bytes : Forall byte file10.
Proof. by_computation. Qed.
Lemma ram10_allocated : allocated ram10 0x80600000 (length file10).
Proof. apply (bytes_at_allocated _ _ (replicate 10 0)), bytes_at_mwrite. Qed.

(** The packets of the transfer in blocks of eight bytes, each one round of the loop. *)
Definition round10 (s : state) (e : event) : state :=
  match loop_body noenv no_other s e with Some s' => s' | None => s end.
Definition ev10 (e : event) (s s' : state) : Prop :=
  net_state (nl s) = NETLOOP_CONTINUE
  /\ delivered file10 8 true 1069 s (ev_rx e)
  /\ loop_body noenv no_other s e = Some s'.
Definition e1_10 : event := oack_event 1069 0 [] port10 1010 oack8.
Definition e2_10 : event := data_event file10 8 1069 0 [] port10 1020 1.
Definition e3_10 : event := data_event file10 8 1069 0 [] port10 1030 2.
Definition s1_10 : state := round10 begun10 e1_10.
Definition s2_10 : state := round10 s1_10 e2_10.
(** The first block arrives twice. *)
Definition s2_10' : state := round10 s2_10 e2_10.
Definition s3_10 : state := round10 s2_10' e3_10.
Lemma round1_10 : ev10 e1_10 begun10 s1_10.
Proof.
  split_and!; [by vm_compute| |by vm_compute]. left. exists (htons_bytes TFTP_OACK ++ oack8), [].
  split; [|done]. apply sp_oack; [done|apply oack8_negotiates].
Qed.
Lemma data_10 s k : 1 <= k <= 2 -> TftpOurPort (cl s) = port10 -> acked s (k - 1) ->
  delivered file10 8 true 1069 s (ev_rx (data_event file10 8 1069 0 [] port10 0 k)).
Proof.
  intros Hk Hp Ha. left. eexists _, []. split; [|split; [reflexivity|done]].
  apply sp_data; [|by right]. change (nblocks file10 8) with 2. lia.
Qed.
Lemma acked_10 s k : bool_decide ((0, 1069, port10, ack k) ∈ udp_out s) = true -> acked s k.
Proof. intros H%bool_decide_eq_true. by exists 0, 1069, port10. Qed.
Lemma round2_10 : ev10 e2_10 s1_10 s2_10.
Proof.
  split_and!; [by vm_compute| |by vm_compute]. apply data_10; [lia|by vm_compute|].
  apply acked_10. by vm_compute.
Qed.
Lemma round2_10' : ev10 e2_10 s2_10 s2_10'.
Proof.
  split_and!; [by vm_compute| |by vm_compute]. apply data_10; [lia|by vm_compute|].
  apply acked_10. by vm_compute.
Qed.
Lemma round3_10 : ev10 e3_10 s2_10' s3_10.
Proof.
  split_and!; [by vm_compute| |by vm_compute]. apply data_10; [lia|by vm_compute|].
  apply acked_10. by vm_compute.
Qed.
Lemma session_ev10 e s s' : ev10 e s s' ->
  session noenv (codes "a.img") 0 0 no_other file10 8 true 1069 ram10 0x80600000 s ->
  session noenv (codes "a.img") 0 0 no_other file10 8 true 1069 ram10 0x80600000 s'.
Proof. intros (H1 & H2 & H3) Hs. by eapply session_round. Qed.

Lemma tftp_safe_witness :
  net_state (nl s3_10) = NETLOOP_SUCCESS /\ bytes_at (ram s3_10) 0x80600000 file10.
Proof.
  assert (net_state (nl s3_10) = NETLOOP_SUCCESS) as Hn by by vm_compute. split; [exact Hn|].
  apply (tftp_safe noenv (codes "a.img") 0 0 no_other file10 8 true 1069 ram10 0x80600000); [..|exact Hn].
  - exact file10_bytes.
  - lia.
  - by vm_compute.
  - cbn. lia.
  - done.
  - exact ram10_allocated.
  - apply (session_ev10 _ _ _ round3_10), (session_ev10 _ _ _ round2_10'), (session_ev10 _ _ _ round2_10),
      (session_ev10 _ _ _ round1_10).
    exact (session_start _ _ _ _ _ _ _ _ _ _ _ idle10 begun10 started10 eq_refl eq_refl eq_refl eq_refl eq_refl).
Defined.

Lemma tftp_in_order_witness :
  exists s', loop noenv no_other begun10 [e1_10; e2_10; e3_10] = Some s'
    /\ net_state (nl s') = NETLOOP_SUCCESS /\ ram s' = mwrite ram10 0x80600000 file10
    /\ NetBootFileXferSize (nl s') = 10.
Proof.
  apply (tftp_in_order noenv (codes "a.img") 0 0 no_other file10 8 1069 0 [] idle10 begun10
    (Some oack8) 1010 [1020; 1030] started10); [done..|exact file10_bytes|lia|cbn; lia
    |exact ram10_allocated|by vm_compute|].
  split; [exact oack8_negotiates|]. by vm_compute.
Defined.
