(* ===== verification/Net.v ===== *)
(** * Ethernet, IP, ARP and ping: [net/net.c], [net/arp.c], [net/ping.c]

    A node on the network at the level of bytes: it builds the headers of what it sends in its
    transmit buffers, resolves addresses, and takes apart the frames it receives.  A buffer is a
    list of bytes, and a read or write behind it is [None].  Sent frames are appended to [wire].
    An IP address is the number the code has in an [IPaddr_t]: the bytes in network order, read
    as a little-endian word. *)
From S2P Require Import Prelude Ctype Mem CStr Vsprintf Tftp.

(** ** Buffers *)
Definition bput (b : list Z) (off : nat) (l : list Z) : option (list Z) :=
  if (off + length l <=? length b)%nat
  then Some (take off b ++ l ++ drop (off + length l) b) else None.
Definition bget (b : list Z) (off n : nat) : option (list Z) :=
  if (off + n <=? length b)%nat then Some (take n (drop off b)) else None.
Definition ip_bytes (x : Z) : list Z := [u8 x; u8 (x ≫ 8); u8 (x ≫ 16); u8 (x ≫ 24)].
Definition NetReadIP (b : list Z) (off : nat) : option Z :=
  l ← bget b off 4;
  match l with [a; b; c; d] => Some (a + b * 0x100 + c * 0x10000 + d * 0x1000000) | _ => None end.
Definition NetCopyIP (b : list Z) (off : nat) (from : nat) : option (list Z) :=
  l ← bget b from 4; bput b off l.
Definition NetWriteIP (b : list Z) (off : nat) (x : Z) : option (list Z) := bput b off (ip_bytes x).
Definition le16_bytes (x : Z) : list Z := [u8 x; u8 (x ≫ 8)].
(** A 16-bit variable that holds a number in network order. *)
Definition ntohs (x : Z) : Z := u8 x * 0x100 + u8 (x ≫ 8).

(** ** Headers *)
Definition ETHER_HDR_SIZE : nat := 14.
Definition E802_HDR_SIZE : nat := 22.
Definition VLAN_ETHER_HDR_SIZE : nat := 18.
Definition IP_HDR_SIZE : nat := 20.
Definition IP_UDP_HDR_SIZE : nat := 28.
Definition UDP_HDR_SIZE : Z := 8.
Definition ICMP_HDR_SIZE : nat := 8.
Definition IP_ICMP_HDR_SIZE : nat := 28.
Definition ARP_HDR_SIZE : nat := 28.
Definition PROT_IP : Z := 0x0800.
Definition PROT_ARP : Z := 0x0806.
Definition PROT_VLAN : Z := 0x8100.
Definition IPPROTO_ICMP : Z := 1.
Definition IPPROTO_UDP : Z := 17.
Definition IP_OFFS : Z := 0x1fff.
Definition IP_FLAGS_DFRAG : Z := 0x4000.
Definition IP_FLAGS_MFRAG : Z := 0x2000.
Definition ARP_ETHER : Z := 1.
Definition ARP_HLEN : Z := 6.
Definition ARP_PLEN : Z := 4.
Definition ARPOP_REQUEST : Z := 1.
Definition ARPOP_REPLY : Z := 2.
Definition ICMP_ECHO_REPLY : Z := 0.
Definition ICMP_REDIRECT : Z := 5.
Definition ICMP_ECHO_REQUEST : Z := 8.
Definition VLAN_NONE : Z := 4095.
Definition VLAN_IDMASK : Z := 0x0fff.
Definition PKTSIZE_ALIGN : nat := 1536.
Definition ARP_TIMEOUT : Z := 5000.
Definition ARP_TIMEOUT_COUNT : Z := 5.
Definition NetBcastAddr : list Z := replicate 6 0xff.
Definition NetEtherNullAddr : list Z := replicate 6 0.
(** Offsets of the fields of [struct ethernet_hdr], [e802_hdr] and [vlan_ethernet_hdr]. *)
Definition et_dest : nat := 0.
Definition et_src : nat := 6.
Definition et_protlen : nat := 12.
Definition et_prot : nat := 20.
Definition vet_tag : nat := 14.
Definition vet_type : nat := 16.
(** Offsets of the fields of [struct ip_udp_hdr], [icmp_hdr] and [arp_hdr]. *)
Definition ip_hl_v : nat := 0.
Definition ip_tos : nat := 1.
Definition ip_len : nat := 2.
Definition ip_id : nat := 4.
Definition ip_off : nat := 6.
Definition ip_ttl : nat := 8.
Definition ip_p : nat := 9.
Definition ip_sum : nat := 10.
Definition ip_src : nat := 12.
Definition ip_dst : nat := 16.
Definition udp_src : nat := 20.
Definition udp_dst : nat := 22.
Definition udp_len : nat := 24.
Definition udp_xsum : nat := 26.
Definition icmp_type : nat := 0.
Definition icmp_code : nat := 1.
Definition icmp_checksum : nat := 2.
Definition icmp_id : nat := 4.
Definition icmp_sequence : nat := 6.
Definition ar_hrd : nat := 0.
Definition ar_pro : nat := 2.
Definition ar_hln : nat := 4.
Definition ar_pln : nat := 5.
Definition ar_op : nat := 6.
Definition ar_sha : nat := 8.
Definition ar_spa : nat := 14.
Definition ar_tha : nat := 18.
Definition ar_tpa : nat := 24.

(** ** Checksums *)
Fixpoint cksum_loop (p : list Z) (len xsum : Z) : option Z :=
  if len <=? 0 then Some xsum
  else match p with
       | a :: b :: p => cksum_loop p (len - 1) (u32 (xsum + (a + b * 0x100)))
       | _ => None
       end.
Definition NetCksum (ptr : list Z) (len : Z) : option Z :=
  xsum ← cksum_loop ptr len 0;
  let xsum := (xsum .& 0xffff) + (xsum ≫ 16) in
  let xsum := (xsum .& 0xffff) + (xsum ≫ 16) in
  Some (xsum .& 0xffff).
Definition NetCksumOk (ptr : list Z) (len : Z) : option bool :=
  c ← NetCksum ptr len; Some ((c + 1) .& 0xfffe =? 0).

(** ** The state of a node *)
(** What an [uchar *ether] points to. *)
Inductive ether_ref := NetServerEther_ | NetBcastAddr_.
(** The packet that waits for an address; [NetArpWaitPacketMAC] is [None] for [NULL]. *)
Record arp_wait := mkwait {
  NetArpWaitPacketIP : Z;
  NetArpWaitReplyIP : Z;
  NetArpWaitPacketMAC : option ether_ref;
  NetArpWaitTxPacketSize : Z;
  NetArpWaitTimerStart : Z;
  NetArpWaitTry : Z }.
(** The addresses, from the environment and the device. *)
Record net_cfg := mkcfg {
  NetOurIP : Z;
  NetOurSubnetMask : Z;
  NetOurGatewayIP : Z;
  NetOurEther : list Z;
  NetOurVLAN : Z;
  NetOurNativeVLAN : Z }.
Record net := mknode {
  cfg : net_cfg;
  NetServerEther : list Z;
  NetIPID : Z;
  NetTxPacket : list Z;
  NetArpTxPacket : list Z;
  aw : arp_wait;
  PingSeqNo : Z;
  NetPingIP : Z;
  wire : list (list Z);
  lp : netloop }.
Definition with_tx (n : net) (b : list Z) : net :=
  mknode (cfg n) (NetServerEther n) (NetIPID n) b (NetArpTxPacket n) (aw n) (PingSeqNo n) (NetPingIP n) (wire n) (lp n).
Definition with_ipid (n : net) (x : Z) : net :=
  mknode (cfg n) (NetServerEther n) x (NetTxPacket n) (NetArpTxPacket n) (aw n) (PingSeqNo n) (NetPingIP n) (wire n) (lp n).
Definition with_arp_tx (n : net) (b : list Z) : net :=
  mknode (cfg n) (NetServerEther n) (NetIPID n) (NetTxPacket n) b (aw n) (PingSeqNo n) (NetPingIP n) (wire n) (lp n).
Definition with_aw (n : net) (w : arp_wait) : net :=
  mknode (cfg n) (NetServerEther n) (NetIPID n) (NetTxPacket n) (NetArpTxPacket n) w (PingSeqNo n) (NetPingIP n) (wire n) (lp n).
Definition with_server (n : net) (e : list Z) : net :=
  mknode (cfg n) e (NetIPID n) (NetTxPacket n) (NetArpTxPacket n) (aw n) (PingSeqNo n) (NetPingIP n) (wire n) (lp n).
Definition with_seq (n : net) (x : Z) : net :=
  mknode (cfg n) (NetServerEther n) (NetIPID n) (NetTxPacket n) (NetArpTxPacket n) (aw n) x (NetPingIP n) (wire n) (lp n).
Definition with_wire (n : net) (w : list (list Z)) : net :=
  mknode (cfg n) (NetServerEther n) (NetIPID n) (NetTxPacket n) (NetArpTxPacket n) (aw n) (PingSeqNo n) (NetPingIP n) w (lp n).
Definition with_lp (n : net) (l : netloop) : net :=
  mknode (cfg n) (NetServerEther n) (NetIPID n) (NetTxPacket n) (NetArpTxPacket n) (aw n) (PingSeqNo n) (NetPingIP n) (wire n) l.
Definition set_wait (w : arp_wait) (ip : Z) (mac : option ether_ref) (size : Z) : arp_wait :=
  mkwait ip (NetArpWaitReplyIP w) mac size (NetArpWaitTimerStart w) (NetArpWaitTry w).
Definition set_reply (w : arp_wait) (ip : Z) : arp_wait :=
  mkwait (NetArpWaitPacketIP w) ip (NetArpWaitPacketMAC w) (NetArpWaitTxPacketSize w)
    (NetArpWaitTimerStart w) (NetArpWaitTry w).
Definition set_arp_try (w : arp_wait) (start try : Z) : arp_wait :=
  mkwait (NetArpWaitPacketIP w) (NetArpWaitReplyIP w) (NetArpWaitPacketMAC w) (NetArpWaitTxPacketSize w)
    start try.

Definition ether_addr (n : net) (e : ether_ref) : list Z :=
  match e with NetServerEther_ => NetServerEther n | NetBcastAddr_ => NetBcastAddr end.
Definition NetSendPacket (n : net) (pkt : list Z) (len : Z) : option net :=
  if (0 <=? len) && (len <=? zlen pkt) then Some (with_wire n (wire n ++ [take (Z.to_nat len) pkt])) else None.

(** ** Building headers *)
Definition vlan_id (v : Z) : Z := let id := ntohs v in if id =? 0xffff then VLAN_NONE else id.
Definition NetEthHdrSize (n : net) : nat :=
  if vlan_id (NetOurVLAN (cfg n)) .& VLAN_IDMASK =? VLAN_NONE then ETHER_HDR_SIZE else VLAN_ETHER_HDR_SIZE.
Definition NetSetEther (n : net) (b : list Z) (addr : list Z) (prot : Z) : option (list Z * nat) :=
  let myvlanid := vlan_id (NetOurVLAN (cfg n)) in
  b ← bput b et_dest addr;
  b ← bput b et_src (NetOurEther (cfg n));
  if myvlanid .& VLAN_IDMASK =? VLAN_NONE then
    b ← bput b et_protlen (htons_bytes prot); Some (b, ETHER_HDR_SIZE)
  else
    b ← bput b et_protlen (htons_bytes PROT_VLAN);
    b ← bput b vet_tag (htons_bytes (myvlanid .& VLAN_IDMASK));
    b ← bput b vet_type (htons_bytes prot);
    Some (b, VLAN_ETHER_HDR_SIZE).
Definition net_update_ether (n : net) (b : list Z) (addr : list Z) (prot : Z) : option (list Z * nat) :=
  b ← bput b et_dest addr;
  b ← bput b et_src (NetOurEther (cfg n));
  protlen ← be16 b et_protlen;
  if protlen =? PROT_VLAN then
    b ← bput b vet_type (htons_bytes prot); Some (b, VLAN_ETHER_HDR_SIZE)
  else if 1514 <? protlen then
    b ← bput b et_protlen (htons_bytes prot); Some (b, ETHER_HDR_SIZE)
  else
    b ← bput b et_prot (htons_bytes prot); Some (b, E802_HDR_SIZE).
(** [pkt] is the offset of the header in the transmit buffer. *)
Definition net_set_ip_header (n : net) (pkt : nat) (dest source : Z) : option net :=
  b ← bput (NetTxPacket n) (pkt + ip_hl_v) [0x45];
  b ← bput b (pkt + ip_tos) [0];
  b ← bput b (pkt + ip_len) (htons_bytes (Z.of_nat IP_HDR_SIZE));
  b ← bput b (pkt + ip_id) (htons_bytes (NetIPID n));
  b ← bput b (pkt + ip_off) (htons_bytes IP_FLAGS_DFRAG);
  b ← bput b (pkt + ip_ttl) [255];
  b ← bput b (pkt + ip_sum) (le16_bytes 0);
  b ← NetWriteIP b (pkt + ip_src) source;
  b ← NetWriteIP b (pkt + ip_dst) dest;
  Some (with_tx (with_ipid n (u32 (NetIPID n + 1))) b).
Definition net_set_udp_header (n : net) (pkt : nat) (dest dport sport len : Z) : option net :=
  b ← (if negb (len .& 1 =? 0) then bput (NetTxPacket n) (pkt + IP_UDP_HDR_SIZE + Z.to_nat len) [0]
       else Some (NetTxPacket n));
  n ← net_set_ip_header (with_tx n b) pkt dest (NetOurIP (cfg n));
  b ← bput (NetTxPacket n) (pkt + ip_len) (htons_bytes (Z.of_nat IP_UDP_HDR_SIZE + len));
  b ← bput b (pkt + ip_p) [IPPROTO_UDP];
  c ← NetCksum (drop pkt b) (Z.of_nat IP_HDR_SIZE ≫ 1);
  b ← bput b (pkt + ip_sum) (le16_bytes (Z.lnot c));
  b ← bput b (pkt + udp_src) (htons_bytes sport);
  b ← bput b (pkt + udp_dst) (htons_bytes dport);
  b ← bput b (pkt + udp_len) (htons_bytes (UDP_HDR_SIZE + len));
  b ← bput b (pkt + udp_xsum) (htons_bytes 0);
  Some (with_tx n b).

(** ** ARP: asking *)
Definition arp_raw_request (n : net) (sourceIP : Z) (targetEther : list Z) (targetIP : Z) : option net :=
  '(b, eth) ← NetSetEther n (NetArpTxPacket n) NetBcastAddr PROT_ARP;
  b ← bput b (eth + ar_hrd) (htons_bytes ARP_ETHER);
  b ← bput b (eth + ar_pro) (htons_bytes PROT_IP);
  b ← bput b (eth + ar_hln) [ARP_HLEN];
  b ← bput b (eth + ar_pln) [ARP_PLEN];
  b ← bput b (eth + ar_op) (htons_bytes ARPOP_REQUEST);
  b ← bput b (eth + ar_sha) (NetOurEther (cfg n));
  b ← NetWriteIP b (eth + ar_spa) sourceIP;
  b ← bput b (eth + ar_tha) targetEther;
  b ← NetWriteIP b (eth + ar_tpa) targetIP;
  NetSendPacket (with_arp_tx n b) b (Z.of_nat (eth + ARP_HDR_SIZE)).
Definition ArpRequest (n : net) : option net :=
  let w := aw n in
  let reply :=
    if NetArpWaitPacketIP w .& NetOurSubnetMask (cfg n) =? NetOurIP (cfg n) .& NetOurSubnetMask (cfg n)
    then NetArpWaitPacketIP w
    else if NetOurGatewayIP (cfg n) =? 0 then NetArpWaitPacketIP w else NetOurGatewayIP (cfg n) in
  arp_raw_request (with_aw n (set_reply w reply)) (NetOurIP (cfg n)) NetEtherNullAddr reply.
(** Both callers start the first try and send the request. *)
Definition start_arp (n : net) : option net :=
  ArpRequest (with_aw n (set_arp_try (aw n) (get_timer (lp n) 0) 1)).

(** ** Sending a datagram; its payload is in the transmit buffer. *)
Definition NetSendUDPPacket (n : net) (ether : ether_ref) (dest dport sport payload_len : Z) : option (net * Z) :=
  let dest := if dest =? 0 then 0xffffffff else dest in
  let ether := if dest =? 0xffffffff then NetBcastAddr_ else ether in
  '(b, eth) ← NetSetEther n (NetTxPacket n) (ether_addr n ether) PROT_IP;
  n ← net_set_udp_header (with_tx n b) eth dest dport sport payload_len;
  let pkt_hdr_size := (eth + IP_UDP_HDR_SIZE)%nat in
  if bool_decide (ether_addr n ether = NetEtherNullAddr) then
    n ← start_arp (with_aw n (set_wait (aw n) dest (Some ether) (Z.of_nat pkt_hdr_size + payload_len)));
    Some (n, 1)
  else
    n ← NetSendPacket n (NetTxPacket n) (Z.of_nat pkt_hdr_size + payload_len);
    Some (n, 0).

(** ** Ping: asking *)
Definition set_icmp_header (n : net) (pkt : nat) (dest : Z) : option net :=
  n ← net_set_ip_header n pkt dest (NetOurIP (cfg n));
  b ← bput (NetTxPacket n) (pkt + ip_len) (htons_bytes (Z.of_nat IP_ICMP_HDR_SIZE));
  b ← bput b (pkt + ip_p) [IPPROTO_ICMP];
  c ← NetCksum (drop pkt b) (Z.of_nat IP_HDR_SIZE ≫ 1);
  b ← bput b (pkt + ip_sum) (le16_bytes (Z.lnot c));
  let icmp := (pkt + IP_HDR_SIZE)%nat in
  b ← bput b (icmp + icmp_type) [ICMP_ECHO_REQUEST];
  b ← bput b (icmp + icmp_code) [0];
  b ← bput b (icmp + icmp_checksum) (le16_bytes 0);
  b ← bput b (icmp + icmp_id) (le16_bytes 0);
  b ← bput b (icmp + icmp_sequence) (htons_bytes (PingSeqNo n));
  c ← NetCksum (drop icmp b) (Z.of_nat ICMP_HDR_SIZE ≫ 1);
  b ← bput b (icmp + icmp_checksum) (le16_bytes (Z.lnot c));
  Some (with_tx (with_seq n (u16 (PingSeqNo n + 1))) b).
Definition ping_send (n : net) : option net :=
  let n := with_aw n (set_wait (aw n) (NetPingIP n) (NetArpWaitPacketMAC (aw n)) (NetArpWaitTxPacketSize (aw n))) in
  '(b, eth) ← NetSetEther n (NetTxPacket n) NetEtherNullAddr PROT_IP;
  n ← set_icmp_header (with_tx n b) eth (NetPingIP n);
  start_arp (with_aw n (set_wait (aw n) (NetArpWaitPacketIP (aw n)) (NetArpWaitPacketMAC (aw n))
               (Z.of_nat (eth + IP_ICMP_HDR_SIZE)))).
Definition ping_start (n : net) : option net :=
  ping_send (with_lp n (NetSetTimeout (lp n) 10000 ping_timeout_)).

(** ** Receiving *)
(** The frame is in the receive buffer [b]; answers are made in place.  [ip] is the offset of
    the header behind the Ethernet header. *)
Definition ping_receive (n : net) (b : list Z) (ip : nat) (len : Z) : option net :=
  let icmph := (ip + udp_src)%nat in
  type ← b !! (icmph + icmp_type)%nat;
  if type =? ICMP_ECHO_REPLY then
    src_ip ← NetReadIP b (ip + ip_src);
    Some (if src_ip =? NetPingIP n then with_lp n (net_set_state (lp n) NETLOOP_SUCCESS) else n)
  else if type =? ICMP_ECHO_REQUEST then
    src ← bget b et_src 6;
    '(b, eth) ← net_update_ether n b src PROT_IP;
    b ← bput b (ip + ip_sum) (le16_bytes 0);
    b ← bput b (ip + ip_off) (le16_bytes 0);
    b ← NetCopyIP b (ip + ip_dst) (ip + ip_src);
    b ← NetWriteIP b (ip + ip_src) (NetOurIP (cfg n));
    c ← NetCksum (drop ip b) (Z.of_nat IP_HDR_SIZE ≫ 1);
    b ← bput b (ip + ip_sum) (le16_bytes (Z.lnot c));
    b ← bput b (icmph + icmp_type) [ICMP_ECHO_REPLY];
    b ← bput b (icmph + icmp_checksum) (le16_bytes 0);
    c ← NetCksum (drop icmph b) (u32 (len - Z.of_nat IP_HDR_SIZE) ≫ 1);
    b ← bput b (icmph + icmp_checksum) (le16_bytes (Z.lnot c));
    NetSendPacket n b (Z.of_nat eth + len)
  else Some n.
Definition receive_icmp (n : net) (b : list Z) (ip : nat) (len : Z) : option net :=
  type ← b !! (ip + udp_src + icmp_type)%nat;
  if type =? ICMP_REDIRECT then Some n else ping_receive n b ip len.

Definition arp_request (n : net) (b : list Z) (arp : nat) : option net :=
  src ← bget b et_src 6;
  '(b, eth) ← net_update_ether n b src PROT_ARP;
  b ← bput b (arp + ar_op) (htons_bytes ARPOP_REPLY);
  sha ← bget b (arp + ar_sha) 6;
  b ← bput b (arp + ar_tha) sha;
  b ← NetCopyIP b (arp + ar_tpa) (arp + ar_spa);
  b ← bput b (arp + ar_sha) (NetOurEther (cfg n));
  b ← NetWriteIP b (arp + ar_spa) (NetOurIP (cfg n));
  NetSendPacket n b (Z.of_nat (eth + ARP_HDR_SIZE)).
Definition arp_reply (n : net) (b : list Z) (arp : nat) : option net :=
  let w := aw n in
  if NetArpWaitPacketIP w =? 0 then Some n
  else
    reply_ip_addr ← NetReadIP b (arp + ar_spa);
    if reply_ip_addr =? NetArpWaitReplyIP w then
      sha ← bget b (arp + ar_sha) 6;
      let n := match NetArpWaitPacketMAC w with
               | Some NetServerEther_ => with_server n sha | _ => n end in
      tx ← bput (NetTxPacket n) et_dest sha;
      n ← NetSendPacket (with_tx n tx) tx (NetArpWaitTxPacketSize w);
      Some (with_aw n (set_wait (aw n) 0 None 0))
    else Some n.
Definition ArpReceive (n : net) (b : list Z) (arp : nat) (len : Z) : option net :=
  if len <? Z.of_nat ARP_HDR_SIZE then Some n
  else
    hrd ← be16 b (arp + ar_hrd);
    if negb (hrd =? ARP_ETHER) then Some n else
    pro ← be16 b (arp + ar_pro);
    if negb (pro =? PROT_IP) then Some n else
    hln ← b !! (arp + ar_hln)%nat;
    if negb (hln =? ARP_HLEN) then Some n else
    pln ← b !! (arp + ar_pln)%nat;
    if negb (pln =? ARP_PLEN) then Some n else
    if NetOurIP (cfg n) =? 0 then Some n else
    tpa ← NetReadIP b (arp + ar_tpa);
    if negb (tpa =? NetOurIP (cfg n)) then Some n else
    op ← be16 b (arp + ar_op);
    if op =? ARPOP_REQUEST then arp_request n b arp
    else if op =? ARPOP_REPLY then arp_reply n b arp
    else Some n.

(** The Ethernet header: the protocol, the offset of what is behind the header, its length and
    the VLAN of the frame; [inr] where the frame is not taken. *)
Definition eth_header (n : net) (b : list Z) (len : Z) : option ((Z * nat * Z * Z) + unit) :=
  if len <? Z.of_nat ETHER_HDR_SIZE then Some (inr ())
  else
    eth_proto ← be16 b et_protlen;
    if eth_proto <? 1514 then
      eth_proto ← be16 b et_prot;
      Some (inl (eth_proto, E802_HDR_SIZE, len - Z.of_nat E802_HDR_SIZE, VLAN_NONE))
    else if negb (eth_proto =? PROT_VLAN) then
      Some (inl (eth_proto, ETHER_HDR_SIZE, len - Z.of_nat ETHER_HDR_SIZE, VLAN_NONE))
    else if len <? Z.of_nat VLAN_ETHER_HDR_SIZE then Some (inr ())
    else if ntohs (NetOurVLAN (cfg n)) .& VLAN_IDMASK =? VLAN_NONE then Some (inr ())
    else
      cti ← be16 b vet_tag;
      eth_proto ← be16 b vet_type;
      Some (inl (eth_proto, VLAN_ETHER_HDR_SIZE, len - Z.of_nat VLAN_ETHER_HDR_SIZE, cti .& VLAN_IDMASK)).
Definition vlan_mismatch (n : net) (vlanid : Z) : bool :=
  let myvlanid := vlan_id (NetOurVLAN (cfg n)) .& VLAN_IDMASK in
  if negb (myvlanid =? VLAN_NONE) then
    let vlanid := if vlanid =? VLAN_NONE then vlan_id (NetOurNativeVLAN (cfg n)) .& VLAN_IDMASK else vlanid in
    negb (vlanid =? myvlanid)
  else false.
(** [case PROT_IP] up to the test for fragments: the length and the addresses of a packet
    that is for us. *)
Definition ip_header (n : net) (b : list Z) (ip : nat) (len : Z) : option ((Z * Z) + unit) :=
  if len <? Z.of_nat IP_UDP_HDR_SIZE then Some (inr ())
  else
    iplen ← be16 b (ip + ip_len);
    if len <? iplen then Some (inr ()) else
    hl_v ← b !! (ip + ip_hl_v)%nat;
    if negb (hl_v .& 0xf0 =? 0x40) then Some (inr ()) else
    if 0x05 <? hl_v .& 0x0f then Some (inr ()) else
    ok ← NetCksumOk (drop ip b) (Z.of_nat IP_HDR_SIZE / 2);
    if negb ok then Some (inr ()) else
    dst_ip ← NetReadIP b (ip + ip_dst);
    if negb (NetOurIP (cfg n) =? 0) && negb (dst_ip =? NetOurIP (cfg n)) && negb (dst_ip =? 0xffffffff)
    then Some (inr ()) else
    src_ip ← NetReadIP b (ip + ip_src);
    Some (inl (iplen, src_ip)).
(** [NetDefragment]: whether the packet is kept. *)
Definition NetDefragment (b : list Z) (ip : nat) : option bool :=
  off ← be16 b (ip + ip_off); Some (off .& (IP_OFFS .| IP_FLAGS_MFRAG) =? 0).

Section node.
(** The handler of datagrams: it gets the buffer from the payload on, the ports, the address of
    the sender and the length, and may change the node and a state of its own. *)
Context {H : Type} (udp_packet_handler : net -> H -> list Z -> Z -> Z -> Z -> Z -> option (net * H)).

Definition NetReceive (n : net) (h : H) (b : list Z) (len : Z) : option (net * H) :=
  eh ← eth_header n b len;
  match eh with
  | inr _ => Some (n, h)
  | inl (eth_proto, ip, len, vlanid) =>
      if vlan_mismatch n vlanid then Some (n, h)
      else if eth_proto =? PROT_ARP then n ← ArpReceive n b ip len; Some (n, h)
      else if eth_proto =? PROT_IP then
        ih ← ip_header n b ip len;
        match ih with
        | inr _ => Some (n, h)
        | inl (len, src_ip) =>
            whole ← NetDefragment b ip;
            if negb whole then Some (n, h)
            else
              p ← b !! (ip + ip_p)%nat;
              if p =? IPPROTO_ICMP then n ← receive_icmp n b ip len; Some (n, h)
              else if negb (p =? IPPROTO_UDP) then Some (n, h)
              else
                dst ← be16 b (ip + udp_dst);
                src ← be16 b (ip + udp_src);
                ulen ← be16 b (ip + udp_len);
                udp_packet_handler n h (drop (ip + IP_UDP_HDR_SIZE) b) dst src_ip src (u32 (ulen - UDP_HDR_SIZE))
        end
      else Some (n, h)
  end.

(** ** One round of the loop *)
Context (getenv : list Z -> option (list Z)) (eth_try_another : bool -> bool -> bool).
Context (tftp_timeout bootp_timeout : net -> H -> option (net * H)).
Definition ArpTimeoutCheck (n : net) : option net :=
  let w := aw n in
  if NetArpWaitPacketIP w =? 0 then Some n
  else
    let t := get_timer (lp n) 0 in
    if ARP_TIMEOUT <? u32 (t - NetArpWaitTimerStart w) then
      let try := NetArpWaitTry w + 1 in
      if ARP_TIMEOUT_COUNT <=? try then
        let n := with_aw n (set_arp_try w (NetArpWaitTimerStart w) 0) in
        Some (with_lp n (NetStartAgain getenv eth_try_another (lp n)))
      else ArpRequest (with_aw n (set_arp_try w t try))
    else Some n.
Definition timer (n : net) (h : H) : option (net * H) :=
  match timeHandler (lp n) with
  | Some x =>
      if timeDelta (lp n) <? get_timer (lp n) (timeStart (lp n)) then
        let n := with_lp n (set_timer (lp n) None (timeStart (lp n)) (timeDelta (lp n))) in
        match x with
        | TftpTimeout_ => tftp_timeout n h
        | startAgainTimeout_ => Some (with_lp n (startAgainTimeout (lp n)), h)
        | ping_timeout_ => Some (with_lp n (ping_timeout (lp n)), h)
        | BootpTimeout_ => bootp_timeout n h
        end
      else Some (n, h)
  | None => Some (n, h)
  end.
(** A frame or none, and the time. *)
Definition round (n : net) (h : H) (rx : option (list Z * Z)) (t : Z) : option (net * H) :=
  let n := with_lp n (set_now (lp n) t) in
  '(n, h) ← match rx with Some (b, len) => NetReceive n h b len | None => Some (n, h) end;
  n ← ArpTimeoutCheck n;
  timer n h.
End node.
