(* ===== verification/NetSpec.v ===== *)
(** * What a node sends arrives

    Checksums, the shape of the frames that [Net] builds, and two nodes on one segment: a
    datagram reaches the handler of the other node, and a ping is answered. *)
From S2P Require Import Prelude Ctype Mem CStr Vsprintf Tftp Net.

(** ** Checksums *)
(** The sum of the 16-bit words of a packet. *)
Fixpoint wsum (l : list Z) : Z :=
  match l with a :: b :: l => a + b * 0x100 + wsum l | _ => 0 end.
Definition fold16 (x : Z) : Z := x mod 0x10000 + x / 0x10000.

Lemma wsum_app l l' k : length l = (2 * k)%nat -> wsum (l ++ l') = wsum l + wsum l'.
Proof.
  revert l. induction k as [|k IH]; intros l Hl; [by destruct l|].
  destruct l as [|a [|b l]]; cbn [length] in Hl; [lia..|]. cbn [app wsum]. rewrite IH by lia. lia.
Qed.
Lemma wsum_range l k : length l = (2 * k)%nat -> Forall byte l -> 0 <= wsum l <= Z.of_nat k * 0xffff.
Proof.
  revert l. induction k as [|k IH]; intros l Hl Hb; [destruct l; [done|cbn in Hl; lia]|].
  destruct l as [|a [|b l]]; cbn [length] in Hl; [lia..|]. rewrite !Forall_cons in Hb. destruct Hb as (Ha & Hb & Hl').
  cbn [wsum]. unfold byte in *. specialize (IH l ltac:(lia) Hl'). lia.
Qed.
Lemma cksum_loop_ok l k rest x : length l = (2 * k)%nat -> Forall byte l -> 0 <= x ->
  x + wsum l < 0x100000000 ->
  cksum_loop (l ++ rest) (Z.of_nat k) x = Some (x + wsum l).
Proof.
  revert l x. induction k as [|k IH]; intros l x Hl Hb Hx Hs.
  - destruct l; [|cbn in Hl; lia]. cbn. destruct rest; f_equal; lia.
  - destruct l as [|a [|b l]]; cbn [length] in Hl; [lia..|]. rewrite !Forall_cons in Hb. destruct Hb as (Ha & Hb & Hl').
    pose proof (wsum_range l k ltac:(lia) Hl') as Hr. cbn [app cksum_loop wsum] in *. unfold byte in *.
    case_if; [lia|]. rewrite u32_small by lia. replace (Z.of_nat (S k) - 1) with (Z.of_nat k) by lia.
    rewrite IH by (assumption || lia). f_equal. lia.
Qed.
Lemma fold16_mod x : 0 <= x -> fold16 x mod 0xffff = x mod 0xffff.
Proof. intros. unfold fold16. zdm. Qed.
Lemma fold16_code x : 0 <= x -> (x .& 0xffff) + (x ≫ 16) = fold16 x.
Proof.
  intros. unfold fold16. change 0xffff with (Z.ones 16). rewrite Z.land_ones, Z.shiftr_div_pow2 by lia. done.
Qed.
(** The checksum: congruent to the sum, and 0 only for the sum 0. *)
Lemma NetCksum_ok l k : length l = (2 * k)%nat -> Z.of_nat k <= 0x10000 -> Forall byte l ->
  exists c, (forall rest, NetCksum (l ++ rest) (Z.of_nat k) = Some c) /\ 0 <= c <= 0xffff
    /\ c mod 0xffff = wsum l mod 0xffff /\ (c = 0 <-> wsum l = 0).
Proof.
  intros Hl Hk Hb. pose proof (wsum_range l k Hl Hb) as Hr. set (x := wsum l) in *.
  assert (0 <= fold16 x <= 131070 /\ (fold16 x = 0 <-> x = 0)) as [Hf H0] by (unfold fold16; split; [zdm|zdm]).
  assert (0 <= fold16 (fold16 x) <= 0xffff /\ (fold16 (fold16 x) = 0 <-> fold16 x = 0)) as [Hf' H0'].
  { set (y := fold16 x) in *. clearbody y. unfold fold16. split; zdm. }
  exists (fold16 (fold16 x)). split; [|split; [done|]; split; [by rewrite !fold16_mod by lia|lia]].
  intros rest. unfold NetCksum.
  rewrite (cksum_loop_ok l k) by (assumption || lia). cbn [mbind option_bind]. rewrite Z.add_0_l. fold x.
  rewrite (fold16_code x), (fold16_code (fold16 x)) by lia.
  change 0xffff with (Z.ones 16). rewrite Z.land_ones by lia. by rewrite Z.mod_small by lia.
Qed.
Lemma NetCksumOk_ok l k rest : length l = (2 * k)%nat -> Z.of_nat k <= 0x10000 -> Forall byte l ->
  NetCksumOk (l ++ rest) (Z.of_nat k) = Some (wsum l mod 0xffff =? 0).
Proof.
  intros Hl Hk Hb. destruct (NetCksum_ok l k Hl Hk Hb) as (c & Hc & Hr & Hm & H0). unfold NetCksumOk.
  rewrite (Hc rest). cbn [mbind option_bind]. f_equal.
  assert ((c + 1) .& 0xfffe = if (c =? 0) || (c =? 0xffff) then 0 else (c + 1) .& 0xfffe) as ->.
  { case_if; [|done]. assert (c = 0 \/ c = 0xffff) as [-> | ->] by lia; done. }
  rewrite <- Hm. case_if; [assert (c = 0 \/ c = 0xffff) as [-> | ->] by lia; done|].
  assert (c mod 0xffff = c) as -> by (apply Z.mod_small; lia). replace (c =? 0) with false by lia.
  apply Z.eqb_neq. intros Hz. assert (Z.testbit ((c + 1) .& 0xfffe) (Z.log2 (c + 1)) = false) as Ht by (rewrite Hz; apply Z.bits_0).
  rewrite Z.land_spec, Z.bit_log2 in Ht by lia. cbn [andb] in Ht.
  assert (1 <= Z.log2 (c + 1) < 16) as Hlog.
  { split; [apply Z.log2_le_pow2; lia|apply Z.log2_lt_pow2; lia]. }
  assert (forall i, 1 <= i < 16 -> Z.testbit 0xfffe i = true) as Hones.
  { intros i Hi. assert (all_below 16 (fun i => (i <? 1) || Z.testbit 0xfffe i) = true) as Hall by by vm_compute.
    pose proof (all_below_spec _ _ Hall i ltac:(lia)) as Hi'. cbn beta in Hi'. replace (i <? 1) with false in Hi' by lia. done. }
  rewrite Hones in Ht by lia. done.
Qed.

(** The checksum finds every error inside of one 16-bit word.  A header or packet of an even
    number of bytes that passes the check passes no longer when any of its words is replaced by
    another one, unless the two are 0 and 0xffff, which stand for the same number. *)
Theorem cksum_detects l1 a b l2 a' b' rest (k : nat) (j : nat)
  (Hl1 : length l1 = (2 * j)%nat) (Hl : length (l1 ++ a :: b :: l2) = (2 * k)%nat) (Hk : Z.of_nat k <= 0x10000)
  (Hb : Forall byte (l1 ++ a :: b :: l2)) (Ha' : byte a') (Hb' : byte b')
  (Hne : (a', b') <> (a, b)) (Hzero : ~ (a = b /\ a' = b' /\ (a = 0 /\ a' = 0xff \/ a = 0xff /\ a' = 0)))
  (Hok : NetCksumOk ((l1 ++ a :: b :: l2) ++ rest) (Z.of_nat k) = Some true) :
  NetCksumOk ((l1 ++ a' :: b' :: l2) ++ rest) (Z.of_nat k) = Some false.
Proof.
  assert (Forall byte (l1 ++ a' :: b' :: l2)) as Hb2.
  { rewrite Forall_app, !Forall_cons in *. naive_solver. }
  assert (byte a /\ byte b) as [Ha Hbb] by (rewrite Forall_app, !Forall_cons in Hb; naive_solver).
  rewrite NetCksumOk_ok in Hok by assumption.
  rewrite NetCksumOk_ok by (rewrite ?length_app in *; cbn [length] in *; assumption || lia).
  rewrite (wsum_app _ _ j Hl1) in Hok. rewrite (wsum_app _ _ j Hl1). cbn [wsum] in *. unfold byte in *.
  set (s := wsum l1) in *. set (s2 := wsum l2) in *. f_equal. injection Hok as Hok. apply Z.eqb_neq. apply Z.eqb_eq in Hok.
  assert (a' + b' * 256 <> a + b * 256) as Hd by (intros ?; apply Hne; f_equal; lia).
  intros Hbad. apply Hzero. assert (a' + b' * 256 - (a + b * 256) = 0xffff \/ a' + b' * 256 - (a + b * 256) = -0xffff) by zdm. lia.
Qed.

(** ** Buffers *)
(** Offsets behind a prefix are offsets of the rest. *)
Section offsets.
Context (p r : list Z) (k : nat).
Lemma bput_at l : bput (p ++ r) (length p + k) l = app p <$> bput r k l.
Proof.
  unfold bput. rewrite length_app.
  replace (length p + k + length l <=? length p + length r)%nat with (k + length l <=? length r)%nat
    by (apply eq_iff_eq_true; rewrite !Nat.leb_le; lia).
  case_match; [|done]. cbn. f_equal. rewrite take_app_add, drop_app.
  rewrite <- app_assoc. do 2 f_equal. rewrite drop_ge by lia. cbn. do 2 f_equal. lia.
Qed.
Lemma bget_at m : bget (p ++ r) (length p + k) m = bget r k m.
Proof.
  unfold bget. rewrite length_app.
  replace (length p + k + m <=? length p + length r)%nat with (k + m <=? length r)%nat
    by (apply eq_iff_eq_true; rewrite !Nat.leb_le; lia).
  by rewrite drop_app_add.
Qed.
Lemma NetReadIP_at : NetReadIP (p ++ r) (length p + k) = NetReadIP r k.
Proof. unfold NetReadIP. by rewrite bget_at. Qed.
Lemma lookup_at : (p ++ r) !! (length p + k)%nat = r !! k.
Proof. rewrite lookup_app_r by lia. f_equal. lia. Qed.
Lemma be16_at : be16 (p ++ r) (length p + k) = be16 r k.
Proof.
  unfold be16. rewrite lookup_at. replace ((p ++ r) !! S (length p + k)) with (r !! S k); [done|].
  rewrite lookup_app_r by lia. f_equal. lia.
Qed.
Lemma drop_at : drop (length p + k) (p ++ r) = drop k r.
Proof. by rewrite drop_app_add. Qed.
End offsets.

Ltac explode l H :=
  cbn [length] in H;
  lazymatch type of H with
  | length l = O => destruct l; [clear H|discriminate H]
  | length l = S _ => destruct l as [|? l]; [discriminate H|cbn [length] in H; apply Nat.succ_inj in H; explode l H]
  end.
(** One write to an explicit buffer behind a prefix. *)
Ltac bput_eval :=
  match goal with |- context [bput ?r ?k ?l] =>
    let x := eval cbn [bput length app take drop Nat.leb Nat.add htons_bytes ip_bytes le16_bytes replicate
      NetBcastAddr NetEtherNullAddr
      et_dest et_src et_protlen et_prot vet_tag vet_type ip_hl_v ip_tos ip_len ip_id ip_off ip_ttl ip_p ip_sum ip_src
      ip_dst udp_src udp_dst udp_len udp_xsum icmp_type icmp_code icmp_checksum icmp_id icmp_sequence
      ar_hrd ar_pro ar_hln ar_pln ar_op ar_sha ar_spa ar_tha ar_tpa IP_HDR_SIZE] in (bput r k l) in
    change (bput r k l) with x
  end; cbn [mbind option_bind fmap option_fmap option_map].

(** ** The Ethernet header *)
Definition no_vlan (n : net) : bool := vlan_id (NetOurVLAN (cfg n)) .& VLAN_IDMASK =? VLAN_NONE.
Definition eth_hdr (n : net) (dst src : list Z) (prot : Z) : list Z :=
  dst ++ src ++
  (if no_vlan n then htons_bytes prot
   else htons_bytes PROT_VLAN ++ htons_bytes (vlan_id (NetOurVLAN (cfg n)) .& VLAN_IDMASK) ++ htons_bytes prot).
Lemma eth_hdr_len n dst src prot : length dst = 6%nat -> length src = 6%nat ->
  length (eth_hdr n dst src prot) = NetEthHdrSize n.
Proof.
  intros Hd Hs. unfold eth_hdr, NetEthHdrSize. fold (no_vlan n). rewrite !length_app, Hd, Hs. by case_match.
Qed.
Lemma NetSetEther_ok n h r addr prot : length h = NetEthHdrSize n -> length addr = 6%nat ->
  length (NetOurEther (cfg n)) = 6%nat ->
  NetSetEther n (h ++ r) addr prot = Some (eth_hdr n addr (NetOurEther (cfg n)) prot ++ r, NetEthHdrSize n).
Proof.
  intros Hh Ha Ho. unfold NetSetEther, NetEthHdrSize, eth_hdr, no_vlan in *.
  generalize dependent (NetOurEther (cfg n)). intros mac Ho. explode addr Ha. explode mac Ho.
  destruct (vlan_id (NetOurVLAN (cfg n)) .& VLAN_IDMASK =? VLAN_NONE).
  - unfold ETHER_HDR_SIZE in Hh. explode h Hh. cbn [app]. repeat bput_eval. reflexivity.
  - unfold VLAN_ETHER_HDR_SIZE in Hh. explode h Hh. cbn [app]. repeat bput_eval. reflexivity.
Qed.
(** Frames of a node of the same VLAN are taken. *)
Definition same_vlan (n n' : net) : Prop := NetOurVLAN (cfg n') = NetOurVLAN (cfg n).
Lemma vlan_id_range v : 0 <= v < 0x10000 -> 0 <= vlan_id v .& VLAN_IDMASK <= VLAN_IDMASK.
Proof. intros. change VLAN_IDMASK with (Z.ones 12). rewrite Z.land_ones by lia. change (Z.ones 12) with (2 ^ 12 - 1). zdm. Qed.
Lemma eth_header_ok n n' dst src prot r len : same_vlan n n' -> 0 <= NetOurVLAN (cfg n) < 0x10000 ->
  length dst = 6%nat -> length src = 6%nat -> 1514 <= prot < 0x10000 -> prot <> PROT_VLAN ->
  Z.of_nat (NetEthHdrSize n) <= len ->
  exists v, eth_header n' (eth_hdr n dst src prot ++ r) len
    = Some (inl (prot, NetEthHdrSize n, len - Z.of_nat (NetEthHdrSize n), v)) /\ vlan_mismatch n' v = false.
Proof.
  intros Hv Hvr Hd Hs Hp Hnp Hlen. unfold eth_header, vlan_mismatch. rewrite Hv.
  pose proof (vlan_id_range _ Hvr) as Hr.
  unfold NetEthHdrSize, eth_hdr, no_vlan in *.
  explode dst Hd. explode src Hs. destruct (Z.eqb_spec (vlan_id (NetOurVLAN (cfg n)) .& VLAN_IDMASK) VLAN_NONE) as [E|E].
  - case_if; [lia|]. exists VLAN_NONE. split; [|done].
    assert (forall q, be16 (([z; z0; z1; z2; z3; z4] ++ [z5; z6; z7; z8; z9; z10] ++ htons_bytes q) ++ r) et_protlen = be16 (htons_bytes q ++ r) 0) as -> by done.
    rewrite htons_bytes_be by lia. cbn [mbind option_bind]. case_if; [lia|].
    replace (prot =? PROT_VLAN) with false by lia. done.
  - unfold ETHER_HDR_SIZE, VLAN_ETHER_HDR_SIZE in *. case_if; [lia|]. exists (vlan_id (NetOurVLAN (cfg n)) .& VLAN_IDMASK).
    split; [|cbn [negb]; replace (_ =? VLAN_NONE) with false by lia; by rewrite Z.eqb_refl].
    rewrite <- !app_assoc.
    assert (forall q, be16 ([z; z0; z1; z2; z3; z4] ++ [z5; z6; z7; z8; z9; z10] ++ q) et_protlen = be16 q 0) as -> by done.
    rewrite htons_bytes_be by (unfold PROT_VLAN; lia). cbn [mbind option_bind].
    change (PROT_VLAN <? 1514) with false. change (PROT_VLAN =? PROT_VLAN) with true. cbn [negb]. cbn iota.
    case_if; [lia|].
    assert (ntohs (NetOurVLAN (cfg n)) .& VLAN_IDMASK =? VLAN_NONE = false) as ->.
    { apply Z.eqb_neq. intros Hn. apply E. unfold vlan_id. cbv zeta. case_if; [done|exact Hn]. }
    assert (forall q q' q'', be16 ([z; z0; z1; z2; z3; z4] ++ [z5; z6; z7; z8; z9; z10] ++ htons_bytes q ++ q' ++ q'') vet_tag = be16 (q' ++ q'') 0) as -> by done.
    rewrite htons_bytes_be by (unfold VLAN_IDMASK in *; lia). cbn [mbind option_bind].
    assert (forall q q' q'', be16 ([z; z0; z1; z2; z3; z4] ++ [z5; z6; z7; z8; z9; z10] ++ htons_bytes q ++ htons_bytes q' ++ q'') vet_type = be16 q'' 0) as -> by done.
    rewrite htons_bytes_be by lia. cbn [mbind option_bind]. by rewrite <- Z.land_assoc, Z.land_diag.
Qed.

(** ** The headers of IP and UDP *)
Definition ip_hdr0 (total id off ttl_proto_ck : list Z) (src dst : Z) : list Z :=
  [0x45; 0] ++ total ++ id ++ off ++ ttl_proto_ck ++ ip_bytes src ++ ip_bytes dst.
(** The header with the checksum [c] of the rest of it. *)
Definition ip_hdr (total id off proto c src dst : Z) : list Z :=
  ip_hdr0 (htons_bytes total) (htons_bytes id) (htons_bytes off) ([255; proto] ++ le16_bytes (Z.lnot c)) src dst.
Definition cksum20 (l : list Z) : Z := match NetCksum l 10 with Some c => c | None => 0 end.
Definition ip_hdr_ck (total id off proto src dst : Z) : list Z :=
  ip_hdr total id off proto
    (cksum20 (ip_hdr0 (htons_bytes total) (htons_bytes id) (htons_bytes off) ([255; proto; 0; 0]) src dst)) src dst.

Lemma htons_bytes_byte x : Forall byte (htons_bytes x).
Proof. unfold htons_bytes, byte. pose proof (u16_range x). repeat constructor; zdm. Qed.
Lemma le16_bytes_byte x : Forall byte (le16_bytes x).
Proof. repeat constructor; apply u8_range. Qed.
Lemma ip_bytes_byte x : Forall byte (ip_bytes x).
Proof. repeat constructor; apply u8_range. Qed.
Lemma ip_bytes_read x : 0 <= x < 0x100000000 -> forall r, NetReadIP (ip_bytes x ++ r) 0 = Some x.
Proof.
  intros Hx r. unfold NetReadIP, bget. cbn -[Z.mul Z.shiftr]. f_equal. unfold u8.
  rewrite !Z.shiftr_div_pow2 by lia. zdm.
Qed.
Lemma ip_hdr_len total id off proto c src dst : length (ip_hdr total id off proto c src dst) = 20%nat.
Proof. done. Qed.
Lemma cksum20_ok l rest : length l = 20%nat -> Forall byte l ->
  NetCksum (l ++ rest) 10 = Some (cksum20 l) /\ 0 <= cksum20 l <= 0xffff
  /\ cksum20 l mod 0xffff = wsum l mod 0xffff.
Proof.
  intros Hl Hb. unfold cksum20.
  destruct (NetCksum_ok l 10 Hl ltac:(lia) Hb) as (c & Hc & Hr & Hm & _). change (Z.of_nat 10) with 10 in *.
  pose proof (Hc []) as Hc'. rewrite app_nil_r in Hc'. by rewrite Hc', Hc.
Qed.
Lemma ip_hdr0_byte total id off x src dst : Forall byte x -> byte (x !!! O) ->
  Forall byte (ip_hdr0 (htons_bytes total) (htons_bytes id) (htons_bytes off) x src dst).
Proof.
  intros. unfold ip_hdr0. rewrite !Forall_app. split_and!; try (apply htons_bytes_byte || apply ip_bytes_byte || done).
  repeat constructor; unfold byte; lia.
Qed.
Lemma le16_lnot c : 0 <= c <= 0xffff -> wsum (le16_bytes (Z.lnot c)) = 0xffff - c.
Proof.
  intros Hc. cbn [wsum le16_bytes]. unfold u8, Z.lnot. rewrite Z.shiftr_div_pow2 by lia. change (2 ^ 8) with 256. zdm.
Qed.
Lemma wsum_ip_hdr0 total id off a b c d src dst :
  wsum (ip_hdr0 (htons_bytes total) (htons_bytes id) (htons_bytes off) [a; b; c; d] src dst)
  = wsum (ip_hdr0 (htons_bytes total) (htons_bytes id) (htons_bytes off) [a; b; 0; 0] src dst) + wsum [c; d].
Proof.
  unfold ip_hdr0, htons_bytes. cbn [app wsum]. generalize (ip_bytes src ++ ip_bytes dst). intros l. lia.
Qed.
Lemma cksum_complement x c : x mod 0xffff = c mod 0xffff -> (x + (0xffff - c)) mod 0xffff = 0.
Proof. zdm. Qed.
(** The checksum that is put into a header makes it pass the check. *)
Lemma ip_hdr_ck_ok total id off proto src dst rest : byte proto ->
  NetCksumOk (ip_hdr_ck total id off proto src dst ++ rest) 10 = Some true.
Proof.
  intros Hp. unfold ip_hdr_ck, ip_hdr. set (h0 := ip_hdr0 _ _ _ [255; proto; 0; 0] src dst).
  assert (Forall byte h0) as Hb0.
  { apply ip_hdr0_byte; [repeat constructor; unfold byte in *; lia|cbn; unfold byte; lia]. }
  destruct (cksum20_ok h0 [] eq_refl Hb0) as (_ & Hr & Hm). revert Hr Hm. generalize (cksum20 h0). intros c Hr Hm.
  assert (Forall byte (ip_hdr0 (htons_bytes total) (htons_bytes id) (htons_bytes off) ([255; proto] ++ le16_bytes (Z.lnot c)) src dst)) as Hb.
  { apply ip_hdr0_byte; [|cbn; unfold byte; lia]. apply Forall_app. split; [|apply le16_bytes_byte].
    repeat constructor; unfold byte in *; lia. }
  pose proof (NetCksumOk_ok _ 10 rest (eq_refl 20%nat : length (ip_hdr0 (htons_bytes total) (htons_bytes id) (htons_bytes off) ([255; proto] ++ le16_bytes (Z.lnot c)) src dst) = _) ltac:(lia) Hb) as Hok.
  change (Z.of_nat 10) with 10 in Hok. rewrite Hok. f_equal. apply Z.eqb_eq.
  pose proof (wsum_ip_hdr0 total id off 255 proto (u8 (Z.lnot c)) (u8 (Z.lnot c ≫ 8)) src dst) as Hw.
  change (wsum [u8 (Z.lnot c); u8 (Z.lnot c ≫ 8)]) with (wsum (le16_bytes (Z.lnot c))) in Hw. rewrite le16_lnot in Hw by done. fold h0 in Hw.
  change ([255; proto] ++ le16_bytes (Z.lnot c)) with [255; proto; u8 (Z.lnot c); u8 (Z.lnot c ≫ 8)]. rewrite Hw.
  by apply cksum_complement.
Qed.

Definition udp_hdr (sport dport len : Z) : list Z :=
  htons_bytes sport ++ htons_bytes dport ++ htons_bytes len ++ [0; 0].
(** The datagram that [net_set_udp_header] puts around a payload. *)
Definition udp_packet (id src dst sport dport : Z) (payload : list Z) : list Z :=
  ip_hdr_ck (28 + zlen payload) id IP_FLAGS_DFRAG IPPROTO_UDP src dst ++ udp_hdr sport dport (8 + zlen payload) ++ payload.
Lemma bput_end p c r x : bput (p ++ c :: r) (length p) [x] = Some (p ++ x :: r).
Proof.
  rewrite <- (Nat.add_0_r (length p)) at 1. rewrite bput_at. reflexivity.
Qed.
Ltac bput_step := rewrite bput_at; bput_eval.

Lemma net_set_ip_header_ok n h r p rest dest source : NetTxPacket n = h ++ r ++ rest -> length r = 20%nat ->
  r !! 9%nat = Some p ->
  net_set_ip_header n (length h) dest source
  = Some (with_tx (with_ipid n (u32 (NetIPID n + 1)))
      (h ++ ip_hdr0 (htons_bytes 20) (htons_bytes (NetIPID n)) (htons_bytes IP_FLAGS_DFRAG) ([255; p; 0; 0]) source dest ++ rest)).
Proof.
  intros Htx Hr Hp. unfold net_set_ip_header, NetWriteIP. rewrite Htx. explode r Hr. cbn in Hp. injection Hp as ->.
  cbn [app]. repeat bput_step. reflexivity.
Qed.
Lemma NetCksum_hdr0 total id off proto src dst rest : byte proto ->
  NetCksum (ip_hdr0 (htons_bytes total) (htons_bytes id) (htons_bytes off) [255; proto; 0; 0] src dst ++ rest) 10
  = Some (cksum20 (ip_hdr0 (htons_bytes total) (htons_bytes id) (htons_bytes off) [255; proto; 0; 0] src dst)).
Proof.
  intros Hp. apply cksum20_ok; [done|]. apply ip_hdr0_byte; [|cbn; unfold byte; lia].
  repeat constructor; unfold byte in *; lia.
Qed.
Lemma net_set_udp_header_ok n h r payload rest dest dport sport : NetTxPacket n = h ++ r ++ payload ++ rest ->
  length r = 28%nat -> rest <> [] -> exists rest', length rest' = length rest
  /\ net_set_udp_header n (length h) dest dport sport (zlen payload)
    = Some (with_tx (with_ipid n (u32 (NetIPID n + 1)))
        (h ++ udp_packet (NetIPID n) (NetOurIP (cfg n)) dest sport dport payload ++ rest')).
Proof.
  intros Htx Hr Hne. unfold net_set_udp_header.
  assert (exists rest', length rest' = length rest /\
    (if negb (zlen payload .& 1 =? 0) then bput (NetTxPacket n) (length h + IP_UDP_HDR_SIZE + Z.to_nat (zlen payload)) [0]
     else Some (NetTxPacket n)) = Some (h ++ r ++ payload ++ rest')) as (rest' & Hl & ->).
  { rewrite Htx, Nat2Z.id. destruct rest as [|c rest]; [done|]. case_if; [|by exists (c :: rest)].
    exists (0 :: rest). split; [done|]. rewrite !app_assoc.
    replace (length h + IP_UDP_HDR_SIZE + length payload)%nat with (length ((h ++ r) ++ payload))
      by (rewrite !length_app, Hr; unfold IP_UDP_HDR_SIZE; lia). apply bput_end. }
  exists rest'. split; [done|]. cbn [mbind option_bind].
  unfold udp_packet. rewrite <- !app_assoc. generalize (payload ++ rest'). intros tail.
  explode r Hr. cbn [app].
  rewrite (net_set_ip_header_ok _ h [z; z0; z1; z2; z3; z4; z5; z6; z7; z8; z9; z10; z11; z12; z13; z14; z15; z16; z17; z18] z8
    ([z19; z20; z21; z22; z23; z24; z25; z26] ++ tail)) by done.
  cbn [mbind option_bind NetTxPacket with_tx with_ipid cfg NetIPID]. unfold ip_hdr0. cbn [app].
  do 2 bput_step.
  rewrite drop_app_length. change (Z.of_nat IP_HDR_SIZE ≫ 1) with 10.
  match goal with |- NetCksum ?l 10 ≫= _ = _ =>
    change l with (ip_hdr0 (htons_bytes (28 + zlen payload)) (htons_bytes (NetIPID n)) (htons_bytes IP_FLAGS_DFRAG) [255; IPPROTO_UDP; 0; 0]
      (NetOurIP (cfg n)) dest ++ [z19; z20; z21; z22; z23; z24; z25; z26] ++ tail) end.
  rewrite NetCksum_hdr0 by (unfold byte, IPPROTO_UDP; lia). cbn [mbind option_bind].
  set (ck := cksum20 _). unfold ip_hdr0. cbn [app]. repeat bput_step. reflexivity.
Qed.

(** ** Taking a datagram apart *)
Definition for_us (n : net) (dst : Z) : Prop := NetOurIP (cfg n) = 0 \/ dst = NetOurIP (cfg n) \/ dst = 0xffffffff.
Lemma ip_fields h total id off proto c src dst tail : off = 0 \/ off = IP_FLAGS_DFRAG ->
  let b := h ++ ip_hdr total id off proto c src dst ++ tail in
  be16 b (length h + ip_len) = Some (u16 total) /\ b !! (length h + ip_hl_v)%nat = Some 0x45
  /\ NetDefragment b (length h) = Some true /\ b !! (length h + ip_p)%nat = Some proto
  /\ NetReadIP b (length h + ip_src) = NetReadIP (ip_bytes src ++ ip_bytes dst ++ tail) 0
  /\ NetReadIP b (length h + ip_dst) = NetReadIP (ip_bytes dst ++ tail) 0.
Proof.
  intros Ho. cbv zeta. unfold NetDefragment. rewrite !be16_at, !lookup_at, !NetReadIP_at. unfold ip_hdr, ip_hdr0.
  split_and!; try reflexivity; [|by destruct Ho as [-> | ->]]. exact (htons_bytes_u16 total []).
Qed.
Lemma ip_header_ok n h total id off proto src dst tail len : let b := h ++ ip_hdr_ck total id off proto src dst ++ tail in
  off = 0 \/ off = IP_FLAGS_DFRAG -> 0 <= total < 0x10000 -> total <= len -> 28 <= len -> for_us n dst ->
  0 <= src < 0x100000000 -> 0 <= dst < 0x100000000 -> byte proto ->
  ip_header n b (length h) len = Some (inl (total, src))
  /\ NetDefragment b (length h) = Some true /\ b !! (length h + ip_p)%nat = Some proto.
Proof.
  cbv zeta. intros Ho Ht Hl Hl28 Hus Hs Hd Hp. unfold ip_header. change (Z.of_nat IP_UDP_HDR_SIZE) with 28. case_if; [lia|].
  rewrite drop_app_length. change (Z.of_nat IP_HDR_SIZE / 2) with 10. rewrite ip_hdr_ck_ok by done.
  unfold ip_hdr_ck. set (c := cksum20 _).
  pose proof (ip_fields h total id off proto c src dst tail Ho) as (-> & -> & -> & -> & -> & ->). split; [|done].
  rewrite !ip_bytes_read, u16_small by done. cbn [mbind option_bind]. case_if; [lia|].
  change (negb (0x45 .& 0xf0 =? 0x40)) with false. change (5 <? 0x45 .& 0x0f) with false. cbn [negb]. cbn iota.
  case_if; [|done]. exfalso. destruct Hus as [H|[H|H]]; lia.
Qed.
(** ** ARP *)
Record node_ok (n : net) : Prop := mknode_ok {
  ok_tx : length (NetTxPacket n) = PKTSIZE_ALIGN;
  ok_arp : length (NetArpTxPacket n) = PKTSIZE_ALIGN;
  ok_ether : length (NetOurEther (cfg n)) = 6%nat;
  ok_server : length (NetServerEther n) = 6%nat;
  ok_vlan : 0 <= NetOurVLAN (cfg n) < 0x10000;
  ok_ip : 0 <= NetOurIP (cfg n) < 0x100000000;
  ok_wait : 0 <= NetArpWaitTxPacketSize (aw n) <= Z.of_nat PKTSIZE_ALIGN }.
Definition arp_pkt (op : Z) (sha : list Z) (spa : Z) (tha : list Z) (tpa : Z) : list Z :=
  htons_bytes ARP_ETHER ++ htons_bytes PROT_IP ++ [ARP_HLEN; ARP_PLEN] ++ htons_bytes op
  ++ sha ++ ip_bytes spa ++ tha ++ ip_bytes tpa.
Lemma arp_pkt_len op sha spa tha tpa : length sha = 6%nat -> length tha = 6%nat ->
  length (arp_pkt op sha spa tha tpa) = 28%nat.
Proof. intros Hs Ht. unfold arp_pkt. rewrite !length_app, Hs, Ht. done. Qed.
Lemma NetEthHdrSize_range n : (14 <= NetEthHdrSize n <= 18)%nat.
Proof. unfold NetEthHdrSize, ETHER_HDR_SIZE, VLAN_ETHER_HDR_SIZE. case_match; lia. Qed.
(** A buffer, cut behind the headers. *)
Lemma cut_buffer (b : list Z) (k m : nat) : (k + m <= length b)%nat ->
  exists h r rest, b = h ++ r ++ rest /\ length h = k /\ length r = m.
Proof.
  intros Hl. exists (take k b), (take m (drop k b)), (drop m (drop k b)).
  rewrite !take_drop, !length_take, length_drop. split; [done|lia].
Qed.
Lemma NetSendPacket_ok n p rest : NetSendPacket n (p ++ rest) (zlen p) = Some (with_wire n (wire n ++ [p])).
Proof.
  unfold NetSendPacket. rewrite length_app. case_if; [|lia]. by rewrite Nat2Z.id, take_app_length.
Qed.

Lemma arp_raw_request_ok n sip tmac tip : node_ok n -> length tmac = 6%nat ->
  exists b, length b = PKTSIZE_ALIGN /\ arp_raw_request n sip tmac tip
    = Some (with_wire (with_arp_tx n b) (wire n ++ [eth_hdr n NetBcastAddr (NetOurEther (cfg n)) PROT_ARP
        ++ arp_pkt ARPOP_REQUEST (NetOurEther (cfg n)) sip tmac tip])).
Proof.
  intros [_ Hb He _ _ _ _] Ht. pose proof (NetEthHdrSize_range n) as Hr. unfold arp_raw_request, NetWriteIP.
  destruct (cut_buffer (NetArpTxPacket n) (NetEthHdrSize n) 28) as (h0 & r & rest & Heq & Hh0 & Hr28);
    [rewrite Hb; unfold PKTSIZE_ALIGN; lia|].
  rewrite Heq, NetSetEther_ok by done. cbn [mbind option_bind].
  set (h := eth_hdr n _ _ PROT_ARP). assert (length h = NetEthHdrSize n) as Hh by by apply eth_hdr_len.
  rewrite <- Hh. exists (h ++ arp_pkt ARPOP_REQUEST (NetOurEther (cfg n)) sip tmac tip ++ rest). split.
  { rewrite !length_app, arp_pkt_len by done. apply (f_equal length) in Heq. rewrite !length_app in Heq. lia. }
  generalize dependent (NetOurEther (cfg n)). intros mac He h Hh. unfold arp_pkt.
  explode r Hr28. explode mac He. explode tmac Ht. clearbody h. cbn [app]. repeat bput_step.
  match goal with |- NetSendPacket (with_arp_tx n ?l) _ _ = Some (with_wire _ (_ ++ [?p])) =>
    assert (l = p ++ rest) as -> by (by rewrite <- app_assoc);
    replace (Z.of_nat (length h + ARP_HDR_SIZE)) with (zlen p) by (rewrite length_app; reflexivity)
  end.
  rewrite NetSendPacket_ok. f_equal. rewrite <- app_assoc. done.
Qed.
(** An Ethernet header of a received frame, turned around. *)
Lemma net_update_ether_ok n n' dst src prot0 r addr prot : same_vlan n n' -> length dst = 6%nat ->
  length src = 6%nat -> length addr = 6%nat -> length (NetOurEther (cfg n')) = 6%nat ->
  1514 < prot0 < 0x10000 -> prot0 <> PROT_VLAN ->
  net_update_ether n' (eth_hdr n dst src prot0 ++ r) addr prot
  = Some (eth_hdr n addr (NetOurEther (cfg n')) prot ++ r, NetEthHdrSize n).
Proof.
  intros Hv Hd Hs Ha Ho Hp Hnv. unfold net_update_ether, NetEthHdrSize, eth_hdr, no_vlan.
  generalize dependent (NetOurEther (cfg n')). intros mac Ho.
  explode dst Hd. explode src Hs. explode addr Ha. explode mac Ho.
  destruct (vlan_id (NetOurVLAN (cfg n)) .& VLAN_IDMASK =? VLAN_NONE); cbn [app].
  - do 2 bput_eval. change (be16 _ et_protlen) with (be16 (htons_bytes prot0 ++ r) 0).
    rewrite htons_bytes_be by lia. cbn [mbind option_bind]. replace (prot0 =? PROT_VLAN) with false by lia.
    replace (1514 <? prot0) with true by lia. bput_eval. reflexivity.
  - do 2 bput_eval. change (be16 _ et_protlen) with (Some PROT_VLAN).
    cbn [mbind option_bind]. change (PROT_VLAN =? PROT_VLAN) with true. cbn iota. bput_eval. reflexivity.
Qed.
Lemma arp_fields h op sha spa tha tpa rest : length sha = 6%nat -> length tha = 6%nat ->
  let b := h ++ arp_pkt op sha spa tha tpa ++ rest in
  be16 b (length h + ar_hrd) = Some ARP_ETHER /\ be16 b (length h + ar_pro) = Some PROT_IP
  /\ b !! (length h + ar_hln)%nat = Some ARP_HLEN /\ b !! (length h + ar_pln)%nat = Some ARP_PLEN
  /\ NetReadIP b (length h + ar_tpa) = NetReadIP (ip_bytes tpa ++ rest) 0
  /\ NetReadIP b (length h + ar_spa) = NetReadIP (ip_bytes spa ++ tha ++ ip_bytes tpa ++ rest) 0
  /\ bget b (length h + ar_sha) 6 = Some sha
  /\ be16 b (length h + ar_op) = Some (u16 op).
Proof.
  intros Hs Ht. cbv zeta. rewrite !be16_at, !lookup_at, !NetReadIP_at, bget_at. unfold arp_pkt.
  explode sha Hs. explode tha Ht. split_and!; try reflexivity. exact (htons_bytes_u16 op []).
Qed.

Section node.
Context {H : Type} (handler : net -> H -> list Z -> Z -> Z -> Z -> Z -> option (net * H)).
Abbreviation Receive := (NetReceive handler).

Lemma receive_arp n n' hs dst src op sha spa tha rest len :
  let h := eth_hdr n dst src PROT_ARP in
  let b := h ++ arp_pkt op sha spa tha (NetOurIP (cfg n')) ++ rest in
  same_vlan n n' -> 0 <= NetOurVLAN (cfg n) < 0x10000 -> length dst = 6%nat -> length src = 6%nat ->
  length sha = 6%nat -> length tha = 6%nat -> 0 < NetOurIP (cfg n') < 0x100000000 ->
  Z.of_nat (NetEthHdrSize n) + 28 <= len -> 0 <= op < 0x10000 ->
  Receive n' hs b len
  = (n'' ← (if op =? ARPOP_REQUEST then arp_request n' b (length h)
            else if op =? ARPOP_REPLY then arp_reply n' b (length h) else Some n');
     Some (n'', hs)).
Proof.
  cbv zeta. intros Hv Hvr Hd Hs Hsh Hth Hip Hlen Hop. unfold NetReceive.
  destruct (eth_header_ok n n' dst src PROT_ARP (arp_pkt op sha spa tha (NetOurIP (cfg n')) ++ rest) len)
    as (v & Hhd & Hmis); [done..|unfold PROT_ARP; lia|done|lia|].
  rewrite Hhd. cbn [mbind option_bind]. rewrite Hmis. change (PROT_ARP =? PROT_ARP) with true. cbn iota.
  set (h := eth_hdr n dst src PROT_ARP) in *. assert (length h = NetEthHdrSize n) as Hh by by apply eth_hdr_len.
  rewrite <- Hh. unfold ArpReceive. change (Z.of_nat ARP_HDR_SIZE) with 28. case_if; [lia|].
  pose proof (arp_fields h op sha spa tha (NetOurIP (cfg n')) rest Hsh Hth) as (-> & -> & -> & -> & -> & _ & _ & ->).
  cbn [mbind option_bind]. rewrite !Z.eqb_refl. cbn [negb]. cbn iota. case_if; [lia|].
  rewrite ip_bytes_read by lia. cbn [mbind option_bind]. rewrite Z.eqb_refl. cbn [negb]. cbn iota.
  rewrite u16_small by lia. by repeat case_if.
Qed.
(** A request for our address is answered with it. *)
Lemma arp_request_ok n n' dst src sha spa tha tip rest :
  let h := eth_hdr n dst src PROT_ARP in
  same_vlan n n' -> length dst = 6%nat -> length src = 6%nat -> length sha = 6%nat -> length tha = 6%nat ->
  length (NetOurEther (cfg n')) = 6%nat ->
  arp_request n' (h ++ arp_pkt ARPOP_REQUEST sha spa tha tip ++ rest) (length h)
  = Some (with_wire n' (wire n' ++ [eth_hdr n src (NetOurEther (cfg n')) PROT_ARP
      ++ arp_pkt ARPOP_REPLY (NetOurEther (cfg n')) (NetOurIP (cfg n')) sha spa])).
Proof.
  cbv zeta. intros Hv Hd Hs Hsh Hth Ho. unfold arp_request, NetCopyIP, NetWriteIP.
  assert (bget (eth_hdr n dst src PROT_ARP ++ arp_pkt ARPOP_REQUEST sha spa tha tip ++ rest) et_src 6 = Some src) as ->.
  { unfold eth_hdr. explode dst Hd. explode src Hs. done. }
  cbn [mbind option_bind]. rewrite net_update_ether_ok by (done || unfold PROT_ARP; lia).
  cbn [mbind option_bind].
  assert (length (eth_hdr n dst src PROT_ARP) = length (eth_hdr n src (NetOurEther (cfg n')) PROT_ARP)) as ->
    by by rewrite !eth_hdr_len.
  assert (NetEthHdrSize n = length (eth_hdr n src (NetOurEther (cfg n')) PROT_ARP)) as -> by by rewrite eth_hdr_len.
  set (h := eth_hdr n src _ PROT_ARP). generalize dependent (NetOurEther (cfg n')). intros mac Ho h.
  clearbody h. unfold arp_pkt.
  explode sha Hsh. explode tha Hth. explode mac Ho. cbn [app]. bput_step.
  rewrite !bget_at. change (bget _ ar_sha 6) with (Some [z; z0; z1; z2; z3; z4]). cbn [mbind option_bind].
  bput_step. rewrite bget_at. change (bget _ ar_spa 4) with (Some (ip_bytes spa)). cbn [mbind option_bind].
  repeat bput_step.
  match goal with |- NetSendPacket _ ?l _ = Some (with_wire _ (_ ++ [?p])) =>
    assert (l = p ++ rest) as -> by (by rewrite <- app_assoc);
    replace (Z.of_nat (length h + ARP_HDR_SIZE)) with (zlen p) by (rewrite length_app; reflexivity)
  end.
  by rewrite NetSendPacket_ok.
Qed.
(** The answer to our request: the address is kept and the packet that waits is sent to it. *)
Lemma arp_reply_ok n' h w tha tpa sha spa rest p0 pkt tl : NetTxPacket n' = p0 ++ pkt ++ tl -> length p0 = 6%nat ->
  length sha = 6%nat -> length tha = 6%nat -> aw n' = w -> NetArpWaitTxPacketSize w = 6 + zlen pkt ->
  NetArpWaitPacketIP w <> 0 -> NetArpWaitReplyIP w = spa -> 0 <= spa < 0x100000000 ->
  arp_reply n' (h ++ arp_pkt ARPOP_REPLY sha spa tha tpa ++ rest) (length h)
  = let n1 := match NetArpWaitPacketMAC w with Some NetServerEther_ => with_server n' sha | _ => n' end in
    Some (with_aw (with_wire (with_tx n1 (sha ++ pkt ++ tl)) (wire n' ++ [sha ++ pkt])) (set_wait w 0 None 0)).
Proof.
  intros Htx Hp0 Hsh Hth Hw Hsz Hip Hrep Hspa. unfold arp_reply. rewrite Hw. replace (_ =? 0) with false by lia.
  pose proof (arp_fields h ARPOP_REPLY sha spa tha tpa rest Hsh Hth) as (_ & _ & _ & _ & _ & -> & -> & _).
  rewrite ip_bytes_read by done. cbn [mbind option_bind]. rewrite Hrep, Z.eqb_refl.
  set (n1 := match NetArpWaitPacketMAC w with Some NetServerEther_ => _ | _ => _ end).
  assert (NetTxPacket n1 = p0 ++ pkt ++ tl) as -> by (unfold n1; by repeat case_match).
  assert (wire n1 = wire n' /\ aw n1 = w) as [Hwi Haw] by (unfold n1; by repeat case_match).
  clearbody n1. explode p0 Hp0. explode sha Hsh. cbn [app]. bput_eval. rewrite !drop_0.
  match goal with |- NetSendPacket _ (?a :: ?b :: ?c :: ?d :: ?e :: ?f :: _) _ ≫= _ = _ =>
    change (a :: b :: c :: d :: e :: f :: pkt ++ tl) with ((a :: b :: c :: d :: e :: f :: pkt) ++ tl);
    replace (NetArpWaitTxPacketSize w) with (zlen (a :: b :: c :: d :: e :: f :: pkt)) by (cbn [length]; lia)
  end.
  rewrite NetSendPacket_ok. cbn [mbind option_bind wire with_wire with_tx aw with_aw]. by rewrite Hwi, Haw.
Qed.

(** A frame with a datagram for us goes to the handler. *)
Lemma receive_udp n n' hs mac id src dst sport dport payload rest len :
  let f := eth_hdr n mac (NetOurEther (cfg n)) PROT_IP ++ udp_packet id src dst sport dport payload in
  same_vlan n n' -> 0 <= NetOurVLAN (cfg n) < 0x10000 -> length mac = 6%nat -> length (NetOurEther (cfg n)) = 6%nat ->
  for_us n' dst -> 0 <= src < 0x100000000 -> 0 <= dst < 0x100000000 ->
  0 <= sport < 0x10000 -> 0 <= dport < 0x10000 -> 28 + zlen payload < 0x10000 -> zlen f <= len ->
  Receive n' hs (f ++ rest) len = handler n' hs (payload ++ rest) dport src sport (zlen payload).
Proof.
  cbv zeta. intros Hv Hvr Hm He Hus Hs Hd Hsp Hdp Hpl Hlen. unfold udp_packet in *. rewrite <- !app_assoc in *.
  set (h := eth_hdr n mac _ PROT_IP) in *.
  assert (length h = NetEthHdrSize n) as Hh by by apply eth_hdr_len.
  rewrite !length_app in Hlen. change (length (ip_hdr_ck _ _ _ _ _ _)) with 20%nat in Hlen.
  change (length (udp_hdr _ _ _)) with 8%nat in Hlen. unfold NetReceive.
  destruct (eth_header_ok n n' mac (NetOurEther (cfg n)) PROT_IP
    (ip_hdr_ck (28 + zlen payload) id IP_FLAGS_DFRAG IPPROTO_UDP src dst ++ udp_hdr sport dport (8 + zlen payload) ++ payload ++ rest) len)
    as (v & Hhd & Hmis); [done|done|done|done|unfold PROT_IP; lia|done|lia|].
  fold h in Hhd. rewrite Hhd. cbn [mbind option_bind]. rewrite Hmis. change (PROT_IP =? PROT_ARP) with false.
  change (PROT_IP =? PROT_IP) with true. cbn iota. rewrite <- Hh.
  destruct (ip_header_ok n' h (28 + zlen payload) id IP_FLAGS_DFRAG IPPROTO_UDP src dst
    (udp_hdr sport dport (8 + zlen payload) ++ payload ++ rest) (len - zlen h))
    as (Hih & Hdf & Hp); [by right|lia|lia|lia|done|done|done|unfold byte, IPPROTO_UDP; lia|].
  rewrite Hih. cbn [mbind option_bind]. rewrite Hdf. cbn [mbind option_bind]. cbn iota. rewrite Hp.
  cbn [mbind option_bind]. change (IPPROTO_UDP =? IPPROTO_ICMP) with false. change (IPPROTO_UDP =? IPPROTO_UDP) with true.
  cbn [negb]. cbn iota. rewrite !be16_at, drop_at.
  assert (forall k q, be16 (ip_hdr_ck (28 + zlen payload) id IP_FLAGS_DFRAG IPPROTO_UDP src dst ++ q) (20 + k) = be16 q k) as Hsk
    by (intros k q; exact (be16_at (ip_hdr_ck (28 + zlen payload) id IP_FLAGS_DFRAG IPPROTO_UDP src dst) q k)).
  change udp_src with (20 + 0)%nat. change udp_dst with (20 + 2)%nat. change udp_len with (20 + 4)%nat. rewrite !Hsk.
  unfold udp_hdr. rewrite <- !app_assoc.
  change (be16 (htons_bytes sport ++ ?x) 2) with (be16 x 0).
  change (be16 (htons_bytes sport ++ htons_bytes dport ++ ?x) 4) with (be16 x 0).
  rewrite !htons_bytes_be by lia. cbn [mbind option_bind].
  replace (8 + zlen payload - UDP_HDR_SIZE) with (zlen payload) by (unfold UDP_HDR_SIZE; lia). rewrite u32_small by lia. done.
Qed.

(** ** Two nodes on one segment *)
Definition on_segment (a b : net) : Prop :=
  node_ok a /\ node_ok b /\ same_vlan a b /\ 0 < NetOurIP (cfg b) < 0xffffffff /\ 0 < NetOurIP (cfg a)
  /\ NetOurIP (cfg b) .& NetOurSubnetMask (cfg a) = NetOurIP (cfg a) .& NetOurSubnetMask (cfg a).
(** What [a] becomes when [b] has answered. *)
Definition resolved (a b : net) (pkt tl : list Z) (q : list Z) (arptx : list Z) : net :=
  let a1 := with_arp_tx (with_aw a (set_reply (set_arp_try (aw a) (get_timer (lp a) 0) 1) (NetOurIP (cfg b)))) arptx in
  let mac := NetOurEther (cfg b) in
  let a2 := match NetArpWaitPacketMAC (aw a) with Some NetServerEther_ => with_server a1 mac | _ => a1 end in
  with_aw (with_wire (with_tx a2 (mac ++ pkt ++ tl)) (wire a ++ [q; mac ++ pkt])) (set_wait (aw a1) 0 None 0).
(** The address of [b] is asked for and found, and the packet that waits is sent to it. *)
Lemma arp_exchange a b p0 pkt tl : on_segment a b -> NetTxPacket a = p0 ++ pkt ++ tl -> length p0 = 6%nat ->
  NetArpWaitTxPacketSize (aw a) = 6 + zlen pkt -> NetArpWaitPacketIP (aw a) = NetOurIP (cfg b) ->
  exists a1 q r arptx, start_arp a = Some a1 /\ wire a1 = wire a ++ [q]
    /\ (forall hs j, Receive b hs (q ++ j) (zlen q) = Some (with_wire b (wire b ++ [r]), hs))
    /\ (forall hs j, Receive a1 hs (r ++ j) (zlen r) = Some (resolved a b pkt tl q arptx, hs)).
Proof.
  intros (Hoa & Hob & Hv & Hip & Hipa & Hnet) Htx Hp0 Hsz Hw. unfold start_arp, ArpRequest.
  set (a0 := with_aw a (set_arp_try (aw a) (get_timer (lp a) 0) 1)).
  assert ((if NetArpWaitPacketIP (aw a0) .& NetOurSubnetMask (cfg a0) =? NetOurIP (cfg a0) .& NetOurSubnetMask (cfg a0)
     then NetArpWaitPacketIP (aw a0)
     else if NetOurGatewayIP (cfg a0) =? 0 then NetArpWaitPacketIP (aw a0) else NetOurGatewayIP (cfg a0))
    = NetOurIP (cfg b)) as ->.
  { cbn [aw cfg a0 with_aw set_arp_try NetArpWaitPacketIP]. rewrite Hw. case_if; [done|]. rewrite Hnet in *. lia. }
  set (a0' := with_aw a0 _). pose proof (ok_ether b Hob) as Heb.
  pose proof (ok_ether a Hoa) as Hea. pose proof (ok_ip a Hoa) as Hia.
  destruct (arp_raw_request_ok a0' (NetOurIP (cfg a0)) NetEtherNullAddr (NetOurIP (cfg b))) as (arptx & _ & ->);
    [by destruct Hoa|done|].
  set (q := eth_hdr a0' _ _ PROT_ARP ++ _). set (a1 := with_wire _ _).
  exists a1, q, (eth_hdr a0' (NetOurEther (cfg a)) (NetOurEther (cfg b)) PROT_ARP
    ++ arp_pkt ARPOP_REPLY (NetOurEther (cfg b)) (NetOurIP (cfg b)) (NetOurEther (cfg a)) (NetOurIP (cfg a))), arptx.
  split; [done|]. split; [done|]. split.
  - intros hs j. unfold q. rewrite <- app_assoc. rewrite receive_arp; try done.
    + rewrite Z.eqb_refl. cbn iota. by rewrite arp_request_ok.
    + apply (ok_vlan a Hoa).
    + lia.
    + rewrite length_app, eth_hdr_len, arp_pkt_len by done. lia.
  - intros hs j. rewrite <- app_assoc.
    change (NetOurIP (cfg a)) with (NetOurIP (cfg a1)) at 1. rewrite receive_arp; try done.
    + change (ARPOP_REPLY =? ARPOP_REQUEST) with false. rewrite Z.eqb_refl. cbn iota.
      erewrite (arp_reply_ok a1 _ _ _ _ _ _ _ p0 pkt tl); [|exact Htx|exact Hp0|exact Heb|exact Hea
        |reflexivity|exact Hsz|cbn; lia|reflexivity|lia].
      cbn [mbind option_bind]. unfold resolved. do 2 f_equal.
      change (NetArpWaitPacketMAC (aw a1)) with (NetArpWaitPacketMAC (aw a)).
      destruct (NetArpWaitPacketMAC (aw a)) as [[]|]; cbn; by rewrite <- app_assoc.
    + apply (ok_vlan a Hoa).
    + cbn. lia.
    + rewrite length_app, eth_hdr_len, arp_pkt_len by done. lia.
Qed.

(** The frame with a datagram, in the transmit buffer. *)
Definition udp_frame (a : net) (mac : list Z) (dst sport dport : Z) (payload : list Z) : list Z :=
  eth_hdr a mac (NetOurEther (cfg a)) PROT_IP ++ udp_packet (NetIPID a) (NetOurIP (cfg a)) dst sport dport payload.
Lemma NetSendUDPPacket_ok a pre payload rest dst dport sport : node_ok a ->
  NetTxPacket a = pre ++ payload ++ rest -> length pre = (NetEthHdrSize a + 28)%nat -> rest <> [] ->
  0 < dst < 0xffffffff -> exists rest', let tx := udp_frame a (NetServerEther a) dst sport dport payload ++ rest' in
  let a' := with_tx (with_ipid a (u32 (NetIPID a + 1))) tx in
  let len := Z.of_nat (NetEthHdrSize a + 28) + zlen payload in
  length rest' = length rest /\
  NetSendUDPPacket a NetServerEther_ dst dport sport (zlen payload)
  = (if bool_decide (NetServerEther a = NetEtherNullAddr)
     then n ← start_arp (with_aw a' (set_wait (aw a) dst (Some NetServerEther_) len)); Some (n, 1)
     else n ← NetSendPacket a' tx len; Some (n, 0)).
Proof.
  intros [Htl _ He Hs _ _ _] Htx Hpre Hne Hdst. cbv zeta.
  rewrite <- (take_drop (NetEthHdrSize a) pre) in Htx.
  set (h0 := take _ pre) in *. set (r := drop _ pre) in *.
  assert (length h0 = NetEthHdrSize a) as Hh0 by (unfold h0; rewrite length_take; lia).
  assert (length r = 28%nat) as Hr by (unfold r; rewrite length_drop; lia).
  unfold NetSendUDPPacket. replace (dst =? 0) with false by lia. replace (dst =? 0xffffffff) with false by lia.
  cbn [ether_addr]. rewrite Htx, <- app_assoc, NetSetEther_ok by done. cbn [mbind option_bind].
  set (h := eth_hdr a _ _ PROT_IP). assert (length h = NetEthHdrSize a) as Hh by by apply eth_hdr_len.
  rewrite <- Hh.
  destruct (net_set_udp_header_ok (with_tx a (h ++ r ++ payload ++ rest)) h r payload rest dst dport sport)
    as (rest' & Hl & ->); [done..|]. cbn [mbind option_bind].
  exists rest'. split; [done|]. unfold udp_frame. fold h. rewrite <- app_assoc. unfold IP_UDP_HDR_SIZE. done.
Qed.
Lemma udp_packet_len id src dst sport dport payload :
  zlen (udp_packet id src dst sport dport payload) = 28 + zlen payload.
Proof.
  unfold udp_packet. rewrite !length_app. change (length (ip_hdr_ck _ _ _ _ _ _)) with 20%nat.
  change (length (udp_hdr _ _ _)) with 8%nat. lia.
Qed.

(** C15: A datagram reaches the handler of the other node.  The payload is in the transmit buffer
    behind the place of the headers.  If the address of the server is known, [NetSendUDPPacket]
    sends a frame at once; if it is not, it asks for it, the other node answers, and the answer
    makes the node keep the address and send the frame.  When the other node receives the frame,
    its handler gets exactly the payload, the two ports and the address of the sender.  Both
    nodes can be in a VLAN, and anything can be in their buffers behind a frame. *)
Theorem udp_delivered a b pre payload rest sport dport
  (Hseg : on_segment a b) (Htx : NetTxPacket a = pre ++ payload ++ rest)
  (Hpre : length pre = (NetEthHdrSize a + 28)%nat) (Hrest : rest <> [])
  (Hsp : 0 <= sport < 0x10000) (Hdp : 0 <= dport < 0x10000)
  (Hmac : NetServerEther a = NetEtherNullAddr \/ NetServerEther a = NetOurEther (cfg b))
  (Hnull : NetOurEther (cfg b) <> NetEtherNullAddr) :
  exists a1 f, (forall w j hs, Receive (with_wire b w) hs (f ++ j) (zlen f)
      = handler (with_wire b w) hs (payload ++ j) dport (NetOurIP (cfg a)) sport (zlen payload))
  /\ if bool_decide (NetServerEther a = NetEtherNullAddr) then
    exists q r a2, NetSendUDPPacket a NetServerEther_ (NetOurIP (cfg b)) dport sport (zlen payload) = Some (a1, 1)
      /\ wire a1 = wire a ++ [q]
      /\ (forall hs j, Receive b hs (q ++ j) (zlen q) = Some (with_wire b (wire b ++ [r]), hs))
      /\ (forall hs j, Receive a1 hs (r ++ j) (zlen r) = Some (a2, hs))
      /\ wire a2 = wire a1 ++ [f] /\ NetServerEther a2 = NetOurEther (cfg b)
      /\ NetArpWaitPacketIP (aw a2) = 0
  else NetSendUDPPacket a NetServerEther_ (NetOurIP (cfg b)) dport sport (zlen payload) = Some (a1, 0)
      /\ wire a1 = wire a ++ [f].
Proof.
  pose proof Hseg as (Hoa & Hob & Hv & Hip & Hipa & Hnet). pose proof (NetEthHdrSize_range a) as Hr.
  assert (zlen rest > 0) as Hrl by (destruct rest; [done|cbn; lia]).
  assert (28 + zlen payload < 0x10000) as Hsz.
  { pose proof (ok_tx a Hoa) as Hl. rewrite Htx, !length_app in Hl. unfold PKTSIZE_ALIGN in Hl. lia. }
  pose proof (ok_ether a Hoa) as Hea. pose proof (ok_ether b Hob) as Heb. pose proof (ok_ip a Hoa) as Hia.
  destruct (NetSendUDPPacket_ok a pre payload rest (NetOurIP (cfg b)) dport sport Hoa Htx Hpre Hrest Hip) as (rest' & Hl' & Hsend).
  cbv zeta in Hsend. set (ip := NetOurIP (cfg b)) in *. set (f := udp_frame a (NetOurEther (cfg b)) ip sport dport payload).
  assert (forall mac, length mac = 6%nat -> Z.of_nat (NetEthHdrSize a + 28) + zlen payload = zlen (udp_frame a mac ip sport dport payload)) as Hlen.
  { intros mac Hm. unfold udp_frame. rewrite length_app, eth_hdr_len by done. pose proof (udp_packet_len (NetIPID a) (NetOurIP (cfg a)) ip sport dport payload). lia. }
  assert (forall w j hs, Receive (with_wire b w) hs (f ++ j) (zlen f)
      = handler (with_wire b w) hs (payload ++ j) dport (NetOurIP (cfg a)) sport (zlen payload)) as Hrcv.
  { intros w j hs. unfold f, udp_frame. apply receive_udp; try done; [apply (ok_vlan a Hoa)|by right; left|lia]. }
  destruct (bool_decide_reflect (NetServerEther a = NetEtherNullAddr)) as [Hnul|Hnn].
  - rewrite Hnul in Hsend. set (u := udp_packet (NetIPID a) (NetOurIP (cfg a)) ip sport dport payload).
    set (pkt := NetOurEther (cfg a) ++ (if no_vlan a then htons_bytes PROT_IP
       else htons_bytes PROT_VLAN ++ htons_bytes (vlan_id (NetOurVLAN (cfg a)) .& VLAN_IDMASK) ++ htons_bytes PROT_IP) ++ u).
    assert (forall mac, udp_frame a mac ip sport dport payload = mac ++ pkt) as Hf
      by (intros mac; unfold udp_frame, eth_hdr, pkt; by rewrite <- !app_assoc).
    rewrite (Hlen _ (eq_refl : length NetEtherNullAddr = 6%nat)), Hf in Hsend.
    rewrite length_app in Hsend. change (length NetEtherNullAddr) with 6%nat in Hsend.
    match type of Hsend with _ = (n ← start_arp ?x; _) => set (a0 := x) in Hsend end.
    destruct (arp_exchange a0 b NetEtherNullAddr pkt rest') as (a1 & q & r & arptx & Hs & Hw & Hq & Hrr).
    { assert (zlen pkt + 6 + zlen rest' = Z.of_nat PKTSIZE_ALIGN) as Hpl.
      { specialize (Hlen _ (eq_refl : length NetEtherNullAddr = 6%nat)). rewrite Hf, length_app in Hlen.
        change (length NetEtherNullAddr) with 6%nat in Hlen. pose proof (ok_tx a Hoa) as Hl.
        rewrite Htx, !length_app in Hl. lia. }
      destruct Hoa. split; [|exact (conj Hob (conj Hv (conj Hip (conj Hipa Hnet))))]. split; try done.
      - cbn [NetTxPacket a0 with_aw with_tx]. rewrite !length_app. change (length NetEtherNullAddr) with 6%nat. lia.
      - cbn [aw a0 with_aw set_wait NetArpWaitTxPacketSize]. lia. }
    { cbn [a0 with_aw with_tx NetTxPacket]. by rewrite <- app_assoc. }
    { done. }
    { cbn [a0 with_aw aw set_wait NetArpWaitTxPacketSize]. lia. }
    { done. }
    rewrite Hs in Hsend. exists a1, f. split; [done|]. exists q, r. eexists.
    split; [exact Hsend|]. split; [exact Hw|]. split; [exact Hq|]. split; [exact Hrr|].
    split_and!; [|done..]. unfold resolved. cbn [wire with_aw with_wire]. rewrite Hw, <- app_assoc. unfold f. by rewrite Hf.
  - destruct Hmac as [Hmac|Hmac]; [done|]. rewrite Hmac in Hsend. fold f in Hsend.
    rewrite (Hlen _ Heb) in Hsend. fold f in Hsend. rewrite NetSendPacket_ok in Hsend. cbn [mbind option_bind] in Hsend.
    eexists _, f. split; [done|]. by rewrite Hsend.
Qed.

(** ** Ping *)
(** An ICMP message behind its checksum [c]. *)
Definition icmp_msg (type code c : Z) (data : list Z) : list Z := [type; code] ++ le16_bytes c ++ data.
Lemma le16_bytes_0 : le16_bytes 0 = [0; 0].
Proof. done. Qed.
Lemma NetCksum_some l k : (2 * k <= length l)%nat -> Z.of_nat k <= 0x10000 -> Forall byte l ->
  exists c, (forall rest, NetCksum (l ++ rest) (Z.of_nat k) = Some c) /\ 0 <= c <= 0xffff
    /\ c mod 0xffff = wsum (take (2 * k) l) mod 0xffff.
Proof.
  intros Hl Hk Hb.
  destruct (NetCksum_ok (take (2 * k) l) k) as (c & Hc & Hr & Hm & _);
    [by rewrite length_take_le|done|by apply Forall_take|].
  exists c. split; [|done]. intros rest. rewrite <- (Hc (drop (2 * k) l ++ rest)). by rewrite app_assoc, take_drop.
Qed.
Lemma set_icmp_header_ok n h r rest dest : NetTxPacket n = h ++ r ++ rest -> length r = 28%nat ->
  exists c, set_icmp_header n (length h) dest
    = Some (with_tx (with_seq (with_ipid n (u32 (NetIPID n + 1))) (u16 (PingSeqNo n + 1)))
        (h ++ ip_hdr_ck 28 (NetIPID n) IP_FLAGS_DFRAG IPPROTO_ICMP (NetOurIP (cfg n)) dest
           ++ icmp_msg ICMP_ECHO_REQUEST 0 c ([0; 0] ++ htons_bytes (PingSeqNo n)) ++ rest)).
Proof.
  intros Htx Hr. unfold set_icmp_header. explode r Hr. cbn [app] in *.
  rewrite (net_set_ip_header_ok _ h [z; z0; z1; z2; z3; z4; z5; z6; z7; z8; z9; z10; z11; z12; z13; z14; z15; z16; z17; z18] z8
    ([z19; z20; z21; z22; z23; z24; z25; z26] ++ rest)) by done.
  cbn [mbind option_bind NetTxPacket with_tx with_ipid cfg NetIPID PingSeqNo]. unfold ip_hdr0. cbn [app].
  do 2 bput_step. rewrite drop_app_length. change (Z.of_nat IP_HDR_SIZE ≫ 1) with 10.
  match goal with |- context [NetCksum ?l 10] =>
    change l with (ip_hdr0 (htons_bytes 28) (htons_bytes (NetIPID n)) (htons_bytes IP_FLAGS_DFRAG) [255; IPPROTO_ICMP; 0; 0]
      (NetOurIP (cfg n)) dest ++ [z19; z20; z21; z22; z23; z24; z25; z26] ++ rest) end.
  rewrite NetCksum_hdr0 by (unfold byte, IPPROTO_ICMP; lia). cbn [mbind option_bind].
  set (ck := cksum20 _). unfold ip_hdr0. cbn [app]. bput_step. rewrite <- !Nat.add_assoc.
  do 5 bput_step. rewrite drop_at. change (Z.of_nat ICMP_HDR_SIZE ≫ 1) with (Z.of_nat 4).
  match goal with |- context [drop IP_HDR_SIZE ?l] =>
    change (drop IP_HDR_SIZE l) with ([ICMP_ECHO_REQUEST; 0; 0; 0; 0; 0; u16 (PingSeqNo n) / 256; u16 (PingSeqNo n) mod 256] ++ rest) end.
  destruct (NetCksum_ok [ICMP_ECHO_REQUEST; 0; 0; 0; 0; 0; u16 (PingSeqNo n) / 256; u16 (PingSeqNo n) mod 256] 4)
    as (c & -> & _); [done|lia| |].
  { apply (Forall_app _ [ICMP_ECHO_REQUEST; 0; 0; 0; 0; 0] (htons_bytes (PingSeqNo n))).
    split; [by_computation|apply htons_bytes_byte]. }
  cbn [mbind option_bind]. bput_step. exists (Z.lnot c). reflexivity.
Qed.

(** An echo request is answered with its data. *)
Lemma echo_request_ok n dst src id off srcip dstip code ck data :
  let h := eth_hdr n dst src PROT_IP in let total := 24 + zlen data in
  length dst = 6%nat -> length src = 6%nat -> total < 0x10000 -> byte code -> Forall byte data ->
  exists c, (forall n' rest, same_vlan n n' -> length (NetOurEther (cfg n')) = 6%nat -> ping_receive n' (h ++ ip_hdr_ck total id off IPPROTO_ICMP srcip dstip
      ++ icmp_msg ICMP_ECHO_REQUEST code ck data ++ rest) (length h) total
    = Some (with_wire n' (wire n' ++ [eth_hdr n src (NetOurEther (cfg n')) PROT_IP
        ++ ip_hdr_ck total id 0 IPPROTO_ICMP (NetOurIP (cfg n')) srcip ++ icmp_msg ICMP_ECHO_REPLY code c data])))
    /\ (Z.even total = true -> NetCksumOk (icmp_msg ICMP_ECHO_REPLY code c data) (2 + zlen data / 2) = Some true).
Proof.
  cbv zeta. intros Hd Hs Ht Hcode Hb.
  assert (Forall byte ([ICMP_ECHO_REPLY; code; 0; 0] ++ data)) as Hb'.
  { apply Forall_app. split; [|done]. repeat (apply Forall_cons; split); try done; unfold byte, ICMP_ECHO_REPLY; lia. }
  assert (2 * (2 + length data / 2) <= length ([ICMP_ECHO_REPLY; code; 0%Z; 0%Z] ++ data))%nat as Hl2.
  { rewrite length_app. cbn [length]. pose proof (Nat.mul_div_le (length data) 2 ltac:(lia)). lia. }
  destruct (NetCksum_some _ (2 + length data / 2) Hl2) as (c & Hc & Hr & Hm); [lia|done|].
  exists (Z.lnot c). split.
  - intros n' rest Hv Ho. unfold ping_receive, NetCopyIP, NetWriteIP.
    rewrite <- !Nat.add_assoc, lookup_at.
    change (_ !! (udp_src + icmp_type)%nat) with (Some ICMP_ECHO_REQUEST). cbn [mbind option_bind].
    change (ICMP_ECHO_REQUEST =? ICMP_ECHO_REPLY) with false. change (ICMP_ECHO_REQUEST =? ICMP_ECHO_REQUEST) with true. cbn iota.
    set (body := ip_hdr_ck _ _ _ _ _ _ ++ _).
    assert (bget (eth_hdr n dst src PROT_IP ++ body) et_src 6 = Some src) as ->.
    { unfold eth_hdr. explode dst Hd. explode src Hs. done. }
    cbn [mbind option_bind]. rewrite net_update_ether_ok by (done || unfold PROT_IP; lia). cbn [mbind option_bind].
    assert (length (eth_hdr n dst src PROT_IP) = length (eth_hdr n src (NetOurEther (cfg n')) PROT_IP)) as ->
      by by rewrite !eth_hdr_len.
    assert (NetEthHdrSize n = length (eth_hdr n src (NetOurEther (cfg n')) PROT_IP)) as -> by by rewrite eth_hdr_len.
    set (h := eth_hdr n src _ PROT_IP). clearbody h. unfold body, ip_hdr_ck at 1. clear body.
    set (old := cksum20 _). clearbody old. unfold ip_hdr, ip_hdr0 at 1, icmp_msg. cbn [app].
    do 2 bput_step. rewrite bget_at. change (bget _ ip_src 4) with (Some (ip_bytes srcip)). cbn [mbind option_bind].
    do 2 bput_step. rewrite drop_app_length. change (Z.of_nat IP_HDR_SIZE ≫ 1) with 10.
    match goal with |- context [NetCksum ?l 10] =>
      change l with (ip_hdr0 (htons_bytes (24 + zlen data)) (htons_bytes id) (htons_bytes 0) [255; IPPROTO_ICMP; 0; 0]
        (NetOurIP (cfg n')) srcip ++ icmp_msg ICMP_ECHO_REQUEST code ck data ++ rest) end.
    rewrite NetCksum_hdr0 by (unfold byte, IPPROTO_ICMP; lia). cbn [mbind option_bind].
    set (ck1 := cksum20 _). unfold ip_hdr0 at 1, icmp_msg at 1. cbn [app]. do 3 bput_step. rewrite drop_at.
    match goal with |- context [drop udp_src ?l] =>
      change (drop udp_src l) with (([ICMP_ECHO_REPLY; code; 0; 0] ++ data) ++ rest) end.
    assert (u32 (24 + zlen data - Z.of_nat IP_HDR_SIZE) ≫ 1 = Z.of_nat (2 + length data / 2)) as ->.
    { change (Z.of_nat IP_HDR_SIZE) with 20. rewrite u32_small by lia. rewrite Z.shiftr_div_pow2 by lia.
      change (2 ^ 1) with 2. rewrite Nat2Z.inj_add, Nat2Z.inj_div. zdm. }
    rewrite Hc. cbn [mbind option_bind]. bput_step.
    match goal with |- NetSendPacket _ ?l _ = Some (with_wire _ (_ ++ [?p])) =>
      assert (l = p ++ rest) as -> by (by rewrite <- app_assoc);
      replace (zlen h + (24 + zlen data)) with (zlen p)
        by (unfold icmp_msg; rewrite !length_app; change (length (ip_hdr_ck _ _ _ _ _ _)) with 20%nat;
            cbn [length le16_bytes app]; lia)
    end. by rewrite NetSendPacket_ok.
  - intros Hev. assert (exists m, length data = (2 * m)%nat) as [m Hdl].
    { apply Z.even_spec in Hev as [x Hx]. exists (Z.to_nat (x - 12)). lia. }
    assert (length data / 2 = m)%nat as Hdm by (rewrite Hdl, Nat.mul_comm, Nat.div_mul; lia).
    replace (2 + zlen data / 2) with (Z.of_nat (2 + m)) by (rewrite Hdl; zdm).
    rewrite take_ge in Hm by (rewrite length_app, Hdm, Hdl; cbn [length]; lia).
    change (NetCksumOk (icmp_msg ICMP_ECHO_REPLY code (Z.lnot c) data) (Z.of_nat (2 + m)) = Some true).
    rewrite <- (app_nil_r (icmp_msg _ _ _ _)). rewrite NetCksumOk_ok; [| |lia|].
    + f_equal. apply Z.eqb_eq. unfold icmp_msg. pose proof (le16_lnot c Hr) as Hw. cbn [le16_bytes app wsum] in *.
      match goal with |- ?x mod _ = 0 => match type of Hm with _ = ?y mod _ =>
        assert (x = y + (0xffff - c)) as -> by lia; by apply cksum_complement end end.
    + unfold icmp_msg. rewrite !length_app, Hdl. cbn [length le16_bytes]. lia.
    + unfold icmp_msg. rewrite !Forall_app. split_and!; [|apply le16_bytes_byte|done].
      repeat (apply Forall_cons; split); try done; unfold byte, ICMP_ECHO_REPLY; lia.
Qed.

Lemma receive_icmp_frame n n' hs mac smac id off src dst type code c data rest len :
  let h := eth_hdr n mac smac PROT_IP in let total := 24 + zlen data in
  let f := h ++ ip_hdr_ck total id off IPPROTO_ICMP src dst ++ icmp_msg type code c data ++ rest in
  same_vlan n n' -> 0 <= NetOurVLAN (cfg n) < 0x10000 -> length mac = 6%nat -> length smac = 6%nat ->
  for_us n' dst -> 0 <= src < 0x100000000 -> 0 <= dst < 0x100000000 -> off = 0 \/ off = IP_FLAGS_DFRAG ->
  4 <= zlen data -> total < 0x10000 -> zlen h + total <= len -> type <> ICMP_REDIRECT ->
  Receive n' hs f len = (n'' ← ping_receive n' f (length h) total; Some (n'', hs)).
Proof.
  cbv zeta. intros Hv Hvr Hm He Hus Hs Hd Ho Hdl Ht Hlen Hty.
  set (h := eth_hdr n mac _ PROT_IP) in *. assert (length h = NetEthHdrSize n) as Hh by by apply eth_hdr_len.
  unfold NetReceive.
  destruct (eth_header_ok n n' mac smac PROT_IP
    (ip_hdr_ck (24 + zlen data) id off IPPROTO_ICMP src dst ++ icmp_msg type code c data ++ rest) len)
    as (v & Hhd & Hmis); [done|done|done|done|unfold PROT_IP; lia|done|lia|].
  fold h in Hhd. rewrite Hhd. cbn [mbind option_bind]. rewrite Hmis. change (PROT_IP =? PROT_ARP) with false.
  change (PROT_IP =? PROT_IP) with true. cbn iota. rewrite <- Hh.
  destruct (ip_header_ok n' h (24 + zlen data) id off IPPROTO_ICMP src dst (icmp_msg type code c data ++ rest) (len - zlen h))
    as (Hih & Hdf & Hp); [done|lia|lia|lia|done|done|done|unfold byte, IPPROTO_ICMP; lia|].
  rewrite Hih. cbn [mbind option_bind]. rewrite Hdf. cbn [mbind option_bind]. cbn iota. rewrite Hp.
  cbn [mbind option_bind]. change (IPPROTO_ICMP =? IPPROTO_ICMP) with true. cbn iota.
  unfold receive_icmp. rewrite <- Nat.add_assoc, lookup_at.
  change (_ !! (udp_src + icmp_type)%nat) with (Some type). cbn [mbind option_bind].
  replace (type =? ICMP_REDIRECT) with false by lia. done.
Qed.
(** An answer from the address that is asked ends the loop with success. *)
Lemma echo_reply_ok n' h total id off src dst code c data rest : 0 <= src < 0x100000000 ->
  ping_receive n' (h ++ ip_hdr_ck total id off IPPROTO_ICMP src dst ++ icmp_msg ICMP_ECHO_REPLY code c data ++ rest)
    (length h) total
  = Some (if src =? NetPingIP n' then with_lp n' (net_set_state (lp n') NETLOOP_SUCCESS) else n').
Proof.
  intros Hs. unfold ping_receive. rewrite <- !Nat.add_assoc, lookup_at.
  change (_ !! (udp_src + icmp_type)%nat) with (Some ICMP_ECHO_REPLY). cbn [mbind option_bind].
  change (ICMP_ECHO_REPLY =? ICMP_ECHO_REPLY) with true. cbn iota. rewrite NetReadIP_at.
  unfold ip_hdr_ck. set (ck := cksum20 _). clearbody ck.
  match goal with |- NetReadIP ?l ip_src ≫= _ = _ => change (NetReadIP l ip_src)
    with (NetReadIP (ip_bytes src ++ ip_bytes dst ++ icmp_msg ICMP_ECHO_REPLY code c data ++ rest) 0) end.
  by rewrite ip_bytes_read.
Qed.

(** The echo request of [a] is answered by [b], and the answer ends the loop of [a], which may have
    changed but for its configuration. *)
Lemma echo_exchange a b off c data : on_segment a b -> zlen data = 4 -> Forall byte data ->
  off = 0 \/ off = IP_FLAGS_DFRAG ->
  let f := eth_hdr a (NetOurEther (cfg b)) (NetOurEther (cfg a)) PROT_IP
    ++ ip_hdr_ck 28 (NetIPID a) off IPPROTO_ICMP (NetOurIP (cfg a)) (NetOurIP (cfg b)) ++ icmp_msg ICMP_ECHO_REQUEST 0 c data in
  exists g msg,
    (forall w hs j, Receive (with_wire b w) hs (f ++ j) (zlen f) = Some (with_wire b (w ++ [g]), hs))
    /\ (forall a2 hs j, cfg a2 = cfg a -> NetPingIP a2 = NetOurIP (cfg b) ->
        Receive a2 hs (g ++ j) (zlen g) = Some (with_lp a2 (net_set_state (lp a2) NETLOOP_SUCCESS), hs))
    /\ drop (NetEthHdrSize a + IP_HDR_SIZE) g = msg /\ NetCksumOk msg 4 = Some true.
Proof.
  intros (Hoa & Hob & Hv & Hip & Hipa & Hnet) Hd Hdb Hoff f. pose proof (ok_vlan a Hoa) as Hva.
  pose proof (ok_ether a Hoa) as Hea. pose proof (ok_ether b Hob) as Heb. pose proof (ok_ip a Hoa) as Hia.
  set (ip := NetOurIP (cfg b)) in *. assert (24 + zlen data = 28) as H28 by lia.
  destruct (echo_request_ok a (NetOurEther (cfg b)) (NetOurEther (cfg a)) (NetIPID a) off
    (NetOurIP (cfg a)) ip 0 c data) as (c' & Hech & Hck); [done|done|lia|by unfold byte|done|].
  set (msg := icmp_msg ICMP_ECHO_REPLY 0 c' data). rewrite H28 in Hech, Hck. rewrite Hd in Hck.
  exists (eth_hdr a (NetOurEther (cfg a)) (NetOurEther (cfg b)) PROT_IP
    ++ ip_hdr_ck 28 (NetIPID a) 0 IPPROTO_ICMP ip (NetOurIP (cfg a)) ++ msg), msg.
  assert (forall mac smac t id off src dst, length mac = 6%nat -> length smac = 6%nat ->
    zlen (eth_hdr a mac smac PROT_IP ++ ip_hdr_ck 28 id off IPPROTO_ICMP src dst ++ icmp_msg t 0 c data)
    = zlen (eth_hdr a mac smac PROT_IP) + 28) as Hlen.
  { intros mac smac t id o src dst Hm Hs. rewrite !length_app. change (length (ip_hdr_ck _ _ _ _ _ _)) with 20%nat.
    unfold icmp_msg. rewrite !length_app. cbn [length le16_bytes]. lia. }
  split; [|split; [|split]].
  - intros w hs j. unfold f. rewrite Hlen, <- !app_assoc by done.
    pose proof (receive_icmp_frame a (with_wire b w) hs (NetOurEther (cfg b)) (NetOurEther (cfg a)) (NetIPID a) off
      (NetOurIP (cfg a)) ip ICMP_ECHO_REQUEST 0 c data j) as Hrcv. cbv zeta in Hrcv. rewrite H28 in Hrcv.
    rewrite Hrcv by (done || lia || by right; left). rewrite Hech by done. reflexivity.
  - intros a2 hs j Hcfg Hp. rewrite <- !app_assoc.
    pose proof (receive_icmp_frame a a2 hs (NetOurEther (cfg a)) (NetOurEther (cfg b)) (NetIPID a) 0
      ip (NetOurIP (cfg a)) ICMP_ECHO_REPLY 0 c' data j) as Hrcv. cbv zeta in Hrcv. rewrite H28 in Hrcv.
    rewrite Hrcv; try (done || lia || by left).
    + rewrite echo_reply_ok by lia. by rewrite Hp, Z.eqb_refl.
    + unfold same_vlan. by rewrite Hcfg.
    + right; left. by rewrite Hcfg.
    + unfold msg, icmp_msg. rewrite !length_app. change (length (ip_hdr_ck _ _ _ _ _ _)) with 20%nat. cbn [length le16_bytes]. lia.
  - rewrite app_assoc. apply drop_app_length'. rewrite length_app, eth_hdr_len by done. done.
  - by apply Hck.
Qed.

(** C25: A ping is answered.  [ping_start] asks for the address of the other node, which answers;
    the answer makes the node send its echo request, which arrives; the other node answers with
    the same data and a correct checksum, and when this answer arrives the loop ends with
    success, and not before. *)
Theorem ping_answered a b (Hseg : on_segment a b) (Hping : NetPingIP a = NetOurIP (cfg b))
  (Hst : net_state (lp a) = NETLOOP_CONTINUE) :
  exists a1 q r a2 f g a3 msg, ping_start a = Some a1 /\ wire a1 = wire a ++ [q]
    /\ (forall hs j, Receive b hs (q ++ j) (zlen q) = Some (with_wire b (wire b ++ [r]), hs))
    /\ (forall hs j, Receive a1 hs (r ++ j) (zlen r) = Some (a2, hs))
    /\ wire a2 = wire a1 ++ [f] /\ net_state (lp a2) = NETLOOP_CONTINUE
    /\ (forall w hs j, Receive (with_wire b w) hs (f ++ j) (zlen f) = Some (with_wire b (w ++ [g]), hs))
    /\ (forall hs j, Receive a2 hs (g ++ j) (zlen g) = Some (a3, hs))
    /\ net_state (lp a3) = NETLOOP_SUCCESS
    /\ drop (NetEthHdrSize a + IP_HDR_SIZE) g = msg /\ NetCksumOk msg 4 = Some true.
Proof.
  pose proof Hseg as (Hoa & Hob & Hv & Hip & Hipa & Hnet). pose proof (NetEthHdrSize_range a) as Hr.
  pose proof (ok_ether a Hoa) as Hea. pose proof (ok_ether b Hob) as Heb. pose proof (ok_ip a Hoa) as Hia.
  set (ip := NetOurIP (cfg b)) in *. unfold ping_start, ping_send.
  set (a0 := with_aw (with_lp a _) _).
  destruct (cut_buffer (NetTxPacket a) (NetEthHdrSize a) 28) as (h0 & r0 & rest & Heq & Hh0 & Hr0);
    [rewrite (ok_tx a Hoa); unfold PKTSIZE_ALIGN; lia|].
  change (NetTxPacket a0) with (NetTxPacket a). rewrite Heq, NetSetEther_ok by done. cbn [mbind option_bind].
  change (NetEthHdrSize a0) with (NetEthHdrSize a). set (h := eth_hdr a0 _ _ PROT_IP).
  assert (length h = NetEthHdrSize a) as Hh by by (apply (eth_hdr_len a0)). rewrite <- Hh.
  destruct (set_icmp_header_ok (with_tx a0 (h ++ r0 ++ rest)) h r0 rest (NetPingIP (with_tx a0 (h ++ r0 ++ rest)))) as (c & Hc); [done..|].
  change (NetPingIP a0) with (NetPingIP (with_tx a0 (h ++ r0 ++ rest))). rewrite Hc. clear Hc. cbn [mbind option_bind].
  change (NetPingIP (with_tx a0 _)) with (NetPingIP a). change (NetIPID (with_tx a0 _)) with (NetIPID a).
  change (cfg (with_tx a0 _)) with (cfg a). change (PingSeqNo (with_tx a0 _)) with (PingSeqNo a). rewrite Hping. fold ip.
  set (data := [0; 0] ++ htons_bytes (PingSeqNo a)).
  set (u := ip_hdr_ck 28 (NetIPID a) IP_FLAGS_DFRAG IPPROTO_ICMP (NetOurIP (cfg a)) ip ++ icmp_msg ICMP_ECHO_REQUEST 0 c data).
  set (pkt := NetOurEther (cfg a) ++ (if no_vlan a then htons_bytes PROT_IP
     else htons_bytes PROT_VLAN ++ htons_bytes (vlan_id (NetOurVLAN (cfg a)) .& VLAN_IDMASK) ++ htons_bytes PROT_IP) ++ u).
  assert (forall mac, eth_hdr a mac (NetOurEther (cfg a)) PROT_IP ++ u = mac ++ pkt) as Hf
    by (intros mac; unfold eth_hdr, pkt; by rewrite <- !app_assoc).
  match goal with |- context [start_arp ?x] => set (a0' := x) end.
  assert (zlen h + 28 = 6 + zlen pkt) as Hpkt.
  { pose proof (f_equal length (Hf NetEtherNullAddr)) as Hl. rewrite !length_app in Hl.
    change (eth_hdr a NetEtherNullAddr (NetOurEther (cfg a)) PROT_IP) with h in Hl.
    change (length NetEtherNullAddr) with 6%nat in Hl. change (length u) with 28%nat in Hl. lia. }
  destruct (arp_exchange a0' b NetEtherNullAddr pkt rest) as (a1 & q & r & arptx & Hs & Hw & Hq & Hrr).
  { pose proof (ok_tx a Hoa) as Htl. rewrite Heq, !length_app in Htl.
    destruct Hoa. split; [|exact (conj Hob (conj Hv (conj Hip (conj Hipa Hnet))))]. split; try done.
    - cbn [a0' NetTxPacket with_aw with_tx]. rewrite !length_app. change (length (ip_hdr_ck _ _ _ _ _ _)) with 20%nat.
      change (length (icmp_msg _ _ _ _)) with 8%nat. lia.
    - cbn [a0' aw with_aw set_wait NetArpWaitTxPacketSize]. unfold IP_ICMP_HDR_SIZE, PKTSIZE_ALIGN in *. lia. }
  { transitivity ((NetEtherNullAddr ++ pkt) ++ rest); [|by rewrite <- app_assoc].
    rewrite <- Hf. unfold u. rewrite <- !app_assoc. done. }
  { done. }
  { cbn [a0' aw with_aw set_wait NetArpWaitTxPacketSize]. unfold IP_ICMP_HDR_SIZE. lia. }
  { done. }
  set (a2 := resolved a0' b pkt rest q arptx) in *. set (f := NetOurEther (cfg b) ++ pkt).
  assert (zlen f = zlen h + 28) as Hfl by (unfold f; rewrite length_app, Heb; lia).
  destruct (echo_exchange a b IP_FLAGS_DFRAG c data Hseg eq_refl) as (g & msg & Hreq & Hrep & Hg & Hck);
    [apply Forall_app; split; [by repeat constructor|apply htons_bytes_byte]|by right|].
  assert (cfg a2 = cfg a /\ NetPingIP a2 = ip) as [Hcfg Hpip]
    by (unfold a2, resolved; by destruct (NetArpWaitPacketMAC (aw a0')) as [[]|]).
  exists a1, q, r, a2, f, g, (with_lp a2 (net_set_state (lp a2) NETLOOP_SUCCESS)), msg.
  split; [exact Hs|]. split; [exact Hw|]. split; [exact Hq|]. split; [exact Hrr|]. split.
  { unfold a2, resolved. cbn [wire with_aw with_wire]. rewrite Hw, <- app_assoc. done. }
  split; [unfold a2, resolved; destruct (NetArpWaitPacketMAC (aw a0')) as [[]|]; exact Hst|]. split.
  { unfold f. rewrite <- Hf. exact Hreq. }
  split; [intros hs j; by apply Hrep|]. split; [done|]. split; [by rewrite Hh|done].
Qed.
End node.

(** ** No frame leads out of the buffers *)
Lemma bput_some b off l : (off + length l <= length b)%nat ->
  exists b', bput b off l = Some b' /\ length b' = length b
    /\ forall i, ~ (off <= i < off + length l)%nat -> b' !! i = b !! i.
Proof.
  intros Hl. unfold bput. case_match eqn:E; [|apply Nat.leb_gt in E; lia]. eexists. split; [done|]. split.
  { rewrite !length_app, length_take, length_drop. lia. }
  intros i Hi. assert (length (take off b) = off) as Ht by (rewrite length_take; lia).
  destruct (decide (i < off)%nat).
  - rewrite lookup_app_l by lia. by rewrite lookup_take_lt by lia.
  - rewrite lookup_app_r, Ht, lookup_app_r, lookup_drop by lia. f_equal. lia.
Qed.
Lemma bget_some b off k : (off + k <= length b)%nat -> exists l, bget b off k = Some l /\ length l = k.
Proof.
  intros Hl. unfold bget. case_match eqn:E; [|apply Nat.leb_gt in E; lia]. eexists. split; [done|].
  rewrite length_take, length_drop. lia.
Qed.
Lemma be16_some b k : (k + 2 <= length b)%nat -> is_Some (be16 b k).
Proof.
  intros Hl. unfold be16. destruct (lookup_lt_is_Some_2 b k ltac:(lia)) as [x ->].
  destruct (lookup_lt_is_Some_2 b (S k) ltac:(lia)) as [y ->]. by eexists.
Qed.
Lemma NetReadIP_some b k : (k + 4 <= length b)%nat -> is_Some (NetReadIP b k).
Proof.
  intros Hl. unfold NetReadIP. destruct (bget_some b k 4 Hl) as (l & -> & Hl4). cbn [mbind option_bind].
  explode l Hl4. by eexists.
Qed.
Lemma NetCopyIP_some b k from : (k + 4 <= length b)%nat -> (from + 4 <= length b)%nat ->
  exists b', NetCopyIP b k from = Some b' /\ length b' = length b
    /\ forall i, ~ (k <= i < k + 4)%nat -> b' !! i = b !! i.
Proof.
  intros Hk Hf. unfold NetCopyIP. destruct (bget_some b from 4 Hf) as (l & -> & Hl). cbn [mbind option_bind].
  rewrite <- Hl. apply bput_some. lia.
Qed.
Lemma cksum_some l len : 0 <= len -> 2 * len <= zlen l -> is_Some (NetCksum l len).
Proof.
  intros H0 Hl. assert (forall x, is_Some (cksum_loop l len x)) as Hx.
  { revert l Hl. pattern len. apply natlike_ind; [|clear len H0; intros len H0 IH|done].
    - intros l _ x. destruct l; by eexists.
    - intros l Hl x. destruct l as [|a [|b l]]; cbn [length] in Hl; [lia..|]. cbn [cksum_loop].
      case_if; [by eexists|]. replace (Z.succ len - 1) with len by lia. apply IH. lia. }
  unfold NetCksum. destruct (Hx 0) as [y ->]. by eexists.
Qed.
(** A function that stays in its buffers and keeps the node in order. *)
Definition fine (r : option net) : Prop := exists n, r = Some n /\ node_ok n.
Lemma fine_some n : node_ok n -> fine (Some n).
Proof. by exists n. Qed.
Lemma send_fine n b len : node_ok n -> 0 <= len <= zlen b -> fine (NetSendPacket n b len).
Proof.
  intros Ho Hl. unfold NetSendPacket. case_if; [|lia]. apply fine_some. by destruct Ho.
Qed.
Ltac bput_ok :=
  match goal with |- context [bput ?b ?k ?l] =>
    let b' := fresh "b" in let Hb := fresh "Hb" in let Hl := fresh "Hl" in
    destruct (bput_some b k l) as (b' & Hb & Hl & _);
      [cbn [length htons_bytes le16_bytes ip_bytes]; unfold_offsets; lia|];
    rewrite Hb; cbn [mbind option_bind]; try rewrite Hl in * ; clear Hb end
with unfold_offsets :=
  unfold et_dest, et_src, et_protlen, et_prot, vet_tag, vet_type, ip_hl_v, ip_tos, ip_len, ip_id, ip_off, ip_ttl, ip_p,
    ip_sum, ip_src, ip_dst, udp_src, udp_dst, udp_len, udp_xsum, icmp_type, icmp_code, icmp_checksum, icmp_id,
    icmp_sequence, ar_hrd, ar_pro, ar_hln, ar_pln, ar_op, ar_sha, ar_spa, ar_tha, ar_tpa, IP_HDR_SIZE, IP_UDP_HDR_SIZE,
    ARP_HDR_SIZE, ETHER_HDR_SIZE, E802_HDR_SIZE, VLAN_ETHER_HDR_SIZE, ICMP_HDR_SIZE, UDP_HDR_SIZE in *.

(** What [eth_header] returns, and the header that an answer gets. *)
Lemma eth_header_some n b len : (22 <= length b)%nat -> exists r, eth_header n b len = Some r
  /\ match r with
     | inl (proto, ip, l, v) => l = len - Z.of_nat ip /\ (14 <= ip <= 22)%nat
         /\ forall addr prot, length addr = 6%nat -> length (NetOurEther (cfg n)) = 6%nat -> proto <> 1514 ->
            exists b', net_update_ether n b addr prot = Some (b', ip) /\ length b' = length b
     | inr _ => True
     end.
Proof.
  intros Hb. unfold eth_header. case_if; [by eexists|].
  destruct (be16_some b et_protlen ltac:(unfold_offsets; lia)) as [p Hp].
  assert (forall addr prot, length addr = 6%nat -> length (NetOurEther (cfg n)) = 6%nat -> exists b0,
    length b0 = length b /\ net_update_ether n b addr prot
    = (if p =? PROT_VLAN then b ← bput b0 vet_type (htons_bytes prot); Some (b, VLAN_ETHER_HDR_SIZE)
       else if 1514 <? p then b ← bput b0 et_protlen (htons_bytes prot); Some (b, ETHER_HDR_SIZE)
       else b ← bput b0 et_prot (htons_bytes prot); Some (b, E802_HDR_SIZE))) as Hu.
  { intros addr prot Ha Ho. unfold net_update_ether.
    destruct (bput_some b et_dest addr) as (b1 & -> & Hl1 & H1); [rewrite Ha; unfold_offsets; lia|].
    cbn [mbind option_bind].
    destruct (bput_some b1 et_src (NetOurEther (cfg n))) as (b2 & -> & Hl2 & H2); [rewrite Ho; unfold_offsets; lia|].
    cbn [mbind option_bind]. exists b2. split; [lia|].
    assert (be16 b2 et_protlen = Some p) as ->; [|done].
    rewrite <- Hp. unfold be16. unfold_offsets. by rewrite !H2, !H1 by lia. }
  rewrite Hp. cbn [mbind option_bind]. case_if.
  - destruct (be16_some b et_prot ltac:(unfold_offsets; lia)) as [q ->]. eexists. split; [done|].
    split; [done|]. split; [unfold_offsets; lia|]. intros addr prot Ha Ho _. destruct (Hu addr prot Ha Ho) as (b0 & Hl0 & ->).
    replace (p =? PROT_VLAN) with false by (unfold PROT_VLAN; lia). replace (1514 <? p) with false by lia.
    destruct (bput_some b0 et_prot (htons_bytes prot)) as (b' & -> & ? & _); [cbn; unfold_offsets; lia|].
    exists b'. split; [done|lia].
  - case_if.
    + eexists. split; [done|]. split; [done|]. split; [unfold_offsets; lia|]. intros addr prot Ha Ho Hne.
      destruct (Hu addr prot Ha Ho) as (b0 & Hl0 & ->).
      replace (p =? PROT_VLAN) with false by lia. replace (1514 <? p) with true by lia.
      destruct (bput_some b0 et_protlen (htons_bytes prot)) as (b' & -> & ? & _); [cbn; unfold_offsets; lia|].
      exists b'. split; [done|lia].
    + case_if; [by eexists|]. case_if; [by eexists|].
      destruct (be16_some b vet_tag ltac:(unfold_offsets; lia)) as [t ->]. cbn [mbind option_bind].
      destruct (be16_some b vet_type ltac:(unfold_offsets; lia)) as [q ->]. eexists. split; [done|].
      split; [done|]. split; [unfold_offsets; lia|]. intros addr prot Ha Ho _. destruct (Hu addr prot Ha Ho) as (b0 & Hl0 & ->).
      replace (p =? PROT_VLAN) with true by lia.
      destruct (bput_some b0 vet_type (htons_bytes prot)) as (b' & -> & ? & _); [cbn; unfold_offsets; lia|].
      exists b'. split; [done|lia].
Qed.

Section buffers.
Context (n : net) (b : list Z) (ip : nat) (Hok : node_ok n) (Hip : (14 <= ip <= 22)%nat) (Hb : (22 <= length b)%nat).
Context (Hup : forall addr prot, length addr = 6%nat ->
  exists b', net_update_ether n b addr prot = Some (b', ip) /\ length b' = length b).

Lemma arp_request_fine : (ip + 28 <= length b)%nat -> fine (arp_request n b ip).
Proof.
  intros Hl. unfold arp_request, NetWriteIP. pose proof (ok_ether n Hok) as He.
  destruct (bget_some b et_src 6 ltac:(unfold_offsets; lia)) as (src & -> & Hsrc). cbn [mbind option_bind].
  destruct (Hup src PROT_ARP Hsrc) as (b1 & -> & Hl1). cbn [mbind option_bind].
  bput_ok. destruct (bget_some b0 (ip + ar_sha) 6 ltac:(unfold_offsets; lia)) as (sha & -> & Hsha). cbn [mbind option_bind].
  bput_ok. destruct (NetCopyIP_some b2 (ip + ar_tpa) (ip + ar_spa)) as (b4 & -> & Hl4 & _); [unfold_offsets; lia..|].
  cbn [mbind option_bind]. bput_ok. bput_ok. apply send_fine; [done|]. unfold_offsets. lia.
Qed.
Lemma arp_reply_fine : (ip + 28 <= length b)%nat -> fine (arp_reply n b ip).
Proof.
  intros Hl. unfold arp_reply. case_if; [by apply fine_some|].
  destruct (NetReadIP_some b (ip + ar_spa) ltac:(unfold_offsets; lia)) as [spa ->]. cbn [mbind option_bind].
  case_if; [|by apply fine_some].
  destruct (bget_some b (ip + ar_sha) 6 ltac:(unfold_offsets; lia)) as (sha & -> & Hsha). cbn [mbind option_bind].
  set (n1 := match NetArpWaitPacketMAC (aw n) with Some NetServerEther_ => _ | _ => _ end).
  assert (node_ok n1 /\ aw n1 = aw n) as [Ho1 Haw].
  { unfold n1. destruct (NetArpWaitPacketMAC (aw n)) as [[]|]; [|done..]. split; [|done]. by destruct Hok. }
  clearbody n1. pose proof (ok_tx n1 Ho1) as Htx. pose proof (ok_wait n Hok) as Hw.
  destruct (bput_some (NetTxPacket n1) et_dest sha) as (tx & -> & Hltx & _); [unfold_offsets; unfold PKTSIZE_ALIGN in *; lia|].
  cbn [mbind option_bind]. unfold NetSendPacket. case_if; [|lia]. cbn [mbind option_bind].
  apply fine_some. destruct Ho1. split; try done. cbn. congruence.
Qed.
Lemma arp_fine len : Z.of_nat ip + len <= zlen b -> fine (ArpReceive n b ip len).
Proof.
  intros Hl. unfold ArpReceive. case_if; [by apply fine_some|].
  assert (ip + 28 <= length b)%nat as Hl28 by (unfold_offsets; lia).
  destruct (be16_some b (ip + ar_hrd) ltac:(unfold_offsets; lia)) as [x1 ->]. cbn [mbind option_bind].
  case_if; [by apply fine_some|].
  destruct (be16_some b (ip + ar_pro) ltac:(unfold_offsets; lia)) as [x2 ->]. cbn [mbind option_bind].
  case_if; [by apply fine_some|].
  destruct (lookup_lt_is_Some_2 b (ip + ar_hln) ltac:(unfold_offsets; lia)) as [x3 ->]. cbn [mbind option_bind].
  case_if; [by apply fine_some|].
  destruct (lookup_lt_is_Some_2 b (ip + ar_pln) ltac:(unfold_offsets; lia)) as [x4 ->]. cbn [mbind option_bind].
  do 2 (case_if; [by apply fine_some|]).
  destruct (NetReadIP_some b (ip + ar_tpa) ltac:(unfold_offsets; lia)) as [x5 ->]. cbn [mbind option_bind].
  case_if; [by apply fine_some|].
  destruct (be16_some b (ip + ar_op) ltac:(unfold_offsets; lia)) as [x6 ->]. cbn [mbind option_bind].
  case_if; [by apply arp_request_fine|]. case_if; [by apply arp_reply_fine|by apply fine_some].
Qed.
Lemma ping_fine len : (ip + 28 <= length b)%nat -> 20 <= len < 0x10000 -> Z.of_nat ip + len <= zlen b ->
  fine (receive_icmp n b ip len).
Proof.
  intros Hl28 Hlen Hl. unfold receive_icmp, ping_receive, NetWriteIP.
  destruct (lookup_lt_is_Some_2 b (ip + udp_src + icmp_type) ltac:(unfold_offsets; lia)) as [ty ->]. cbn [mbind option_bind].
  case_if; [by apply fine_some|]. case_if.
  { destruct (NetReadIP_some b (ip + ip_src) ltac:(unfold_offsets; lia)) as [sip ->]. cbn [mbind option_bind].
    apply fine_some. case_if; [by destruct Hok|done]. }
  case_if; [|by apply fine_some].
  destruct (bget_some b et_src 6 ltac:(unfold_offsets; lia)) as (src & -> & Hsrc). cbn [mbind option_bind].
  destruct (Hup src PROT_IP Hsrc) as (b1 & -> & Hl1). cbn [mbind option_bind]. do 2 bput_ok.
  destruct (NetCopyIP_some b2 (ip + ip_dst) (ip + ip_src)) as (b3 & -> & Hl3 & _); [unfold_offsets; lia..|].
  cbn [mbind option_bind]. bput_ok.
  destruct (cksum_some (drop ip b4) (Z.of_nat IP_HDR_SIZE ≫ 1)) as [c ->]; [done|..].
  { rewrite length_drop. change (Z.of_nat IP_HDR_SIZE ≫ 1) with 10. lia. }
  cbn [mbind option_bind]. do 3 bput_ok.
  match goal with |- context [NetCksum (drop ?k ?l) ?w] => destruct (cksum_some (drop k l) w) as [c2 ->] end.
  { apply Z.shiftr_nonneg, u32_range. }
  { rewrite length_drop. change (Z.of_nat IP_HDR_SIZE) with 20. rewrite u32_small by lia.
    rewrite Z.shiftr_div_pow2 by lia. unfold_offsets. zdm. }
  cbn [mbind option_bind]. bput_ok. apply send_fine; [done|lia].
Qed.
End buffers.

Lemma be16_range b k x : Forall byte b -> be16 b k = Some x -> 0 <= x < 0x10000.
Proof.
  unfold be16. intros Hb H. destruct (b !! k) as [a|] eqn:Ea; [|done]. destruct (b !! S k) as [c|] eqn:Ec; [|done].
  cbn in H. injection H as <-. pose proof (proj1 (Forall_lookup _ _) Hb _ _ Ea) as Ha.
  pose proof (proj1 (Forall_lookup _ _) Hb _ _ Ec) as Hc. unfold byte in *. lia.
Qed.
Section safe.
Context {H : Type} (handler : net -> H -> list Z -> Z -> Z -> Z -> Z -> option (net * H)).

(** C26: No frame leads out of the buffers.  Whatever bytes a frame has, [NetReceive] reads and
    writes inside of the receive buffer and of the two transmit buffers, what it sends is inside
    of them too, and the node stays in order; or it hands a datagram to the handler.  There is
    one exception: an IP packet with a total length below that of its own header (see
    [short_echo_request]). *)
Theorem receive_safe n hs b len (Hok : node_ok n) (Hb : Forall byte b) (Hl : (22 <= length b)%nat)
  (Hlen : len <= zlen b)
  (Hip : forall ip l v x, eth_header n b len = Some (inl (PROT_IP, ip, l, v)) ->
     be16 b (ip + ip_len) = Some x -> 20 <= x) :
  (exists n', NetReceive handler n hs b len = Some (n', hs) /\ node_ok n')
  \/ exists k dport sip sport ulen, NetReceive handler n hs b len = handler n hs (drop k b) dport sip sport ulen
       /\ (k <= length b)%nat.
Proof.
  unfold NetReceive. destruct (eth_header_some n b len Hl) as (r & Hr & Hr'). rewrite Hr. cbn [mbind option_bind].
  destruct r as [[[[proto ip] l] v]|[]]; [|left; by exists n]. destruct Hr' as (-> & Hir & Hup).
  case_if; [left; by exists n|].
  assert (proto <> 1514 -> forall addr prot, length addr = 6%nat ->
    exists b', net_update_ether n b addr prot = Some (b', ip) /\ length b' = length b) as Hup'
    by (intros Hne addr prot Ha; by apply Hup; [|apply (ok_ether n Hok)|]).
  destruct (Z.eqb_spec proto PROT_ARP) as [->|_].
  { left. destruct (arp_fine n b ip Hok Hir Hl (Hup' ltac:(done)) (len - Z.of_nat ip) ltac:(lia)) as (n' & -> & Hn').
    by exists n'. }
  destruct (Z.eqb_spec proto PROT_IP) as [->|_]; [|left; by exists n].
  unfold ip_header. case_if; [left; by exists n|].
  assert (ip + 28 <= length b)%nat as Hl28 by (unfold_offsets; lia).
  destruct (be16_some b (ip + ip_len) ltac:(unfold_offsets; lia)) as [x1 Hx1]. rewrite Hx1. cbn [mbind option_bind].
  specialize (Hip _ _ _ _ Hr Hx1). pose proof (be16_range _ _ _ Hb Hx1) as Hx1r.
  case_if; [left; by exists n|].
  destruct (lookup_lt_is_Some_2 b (ip + ip_hl_v) ltac:(unfold_offsets; lia)) as [x2 ->]. cbn [mbind option_bind].
  do 2 (case_if; [left; by exists n|]).
  unfold NetCksumOk. destruct (cksum_some (drop ip b) (Z.of_nat IP_HDR_SIZE / 2)) as [c ->]; [done|..].
  { rewrite length_drop. change (Z.of_nat IP_HDR_SIZE / 2) with 10. lia. }
  cbn [mbind option_bind]. case_if; [left; by exists n|].
  destruct (NetReadIP_some b (ip + ip_dst) ltac:(unfold_offsets; lia)) as [x3 ->]. cbn [mbind option_bind].
  case_if; [left; by exists n|].
  destruct (NetReadIP_some b (ip + ip_src) ltac:(unfold_offsets; lia)) as [x4 ->]. cbn [mbind option_bind].
  unfold NetDefragment. destruct (be16_some b (ip + ip_off) ltac:(unfold_offsets; lia)) as [x5 ->]. cbn [mbind option_bind].
  case_if; [left; by exists n|].
  destruct (lookup_lt_is_Some_2 b (ip + ip_p) ltac:(unfold_offsets; lia)) as [x6 ->]. cbn [mbind option_bind].
  case_if.
  { left. destruct (ping_fine n b ip Hok Hir Hl (Hup' ltac:(done)) x1 Hl28 ltac:(lia) ltac:(lia)) as (n' & -> & Hn').
    by exists n'. }
  case_if; [left; by exists n|].
  destruct (be16_some b (ip + udp_dst) ltac:(unfold_offsets; lia)) as [x7 ->]. cbn [mbind option_bind].
  destruct (be16_some b (ip + udp_src) ltac:(unfold_offsets; lia)) as [x8 ->]. cbn [mbind option_bind].
  destruct (be16_some b (ip + udp_len) ltac:(unfold_offsets; lia)) as [x9 ->]. cbn [mbind option_bind].
  right. do 5 eexists. split; [done|]. unfold_offsets. lia.
Qed.
End safe.

(** ** Two nodes *)
Definition idle_loop : netloop := mknet NETLOOP_CONTINUE 0 false false true 0 dummy_handler None 0 0 1000.
Definition ex_node (ip mac server ping : Z) : net :=
  mknode (mkcfg ip 0x00ffffff 0 (replicate 6 mac) 0xffff 0xffff) (replicate 6 server) 7
    (replicate 1536 9) (replicate 1536 9) (mkwait 0 0 None 0 0 0) 0 ping [] idle_loop.
(** 192.168.1.1, which pings 192.168.1.2. *)
Definition ex_a : net := ex_node 0x0101a8c0 0xaa 0 0x0201a8c0.
Definition ex_b : net := ex_node 0x0201a8c0 0xbb 0 0.
(** A handler that keeps what it gets. *)
Definition record_udp (n : net) (h : list (list Z * Z * Z * Z * Z)) (pkt : list Z) (dport sip sport len : Z) :
  option (net * list (list Z * Z * Z * Z * Z)) := Some (n, h ++ [(take 4 pkt, dport, sip, sport, len)]).
Lemma ex_node_ok ip mac server ping : 0 <= ip < 0x100000000 -> node_ok (ex_node ip mac server ping).
Proof. intros. split; try done; cbn; unfold PKTSIZE_ALIGN; lia. Qed.
Lemma ex_segment : on_segment ex_a ex_b.
Proof. split_and!; try done; apply ex_node_ok; lia. Qed.

Lemma cksum_detects_witness :
  NetCksumOk ([0x45; 0; 0xba; 0xff] ++ []) 2 = Some true /\ NetCksumOk ([0x45; 1; 0xba; 0xff] ++ []) 2 = Some false.
Proof.
  assert (NetCksumOk ([0x45; 0; 0xba; 0xff] ++ []) 2 = Some true) as H by reflexivity. split; [exact H|].
  apply (cksum_detects [] 0x45 0 [0xba; 0xff] 0x45 1 [] 2 0); [done|done|lia|..|done|done| | |exact H].
  - by_computation.
  - done.
  - lia.
Defined.
Lemma udp_delivered_witness : exists a1 q f, NetSendUDPPacket ex_a NetServerEther_ 0x0201a8c0 69 1024 4 = Some (a1, 1)
  /\ wire a1 = [q] /\ forall w j hs, NetReceive record_udp (with_wire ex_b w) hs (f ++ j) (zlen f)
     = record_udp (with_wire ex_b w) hs ([9; 9; 9; 9] ++ j) 69 0x0101a8c0 1024 4.
Proof.
  destruct (udp_delivered record_udp ex_a ex_b (replicate 42 9) [9; 9; 9; 9] (replicate 1490 9) 1024 69 ex_segment)
    as (a1 & f & Hrcv & Hsend); [done|done|done|lia|lia|by left|done|].
  change (bool_decide (NetServerEther ex_a = NetEtherNullAddr)) with true in Hsend. cbn iota in Hsend.
  destruct Hsend as (q & r & a2 & Hs & Hw & _). exists a1, q, f.
  split; [exact Hs|]. split; [exact Hw|exact Hrcv].
Defined.
Lemma ping_answered_witness : exists a1 a2 a3 f g, ping_start ex_a = Some a1
  /\ wire a2 = wire a1 ++ [f] /\ (forall hs j, NetReceive record_udp a2 hs (g ++ j) (zlen g) = Some (a3, hs))
  /\ net_state (lp a3) = NETLOOP_SUCCESS.
Proof.
  destruct (ping_answered record_udp ex_a ex_b ex_segment eq_refl eq_refl)
    as (a1 & q & r & a2 & f & g & a3 & msg & H1 & _ & _ & _ & H2 & _ & _ & H3 & H4 & _).
  exists a1, a2, a3, f, g. split; [exact H1|]. split; [exact H2|]. split; [exact H3|exact H4].
Defined.
Lemma receive_safe_witness :
  (exists n', NetReceive record_udp ex_b [] (replicate 64 0xff) 60 = Some (n', []) /\ node_ok n')
  \/ exists k dport sip sport ulen, NetReceive record_udp ex_b [] (replicate 64 0xff) 60
       = record_udp ex_b [] (drop k (replicate 64 0xff)) dport sip sport ulen /\ (k <= 64)%nat.
Proof.
  apply (receive_safe record_udp ex_b [] (replicate 64 0xff) 60).
  - apply ex_node_ok. lia.
  - by_computation.
  - cbn. lia.
  - cbn. lia.
  - intros ip l v x H. exfalso. vm_compute in H. discriminate.
Defined.

(** ** Observations *)
(** An echo request whose IP header says that the packet is empty: the length of its data is
    computed without a sign, and the checksum of the answer runs out of the buffer. *)
Definition short_echo : list Z :=
  eth_hdr ex_a (replicate 6 0xbb) (replicate 6 0xaa) PROT_IP
  ++ ip_hdr_ck 0 1 0 IPPROTO_ICMP 0x0101a8c0 0x0201a8c0 ++ icmp_msg ICMP_ECHO_REQUEST 0 0 [0; 0; 0; 0].
Lemma short_echo_request : NetReceive record_udp ex_b [] (short_echo ++ replicate 1494 0) (zlen short_echo) = None.
Proof. by vm_compute. Qed.
(** The length in the UDP header is not compared with the length of the packet, nor with the
    size of the header: the handler of this frame is told that it has 4294967288 bytes.  A
    transfer in progress copies as many to the load address. *)
Definition long_datagram : list Z :=
  eth_hdr ex_a (replicate 6 0xbb) (replicate 6 0xaa) PROT_IP
  ++ ip_hdr_ck 32 1 0 IPPROTO_UDP 0x0101a8c0 0x0201a8c0
  ++ udp_hdr 69 1024 0 ++ htons_bytes TFTP_DATA ++ htons_bytes 1.
Lemma udp_length_unchecked :
  (exists n, NetReceive record_udp ex_b [] (long_datagram ++ replicate 1490 0) (zlen long_datagram)
   = Some (n, [([0; 3; 0; 1], 1024, 0x0101a8c0, 69, 0xfffffff8)]))
  /\ forall getenv other s, TftpState (cl s) = STATE_SEND_RRQ -> TftpOurPort (cl s) = 1024 -> TftpLastBlock (cl s) = 0 ->
     TftpHandler getenv other s (drop 42 long_datagram ++ replicate 1490 0) 1024 0x0101a8c0 69 0xfffffff8 = None.
Proof.
  split; [eexists; by vm_compute|]. intros getenv other s Hs Hp Hl. unfold TftpHandler. rewrite Hp, Hs.
  change (drop 42 long_datagram) with (htons_bytes TFTP_DATA ++ htons_bytes 1).
  cbn [negb andb]. rewrite Z.eqb_refl. cbn [negb]. change (STATE_SEND_RRQ =? STATE_SEND_RRQ) with true. cbn [negb andb].
  change (0xfffffff8 <? 2) with false. cbn iota.
  change (be16 _ 0) with (Some TFTP_DATA) at 1. cbn [mbind option_bind].
  change (TFTP_DATA =? TFTP_OACK) with false. change (TFTP_DATA =? TFTP_DATA) with true. cbn iota.
  unfold handle_data. change (0xfffffff8 - 2 <? 2) with false. cbn iota.
  change (be16 _ 0) with (Some 1). cbn [mbind option_bind].
  unfold update_block_number. cbn [TftpBlock set_blocks]. change (1 =? 0) with false. cbn iota.
  cbn [TftpState set_blocks]. rewrite Hs. cbn.
  unfold accept_data, store_block. cbn. done.
Qed.
(** The answer to an echo request with an odd number of bytes: the last byte is left out of the
    checksum. *)
Definition odd_echo : list Z :=
  eth_hdr ex_a (replicate 6 0xbb) (replicate 6 0xaa) PROT_IP
  ++ ip_hdr_ck 29 1 0 IPPROTO_ICMP 0x0101a8c0 0x0201a8c0 ++ icmp_msg ICMP_ECHO_REQUEST 0 0 [0; 0; 0; 0; 5].
Lemma odd_echo_checksum :
  (r ← NetReceive record_udp ex_b [] (odd_echo ++ replicate 1494 0) (zlen odd_echo);
   g ← last (wire (fst r)); NetCksumOk (drop 34 g ++ [0]) 5) = Some false.
Proof. by vm_compute. Qed.
