(* ===== verification/Store.v ===== *)
(** * Ranges of a storage device

    The bytes of a device are a function from addresses; what is read from a range of it and
    what a write of a range leaves. *)
From S2P Require Import Prelude.

(** The [n] bytes from [a] on. *)
Definition bytes_at (f : Z -> Z) (a n : Z) : list Z := map f (seqZ a n).
(** [f] with the bytes [l] stored from [a] on. *)
Definition store (f : Z -> Z) (a : Z) (l : list Z) : Z -> Z := fun x =>
  match (if a <=? x then l !! Z.to_nat (x - a) else None) with Some d => d | None => f x end.
Definition same_bytes (f g : Z -> Z) : Prop := forall x, f x = g x.

#[export] Instance same_bytes_equiv : Equivalence same_bytes.
Proof. split; [done|by intros f g H x|intros f g h Hf Hg x; by rewrite Hf]. Qed.
#[export] Instance bytes_at_proper : Proper (same_bytes ==> eq ==> eq ==> eq) bytes_at.
Proof. intros f g H a ? <- n ? <-. by apply map_ext. Qed.
#[export] Instance store_proper : Proper (same_bytes ==> eq ==> eq ==> same_bytes) store.
Proof. intros f g H a ? <- l ? <- x. unfold store. by rewrite H. Qed.

Lemma range_app f a n m : 0 <= n -> 0 <= m -> bytes_at f a (n + m) = bytes_at f a n ++ bytes_at f (a + n) m.
Proof. intros. unfold bytes_at. by rewrite seqZ_app, map_app by lia. Qed.
Lemma bytes_at_len f a n : 0 <= n -> zlen (bytes_at f a n) = n.
Proof. intros. unfold bytes_at. rewrite length_map, length_seqZ. lia. Qed.
Lemma bytes_at_ext f g a n : (forall x, a <= x < a + n -> f x = g x) -> bytes_at f a n = bytes_at g a n.
Proof. intros H. apply map_ext_in. intros x Hx%list_elem_of_In%elem_of_seqZ. by apply H. Qed.
Lemma range_lookup f a n l : zlen l = n -> (forall i d, l !! i = Some d -> f (a + Z.of_nat i) = d) ->
  bytes_at f a n = l.
Proof.
  intros Hl H. apply list_eq. intros i. unfold bytes_at. rewrite list_lookup_fmap.
  destruct (decide (Z.of_nat i < n)).
  - rewrite lookup_seqZ_lt by lia. cbn. destruct (lookup_lt_is_Some_2 l i ltac:(lia)) as [d Hd].
    rewrite Hd. f_equal. by apply H.
  - rewrite lookup_seqZ_ge by lia. cbn. symmetry. apply lookup_ge_None. lia.
Qed.
Lemma range_take f a n m : 0 <= m <= n -> take (Z.to_nat m) (bytes_at f a n) = bytes_at f a m.
Proof.
  intros H. replace n with (m + (n - m)) by lia. rewrite range_app by lia. apply take_app_length'.
  pose proof (bytes_at_len f a m). lia.
Qed.

Lemma store_nil f a : same_bytes (store f a []) f.
Proof. intros x. unfold store. case_if; [|done]. by rewrite lookup_nil. Qed.
Lemma store_app f a l l' : same_bytes (store (store f a l) (a + zlen l) l') (store f a (l ++ l')).
Proof.
  intros x. unfold store. destruct (Z.leb_spec a x).
  - destruct (Z.leb_spec (a + zlen l) x).
    + rewrite lookup_app_r by lia. rewrite (lookup_ge_None_2 l) by lia.
      replace (Z.to_nat (x - (a + zlen l))) with (Z.to_nat (x - a) - length l)%nat by lia. done.
    + rewrite lookup_app_l by lia. by destruct (l !! Z.to_nat (x - a)).
  - destruct (Z.leb_spec (a + zlen l) x); [lia|done].
Qed.
Lemma store_outside f a l x : ~ (a <= x < a + zlen l) -> store f a l x = f x.
Proof. intros H. unfold store. case_if; [|done]. by rewrite lookup_ge_None_2 by lia. Qed.
Lemma bytes_at_store f a l : bytes_at (store f a l) a (zlen l) = l.
Proof.
  apply range_lookup; [done|]. intros i d Hi. unfold store. case_if; [|lia].
  replace (Z.to_nat (a + Z.of_nat i - a)) with i by lia. by rewrite Hi.
Qed.
Lemma store_at f a n : 0 <= n -> same_bytes (store f a (bytes_at f a n)) f.
Proof.
  intros Hn x. unfold store. destruct (Z.leb_spec a x); [|done]. unfold bytes_at. rewrite list_lookup_fmap.
  destruct (decide (x - a < n)).
  - rewrite lookup_seqZ_lt by lia. cbn. f_equal. lia.
  - by rewrite lookup_seqZ_ge by lia.
Qed.
Lemma bytes_at_inv f g a n x : bytes_at f a n = bytes_at g a n -> a <= x < a + n -> f x = g x.
Proof.
  intros H Hx. assert (forall h, bytes_at h a n !! Z.to_nat (x - a) = Some (h x)) as Hl.
  { intros h. unfold bytes_at. rewrite list_lookup_fmap, lookup_seqZ_lt by lia. cbn. do 2 f_equal. lia. }
  pose proof (Hl f) as H1. rewrite H, Hl in H1. congruence.
Qed.
(** Part of a range replaced. *)
Lemma bytes_at_patch f a n p w : 0 <= p -> p + zlen w <= n ->
  bytes_at (store f (a + p) w) a n
  = take (Z.to_nat p) (bytes_at f a n) ++ w ++ drop (Z.to_nat (p + zlen w)) (bytes_at f a n).
Proof.
  intros Hp Hn. replace n with (p + (zlen w + (n - p - zlen w))) by lia.
  rewrite !range_app by lia. rewrite bytes_at_store.
  pose proof (bytes_at_len f a p Hp) as H1. pose proof (bytes_at_len f (a + p) (zlen w) ltac:(lia)) as H2.
  set (A := bytes_at f a p) in *. set (B := bytes_at f (a + p) (zlen w)) in *.
  set (D := bytes_at f (a + p + zlen w) _).
  rewrite take_app_length' by lia. replace (drop _ (A ++ B ++ D)) with D.
  - f_equal; [|f_equal]; apply bytes_at_ext; intros x Hx; apply store_outside; lia.
  - rewrite app_assoc, drop_app_length'; [done|]. rewrite length_app. lia.
Qed.
Lemma bytes_at_patch_same f a n p w : 0 <= p -> p + zlen w <= n ->
  take (Z.to_nat p) (bytes_at f a n) ++ w ++ drop (Z.to_nat (p + zlen w)) (bytes_at f a n) = bytes_at f a n ->
  bytes_at f (a + p) (zlen w) = w.
Proof.
  intros Hp Hn H. rewrite <- bytes_at_patch in H by done.
  replace n with (p + (zlen w + (n - p - zlen w))) in H by lia. rewrite !range_app in H by lia.
  rewrite bytes_at_store in H.
  apply app_inj_1 in H as [_ H]; [|pose proof (bytes_at_len f a p Hp);
    pose proof (bytes_at_len (store f (a + p) w) a p Hp); lia].
  apply app_inj_1 in H as [H _]; [done|]. pose proof (bytes_at_len f (a + p) (zlen w) ltac:(lia)). lia.
Qed.
