(* ===== verification/Nor.v ===== *)
(** * NOR flash: [drivers/mtd/devices/jz_sfc_nor.c]

    Reading, writing and erasing ranges of a serial NOR flash on top of the commands of the
    chip.  A chip erases whole sectors to 0xff, a program command only clears bits and must stay
    inside of a page, and a read command may return fewer bytes than it was asked for.  The
    commands are an interface ([NorChip]) with the laws of such chips ([NorChipLaws]). *)
From S2P Require Import Prelude Store.

Class NorChip (C : Type) := {
  page_size : Z;
  erase_size : Z;
  (** The bytes that were read; [cur_len] is their number. *)
  sfc_do_read : C -> Z -> Z -> list Z;
  sfc_do_write : C -> Z -> list Z -> C;
  (** 0, or an error. *)
  sfc_do_erase : C -> Z -> Z * C }.

(** ** The partition table *)
Definition NORFLASH_PART_WO : Z := 1.
Definition NORFLASH_PART_RO : Z := 2.
Record nor_partition := mkpart { part_size : Z; part_offset : Z; mask_flags : Z }.

Section driver.
Context {C : Type} {Chip : NorChip C}.
(** The partitions; none where their number is 0 or 0xffffffff. *)
Context (nor_partitions : list nor_partition).
Definition masked (addr flag : Z) : bool :=
  existsb (fun p => (part_offset p <=? addr) && (addr <? u32 (part_offset p + part_size p))
                    && negb (mask_flags p .& flag =? 0)) nor_partitions.

(** ** Reading *)
Fixpoint sfc_read (fuel : nat) (c : C) (from len : Z) : option (list Z) :=
  if len =? 0 then Some []
  else match fuel with
       | O => None
       | S fuel =>
           let d := sfc_do_read c from len in
           rest ← sfc_read fuel c (u32 (from + zlen d)) (u32 (len - zlen d)); Some (d ++ rest)
       end.
(** [inr] where the buffer is left as it is. *)
Definition sfc_nor_read (c : C) (from len : Z) : option (list Z + unit) :=
  if masked from NORFLASH_PART_WO then Some (inr ())
  else d ← sfc_read (Z.to_nat len) c from len; Some (inl d).

(** ** Writing *)
(** [buf + i], [len] bytes of it. *)
Definition bytes_from (buf : list Z) (i len : Z) : option (list Z) :=
  if zlen buf <? i + len then None else Some (take (Z.to_nat len) (drop (Z.to_nat i) buf)).
Fixpoint write_loop (fuel : nat) (c : C) (to len : Z) (buf : list Z) (i : Z) : option C :=
  match fuel with
  | O => None
  | S fuel =>
      if i <? len then
        let actual_len := len - i in
        let actual_len := if page_size <=? actual_len then page_size else actual_len in
        d ← bytes_from buf i actual_len;
        write_loop fuel (sfc_do_write c (u32 (to + i)) d) to len buf (u32 (i + page_size))
      else Some c
  end.
Definition sfc_nor_page_write (c : C) (to len : Z) (buf : list Z) : option C :=
  if masked to NORFLASH_PART_RO then Some c
  else
    let page_offset := to .& (page_size - 1) in
    if u32 (page_offset + len) <=? page_size then
      d ← bytes_from buf 0 len; Some (sfc_do_write c to d)
    else
      let actual_len := page_size - page_offset in
      d ← bytes_from buf 0 actual_len;
      write_loop (Z.to_nat len) (sfc_do_write c to d) to len buf actual_len.
(** It returns 0 whatever happens. *)
Definition sfc_nor_write (c : C) (to len : Z) (buf : list Z) : option (Z * C) :=
  c ← sfc_nor_page_write c to len buf; Some (0, c).

(** ** Erasing *)
Fixpoint erase_loop (fuel : nat) (c : C) (addr end_ : Z) : option (Z * C) :=
  match fuel with
  | O => None
  | S fuel =>
      if addr <? end_ then
        let '(ret, c) := sfc_do_erase c addr in
        if negb (ret =? 0) then Some (ret, c) else erase_loop fuel c (u32 (addr + erase_size)) end_
      else Some (0, c)
  end.
Definition sfc_nor_erase (c : C) (addr len : Z) : option (Z * C) :=
  if masked addr NORFLASH_PART_RO then Some (0, c)
  else
    let len := if negb (len mod erase_size =? 0) then u32 (len - len mod erase_size + erase_size) else len in
    erase_loop (S (Z.to_nat (len / erase_size))) c addr (u32 (addr + len)).
End driver.

(** ** The chip *)
Class NorChipLaws (C : Type) {Chip : NorChip C} := {
  cell : C -> Z -> Z;
  cell_byte c x : 0 <= cell c x < 256;
  page_size_ok : exists k, 0 <= k < 16 /\ page_size = 2 ^ k;
  erase_size_ok : 0 < erase_size < 0x80000000;
  do_read_ok c a n : 0 < n -> exists m, 0 < m <= n /\ sfc_do_read c a n = bytes_at (cell c) a m;
  do_write_ok c a l x : a mod page_size + zlen l <= page_size ->
    cell (sfc_do_write c a l) x
    = match (if a <=? x then l !! Z.to_nat (x - a) else None) with Some d => cell c x .& d | None => cell c x end;
  do_erase_ok c a : exists c', sfc_do_erase c a = (0, c')
    /\ forall x, cell c' x = if x / erase_size =? a / erase_size then 0xff else cell c x }.

Lemma land_0xff d : 0 <= d < 256 -> 0xff .& d = d.
Proof.
  intros H. rewrite Z.land_comm. change 0xff with (Z.ones 8). rewrite Z.land_ones by lia. by apply Z.mod_small.
Qed.

Section laws.
Context {C : Type} {Chip : NorChip C} {Laws : NorChipLaws C} (parts : list nor_partition).
Abbreviation contents c := (bytes_at (cell c)).

(** A range is read completely, however many commands it takes. *)
Lemma sfc_read_ok c : forall fuel from len, 0 <= len <= Z.of_nat fuel -> 0 <= from -> from + len < 0x100000000 ->
  sfc_read fuel c from len = Some (contents c from len).
Proof.
  induction fuel as [|fuel IH]; intros from len Hl Hf Hs; cbn [sfc_read]; case_if.
  - replace len with 0 by lia. done.
  - lia.
  - replace len with 0 by lia. done.
  - destruct (do_read_ok c from len ltac:(lia)) as (m & Hm & ->). rewrite bytes_at_len, !u32_small by lia. rewrite IH by lia. cbn [mbind option_bind]. f_equal.
    replace len with (m + (len - m)) at 2 by lia. rewrite range_app by lia. done.
Qed.
Lemma sfc_nor_read_ok c from len : 0 <= len -> 0 <= from -> from + len < 0x100000000 ->
  masked parts from NORFLASH_PART_WO = false -> sfc_nor_read parts c from len = Some (inl (contents c from len)).
Proof. intros Hl Hf Hs Hm. unfold sfc_nor_read. by rewrite Hm, sfc_read_ok by lia. Qed.

(** What a write of [l] at [a] makes of the byte at [x]. *)
Definition written (c : C) (a : Z) (l : list Z) (x : Z) : Z :=
  match (if a <=? x then l !! Z.to_nat (x - a) else None) with Some d => cell c x .& d | None => cell c x end.
Lemma written_app c c' a l l' : (forall x, cell c' x = written c a l x) ->
  forall x, written c' (a + zlen l) l' x = written c a (l ++ l') x.
Proof.
  intros H x. unfold written. rewrite !H. unfold written.
  destruct (Z.leb_spec a x).
  - destruct (Z.leb_spec (a + zlen l) x).
    + rewrite lookup_app_r by lia. rewrite (lookup_ge_None_2 l) by lia.
      replace (Z.to_nat (x - (a + zlen l))) with (Z.to_nat (x - a) - length l)%nat by lia. done.
    + rewrite lookup_app_l by lia. by destruct (l !! Z.to_nat (x - a)).
  - destruct (Z.leb_spec (a + zlen l) x); [lia|done].
Qed.
Lemma page_pos : 0 < page_size < 0x10000.
Proof.
  destruct page_size_ok as (k & Hk & ->). split; [apply Z.pow_pos_nonneg; lia|].
  change 0x10000 with (2 ^ 16). apply Z.pow_lt_mono_r; lia.
Qed.
Lemma written_nil c a x : written c a [] x = cell c x.
Proof. unfold written. case_if; [|done]. by rewrite lookup_nil. Qed.
Lemma write_loop_ok to len buf : 0 <= to -> to + len < 0xfff00000 -> zlen buf = len ->
  forall fuel c i, 0 <= i -> (to + i) mod page_size = 0 -> len - i < Z.of_nat fuel -> (0 < fuel)%nat ->
  exists c', write_loop fuel c to len buf i = Some c'
    /\ forall x, cell c' x = written c (to + i) (drop (Z.to_nat i) buf) x.
Proof.
  pose proof page_pos as Hp. intros Ht Hlen Hb. induction fuel as [|fuel IH]; intros c i Hi Hmod Hfuel H0; [lia|].
  cbn [write_loop]. destruct (Z.ltb_spec i len) as [Hil|Hil].
  2:{ exists c. split; [done|]. intros x. rewrite drop_ge by lia. by rewrite written_nil. }
  set (n := if page_size <=? len - i then page_size else len - i).
  assert (0 < n <= page_size /\ n <= len - i /\ (n = page_size \/ n = len - i)) as (Hn & Hnl & Hn2)
    by (unfold n; case_if; lia).
  unfold bytes_from. case_if; [lia|]. cbn [mbind option_bind].
  set (d := take (Z.to_nat n) (drop (Z.to_nat i) buf)).
  assert (zlen d = n) as Hd by (unfold d; rewrite length_take, length_drop; lia).
  rewrite !u32_small by lia.
  assert (forall x, cell (sfc_do_write c (to + i) d) x = written c (to + i) d x) as Hw.
  { intros x. apply do_write_ok. lia. }
  destruct (IH (sfc_do_write c (to + i) d) (i + page_size)) as (c' & Hc' & Hx); [lia| |lia|lia|].
  { replace (to + (i + page_size)) with (to + i + 1 * page_size) by lia. by rewrite Z_mod_plus_full. }
  exists c'. split; [exact Hc'|]. intros x. rewrite Hx. destruct Hn2 as [Hn2|Hn2].
  - replace (to + (i + page_size)) with (to + i + zlen d) by lia.
    rewrite (written_app c _ (to + i) d _ Hw x). f_equal. unfold d.
    replace (Z.to_nat (i + page_size)) with (Z.to_nat i + Z.to_nat n)%nat by lia.
    by rewrite <- drop_drop, take_drop.
  - rewrite drop_ge, written_nil, Hw by lia. f_equal. unfold d. apply take_ge. rewrite length_drop. lia.
Qed.

(** A write of any length at any address is cut at the pages of the chip. *)
Lemma sfc_nor_page_write_ok c to len buf :
  0 <= to -> to + len < 0xfff00000 -> zlen buf = len -> masked parts to NORFLASH_PART_RO = false ->
  exists c', sfc_nor_page_write parts c to len buf = Some c' /\ forall x, cell c' x = written c to buf x.
Proof.
  pose proof page_pos as Hp. intros Ht Hlen Hb Hm. unfold sfc_nor_page_write. rewrite Hm.
  assert (to .& (page_size - 1) = to mod page_size) as ->.
  { destruct page_size_ok as (k & Hk & ->). rewrite <- Z.land_ones by lia. f_equal. rewrite Z.ones_equiv. lia. }
  pose proof (Z.mod_pos_bound to page_size ltac:(lia)) as Ho.
  rewrite u32_small by lia. destruct (Z.leb_spec (to mod page_size + len) page_size) as [Hf|Hf].
  - unfold bytes_from. case_if; [lia|]. cbn [mbind option_bind]. eexists. split; [done|]. intros x.
    rewrite drop_0, take_ge by lia. rewrite do_write_ok by lia. done.
  - unfold bytes_from. case_if; [lia|]. cbn [mbind option_bind]. rewrite drop_0.
    set (n := page_size - to mod page_size). set (d := take (Z.to_nat n) buf).
    assert (zlen d = n) as Hd by (unfold d; rewrite length_take; lia).
    assert (forall x, cell (sfc_do_write c to d) x = written c to d x) as Hw by (intros x; apply do_write_ok; lia).
    destruct (write_loop_ok to len buf Ht Hlen Hb (Z.to_nat len) (sfc_do_write c to d) n) as (c' & Hc' & Hx);
      [lia| |lia|lia|].
    { unfold n. pose proof (Z.div_mod to page_size ltac:(lia)).
      replace (to + (page_size - to mod page_size)) with ((to / page_size + 1) * page_size) by lia.
      apply Z_mod_mult. }
    exists c'. split; [exact Hc'|]. intros x. rewrite Hx. rewrite <- Hd at 1.
    rewrite (written_app c _ to d _ Hw x). f_equal. unfold d. by rewrite take_drop.
Qed.

(** Erasing goes from sector to sector. *)
Lemma erase_loop_ok : forall fuel c addr n, 0 <= addr -> 0 <= n < Z.of_nat fuel -> addr mod erase_size = 0 ->
  addr + n * erase_size + erase_size <= 0x100000000 ->
  exists c', erase_loop fuel c addr (addr + n * erase_size) = Some (0, c')
    /\ forall x, cell c' x = if (addr <=? x) && (x <? addr + n * erase_size) then 0xff else cell c x.
Proof.
  pose proof erase_size_ok as He. induction fuel as [|fuel IH]; intros c addr n Ha Hn Hmod Hb; [lia|].
  cbn [erase_loop]. destruct (Z.ltb_spec addr (addr + n * erase_size)) as [Hl|Hl].
  - destruct (do_erase_ok c addr) as (c1 & -> & Hc1). cbn [Z.eqb negb].
    assert (1 <= n) as Hn1 by nia. rewrite u32_small by nia.
    destruct (IH c1 (addr + erase_size) (n - 1)) as (c' & Hc' & Hx); [lia|lia| |nia|].
    { replace (addr + erase_size) with (addr + 1 * erase_size) by lia. by rewrite Z_mod_plus_full. }
    replace (addr + erase_size + (n - 1) * erase_size) with (addr + n * erase_size) in * by lia.
    exists c'. split; [exact Hc'|]. intros x. rewrite Hx, Hc1.
    pose proof (Z.div_mod addr erase_size ltac:(lia)) as Hd. rewrite Hmod in Hd.
    destruct (Z.eqb_spec (x / erase_size) (addr / erase_size)) as [Heq|Hne].
    + pose proof (Z.div_mod x erase_size ltac:(lia)). pose proof (Z.mod_pos_bound x erase_size ltac:(lia)).
      rewrite Heq in *.
      replace ((addr <=? x) && (x <? addr + n * erase_size)) with true by (symmetry; apply andb_true_iff; nia).
      by case_if.
    + assert (~ addr <= x < addr + erase_size) as Hx2.
      { intros [H1 H2]. apply Hne. symmetry. apply (Z.div_unique_pos x erase_size _ (x - addr)); lia. }
      replace ((addr <=? x) && (x <? addr + n * erase_size))
        with ((addr + erase_size <=? x) && (x <? addr + n * erase_size)); [done|].
      apply eq_true_iff_eq. rewrite !andb_true_iff. lia.
  - assert (n = 0) as -> by nia. exists c. split; [done|]. intros x.
    destruct ((addr <=? x) && _) eqn:H; [|done]. apply andb_true_iff in H. lia.
Qed.
(** The sectors of the range are 0xff, and no other byte changes. *)
Lemma sfc_nor_erase_ok c addr n : 0 <= addr -> 0 <= n -> addr mod erase_size = 0 ->
  addr + n * erase_size + erase_size <= 0x100000000 -> masked parts addr NORFLASH_PART_RO = false ->
  exists c', sfc_nor_erase parts c addr (n * erase_size) = Some (0, c')
    /\ forall x, cell c' x = if (addr <=? x) && (x <? addr + n * erase_size) then 0xff else cell c x.
Proof.
  pose proof erase_size_ok as He. intros Ha Hn Hmod Hb Hm. unfold sfc_nor_erase. rewrite Hm.
  rewrite Z_mod_mult. cbn [Z.eqb negb]. rewrite Z_div_mult, u32_small by nia. apply erase_loop_ok; try done; lia.
Qed.

(** A range that was erased holds exactly what is written to it. *)
Lemma erase_write_ok c addr n buf : 0 <= addr -> 0 < n -> addr mod erase_size = 0 ->
  addr + n * erase_size + erase_size < 0xfff00000 -> masked parts addr NORFLASH_PART_RO = false ->
  zlen buf = n * erase_size -> Forall (fun b => 0 <= b < 256) buf ->
  exists c1 c2, sfc_nor_erase parts c addr (n * erase_size) = Some (0, c1)
    /\ sfc_nor_write parts c1 addr (n * erase_size) buf = Some (0, c2)
    /\ contents c2 addr (n * erase_size) = buf
    /\ forall x, ~ (addr <= x < addr + n * erase_size) -> cell c2 x = cell c x.
Proof.
  pose proof erase_size_ok as He. intros Ha Hn Hmod Hb Hm Hlen Hbytes.
  destruct (sfc_nor_erase_ok c addr n Ha ltac:(lia) Hmod ltac:(lia) Hm) as (c1 & H1 & Hc1).
  destruct (sfc_nor_page_write_ok c1 addr (n * erase_size) buf Ha ltac:(lia) Hlen Hm) as (c2 & H2 & Hc2).
  exists c1, c2. split; [exact H1|]. split; [unfold sfc_nor_write; rewrite H2; done|]. split.
  - apply range_lookup; [done|]. intros i d Hi. rewrite Hc2. unfold written.
    apply lookup_lt_Some in Hi as Hil. case_if; [|lia].
    replace (Z.to_nat (addr + Z.of_nat i - addr)) with i by lia. rewrite Hi, Hc1.
    replace ((addr <=? _) && _) with true by (symmetry; apply andb_true_iff; lia). apply land_0xff.
    eapply Forall_lookup_1 in Hbytes; [|exact Hi]. exact Hbytes.
  - intros x Hx. rewrite Hc2. unfold written. rewrite Hc1.
    replace ((addr <=? x) && (x <? addr + n * erase_size)) with false
      by (symmetry; apply andb_false_iff; lia).
    case_if; [|done]. rewrite lookup_ge_None_2 by lia. done.
Qed.
End laws.

(** A write to an erased range of any length at any address, cut at the pages of the chip, is
    what a read of the range returns, however many bytes a read command delivers at once; no byte
    outside of the range changes. *)
Theorem nor_write_read {C : Type} {Chip : NorChip C} {Laws : NorChipLaws C} parts c to len buf
    (Hto : 0 <= to) (Hlen : to + len < 0xfff00000) (Hbuf : zlen buf = len)
    (Hbytes : Forall (fun b => 0 <= b < 256) buf)
    (Hrange : forall x, to <= x < to + len -> cell c x = 0xff)
    (Hro : masked parts to NORFLASH_PART_RO = false) (Hwo : masked parts to NORFLASH_PART_WO = false) :
  exists c', sfc_nor_write parts c to len buf = Some (0, c')
    /\ sfc_nor_read parts c' to len = Some (inl buf)
    /\ forall x, ~ (to <= x < to + len) -> cell c' x = cell c x.
Proof.
  destruct (sfc_nor_page_write_ok parts c to len buf Hto Hlen Hbuf Hro) as (c' & H & Hc').
  exists c'. split; [unfold sfc_nor_write; rewrite H; done|]. split.
  - rewrite sfc_nor_read_ok by (try done; lia). do 2 f_equal. apply range_lookup; [done|].
    intros i d Hi. rewrite Hc'. unfold written. apply lookup_lt_Some in Hi as Hil. case_if; [|lia].
    replace (Z.to_nat (to + Z.of_nat i - to)) with i by lia. rewrite Hi, Hrange by lia. apply land_0xff.
    eapply Forall_lookup_1 in Hbytes; [|exact Hi]. exact Hbytes.
  - intros x Hx. rewrite Hc'. unfold written. case_if; [|done]. rewrite lookup_ge_None_2 by lia. done.
Qed.

(** ** A chip *)
(** 256-byte pages, sectors of 4 KiB, at most seven bytes for a read command; a program command
    that runs over the end of a page continues at its start. *)
#[local] Instance toy_chip : NorChip (Z -> Z) := {
  page_size := 256; erase_size := 4096;
  sfc_do_read c a n := bytes_at (fun x => c x .& 0xff) a (n `min` 7);
  sfc_do_write c a l x :=
    match (if x / 256 =? a / 256 then l !! Z.to_nat ((x - a) mod 256) else None) with
    | Some d => c x .& d
    | None => c x
    end;
  sfc_do_erase c a := (0, fun x => if x / 4096 =? a / 4096 then 0xff else c x) }.
#[local] Instance toy_chip_laws : NorChipLaws (Z -> Z).
Proof.
  refine {| cell c x := c x .& 0xff |}.
  - intros c x. change 0xff with (Z.ones 8). rewrite Z.land_ones by lia. apply Z.mod_pos_bound. lia.
  - exists 8. done.
  - done.
  - intros c a n Hn. exists (n `min` 7). split; [lia|done].
  - intros c a l x Hl. cbn in *. pose proof (Z.div_mod a 256 ltac:(lia)). pose proof (Z.div_mod x 256 ltac:(lia)).
    pose proof (Z.mod_pos_bound x 256 ltac:(lia)). pose proof (Z.mod_pos_bound a 256 ltac:(lia)).
    destruct (Z.eqb_spec (x / 256) (a / 256)), (Z.leb_spec a x).
    + rewrite Z.mod_small by lia. destruct (l !! _); [|done].
      by rewrite <- !Z.land_assoc, (Z.land_comm 255).
    + rewrite lookup_ge_None_2; [done|]. rewrite <- (Z_mod_plus_full _ 1), Z.mod_small by lia. lia.
    + rewrite lookup_ge_None_2; [done|]. nia.
    + done.
  - intros c a. eexists. split; [reflexivity|]. intros x. cbn. by case_if.
Defined.
Definition blank : Z -> Z := fun _ => 0xff.
(** Ten bytes from 0xfd on, four of them on the first page. *)
Lemma nor_write_read_witness : exists c',
  sfc_nor_write [mkpart 0x10000 0 0] blank 0xfd 10 [1; 2; 3; 4; 5; 6; 7; 8; 9; 10] = Some (0, c')
  /\ sfc_nor_read [mkpart 0x10000 0 0] c' 0xfd 10 = Some (inl [1; 2; 3; 4; 5; 6; 7; 8; 9; 10])
  /\ forall x, ~ (0xfd <= x < 0xfd + 10) -> cell c' x = cell blank x.
Proof.
  apply (nor_write_read [mkpart 0x10000 0 0] blank 0xfd 10 [1; 2; 3; 4; 5; 6; 7; 8; 9; 10]).
  - lia.
  - lia.
  - reflexivity.
  - repeat (constructor; [lia|]). constructor.
  - intros x Hx. reflexivity.
  - reflexivity.
  - reflexivity.
Defined.

(** What is written to a read-only partition is lost, and the result is the one of a success. *)
Lemma read_only_reports_success :
  sfc_nor_write [mkpart 0x10000 0 NORFLASH_PART_RO] blank 0xfd 2 [1; 2] = Some (0, blank).
Proof. reflexivity. Qed.
