(* ===== verification/Mmc.v ===== *)
(** * Memory cards: [drivers/mmc/mmc.c], [drivers/mmc/mmc_write.c]

    Reading, writing and erasing blocks on top of the commands of a card.  The host controller
    and the card behind it are an interface, [MmcCard]; [MmcCardLaws] says what the block commands
    do to the bytes of a card when they succeed, and what they leave alone when they fail. *)
From S2P Require Import Prelude Store.

Definition SD_VERSION_SD : Z := 0x20000.
Definition COMM_ERR : Z := -18.
Definition TIMEOUT : Z := -19.
Definition MMC_CMD_STOP_TRANSMISSION : Z := 12.
Definition MMC_CMD_SEND_STATUS : Z := 13.
Definition MMC_CMD_SET_BLOCKLEN : Z := 16.
Definition MMC_CMD_READ_SINGLE_BLOCK : Z := 17.
Definition MMC_CMD_READ_MULTIPLE_BLOCK : Z := 18.
Definition MMC_CMD_WRITE_SINGLE_BLOCK : Z := 24.
Definition MMC_CMD_WRITE_MULTIPLE_BLOCK : Z := 25.
Definition SD_CMD_ERASE_WR_BLK_START : Z := 32.
Definition SD_CMD_ERASE_WR_BLK_END : Z := 33.
Definition MMC_CMD_ERASE_GROUP_START : Z := 35.
Definition MMC_CMD_ERASE_GROUP_END : Z := 36.
Definition MMC_CMD_ERASE : Z := 38.
Definition SECURE_ERASE : Z := 0x80000000.
Definition MMC_STATUS_MASK : Z := u32 (Z.lnot 0x0206BF7F).
Definition MMC_STATUS_RDY_FOR_DATA : Z := 1 ≪ 8.
Definition MMC_STATUS_CURR_STATE : Z := 0xf ≪ 9.
Definition MMC_STATE_PRG : Z := 7 ≪ 9.
Definition MMC_RSP_R1 : Z := 1 .| 4 .| 16.
Definition MMC_RSP_R1b : Z := 1 .| 4 .| 16 .| 8.
Definition MMC_MAX_BLOCK_LEN : Z := 512.

(** The fields of [struct mmc] that describe the device. *)
Record mmc := mk_mmc {
  version : Z; has_init : bool; high_capacity : bool; rca : Z; read_bl_len : Z; write_bl_len : Z;
  erase_grp_size : Z; capacity : Z; lba : Z; b_max : Z }.
Definition IS_SD (m : mmc) : bool := negb (version m .& SD_VERSION_SD =? 0).

Record mmc_cmd := mk_cmd { cmdidx : Z; cmdarg : Z; resp_type : Z }.
Inductive mmc_data :=
| no_data
| MMC_DATA_READ (blocks blocksize : Z)
| MMC_DATA_WRITE (blocks blocksize : Z) (src : list Z).

(** [mmc->send_cmd]: the error, [cmd->response[0]], the card afterwards and what was stored at
    [data->dest]; and the identification of a card, [mmc_start_init] and [mmc_complete_init]. *)
Class MmcCard (C : Type) := {
  mmc_send_cmd : mmc -> C -> mmc_cmd -> mmc_data -> Z * Z * C * list Z;
  mmc_identify : mmc -> C -> Z * mmc * C }.

Section driver.
Context {C : Type} {Card : MmcCard C}.

Definition mmc_init (m : mmc) (c : C) : Z * mmc * C :=
  if has_init m then (0, m, c) else mmc_identify m c.

(** ** Commands without data *)
Definition status_ready (response0 : Z) : bool :=
  negb (response0 .& MMC_STATUS_RDY_FOR_DATA =? 0)
  && negb (response0 .& MMC_STATUS_CURR_STATE =? MMC_STATE_PRG).
(** Behind the loop; [timeout] is -1 when the loop ran out. *)
Definition status_result (timeout : Z) : Z := if timeout <=? 0 then TIMEOUT else 0.
Fixpoint send_status_loop (fuel : nat) (m : mmc) (c : C) (retries timeout : Z) : option (Z * C) :=
  match fuel with
  | O => None
  | S fuel =>
      let '(err, response0, c, _) :=
        mmc_send_cmd m c (mk_cmd MMC_CMD_SEND_STATUS (u32 (rca m ≪ 16)) MMC_RSP_R1) no_data in
      let next retries :=
        if timeout =? 0 then Some (status_result (-1), c)
        else send_status_loop fuel m c retries (timeout - 1) in
      if err =? 0 then
        if status_ready response0 then Some (status_result timeout, c)
        else if negb (response0 .& MMC_STATUS_MASK =? 0) then Some (COMM_ERR, c)
        else next retries
      else
        let retries := retries - 1 in
        if retries <? 0 then Some (err, c) else next retries
  end.
Definition mmc_send_status (m : mmc) (c : C) (timeout : Z) : option (Z * C) :=
  send_status_loop (S (Z.to_nat timeout)) m c 5 timeout.
Definition mmc_set_blocklen (m : mmc) (c : C) (len : Z) : Z * C :=
  let '(err, _, c, _) := mmc_send_cmd m c (mk_cmd MMC_CMD_SET_BLOCKLEN len MMC_RSP_R1) no_data in (err, c).
Definition stop_transmission (m : mmc) (c : C) : Z * C :=
  let '(err, _, c, _) := mmc_send_cmd m c (mk_cmd MMC_CMD_STOP_TRANSMISSION 0 MMC_RSP_R1b) no_data in (err, c).

(** ** Reading *)
(** The number of blocks, the card and the bytes stored at [dst]. *)
Definition mmc_read_blocks (m : mmc) (c : C) (start blkcnt : Z) : Z * C * list Z :=
  let idx := if 1 <? blkcnt then MMC_CMD_READ_MULTIPLE_BLOCK else MMC_CMD_READ_SINGLE_BLOCK in
  let arg := if high_capacity m then start else u32 (start * read_bl_len m) in
  let '(err, _, c, dest) :=
    mmc_send_cmd m c (mk_cmd idx arg MMC_RSP_R1) (MMC_DATA_READ blkcnt (read_bl_len m)) in
  if negb (err =? 0) then (0, c, dest)
  else if 1 <? blkcnt then
    let '(err, c) := stop_transmission m c in
    if negb (err =? 0) then (0, c, dest) else (blkcnt, c, dest)
  else (blkcnt, c, dest).
(** [Some None] is the [return 0] of the loop. *)
Fixpoint bread_loop (fuel : nat) (m : mmc) (c : C) (start blocks_todo : Z)
    : option (bool * C * list Z) :=
  match fuel with
  | O => None
  | S fuel =>
      let cur := if b_max m <? blocks_todo then b_max m else blocks_todo in
      let '(n, c, dest) := mmc_read_blocks m c start cur in
      if negb (n =? cur) then Some (false, c, dest)
      else
        let blocks_todo := u32 (blocks_todo - cur) in
        if 0 <? blocks_todo then
          '(ok, c, rest) ← bread_loop fuel m c (u32 (start + cur)) blocks_todo;
          Some (ok, c, dest ++ rest)
        else Some (true, c, dest)
  end.
(** [dev] is what [find_mmc_device] found. *)
Definition mmc_bread (dev : option mmc) (c : C) (start blkcnt : Z) : option (Z * C * list Z) :=
  if blkcnt =? 0 then Some (0, c, [])
  else
    match dev with
    | None => Some (0, c, [])
    | Some m =>
        if lba m <? u32 (start + blkcnt) then Some (0, c, [])
        else
          let '(err, c) := mmc_set_blocklen m c (read_bl_len m) in
          if negb (err =? 0) then Some (0, c, [])
          else
            '(ok, c, dest) ← bread_loop (Z.to_nat blkcnt) m c start blkcnt;
            Some (if (ok : bool) then blkcnt else 0, c, dest)
    end.

(** ** Writing *)
Definition mmc_write_blocks (m : mmc) (c : C) (start blkcnt : Z) (src : list Z) : option (Z * C) :=
  if lba m <? u32 (start + blkcnt) then Some (0, c)
  else if blkcnt =? 0 then Some (0, c)
  else
    let idx := if blkcnt =? 1 then MMC_CMD_WRITE_SINGLE_BLOCK else MMC_CMD_WRITE_MULTIPLE_BLOCK in
    let arg := if high_capacity m then start else u32 (start * write_bl_len m) in
    if zlen src <? blkcnt * write_bl_len m then None
    else
      let '(err, _, c, _) :=
        mmc_send_cmd m c (mk_cmd idx arg MMC_RSP_R1)
          (MMC_DATA_WRITE blkcnt (write_bl_len m) (take (Z.to_nat (blkcnt * write_bl_len m)) src)) in
      if negb (err =? 0) then Some (0, c)
      else
        let '(err, c) := if 1 <? blkcnt then stop_transmission m c else (0, c) in
        if negb (err =? 0) then Some (0, c)
        else
          '(err, c) ← mmc_send_status m c 1000;
          Some (if negb (err =? 0) then 0 else blkcnt, c).
Fixpoint bwrite_loop (fuel : nat) (m : mmc) (c : C) (start blocks_todo : Z) (src : list Z)
    : option (bool * C) :=
  match fuel with
  | O => None
  | S fuel =>
      let cur := if b_max m <? blocks_todo then b_max m else blocks_todo in
      '(n, c) ← mmc_write_blocks m c start cur src;
      if negb (n =? cur) then Some (false, c)
      else
        let blocks_todo := u32 (blocks_todo - cur) in
        if 0 <? blocks_todo then
          bwrite_loop fuel m c (u32 (start + cur)) blocks_todo (drop (Z.to_nat (cur * write_bl_len m)) src)
        else Some (true, c)
  end.
(** [src] holds the bytes from the pointer to the end of its buffer. *)
Definition mmc_bwrite (dev : option mmc) (c : C) (start blkcnt : Z) (src : list Z) : option (Z * C) :=
  match dev with
  | None => Some (0, c)
  | Some m =>
      let '(err, c) := mmc_set_blocklen m c (write_bl_len m) in
      if negb (err =? 0) then Some (0, c)
      else
        '(ok, c) ← bwrite_loop (S (Z.to_nat blkcnt)) m c start blkcnt src;
        Some (if (ok : bool) then blkcnt else 0, c)
  end.

(** ** Erasing *)
Definition mmc_erase_t (m : mmc) (c : C) (start blkcnt : Z) : Z * C :=
  let '(start, end_) :=
    if high_capacity m then (start, u32 (start + blkcnt - 1))
    else (u32 (start * write_bl_len m), u32 ((start + blkcnt - 1) * write_bl_len m)) in
  let '(start_cmd, end_cmd) :=
    if IS_SD m then (SD_CMD_ERASE_WR_BLK_START, SD_CMD_ERASE_WR_BLK_END)
    else (MMC_CMD_ERASE_GROUP_START, MMC_CMD_ERASE_GROUP_END) in
  let '(err, _, c, _) := mmc_send_cmd m c (mk_cmd start_cmd start MMC_RSP_R1) no_data in
  if negb (err =? 0) then (err, c)
  else
    let '(err, _, c, _) := mmc_send_cmd m c (mk_cmd end_cmd end_ MMC_RSP_R1) no_data in
    if negb (err =? 0) then (err, c)
    else
      let '(err, _, c, _) := mmc_send_cmd m c (mk_cmd MMC_CMD_ERASE SECURE_ERASE MMC_RSP_R1b) no_data in
      (err, c).
(** The blocks [mmc_berase] asks for: the first one and the one behind the last. *)
Definition erase_range (m : mmc) (start blkcnt : Z) : Z * Z :=
  let grp := erase_grp_size m in
  let '(blk, blk_r) :=
    if negb (start mod grp =? 0) || negb (blkcnt mod grp =? 0) then
      (start .& u32 (Z.lnot (grp - 1)), u32 ((u32 (start + blkcnt + grp) .& u32 (Z.lnot (grp - 1))) - 1))
    else (start, u32 (start + blkcnt)) in
  (blk, if capacity m / MMC_MAX_BLOCK_LEN <? blk_r then u32 (capacity m / MMC_MAX_BLOCK_LEN) else blk_r).
Definition mmc_berase (dev : option mmc) (c : C) (start blkcnt : Z) : option (Z * C) :=
  match dev with
  | None => Some (0, c)
  | Some m =>
      if erase_grp_size m =? 0 then None
      else
        let '(blk, blk_r) := erase_range m start blkcnt in
        let blk_r := u32 (blk_r - blk) in
        let '(err, c) := mmc_erase_t m c blk blk_r in
        if negb (err =? 0) then Some (0, c)
        else
          '(err, c) ← mmc_send_status m c 1000;
          Some (if negb (err =? 0) then 0 else blk_r, c)
  end.
End driver.

(** ** The card *)
Definition byte_addr (m : mmc) (arg blocksize : Z) : Z := if high_capacity m then arg * blocksize else arg.
(** What the fields of an initialised device satisfy: a card addressed by bytes has at most 4 GiB. *)
Definition geometry (m : mmc) : Prop :=
  0 < read_bl_len m <= 512 /\ write_bl_len m = read_bl_len m /\ 0 < b_max m
  /\ 0 <= lba m < 0x100000000 /\ (high_capacity m = false -> lba m * read_bl_len m <= 0x100000000).

Class MmcCardLaws (C : Type) {Card : MmcCard C} := {
  cell : C -> Z -> Z;
  (** No command fails, and the card gets ready. *)
  healthy : C -> Prop;
  quiet m c cmd : cmdidx cmd = 12 \/ cmdidx cmd = 13 \/ cmdidx cmd = 16 ->
    same_bytes (cell (mmc_send_cmd m c cmd no_data).1.2) (cell c);
  read_data m c cmd n bs : cmdidx cmd = 17 /\ n = 1 \/ cmdidx cmd = 18 /\ 1 < n -> 0 < bs ->
    let '(err, _, c', dest) := mmc_send_cmd m c cmd (MMC_DATA_READ n bs) in
    same_bytes (cell c') (cell c)
    /\ (err = 0 -> dest = bytes_at (cell c) (byte_addr m (cmdarg cmd) bs) (n * bs));
  write_data m c cmd n bs src : cmdidx cmd = 24 /\ n = 1 \/ cmdidx cmd = 25 /\ 1 < n -> 0 < bs ->
    zlen src = n * bs ->
    let '(err, _, c', _) := mmc_send_cmd m c cmd (MMC_DATA_WRITE n bs src) in
    let a := byte_addr m (cmdarg cmd) bs in
    (forall x, ~ (a <= x < a + n * bs) -> cell c' x = cell c x)
    /\ (err = 0 -> same_bytes (cell c') (store (cell c) a src));
  no_failure m c cmd d : healthy c ->
    let '(err, response0, c', _) := mmc_send_cmd m c cmd d in
    err = 0 /\ healthy c' /\ (cmdidx cmd = 13 -> status_ready response0 = true);
  identified m c :
    let '(err, m', c') := mmc_identify m c in
    same_bytes (cell c') (cell c) /\ (err = 0 -> geometry m') /\ (healthy c -> err = 0 /\ healthy c') }.

Section laws.
Context {C : Type} {Card : MmcCard C} {Laws : MmcCardLaws C}.
(** Bytes outside of a range are what they were. *)
Definition only (a n : Z) (c c' : C) : Prop := forall x, ~ (a <= x < a + n) -> cell c' x = cell c x.
Lemma same_only a n c c' : same_bytes (cell c') (cell c) -> only a n c c'.
Proof. intros H x _. apply H. Qed.
Lemma only_trans a n b m a' n' c1 c2 c3 : only b m c1 c2 -> only a' n' c2 c3 ->
  a <= b -> b + m <= a + n -> a <= a' -> a' + n' <= a + n -> only a n c1 c3.
Proof. intros H1 H2 ? ? ? ? x Hx. rewrite H2, H1 by lia. done. Qed.

Lemma status_quiet m : forall fuel c retries timeout, (Z.to_nat timeout < fuel)%nat -> 0 <= timeout ->
  exists err c', send_status_loop fuel m c retries timeout = Some (err, c')
    /\ same_bytes (cell c') (cell c) /\ (healthy c -> 0 < timeout -> err = 0 /\ healthy c').
Proof.
  induction fuel as [|fuel IH]; intros c retries timeout Hf Ht; [lia|]. cbn [send_status_loop].
  set (cmd := mk_cmd MMC_CMD_SEND_STATUS _ _).
  pose proof (quiet m c cmd ltac:(auto)) as Hq. pose proof (no_failure m c cmd no_data) as Hh.
  destruct (mmc_send_cmd m c cmd no_data) as [[[err r0] c1] dest]. cbn [fst snd] in Hq.
  set (next := fun r : Z => if timeout =? 0 then Some (status_result (-1), c1)
                           else send_status_loop fuel m c1 r (timeout - 1)).
  assert (forall r, err <> 0 \/ status_ready r0 = false -> exists e c', next r = Some (e, c')
    /\ same_bytes (cell c') (cell c) /\ (healthy c -> 0 < timeout -> e = 0 /\ healthy c')) as Hnext.
  { intros r Hne. unfold next. destruct (Z.eqb_spec timeout 0).
    - do 2 eexists. split; [done|]. split; [done|lia].
    - destruct (IH c1 r (timeout - 1)) as (e & c' & -> & Hs & Hh'); [lia..|]. exists e, c'. split; [done|]. split.
      + by etransitivity.
      + intros H. destruct (Hh H) as (-> & _ & H3). specialize (H3 eq_refl). destruct Hne; congruence. }
  destruct (Z.eqb_spec err 0) as [He|He].
  - destruct (status_ready r0) eqn:Er.
    + do 2 eexists. split; [done|]. split; [done|]. intros H Htp. destruct (Hh H) as (_ & ? & _).
      split; [|done]. unfold status_result. case_if; [lia|done].
    + case_if.
      * do 2 eexists. split; [done|]. split; [done|]. intros H. destruct (Hh H) as (_ & _ & H3).
        specialize (H3 eq_refl). congruence.
      * apply (Hnext retries). by right.
  - case_if.
    + do 2 eexists. split; [done|]. split; [done|]. intros H. destruct (Hh H) as (? & _). lia.
    + apply (Hnext (retries - 1)). by left.
Qed.
Lemma send_status_ok m c : exists err c', mmc_send_status m c 1000 = Some (err, c')
  /\ same_bytes (cell c') (cell c) /\ (healthy c -> err = 0 /\ healthy c').
Proof.
  destruct (status_quiet m (S (Z.to_nat 1000)) c 5 1000 ltac:(lia) ltac:(lia)) as (e & c' & H & Hs & Hh).
  exists e, c'. split; [exact H|]. split; [done|]. intros. by apply Hh.
Qed.
Lemma stop_ok m c : exists err c', stop_transmission m c = (err, c')
  /\ same_bytes (cell c') (cell c) /\ (healthy c -> err = 0 /\ healthy c').
Proof.
  unfold stop_transmission. set (cmd := mk_cmd _ _ _). pose proof (quiet m c cmd ltac:(auto)) as Hq.
  pose proof (no_failure m c cmd no_data) as Hh. destruct (mmc_send_cmd m c cmd no_data) as [[[err r0] c1] dest].
  do 2 eexists. split; [done|]. split; [done|]. intros H. destruct (Hh H) as (? & ? & _). done.
Qed.
Lemma set_blocklen_ok m c len : exists err c', mmc_set_blocklen m c len = (err, c')
  /\ same_bytes (cell c') (cell c) /\ (healthy c -> err = 0 /\ healthy c').
Proof.
  unfold mmc_set_blocklen. set (cmd := mk_cmd _ _ _). pose proof (quiet m c cmd ltac:(auto)) as Hq.
  pose proof (no_failure m c cmd no_data) as Hh. destruct (mmc_send_cmd m c cmd no_data) as [[[err r0] c1] dest].
  do 2 eexists. split; [done|]. split; [done|]. intros H. destruct (Hh H) as (? & ? & _). done.
Qed.

(** The address of a block does not wrap. *)
Lemma block_addr m start n : geometry m -> 0 <= start -> 0 < n -> start + n <= lba m ->
  byte_addr m (if high_capacity m then start else u32 (start * read_bl_len m)) (read_bl_len m)
  = start * read_bl_len m.
Proof.
  intros (Hb & _ & _ & Hl & Hc) Hs Hn Hr. unfold byte_addr. destruct (high_capacity m); [done|].
  specialize (Hc eq_refl). apply u32_small. nia.
Qed.

Lemma read_blocks_ok m c start n : geometry m -> 0 <= start -> 0 < n -> start + n <= lba m ->
  exists r c' dest, mmc_read_blocks m c start n = (r, c', dest) /\ same_bytes (cell c') (cell c)
    /\ (r = n -> dest = bytes_at (cell c) (start * read_bl_len m) (n * read_bl_len m))
    /\ (healthy c -> r = n /\ healthy c').
Proof.
  intros Hg Hs Hn Hl. pose proof (block_addr m start n Hg Hs Hn Hl) as Ha. destruct Hg as ((Hb & _) & _).
  unfold mmc_read_blocks. set (cmd := mk_cmd _ _ _).
  assert (cmdidx cmd = 17 /\ n = 1 \/ cmdidx cmd = 18 /\ 1 < n) as Hidx.
  { unfold cmd. destruct (Z.ltb_spec 1 n); [by right|left]. split; [done|lia]. }
  pose proof (read_data m c cmd n (read_bl_len m) Hidx Hb) as Hr.
  pose proof (no_failure m c cmd (MMC_DATA_READ n (read_bl_len m))) as Hh.
  destruct (mmc_send_cmd m c cmd _) as [[[err r0] c1] dest]. cbn [cmd cmdarg] in Hr. rewrite Ha in Hr.
  destruct Hr as [Hq Hd]. destruct (Z.eqb_spec err 0) as [He|He]; cbn [negb].
  2:{ exists 0, c1, dest. split_and!; [done|done|lia|]. intros H. destruct (Hh H). lia. }
  destruct (Z.ltb_spec 1 n).
  - destruct (stop_ok m c1) as (e & c2 & -> & Hq2 & Hh2). destruct (Z.eqb_spec e 0); cbn [negb].
    + exists n, c2, dest. split_and!; [done|by etransitivity|auto|]. intros H1. split; [done|].
      apply Hh2. by apply Hh.
    + exists 0, c2, dest. split_and!; [done|by etransitivity|lia|]. intros H1. destruct Hh2; [|lia]. by apply Hh.
  - exists n, c1, dest. split_and!; [done|done|auto|]. intros H1. split; [done|]. by apply Hh.
Qed.
Lemma bread_loop_ok m : geometry m -> forall fuel c start todo, 0 <= start -> 0 < todo <= Z.of_nat fuel ->
  start + todo <= lba m ->
  exists ok c' dest, bread_loop fuel m c start todo = Some (ok, c', dest) /\ same_bytes (cell c') (cell c)
    /\ (ok = true -> dest = bytes_at (cell c) (start * read_bl_len m) (todo * read_bl_len m))
    /\ (healthy c -> ok = true /\ healthy c').
Proof.
  intros Hg. pose proof Hg as ((Hb & _) & _ & Hmax & Hlba & _).
  induction fuel as [|fuel IH]; intros c start todo Hs Ht Hl; [lia|]. cbn [bread_loop].
  set (cur := if b_max m <? todo then b_max m else todo).
  assert (0 < cur <= todo) as Hcur by (unfold cur; case_if; lia). clearbody cur.
  destruct (read_blocks_ok m c start cur Hg Hs ltac:(lia) ltac:(lia)) as (r & c1 & dest & -> & Hq & Hd & Hh).
  destruct (Z.eqb_spec r cur) as [Hr|Hr]; cbn [negb].
  2:{ exists false, c1, dest. split_and!; [done|done|done|]. intros H. destruct (Hh H). lia. }
  rewrite !u32_small by lia. destruct (Z.ltb_spec 0 (todo - cur)).
  - destruct (IH c1 (start + cur) (todo - cur)) as (ok & c2 & rest & -> & Hq2 & Hd2 & Hh2); [lia..|].
    cbn [mbind option_bind]. exists ok, c2, (dest ++ rest). split; [done|]. split; [by etransitivity|]. split.
    + intros Hok. rewrite Hd, Hd2 by done. rewrite Hq.
      replace (todo * read_bl_len m) with (cur * read_bl_len m + (todo - cur) * read_bl_len m) by lia.
      rewrite range_app by nia. do 2 f_equal. lia.
    + intros H1. apply Hh2. by apply Hh.
  - exists true, c1, dest. split_and!; [done|done| |].
    + intros _. rewrite Hd by done. f_equal. by replace todo with cur by lia.
    + intros H1. split; [done|]. by apply Hh.
Qed.
(** A read of blocks of the card: the result is all of them or an error, and nothing changes. *)
Lemma bread_ok m c start n : geometry m -> 0 <= start -> 0 < n -> start + n <= lba m ->
  exists r c' dest, mmc_bread (Some m) c start n = Some (r, c', dest) /\ same_bytes (cell c') (cell c)
    /\ (r = n /\ dest = bytes_at (cell c) (start * read_bl_len m) (n * read_bl_len m) \/ r = 0)
    /\ (healthy c -> r = n /\ healthy c').
Proof.
  intros Hg Hs Hn Hl. pose proof Hg as (_ & _ & _ & Hlba & _). unfold mmc_bread.
  destruct (Z.eqb_spec n 0); [lia|]. rewrite u32_small by lia. case_if; [lia|].
  destruct (set_blocklen_ok m c (read_bl_len m)) as (e & c1 & -> & Hq & Hh).
  destruct (Z.eqb_spec e 0); cbn [negb].
  2:{ exists 0, c1, []. split_and!; [done|done|by right|]. intros H1. destruct (Hh H1). lia. }
  destruct (bread_loop_ok m Hg (Z.to_nat n) c1 start n Hs ltac:(lia) Hl) as (ok & c2 & dest & -> & Hq2 & Hd & Hh2).
  cbn [mbind option_bind]. eexists _, c2, dest. split; [done|]. split; [by etransitivity|]. split.
  - destruct ok; [left|by right]. split; [done|]. by rewrite Hd, Hq.
  - intros H1. destruct Hh2 as [-> Hc2]; [by apply Hh|]. done.
Qed.

Lemma write_blocks_ok m c start n src : geometry m -> 0 <= start -> 0 < n -> start + n <= lba m ->
  n * write_bl_len m <= zlen src ->
  let a := start * write_bl_len m in
  exists r c', mmc_write_blocks m c start n src = Some (r, c') /\ only a (n * write_bl_len m) c c'
    /\ (r = n -> same_bytes (cell c') (store (cell c) a (take (Z.to_nat (n * write_bl_len m)) src)))
    /\ (healthy c -> r = n /\ healthy c').
Proof.
  intros Hg Hs Hn Hl Hsrc a. pose proof (block_addr m start n Hg Hs Hn Hl) as Ha.
  pose proof Hg as ((Hb & _) & Hwr & _ & Hlba & _). unfold mmc_write_blocks.
  rewrite u32_small by lia. case_if; [lia|]. destruct (Z.eqb_spec n 0); [lia|]. case_if; [lia|].
  set (cmd := mk_cmd _ _ _). set (data := take _ src).
  assert (cmdidx cmd = 24 /\ n = 1 \/ cmdidx cmd = 25 /\ 1 < n) as Hidx.
  { unfold cmd. destruct (Z.eqb_spec n 1); [by left|right]. split; [done|lia]. }
  assert (zlen data = n * write_bl_len m) as Hdata by (unfold data; rewrite length_take; lia).
  pose proof (write_data m c cmd n (write_bl_len m) data Hidx ltac:(lia) Hdata) as Hw.
  pose proof (no_failure m c cmd (MMC_DATA_WRITE n (write_bl_len m) data)) as Hh.
  destruct (mmc_send_cmd m c cmd _) as [[[err r0] c1] dest]. cbn [cmd cmdarg] in Hw. rewrite Hwr, Ha, <- Hwr in Hw.
  fold a in Hw. destruct Hw as [Honly Hw]. destruct (Z.eqb_spec err 0) as [He|He]; cbn [negb].
  2:{ exists 0, c1. split_and!; [done|done|lia|]. intros H1. destruct (Hh H1). lia. }
  destruct (if 1 <? n then stop_transmission m c1 else (0, c1)) as [e c2] eqn:Estop.
  assert (same_bytes (cell c2) (cell c1) /\ (healthy c1 -> e = 0 /\ healthy c2)) as [Hq2 Hh2].
  { destruct (1 <? n); [|by simplify_eq].
    destruct (stop_ok m c1) as (e' & c2' & Hst & ? & ?). rewrite Hst in Estop. by simplify_eq. }
  assert (only a (n * write_bl_len m) c c2) as Honly2 by (intros x Hx; rewrite Hq2; by apply Honly).
  destruct (Z.eqb_spec e 0); cbn [negb].
  2:{ exists 0, c2. split_and!; [done|done|lia|]. intros H1. destruct Hh2; [by apply Hh|lia]. }
  destruct (send_status_ok m c2) as (e3 & c3 & -> & Hq3 & Hh3). cbn [mbind option_bind].
  eexists _, c3. split; [done|]. split; [intros x Hx; rewrite Hq3; by apply Honly2|]. split.
  - intros _. rewrite Hq3, Hq2. auto.
  - intros H1. destruct Hh3 as [-> ?]; [apply Hh2; by apply Hh|]. done.
Qed.
Lemma bwrite_loop_ok m : geometry m -> forall fuel c start todo src, 0 <= start -> 0 < todo <= Z.of_nat fuel ->
  start + todo <= lba m -> todo * write_bl_len m <= zlen src ->
  let a := start * write_bl_len m in
  exists ok c', bwrite_loop fuel m c start todo src = Some (ok, c') /\ only a (todo * write_bl_len m) c c'
    /\ (ok = true -> same_bytes (cell c') (store (cell c) a (take (Z.to_nat (todo * write_bl_len m)) src)))
    /\ (healthy c -> ok = true /\ healthy c').
Proof.
  intros Hg. pose proof Hg as ((Hb & _) & Hwr & Hmax & Hlba & _).
  induction fuel as [|fuel IH]; intros c start todo src Hs Ht Hl Hsrc a; [lia|]. cbn [bwrite_loop].
  set (cur := if b_max m <? todo then b_max m else todo).
  assert (0 < cur <= todo) as Hcur by (unfold cur; case_if; lia). clearbody cur.
  destruct (write_blocks_ok m c start cur src Hg Hs ltac:(lia) ltac:(lia) ltac:(nia))
    as (r & c1 & -> & Honly & Hw & Hh).
  cbn [mbind option_bind]. destruct (Z.eqb_spec r cur) as [Hr|Hr]; cbn [negb].
  2:{ exists false, c1. split_and!; [done| |done|].
      - intros x Hx. apply Honly. unfold a in Hx. nia. - intros H. destruct (Hh H). lia. }
  rewrite !u32_small by lia. destruct (Z.ltb_spec 0 (todo - cur)).
  - set (k := Z.to_nat (cur * write_bl_len m)) in *.
    destruct (IH c1 (start + cur) (todo - cur) (drop k src)) as (ok & c2 & -> & Honly2 & Hw2 & Hh2);
      [lia..|rewrite length_drop; unfold k; nia|].
    exists ok, c2. split; [done|]. split; [|split].
    + eapply only_trans; [exact Honly|exact Honly2|unfold a; nia..].
    + intros Hok. etransitivity; [exact (Hw2 Hok)|].
      assert (zlen (take k src) = cur * write_bl_len m) as Hk by (rewrite length_take; unfold k; nia).
      replace ((start + cur) * write_bl_len m) with (a + zlen (take k src)) by (unfold a; lia).
      etransitivity; [apply store_proper; [exact (Hw Hr)|done..]|]. etransitivity; [apply store_app|].
      apply store_proper; [done..|].
      replace (Z.to_nat (todo * write_bl_len m)) with (k + Z.to_nat ((todo - cur) * write_bl_len m))%nat
        by (unfold k; nia).
      apply take_take_drop.
    + intros H1. apply Hh2. by apply Hh.
  - replace todo with cur by lia. exists true, c1. split_and!; [done|done|auto|].
    intros H1. split; [done|]. by apply Hh.
Qed.
(** A write of blocks of the card: no other block changes, whatever fails; when all of them are
    reported as written, they are. *)
Lemma bwrite_ok m c start n src : geometry m -> 0 <= start -> 0 < n -> start + n <= lba m ->
  n * write_bl_len m <= zlen src ->
  let a := start * write_bl_len m in
  exists r c', mmc_bwrite (Some m) c start n src = Some (r, c') /\ only a (n * write_bl_len m) c c'
    /\ (r = n /\ same_bytes (cell c') (store (cell c) a (take (Z.to_nat (n * write_bl_len m)) src)) \/ r = 0)
    /\ (healthy c -> r = n /\ healthy c').
Proof.
  intros Hg Hs Hn Hl Hsrc a. unfold mmc_bwrite.
  destruct (set_blocklen_ok m c (write_bl_len m)) as (e & c1 & -> & Hq & Hh).
  destruct (Z.eqb_spec e 0); cbn [negb].
  2:{ exists 0, c1. split_and!; [done|by apply same_only|by right|]. intros H1. destruct (Hh H1). lia. }
  destruct (bwrite_loop_ok m Hg (S (Z.to_nat n)) c1 start n src Hs ltac:(lia) Hl Hsrc)
    as (ok & c2 & -> & Honly & Hw & Hh2).
  cbn [mbind option_bind]. eexists _, c2. split; [done|]. split; [|split].
  - intros x Hx. rewrite Honly by done. apply Hq.
  - destruct ok; [left|by right]. split; [done|]. rewrite Hw by done. by rewrite Hq.
  - intros H1. destruct Hh2 as [-> Hc2]; [by apply Hh|]. done.
Qed.
End laws.

(** C18: blocks written to a card are what a read returns, for a device of either addressing, in
    as many commands as the limit on their number makes of them.  Whatever commands fail, no
    byte outside of the blocks changes, the result is the number of blocks or 0, and a write
    that reports all blocks has stored them; when no command fails both report all of them. *)
Theorem mmc_blocks_correct {C : Type} {Card : MmcCard C} {Laws : MmcCardLaws C} m c start n src
    (Hg : geometry m) (Hs : 0 <= start) (Hn : 0 < n) (Hl : start + n <= lba m)
    (Hsrc : zlen src = n * write_bl_len m) :
  exists w c1 r c2 dest, mmc_bwrite (Some m) c start n src = Some (w, c1)
    /\ mmc_bread (Some m) c1 start n = Some (r, c2, dest)
    /\ (forall x, ~ (start * write_bl_len m <= x < (start + n) * write_bl_len m) -> cell c2 x = cell c x)
    /\ (w = n \/ w = 0) /\ (r = n \/ r = 0)
    /\ (w = n -> r = n -> dest = src)
    /\ (healthy c -> w = n /\ r = n).
Proof.
  destruct (bwrite_ok m c start n src Hg Hs Hn Hl ltac:(lia)) as (w & c1 & Hw & Honly & Hws & Hwh).
  destruct (bread_ok m c1 start n Hg Hs Hn Hl) as (r & c2 & dest & Hr & Hq & Hd & Hrh).
  exists w, c1, r, c2, dest. split; [exact Hw|]. split; [exact Hr|]. split; [|split; [|split; [|split]]].
  - intros x Hx. rewrite Hq. apply Honly. lia.
  - destruct Hws as [[? _]|?]; auto.
  - destruct Hd as [[? _]|?]; auto.
  - intros -> ->. destruct Hws as [[_ Hws]|?]; [|lia]. destruct Hd as [[_ ->]|?]; [|lia].
    rewrite Hws. rewrite take_ge by lia. destruct Hg as (_ & <- & _). rewrite <- Hsrc. apply bytes_at_store.
  - intros H1. destruct (Hwh H1) as [? Hc1]. destruct (Hrh Hc1). done.
Qed.

(** ** A card *)
(** Its bytes, and the range that is selected for an erase; a group is [erase_grp_size]
    blocks, and erased bytes are 0. *)
Record toy_card := mk_toy { bytes : Z -> Z; first : Z; last_ : Z }.
#[local] Instance toy_mmc : MmcCard toy_card := {
  mmc_send_cmd m c cmd d :=
    let ok c := (0, MMC_STATUS_RDY_FOR_DATA, c, []) in
    match d with
    | MMC_DATA_READ n bs =>
        (0, MMC_STATUS_RDY_FOR_DATA, c, bytes_at (bytes c) (byte_addr m (cmdarg cmd) bs) (n * bs))
    | MMC_DATA_WRITE n bs src =>
        ok (mk_toy (store (bytes c) (byte_addr m (cmdarg cmd) bs) src) (first c) (last_ c))
    | no_data =>
        let grp := erase_grp_size m * write_bl_len m in
        let block := byte_addr m (cmdarg cmd) (write_bl_len m) in
        if (cmdidx cmd =? 32) || (cmdidx cmd =? 35) then ok (mk_toy (bytes c) (block / grp) (last_ c))
        else if (cmdidx cmd =? 33) || (cmdidx cmd =? 36) then ok (mk_toy (bytes c) (first c) (block / grp))
        else if cmdidx cmd =? 38 then
          ok (mk_toy (fun x => if (first c <=? x / grp) && (x / grp <=? last_ c) then 0 else bytes c x)
                     (first c) (last_ c))
        else ok c
    end;
  mmc_identify m c := (0, mk_mmc 0 true true 1 512 512 8 32768 64 65535, c) }.
#[local] Instance toy_mmc_laws : MmcCardLaws toy_card.
Proof.
  refine {| cell c := bytes c; healthy c := True |}.
  - intros m c [idx arg rt]. cbn. intros [->|[->| ->]]; done.
  - intros m c cmd n bs _ _. done.
  - intros m c cmd n bs src _ _ Hs. cbn. split; [|done].
    intros x Hx. apply store_outside. by rewrite Hs.
  - intros m c cmd d _. unfold mmc_send_cmd, toy_mmc. destruct d; [|done..].
    destruct ((cmdidx cmd =? 32) || (cmdidx cmd =? 35)); [done|].
    destruct ((cmdidx cmd =? 33) || (cmdidx cmd =? 36)); [done|]. destruct (cmdidx cmd =? 38); done.
  - intros m c. cbn. split; [done|]. split; [|done]. intros _. unfold geometry. cbn. lia.
Defined.
(** A card of 64 blocks addressed by bytes, at most three of them in a command. *)
Definition toy_dev : mmc := mk_mmc 0 true false 1 4 4 8 32768 64 3.
Definition toy_blank : toy_card := mk_toy (fun _ => 7) 0 0.
Lemma mmc_blocks_correct_witness : exists w c1 r c2 dest,
  mmc_bwrite (Some toy_dev) toy_blank 5 4 (seqZ 1 16) = Some (w, c1)
  /\ mmc_bread (Some toy_dev) c1 5 4 = Some (r, c2, dest)
  /\ (forall x, ~ (5 * 4 <= x < (5 + 4) * 4) -> cell c2 x = cell toy_blank x)
  /\ (w = 4 \/ w = 0) /\ (r = 4 \/ r = 0)
  /\ (w = 4 -> r = 4 -> dest = seqZ 1 16)
  /\ (healthy toy_blank -> w = 4 /\ r = 4).
Proof.
  apply (mmc_blocks_correct toy_dev toy_blank 5 4 (seqZ 1 16)).
  - unfold geometry. cbn. lia.
  - lia.
  - lia.
  - cbn. lia.
  - reflexivity.
Defined.

(** ** Erasing more than was asked for *)
Definition erase_dev : mmc := mk_mmc 0 true true 1 512 512 8 32768 64 65535.
(** Blocks 4 to 7 are the end of an erase group of eight.  [mmc_berase] goes on into the next
    group, block 8 is erased, and the number it returns is not 4. *)
Lemma erase_takes_next_group :
  ('(n, c) ← mmc_berase (Some erase_dev) toy_blank 4 4; Some (n, cell c (8 * 512), cell c (16 * 512)))
  = Some (15, 0, 7).
Proof. reflexivity. Qed.
(** A group size that is not a power of two: the mask is no rounding. *)
Lemma erase_range_not_rounded :
  erase_range (mk_mmc 0 true true 1 512 512 3 32768 64 65535) 7 1 = (5, 8).
Proof. reflexivity. Qed.
(** The check of the end of a write wraps around: the block is behind the card. *)
Lemma write_check_wraps :
  fst <$> mmc_write_blocks erase_dev toy_blank 0xffffffff 1 (replicate 512 1) = Some 1.
Proof. reflexivity. Qed.
