(* ===== verification/EnvSave.v ===== *)
(** * Saving the environment: [common/env_mmc.c], [common/env_sfc.c]

    The environment as an image of [CONFIG_ENV_SIZE] bytes, a checksum and the exported text, on
    a memory card ([EnvMmc]) and in a sector of a serial NOR flash ([EnvSfc]): [saveenv], and
    [env_relocate] of the next start. *)
From S2P Require Import Prelude Ctype Mem CStr Qsort Hashtable HashSpec HashExport Crc EnvVar EnvSpec Store Nor Mmc.

(** A [uint32_t] in memory. *)
Definition le32 (v : Z) : list Z := [v .& 0xff; (v ≫ 8) .& 0xff; (v ≫ 16) .& 0xff; (v ≫ 24) .& 0xff].
(** [ALIGN] on unsigned longs. *)
Definition ALIGN (x a : Z) : Z := u32 (x + (a - 1)) .& u32 (Z.lnot (a - 1)).

Section image.
Context {Hooks : EnvHooks}.
Context (default_environment : list Z) (CONFIG_ENV_SIZE : Z).
Abbreviation ENV_SIZE := (ENV_SIZE CONFIG_ENV_SIZE).

(** The [env_t] both [saveenv] make in the buffer [env_new]; [inr] where they return 1. *)
Definition export_env (g : genv) (env_new : Z) : option (list Z + unit) :=
  '(len, _, data) ← hexport_r (env_htab g) 0 0 (Some ENV_SIZE) ENV_SIZE [];
  Some (if len <? 0 then inr () else inl (le32 (crc32 0 (env_new + 4) data) ++ data)).
(** [env_relocate]: [spec] is [env_relocate_spec] of the device. *)
Definition env_relocate {D : Type} (spec : genv -> D -> option (genv * D)) (g : genv) (d : D)
    : option (genv * D) :=
  if negb (env_valid g) then
    g ← set_default_env default_environment CONFIG_ENV_SIZE g (Some (codes "!bad CRC")); Some (g, d)
  else spec g d.
End image.

(** ** The image *)
Lemma le32_bytes v : Forall byte (le32 v).
Proof.
  assert (forall x, byte (x .& 0xff)) as H.
  { intros x. change 0xff with (Z.ones 8). rewrite Z.land_ones by lia. apply Z.mod_pos_bound. lia. }
  unfold le32. repeat (apply Forall_cons_2; [apply H|]). by apply Forall_nil_2.
Qed.
Lemma le_le32 v : reg v -> le (le32 v) = v.
Proof.
  intros Hv. unfold reg in Hv. unfold le32. cbn [le].
  change 0xff with (Z.ones 8). rewrite !Z.land_ones, !Z.shiftr_div_pow2 by lia. zdm.
Qed.
Lemma escape_bytes sep d : Forall byte d -> Forall byte (escape sep d).
Proof.
  induction 1 as [|c d Hc Hd IH]; [done|]. cbn [escape]. apply Forall_app_2; [|done].
  case_if; repeat apply Forall_cons_2; try done; try apply Forall_nil_2; unfold byte; lia.
Qed.
Lemma text_bytes sep l : byte sep -> Forall (fun p => Forall byte (fst p) /\ Forall byte (snd p)) l ->
  Forall byte (text_of sep l).
Proof.
  intros Hsep. induction 1 as [|[k d] l [Hk Hd] Hl IH]; [done|]. cbn [text_of fst snd] in *. unfold pair_text.
  rewrite !Forall_app, !Forall_cons, Forall_nil. split_and!; try done; by apply escape_bytes.
Qed.

Section image_proofs.
Context {Hooks : EnvHooks} {HooksOk : EnvHooksOk}.
Context (default_environment : list Z) (CONFIG_ENV_SIZE : Z).
Abbreviation ENV_SIZE := (ENV_SIZE CONFIG_ENV_SIZE).

(** The variables of a map that an image can hold. *)
Record savable (M : gmap (list Z) (list Z)) : Prop := {
  savable_some : M <> ∅;
  savable_var k d : M !! k = Some d -> ascii k /\ counted 0 (k, d) /\ valid 0 (k, d);
  savable_number : Z.of_nat (base.size M) <= import_entries ENV_SIZE;
  savable_len : total_len 0 (map_to_list M) + 1 < 0x100000000 }.

(** An image, wherever it was made. *)
Definition good_image (image : list Z) : Prop :=
  zlen image = CONFIG_ENV_SIZE /\ Forall byte image
  /\ forall addr, crc32 0 addr (drop 4 image) = le (take 4 image).

Lemma export_env_ok g M env_new : rep (env_htab g) M -> savable M ->
  (forall n, calloc_ok n = true) -> (forall s, strdup s = Some s) -> 4 < CONFIG_ENV_SIZE < 0x40000000 ->
  if ENV_SIZE <? total_len 0 (map_to_list M) + 1 then export_env CONFIG_ENV_SIZE g env_new = Some (inr ())
  else exists image, export_env CONFIG_ENV_SIZE g env_new = Some (inl image) /\ good_image image
    /\ forall g0 addr, accepting (env_htab g0) -> exists g1,
         env_import default_environment CONFIG_ENV_SIZE g0 addr image true = Some (1, g1)
         /\ env_ready g1 = true /\ rep (env_htab g1) M.
Proof.
  intros Hrep [Hne Hvar Hnum Hlen] Hmem Hdup Hsize. unfold EnvVar.ENV_SIZE in *.
  pose proof (export_sized (env_htab g) M 0 (CONFIG_ENV_SIZE - 4) Hrep) as H.
  specialize (H ltac:(intros k d Hk; by apply Hvar in Hk as (? & ? & _)) Hlen ltac:(lia)).
  unfold export_env, EnvVar.ENV_SIZE.
  destruct (_ <? _); [by rewrite H|]. destruct H as (l & Hp & _ & Hle & ->). cbn [mbind option_bind].
  case_if; [lia|]. set (pad := repeat 0 _). set (data := text_of 0 l ++ [0] ++ pad).
  assert (zlen data = CONFIG_ENV_SIZE - 4) as Hdl.
  { unfold data, pad. rewrite !length_app, repeat_length. cbn [length]. lia. }
  assert (Forall byte data) as Hdata.
  { unfold data. apply Forall_app_2; [|apply Forall_app_2; [by repeat constructor|]].
    - apply text_bytes; [done|]. rewrite Hp. apply Forall_forall. intros [k d] Hin.
      apply elem_of_map_to_list, Hvar in Hin as (Hk & [Hd _] & _). split.
      + apply (Forall_impl _ _ _ Hk). unfold byte. lia.
      + apply (Forall_impl _ _ _ Hd). unfold byte, char_ok. lia.
    - unfold pad. apply Forall_forall. intros x Hx%list_elem_of_In%repeat_spec. by subst. }
  assert (forall a, crc32 0 a data = crc32 0 (env_new + 4) data) as Hcrc by (intros a; by rewrite !crc32_ok).
  assert (reg (crc32 0 (env_new + 4) data)) as Hreg.
  { rewrite crc32_ok by done. apply reg_not. by apply crc_ref_reg; [apply reg_not|]. }
  eexists. split; [done|]. split.
  - split_and!.
    + rewrite length_app. cbn [le32 length]. lia.
    + apply Forall_app_2; [apply le32_bytes|done].
    + intros a. rewrite (drop_app_length' (le32 _)), (take_app_length' (le32 _)) by done. by rewrite le_le32, Hcrc.
  - intros g0 addr Hacc. unfold env_import, EnvVar.ENV_SIZE.
    rewrite (drop_app_length' (le32 _)), (take_app_length' (le32 _)) by done.
    rewrite (take_ge data) by lia. rewrite le_le32 by done. rewrite Hcrc, Z.eqb_refl. cbn [andb negb].
    destruct (import_text_ok M (env_htab g0) 0 l pad Hp Hne Hmem Hdup Hacc) as (h' & Himp & Hrep').
    { lia. } { exact Hvar. } { fold data. lia. } { fold data. by rewrite Hdl. }
    fold data in Himp. rewrite Himp. cbn [mbind option_bind]. eexists. split; [done|]. split; [done|]. exact Hrep'.
Qed.

(** An image with other bytes in four places in a row at most is not imported. *)
Lemma damaged_image image p w g addr : good_image image -> Forall byte w -> 4 <= p ->
  (length w <= 4)%nat -> p + zlen w <= CONFIG_ENV_SIZE ->
  let image' := take (Z.to_nat p) image ++ w ++ drop (Z.to_nat (p + zlen w)) image in
  image' <> image ->
  env_import default_environment CONFIG_ENV_SIZE g addr image' true
  = (g ← set_default_env default_environment CONFIG_ENV_SIZE g (Some (codes "!bad CRC")); Some (0, g)).
Proof.
  intros (Hlen & Hbytes & Hcrc) Hw Hp Hw4 Hin image' Hne.
  set (h := take 4 image) in *. set (data := drop 4 image) in *.
  assert (image = h ++ data) as Himg by (unfold h, data; by rewrite take_drop).
  assert (length h = 4)%nat as Hh by (unfold h; rewrite length_take; lia).
  assert (Forall byte data) as Hdata by (by apply Forall_drop).
  set (k := Z.to_nat (p - 4)). set (pre := take k data). set (post := drop (k + length w) data).
  set (v := take (length w) (drop k data)).
  assert (data = pre ++ v ++ post) as Hd.
  { unfold pre, v, post. rewrite <- drop_drop, take_drop. by rewrite take_drop. }
  assert (image' = h ++ pre ++ w ++ post) as Hi'.
  { unfold image'. rewrite Himg. rewrite take_app_ge, drop_app_ge by lia. rewrite <- app_assoc. f_equal.
    unfold pre, post. f_equal; [f_equal; lia|]. f_equal. f_equal. lia. }
  assert (v <> w) as Hvw.
  { intros Hvw. apply Hne. by rewrite Hi', <- Hvw, <- Hd. }
  assert (length data = Z.to_nat (CONFIG_ENV_SIZE - 4)) as Hdl by (rewrite Himg, length_app in Hlen; lia).
  assert (length v = length w) as Hvl.
  { unfold v. rewrite length_take, length_drop. unfold k. lia. }
  unfold env_import, EnvVar.ENV_SIZE. rewrite Hi'.
  rewrite (drop_app_length' h), (take_app_length' h) by done.
  rewrite take_ge by (rewrite !length_app; rewrite Hd, !length_app in Hdl; lia).
  assert (Forall byte pre /\ Forall byte post /\ Forall byte v) as (Hpre & Hpost & Hv).
  { rewrite Hd in Hdata. rewrite !Forall_app in Hdata. tauto. }
  assert (crc32 0 (addr + 4) (pre ++ w ++ post) <> le h) as Hbad.
  { rewrite <- (Hcrc 0). fold data. rewrite Hd. apply not_eq_sym. apply crc32_burst; try done; lia. }
  destruct (Z.eqb_spec (crc32 0 (addr + 4) (pre ++ w ++ post)) (le h)); [done|]. cbn [andb negb]. done.
Qed.
(** Neither is one with another checksum. *)
Lemma damaged_checksum image p w g addr : good_image image -> Forall byte w -> 4 <= CONFIG_ENV_SIZE ->
  0 <= p -> p + zlen w <= 4 ->
  let image' := take (Z.to_nat p) image ++ w ++ drop (Z.to_nat (p + zlen w)) image in
  image' <> image ->
  env_import default_environment CONFIG_ENV_SIZE g addr image' true
  = (g ← set_default_env default_environment CONFIG_ENV_SIZE g (Some (codes "!bad CRC")); Some (0, g)).
Proof.
  intros (Hlen & Hbytes & Hcrc) Hw Hsize Hp Hin image' Hne.
  set (h := take 4 image) in *. set (data := drop 4 image) in *.
  assert (image = h ++ data) as Himg by (unfold h, data; by rewrite take_drop).
  assert (length h = 4)%nat as Hh by (unfold h; rewrite length_take; lia).
  set (h' := take (Z.to_nat p) h ++ w ++ drop (Z.to_nat (p + zlen w)) h).
  assert (image' = h' ++ data) as Hi'.
  { unfold image', h'. rewrite Himg, take_app_le, drop_app_le by lia. by rewrite <- !app_assoc. }
  assert (length h' = 4)%nat as Hh' by (unfold h'; rewrite !length_app, length_take, length_drop; lia).
  assert (Forall byte h) as Hhb by (by apply Forall_take).
  assert (Forall byte h') as Hhb'.
  { unfold h'. rewrite !Forall_app. split_and!; [by apply Forall_take|done|by apply Forall_drop]. }
  assert (zlen data = CONFIG_ENV_SIZE - 4) as Hdl by (unfold data; rewrite length_drop; lia).
  assert (crc32 0 (addr + 4) data <> le h') as Hbad.
  { unfold data. rewrite Hcrc. fold h. intros E. apply Hne. rewrite Hi', Himg. f_equal. symmetry. by apply le_inj; [..|lia|]. }
  unfold env_import, EnvVar.ENV_SIZE. rewrite Hi', (drop_app_length' h'), (take_app_length' h'), (take_ge data) by lia.
  apply Z.eqb_neq in Hbad. by rewrite Hbad.
Qed.
End image_proofs.

(** ** The environment on a memory card: [common/env_mmc.c] *)
Module EnvMmc.
Section env.
Context {Hooks : EnvHooks} {C : Type} {Card : MmcCard C}.
Context (default_environment : list Z) (CONFIG_ENV_SIZE CONFIG_ENV_OFFSET : Z).
Abbreviation ENV_SIZE := (ENV_SIZE CONFIG_ENV_SIZE).
(** What [find_mmc_device(CONFIG_SYS_MMC_ENV_DEV)] finds, and the card in it. *)
Abbreviation device := (option mmc * C)%type.

Definition mmc_get_env_addr (m : mmc) : Z :=
  u32 (if CONFIG_ENV_OFFSET <? 0 then CONFIG_ENV_OFFSET + capacity m else CONFIG_ENV_OFFSET).
Definition init_mmc_for_env (d : device) : Z * device :=
  match d with
  | (None, _) => (-1, d)
  | (Some m, c) => let '(err, m, c) := mmc_init m c in (if negb (err =? 0) then -1 else 0, (Some m, c))
  end.
Definition write_env (m : mmc) (c : C) (size offset : Z) (buffer : list Z) : option (Z * C) :=
  let blk_start := ALIGN offset (write_bl_len m) / write_bl_len m in
  let blk_cnt := ALIGN size (write_bl_len m) / write_bl_len m in
  '(n, c) ← mmc_bwrite (Some m) c blk_start blk_cnt buffer;
  Some (if n =? blk_cnt then 0 else -1, c).
(** [env_new] is the address of the buffer. *)
Definition saveenv (g : genv) (env_new : Z) (d : device) : option (Z * device) :=
  let '(err, d) := init_mmc_for_env d in
  if negb (err =? 0) then Some (1, d)
  else
    match d with
    | (None, _) => None
    | (Some m, c) =>
        image ← export_env CONFIG_ENV_SIZE g env_new;
        match image with
        | inr _ => Some (1, (Some m, c))
        | inl image =>
            let offset := mmc_get_env_addr m in
            '(err, c) ← write_env m c CONFIG_ENV_SIZE offset image;
            Some (if negb (err =? 0) then 1 else 0, (Some m, c))
        end
    end.
(** The error and what is in the buffer, which must have the room for whole blocks. *)
Definition read_env (m : mmc) (c : C) (size offset : Z) : option (Z * C * list Z) :=
  let blk_start := ALIGN offset (read_bl_len m) / read_bl_len m in
  let blk_cnt := ALIGN size (read_bl_len m) / read_bl_len m in
  '(n, c, buffer) ← mmc_bread (Some m) c blk_start blk_cnt;
  if CONFIG_ENV_SIZE <? zlen buffer then None
  else Some (if n =? blk_cnt then 0 else -1, c, buffer).
(** [buf] is the address of the buffer. *)
Definition env_relocate_spec (buf : Z) (g : genv) (d : device) : option (genv * device) :=
  let default_env g d :=
    g ← set_default_env default_environment CONFIG_ENV_SIZE g None; Some (g, d) in
  let '(err, d) := init_mmc_for_env d in
  if negb (err =? 0) then default_env g d
  else
    match d with
    | (None, _) => None
    | (Some m, c) =>
        '(err, c, buffer) ← read_env m c CONFIG_ENV_SIZE (mmc_get_env_addr m);
        if negb (err =? 0) then default_env g (Some m, c)
        else
          '(_, g) ← env_import default_environment CONFIG_ENV_SIZE g buf buffer true; Some (g, (Some m, c))
    end.
End env.

Lemma ALIGN_spec x k : 0 <= x -> 0 <= k < 32 -> x + 2 ^ k <= 0x100000000 ->
  ALIGN x (2 ^ k) = 2 ^ k * ((x + 2 ^ k - 1) / 2 ^ k).
Proof.
  intros Hx Hk Hb. assert (0 < 2 ^ k) by (apply Z.pow_pos_nonneg; lia). unfold ALIGN.
  rewrite u32_small by lia. rewrite land_align_down by lia. do 2 f_equal. lia.
Qed.
Lemma ALIGN_div x k : 0 <= x -> 0 <= k < 32 -> x + 2 ^ k <= 0x100000000 -> x mod 2 ^ k = 0 ->
  ALIGN x (2 ^ k) / 2 ^ k = x / 2 ^ k.
Proof.
  intros Hx Hk Hb Hm. assert (0 < 2 ^ k) by (apply Z.pow_pos_nonneg; lia). rewrite ALIGN_spec by done.
  rewrite Z.mul_comm, Z.div_mul by lia. apply Z_div_exact_full_2 in Hm; [|lia]. rewrite Hm.
  set (q := x / 2 ^ k). rewrite (Z.mul_comm _ q), Z.div_mul by lia.
  replace (q * 2 ^ k + 2 ^ k - 1) with (2 ^ k - 1 + q * 2 ^ k) by lia.
  rewrite Z.div_add, Z.div_small by lia. lia.
Qed.

Section env_proofs.
Context {Hooks : EnvHooks} {HooksOk : EnvHooksOk} {C : Type} {Card : MmcCard C} {Laws : MmcCardLaws C}.
Context (default_environment : list Z) (CONFIG_ENV_SIZE CONFIG_ENV_OFFSET : Z).
Abbreviation saveenv := (saveenv CONFIG_ENV_SIZE CONFIG_ENV_OFFSET).
Abbreviation env_relocate_spec := (env_relocate_spec default_environment CONFIG_ENV_SIZE CONFIG_ENV_OFFSET).

(** The first byte of the image on the card: the offset, up to the next block. *)
Definition env_start (m : mmc) : Z :=
  ALIGN (mmc_get_env_addr CONFIG_ENV_OFFSET m) (read_bl_len m) / read_bl_len m * read_bl_len m.
(** The image is whole blocks of the card. *)
Definition env_fits (m : mmc) : Prop :=
  geometry m /\ (exists k, 0 <= k < 10 /\ read_bl_len m = 2 ^ k) /\ CONFIG_ENV_SIZE mod read_bl_len m = 0
  /\ env_start m + CONFIG_ENV_SIZE <= lba m * read_bl_len m /\ 4 < CONFIG_ENV_SIZE < 0x40000000.

Lemma env_blocks m : env_fits m ->
  let blk := ALIGN (mmc_get_env_addr CONFIG_ENV_OFFSET m) (read_bl_len m) / read_bl_len m in
  let cnt := ALIGN CONFIG_ENV_SIZE (read_bl_len m) / read_bl_len m in
  geometry m /\ write_bl_len m = read_bl_len m /\ 0 <= blk /\ 0 < cnt /\ blk + cnt <= lba m
  /\ cnt * read_bl_len m = CONFIG_ENV_SIZE /\ blk * read_bl_len m = env_start m.
Proof.
  intros (Hg & (k & Hk & Hbl) & Hmod & Hend & Hsize) blk cnt.
  pose proof Hg as ((Hb & Hb2) & Hw & _). assert (cnt = CONFIG_ENV_SIZE / read_bl_len m) as Hcnt.
  { unfold cnt. rewrite Hbl in *. apply ALIGN_div; lia. }
  apply Z_div_exact_full_2 in Hmod; [|lia].
  assert (0 <= blk) as Hblk.
  { unfold blk. apply Z.div_pos; [|lia]. unfold ALIGN. apply Z.land_nonneg. left.
    match goal with |- 0 <= u32 ?z => pose proof (u32_range z) end. lia. }
  split; [exact Hg|]. split; [done|]. split; [done|]. rewrite Hcnt. unfold env_start in Hend. fold blk in Hend.
  split_and!; [nia|nia|lia|done].
Qed.

Lemma write_env_ok m c image : env_fits m -> zlen image = CONFIG_ENV_SIZE ->
  exists e c', write_env m c CONFIG_ENV_SIZE (mmc_get_env_addr CONFIG_ENV_OFFSET m) image = Some (e, c')
    /\ only (env_start m) CONFIG_ENV_SIZE c c'
    /\ (e = 0 -> same_bytes (cell c') (store (cell c) (env_start m) image))
    /\ (healthy c -> e = 0 /\ healthy c').
Proof.
  intros Hfit Himg. destruct (env_blocks m Hfit) as (Hg & Hw & H1 & H2 & H3 & H4 & H5). unfold write_env.
  rewrite Hw. set (blk := ALIGN _ _ / _) in *. set (cnt := ALIGN CONFIG_ENV_SIZE _ / _) in *.
  destruct (bwrite_ok m c blk cnt image Hg H1 H2 H3) as (r & c' & -> & Honly & Hs & Hh); [rewrite Hw; lia|].
  cbn [mbind option_bind]. rewrite Hw, H4, H5 in *. eexists _, c'. split; [done|]. split; [done|]. split.
  - intros He. destruct Hs as [[_ Hs]|Hs]; [by rewrite Hs, take_ge by lia|].
    destruct (Z.eqb_spec r cnt); [lia|done].
  - intros H. destruct (Hh H) as [-> ?]. by rewrite Z.eqb_refl.
Qed.
Lemma read_env_ok m c : env_fits m -> healthy c ->
  exists c', read_env CONFIG_ENV_SIZE m c CONFIG_ENV_SIZE (mmc_get_env_addr CONFIG_ENV_OFFSET m)
      = Some (0, c', bytes_at (cell c) (env_start m) CONFIG_ENV_SIZE) /\ healthy c'.
Proof.
  intros Hfit Hhc. destruct (env_blocks m Hfit) as (Hg & Hw & H1 & H2 & H3 & H4 & H5). unfold read_env.
  set (blk := ALIGN _ _ / _) in *. set (cnt := ALIGN CONFIG_ENV_SIZE _ / _) in *.
  destruct (bread_ok m c blk cnt Hg H1 H2 H3) as (r & c' & dest & -> & _ & Hd & Hh).
  destruct (Hh Hhc) as [-> ?]. destruct Hd as [[_ ->]|?]; [|lia]. cbn [mbind option_bind].
  destruct Hfit as (_ & _ & _ & _ & ?). rewrite H4, H5, bytes_at_len, Z.eqb_refl by lia. case_if; [lia|].
  by exists c'.
Qed.

(** The device [m] is [m'] when it is initialised. *)
Definition comes_up (m m' : mmc) : Prop := forall c, healthy c -> (mmc_init m c).1.2 = m'.
Lemma init_ok m m' c : comes_up m m' -> healthy c ->
  exists c', init_mmc_for_env (Some m, c) = (0, (Some m', c')) /\ same_bytes (cell c') (cell c) /\ healthy c'.
Proof.
  intros Hup Hc. specialize (Hup c Hc). unfold init_mmc_for_env. unfold mmc_init in *. destruct (has_init m).
  - cbn in Hup. subst. by exists c.
  - pose proof (identified m c) as Hid. destruct (mmc_identify m c) as [[e m1] c1]. cbn in Hup. subst m1.
    destruct Hid as (Hs & _ & Hh). destruct (Hh Hc) as [-> ?]. by exists c1.
Qed.
Lemma load_ok m m' c g buf : env_fits m' -> comes_up m m' -> healthy c -> exists c', healthy c'
  /\ env_relocate_spec buf g (Some m, c)
     = ('(_, g) ← env_import default_environment CONFIG_ENV_SIZE g buf
                    (bytes_at (cell c) (env_start m') CONFIG_ENV_SIZE) true;
        Some (g, (Some m', c'))).
Proof.
  intros Hfit Hup Hc. destruct (init_ok m m' c Hup Hc) as (c1 & Hi & Hs & Hc1).
  destruct (read_env_ok m' c1 Hfit Hc1) as (c2 & Hr & Hc2). exists c2. split; [done|].
  unfold EnvMmc.env_relocate_spec. rewrite Hi. cbn [Z.eqb negb]. rewrite Hr. cbn [mbind option_bind].
  change (negb (0 =? 0)) with false. cbn iota. by rewrite Hs.
Qed.

Context (Hmem : forall n, calloc_ok n = true) (Hdup : forall s, strdup s = Some s).
Lemma mmc_save_ok g M m m' c env_new : rep (env_htab g) M -> savable CONFIG_ENV_SIZE M ->
  total_len 0 (map_to_list M) + 1 <= EnvVar.ENV_SIZE CONFIG_ENV_SIZE ->
  env_fits m' -> comes_up m m' -> healthy c ->
  exists c1 image, saveenv g env_new (Some m, c) = Some (0, (Some m', c1)) /\ healthy c1
    /\ same_bytes (cell c1) (store (cell c) (env_start m') image) /\ good_image CONFIG_ENV_SIZE image
    /\ forall g0 addr, accepting (env_htab g0) -> exists g1,
         env_import default_environment CONFIG_ENV_SIZE g0 addr image true = Some (1, g1)
         /\ env_ready g1 = true /\ rep (env_htab g1) M.
Proof.
  intros Hrep Hsav Hlen Hfit Hup Hc. destruct (init_ok m m' c Hup Hc) as (c1 & Hi & Hs & Hc1).
  pose proof Hfit as (_ & _ & _ & _ & Hsize).
  pose proof (export_env_ok default_environment CONFIG_ENV_SIZE g M env_new Hrep Hsav Hmem Hdup Hsize) as He.
  destruct (Z.ltb_spec (EnvVar.ENV_SIZE CONFIG_ENV_SIZE) (total_len 0 (map_to_list M) + 1)); [lia|].
  destruct He as (image & He & Hgood & Himp). pose proof Hgood as (Hil & _).
  destruct (write_env_ok m' c1 image Hfit Hil) as (e & c2 & Hw & _ & Hst & Hh).
  destruct (Hh Hc1) as [-> Hc2]. exists c2, image. split; [|split; [done|split; [|split; [done|exact Himp]]]].
  - unfold EnvMmc.saveenv. rewrite Hi. change (negb (0 =? 0)) with false. cbn iota. rewrite He.
    cbn [mbind option_bind]. by rewrite Hw.
  - rewrite (Hst eq_refl). by rewrite Hs.
Qed.
End env_proofs.
End EnvMmc.

(** ** The environment in a NOR flash: [common/env_sfc.c] *)
Module EnvSfc.
Section env.
Context {Hooks : EnvHooks} {C : Type} {Chip : NorChip C} (parts : list nor_partition).
Context (default_environment : list Z) (CONFIG_ENV_SIZE CONFIG_ENV_OFFSET ARCH_DMA_MINALIGN : Z).
Context (malloc_ok : Z -> bool).
Abbreviation ENV_SIZE := (ENV_SIZE CONFIG_ENV_SIZE).

(** The room of a buffer of [ENV_SIZE] bytes made with [ALLOC_CACHE_ALIGN_BUFFER]. *)
Definition buf_room : Z := ALIGN ENV_SIZE ARCH_DMA_MINALIGN.
Definition erase_offset : Z :=
  if negb (CONFIG_ENV_OFFSET mod erase_size =? 0)
  then s32 (ALIGN CONFIG_ENV_OFFSET erase_size) - erase_size else CONFIG_ENV_OFFSET.
(** A read into a buffer of [room] bytes that holds [old]. *)
Definition read_into (c : C) (from len room : Z) (old : list Z) : option (list Z) :=
  if room <? len then None
  else r ← sfc_nor_read parts c from len;
       Some (match r with inl d => d ++ drop (length d) old | inr _ => old end).
(** [memcpy] of [l] to [buf + i]. *)
Definition copy_into (buf : list Z) (i : Z) (l : list Z) : option (list Z) :=
  if (i <? 0) || (zlen buf <? i + zlen l) then None
  else Some (take (Z.to_nat i) buf ++ l ++ drop (Z.to_nat (i + zlen l)) buf).
(** [heap] is what [malloc] finds in the memory of [r_buf], [stack] what is in [buf].  The
    results of the flash are dropped, and the comparison of what is read back only prints. *)
Definition saveenv (g : genv) (env_new : Z) (heap stack : list Z) (c : C) : option (Z * C) :=
  image ← export_env CONFIG_ENV_SIZE g env_new;
  match image with
  | inr _ => Some (1, c)
  | inl env_new =>
      if negb (malloc_ok erase_size) then None
      else
        r_buf ← read_into c erase_offset erase_size erase_size (take (Z.to_nat erase_size) heap);
        r_buf ← copy_into r_buf (CONFIG_ENV_OFFSET - erase_offset) env_new;
        '(_, c) ← sfc_nor_erase parts c erase_offset erase_size;
        '(_, c) ← sfc_nor_write parts c erase_offset erase_size r_buf;
        _ ← read_into c CONFIG_ENV_OFFSET CONFIG_ENV_SIZE buf_room stack;
        Some (0, c)
  end.
Definition env_relocate_spec (buf : Z) (stack : list Z) (g : genv) (c : C) : option (genv * C) :=
  data ← read_into c CONFIG_ENV_OFFSET CONFIG_ENV_SIZE buf_room stack;
  '(_, g) ← env_import default_environment CONFIG_ENV_SIZE g buf data true; Some (g, c).
End env.

Section env_proofs.
Context {Hooks : EnvHooks} {HooksOk : EnvHooksOk} {C : Type} {Chip : NorChip C} {Laws : NorChipLaws C}.
Context (parts : list nor_partition) (default_environment : list Z).
Context (CONFIG_ENV_SIZE CONFIG_ENV_OFFSET ARCH_DMA_MINALIGN : Z).

(** The environment is inside of one sector, of partitions that can be read and written, and
    the rounding of the buffers to cache lines gives them the room of the checksum. *)
Record env_fits : Prop := {
  fits_size : 4 < CONFIG_ENV_SIZE <= buf_room CONFIG_ENV_SIZE ARCH_DMA_MINALIGN;
  fits_erase : exists k, 0 <= k < 30 /\ erase_size = 2 ^ k;
  fits_offset : 0 <= CONFIG_ENV_OFFSET < 0x40000000;
  fits_sector : CONFIG_ENV_OFFSET mod erase_size + CONFIG_ENV_SIZE <= erase_size;
  fits_parts : masked parts (erase_offset CONFIG_ENV_OFFSET) NORFLASH_PART_RO = false
    /\ masked parts (erase_offset CONFIG_ENV_OFFSET) NORFLASH_PART_WO = false
    /\ masked parts CONFIG_ENV_OFFSET NORFLASH_PART_WO = false }.
Lemma erase_offset_ok : env_fits ->
  erase_offset CONFIG_ENV_OFFSET = CONFIG_ENV_OFFSET - CONFIG_ENV_OFFSET mod erase_size.
Proof.
  intros [_ (k & Hk & Hes) Hoff _ _]. unfold erase_offset. assert (0 < 2 ^ k) by (apply Z.pow_pos_nonneg; lia).
  assert (2 ^ k < 2 ^ 30) as Hk2 by (apply Z.pow_lt_mono_r; lia). change (2 ^ 30) with 0x40000000 in Hk2.
  rewrite Hes. pose proof (Z.div_mod CONFIG_ENV_OFFSET (2 ^ k) ltac:(lia)) as Hd.
  pose proof (Z.mod_pos_bound CONFIG_ENV_OFFSET (2 ^ k) ltac:(lia)).
  set (q := CONFIG_ENV_OFFSET / 2 ^ k) in *. set (r := CONFIG_ENV_OFFSET mod 2 ^ k) in *.
  destruct (Z.eqb_spec r 0); cbn [negb]; [lia|]. rewrite EnvMmc.ALIGN_spec by lia.
  replace (CONFIG_ENV_OFFSET + 2 ^ k - 1) with (r - 1 + (q + 1) * 2 ^ k) by lia.
  rewrite Z.div_add, Z.div_small by lia. rewrite s32_small by nia. lia.
Qed.
Abbreviation cell := Nor.cell.
Lemma read_into_ok c from len room old : 0 <= from -> 0 <= len <= room -> from + len < 0x100000000 ->
  masked parts from NORFLASH_PART_WO = false ->
  read_into parts c from len room old = Some (bytes_at (cell c) from len ++ drop (Z.to_nat len) old).
Proof.
  intros Hf Hl Hb Hm. unfold read_into. case_if; [lia|]. rewrite sfc_nor_read_ok by (done || lia).
  cbn [mbind option_bind]. pose proof (bytes_at_len (cell c) from len ltac:(lia)). do 3 f_equal. lia.
Qed.
Lemma bytes_at_bytes c a n : Forall (fun b => 0 <= b < 256) (bytes_at (cell c) a n).
Proof.
  unfold bytes_at. apply Forall_forall. intros b (x & <- & _)%list_elem_of_In%in_map_iff. apply cell_byte.
Qed.
Lemma env_import_tail g addr image t : zlen image = CONFIG_ENV_SIZE -> 4 < CONFIG_ENV_SIZE ->
  env_import default_environment CONFIG_ENV_SIZE g addr (image ++ t) true
  = env_import default_environment CONFIG_ENV_SIZE g addr image true.
Proof.
  intros Hl H4. unfold env_import, EnvVar.ENV_SIZE. rewrite !take_app_le, drop_app_le by lia.
  rewrite take_app_le by (rewrite length_drop; lia). done.
Qed.

(** The sector after a read, erase and write of it with the image inside. *)
Lemma update_ok c image : env_fits -> zlen image = CONFIG_ENV_SIZE -> Forall byte image ->
  let r_buf := bytes_at (cell c) (erase_offset CONFIG_ENV_OFFSET) erase_size in
  exists buf c1 c2,
    copy_into r_buf (CONFIG_ENV_OFFSET - erase_offset CONFIG_ENV_OFFSET) image = Some buf
    /\ sfc_nor_erase parts c (erase_offset CONFIG_ENV_OFFSET) erase_size = Some (0, c1)
    /\ sfc_nor_write parts c1 (erase_offset CONFIG_ENV_OFFSET) erase_size buf = Some (0, c2)
    /\ same_bytes (cell c2) (store (cell c) CONFIG_ENV_OFFSET image).
Proof.
  intros Hfit Hlen Hbytes. pose proof (erase_offset_ok Hfit) as He. rewrite He. intros r_buf.
  destruct Hfit as [Hs (k & Hk & Hes) Ho Hsec (Hro & _ & _)]. rewrite He in Hro.
  assert (0 < 2 ^ k < 0x40000000) as Hk2.
  { split; [apply Z.pow_pos_nonneg; lia|]. change 0x40000000 with (2 ^ 30). apply Z.pow_lt_mono_r; lia. }
  set (r := CONFIG_ENV_OFFSET mod erase_size) in *.
  assert (0 <= r) as Hr by (apply Z.mod_pos_bound; lia).
  assert (r <= CONFIG_ENV_OFFSET) as Hr2 by (apply Z.mod_le; lia).
  assert ((CONFIG_ENV_OFFSET - r) mod erase_size = 0) as Hmod.
  { unfold r. rewrite Zminus_mod_idemp_r, Z.sub_diag. apply Z.mod_0_l. lia. }
  set (base := CONFIG_ENV_OFFSET - r) in *.
  assert (zlen r_buf = erase_size) as Hrl by (apply bytes_at_len; lia).
  unfold copy_into. replace (CONFIG_ENV_OFFSET - base) with r by lia.
  replace ((r <? 0) || (zlen r_buf <? r + zlen image)) with false by (symmetry; apply orb_false_iff; lia).
  set (buf := take _ _ ++ _).
  assert (buf = bytes_at (store (cell c) (base + r) image) base erase_size) as Hbuf
    by (unfold buf, r_buf; rewrite bytes_at_patch by lia; reflexivity).
  assert (zlen buf = erase_size) as Hbl by (rewrite Hbuf; apply bytes_at_len; lia).
  assert (Forall (fun b => 0 <= b < 256) buf) as Hbb.
  { unfold buf. apply Forall_app_2; [apply Forall_take, bytes_at_bytes|].
    apply Forall_app_2; [exact Hbytes|apply Forall_drop, bytes_at_bytes]. }
  destruct (erase_write_ok parts c base 1 buf) as (c1 & c2 & H1 & H2 & H3 & H4);
    try done; try lia.
  rewrite Z.mul_1_l in *. exists buf, c1, c2. split_and!; [done|done|done|].
  replace (base + r) with CONFIG_ENV_OFFSET in Hbuf by lia.
  intros x. destruct (decide (base <= x < base + erase_size)) as [Hx|Hx].
  - rewrite Hbuf in H3. exact (bytes_at_inv _ _ _ _ _ H3 Hx).
  - rewrite H4 by done. symmetry. apply store_outside. lia.
Qed.

Lemma sfc_save_ok g M c env_new heap stack malloc_ok : env_fits -> (forall n, malloc_ok n = true) ->
  rep (env_htab g) M -> savable CONFIG_ENV_SIZE M -> CONFIG_ENV_SIZE < 0x40000000 ->
  (forall n, calloc_ok n = true) -> (forall s, strdup s = Some s) ->
  if EnvVar.ENV_SIZE CONFIG_ENV_SIZE <? total_len 0 (map_to_list M) + 1
  then saveenv parts CONFIG_ENV_SIZE CONFIG_ENV_OFFSET ARCH_DMA_MINALIGN malloc_ok g env_new heap stack c = Some (1, c)
  else exists c1 image,
    saveenv parts CONFIG_ENV_SIZE CONFIG_ENV_OFFSET ARCH_DMA_MINALIGN malloc_ok g env_new heap stack c = Some (0, c1)
    /\ same_bytes (cell c1) (store (cell c) CONFIG_ENV_OFFSET image) /\ good_image CONFIG_ENV_SIZE image
    /\ forall g0 addr, accepting (env_htab g0) -> exists g1,
         env_import default_environment CONFIG_ENV_SIZE g0 addr image true = Some (1, g1)
         /\ env_ready g1 = true /\ rep (env_htab g1) M.
Proof.
  intros Hfit Hmal Hrep Hsav Hsize Hmem Hdup. pose proof Hfit as [Hs (k & Hk & Hes) Ho Hsec (Hro & Hwo & Hwo2)].
  pose proof (export_env_ok default_environment CONFIG_ENV_SIZE g M env_new Hrep Hsav Hmem Hdup ltac:(lia)) as Hex.
  unfold saveenv. destruct (Z.ltb_spec (EnvVar.ENV_SIZE CONFIG_ENV_SIZE) (total_len 0 (map_to_list M) + 1)).
  { by rewrite Hex. }
  destruct Hex as (image & -> & Hgood & Himp). pose proof Hgood as (Hil & Hib & _).
  cbn [mbind option_bind]. rewrite Hmal. cbn [negb]. pose proof erase_size_ok as Her.
  pose proof (erase_offset_ok Hfit) as He. pose proof (Z.mod_pos_bound CONFIG_ENV_OFFSET erase_size ltac:(lia)).
  assert (CONFIG_ENV_OFFSET mod erase_size <= CONFIG_ENV_OFFSET) by (apply Z.mod_le; lia).
  assert (erase_size < 0x40000000) as Hes30.
  { rewrite Hes. change 0x40000000 with (2 ^ 30). apply Z.pow_lt_mono_r; lia. }
  rewrite read_into_ok by (done || lia). cbn [mbind option_bind].
  rewrite drop_ge, app_nil_r by (rewrite length_take; lia).
  destruct (update_ok c image Hfit Hil Hib) as (buf & c1 & c2 & -> & Her1 & Hwr2 & H3). cbn [mbind option_bind].
  rewrite Her1. cbn [mbind option_bind]. rewrite Hwr2. cbn [mbind option_bind].
  rewrite read_into_ok by (done || lia). cbn [mbind option_bind]. by exists c2, image.
Qed.
End env_proofs.
End EnvSfc.

Section mmc_properties.
Context {Hooks : EnvHooks} {HooksOk : EnvHooksOk} {C : Type} {Card : MmcCard C} {Laws : MmcCardLaws C}.
Import EnvMmc.

(** C6: What [saveenv] puts on a memory card is what the next start reads: [env_relocate] with
    the same device, initialised or not, gives a table for the same variables, and no byte of
    the card outside of the image changes.  The card is one no command of which fails, and the
    variables fit the image. *)
Theorem mmc_save_load default_environment CONFIG_ENV_SIZE CONFIG_ENV_OFFSET g M env_new m m' c g0 buf
    (Hmem : forall n, calloc_ok n = true) (Hdup : forall s, strdup s = Some s)
    (Hrep : rep (env_htab g) M) (Hsav : savable CONFIG_ENV_SIZE M)
    (Hlen : total_len 0 (map_to_list M) + 1 <= EnvVar.ENV_SIZE CONFIG_ENV_SIZE)
    (Hfit : env_fits CONFIG_ENV_SIZE CONFIG_ENV_OFFSET m') (Hup : comes_up m m') (Hc : healthy c)
    (Hg0 : env_valid g0 = true) (Hacc : accepting (env_htab g0)) :
  exists c1 c2 g1, saveenv CONFIG_ENV_SIZE CONFIG_ENV_OFFSET g env_new (Some m, c) = Some (0, (Some m', c1))
    /\ (forall x, ~ (env_start CONFIG_ENV_OFFSET m' <= x < env_start CONFIG_ENV_OFFSET m' + CONFIG_ENV_SIZE) ->
         cell c1 x = cell c x)
    /\ env_relocate default_environment CONFIG_ENV_SIZE
         (env_relocate_spec default_environment CONFIG_ENV_SIZE CONFIG_ENV_OFFSET buf) g0 (Some m, c1)
       = Some (g1, (Some m', c2))
    /\ env_ready g1 = true /\ rep (env_htab g1) M.
Proof.
  destruct (mmc_save_ok default_environment CONFIG_ENV_SIZE CONFIG_ENV_OFFSET Hmem Hdup g M m m' c env_new Hrep Hsav Hlen
    Hfit Hup Hc) as (c1 & image & Hsave & Hc1 & Hst & (Hil & _) & Himp).
  destruct (load_ok default_environment CONFIG_ENV_SIZE CONFIG_ENV_OFFSET m m' c1 g0 buf Hfit Hup Hc1) as (c2 & _ & Hload).
  destruct (Himp g0 buf Hacc) as (g1 & Hg1 & Hready & Hrep1). exists c1, c2, g1. split; [exact Hsave|]. split; [|split; [|done]].
  - intros x Hx. rewrite Hst. apply store_outside. by rewrite Hil.
  - unfold env_relocate. rewrite Hg0. cbn [negb]. rewrite Hload, Hst, <- Hil, bytes_at_store, Hil, Hg1. done.
Qed.

(** C10: When up to four bytes in a row of the image on a card have changed since [saveenv], either in
    the checksum or behind it, the image is not taken for an environment: [env_relocate] falls
    back to the default environment with "bad CRC".  Nothing is said of changes in several places,
    of longer ones, and of those that begin in the checksum and end behind it. *)
Theorem mmc_save_damage default_environment CONFIG_ENV_SIZE CONFIG_ENV_OFFSET g M env_new m m' c p w g0 buf
    (Hmem : forall n, calloc_ok n = true) (Hdup : forall s, strdup s = Some s)
    (Hrep : rep (env_htab g) M) (Hsav : savable CONFIG_ENV_SIZE M)
    (Hlen : total_len 0 (map_to_list M) + 1 <= EnvVar.ENV_SIZE CONFIG_ENV_SIZE)
    (Hfit : env_fits CONFIG_ENV_SIZE CONFIG_ENV_OFFSET m') (Hup : comes_up m m') (Hc : healthy c)
    (Hw : Forall byte w) (Hw4 : (length w <= 4)%nat)
    (Hp : 0 <= p /\ p + zlen w <= 4 \/ 4 <= p /\ p + zlen w <= CONFIG_ENV_SIZE)
    (Hg0 : env_valid g0 = true) :
  exists c1, saveenv CONFIG_ENV_SIZE CONFIG_ENV_OFFSET g env_new (Some m, c) = Some (0, (Some m', c1))
    /\ (let start := env_start CONFIG_ENV_OFFSET m' in
        forall c', healthy c' ->
        same_bytes (cell c') (store (cell c1) (start + p) w) -> bytes_at (cell c1) (start + p) (zlen w) <> w ->
        exists c2, env_relocate default_environment CONFIG_ENV_SIZE
            (env_relocate_spec default_environment CONFIG_ENV_SIZE CONFIG_ENV_OFFSET buf) g0 (Some m, c')
          = (g ← set_default_env default_environment CONFIG_ENV_SIZE g0 (Some (codes "!bad CRC"));
             Some (g, (Some m', c2)))).
Proof.
  destruct (mmc_save_ok default_environment CONFIG_ENV_SIZE CONFIG_ENV_OFFSET Hmem Hdup g M m m' c env_new Hrep Hsav Hlen
    Hfit Hup Hc) as (c1 & image & Hsave & Hc1 & Hst & Hgood & _).
  exists c1. split; [exact Hsave|]. intros start c' Hc' Hdam Hne.
  destruct (load_ok default_environment CONFIG_ENV_SIZE CONFIG_ENV_OFFSET m m' c' g0 buf Hfit Hup Hc') as (c2 & _ & Hload).
  exists c2. unfold env_relocate. rewrite Hg0. cbn [negb]. rewrite Hload. fold start in Hst |- *.
  pose proof Hgood as (Hil & _). assert (4 < CONFIG_ENV_SIZE) as H4 by apply Hfit.
  assert (bytes_at (cell c1) start CONFIG_ENV_SIZE = image) as Himg by by rewrite Hst, <- Hil, bytes_at_store.
  assert (take (Z.to_nat p) image ++ w ++ drop (Z.to_nat (p + zlen w)) image <> image) as Hother.
  { intros Heq. apply Hne. rewrite <- Himg in Heq.
    apply (bytes_at_patch_same (cell c1) start CONFIG_ENV_SIZE p w ltac:(lia) ltac:(lia) Heq). }
  rewrite Hdam, bytes_at_patch, Himg by lia. destruct Hp as [[Hp Hpw]|[Hp Hpw]].
  - rewrite (damaged_checksum default_environment CONFIG_ENV_SIZE image p w g0 buf Hgood Hw ltac:(lia) Hp Hpw Hother).
    by destruct (set_default_env _ _ _ _).
  - rewrite (damaged_image default_environment CONFIG_ENV_SIZE image p w g0 buf Hgood Hw Hp Hw4 Hpw Hother).
    by destruct (set_default_env _ _ _ _).
Qed.

(** C17: Whatever commands of an initialised card fail, [saveenv] ends with 0 or 1, and no byte
    outside of the image changes; 0 means that the card holds an image with a good checksum; with
    more variables than the image has room for the result is 1 and the card is not touched. *)
Theorem mmc_saveenv_safe CONFIG_ENV_SIZE CONFIG_ENV_OFFSET g M env_new m c
    (Hmem : forall n, calloc_ok n = true) (Hdup : forall s, strdup s = Some s)
    (Hrep : rep (env_htab g) M) (Hsav : savable CONFIG_ENV_SIZE M)
    (Hfit : env_fits CONFIG_ENV_SIZE CONFIG_ENV_OFFSET m) (Hinit : has_init m = true) :
  let start := env_start CONFIG_ENV_OFFSET m in
  exists r c1, saveenv CONFIG_ENV_SIZE CONFIG_ENV_OFFSET g env_new (Some m, c) = Some (r, (Some m, c1))
    /\ (r = 0 \/ r = 1)
    /\ (forall x, ~ (start <= x < start + CONFIG_ENV_SIZE) -> cell c1 x = cell c x)
    /\ (r = 0 -> good_image CONFIG_ENV_SIZE (bytes_at (cell c1) start CONFIG_ENV_SIZE))
    /\ (EnvVar.ENV_SIZE CONFIG_ENV_SIZE < total_len 0 (map_to_list M) + 1 -> r = 1 /\ c1 = c).
Proof.
  intros start. pose proof Hfit as (_ & _ & _ & _ & Hsize).
  pose proof (export_env_ok [] CONFIG_ENV_SIZE g M env_new Hrep Hsav Hmem Hdup Hsize) as He.
  unfold EnvMmc.saveenv, init_mmc_for_env, mmc_init. rewrite Hinit. change (negb (0 =? 0)) with false. cbn iota.
  destruct (Z.ltb_spec (EnvVar.ENV_SIZE CONFIG_ENV_SIZE) (total_len 0 (map_to_list M) + 1)).
  { rewrite He. exists 1, c. split_and!; try done. by right. }
  destruct He as (image & -> & Hgood & _). pose proof Hgood as (Hil & _). cbn [mbind option_bind].
  destruct (write_env_ok CONFIG_ENV_SIZE CONFIG_ENV_OFFSET m c image Hfit Hil) as (e & c2 & -> & Honly & Hst & _).
  cbn [mbind option_bind]. exists (if negb (e =? 0) then 1 else 0), c2. split; [done|].
  split; [case_if; auto|]. split; [exact Honly|]. split; [|lia].
  destruct (Z.eqb_spec e 0); cbn [negb]; [|done]. intros _. rewrite Hst by done. fold start.
  by rewrite <- Hil, bytes_at_store, Hil.
Qed.
End mmc_properties.

(** ** The theorems at a concrete card *)
#[local] Existing Instance toy_mmc.
#[local] Existing Instance toy_mmc_laws.
Lemma one_var_savable : savable 1024 one_var.
Proof.
  unfold one_var. split.
  - apply map_non_empty_singleton.
  - intros k d [<- <-]%lookup_singleton_Some. split; [by repeat constructor|].
    split; [split; [by repeat constructor|intros _; by_computation]|].
    unfold valid; cbn [fst snd]. split_and!; [by repeat constructor|by repeat constructor|done| | |done];
      by_computation.
  - rewrite map_size_singleton. done.
  - rewrite map_to_list_singleton. done.
Qed.
Lemma one_var_room : total_len 0 (map_to_list one_var) + 1 <= EnvVar.ENV_SIZE 1024.
Proof. unfold one_var. rewrite map_to_list_singleton. done. Qed.
(** The image is two blocks, 2 KiB in front of the end of the card. *)
Lemma erase_dev_fits : EnvMmc.env_fits 1024 (-2048) erase_dev.
Proof.
  split; [unfold geometry; cbn; lia|]. split; [exists 9; done|]. split; [done|]. split; [|lia]. by vm_compute.
Qed.
Lemma erase_dev_up : EnvMmc.comes_up erase_dev erase_dev.
Proof. intros c _. done. Qed.

Lemma mmc_save_load_witness : exists c1 c2 g1,
  EnvMmc.saveenv 1024 (-2048) (EnvSpec.one_env one_table) 0x1000 (Some erase_dev, toy_blank)
  = Some (0, (Some erase_dev, c1))
  /\ env_relocate [] 1024 (EnvMmc.env_relocate_spec [] 1024 (-2048) 0x2000) (EnvSpec.one_env no_table) (Some erase_dev, c1)
     = Some (g1, (Some erase_dev, c2))
  /\ rep (env_htab g1) one_var.
Proof.
  destruct (mmc_save_load [] 1024 (-2048) (EnvSpec.one_env one_table) one_var 0x1000 erase_dev erase_dev toy_blank
    (EnvSpec.one_env no_table) 0x2000) as (c1 & c2 & g1 & H1 & _ & H2 & _ & H3).
  - done.
  - done.
  - apply one_table_rep.
  - apply one_var_savable.
  - apply one_var_room.
  - apply erase_dev_fits.
  - apply erase_dev_up.
  - done.
  - done.
  - by split.
  - exists c1, c2, g1. split; [exact H1|]. split; [exact H2|exact H3].
Defined.
(** The first character of the text becomes a 7. *)
Definition damaged (c : toy_card) : toy_card :=
  mk_toy (store (bytes c) (EnvMmc.env_start (-2048) erase_dev + 4) [7]) 0 0.
Lemma mmc_save_damage_witness : exists c1 c2,
  EnvMmc.saveenv 1024 (-2048) (EnvSpec.one_env one_table) 0x1000 (Some erase_dev, toy_blank)
  = Some (0, (Some erase_dev, c1))
  /\ env_relocate [] 1024
       (EnvMmc.env_relocate_spec [] 1024 (-2048) 0x2000) (EnvSpec.one_env no_table) (Some erase_dev, damaged c1)
     = (g ← set_default_env [] 1024 (EnvSpec.one_env no_table) (Some (codes "!bad CRC"));
        Some (g, (Some erase_dev, c2))).
Proof.
  assert ((match EnvMmc.saveenv 1024 (-2048) (EnvSpec.one_env one_table) 0x1000 (Some erase_dev, toy_blank) with
           | Some (_, (_, c)) => bytes_at (cell c) (EnvMmc.env_start (-2048) erase_dev + 4) 1
           | None => []
           end) = [98]) as Hb by (vm_compute; reflexivity).
  destruct (mmc_save_damage [] 1024 (-2048) (EnvSpec.one_env one_table) one_var 0x1000 erase_dev erase_dev toy_blank
    4 [7] (EnvSpec.one_env no_table) 0x2000) as (c1 & H1 & H2).
  - done.
  - done.
  - apply one_table_rep.
  - apply one_var_savable.
  - apply one_var_room.
  - apply erase_dev_fits.
  - apply erase_dev_up.
  - done.
  - by repeat constructor.
  - cbn. lia.
  - right. done.
  - done.
  - rewrite H1 in Hb. destruct (H2 (damaged c1)) as (c2 & H3); [done|done| |].
    + change (zlen [7]) with 1. rewrite Hb. done.
    + exists c1, c2. split; [exact H1|exact H3].
Defined.
Lemma mmc_saveenv_safe_witness : exists r c1,
  EnvMmc.saveenv 1024 (-2048) (EnvSpec.one_env one_table) 0x1000 (Some erase_dev, toy_blank)
  = Some (r, (Some erase_dev, c1)) /\ (r = 0 \/ r = 1).
Proof.
  destruct (mmc_saveenv_safe 1024 (-2048) (EnvSpec.one_env one_table) one_var 0x1000 erase_dev toy_blank)
    as (r & c1 & H1 & H2 & _).
  - done.
  - done.
  - apply one_table_rep.
  - apply one_var_savable.
  - apply erase_dev_fits.
  - done.
  - exists r, c1. split; [exact H1|exact H2].
Defined.

(** C8: The same in a NOR flash: [saveenv] erases and programs the sector the environment is in,
    keeps every other byte of the sector and of the chip, and [env_relocate] gives a table for
    the same variables; with more variables than the image has room for the result is 1 and
    the flash is not touched. *)
Theorem sfc_save_load {Hooks : EnvHooks} {HooksOk : EnvHooksOk} {C : Type} {Chip : NorChip C} {Laws : NorChipLaws C}
    parts default_environment CONFIG_ENV_SIZE CONFIG_ENV_OFFSET ARCH_DMA_MINALIGN malloc_ok g M env_new heap stack c g0 buf
    (Hmem : forall n, calloc_ok n = true) (Hdup : forall s, strdup s = Some s) (Hmal : forall n, malloc_ok n = true)
    (Hrep : rep (env_htab g) M) (Hsav : savable CONFIG_ENV_SIZE M) (Hsize : CONFIG_ENV_SIZE < 0x40000000)
    (Hfit : EnvSfc.env_fits parts CONFIG_ENV_SIZE CONFIG_ENV_OFFSET ARCH_DMA_MINALIGN)
    (Hg0 : env_valid g0 = true) (Hacc : accepting (env_htab g0)) :
  let save := EnvSfc.saveenv parts CONFIG_ENV_SIZE CONFIG_ENV_OFFSET ARCH_DMA_MINALIGN malloc_ok g env_new heap stack c in
  if EnvVar.ENV_SIZE CONFIG_ENV_SIZE <? total_len 0 (map_to_list M) + 1 then save = Some (1, c)
  else exists c1 g1, save = Some (0, c1)
    /\ (forall x, ~ (CONFIG_ENV_OFFSET <= x < CONFIG_ENV_OFFSET + CONFIG_ENV_SIZE) -> Nor.cell c1 x = Nor.cell c x)
    /\ env_relocate default_environment CONFIG_ENV_SIZE
         (EnvSfc.env_relocate_spec parts default_environment CONFIG_ENV_SIZE CONFIG_ENV_OFFSET ARCH_DMA_MINALIGN
            buf stack) g0 c1 = Some (g1, c1)
    /\ env_ready g1 = true /\ rep (env_htab g1) M.
Proof.
  intros save. pose proof Hfit as [Hs (k & Hk & Hes) Ho _ (_ & _ & Hwo)].
  pose proof (EnvSfc.sfc_save_ok parts default_environment CONFIG_ENV_SIZE CONFIG_ENV_OFFSET ARCH_DMA_MINALIGN g M c env_new
    heap stack malloc_ok Hfit Hmal Hrep Hsav Hsize Hmem Hdup) as H. fold save in H.
  destruct (_ <? _); [exact H|]. destruct H as (c1 & image & Hsave & Hst & (Hil & _) & Himp).
  destruct (Himp g0 buf Hacc) as (g1 & Hg1 & Hready & Hrep1). exists c1, g1. split; [exact Hsave|]. split; [|split; [|done]].
  - intros x Hx. rewrite Hst. apply store_outside. by rewrite Hil.
  - unfold env_relocate, EnvSfc.env_relocate_spec. rewrite Hg0. cbn [negb].
    rewrite EnvSfc.read_into_ok by (done || lia). cbn [mbind option_bind].
    assert (bytes_at (Nor.cell c1) CONFIG_ENV_OFFSET CONFIG_ENV_SIZE = image) as ->
      by by rewrite Hst, <- Hil, bytes_at_store.
    rewrite EnvSfc.env_import_tail, Hg1 by lia. done.
Qed.

#[local] Existing Instance toy_chip.
#[local] Existing Instance toy_chip_laws.
(** The environment in the middle of the second sector. *)
Lemma toy_chip_fits : EnvSfc.env_fits [mkpart 0x10000 0 0] 1024 0x1400 32.
Proof.
  split.
  - by vm_compute.
  - exists 12. done.
  - lia.
  - by vm_compute.
  - by vm_compute.
Qed.
Lemma sfc_save_load_witness : exists c1 g1,
  EnvSfc.saveenv [mkpart 0x10000 0 0] 1024 0x1400 32 (fun _ => true) (EnvSpec.one_env one_table) 0x1000 [] [] blank
  = Some (0, c1)
  /\ env_relocate [] 1024 (EnvSfc.env_relocate_spec [mkpart 0x10000 0 0] [] 1024 0x1400 32 0x2000 [])
       (EnvSpec.one_env no_table) c1 = Some (g1, c1)
  /\ rep (env_htab g1) one_var.
Proof.
  pose proof (sfc_save_load [mkpart 0x10000 0 0] [] 1024 0x1400 32 (fun _ => true) (EnvSpec.one_env one_table) one_var
    0x1000 [] [] blank (EnvSpec.one_env no_table) 0x2000) as H.
  pose proof one_var_room as Hroom.
  destruct (Z.ltb_spec (EnvVar.ENV_SIZE 1024) (total_len 0 (map_to_list one_var) + 1)) as [Hlt|Hle]; [lia|].
  destruct H as (c1 & g1 & H1 & _ & H2 & _ & H3).
  - done.
  - done.
  - done.
  - apply one_table_rep.
  - apply one_var_savable.
  - lia.
  - apply toy_chip_fits.
  - done.
  - by split.
  - exists c1, g1. split; [exact H1|]. split; [exact H2|exact H3].
Defined.

(** In a read-only partition [saveenv] changes nothing and says 0. *)
Lemma sfc_save_read_only :
  EnvSfc.saveenv [mkpart 0x10000 0 NORFLASH_PART_RO] 1024 0x1400 32 (fun _ => true) (EnvSpec.one_env one_table) 0x1000
    [] [] blank = Some (0, blank).
Proof. vm_compute. reflexivity. Qed.
(** The buffer for the environment that is read back is four bytes short; only its rounding
    to cache lines makes up for them. *)
Lemma sfc_buffer_short :
  EnvSfc.saveenv [mkpart 0x10000 0 0] 1024 0x1400 4 (fun _ => true) (EnvSpec.one_env one_table) 0x1000 [] [] blank = None.
Proof. vm_compute. reflexivity. Qed.
