(* ===== verification/Image.v ===== *)
(** * Boot images: [common/image.c], [include/image.h], [tools/default_image.c], [tools/mkimage.c]

    The legacy image format: a header of 64 bytes with two checksums, in network byte order, in
    front of the data.  [mkimage] makes such a file on the host; U-Boot checks it in memory and
    finds its parts. *)
From S2P Require Import Prelude Ctype Mem CStr Crc.

(** ** Constants *)
Definition IH_OS_NETBSD : Z := 2.
Definition IH_OS_LINUX : Z := 5.
Definition IH_OS_RTEMS : Z := 18.
Definition IH_OS_PLAN9 : Z := 23.
Definition IH_ARCH_MIPS : Z := 5.
(** [arch/mips/include/asm/u-boot.h]. *)
Definition IH_ARCH_DEFAULT : Z := IH_ARCH_MIPS.
Definition IH_TYPE_STANDALONE : Z := 1.
Definition IH_TYPE_KERNEL : Z := 2.
Definition IH_TYPE_RAMDISK : Z := 3.
Definition IH_TYPE_MULTI : Z := 4.
Definition IH_TYPE_SCRIPT : Z := 6.
Definition IH_TYPE_KERNEL_NOLOAD : Z := 14.
Definition IH_COMP_NONE : Z := 0.
Definition IH_COMP_GZIP : Z := 1.
Definition IH_COMP_LZMA : Z := 3.
Definition IH_COMP_LZO : Z := 4.
Definition IH_MAGIC : Z := 0x27051956.
Definition IH_NMLEN : nat := 32.
Definition CHUNKSZ_CRC32 : Z := 64 * 1024.
Definition IMAGE_FORMAT_INVALID : Z := 0.
Definition IMAGE_FORMAT_LEGACY : Z := 1.

(** The offsets in [image_header_t]. *)
Definition sizeof_header : nat := 64.
Definition ih_magic : nat := 0.
Definition ih_hcrc : nat := 4.
Definition ih_time : nat := 8.
Definition ih_size : nat := 12.
Definition ih_load : nat := 16.
Definition ih_ep : nat := 20.
Definition ih_dcrc : nat := 24.
Definition ih_os : nat := 28.
Definition ih_arch : nat := 29.
Definition ih_type : nat := 30.
Definition ih_comp : nat := 31.
Definition ih_name : nat := 32.

(** ** Fields *)
(** A number in network byte order, [cpu_to_uimage]. *)
Definition be32 (v : Z) : list Z := [u8 (v ≫ 24); u8 (v ≫ 16); u8 (v ≫ 8); u8 v].
Definition put (l : list Z) (off : nat) (b : list Z) : list Z := take off l ++ b ++ drop (off + length b) l.
Definition image_set_l (f : nat) (hdr : list Z) (val : Z) : list Z := put hdr f (be32 val).
Definition image_set_b (f : nat) (hdr : list Z) (val : Z) : list Z := put hdr f [u8 val].
(** [strncpy] of the host library fills up with NUL. *)
Definition image_set_name (hdr name : list Z) : list Z :=
  put hdr ih_name (take IH_NMLEN name ++ replicate (IH_NMLEN - length name) 0).

(** [uimage_to_cpu] of an aligned word in memory. *)
Definition load_be32 (m : mem) (a : Z) : option Z :=
  if negb (a mod 4 =? 0) then None
  else b0 ← load m a; b1 ← load m (a + 1); b2 ← load m (a + 2); b3 ← load m (a + 3);
       Some (b0 * 0x1000000 + b1 * 0x10000 + b2 * 0x100 + b3).
Fixpoint load_bytes (m : mem) (a : Z) (n : nat) : option (list Z) :=
  match n with
  | O => Some []
  | S n => c ← load m a; l ← load_bytes m (a + 1) n; Some (c :: l)
  end.
Definition image_get_l (f : nat) (m : mem) (hdr : Z) : option Z := load_be32 m (hdr + Z.of_nat f).
Definition image_get_b (f : nat) (m : mem) (hdr : Z) : option Z := load m (hdr + Z.of_nat f).
Definition image_get_data (hdr : Z) : Z := u32 (hdr + Z.of_nat sizeof_header).
Definition image_get_data_size (m : mem) (hdr : Z) : option Z := image_get_l ih_size m hdr.
Definition image_get_image_size (m : mem) (hdr : Z) : option Z :=
  s ← image_get_l ih_size m hdr; Some (u32 (s + Z.of_nat sizeof_header)).
Definition image_get_image_end (m : mem) (hdr : Z) : option Z :=
  s ← image_get_image_size m hdr; Some (u32 (hdr + s)).
Definition image_check_magic (m : mem) (hdr : Z) : option bool :=
  v ← image_get_l ih_magic m hdr; Some (v =? IH_MAGIC).
Definition image_check_type (m : mem) (hdr type : Z) : option bool :=
  v ← image_get_b ih_type m hdr; Some (v =? type).
Definition image_check_arch (m : mem) (hdr arch : Z) : option bool :=
  v ← image_get_b ih_arch m hdr; Some (v =? arch).
Definition image_check_os (m : mem) (hdr os : Z) : option bool :=
  v ← image_get_b ih_os m hdr; Some (v =? os).
Definition image_check_target_arch (m : mem) (hdr : Z) : option bool := image_check_arch m hdr IH_ARCH_DEFAULT.
Definition genimg_get_format (m : mem) (img_addr : Z) : option Z :=
  ok ← image_check_magic m img_addr;
  Some (if (ok : bool) then IMAGE_FORMAT_LEGACY else IMAGE_FORMAT_INVALID).

(** ** Checksums *)
(** [header] is the address of the copy. *)
Definition image_check_hcrc (header : Z) (m : mem) (hdr : Z) : option bool :=
  copy ← load_bytes m hdr sizeof_header;
  let hcrc := crc32 0 header (image_set_l ih_hcrc copy 0) in
  v ← image_get_l ih_hcrc m hdr; Some (hcrc =? v).
Definition image_check_dcrc (m : mem) (hdr : Z) : option bool :=
  let data := image_get_data hdr in
  len ← image_get_data_size m hdr;
  bytes ← load_bytes m data (Z.to_nat len);
  dcrc ← crc32_wd false 0 data bytes CHUNKSZ_CRC32;
  v ← image_get_l ih_dcrc m hdr; Some (dcrc =? v).

(** ** Images of several files *)
Fixpoint multi_count_loop (fuel : nat) (m : mem) (size i : Z) : option Z :=
  match fuel with
  | O => None
  | S fuel =>
      s ← load_be32 m (size + 4 * i);
      if s =? 0 then Some i else multi_count_loop fuel m size (i + 1)
  end.
Definition image_multi_count (m : mem) (hdr : Z) : option Z :=
  multi_count_loop (Mem.fuel m) m (image_get_data hdr) 0.
Fixpoint multi_offset (n : nat) (m : mem) (size i offset : Z) : option Z :=
  match n with
  | O => Some offset
  | S n =>
      s ← load_be32 m (size + 4 * i);
      multi_offset n m size (i + 1) (u32 (offset + (u32 (s + 3) .& u32 (Z.lnot 3))))
  end.
(** [*data] and [*len]. *)
Definition image_multi_getimg (m : mem) (hdr idx : Z) : option (Z * Z) :=
  count ← image_multi_count m hdr;
  let size := image_get_data hdr in
  let img_data := u32 (image_get_data hdr + (count + 1) * 4) in
  if idx <? count then
    len ← load_be32 m (size + 4 * idx);
    offset ← multi_offset (Z.to_nat idx) m size 0 0;
    Some (u32 (img_data + offset), len)
  else Some (0, 0).
(** Printing goes through the parts of an image of several files. *)
Definition image_print_contents (m : mem) (hdr : Z) : option unit :=
  t ← image_get_b ih_type m hdr;
  if (t =? IH_TYPE_MULTI) || (t =? IH_TYPE_SCRIPT) then _ ← image_multi_count m hdr; Some () else Some ().

(** ** Making an image: the host *)
Record mkimage_params := mk_params {
  addr : Z; ep : Z; os : Z; arch : Z; type : Z; comp : Z; imagename : list Z }.
(** [ptr] is the address of the file, [st_mtime] its time. *)
Definition image_set_header (ptr : Z) (file : list Z) (st_mtime : Z) (params : mkimage_params) : list Z :=
  let st_size := zlen file in
  let checksum := crc32 0 (ptr + Z.of_nat sizeof_header) (drop sizeof_header file) in
  let hdr := image_set_l ih_magic file IH_MAGIC in
  let hdr := image_set_l ih_time hdr st_mtime in
  let hdr := image_set_l ih_size hdr (u32 (st_size - Z.of_nat sizeof_header)) in
  let hdr := image_set_l ih_load hdr (addr params) in
  let hdr := image_set_l ih_ep hdr (ep params) in
  let hdr := image_set_l ih_dcrc hdr checksum in
  let hdr := image_set_b ih_os hdr (os params) in
  let hdr := image_set_b ih_arch hdr (arch params) in
  let hdr := image_set_b ih_type hdr (type params) in
  let hdr := image_set_b ih_comp hdr (comp params) in
  let hdr := image_set_name hdr (imagename params) in
  let checksum := crc32 0 ptr (take sizeof_header hdr) in
  image_set_l ih_hcrc hdr checksum.
(** [copy_file] without [-x]. *)
Definition copy_file (data : list Z) (pad : bool) : list Z :=
  let tail := zlen data mod 4 in
  data ++ (if pad && negb (tail =? 0) then replicate (Z.to_nat (4 - tail)) 0 else []).
Fixpoint copy_files (files : list (list Z)) : list Z :=
  match files with
  | [] => []
  | [f] => copy_file f false
  | f :: files => copy_file f true ++ copy_files files
  end.
(** The file [mkimage] writes from the data files of [-d], none of them empty: an empty one cannot be
    mapped, and [mkimage] ends. *)
Definition mkimage (ptr st_mtime : Z) (params : mkimage_params) (files : list (list Z)) : list Z :=
  let body :=
    if (type params =? IH_TYPE_MULTI) || (type params =? IH_TYPE_SCRIPT)
    then concat (map (fun f => be32 (u32 (zlen f))) files) ++ be32 0 ++ copy_files files
    else copy_files (take 1 files) in
  image_set_header ptr (replicate sizeof_header 0 ++ body) st_mtime params.

(** ** The parts of a file that was made *)
Definition name_field (params : mkimage_params) : list Z :=
  take IH_NMLEN (imagename params) ++ replicate (IH_NMLEN - length (imagename params)) 0.
Definition header_bytes (hcrc dcrc st_mtime size : Z) (params : mkimage_params) : list Z :=
  be32 IH_MAGIC ++ be32 hcrc ++ be32 st_mtime ++ be32 size ++ be32 (addr params) ++ be32 (ep params)
  ++ be32 dcrc ++ [u8 (os params); u8 (arch params); u8 (type params); u8 (comp params)] ++ name_field params.
Lemma name_field_len params : length (name_field params) = 32%nat.
Proof. unfold name_field. rewrite length_app, length_take, length_replicate. unfold IH_NMLEN. lia. Qed.
Lemma image_set_header_ok ptr body st_mtime params :
  exists hcrc dcrc,
    image_set_header ptr (replicate sizeof_header 0 ++ body) st_mtime params
    = header_bytes hcrc dcrc st_mtime (u32 (zlen body)) params ++ body
    /\ hcrc = crc32 0 ptr (header_bytes 0 dcrc st_mtime (u32 (zlen body)) params)
    /\ dcrc = crc32 0 (ptr + 64) body.
Proof.
  unfold image_set_header. change (drop sizeof_header (replicate sizeof_header 0 ++ body)) with body.
  set (dcrc := crc32 0 _ body).
  assert (u32 (zlen (replicate sizeof_header 0 ++ body) - Z.of_nat sizeof_header) = u32 (zlen body)) as ->
    by (f_equal; rewrite length_app, length_replicate; lia).
  set (size := u32 (zlen body)).
  match goal with |- context [image_set_name ?h] => set (hdr := h) end.
  assert (image_set_name hdr (imagename params) = header_bytes 0 dcrc st_mtime size params ++ body) as ->.
  { unfold image_set_name. fold (name_field params). unfold put. rewrite name_field_len.
    change (drop (ih_name + 32) hdr) with body. unfold header_bytes. by rewrite <- !app_assoc. }
  assert (take sizeof_header (header_bytes 0 dcrc st_mtime size params ++ body)
          = header_bytes 0 dcrc st_mtime size params) as ->.
  { apply take_app_length'. unfold header_bytes. rewrite !length_app, name_field_len. done. }
  eexists _, dcrc. split; [|split; [reflexivity|done]]. reflexivity.
Qed.

(** ** In memory *)
Lemma load_bytes_ok m l : forall a, bytes_at m a l -> load_bytes m a (length l) = Some l.
Proof.
  induction l as [|c l IH]; intros a; [done|]. cbn [length load_bytes bytes_at]. intros [Hc Hl].
  unfold load. rewrite Hc. cbn [mbind option_bind]. by rewrite IH.
Qed.
Lemma be32_bytes v : Forall byte (be32 v).
Proof. unfold be32. repeat (apply Forall_cons_2; [apply u8_range|]). apply Forall_nil_2. Qed.
Lemma load_be32_ok m a v : bytes_at m a (be32 v) -> a mod 4 = 0 -> load_be32 m a = Some (u32 v).
Proof.
  cbn [be32 bytes_at]. intros (H0 & H1 & H2 & H3 & _) Ha. unfold load_be32. rewrite Ha. cbn [Z.eqb negb].
  unfold load. replace (a + 1 + 1) with (a + 2) in * by lia. replace (a + 2 + 1) with (a + 3) in * by lia.
  rewrite H0, H1, H2, H3. cbn [mbind option_bind]. f_equal.
  unfold u8, u32. rewrite !Z.shiftr_div_pow2 by lia. zdm.
Qed.
Lemma load_be32_at m a l off v r : bytes_at m a (l ++ be32 v ++ r) -> (a + off) mod 4 = 0 -> off = zlen l ->
  load_be32 m (a + off) = Some (u32 v).
Proof.
  intros H Ha ->. apply bytes_at_app in H as [_ H]. apply bytes_at_app in H as [H _]. by apply load_be32_ok.
Qed.
Lemma header_bytes_len hcrc dcrc t size params : length (header_bytes hcrc dcrc t size params) = 64%nat.
Proof. unfold header_bytes. rewrite !length_app, name_field_len. done. Qed.
Lemma header_bytes_bytes hcrc dcrc t size params : Forall byte (imagename params) ->
  Forall byte (header_bytes hcrc dcrc t size params).
Proof.
  intros Hn. unfold header_bytes, name_field. rewrite !Forall_app, !Forall_cons, Forall_nil.
  split_and!; try apply be32_bytes; try apply u8_range; try done.
  - by apply Forall_take.
  - by apply Forall_replicate.
Qed.

(** What U-Boot reads from a header in memory. *)
Record header_at (m : mem) (a : Z) (params : mkimage_params) (time size : Z) : Prop := {
  at_magic : image_check_magic m a = Some true;
  at_hcrc header : image_check_hcrc header m a = Some true;
  at_time : image_get_l ih_time m a = Some (u32 time);
  at_size : image_get_l ih_size m a = Some size;
  at_load : image_get_l ih_load m a = Some (u32 (addr params));
  at_ep : image_get_l ih_ep m a = Some (u32 (ep params));
  at_os : image_get_b ih_os m a = Some (u8 (os params));
  at_arch : image_get_b ih_arch m a = Some (u8 (arch params));
  at_type : image_get_b ih_type m a = Some (u8 (type params));
  at_comp : image_get_b ih_comp m a = Some (u8 (comp params)) }.

Lemma crc32_reg addr l : Forall byte l -> u32 (crc32 0 addr l) = crc32 0 addr l.
Proof.
  intros Hl. apply u32_small. rewrite crc32_ok by done. change 0x100000000 with (2 ^ 32).
  apply reg_not, crc_ref_reg; [by apply reg_not|done].
Qed.
Lemma crc32_addr addr addr' l : Forall byte l -> crc32 0 addr l = crc32 0 addr' l.
Proof. intros Hl. by rewrite !crc32_ok. Qed.

Section placed.
Context (m : mem) (a ptr st_mtime : Z) (params : mkimage_params) (body : list Z).
Context (Hname : Forall byte (imagename params)) (Ha : a mod 4 = 0).

Lemma mod4 off : off mod 4 = 0 -> (a + off) mod 4 = 0.
Proof. intros H. rewrite Z.add_mod, Ha, H by lia. done. Qed.
(** The header is good with any data behind it. *)
Lemma header_at_ok hcrc dcrc size : hcrc = crc32 0 ptr (header_bytes 0 dcrc st_mtime size params) ->
  bytes_at m a (header_bytes hcrc dcrc st_mtime size params ++ body) -> 0 <= size < 0x100000000 ->
  header_at m a params st_mtime size /\ image_get_l ih_dcrc m a = Some (u32 dcrc).
Proof.
  intros Hhcrc Hm Hsize.
  assert (forall off l v r, header_bytes hcrc dcrc st_mtime size params ++ body = l ++ be32 v ++ r ->
    off = zlen l -> off mod 4 = 0 -> load_be32 m (a + off) = Some (u32 v)) as Hl.
  { intros off l v r Heq Hoff H4. rewrite Heq in Hm. apply (load_be32_at m a l off v r Hm); [|done]. by apply mod4. }
  assert (forall l c r off, header_bytes hcrc dcrc st_mtime size params ++ body = l ++ c :: r ->
    off = zlen l -> load m (a + off) = Some c) as Hb.
  { intros l c r off Heq ->. rewrite Heq in Hm. apply bytes_at_app in Hm as [_ [Hc _]]. exact Hc. }
  assert (reg hcrc) as Hhr.
  { rewrite Hhcrc, <- crc32_reg by (by apply header_bytes_bytes). apply u32_range. }
  pose proof Hm as [Hhead _]%bytes_at_app.
  set (M := be32 IH_MAGIC) in *. set (h := be32 hcrc) in *. set (t := be32 st_mtime) in *.
  set (s := be32 size) in *. set (ld := be32 (addr params)) in *. set (e := be32 (ep params)) in *.
  set (d := be32 dcrc) in *.
  split; [split|].
  - unfold image_check_magic, image_get_l. rewrite (Hl _ [] IH_MAGIC _ eq_refl) by done. done.
  - intros header. unfold image_check_hcrc, sizeof_header.
    pose proof (load_bytes_ok m _ a Hhead) as Hld. rewrite header_bytes_len in Hld. rewrite Hld.
    cbn [mbind option_bind]. unfold image_get_l. rewrite (Hl _ M hcrc _ eq_refl) by done.
    cbn [mbind option_bind]. f_equal. rewrite (u32_small hcrc) by exact Hhr. apply Z.eqb_eq.
    change (image_set_l ih_hcrc (header_bytes hcrc dcrc st_mtime size params) 0)
      with (header_bytes 0 dcrc st_mtime size params).
    rewrite Hhcrc. apply crc32_addr. by apply header_bytes_bytes.
  - apply (Hl _ (M ++ h) st_mtime _ eq_refl); done.
  - rewrite <- (u32_small size) by lia. apply (Hl _ (M ++ h ++ t) size _ eq_refl); done.
  - apply (Hl _ (M ++ h ++ t ++ s) (addr params) _ eq_refl); done.
  - apply (Hl _ (M ++ h ++ t ++ s ++ ld) (ep params) _ eq_refl); done.
  - apply (Hb (M ++ h ++ t ++ s ++ ld ++ e ++ d) _ _ _ eq_refl). done.
  - apply (Hb (M ++ h ++ t ++ s ++ ld ++ e ++ d ++ [_]) _ _ _ eq_refl). done.
  - apply (Hb (M ++ h ++ t ++ s ++ ld ++ e ++ d ++ [_; _]) _ _ _ eq_refl). done.
  - apply (Hb (M ++ h ++ t ++ s ++ ld ++ e ++ d ++ [_; _; _]) _ _ _ eq_refl). done.
  - apply (Hl (Z.of_nat ih_dcrc) (M ++ h ++ t ++ s ++ ld ++ e) dcrc _ eq_refl); done.
Qed.
(** What the check of the data computes. *)
Lemma check_dcrc_ok time size dcrc : header_at m a params time size -> image_get_l ih_dcrc m a = Some dcrc ->
  bytes_at m (a + 64) body -> Forall byte body -> size = zlen body -> 0 <= a -> a + 64 < 0x100000000 ->
  image_check_dcrc m a = Some (crc32 0 (a + 64) body =? dcrc).
Proof.
  intros Hh Hd Hm Hbody -> Ha0 Hend. unfold image_check_dcrc, image_get_data_size, image_get_data.
  rewrite (at_size _ _ _ _ _ Hh). cbn [mbind option_bind]. change (Z.of_nat sizeof_header) with 64.
  rewrite !u32_small by lia. rewrite Nat2Z.id, load_bytes_ok by done. cbn [mbind option_bind crc32_wd].
  rewrite Hd. done.
Qed.
Context (Hbody : Forall byte body).
Abbreviation file := (image_set_header ptr (replicate sizeof_header 0 ++ body) st_mtime params).
Context (Hm : bytes_at m a file) (Hend : 0 <= a /\ a + 64 + zlen body < 0x100000000).
Lemma header_ok : header_at m a params st_mtime (zlen body)
  /\ image_check_dcrc m a = Some true /\ bytes_at m (a + 64) body.
Proof.
  destruct (image_set_header_ok ptr body st_mtime params) as (hcrc & dcrc & Hf & Hhcrc & Hdcrc).
  rewrite Hf in Hm. rewrite u32_small in * by lia.
  destruct (header_at_ok hcrc dcrc (zlen body) Hhcrc Hm ltac:(lia)) as [Hh Hd].
  pose proof Hm as [_ Hdata]%bytes_at_app. rewrite header_bytes_len in Hdata. change (Z.of_nat 64) with 64 in Hdata.
  split; [exact Hh|]. split; [|exact Hdata].
  rewrite (check_dcrc_ok _ _ _ Hh Hd Hdata Hbody eq_refl) by lia. f_equal. apply Z.eqb_eq.
  rewrite Hdcrc, crc32_reg by done. by apply crc32_addr.
Qed.
End placed.

(** ** The files of an image of several *)
Definition padded (n : Z) : Z := 4 * ((n + 3) / 4).
Fixpoint offset_of (files : list (list Z)) : Z :=
  match files with [] => 0 | f :: files => padded (zlen f) + offset_of files end.
Definition size_table (files : list (list Z)) : list Z := concat (map (fun f => be32 (u32 (zlen f))) files).
(** Where the file behind [before] of [n] files is. *)
Definition part_addr (data n : Z) (before : list (list Z)) : Z := data + (n + 1) * 4 + offset_of before.

Lemma u32_twice z : u32 (u32 z) = u32 z.
Proof. apply u32_small, u32_range. Qed.
Lemma copy_file_len f : zlen (copy_file f true) = padded (zlen f).
Proof.
  unfold copy_file, padded. rewrite length_app. cbn [andb]. set (n := zlen f).
  pose proof (Z.mod_pos_bound n 4 ltac:(lia)). case_if; rewrite ?length_replicate; cbn [length]; zdm.
Qed.
Lemma copy_files_split before f after : exists r,
  copy_files (before ++ f :: after) = concat (map (fun f => copy_file f true) before) ++ f ++ r.
Proof.
  induction before as [|b before IH].
  - destruct after as [|g after]; cbn [app copy_files map concat].
    + unfold copy_file. by eexists.
    + unfold copy_file at 1. rewrite <- app_assoc. by eexists.
  - destruct IH as (r & IH). exists r. cbn [app map concat].
    assert (before ++ f :: after <> []) as Hne by (by destruct before).
    destruct (before ++ f :: after) as [|x l] eqn:E; [done|]. cbn [copy_files] in IH |- *.
    rewrite IH. by rewrite <- app_assoc.
Qed.
Lemma padded_len before : zlen (concat (map (fun f => copy_file f true) before)) = offset_of before.
Proof.
  induction before as [|f before IH]; [done|]. cbn [map concat offset_of]. rewrite length_app, Nat2Z.inj_add, IH.
  by rewrite copy_file_len.
Qed.
Lemma padded_range n : 0 <= n -> n <= padded n <= n + 3.
Proof. unfold padded. intros. zdm. Qed.
Lemma offset_of_pos fs : 0 <= offset_of fs.
Proof. induction fs as [|f fs IH]; cbn [offset_of]; [lia|]. pose proof (padded_range (zlen f) ltac:(lia)). lia. Qed.
Lemma copy_files_le fs : zlen (copy_files fs) <= offset_of fs.
Proof.
  induction fs as [|f fs IH]; [done|]. pose proof (padded_range (zlen f) ltac:(lia)). cbn [offset_of] in *.
  destruct fs as [|g fs].
  - cbn [copy_files offset_of]. unfold copy_file. rewrite app_nil_r. lia.
  - change (copy_files (f :: g :: fs)) with (copy_file f true ++ copy_files (g :: fs)).
    rewrite length_app. pose proof (copy_file_len f). lia.
Qed.
Lemma copy_files_bytes fs : Forall (Forall byte) fs -> Forall byte (copy_files fs).
Proof.
  assert (forall f pad, Forall byte f -> Forall byte (copy_file f pad)) as Hc.
  { intros f pad Hf. unfold copy_file. apply Forall_app_2; [done|]. case_if; [by apply Forall_replicate|by apply Forall_nil_2]. }
  induction 1 as [|f fs Hf Hfs IH]; [by apply Forall_nil_2|].
  destruct fs as [|g fs]; [by apply Hc|]. apply Forall_app_2; [by apply Hc|exact IH].
Qed.
Lemma size_table_len fs : zlen (size_table fs) = 4 * zlen fs.
Proof.
  unfold size_table. induction fs as [|f fs IH]; [done|]. cbn [map concat]. rewrite length_app. cbn [be32 length] in *. lia.
Qed.
Lemma size_table_bytes fs : Forall byte (size_table fs).
Proof.
  unfold size_table. induction fs as [|f fs IH]; [by apply Forall_nil_2|]. cbn [map concat].
  apply Forall_app_2; [apply be32_bytes|exact IH].
Qed.

Section multi.
Context (m : mem) (size : Z) (Hsize : size mod 4 = 0).
Lemma word_mod4 i : (size + 4 * i) mod 4 = 0.
Proof. rewrite Z.add_mod, Hsize, (Z.mul_comm 4), Z_mod_mult by lia. done. Qed.
Lemma multi_count_ok rest : forall fs fuel i, bytes_at m (size + 4 * i) (size_table fs ++ be32 0 ++ rest) ->
  Forall (fun f => 0 < zlen f < 0x100000000) fs -> (length fs < fuel)%nat ->
  multi_count_loop fuel m size i = Some (i + zlen fs).
Proof.
  induction fs as [|f fs IH]; intros fuel i Hm Hfs Hf; (destruct fuel as [|fuel]; [cbn in Hf; lia|]);
    cbn [multi_count_loop].
  - apply bytes_at_app in Hm as [_ Hm]. cbn [size_table map concat length] in Hm. rewrite Z.add_0_r in Hm.
    apply bytes_at_app in Hm as [Hm _].
    rewrite (load_be32_ok m _ 0 Hm (word_mod4 i)). cbn. f_equal. lia.
  - apply Forall_cons in Hfs as [Hf0 Hfs]. unfold size_table in Hm. cbn [map concat] in Hm.
    rewrite <- app_assoc in Hm. apply bytes_at_app in Hm as [Hw Hm].
    rewrite (load_be32_ok m _ _ Hw (word_mod4 i)). rewrite u32_twice, u32_small by lia.
    cbn [mbind option_bind]. case_if; [lia|].
    change (zlen (be32 (u32 (zlen f)))) with 4 in Hm. replace (size + 4 * i + 4) with (size + 4 * (i + 1)) in Hm by lia.
    rewrite (IH fuel (i + 1) Hm Hfs) by (cbn in Hf; lia). f_equal. cbn [length]. lia.
Qed.
Lemma multi_offset_ok : forall before i offset rest, bytes_at m (size + 4 * i) (size_table before ++ rest) ->
  Forall (fun f => 0 < zlen f) before -> 0 <= offset -> offset + offset_of before < 0x100000000 ->
  multi_offset (length before) m size i offset = Some (offset + offset_of before).
Proof.
  induction before as [|f before IH]; intros i offset rest Hm Hfs Ho Hb; cbn [length multi_offset offset_of].
  - f_equal. lia.
  - apply Forall_cons in Hfs as [Hf0 Hfs]. unfold size_table in Hm. cbn [map concat offset_of] in Hm, Hb.
    pose proof (offset_of_pos before). pose proof (padded_range (zlen f) ltac:(lia)).
    rewrite <- app_assoc in Hm. apply bytes_at_app in Hm as [Hw Hm].
    assert (zlen f + 3 < 0x100000000 \/ 0x100000000 <= zlen f + 3) as [Hf3|Hf3] by lia; [|unfold padded in *; exfalso; zdm].
    rewrite (load_be32_ok m _ _ Hw (word_mod4 i)), u32_twice, (u32_small (zlen f)) by lia. cbn [mbind option_bind].
    assert (u32 (zlen f + 3) .& u32 (Z.lnot 3) = padded (zlen f)) as ->.
    { rewrite u32_small by lia. change (Z.lnot 3) with (Z.lnot (2 ^ 2 - 1)). by rewrite land_align_down by lia. }
    change (zlen (be32 (u32 (zlen f)))) with 4 in Hm. replace (size + 4 * i + 4) with (size + 4 * (i + 1)) in Hm by lia.
    rewrite u32_small by lia. rewrite (IH (i + 1) _ rest Hm Hfs) by lia. f_equal. lia.
Qed.
End multi.

(** The files [mkimage] put into an image are what [image_multi_getimg] finds. *)
Lemma multi_getimg_ok m a files : a mod 4 = 0 -> 0 <= a ->
  Forall (fun f => 0 < zlen f) files ->
  bytes_at m (a + 64) (size_table files ++ be32 0 ++ copy_files files) ->
  a + 64 + (zlen files + 1) * 4 + offset_of files < 0x100000000 ->
  image_multi_count m a = Some (zlen files)
  /\ (forall idx, zlen files <= idx -> image_multi_getimg m a idx = Some (0, 0))
  /\ forall before f after, files = before ++ f :: after ->
     let p := part_addr (a + 64) (zlen files) before in
     image_multi_getimg m a (zlen before) = Some (p, zlen f) /\ bytes_at m p f.
Proof.
  intros Ha Ha0 Hpos Hm Hend. assert ((a + 64) mod 4 = 0) as H4 by (rewrite Z.add_mod, Ha by lia; done).
  pose proof (offset_of_pos files).
  assert (Forall (fun f => 0 < zlen f < 0x100000000) files) as Hf32.
  { clear -Hpos Hend Ha0. induction Hpos as [|f fs Hf Hfs IH]; [by apply Forall_nil_2|]. cbn [offset_of length] in *.
    pose proof (offset_of_pos fs). pose proof (padded_range (zlen f) ltac:(lia)).
    apply Forall_cons_2; [lia|apply IH; lia]. }
  assert (image_get_data a = a + 64) as Hd.
  { unfold image_get_data. change (Z.of_nat sizeof_header) with 64. apply u32_small. lia. }
  assert (image_multi_count m a = Some (zlen files)) as Hc.
  { unfold image_multi_count. rewrite Hd. apply (multi_count_ok m (a + 64) H4 (copy_files files) files); [|done|].
    - by rewrite Z.mul_0_r, Z.add_0_r.
    - apply bytes_at_allocated, allocated_size in Hm. unfold fuel. rewrite !length_app in Hm.
      pose proof (size_table_len files). lia. }
  split; [done|]. unfold image_multi_getimg. rewrite Hc, Hd. cbn [mbind option_bind]. split.
  { intros idx Hi. case_if; [lia|done]. }
  intros before f after Hsplit.
  assert (zlen files = zlen before + zlen (f :: after)) as Hlen by (rewrite Hsplit, length_app; lia).
  cbn [length] in Hlen. case_if; [|lia].
  assert (size_table files = size_table before ++ be32 (u32 (zlen f)) ++ size_table after) as Hst.
  { rewrite Hsplit. unfold size_table. rewrite map_app, concat_app. done. }
  assert (0 < zlen f < 0x100000000) as Hf by (rewrite Hsplit, Forall_app, Forall_cons in Hf32; tauto).
  assert (offset_of before <= offset_of files) as Hob.
  { rewrite Hsplit. clear. induction before as [|b before IH]; cbn [app offset_of]; [|lia].
    pose proof (offset_of_pos after). pose proof (padded_range (zlen f) ltac:(lia)). lia. }
  pose proof (offset_of_pos before).
  assert (load_be32 m (a + 64 + 4 * zlen before) = Some (zlen f)) as ->.
  { rewrite Hst in Hm. rewrite <- !app_assoc in Hm.
    rewrite (load_be32_at m (a + 64) (size_table before) _ (u32 (zlen f)) _ Hm).
    - by rewrite u32_twice, u32_small by lia.
    - by apply word_mod4.
    - symmetry. apply size_table_len. }
  cbn [mbind option_bind]. rewrite Nat2Z.id. rewrite Hst in Hm. pose proof Hm as Hm'. rewrite <- !app_assoc in Hm'.
  rewrite (multi_offset_ok m (a + 64) H4 before 0 0 _ ltac:(rewrite Z.mul_0_r, Z.add_0_r; exact Hm'));
    [|rewrite Hsplit, Forall_app in Hpos; tauto|lia|lia].
  cbn [mbind option_bind]. rewrite Z.add_0_l, (u32_small (a + 64 + (zlen files + 1) * 4)) by lia.
  rewrite u32_small by lia. split; [done|].
  rewrite <- Hst in Hm. destruct (copy_files_split before f after) as (r & Hcf). rewrite <- Hsplit in Hcf. rewrite Hcf in Hm.
  do 3 (apply bytes_at_app in Hm as [_ Hm]). apply bytes_at_app in Hm as [Hm _].
  rewrite padded_len, size_table_len in Hm. change (zlen (be32 0)) with 4 in Hm.
  unfold part_addr. by replace (a + 64 + (zlen files + 1) * 4 + offset_of before)
    with (a + 64 + 4 * zlen files + 4 + offset_of before) by lia.
Qed.
