(* ===== verification/Bootm.v ===== *)
(** * Booting an image: [common/cmd_bootm.c], [arch/mips/lib/bootm.c], part of [common/image.c]

    [bootm] checks an image in memory, finds a ramdisk, moves or decompresses the system to its
    load address, prepares the arguments of Linux and jumps to it. *)
From S2P Require Import Prelude Ctype Mem CStr Strings Hashtable Vsprintf EnvAttr EnvVar Image Cmdline.

Definition BOOTM_ERR_RESET : Z := -1.
Definition BOOTM_ERR_OVERLAP : Z := -2.
Definition BOOTM_ERR_UNIMPLEMENTED : Z := -3.
Definition BOOTM_STATE_START : Z := 0x001.
Definition BOOTM_STATE_FINDOS : Z := 0x002.
Definition BOOTM_STATE_FINDOTHER : Z := 0x004.
Definition BOOTM_STATE_LOADOS : Z := 0x008.
Definition BOOTM_STATE_OS_CMDLINE : Z := 0x040.
Definition BOOTM_STATE_OS_BD_T : Z := 0x080.
Definition BOOTM_STATE_OS_PREP : Z := 0x100.
Definition BOOTM_STATE_OS_FAKE_GO : Z := 0x200.
Definition BOOTM_STATE_OS_GO : Z := 0x400.
Definition CONFIG_SYS_BOOTM_LEN : Z := 0x800000.
Definition IH_INITRD_ARCH : Z := IH_ARCH_DEFAULT.

(** ** State *)
Record image_info := mk_info {
  os_start : Z; os_end : Z; image_start : Z; image_len : Z; os_load : Z; os_comp : Z; os_type : Z; os_os : Z }.
Record bootm_headers := mk_images {
  legacy_hdr_os : Z; legacy_hdr_os_copy : list Z; legacy_hdr_valid : bool; os : image_info; ep : Z;
  rd_start : Z; rd_end : Z; verify : Z; state : Z }.
Definition no_image_info : image_info := mk_info 0 0 0 0 0 0 0 0.
(** After [memset]. *)
Definition no_images : bootm_headers :=
  mk_images 0 (replicate sizeof_header 0) false no_image_info 0 0 0 0 0.
(** The memory, the environment, [images], and the strings of [linux_argv] behind the first entry
    and of [linux_env]; the block at [bi_boot_params] that holds these strings is not part of [ram]. *)
Record machine := mk_machine {
  ram : mem; env : genv; images : bootm_headers; linux_argv : list (list Z); linux_env : list (list Z) }.
Definition with_images (m : machine) (i : bootm_headers) : machine :=
  mk_machine (ram m) (env m) i (linux_argv m) (linux_env m).
Definition with_ram (m : machine) (r : mem) : machine :=
  mk_machine r (env m) (images m) (linux_argv m) (linux_env m).

(** How a function ends: it returns, or it leaves U-Boot. *)
Inductive outcome :=
| ret (r : Z)
| do_reset
| theKernel (ep : Z) (argv env : list (list Z))
| standalone (appl : Z).

(** The decompressors: the error, the memory and the length of the output. *)
Class Decompressors := {
  gunzip : mem -> Z -> Z -> Z -> Z -> option (Z * mem * Z);
  lzmaBuffToBuffDecompress : mem -> Z -> Z -> Z -> Z -> option (Z * mem * Z);
  lzop_decompress : mem -> Z -> Z -> Z -> Z -> option (Z * mem * Z) }.
(** The board: the sizes of the memory and of the flash. *)
Class Board := { ram_size : Z; bi_flashstart : Z; bi_flashsize : Z }.

(** A field of the copy of the header. *)
Definition copy_get_l (f : nat) (hdr : list Z) : option Z :=
  match drop f hdr with
  | b0 :: b1 :: b2 :: b3 :: _ => Some (b0 * 0x1000000 + b1 * 0x10000 + b2 * 0x100 + b3)
  | _ => None
  end.
Definition copy_get_b (f : nat) (hdr : list Z) : option Z := hdr !! f.

(** ** Finding a ramdisk: [common/image.c] *)
(** The address of the header, 0 for [NULL]; [hcopy] is the address of the copy that
    [image_check_hcrc] makes. *)
Definition image_get_ramdisk (hcopy : Z) (m : mem) (rd_addr arch verify : Z) : option Z :=
  ok ← image_check_magic m rd_addr;
  if negb ok then Some 0
  else
    ok ← image_check_hcrc hcopy m rd_addr;
    if negb ok then Some 0
    else
      _ ← image_print_contents m rd_addr;
      ok ← (if negb (verify =? 0) then image_check_dcrc m rd_addr else Some true);
      if negb ok then Some 0
      else
        is_linux ← image_check_os m rd_addr IH_OS_LINUX;
        is_arch ← image_check_arch m rd_addr arch;
        is_ramdisk ← image_check_type m rd_addr IH_TYPE_RAMDISK;
        Some (if negb is_linux || negb is_arch || negb is_ramdisk then 0 else rd_addr).
(** The result, [*rd_start] and [*rd_end]. *)
Definition boot_get_ramdisk (hcopy : Z) (m : mem) (argv : list (list Z)) (images : bootm_headers) (arch : Z)
    : option (Z * Z * Z) :=
  let found rd_data rd_len :=
    Some (if rd_data =? 0 then (0, 0, 0) else (0, rd_data, u32 (rd_data + rd_len))) in
  match (if 2 <=? zlen argv then argv !! 1%nat else None) with
  | Some select =>
      if CStr.strcmp select (codes "-") =? 0 then found 0 0
      else
        let rd_addr := fst (simple_strtoul select 16) in
        fmt ← genimg_get_format m rd_addr;
        if fmt =? IMAGE_FORMAT_LEGACY then
          rd_hdr ← image_get_ramdisk hcopy m rd_addr arch (verify images);
          if rd_hdr =? 0 then Some (1, 0, 0)
          else len ← image_get_data_size m rd_hdr; found (image_get_data rd_hdr) len
        else Some (1, 0, 0)
  | None =>
      t ← copy_get_b ih_type (legacy_hdr_os_copy images);
      if legacy_hdr_valid images && (t =? IH_TYPE_MULTI) then
        '(rd_data, rd_len) ← image_multi_getimg m (legacy_hdr_os images) 1; found rd_data rd_len
      else found 0 0
  end.

(** ** Finding the kernel *)
Definition image_get_kernel (hcopy : Z) (m : mem) (img_addr verify : Z) : option Z :=
  ok ← image_check_magic m img_addr;
  if negb ok then Some 0
  else
    ok ← image_check_hcrc hcopy m img_addr;
    if negb ok then Some 0
    else
      _ ← image_print_contents m img_addr;
      ok ← (if negb (verify =? 0) then image_check_dcrc m img_addr else Some true);
      if negb ok then Some 0
      else ok ← image_check_target_arch m img_addr; Some (if negb ok then 0 else img_addr).
Definition set_os_data (i : bootm_headers) (data len : Z) : bootm_headers :=
  let o := os i in
  mk_images (legacy_hdr_os i) (legacy_hdr_os_copy i) (legacy_hdr_valid i)
    (mk_info (os_start o) (os_end o) data len (os_load o) (os_comp o) (os_type o) (os_os o))
    (ep i) (rd_start i) (rd_end i) (verify i) (state i).
Definition set_legacy (i : bootm_headers) (hdr : Z) (copy : list Z) : bootm_headers :=
  mk_images hdr copy true (os i) (ep i) (rd_start i) (rd_end i) (verify i) (state i).
(** The pointer to the image and [images] with the data and the copy of the header. *)
Definition boot_get_kernel (hcopy load_addr : Z) (m : mem) (argv : list (list Z)) (images : bootm_headers)
    : option (Z * bootm_headers) :=
  let img_addr := match argv with [] => load_addr | a :: _ => fst (simple_strtoul a 16) end in
  let images := set_os_data images 0 0 in
  fmt ← genimg_get_format m img_addr;
  if fmt =? IMAGE_FORMAT_LEGACY then
    hdr ← image_get_kernel hcopy m img_addr (verify images);
    if hdr =? 0 then Some (0, images)
    else
      t ← image_get_b ih_type m hdr;
      r ← (if (t =? IH_TYPE_KERNEL) || (t =? IH_TYPE_KERNEL_NOLOAD) || (t =? IH_TYPE_STANDALONE) then
             len ← image_get_data_size m hdr; Some (Some (image_get_data hdr, len))
           else if t =? IH_TYPE_MULTI then p ← image_multi_getimg m hdr 0; Some (Some p)
           else Some None);
      match r with
      | None => Some (0, images)
      | Some (os_data, os_len) =>
          copy ← load_bytes m hdr sizeof_header;
          Some (img_addr, set_legacy (set_os_data images os_data os_len) hdr copy)
      end
  else Some (0, images).
Definition bootm_find_os (hcopy load_addr : Z) (m : mem) (argv : list (list Z)) (images : bootm_headers)
    : option (Z * bootm_headers) :=
  '(os_hdr, images) ← boot_get_kernel hcopy load_addr m argv images;
  if image_len (os images) =? 0 then Some (1, images)
  else
    fmt ← genimg_get_format m os_hdr;
    if negb (fmt =? IMAGE_FORMAT_LEGACY) then Some (1, images)
    else
      t ← image_get_b ih_type m os_hdr;
      c ← image_get_b ih_comp m os_hdr;
      o ← image_get_b ih_os m os_hdr;
      end_ ← image_get_image_end m os_hdr;
      load ← image_get_l ih_load m os_hdr;
      e ← copy_get_l ih_ep (legacy_hdr_os_copy images);
      if negb (legacy_hdr_valid images) then Some (1, images)
      else
        let start := image_start (os images) in
        let '(load, e) := if t =? IH_TYPE_KERNEL_NOLOAD then (start, u32 (e + start)) else (load, e) in
        Some (0, mk_images (legacy_hdr_os images) (legacy_hdr_os_copy images) (legacy_hdr_valid images)
                   (mk_info os_hdr end_ start (image_len (os images)) load c t o)
                   e (rd_start images) (rd_end images) (verify images) (state images)).
Definition bootm_find_other (hcopy : Z) (m : mem) (argv : list (list Z)) (images : bootm_headers)
    : option (Z * bootm_headers) :=
  let t := os_type (os images) in
  if ((t =? IH_TYPE_KERNEL) || (t =? IH_TYPE_KERNEL_NOLOAD) || (t =? IH_TYPE_MULTI))
     && (os_os (os images) =? IH_OS_LINUX) then
    '(r, s, e) ← boot_get_ramdisk hcopy m argv images IH_INITRD_ARCH;
    let images := mk_images (legacy_hdr_os images) (legacy_hdr_os_copy images) (legacy_hdr_valid images)
                    (os images) (ep images) s e (verify images) (state images) in
    Some (if negb (r =? 0) then 1 else 0, images)
  else Some (0, images).

(** ** Loading *)
Definition memmove_wd (m : mem) (to from len : Z) : option mem :=
  if to =? from then Some m else '(m, _) ← memmove m to from len; Some m.
(** The result, the memory and [*load_end]. *)
Definition bootm_load_os `{!Decompressors} (m : mem) (images : bootm_headers) : option (Z * mem * Z) :=
  let o := os images in
  let load := os_load o in
  let finish no_overlap m load_end :=
    if negb no_overlap && (load <? os_end o) && (os_start o <? load_end)
    then Some (if legacy_hdr_valid images then BOOTM_ERR_OVERLAP else BOOTM_ERR_RESET, m, load_end)
    else Some (0, m, load_end) in
  let unpack r :=
    '(err, m, len) ← r;
    if negb (err =? 0) then Some (BOOTM_ERR_RESET, m, 0) else finish false m (u32 (load + len)) in
  let load_end := u32 (load + image_len o) in
  if os_comp o =? IH_COMP_NONE then
    if (load =? os_start o) || (load =? image_start o) then finish true m load_end
    else m ← memmove_wd m load (image_start o) (image_len o); finish false m load_end
  else if os_comp o =? IH_COMP_GZIP then unpack (gunzip m load CONFIG_SYS_BOOTM_LEN (image_start o) (image_len o))
  else if os_comp o =? IH_COMP_LZMA then
    unpack (lzmaBuffToBuffDecompress m load CONFIG_SYS_BOOTM_LEN (image_start o) (image_len o))
  else if os_comp o =? IH_COMP_LZO then
    unpack (lzop_decompress m load CONFIG_SYS_BOOTM_LEN (image_start o) (image_len o))
  else Some (BOOTM_ERR_UNIMPLEMENTED, m, 0).

(** ** Linux: [arch/mips/lib/bootm.c] *)
Definition LINUX_MAX_ENVS : Z := 256.
Definition LINUX_MAX_ARGS : Z := 256.
Definition UNCACHED_SDRAM (a : Z) : Z := (a .& 0x1fffffff) .| 0xa0000000.
(** [strchr(line + k, c)] as an offset in [line]. *)
Definition strchr_from (line : list Z) (k : nat) (c : Z) : option nat :=
  n ← strchr (drop k line) c; Some (k + n)%nat.
(** The inner loop: the blank behind the quotations. *)
Fixpoint next_blank (fuel : nat) (line : list Z) (next quote : option nat) : option nat :=
  match fuel with
  | O => next
  | S fuel =>
      match next, quote with
      | Some n, Some q =>
          if (q <? n)%nat then
            match strchr_from line (S q) 34 with
            | Some n' => next_blank fuel line (strchr_from line (S n') 32) (strchr_from line (S n') 34)
            | None => None
            end
          else next
      | _, _ => next
      end
  end.
Fixpoint params_loop (fuel : nat) (line : list Z) (linux_argc : Z) : list (list Z) :=
  match fuel, line with
  | O, _ | _, [] => []
  | S fuel, _ =>
      if linux_argc <? LINUX_MAX_ARGS then
        let quote := strchr line 34 in
        let next := strchr line 32 in
        let next := next_blank (length line) line next quote in
        let n := match next with Some n => n | None => length line end in
        take n line :: params_loop fuel (if (n <? length line)%nat then drop (S n) line else drop n line) (linux_argc + 1)
      else []
  end.
(** The strings from [linux_argv[1]] on. *)
Definition linux_params_init (line : option (list Z)) : list (list Z) :=
  match line with None => [] | Some l => params_loop (length l) l 1 end.
Definition linux_env_set (envs : list (list Z)) (env_name env_val : list Z) : list (list Z) :=
  if zlen envs <? LINUX_MAX_ENVS - 1 then envs ++ [env_name ++ [61] ++ env_val] else envs.

Section bootm.
Context {Hooks : EnvHooks} {Dec : Decompressors} {B : Board}.
(** The environment: the one compiled in and its size, and the allocator; the default load
    address, and the address of the copy of the header on the stack. *)
Context (default_environment : list Z) (CONFIG_ENV_SIZE : Z) (malloc_ok : Z -> bool) (load_addr hcopy : Z).
Abbreviation getenv := (getenv default_environment CONFIG_ENV_SIZE).

Definition env_set_opt (envs : list (list Z)) (name : list Z) (v : option (list Z)) : list (list Z) :=
  match v with Some v => linux_env_set envs name v | None => envs end.
Definition boot_prep_linux (m : machine) : option machine :=
  commandline ← getenv (env m) (codes "bootargs");
  memsize ← sprintf "%lu" [VInt (ram_size ≫ 20)];
  initrd_start ← sprintf "0x%08X" [VInt (UNCACHED_SDRAM (rd_start (images m)))];
  initrd_size ← sprintf "0x%X" [VInt (u32 (rd_end (images m) - rd_start (images m)))];
  flash_start ← sprintf "0x%08X" [VInt bi_flashstart];
  flash_size ← sprintf "0x%X" [VInt bi_flashsize];
  ethaddr ← getenv (env m) (codes "ethaddr");
  eth1addr ← getenv (env m) (codes "eth1addr");
  let e := linux_env_set [] (codes "memsize") memsize in
  let e := linux_env_set e (codes "initrd_start") initrd_start in
  let e := linux_env_set e (codes "initrd_size") initrd_size in
  let e := linux_env_set e (codes "flash_start") flash_start in
  let e := linux_env_set e (codes "flash_size") flash_size in
  let e := env_set_opt e (codes "ethaddr") ethaddr in
  let e := env_set_opt e (codes "eth1addr") eth1addr in
  Some (mk_machine (ram m) (env m) (images m) (linux_params_init commandline) e).
Definition boot_jump_linux (m : machine) : outcome := theKernel (ep (images m)) (linux_argv m) (linux_env m).
Definition has (flag mask : Z) : bool := negb (flag .& mask =? 0).
Definition do_bootm_linux (flag : Z) (m : machine) : option (outcome * machine) :=
  if has flag BOOTM_STATE_OS_BD_T || has flag BOOTM_STATE_OS_CMDLINE then Some (ret (-1), m)
  else if has flag BOOTM_STATE_OS_PREP then m ← boot_prep_linux m; Some (ret 0, m)
  else if has flag BOOTM_STATE_OS_GO then Some (boot_jump_linux m, m)
  else m ← boot_prep_linux m; Some (boot_jump_linux m, m).

(** ** The states *)
(** The functions of the other systems. *)
Context (do_bootm_other : Z -> Z -> machine -> option (outcome * machine)).
(** [boot_os[os]]: [None] behind the array, [Some None] for [NULL]. *)
Definition boot_os (os : Z) : option (option (Z -> machine -> option (outcome * machine))) :=
  if IH_OS_PLAN9 <? os then None
  else if os =? IH_OS_LINUX then Some (Some do_bootm_linux)
  else if (os =? IH_OS_NETBSD) || (os =? IH_OS_PLAN9) || (os =? IH_OS_RTEMS) then Some (Some (do_bootm_other os))
  else Some None.

Definition bootm_start (m : machine) : option (Z * machine) :=
  v ← getenv_yesno default_environment CONFIG_ENV_SIZE (env m) (codes "verify");
  Some (0, with_images m (mk_images 0 (replicate sizeof_header 0) false no_image_info 0 0 0 v BOOTM_STATE_START)).
(** The same function as [htonl]. *)
Definition ntohl (x : Z) : Z := htonl x.
Definition bootm_start_standalone (m : machine) : option (outcome * machine) :=
  s ← getenv (env m) (codes "autostart");
  match s with
  | Some s =>
      if CStr.strcmp s (codes "no") =? 0 then
        '(_, e) ← setenv_hex malloc_ok (env m) (codes "filesize") (image_len (os (images m)));
        Some (ret 0, mk_machine (ram m) e (images m) (linux_argv m) (linux_env m))
      else Some (standalone (ntohl (ep (images m))), m)
  | None => Some (standalone (ntohl (ep (images m))), m)
  end.
Definition boot_selected_os (state : Z) (boot_fn : Z -> machine -> option (outcome * machine)) (m : machine)
    : option (outcome * machine) :=
  if os_type (os (images m)) =? IH_TYPE_STANDALONE then
    '(o, m) ← bootm_start_standalone m;
    Some (match o with ret _ => ret 0 | _ => o end, m)
  else
    '(o, m) ← boot_fn state m;
    Some (match o with ret _ => ret BOOTM_ERR_RESET | _ => o end, m).

(** A step of [do_bootm_states] that is taken when nothing failed and [states] asks for it. *)
Definition when (states mask : Z) (f : machine -> option (outcome * machine)) (r : outcome * machine)
    : option (outcome * machine) :=
  match r with
  | (ret 0, m) => if has states mask then f m else Some r
  | _ => Some r
  end.
Definition find_step (f : mem -> bootm_headers -> option (Z * bootm_headers)) (m : machine)
    : option (outcome * machine) :=
  '(r, i) ← f (ram m) (images m); Some (ret r, with_images m i).
(** The error paths that jump to [err]: [inr]. *)
Definition load_step (m : machine) : option (outcome * machine + outcome * machine) :=
  '(r, mm, _) ← bootm_load_os (ram m) (images m);
  let m := with_ram m mm in
  Some (if r =? 0 then inl (ret 0, m)
        else if negb (r =? BOOTM_ERR_OVERLAP) then inr (ret r, m)
        else inl (ret 0, m)).
(** Behind [err]. *)
Definition fallout (r : outcome * machine) : outcome * machine :=
  match r with
  | (ret r, m) => if r =? BOOTM_ERR_RESET then (do_reset, m) else (ret r, m)
  | _ => r
  end.
Definition do_bootm_states (argv : list (list Z)) (states : Z) (m : machine) : option (outcome * machine) :=
  let i := images m in
  let m := with_images m (mk_images (legacy_hdr_os i) (legacy_hdr_os_copy i) (legacy_hdr_valid i) (os i) (ep i)
             (rd_start i) (rd_end i) (verify i) (state i .| states)) in
  r ← when states BOOTM_STATE_START (fun m => '(r, m) ← bootm_start m; Some (ret r, m)) (ret 0, m);
  r ← when states BOOTM_STATE_FINDOS (find_step (fun mm => bootm_find_os hcopy load_addr mm argv)) r;
  r ← when states BOOTM_STATE_FINDOTHER (find_step (fun mm => bootm_find_other hcopy mm argv)) r;
  l ← (match r with
       | (ret 0, m) => if has states BOOTM_STATE_LOADOS then load_step m else Some (inl r)
       | _ => Some (inl r)
       end);
  match l with
  | inr r => Some (fallout r)
  | inl r =>
      match r with
      | (ret 0, m) =>
          fn ← boot_os (os_os (os (images m)));
          let need_boot_fn := has states (BOOTM_STATE_OS_CMDLINE .| BOOTM_STATE_OS_BD_T .| BOOTM_STATE_OS_PREP
                                          .| BOOTM_STATE_OS_FAKE_GO .| BOOTM_STATE_OS_GO) in
          match fn with
          | None => if need_boot_fn then Some (ret 1, m) else Some (fallout (ret 0, m))
          | Some boot_fn =>
              r ← when states BOOTM_STATE_OS_CMDLINE (boot_fn BOOTM_STATE_OS_CMDLINE) r;
              r ← when states BOOTM_STATE_OS_BD_T (boot_fn BOOTM_STATE_OS_BD_T) r;
              r ← when states BOOTM_STATE_OS_PREP (boot_fn BOOTM_STATE_OS_PREP) r;
              match r with
              | (ret 0, _) =>
                  r ← when states BOOTM_STATE_OS_GO (boot_selected_os BOOTM_STATE_OS_GO boot_fn) r;
                  Some (fallout r)
              | _ => Some r
              end
          end
      | _ => Some r
      end
  end.

(** ** The command *)
(** [cmd_bootm_sub], as the board configures it. *)
Definition cmd_bootm_sub : list (list Z * Z) :=
  [(codes "start", BOOTM_STATE_START); (codes "loados", BOOTM_STATE_LOADOS);
   (codes "cmdline", BOOTM_STATE_OS_CMDLINE); (codes "bdt", BOOTM_STATE_OS_BD_T);
   (codes "prep", BOOTM_STATE_OS_PREP); (codes "fake", BOOTM_STATE_OS_FAKE_GO); (codes "go", BOOTM_STATE_OS_GO)].
(** The state is in the field [cmd] of the entry. *)
Definition find_cmd_sub (name : list Z) : option Z :=
  c ← Cmdline.find_cmd_tbl name (map (fun '(n, st) => Cmdline.mkcmd n 0 1 (fun _ _ s => (st, s)) false) cmd_bootm_sub);
  Some (fst (Cmdline.cmd c 0 [] tt)).
Definition do_bootm_subcommand (argv : list (list Z)) (m : machine) : option (outcome * machine) :=
  match argv with
  | [] => None
  | name :: argv =>
      match find_cmd_sub name with
      | None => Some (ret CMD_RET_USAGE, m)
      | Some st =>
          let st := if st =? BOOTM_STATE_START then st .| BOOTM_STATE_FINDOS .| BOOTM_STATE_FINDOTHER else st in
          if negb (st =? BOOTM_STATE_START) && (st <=? state (images m)) then Some (ret CMD_RET_USAGE, m)
          else do_bootm_states argv st m
      end
  end.
Definition BOOTM_ALL : Z :=
  BOOTM_STATE_START .| BOOTM_STATE_FINDOS .| BOOTM_STATE_FINDOTHER .| BOOTM_STATE_LOADOS
  .| BOOTM_STATE_OS_PREP .| BOOTM_STATE_OS_FAKE_GO .| BOOTM_STATE_OS_GO.
(** [argv] starts behind the name of the command. *)
Definition do_bootm (argv : list (list Z)) (m : machine) : option (outcome * machine) :=
  match argv with
  | a :: _ =>
      let c := chr (snd (simple_strtoul a 16)) in
      if negb (c =? 0) && negb (c =? 58) && negb (c =? 35) then do_bootm_subcommand argv m
      else do_bootm_states argv BOOTM_ALL m
  | [] => do_bootm_states argv BOOTM_ALL m
  end.
End bootm.
