(* ===== verification/BootSpec.v ===== *)
(** * What booting promises

    The arguments of Linux are the words of the command line; an image that [mkimage] made is
    booted with its data at the load address, and a damaged one is not. *)
From S2P Require Import Prelude Ctype Mem CStr Strings Crc Hashtable HashSpec Vsprintf VsprintfSpec.
From S2P Require Import HashExport EnvAttr EnvVar EnvSpec Image Bootm.

(** ** The arguments of Linux *)
(** The length of the first word: up to a blank that is outside of quotations. *)
Fixpoint word (inquotes : bool) (line : list Z) : nat :=
  match line with
  | [] => O
  | c :: r =>
      if c =? 34 then S (word (negb inquotes) r)
      else if (c =? 32) && negb inquotes then O
      else S (word inquotes r)
  end.
Fixpoint words (fuel : nat) (line : list Z) : list (list Z) :=
  match fuel, line with
  | O, _ | _, [] => []
  | S fuel, _ => let n := word false line in take n line :: words fuel (drop (S n) line)
  end.
Definition words_of (line : list Z) : list (list Z) := words (length line) line.

Lemma strchr_spec c s : c <> 0 -> match strchr s c with
  | Some n => (n < length s)%nat /\ s !! n = Some c /\ forall i, (i < n)%nat -> s !! i <> Some c
  | None => c ∉ s end.
Proof.
  intros H0. induction s as [|d s IH]; cbn [strchr].
  - destruct (Z.eqb_spec c 0); [done|]. apply not_elem_of_nil.
  - destruct (Z.eqb_spec d c) as [->|Hne].
    + split; [cbn; lia|]. split; [done|lia].
    + destruct (strchr s c) as [n|]; cbn [mbind option_bind].
      * destruct IH as (Hl & Hn & Hi). split; [cbn; lia|]. split; [done|]. intros [|i] Hlt; cbn; [congruence|].
        apply Hi. lia.
      * apply not_elem_of_cons. split; [congruence|done].
Qed.
(** [word] in terms of the next blank and the next quote. *)
Lemma word_out line : word false line =
  match strchr line 32, strchr line 34 with
  | Some n, Some q => if (q <? n)%nat then (S q + word true (drop (S q) line))%nat else n
  | Some n, None => n
  | None, Some q => (S q + word true (drop (S q) line))%nat
  | None, None => length line
  end.
Proof.
  induction line as [|c r IH]; [done|]. cbn [word strchr negb]. rewrite andb_true_r.
  destruct (Z.eqb_spec c 34) as [->|H34]; [cbn; destruct (strchr r 32); cbn; by rewrite drop_0|].
  destruct (Z.eqb_spec c 32) as [->|H32].
  - by destruct (strchr r 34).
  - rewrite IH. destruct (strchr r 32) as [n|], (strchr r 34) as [q|]; cbn [mbind option_bind length drop]; try done.
    change (S q <? S n)%nat with (q <? n)%nat. by destruct (q <? n)%nat.
Qed.
Lemma word_in line : word true line =
  match strchr line 34 with
  | Some q => (S q + word false (drop (S q) line))%nat
  | None => length line
  end.
Proof.
  induction line as [|c r IH]; [done|]. cbn [word strchr negb]. rewrite andb_false_r.
  destruct (Z.eqb_spec c 34) as [->|H34]; [cbn; by rewrite ?drop_0|].
  rewrite IH. destruct (strchr r 34); done.
Qed.
Lemma word_le b line : (word b line <= length line)%nat.
Proof.
  revert b. induction line as [|c r IH]; intros b; [done|]. cbn [word length].
  pose proof (IH b). pose proof (IH (negb b)). repeat case_if; lia.
Qed.
Lemma word_no_blank b line : 32 ∉ line -> word b line = length line.
Proof.
  revert b. induction line as [|c r IH]; intros b H; [done|]. apply not_elem_of_cons in H as [Hc H].
  cbn [word length]. destruct (Z.eqb_spec c 34); [by rewrite IH|].
  destruct (Z.eqb_spec c 32); [lia|]. cbn [andb]. by rewrite IH.
Qed.
(** The loop finds the end of the word. *)
Lemma next_blank_ok line : forall fuel k, (k <= length line)%nat -> (length line - k <= fuel)%nat ->
  default (length line) (next_blank fuel line (strchr_from line k 32) (strchr_from line k 34))
  = (k + word false (drop k line))%nat.
Proof.
  induction fuel as [|fuel IH]; intros k Hk Hf.
  { cbn [next_blank]. unfold strchr_from. rewrite drop_ge by lia. cbn. lia. }
  cbn [next_blank]. rewrite word_out.
  pose proof (strchr_spec 32 (drop k line) ltac:(lia)) as Hb.
  change (strchr_from line k 32) with (n ← strchr (drop k line) 32; Some (k + n)%nat).
  change (strchr_from line k 34) with (n ← strchr (drop k line) 34; Some (k + n)%nat).
  pose proof (strchr_spec 34 (drop k line) ltac:(lia)) as Hq.
  destruct (strchr (drop k line) 32) as [n|], (strchr (drop k line) 34) as [q|]; cbn [mbind option_bind].
  - replace (k + q <? k + n)%nat with (q <? n)%nat by (apply eq_true_iff_eq; rewrite !Nat.ltb_lt; lia).
    destruct Hq as (Hql & _). rewrite length_drop in Hql.
    destruct (q <? n)%nat; [|done].
    rewrite word_in, !drop_drop. replace (k + S q)%nat with (S (k + q)) by lia.
    change (strchr_from line (S (k + q)) 34) with (n ← strchr (drop (S (k + q)) line) 34; Some (S (k + q) + n)%nat).
    pose proof (strchr_spec 34 (drop (S (k + q)) line) ltac:(lia)) as Hq2.
    destruct (strchr (drop (S (k + q)) line) 34) as [q2|]; cbn [mbind option_bind default].
    + destruct Hq2 as (Hq2 & _). rewrite length_drop in Hq2. rewrite IH by lia. rewrite drop_drop.
      replace (S (k + q) + S q2)%nat with (S (S (k + q) + q2)) by lia. lia.
    + rewrite length_drop. lia.
  - done.
  - cbn [default]. destruct Hq as (Hql & _). rewrite length_drop in Hql.
    rewrite word_no_blank, !length_drop; [lia|].
    rewrite <- (take_drop (S q) (drop k line)), not_elem_of_app in Hb. tauto.
  - cbn [default]. rewrite length_drop. lia.
Qed.
Lemma params_loop_ok : forall fuel line argc, (length line <= fuel)%nat -> 1 <= argc <= 256 ->
  params_loop fuel line argc = take (Z.to_nat (256 - argc)) (words fuel line).
Proof.
  induction fuel as [|fuel IH]; intros line argc Hf Ha.
  { destruct line; [|cbn in Hf; lia]. cbn. by rewrite take_nil. }
  destruct line as [|c r]; [cbn; by rewrite take_nil|]. set (line := c :: r) in *.
  change (params_loop (S fuel) line argc) with
    (if argc <? 256 then
       let n := match next_blank (length line) line (strchr line 32) (strchr line 34) with Some n => n | None => length line end in
       take n line :: params_loop fuel (if (n <? length line)%nat then drop (S n) line else drop n line) (argc + 1)
     else []).
  change (words (S fuel) line) with (take (word false line) line :: words fuel (drop (S (word false line)) line)).
  destruct (Z.ltb_spec argc 256) as [Hlt|Hge]; [|by replace (Z.to_nat (256 - argc)) with O by lia].
  assert (default (length line) (next_blank (length line) line (strchr line 32) (strchr line 34)) = word false line) as Hn.
  { etransitivity; [|exact (next_blank_ok line (length line) 0 ltac:(lia) ltac:(lia))].
    unfold strchr_from. change (drop 0 line) with line. by destruct (strchr line 32), (strchr line 34). }
  cbn zeta.
  replace (match next_blank _ _ _ _ with Some n => n | None => length line end) with (word false line)
    by (rewrite <- Hn; by destruct (next_blank _ _ _ _)).
  replace (Z.to_nat (256 - argc)) with (S (Z.to_nat (256 - (argc + 1)))) by lia. cbn [take]. f_equal.
  pose proof (word_le false line) as Hle.
  assert ((if (word false line <? length line)%nat then drop (S (word false line)) line else drop (word false line) line)
          = drop (S (word false line)) line) as ->.
  { destruct (Nat.ltb_spec (word false line) (length line)); [done|]. rewrite !drop_ge by lia. done. }
  apply IH; [|lia]. rewrite length_drop. cbn [length] in *. lia.
Qed.

Lemma word_end b line : (word b line < length line)%nat -> line !! word b line = Some 32.
Proof.
  revert b. induction line as [|c r IH]; intros b; [cbn; lia|]. cbn [word length].
  destruct (Z.eqb_spec c 34); [intros H; apply IH; lia|].
  destruct (Z.eqb_spec c 32) as [->|]; destruct b; cbn [andb negb]; intros H; (done || (apply IH; lia)).
Qed.
Lemma word_take b line : word b (take (word b line) line) = word b line.
Proof.
  revert b. induction line as [|c r IH]; intros b; [done|]. cbn [word].
  destruct (Z.eqb_spec c 34) as [->|H34]; [cbn; by rewrite IH|].
  destruct (Z.eqb_spec c 32) as [->|H32]; destruct b; cbn [andb negb]; try done; cbn [take word].
  - cbn. by rewrite IH.
  - destruct (Z.eqb_spec c 34), (Z.eqb_spec c 32); try lia. cbn. by rewrite IH.
  - destruct (Z.eqb_spec c 34), (Z.eqb_spec c 32); try lia. cbn. by rewrite IH.
Qed.
Lemma args_join : forall fuel line, (length line <= fuel)%nat ->
  line = join_values (words fuel line) \/ line = join_values (words fuel line) ++ [32].
Proof.
  induction fuel as [|fuel IH]; intros line Hf; [destruct line; [by left|cbn in Hf; lia]|].
  destruct line as [|c r]; [by left|]. set (line := c :: r) in *.
  change (words (S fuel) line) with (take (word false line) line :: words fuel (drop (S (word false line)) line)).
  set (n := word false line). pose proof (word_le false line) as Hle. fold n in Hle.
  destruct (decide (n < length line)%nat) as [Hn|Hn].
  - pose proof (word_end false line Hn) as H32. fold n in H32.
    assert (line = take n line ++ 32 :: drop (S n) line) as Hline by by rewrite take_drop_middle.
    specialize (IH (drop (S n) line) ltac:(rewrite length_drop; lia)).
    destruct (drop (S n) line) as [|d l] eqn:Ed.
    + right. destruct fuel; cbn [words join_values]; exact Hline.
    + destruct fuel as [|fuel]; [apply (f_equal length) in Ed;
        rewrite length_drop in Ed; cbn [length] in Ed; lia|].
      cbn [words] in IH |- *. set (w := take n line) in *. set (ws := words fuel _) in *. cbn [join_values] in *.
      destruct IH as [IH|IH]; [left|right]; rewrite Hline at 1; rewrite IH at 1; [done|by rewrite <- app_assoc].
  - left. rewrite (drop_ge line) by lia. rewrite take_ge by lia. by destruct fuel.
Qed.
Lemma words_plain fuel line : Forall (fun w => word false w = length w) (words fuel line).
Proof.
  revert line. induction fuel as [|fuel IH]; intros line; [by apply Forall_nil_2|].
  destruct line as [|c r]; [by apply Forall_nil_2|]. cbn [words]. apply Forall_cons_2; [|apply IH].
  rewrite word_take, length_take. pose proof (word_le false (c :: r)). lia.
Qed.

(** C13: The arguments of Linux are the words of the variable [bootargs]: the line is cut at every
    blank that is outside of quotations, and joining the words with blanks gives the line back, but
    for a blank at its end; there are at most 255 of them. *)
Theorem linux_args_correct line :
  linux_params_init (Some line) = take 255 (words_of line)
  /\ (line = join_values (words_of line) \/ line = join_values (words_of line) ++ [32])
  /\ Forall (fun w => word false w = length w) (words_of line).
Proof.
  split; [|split].
  - unfold linux_params_init, words_of. by rewrite params_loop_ok by lia.
  - by apply args_join.
  - apply words_plain.
Qed.

(** ** Booting *)
Lemma load_bytes_lookup m : forall n a l, load_bytes m a n = Some l ->
  length l = n /\ forall i, (i < n)%nat -> l !! i = m !! (a + Z.of_nat i).
Proof.
  induction n as [|n IH]; intros a l; cbn [load_bytes]; [intros [= <-]; split; [done|lia]|].
  unfold load. destruct (m !! a) as [c|] eqn:Ec; cbn [mbind option_bind]; [|done].
  destruct (load_bytes m (a + 1) n) as [l'|] eqn:El; cbn [mbind option_bind]; [|done]. intros [= <-].
  destruct (IH _ _ El) as [Hl Hi]. split; [cbn; lia|]. intros [|i] Hlt; cbn.
  - by rewrite Z.add_0_r.
  - rewrite Hi by lia. f_equal. lia.
Qed.
(** The copy of a header has its fields. *)
Lemma copy_get_l_ok m a copy f v : load_bytes m a sizeof_header = Some copy -> (f + 4 <= 64)%nat ->
  image_get_l f m a = Some v -> copy_get_l f copy = Some v.
Proof.
  intros [Hl Hi]%load_bytes_lookup Hf. unfold image_get_l, load_be32, copy_get_l, load, sizeof_header in *.
  destruct (negb _); [done|].
  assert (forall j, (j < 4)%nat -> drop f copy !! j = m !! (a + Z.of_nat f + Z.of_nat j)) as Hj.
  { intros j Hj. rewrite lookup_drop, Hi by lia. f_equal. lia. }
  pose proof (Hj 0%nat ltac:(lia)) as H0. pose proof (Hj 1%nat ltac:(lia)) as H1.
  pose proof (Hj 2%nat ltac:(lia)) as H2. pose proof (Hj 3%nat ltac:(lia)) as H3. rewrite Z.add_0_r in H0.
  change (Z.of_nat 1) with 1 in H1. change (Z.of_nat 2) with 2 in H2. change (Z.of_nat 3) with 3 in H3.
  rewrite <- H0, <- H1, <- H2, <- H3. destruct (drop f copy) as [|b0 [|b1 [|b2 [|b3 l]]]]; cbn; try done.
Qed.
Lemma copy_get_b_ok m a copy f v : load_bytes m a sizeof_header = Some copy -> (f < 64)%nat ->
  image_get_b f m a = Some v -> copy_get_b f copy = Some v.
Proof. intros [_ Hi]%load_bytes_lookup Hf H. unfold copy_get_b. by rewrite Hi. Qed.

(** A good image in memory: what [image_get_kernel] checks holds. *)
Record good_kernel (m : mem) (a : Z) (p : mkimage_params) (time size : Z) : Prop := {
  good_header : header_at m a p time size;
  good_data : image_check_dcrc m a = Some true;
  good_arch : arch p = IH_ARCH_MIPS;
  good_print : image_print_contents m a = Some ();
  good_copy : exists copy, load_bytes m a sizeof_header = Some copy }.
Lemma get_kernel_ok m a p time size hcopy v : good_kernel m a p time size -> image_get_kernel hcopy m a v = Some a.
Proof.
  intros [Hh Hd Ha Hp _]. unfold image_get_kernel. rewrite (at_magic _ _ _ _ _ Hh), (at_hcrc _ _ _ _ _ Hh), Hp.
  cbn [mbind option_bind negb]. assert ((if negb (v =? 0) then image_check_dcrc m a else Some true) = Some true) as ->
    by by destruct (negb _). cbn [mbind option_bind negb].
  unfold image_check_target_arch, image_check_arch. rewrite (at_arch _ _ _ _ _ Hh), Ha. done.
Qed.
Lemma format_ok m a p time size : header_at m a p time size -> genimg_get_format m a = Some IMAGE_FORMAT_LEGACY.
Proof. intros Hh. unfold genimg_get_format. by rewrite (at_magic _ _ _ _ _ Hh). Qed.

(** The data of the system in an image for one of the types that [bootm] takes. *)
Definition kernel_data (m : mem) (a type data len : Z) : Prop :=
  (type = IH_TYPE_KERNEL \/ type = IH_TYPE_STANDALONE) /\ data = image_get_data a /\ image_get_data_size m a = Some len
  \/ type = IH_TYPE_MULTI /\ image_multi_getimg m a 0 = Some (data, len).
Definition img_addr_of (load_addr : Z) (argv : list (list Z)) : Z :=
  match argv with [] => load_addr | a :: _ => fst (simple_strtoul a 16) end.

Definition found_images (i : bootm_headers) (a : Z) (copy : list Z) (size data len : Z) (p : mkimage_params) : bootm_headers :=
  mk_images a copy true
    (mk_info a (u32 (a + u32 (size + 64))) data len (u32 (addr p)) (u8 (comp p)) (u8 (type p)) (u8 (Image.os p)))
    (u32 (Image.ep p)) (rd_start i) (rd_end i) (verify i) (state i).
Lemma find_os_ok m a p time size hcopy load_addr argv i data len : good_kernel m a p time size -> a <> 0 ->
  img_addr_of load_addr argv = a -> kernel_data m a (u8 (type p)) data len -> len <> 0 ->
  exists copy, load_bytes m a sizeof_header = Some copy
    /\ bootm_find_os hcopy load_addr m argv i = Some (0, found_images i a copy size data len p).
Proof.
  intros Hgood Ha Haddr Hdata Hlen. pose proof Hgood as [Hh _ _ _ (copy & Hcopy)]. exists copy. split; [done|].
  unfold bootm_find_os, boot_get_kernel. fold (img_addr_of load_addr argv). rewrite Haddr, (format_ok _ _ _ _ _ Hh).
  cbn [mbind option_bind]. change (IMAGE_FORMAT_LEGACY =? IMAGE_FORMAT_LEGACY) with true. cbn iota.
  rewrite (get_kernel_ok _ _ _ _ _ _ _ Hgood). cbn [mbind option_bind]. destruct (Z.eqb_spec a 0); [done|].
  rewrite (at_type _ _ _ _ _ Hh). cbn [mbind option_bind].
  assert (Hd : exists d, (if (u8 (type p) =? IH_TYPE_KERNEL) || (u8 (type p) =? IH_TYPE_KERNEL_NOLOAD)
      || (u8 (type p) =? IH_TYPE_STANDALONE)
    then len ← image_get_data_size m a; Some (Some (image_get_data a, len))
    else if u8 (type p) =? IH_TYPE_MULTI then p0 ← image_multi_getimg m a 0; Some (Some p0) else Some None)
    = Some (Some d) /\ d = (data, len)).
  { exists (data, len). split; [|done]. destruct Hdata as [([->| ->] & -> & ->)|(-> & ->)]; done. }
  destruct Hd as (d & -> & ->). cbn [mbind option_bind]. rewrite Hcopy. cbn [mbind option_bind].
  change (image_len (os (set_legacy (set_os_data (set_os_data i 0 0) data len) a copy))) with len.
  destruct (Z.eqb_spec len 0); [done|]. rewrite (format_ok _ _ _ _ _ Hh). cbn [mbind option_bind].
  change (negb (IMAGE_FORMAT_LEGACY =? IMAGE_FORMAT_LEGACY)) with false. cbn iota.
  rewrite (at_comp _ _ _ _ _ Hh), (at_os _ _ _ _ _ Hh). cbn [mbind option_bind].
  unfold image_get_image_end, image_get_image_size. rewrite (at_size _ _ _ _ _ Hh). cbn [mbind option_bind].
  rewrite (at_load _ _ _ _ _ Hh). cbn [mbind option_bind].
  change (legacy_hdr_os_copy (set_legacy (set_os_data (set_os_data i 0 0) data len) a copy)) with copy.
  rewrite (copy_get_l_ok _ _ _ ih_ep _ Hcopy ltac:(unfold ih_ep; lia) (at_ep _ _ _ _ _ Hh)). cbn [mbind option_bind].
  change (negb (legacy_hdr_valid _)) with false. cbn iota.
  rewrite (at_type _ _ _ _ _ Hh). cbn [mbind option_bind].
  assert ((u8 (type p) =? IH_TYPE_KERNEL_NOLOAD) = false) as ->.
  { destruct Hdata as [([->| ->] & _)|(-> & _)]; done. }
  done.
Qed.

(** ** Images that were made *)
(** A file that [mkimage] made from data files, in memory: a single system, or an image of several
    files of which the first is the system and the second a ramdisk. *)
Record made_image (m : mem) (a ptr time : Z) (p : mkimage_params) (files : list (list Z)) : Prop := {
  made_name : Forall byte (imagename p);
  made_bytes : Forall (Forall byte) files;
  made_sizes : Forall (fun f => 0 < zlen f) files;
  made_type : type p = IH_TYPE_KERNEL /\ length files = 1%nat \/ type p = IH_TYPE_MULTI /\ files <> [];
  made_for : Image.os p = IH_OS_LINUX /\ arch p = IH_ARCH_MIPS /\ comp p = IH_COMP_NONE;
  made_align : a mod 4 = 0;
  made_start : 0 < a;
  made_end : a + 64 + (zlen files + 1) * 4 + offset_of files < 0x100000000;
  made_file : bytes_at m a (mkimage ptr time p files) }.
Definition body_of (p : mkimage_params) (files : list (list Z)) : list Z :=
  if type p =? IH_TYPE_MULTI then size_table files ++ be32 0 ++ copy_files files else copy_files files.
(** Where the file behind [before] is. *)
Definition place (a : Z) (p : mkimage_params) (files before : list (list Z)) : Z :=
  if type p =? IH_TYPE_MULTI then part_addr (a + 64) (zlen files) before else a + 64 + offset_of before.
Definition kernel_of (files : list (list Z)) : list Z := default [] (head files).
(** The ramdisk: its start and end, zeros when there is none. *)
Definition ramdisk_of (a : Z) (p : mkimage_params) (files : list (list Z)) : Z * Z :=
  match files with
  | k :: r :: _ => let s := place a p files [k] in (s, s + zlen r)
  | _ => (0, 0)
  end.

Lemma mkimage_body ptr time p files :
  type p = IH_TYPE_KERNEL /\ length files = 1%nat \/ type p = IH_TYPE_MULTI /\ files <> [] ->
  mkimage ptr time p files = image_set_header ptr (replicate sizeof_header 0 ++ body_of p files) time p.
Proof.
  intros [[Ht Hf]|[Ht Hf]]; unfold mkimage, body_of; rewrite Ht; [|done].
  destruct files as [|f [|g r]]; done.
Qed.
Lemma body_le p files : zlen (body_of p files) <= (zlen files + 1) * 4 + offset_of files.
Proof.
  pose proof (copy_files_le files). unfold body_of. case_if; [|lia].
  rewrite !length_app. pose proof (size_table_len files). cbn [be32 length]. lia.
Qed.
Lemma body_bytes p files : Forall (Forall byte) files -> Forall byte (body_of p files).
Proof.
  intros H. unfold body_of. pose proof (copy_files_bytes files H). case_if; [|done].
  rewrite !Forall_app. split_and!; [apply size_table_bytes|apply be32_bytes|done].
Qed.

Section made.
Context (m : mem) (a ptr time : Z) (p : mkimage_params) (files : list (list Z)).
Context (Hmade : made_image m a ptr time p files).

Lemma made_header : header_at m a p time (zlen (body_of p files)) /\ image_check_dcrc m a = Some true
  /\ bytes_at m (a + 64) (body_of p files).
Proof.
  destruct Hmade as [Hn Hb Hs Ht Hf Ha H0 He Hm]. pose proof (body_le p files).
  apply header_ok with ptr; try done; [by apply body_bytes|by rewrite <- mkimage_body|lia].
Qed.
Lemma made_multi : type p = IH_TYPE_MULTI ->
  image_multi_count m a = Some (zlen files)
  /\ (forall idx, zlen files <= idx -> image_multi_getimg m a idx = Some (0, 0))
  /\ forall before f after, files = before ++ f :: after ->
     let p := part_addr (a + 64) (zlen files) before in
     image_multi_getimg m a (zlen before) = Some (p, zlen f) /\ bytes_at m p f.
Proof.
  intros Ht. pose proof made_header as (_ & _ & Hb). unfold body_of in Hb. rewrite Ht in Hb.
  destruct Hmade as [_ _ Hs _ _ Ha H0 He _]. apply multi_getimg_ok; (done || lia).
Qed.
Lemma made_good : good_kernel m a p time (zlen (body_of p files)).
Proof.
  pose proof made_header as (Hh & Hd & _). pose proof made_multi as Hmu. split; [done|done|apply Hmade| |].
  - unfold image_print_contents. rewrite (at_type _ _ _ _ _ Hh). cbn [mbind option_bind].
    destruct (made_type _ _ _ _ _ _ Hmade) as [[Ht _]|[Ht _]]; rewrite Ht; [done|]. by rewrite (proj1 (Hmu Ht)).
  - pose proof (at_hcrc _ _ _ _ _ Hh 0) as Hc. unfold image_check_hcrc in Hc.
    destruct (load_bytes m a sizeof_header) as [copy|]; [by exists copy|done].
Qed.
Lemma made_kernel : exists k after, files = k :: after /\ 0 < zlen k
  /\ kernel_data m a (u8 (type p)) (place a p files []) (zlen k) /\ bytes_at m (place a p files []) k.
Proof.
  pose proof made_header as (Hh & _ & Hb). pose proof made_multi as Hmu. pose proof (offset_of_pos files) as Hop.
  destruct Hmade as [_ _ Hs [[Ht Hf]|[Ht Hf]] _ Ha H0 He _]; destruct files as [|k after]; try done;
    apply Forall_cons in Hs as [Hk _]; exists k, after; (split; [done|]); (split; [done|]); unfold place, kernel_data; rewrite Ht.
  - destruct after; [|done]. unfold body_of in Hb. rewrite Ht in Hb. cbn in Hb.
    unfold copy_file in Hb. cbn [andb] in Hb. rewrite app_nil_r in Hb.
    change (IH_TYPE_KERNEL =? IH_TYPE_MULTI) with false. cbn iota. cbn [offset_of]. rewrite Z.add_0_r. split; [|done].
    left. split; [by left|]. unfold image_get_data. change (Z.of_nat sizeof_header) with 64.
    rewrite u32_small by (cbn [length] in He; lia). split; [done|]. unfold image_get_data_size.
    rewrite (at_size _ _ _ _ _ Hh). unfold body_of. rewrite Ht. cbn. unfold copy_file. cbn [andb]. by rewrite app_nil_r.
  - destruct (proj2 (proj2 (Hmu Ht)) [] k after eq_refl) as [Hi Hd].
    change (IH_TYPE_MULTI =? IH_TYPE_MULTI) with true. cbn iota. split; [right; done|done].
Qed.
End made.

Section booting.
Context (m : mem) (a ptr time : Z) (p : mkimage_params) (files : list (list Z)).
Context (Hmade : made_image m a ptr time p files).
Context (i : bootm_headers) (copy : list Z) (Hcopy : load_bytes m a sizeof_header = Some copy).
Abbreviation size := (zlen (body_of p files)).
Abbreviation found := (found_images i a copy size (place a p files []) (zlen (kernel_of files)) p).

Definition with_ramdisk (i : bootm_headers) (rd : Z * Z) : bootm_headers :=
  mk_images (legacy_hdr_os i) (legacy_hdr_os_copy i) (legacy_hdr_valid i) (Bootm.os i) (Bootm.ep i)
    (fst rd) (snd rd) (verify i) (state i).
Lemma find_other_ok hcopy arg : bootm_find_other hcopy m [arg] found
  = Some (0, with_ramdisk found (ramdisk_of a p files)).
Proof.
  pose proof (made_header _ _ _ _ _ _ Hmade) as (Hh & _). pose proof (made_multi _ _ _ _ _ _ Hmade) as Hmu.
  pose proof (made_for _ _ _ _ _ _ Hmade) as (Hos & _ & _). unfold bootm_find_other.
  change (os_type (Bootm.os found)) with (u8 (type p)). change (os_os (Bootm.os found)) with (u8 (Image.os p)).
  rewrite Hos. unfold boot_get_ramdisk. change (2 <=? zlen [arg]) with false. cbn iota.
  change (legacy_hdr_os_copy found) with copy. change (legacy_hdr_valid found) with true.
  change (legacy_hdr_os found) with a.
  rewrite (copy_get_b_ok _ _ _ ih_type _ Hcopy ltac:(unfold ih_type; lia) (at_type _ _ _ _ _ Hh)).
  destruct (made_type _ _ _ _ _ _ Hmade) as [[Ht Hf]|[Ht Hf]]; rewrite Ht.
  - destruct files as [|k [|r l]]; done.
  - change ((u8 IH_TYPE_MULTI =? IH_TYPE_KERNEL) || _ || _) with true. cbn [andb mbind option_bind].
    change (u8 IH_OS_LINUX =? IH_OS_LINUX) with true. change (u8 IH_TYPE_MULTI =? IH_TYPE_MULTI) with true. cbn iota.
    destruct (Hmu Ht) as (_ & Hout & Hin). destruct files as [|k [|r l]]; [done| |].
    + rewrite (Hout 1) by done. done.
    + pose proof (Hin [k] r l eq_refl) as [Hi _]. change (zlen [k]) with 1 in Hi. rewrite Hi. cbn [mbind option_bind].
      pose proof (made_start _ _ _ _ _ _ Hmade). pose proof (made_end _ _ _ _ _ _ Hmade) as He.
      unfold ramdisk_of, place. rewrite Ht. change (IH_TYPE_MULTI =? IH_TYPE_MULTI) with true. cbn iota.
      unfold part_addr in *. cbn [offset_of] in *. pose proof (offset_of_pos l).
      pose proof (padded_range (zlen k) ltac:(lia)). pose proof (padded_range (zlen r) ltac:(lia)).
      destruct (Z.eqb_spec (a + 64 + (zlen (k :: r :: l) + 1) * 4 + (padded (zlen k) + 0)) 0); [lia|].
      rewrite u32_small by lia. done.
Qed.

(** Without compression the system is moved to the load address; that it overlaps the image does
    not stop [bootm]. *)
Lemma load_os_ok `{!Decompressors} : u32 (addr p) <> a -> allocated m (u32 (addr p)) (length (kernel_of files)) ->
  zlen (kernel_of files) < 0x80000000 -> forall rd,
  exists r load_end, bootm_load_os m (with_ramdisk found rd)
    = Some (r, mwrite m (u32 (addr p)) (kernel_of files), load_end) /\ (r = 0 \/ r = BOOTM_ERR_OVERLAP).
Proof.
  intros Hla Hal Hlen rd. destruct (made_kernel _ _ _ _ _ _ Hmade) as (k & after & Hfs & Hk & _ & Hb).
  assert (kernel_of files = k) as Hkf by by rewrite Hfs. rewrite Hkf in *.
  pose proof (made_for _ _ _ _ _ _ Hmade) as (_ & _ & Hc). unfold bootm_load_os. cbv zeta.
  set (F := with_ramdisk _ rd).
  change (os_comp (Bootm.os F)) with (u8 (comp p)). change (os_load (Bootm.os F)) with (u32 (addr p)).
  change (os_start (Bootm.os F)) with a. change (image_start (Bootm.os F)) with (place a p files []).
  change (image_len (Bootm.os F)) with (zlen k). change (legacy_hdr_valid F) with true. rewrite Hc.
  change (u8 IH_COMP_NONE =? IH_COMP_NONE) with true. cbn iota. destruct (Z.eqb_spec (u32 (addr p)) a); [done|]. cbn [orb].
  destruct (Z.eqb_spec (u32 (addr p)) (place a p files [])) as [->|Hne].
  - rewrite mwrite_same by done. cbn [negb andb]. exists 0. eexists. split; [done|by left].
  - unfold memmove_wd. destruct (Z.eqb_spec (u32 (addr p)) (place a p files [])); [done|].
    assert (Forall byte k) as Hkb.
    { pose proof (made_bytes _ _ _ _ _ _ Hmade) as Hmb. rewrite Hfs, Forall_cons in Hmb. tauto. }
    rewrite (proj1 (memmove_correct m (u32 (addr p)) (place a p files []) k Hkb Hb Hal Hlen)).
    cbn [mbind option_bind negb]. rewrite andb_true_l. cbv zeta. case_if; eexists _, _; (split; [done|]); [by right|by left].
Qed.
End booting.

(** ** The environment of Linux *)
Lemma strtoul_0x es : es <> [] -> Forall (fun d => 0 <= d < 16) es ->
  simple_strtoul (48 :: 120 :: map (dchar 0) es) 16 = (u32 (horner 16 0 es), []).
Proof.
  intros Hne Hes. pose proof (strto_digits_ok u32 0 16 es u32_wraps ltac:(by left) ltac:(lia) Hes 0 [] I) as H.
  rewrite app_nil_r in H. destruct es as [|d es]; [done|]. apply Forall_cons in Hes as [Hd _].
  destruct (dchar_spec 0 d ltac:(by left) ltac:(lia)) as (Hx & _). unfold simple_strtoul, strto_prefix. cbn [map] in *.
  cbn [chr hd tail Z.eqb Pos.eqb]. rewrite Hx. exact H.
Qed.
Lemma horner_zeros k es : horner 16 0 (replicate k 0 ++ es) = horner 16 0 es.
Proof. by induction k. Qed.
Lemma number_0x v size type : type = 0 /\ size = -1 \/ type = ZEROPAD /\ size = 8 ->
  exists s, number (u32 v) 16 size (-1) type = Some s /\ simple_strtoul (48 :: 120 :: s) 16 = (u32 v, []).
Proof.
  intros Ht. pose proof (u32_range v).
  destruct (number_closed (u32 v) 16 size (-1) type ltac:(by right; right) ltac:(lia))
    as (ds & lead & fill & zeros & trail & Hds & -> & Hlen & Hz & _ & Hl & Hz1 & Hz0).
  assert (number_sign (u32 v) type = [] /\ number_prefix 16 type = [] /\ magnitude (u32 v) type = u32 v
    /\ type .& SMALL = 0 /\ flag_set type LEFT = false) as (Hs & Hp & Hm & Hsm & Hleft)
    by (destruct Ht as [[-> _]|[-> _]]; repeat split).
  rewrite Hs, Hp, Hm, Hsm in *. specialize (Hl Hleft). subst trail. replace zeros with O by lia. cbn [repeat app].
  rewrite app_nil_r. assert (repeat 32 lead ++ repeat (if flag_set (eff type) ZEROPAD then 48 else 32) fill = repeat 48 fill) as Hpad.
  { destruct Ht as [[-> ->]|[-> ->]]; cbn [length] in Hlen.
    - replace lead with O by lia. by replace fill with O by lia.
    - by rewrite Hz1. }
  rewrite app_assoc, Hpad. eexists. split; [done|]. destruct Hds as (Hf & Hv & Hne & _).
  assert (repeat 48 fill ++ reverse (map (dchar 0) ds) = map (dchar 0) (replicate fill 0 ++ reverse ds)) as ->.
  { rewrite map_app. f_equal; [|symmetry; apply fmap_reverse].
    clear. induction fill as [|k IH]; [done|]. cbn. by rewrite IH. }
  rewrite strtoul_0x.
  - rewrite horner_zeros, horner_value, reverse_involutive, Hv, Z.mul_0_r, Z.add_0_r. by rewrite u32_twice.
  - intros [_ Hr]%app_nil. apply (f_equal length) in Hr. rewrite length_reverse in Hr. by destruct ds.
  - apply Forall_app_2; [by apply Forall_replicate|by apply Forall_reverse].
Qed.
(** A conversion to capital hexadecimal digits. *)
Lemma conv_step n fmt args str stores fmt1 flags w fmt2 num :
  parse_flags fmt 0 = (fmt1, flags) -> parse_width fmt1 args flags = Some (fmt2, args, flags, w) ->
  parse_precision fmt2 args = Some (fmt2, args, -1) -> parse_qualifier fmt2 = (fmt2, -1) -> chr fmt2 = 88 ->
  int_arg args (-1) flags = Some (num, []) ->
  vsnprintf_loop (S n) (37 :: fmt) args str stores
  = (out ← number num 16 w (-1) flags; vsnprintf_loop n (tail fmt2) [] (str ++ out) stores).
Proof.
  intros H1 H2 H3 H4 H5 H6. cbn [vsnprintf_loop Z.eqb negb Pos.eqb]. rewrite H1, H2. cbn [mbind option_bind].
  rewrite H3. cbn [mbind option_bind]. rewrite H4. cbv zeta. rewrite H5. cbn [Z.eqb Pos.eqb]. by rewrite H6.
Qed.
(** A number in the environment reads back. *)
Definition reads (v : Z) (s : list Z) : Prop := simple_strtoul s 16 = (u32 v, []).
Lemma sprintf_08X v : exists s, sprintf "0x%08X" [VInt v] = Some s /\ reads v s.
Proof.
  destruct (number_0x v 8 ZEROPAD ltac:(by right)) as (s & Hs & Hr). exists (48 :: 120 :: s). split; [|exact Hr].
  unfold sprintf, vsnprintf_internal. change (codes "0x%08X") with (48 :: 120 :: 37 :: codes "08X").
  change (vsnprintf_loop _ _ _ _ _) with (vsnprintf_loop (S 4) (37 :: codes "08X") [VInt v] [48; 120] []).
  rewrite (conv_step _ _ _ _ _ (codes "8X") ZEROPAD 8 (codes "X") (u32 v)) by reflexivity.
  by rewrite Hs.
Qed.
Lemma sprintf_X v : exists s, sprintf "0x%X" [VInt v] = Some s /\ reads v s.
Proof.
  destruct (number_0x v (-1) 0 ltac:(by left)) as (s & Hs & Hr). exists (48 :: 120 :: s). split; [|exact Hr].
  unfold sprintf, vsnprintf_internal. change (codes "0x%X") with (48 :: 120 :: 37 :: codes "X").
  change (vsnprintf_loop _ _ _ _ _) with (vsnprintf_loop (S 2) (37 :: codes "X") [VInt v] [48; 120] []).
  rewrite (conv_step _ _ _ _ _ (codes "X") 0 (-1) (codes "X") (u32 v)) by reflexivity.
  by rewrite Hs.
Qed.
Lemma sprintf_lu v : exists s, sprintf "%lu" [VInt v] = Some s /\ simple_strtoul s 10 = (u32 v, []).
Proof.
  pose proof (u32_range v). destruct (number_plain (u32 v) 10 0) as (ds & Hds & Heq); [by right; left|by left|lia|].
  exists (reverse (map (dchar 0) ds)).
  assert (sprintf "%lu" [VInt v] = (out ← number (u32 v) 10 (-1) (-1) 0; Some out)) as ->
    by (cbv -[number u32 app]; destruct (number _ _ _ _ _); reflexivity).
  rewrite Heq. split; [done|]. rewrite <- (app_nil_r (reverse _)).
  rewrite (strtoul_digits 0 10 (u32 v) ds []); [by rewrite u32_twice|by left|by right; left|done|done].
Qed.

Definition args_of (line : option (list Z)) : list (list Z) :=
  match line with None => [] | Some l => take 255 (words_of l) end.
(** The environment of Linux: the sizes and addresses, and the addresses of the network cards. *)
Definition linux_environment `{!Board} (M : gmap (list Z) (list Z)) (rd : Z * Z) (envs : list (list Z)) : Prop :=
  exists ms rs rz fs fz,
    envs = [codes "memsize=" ++ ms; codes "initrd_start=" ++ rs; codes "initrd_size=" ++ rz;
            codes "flash_start=" ++ fs; codes "flash_size=" ++ fz]
           ++ from_option (fun v => [codes "ethaddr=" ++ v]) [] (M !! codes "ethaddr")
           ++ from_option (fun v => [codes "eth1addr=" ++ v]) [] (M !! codes "eth1addr")
    /\ simple_strtoul ms 10 = (u32 (ram_size ≫ 20), [])
    /\ reads (UNCACHED_SDRAM (fst rd)) rs /\ reads (snd rd - fst rd) rz
    /\ reads bi_flashstart fs /\ reads bi_flashsize fz.
Lemma name_ok s : forallb (fun c => (0 <? c) && (c <? 256)) (codes s) = true -> str_ok (codes s).
Proof.
  intros H. apply Forall_forall. intros c Hc. apply forallb_forall with (x := c) in H; [|by apply list_elem_of_In].
  unfold char_ok. lia.
Qed.

Section prep.
Context {Hooks : EnvHooks} {B : Board} (default_environment : list Z) (CONFIG_ENV_SIZE : Z).
Lemma prep_ok m M : env_ready (env m) = true -> rep (env_htab (env m)) M ->
  exists envs, boot_prep_linux default_environment CONFIG_ENV_SIZE m
    = Some (mk_machine (ram m) (env m) (images m) (args_of (M !! codes "bootargs")) envs)
  /\ linux_environment M (rd_start (images m), rd_end (images m)) envs.
Proof.
  intros Hr Hrep. unfold boot_prep_linux.
  destruct (sprintf_lu (ram_size ≫ 20)) as (ms & -> & Hms).
  destruct (sprintf_08X (UNCACHED_SDRAM (rd_start (images m)))) as (rs & -> & Hrs).
  destruct (sprintf_X (u32 (rd_end (images m) - rd_start (images m)))) as (rz & -> & Hrz).
  destruct (sprintf_08X bi_flashstart) as (fs & -> & Hfs). destruct (sprintf_X bi_flashsize) as (fz & -> & Hfz).
  rewrite !(getenv_ok default_environment CONFIG_ENV_SIZE (env m) M) by (done || by apply name_ok).
  cbn [mbind option_bind]. eexists. split.
  - assert (linux_params_init (M !! codes "bootargs") = args_of (M !! codes "bootargs")) as ->; [|reflexivity].
    destruct (M !! codes "bootargs") as [l|]; [|done]. unfold linux_params_init, args_of, words_of.
    by rewrite params_loop_ok by lia.
  - exists ms, rs, rz, fs, fz. split; [|split_and!; try done; unfold reads in *; by rewrite Hrz, u32_twice].
    by destruct (M !! codes "ethaddr"), (M !! codes "eth1addr").
Qed.
End prep.
Lemma verify_ok {Hooks : EnvHooks} default_environment CONFIG_ENV_SIZE g M : env_ready g = true -> rep (env_htab g) M ->
  exists v, getenv_yesno default_environment CONFIG_ENV_SIZE g (codes "verify") = Some v
    /\ (v = 0 <-> exists s, M !! codes "verify" = Some s /\ chr s ∉ codes "1yYtT").
Proof.
  intros Hr Hrep. unfold getenv_yesno. rewrite (getenv_ok _ _ _ M) by (done || by apply name_ok).
  cbn [mbind option_bind]. eexists. split; [done|]. destruct (M !! codes "verify") as [s|].
  - assert (chr s ∈ codes "1yYtT" <-> (chr s = 49 \/ chr s = 121 \/ chr s = 89 \/ chr s = 116 \/ chr s = 84)) as Hin.
    { change (codes "1yYtT") with [49; 121; 89; 116; 84]. rewrite !elem_of_cons, elem_of_nil. tauto. }
    case_if; split.
    + done.
    + intros (s' & [= <-] & Hn). exfalso. apply Hn, Hin. lia.
    + intros _. exists s. split; [done|]. rewrite Hin. lia.
    + done.
  - split; [done|]. by intros (? & ? & _).
Qed.

(** The steps of [bootm], put together. *)
Lemma load_step_ok {Dec : Decompressors} m r mm le : bootm_load_os (ram m) (images m) = Some (r, mm, le) ->
  r = 0 \/ r = BOOTM_ERR_OVERLAP -> load_step m = Some (inl (ret 0, with_ram m mm)).
Proof. intros Hl Hr. unfold load_step. rewrite Hl. by destruct Hr as [-> | ->]. Qed.
Section states.
Context {Hooks : EnvHooks} {Dec : Decompressors} {B : Board}.
Context (default_environment : list Z) (CONFIG_ENV_SIZE : Z) (malloc_ok : Z -> bool) (load_addr hcopy : Z).
Context (do_bootm_other : Z -> Z -> machine -> option (outcome * machine)).
Abbreviation run := (do_bootm_states default_environment CONFIG_ENV_SIZE malloc_ok load_addr hcopy do_bootm_other).
Definition started (v : Z) : bootm_headers :=
  mk_images 0 (replicate sizeof_header 0) false no_image_info 0 0 0 v BOOTM_STATE_START.
Context (mch : machine) (argv : list (list Z)) (v : Z).
Context (Hv : getenv_yesno default_environment CONFIG_ENV_SIZE (env mch) (codes "verify") = Some v).

Lemma states_find_fails i : bootm_find_os hcopy load_addr (ram mch) argv (started v) = Some (1, i) ->
  run argv BOOTM_ALL mch = Some (ret 1, with_images mch i).
Proof.
  intros Hf. destruct mch as [mm e im la le]. cbn [ram env] in *. unfold do_bootm_states, when, bootm_start, find_step.
  cbn [with_images ram env images linux_argv linux_env]. rewrite Hv.
  change (has BOOTM_ALL BOOTM_STATE_START) with true. change (has BOOTM_ALL BOOTM_STATE_FINDOS) with true.
  cbn [mbind option_bind with_images ram env images linux_argv linux_env]. fold (started v). by rewrite Hf.
Qed.
Lemma states_boot i1 i2 r mm le m' :
  bootm_find_os hcopy load_addr (ram mch) argv (started v) = Some (0, i1) ->
  bootm_find_other hcopy (ram mch) argv i1 = Some (0, i2) ->
  bootm_load_os (ram mch) i2 = Some (r, mm, le) -> r = 0 \/ r = BOOTM_ERR_OVERLAP ->
  os_os (Bootm.os i2) = IH_OS_LINUX -> os_type (Bootm.os i2) <> IH_TYPE_STANDALONE ->
  boot_prep_linux default_environment CONFIG_ENV_SIZE
    (mk_machine mm (env mch) i2 (linux_argv mch) (linux_env mch)) = Some m' ->
  os_type (Bootm.os (images m')) <> IH_TYPE_STANDALONE ->
  run argv BOOTM_ALL mch = Some (boot_jump_linux m', m').
Proof.
  intros Hf1 Hf2 Hl Hr Hos Ht Hp Ht'. destruct mch as [mm0 e im la lenv]. cbn [ram env linux_argv linux_env] in *.
  unfold do_bootm_states, when, bootm_start, find_step.
  cbn [with_images ram env images linux_argv linux_env]. rewrite Hv.
  change (has BOOTM_ALL BOOTM_STATE_START) with true. change (has BOOTM_ALL BOOTM_STATE_FINDOS) with true.
  change (has BOOTM_ALL BOOTM_STATE_FINDOTHER) with true. change (has BOOTM_ALL BOOTM_STATE_LOADOS) with true.
  change (has BOOTM_ALL BOOTM_STATE_OS_CMDLINE) with false. change (has BOOTM_ALL BOOTM_STATE_OS_BD_T) with false.
  change (has BOOTM_ALL BOOTM_STATE_OS_PREP) with true. change (has BOOTM_ALL BOOTM_STATE_OS_GO) with true.
  cbn [mbind option_bind with_images ram env images linux_argv linux_env]. fold (started v). rewrite Hf1.
  cbn [mbind option_bind with_images ram env images linux_argv linux_env]. rewrite Hf2.
  cbn [mbind option_bind].
  erewrite load_step_ok; [|exact Hl|exact Hr]. change (with_ram (with_images _ i2) mm) with (mk_machine mm e i2 la lenv).
  cbn [mbind option_bind images]. rewrite Hos. change (boot_os _ _ _ IH_OS_LINUX)
    with (Some (Some (do_bootm_linux default_environment CONFIG_ENV_SIZE))).
  cbn [mbind option_bind]. set (m2 := mk_machine mm e i2 la lenv) in *.
  assert (do_bootm_linux default_environment CONFIG_ENV_SIZE BOOTM_STATE_OS_PREP m2 = Some (ret 0, m')) as ->.
  { change (do_bootm_linux default_environment CONFIG_ENV_SIZE BOOTM_STATE_OS_PREP m2) with
      (m ← boot_prep_linux default_environment CONFIG_ENV_SIZE m2; Some (ret 0, m)). by rewrite Hp. }
  cbn [mbind option_bind]. unfold boot_selected_os.
  destruct (Z.eqb_spec (os_type (Bootm.os (images m'))) IH_TYPE_STANDALONE); [done|]. reflexivity.
Qed.
End states.

(** C2: [bootm] boots what [mkimage] made.  With a good image of a system for this architecture in
    memory, alone or in front of a ramdisk, and whether [verify] is set or not, the command ends,
    and it ends in the system: at the entry point of the header, with the first file of the
    image at the load address and no other byte of [ram] changed, with the words of
    [bootargs] as arguments and an environment that names the ramdisk; the ramdisk is the second
    file of the image, and it is whole when the load address does not overlap it. *)
Theorem bootm_boots {Hooks : EnvHooks} {Dec : Decompressors} {B : Board}
    default_environment CONFIG_ENV_SIZE malloc_ok load_addr hcopy do_bootm_other mch M arg a ptr time p files
    (Hready : env_ready (env mch) = true) (Hrep : rep (env_htab (env mch)) M)
    (Harg : simple_strtoul arg 16 = (a, [])) (Hmade : made_image (ram mch) a ptr time p files)
    (Hload : u32 (addr p) <> a) (Halloc : allocated (ram mch) (u32 (addr p)) (length (kernel_of files)))
    (Hlen : zlen (kernel_of files) < 0x80000000) :
  let ram' := mwrite (ram mch) (u32 (addr p)) (kernel_of files) in
  let rd := ramdisk_of a p files in
  exists i envs,
    do_bootm default_environment CONFIG_ENV_SIZE malloc_ok load_addr hcopy do_bootm_other [arg] mch
    = Some (theKernel (u32 (Image.ep p)) (args_of (M !! codes "bootargs")) envs,
            mk_machine ram' (env mch) i (args_of (M !! codes "bootargs")) envs)
    /\ linux_environment M rd envs
    /\ forall k r after, files = k :: r :: after ->
       snd rd = fst rd + zlen r
       /\ (snd rd <= u32 (addr p) \/ u32 (addr p) + zlen k <= fst rd -> bytes_at ram' (fst rd) r).
Proof.
  intros ram' rd. destruct (verify_ok default_environment CONFIG_ENV_SIZE (env mch) M Hready Hrep) as (v & Hv & _).
  pose proof (made_good _ _ _ _ _ _ Hmade) as Hgood. pose proof (made_start _ _ _ _ _ _ Hmade) as H0.
  destruct (made_kernel _ _ _ _ _ _ Hmade) as (k0 & after0 & Hfs & Hk0 & Hdata & _).
  assert (kernel_of files = k0) as Hk by by rewrite Hfs. rewrite <- Hk in Hdata, Hk0.
  destruct (find_os_ok _ _ _ _ _ hcopy load_addr [arg] (started v) _ _ Hgood ltac:(lia)
    ltac:(cbn; by rewrite Harg) Hdata ltac:(lia)) as (copy & Hcopy & Hfind).
  pose proof (find_other_ok _ _ _ _ _ _ Hmade (started v) copy Hcopy hcopy arg) as Hother.
  destruct (load_os_ok _ _ _ _ _ _ Hmade (started v) copy Hload Halloc Hlen rd) as (r & le & Hl & Hr).
  destruct (made_for _ _ _ _ _ _ Hmade) as (Hos & _ & _).
  assert (u8 (type p) <> IH_TYPE_STANDALONE) as Ht
    by (destruct (made_type _ _ _ _ _ _ Hmade) as [[-> _]|[-> _]]; done).
  set (i2 := with_ramdisk _ rd) in *.
  destruct (prep_ok default_environment CONFIG_ENV_SIZE
    (mk_machine ram' (env mch) i2 (linux_argv mch) (linux_env mch)) M Hready Hrep) as (envs & Hprep & Henvs).
  exists i2, envs. split; [|split].
  - unfold do_bootm. rewrite Harg. change (negb (chr (snd (a, [])) =? 0) && _ && _) with false. cbn iota.
    rewrite (states_boot default_environment CONFIG_ENV_SIZE malloc_ok load_addr hcopy do_bootm_other mch [arg] v Hv
      _ i2 r ram' le _ Hfind Hother Hl Hr ltac:(cbn; by rewrite Hos) Ht Hprep Ht). done.
  - change (rd_start (images _)) with (fst rd) in Henvs. change (rd_end (images _)) with (snd rd) in Henvs.
    by destruct rd.
  - intros k r' after Hf. destruct (made_type _ _ _ _ _ _ Hmade) as [[_ Hone]|[Htm _]]; [by rewrite Hf in Hone|].
    destruct (made_multi _ _ _ _ _ _ Hmade Htm) as (_ & _ & Hin). destruct (Hin [k] r' after Hf) as [_ Hb].
    subst rd. unfold ramdisk_of. rewrite Hf. cbn [fst snd]. unfold place. rewrite Htm.
    change (IH_TYPE_MULTI =? IH_TYPE_MULTI) with true. cbn iota. rewrite Hf in Hb. split; [done|].
    intros Hdis. subst ram'. unfold kernel_of. rewrite Hf. cbn [head default].
    by rewrite bytes_at_mwrite_disjoint.
Qed.

(** ** Damage *)
Lemma put_len l k w : (k + length w <= length l)%nat -> length (put l k w) = length l.
Proof. intros H. unfold put. rewrite !length_app, length_take, length_drop. lia. Qed.
Lemma put_app_l x y k w : (k + length w <= length x)%nat -> put (x ++ y) k w = put x k w ++ y.
Proof. intros H. unfold put. by rewrite take_app_le, drop_app_le, <- !app_assoc by lia. Qed.
Lemma put_app_r x y k w : (length x <= k)%nat -> put (x ++ y) k w = x ++ put y (k - length x) w.
Proof.
  intros H. unfold put. rewrite take_app_ge, drop_app_ge by lia. rewrite <- app_assoc.
  by replace (k + length w - length x)%nat with (k - length x + length w)%nat by lia.
Qed.
Lemma put_bytes l k w : Forall byte l -> Forall byte w -> Forall byte (put l k w).
Proof. intros Hl Hw. unfold put. rewrite !Forall_app. split_and!; [by apply Forall_take|done|by apply Forall_drop]. Qed.
Lemma bytes_at_put m a l k w : bytes_at m a l -> (k + length w <= length l)%nat ->
  bytes_at (mwrite m (a + Z.of_nat k) w) a (put l k w).
Proof.
  intros Hm Hk. rewrite <- (take_drop k l) in Hm. apply bytes_at_app in Hm as [H1 Hm].
  rewrite <- (take_drop (length w) (drop k l)), drop_drop in Hm. apply bytes_at_app in Hm as [_ H2].
  assert (zlen (take k l) = Z.of_nat k) as Hlk by (rewrite length_take; lia).
  assert (zlen (take (length w) (drop k l)) = zlen w) as Hlw by (rewrite length_take, length_drop; lia).
  unfold put. apply bytes_at_app. rewrite Hlk in *. rewrite Hlw in H2. split.
  - apply bytes_at_mwrite_disjoint; [lia|done].
  - apply bytes_at_app. split; [apply bytes_at_mwrite|]. apply bytes_at_mwrite_disjoint; [lia|done].
Qed.
(** Four bytes cannot change without the checksum. *)
Lemma crc32_put addr addr' pre l k w : Forall byte pre -> Forall byte l -> Forall byte w ->
  (length w <= 4)%nat -> (k + length w <= length l)%nat -> put l k w <> l ->
  crc32 0 addr (pre ++ put l k w) <> crc32 0 addr' (pre ++ l).
Proof.
  intros Hp Hl Hw H4 Hk Hne. set (v := take (length w) (drop k l)).
  assert (l = take k l ++ v ++ drop (k + length w) l) as Hsplit.
  { unfold v. rewrite <- drop_drop, !take_drop. done. }
  assert (length w = length v) as Hwv by (unfold v; rewrite length_take, length_drop; lia).
  assert (w <> v) as Hwne.
  { intros Heq. apply Hne. unfold put. rewrite Heq at 1. by rewrite <- Hsplit. }
  rewrite Hsplit at 2. unfold put. rewrite !(app_assoc pre).
  apply crc32_burst; try done; [by apply Forall_app_2, Forall_take| |by apply Forall_drop].
  by apply Forall_take, Forall_drop.
Qed.
Definition be_val (l : list Z) : Z := match l with
  [b0; b1; b2; b3] => b0 * 0x1000000 + b1 * 0x10000 + b2 * 0x100 + b3 | _ => 0 end.
Lemma be_val_inj x y : Forall byte x -> Forall byte y -> length x = 4%nat -> length y = 4%nat ->
  be_val x = be_val y -> x = y.
Proof.
  intros Hx Hy. destruct x as [|x0 [|x1 [|x2 [|x3 [|]]]]], y as [|y0 [|y1 [|y2 [|y3 [|]]]]]; try done.
  rewrite !Forall_cons in Hx, Hy. unfold byte in *. intros _ _. cbn [be_val]. intros H.
  assert (x0 = y0 /\ x1 = y1 /\ x2 = y2 /\ x3 = y3) as (-> & -> & -> & ->) by lia. done.
Qed.
Lemma load_be32_val m a l : bytes_at m a l -> length l = 4%nat -> a mod 4 = 0 -> load_be32 m a = Some (be_val l).
Proof.
  intros Hm Hl Ha. destruct l as [|b0 [|b1 [|b2 [|b3 [|]]]]]; try done. destruct Hm as (H0 & H1 & H2 & H3 & _).
  unfold load_be32, load. rewrite Ha. replace (a + 1 + 1) with (a + 2) in * by lia.
  replace (a + 2 + 1) with (a + 3) in * by lia. by rewrite H0, H1, H2, H3.
Qed.

Section checks.
Context (m : mem) (a : Z) (mag hc rest : list Z).
Context (Hm : length mag = 4%nat) (Hh : length hc = 4%nat) (Hr : length rest = 56%nat) (Ha : a mod 4 = 0).
Context (Hb : bytes_at m a (mag ++ hc ++ rest)).
Lemma magic_val : image_check_magic m a = Some (be_val mag =? IH_MAGIC).
Proof.
  apply bytes_at_app in Hb as [H1 _]. unfold image_check_magic, image_get_l. change (Z.of_nat ih_magic) with 0.
  by rewrite Z.add_0_r, (load_be32_val _ _ _ H1 Hm Ha).
Qed.
Lemma hcrc_val hcopy : image_check_hcrc hcopy m a = Some (crc32 0 hcopy (mag ++ be32 0 ++ rest) =? be_val hc).
Proof.
  pose proof (load_bytes_ok _ _ _ Hb) as Hl. rewrite !length_app, Hm, Hh, Hr in Hl.
  apply bytes_at_app in Hb as [_ H2]. apply bytes_at_app in H2 as [H2 _]. unfold image_check_hcrc.
  change sizeof_header with (4 + (4 + 56))%nat. rewrite Hl. cbn [mbind option_bind]. unfold image_get_l.
  rewrite Hm in H2. change (Z.of_nat ih_hcrc) with (Z.of_nat 4). rewrite (load_be32_val _ _ _ H2 Hh) by (rewrite Z.add_mod, Ha by lia; done).
  cbn [mbind option_bind]. f_equal. f_equal. f_equal. unfold image_set_l, put, ih_hcrc.
  rewrite take_app_length' by done. f_equal. f_equal. rewrite app_assoc. apply drop_app_length'.
  rewrite length_app, Hm, Hh. done.
Qed.
End checks.
Lemma be_val_be32 v : be_val (be32 v) = u32 v.
Proof. cbn [be_val be32]. unfold u8, u32. rewrite !Z.shiftr_div_pow2 by lia. zdm. Qed.

(** What [bootm] does with an image that fails a check. *)
Lemma find_os_bad m a hcopy load_addr argv i ok : image_check_magic m a = Some ok -> img_addr_of load_addr argv = a ->
  (ok = true -> image_get_kernel hcopy m a (verify i) = Some 0) ->
  bootm_find_os hcopy load_addr m argv i = Some (1, set_os_data i 0 0).
Proof.
  intros Hm Ha Hk. unfold bootm_find_os, boot_get_kernel. fold (img_addr_of load_addr argv). rewrite Ha.
  unfold genimg_get_format. rewrite Hm. cbn [mbind option_bind]. destruct ok; [|done].
  change (IMAGE_FORMAT_LEGACY =? IMAGE_FORMAT_LEGACY) with true. cbn iota.
  change (verify (set_os_data i 0 0)) with (verify i). rewrite (Hk eq_refl). done.
Qed.
(** The sum that a checksum is compared with, and the parts of a file that was made. *)
Lemma made_shape ptr time p files :
  type p = IH_TYPE_KERNEL /\ length files = 1%nat \/ type p = IH_TYPE_MULTI /\ files <> [] ->
  Forall byte (imagename p) -> zlen (body_of p files) < 0x100000000 ->
  exists hcrc dcrc rest,
    mkimage ptr time p files = (be32 IH_MAGIC ++ be32 hcrc ++ rest) ++ body_of p files
    /\ header_bytes hcrc dcrc time (zlen (body_of p files)) p = be32 IH_MAGIC ++ be32 hcrc ++ rest
    /\ length rest = 56%nat /\ Forall byte rest
    /\ hcrc = crc32 0 ptr (be32 IH_MAGIC ++ be32 0 ++ rest)
    /\ hcrc = crc32 0 ptr (header_bytes 0 dcrc time (zlen (body_of p files)) p)
    /\ dcrc = crc32 0 (ptr + 64) (body_of p files).
Proof.
  intros Ht Hn Hs. rewrite mkimage_body by done.
  destruct (image_set_header_ok ptr (body_of p files) time p) as (hcrc & dcrc & Hf & Hhcrc & Hdcrc).
  rewrite u32_small in * by lia. exists hcrc, dcrc. eexists. split; [exact Hf|]. split; [reflexivity|].
  pose proof (header_bytes_len hcrc dcrc time (zlen (body_of p files)) p) as Hl.
  pose proof (header_bytes_bytes hcrc dcrc time (zlen (body_of p files)) p Hn) as Hbs.
  unfold header_bytes in Hl, Hbs. rewrite length_app in Hl. rewrite Forall_app in Hbs. destruct Hbs as [_ Hbs].
  rewrite length_app in Hl. rewrite Forall_app in Hbs. change (length (be32 _)) with 4%nat in Hl.
  split; [lia|]. split; [tauto|]. split; [exact Hhcrc|]. split; [exact Hhcrc|exact Hdcrc].
Qed.

Section damaged.
Context (m0 : mem) (a ptr time : Z) (p : mkimage_params) (files : list (list Z)).
Context (Hmade : made_image m0 a ptr time p files).
Abbreviation file := (mkimage ptr time p files).
Context (k : nat) (w : list Z) (Hw : Forall byte w) (H4 : (length w <= 4)%nat) (Hne : put file k w <> file).
Context (hcopy v : Z).
Abbreviation m := (mwrite m0 (a + Z.of_nat k) w).
Lemma header_damaged : (k + length w <= 8 \/ 8 <= k /\ k + length w <= 64)%nat ->
  exists ok, image_check_magic m a = Some ok /\ (ok = true -> image_get_kernel hcopy m a v = Some 0).
Proof.
  intros Hk. pose proof Hmade as [Hn Hb Hs Ht _ Ha H0 He Hm]. pose proof (body_le p files).
  destruct (made_shape ptr time p files Ht Hn ltac:(lia)) as (hcrc & dcrc & rest & Hf & _ & Hr & Hrb & Hc & _).
  rewrite Hf in Hm, Hne. assert (length (be32 IH_MAGIC ++ be32 hcrc ++ rest) = 64%nat) as H64
    by (rewrite !length_app, Hr; done).
  rewrite put_app_l in Hne by lia. apply bytes_at_app in Hm as [Hm _].
  assert (put (be32 IH_MAGIC ++ be32 hcrc ++ rest) k w <> be32 IH_MAGIC ++ be32 hcrc ++ rest) as Hne' by congruence.
  pose proof (bytes_at_put _ _ _ k w Hm ltac:(lia)) as Hm'.
  assert (Forall byte (be32 IH_MAGIC ++ be32 0 ++ rest)) as Hhb
    by (rewrite !Forall_app; split_and!; try done; apply be32_bytes).
  assert (u32 hcrc = hcrc) as Hu by (rewrite Hc; by apply crc32_reg).
  destruct Hk as [Hk|[Hk1 Hk2]].
  - rewrite app_assoc, put_app_l in Hm', Hne' by (cbn; lia).
    pose proof (put_len (be32 IH_MAGIC ++ be32 hcrc) k w ltac:(cbn; lia)) as Hl8.
    pose proof (put_bytes (be32 IH_MAGIC ++ be32 hcrc) k w
      ltac:(apply Forall_app_2; apply be32_bytes) Hw) as Hb8.
    set (s8 := put (be32 IH_MAGIC ++ be32 hcrc) k w) in *. change (length _) with 8%nat in Hl8 at 2.
    rewrite <- (take_drop 4 s8) in Hm', Hb8. rewrite <- app_assoc in Hm'. apply Forall_app in Hb8 as [Hb1 Hb2].
    assert (length (take 4 s8) = 4%nat) as Hl1 by (rewrite length_take; lia).
    assert (length (drop 4 s8) = 4%nat) as Hl2 by (rewrite length_drop; lia).
    eexists. split; [exact (magic_val _ _ _ _ _ Hl1 Ha Hm')|]. intros Hok. apply Z.eqb_eq in Hok.
    unfold image_get_kernel. rewrite (magic_val _ _ _ _ _ Hl1 Ha Hm'), Hok. cbn [mbind option_bind negb Z.eqb].
    change (IH_MAGIC =? IH_MAGIC) with true. cbn [negb].
    rewrite (hcrc_val _ _ _ _ _ Hl1 Hl2 Hr Ha Hm'). cbn [mbind option_bind].
    assert (take 4 s8 = be32 IH_MAGIC) as Ht4.
    { apply be_val_inj; try done; apply be32_bytes. }
    rewrite Ht4, (crc32_addr hcopy ptr), <- Hc by done.
    destruct (Z.eqb_spec hcrc (be_val (drop 4 s8))) as [Heq|]; [|done]. exfalso. apply Hne'.
    assert (drop 4 s8 = be32 hcrc) as Hd4.
    { apply be_val_inj; try done; [apply be32_bytes|]. by rewrite be_val_be32, Hu. }
    rewrite <- (take_drop 4 s8), Ht4, Hd4. by rewrite <- app_assoc.
  - rewrite app_assoc, put_app_r, <- !app_assoc in Hm', Hne' by (cbn; lia). change (length (be32 _ ++ be32 _)) with 8%nat in *.
    assert (put rest (k - 8) w <> rest) as Hnr by (intros E; apply Hne'; by rewrite E).
    pose proof (put_len rest (k - 8) w ltac:(lia)) as Hl8. rewrite Hr in Hl8.
    eexists. split; [exact (magic_val _ _ (be32 IH_MAGIC) (be32 hcrc) _ eq_refl Ha Hm')|]. intros _.
    unfold image_get_kernel. rewrite (magic_val _ _ (be32 IH_MAGIC) (be32 hcrc) _ eq_refl Ha Hm').
    change (be_val (be32 IH_MAGIC) =? IH_MAGIC) with true. cbn [mbind option_bind negb].
    rewrite (hcrc_val _ _ (be32 IH_MAGIC) (be32 hcrc) _ eq_refl eq_refl Hl8 Ha Hm'), be_val_be32, Hu. cbn [mbind option_bind].
    destruct (Z.eqb_spec (crc32 0 hcopy (be32 IH_MAGIC ++ be32 0 ++ put rest (k - 8) w)) hcrc) as [Heq|]; [|done].
    exfalso. rewrite Hc, !(app_assoc (be32 IH_MAGIC)) in Heq. revert Heq. apply crc32_put; try done; [|lia].
    apply Forall_app_2; apply be32_bytes.
Qed.
Lemma data_damaged : (64 <= k /\ k + length w <= length file)%nat -> type p = IH_TYPE_KERNEL -> v <> 0 ->
  image_check_magic m a = Some true /\ image_get_kernel hcopy m a v = Some 0.
Proof.
  intros Hk Htk Hv. pose proof Hmade as [Hn Hb Hs Ht _ Ha H0 He Hm]. pose proof (body_le p files).
  destruct (made_shape ptr time p files Ht Hn ltac:(lia)) as (hcrc & dcrc & rest & Hf & Hhd & Hr & _ & _ & Hc & Hdc).
  rewrite Hf in Hm, Hne, Hk. rewrite <- Hhd in Hm, Hne, Hk. rewrite length_app, header_bytes_len in Hk.
  pose proof (bytes_at_put _ _ _ k w Hm ltac:(rewrite length_app, header_bytes_len; lia)) as Hm'.
  rewrite put_app_r, header_bytes_len in Hm', Hne by (rewrite header_bytes_len; lia).
  set (body := body_of p files) in *. set (body' := put body (k - 64) w) in *.
  assert (length body' = length body) as Hl by (apply put_len; lia).
  assert (Forall byte body) as Hbb by by apply body_bytes.
  destruct (header_at_ok m a ptr time p body' Hn Ha hcrc dcrc (zlen body) Hc Hm' ltac:(lia)) as [Hh Hd].
  apply bytes_at_app in Hm' as [_ Hm']. rewrite header_bytes_len in Hm'. change (Z.of_nat 64) with 64 in Hm'.
  split; [apply Hh|]. unfold image_get_kernel. rewrite (at_magic _ _ _ _ _ Hh), (at_hcrc _ _ _ _ _ Hh).
  cbn [mbind option_bind negb]. unfold image_print_contents. rewrite (at_type _ _ _ _ _ Hh), Htk. cbn [mbind option_bind].
  change ((u8 IH_TYPE_KERNEL =? IH_TYPE_MULTI) || _) with false. cbn iota. cbn [mbind option_bind].
  destruct (Z.eqb_spec v 0); [done|]. cbn [negb].
  rewrite (check_dcrc_ok m a p body' time (zlen body) (u32 dcrc) Hh Hd Hm') by (done || lia || by apply put_bytes).
  rewrite Hdc, crc32_reg by done. cbn [mbind option_bind].
  destruct (Z.eqb_spec (crc32 0 (a + 64) body') (crc32 0 (ptr + 64) body)) as [E|]; [|done].
  exfalso. revert E. apply (crc32_put _ _ [] body (k - 64) w); try done; [lia|]. intros E. apply Hne. unfold body'. by rewrite E.
Qed.
End damaged.

(** C4: When one run of at most four consecutive bytes of a good image has changed, all of them in the magic
    number and the checksum of the header, all in the rest of the header, or, for a kernel image
    and as long as [verify] is not set to no, all in the data, [bootm] returns 1 and has written
    nothing to the memory.  Nothing is said of changes in several places or of longer ones. *)
Theorem bootm_damaged {Hooks : EnvHooks} {Dec : Decompressors} {B : Board}
    default_environment CONFIG_ENV_SIZE malloc_ok load_addr hcopy do_bootm_other mch M arg m0 a ptr time p files k w
    (Hready : env_ready (env mch) = true) (Hrep : rep (env_htab (env mch)) M)
    (Harg : simple_strtoul arg 16 = (a, [])) (Hmade : made_image m0 a ptr time p files)
    (Hw : Forall byte w) (H4 : (length w <= 4)%nat)
    (Hne : put (mkimage ptr time p files) k w <> mkimage ptr time p files)
    (Hk : (k + length w <= 8)%nat \/ (8 <= k /\ k + length w <= 64)%nat
          \/ (64 <= k /\ k + length w <= length (mkimage ptr time p files))%nat /\ type p = IH_TYPE_KERNEL
             /\ ~ (exists s, M !! codes "verify" = Some s /\ chr s ∉ codes "1yYtT"))
    (Hram : ram mch = mwrite m0 (a + Z.of_nat k) w) :
  exists i, do_bootm default_environment CONFIG_ENV_SIZE malloc_ok load_addr hcopy do_bootm_other [arg] mch
    = Some (ret 1, with_images mch i).
Proof.
  destruct (verify_ok default_environment CONFIG_ENV_SIZE (env mch) M Hready Hrep) as (v & Hv & Hv0).
  assert (exists ok, image_check_magic (ram mch) a = Some ok
    /\ (ok = true -> image_get_kernel hcopy (ram mch) a v = Some 0)) as (ok & Hm & Hg).
  { rewrite Hram. destruct Hk as [Hk|[Hk|(Hk & Ht & Hver)]].
    - apply (header_damaged m0 a ptr time p files Hmade k w Hw H4 Hne). by left.
    - apply (header_damaged m0 a ptr time p files Hmade k w Hw H4 Hne). by right.
    - exists true. destruct (data_damaged m0 a ptr time p files Hmade k w Hw H4 Hne hcopy v Hk Ht) as [H1 H2];
        [by rewrite Hv0|]. by split. }
  exists (set_os_data (started v) 0 0). unfold do_bootm. rewrite Harg.
  change (negb (chr (snd (a, [])) =? 0) && _ && _) with false. cbn iota.
  rewrite (states_find_fails default_environment CONFIG_ENV_SIZE malloc_ok load_addr hcopy do_bootm_other mch [arg] v Hv
    (set_os_data (started v) 0 0)); [done|].
  apply (find_os_bad _ a hcopy load_addr [arg] (started v) ok Hm); [cbn; by rewrite Harg|exact Hg].
Qed.

(** ** Instances *)
#[local] Instance no_dec : Decompressors := {|
  gunzip m _ _ _ _ := Some (1, m, 0); lzmaBuffToBuffDecompress m _ _ _ _ := Some (1, m, 0);
  lzop_decompress m _ _ _ _ := Some (1, m, 0) |}.
#[local] Instance a_board : Board := {| ram_size := 0x4000000; bi_flashstart := 0; bi_flashsize := 0 |}.
Definition boot_var : gmap (list Z) (list Z) := <[codes "bootargs" := codes "console=ttyS1 quiet"]> ∅.
Definition boot_table : hsearch_data := enter "bootargs" "console=ttyS1 quiet" fresh11.
Lemma boot_table_rep : rep boot_table boot_var.
Proof.
  destruct (enter_ok fresh11 ∅ (codes "bootargs") (codes "console=ttyS1 quiet") 0) as (r & Hr & Hent & Hacc);
    [apply fresh11_rep|by repeat constructor|left; apply fresh11_rep|done|done|].
  assert (tab r = boot_table) as Ht by (unfold boot_table, enter; by rewrite Hr).
  destruct Hent as [(_ & Hrep & _)|(_ & _ & He & _)].
  - by rewrite <- Ht.
  - rewrite Hacc in He by (by split). by destruct He.
Qed.
(** A system and a ramdisk at [0x80600000], and memory at the load address. *)
Definition a_params : mkimage_params :=
  mk_params 0x80010000 0x80010400 IH_OS_LINUX IH_ARCH_MIPS IH_TYPE_MULTI IH_COMP_NONE (codes "Linux").
Definition a_file : list Z := mkimage 0 1700000000 a_params [[1; 2; 3; 4; 5]; [9; 8; 7]].
Definition a_ram : mem := mwrite (mwrite ∅ 0x80010000 (replicate 16 0)) 0x80600000 a_file.
Definition a_machine (r : mem) : machine := mk_machine r (mkgenv true true [] boot_table 0) no_images [] [].
Lemma a_made : made_image a_ram 0x80600000 0 1700000000 a_params [[1; 2; 3; 4; 5]; [9; 8; 7]].
Proof.
  split; [by_computation|by_computation|by_computation|by right|done|done|done|by vm_compute|apply bytes_at_mwrite].
Qed.
Lemma bootm_boots_witness : exists i envs,
  do_bootm [] 0 (fun _ => true) 0 0 (fun _ _ _ => None) [codes "80600000"] (a_machine a_ram)
  = Some (theKernel 0x80010400 [codes "console=ttyS1"; codes "quiet"] envs,
          mk_machine (mwrite a_ram 0x80010000 [1; 2; 3; 4; 5]) (mkgenv true true [] boot_table 0) i
            [codes "console=ttyS1"; codes "quiet"] envs)
  /\ linux_environment boot_var (0x80600054, 0x80600057) envs.
Proof.
  destruct (bootm_boots [] 0 (fun _ => true) 0 0 (fun _ _ _ => None) (a_machine a_ram) boot_var (codes "80600000")
    0x80600000 0 1700000000 a_params [[1; 2; 3; 4; 5]; [9; 8; 7]]) as (i & envs & Hb & He & _);
    [done|exact boot_table_rep|by vm_compute|exact a_made|by vm_compute| |done|].
  - change (u32 (addr a_params)) with 0x80010000. apply allocated_mwrite.
    apply (bytes_at_allocated _ _ (replicate 5 0)). apply (bytes_at_take _ _ 5 (replicate 16 0)).
    apply bytes_at_mwrite.
  - exists i, envs. change (ramdisk_of _ _ _) with (0x80600054, 0x80600057) in He. split; [|exact He].
    assert (args_of (boot_var !! codes "bootargs") = [codes "console=ttyS1"; codes "quiet"]) as Ha by by vm_compute.
    rewrite Ha in Hb. exact Hb.
Defined.
(** One byte of the time in the header has changed. *)
Lemma bootm_damaged_witness : exists i,
  do_bootm [] 0 (fun _ => true) 0 0 (fun _ _ _ => None) [codes "80600000"] (a_machine (mwrite a_ram 0x8060000a [255]))
  = Some (ret 1, with_images (a_machine (mwrite a_ram 0x8060000a [255])) i).
Proof.
  apply (bootm_damaged [] 0 (fun _ => true) 0 0 (fun _ _ _ => None) (a_machine (mwrite a_ram 0x8060000a [255]))
    boot_var (codes "80600000") a_ram 0x80600000 0 1700000000 a_params [[1; 2; 3; 4; 5]; [9; 8; 7]] 10 [255]);
    [done|exact boot_table_rep|by vm_compute|exact a_made|by_computation|cbn; lia| |right; left; cbn; lia|done].
  by_computation.
Defined.

(** ** Observations *)
Section observations.
Context {Hooks : EnvHooks} {Dec : Decompressors} {B : Board}.
Context (default_environment : list Z) (CONFIG_ENV_SIZE : Z) (malloc_ok : Z -> bool) (load_addr hcopy : Z).
Context (do_bootm_other : Z -> Z -> machine -> option (outcome * machine)).
(** The entry point of a standalone program is swapped although [image_get_ep] gave it in the order of
    the machine: with an entry at [0x80010400] the program is called at [0x00040180]. *)
Lemma standalone_entry_swapped m M : env_ready (env m) = true -> rep (env_htab (env m)) M ->
  M !! codes "autostart" = None -> Bootm.ep (images m) = 0x80010400 ->
  bootm_start_standalone default_environment CONFIG_ENV_SIZE malloc_ok m = Some (standalone 0x00040180, m).
Proof.
  intros Hr Hrep Ha Hep. unfold bootm_start_standalone. rewrite (getenv_ok _ _ _ M) by (done || by apply name_ok).
  by rewrite Ha, Hep.
Qed.
(** The byte of the header that names the system indexes [boot_os] unchecked: behind the 24
    entries of the array the pointer to the function is read from whatever follows. *)
Lemma boot_os_unchecked o : 24 <= o < 256 -> boot_os default_environment CONFIG_ENV_SIZE do_bootm_other o = None.
Proof. intros Ho. unfold boot_os, IH_OS_PLAN9. by destruct (Z.ltb_spec 23 o); [|lia]. Qed.
(** After [bootm loados] a new [bootm start] is refused, as out of order: its state is compared after
    the later states were added to it. *)
Lemma start_refused m argv : 7 <= Bootm.state (images m) ->
  do_bootm_subcommand default_environment CONFIG_ENV_SIZE malloc_ok load_addr hcopy do_bootm_other
    (codes "start" :: argv) m = Some (ret CMD_RET_USAGE, m).
Proof.
  intros Hs. unfold do_bootm_subcommand. replace (find_cmd_sub (codes "start")) with (Some BOOTM_STATE_START) by by vm_compute.
  change (BOOTM_STATE_START =? BOOTM_STATE_START) with true. cbn iota.
  change (BOOTM_STATE_START .| BOOTM_STATE_FINDOS .| BOOTM_STATE_FINDOTHER) with 7.
  change (negb (7 =? BOOTM_STATE_START)) with true. destruct (Z.leb_spec 7 (Bootm.state (images m))); [done|lia].
Qed.
End observations.
