(* ===== verification/Part.v ===== *)
(** * Partitions of a block device: [disk/part_dos.c], [disk/part.c]

    The tables of partitions in the first sector of a disk and in the chain of extended
    partitions, the search for one partition by its number, and the way from a name such as
    [mmc 0:1] to a device and a partition.  The device is an interface, [BlockDevice]. *)
From S2P Require Import Prelude Ctype CStr Vsprintf EnvAttr.

Definition DOS_PART_TBL_OFFSET : nat := 0x1be.
Definition DOS_PART_MAGIC_OFFSET : nat := 0x1fe.
Definition DOS_PBR_FSTYPE_OFFSET : nat := 0x36.
Definition DOS_PBR32_FSTYPE_OFFSET : nat := 0x52.
Definition DOS_MBR : Z := 0.
Definition DOS_PBR : Z := 1.
Definition IF_TYPE_IDE : Z := 1.
Definition IF_TYPE_SCSI : Z := 2.
Definition IF_TYPE_ATAPI : Z := 3.
Definition IF_TYPE_USB : Z := 4.
Definition IF_TYPE_DOC : Z := 5.
Definition IF_TYPE_MMC : Z := 6.
Definition IF_TYPE_SATA : Z := 8.
Definition PART_TYPE_UNKNOWN : Z := 0.
Definition PART_TYPE_DOS : Z := 2.
Definition DEV_TYPE_UNKNOWN : Z := 0xff.
Definition BOOT_PART_TYPE : list Z := codes "U-Boot".

Record block_dev_desc := mk_desc {
  if_type : Z; dev : Z; part_type : Z; type : Z; lba : Z; blksz : Z; log2blksz : Z }.
(** [disk_partition_t]; the name and the type without their NUL. *)
Record disk_partition := mk_part {
  start : Z; size : Z; part_blksz : Z; name : list Z; ptype : list Z; bootable : Z }.

(** A block device, [block_read] with the number of blocks read; and its driver, the function in
    [block_drvr] for [mmc] with [None] for [NULL]. *)
Class BlockReader (D : Type) := { block_read : D -> Z -> Z -> option (Z * D * list Z) }.
Class BlockDevice (D : Type) := {
  reader :: BlockReader D;
  mmc_get_dev : D -> Z -> option (D * option block_dev_desc) }.

(** ** Tables *)
(** [struct dos_partition] at an offset of the buffer: the fields that are used. *)
Record dos_partition := mk_entry { boot_ind : Z; sys_ind : Z; start4 : Z; size4 : Z }.
Definition le32_to_int (buf : list Z) (off : nat) : option Z :=
  b0 ← buf !! off; b1 ← buf !! (off + 1)%nat; b2 ← buf !! (off + 2)%nat; b3 ← buf !! (off + 3)%nat;
  Some (s32 ((b3 ≪ 24) + (b2 ≪ 16) + (b1 ≪ 8) + b0)).
Definition entry_at (buf : list Z) (slot : nat) : option dos_partition :=
  let off := (DOS_PART_TBL_OFFSET + 16 * slot)%nat in
  b ← buf !! off; s ← buf !! (off + 4)%nat; st ← le32_to_int buf (off + 8); sz ← le32_to_int buf (off + 12);
  Some (mk_entry b s st sz).
Definition entries (buf : list Z) : option (list dos_partition) :=
  e0 ← entry_at buf 0; e1 ← entry_at buf 1; e2 ← entry_at buf 2; e3 ← entry_at buf 3; Some [e0; e1; e2; e3].
Definition is_extended (part_type : Z) : bool := (part_type =? 0x5) || (part_type =? 0xf) || (part_type =? 0x85).
Definition is_bootable (p : dos_partition) : bool := boot_ind p =? 0x80.
(** The signature behind the table. *)
Definition magic (buf : list Z) : option bool :=
  m0 ← buf !! DOS_PART_MAGIC_OFFSET; m1 ← buf !! (DOS_PART_MAGIC_OFFSET + 1)%nat;
  Some ((m0 =? 0x55) && (m1 =? 0xaa)).
Definition test_block_type (buf : list Z) : option Z :=
  ok ← magic buf;
  if negb ok then Some (-1)
  else
    (* the pointer stays at the first slot: the three rounds of the loop test the same entry *)
    e ← entry_at buf 0;
    if negb (boot_ind e =? 0) && negb (boot_ind e =? 0x80) then
      if (strncmp 3 (drop DOS_PBR_FSTYPE_OFFSET buf) (codes "FAT") =? 0)
         || (strncmp 5 (drop DOS_PBR32_FSTYPE_OFFSET buf) (codes "FAT32") =? 0)
      then Some DOS_PBR else Some (-1)
    else Some DOS_MBR.

Section device.
Context {D : Type} {Reader : BlockReader D}.

Definition test_part_dos (d : D) : option (Z * D) :=
  '(n, d, buf) ← block_read d 0 1;
  if negb (n =? 1) then Some (-1, d)
  else t ← test_block_type buf; Some (if t =? DOS_MBR then 0 else -1, d).

(** The names of partitions. *)
Definition part_name (desc : block_dev_desc) (part_num : Z) : option (list Z) :=
  let args := [VInt (97 + dev desc); VInt part_num] in
  if (if_type desc =? IF_TYPE_IDE) || (if_type desc =? IF_TYPE_SATA) || (if_type desc =? IF_TYPE_ATAPI)
  then sprintf "hd%c%d" args
  else if if_type desc =? IF_TYPE_SCSI then sprintf "sd%c%d" args
  else if if_type desc =? IF_TYPE_USB then sprintf "usbd%c%d" args
  else if if_type desc =? IF_TYPE_DOC then sprintf "docd%c%d" args
  else sprintf "xx%c%d" args.
(** A slot that is the partition looked for. *)
Definition wanted (e : dos_partition) (part_num which_part : Z) : bool :=
  (boot_ind e .& Z.lnot 0x80 =? 0) && negb (sys_ind e =? 0) && (part_num =? which_part)
  && negb (is_extended (sys_ind e)).
(** Whether a slot takes a number. *)
Definition counted (ext_part_sector : Z) (e : dos_partition) : bool :=
  (ext_part_sector =? 0) || negb (sys_ind e =? 0) && negb (is_extended (sys_ind e)).
(** The loop over the slots: the slot found, or the next number. *)
Fixpoint slot_loop (ext_part_sector : Z) (pts : list dos_partition) (part_num which_part : Z)
    : dos_partition + Z :=
  match pts with
  | [] => inr part_num
  | pt :: pts =>
      if wanted pt part_num which_part then inl pt
      else slot_loop ext_part_sector pts (if counted ext_part_sector pt then s32 (part_num + 1) else part_num) which_part
  end.
Definition fill_info (desc : block_dev_desc) (ext_part_sector which_part : Z) (pt : dos_partition)
    : option disk_partition :=
  nm ← part_name desc which_part;
  Some (mk_part (u32 (ext_part_sector + start4 pt)) (u32 (size4 pt)) 512 nm BOOT_PART_TYPE
          (if is_bootable pt then 1 else 0)).
(** The first slot with an extended partition. *)
Definition next_table (pts : list dos_partition) (relative : Z) : option Z :=
  (fun pt => s32 (start4 pt + relative)) <$> head (filter (fun pt => is_extended (sys_ind pt) = true) pts).
(** The recursion has no bound in the code; [fuel] is the number of tables that are read. *)
Fixpoint get_partition_info_extended (fuel : nat) (desc : block_dev_desc) (d : D)
    (ext_part_sector relative part_num which_part : Z) (info : disk_partition) : option (Z * disk_partition * D) :=
  match fuel with
  | O => None
  | S fuel =>
      '(n, d, buf) ← block_read d (u32 ext_part_sector) 1;
      if negb (n =? 1) then Some (-1, info, d)
      else
        ok ← magic buf;
        if negb ok then Some (-1, info, d)
        else
          pts ← entries buf;
          match slot_loop ext_part_sector pts part_num which_part with
          | inl pt => info ← fill_info desc ext_part_sector which_part pt; Some (0, info, d)
          | inr part_num =>
              match next_table pts relative with
              | Some lba_start =>
                  get_partition_info_extended fuel desc d lba_start
                    (if ext_part_sector =? 0 then lba_start else relative) part_num which_part info
              | None => Some (-1, info, d)
              end
          end
  end.
Definition get_partition_info_dos (fuel : nat) (desc : block_dev_desc) (d : D) (part : Z) (info : disk_partition)
    : option (Z * disk_partition * D) :=
  get_partition_info_extended fuel desc d 0 0 1 part info.

(** ** [disk/part.c] *)
Definition init_part (desc : block_dev_desc) (d : D) : option (block_dev_desc * D) :=
  '(r, d) ← test_part_dos d;
  let t := if r =? 0 then PART_TYPE_DOS else PART_TYPE_UNKNOWN in
  Some (mk_desc (if_type desc) (dev desc) t (type desc) (lba desc) (blksz desc) (log2blksz desc), d).
Definition get_partition_info (fuel : nat) (desc : block_dev_desc) (d : D) (part : Z) (info : disk_partition)
    : option (Z * disk_partition * D) :=
  if part_type desc =? PART_TYPE_DOS then
    '(r, info, d) ← get_partition_info_dos fuel desc d part info; Some (if r =? 0 then 0 else -1, info, d)
  else Some (-1, info, d).
Definition PART_UNSPECIFIED : Z := -2.
Definition PART_AUTO : Z := -1.
Definition MAX_SEARCH_PARTITIONS : Z := 16.
(** The loop for [auto]: [part], [p], [*info] and [tmpinfo]; [ps] are the numbers left. *)
Fixpoint auto_loop (fuel : nat) (desc : block_dev_desc) (d : D) (ps : list Z) (part : Z)
    (info tmpinfo : disk_partition) : option (Z * Z * disk_partition * disk_partition * D) :=
  match ps with
  | [] => Some (part, MAX_SEARCH_PARTITIONS + 1, info, tmpinfo, d)
  | p :: ps =>
      '(ret, info, d) ← get_partition_info fuel desc d p info;
      if negb (ret =? 0) then auto_loop fuel desc d ps part info tmpinfo
      else
        let part := if (part =? 0) || negb (bootable info =? 0) then p else part in
        if negb (bootable info =? 0) then Some (part, p, info, tmpinfo, d)
        else auto_loop fuel desc d ps part info (if part =? p then info else tmpinfo)
  end.
(** A partition of the table: the error and the number. *)
Definition find_part (fuel : nat) (desc : block_dev_desc) (d : D) (part : Z) (info : disk_partition)
    : option (Z * Z * disk_partition * D) :=
  let part := if part =? PART_UNSPECIFIED then 1 else part in
  if negb (part =? PART_AUTO) then
    '(ret, info, d) ← get_partition_info fuel desc d part info; Some (ret, part, info, d)
  else
    '(part, p, info, tmpinfo, d) ← auto_loop fuel desc d (seqZ 1 MAX_SEARCH_PARTITIONS) 0 info info;
    if negb (part =? 0) then Some (0, part, if p =? MAX_SEARCH_PARTITIONS + 1 then tmpinfo else info, d)
    else Some (-1, part, info, d).
End device.

Section drivers.
Context {D : Type} {Dev : BlockDevice D}.
(** [block_drvr] has one entry. *)
Definition get_dev (d : D) (ifname : list Z) (dev : Z) : option (D * option block_dev_desc) :=
  if strncmp 3 ifname (codes "mmc") =? 0 then mmc_get_dev d dev else Some (d, None).
(** The result and [*dev_desc]. *)
Definition get_device (d : D) (ifname dev_str : list Z) : option (Z * option block_dev_desc * D) :=
  let '(v, ep) := simple_strtoul dev_str 16 in
  let dev := s32 v in
  if negb (chr ep =? 0) then Some (-1, None, d)
  else
    '(d, desc) ← get_dev d ifname dev;
    match desc with
    | None => Some (-1, None, d)
    | Some b => if type b =? DEV_TYPE_UNKNOWN then Some (-1, Some b, d) else Some (dev, Some b, d)
    end.
Definition LOG2 (x : Z) : Z :=
  let bit (m w : Z) := if x .& m =? 0 then 0 else w in
  bit 0xaaaaaaaa 1 + bit 0xcccccccc 2 + bit 0xf0f0f0f0 4 + bit 0xff00ff00 8 + bit 0xffff0000 16.
Definition set_log2 (b : block_dev_desc) : block_dev_desc :=
  mk_desc (if_type b) (dev b) (part_type b) (type b) (lba b) (blksz b) (LOG2 (blksz b)).
(** The partition that is asked for: [None] for a bad one. *)
Definition parse_part (part_str : option (list Z)) (allow_whole_dev : bool) : option Z :=
  match part_str with
  | None | Some [] => Some PART_UNSPECIFIED
  | Some s =>
      if strcmp s (codes "auto") =? 0 then Some PART_AUTO
      else
        let '(v, ep) := simple_strtoul s 16 in
        let part := s32 v in
        if negb (chr ep =? 0) || (part =? 0) && negb allow_whole_dev then None else Some part
  end.
(** The string, or the variable [bootdevice] for a missing one. *)
Definition dev_part (dev_part_str : option (list Z)) (bootdevice : option (list Z)) : option (list Z) :=
  match dev_part_str with
  | None | Some [] => bootdevice
  | Some s => if strcmp s (codes "-") =? 0 then bootdevice else Some s
  end.
(** The two sides of the colon; [strdup] copies the string to cut it. *)
Definition split_colon (strdup : list Z -> option (list Z)) (s : list Z) : option (list Z * option (list Z)) :=
  match strchr s 58 with
  | Some n => dup ← strdup s; Some (take n dup, Some (drop (S n) s))
  | None => Some (s, None)
  end.
(** The whole device, for an unknown table or partition 0. *)
Definition whole_disk (desc : block_dev_desc) (part : Z) (allow_whole_dev : bool) (info : disk_partition)
    : Z * block_dev_desc * disk_partition :=
  if lba desc =? 0 then (-1, desc, info)
  else if (0 <? part) || negb allow_whole_dev then (-1, desc, info)
  else (0, set_log2 desc, mk_part 0 (lba desc) (blksz desc) (codes "Whole Disk") BOOT_PART_TYPE 0).
(** The result, [*dev_desc], [*info] and the device; [bootdevice] is the value of that variable. *)
Definition get_device_and_partition (strdup : list Z -> option (list Z)) (bootdevice : option (list Z)) (fuel : nat)
    (d : D) (ifname : list Z) (dev_part_str : option (list Z)) (info : disk_partition) (allow_whole_dev : bool)
    : option (Z * option block_dev_desc * disk_partition * D) :=
  if strcmp ifname (codes "host") =? 0 then
    Some (0, None, mk_part 0 0 0 (codes "Sandbox host") BOOT_PART_TYPE 0, d)
  else
    match dev_part dev_part_str bootdevice with
    | None => Some (-1, None, info, d)
    | Some s =>
        '(dev_str, part_str) ← split_colon strdup s;
        '(dev, b, d) ← get_device d ifname dev_str;
        match (if dev <? 0 then None else b) with
        | None => Some (-1, b, info, d)
        | Some desc =>
            match parse_part part_str allow_whole_dev with
            | None => Some (-1, b, info, d)
            | Some part =>
                if (part_type desc =? PART_TYPE_UNKNOWN) || (part =? 0) then
                  let '(ret, desc, info) := whole_disk desc part allow_whole_dev info in
                  Some (ret, Some desc, info, d)
                else
                  '(ret, part, info, d) ← find_part fuel desc d part info;
                  if negb (ret =? 0) then Some (ret, Some desc, info, d)
                  else if negb (strncmp 32 (ptype info) BOOT_PART_TYPE =? 0) then Some (-1, Some desc, info, d)
                  else Some (part, Some (set_log2 desc), info, d)
            end
        end
    end.
End drivers.

(** ** What a device promises *)
(** The content of a block, [None] where a read fails, as long as the device works. *)
Class BlockDeviceLaws (D : Type) {Reader : BlockReader D} := {
  sector : D -> Z -> option (list Z);
  works : D -> Prop;
  block_read_law d s n : works d -> 0 <= s < 0x100000000 -> 0 <= n -> n = 1 \/ s + n < 0x100000000 ->
    exists r d' buf, block_read d s n = Some (r, d', buf)
      /\ (forall i, sector d' i = sector d i) /\ works d'
      /\ (r = n -> exists bufs, map (sector d) (seqZ s n) = map Some bufs /\ buf = concat bufs)
      /\ ((forall i, s <= i < s + n -> is_Some (sector d i)) -> r = n) }.
