(* ===== verification/PartSpec.v ===== *)
(** * The partitions that are found

    The tables of a disk as a relation, the numbers its partitions get, and that the search finds
    them; that the search ends unless the chain of tables has a cycle; and the memory card as a
    block device. *)
From S2P Require Import Prelude Ctype Mem CStr Vsprintf VsprintfSpec EnvAttr Store Mmc Part.

(** ** Reading one block *)
Section spec.
Context {D : Type} {Reader : BlockReader D} {Laws : BlockDeviceLaws D}.
Definition same_disk (d d' : D) : Prop := forall i, sector d' i = sector d i.
#[export] Instance same_disk_equiv : Equivalence same_disk.
Proof. split; [by intros d i|intros d e H i; by rewrite H|intros d e f H1 H2 i; by rewrite H2, H1]. Qed.

Lemma read_one d s : works d -> 0 <= s < 0x100000000 -> exists r d' buf, block_read d s 1 = Some (r, d', buf)
  /\ same_disk d d' /\ works d' /\ (r = 1 -> sector d s = Some buf) /\ (is_Some (sector d s) -> r = 1).
Proof.
  intros Hw Hs. destruct (block_read_law d s 1 Hw Hs ltac:(lia) ltac:(by left)) as (r & d' & buf & Hr & Hsame & Hw' & Hd & Hall).
  exists r, d', buf. split_and!; try done.
  - intros H. destruct (Hd H) as (bufs & Hm & ->). replace (seqZ s 1) with [s] in Hm by (rewrite seqZ_cons by lia; done).
    destruct bufs as [|b [|? ?]]; try done. cbn in Hm. injection Hm as Hm. rewrite Hm. cbn. by rewrite app_nil_r.
  - intros H. apply Hall. intros i Hi. by replace i with s by lia.
Qed.

(** ** The tables of a disk *)
(** The tables from sector [s] on, each with its sector; [relative] is the first extended partition. *)
Inductive tables (d : D) : Z -> Z -> list (Z * list dos_partition) -> Prop :=
| tables_end s relative : sector d (u32 s) = None -> tables d s relative []
| tables_bad s relative buf : sector d (u32 s) = Some buf -> magic buf = Some false -> tables d s relative []
| tables_last s relative buf pts : sector d (u32 s) = Some buf -> magic buf = Some true -> entries buf = Some pts ->
    next_table pts relative = None -> tables d s relative [(s, pts)]
| tables_next s relative buf pts s' ts : sector d (u32 s) = Some buf -> magic buf = Some true -> entries buf = Some pts ->
    next_table pts relative = Some s' -> tables d s' (if s =? 0 then s' else relative) ts ->
    tables d s relative ((s, pts) :: ts).
(** The slots with a number, in the order of their numbers: the four of the first sector, and those
    with a logical partition in the chain. *)
Definition slots_of (t : Z * list dos_partition) : list (Z * dos_partition) :=
  map (pair t.1) (filter (fun e => counted t.1 e = true) t.2).
Definition slots (ts : list (Z * list dos_partition)) : list (Z * dos_partition) := concat (map slots_of ts).
Definition usable (e : dos_partition) : bool :=
  (boot_ind e .& Z.lnot 0x80 =? 0) && negb (sys_ind e =? 0) && negb (is_extended (sys_ind e)).
(** The partition with a number. *)
Definition partition (l : list (Z * dos_partition)) (n : Z) : option (Z * dos_partition) :=
  if 1 <=? n then
    match l !! Z.to_nat (n - 1) with Some (s, e) => if usable e then Some (s, e) else None | None => None end
  else None.

Lemma usable_counted s e : usable e = true -> counted s e = true.
Proof. unfold usable, counted. destruct (s =? 0), (sys_ind e =? 0), (is_extended _), (_ =? 0); done. Qed.
Lemma wanted_usable e k n : wanted e k n = usable e && (k =? n).
Proof. unfold wanted, usable. destruct (_ =? 0), (negb _), (_ =? _), (negb _); done. Qed.
(** What a table adds to the search. *)
Lemma slot_loop_ok s n : forall pts k l, 1 <= k -> k + zlen (slots_of (s, pts) ++ l) < 0x80000000 ->
  let sl := slots_of (s, pts) in
  match slot_loop s pts k n with
  | inl pt => partition (sl ++ l) (n - k + 1) = Some (s, pt) /\ k <= n
  | inr k' => k' = k + zlen sl /\ partition (sl ++ l) (n - k + 1) = partition l (n - k' + 1)
  end.
Proof.
  induction pts as [|e pts IH]; intros k l Hk Hb; cbn [slot_loop].
  { cbn. split; [lia|done]. }
  rewrite wanted_usable. unfold slots_of in *. cbn [fst snd] in *. rewrite filter_cons in *.
  destruct (decide (counted s e = true)) as [Hc|Hc].
  - cbn [map app] in *. rewrite Hc. cbn [length] in Hb.
    rewrite s32_small by lia. specialize (IH (k + 1) l ltac:(lia) ltac:(lia)). cbn zeta in IH |- *.
    assert (forall l' k', n < k' -> partition l' (n - k' + 1) = None) as Hlow
      by (intros l' k' Hk'; unfold partition; by destruct (Z.leb_spec 1 (n - k' + 1)); [lia|]).
    destruct (Z.eqb_spec k n) as [->|Hkn]; [|rewrite andb_false_r].
    + assert (forall l', partition ((s, e) :: l') (n - n + 1) = if usable e then Some (s, e) else None) as Hp
        by (intros; replace (n - n + 1) with 1 by lia; done).
      rewrite Hp, andb_true_r. destruct (usable e); [done|]. destruct (slot_loop s pts (n + 1) n); [lia|].
      destruct IH as [-> _]. cbn [length]. split; [lia|]. by rewrite Hlow by lia.
    + assert (forall l', partition ((s, e) :: l') (n - k + 1) = partition l' (n - (k + 1) + 1)) as Hp.
      { intros l'. unfold partition. destruct (Z.leb_spec 1 (n - k + 1)), (Z.leb_spec 1 (n - (k + 1) + 1)); try (lia || done).
        replace (Z.to_nat (n - k + 1 - 1)) with (S (Z.to_nat (n - (k + 1) + 1 - 1))) by lia. done. }
      rewrite Hp. destruct (slot_loop s pts (k + 1) n); [destruct IH; split; [done|lia]|].
      destruct IH as [-> ->]. cbn [length]. split; [lia|done].
  - assert (usable e = false) as -> by (destruct (usable e) eqn:E; [by apply (usable_counted s) in E|done]).
    apply not_true_is_false in Hc. rewrite Hc. cbn [andb]. by apply IH.
Qed.

(** The name of a partition can always be printed. *)
Lemma name_tail n a b str stores : exists out,
  vsnprintf_loop (S (S (S n))) (codes "%c%d") [VInt a; VInt b] str stores = Some (out, stores).
Proof.
  destruct (number_closed (u64 (s32 b)) 10 (-1) (-1) SIGN ltac:(by right; left) (u64_range _))
    as (ds & lead & fill & zeros & trail & _ & Hn & _).
  eexists. etransitivity.
  - assert (vsnprintf_loop (S (S (S n))) (codes "%c%d") [VInt a; VInt b] str stores
      = (out ← number (u64 (s32 b)) 10 (-1) (-1) SIGN; Some ((str ++ put_char a (-1) 0) ++ out, stores))) as ->; [|by rewrite Hn].
    cbv -[number u64 s32 put_char app]. by destruct (number _ _ _ _ _).
  - reflexivity.
Qed.
Lemma name_some f p a b : codes f = p ++ codes "%c%d" -> forallb (fun c => negb (c =? 37)) p = true ->
  is_Some (sprintf f [VInt a; VInt b]).
Proof.
  intros Hf Hp. unfold sprintf, vsnprintf_internal. rewrite Hf. clear Hf.
  assert (forall str, exists out, vsnprintf_loop (S (length (p ++ codes "%c%d"))) (p ++ codes "%c%d") [VInt a; VInt b] str []
    = Some (out, [])) as Hall; [|destruct (Hall []) as [out ->]; by eexists].
  induction p as [|c p IH]; intros str; [by apply name_tail|]. cbn [forallb] in Hp. apply andb_true_iff in Hp as [Hc Hp].
  cbn [app length vsnprintf_loop]. rewrite Hc. by apply IH.
Qed.
Lemma part_name_some desc n : is_Some (part_name desc n).
Proof.
  unfold part_name. repeat case_match.
  - by apply (name_some _ (codes "hd")).
  - by apply (name_some _ (codes "sd")).
  - by apply (name_some _ (codes "usbd")).
  - by apply (name_some _ (codes "docd")).
  - by apply (name_some _ (codes "xx")).
Qed.

(** ** The search *)
(** What [info] holds for a slot of the table at sector [s]. *)
Definition is_info (desc : block_dev_desc) (n s : Z) (e : dos_partition) (info : disk_partition) : Prop :=
  part_name desc n = Some (name info)
  /\ info = mk_part (u32 (s + start4 e)) (u32 (size4 e)) 512 (name info) BOOT_PART_TYPE (if is_bootable e then 1 else 0).
(** The answer to a search for a number. *)
Definition answer (desc : block_dev_desc) (n : Z) (p : option (Z * dos_partition)) (info : disk_partition)
    (r : Z) (info' : disk_partition) : Prop :=
  match p with Some (s, e) => r = 0 /\ is_info desc n s e info' | None => r = -1 /\ info' = info end.

Lemma tables_same d d' s relative ts : same_disk d d' -> tables d s relative ts -> tables d' s relative ts.
Proof.
  intros Hs. induction 1; [apply tables_end|eapply tables_bad|eapply tables_last|eapply tables_next]; rewrite ?Hs; eauto.
Qed.
Lemma extended_ok desc n info d0 s relative ts : tables d0 s relative ts ->
  forall fuel d k, same_disk d0 d -> works d -> (length ts < fuel)%nat -> 1 <= k -> k + zlen (slots ts) < 0x80000000 ->
  exists r info' d', get_partition_info_extended fuel desc d s relative k n info = Some (r, info', d')
    /\ same_disk d0 d' /\ works d' /\ answer desc n (partition (slots ts) (n - k + 1)) info r info'.
Proof.
  assert (forall l, partition [] l = None) as Hnil by (intros l; unfold partition; by destruct (1 <=? l)).
  induction 1 as [s relative Hsec|s relative buf Hsec Hmag|s relative buf pts Hsec Hmag Hent Hnext
    |s relative buf pts s' ts Hsec Hmag Hent Hnext _ IH];
    intros fuel d k Hsame Hw Hf Hk Hb; (destruct fuel as [|fuel]; [cbn in Hf; lia|]); cbn [get_partition_info_extended];
    destruct (read_one d (u32 s) Hw (u32_range s)) as (r & d1 & buf' & -> & Hd1 & Hw1 & Hr & Hr1); cbn [mbind option_bind]; rewrite (Hsame (u32 s)) in Hr, Hr1; rewrite Hsec in Hr, Hr1;
    (assert (same_disk d0 d1) as Hs1 by (by etransitivity)).
  - destruct (Z.eqb_spec r 1) as [->|]; [by specialize (Hr eq_refl)|]. cbn [negb].
    exists (-1), info, d1. rewrite Hnil. done.
  - assert (r = 1) as -> by (apply Hr1; by eexists). injection (Hr eq_refl) as <-. rewrite Hmag. cbn [mbind option_bind].
    change (negb (1 =? 1)) with false. cbn iota. exists (-1), info, d1. rewrite Hnil. done.
  - assert (r = 1) as -> by (apply Hr1; by eexists). injection (Hr eq_refl) as <-. rewrite Hmag, Hent. cbn [mbind option_bind].
    change (negb (1 =? 1)) with false. cbn iota. unfold slots in Hb |- *. cbn [map concat] in Hb |- *.
    pose proof (slot_loop_ok s n pts k [] Hk Hb) as Hsl. cbn zeta in Hsl.
    destruct (slot_loop s pts k n) as [pt|k'].
    + destruct Hsl as [-> Hkn]. unfold fill_info. destruct (part_name_some desc n) as [nm Hnm].
      rewrite Hnm. cbn [mbind option_bind]. do 3 eexists. split; [done|]. done.
    + destruct Hsl as [-> ->]. rewrite Hnext. exists (-1), info, d1. rewrite Hnil. done.
  - assert (r = 1) as -> by (apply Hr1; by eexists). injection (Hr eq_refl) as <-. rewrite Hmag, Hent. cbn [mbind option_bind].
    change (negb (1 =? 1)) with false. cbn iota. change (slots ((s, pts) :: ts)) with (slots_of (s, pts) ++ slots ts) in Hb |- *.
    pose proof (slot_loop_ok s n pts k (slots ts) Hk Hb) as Hsl. cbn zeta in Hsl. rewrite length_app in Hb.
    destruct (slot_loop s pts k n) as [pt|k'].
    + destruct Hsl as [-> Hkn]. unfold fill_info. destruct (part_name_some desc n) as [nm Hnm].
      rewrite Hnm. cbn [mbind option_bind]. do 3 eexists. split; [done|]. done.
    + destruct Hsl as [-> ->]. rewrite Hnext. apply IH; [done|done|cbn in Hf; lia|lia|lia].
Qed.
(** The partitions of a disk, and a device that works. *)
Record has_tables (d : D) (ts : list (Z * list dos_partition)) (fuel : nat) : Prop := {
  ht_tables : tables d 0 0 ts;
  ht_fuel : (length ts < fuel)%nat;
  ht_size : zlen (slots ts) < 0x7fffffff }.
Lemma get_dos_ok desc n info d0 d ts fuel : has_tables d0 ts fuel -> same_disk d0 d -> works d ->
  exists r info' d', get_partition_info_dos fuel desc d n info = Some (r, info', d')
    /\ same_disk d0 d' /\ works d' /\ answer desc n (partition (slots ts) n) info r info'.
Proof.
  intros [Ht Hf Hs] Hd Hw. destruct (extended_ok desc n info d0 0 0 ts Ht fuel d 1 Hd Hw Hf ltac:(lia) ltac:(lia))
    as (r & info' & d' & Hr & H1 & H2 & Ha). exists r, info', d'. replace (n - 1 + 1) with n in Ha by lia. done.
Qed.
Lemma get_info_ok desc n info d0 d ts fuel : has_tables d0 ts fuel -> same_disk d0 d -> works d ->
  part_type desc = PART_TYPE_DOS ->
  exists r info' d', get_partition_info fuel desc d n info = Some (r, info', d')
    /\ same_disk d0 d' /\ works d' /\ answer desc n (partition (slots ts) n) info r info'.
Proof.
  intros Ht Hd Hw Hp. unfold get_partition_info. rewrite Hp. change (PART_TYPE_DOS =? PART_TYPE_DOS) with true. cbn iota.
  destruct (get_dos_ok desc n info d0 d ts fuel Ht Hd Hw) as (r & info' & d' & -> & H1 & H2 & Ha).
  cbn [mbind option_bind]. exists r, info', d'.
  assert ((if r =? 0 then 0 else -1) = r) as ->; [|done].
  destruct (partition (slots ts) n) as [[s e]|]; destruct Ha as [-> _]; done.
Qed.

(** ** Automatic choice *)
Definition valid (l : list (Z * dos_partition)) (p : Z) : bool := bool_decide (is_Some (partition l p)).
Definition boots (l : list (Z * dos_partition)) (p : Z) : bool :=
  match partition l p with Some (_, e) => is_bootable e | None => false end.
(** The first bootable partition, or else the first one. *)
Definition auto_choice (l : list (Z * dos_partition)) (ps : list Z) : option Z :=
  match List.find (boots l) ps with Some p => Some p | None => List.find (valid l) ps end.

Lemma boots_bootable desc p s e info : is_info desc p s e info -> (bootable info =? 0) = negb (is_bootable e).
Proof. intros [_ ->]. cbn. by destruct (is_bootable e). Qed.
Section auto.
Context (desc : block_dev_desc) (d0 : D) (ts : list (Z * list dos_partition)) (fuel : nat).
Context (Ht : has_tables d0 ts fuel) (Hp : part_type desc = PART_TYPE_DOS).
Abbreviation l := (slots ts).
Definition has_info (p : Z) (info : disk_partition) : Prop :=
  exists s e, partition l p = Some (s, e) /\ is_info desc p s e info.
Lemma auto_loop_ok : forall ps d part info tmp, same_disk d0 d -> works d -> Forall (fun p => 0 < p) ps -> NoDup ps ->
  part ∉ ps ->
  exists part' p' info' tmp' d', auto_loop fuel desc d ps part info tmp = Some (part', p', info', tmp', d')
    /\ same_disk d0 d' /\ works d' /\
    match List.find (boots l) ps with
    | Some p => part' = p /\ In p ps /\ p' = p /\ has_info p info'
    | None => p' = 17 /\
        if decide (part = 0) then
          match List.find (valid l) ps with
          | Some p => part' = p /\ In p ps /\ has_info p tmp'
          | None => part' = 0 /\ info' = info
          end
        else part' = part /\ tmp' = tmp
    end.
Proof.
  induction ps as [|p ps IH]; intros d part info tmp Hs Hw Hpos Hnd Hni.
  { exists part, 17, info, tmp, d. split; [done|]. split; [done|]. split; [done|]. cbn. split; [done|]. by case_decide. }
  apply Forall_cons in Hpos as [Hp0 Hpos]. apply NoDup_cons in Hnd as [Hp1 Hnd].
  apply not_elem_of_cons in Hni as [Hpp Hni]. cbn [auto_loop].
  destruct (get_info_ok desc p info d0 d ts fuel Ht Hs Hw Hp) as (r & info1 & d1 & -> & Hs1 & Hw1 & Ha).
  cbn [mbind option_bind]. unfold answer in Ha. cbn [List.find].
  assert (boots l p = match partition l p with Some (_, e) => is_bootable e | None => false end) as -> by done.
  assert (valid l p = bool_decide (is_Some (partition l p))) as -> by done.
  destruct (partition l p) as [[s e]|] eqn:Epart.
  - destruct Ha as [-> Hi]. change (negb (0 =? 0)) with false. cbn iota. pose proof (boots_bootable _ _ _ _ _ Hi) as Hb.
    rewrite !Hb, !negb_involutive. assert (has_info p info1) as Hinf by (exists s, e; done).
    destruct (is_bootable e) eqn:Eb.
    + rewrite orb_true_r.
      exists p, p, info1, tmp, d1. split_and!; try done. by left.
    + rewrite orb_false_r. change (bool_decide (is_Some (Some (s, e)))) with true. cbn iota.
      destruct (Z.eqb_spec part 0) as [->|Hpart0].
      * rewrite Z.eqb_refl.
        destruct (IH d1 p info1 info1 Hs1 Hw1 Hpos Hnd Hp1) as (part' & p' & info' & tmp' & d' & -> & Hs2 & Hw2 & Hres).
        exists part', p', info', tmp', d'. split; [done|]. split; [done|]. split; [done|].
        destruct (List.find (boots l) ps) as [q|]; [naive_solver|]. destruct Hres as [-> Hres]. split; [done|].
        rewrite decide_True by done. rewrite decide_False in Hres by lia. destruct Hres as [-> ->]. split; [done|].
        split; [by left|done].
      * destruct (Z.eqb_spec part p); [done|].
        destruct (IH d1 part info1 tmp Hs1 Hw1 Hpos Hnd Hni) as (part' & p' & info' & tmp' & d' & -> & Hs2 & Hw2 & Hres).
        exists part', p', info', tmp', d'. split; [done|]. split; [done|]. split; [done|].
        destruct (List.find (boots l) ps) as [q|]; [naive_solver|]. destruct Hres as [-> Hres]. split; [done|].
        rewrite decide_False in Hres |- * by done. done.
  - destruct Ha as [-> ->]. change (negb (-1 =? 0)) with true. cbn iota.
    change (bool_decide (is_Some None)) with false. cbn iota.
    destruct (IH d1 part info tmp Hs1 Hw1 Hpos Hnd Hni) as (part' & p' & info' & tmp' & d' & -> & Hs2 & Hw2 & Hres).
    exists part', p', info', tmp', d'. split; [done|]. split; [done|]. split; [done|].
    destruct (List.find (boots l) ps) as [q|]; [naive_solver|]. destruct Hres as [-> Hres]. split; [done|].
    case_decide; [|done]. destruct (List.find (valid l) ps); naive_solver.
Qed.
(** The partition that a selection stands for. *)
Definition picked (part : Z) : option Z :=
  if part =? PART_AUTO then auto_choice l (seqZ 1 16) else Some (if part =? PART_UNSPECIFIED then 1 else part).
Definition outcome (part : Z) (info : disk_partition) (ret part' : Z) (info' : disk_partition) : Prop :=
  match (p ← picked part; _ ← partition l p; Some p) with
  | Some p => ret = 0 /\ part' = p /\ has_info p info'
  | None => ret = -1 /\ info' = info
  end.
Lemma find_part_ok d part info : same_disk d0 d -> works d ->
  exists ret part' info' d', find_part fuel desc d part info = Some (ret, part', info', d')
    /\ same_disk d0 d' /\ works d' /\ outcome part info ret part' info'.
Proof.
  intros Hs Hw. unfold find_part, outcome, picked.
  destruct (Z.eqb_spec part PART_AUTO) as [->|Hauto].
  - change (PART_AUTO =? PART_UNSPECIFIED) with false. change (negb (PART_AUTO =? PART_AUTO)) with false. cbn iota.
    change MAX_SEARCH_PARTITIONS with 16.
    destruct (auto_loop_ok (seqZ 1 16) d 0 info info Hs Hw) as (part' & p' & info' & tmp' & d' & -> & Hs2 & Hw2 & Hres);
      [by_computation|by_computation|by_computation|].
    assert (forall p, In p (seqZ 1 16) -> 1 <= p <= 16) as Hrange
      by (intros p Hin%list_elem_of_In%elem_of_seqZ; lia).
    cbn [mbind option_bind]. unfold auto_choice. destruct (List.find (boots l) (seqZ 1 16)) as [p|].
    + destruct Hres as (-> & Hin & -> & Hi). pose proof (Hrange p Hin). destruct (Z.eqb_spec p 0); [lia|]. cbn [negb].
      destruct (Z.eqb_spec p (16 + 1)); [lia|]. do 4 eexists. split; [done|]. split; [done|]. split; [done|].
      pose proof Hi as (s & e & Hse & _).
      cbn [mbind option_bind]. by rewrite Hse.
    + destruct Hres as [-> Hres]. rewrite decide_True in Hres by done.
      destruct (List.find (valid l) (seqZ 1 16)) as [p|].
      * destruct Hres as (-> & Hin & Hi). pose proof (Hrange p Hin). destruct (Z.eqb_spec p 0); [lia|]. cbn [negb].
        change (17 =? 16 + 1) with true. cbn iota. do 4 eexists. split; [done|]. split; [done|]. split; [done|].
        pose proof Hi as (s & e & Hse & _).
        cbn [mbind option_bind]. by rewrite Hse.
      * destruct Hres as [-> ->]. cbn. do 4 eexists. split; [done|]. done.
  - set (n := if part =? PART_UNSPECIFIED then 1 else part).
    assert (n <> PART_AUTO) as Hn by (unfold n; by destruct (part =? PART_UNSPECIFIED)).
    destruct (Z.eqb_spec n PART_AUTO); [done|]. cbn [negb mbind option_bind].
    destruct (get_info_ok desc n info d0 d ts fuel Ht Hs Hw Hp) as (r & info1 & d1 & -> & Hs1 & Hw1 & Ha).
    cbn [mbind option_bind]. do 4 eexists. split; [done|]. split; [done|]. split; [done|]. unfold answer in Ha.
    destruct (partition l n) as [[s e]|] eqn:E; destruct Ha as [-> Ha]; cbn [mbind option_bind]; [|done].
    split; [done|]. split; [done|]. by exists s, e.
Qed.
End auto.

(** ** The end of the chain *)
Lemma tables_det d s relative ts1 : tables d s relative ts1 -> forall ts2, tables d s relative ts2 -> ts1 = ts2.
Proof.
  induction 1 as [|s relative buf H1 H2|s relative buf pts H1 H2 H3 H4|s relative buf pts s' ts H1 H2 H3 H4 H5 IH];
    intros ts2 Ht2; destruct Ht2; simplify_eq; try done. by rewrite (IH _ Ht2).
Qed.
Lemma next_table_s32 pts relative s : next_table pts relative = Some s -> s32 s = s.
Proof.
  unfold next_table. destruct (head _) as [e|]; cbn [fmap option_fmap option_map]; [|done]. intros [= <-].
  apply s32_small. pose proof (s32_range (start4 e + relative)). lia.
Qed.
(** Behind the first table the chain starts again at each of its tables. *)
Lemma tables_suffix d relative : forall t1 s s' pts t2, tables d s relative (t1 ++ (s', pts) :: t2) ->
  Forall (fun t => t.1 <> 0) (t1 ++ (s', pts) :: t2) -> tables d s' relative ((s', pts) :: t2).
Proof.
  induction t1 as [|[s1 p1] t1 IH]; intros s s' pts t2 Ht Hnz.
  - cbn [app] in Ht. by inversion Ht; subst.
  - cbn [app] in Ht, Hnz. apply Forall_cons in Hnz as [Hs1 Hnz]. inversion Ht; subst; [by destruct t1|].
    cbn in Hs1. destruct (Z.eqb_spec s1 0); [done|]. eapply IH; eauto.
Qed.
Lemma tables_head d s relative t ts : tables d s relative (t :: ts) -> t.1 = s.
Proof. intros H. by inversion H. Qed.
Lemma tables_nodup d : forall ts s relative, tables d s relative ts -> Forall (fun t => t.1 <> 0) ts -> NoDup (map fst ts).
Proof.
  induction ts as [|[s1 pts] ts IH]; intros s relative Ht Hnz; [by apply NoDup_nil_2|].
  cbn [map fst]. apply NoDup_cons. split.
  - intros Hin. apply list_elem_of_fmap in Hin as ([s2 pts2] & Hs & Hin). cbn in Hs. subst s2.
    apply list_elem_of_split in Hin as (t1 & t2 & ->).
    pose proof (tables_head _ _ _ _ _ Ht) as Hs. cbn in Hs. subst s.
    pose proof (tables_suffix d relative ((s1, pts) :: t1) s1 s1 pts2 t2 Ht Hnz) as Ht'.
    pose proof (tables_det _ _ _ _ Ht _ Ht') as Heq. apply (f_equal length) in Heq.
    cbn [length app] in Heq. rewrite length_app in Heq. cbn [length] in Heq. lia.
  - inversion Ht; subst; [by apply NoDup_nil_2|]. apply Forall_cons in Hnz as [Hs1 Hnz]. by eapply IH.
Qed.
Lemma tables_s32 d s relative ts : tables d s relative ts -> s32 s = s -> Forall (fun t => s32 t.1 = t.1 /\ is_Some (sector d (u32 t.1))) ts.
Proof.
  induction 1 as [|s relative buf H1 H2|s relative buf pts H1 H2 H3 H4|s relative buf pts s' ts H1 H2 H3 H4 H5 IH]; intros Hs.
  - by apply Forall_nil_2.
  - by apply Forall_nil_2.
  - apply Forall_cons_2; [|by apply Forall_nil_2]. split; [done|]. cbn. rewrite H1. by eexists.
  - apply Forall_cons_2; [|apply IH; by eapply next_table_s32]. split; [done|]. cbn. rewrite H1. by eexists.
Qed.
Lemma u32_s32_inj x y : s32 x = x -> s32 y = y -> u32 x = u32 y -> x = y.
Proof.
  intros Hx Hy H. pose proof (s32_range x). pose proof (s32_range y). rewrite Hx in *. rewrite Hy in *.
  unfold u32 in H. zdm.
Qed.
(** A chain without a way back to the first sector has at most one table more than the disk has
    blocks: no check keeps the last number there can be from a card. *)
Lemma chain_length d ts blocks : tables d 0 0 ts -> Forall (fun t => t.1 <> 0) (tail ts) ->
  0 <= blocks -> (forall s, blocks <= s < 0xffffffff -> sector d s = None) -> zlen ts <= blocks + 1.
Proof.
  intros Ht Hnz Hb0 Hb.
  assert (NoDup (map fst ts)) as Hnd.
  { inversion Ht as [| |? ? ? pts H1 H2 H3 H4|? ? ? pts s' ts' H1 H2 H3 H4 H5]; subst; [apply NoDup_nil_2..|apply NoDup_singleton|].
    cbn [map fst tail] in *. apply NoDup_cons. split; [|by eapply tables_nodup].
    intros Hin. apply list_elem_of_fmap in Hin as ([s2 pts2] & Hs & Hin). cbn in Hs.
    rewrite Forall_forall in Hnz. by apply (Hnz _ Hin). }
  pose proof (tables_s32 _ _ _ _ Ht ltac:(done)) as Hall. rewrite Forall_forall in Hall.
  assert (NoDup (map (fun t => u32 t.1) ts)) as Hnd'.
  { clear -Hnd Hall. induction ts as [|t ts IH]; [by apply NoDup_nil_2|]. cbn [map] in *. apply NoDup_cons in Hnd as [Hn Hnd].
    apply NoDup_cons. split; [|apply IH; [done|]; intros x Hx; apply Hall; by right].
    intros Hin. apply list_elem_of_fmap in Hin as (t2 & Hs & Hin). apply Hn. apply list_elem_of_fmap. exists t2. split; [|done].
    apply u32_s32_inj; [apply Hall; by left|apply Hall; by right|done]. }
  assert (map (fun t => u32 t.1) ts ⊆+ seqZ 0 blocks ++ [0xffffffff]) as Hsub.
  { apply NoDup_submseteq; [done|]. intros x Hx. apply list_elem_of_fmap in Hx as (t & -> & Hin).
    destruct (Hall t Hin) as [_ [buf Hs]]. pose proof (u32_range t.1). rewrite elem_of_app, list_elem_of_singleton, elem_of_seqZ.
    destruct (Z.lt_ge_cases (u32 t.1) blocks) as [|Hge]; [lia|].
    destruct (Z.eq_dec (u32 t.1) 0xffffffff) as [|Hlast]; [by right|]. by rewrite Hb in Hs by lia. }
  apply submseteq_length in Hsub. rewrite length_map, length_app, length_seqZ in Hsub. cbn [length] in Hsub. lia.
Qed.

(** ** The claims *)
(** The text behind the colon and what it selects. *)
Inductive selects : list Z -> Z -> Prop :=
| selects_default : selects [] PART_UNSPECIFIED
| selects_auto : selects (codes "auto") PART_AUTO
| selects_number ps n : str_ok ps -> simple_strtoul ps 16 = (n, []) -> 0 < n < 0x80000000 -> ps <> [] -> selects ps n.
Lemma parse_part_ok ps sel allow : selects ps sel -> parse_part (Some ps) allow = Some sel /\ sel <> 0.
Proof.
  intros [| |ps' n Hok Hn Hr Hne]; [done|done|]. split; [|lia].
  destruct ps' as [|c r] eqn:E; [done|]. rewrite <- E in *. unfold parse_part. rewrite Hn.
  assert ((strcmp ps' (codes "auto") =? 0) = false) as Hauto.
  { destruct (Z.eqb_spec (strcmp ps' (codes "auto")) 0) as [Hz|]; [|done]. exfalso.
    apply strcmp_eq in Hz; [by rewrite Hz in Hn|done|by_computation]. }
  rewrite E in *. cbv beta iota zeta. rewrite Hauto. rewrite s32_small by lia. cbn [chr hd].
  destruct (Z.eqb_spec n 0); [lia|]. done.
Qed.

(** The tables, computed. *)
Fixpoint read_tables (fuel : nat) (d : D) (s relative : Z) : option (list (Z * list dos_partition)) :=
  match fuel with
  | O => None
  | S fuel =>
      match sector d (u32 s) with
      | None => Some []
      | Some buf =>
          ok ← magic buf;
          if negb ok then Some []
          else
            pts ← entries buf;
            match next_table pts relative with
            | None => Some [(s, pts)]
            | Some s' => ts ← read_tables fuel d s' (if s =? 0 then s' else relative); Some ((s, pts) :: ts)
            end
      end
  end.
Lemma read_tables_sound d : forall fuel s relative ts, read_tables fuel d s relative = Some ts -> tables d s relative ts.
Proof.
  induction fuel as [|fuel IH]; intros s relative ts H; [done|]. cbn [read_tables] in H.
  destruct (sector d (u32 s)) as [buf|] eqn:Es; [|injection H as <-; by apply tables_end].
  destruct (magic buf) as [[]|] eqn:Em; [..|done]; cbn [mbind option_bind negb] in H;
    [|injection H as <-; by eapply tables_bad].
  destruct (entries buf) as [pts|] eqn:Ee; [|done]. cbn [mbind option_bind] in H.
  destruct (next_table pts relative) as [s'|] eqn:En; [|injection H as <-; by eapply tables_last].
  destruct (read_tables fuel d s' _) as [ts'|] eqn:Er; [|done]. injection H as <-.
  eapply tables_next; eauto.
Qed.

End spec.

Section found.
Context {D : Type} {Dev : BlockDevice D} {Laws : BlockDeviceLaws D}.
End found.

(** ** A memory card as a block device *)
(** A card in the list of devices with its number, and the type of its partition table. *)
Record mmc_disk (C : Type) := mk_disk { number : Z; dev_mmc : mmc; found : Z; the_card : C }.
Arguments mk_disk {C}. Arguments number {C}. Arguments dev_mmc {C}. Arguments found {C}. Arguments the_card {C}.

Section mmc_disk.
Context {C : Type} {Card : MmcCard C}.
Definition mmc_block_read (d : mmc_disk C) (s n : Z) : option (Z * mmc_disk C * list Z) :=
  '(r, c, dest) ← mmc_bread (Some (dev_mmc d)) (the_card d) s n;
  Some (r, mk_disk (number d) (dev_mmc d) (found d) c, dest).
(** [mmc->block_dev]. *)
Definition block_dev (d : mmc_disk C) : block_dev_desc :=
  let m := dev_mmc d in
  mk_desc IF_TYPE_MMC (number d) (found d) 0 (Mmc.lba m) (read_bl_len m) (LOG2 (read_bl_len m)).
#[export] Instance mmc_reader : BlockReader (mmc_disk C) := { block_read := mmc_block_read }.
(** A card that is not known yet is identified, and its table looked at. *)
Definition mmc_get_device (d : mmc_disk C) (n : Z) : option (mmc_disk C * option block_dev_desc) :=
  if negb (n =? number d) then Some (d, None)
  else
    let '(err, m, c) := mmc_init (dev_mmc d) (the_card d) in
    let d' := mk_disk (number d) m (found d) c in
    if negb (err =? 0) then Some (d', None)
    else if has_init (dev_mmc d) then Some (d', Some (block_dev d'))
    else
      '(desc, d') ← init_part (block_dev d') d';
      Some (mk_disk (number d) m (part_type desc) (the_card d'), Some desc).
#[export] Instance mmc_block_device : BlockDevice (mmc_disk C) := { mmc_get_dev := mmc_get_device }.
End mmc_disk.

Section mmc_laws.
Context {C : Type} {Card : MmcCard C} {Laws : MmcCardLaws C}.
(** The address the driver sends for a block; the check of its number lets the last one there can be pass. *)
Definition block_of (m : mmc) (c : C) (s : Z) : option (list Z) :=
  if Mmc.lba m <? u32 (s + 1) then None
  else Some (bytes_at (cell c) (byte_addr m (if high_capacity m then s else u32 (s * read_bl_len m)) (read_bl_len m))
               (read_bl_len m)).
Lemma read_single m c s : geometry m -> exists r c' dest, mmc_bread (Some m) c s 1 = Some (r, c', dest)
  /\ same_bytes (cell c') (cell c) /\ (r = 1 -> block_of m c s = Some dest)
  /\ (healthy c -> healthy c' /\ (is_Some (block_of m c s) -> r = 1)).
Proof.
  intros Hg. pose proof Hg as ((Hb & _) & _ & Hmax & _). unfold mmc_bread, block_of. change (1 =? 0) with false. cbn iota.
  destruct (Mmc.lba m <? u32 (s + 1)).
  { exists 0, c, []. split_and!; [done|done|done|]. intros H. split; [done|]. by intros [? ?]. }
  destruct (set_blocklen_ok m c (read_bl_len m)) as (e & c1 & -> & Hq & Hh).
  destruct (Z.eqb_spec e 0); cbn [negb].
  2:{ exists 0, c1, []. split_and!; [done|done|done|]. intros H. by destruct (Hh H). }
  change (Z.to_nat 1) with 1%nat. cbn [bread_loop]. destruct (Z.ltb_spec (b_max m) 1); [lia|].
  unfold mmc_read_blocks. change (1 <? 1) with false. cbn iota.
  set (cmd := mk_cmd MMC_CMD_READ_SINGLE_BLOCK _ _).
  pose proof (read_data m c1 cmd 1 (read_bl_len m) ltac:(by left) Hb) as Hr.
  pose proof (no_failure m c1 cmd (MMC_DATA_READ 1 (read_bl_len m))) as Hf.
  destruct (mmc_send_cmd m c1 cmd _) as [[[err r0] c2] dest]. destruct Hr as [Hq2 Hd].
  destruct (Z.eqb_spec err 0); cbn [negb].
  - change (negb (1 =? 1)) with false. change (0 <? u32 (1 - 1)) with false. cbn [mbind option_bind].
    exists 1, c2, dest. split_and!; [done|by etransitivity| |].
    + intros _. rewrite Hd by done. cbn [cmd cmdarg]. f_equal. rewrite Z.mul_1_l. by rewrite Hq.
    + intros Hc. split; [|done]. apply Hf. by apply Hh.
  - change (negb (0 =? 1)) with true. cbn [mbind option_bind]. exists 0, c2, dest.
    split_and!; [done|by etransitivity|done|]. intros Hc. destruct (Hf ltac:(by apply Hh)) as [? _]. done.
Qed.
Lemma block_of_inside m c s : geometry m -> 0 <= s -> s + 1 <= Mmc.lba m ->
  block_of m c s = Some (bytes_at (cell c) (s * read_bl_len m) (read_bl_len m)).
Proof.
  intros Hg Hs Hl. pose proof Hg as (_ & _ & _ & Hlba & _). unfold block_of. rewrite u32_small by lia.
  destruct (Z.ltb_spec (Mmc.lba m) (s + 1)); [lia|]. by rewrite (block_addr m s 1 Hg Hs) by lia.
Qed.
Lemma blocks_concat m c : geometry m -> forall n s, 0 <= s -> s + Z.of_nat n <= Mmc.lba m ->
  exists bufs, map (block_of m c) (seqZ s (Z.of_nat n)) = map Some bufs
    /\ bytes_at (cell c) (s * read_bl_len m) (Z.of_nat n * read_bl_len m) = concat bufs.
Proof.
  intros Hg. pose proof Hg as ((Hb & _) & _). induction n as [|n IH]; intros s Hs Hl.
  - exists []. split; [done|]. done.
  - destruct (IH (s + 1)) as (bufs & Hm & Hbs); [lia..|].
    exists (bytes_at (cell c) (s * read_bl_len m) (read_bl_len m) :: bufs).
    rewrite seqZ_cons by lia. replace (Z.pred (Z.of_nat (S n))) with (Z.of_nat n) by lia. cbn [map concat].
    rewrite block_of_inside by (done || lia). split; [unfold Z.succ; by rewrite Hm|].
    replace (Z.of_nat (S n) * read_bl_len m) with (read_bl_len m + Z.of_nat n * read_bl_len m) by lia.
    rewrite range_app by nia. rewrite <- Hbs. do 2 f_equal. lia.
Qed.
Lemma block_of_same m c c' s : same_bytes (cell c') (cell c) -> block_of m c' s = block_of m c s.
Proof. intros H. unfold block_of. case_match; [done|]. by rewrite H. Qed.
#[export] Instance mmc_disk_laws : BlockDeviceLaws (mmc_disk C).
Proof.
  refine {| sector d := block_of (dev_mmc d) (the_card d); works d := healthy (the_card d) /\ geometry (dev_mmc d) |}.
  intros [k m f c] s n [Hh Hg] Hs Hn Hr. cbn [dev_mmc the_card] in *.
  cbn [block_read mmc_reader]. unfold mmc_block_read. cbn [number dev_mmc found the_card].
  destruct (Z.eq_dec n 1) as [->|Hn1].
  - destruct (read_single m c s Hg) as (r & c' & dest & -> & Hq & Hd & Hw). destruct (Hw Hh) as [Hh' Hall].
    cbn [mbind option_bind]. do 3 eexists. split; [done|]. split; [intros i; by apply block_of_same|]. split; [done|]. split.
    + intros H. exists [dest]. replace (seqZ s 1) with [s] by (rewrite seqZ_cons by lia; done).
      cbn [map concat dev_mmc the_card]. rewrite (Hd H). by rewrite app_nil_r.
    + intros H. apply Hall. apply H. lia.
  - destruct (Z.eq_dec n 0) as [->|Hn0].
    { cbn. do 3 eexists. split; [done|]. split; [done|]. split; [done|]. split; [by exists []|done]. }
    assert (0 < n) as Hn' by lia. destruct (Z.le_gt_cases (s + n) (Mmc.lba m)) as [Hl|Hl].
    + destruct (bread_ok m c s n Hg ltac:(lia) Hn' Hl) as (r & c' & dest & -> & Hq & Hd & Hw).
      destruct (Hw Hh) as [-> Hh']. cbn [mbind option_bind]. do 3 eexists. split; [done|].
      split; [intros i; by apply block_of_same|]. split; [done|]. split; [|done]. intros _.
      destruct Hd as [[_ ->]|]; [|lia].
      destruct (blocks_concat m c Hg (Z.to_nat n) s ltac:(lia) ltac:(lia)) as (bufs & Hm & Hb).
      rewrite Z2Nat.id in Hm, Hb by lia. by exists bufs.
    + unfold mmc_bread. destruct (Z.eqb_spec n 0); [lia|]. rewrite u32_small by lia.
      destruct (Z.ltb_spec (Mmc.lba m) (s + n)); [|lia]. cbn [mbind option_bind]. do 3 eexists. split; [done|].
      split; [done|]. split; [done|]. split; [intros ?; lia|]. intros H1.
      destruct (H1 (s + n - 1) ltac:(lia)) as [b Hb]. unfold block_of in Hb. cbn [dev_mmc the_card] in Hb.
      replace (s + n - 1 + 1) with (s + n) in Hb by lia. rewrite u32_small in Hb by lia.
      by destruct (Z.ltb_spec (Mmc.lba m) (s + n)); [|lia].
Defined.
End mmc_laws.

(** ** A card with partitions *)
#[local] Existing Instance toy_mmc.
#[local] Existing Instance toy_mmc_laws.
(** The bytes of a slot of the table at a sector that are not 0. *)
Definition put_slot (s slot boot sys start size : Z) : list (Z * Z) :=
  let o := s * 512 + 446 + 16 * slot in [(o, boot); (o + 4, sys); (o + 8, start); (o + 12, size)].
Definition put_magic (s : Z) : list (Z * Z) := [(s * 512 + 510, 0x55); (s * 512 + 511, 0xaa)].
Definition image_byte (l : list (Z * Z)) (x : Z) : Z :=
  match List.find (fun p => p.1 =? x) l with Some (_, b) => b | None => 0 end.
Definition card_of (l : list (Z * Z)) : mmc_disk toy_card :=
  mk_disk 0 (mk_mmc 0 false false 0 0 0 0 0 0 65535) 0 (mk_toy (image_byte l) 0 0).
Definition with_device (d : mmc_disk toy_card) : mmc_disk toy_card :=
  match mmc_get_dev d 0 with Some (d, _) => d | None => d end.
Definition device_of (d : mmc_disk toy_card) : block_dev_desc :=
  match mmc_get_dev d 0 with Some (_, Some b) => b | _ => mk_desc 0 0 0 0 0 0 0 end.
(** Two primary partitions, and two logical ones in a chain of two tables; the fourth is bootable. *)
Definition part_card : mmc_disk toy_card :=
  card_of (put_magic 0 ++ put_slot 0 0 0 0x83 2 10 ++ put_slot 0 1 0 5 20 30 ++ put_slot 0 3 0x80 0x0c 50 14
    ++ put_magic 20 ++ put_slot 20 0 0 0x83 1 5 ++ put_slot 20 1 0 5 10 8 ++ put_magic 30 ++ put_slot 30 0 0 0x83 1 5).
Definition part_tables : list (Z * list dos_partition) :=
  Eval vm_compute in default [] (read_tables 5 (with_device part_card) 0 0).
Definition blank_part : disk_partition := mk_part 0 0 0 [] [] 0.
Lemma part_tables_ok fuel : (3 < fuel)%nat -> has_tables (with_device part_card) part_tables fuel.
Proof. intros Hf. split; [|exact Hf|reflexivity]. apply (read_tables_sound _ 5). vm_compute. reflexivity. Qed.

(** The partitions of this card: their numbers, and what is found for [auto]. *)
Lemma part_card_partitions :
  map (fun p => fst <$> partition (slots part_tables) p) (seqZ 1 7) = [Some 0; None; None; Some 0; Some 20; Some 30; None]
  /\ ('(r, _, info, _) ← get_device_and_partition Some None 4 part_card (codes "mmc") (Some (codes "0:6")) blank_part false;
      Some (r, start info, size info)) = Some (6, 31, 5)
  /\ ('(r, _, info, _) ← get_device_and_partition Some None 4 part_card (codes "mmc") (Some (codes "0:auto")) blank_part false;
      Some (r, start info, bootable info)) = Some (4, 50, 1).
Proof. vm_compute. done. Qed.

(** ** A chain that does not end *)
(** The table at sector 20 has an extended partition at its own place, and no other one. *)
Definition cyclic_card : mmc_disk toy_card :=
  card_of (put_magic 0 ++ put_slot 0 0 0 0x83 2 10 ++ put_slot 0 1 0 5 20 30 ++ put_magic 20 ++ put_slot 20 0 0 5 0 8).
Lemma cyclic_read s : s = 0 \/ s = 20 ->
  block_read (with_device cyclic_card) (u32 s) 1 = Some (1, with_device cyclic_card, default [] (sector (with_device cyclic_card) s)).
Proof. intros [->| ->]; vm_compute; reflexivity. Qed.
Lemma cyclic_round info : forall fuel,
  get_partition_info_extended fuel (device_of cyclic_card) (with_device cyclic_card) 20 20 5 6 info = None.
Proof.
  set (buf := default [] (sector (with_device cyclic_card) 20)).
  assert (magic buf = Some true) as Hm by (vm_compute; reflexivity).
  set (pts := default [] (entries buf)).
  assert (entries buf = Some pts /\ slot_loop 20 pts 5 6 = inr 5 /\ next_table pts 20 = Some 20) as (He & Hs & Hn)
    by (split; [|split]; vm_compute; reflexivity).
  induction fuel as [|fuel IH]; [done|]. cbn [get_partition_info_extended].
  rewrite cyclic_read by (by right). fold buf. cbn [mbind option_bind]. change (negb (1 =? 1)) with false. cbn iota.
  rewrite Hm. cbn [mbind option_bind negb]. rewrite He. cbn [mbind option_bind]. rewrite Hs, Hn. exact IH.
Qed.
(** The recursion goes around for ever, and each call takes a sector of stack. *)
Lemma cyclic_never_ends info fuel :
  get_partition_info_dos fuel (device_of cyclic_card) (with_device cyclic_card) 6 info = None.
Proof.
  unfold get_partition_info_dos. destruct fuel as [|fuel]; [done|]. cbn [get_partition_info_extended].
  set (buf := default [] (sector (with_device cyclic_card) 0)).
  assert (magic buf = Some true) as Hm by (vm_compute; reflexivity).
  set (pts := default [] (entries buf)).
  assert (entries buf = Some pts /\ slot_loop 0 pts 1 6 = inr 5 /\ next_table pts 0 = Some 20) as (He & Hs & Hn)
    by (split; [|split]; vm_compute; reflexivity).
  rewrite cyclic_read by (by left). fold buf. cbn [mbind option_bind]. change (negb (1 =? 1)) with false. cbn iota.
  rewrite Hm. cbn [mbind option_bind negb]. rewrite He. cbn [mbind option_bind]. rewrite Hs, Hn. apply cyclic_round.
Qed.
(** Only the first slot is looked at: the others may hold anything. *)
Lemma only_first_slot_tested :
  test_block_type (replicate 446 0 ++ replicate 16 0 ++ replicate 48 0x41 ++ [0x55; 0xaa]) = Some DOS_MBR
  /\ test_block_type (replicate 446 0 ++ replicate 16 0x41 ++ replicate 48 0 ++ [0x55; 0xaa]) = Some (-1).
Proof. vm_compute. done. Qed.
(** A number that does not fit selects as another one: this one is [PART_AUTO]. *)
Lemma number_selects_auto : parse_part (Some (codes "ffffffff")) false = Some PART_AUTO.
Proof. vm_compute. done. Qed.
