(* ===== verification/Fat.v ===== *)
(** * Reading a FAT volume: [fs/fat/fat.c]

    The table of clusters with its cache, the content of a file, directories with short and long
    names, and the way from a path to the content.  The functions work on the state of the driver,
    [fat_state], in a monad; the volume is on a block device, [BlockReader].  Listing a directory
    is not modelled: [dols] is 0. *)
From S2P Require Import Prelude Ctype CStr Part.

Definition VFAT_MAXLEN_BYTES : Z := 256.
Definition VFAT_MAXSEQ : Z := 9.
Definition PREFETCH_BLOCKS : Z := 2.
Definition MAX_CLUSTSIZE : Z := 65536.
Definition FATBUFBLOCKS : Z := 6.
Definition ATTR_VOLUME : Z := 8.
Definition ATTR_DIR : Z := 16.
Definition ATTR_VFAT : Z := 1 .| 2 .| 4 .| 8.
Definition DELETED_FLAG : Z := 0xe5.
Definition aRING : Z := 0x05.
Definition LAST_LONG_ENTRY_MASK : Z := 0x40.
Definition ARCH_DMA_MINALIGN : Z := 32.
Definition DOS_BOOT_MAGIC_OFFSET : nat := 0x1fe.
Definition DOS_FS_TYPE_OFFSET : nat := 0x36.
Definition DOS_FS32_TYPE_OFFSET : nat := 0x52.
Definition ISDIRDELIM (c : Z) : bool := (c =? 47) || (c =? 92).
Definition CHECK_CLUST (x fatsize : Z) : bool :=
  (x <=? 1) || ((if negb (fatsize =? 32) then 0xfff0 else 0xffffff0) <=? x).

(** The fields of [fsdata] that are set once; the buffer is in the state. *)
Record fsdata := mk_fsdata {
  fatsize : Z; fatlength : Z; fat_sect : Z; rootdir_sect : Z; sect_size : Z; clust_size : Z; data_begin : Z }.
(** The device, the static variables, and [fatbuf] and [fatbufnum] of [fsdata]. *)
Record fat_state (D : Type) := mk_state {
  disk : D; cur_dev : option block_dev_desc; cur_part_info : disk_partition;
  fatbuf : list Z; fatbufnum : Z;
  get_contents_vfatname_block : list Z; get_dentfromdir_block : list Z; do_fat_read_at_block : list Z }.
Arguments mk_state {D}. Arguments disk {D}. Arguments cur_dev {D}. Arguments cur_part_info {D}.
Arguments fatbuf {D}. Arguments fatbufnum {D}. Arguments get_contents_vfatname_block {D}.
Arguments get_dentfromdir_block {D}. Arguments do_fat_read_at_block {D}.

(** ** Computations on the state *)
(** [None] is an access out of bounds, a division by 0 or the end of the fuel. *)
Definition M (D A : Type) : Type := fat_state D -> option (A * fat_state D).
#[export] Instance M_ret {D} : MRet (M D) := fun A a st => Some (a, st).
#[export] Instance M_bind {D} : MBind (M D) := fun A B f m st => '(a, st) ← m st; f a st.
Definition lift {D A} (o : option A) : M D A := fun st => a ← o; Some (a, st).
Definition gets {D A} (f : fat_state D -> A) : M D A := fun st => Some (f st, st).
Definition set_disk {D} (d : D) : M D () := fun st =>
  Some ((), mk_state d (cur_dev st) (cur_part_info st) (fatbuf st) (fatbufnum st)
              (get_contents_vfatname_block st) (get_dentfromdir_block st) (do_fat_read_at_block st)).
Definition set_device {D} (dev : option block_dev_desc) (info : disk_partition) : M D () := fun st =>
  Some ((), mk_state (disk st) dev info (fatbuf st) (fatbufnum st)
              (get_contents_vfatname_block st) (get_dentfromdir_block st) (do_fat_read_at_block st)).
Definition set_fatbuf {D} (buf : list Z) (num : Z) : M D () := fun st =>
  Some ((), mk_state (disk st) (cur_dev st) (cur_part_info st) buf num
              (get_contents_vfatname_block st) (get_dentfromdir_block st) (do_fat_read_at_block st)).
Definition set_vfatname_block {D} (b : list Z) : M D () := fun st =>
  Some ((), mk_state (disk st) (cur_dev st) (cur_part_info st) (fatbuf st) (fatbufnum st)
              b (get_dentfromdir_block st) (do_fat_read_at_block st)).
Definition set_dentfromdir_block {D} (b : list Z) : M D () := fun st =>
  Some ((), mk_state (disk st) (cur_dev st) (cur_part_info st) (fatbuf st) (fatbufnum st)
              (get_contents_vfatname_block st) b (do_fat_read_at_block st)).
Definition set_read_at_block {D} (b : list Z) : M D () := fun st =>
  Some ((), mk_state (disk st) (cur_dev st) (cur_part_info st) (fatbuf st) (fatbufnum st)
              (get_contents_vfatname_block st) (get_dentfromdir_block st) b).
(** The buffer after a store at its start: [None] past its end. *)
Definition over (buf old : list Z) : option (list Z) :=
  if (length buf <=? length old)%nat then Some (buf ++ drop (length buf) old) else None.
(** [memcpy] of [n] bytes from an offset of a buffer. *)
Definition slice (buf : list Z) (off n : Z) : option (list Z) :=
  if off + n <=? zlen buf then Some (take (Z.to_nat n) (drop (Z.to_nat off) buf)) else None.
(** Values of a little-endian machine in memory: [FAT2CPU16] and [FAT2CPU32] convert nothing. *)
Definition u16_at (buf : list Z) (off : nat) : option Z :=
  b0 ← buf !! off; b1 ← buf !! S off; Some (b0 + 0x100 * b1).
Definition u32_at (buf : list Z) (off : nat) : option Z :=
  lo ← u16_at buf off; hi ← u16_at buf (off + 2); Some (lo + 0x10000 * hi).

Section fat.
Context {D : Type} {Reader : BlockReader D}.

(** The result and what was stored in the buffer. *)
Definition disk_read (block nr_blocks : Z) : M D (Z * list Z) :=
  dev ← gets cur_dev;
  match dev with
  | None => mret (-1, [])
  | Some _ =>
      info ← gets cur_part_info; d ← gets disk;
      '(n, d, buf) ← lift (block_read d (u32 (start info + block)) nr_blocks);
      set_disk d ;; mret (s32 n, buf)
  end.

(** ** The table of clusters *)
(** [FAT32BUFSIZE], [FAT16BUFSIZE] or [FAT12BUFSIZE]: the entries in the buffer. *)
Definition entries_in_buf (m : fsdata) : option Z :=
  let FATBUFSIZE := sect_size m * FATBUFBLOCKS in
  if fatsize m =? 32 then Some (FATBUFSIZE / 4)
  else if fatsize m =? 16 then Some (FATBUFSIZE / 2)
  else if fatsize m =? 12 then Some (FATBUFSIZE * 2 / 3)
  else None.
Definition table_entry (m : fsdata) (buf : list Z) (offset : Z) : option Z :=
  if fatsize m =? 32 then u32_at buf (Z.to_nat (4 * offset))
  else if fatsize m =? 16 then u16_at buf (Z.to_nat (2 * offset))
  else
    let word (i : Z) := u16_at buf (Z.to_nat (2 * i)) in
    let off16 := u32 (offset * 3) / 4 in
    let k := offset .& 3 in
    if k =? 0 then ret ← word off16; Some (ret .& 0xfff)
    else if k =? 1 then
      val1 ← word off16; val2 ← word (off16 + 1); Some (((val2 .& 0x00ff) ≪ 4) .| ((val1 .& 0xf000) ≫ 12))
    else if k =? 2 then
      val1 ← word off16; val2 ← word (off16 + 1); Some (((val2 .& 0x000f) ≪ 8) .| ((val1 .& 0xff00) ≫ 8))
    else ret ← word off16; Some ((ret .& 0xfff0) ≫ 4).
(** The part of the table with a number into the buffer; [false] is the error. *)
Definition fill_fatbuf (m : fsdata) (bufnum : Z) : M D bool :=
  let startblock := u32 (bufnum * FATBUFBLOCKS) in
  let getsize := if fatlength m <? u32 (startblock + FATBUFBLOCKS) then u32 (fatlength m - startblock) else FATBUFBLOCKS in
  '(ret, buf) ← disk_read (u32 (startblock + fat_sect m)) getsize;
  old ← gets fatbuf; new ← lift (over buf old);
  num ← gets fatbufnum;
  let ok := negb (ret <? 0) in
  set_fatbuf new (if ok then bufnum else num) ;; mret ok.
Definition get_fatent (m : fsdata) (entry : Z) : M D Z :=
  match entries_in_buf m with
  | None => mret 0
  | Some n =>
      if n =? 0 then lift None
      else
        let bufnum := entry / n in
        let offset := u32 (entry - bufnum * n) in
        num ← gets fatbufnum;
        ok ← (if bufnum =? u32 num then mret true else fill_fatbuf m bufnum);
        if negb ok then mret 0 else buf ← gets fatbuf; lift (table_entry m buf offset)
  end.

(** ** Clusters *)
(** One sector in a buffer of its size. *)
Definition one_sector (m : fsdata) (buf : list Z) : option (list Z) :=
  if zlen buf =? sect_size m then Some buf else None.
(** The loop for a misaligned buffer: the sector and the size left, and the bytes stored. *)
Fixpoint sector_loop (fuel : nat) (m : fsdata) (startsect size : Z) : M D (option (Z * Z) * list Z) :=
  match fuel with
  | O => lift None
  | S fuel =>
      if sect_size m <=? size then
        '(ret, buf) ← disk_read startsect 1;
        if negb (ret =? 1) then mret (None, [])
        else
          tmpbuf ← lift (one_sector m buf);
          '(r, rest) ← sector_loop fuel m (u32 (startsect + 1)) (size - sect_size m);
          mret (r, tmpbuf ++ rest)
      else mret (Some (startsect, size), [])
  end.
Definition whole_sectors (m : fsdata) (startsect size : Z) : M D (option (Z * Z) * list Z) :=
  let idx := size / sect_size m in
  '(ret, buf) ← disk_read startsect idx;
  if negb (u32 ret =? idx) then mret (None, buf)
  else if negb (zlen buf =? idx * sect_size m) then lift None
  else mret (Some (u32 (startsect + idx), size - idx * sect_size m), buf).
(** [addr] is the address of [buffer]; the result and the bytes stored there. *)
Definition get_cluster (m : fsdata) (clustnum addr size : Z) : M D (Z * list Z) :=
  let startsect :=
    if 0 <? clustnum then u32 (data_begin m + clustnum * clust_size m) else rootdir_sect m in
  if sect_size m =? 0 then lift None
  else
    '(r, bytes) ← (if negb (addr .& (ARCH_DMA_MINALIGN - 1) =? 0)
                   then sector_loop (S (Z.to_nat (size / sect_size m))) m startsect size
                   else whole_sectors m startsect size);
    match r with
    | None => mret (-1, bytes)
    | Some (startsect, size) =>
        if size =? 0 then mret (0, bytes)
        else
          '(ret, buf) ← disk_read startsect 1;
          if negb (ret =? 1) then mret (-1, bytes)
          else tmpbuf ← lift (one_sector m buf); mret (0, bytes ++ take (Z.to_nat size) tmpbuf)
    end.

(** ** The content of a file *)
(** [dir_entry]. *)
Record dir_entry := mk_dent { name : list Z; ext : list Z; attr : Z; starthi : Z; dstart : Z; dsize : Z }.
Definition START (m : fsdata) (dent : dir_entry) : Z :=
  u32 (dstart dent + (if negb (fatsize m =? 32) then 0 else starthi dent ≪ 16)).
(** To the cluster at [pos]: [None] for an invalid entry of the table. *)
Fixpoint skip_loop (fuel : nat) (m : fsdata) (bytesperclust curclust actsize pos : Z) : M D (option (Z * Z)) :=
  match fuel with
  | O => lift None
  | S fuel =>
      if actsize <=? pos then
        curclust ← get_fatent m curclust;
        if CHECK_CLUST curclust (fatsize m) then mret None
        else skip_loop fuel m bytesperclust curclust (u32 (actsize + bytesperclust)) pos
      else mret (Some (curclust, actsize))
  end.
(** The end of the search for consecutive clusters: all of the file, [getit], or an invalid entry. *)
Inductive run := run_all | run_getit (endclust actsize : Z) | run_invalid.
Fixpoint run_loop (fuel : nat) (m : fsdata) (bytesperclust endclust actsize filesize : Z) : M D run :=
  match fuel with
  | O => lift None
  | S fuel =>
      if actsize <? filesize then
        newclust ← get_fatent m endclust;
        if negb (u32 (newclust - 1) =? endclust) then mret (run_getit endclust actsize)
        else if CHECK_CLUST newclust (fatsize m) then mret run_invalid
        else run_loop fuel m bytesperclust newclust (u32 (actsize + bytesperclust)) filesize
      else mret run_all
  end.
Fixpoint contents_loop (fuel : nat) (m : fsdata) (bytesperclust curclust addr filesize gotsize : Z) : M D (Z * list Z) :=
  match fuel with
  | O => lift None
  | S fuel' =>
      r ← run_loop fuel m bytesperclust curclust bytesperclust filesize;
      match r with
      | run_invalid => mret (s32 gotsize, [])
      | run_all =>
          '(ret, bytes) ← get_cluster m curclust addr filesize;
          mret (if negb (ret =? 0) then -1 else s32 (gotsize + filesize), bytes)
      | run_getit endclust actsize =>
          '(ret, bytes) ← get_cluster m curclust addr actsize;
          if negb (ret =? 0) then mret (-1, bytes)
          else
            let gotsize := u32 (gotsize + actsize) in
            curclust ← get_fatent m endclust;
            if CHECK_CLUST curclust (fatsize m) then mret (s32 gotsize, bytes)
            else
              '(ret, rest) ← contents_loop fuel' m bytesperclust curclust (u32 (addr + actsize)) (u32 (filesize - actsize)) gotsize;
              mret (ret, bytes ++ rest)
      end
  end.
(** From [pos] in the cluster on: to the beginning of the next cluster, and then run by run. *)
Definition contents_from (fuel : nat) (m : fsdata) (bytesperclust curclust filesize pos addr : Z) : M D (Z * list Z) :=
  if negb (pos =? 0) then
    let actsize := Z.min filesize bytesperclust in
    '(ret, bytes) ← get_cluster m curclust 0 actsize;
    old ← gets get_contents_vfatname_block; block ← lift (over bytes old);
    set_vfatname_block block ;;
    if negb (ret =? 0) then mret (-1, [])
    else
      let filesize := filesize - actsize in
      let actsize := u32 (actsize - pos) in
      chunk ← lift (slice block pos actsize);
      if filesize =? 0 then mret (s32 actsize, chunk)
      else
        curclust ← get_fatent m curclust;
        if CHECK_CLUST curclust (fatsize m) then mret (s32 actsize, chunk)
        else
          '(ret, bytes) ← contents_loop fuel m bytesperclust curclust (u32 (addr + actsize)) filesize actsize;
          mret (ret, chunk ++ bytes)
  else contents_loop fuel m bytesperclust curclust addr filesize 0.
(** The number of bytes or -1, and what is stored at [buffer]. *)
Definition get_contents (fuel : nat) (m : fsdata) (dentptr : dir_entry) (pos addr maxsize : Z) : M D (Z * list Z) :=
  let filesize := dsize dentptr in
  let bytesperclust := clust_size m * sect_size m in
  if filesize <=? pos then mret (0, [])
  else
    let filesize := if (0 <? maxsize) && (u32 (pos + maxsize) <? filesize) then u32 (pos + maxsize) else filesize in
    r ← skip_loop fuel m bytesperclust (START m dentptr) bytesperclust pos;
    match r with
    | None => mret (0, [])
    | Some (curclust, actsize) =>
        let actsize := u32 (actsize - bytesperclust) in
        let filesize := u32 (filesize - actsize) in
        let pos := u32 (pos - actsize) in
        contents_from fuel m bytesperclust curclust filesize pos addr
    end.

(** ** Names *)
Definition downcase (str : list Z) : list Z := map __tolower str.
Fixpoint dirdelim (str : list Z) : option nat :=
  match str with [] => None | c :: str => if ISDIRDELIM c then Some O else S <$> dirdelim str end.
(** [while (ISDIRDELIM( *p)) p++]. *)
Fixpoint skip_delims (str : list Z) : list Z :=
  match str with c :: r => if ISDIRDELIM c then skip_delims r else str | [] => [] end.
(** The characters before a blank or a NUL. *)
Fixpoint word (s : list Z) : list Z :=
  match s with c :: s => if (c =? 0) || (c =? 32) then [] else c :: word s | [] => [] end.
(** The first character of a name: that of a deleted file ends the name, and [aRING] stands for it. *)
Definition first_char (s : list Z) : list Z :=
  match s with c :: r => if c =? DELETED_FLAG then [] else if c =? aRING then DELETED_FLAG :: r else s | [] => [] end.
Definition get_name (dirent : dir_entry) : list Z :=
  let ext := if negb (chr (ext dirent) =? 0) && negb (chr (ext dirent) =? 32) then 46 :: word (ext dirent) else [] in
  downcase (first_char (word (name dirent) ++ ext)).
(** The entry at an offset of a block. *)
Definition dirent_at (block : list Z) (off : nat) : option dir_entry :=
  nm ← slice block (Z.of_nat off) 8; ex ← slice block (Z.of_nat off + 8) 3; at_ ← block !! (off + 11)%nat;
  hi ← u16_at block (off + 20); st ← u16_at block (off + 26); sz ← u32_at block (off + 28);
  Some (mk_dent nm ex at_ hi st sz).
(** The characters of a slot up to a NUL, and whether there is one. *)
Fixpoint slot_chars (block : list Z) (off : nat) (places : list nat) : option (bool * list Z) :=
  match places with
  | [] => Some (false, [])
  | j :: places =>
      c ← block !! (off + j)%nat;
      if c =? 0 then Some (true, []) else '(b, cs) ← slot_chars block off places; Some (b, c :: cs)
  end.
Definition slot2str (block : list Z) (off : nat) : option (bool * list Z) :=
  slot_chars block off [1; 3; 5; 7; 9; 14; 16; 18; 20; 22; 24; 28; 30]%nat.
Definition slot_id (block : list Z) (off : nat) : option Z := block !! off.
(** The slots with the numbers from [counter] down to 1: the offset behind them and the slots missing
    at the limit, or [None] for another number. *)
Fixpoint count_slots (counter : nat) (block : list Z) (limit off : nat) : option (option (nat * nat)) :=
  match counter with
  | O => Some (Some (off, O))
  | S counter' =>
      if (limit <=? off)%nat then Some (Some (off, counter))
      else
        id ← slot_id block off;
        if negb (id .& 0xbf =? Z.of_nat counter) then Some None
        else count_slots counter' block limit (off + 32)
  end.
(** The slots of the second block from the last one back to its start. *)
Fixpoint second_block (k : nat) (block : list Z) : option (list Z) :=
  match k with O => Some [] | S k => '(_, cs) ← slot2str block (32 * k); r ← second_block k block; Some (cs ++ r) end.
(** The slots of the first block back to the last one of the name. *)
Fixpoint first_block (k : nat) (block : list Z) : option (list Z) :=
  match k with
  | O => None
  | S k =>
      '(stop, cs) ← slot2str block (32 * k);
      if (stop : bool) then Some cs
      else
        id ← slot_id block (32 * k);
        if negb (id .& LAST_LONG_ENTRY_MASK =? 0) then Some cs else r ← first_block k block; Some (cs ++ r)
  end.
(** Whether [cluster] is that of the root of a volume without FAT32. *)
Definition buflimit (m : fsdata) (curclust : Z) : nat :=
  Z.to_nat (sect_size m * (if curclust =? 0 then PREFETCH_BLOCKS else clust_size m)).
(** [retdent] is at [off] of [block]: the name and the block with the entry copied there, [None] for -1. *)
Definition get_vfatname (m : fsdata) (curclust : Z) (block : list Z) (off : nat) : M D (option (list Z * list Z)) :=
  id ← lift (slot_id block off);
  let counter := id .& 0xbf in
  if VFAT_MAXSEQ <? counter then mret None
  else
    r ← lift (count_slots (Z.to_nat counter) block (buflimit m curclust) off);
    let finish (realdent : option (list Z)) (cs : option (list Z)) (k : nat) : M D (option (list Z * list Z)) :=
      real ← lift realdent; cs ← lift cs; rest ← lift (first_block k block);
      let l_name := cs ++ rest in
      if VFAT_MAXLEN_BYTES <=? zlen l_name then lift None
      else mret (Some (downcase (first_char l_name), take off block ++ real ++ drop (off + 32) block)) in
    match r with
    | None => mret None
    | Some (off2, counter) =>
        if (buflimit m curclust <=? off2)%nat then
          if curclust =? 0 then mret None
          else
            curclust ← get_fatent m curclust;
            if CHECK_CLUST curclust (fatsize m) then mret None
            else
              '(ret, bytes) ← get_cluster m curclust 0 (clust_size m * sect_size m);
              old ← gets get_contents_vfatname_block; block2 ← lift (over bytes old);
              set_vfatname_block block2 ;;
              if negb (ret =? 0) then mret None
              else
                r ← lift (count_slots counter block2 (length block2) 0);
                match r with
                | None => mret None
                | Some (off3, _) =>
                    finish (slice block2 (Z.of_nat off3) 32) (second_block (off3 / 32) block2) (off2 / 32)%nat
                end
        else finish (slice block (Z.of_nat off2) 32) (Some []) (off2 / 32)%nat
    end.

(** ** Directories *)
Definition is_slot (e : dir_entry) : bool :=
  (attr e .& ATTR_VFAT =? ATTR_VFAT) && negb (chr (name e) .& LAST_LONG_ENTRY_MASK =? 0).
(** The end of a scan of entries: the one looked for, the end of the directory, or the end of the block. *)
Inductive scan := found (e : dir_entry) | at_end | more.
(** The entry at [off], the long name in front of it, and the block: [None] for an entry passed over. *)
Definition entry_name (m : fsdata) (curclust : Z) (block : list Z) (off : nat) (e : dir_entry)
    : M D (option (list Z * list Z)) :=
  if attr e .& ATTR_VOLUME =? 0 then mret (Some ([], block))
  else if is_slot e then
    r ← get_vfatname m curclust block off;
    mret (Some (match r with Some r => r | None => ([], block) end))
  else mret None.
Definition mismatch (filename : list Z) (e : dir_entry) (l_name : list Z) : bool :=
  negb (strcmp filename (get_name e) =? 0) && negb (strcmp filename l_name =? 0).
Fixpoint dent_loop (n : nat) (m : fsdata) (curclust : Z) (filename : list Z) (off : nat) : M D scan :=
  match n with
  | O => mret more
  | S n =>
      block ← gets get_dentfromdir_block;
      dent ← lift (dirent_at block off);
      if chr (name dent) =? DELETED_FLAG then dent_loop n m curclust filename (off + 32)
      else
        r ← entry_name m curclust block off dent;
        match r with
        | None => dent_loop n m curclust filename (off + 32)
        | Some (l_name, block) =>
            set_dentfromdir_block block ;;
            dent ← lift (dirent_at block off);
            if chr (name dent) =? 0 then mret at_end
            else if mismatch filename dent l_name then dent_loop n m curclust filename (off + 32)
            else mret (found dent)
        end
  end.
(** [NULL] is [None]; the clusters of a directory from the one of [retdent] on. *)
Fixpoint dir_loop (fuel : nat) (m : fsdata) (curclust : Z) (filename : list Z) : M D (option dir_entry) :=
  match fuel with
  | O => lift None
  | S fuel =>
      '(ret, bytes) ← get_cluster m curclust 0 (clust_size m * sect_size m);
      old ← gets get_dentfromdir_block; block ← lift (over bytes old);
      set_dentfromdir_block block ;;
      if negb (ret =? 0) then mret None
      else
        r ← dent_loop (Z.to_nat (clust_size m * sect_size m / 32)) m curclust filename 0;
        match r with
        | found e => mret (Some e)
        | at_end => mret None
        | more =>
            curclust ← get_fatent m curclust;
            if CHECK_CLUST curclust (fatsize m) then mret None else dir_loop fuel m curclust filename
        end
  end.
Definition get_dentfromdir (fuel : nat) (m : fsdata) (filename : list Z) (retdent : dir_entry) : M D (option dir_entry) :=
  dir_loop fuel m (START m retdent) filename.
(** The entries of a sector of the root directory; [at_end] also for an entry that is no directory. *)
Fixpoint root_dents (n : nat) (m : fsdata) (root_cluster : Z) (fnamecopy : list Z) (isdir : bool) (off : nat) : M D scan :=
  match n with
  | O => mret more
  | S n =>
      block ← gets do_fat_read_at_block;
      dent ← lift (dirent_at block off);
      if chr (name dent) =? DELETED_FLAG then root_dents n m root_cluster fnamecopy isdir (off + 32)
      else if (attr dent .& ATTR_VOLUME =? 0) && (chr (name dent) =? 0) then mret at_end
      else
        r ← entry_name m root_cluster block off dent;
        match r with
        | None => root_dents n m root_cluster fnamecopy isdir (off + 32)
        | Some (l_name, block) =>
            set_read_at_block block ;;
            dent ← lift (dirent_at block off);
            if mismatch fnamecopy dent l_name then root_dents n m root_cluster fnamecopy isdir (off + 32)
            else if isdir && (attr dent .& ATTR_DIR =? 0) then mret at_end
            else mret (found dent)
        end
  end.
(** The sectors of the root directory: [j] of them are read, [cursect] is the current one. *)
Fixpoint root_loop (fuel : nat) (m : fsdata) (rootdir_size : Z) (fnamecopy : list Z) (isdir : bool)
    (j cursect root_cluster : Z) : M D (option dir_entry) :=
  match fuel with
  | O => lift None
  | S fuel =>
      ok ← (if j =? 0 then
              '(ret, bytes) ← disk_read cursect (if fatsize m =? 32 then clust_size m else PREFETCH_BLOCKS);
              old ← gets do_fat_read_at_block; block ← lift (over bytes old);
              set_read_at_block block ;; mret (negb (ret <? 0))
            else mret true);
      if negb ok then mret None
      else
        let DIRENTSPERBLOCK := sect_size m / 32 in
        r ← root_dents (Z.to_nat DIRENTSPERBLOCK) m root_cluster fnamecopy isdir (Z.to_nat (j * DIRENTSPERBLOCK * 32));
        match r with
        | found e => mret (Some e)
        | at_end => mret None
        | more =>
            let j := j + 1 in
            if fatsize m =? 32 then
              if j =? clust_size m then
                nxt_clust ← get_fatent m root_cluster;
                if CHECK_CLUST nxt_clust 32 then mret None
                else root_loop fuel m rootdir_size fnamecopy isdir 0 (u32 (data_begin m + nxt_clust * clust_size m)) nxt_clust
              else root_loop fuel m rootdir_size fnamecopy isdir j cursect root_cluster
            else
              let cursect := u32 (cursect + 1) in
              if rootdir_size <=? u32 (cursect - rootdir_sect m) then mret None
              else root_loop fuel m rootdir_size fnamecopy isdir (if j =? PREFETCH_BLOCKS then 0 else j) cursect root_cluster
        end
  end.
(** The directories of a path below the root, from the entry of the first one. *)
Fixpoint path_loop (fuel : nat) (m : fsdata) (subname : list Z) (dent : dir_entry) : M D (option dir_entry) :=
  match fuel with
  | O => lift None
  | S fuel' =>
      match dirdelim subname with
      | Some idx =>
          r ← get_dentfromdir fuel m (take idx subname) dent;
          match r with
          | None => mret None
          | Some dent =>
              if attr dent .& ATTR_DIR =? 0 then mret None
              else path_loop fuel' m (skip_delims (drop (S idx) subname)) dent
          end
      | None => get_dentfromdir fuel m subname dent
      end
  end.

(** ** The volume *)
(** The fields of [boot_sector] that are used, in the order of the sector. *)
Record boot_sector := mk_bs {
  sector_size : Z; cluster_size : Z; reserved : Z; fats : Z; dir_entries : Z; fat_length : Z;
  fat32_length : Z; root_cluster : Z }.
Definition load_bs (block : list Z) : option boot_sector :=
  ss ← u16_at block 11; cs ← block !! 13%nat; rs ← u16_at block 14; fs ← block !! 16%nat;
  de ← u16_at block 17; fl ← u16_at block 22; fl32 ← u32_at block 36; rc ← u32_at block 44;
  Some (mk_bs ss cs rs fs de fl fl32 rc).
(** The boot sector and [*fatsize], [None] for -1; [memalign] returns a block with what it held before. *)
Definition read_bootsectandvi (memalign : Z -> option (list Z)) : M D (option (boot_sector * Z)) :=
  dev ← gets cur_dev;
  match dev with
  | None => mret None
  | Some dev =>
      match memalign (blksz dev) with
      | None => mret None
      | Some block =>
          '(ret, bytes) ← disk_read 0 1;
          if ret <? 0 then mret None
          else
            block ← lift (over bytes block);
            bs ← lift (load_bs block);
            let sign (off : nat) (s : string) := strncmp 8 (codes s) (drop off block) =? 0 in
            if fat_length bs =? 0 then mret (if sign 82%nat "FAT32   " then Some (bs, 32) else None)
            else mret (if sign 54%nat "FAT12   " then Some (bs, 12) else if sign 54%nat "FAT16   " then Some (bs, 16) else None)
      end
  end.
Definition mount (bs : boot_sector) (fatsize : Z) : fsdata :=
  let fatlength := if fatsize =? 32 then fat32_length bs else fat_length bs in
  let rootdir_sect := u32 (reserved bs + fatlength * fats bs) in
  let rootdir_size := dir_entries bs * 32 / sector_size bs in
  mk_fsdata fatsize fatlength (reserved bs) rootdir_sect (sector_size bs) (cluster_size bs)
    (s32 (if fatsize =? 32 then rootdir_sect - cluster_size bs * 2
          else rootdir_sect + rootdir_size - cluster_size bs * 2)).
(** The entry of a path, [None] where the function returns -1 without a message. *)
Definition lookup_path (fuel : nat) (m : fsdata) (rootdir_size root_cluster : Z) (fnamecopy : list Z)
    : M D (option dir_entry) :=
  let '(first, subname) :=
    match dirdelim fnamecopy with
    | Some idx => (take idx fnamecopy, Some (skip_delims (drop (S idx) fnamecopy)))
    | None => (fnamecopy, None)
    end in
  r ← root_loop fuel m rootdir_size first (bool_decide (is_Some subname)) 0 (rootdir_sect m) root_cluster;
  match r with
  | None => mret None
  | Some dent =>
      match subname with
      | None => mret (Some dent)
      | Some subname => path_loop fuel m subname dent
      end
  end.
(** The result and what is stored at [buffer]. *)
Definition do_fat_read_at (memalign : Z -> option (list Z)) (fuel : nat) (filename : list Z) (pos addr maxsize : Z)
    : M D (Z * list Z) :=
  r ← read_bootsectandvi memalign;
  match r with
  | None => mret (-1, [])
  | Some (bs, fatsize) =>
      let m := mount bs fatsize in
      info ← gets cur_part_info;
      if negb (sect_size m =? part_blksz info) then mret (-1, [])
      else
        (* the sector size divides the size of the root directory *)
        if sect_size m =? 0 then lift None
        else
          match memalign (sect_size m * FATBUFBLOCKS) with
          | None => mret (-1, [])
          | Some buf =>
              set_fatbuf buf (-1) ;;
              let filename := skip_delims filename in
              if 2048 <=? zlen filename then lift None
              else
                let fnamecopy := downcase filename in
                match fnamecopy with
                | [] => mret (-1, [])
                | _ =>
                    r ← lookup_path fuel m (dir_entries bs * 32 / sector_size bs)
                          (if fatsize =? 32 then root_cluster bs else 0) fnamecopy;
                    match r with
                    | None => mret (-1, [])
                    | Some dent => get_contents fuel m dent pos addr maxsize
                    end
                end
          end
  end.
Definition do_fat_read (memalign : Z -> option (list Z)) (fuel : nat) (filename : list Z) (addr maxsize : Z) : M D (Z * list Z) :=
  do_fat_read_at memalign fuel filename 0 addr maxsize.
Definition file_fat_read_at (memalign : Z -> option (list Z)) (fuel : nat) (filename : list Z) (pos addr maxsize : Z) : M D (Z * list Z) :=
  do_fat_read_at memalign fuel filename pos addr maxsize.
Definition file_fat_read (memalign : Z -> option (list Z)) (fuel : nat) (filename : list Z) (addr maxsize : Z) : M D (Z * list Z) :=
  file_fat_read_at memalign fuel filename 0 addr maxsize.
Definition fat_read_file (memalign : Z -> option (list Z)) (fuel : nat) (filename : list Z) (addr offset len : Z) : M D (Z * list Z) :=
  file_fat_read_at memalign fuel filename offset addr len.

(** ** The device *)
Definition fat_set_blk_dev (dev_desc : block_dev_desc) (info : disk_partition) : M D Z :=
  set_device (Some dev_desc) info ;;
  let fail := set_device None info ;; mret (-1) in
  '(ret, buffer) ← disk_read 0 1;
  if negb (ret =? 1) then fail
  else
    magic ← lift (slice buffer (Z.of_nat DOS_BOOT_MAGIC_OFFSET) 2);
    if negb (bool_decide (magic = [0x55; 0xaa])) then fail
    else
      s ← lift (slice buffer (Z.of_nat DOS_FS_TYPE_OFFSET) 3);
      if bool_decide (s = codes "FAT") then mret 0
      else
        s ← lift (slice buffer (Z.of_nat DOS_FS32_TYPE_OFFSET) 5);
        if bool_decide (s = codes "FAT32") then mret 0 else fail.
(** [info] is what the variable holds before. *)
Definition fat_register_device (fuel : nat) (dev_desc : block_dev_desc) (part_no : Z) (info : disk_partition) : M D Z :=
  old ← gets cur_part_info;
  set_device None old ;;
  d ← gets disk;
  '(r, info, d) ← lift (get_partition_info fuel dev_desc d part_no info);
  set_disk d ;;
  if negb (r =? 0) then
    if negb (part_no =? 0) then mret (-1)
    else fat_set_blk_dev dev_desc (mk_part 0 (Part.lba dev_desc) (blksz dev_desc) [] [] 0)
  else fat_set_blk_dev dev_desc info.
End fat.
