(* ===== verification/FatSpec.v ===== *)
(** * Files on a FAT volume

    The table of clusters as it is defined, and that the cache of the driver does not show; the
    content of a file as the bytes of its chain of clusters, and that the reader, which takes
    runs of clusters at once, returns just these bytes from any position on. *)
From S2P Require Import Prelude Ctype CStr Part PartSpec Fat.

(** ** Steps of the monad *)
Lemma bind_step {D A B} (m : M D A) (f : A -> M D B) st a st' : m st = Some (a, st') -> (m ≫= f) st = f a st'.
Proof. intros H. cbn. unfold mbind, M_bind. by rewrite H. Qed.
Lemma bind_run {D A B} (m : M D A) (f : A -> M D B) st : (m ≫= f) st = '(a, st) ← m st; f a st.
Proof. done. Qed.
Lemma lift_run {D A B} (o : option A) (f : A -> M D B) st : (lift o ≫= f) st = a ← o; f a st.
Proof. rewrite bind_run. unfold lift. by destruct o. Qed.
Lemma over_ok buf old : (length buf <= length old)%nat -> over buf old = Some (buf ++ drop (length buf) old).
Proof. intros H. unfold over. by rewrite (proj2 (Nat.leb_le _ _) H). Qed.
Lemma over_length buf old b : over buf old = Some b -> length b = length old.
Proof. unfold over. destruct (Nat.leb_spec (length buf) (length old)); [|done]. intros [= <-]. rewrite length_app, length_drop. lia. Qed.

(** ** Entries of the table *)
(** The entry with a number, in entries of 12, 16 or 32 bits side by side. *)
Definition entry_of (fatsize : Z) (buf : list Z) (e : Z) : option Z :=
  if fatsize =? 32 then u32_at buf (Z.to_nat (4 * e))
  else if fatsize =? 16 then u16_at buf (Z.to_nat (2 * e))
  else
    let i := Z.to_nat (3 * e / 2) in
    b0 ← buf !! i; b1 ← buf !! S i; Some (if Z.even e then b0 + 0x100 * (b1 mod 0x10) else b0 / 0x10 + 0x10 * b1).
Lemma field x k w : 0 <= k -> 0 <= w -> (x .& (Z.ones w ≪ k)) ≫ k = (x / 2 ^ k) mod 2 ^ w.
Proof.
  intros Hk Hw. rewrite Z.shiftr_land, Z.shiftr_shiftl_l, Z.sub_diag, Z.shiftl_0_r by lia.
  by rewrite Z.land_ones, Z.shiftr_div_pow2 by lia.
Qed.
Lemma low_field x w : 0 <= w -> x .& Z.ones w = x mod 2 ^ w.
Proof. apply Z.land_ones. Qed.
Section nibbles.
Context (a b c d : Z) (Ha : byte a) (Hb : byte b) (Hc : byte c) (Hd : byte d).
Lemma nibble_0 : (a + 0x100 * b) .& 0xfff = a + 0x100 * (b mod 0x10).
Proof. clear c d Hc Hd. change 0xfff with (Z.ones 12). rewrite low_field by lia. unfold byte in *. change (2 ^ 12) with 4096. zdm. Qed.
Lemma nibble_3 : ((a + 0x100 * b) .& 0xfff0) ≫ 4 = a / 0x10 + 0x10 * b.
Proof. clear c d Hc Hd. change 0xfff0 with (Z.ones 12 ≪ 4). rewrite field by lia. unfold byte in *. change (2 ^ 12) with 4096. change (2 ^ 4) with 16. zdm. Qed.
Lemma nibble_1 : (((c + 0x100 * d) .& 0x00ff) ≪ 4) .| (((a + 0x100 * b) .& 0xf000) ≫ 12) = b / 0x10 + 0x10 * c.
Proof.
  change 0xf000 with (Z.ones 4 ≪ 12). change 0x00ff with (Z.ones 8). rewrite field, low_field, Z.shiftl_mul_pow2 by lia.
  unfold byte in *. change (2 ^ 12) with 4096. change (2 ^ 8) with 256. rewrite lor_add by zdm. change (2 ^ 4) with 16. zdm.
Qed.
Lemma nibble_2 : (((c + 0x100 * d) .& 0x000f) ≪ 8) .| (((a + 0x100 * b) .& 0xff00) ≫ 8) = b + 0x100 * (c mod 0x10).
Proof.
  change 0xff00 with (Z.ones 8 ≪ 8). change 0x000f with (Z.ones 4). rewrite field, low_field, Z.shiftl_mul_pow2 by lia.
  unfold byte in *. change (2 ^ 4) with 16. change (2 ^ 8) with 256. rewrite (lor_add _ _ 8) by zdm. change (2 ^ 8) with 256. zdm.
Qed.
End nibbles.
Lemma even_lookup (buf : list Z) (i : nat) x : zlen buf mod 2 = 0 -> buf !! (2 * i)%nat = Some x -> is_Some (buf !! S (2 * i)).
Proof. intros He Hi%lookup_lt_Some. apply lookup_lt_is_Some. zdm. Qed.
Lemma table_entry_ok m buf e v : Forall byte buf -> zlen buf mod 2 = 0 -> 0 <= e < 0x10000000 ->
  entry_of (fatsize m) buf e = Some v -> table_entry m buf e = Some v.
Proof.
  intros Hbytes Heven He. unfold entry_of, table_entry. case_if; [done|]. case_if; [done|].
  rewrite u32_small by lia. set (q := Z.to_nat (e / 4)).
  destruct (buf !! Z.to_nat (3 * e / 2)) as [x|] eqn:Ex; [|done]. cbn [mbind option_bind].
  destruct (buf !! S (Z.to_nat (3 * e / 2))) as [y|] eqn:Ey; [|done]. intros [= <-].
  pose proof (proj1 (Forall_lookup _ _) Hbytes) as Hb. pose proof (Hb _ _ Ex) as Hx. pose proof (Hb _ _ Ey) as Hy.
  assert (Hk : e .& 3 = e mod 4) by apply (low_field e 2 ltac:(lia)). rewrite Hk. clear Hk.
  assert (e mod 4 = 0 \/ e mod 4 = 1 \/ e mod 4 = 2 \/ e mod 4 = 3) as [Hr|[Hr|[Hr|Hr]]] by zdm;
    assert (e = 4 * Z.of_nat q + e mod 4) as Hq by (unfold q; zdm); rewrite Hr in *; clearbody q.
  - replace (Z.to_nat (3 * e / 2)) with (2 * (3 * q))%nat in Ex, Ey by zdm.
    replace (Z.to_nat (2 * (e * 3 / 4))) with (2 * (3 * q))%nat by zdm.
    change (0 =? 0) with true. unfold u16_at. rewrite Ex, Ey. cbn [mbind option_bind].
    replace (Z.even e) with true by (rewrite Hq; by rewrite Z.even_add, Z.even_mul). by rewrite nibble_0.
  - replace (Z.to_nat (3 * e / 2)) with (S (2 * (3 * q)))%nat in Ex, Ey by zdm.
    replace (Z.to_nat (2 * (e * 3 / 4))) with (2 * (3 * q))%nat by zdm.
    replace (Z.to_nat (2 * (e * 3 / 4 + 1))) with (2 * (3 * q + 1))%nat by zdm.
    replace (S (S (2 * (3 * q)))) with (2 * (3 * q + 1))%nat in Ey by lia.
    destruct (even_lookup _ _ _ Heven Ey) as [z Ez].
    destruct (lookup_lt_is_Some_2 buf (2 * (3 * q))) as [w Ew]; [apply lookup_lt_Some in Ex; lia|].
    change (1 =? 0) with false. change (1 =? 1) with true. unfold u16_at. rewrite Ew, Ex, Ey, Ez. cbn [mbind option_bind].
    replace (Z.even e) with false by (rewrite Hq; by rewrite Z.even_add, Z.even_mul).
    rewrite nibble_1 by (done || by eapply Hb). done.
  - replace (Z.to_nat (3 * e / 2)) with (S (2 * (3 * q + 1)))%nat in Ex, Ey by zdm.
    replace (Z.to_nat (2 * (e * 3 / 4))) with (2 * (3 * q + 1))%nat by zdm.
    replace (Z.to_nat (2 * (e * 3 / 4 + 1))) with (2 * (3 * q + 2))%nat by zdm.
    replace (S (S (2 * (3 * q + 1)))) with (2 * (3 * q + 2))%nat in Ey by lia.
    destruct (even_lookup _ _ _ Heven Ey) as [z Ez].
    destruct (lookup_lt_is_Some_2 buf (2 * (3 * q + 1))) as [w Ew]; [apply lookup_lt_Some in Ex; lia|].
    change (2 =? 0) with false. change (2 =? 1) with false. change (2 =? 2) with true.
    unfold u16_at. rewrite Ew, Ex, Ey, Ez. cbn [mbind option_bind].
    replace (Z.even e) with true by (rewrite Hq; by rewrite Z.even_add, Z.even_mul).
    rewrite nibble_2 by (done || by eapply Hb). done.
  - replace (Z.to_nat (3 * e / 2)) with (2 * (3 * q + 2))%nat in Ex, Ey by zdm.
    replace (Z.to_nat (2 * (e * 3 / 4))) with (2 * (3 * q + 2))%nat by zdm.
    change (3 =? 0) with false. change (3 =? 1) with false. change (3 =? 2) with false.
    unfold u16_at. rewrite Ex, Ey. cbn [mbind option_bind].
    replace (Z.even e) with false by (rewrite Hq; by rewrite Z.even_add, Z.even_mul). by rewrite nibble_3.
Qed.
(** Entries of a part of the table that starts with the entry [e0], and of a buffer that starts with it. *)
Lemma u16_part buf part (s w i : nat) v : (forall j, (j < w)%nat -> part !! j = buf !! (s + j)%nat) -> (i + 1 < w)%nat ->
  u16_at buf (s + i) = Some v -> u16_at part i = Some v.
Proof. intros Hp Hi. unfold u16_at. rewrite !Hp by lia. by rewrite Nat.add_succ_r. Qed.
Lemma entry_part fs buf part (s w : nat) e0 off n v : 0 <= e0 -> 0 <= off < n ->
  (fs = 12 /\ e0 mod 2 = 0 /\ n mod 2 = 0 /\ 2 * Z.of_nat s = 3 * e0 /\ 2 * Z.of_nat w = 3 * n
   \/ fs = 16 /\ Z.of_nat s = 2 * e0 /\ Z.of_nat w = 2 * n \/ fs = 32 /\ Z.of_nat s = 4 * e0 /\ Z.of_nat w = 4 * n) ->
  (forall j, (j < w)%nat -> part !! j = buf !! (s + j)%nat) ->
  entry_of fs buf (e0 + off) = Some v -> entry_of fs part off = Some v.
Proof.
  intros He Ho Hfs Hp. unfold entry_of.
  destruct Hfs as [(-> & Hm & Hn & Hs & Hw)|[(-> & Hs & Hw)|(-> & Hs & Hw)]]; cbn [Z.eqb Pos.eqb].
  - replace (Z.to_nat (3 * (e0 + off) / 2)) with (s + Z.to_nat (3 * off / 2))%nat by zdm.
    rewrite Hp by zdm. rewrite Hp by zdm. rewrite Nat.add_succ_r. rewrite Z.even_add.
    replace (Z.even e0) with true by (symmetry; apply Z.even_spec; exists (e0 / 2); zdm).
    by destruct (Z.even off).
  - replace (Z.to_nat (2 * (e0 + off))) with (s + Z.to_nat (2 * off))%nat by lia. apply (u16_part _ _ _ w); [done|lia].
  - replace (Z.to_nat (4 * (e0 + off))) with (s + Z.to_nat (4 * off))%nat by lia. unfold u32_at.
    destruct (u16_at buf (s + Z.to_nat (4 * off))) as [lo|] eqn:E1; [|done]. destruct (u16_at buf (_ + 2)) as [hi|] eqn:E2; [|done].
    rewrite <- Nat.add_assoc in E2. rewrite (fun H => u16_part _ _ _ _ _ _ Hp H E1) by lia. by rewrite (fun H => u16_part _ _ _ _ _ _ Hp H E2) by lia.
Qed.
(** An entry that is there is inside of the table. *)
Lemma entry_inside fs buf e v : 0 <= e -> fs = 12 \/ fs = 16 \/ fs = 32 -> entry_of fs buf e = Some v ->
  (if fs =? 32 then 4 * e + 3 else if fs =? 16 then 2 * e + 1 else 3 * e / 2 + 1) < zlen buf.
Proof.
  intros He Hfs. unfold entry_of. destruct Hfs as [->|[->| ->]]; cbn [Z.eqb Pos.eqb].
  - set (i := Z.to_nat _). destruct (buf !! i); [|done]. destruct (buf !! S i) eqn:E; [|done]. apply lookup_lt_Some in E. intros _. unfold i in E. zdm.
  - unfold u16_at. set (i := Z.to_nat _). destruct (buf !! i); [|done]. destruct (buf !! S i) eqn:E; [|done]. apply lookup_lt_Some in E. lia.
  - unfold u32_at, u16_at. set (i := Z.to_nat _). destruct (buf !! i); [|done]. destruct (buf !! S i); [|done]. cbn [mbind option_bind].
    destruct (buf !! (i + 2)%nat); [|done]. destruct (buf !! S (i + 2)) eqn:E; [|done]. apply lookup_lt_Some in E. lia.
Qed.
Lemma u16_prefix l1 l2 i v : l1 `prefix_of` l2 -> u16_at l1 i = Some v -> u16_at l2 i = Some v.
Proof.
  intros Hp. unfold u16_at. destruct (l1 !! i) eqn:E1; [|done]. destruct (l1 !! S i) eqn:E2; [|done].
  by rewrite (prefix_lookup_Some _ _ _ _ E1 Hp), (prefix_lookup_Some _ _ _ _ E2 Hp).
Qed.
Lemma u32_prefix l1 l2 i v : l1 `prefix_of` l2 -> u32_at l1 i = Some v -> u32_at l2 i = Some v.
Proof.
  intros Hp. unfold u32_at. destruct (u16_at l1 i) eqn:E1; [|done]. destruct (u16_at l1 (i + 2)) eqn:E2; [|done].
  by rewrite (u16_prefix _ _ _ _ Hp E1), (u16_prefix _ _ _ _ Hp E2).
Qed.
Lemma table_entry_prefix m l1 l2 e v : l1 `prefix_of` l2 -> table_entry m l1 e = Some v -> table_entry m l2 e = Some v.
Proof.
  intros Hp. unfold table_entry. case_if; [by apply u32_prefix|]. case_if; [by apply u16_prefix|].
  set (i := Z.to_nat (2 * (u32 (e * 3) / 4))). set (j := Z.to_nat (2 * (u32 (e * 3) / 4 + 1))).
  destruct (u16_at l1 i) eqn:E1; [|by repeat case_if]. rewrite (u16_prefix _ _ _ _ Hp E1).
  destruct (u16_at l1 j) eqn:E2; [by rewrite (u16_prefix _ _ _ _ Hp E2)|]. cbn [mbind option_bind]. repeat case_if; done.
Qed.
Section spec.
Context {D : Type} {Reader : BlockReader D} {Laws : BlockDeviceLaws D}.

(** ** Sectors *)
(** The sectors of [bufs], one after the other from sector [s] on. *)
Definition holds (d : D) (s : Z) (bufs : list (list Z)) : Prop :=
  map (sector d) (seqZ s (zlen bufs)) = map Some bufs.
Lemma holds_app d s b1 b2 : holds d s (b1 ++ b2) <-> holds d s b1 /\ holds d (s + zlen b1) b2.
Proof.
  unfold holds. rewrite length_app, Nat2Z.inj_add, seqZ_app, !map_app by lia. split.
  - intros H. by apply app_inj_1 in H; [|rewrite !length_map, length_seqZ; lia].
  - intros [-> ->]. done.
Qed.
Lemma holds_sub d s bufs i n : holds d s bufs -> (i <= length bufs)%nat ->
  holds d (s + Z.of_nat i) (take n (drop i bufs)).
Proof.
  intros H Hl. rewrite <- (take_drop i bufs), <- (take_drop n (drop i bufs)) in H.
  apply holds_app in H as [_ H]. apply holds_app in H as [H _]. by rewrite length_take, Nat.min_l in H by lia.
Qed.
Lemma holds_inj d s b1 b2 : holds d s b1 -> holds d s b2 -> length b1 = length b2 -> b1 = b2.
Proof. unfold holds. intros H1 H2 Hl. rewrite Hl, H2 in H1. by apply (inj (map Some)) in H1. Qed.
Lemma read_holds d s bufs : works d -> holds d s bufs -> 0 <= s < 0x100000000 ->
  zlen bufs = 1 \/ s + zlen bufs < 0x100000000 ->
  exists d', block_read d s (zlen bufs) = Some (zlen bufs, d', concat bufs) /\ same_disk d d' /\ works d'.
Proof.
  intros Hw Hh Hs Hn. destruct (block_read_law d s (zlen bufs) Hw Hs ltac:(lia) Hn) as (r & d' & buf & Hr & Hsame & Hw' & Hd & Hall).
  assert (r = zlen bufs) as ->.
  { apply Hall. intros i Hi. assert (sector d i ∈ map Some bufs) as Hin.
    { rewrite <- Hh. apply list_elem_of_fmap. exists i. split; [done|]. apply elem_of_seqZ. lia. }
    apply list_elem_of_fmap in Hin as (b & -> & _). by eexists. }
  destruct (Hd eq_refl) as (bufs' & Hm & ->). unfold holds in Hh. rewrite Hm in Hh.
  apply (inj (map Some)) in Hh. subst bufs'. exists d'. rewrite Hr. split_and!; done.
Qed.
Lemma concat_length {A} (n : nat) (l : list (list A)) : Forall (fun b => length b = n) l -> length (concat l) = (length l * n)%nat.
Proof. induction 1 as [|b l Hb _ IH]; [done|]. cbn. rewrite length_app, IH, Hb. lia. Qed.
Lemma concat_take {A} (n k : nat) (l : list (list A)) : Forall (fun b => length b = n) l ->
  concat (take k l) = take (k * n) (concat l).
Proof.
  intros H. revert k. induction H as [|b l Hb _ IH]; intros k; [by cbn; rewrite !take_nil|].
  destruct k as [|k]; [done|]. cbn [take concat]. rewrite IH, take_app_ge by lia. f_equal. f_equal. lia.
Qed.
Lemma concat_drop {A} (n k : nat) (l : list (list A)) : Forall (fun b => length b = n) l ->
  concat (drop k l) = drop (k * n) (concat l).
Proof.
  intros H. revert k. induction H as [|b l Hb _ IH]; intros k; [by cbn; rewrite !drop_nil|].
  destruct k as [|k]; [done|]. cbn [drop concat]. rewrite IH, drop_app_ge by lia. f_equal. lia.
Qed.

(** ** The volume and the state of the driver *)
Section volume.
Context (m : fsdata) (d0 : D) (base : Z) (fat : list (list Z)).
Abbreviation sect := (sect_size m).
Definition table : list Z := concat fat.
(** The table [fat] is on the disk, behind the reserved sectors of the partition at [base]. *)
Record volume : Prop := {
  v_sect : 0 < sect /\ sect mod 32 = 0;
  v_clust : 0 < clust_size m /\ clust_size m * sect <= MAX_CLUSTSIZE;
  v_size : fatsize m = 12 \/ fatsize m = 16 \/ fatsize m = 32;
  v_fat : holds d0 (base + fat_sect m) fat;
  v_fat_sect : Forall (fun b => length b = Z.to_nat sect) fat;
  v_fatlength : zlen fat = fatlength m;
  v_bytes : Forall byte table;
  v_base : 0 <= base /\ 0 <= fat_sect m /\ fatlength m < 0x10000000 /\ base + fat_sect m + fatlength m < 0x100000000 }.
Definition chunk (k : Z) : list (list Z) := take 6 (drop (Z.to_nat (6 * k)) fat).
Record mounted (st : fat_state D) : Prop := {
  m_same : same_disk d0 (disk st);
  m_works : works (disk st);
  m_dev : is_Some (cur_dev st);
  m_base : start (cur_part_info st) = base;
  m_buf : zlen (fatbuf st) = 6 * sect;
  m_cache : fatbufnum st = -1 \/ 0 <= fatbufnum st < 0x10000000 /\ concat (chunk (fatbufnum st)) `prefix_of` fatbuf st;
  m_vfatname : length (get_contents_vfatname_block st) = Z.to_nat MAX_CLUSTSIZE;
  m_dentfromdir : length (get_dentfromdir_block st) = Z.to_nat MAX_CLUSTSIZE;
  m_read_at : length (do_fat_read_at_block st) = Z.to_nat MAX_CLUSTSIZE }.
Definition with_disk (d : D) (st : fat_state D) : fat_state D :=
  mk_state d (cur_dev st) (cur_part_info st) (fatbuf st) (fatbufnum st)
    (get_contents_vfatname_block st) (get_dentfromdir_block st) (do_fat_read_at_block st).
(** The blocks for directories. *)
Definition dir_blocks (st : fat_state D) : list Z * list Z := (get_dentfromdir_block st, do_fat_read_at_block st).

Lemma disk_read_ok st blk bufs : mounted st -> holds d0 (base + blk) bufs -> 0 <= base + blk ->
  zlen bufs < 0x80000000 -> base + blk + zlen bufs < 0x100000000 ->
  exists d', disk_read blk (zlen bufs) st = Some ((zlen bufs, concat bufs), with_disk d' st) /\ mounted (with_disk d' st).
Proof.
  intros [Hsame Hw [dev Hdev] Hb ? ? ? ? ?] Hh Hs Hr Hn.
  assert (holds (disk st) (base + blk) bufs) as Hh'
    by (unfold holds in *; rewrite <- Hh; apply map_ext; intros i; apply Hsame).
  destruct (read_holds (disk st) (base + blk) bufs Hw Hh' ltac:(lia) ltac:(lia)) as (d' & Hrd & Hsame' & Hw').
  exists d'. split; [|split; cbn; try done; by etransitivity].
  unfold disk_read, gets, lift, set_disk, mbind, M_bind, mret, M_ret. cbn. rewrite Hdev. cbn. rewrite Hb.
  rewrite u32_small by lia. unfold mbind, M_bind. rewrite Hrd. cbn. rewrite s32_small by lia. done.
Qed.

Lemma fat_chunk_bytes (V : volume) k : 0 <= k ->
  concat (chunk k) = take (Z.to_nat (6 * sect)) (drop (Z.to_nat (6 * k * sect)) table).
Proof.
  intros Hk. pose proof (v_sect V) as [Hs _]. pose proof (v_fat_sect V) as Hf. unfold chunk, table.
  rewrite (concat_take (Z.to_nat sect)), (concat_drop (Z.to_nat sect)) by (done || by apply Forall_drop).
  by replace (6 * Z.to_nat sect)%nat with (Z.to_nat (6 * sect)) by lia;
    replace (Z.to_nat (6 * k) * Z.to_nat sect)%nat with (Z.to_nat (6 * k * sect)) by lia.
Qed.
Lemma table_length (V : volume) : zlen table = fatlength m * sect.
Proof.
  pose proof (v_sect V) as [Hs _]. unfold table. rewrite (concat_length (Z.to_nat sect)) by apply (v_fat_sect V).
  rewrite <- (v_fatlength V). lia.
Qed.
Lemma entries_some (V : volume) : exists n, entries_in_buf m = Some n /\ 0 < n
  /\ (fatsize m = 12 /\ n mod 2 = 0 /\ 3 * n = 12 * sect \/ fatsize m = 16 /\ 2 * n = 6 * sect \/ fatsize m = 32 /\ 4 * n = 6 * sect).
Proof.
  pose proof (v_sect V) as [Hs Hm]. unfold entries_in_buf, FATBUFBLOCKS.
  destruct (v_size V) as [->|[->| ->]]; cbn [Z.eqb Pos.eqb]; eexists; (split; [reflexivity|]); (split; [zdm|]).
  - left. split; [done|]. split; zdm.
  - right. left. split; [done|]. zdm.
  - right. right. split; [done|]. zdm.
Qed.
(** An entry in the part of the table with its number. *)
Lemma chunk_entry (V : volume) n e v : entries_in_buf m = Some n -> 0 <= e -> entry_of (fatsize m) table e = Some v ->
  table_entry m (concat (chunk (e / n))) (e mod n) = Some v /\ 6 * (e / n) < fatlength m.
Proof.
  intros Hn He Hv. destruct (entries_some V) as (n' & Hn' & Hpos & Hfs). rewrite Hn in Hn'. injection Hn' as <-.
  pose proof (v_sect V) as [Hs Hm]. pose proof (Z.mod_pos_bound e n Hpos) as Hr. pose proof (Z.div_pos e n He Hpos) as Hq.
  pose proof (Z.div_mod e n ltac:(lia)) as Hdm.
  pose proof (entry_inside _ _ _ _ He (v_size V) Hv) as Hin. rewrite (table_length V) in Hin.
  assert (6 * (e / n) < fatlength m) as Hk.
  { set (k := e / n) in *. clearbody k. assert (6 * k * sect < fatlength m * sect) as Hlt; [|nia].
    destruct Hfs as [(Hf & _ & H)|[[Hf H]|[Hf H]]]; rewrite Hf in Hin; cbn [Z.eqb Pos.eqb] in Hin; nia || zdm. }
  split; [|done]. set (k := e / n) in *. set (off := e mod n) in *.
  assert (clust_size m * sect <= 65536) as Hc by apply (v_clust V). pose proof (proj1 (v_clust V)) as Hc0.
  assert (sect <= 65536) as Hsect by nia.
  apply table_entry_ok.
  - rewrite fat_chunk_bytes by done. apply Forall_take, Forall_drop, (v_bytes V).
  - rewrite (concat_length (Z.to_nat sect)) by (apply Forall_take, Forall_drop, (v_fat_sect V)).
    replace (Z.of_nat (length (chunk k) * Z.to_nat sect)) with (zlen (chunk k) * (sect / 2) * 2); [by apply Z.mod_mul|].
    assert (sect = sect / 2 * 2) as Heven by (clear -Hm; zdm). rewrite Nat2Z.inj_mul, Z2Nat.id, <- Z.mul_assoc, <- Heven by lia. done.
  - unfold off. destruct Hfs as [(_ & _ & H)|[[_ H]|[_ H]]]; lia.
  - apply (entry_part _ table _ (Z.to_nat (6 * k * sect)) (Z.to_nat (6 * sect)) (n * k) off n).
    + nia.
    + done.
    + destruct Hfs as [(Hf & Hn2 & H)|[[Hf H]|[Hf H]]]; rewrite !Z2Nat.id by nia.
      * left. split; [done|]. split; [|split; [done|nia]]. rewrite <- Zmult_mod_idemp_l, Hn2. done.
      * right. left. split; [done|]. nia.
      * right. right. split; [done|]. nia.
    + intros j Hj. rewrite fat_chunk_bytes by done. rewrite lookup_take_lt by done. by rewrite lookup_drop.
    + by rewrite <- Hdm.
Qed.
Lemma fill_ok (V : volume) st k : mounted st -> 0 <= k -> 6 * k < fatlength m ->
  exists st', fill_fatbuf m k st = Some (true, st') /\ mounted st' /\ dir_blocks st' = dir_blocks st
    /\ get_contents_vfatname_block st' = get_contents_vfatname_block st /\ concat (chunk k) `prefix_of` fatbuf st'.
Proof.
  intros Hst Hk Hlt. pose proof (v_base V) as (Hb0 & Hb1 & Hb2 & Hb3). pose proof (v_fatlength V) as Hlen.
  unfold fill_fatbuf, FATBUFBLOCKS. rewrite (Z.mul_comm k 6), !(u32_small (6 * k)), (u32_small (6 * k + 6)) by lia.
  assert ((if fatlength m <? 6 * k + 6 then u32 (fatlength m - 6 * k) else 6) = zlen (chunk k)) as ->.
  { unfold chunk. rewrite length_take, length_drop. case_if; [rewrite u32_small by lia|]; lia. }
  assert (zlen (chunk k) <= 6 /\ 6 * k + zlen (chunk k) <= fatlength m) as [Hl6 Hl]
    by (unfold chunk; rewrite length_take, length_drop; lia).
  rewrite u32_small by lia.
  destruct (disk_read_ok st (6 * k + fat_sect m) (chunk k) Hst) as (d' & Hrd & Hst'); [|lia..|].
  { replace (base + (6 * k + fat_sect m)) with (base + fat_sect m + Z.of_nat (Z.to_nat (6 * k))) by lia.
    apply holds_sub; [apply (v_fat V)|]. lia. }
  rewrite (bind_step _ _ _ _ _ Hrd). cbn [gets mbind M_bind with_disk fatbuf fatbufnum].
  assert (zlen (concat (chunk k)) <= 6 * sect) as Hcl.
  { rewrite (concat_length (Z.to_nat sect)) by (apply Forall_take, Forall_drop, (v_fat_sect V)).
    pose proof (v_sect V). nia. }
  pose proof (m_buf _ Hst) as Hbuf.
  unfold gets, lift, set_fatbuf, mbind, M_bind, mret, M_ret. cbn. rewrite over_ok by lia. cbn.
  destruct (Z.ltb_spec (zlen (chunk k)) 0); [lia|]. cbn. eexists. split; [done|].
  split; [|split; [done|split; [done|by eexists]]].
  destruct Hst' as [? ? ? ? ? ? ? ? ?]. split; try done; cbn.
  - rewrite length_app, length_drop. lia.
  - right. split; [lia|]. by eexists.
Qed.
(** The cache does not show: the entry is that of the table. *)
Lemma get_fatent_ok (V : volume) st e v : mounted st -> 0 <= e < 0x100000000 -> entry_of (fatsize m) table e = Some v ->
  exists st', get_fatent m e st = Some (v, st') /\ mounted st' /\ dir_blocks st' = dir_blocks st
    /\ get_contents_vfatname_block st' = get_contents_vfatname_block st.
Proof.
  intros Hst He Hv. destruct (entries_some V) as (n & Hn & Hpos & _).
  destruct (chunk_entry V n e v Hn ltac:(lia) Hv) as [Hte Hk]. pose proof (v_base V) as (_ & _ & Hb & _).
  pose proof (Z.div_pos e n ltac:(lia) Hpos) as Hq.
  unfold get_fatent. rewrite Hn. destruct (Z.eqb_spec n 0); [lia|].
  replace (u32 (e - e / n * n)) with (e mod n)
    by (rewrite Z.mod_eq, (Z.mul_comm n) by lia; symmetry; apply u32_small; rewrite Z.mul_comm; zdm).
  assert (exists st', (if e / n =? u32 (fatbufnum st) then mret true else fill_fatbuf m (e / n)) st = Some (true, st')
    /\ mounted st' /\ dir_blocks st' = dir_blocks st
    /\ get_contents_vfatname_block st' = get_contents_vfatname_block st /\ concat (chunk (e / n)) `prefix_of` fatbuf st')
    as (st' & Hfill & Hst' & Hd & Hv' & Hpre).
  { destruct (Z.eqb_spec (e / n) (u32 (fatbufnum st))) as [Hnum|]; [|by apply fill_ok].
    exists st. split; [done|]. split; [done|]. split; [done|]. split; [done|].
    destruct (m_cache _ Hst) as [Hc|[Hc Hp]].
    - rewrite Hc in Hnum. change (u32 (-1)) with 0xffffffff in Hnum. lia.
    - rewrite u32_small in Hnum by lia. by rewrite Hnum. }
  rewrite (bind_step _ _ st (fatbufnum st) st) by done. rewrite (bind_step _ _ _ _ _ Hfill). cbn [negb].
  rewrite (bind_step _ _ st' (fatbuf st') st') by done. unfold lift. rewrite (table_entry_prefix _ _ _ _ _ Hpre Hte). cbn.
  exists st'. done.
Qed.

(** ** Clusters *)
(** A run of sectors of the volume from [blk] on. *)
Record on_volume (blk : Z) (run : list (list Z)) : Prop := {
  r_holds : holds d0 (base + blk) run;
  r_sect : Forall (fun b => length b = Z.to_nat sect) run;
  r_range : 0 <= blk /\ 0 <= base /\ base + blk + zlen run < 0x80000000 }.
Lemma on_volume_sub blk run i n : on_volume blk run -> (i <= length run)%nat ->
  on_volume (blk + Z.of_nat i) (take n (drop i run)).
Proof.
  intros [H1 H2 H3] Hi. split.
  - rewrite Z.add_assoc. by apply holds_sub.
  - by apply Forall_take, Forall_drop.
  - rewrite length_take, length_drop. lia.
Qed.
Lemma on_volume_app blk r1 r2 : on_volume blk r1 -> on_volume (blk + zlen r1) r2 -> on_volume blk (r1 ++ r2).
Proof.
  intros [H1 H2 H3] [G1 G2 G3]. split.
  - apply holds_app. split; [done|]. by rewrite <- Z.add_assoc.
  - by apply Forall_app.
  - rewrite length_app. lia.
Qed.
Lemma read_run st blk run : mounted st -> on_volume blk run ->
  exists d', disk_read blk (zlen run) st = Some ((zlen run, concat run), with_disk d' st) /\ mounted (with_disk d' st).
Proof. intros Hst [H1 H2 H3]. by apply disk_read_ok; try lia. Qed.
(** One of the sectors of a run. *)
Lemma read_single_of (V : volume) st blk run i b : mounted st -> on_volume blk run -> run !! i = Some b ->
  exists d', disk_read (u32 (blk + Z.of_nat i)) 1 st = Some ((1, b), with_disk d' st) /\ mounted (with_disk d' st)
    /\ one_sector m b = Some b.
Proof.
  intros Hst Hr Hb. pose proof (lookup_lt_Some _ _ _ Hb) as Hi.
  assert (take 1 (drop i run) = [b]) as Ht by (rewrite (drop_S _ _ _ Hb); done).
  pose proof (on_volume_sub blk run i 1 Hr ltac:(lia)) as Hs. rewrite Ht in Hs.
  destruct (read_run st _ [b] Hst Hs) as (d' & Hrd & Hst'). exists d'. split; [|split; [done|]].
  - rewrite u32_small by (destruct Hs as [_ _ Hs]; cbn in Hs; pose proof (r_range _ _ Hr); lia).
    change (zlen [b]) with 1 in Hrd. rewrite Hrd. cbn. by rewrite app_nil_r.
  - destruct Hs as [_ Hf _]. apply Forall_cons in Hf as [Hf _]. unfold one_sector. rewrite Hf.
    destruct (v_sect V) as [Hs _]. rewrite Z2Nat.id by lia. by rewrite Z.eqb_refl.
Qed.
Lemma run_length (V : volume) (run : list (list Z)) : Forall (fun b => length b = Z.to_nat sect) run -> zlen (concat run) = zlen run * sect.
Proof. intros H. rewrite (concat_length _ _ H). pose proof (v_sect V). lia. Qed.
Lemma sector_loop_ok (V : volume) blk run : on_volume blk run -> forall fuel i st r, mounted st ->
  0 <= r < sect -> (length run - i < fuel)%nat -> (i <= length run)%nat ->
  exists d', sector_loop fuel m (u32 (blk + Z.of_nat i)) (Z.of_nat (length run - i) * sect + r) st
    = Some ((Some (u32 (blk + zlen run), r), concat (drop i run)), with_disk d' st) /\ mounted (with_disk d' st).
Proof.
  intros Hr. pose proof (v_sect V) as [Hs _]. induction fuel as [|fuel IH]; intros i st r Hst Hrr Hf Hi; [lia|]. cbn [sector_loop].
  destruct (decide (i = length run)) as [->|Hne].
  - rewrite Nat.sub_diag. change (Z.of_nat 0) with 0. rewrite Z.mul_0_l, Z.add_0_l. destruct (Z.leb_spec sect r); [lia|].
    exists (disk st). rewrite drop_all. by destruct st.
  - destruct (Z.leb_spec sect (Z.of_nat (length run - i) * sect + r)); [|nia].
    destruct (lookup_lt_is_Some_2 run i ltac:(lia)) as [b Hb].
    destruct (read_single_of V st blk run i b Hst Hr Hb) as (d1 & Hrd & Hst1 & Hone).
    rewrite (bind_step _ _ _ _ _ Hrd). change (negb (1 =? 1)) with false. cbn iota. rewrite Hone.
    rewrite (bind_step _ _ _ b (with_disk d1 st)) by done.
    replace (u32 (u32 (blk + Z.of_nat i) + 1)) with (u32 (blk + Z.of_nat (S i)))
      by (unfold u32; rewrite Zplus_mod_idemp_l; f_equal; lia).
    replace (Z.of_nat (length run - i) * sect + r - sect) with (Z.of_nat (length run - S i) * sect + r) by nia.
    destruct (IH (S i) (with_disk d1 st) r Hst1 Hrr ltac:(lia) ltac:(lia)) as (d2 & Hl & Hst2).
    rewrite (bind_step _ _ _ _ _ Hl). exists d2. rewrite (drop_S _ _ _ Hb). done.
Qed.
(** A cluster, or a run of clusters, read as a whole or in part, into a buffer at any address. *)
Lemma get_cluster_ok (V : volume) st c addr size run : mounted st -> 0 < c ->
  on_volume (data_begin m + c * clust_size m) run -> 0 <= size <= zlen run * sect ->
  exists d', get_cluster m c addr size st = Some ((0, take (Z.to_nat size) (concat run)), with_disk d' st)
    /\ mounted (with_disk d' st).
Proof.
  intros Hst Hc Hr Hsize. pose proof (v_sect V) as [Hs _]. unfold get_cluster. destruct (Z.ltb_spec 0 c); [|lia].
  destruct (Z.eqb_spec sect 0); [lia|]. set (blk := data_begin m + c * clust_size m) in *.
  pose proof (Z.div_mod size sect ltac:(lia)) as Hdm. pose proof (Z.mod_pos_bound size sect Hs) as Hmod.
  set (q := Z.to_nat (size / sect)). set (r := size mod sect) in *.
  assert (size = Z.of_nat q * sect + r) as Hsz by (unfold q; pose proof (Z.div_pos size sect ltac:(lia) Hs); lia).
  assert (q <= length run)%nat as Hq by nia. pose proof (r_range _ _ Hr) as Hrange.
  pose proof (on_volume_sub blk run 0 q Hr ltac:(lia)) as Hrun. rewrite drop_0, Z.add_0_r in Hrun.
  assert (length (take q run) = q) as Hlq by (rewrite length_take; lia).
  assert (exists d1, (if negb (addr .& (ARCH_DMA_MINALIGN - 1) =? 0)
      then sector_loop (S q) m (u32 blk) size else whole_sectors m (u32 blk) size) st
    = Some ((Some (u32 (blk + Z.of_nat q), r), concat (take q run)), with_disk d1 st) /\ mounted (with_disk d1 st))
    as (d1 & H1 & Hst1).
  { case_if.
    - destruct (sector_loop_ok V blk (take q run) Hrun (S q) 0 st r Hst Hmod ltac:(lia) ltac:(lia)) as (d1 & H1 & Hst1).
      exists d1. split; [|done]. rewrite Z.add_0_r, Nat.sub_0_r, Hlq, <- Hsz in H1. exact H1.
    - destruct (read_run st blk (take q run) Hst Hrun) as (d1 & H1 & Hst1). exists d1. split; [|done].
      unfold whole_sectors. rewrite (u32_small blk) by lia. replace (size / sect) with (zlen (take q run)) by (rewrite Hlq; unfold q; rewrite Z2Nat.id; [done|apply Z.div_pos; lia]).
      rewrite (bind_step _ _ _ _ _ H1). rewrite u32_small by lia. rewrite Z.eqb_refl. cbn [negb].
      rewrite (run_length V) by apply (r_sect _ _ Hrun). rewrite Z.eqb_refl. cbn [negb]. rewrite Hlq.
      by replace (size - Z.of_nat q * sect) with r by lia. }
  rewrite (bind_step _ _ _ _ _ H1). cbv beta iota. destruct (Z.eqb_spec r 0) as [Hr0|Hr0].
  - exists d1. split; [|done]. rewrite (concat_take (Z.to_nat sect)) by apply (r_sect _ _ Hr).
    by replace (q * Z.to_nat sect)%nat with (Z.to_nat size) by nia.
  - destruct (lookup_lt_is_Some_2 run q ltac:(nia)) as [b Hb].
    destruct (read_single_of V (with_disk d1 st) blk run q b Hst1 Hr Hb) as (d2 & Hrd & Hst2 & Hone).
    rewrite (bind_step _ _ _ _ _ Hrd). change (negb (1 =? 1)) with false. cbn iota. rewrite Hone.
    rewrite (bind_step _ _ _ b (with_disk d2 st)) by done. exists d2. split; [|done].
    assert (zlen (concat (take q run)) = Z.of_nat q * sect) as Hcl
      by (rewrite (run_length V) by apply (r_sect _ _ Hrun); by rewrite Hlq).
    pose proof (r_sect _ _ Hr) as Hf. rewrite Forall_forall in Hf. pose proof (Hf b ltac:(by eapply list_elem_of_lookup_2)) as Hbl.
    rewrite <- (take_drop_middle _ _ _ Hb) at 2. rewrite concat_app. cbn [concat].
    rewrite take_app_ge by lia. replace (Z.to_nat size - length (concat (take q run)))%nat with (Z.to_nat r) by lia.
    by rewrite take_app_le by lia.
Qed.

Lemma bpc_range (V : volume) : 0 < clust_size m * sect <= 65536.
Proof. pose proof (v_clust V) as [? Hc]. unfold MAX_CLUSTSIZE in Hc. pose proof (v_sect V). nia. Qed.

(** ** Chains of clusters *)
Section data.
Context (data : Z -> list (list Z)).
Abbreviation bpc := (clust_size m * sect).
Record cluster (c : Z) : Prop := {
  c_range : 2 <= c < 0x10000000;
  c_place : on_volume (data_begin m + c * clust_size m) (data c);
  c_length : zlen (data c) = clust_size m }.
Definition next_cluster (c : Z) : option Z := entry_of (fatsize m) table c.
Fixpoint linked (cs : list Z) : Prop :=
  match cs with
  | c :: ((c' :: _) as r) => next_cluster c = Some c' /\ CHECK_CLUST c' (fatsize m) = false /\ linked r
  | _ => True
  end.
(** A chain of clusters of the table, with their place on the disk. *)
Record chain (cs : list Z) : Prop := { ch_clusters : Forall cluster cs; ch_linked : linked cs }.
Definition content (cs : list Z) : list Z := concat (concat (map data cs)).

Lemma linked_tail c cs : linked (c :: cs) -> linked cs.
Proof. destruct cs; [done|]. intros (_ & _ & H). exact H. Qed.
Lemma linked_app cs1 cs2 : linked (cs1 ++ cs2) -> linked cs2.
Proof. induction cs1 as [|c cs1 IH]; [done|]. intros H. apply IH. by eapply linked_tail. Qed.
Lemma linked_mid e c pre post : linked (pre ++ e :: c :: post) -> next_cluster e = Some c /\ CHECK_CLUST c (fatsize m) = false.
Proof. intros H%linked_app. destruct H as (H1 & H2 & _). done. Qed.
Lemma content_app cs1 cs2 : content (cs1 ++ cs2) = content cs1 ++ content cs2.
Proof. unfold content. by rewrite map_app, !concat_app. Qed.
Lemma run_on_volume pre : forall c, pre = seqZ c (zlen pre) -> pre <> [] -> Forall cluster pre ->
  on_volume (data_begin m + c * clust_size m) (concat (map data pre)) /\ zlen (concat (map data pre)) = zlen pre * clust_size m.
Proof.
  induction pre as [|x pre IH]; intros c Hseq Hne Hall; [done|]. cbn [length] in Hseq.
  rewrite seqZ_cons in Hseq by lia. injection Hseq as -> Hseq. replace (Z.pred _) with (zlen pre) in Hseq by lia.
  apply Forall_cons in Hall as [[Hr Hp Hl] Hall]. cbn [map concat]. destruct pre as [|y pre].
  - cbn. rewrite app_nil_r. split; [done|lia].
  - destruct (IH (Z.succ c) Hseq ltac:(done) Hall) as [H1 H2]. split.
    + apply on_volume_app; [done|]. rewrite Hl. by replace (data_begin m + c * clust_size m + clust_size m)
        with (data_begin m + Z.succ c * clust_size m) by lia.
    + rewrite length_app. cbn [length] in *. lia.
Qed.
Lemma content_length (V : volume) cs : Forall cluster cs -> zlen (content cs) = zlen cs * bpc.
Proof.
  induction 1 as [|c cs [_ Hp Hl] _ IH]; [done|]. change (c :: cs) with ([c] ++ cs). rewrite content_app, !length_app.
  unfold content at 1. cbn [map concat]. rewrite app_nil_r. rewrite Nat2Z.inj_add, IH, (run_length V) by apply (r_sect _ _ Hp).
  rewrite Hl. cbn [length]. lia.
Qed.

(** What the driver keeps while it reads the table. *)
Definition same_blocks (st st' : fat_state D) : Prop :=
  dir_blocks st' = dir_blocks st /\ get_contents_vfatname_block st' = get_contents_vfatname_block st.
Lemma follow (V : volume) st e c : mounted st -> cluster e -> next_cluster e = Some c ->
  exists st', get_fatent m e st = Some (c, st') /\ mounted st' /\ same_blocks st st'.
Proof. intros Hst [Hr _ _] He. apply get_fatent_ok; [done|done|lia|done]. Qed.
(** The search for consecutive clusters. *)
Definition run_result (cs : list Z) (a filesize : Z) (c : Z) (r : run) : Prop :=
  match r with
  | run_all => exists pre post, cs = pre ++ post /\ pre <> [] /\ pre = seqZ c (zlen pre) /\ filesize <= a + (zlen pre - 1) * bpc
  | run_getit e a' => exists pre c' post, cs = pre ++ e :: c' :: post /\ pre ++ [e] = seqZ c (zlen pre + 1)
      /\ a' = a + zlen pre * bpc /\ a' < filesize
  | run_invalid => False
  end.
Lemma run_loop_ok (V : volume) filesize : filesize < 0x80000000 -> forall rest fuel c a st, mounted st -> chain (c :: rest) ->
  (length rest < fuel)%nat -> 0 <= a -> filesize <= a + zlen rest * bpc ->
  exists r st', run_loop fuel m bpc c a filesize st = Some (r, st') /\ mounted st' /\ same_blocks st st'
    /\ run_result (c :: rest) a filesize c r.
Proof.
  intros Hsize. pose proof (v_clust V) as [Hc0 Hc]. unfold MAX_CLUSTSIZE in Hc. pose proof (v_sect V) as [Hs _].
  assert (0 < bpc) as Hbpc by nia.
  induction rest as [|c' rest IH]; intros fuel c a st Hst Hch Hf Ha Hle; (destruct fuel as [|fuel]; [cbn in Hf; lia|]); cbn [run_loop].
  { cbn in Hle. destruct (Z.ltb_spec a filesize); [lia|]. exists run_all, st. split; [done|]. split; [done|]. split; [done|].
    exists [c], []. split; [done|]. split; [done|]. cbn. split; [done|lia]. }
  destruct (Z.ltb_spec a filesize).
  2:{ exists run_all, st. split; [done|]. split; [done|]. split; [done|].
      exists [c], (c' :: rest). split; [done|]. split; [done|]. cbn [length]. split; [done|lia]. }
  pose proof Hch as [Hcl Hln]. apply Forall_cons in Hcl as [Hcc Hcl]. pose proof Hln as (Hnext & Hchk & Hln').
  destruct (follow V st c c' Hst Hcc Hnext) as (st1 & Hfe & Hst1 & Hsb). rewrite (bind_step _ _ _ _ _ Hfe).
  apply Forall_cons in Hcl as [Hcc' Hcl]. pose proof (c_range _ Hcc') as Hr'. pose proof (c_range _ Hcc) as Hr.
  rewrite (u32_small (c' - 1)) by lia. destruct (Z.eqb_spec (c' - 1) c) as [Heq|Hneq]; cbn [negb].
  - rewrite Hchk. cbn [length] in Hf, Hle. rewrite u32_small by lia.
    destruct (IH fuel c' (a + bpc) st1 Hst1) as (r & st' & Hrun & Hst' & Hsb' & Hres);
      [split; [by apply Forall_cons|done]|lia|nia|nia|].
    exists r, st'. split; [exact Hrun|]. split; [done|]. split; [unfold same_blocks in *; destruct Hsb, Hsb'; split; congruence|].
    assert (c' = Z.succ c) as Hsucc by lia.
    destruct r as [|e a'|]; [| |done].
    + destruct Hres as (pre & post & Hcs & Hne & Hseq & Hlen). exists (c :: pre), post. cbn [length app]. split; [by rewrite Hcs|].
      split; [done|]. split; [|lia]. rewrite seqZ_cons by lia. f_equal. rewrite Hseq at 1. rewrite Hsucc. f_equal. lia.
    + destruct Hres as (pre & x & post & Hcs & Hseq & Ha' & Hlt). exists (c :: pre), x, post. cbn [length app]. split; [by rewrite Hcs|].
      split; [|lia]. rewrite seqZ_cons by lia. f_equal. rewrite Hseq, Hsucc. f_equal. lia.
  - exists (run_getit c a), st1. split; [done|]. split; [done|]. split; [done|].
    exists [], c', rest. split; [done|]. split; [done|]. cbn. lia.
Qed.
Lemma same_blocks_trans st1 st2 st3 : same_blocks st1 st2 -> same_blocks st2 st3 -> same_blocks st1 st3.
Proof. unfold same_blocks. intros [] []. split; congruence. Qed.
(** The bytes of a chain from its first cluster on, in runs of clusters. *)
Lemma contents_loop_ok (V : volume) : forall fuel c rest addr filesize got st, mounted st -> chain (c :: rest) ->
  (length rest < fuel)%nat -> 0 < filesize -> 0 <= got -> got + filesize < 0x80000000 -> filesize <= (zlen rest + 1) * bpc ->
  exists st', contents_loop fuel m bpc c addr filesize got st
    = Some ((got + filesize, take (Z.to_nat filesize) (content (c :: rest))), st') /\ mounted st' /\ same_blocks st st'.
Proof.
  pose proof (bpc_range V) as Hbpc.
  induction fuel as [|fuel IH]; intros c rest addr filesize got st Hst Hch Hf Hfs Hgot Hsum Hle; [lia|]. cbn [contents_loop].
  destruct (run_loop_ok V filesize ltac:(lia) rest (S fuel) c bpc st Hst Hch Hf ltac:(lia) ltac:(lia))
    as (r & st1 & Hrun & Hst1 & Hsb & Hres). rewrite (bind_step _ _ _ _ _ Hrun).
  pose proof Hch as [Hcl Hln]. assert (0 < c) as Hc by (apply Forall_cons in Hcl as [[] _]; lia).
  destruct r as [|e a'|]; [| |done].
  - destruct Hres as (pre & post & Hcs & Hne & Hseq & Hlen). rewrite Hcs in Hcl |- *.
    apply Forall_app in Hcl as [Hcl _]. destruct (run_on_volume pre c Hseq Hne Hcl) as [Hon Hrl].
    destruct (get_cluster_ok V st1 c addr filesize (concat (map data pre)) Hst1 Hc Hon) as (d' & Hg & Hst2);
      [rewrite Hrl; lia|].
    rewrite (bind_step _ _ _ _ _ Hg). change (negb (0 =? 0)) with false. cbn iota. rewrite s32_small by lia.
    exists (with_disk d' st1). split; [|split; [done|by eapply same_blocks_trans]].
    rewrite content_app, take_app_le; [done|]. pose proof (content_length V pre Hcl). lia.
  - destruct Hres as (pre & c' & post & Hcs & Hseq & -> & Hlt). rewrite Hcs in Hcl, Hln |- *.
    pose proof (Forall_app_2 cluster (pre ++ [e]) (c' :: post)) as _.
    replace (pre ++ e :: c' :: post) with ((pre ++ [e]) ++ c' :: post) in Hcl |- * by by rewrite <- app_assoc.
    apply Forall_app in Hcl as [Hcl Hcl'].
    assert (zlen (pre ++ [e]) = zlen pre + 1) as Hpl by (rewrite length_app; cbn; lia).
    destruct (run_on_volume (pre ++ [e]) c ltac:(by rewrite Hpl) ltac:(by destruct pre) Hcl) as [Hon Hrl].
    pose proof (content_length V _ Hcl) as Hcont. rewrite Hpl in Hrl, Hcont.
    destruct (get_cluster_ok V st1 c addr (bpc + zlen pre * bpc) (concat (map data (pre ++ [e]))) Hst1 Hc Hon) as (d' & Hg & Hst2);
      [rewrite Hrl; nia|].
    rewrite (bind_step _ _ _ _ _ Hg). change (negb (0 =? 0)) with false. cbn iota.
    destruct (linked_mid _ _ _ _ Hln) as [Hnext Hchk].
    assert (cluster e) as He by (apply Forall_app in Hcl as [_ Hcl]; by apply Forall_cons in Hcl as [? _]).
    destruct (follow V (with_disk d' st1) e c' Hst2 He Hnext) as (st3 & Hfe & Hst3 & Hsb3).
    rewrite (bind_step _ _ _ _ _ Hfe), Hchk. rewrite (u32_small (got + _)), (u32_small (filesize - _)) by nia.
    destruct (IH c' post (u32 (addr + (bpc + zlen pre * bpc))) (filesize - (bpc + zlen pre * bpc)) (got + (bpc + zlen pre * bpc)) st3)
      as (st4 & Hl & Hst4 & Hsb4); [done| | | | | | |].
    + split; [done|]. by apply linked_app with (pre ++ [e]); rewrite <- app_assoc.
    + apply (f_equal length) in Hcs. rewrite length_app in Hcs. cbn [length] in Hcs. lia.
    + lia.
    + nia.
    + lia.
    + apply (f_equal length) in Hcs. rewrite length_app in Hcs. cbn [length] in Hcs. nia.
    + rewrite (bind_step _ _ _ _ _ Hl). exists st4. split; [|split; [done|eapply same_blocks_trans; [|exact Hsb4]; eapply same_blocks_trans; [exact Hsb|exact Hsb3]]].
      replace (got + (bpc + zlen pre * bpc) + (filesize - (bpc + zlen pre * bpc))) with (got + filesize) by lia.
      rewrite content_app, (take_app_ge (content (pre ++ [e]))) by lia.
      unfold mret, M_ret. do 3 f_equal. change (concat (concat (map data (pre ++ [e])))) with (content (pre ++ [e])).
      rewrite take_ge by lia. do 2 f_equal. lia.
Qed.
(** The cluster of a position. *)
Lemma skip_loop_ok (V : volume) pos : 0 <= pos < 0x80000000 -> forall fuel pre c rest a st, mounted st -> chain (pre ++ c :: rest) ->
  (length pre < fuel)%nat -> 0 <= a -> a + (zlen pre - 1) * bpc <= pos < a + zlen pre * bpc ->
  exists st', skip_loop fuel m bpc (hd c pre) a pos st = Some (Some (c, a + zlen pre * bpc), st')
    /\ mounted st' /\ same_blocks st st'.
Proof.
  intros Hpos. pose proof (bpc_range V) as Hbpc.
  induction fuel as [|fuel IH]; intros pre c rest a st Hst Hch Hf Ha Hr; [lia|]. cbn [skip_loop].
  destruct pre as [|x pre].
  - cbn [length hd] in *. destruct (Z.leb_spec a pos); [lia|]. exists st. split; [|done].
    by rewrite Z.mul_0_l, Z.add_0_r.
  - cbn [length hd app] in *. destruct (Z.leb_spec a pos); [|nia].
    pose proof Hch as [Hcl Hln]. apply Forall_cons in Hcl as [Hx Hcl].
    assert (next_cluster x = Some (hd c pre) /\ CHECK_CLUST (hd c pre) (fatsize m) = false) as [Hnext Hchk]
      by (destruct pre; destruct Hln as (? & ? & _); done).
    destruct (follow V st x _ Hst Hx Hnext) as (st1 & Hfe & Hst1 & Hsb). rewrite (bind_step _ _ _ _ _ Hfe), Hchk.
    rewrite u32_small by lia.
    destruct (IH pre c rest (a + bpc) st1 Hst1) as (st2 & Hl & Hst2 & Hsb2);
      [split; [done|by eapply linked_tail]|lia|lia|nia|].
    exists st2. split; [|split; [done|by eapply same_blocks_trans]]. rewrite Hl.
    by replace (a + bpc + zlen pre * bpc) with (a + zlen (x :: pre) * bpc) by (cbn [length]; lia).
Qed.
(** ** The content of a file *)
(** A file with its entry: the chain of its clusters is long enough for its size. *)
Record file_at (e : dir_entry) (cs : list Z) : Prop := {
  f_chain : chain cs;
  f_start : START m e = hd 0 cs;
  f_size : 0 <= dsize e < 0x7fff0000;
  f_long : dsize e <= zlen cs * bpc }.
Definition file_bytes (e : dir_entry) (cs : list Z) : list Z := take (Z.to_nat (dsize e)) (content cs).
(** What a read of at most [maxsize] bytes, or of all for 0, gives at [pos]. *)
Definition part_of (bytes : list Z) (pos maxsize : Z) : list Z :=
  let rest := drop (Z.to_nat pos) bytes in if 0 <? maxsize then take (Z.to_nat maxsize) rest else rest.

Lemma set_vfatname_mounted st b : mounted st -> length b = Z.to_nat MAX_CLUSTSIZE ->
  exists st', set_vfatname_block b st = Some ((), st') /\ mounted st' /\ dir_blocks st' = dir_blocks st.
Proof. intros [] Hb. eexists. split; [done|]. split; [|done]. by split. Qed.
Lemma slice_over bytes old b pos n : over bytes old = Some b -> 0 <= pos -> 0 <= n -> pos + n <= zlen bytes ->
  slice b pos n = Some (take (Z.to_nat n) (drop (Z.to_nat pos) bytes)).
Proof.
  unfold over, slice. case_if; [|done]. intros [= <-] Hp Hn Hl. rewrite length_app, length_drop.
  destruct (Z.leb_spec (pos + n) (Z.of_nat (length bytes + (length old - length bytes)))); [|lia].
  f_equal. rewrite drop_app_le by lia. by rewrite take_app_le by (rewrite length_drop; lia).
Qed.
(** The part of a cluster from [r] on, and what follows in the next clusters. *)
Lemma contents_from_ok (V : volume) fuel c rest addr size r st1 : mounted st1 -> chain (c :: rest) ->
  (length rest < fuel)%nat -> 0 <= r < bpc -> r < size < 0x80000000 -> size <= (zlen rest + 1) * bpc ->
  exists st', contents_from fuel m bpc c size r addr st1
    = Some ((size - r, take (Z.to_nat (size - r)) (drop (Z.to_nat r) (content (c :: rest)))), st') /\ mounted st'.
Proof.
  intros Hst1 Hch' Hf Hr Hsz Hle. pose proof (bpc_range V) as Hbpc. pose proof Hch' as [Hcl Hln].
  pose proof Hcl as Hcl2. apply Forall_cons in Hcl2 as [Hcc Hclr]. pose proof (c_range _ Hcc) as Hcr.
  pose proof (v_sect V) as [Hsect _]. pose proof (v_clust V) as [Hclust Hmaxc]. unfold contents_from.
  destruct (Z.eqb_spec r 0) as [->|Hr0]; cbn [negb].
  { destruct (contents_loop_ok V fuel c rest addr size 0 st1 Hst1 Hch') as (st2 & Hl & Hst2 & _); [lia..|].
    exists st2. split; [|done]. rewrite Hl, drop_0. by replace (size - 0) with size by lia. }
  set (act := Z.min size bpc).
  destruct (get_cluster_ok V st1 c 0 act (data c) Hst1 ltac:(lia) (c_place _ Hcc)) as (d' & Hg & Hst2);
    [rewrite (c_length _ Hcc); lia|].
  rewrite (bind_step _ _ _ _ _ Hg). cbv beta iota.
  change (c :: rest) with ([c] ++ rest). rewrite content_app.
  pose proof (content_length V [c] ltac:(by apply Forall_singleton)) as Hl1. cbn [length] in Hl1.
  assert (content [c] = concat (data c)) as Hdc by (unfold content; cbn; by rewrite app_nil_r).
  rewrite <- Hdc in *. set (b := take (Z.to_nat act) (content [c])).
  assert (zlen b = act) as Hb by (unfold b; rewrite length_take; lia).
  set (st2 := with_disk d' st1) in *. pose proof (m_vfatname _ Hst2) as Hvl. unfold MAX_CLUSTSIZE in *.
  rewrite (bind_step _ _ _ (get_contents_vfatname_block st2) st2) by done.
  pose proof (over_ok b (get_contents_vfatname_block st2) ltac:(lia)) as Hover. set (blk := b ++ drop _ _) in Hover.
  rewrite Hover. rewrite (bind_step _ _ _ blk st2) by done.
  destruct (set_vfatname_mounted st2 blk Hst2) as (st3 & Hset & Hst3 & _); [by rewrite (over_length _ _ _ Hover)|].
  rewrite (bind_step _ _ _ _ _ Hset). change (negb (0 =? 0)) with false. cbn iota.
  rewrite (u32_small (act - r)) by lia. rewrite (slice_over _ _ _ r (act - r) Hover) by lia.
  set (ck := take (Z.to_nat (act - r)) (drop (Z.to_nat r) b)).
  assert (ck = take (Z.to_nat (act - r)) (drop (Z.to_nat r) (content [c]))) as Hck.
  { unfold ck, b. rewrite skipn_firstn_comm, take_take. f_equal. lia. }
  rewrite (bind_step _ _ _ ck st3) by done. destruct (Z.eqb_spec (size - act) 0) as [Hend|Hmore].
  { exists st3. split; [|done]. rewrite s32_small by lia. unfold mret, M_ret.
    rewrite drop_app_le by lia. rewrite take_app_le by (rewrite length_drop; lia). rewrite Hck.
    by replace (size - r) with (act - r) by lia. }
  assert (act = bpc) as Hact by lia. destruct rest as [|c' rest]; [cbn in Hle; lia|]. destruct Hln as (Hnext & Hchk & Hln).
  destruct (follow V st3 c c' Hst3 Hcc Hnext) as (st4 & Hfe & Hst4 & _). rewrite (bind_step _ _ _ _ _ Hfe), Hchk.
  cbn [length] in Hle, Hf.
  destruct (contents_loop_ok V fuel c' rest (u32 (addr + (act - r))) (size - act) (act - r) st4 Hst4)
    as (st5 & Hl & Hst5 & _); [by split|lia..|].
  rewrite (bind_step _ _ _ _ _ Hl). exists st5. split; [|done]. unfold mret, M_ret.
  replace (act - r + (size - act)) with (size - r) by lia.
  assert (ck = drop (Z.to_nat r) (content [c])) as ->.
  { rewrite Hck. apply take_ge. rewrite length_drop. lia. }
  rewrite (drop_app_le (content [c])) by lia. rewrite (take_app_ge (drop _ _)) by (rewrite length_drop; lia).
  rewrite length_drop.
  by replace (Z.to_nat (size - r) - (length (content [c]) - Z.to_nat r))%nat with (Z.to_nat (size - act)) by lia.
Qed.
Lemma get_contents_ok (V : volume) fuel e cs pos addr maxsize st : mounted st -> file_at e cs ->
  (length cs < fuel)%nat -> 0 <= pos -> 0 <= maxsize -> pos + maxsize < 0x100000000 ->
  let bytes := part_of (file_bytes e cs) pos maxsize in
  exists st', get_contents fuel m e pos addr maxsize st = Some ((zlen bytes, bytes), st') /\ mounted st'.
Proof.
  intros Hst [Hch Hstart Hsize Hlong] Hf Hpos Hmax Hsum bytes. pose proof (bpc_range V) as Hbpc.
  assert (zlen (content cs) = zlen cs * bpc) as Hcont by apply (content_length V), Hch.
  assert (zlen (file_bytes e cs) = dsize e) as Hfb by (unfold file_bytes; rewrite length_take; lia).
  unfold get_contents. destruct (Z.leb_spec (dsize e) pos) as [Hge|Hlt].
  { exists st. split; [|done]. assert (bytes = []) as ->; [|done]. unfold bytes, part_of.
    rewrite drop_ge by lia. case_if; by rewrite ?take_nil. }
  rewrite (u32_small (pos + maxsize)) by lia.
  set (F := if (0 <? maxsize) && (pos + maxsize <? dsize e) then pos + maxsize else dsize e).
  assert (pos < F <= dsize e) as HF.
  { unfold F. destruct (Z.ltb_spec 0 maxsize), (Z.ltb_spec (pos + maxsize) (dsize e)); cbn [andb]; lia. }
  assert (bytes = take (Z.to_nat (F - pos)) (drop (Z.to_nat pos) (content cs))) as Hbytes.
  { unfold bytes, part_of, file_bytes, F. rewrite skipn_firstn_comm.
    destruct (Z.ltb_spec 0 maxsize), (Z.ltb_spec (pos + maxsize) (dsize e)); cbn [andb]; rewrite ?take_take; f_equal; lia. }
  clearbody F bytes. subst bytes.
  set (k := pos / bpc). pose proof (Z.div_mod pos bpc ltac:(lia)) as Hdm. pose proof (Z.mod_pos_bound pos bpc ltac:(lia)) as Hmod.
  fold k in Hdm. pose proof (Z.div_pos pos bpc Hpos ltac:(lia)) as Hk. fold k in Hk.
  assert (k < zlen cs) as Hkl by nia.
  destruct (lookup_lt_is_Some_2 cs (Z.to_nat k) ltac:(lia)) as [c Hc].
  pose proof (take_drop_middle _ _ _ Hc) as Hcs. set (pre := take (Z.to_nat k) cs) in *. set (rest := drop (S (Z.to_nat k)) cs) in *.
  assert (zlen pre = k) as Hpre by (unfold pre; rewrite length_take; lia). clearbody pre rest. subst cs.
  pose proof Hch as [Hcl Hln]. apply linked_app in Hln. pose proof Hcl as Hcl2. apply Forall_app in Hcl2 as [Hclp Hclc].
  assert (chain (c :: rest)) as Hch' by (by split).
  rewrite length_app in Hf, Hlong, Hcont. cbn [length] in Hf, Hlong, Hcont.
  destruct (skip_loop_ok V pos ltac:(lia) fuel pre c rest bpc st Hst Hch ltac:(lia) ltac:(lia) ltac:(nia))
    as (st1 & Hskip & Hst1 & Hsb).
  rewrite Hstart. replace (hd 0 (pre ++ c :: rest)) with (hd c pre) by by destruct pre.
  rewrite (bind_step _ _ _ _ _ Hskip). cbv beta iota. rewrite Hpre.
  replace (u32 (bpc + k * bpc - bpc)) with (k * bpc) by (rewrite u32_small by nia; lia).
  rewrite (u32_small (F - _)), (u32_small (pos - _)) by nia.
  replace (pos - k * bpc) with (pos mod bpc) by lia. set (r := pos mod bpc) in *.
  pose proof (content_length V pre Hclp) as Hlp. pose proof (content_length V (c :: rest) Hclc) as Hlc. cbn [length] in Hlc.
  rewrite content_app, drop_app_ge by nia.
  replace (Z.to_nat pos - length (content pre))%nat with (Z.to_nat r) by nia.
  assert (zlen (take (Z.to_nat (F - pos)) (drop (Z.to_nat r) (content (c :: rest)))) = F - pos) as -> by (rewrite length_take, length_drop; nia).
  destruct (contents_from_ok V fuel c rest addr (F - k * bpc) r st1 Hst1 Hch') as (st2 & Hfrom & Hst2); [lia|lia|nia|nia|].
  exists st2. split; [|done]. rewrite Hfrom. by replace (F - k * bpc - r) with (F - pos) by lia.
Qed.
End data.
End volume.
End spec.
