(* ===== verification/FatDir.v ===== *)
(** * Paths on a FAT volume

    A directory as a list of entries with short and long names, that the scans of a block find the
    first entry with a name, and that reading a file by its path gives its content. *)
From S2P Require Import Prelude Ctype Mem CStr Store Mmc Part PartSpec Fat FatSpec.

(** ** Directories *)
(** What 32 bytes of a directory are the start of: an entry that is passed over, one with a short name
    only, or slots with a long name and the entry they belong to. *)
Inductive item := skipped (r : list Z) | short (r : list Z) | long (slots : list (list Z)) (r : list Z).
Definition raws (i : item) : list (list Z) :=
  match i with skipped r | short r => [r] | long ss r => ss ++ [r] end.
Definition all_raws (l : list item) : list (list Z) := concat (map raws l).
(** An entry in use: not deleted, not the end, and no label of a volume. *)
Definition in_use (r : list Z) : Prop :=
  exists e, dirent_at r 0 = Some e /\ chr (name e) <> DELETED_FLAG /\ chr (name e) <> 0 /\ attr e .& ATTR_VOLUME = 0.
Definition passed_over (r : list Z) : Prop :=
  exists e, dirent_at r 0 = Some e /\ (chr (name e) = DELETED_FLAG \/ attr e .& ATTR_VOLUME <> 0 /\ is_slot e = false).
(** The slots of a long name, with the numbers from [n] down; the last of the name comes first. *)
Fixpoint numbered (n : nat) (ss : list (list Z)) : Prop :=
  match ss with
  | [] => n = O
  | s :: ss => length s = 32%nat /\ slot_id s 0 = Some (Z.of_nat n) /\ passed_over s /\ (0 < n)%nat /\ numbered (n - 1) ss
  end.
Definition slots_ok (ss : list (list Z)) : Prop :=
  match ss with
  | [] => False
  | s :: r => (length ss <= 9)%nat /\ length s = 32%nat /\ slot_id s 0 = Some (0x40 + zlen ss) /\ s !! 11%nat = Some ATTR_VFAT
              /\ is_Some (dirent_at s 0) /\ numbered (length r) r
  end.
Definition item_ok (i : item) : Prop :=
  match i with
  | skipped r => length r = 32%nat /\ passed_over r
  | short r => length r = 32%nat /\ in_use r /\ Forall byte r
  | long ss r => length r = 32%nat /\ in_use r /\ slots_ok ss /\ Forall byte r /\ Forall (Forall byte) ss
  end.
(** The characters of the slots in the order of their numbers, up to a NUL. *)
Fixpoint slot_names (rev_ss : list (list Z)) : option (list Z) :=
  match rev_ss with
  | [] => Some []
  | s :: rev_ss => '(stop, cs) ← slot2str s 0; if (stop : bool) then Some cs else r ← slot_names rev_ss; Some (cs ++ r)
  end.
Definition long_name (ss : list (list Z)) : list Z :=
  match slot_names (rev ss) with Some cs => downcase (first_char cs) | None => [] end.
(** The entry of an item with a name. *)
Definition named (filename : list Z) (i : item) : option dir_entry :=
  match i with
  | skipped _ => None
  | short r => e ← dirent_at r 0; if decide (filename = get_name e) then Some e else None
  | long ss r => e ← dirent_at r 0; if decide (filename = get_name e \/ filename = long_name ss) then Some e else None
  end.
Fixpoint lookup (filename : list Z) (l : list item) : option dir_entry :=
  match l with [] => None | i :: l => match named filename i with Some e => Some e | None => lookup filename l end end.
(** An entry that ends the directory. *)
Definition ends (tail : list Z) : Prop := exists e, dirent_at tail 0 = Some e /\ chr (name e) = 0 /\ attr e = 0.

(** ** Entries in a block *)
Lemma slice_app pre b off n r : 0 <= off -> 0 <= n -> slice b off n = Some r ->
  slice (pre ++ b) (zlen pre + off) n = Some r.
Proof.
  unfold slice. intros Ho Hn. rewrite length_app. case_if; [|done]. intros <-.
  destruct (Z.leb_spec (zlen pre + off + n) (Z.of_nat (length pre + length b))); [|lia].
  rewrite drop_app_ge by lia. do 3 f_equal. lia.
Qed.
Lemma slice_more b rest off n r : 0 <= off -> 0 <= n -> slice b off n = Some r -> slice (b ++ rest) off n = Some r.
Proof.
  unfold slice. intros Ho Hn. rewrite length_app. case_if; [|done]. intros <-.
  destruct (Z.leb_spec (off + n) (Z.of_nat (length b + length rest))); [|lia].
  rewrite drop_app_le by lia. by rewrite take_app_le by (rewrite length_drop; lia).
Qed.
Lemma lookup_block (pre b rest : list Z) off x : b !! off = Some x -> (pre ++ b ++ rest) !! (length pre + off)%nat = Some x.
Proof. intros H. rewrite lookup_app_r by lia. replace (length pre + off - length pre)%nat with off by lia. by apply lookup_app_l_Some. Qed.
Lemma u16_block pre b rest off x : u16_at b off = Some x -> u16_at (pre ++ b ++ rest) (length pre + off) = Some x.
Proof.
  unfold u16_at. destruct (b !! off) eqn:E1; [|done]. destruct (b !! S off) eqn:E2; [|done].
  rewrite <- Nat.add_succ_r. by rewrite (lookup_block _ _ _ _ _ E1), (lookup_block _ _ _ _ _ E2).
Qed.
Lemma slice_block pre b rest off n x : 0 <= off -> 0 <= n -> slice b off n = Some x ->
  slice (pre ++ b ++ rest) (zlen pre + off) n = Some x.
Proof. intros Ho Hn H. apply slice_app; [done..|]. by apply slice_more. Qed.
Lemma dirent_block pre b rest e : dirent_at b 0 = Some e -> dirent_at (pre ++ b ++ rest) (length pre) = Some e.
Proof.
  unfold dirent_at, u32_at. rewrite !Nat.add_0_l. intros H.
  destruct (slice b (Z.of_nat 0) 8) eqn:E1; [|done]. cbn [mbind option_bind] in H.
  destruct (slice b (Z.of_nat 0 + 8) 3) eqn:E2; [|done]. cbn [mbind option_bind] in H.
  destruct (b !! 11%nat) eqn:E3; [|done]. cbn [mbind option_bind] in H.
  destruct (u16_at b 20) eqn:E4; [|done]. cbn [mbind option_bind] in H.
  destruct (u16_at b 26) eqn:E5; [|done]. cbn [mbind option_bind] in H.
  destruct (u16_at b 28) eqn:E6; [|done]. cbn [mbind option_bind] in H.
  destruct (u16_at b (28 + 2)) eqn:E7; [|done].
  apply (slice_block pre b rest) in E1; [|lia..]. apply (slice_block pre b rest) in E2; [|lia..].
  change (Z.of_nat 0) with 0 in *. rewrite Z.add_0_l in E2. rewrite Z.add_0_r in E1. rewrite E1, E2.
  rewrite (lookup_block _ _ _ _ _ E3), (u16_block _ _ _ _ _ E4), (u16_block _ _ _ _ _ E5), (u16_block _ _ _ _ _ E6).
  rewrite <- Nat.add_assoc. rewrite (u16_block _ _ _ _ _ E7). done.
Qed.

(** ** Long names *)
Lemma slot_chars_block pre b rest : forall places x, slot_chars b 0 places = Some x ->
  slot_chars (pre ++ b ++ rest) (length pre) places = Some x.
Proof.
  induction places as [|j places IH]; intros x H; [done|]. cbn [slot_chars] in H |- *. rewrite Nat.add_0_l in H.
  destruct (b !! j) as [c|] eqn:E; [|done]. rewrite (lookup_block _ _ _ _ _ E). cbn [mbind option_bind] in *.
  destruct (c =? 0); [done|]. destruct (slot_chars b 0 places) as [[stop cs]|]; [|done].
  by rewrite (IH _ eq_refl).
Qed.
Lemma slot_chars_some b : forall places, Forall (fun j => (j < length b)%nat) places ->
  exists stop cs, slot_chars b 0 places = Some (stop, cs) /\ (length cs <= length places)%nat /\ (Forall byte b -> str_ok cs).
Proof.
  induction places as [|j places IH]; intros Hp; cbn [slot_chars].
  { exists false, []. split; [done|]. split; [done|]. intros _. apply Forall_nil_2. }
  apply Forall_cons in Hp as [Hj Hp]. apply lookup_lt_is_Some_2 in Hj as [c Hc]. rewrite Nat.add_0_l, Hc. cbn [mbind option_bind].
  destruct (Z.eqb_spec c 0). { exists true, []. split; [done|]. split; [cbn; lia|]. intros _. apply Forall_nil_2. }
  destruct (IH Hp) as (stop & cs & -> & Hl & Hok). exists stop, (c :: cs). split; [done|]. split; [cbn; lia|].
  intros Hb. apply Forall_cons_2; [|by apply Hok]. rewrite Forall_lookup in Hb. pose proof (Hb _ _ Hc) as Hbc. unfold byte in Hbc. split; lia.
Qed.
Lemma slot2str_some s : length s = 32%nat ->
  exists stop cs, slot2str s 0 = Some (stop, cs) /\ (length cs <= 13)%nat /\ (Forall byte s -> str_ok cs).
Proof. intros Hs. apply (slot_chars_some s [1; 3; 5; 7; 9; 14; 16; 18; 20; 22; 24; 28; 30]%nat). rewrite Hs. by_computation. Qed.
Lemma slot_names_some : forall ss, Forall (fun s => length s = 32%nat) ss ->
  exists cs, slot_names ss = Some cs /\ (length cs <= 13 * length ss)%nat /\ (Forall (Forall byte) ss -> str_ok cs).
Proof.
  induction ss as [|s ss IH]; intros Hs; cbn [slot_names].
  { exists []. split; [done|]. split; [cbn; lia|]. intros _. apply Forall_nil_2. }
  apply Forall_cons in Hs as [Hs Hss]. destruct (slot2str_some s Hs) as (stop & cs & -> & Hl & Hok). cbn [mbind option_bind].
  destruct stop.
  - exists cs. split; [done|]. split; [cbn; lia|]. intros Hb. apply Hok. by apply Forall_cons in Hb as [? _].
  - destruct (IH Hss) as (r & -> & Hl2 & Hok2). exists (cs ++ r). split; [done|]. rewrite length_app. split; [cbn; lia|].
    intros Hb. apply Forall_cons in Hb as [Hb1 Hb2]. apply Forall_app_2; [by apply Hok|by apply Hok2].
Qed.
(** The last of the name is marked, and no other slot. *)
Definition marked (s : list Z) (last : bool) : Prop :=
  length s = 32%nat /\ exists id, slot_id s 0 = Some id /\ negb (id .& LAST_LONG_ENTRY_MASK =? 0) = last.
Lemma first_block_ok pre s0 : length pre = (32 * (length pre / 32))%nat -> marked s0 true ->
  forall ss rest, Forall (fun s => marked s false) ss ->
  first_block (length pre / 32 + S (length ss)) (pre ++ concat (s0 :: ss) ++ rest) = slot_names (rev (s0 :: ss)).
Proof.
  intros Hpre Hs0. set (i := (length pre / 32)%nat) in *.
  assert (forall p s rest x, length p = (32 * x)%nat -> length s = 32%nat ->
    slot2str (p ++ s ++ rest) (32 * x) = slot2str s 0 /\ slot_id (p ++ s ++ rest) (32 * x) = slot_id s 0) as Hat.
  { intros p s rest x Hp Hs. rewrite <- Hp. destruct (slot2str_some s Hs) as (stop & cs & H & _). split.
    - rewrite H. unfold slot2str in *. by apply slot_chars_block.
    - unfold slot_id. replace (length p) with (length p + 0)%nat by lia.
      destruct (lookup_lt_is_Some_2 s 0) as [c Hc]; [lia|]. rewrite Hc. by apply lookup_block. }
  induction ss as [|s ss IH] using rev_ind; intros rest Hss.
  - destruct Hs0 as [Hs (id & Hid & Hmark)]. cbn [rev app concat length]. rewrite Nat.add_1_r. cbn [first_block slot_names].
    rewrite app_nil_r. destruct (Hat pre s0 rest i Hpre Hs) as [-> ->]. rewrite Hid.
    destruct (slot2str_some s0 Hs) as (stop & cs & -> & _). cbn [mbind option_bind]. rewrite Hmark. by rewrite app_nil_r; destruct stop.
  - apply Forall_app in Hss as [Hss Hs]. apply Forall_singleton in Hs as [Hs (id & Hid & Hmark)].
    change (s0 :: ss ++ [s]) with ((s0 :: ss) ++ [s]). rewrite rev_app_distr, concat_app. cbn [rev app concat].
    rewrite app_nil_r. rewrite length_app. cbn [length]. replace (i + S (length ss + 1))%nat with (S (i + S (length ss))) by lia.
    cbn [first_block slot_names].
    assert (length (pre ++ s0 ++ concat ss) = 32 * (i + S (length ss)))%nat as Hlen.
    { rewrite !length_app. rewrite (concat_length 32) by (eapply Forall_impl; [exact Hss|]; by intros x [? _]). destruct Hs0 as [-> _]. lia. }
    destruct (Hat (pre ++ s0 ++ concat ss) s rest _ Hlen Hs) as [H1 H2].
    rewrite <- !app_assoc in H1, H2 |- *. rewrite H1, H2, Hid.
    destruct (slot2str_some s Hs) as (stop & cs & -> & _). cbn [mbind option_bind]. destruct stop; [done|].
    destruct (negb _) eqn:E; [congruence|]. 
    specialize (IH (s ++ rest) Hss). cbn [concat rev] in IH. rewrite <- !app_assoc in IH. rewrite IH.
    done.
Qed.
Lemma id_mask n : 0 <= n <= 9 -> n .& 0xbf = n /\ (0x40 + n) .& 0xbf = n /\ n .& 0x40 = 0 /\ (0x40 + n) .& 0x40 = 0x40.
Proof.
  intros Hn.
  pose proof (all_below_spec 10 (fun n => (n .& 0xbf =? n) && ((0x40 + n) .& 0xbf =? n)
    && (n .& 0x40 =? 0) && ((0x40 + n) .& 0x40 =? 0x40)) eq_refl n ltac:(lia)) as H.
  cbv beta in H. lia.
Qed.
Lemma slot_id_block pre s rest id : slot_id s 0 = Some id -> slot_id (pre ++ s ++ rest) (length pre) = Some id.
Proof. intros H. unfold slot_id in *. rewrite <- (Nat.add_0_r (length pre)). by apply lookup_block. Qed.
Lemma count_slots_ok limit : forall ss n pre rest, numbered n ss -> (n <= 9)%nat -> (length pre + 32 * n <= limit)%nat ->
  count_slots n (pre ++ concat ss ++ rest) limit (length pre) = Some (Some (length pre + 32 * n, O))%nat.
Proof.
  induction ss as [|s ss IH]; intros n pre rest Hn Hle Hl; cbn [numbered] in Hn.
  { subst n. cbn. by rewrite Nat.add_0_r. }
  destruct Hn as (Hs & Hid & _ & Hpos & Hnum). destruct n as [|n]; [lia|]. cbn [count_slots concat].
  destruct (Nat.leb_spec limit (length pre)); [lia|]. rewrite <- app_assoc.
  rewrite (slot_id_block _ _ _ _ Hid). cbn [mbind option_bind]. rewrite (proj1 (id_mask (Z.of_nat (S n)) ltac:(lia))), Z.eqb_refl.
  cbn [negb]. replace (S n - 1)%nat with n in Hnum by lia. specialize (IH n (pre ++ s) rest Hnum ltac:(lia)).
  rewrite length_app, Hs, <- !app_assoc in IH. rewrite IH by lia. do 3 f_equal. lia.
Qed.

Lemma numbered_length n ss : numbered n ss -> length ss = n.
Proof. revert n. induction ss as [|s ss IH]; intros n; [by intros ->|]. intros (_ & _ & _ & Hp & H%IH). cbn. lia. Qed.
Lemma numbered_marked n ss : numbered n ss -> (n <= 9)%nat -> Forall (fun s => marked s false) ss.
Proof.
  revert n. induction ss as [|s ss IH]; intros n Hn Hle; [apply Forall_nil_2|]. destruct Hn as (Hs & Hid & _ & Hp & Hn).
  apply Forall_cons_2; [|apply (IH (n - 1)%nat); [done|lia]]. split; [done|]. eexists. split; [done|].
  unfold LAST_LONG_ENTRY_MASK. by destruct (id_mask (Z.of_nat n) ltac:(lia)) as (_ & _ & -> & _).
Qed.
Section vfat.
Context {D : Type} {Reader : BlockReader D}.
(** Slots and their entry in a block: the long name, and the entry in the place of the first slot. *)
Lemma get_vfatname_ok m curclust pre ss r rest (st : fat_state D) : slots_ok ss -> length r = 32%nat ->
  length pre = (32 * (length pre / 32))%nat -> (length pre + 32 * length ss + 32 <= buflimit m curclust)%nat ->
  get_vfatname m curclust (pre ++ concat ss ++ r ++ rest) (length pre) st
  = Some (Some (long_name ss, pre ++ r ++ drop 32 (concat ss ++ r ++ rest)), st).
Proof.
  intros Hss Hr Hpre Hlim. destruct ss as [|s0 ss]; [done|]. destruct Hss as (H9 & Hs0 & Hid & _ & _ & Hnum).
  pose proof (numbered_length _ _ Hnum) as _. set (N := length (s0 :: ss)) in *. assert (1 <= N)%nat as HN by (unfold N; cbn; lia).
  pose proof (id_mask (Z.of_nat N) ltac:(lia)) as (_ & Hm & _ & Hm40). unfold get_vfatname.
  set (block := pre ++ concat (s0 :: ss) ++ r ++ rest).
  assert (slot_id block (length pre) = Some (0x40 + Z.of_nat N)) as Hid'.
  { unfold block. cbn [concat]. rewrite <- app_assoc. by apply slot_id_block. }
  rewrite (bind_step _ _ st (0x40 + Z.of_nat N) st) by (unfold lift; by rewrite Hid'). rewrite Hm.
  unfold VFAT_MAXSEQ. destruct (Z.ltb_spec 9 (Z.of_nat N)); [lia|]. rewrite Nat2Z.id.
  assert (length ss <= 9)%nat as Hss9 by (unfold N in H9; cbn in H9; lia).
  pose proof (numbered_marked _ _ Hnum Hss9) as Hmarked.
  assert (Forall (fun s => length s = 32%nat) (s0 :: ss)) as Hall
    by (apply Forall_cons_2; [done|]; eapply Forall_impl; [exact Hmarked|]; by intros x [? _]).
  assert (length (concat (s0 :: ss)) = 32 * N)%nat as Hcl by (rewrite Nat.mul_comm; by apply (concat_length 32)).
  assert (count_slots N block (buflimit m curclust) (length pre) = Some (Some (length pre + 32 * N, O))%nat) as Hcount.
  { unfold N. cbn [length count_slots]. destruct (Nat.leb_spec (buflimit m curclust) (length pre)); [lia|].
    rewrite Hid'. cbn [mbind option_bind]. rewrite Hm. change (S (length ss)) with N. rewrite Z.eqb_refl. cbn [negb].
    unfold block. cbn [concat]. rewrite <- !app_assoc.
    pose proof (count_slots_ok (buflimit m curclust) ss (length ss) (pre ++ s0) (r ++ rest) Hnum Hss9) as Hc.
    rewrite length_app, Hs0, <- !app_assoc in Hc. rewrite Hc by (unfold N in *; cbn in *; lia). unfold N. cbn. do 3 f_equal. lia. }
  rewrite (bind_step _ _ st (Some (length pre + 32 * N, O))%nat st) by (unfold lift; by rewrite Hcount). cbv beta iota.
  destruct (Nat.leb_spec (buflimit m curclust) (length pre + 32 * N)); [lia|].
  assert (slice block (Z.of_nat (length pre + 32 * N)) 32 = Some r) as Hreal.
  { unfold slice, block. rewrite !length_app, Hcl, Hr. destruct (Z.leb_spec (Z.of_nat (length pre + 32 * N) + 32) (Z.of_nat (length pre + (32 * N + (32 + length rest))))); [|lia].
    rewrite Nat2Z.id. rewrite (app_assoc pre), drop_app_ge by (rewrite length_app; lia). rewrite length_app, Hcl, Nat.sub_diag, drop_0.
    rewrite take_app_le by (change (Z.to_nat 32) with 32%nat; lia). rewrite take_ge by (change (Z.to_nat 32) with 32%nat; lia). done. }
  rewrite (bind_step _ _ st r st) by (unfold lift; by rewrite Hreal).
  rewrite (bind_step _ _ st [] st) by done.
  assert (((length pre + 32 * N) / 32)%nat = (length pre / 32 + S (length ss))%nat) as ->.
  { rewrite (Nat.mul_comm 32 N), Nat.div_add by lia. unfold N. cbn. lia. }
  assert (first_block (length pre / 32 + S (length ss)) block = slot_names (rev (s0 :: ss))) as ->.
  { apply first_block_ok; [done| |done]. split; [done|]. eexists. split; [done|]. unfold LAST_LONG_ENTRY_MASK. by rewrite Hm40. }
  destruct (slot_names_some (rev (s0 :: ss))) as (cs & Hcs & Hlen & _).
  { by apply List.Forall_rev. }
  rewrite length_rev in Hlen. fold N in Hlen. rewrite Hcs. rewrite (bind_step _ _ st cs st) by done. cbn [app].
  unfold VFAT_MAXLEN_BYTES. destruct (Z.leb_spec 256 (zlen cs)); [lia|]. unfold mret, M_ret. unfold long_name. rewrite Hcs.
  assert (take (length pre) block = pre) as -> by apply take_app_length.
  assert (drop (length pre + 32) block = drop 32 (concat (s0 :: ss) ++ r ++ rest)) as ->; [|done].
  unfold block. rewrite drop_app_ge by lia. f_equal. lia.
Qed.
End vfat.

Lemma numbered_passed n ss : numbered n ss -> Forall (fun r => length r = 32%nat /\ passed_over r) ss.
Proof.
  revert n. induction ss as [|s ss IH]; intros n Hn; [apply Forall_nil_2|]. destruct Hn as (Hs & _ & Hp & _ & Hn).
  apply Forall_cons_2; [done|by eapply IH].
Qed.
Lemma slots_length ss : slots_ok ss -> Forall (fun s => length s = 32%nat) ss.
Proof.
  destruct ss as [|s ss]; [done|]. intros (_ & Hs & _ & _ & _ & Hn%numbered_passed). apply Forall_cons_2; [done|].
  eapply Forall_impl; [exact Hn|]. by intros x [? _].
Qed.

(** ** Names as strings *)
Lemma downcase_ok s : str_ok s -> str_ok (downcase s).
Proof.
  intros H. unfold downcase. apply Forall_map. eapply Forall_impl; [exact H|]. intros c Hc. unfold char_ok in *.
  assert (byte c) as Hb by (unfold byte; lia). destruct (tolower_byte c Hb) as [H1 _]. pose proof (tolower_zero c Hb) as H0. unfold byte in *. lia.
Qed.
Lemma first_char_ok s : str_ok s -> str_ok (first_char s).
Proof.
  intros H. destruct H as [|c s Hc H]; cbn; [apply Forall_nil_2|]. case_if; [apply Forall_nil_2|]. case_if; apply Forall_cons_2; done.
Qed.
Lemma word_ok s : Forall byte s -> str_ok (word s).
Proof.
  induction 1 as [|c s Hc _ IH]; cbn; [apply Forall_nil_2|]. case_if; [apply Forall_nil_2|]. apply Forall_cons_2; [|done].
  unfold byte, char_ok in *. lia.
Qed.
Lemma dirent_name r e : Forall byte r -> dirent_at r 0 = Some e -> str_ok (get_name e).
Proof.
  intros Hb He. unfold dirent_at in He. destruct (slice r (Z.of_nat 0) 8) as [nm|] eqn:E1; [|done]. cbn [mbind option_bind] in He.
  destruct (slice r (Z.of_nat 0 + 8) 3) as [ex|] eqn:E2; [|done]. cbn [mbind option_bind] in He. destruct (r !! (0 + 11)%nat); [|done].
  cbn [mbind option_bind] in He. destruct (u16_at r (0 + 20)); [|done]. destruct (u16_at r (0 + 26)); [|done]. destruct (u32_at r (0 + 28)); [|done].
  injection He as <-. assert (forall off n b, slice r off n = Some b -> Forall byte b) as Hs.
  { intros off n b. unfold slice. case_if; [|done]. intros [= <-]. by apply Forall_take, Forall_drop. }
  unfold get_name. cbn [name ext]. apply downcase_ok, first_char_ok, Forall_app_2; [by apply word_ok, (Hs _ _ _ E1)|].
  case_if; [|apply Forall_nil_2]. apply Forall_cons_2; [unfold char_ok; lia|]. by apply word_ok, (Hs _ _ _ E2).
Qed.
Lemma mismatch_spec nm e l : str_ok nm -> str_ok (get_name e) -> str_ok l ->
  mismatch nm e l = if decide (nm = get_name e \/ nm = l) then false else true.
Proof.
  intros H1 H2 H3. unfold mismatch. pose proof (strcmp_eq nm (get_name e) H1 H2) as E1. pose proof (strcmp_eq nm l H1 H3) as E2.
  destruct (Z.eqb_spec (strcmp nm (get_name e)) 0), (Z.eqb_spec (strcmp nm l) 0), (decide (nm = get_name e \/ nm = l)); cbn; tauto.
Qed.
Lemma named_short nm r e : nm <> [] /\ str_ok nm -> Forall byte r -> dirent_at r 0 = Some e ->
  named nm (short r) = if mismatch nm e [] then None else Some e.
Proof.
  intros [Hne Hok] Hr He. cbn [named]. rewrite He. cbn [mbind option_bind].
  rewrite (mismatch_spec nm e [] Hok (dirent_name r e Hr He) (Forall_nil_2 _)).
  destruct (decide (nm = get_name e)), (decide (nm = get_name e \/ nm = [])); tauto.
Qed.
Lemma named_long nm ss r e : nm <> [] /\ str_ok nm -> Forall byte r -> Forall (Forall byte) ss -> Forall (fun s => length s = 32%nat) ss ->
  dirent_at r 0 = Some e -> named nm (long ss r) = if mismatch nm e (long_name ss) then None else Some e.
Proof.
  intros [Hne Hok] Hr Hss Hl He. cbn [named]. rewrite He. cbn [mbind option_bind].
  destruct (slot_names_some (rev ss)) as (cs & Hcs & _ & Hcok); [by apply List.Forall_rev|].
  rewrite (mismatch_spec nm e (long_name ss) Hok (dirent_name r e Hr He)).
  - by destruct (decide _).
  - unfold long_name. rewrite Hcs. apply downcase_ok, first_char_ok, Hcok. by apply List.Forall_rev.
Qed.

(** ** The scan of a block *)
(** Both loops over the entries of a block, of [get_dentfromdir] and of the root directory in
    [do_fat_read_at]: they differ in the block, in the place of the test for the end, and in what they
    do with an entry that is found. *)
Section scan.
Context {D : Type} {Reader : BlockReader D}.
Context (getb : fat_state D -> list Z) (setb : list Z -> fat_state D -> fat_state D).
Context (early : bool) (fin : dir_entry -> scan).
Fixpoint scan_loop (n : nat) (m : fsdata) (curclust : Z) (filename : list Z) (off : nat) (st : fat_state D)
    : option (scan * fat_state D) :=
  match n with
  | O => Some (more, st)
  | S n =>
      dent ← dirent_at (getb st) off;
      if chr (name dent) =? DELETED_FLAG then scan_loop n m curclust filename (off + 32) st
      else if early && ((attr dent .& ATTR_VOLUME =? 0) && (chr (name dent) =? 0)) then Some (at_end, st)
      else
        '(r, st) ← entry_name m curclust (getb st) off dent st;
        match r with
        | None => scan_loop n m curclust filename (off + 32) st
        | Some (l_name, block) =>
            let st := setb block st in
            dent ← dirent_at block off;
            if negb early && (chr (name dent) =? 0) then Some (at_end, st)
            else if mismatch filename dent l_name then scan_loop n m curclust filename (off + 32) st
            else Some (fin dent, st)
        end
  end.
Context (get_set : forall b st, getb (setb b st) = b) (set_set : forall b b' st, setb b (setb b' st) = setb b st)
        (set_get : forall st, setb (getb st) st = st).
Context (m : fsdata) (curclust : Z) (filename : list Z) (Hname : filename <> [] /\ str_ok filename).
Abbreviation loop n := (scan_loop n m curclust filename).

Lemma mismatch_empty e l : mismatch filename e l = true -> mismatch filename e [] = true.
Proof.
  unfold mismatch. rewrite !andb_true_iff. intros [H _]. split; [done|]. destruct Hname as [Hne Hok].
  destruct (Z.eqb_spec (strcmp filename []) 0) as [Hz|]; [|done]. apply strcmp_eq in Hz; [done|done|apply Forall_nil_2].
Qed.
Lemma skip_step n pre r rest st : passed_over r -> getb st = pre ++ r ++ rest ->
  loop (S n) (length pre) st = loop n (length pre + 32) st.
Proof.
  intros (e & He & Hp) Hb. cbn [scan_loop]. rewrite Hb, (dirent_block _ _ _ _ He). cbn [mbind option_bind].
  destruct Hp as [->|[Hv Hslot]]; [done|]. case_if; [done|]. unfold entry_name.
  destruct (Z.eqb_spec (attr e .& ATTR_VOLUME) 0); [done|]. cbn [andb]. rewrite andb_false_r, Hslot. done.
Qed.
Lemma skip_steps n rest : forall rs pre st, Forall (fun r => length r = 32%nat /\ passed_over r) rs ->
  getb st = pre ++ concat rs ++ rest -> loop (length rs + n) (length pre) st = loop n (length pre + 32 * length rs)%nat st.
Proof.
  induction rs as [|r rs IH]; intros pre st Hrs Hb; [by rewrite Nat.add_0_r|]. apply Forall_cons in Hrs as [[Hr Hp] Hrs].
  cbn [concat] in Hb. rewrite <- app_assoc in Hb. cbn [length Nat.add]. rewrite (skip_step _ _ _ _ _ Hp Hb).
  replace (length pre + 32)%nat with (length (pre ++ r)) by (rewrite length_app; lia). rewrite IH; [|done|by rewrite <- app_assoc].
  rewrite length_app. f_equal. lia.
Qed.
Lemma short_step n pre r rest e st : in_use r -> dirent_at r 0 = Some e -> getb st = pre ++ r ++ rest ->
  loop (S n) (length pre) st = if mismatch filename e [] then loop n (length pre + 32)%nat st else Some (fin e, st).
Proof.
  intros (e' & He & Hd & H0 & Hv) He' Hb. rewrite He in He'. injection He' as ->. cbn [scan_loop].
  rewrite Hb, (dirent_block _ _ _ _ He). cbn [mbind option_bind]. destruct (Z.eqb_spec (chr (name e)) DELETED_FLAG); [done|].
  destruct (Z.eqb_spec (chr (name e)) 0); [done|]. rewrite !andb_false_r.
  unfold entry_name. rewrite Hv. cbn [Z.eqb mret M_ret mbind option_bind]. rewrite (dirent_block _ _ _ _ He). cbn [mbind option_bind].
  rewrite <- Hb, set_get. destruct (Z.eqb_spec (chr (name e)) 0); [done|]. by rewrite andb_false_r.
Qed.
Lemma first_slot s n : length s = 32%nat -> 1 <= n <= 9 -> slot_id s 0 = Some (0x40 + n) -> s !! 11%nat = Some ATTR_VFAT ->
  is_Some (dirent_at s 0) -> exists e, dirent_at s 0 = Some e /\ chr (name e) = 0x40 + n /\ is_slot e = true /\ attr e = ATTR_VFAT.
Proof.
  intros Hs Hn Hid Ha [e He]. exists e. split; [done|]. unfold dirent_at in He.
  destruct (slice s (Z.of_nat 0) 8) as [nm|] eqn:E1; [|done]. cbn [mbind option_bind] in He.
  destruct (slice s (Z.of_nat 0 + 8) 3); [|done]. cbn [mbind option_bind] in He. change (0 + 11)%nat with 11%nat in He. rewrite Ha in He. cbn [mbind option_bind] in He.
  destruct (u16_at s (0 + 20)); [|done]. destruct (u16_at s (0 + 26)); [|done]. destruct (u32_at s (0 + 28)); [|done].
  injection He as <-. cbn [name attr]. assert (chr nm = 0x40 + n) as Hc.
  { unfold slice in E1. destruct (_ <=? _); [|done]. injection E1 as <-. unfold slot_id in Hid. destruct s; [done|]. injection Hid as ->. reflexivity. }
  split; [done|]. split; [|done]. unfold is_slot. cbn [name attr]. rewrite Hc. unfold LAST_LONG_ENTRY_MASK.
  by destruct (id_mask n ltac:(lia)) as (_ & _ & _ & ->).
Qed.
Lemma long_step n pre ss r rest e st : slots_ok ss -> length r = 32%nat -> in_use r -> dirent_at r 0 = Some e ->
  length pre = (32 * (length pre / 32))%nat -> (length pre + 32 * length ss + 32 <= buflimit m curclust)%nat ->
  getb st = pre ++ concat ss ++ r ++ rest ->
  let st' := setb (pre ++ r ++ drop 32 (concat ss ++ r ++ rest)) st in
  loop (S n) (length pre) st = if mismatch filename e (long_name ss) then loop n (length pre + 32)%nat st' else Some (fin e, st').
Proof.
  intros Hss Hr (e' & He & Hd & H0 & Hv) He' Hpre Hlim Hb. cbv zeta. rewrite He in He'. injection He' as ->.
  pose proof (get_vfatname_ok m curclust pre ss r rest st Hss Hr Hpre Hlim) as Hg.
  destruct ss as [|s0 ss]; [done|]. destruct Hss as (H9 & Hs0 & Hid & Hat & Hde & Hnum).
  destruct (first_slot s0 (zlen (s0 :: ss)) Hs0 ltac:(cbn [length] in *; lia) Hid Hat Hde) as (e0 & He0 & Hc0 & Hslot & Hattr).
  cbn [scan_loop]. rewrite Hb. cbn [concat] in *. rewrite <- app_assoc in *. rewrite (dirent_block _ _ _ _ He0). cbn [mbind option_bind].
  rewrite Hc0. unfold DELETED_FLAG. destruct (Z.eqb_spec (0x40 + zlen (s0 :: ss)) 0xe5); [cbn [length] in *; lia|].
  rewrite Hattr. change (ATTR_VFAT .& ATTR_VOLUME =? 0) with false. rewrite andb_false_r.
  unfold entry_name. rewrite Hattr. change (ATTR_VFAT .& ATTR_VOLUME =? 0) with false. cbn iota. rewrite Hslot.
  rewrite (bind_step _ _ _ _ _ Hg). cbn [mret M_ret mbind option_bind]. rewrite (dirent_block _ _ _ _ He). cbn [mbind option_bind].
  destruct (Z.eqb_spec (chr (name e)) 0); [done|]. by rewrite andb_false_r.
Qed.
Lemma end_step n pre tail st : ends tail -> getb st = pre ++ tail -> loop (S n) (length pre) st = Some (at_end, st).
Proof.
  intros (e & He & H0 & Ha) Hb. cbn [scan_loop]. rewrite <- (app_nil_r tail) in Hb. rewrite Hb, (dirent_block _ _ _ _ He).
  cbn [mbind option_bind]. rewrite H0. change (0 =? DELETED_FLAG) with false. unfold entry_name. rewrite Ha.
  change (0 .& ATTR_VOLUME =? 0) with true. destruct early; [done|]. cbn [andb negb mret M_ret mbind option_bind].
  rewrite (dirent_block _ _ _ _ He). cbn [mbind option_bind]. rewrite H0. cbn [Z.eqb]. by rewrite <- Hb, set_get.
Qed.
Definition scanned (l : list item) (k : nat) : scan :=
  match lookup filename l with Some e => fin e | None => if (k =? 0)%nat then more else at_end end.
Lemma mult32 (pre : list Z) (rs : list (list Z)) : length pre = (32 * (length pre / 32))%nat -> Forall (fun r => length r = 32%nat) rs ->
  length (pre ++ concat rs) = (length pre + 32 * length rs)%nat /\ length (pre ++ concat rs) = (32 * (length (pre ++ concat rs) / 32))%nat.
Proof.
  intros Hp Hr. rewrite length_app, (concat_length 32 _ Hr). split; [lia|].
  rewrite Nat.div_add by lia. lia.
Qed.
Lemma scan_ok k tail : k = O \/ ends tail -> forall items pre st, Forall item_ok items ->
  length pre = (32 * (length pre / 32))%nat -> (length pre + 32 * length (all_raws items) <= buflimit m curclust)%nat ->
  getb st = pre ++ concat (all_raws items) ++ tail ->
  exists b, length b = length (getb st) /\ loop (length (all_raws items) + k) (length pre) st = Some (scanned items k, setb b st).
Proof.
  intros Hk. induction items as [|i items IH]; intros pre st Hok Hpre Hlim Hb.
  { exists (getb st). split; [done|]. rewrite set_get. destruct k as [|k]; [done|]. destruct Hk as [|Hk]; [done|].
    by apply (end_step k pre tail). }
  apply Forall_cons in Hok as [Hi Hok]. unfold all_raws in *. cbn [map concat] in *.
  rewrite concat_app, <- app_assoc in Hb. rewrite length_app in *. rewrite <- Nat.add_assoc. unfold scanned. cbn [lookup].
  set (rs := raws i) in *. set (rest := concat (concat (map raws items)) ++ tail) in *.
  assert (forall pre' st', length pre' = (length pre + 32 * length rs)%nat -> getb st' = pre' ++ rest ->
    length (getb st') = length (getb st) -> (forall b, setb b st' = setb b st) ->
    exists b, length b = length (getb st) /\ loop (length (concat (map raws items)) + k)%nat (length pre + 32 * length rs)%nat st'
      = Some (scanned items k, setb b st)) as Hnext.
  { intros pre' st' Hl Hb' Hlb Hset. destruct (IH pre' st' Hok) as (b & Hbl & Hloop); [rewrite Hl, Hpre, <- Nat.mul_add_distr_l, (Nat.mul_comm 32), Nat.div_mul; lia|lia|done|].
    exists b. rewrite <- Hset. split; [congruence|]. rewrite <- Hl. exact Hloop. }
  subst rs. destruct i as [r|r|ss r]; cbn [raws length concat] in *.
  - destruct Hi as [Hr Hp]. rewrite app_nil_r in Hb. cbn [Nat.add].
    rewrite (skip_step _ _ _ _ _ Hp Hb). destruct (Hnext (pre ++ r) st) as (b & Hbl & Hl);
      [rewrite length_app; lia|by rewrite Hb, <- app_assoc|done|done|]. exists b. split; [done|]. exact Hl.
  - destruct Hi as (Hr & Hu & Hby). rewrite app_nil_r in Hb. cbn [Nat.add].
    pose proof Hu as (e & He & _). rewrite (short_step _ _ _ _ _ _ Hu He Hb), (named_short _ _ _ Hname Hby He).
    destruct (mismatch filename e []); [|exists (getb st); by rewrite set_get].
    destruct (Hnext (pre ++ r) st) as (b & Hbl & Hl); [rewrite length_app; lia|by rewrite Hb, <- app_assoc|done|done|].
    exists b. split; [done|]. exact Hl.
  - destruct Hi as (Hr & Hu & Hss & Hby & Hbys). pose proof Hu as (e & He & _).
    rewrite (named_long _ _ _ _ Hname Hby Hbys (slots_length _ Hss) He).
    rewrite concat_app, <- app_assoc in Hb. cbn [concat app] in Hb. rewrite app_nil_r in Hb.
    rewrite length_app in Hlim, Hnext |- *. cbn [length] in Hlim, Hnext |- *.
    destruct ss as [|s0 ss0] eqn:Ess; [done|]. rewrite <- Ess in *. pose proof Hss as Hss'. rewrite Ess in Hss'.
    destruct Hss' as (H9 & Hs0 & _ & _ & _ & Hnum). pose proof (numbered_passed _ _ Hnum) as Hpass.
    set (b1 := pre ++ r ++ drop 32 (concat ss ++ r ++ rest)).
    assert (b1 = (pre ++ r) ++ concat ss0 ++ r ++ rest) as Hb1.
    { unfold b1. rewrite Ess. cbn [concat]. rewrite <- !app_assoc. by rewrite <- Hs0, drop_app_length. }
    assert (length b1 = length (getb st)) as Hb1l by (rewrite Hb1, Hb, Ess; cbn [concat]; rewrite !length_app; lia).
    replace (length ss + 1 + (length (concat (map raws items)) + k))%nat
      with (S (length ss0 + S (length (concat (map raws items)) + k))) by (rewrite Ess; cbn; lia).
    rewrite (long_step _ _ _ _ _ _ _ Hss Hr Hu He Hpre ltac:(lia) Hb). fold b1.
    destruct (mismatch filename e (long_name ss)) eqn:Emis; [|by exists b1].
    replace (length pre + 32)%nat with (length (pre ++ r)) by (rewrite length_app; lia).
    rewrite (skip_steps _ (r ++ rest) ss0 (pre ++ r) (setb b1 st) Hpass ltac:(by rewrite get_set)).
    replace (length (pre ++ r) + 32 * length ss0)%nat with (length ((pre ++ r) ++ concat ss0))
      by (rewrite !length_app, (concat_length 32) by (eapply Forall_impl; [exact Hpass|]; by intros x [? _]); lia).
    rewrite (short_step _ ((pre ++ r) ++ concat ss0) r rest e (setb b1 st) Hu He) by (rewrite get_set, Hb1; by rewrite <- !app_assoc).
    rewrite (mismatch_empty _ _ Emis).
    assert (length (concat ss0) = 32 * length ss0)%nat as Hcl
      by (rewrite (concat_length 32) by (eapply Forall_impl; [exact Hpass|]; by intros x [? _]); lia).
    destruct (Hnext (((pre ++ r) ++ concat ss0) ++ r) (setb b1 st)) as (b & Hbl & Hl).
    { rewrite !length_app, Hcl, Ess. cbn [length]. lia. }
    { rewrite get_set, Hb1. by rewrite <- !app_assoc. }
    { by rewrite get_set. }
    { intros b. apply set_set. }
    exists b. split; [done|]. etransitivity; [|exact Hl]. f_equal. rewrite !length_app, Hcl, Ess. cbn [length]. lia.
Qed.
End scan.

(** ** The loops of the program *)
Section loops.
Context {D : Type} {Reader : BlockReader D}.
Definition with_dent (b : list Z) (st : fat_state D) : fat_state D :=
  mk_state (disk st) (cur_dev st) (cur_part_info st) (fatbuf st) (fatbufnum st)
    (get_contents_vfatname_block st) b (do_fat_read_at_block st).
Definition with_root (b : list Z) (st : fat_state D) : fat_state D :=
  mk_state (disk st) (cur_dev st) (cur_part_info st) (fatbuf st) (fatbufnum st)
    (get_contents_vfatname_block st) (get_dentfromdir_block st) b.
Lemma dent_loop_scan m curclust filename : forall n off st,
  dent_loop n m curclust filename off st
  = scan_loop get_dentfromdir_block with_dent false found n m curclust filename off st.
Proof.
  induction n as [|n IH]; intros off st; [done|]. cbn [dent_loop scan_loop].
  rewrite (bind_step _ _ st (get_dentfromdir_block st) st), lift_run by done.
  destruct (dirent_at (get_dentfromdir_block st) off) as [e|]; [|done]. cbn [mbind option_bind]. case_if; [apply IH|]. cbn [andb negb].
  rewrite bind_run. destruct (entry_name m curclust (get_dentfromdir_block st) off e st) as [[[[l b]|] st1]|]; [|apply IH|done].
  cbn [mbind option_bind]. rewrite (bind_step _ _ st1 () (with_dent b st1)), lift_run by done.
  destruct (dirent_at b off) as [e'|]; [|done]. cbn [mbind option_bind]. case_if; [done|]. case_if; [apply IH|done].
Qed.
(** An entry that is no directory ends the search for one. *)
Definition dir_only (isdir : bool) (e : dir_entry) : scan := if isdir && (attr e .& ATTR_DIR =? 0) then at_end else found e.
Lemma root_dents_scan m curclust filename isdir : forall n off st,
  root_dents n m curclust filename isdir off st
  = scan_loop do_fat_read_at_block with_root true (dir_only isdir) n m curclust filename off st.
Proof.
  induction n as [|n IH]; intros off st; [done|]. cbn [root_dents scan_loop].
  rewrite (bind_step _ _ st (do_fat_read_at_block st) st), lift_run by done.
  destruct (dirent_at (do_fat_read_at_block st) off) as [e|]; [|done]. cbn [mbind option_bind]. case_if; [apply IH|]. cbn [andb negb].
  case_if; [done|]. rewrite bind_run.
  destruct (entry_name m curclust (do_fat_read_at_block st) off e st) as [[[[l b]|] st1]|]; [|apply IH|done].
  cbn [mbind option_bind]. rewrite (bind_step _ _ st1 () (with_root b st1)), lift_run by done.
  destruct (dirent_at b off) as [e'|]; [|done]. cbn [mbind option_bind]. case_if; [apply IH|]. unfold dir_only. case_if; done.
Qed.
Lemma scan_loop_app getb setb early fin m curclust filename (Hfin : forall e, fin e <> more) n2 : forall n1 off st,
  scan_loop (D := D) getb setb early fin (n1 + n2) m curclust filename off st
  = match scan_loop getb setb early fin n1 m curclust filename off st with
    | Some (more, st') => scan_loop getb setb early fin n2 m curclust filename (off + 32 * n1) st'
    | x => x
    end.
Proof.
  induction n1 as [|n1 IH]; intros off st; [cbn; by rewrite Nat.add_0_r|]. cbn [Nat.add scan_loop].
  assert (forall st', scan_loop getb setb early fin (n1 + n2) m curclust filename (off + 32) st'
    = match scan_loop getb setb early fin n1 m curclust filename (off + 32) st' with
      | Some (more, st') => scan_loop getb setb early fin n2 m curclust filename (off + 32 * S n1) st'
      | x => x end) as Hnext.
  { intros st'. rewrite IH. repeat case_match; try done. f_equal. lia. }
  destruct (dirent_at (getb st) off) as [e|]; [|done]. cbn [mbind option_bind]. case_if; [apply Hnext|]. case_if; [done|].
  destruct (entry_name m curclust (getb st) off e st) as [[[[l b]|] st1]|]; [|apply Hnext|done]. cbn [mbind option_bind].
  destruct (dirent_at b off) as [e'|]; [|done]. cbn [mbind option_bind]. case_if; [done|]. case_if; [apply Hnext|].
  pose proof (Hfin e'). by destruct (fin e').
Qed.
End loops.

Section volume.
Context {D : Type} {Reader : BlockReader D} {Laws : BlockDeviceLaws D}.
Context (m : fsdata) (d0 : D) (base : Z) (fat : list (list Z)) (data : Z -> list (list Z)).
Context (V : volume m d0 base fat).
Abbreviation bpc := (clust_size m * sect_size m).
Abbreviation ready := (mounted m d0 base fat).
(** Entries in a piece of a directory: all of it, or up to an entry that ends the directory. *)
Definition entries_in (bytes : list Z) (items : list item) (ended : bool) : Prop :=
  Forall item_ok items /\ exists tail, bytes = concat (all_raws items) ++ tail /\ (if ended then ends tail else tail = []).
Lemma item_raws items : Forall item_ok items -> Forall (fun r => length r = 32%nat) (all_raws items).
Proof.
  unfold all_raws. induction 1 as [|i items Hi _ IH]; [apply Forall_nil_2|]. cbn [map concat]. apply Forall_app_2; [|done].
  destruct i as [r|r|ss r]; cbn [raws] in *.
  - destruct Hi as [Hr _]. by apply Forall_singleton.
  - destruct Hi as [Hr _]. by apply Forall_singleton.
  - destruct Hi as (Hr & _ & Hss & _). apply Forall_app_2; [by apply slots_length|by apply Forall_singleton].
Qed.
Lemma ends_length tail : ends tail -> (32 <= length tail)%nat.
Proof.
  intros (e & He & _). unfold dirent_at in He. destruct (slice tail (Z.of_nat 0) 8); [|done]. cbn [mbind option_bind] in He.
  destruct (slice tail (Z.of_nat 0 + 8) 3); [|done]. cbn [mbind option_bind] in He. destruct (tail !! (0 + 11)%nat); [|done].
  cbn [mbind option_bind] in He. destruct (u16_at tail (0 + 20)); [|done]. destruct (u16_at tail (0 + 26)); [|done]. cbn [mbind option_bind] in He.
  unfold u32_at, u16_at in He. destruct (tail !! (0 + 28)%nat); [|done]. destruct (tail !! S (0 + 28)); [|done]. cbn [mbind option_bind] in He.
  destruct (tail !! (0 + 28 + 2)%nat); [|done]. destruct (tail !! S (0 + 28 + 2)) eqn:E; [|done]. apply lookup_lt_Some in E. lia.
Qed.
(** The scan of a piece at the start of a block. *)
Lemma scan_entries getb setb early fin curclust filename bytes junk items ended n (st : fat_state D) :
  (forall b st, getb (setb b st) = b) -> (forall b b' st, setb b (setb b' st) = setb b st) -> (forall st, setb (getb st) st = st) ->
  filename <> [] /\ str_ok filename -> entries_in bytes items ended -> length bytes = (32 * n)%nat -> (length bytes <= buflimit m curclust)%nat ->
  getb st = bytes ++ junk ->
  exists b, length b = length (getb st) /\ scan_loop getb setb early fin n m curclust filename 0 st
    = Some (match lookup filename items with Some e => fin e | None => if ended then at_end else more end, setb b st).
Proof.
  intros G1 G2 G3 Hname (Hok & tail & Hb & He) Hn Hlim Hst. pose proof (item_raws items Hok) as Hr.
  assert (length (concat (all_raws items)) = 32 * length (all_raws items))%nat as Hl by (rewrite (concat_length 32 _ Hr); lia).
  rewrite Hb, length_app, Hl in Hn, Hlim.
  set (k := (n - length (all_raws items))%nat).
  assert (k = 0%nat /\ ended = false \/ ends (tail ++ junk) /\ k <> 0%nat /\ ended = true) as Hk.
  { destruct ended; [right|left].
    - destruct He as (e & He & H1 & H2). split; [|split; [|done]].
      + exists e. split; [|done]. by apply (dirent_block [] tail junk).
      + pose proof (ends_length tail ltac:(by exists e)). unfold k. lia.
    - subst tail. cbn in Hn. unfold k. split; [lia|done]. }
  destruct (scan_ok getb setb early fin G1 G2 G3 m curclust filename Hname k (tail ++ junk) ltac:(tauto) items [] st Hok) as (b & Hbl & Hs).
  - done.
  - cbn [length]. lia.
  - rewrite Hst, Hb. cbn [app]. by rewrite <- app_assoc.
  - exists b. split; [done|]. replace n with (length (all_raws items) + k)%nat by (unfold k; lia).
    cbn [length] in Hs. rewrite Hs. unfold scanned. do 2 f_equal.
    destruct (lookup filename items); [done|]. destruct Hk as [[-> ->]|(_ & Hk & ->)]; [done|]. by destruct k.
Qed.

(** ** A directory in a chain of clusters *)
Abbreviation is_cluster := (cluster m d0 base data).
Abbreviation next := (next_cluster m fat).
Inductive dir_at : list Z -> list item -> Prop :=
| dir_ends c cs items : is_cluster c -> entries_in (concat (data c)) items true -> dir_at (c :: cs) items
| dir_full c cs c' items items' : is_cluster c -> entries_in (concat (data c)) items false -> next c = Some c' ->
    CHECK_CLUST c' (fatsize m) = false -> dir_at (c' :: cs) items' -> dir_at (c :: c' :: cs) (items ++ items')
| dir_last c c' items : is_cluster c -> entries_in (concat (data c)) items false -> next c = Some c' ->
    CHECK_CLUST c' (fatsize m) = true -> dir_at [c] items.
Lemma lookup_app filename l1 l2 :
  lookup filename (l1 ++ l2) = match lookup filename l1 with Some e => Some e | None => lookup filename l2 end.
Proof. induction l1 as [|i l1 IH]; [done|]. cbn [app lookup]. by destruct (named filename i). Qed.
Lemma set_dent_mounted st b : ready st -> length b = Z.to_nat MAX_CLUSTSIZE -> ready (with_dent b st).
Proof. intros [] Hb. by split. Qed.
Lemma cluster_bytes c : is_cluster c -> length (concat (data c)) = Z.to_nat bpc.
Proof.
  intros [Hc Hp Hl]. pose proof (run_length m d0 base fat V (data c) ltac:(apply Hp)) as H. rewrite Hl in H. lia.
Qed.
(** One cluster of a directory. *)
Lemma dir_cluster_ok filename c items ended st : ready st -> is_cluster c -> filename <> [] /\ str_ok filename ->
  entries_in (concat (data c)) items ended ->
  exists bytes st1 block st2, get_cluster m c 0 (clust_size m * sect_size m) st = Some ((0, bytes), st1)
    /\ over bytes (get_dentfromdir_block st1) = Some block
    /\ dent_loop (Z.to_nat (clust_size m * sect_size m / 32)) m c filename 0 (with_dent block st1)
       = Some (match lookup filename items with Some e => found e | None => if ended then at_end else more end, st2)
    /\ ready st2.
Proof.
  intros Hst Hc Hname Hent. pose proof (cluster_bytes c Hc) as Hlen. pose proof (bpc_range m d0 base fat V) as Hbpc.
  pose proof (c_range _ _ _ _ _ Hc) as Hcr. pose proof (c_length _ _ _ _ _ Hc) as Hcl.
  destruct (get_cluster_ok m d0 base fat V st c 0 bpc (data c) Hst ltac:(lia) (c_place _ _ _ _ _ Hc)) as (d1 & Hg & Hst1); [rewrite Hcl; lia|].
  rewrite take_ge in Hg by lia. set (st1 := with_disk d1 st) in *.
  pose proof (m_dentfromdir _ _ _ _ _ Hst1) as Hdl. unfold MAX_CLUSTSIZE in *.
  pose proof (over_ok (concat (data c)) (get_dentfromdir_block st1) ltac:(lia)) as Hover. set (junk := drop _ _) in Hover.
  assert (ready (with_dent (concat (data c) ++ junk) st1)) as Hst2
    by (apply set_dent_mounted; [done|]; by rewrite (over_length _ _ _ Hover)).
  destruct (scan_entries get_dentfromdir_block with_dent false found c filename (concat (data c)) junk items ended
    (Z.to_nat (bpc / 32)) (with_dent (concat (data c) ++ junk) st1)) as (b & Hb & Hs); try done.
  - by intros [].
  - pose proof (v_sect _ _ _ _ V) as [_ Hm32]. assert (bpc mod 32 = 0) as Hdiv by (rewrite <- Zmult_mod_idemp_r, Hm32, Z.mul_0_r; done). zdm.
  - unfold buflimit. destruct (Z.eqb_spec c 0); [lia|]. rewrite Z.mul_comm. lia.
  - exists (concat (data c)), st1, (concat (data c) ++ junk), (with_dent b (with_dent (concat (data c) ++ junk) st1)).
    split; [exact Hg|]. split; [exact Hover|]. split; [rewrite dent_loop_scan; exact Hs|].
    apply set_dent_mounted; [done|]. rewrite Hb. apply (m_dentfromdir _ _ _ _ _ Hst2).
Qed.
Lemma dir_loop_ok filename : filename <> [] /\ str_ok filename -> forall cs items, dir_at cs items ->
  forall fuel st, ready st -> (length cs <= fuel)%nat ->
  exists st', dir_loop fuel m (hd 0 cs) filename st = Some (lookup filename items, st') /\ ready st'.
Proof.
  intros Hname. induction 1 as [c cs items Hc Hent|c cs c' items items' Hc Hent Hnext Hchk _ IH|c c' items Hc Hent Hnext Hchk];
    intros fuel st Hst Hf; (destruct fuel as [|fuel]; [cbn in Hf; lia|]); cbn [dir_loop hd];
    destruct (dir_cluster_ok filename c _ _ st Hst Hc Hname Hent) as (bytes & st1 & block & st2 & Hg & Hover & Hs & Hst2);
    rewrite (bind_step _ _ _ _ _ Hg); cbv beta iota; rewrite (bind_step _ _ st1 (get_dentfromdir_block st1) st1), lift_run, Hover by done;
    cbn [mbind option_bind]; rewrite (bind_step _ _ st1 () (with_dent block st1)) by done; change (negb (0 =? 0)) with false; cbn iota;
    rewrite (bind_step _ _ _ _ _ Hs).
  - exists st2. by destruct (lookup filename items).
  - rewrite lookup_app. destruct (lookup filename items); [by exists st2|].
    destruct (follow m d0 base fat data V st2 c c' Hst2 Hc Hnext) as (st3 & Hfe & Hst3 & _). rewrite (bind_step _ _ _ _ _ Hfe), Hchk.
    cbn [length] in Hf. apply IH; [done|cbn [length]; lia].
  - destruct (lookup filename items); [by exists st2|].
    destruct (follow m d0 base fat data V st2 c c' Hst2 Hc Hnext) as (st3 & Hfe & Hst3 & _). rewrite (bind_step _ _ _ _ _ Hfe), Hchk.
    by exists st3.
Qed.
Lemma get_dentfromdir_ok filename fuel e cs items st : filename <> [] /\ str_ok filename -> dir_at cs items ->
  START m e = hd 0 cs -> ready st -> (length cs <= fuel)%nat ->
  exists st', get_dentfromdir fuel m filename e st = Some (lookup filename items, st') /\ ready st'.
Proof. intros Hname Hdir Hs Hst Hf. unfold get_dentfromdir. rewrite Hs. by apply dir_loop_ok. Qed.

(** ** The root directory *)
Definition entry_for (isdir : bool) (e : option dir_entry) : option dir_entry :=
  match e with Some e => if isdir && (attr e .& ATTR_DIR =? 0) then None else Some e | None => None end.
Definition after_scan (r : scan) : option (option dir_entry) :=
  match r with found e => Some (Some e) | at_end => Some None | more => None end.
Abbreviation dpb := (Z.to_nat (sect_size m / 32)).
Lemma set_root_mounted st b : ready st -> length b = Z.to_nat MAX_CLUSTSIZE -> ready (with_root b st).
Proof. intros [] Hb. by split. Qed.
Lemma sect_dpb : sect_size m = 32 * Z.of_nat dpb /\ (0 < dpb)%nat.
Proof. pose proof (v_sect _ _ _ _ V). split; zdm. Qed.
(** Reading a piece of the root directory into the block. *)
Definition fill_root (j cursect : Z) : M D bool :=
  if j =? 0 then
    '(ret, bytes) ← disk_read cursect (if fatsize m =? 32 then clust_size m else PREFETCH_BLOCKS);
    old ← gets do_fat_read_at_block; block ← lift (over bytes old);
    set_read_at_block block ;; mret (negb (ret <? 0))
  else mret true.
Lemma fill_root_ok cursect run st : ready st -> on_volume m d0 base cursect run ->
  zlen run = (if fatsize m =? 32 then clust_size m else PREFETCH_BLOCKS) -> zlen (concat run) <= 65536 ->
  exists st1 block, fill_root 0 cursect st = Some (true, with_root block st1) /\ ready (with_root block st1)
    /\ exists junk, block = concat run ++ junk.
Proof.
  intros Hst Hrun Hn Hl. unfold fill_root. change (0 =? 0) with true. cbn iota. rewrite <- Hn.
  destruct (read_run m d0 base fat st cursect run Hst Hrun) as (d1 & Hrd & Hst1). rewrite (bind_step _ _ _ _ _ Hrd). cbv beta iota.
  set (st1 := with_disk d1 st) in *. pose proof (m_read_at _ _ _ _ _ Hst1) as Hrl. unfold MAX_CLUSTSIZE in *.
  rewrite (bind_step _ _ st1 (do_fat_read_at_block st1) st1), lift_run by done.
  pose proof (over_ok (concat run) (do_fat_read_at_block st1) ltac:(lia)) as Hover. rewrite Hover. cbn [mbind option_bind].
  exists st1, (concat run ++ drop (length (concat run)) (do_fat_read_at_block st1)). split; [|split].
  - rewrite (bind_step _ _ st1 () (with_root (concat run ++ drop (length (concat run)) (do_fat_read_at_block st1)) st1)) by done.
    by destruct (Z.ltb_spec (zlen run) 0); [lia|].
  - apply set_root_mounted; [done|]. by rewrite (over_length _ _ _ Hover).
  - by eexists.
Qed.
(** The scan of a piece as a whole. *)
Lemma root_scan_ok rc filename isdir bytes junk items ended n st1 block : filename <> [] /\ str_ok filename ->
  ready (with_root block st1) -> block = bytes ++ junk -> entries_in bytes items ended -> length bytes = (32 * n)%nat ->
  (length bytes <= buflimit m rc)%nat ->
  exists st2, scan_loop do_fat_read_at_block with_root true (dir_only isdir) n m rc filename 0 (with_root block st1)
    = Some (match lookup filename items with Some e => dir_only isdir e | None => if ended then at_end else more end, st2)
    /\ ready st2.
Proof.
  intros Hname Hst -> Hent Hn Hlim.
  destruct (scan_entries do_fat_read_at_block with_root true (dir_only isdir) rc filename bytes junk items ended n
    (with_root (bytes ++ junk) st1)) as (b & Hb & Hs); try done.
  - by intros [].
  - eexists. split; [exact Hs|]. apply set_root_mounted; [done|]. rewrite Hb. apply (m_read_at _ _ _ _ _ Hst).
Qed.
Lemma dir_only_more isdir e : dir_only isdir e <> more.
Proof. unfold dir_only. by case_if. Qed.
(** What follows a cluster of the root of a FAT32 volume. *)
Definition next_root (fuel : nat) (rsz : Z) (filename : list Z) (isdir : bool) (rc : Z) : M D (option dir_entry) :=
  nxt_clust ← get_fatent m rc;
  if CHECK_CLUST nxt_clust 32 then mret None
  else root_loop fuel m rsz filename isdir 0 (u32 (data_begin m + nxt_clust * clust_size m)) nxt_clust.
Lemma root_step fuel rsz filename isdir j cursect rc st st1 : fill_root j cursect st = Some (true, st1) -> 0 <= j ->
  root_loop (S fuel) m rsz filename isdir j cursect rc st
  = '(r, st2) ← scan_loop do_fat_read_at_block with_root true (dir_only isdir) dpb m rc filename (Z.to_nat j * dpb * 32) st1;
    match after_scan r with
    | Some res => Some (res, st2)
    | None =>
        if fatsize m =? 32 then
          if j + 1 =? clust_size m then next_root fuel rsz filename isdir rc st2
          else root_loop fuel m rsz filename isdir (j + 1) cursect rc st2
        else if rsz <=? u32 (u32 (cursect + 1) - rootdir_sect m) then Some (None, st2)
        else root_loop fuel m rsz filename isdir (if j + 1 =? PREFETCH_BLOCKS then 0 else j + 1) (u32 (cursect + 1)) rc st2
    end.
Proof.
  intros Hfill Hj. pose proof sect_dpb as [Hs Hd]. cbn [root_loop]. change (if j =? 0 then _ else _) with (fill_root j cursect).
  rewrite (bind_step _ _ _ _ _ Hfill). cbn [negb].
  replace (Z.to_nat (j * (sect_size m / 32) * 32)) with (Z.to_nat j * dpb * 32)%nat by (rewrite !Z2Nat.inj_mul by lia; done).
  rewrite bind_run, root_dents_scan. destruct (scan_loop _ _ _ _ _ _ _ _ _ st1) as [[r st2]|]; [|done]. cbn [mbind option_bind].
  destruct r; [done|done|]. cbn [after_scan]. by repeat case_if.
Qed.
Lemma fill_later j cursect st : j <> 0 -> fill_root j cursect st = Some (true, st).
Proof. intros H. unfold fill_root. by destruct (Z.eqb_spec j 0). Qed.
Lemma rounds32 fuel rsz filename isdir rc cursect : fatsize m = 32 -> forall n j st st1 r st2,
  fill_root j cursect st = Some (true, st1) -> 0 <= j -> j + Z.of_nat n + 1 = clust_size m ->
  scan_loop do_fat_read_at_block with_root true (dir_only isdir) (S n * dpb) m rc filename (Z.to_nat j * dpb * 32) st1 = Some (r, st2) ->
  root_loop (S n + fuel) m rsz filename isdir j cursect rc st
  = match after_scan r with Some res => Some (res, st2) | None => next_root fuel rsz filename isdir rc st2 end.
Proof.
  intros Hfs. induction n as [|n IH]; intros j st st1 r st2 Hfill Hj Hjn Hscan; rewrite Nat.add_succ_l, (root_step _ _ _ _ _ _ _ _ _ Hfill Hj), Hfs;
    change (32 =? 32) with true; cbn iota.
  - rewrite Nat.mul_1_l in Hscan. rewrite Hscan. cbn [mbind option_bind]. destruct (Z.eqb_spec (j + 1) (clust_size m)); [done|lia].
  - change (S (S n) * dpb)%nat with (dpb + S n * dpb)%nat in Hscan. rewrite (scan_loop_app _ _ _ _ _ _ _ (dir_only_more isdir)) in Hscan.
    destruct (scan_loop _ _ _ _ dpb m rc filename _ st1) as [[r1 st']|] eqn:E1; [|done]. cbn [mbind option_bind].
    destruct r1; [by simplify_eq|by simplify_eq|]. cbn [after_scan]. destruct (Z.eqb_spec (j + 1) (clust_size m)); [lia|].
    apply (IH (j + 1) st' st' r st2); [apply fill_later; lia|lia|lia|].
    rewrite <- Hscan. f_equal. rewrite Z2Nat.inj_add by lia. lia.
Qed.
(** One piece of two sectors of another root. *)
Lemma rounds16 fuel rsz filename isdir rc cursect st st1 r st2 : fatsize m <> 32 ->
  fill_root 0 cursect st = Some (true, st1) -> rootdir_sect m <= cursect -> cursect + 2 < 0x100000000 -> 0 <= rootdir_sect m ->
  cursect + 1 - rootdir_sect m < rsz ->
  scan_loop do_fat_read_at_block with_root true (dir_only isdir) (2 * dpb) m rc filename 0 st1 = Some (r, st2) ->
  root_loop (S (S fuel)) m rsz filename isdir 0 cursect rc st
  = match after_scan r with
    | Some res => Some (res, st2)
    | None => if rsz <=? cursect + 2 - rootdir_sect m then Some (None, st2)
              else root_loop fuel m rsz filename isdir 0 (cursect + 2) rc st2
    end.
Proof.
  intros Hfs Hfill Hc Hc2 Hr Hrsz Hscan. rewrite (root_step _ _ _ _ _ _ _ _ _ Hfill) by lia. destruct (Z.eqb_spec (fatsize m) 32); [done|].
  change (2 * dpb)%nat with (dpb + (dpb + 0))%nat in Hscan. rewrite Nat.add_0_r in Hscan.
  rewrite (scan_loop_app _ _ _ _ _ _ _ (dir_only_more isdir)) in Hscan. change (Z.to_nat 0 * dpb * 32)%nat with 0%nat.
  destruct (scan_loop _ _ _ _ dpb m rc filename 0 st1) as [[r1 st']|] eqn:E1; [|done]. cbn [mbind option_bind].
  destruct r1; [by simplify_eq|by simplify_eq|]. cbn [after_scan]. rewrite (u32_small (cursect + 1)), (u32_small (_ - _)) by lia.
  destruct (Z.leb_spec rsz (cursect + 1 - rootdir_sect m)); [lia|]. change (0 + 1 =? PREFETCH_BLOCKS) with false. cbn iota.
  rewrite (root_step fuel _ _ _ (0 + 1) _ _ st' st') by (done || lia). destruct (Z.eqb_spec (fatsize m) 32); [done|].
  replace (Z.to_nat (0 + 1) * dpb * 32)%nat with (0 + 32 * dpb)%nat by lia. rewrite Hscan. cbn [mbind option_bind].
  destruct (after_scan r); [done|]. replace (cursect + 1 + 1) with (cursect + 2) by lia. rewrite (u32_small (cursect + 2)), (u32_small (_ - _)) by lia.
  change (0 + 1 + 1 =? PREFETCH_BLOCKS) with true. done.
Qed.

(** The root directory of a volume without FAT32, from sector [s] on, two sectors at a time. *)
Inductive root_at (last : Z) : Z -> list item -> Prop :=
| root_ends s run items : on_volume m d0 base s run -> zlen run = 2 -> s + 2 <= last ->
    entries_in (concat run) items true -> root_at last s items
| root_full s run items items' : on_volume m d0 base s run -> zlen run = 2 -> s + 2 < last ->
    entries_in (concat run) items false -> root_at last (s + 2) items' -> root_at last s (items ++ items')
| root_last s run items : on_volume m d0 base s run -> zlen run = 2 -> s + 2 = last ->
    entries_in (concat run) items false -> root_at last s items.
Lemma run_bytes (run : list (list Z)) : Forall (fun b => length b = Z.to_nat (sect_size m)) run -> zlen (concat run) = zlen run * sect_size m.
Proof. apply (run_length m d0 base fat V). Qed.
(** The scan of one piece gives the entry, the end, or nothing. *)
Lemma piece_result filename isdir items (ended : bool) r :
  r = match lookup filename items with Some e => dir_only isdir e | None => if ended then at_end else more end ->
  after_scan r = match lookup filename items with
                 | Some e => Some (entry_for isdir (Some e))
                 | None => if (ended : bool) then Some None else None
                 end.
Proof. intros ->. unfold dir_only, entry_for. destruct (lookup filename items); [by case_if|by destruct ended]. Qed.
Lemma root16_ok rsz filename isdir : fatsize m <> 32 -> filename <> [] /\ str_ok filename -> 2 * sect_size m <= 65536 ->
  forall s items, root_at (rootdir_sect m + rsz) s items -> 0 <= rootdir_sect m <= s ->
  forall fuel st, ready st -> rootdir_sect m + rsz - s < Z.of_nat fuel ->
  exists st', root_loop fuel m rsz filename isdir 0 s 0 st = Some (entry_for isdir (lookup filename items), st') /\ ready st'.
Proof.
  intros Hfs Hname Hsz.
  assert (forall s run items (ended : bool) fuel st, on_volume m d0 base s run -> zlen run = 2 -> s + 2 <= rootdir_sect m + rsz ->
    entries_in (concat run) items ended -> 0 <= rootdir_sect m <= s -> ready st ->
    exists st2, ready st2 /\ root_loop (S (S fuel)) m rsz filename isdir 0 s 0 st
      = match lookup filename items with
        | Some e => Some (entry_for isdir (Some e), st2)
        | None => if ended then Some (None, st2)
                  else if rsz <=? s + 2 - rootdir_sect m then Some (None, st2)
                  else root_loop fuel m rsz filename isdir 0 (s + 2) 0 st2
        end) as Hpiece.
  { intros s run items ended fuel st Hrun Hn Hs Hent Hr Hst. pose proof (r_range _ _ _ _ _ Hrun) as Hrange.
    pose proof (run_bytes run (r_sect _ _ _ _ _ Hrun)) as Hbytes. rewrite Hn in Hbytes. destruct sect_dpb as [Hsd Hd].
    destruct (fill_root_ok s run st Hst Hrun) as (st1 & block & Hfill & Hst1 & junk & Hb);
      [by destruct (Z.eqb_spec (fatsize m) 32)|lia|].
    destruct (root_scan_ok 0 filename isdir (concat run) junk items ended (2 * dpb) st1 block Hname Hst1 Hb Hent) as (st2 & Hscan & Hst2);
      [lia|unfold buflimit; cbn [Z.eqb]; unfold PREFETCH_BLOCKS; lia|].
    exists st2. split; [done|]. rewrite (rounds16 fuel rsz filename isdir 0 s st _ _ st2 Hfs Hfill ltac:(lia) ltac:(lia) ltac:(lia) ltac:(lia) Hscan).
    rewrite (piece_result filename isdir items ended _ eq_refl). destruct (lookup filename items); [done|]. by destruct ended. }
  induction 1 as [s run items Hrun Hn Hs Hent|s run items items' Hrun Hn Hs Hent _ IH|s run items Hrun Hn Hs Hent];
    intros Hr fuel st Hst Hf; (destruct fuel as [|[|fuel]]; [lia..|]);
    destruct (Hpiece s run _ _ fuel st Hrun Hn ltac:(lia) Hent Hr Hst) as (st2 & Hst2 & ->).
  - exists st2. by destruct (lookup filename items).
  - rewrite lookup_app. destruct (lookup filename items) as [e|]; [by exists st2|].
    destruct (Z.leb_spec rsz (s + 2 - rootdir_sect m)); [lia|]. apply IH; [lia|done|lia].
  - exists st2. split; [|done]. destruct (lookup filename items); [done|]. by destruct (Z.leb_spec rsz (s + 2 - rootdir_sect m)); [|lia].
Qed.
(** The root of a FAT32 volume is a chain of clusters. *)
Lemma root32_ok rsz filename isdir : fatsize m = 32 -> filename <> [] /\ str_ok filename ->
  forall cs items, dir_at cs items -> forall fuel st, ready st -> (length cs * Z.to_nat (clust_size m) <= fuel)%nat ->
  exists st', root_loop fuel m rsz filename isdir 0 (u32 (data_begin m + hd 0 cs * clust_size m)) (hd 0 cs) st
    = Some (entry_for isdir (lookup filename items), st') /\ ready st'.
Proof.
  intros Hfs Hname. pose proof (bpc_range m d0 base fat V) as Hbpc. destruct sect_dpb as [Hsd Hd]. pose proof (v_clust _ _ _ _ V) as [Hcl _].
  assert (forall c items (ended : bool) fuel st, is_cluster c -> entries_in (concat (data c)) items ended -> ready st ->
    exists st2, ready st2 /\ root_loop (Z.to_nat (clust_size m) + fuel) m rsz filename isdir 0 (u32 (data_begin m + c * clust_size m)) c st
      = match lookup filename items with
        | Some e => Some (entry_for isdir (Some e), st2)
        | None => if ended then Some (None, st2) else next_root fuel rsz filename isdir c st2
        end) as Hpiece.
  { intros c items ended fuel st Hc Hent Hst. pose proof (cluster_bytes c Hc) as Hbytes. pose proof (c_place _ _ _ _ _ Hc) as Hp.
    pose proof (r_range _ _ _ _ _ Hp) as Hrange. pose proof (c_length _ _ _ _ _ Hc) as Hlen. pose proof (c_range _ _ _ _ _ Hc) as Hcr.
    rewrite u32_small by lia.
    destruct (fill_root_ok _ (data c) st Hst Hp) as (st1 & block & Hfill & Hst1 & junk & Hb); [by rewrite Hfs|lia|].
    destruct (root_scan_ok c filename isdir (concat (data c)) junk items ended (Z.to_nat (clust_size m) * dpb) st1 block Hname Hst1 Hb Hent)
      as (st2 & Hscan & Hst2); [nia|unfold buflimit; destruct (Z.eqb_spec c 0); [lia|]; rewrite Z.mul_comm; lia|].
    exists st2. split; [done|].
    replace (Z.to_nat (clust_size m)) with (S (Z.to_nat (clust_size m) - 1)) in Hscan |- * by lia.
    rewrite (rounds32 fuel rsz filename isdir c _ Hfs (Z.to_nat (clust_size m) - 1) 0 st _ _ st2 Hfill ltac:(lia) ltac:(lia) Hscan).
    rewrite (piece_result filename isdir items ended _ eq_refl). destruct (lookup filename items); [done|]. by destruct ended. }
  induction 1 as [c cs items Hc Hent|c cs c' items items' Hc Hent Hnext Hchk _ IH|c c' items Hc Hent Hnext Hchk];
    intros fuel st Hst Hf; cbn [length Nat.mul] in Hf; cbn [hd]; replace fuel with (Z.to_nat (clust_size m) + (fuel - Z.to_nat (clust_size m)))%nat by lia;
    destruct (Hpiece c _ _ (fuel - Z.to_nat (clust_size m))%nat st Hc Hent Hst) as (st2 & Hst2 & ->).
  - exists st2. by destruct (lookup filename items).
  - rewrite lookup_app. destruct (lookup filename items) as [e|]; [by exists st2|]. unfold next_root.
    destruct (follow m d0 base fat data V st2 c c' Hst2 Hc Hnext) as (st3 & Hfe & Hst3 & _). rewrite (bind_step _ _ _ _ _ Hfe).
    rewrite Hfs in Hchk. rewrite Hchk. apply IH; [done|cbn [length Nat.mul] in *; lia].
  - destruct (lookup filename items) as [e|]; [by exists st2|]. unfold next_root.
    destruct (follow m d0 base fat data V st2 c c' Hst2 Hc Hnext) as (st3 & Hfe & Hst3 & _). rewrite (bind_step _ _ _ _ _ Hfe).
    rewrite Hfs in Hchk. rewrite Hchk. by exists st3.
Qed.

(** ** Paths *)
Definition plain (nm : list Z) : Prop := nm <> [] /\ str_ok nm /\ Forall (fun c => ISDIRDELIM c = false) nm.
(** A path of names with separators between them, from a directory to an entry; the directories on the
    way have at most [F] clusters. *)
Inductive path_to (F : nat) : list item -> list Z -> dir_entry -> Prop :=
| path_file items nm e : plain nm -> lookup nm items = Some e -> path_to F items nm e
| path_dir items nm sep seps path e cs items' e' : plain nm -> Forall (fun c => ISDIRDELIM c = true) (sep :: seps) ->
    lookup nm items = Some e -> attr e .& ATTR_DIR <> 0 -> START m e = hd 0 cs -> dir_at cs items' -> (length cs <= F)%nat ->
    path_to F items' path e' -> path_to F items (nm ++ (sep :: seps) ++ path) e'.
Lemma dirdelim_plain nm rest : Forall (fun c => ISDIRDELIM c = false) nm ->
  dirdelim (nm ++ rest) = (fun i => length nm + i)%nat <$> dirdelim rest.
Proof.
  induction 1 as [|c nm Hc _ IH]; cbn; [by destruct (dirdelim rest)|]. rewrite Hc, IH. by destruct (dirdelim rest).
Qed.
Lemma dirdelim_none nm : Forall (fun c => ISDIRDELIM c = false) nm -> dirdelim nm = None.
Proof. intros H. pose proof (dirdelim_plain nm [] H) as Hd. by rewrite app_nil_r in Hd. Qed.
Lemma skip_delims_path F items path e seps : path_to F items path e -> Forall (fun c => ISDIRDELIM c = true) seps ->
  skip_delims (seps ++ path) = path.
Proof.
  intros Hp Hs. induction Hs as [|c seps Hc _ IH]; cbn; [|by rewrite Hc].
  assert (exists c r, path = c :: r /\ ISDIRDELIM c = false) as (c & r & -> & Hc).
  { destruct Hp as [items nm e (Hne & _ & Hd) _|items nm sep seps path e cs items' e' (Hne & _ & Hd) _ _ _ _ _ _ _];
      (destruct nm as [|c nm]; [done|]); apply Forall_cons in Hd as [Hd _]; eauto. }
  cbn. by rewrite Hc.
Qed.
Lemma path_nonempty F items path e : path_to F items path e -> path <> [].
Proof. destruct 1 as [items nm e [Hne _] _|items nm sep seps path e cs items' e' [Hne _] _ _ _ _ _ _ _]; [done|]. by destruct nm. Qed.
Lemma path_loop_ok F items path e' : path_to F items path e' -> forall fuel dent cs st, START m dent = hd 0 cs -> dir_at cs items ->
  (length cs <= F)%nat -> (F + length path < fuel)%nat -> ready st ->
  exists st', path_loop fuel m path dent st = Some (Some e', st') /\ ready st'.
Proof.
  induction 1 as [items nm e (Hne & Hok & Hd) Hl|items nm sep seps path e cs' items' e' (Hne & Hok & Hd) Hseps Hl Ha Hs Hdir HF Hp IH];
    intros fuel dent cs st Hstart Hdir0 HF0 Hf Hst; (destruct fuel as [|fuel]; [lia|]); cbn [path_loop].
  - rewrite (dirdelim_none nm Hd).
    destruct (get_dentfromdir_ok nm (S fuel) dent cs items st ltac:(done) Hdir0 Hstart Hst ltac:(lia)) as (st' & -> & Hst').
    rewrite Hl. by exists st'.
  - pose proof Hseps as Hseps'. apply Forall_cons in Hseps as [Hsep Hseps]. rewrite (dirdelim_plain nm ((sep :: seps) ++ path)) by done.
    cbn [app dirdelim]. rewrite Hsep. cbn [fmap option_fmap option_map]. rewrite Nat.add_0_r, take_app_length.
    destruct (get_dentfromdir_ok nm (S fuel) dent cs items st ltac:(done) Hdir0 Hstart Hst ltac:(lia)) as (st1 & Hg & Hst1).
    rewrite (bind_step _ _ _ _ _ Hg), Hl. destruct (Z.eqb_spec (attr e .& ATTR_DIR) 0); [done|].
    replace (S (length nm)) with (length (nm ++ [sep])) by (rewrite length_app; cbn; lia).
    replace (nm ++ sep :: seps ++ path) with ((nm ++ [sep]) ++ seps ++ path) by (by rewrite <- app_assoc).
    rewrite drop_app_length, (skip_delims_path F items' path e' seps Hp Hseps).
    rewrite !length_app in Hf. cbn [length] in Hf. apply (IH fuel e cs' st1); [done|done|done|lia|done].
Qed.
(** The root directory, with the cluster the driver starts from. *)
Definition root_dir (fuel : nat) (rsz rc : Z) (items : list item) : Prop :=
  fatsize m <> 32 /\ rc = 0 /\ 2 * sect_size m <= 65536 /\ 0 <= rootdir_sect m /\ rsz < Z.of_nat fuel
    /\ root_at (rootdir_sect m + rsz) (rootdir_sect m) items
  \/ fatsize m = 32 /\ exists cs, dir_at cs items /\ rc = hd 0 cs /\ rootdir_sect m = u32 (data_begin m + rc * clust_size m)
      /\ (length cs * Z.to_nat (clust_size m) <= fuel)%nat.
Lemma root_loop_ok fuel rsz rc items filename isdir st : root_dir fuel rsz rc items -> filename <> [] /\ str_ok filename -> ready st ->
  exists st', root_loop fuel m rsz filename isdir 0 (rootdir_sect m) rc st = Some (entry_for isdir (lookup filename items), st') /\ ready st'.
Proof.
  intros [(Hfs & -> & Hs & Hr & Hf & Hroot)|(Hfs & cs & Hdir & -> & Hr & Hf)] Hname Hst.
  - apply root16_ok with (1 := Hfs); [done|done|done|lia|done|lia].
  - rewrite Hr. apply root32_ok with (1 := Hfs); done.
Qed.
Lemma lookup_path_ok F fuel rsz rc items path e' st : path_to F items path e' -> root_dir fuel rsz rc items ->
  (F + length path < fuel)%nat -> ready st ->
  exists st', lookup_path fuel m rsz rc path st = Some (Some e', st') /\ ready st'.
Proof.
  intros Hp Hroot Hf Hst. unfold lookup_path.
  destruct Hp as [items nm e (Hne & Hok & Hd) Hl|items nm sep seps path e cs' items' e' (Hne & Hok & Hd) Hseps Hl Ha Hs Hdir HF Hp].
  - rewrite (dirdelim_none nm Hd).
    destruct (root_loop_ok fuel rsz rc items nm false st Hroot ltac:(done) Hst) as (st1 & Hg & Hst1).
    change (bool_decide (is_Some None)) with false. rewrite (bind_step _ _ _ _ _ Hg), Hl. by exists st1.
  - apply Forall_cons in Hseps as [Hsep Hseps]. rewrite (dirdelim_plain nm ((sep :: seps) ++ path)) by done.
    cbn [app dirdelim]. rewrite Hsep. cbn [fmap option_fmap option_map]. rewrite Nat.add_0_r, take_app_length.
    destruct (root_loop_ok fuel rsz rc items nm true st Hroot ltac:(done) Hst) as (st1 & Hg & Hst1).
    replace (S (length nm)) with (length (nm ++ [sep])) by (rewrite length_app; cbn; lia).
    replace (nm ++ sep :: seps ++ path) with ((nm ++ [sep]) ++ seps ++ path) by (by rewrite <- app_assoc).
    rewrite drop_app_length, (skip_delims_path F items' path e' seps Hp Hseps).
    change (bool_decide (is_Some (Some path))) with true. rewrite (bind_step _ _ _ _ _ Hg), Hl. cbn [entry_for andb].
    destruct (Z.eqb_spec (attr e .& ATTR_DIR) 0); [done|]. rewrite !length_app in Hf. cbn [length] in Hf.
    apply (path_loop_ok F items' path e' Hp fuel e cs' st1); [done|done|done|lia|done].
Qed.
End volume.

(** ** Reading a file by its path *)
Section read.
Context {D : Type} {Reader : BlockReader D} {Laws : BlockDeviceLaws D}.
(** The kind of a volume by the signature of its boot sector. *)
Definition signed (block : list Z) (bs : boot_sector) (fs : Z) : Prop :=
  fs = 32 /\ fat_length bs = 0 /\ take 8 (drop 82 block) = codes "FAT32   "
  \/ fat_length bs <> 0 /\ (fs = 16 /\ take 8 (drop 54 block) = codes "FAT16   " \/ fs = 12 /\ take 8 (drop 54 block) = codes "FAT12   ").
Record boot_at (d0 : D) (base : Z) (bs : boot_sector) (fs : Z) : Prop := {
  b_block : exists block, sector d0 base = Some block /\ zlen block = sector_size bs /\ load_bs block = Some bs /\ signed block bs fs;
  b_base : 0 <= base < 0x100000000 }.
(** The driver with its device and partition set. *)
Record selected (d0 : D) (base bsize : Z) (st : fat_state D) : Prop := {
  s_same : same_disk d0 (disk st);
  s_works : works (disk st);
  s_dev : exists dev, cur_dev st = Some dev /\ blksz dev = bsize;
  s_base : start (cur_part_info st) = base;
  s_blksz : part_blksz (cur_part_info st) = bsize;
  s_vfatname : length (get_contents_vfatname_block st) = Z.to_nat MAX_CLUSTSIZE;
  s_dentfromdir : length (get_dentfromdir_block st) = Z.to_nat MAX_CLUSTSIZE;
  s_read_at : length (do_fat_read_at_block st) = Z.to_nat MAX_CLUSTSIZE }.
Lemma strncmp_head (s : list Z) block k : length s = 8%nat -> take 8 (drop k block) = s ->
  exists rest, drop k block = s ++ rest.
Proof. intros _ H. exists (drop 8 (drop k block)). rewrite <- H. by rewrite take_drop. Qed.
Lemma read_boot_ok (memalign : Z -> option (list Z)) d0 base bs fs st :
  (forall n, 0 <= n -> exists b, memalign n = Some b /\ zlen b = n) -> boot_at d0 base bs fs -> selected d0 base (sector_size bs) st ->
  exists st', read_bootsectandvi memalign st = Some (Some (bs, fs), st') /\ selected d0 base (sector_size bs) st'.
Proof.
  intros Hmem [(block & Hsec & Hlen & Hload & Hsign) Hbase] [Hsame Hw (dev & Hdev & Hblk) Hb Hbs H1 H2 H3].
  unfold read_bootsectandvi. rewrite (bind_step _ _ st (cur_dev st) st), Hdev, Hblk by done.
  destruct (Hmem (sector_size bs) ltac:(lia)) as (old & -> & Hold).
  destruct (read_one (disk st) base Hw Hbase) as (r & d' & buf & Hr & Hsame' & Hw' & Hbuf & Hr1).
  rewrite (Hsame base), Hsec in Hbuf, Hr1. specialize (Hr1 ltac:(by eexists)). subst r. injection (Hbuf eq_refl) as <-.
  assert (disk_read 0 1 st = Some ((1, block), with_disk d' st)) as Hrd.
  { unfold disk_read. rewrite (bind_step _ _ st (cur_dev st) st), Hdev by done.
    rewrite (bind_step _ _ st (cur_part_info st) st), (bind_step _ _ st (disk st) st), lift_run by done.
    rewrite Hb, Z.add_0_r, u32_small, Hr by lia. done. }
  rewrite (bind_step _ _ _ _ _ Hrd). change (1 <? 0) with false. cbv beta iota. rewrite lift_run, over_ok by lia.
  rewrite drop_ge, app_nil_r by lia. cbn [mbind option_bind]. rewrite lift_run, Hload. cbn [mbind option_bind].
  exists (with_disk d' st). split.
  - destruct Hsign as [(-> & -> & Hs)|(Hne & [(-> & Hs)|(-> & Hs)])]; (apply strncmp_head in Hs as [rest Hs]; [|done]); rewrite ?Hs.
    + done.
    + destruct (Z.eqb_spec (fat_length bs) 0); done.
    + destruct (Z.eqb_spec (fat_length bs) 0); done.
  - split; cbn; try done; [by etransitivity|by exists dev].
Qed.

(** C3: A file is read by its path.  On a FAT12, FAT16 or FAT32 volume behind a partition, a path of
    names with separators between them, through directories with short and long names, leads to the
    first entry with each name, and the read stores the bytes of the file from the position on, as
    many as there are or as are wanted; it returns their number, the cache of the table and the
    buffers on the way do not show, and nothing is written. *)
Theorem file_read_correct (memalign : Z -> option (list Z)) fuel F filename pos addr maxsize d0 base bs fs fat data items e cs st
    (Hmem : forall n, 0 <= n -> exists b, memalign n = Some b /\ zlen b = n)
    (Hsel : selected d0 base (sector_size bs) st) (Hboot : boot_at d0 base bs fs)
    (Hvol : volume (mount bs fs) d0 base fat)
    (Hroot : root_dir (mount bs fs) d0 base fat data fuel (dir_entries bs * 32 / sector_size bs)
               (if fs =? 32 then root_cluster bs else 0) items)
    (Hpath : path_to (mount bs fs) d0 base fat data F items (downcase (skip_delims filename)) e)
    (Hfile : file_at (mount bs fs) d0 base fat data e cs)
    (Hname : zlen (skip_delims filename) < 2048)
    (Hfuel : (F + length (skip_delims filename) < fuel)%nat /\ (length cs < fuel)%nat)
    (Hpos : 0 <= pos) (Hmax : 0 <= maxsize) (Hsum : pos + maxsize < 0x100000000) :
  let bytes := part_of (file_bytes data e cs) pos maxsize in
  exists st', do_fat_read_at memalign fuel filename pos addr maxsize st = Some ((zlen bytes, bytes), st')
    /\ same_disk d0 (disk st') /\ works (disk st').
Proof.
  set (m := mount bs fs) in *. intros bytes.
  destruct (read_boot_ok memalign d0 base bs fs st Hmem Hboot Hsel) as (st1 & Hb & Hsel1). unfold do_fat_read_at.
  rewrite (bind_step _ _ _ _ _ Hb). cbv beta iota. fold m. rewrite (bind_step _ _ st1 (cur_part_info st1) st1) by done.
  destruct Hsel1 as [Hsame Hw (dev & Hdev & _) Hbase Hblk H1 H2 H3]. rewrite Hblk. change (sect_size m) with (sector_size bs).
  rewrite Z.eqb_refl. cbn [negb]. pose proof (v_sect _ _ _ _ Hvol) as [Hsect _]. change (sect_size m) with (sector_size bs) in Hsect.
  destruct (Z.eqb_spec (sector_size bs) 0); [lia|].
  destruct (Hmem (sector_size bs * FATBUFBLOCKS) ltac:(unfold FATBUFBLOCKS; lia)) as (buf & -> & Hbuf).
  assert (exists st2, set_fatbuf buf (-1) st1 = Some ((), st2) /\ mounted m d0 base fat st2) as (st2 & Hset & Hst2).
  { eexists. split; [done|]. split; [done|done|cbn; rewrite Hdev; by eexists|done| |by left|done|done|done].
    cbn. unfold FATBUFBLOCKS in Hbuf. change (sect_size m) with (sector_size bs). lia. }
  rewrite (bind_step _ _ _ _ _ Hset). destruct (Z.leb_spec 2048 (zlen (skip_delims filename))); [lia|].
  set (path := downcase (skip_delims filename)) in *.
  assert (length path = length (skip_delims filename)) as Hpl by (unfold path, downcase; by rewrite length_map).
  destruct (lookup_path_ok m d0 base fat data Hvol F fuel _ _ items path e st2 Hpath Hroot ltac:(lia) Hst2) as (st3 & Hl & Hst3).
  pose proof (path_nonempty m d0 base fat data _ _ _ _ Hpath) as Hne.
  assert (forall A (x y : A), match path with [] => x | _ => y end = y) as -> by (intros; by destruct path). rewrite (bind_step _ _ _ _ _ Hl).
  destruct (get_contents_ok m d0 base fat data Hvol fuel e cs pos addr maxsize st3 Hst3 Hfile ltac:(lia) Hpos Hmax Hsum) as (st4 & -> & Hst4).
  exists st4. split; [done|]. split; apply Hst4.
Qed.
End read.

(** ** A volume on a card *)
(** Checks of the entries of a directory. *)
Definition bytes_b (l : list Z) : bool := forallb (fun c => (0 <=? c) && (c <? 256)) l.
Definition in_use_b (r : list Z) : bool :=
  match dirent_at r 0 with
  | Some e => negb (chr (name e) =? DELETED_FLAG) && negb (chr (name e) =? 0) && (attr e .& ATTR_VOLUME =? 0)
  | None => false
  end.
Definition passed_b (r : list Z) : bool :=
  match dirent_at r 0 with
  | Some e => (chr (name e) =? DELETED_FLAG) || negb (attr e .& ATTR_VOLUME =? 0) && negb (is_slot e)
  | None => false
  end.
Definition slot_b (n : Z) (s : list Z) : bool := (length s =? 32)%nat && bool_decide (slot_id s 0 = Some n).
Fixpoint numbered_b (n : nat) (ss : list (list Z)) : bool :=
  match ss with [] => (n =? 0)%nat | s :: ss => slot_b (Z.of_nat n) s && passed_b s && (0 <? n)%nat && numbered_b (n - 1) ss end.
Definition slots_b (ss : list (list Z)) : bool :=
  match ss with
  | [] => false
  | s :: r => (length ss <=? 9)%nat && slot_b (0x40 + zlen ss) s && bool_decide (s !! 11%nat = Some ATTR_VFAT)
              && bool_decide (is_Some (dirent_at s 0)) && numbered_b (length r) r
  end.
Definition item_b (i : item) : bool :=
  match i with
  | skipped r => (length r =? 32)%nat && passed_b r
  | short r => (length r =? 32)%nat && in_use_b r && bytes_b r
  | long ss r => (length r =? 32)%nat && in_use_b r && slots_b ss && bytes_b r && forallb bytes_b ss
  end.
Lemma bytes_b_ok l : bytes_b l = true -> Forall byte l.
Proof.
  induction l as [|c l IH]; cbn; [intros _; apply Forall_nil_2|]. intros H. apply andb_true_iff in H as [Hc H].
  apply Forall_cons_2; [unfold byte; lia|by apply IH].
Qed.
Lemma in_use_ok r : in_use_b r = true -> in_use r.
Proof. unfold in_use_b, in_use. destruct (dirent_at r 0) as [e|]; [|done]. intros H. exists e. split; [done|]. lia. Qed.
Lemma passed_ok r : passed_b r = true -> passed_over r.
Proof.
  unfold passed_b, passed_over. destruct (dirent_at r 0) as [e|]; [|done]. intros H. exists e. split; [done|].
  destruct (is_slot e); lia.
Qed.
Lemma slot_ok n s : slot_b n s = true -> length s = 32%nat /\ slot_id s 0 = Some n.
Proof. unfold slot_b. intros [H1 H2]%andb_true_iff. apply bool_decide_eq_true in H2. split; [by apply Nat.eqb_eq|done]. Qed.
Lemma numbered_ok : forall ss n, numbered_b n ss = true -> numbered n ss.
Proof.
  induction ss as [|s ss IH]; intros n; cbn; [apply Nat.eqb_eq|]. intros [[[[H1 H1']%slot_ok H2%passed_ok]%andb_true_iff H3]%andb_true_iff H4]%andb_true_iff.
  split_and!; [done|done|done|by apply Nat.ltb_lt|by apply IH].
Qed.
Lemma item_b_ok i : item_b i = true -> item_ok i.
Proof.
  destruct i as [r|r|ss r]; cbn [item_b item_ok]; rewrite !andb_true_iff, Nat.eqb_eq.
  - intros [H1 H2]. split; [done|by apply passed_ok].
  - intros [[H1 H2] H3]. split; [done|]. split; [by apply in_use_ok|by apply bytes_b_ok].
  - intros [[[[H1 H2] H3] H4] H5]. split; [done|]. split; [by apply in_use_ok|]. split; [|split; [by apply bytes_b_ok|]].
    + destruct ss as [|s ss]; [done|]. unfold slots_b in H3. rewrite !andb_true_iff, Nat.leb_le in H3.
      destruct H3 as [[[[G1 [G2 G2']%slot_ok] G3%bool_decide_eq_true] G4%bool_decide_eq_true] G5%numbered_ok]. done.
    + clear -H5. induction ss as [|s ss IH]; [apply Forall_nil_2|]. cbn in H5. apply andb_true_iff in H5 as [H5 H6].
      apply Forall_cons_2; [by apply bytes_b_ok|by apply IH].
Qed.
Lemma items_ok l : forallb item_b l = true -> Forall item_ok l.
Proof.
  induction l as [|i l IH]; [intros _; apply Forall_nil_2|]. cbn. intros [H1 H2]%andb_true_iff.
  apply Forall_cons_2; [by apply item_b_ok|by apply IH].
Qed.

#[local] Existing Instance toy_mmc.
#[local] Existing Instance toy_mmc_laws.
Definition put (off : Z) (l : list Z) : list (Z * Z) := zip (seqZ off (zlen l)) l.
Definition le16 (x : Z) : list Z := [x mod 0x100; x / 0x100].
(** A volume with FAT16 behind sector 4 of a card: one sector for the table, two for the root, clusters of
    one sector from cluster 2 on. *)
Definition boot_sector_bytes : list (Z * Z) :=
  put 2048 (replicate 11 0 ++ le16 512 ++ [1] ++ le16 1 ++ [1] ++ le16 32 ++ le16 40 ++ [0xf8] ++ le16 1)
  ++ put (2048 + 54) (codes "FAT16   ") ++ put (2048 + 510) [0x55; 0xaa].
Definition table_bytes : list (Z * Z) :=
  put (5 * 512) (le16 0xfff8 ++ le16 0xffff ++ le16 0 ++ le16 0xffff ++ le16 5 ++ le16 8 ++ le16 0 ++ le16 0 ++ le16 0xffff).
(** An entry: its name of 11 characters, the attribute, the first cluster and the size. *)
Definition entry (nm : string) (attr cluster size : Z) : list Z :=
  codes nm ++ [attr] ++ replicate 14 0 ++ le16 cluster ++ le16 (size mod 0x10000) ++ le16 (size / 0x10000).
Definition chars (s : list Z) : list Z := concat (map (fun c => [c; 0]) s).
(** A slot of a long name with 13 characters. *)
Definition slot (id : Z) (s : list Z) : list Z :=
  [id] ++ chars (take 5 s) ++ [0x0f; 0; 0] ++ chars (take 6 (drop 5 s)) ++ [0; 0] ++ chars (drop 11 s).
Definition root_items : list item := [skipped (entry "VOLUME     " 8 0 0); short (entry "BOOT       " 16 3 0)].
Definition boot_items : list item :=
  [short (entry ".          " 16 3 0);
   long [slot 0x42 (codes "bin" ++ replicate 10 0); slot 1 (codes "Kernel Image.")] (entry "KERNEL~1BIN" 32 4 1300)].
Definition fat_card : mmc_disk toy_card :=
  let small := boot_sector_bytes ++ table_bytes ++ put (6 * 512) (concat (all_raws root_items)) ++ put (9 * 512) (concat (all_raws boot_items)) in
  mk_disk 0 (mk_mmc 0 false false 0 0 0 0 0 0 65535) 0
    (mk_toy (fun x => if 10 * 512 <=? x then x mod 251 else image_byte small x) 0 0).
Definition toy_d : mmc_disk toy_card := with_device fat_card.
Definition toy_sector (s : Z) : list Z := default [] (sector toy_d s).
Definition toy_data (c : Z) : list (list Z) := [toy_sector (6 + c)].
Definition toy_bs : boot_sector := mk_bs 512 1 1 1 32 1 0 0.
Definition toy_state : fat_state (mmc_disk toy_card) :=
  let block := replicate (Z.to_nat MAX_CLUSTSIZE) 0 in
  mk_state toy_d (Some (device_of fat_card)) (mk_part 4 40 512 [] [] 0) [] 0 block block block.
Definition toy_memalign (n : Z) : option (list Z) := Some (replicate (Z.to_nat n) 0xaa).
Definition kernel_entry : dir_entry := mk_dent (codes "KERNEL~1") (codes "BIN") 32 0 4 1300.
Definition toy_fat : list (list Z) := Eval vm_compute in [toy_sector 5].
Lemma toy_works : works toy_d.
Proof. vm_compute. repeat split; congruence. Qed.
Lemma toy_volume : volume (mount toy_bs 16) toy_d 4 toy_fat.
Proof.
  split.
  - by_computation.
  - by_computation.
  - right. by left.
  - vm_compute. reflexivity.
  - by_computation.
  - reflexivity.
  - apply bytes_b_ok. vm_compute. reflexivity.
  - by_computation.
Qed.
Lemma toy_run blk run : map (sector toy_d) (seqZ (4 + blk) (zlen run)) = map Some run ->
  forallb (fun b => (length b =? 512)%nat) run = true -> 0 <= blk -> blk + zlen run < 0x1000 ->
  on_volume (mount toy_bs 16) toy_d 4 blk run.
Proof.
  intros H1 H2 H3 H4. split; [exact H1| |lia]. change (Z.to_nat (sect_size (mount toy_bs 16))) with 512%nat. clear -H2.
  induction run as [|b run IH]; [apply Forall_nil_2|]. cbn in H2. apply andb_true_iff in H2 as [H2 H3].
  apply Forall_cons_2; [by apply Nat.eqb_eq|by apply IH].
Qed.
Lemma toy_cluster c : sector toy_d (6 + c) = Some (toy_sector (6 + c)) -> length (toy_sector (6 + c)) = 512%nat -> 2 <= c < 100 ->
  cluster (mount toy_bs 16) toy_d 4 toy_data c.
Proof.
  intros H1 H2 H3. change (data_begin (mount toy_bs 16)) with 2. split; [lia| |done].
  change (data_begin (mount toy_bs 16) + c * clust_size (mount toy_bs 16)) with (2 + c * 1). rewrite Z.mul_1_r.
  apply toy_run; [|unfold toy_data; cbn [forallb]; by rewrite H2|lia|change (zlen (toy_data c)) with 1; lia]. change (zlen (toy_data c)) with 1. rewrite seqZ_cons by lia.
  replace (4 + (2 + c)) with (6 + c) by lia. cbn [map]. by rewrite H1.
Qed.
Lemma toy_root fuel : (2 < fuel)%nat -> root_dir (mount toy_bs 16) toy_d 4 toy_fat toy_data fuel 2 0 root_items.
Proof.
  intros Hf. left. split; [done|]. split; [done|]. split; [by_computation|]. split; [by_computation|]. split; [lia|].
  apply root_ends with (run := [toy_sector 6; toy_sector 7]).
  - apply toy_run; [vm_compute; reflexivity|vm_compute; reflexivity|by_computation|by_computation].
  - done.
  - by_computation.
  - split; [apply items_ok; vm_compute; reflexivity|].
    exists (drop 64 (concat [toy_sector 6; toy_sector 7])). split; [vm_compute; reflexivity|].
    exists (mk_dent (replicate 8 0) (replicate 3 0) 0 0 0 0). split; [vm_compute; reflexivity|done].
Qed.
Lemma toy_path : path_to (mount toy_bs 16) toy_d 4 toy_fat toy_data 1 root_items (codes "boot//kernel image.bin") kernel_entry.
Proof.
  change (codes "boot//kernel image.bin") with (codes "boot" ++ [47; 47] ++ codes "kernel image.bin").
  apply path_dir with (e := mk_dent (codes "BOOT    ") (codes "   ") 16 0 3 0) (cs := [3]) (items' := boot_items).
  - by_computation.
  - by_computation.
  - vm_compute. reflexivity.
  - done.
  - done.
  - apply dir_ends; [apply toy_cluster; [vm_compute; reflexivity|vm_compute; reflexivity|lia]|].
    split; [apply items_ok; vm_compute; reflexivity|].
    exists (drop 128 (concat (toy_data 3))). split; [vm_compute; reflexivity|].
    exists (mk_dent (replicate 8 0) (replicate 3 0) 0 0 0 0). split; [vm_compute; reflexivity|done].
  - done.
  - apply path_file; [by_computation|vm_compute; reflexivity].
Qed.
Lemma toy_file : file_at (mount toy_bs 16) toy_d 4 toy_fat toy_data kernel_entry [4; 5; 8].
Proof.
  split; [split| | |].
  - repeat (apply Forall_cons_2; [apply toy_cluster; [vm_compute; reflexivity|vm_compute; reflexivity|lia]|]). apply Forall_nil_2.
  - vm_compute. done.
  - done.
  - by_computation.
  - by_computation.
Qed.
Lemma file_read_correct_witness : exists st',
  do_fat_read_at toy_memalign 40 (codes "/Boot//kernel image.bin") 600 0 0 toy_state
    = Some ((zlen (part_of (file_bytes toy_data kernel_entry [4; 5; 8]) 600 0), part_of (file_bytes toy_data kernel_entry [4; 5; 8]) 600 0), st')
  /\ same_disk toy_d (disk st') /\ works (disk st').
Proof.
  apply (file_read_correct toy_memalign 40 1 (codes "/Boot//kernel image.bin") 600 0 0 toy_d 4 toy_bs 16 toy_fat toy_data root_items
    kernel_entry [4; 5; 8] toy_state).
  - intros n Hn. eexists. split; [reflexivity|]. rewrite length_replicate. lia.
  - split; [done|apply toy_works|by eexists|done|done|apply length_replicate..].
  - split; [|lia]. exists (toy_sector 4). split; [vm_compute; reflexivity|]. split; [vm_compute; reflexivity|].
    split; [vm_compute; reflexivity|]. right. split; [done|]. left. split; [done|vm_compute; reflexivity].
  - apply toy_volume.
  - apply toy_root. lia.
  - apply toy_path.
  - apply toy_file.
  - by_computation.
  - by_computation.
  - lia.
  - lia.
  - lia.
Defined.

(** ** Observations *)
(** The end of a chain in a table of 12 bits is no end for the test of the driver. *)
Lemma fat12_end_not_seen : CHECK_CLUST 0xff8 12 = false /\ CHECK_CLUST 0xfff 12 = false /\ CHECK_CLUST 0xfff8 16 = true.
Proof. done. Qed.
(** An empty name is the missing long name of the first entry: a path that ends in a separator reads that entry. *)
Lemma empty_name_found :
  (fst <$> get_dentfromdir 5 (mount toy_bs 16) [] (mk_dent (codes "BOOT    ") (codes "   ") 16 0 3 0) toy_state)
  = Some (Some (mk_dent (codes ".       ") (codes "   ") 16 0 3 0)).
Proof. vm_compute. done. Qed.
(** A first slot with the number 0 makes the driver read in front of the block. *)
Lemma slot_zero_reads_below :
  get_vfatname (mount toy_bs 16) 3 (slot 0x40 (codes "thirteen char") ++ replicate 480 0) 0 toy_state = None.
Proof. vm_compute. done. Qed.
(** The sum of position and size wraps around: the number of bytes to copy becomes negative. *)
Lemma size_wraps : do_fat_read_at toy_memalign 40 (codes "boot/kernel~1.bin") 5 0 0xffffffff toy_state = None.
Proof. vm_compute. done. Qed.
(** A read that fails returns 0 blocks, which is not negative: the entry comes from what the buffer held. *)
Lemma failed_read_not_seen :
  let m := mk_fsdata 16 1 1000 1001 512 1 1001 in
  fst <$> get_fatent m 2 (mk_state toy_d (cur_dev toy_state) (cur_part_info toy_state) (replicate 3072 0xaa) (-1) [] [] [])
  = Some 0xaaaa.
Proof. vm_compute. done. Qed.
(** On FAT32 the driver starts from cluster 2, wherever the boot sector says the root is. *)
Lemma root_is_cluster_2 bs : rootdir_sect (mount bs 32) = u32 (data_begin (mount bs 32) + 2 * cluster_size bs).
Proof.
  unfold mount. cbn [rootdir_sect data_begin Z.eqb Pos.eqb]. set (r := u32 _). pose proof (u32_range (reserved bs + fat32_length bs * fats bs)) as Hr.
  fold r in Hr. unfold s32. case_if; unfold u32 in *; zdm.
Qed.
