(* ===== verification/Dhcp.v ===== *)
(** * Getting an address: [net/bootp.c] with DHCP

    The DHCP client as the board cu1000-neo configures it ([CONFIG_CMD_DHCP] and none of the
    [CONFIG_BOOTP_*] options): the messages it sends, the options it takes from the answers, its
    states and timeouts, and what follows when it is bound: [net_auto_load] and the update of the
    environment in common/cmd_net.c.  The node is that of [Net]; the client of the file transfer
    is part of the state, because a successful exchange starts it.  A message is handed over as
    the bytes of the receive buffer from the payload on. *)
From S2P Require Import Prelude Ctype Mem CStr Hashtable Vsprintf EnvVar Tftp Net.

(** ** Constants *)
Definition BOOTP_VENDOR_MAGIC : Z := 0x63825363.
Definition TIMEOUT : Z := 5000.
Definition TIMEOUT_COUNT : Z := 5.
Definition SELECT_TIMEOUT : Z := 3000.
Definition PORT_BOOTPS : Z := 67.
Definition PORT_BOOTPC : Z := 68.
Definition CONFIG_DHCP_MIN_EXT_LEN : nat := 64.
Definition OPT_FIELD_SIZE : Z := 312.
Definition BOOTP_HDR_SIZE : Z := 548.
Definition OP_BOOTREQUEST : Z := 1.
Definition OP_BOOTREPLY : Z := 2.
Definition HWT_ETHER : Z := 1.
Definition HWL_ETHER : Z := 6.
Definition DHCP_DISCOVER : Z := 1.
Definition DHCP_OFFER : Z := 2.
Definition DHCP_REQUEST : Z := 3.
Definition DHCP_ACK : Z := 5.
Definition DHCP_NAK : Z := 6.
Definition PKTSIZE : nat := 1518.
(** Offsets of the fields of [struct Bootp_t]. *)
Definition bp_op : nat := 0.
Definition bp_htype : nat := 1.
Definition bp_hlen : nat := 2.
Definition bp_hops : nat := 3.
Definition bp_id : nat := 4.
Definition bp_secs : nat := 8.
Definition bp_ciaddr : nat := 12.
Definition bp_yiaddr : nat := 16.
Definition bp_siaddr : nat := 20.
Definition bp_giaddr : nat := 24.
Definition bp_chaddr : nat := 28.
Definition bp_file : nat := 108.
Definition bp_vend : nat := 236.
Definition sizeof_bp_file : Z := 128.
Definition sizeof_BootFile : Z := 128.
Definition sizeof_NetOurHostName : Z := 32.
Definition sizeof_NetOurRootPath : Z := 64.

(** ** The state *)
Inductive dhcp_state_t :=
  INIT | INIT_REBOOT | REBOOTING | SELECTING | REQUESTING | REBINDING | BOUND | RENEWING.
(** The client, the globals of [net/net.c] that it sets, the environment, and the client of the
    file transfer; the network loop of [tf] is that of the node.  [NetOurHostName] and
    [NetOurRootPath] are the arrays, [BootFile] is the string in its array. *)
Record dhcp := mkdhcp {
  BootpID : Z;
  BootpTry : Z;
  dhcp_state : dhcp_state_t;
  dhcp_leasetime : Z;
  NetDHCPServerIP : Z;
  NetServerIP : Z;
  NetOurDNSIP : Z;
  NetOurHostName : list Z;
  NetOurRootPath : list Z;
  BootFile : list Z;
  env : genv;
  tf : state }.
Definition set_request (h : dhcp) (id try : Z) : dhcp :=
  mkdhcp id try (dhcp_state h) (dhcp_leasetime h) (NetDHCPServerIP h) (NetServerIP h) (NetOurDNSIP h)
    (NetOurHostName h) (NetOurRootPath h) (BootFile h) (env h) (tf h).
Definition set_state (h : dhcp) (s : dhcp_state_t) : dhcp :=
  mkdhcp (BootpID h) (BootpTry h) s (dhcp_leasetime h) (NetDHCPServerIP h) (NetServerIP h) (NetOurDNSIP h)
    (NetOurHostName h) (NetOurRootPath h) (BootFile h) (env h) (tf h).
Definition set_lease (h : dhcp) (t server : Z) : dhcp :=
  mkdhcp (BootpID h) (BootpTry h) (dhcp_state h) t server (NetServerIP h) (NetOurDNSIP h)
    (NetOurHostName h) (NetOurRootPath h) (BootFile h) (env h) (tf h).
Definition set_servers (h : dhcp) (server dns : Z) : dhcp :=
  mkdhcp (BootpID h) (BootpTry h) (dhcp_state h) (dhcp_leasetime h) (NetDHCPServerIP h) server dns
    (NetOurHostName h) (NetOurRootPath h) (BootFile h) (env h) (tf h).
Definition set_names (h : dhcp) (host root : list Z) : dhcp :=
  mkdhcp (BootpID h) (BootpTry h) (dhcp_state h) (dhcp_leasetime h) (NetDHCPServerIP h) (NetServerIP h)
    (NetOurDNSIP h) host root (BootFile h) (env h) (tf h).
Definition set_bootfile (h : dhcp) (file : list Z) (g : genv) : dhcp :=
  mkdhcp (BootpID h) (BootpTry h) (dhcp_state h) (dhcp_leasetime h) (NetDHCPServerIP h) (NetServerIP h)
    (NetOurDNSIP h) (NetOurHostName h) (NetOurRootPath h) file g (tf h).
Definition set_tf (h : dhcp) (s : state) : dhcp :=
  mkdhcp (BootpID h) (BootpTry h) (dhcp_state h) (dhcp_leasetime h) (NetDHCPServerIP h) (NetServerIP h)
    (NetOurDNSIP h) (NetOurHostName h) (NetOurRootPath h) (BootFile h) (env h) s.

(** The addresses of the node that the client sets. *)
Definition with_cfg (n : net) (c : net_cfg) : net :=
  mknode c (NetServerEther n) (NetIPID n) (NetTxPacket n) (NetArpTxPacket n) (aw n) (PingSeqNo n)
    (NetPingIP n) (wire n) (lp n).
Definition set_ip (n : net) (ip mask gateway : Z) : net :=
  with_cfg n (mkcfg ip mask gateway (NetOurEther (cfg n)) (NetOurVLAN (cfg n)) (NetOurNativeVLAN (cfg n))).

(** ** Strings in a packet *)
(** The string at [off]: its NUL must be in the buffer. *)
Definition str_at (b : list Z) (off : nat) : option (list Z) :=
  let s := until_nul (drop off b) in
  if (off + length s <? length b)%nat then Some s else None.
Fixpoint copy_chars (n : nat) (src : list Z) : list Z :=
  match n, src with
  | S n, c :: src => if c =? 34 then [] else c :: copy_chars n src
  | _, _ => []
  end.
(** The string that [copy_filename] leaves in an array of [size] characters. *)
Definition copy_filename (src : list Z) (size : Z) : list Z :=
  match src with
  | 34 :: src => copy_chars (Z.to_nat (size - 2)) src
  | _ => copy_chars (Z.to_nat (size - 1)) src
  end.

(** ** Filtering *)
Definition BootpCheckPkt (id : Z) (pkt : list Z) (dest src len : Z) : option Z :=
  if negb (dest =? PORT_BOOTPC) || negb (src =? PORT_BOOTPS) then Some (-1)
  else if len <? BOOTP_HDR_SIZE - OPT_FIELD_SIZE then Some (-2)
  else
    op ← pkt !! bp_op;
    if negb (op =? OP_BOOTREQUEST) && negb (op =? OP_BOOTREPLY) && negb (op =? DHCP_OFFER)
       && negb (op =? DHCP_ACK) && negb (op =? DHCP_NAK) then Some (-3)
    else
      htype ← pkt !! bp_htype;
      if negb (htype =? HWT_ETHER) then Some (-4)
      else
        hlen ← pkt !! bp_hlen;
        if negb (hlen =? HWL_ETHER) then Some (-5)
        else
          xid ← NetReadIP pkt bp_id;
          Some (if negb (xid =? id) then -6 else 0).

Definition truncate_sz (maxlen curlen : Z) : Z := if maxlen <=? curlen then maxlen - 1 else curlen.

(** ** Options of an answer *)
(** [memcpy] of [size] bytes from the packet to the start of an array, and its end. *)
Definition copy_option (arr pkt : list Z) (from : nat) (size : Z) : option (list Z) :=
  l ← bget pkt from (Z.to_nat size); arr ← bput arr 0 l; bput arr (Z.to_nat size) [0].
(** The [switch] on the code; [popt] is the offset of the option in the packet. *)
Definition dhcp_option (n : net) (h : dhcp) (pkt : list Z) (popt : nat) (code oplen : Z) :
  option (net * dhcp * list Z) :=
  let data := (popt + 2)%nat in
  let c := cfg n in
  if code =? 1 then
    mask ← NetReadIP pkt data; Some (set_ip n (NetOurIP c) mask (NetOurGatewayIP c), h, pkt)
  else if code =? 3 then
    gateway ← NetReadIP pkt data; Some (set_ip n (NetOurIP c) (NetOurSubnetMask c) gateway, h, pkt)
  else if code =? 6 then
    dns ← NetReadIP pkt data; Some (n, set_servers h (NetServerIP h) dns, pkt)
  else if code =? 12 then
    host ← copy_option (NetOurHostName h) pkt data (truncate_sz sizeof_NetOurHostName oplen);
    Some (n, set_names h host (NetOurRootPath h), pkt)
  else if code =? 17 then
    root ← copy_option (NetOurRootPath h) pkt data (truncate_sz sizeof_NetOurRootPath oplen);
    Some (n, set_names h (NetOurHostName h) root, pkt)
  else if code =? 51 then
    t ← NetReadIP pkt data; Some (n, set_lease h t (NetDHCPServerIP h), pkt)
  else if code =? 54 then
    server ← NetReadIP pkt data; Some (n, set_lease h (dhcp_leasetime h) server, pkt)
  else if code =? 67 then
    let size := truncate_sz sizeof_bp_file oplen in
    first ← pkt !! bp_file;
    if (first =? 0) && (0 <? size) then
      l ← bget pkt data (Z.to_nat size);
      pkt ← bput pkt bp_file l;
      pkt ← bput pkt (bp_file + Z.to_nat size) [0];
      Some (n, h, pkt)
    else Some (n, h, pkt)
  else Some (n, h, pkt).
Fixpoint options_loop (fuel : nat) (n : net) (h : dhcp) (pkt : list Z) (popt end_ : nat) :
  option (net * dhcp * list Z) :=
  if negb (popt <? end_)%nat then Some (n, h, pkt)
  else
    code ← pkt !! popt;
    if code =? 0xff then Some (n, h, pkt)
    else
      oplen ← pkt !! S popt;
      '(n, h, pkt) ← dhcp_option n h pkt popt code oplen;
      match fuel with
      | O => None
      | S fuel => options_loop fuel n h pkt (popt + Z.to_nat oplen + 2) end_
      end.
Definition DhcpOptionsProcess (n : net) (h : dhcp) (pkt : list Z) (popt : nat) :
  option (net * dhcp * list Z) :=
  options_loop (Z.to_nat BOOTP_HDR_SIZE) n h pkt popt (popt + Z.to_nat BOOTP_HDR_SIZE).
(** The two places that look at the magic number first. *)
Definition vendor_options (n : net) (h : dhcp) (pkt : list Z) : option (net * dhcp * list Z) :=
  magic ← NetReadIP pkt bp_vend;
  if magic =? htonl BOOTP_VENDOR_MAGIC then DhcpOptionsProcess n h pkt (bp_vend + 4) else Some (n, h, pkt).

(** There is no bound on the scan. *)
Fixpoint message_type_loop (fuel : nat) (pkt : list Z) (popt : nat) : option Z :=
  code ← pkt !! popt;
  if code =? 0xff then Some (-1)
  else if code =? 53 then pkt !! (popt + 2)%nat
  else
    oplen ← pkt !! S popt;
    match fuel with O => None | S fuel => message_type_loop fuel pkt (popt + Z.to_nat oplen + 2) end.
Definition DhcpMessageType (pkt : list Z) (popt : nat) : option Z :=
  magic ← NetReadIP pkt popt;
  if negb (magic =? htonl BOOTP_VENDOR_MAGIC) then Some (-1)
  else message_type_loop (length pkt) pkt (popt + 4).

(** ** The messages of the client *)
Definition option_ip (code ip : Z) : list Z :=
  if ip =? 0 then []
  else
    let tmp := htonl ip in
    [code; 4; u8 (tmp ≫ 24); u8 (tmp ≫ 16); u8 (tmp ≫ 8); u8 (tmp .& 0xff)].
Definition pad_to (l : list Z) (len : nat) : list Z := l ++ replicate (len - length l) 0.
Definition DhcpExtended (message_type ServerID RequestedIP : Z) : list Z :=
  let size := 576 - 312 + OPT_FIELD_SIZE in
  pad_to ([99; 130; 83; 99] ++ [53; 1; message_type] ++ [57; 2; u8 (size ≫ 8); size .& 0xff]
    ++ option_ip 54 ServerID ++ option_ip 50 RequestedIP ++ [255]) CONFIG_DHCP_MIN_EXT_LEN.

Section client.
Context {Hooks : EnvHooks} (default_environment : list Z) (CONFIG_ENV_SIZE : Z) (malloc_ok : Z -> bool).
Context (eth_try_another : bool -> bool -> bool).

(** The environment as the other parts of the network read it. *)
Definition var (g : genv) (name : list Z) : option (list Z) :=
  r ← getenv default_environment CONFIG_ENV_SIZE g name; r.

(** The fields that both messages share, from the headers on; [bp] is the offset of the
    message. *)
Definition bootp_head (n : net) (b : list Z) (bp : nat) : option (list Z) :=
  b ← bput b (bp + bp_op) [OP_BOOTREQUEST];
  b ← bput b (bp + bp_htype) [HWT_ETHER];
  b ← bput b (bp + bp_hlen) [HWL_ETHER];
  b ← bput b (bp + bp_hops) [0];
  bput b (bp + bp_secs) (htons_bytes (get_timer (lp n) 0 / 1000)).
(** The headers around the message, and sending it. *)
Definition send_bootp (n : net) (b : list Z) (eth : nat) (extlen : nat) : option net :=
  let iplen := BOOTP_HDR_SIZE - OPT_FIELD_SIZE + Z.of_nat extlen in
  n ← net_set_udp_header (with_tx n b) eth 0xffffffff PORT_BOOTPS PORT_BOOTPC iplen;
  NetSendPacket n (NetTxPacket n) (Z.of_nat (eth + IP_UDP_HDR_SIZE) + iplen).

Definition BootpRequest (n : net) (h : dhcp) : option (net * dhcp) :=
  let h := set_request (set_state h INIT) (BootpID h) (s32 (BootpTry h + 1)) in
  b ← bput (NetTxPacket n) 0 (replicate PKTSIZE 0);
  '(b, eth) ← NetSetEther n b NetBcastAddr PROT_IP;
  let bp := (eth + IP_UDP_HDR_SIZE)%nat in
  b ← bootp_head n b bp;
  b ← NetWriteIP b (bp + bp_ciaddr) 0;
  b ← NetWriteIP b (bp + bp_yiaddr) 0;
  b ← NetWriteIP b (bp + bp_siaddr) 0;
  b ← NetWriteIP b (bp + bp_giaddr) 0;
  b ← bput b (bp + bp_chaddr) (NetOurEther (cfg n));
  b ← bput b (bp + bp_file) (copy_filename (BootFile h) sizeof_bp_file ++ [0]);
  let ext := DhcpExtended DHCP_DISCOVER 0 0 in
  b ← bput b (bp + bp_vend) ext;
  id ← match NetOurEther (cfg n) with
       | [_; _; e2; e3; e4; e5] => Some (e2 ≪ 24 .| (e3 ≪ 16) .| (e4 ≪ 8) .| e5)
       | _ => None
       end;
  let id := htonl (u32 (id + get_timer (lp n) 0)) in
  let h := set_request h id (BootpTry h) in
  b ← NetWriteIP b (bp + bp_id) id;
  let n := with_lp n (net_set_udp_handler (NetSetTimeout (lp n) SELECT_TIMEOUT BootpTimeout_) DhcpHandler_) in
  n ← send_bootp n b eth (length ext);
  Some (n, set_state h SELECTING).

Definition DhcpSendRequestPkt (n : net) (h : dhcp) (bp_offer : list Z) : option net :=
  b ← bput (NetTxPacket n) 0 (replicate PKTSIZE 0);
  '(b, eth) ← NetSetEther n b NetBcastAddr PROT_IP;
  let bp := (eth + IP_UDP_HDR_SIZE)%nat in
  b ← bootp_head n b bp;
  b ← NetWriteIP b (bp + bp_giaddr) 0;
  b ← bput b (bp + bp_chaddr) (NetOurEther (cfg n));
  id ← bget bp_offer bp_id 4;
  b ← bput b (bp + bp_id) id;
  OfferedIP ← NetReadIP bp_offer bp_yiaddr;
  let ext := DhcpExtended DHCP_REQUEST (NetDHCPServerIP h) OfferedIP in
  b ← bput b (bp + bp_vend) ext;
  send_bootp n b eth (length ext).

(** ** Bound *)
(** A part of the transfer on the state of both. *)
Definition run_tftp (n : net) (h : dhcp) (f : state -> option state) : option (net * dhcp) :=
  s ← f (with_nl (tf h) (lp n));
  Some (with_lp n (nl s), set_tf h s).
Definition net_auto_load (n : net) (h : dhcp) : option (net * dhcp) :=
  v ← getenv_yesno default_environment CONFIG_ENV_SIZE (env h) (codes "autoload");
  if v =? 0 then Some (with_lp n (net_set_state (lp n) NETLOOP_SUCCESS), h)
  else run_tftp n h (TftpStart (var (env h)) (BootFile h) (NetOurIP (cfg n)) (NetServerIP h)).
(** [frame] is [NetRxPacket].  The callback of [bootfile] copies the value to [BootFile], where
    it comes from ([copy_filename_again] in [DhcpSpec]). *)
Definition BootpCopyNetParams (n : net) (h : dhcp) (frame pkt : list Z) : option (net * dhcp) :=
  tmp_ip ← NetReadIP pkt bp_siaddr;
  let h := if negb (tmp_ip =? 0) then set_servers h tmp_ip (NetOurDNSIP h) else h in
  mac ← bget frame et_src 6;
  let n := with_server n mac in
  ip ← NetReadIP pkt bp_yiaddr;
  let n := set_ip n ip (NetOurSubnetMask (cfg n)) (NetOurGatewayIP (cfg n)) in
  file ← str_at pkt bp_file;
  let h := if (0 <? length file)%nat then set_bootfile h (copy_filename file sizeof_BootFile) (env h) else h in
  match BootFile h with
  | [] => Some (n, h)
  | _ =>
      '(_, g) ← setenv malloc_ok (env h) (codes "bootfile") (Some (BootFile h));
      Some (n, set_bootfile h (BootFile h) g)
  end.

Definition DhcpHandler (frame : list Z) (n : net) (h : dhcp) (pkt : list Z) (dest sip src len : Z) :
  option (net * dhcp) :=
  r ← BootpCheckPkt (BootpID h) pkt dest src len;
  if negb (r =? 0) then Some (n, h)
  else
    match dhcp_state h with
    | SELECTING =>
        let h := set_state h REQUESTING in
        '(n, h, pkt) ← vendor_options n h pkt;
        let n := with_lp n (NetSetTimeout (lp n) TIMEOUT BootpTimeout_) in
        n ← DhcpSendRequestPkt n h pkt;
        Some (n, h)
    | REQUESTING =>
        type ← DhcpMessageType pkt bp_vend;
        if type =? DHCP_ACK then
          '(n, h, pkt) ← vendor_options n h pkt;
          '(n, h) ← BootpCopyNetParams n h frame pkt;
          net_auto_load n (set_state h BOUND)
        else Some (n, h)
    | _ => Some (n, h)
    end.
Definition BootpTimeout (n : net) (h : dhcp) : option (net * dhcp) :=
  if TIMEOUT_COUNT <=? BootpTry h then
    Some (with_lp n (NetStartAgain (var (env h)) eth_try_another (lp n)), h)
  else BootpRequest (with_lp n (NetSetTimeout (lp n) TIMEOUT BootpTimeout_)) h.

(** ** The loop *)
(** [case DHCP] of [NetLoop]. *)
Definition dhcp_start (n : net) (h : dhcp) : option (net * dhcp) :=
  let h := set_request h (BootpID h) 0 in
  BootpRequest (set_ip n 0 (NetOurSubnetMask (cfg n)) (NetOurGatewayIP (cfg n))) h.
Definition udp_handler (frame : list Z) (n : net) (h : dhcp) (pkt : list Z) (dest sip src len : Z) :
  option (net * dhcp) :=
  match udp_packet_handler (lp n) with
  | dummy_handler => Some (n, h)
  | DhcpHandler_ => DhcpHandler frame n h pkt dest sip src len
  | TftpHandler_ =>
      run_tftp n h (fun s => TftpHandler (var (env h)) eth_try_another s pkt dest sip src len)
  end.
Definition dhcp_round (n : net) (h : dhcp) (rx : option (list Z * Z)) (t : Z) : option (net * dhcp) :=
  round (udp_handler (default [] (fst <$> rx))) (var (env h)) eth_try_another
    (fun n h => run_tftp n h (TftpTimeout (var (env h)) eth_try_another)) BootpTimeout n h rx t.
Fixpoint dhcp_loop (n : net) (h : dhcp) (l : list (option (list Z * Z) * Z)) : option (net * dhcp) :=
  match l, net_state (lp n) with
  | (rx, t) :: l, NETLOOP_CONTINUE => '(n, h) ← dhcp_round n h rx t; dhcp_loop n h l
  | _, _ => Some (n, h)
  end.
End client.
