(* ===== verification/DhcpSpec.v ===== *)
(** * The exchange with a DHCP server

    The messages of the client as bytes, the options of an answer and what they set, and the
    exchange: whatever else arrives, the client that is offered an address and gets it
    acknowledged is bound to it.  At the end, what the code does with answers that are not as
    it expects. *)
From S2P Require Import Prelude Ctype Mem CStr Hashtable HashSpec HashExport Vsprintf VsprintfSpec.
From S2P Require Import EnvVar EnvSpec Tftp TftpSpec Net NetSpec Dhcp.

(** ** Strings *)
Lemma until_nul_app s l : 0 ∉ s -> until_nul (s ++ 0 :: l) = s.
Proof.
  induction s as [|c s IH]; intros Hs; [done|]. apply not_elem_of_cons in Hs as [Hc Hs]. cbn.
  case_if; [lia|]. f_equal. by apply IH.
Qed.
Lemma str_at_ok a s l : 0 ∉ s -> str_at (a ++ s ++ 0 :: l) (length a) = Some s.
Proof.
  intros Hs. unfold str_at. rewrite drop_app_length, until_nul_app by done.
  rewrite !length_app. cbn [length]. case_match eqn:E; [done|]. apply Nat.ltb_ge in E. lia.
Qed.
Lemma copy_chars_len n s : (length (copy_chars n s) <= n)%nat.
Proof.
  revert s. induction n as [|n IH]; intros [|c s]; cbn; try lia. case_if; cbn; [lia|]. specialize (IH s). lia.
Qed.
Lemma copy_chars_no_quote n s : 34 ∉ copy_chars n s.
Proof.
  revert s. induction n as [|n IH]; intros [|c s]; cbn; try apply not_elem_of_nil.
  case_if; [apply not_elem_of_nil|]. apply not_elem_of_cons. split; [lia|apply IH].
Qed.
Lemma copy_chars_plain n s : 34 ∉ s -> (length s <= n)%nat -> copy_chars n s = s.
Proof.
  revert s. induction n as [|n IH]; intros [|c s] Hs Hl; cbn in *; try done; [lia|].
  apply not_elem_of_cons in Hs as [Hc Hs]. case_if; [lia|]. f_equal. apply IH; [done|lia].
Qed.
Lemma copy_chars_sub n s x : x ∈ copy_chars n s -> x ∈ s.
Proof.
  revert s. induction n as [|n IH]; intros [|c s]; cbn; try (intros H; by apply not_elem_of_nil in H).
  case_if; [intros H; by apply not_elem_of_nil in H|]. rewrite !elem_of_cons. intros [->|H]; [by left|right; eauto].
Qed.
Lemma copy_filename_eq s size : exists n s', copy_filename s size = copy_chars n s'
  /\ Z.of_nat n <= Z.max 0 (size - 1) /\ (forall x, x ∈ s' -> x ∈ s).
Proof.
  unfold copy_filename. repeat case_match; subst; eexists _, _; (split; [reflexivity|]); split;
    try lia; intros x Hx; first [exact Hx|by rewrite elem_of_cons; right].
Qed.
Lemma copy_filename_plain s size : 34 ∉ s -> zlen s < size -> copy_filename s size = s.
Proof.
  intros Hs Hl. unfold copy_filename. destruct s as [|c s]; [by destruct (Z.to_nat _)|].
  pose proof (proj1 (not_elem_of_cons _ _ _) Hs) as [Hc _].
  assert (copy_chars (Z.to_nat (size - 1)) (c :: s) = c :: s) as E by (apply copy_chars_plain; [done|lia]).
  repeat case_match; congruence.
Qed.
Lemma copy_filename_len s size : 0 < size -> zlen (copy_filename s size) < size.
Proof.
  intros Hs. destruct (copy_filename_eq s size) as (n & s' & -> & Hn & _). pose proof (copy_chars_len n s'). lia.
Qed.
(** A name that was copied is not changed by copying it again, which the callback of [bootfile]
    does. *)
Lemma copy_filename_again s size size' : 0 < size <= size' ->
  copy_filename (copy_filename s size) size' = copy_filename s size.
Proof.
  intros Hs. apply copy_filename_plain; [|pose proof (copy_filename_len s size); lia].
  destruct (copy_filename_eq s size) as (n & s' & -> & _). apply copy_chars_no_quote.
Qed.
Lemma copy_filename_no_nul s size : 0 ∉ s -> 0 ∉ copy_filename s size.
Proof.
  intros Hs. destruct (copy_filename_eq s size) as (n & s' & -> & _ & Hsub). intros H%copy_chars_sub. auto.
Qed.

(** ** Options *)
(** An option is its code and its data. *)
Abbreviation dhcp_opt := (Z * list Z)%type.
Definition enc_opt (o : dhcp_opt) : list Z := fst o :: zlen (snd o) :: snd o.
Definition enc_opts (os : list dhcp_opt) : list Z := concat (map enc_opt os).
(** The word at the start of the data. *)
Definition word (d : list Z) : Z := default 0 (NetReadIP d 0).
Definition has_word (code : Z) : bool :=
  (code =? 1) || (code =? 3) || (code =? 6) || (code =? 51) || (code =? 54).
(** A code is neither 0 nor 255, and the options that hold an address have one. *)
Record opt_ok (o : dhcp_opt) : Prop := mk_opt_ok {
  o_code : 0 < fst o < 255;
  o_len : (length (snd o) < 256)%nat;
  o_word : has_word (fst o) = true -> (4 <= length (snd o))%nat }.

Lemma enc_opts_len os : (length os <= length (enc_opts os))%nat.
Proof.
  induction os as [|o os IH]; [done|]. change (enc_opts (o :: os)) with (enc_opt o ++ enc_opts os).
  rewrite length_app. unfold enc_opt. cbn [length]. lia.
Qed.

(** The last option with a code, or else [old]. *)
Definition latest {A} (code : Z) (f : list Z -> A -> A) (os : list dhcp_opt) (old : A) : A :=
  fold_left (fun x o => if fst o =? code then f (snd o) x else x) os old.
Definition put_word (d : list Z) (old : Z) : Z := word d.
(** A string in an array of [size] characters. *)
Definition put_string (size : Z) (d arr : list Z) : list Z :=
  let s := take (Z.to_nat (truncate_sz size (zlen d))) d in s ++ 0 :: drop (S (length s)) arr.
(** The field [bp_file] is only used when it is empty. *)
Definition put_file (d file : list Z) : list Z :=
  if (file !!! O =? 0) && negb (zlen d =? 0) then put_string sizeof_bp_file d file else file.

Definition opts_node (n : net) (os : list dhcp_opt) : net :=
  set_ip n (NetOurIP (cfg n)) (latest 1 put_word os (NetOurSubnetMask (cfg n)))
    (latest 3 put_word os (NetOurGatewayIP (cfg n))).
Definition opts_client (h : dhcp) (os : list dhcp_opt) : dhcp :=
  mkdhcp (BootpID h) (BootpTry h) (dhcp_state h) (latest 51 put_word os (dhcp_leasetime h))
    (latest 54 put_word os (NetDHCPServerIP h)) (NetServerIP h) (latest 6 put_word os (NetOurDNSIP h))
    (latest 12 (put_string sizeof_NetOurHostName) os (NetOurHostName h))
    (latest 17 (put_string sizeof_NetOurRootPath) os (NetOurRootPath h)) (BootFile h) (env h) (tf h).

(** *** Processing them *)
Lemma bput_mid a x b l : length l = length x -> bput (a ++ x ++ b) (length a) l = Some (a ++ l ++ b).
Proof.
  intros Hl. rewrite <- (Nat.add_0_r (length a)) at 1. rewrite bput_at. unfold bput. rewrite length_app.
  case_match eqn:E; [|apply Nat.leb_gt in E; lia]. cbn. by rewrite Hl, drop_app_length.
Qed.
Lemma bget_mid a x b : bget (a ++ x ++ b) (length a) (length x) = Some x.
Proof.
  rewrite <- (Nat.add_0_r (length a)) at 1. rewrite bget_at. unfold bget. rewrite length_app.
  case_match eqn:E; [|apply Nat.leb_gt in E; lia]. by rewrite drop_0, take_app_length.
Qed.
Lemma word_at d rest : (4 <= length d)%nat -> NetReadIP (d ++ rest) 0 = Some (word d).
Proof.
  intros Hd. unfold word. destruct d as [|a [|b [|c [|e d]]]]; cbn [length] in Hd; try lia.
  unfold NetReadIP, bget. cbn [app length Nat.add Nat.leb take drop mbind option_bind default]. done.
Qed.
Lemma truncate_sz_range size len : 0 < size -> 0 <= len ->
  0 <= truncate_sz size len < size /\ truncate_sz size len <= len.
Proof. intros. unfold truncate_sz. case_if; lia. Qed.
(** A string and its end, into an array that is part of a buffer. *)
Lemma bput_string a arr b s : (length s < length arr)%nat ->
  exists m, bput (a ++ arr ++ b) (length a) s = Some m
    /\ bput m (length a + length s) [0] = Some (a ++ (s ++ 0 :: drop (S (length s)) arr) ++ b).
Proof.
  intros Hl. pose proof (take_drop (length s) arr) as Ha. set (x := take _ arr) in *.
  destruct (drop _ arr) as [|c y] eqn:Ey; [apply (f_equal length) in Ey; rewrite length_drop in Ey; cbn in Ey; lia|].
  assert (length x = length s) as Hx by (unfold x; rewrite length_take; lia). rewrite <- Ha, <- !app_assoc.
  exists (a ++ s ++ c :: y ++ b). split; [by apply bput_mid|].
  rewrite (app_assoc a s), <- length_app, bput_end. rewrite <- app_assoc. do 4 f_equal.
  rewrite <- Hx. replace (S (length x)) with (length x + 1)%nat by lia. by rewrite drop_app_add.
Qed.
Lemma take_at a d rest (k : nat) : (k <= length d)%nat ->
  bget (a ++ d ++ rest) (length a) k = Some (take k d).
Proof.
  intros Hk. pose proof (bget_mid a (take k d) (drop k d ++ rest)) as H.
  rewrite length_take, Nat.min_l in H by lia. by rewrite (app_assoc (take k d)), take_drop in H.
Qed.
Lemma copy_option_ok arr a d rest size : 0 < size -> zlen arr = size ->
  copy_option arr (a ++ d ++ rest) (length a) (truncate_sz size (zlen d)) = Some (put_string size d arr).
Proof.
  intros Hs Ha. pose proof (truncate_sz_range size (zlen d)) as Ht. unfold copy_option.
  rewrite take_at by lia. cbn [mbind option_bind].
  set (s := take _ d). assert (length s = Z.to_nat (truncate_sz size (zlen d))) as Hl by (unfold s; rewrite length_take; lia).
  destruct (bput_string [] arr [] s) as (m & H1 & H2); [lia|]. cbn [app length Nat.add] in H1, H2.
  rewrite !app_nil_r in H1, H2. rewrite H1. cbn [mbind option_bind]. by rewrite <- Hl, H2.
Qed.
Lemma put_string_len size d arr : 0 < size -> zlen arr = size -> zlen (put_string size d arr) = size.
Proof.
  intros Hs Ha. pose proof (truncate_sz_range size (zlen d)) as Ht. unfold put_string.
  rewrite length_app, length_take. cbn [length]. rewrite length_drop. lia.
Qed.

(** The arrays have their sizes. *)
Definition arrays_ok (h : dhcp) : Prop :=
  zlen (NetOurHostName h) = sizeof_NetOurHostName /\ zlen (NetOurRootPath h) = sizeof_NetOurRootPath.
Lemma latest_len size code os : 0 < size -> forall arr, zlen arr = size -> zlen (latest code (put_string size) os arr) = size.
Proof.
  intros Hs. induction os as [|o os IH]; intros arr Ha; [done|]. apply IH. case_if; [by apply put_string_len|done].
Qed.
Lemma put_file_len d file : zlen file = sizeof_bp_file -> zlen (put_file d file) = sizeof_bp_file.
Proof. intros H. unfold put_file. case_if; [by apply put_string_len|done]. Qed.

(** A packet: what is in front of the file name, the file name, what is between it and the
    option, and from the option on. *)
Lemma dhcp_option_ok n h pre file mid c d rest : arrays_ok h -> opt_ok (c, d) ->
  length pre = bp_file -> zlen file = sizeof_bp_file ->
  let pkt file := pre ++ file ++ mid ++ enc_opt (c, d) ++ rest in
  dhcp_option n h (pkt file) (length (pre ++ file ++ mid)) c (zlen d)
  = Some (opts_node n [(c, d)], opts_client h [(c, d)], pkt (latest 67 put_file [(c, d)] file)).
Proof.
  intros (Hhost & Hroot) [Hc Hl Hw] Hp Hf pkt. cbn [fst snd] in *. unfold pkt, dhcp_option.
  set (a := pre ++ file ++ mid ++ [c; zlen d]).
  assert (pre ++ file ++ mid ++ enc_opt (c, d) ++ rest = a ++ d ++ rest) as Ea
    by (unfold a, enc_opt; rewrite <- !app_assoc; done).
  assert (length (pre ++ file ++ mid) + 2 = length a)%nat as El by (unfold a; rewrite !length_app; cbn [length]; lia).
  rewrite El. cbv zeta.
  assert (has_word c = true -> NetReadIP (pre ++ file ++ mid ++ enc_opt (c, d) ++ rest) (length a) = Some (word d)) as Hword.
  { intros H. rewrite Ea. rewrite <- (Nat.add_0_r (length a)), NetReadIP_at. by apply word_at, Hw. }
  assert (forall arr size, 0 < size -> zlen arr = size ->
    copy_option arr (pre ++ file ++ mid ++ enc_opt (c, d) ++ rest) (length a) (truncate_sz size (zlen d))
    = Some (put_string size d arr)) as Hstr by (intros; rewrite Ea; by apply copy_option_ok).
  destruct n as [[] ? ? ? ? ? ? ? ? ?]. destruct h.
  unfold has_word in Hword. unfold opts_node, opts_client, latest. cbn [fold_left fst snd].
  destruct (Z.eqb_spec c 1) as [->|]; [by rewrite Hword|].
  destruct (Z.eqb_spec c 3) as [->|]; [by rewrite Hword|].
  destruct (Z.eqb_spec c 6) as [->|]; [by rewrite Hword|].
  destruct (Z.eqb_spec c 12) as [->|]; [by rewrite Hstr|].
  destruct (Z.eqb_spec c 17) as [->|]; [by rewrite Hstr|].
  destruct (Z.eqb_spec c 51) as [->|]; [by rewrite Hword|].
  destruct (Z.eqb_spec c 54) as [->|]; [by rewrite Hword|].
  destruct (Z.eqb_spec c 67) as [->|]; [|done].
  destruct file as [|f0 file]; [done|].
  replace ((pre ++ (f0 :: file) ++ mid ++ enc_opt (67, d) ++ rest) !! bp_file) with (Some f0)
    by (rewrite <- Hp, lookup_app_r, Nat.sub_diag by lia; done).
  cbn [mbind option_bind]. unfold put_file. cbn [lookup_total list_lookup_total].
  pose proof (truncate_sz_range sizeof_bp_file (zlen d) eq_refl ltac:(lia)) as Ht.
  replace (0 <? truncate_sz sizeof_bp_file (zlen d)) with (negb (zlen d =? 0))
    by (unfold truncate_sz, sizeof_bp_file; case_if; lia).
  case_if; [|done]. rewrite Ea, take_at by lia. cbn [mbind option_bind].
  set (s := take _ d).
  assert (length s = Z.to_nat (truncate_sz sizeof_bp_file (zlen d))) as Hls by (unfold s; rewrite length_take; lia).
  destruct (bput_string pre (f0 :: file) (mid ++ enc_opt (67, d) ++ rest) s) as (m & H1 & H2);
    [unfold sizeof_bp_file in *; cbn [length] in *; lia|].
  rewrite <- Ea, <- Hp, H1. cbn [mbind option_bind]. by rewrite <- Hls, H2.
Qed.

Lemma opts_arrays h os : arrays_ok h -> arrays_ok (opts_client h os).
Proof. intros [H1 H2]. split; by apply latest_len. Qed.
Lemma latest_file_len os : forall file, zlen file = sizeof_bp_file -> zlen (latest 67 put_file os file) = sizeof_bp_file.
Proof. induction os as [|o os IH]; intros file Hf; [done|]. apply IH. case_if; [by apply put_file_len|done]. Qed.
Lemma options_loop_ok os : forall fuel n h pre file mid tail end_,
  arrays_ok h -> Forall opt_ok os -> length pre = bp_file -> zlen file = sizeof_bp_file ->
  (length os <= fuel)%nat -> (length (pre ++ file ++ mid) + length (enc_opts os) < end_)%nat ->
  let pkt file := pre ++ file ++ mid ++ enc_opts os ++ 255 :: tail in
  options_loop fuel n h (pkt file) (length (pre ++ file ++ mid)) end_
  = Some (opts_node n os, opts_client h os, pkt (latest 67 put_file os file)).
Proof.
  induction os as [|[c d] os IH]; intros fuel n h pre file mid tail end_ Ha Hos Hp Hf Hfuel Hend pkt; unfold pkt.
  - destruct n as [[] ? ? ? ? ? ? ? ? ?]. destruct h. cbn [enc_opts map concat app length latest fold_left] in *.
    assert ((pre ++ file ++ mid ++ 255 :: tail) !! length (pre ++ file ++ mid) = Some 255) as Hl.
    { pose proof (lookup_at (pre ++ file ++ mid) (255 :: tail) 0) as H. by rewrite <- !app_assoc, Nat.add_0_r in H. }
    destruct fuel; cbn [options_loop]; case_match eqn:E; try done; by rewrite Hl.
  - apply Forall_cons in Hos as [Ho Hos]. destruct fuel as [|fuel]; [cbn in Hfuel; lia|].
    pose proof (dhcp_option_ok n h pre file mid c d (enc_opts os ++ 255 :: tail) Ha Ho Hp Hf) as Hopt. cbv zeta in Hopt.
    set (popt := length (pre ++ file ++ mid)) in *.
    change (enc_opts ((c, d) :: os)) with (enc_opt (c, d) ++ enc_opts os) in *. rewrite <- !app_assoc in *.
    assert (forall k, (pre ++ file ++ mid ++ enc_opt (c, d) ++ enc_opts os ++ 255 :: tail) !! (popt + k)%nat
      = (enc_opt (c, d) ++ enc_opts os ++ 255 :: tail) !! k) as Hl.
    { intros k. unfold popt. pose proof (lookup_at (pre ++ file ++ mid) (enc_opt (c, d) ++ enc_opts os ++ 255 :: tail) k) as H.
      by rewrite <- !app_assoc in H. }
    pose proof (Hl 0%nat : _ = Some c) as H0. pose proof (Hl 1%nat : _ = Some (zlen d)) as H1.
    rewrite Nat.add_0_r in H0. replace (popt + 1)%nat with (S popt) in H1 by lia.
    cbn [options_loop]. destruct (Nat.ltb_spec popt end_) as [_|]; [|lia]. cbn [negb].
    rewrite H0. cbn [mbind option_bind].
    destruct Ho as [Hc Hd Hw]. cbn [fst snd] in *. case_if; [lia|]. rewrite H1. cbn [mbind option_bind].
    rewrite Hopt. cbn [mbind option_bind].
    assert (length (enc_opt (c, d)) = length d + 2)%nat as Hel by (cbn; lia). rewrite length_app, Hel in Hend.
    set (file' := latest 67 put_file [(c, d)] file).
    assert (zlen file' = sizeof_bp_file) as Hf' by by apply (latest_file_len [(c, d)]).
    specialize (IH fuel (opts_node n [(c, d)]) (opts_client h [(c, d)]) pre file' (mid ++ enc_opt (c, d)) tail end_).
    rewrite <- !app_assoc in IH. cbv zeta in IH.
    assert (length (pre ++ file' ++ mid ++ enc_opt (c, d)) = popt + Z.to_nat (zlen d) + 2)%nat as Hpl
      by (unfold popt; rewrite !length_app, Hel; lia).
    rewrite Hpl in IH. apply IH; try done; [by apply opts_arrays|cbn in Hfuel; lia|lia].
Qed.

(** The type of a message is its first option 53. *)
Definition message_type (os : list dhcp_opt) : Z :=
  match List.find (fun o => fst o =? 53) os with Some (_, t :: _) => t | _ => -1 end.
Lemma message_type_loop_ok os : forall fuel a tail, Forall opt_ok os -> (length os <= fuel)%nat ->
  (forall o, o ∈ os -> fst o = 53 -> snd o <> []) ->
  message_type_loop fuel (a ++ enc_opts os ++ 255 :: tail) (length a) = Some (message_type os).
Proof.
  induction os as [|[c d] os IH]; intros fuel a tail Hos Hfuel Ht.
  - cbn [enc_opts map concat app]. destruct fuel; cbn [message_type_loop]; by rewrite (list_lookup_middle a tail 255 (length a)).
  - apply Forall_cons in Hos as [[Hc Hd _] Hos]. cbn [fst snd] in *. destruct fuel as [|fuel]; [cbn in Hfuel; lia|].
    change (enc_opts ((c, d) :: os)) with (enc_opt (c, d) ++ enc_opts os). rewrite <- !app_assoc.
    assert (forall k, (a ++ enc_opt (c, d) ++ enc_opts os ++ 255 :: tail) !! (length a + k)%nat
      = (enc_opt (c, d) ++ enc_opts os ++ 255 :: tail) !! k) as Hl by (intros k; apply lookup_at).
    cbn [message_type_loop]. pose proof (Hl 0%nat : _ = Some c) as H0.
    pose proof (Hl 1%nat : _ = Some (zlen d)) as H1. pose proof (Hl 2%nat) as H2.
    rewrite Nat.add_0_r in H0. replace (length a + 1)%nat with (S (length a)) in H1 by lia.
    rewrite H0, H1, H2. unfold message_type. cbn. case_if; [lia|].
    destruct (Z.eqb_spec c 53) as [->|].
    + destruct d as [|t d]; [by destruct (Ht (53, []) ltac:(left)); cbn|]. done.
    + replace (length a + Z.to_nat (zlen d) + 2)%nat with (length (a ++ enc_opt (c, d)))
        by (rewrite length_app; cbn; lia).
      specialize (IH fuel (a ++ enc_opt (c, d)) tail). rewrite <- app_assoc in IH.
      apply IH; [done|cbn in Hfuel; lia|]. intros o Ho. apply Ht. by right.
Qed.

(** ** The messages of the client *)
(** A buffer as a list of fields, and writing to one of them. *)
Lemma bput_over a x b l : (length l <= length x)%nat ->
  bput (a ++ x ++ b) (length a) l = Some (a ++ (l ++ drop (length l) x) ++ b).
Proof.
  intros Hl. rewrite <- (take_drop (length l) x) at 1. rewrite <- !app_assoc. apply bput_mid.
  rewrite length_take. lia.
Qed.
Lemma bput_concat (F : list (list Z)) i x p tail k l : F !! i = Some x -> (length l <= length x)%nat ->
  k = (length p + length (concat (take i F)))%nat ->
  bput (p ++ concat F ++ tail) k l = Some (p ++ concat (<[i := l ++ drop (length l) x]> F) ++ tail).
Proof.
  intros Hx Hl ->. rewrite <- (take_drop_middle F i x Hx) at 1. rewrite concat_app. cbn [concat].
  rewrite insert_take_drop by by eapply lookup_lt_Some. rewrite concat_app. cbn [concat].
  rewrite <- length_app, <- !app_assoc.
  pose proof (bput_over (p ++ concat (take i F)) x (concat (drop (S i) F) ++ tail) l Hl) as H.
  by rewrite <- !app_assoc in H.
Qed.

(** What the client sends: its transaction, the seconds, its address, a file name and options. *)
Definition request_bytes (xid secs : Z) (mac file ext : list Z) : list Z :=
  [OP_BOOTREQUEST; HWT_ETHER; HWL_ETHER; 0] ++ ip_bytes xid ++ htons_bytes secs ++ replicate 18 0
  ++ mac ++ replicate 74 0 ++ pad_to file 128 ++ ext.
Definition bootp_frame (n : net) (payload : list Z) : list Z :=
  udp_frame n NetBcastAddr 0xffffffff PORT_BOOTPC PORT_BOOTPS payload.
(** A node that has sent a frame and has its transmit buffer changed. *)
Definition has_sent (n : net) (f tx : list Z) : net :=
  with_wire (with_tx (with_ipid n (u32 (NetIPID n + 1))) tx) (wire n ++ [f]).
Lemma send_bootp_ok n r payload tail extlen : node_ok n -> length r = 28%nat -> tail <> [] ->
  zlen payload = 236 + Z.of_nat extlen ->
  length (eth_hdr n NetBcastAddr (NetOurEther (cfg n)) PROT_IP ++ r ++ payload ++ tail) = PKTSIZE_ALIGN ->
  exists tx, length tx = PKTSIZE_ALIGN
    /\ send_bootp n (eth_hdr n NetBcastAddr (NetOurEther (cfg n)) PROT_IP ++ r ++ payload ++ tail) (NetEthHdrSize n) extlen
       = Some (has_sent n (bootp_frame n payload) tx).
Proof.
  intros Hn Hr Ht Hp Hlen. unfold send_bootp. change (BOOTP_HDR_SIZE - OPT_FIELD_SIZE) with 236. rewrite <- Hp.
  set (h := eth_hdr n _ _ _) in *.
  assert (length h = NetEthHdrSize n) as Hh by (apply eth_hdr_len; [done|apply (ok_ether n Hn)]).
  destruct (net_set_udp_header_ok (with_tx n (h ++ r ++ payload ++ tail)) h r payload tail 0xffffffff PORT_BOOTPS PORT_BOOTPC)
    as (tail' & Hl & Hu); [done..|]. rewrite Hh in Hu. rewrite Hu. cbn [mbind option_bind with_tx with_ipid NetTxPacket NetIPID cfg].
  set (u := udp_packet _ _ _ _ _ _). exists (h ++ u ++ tail').
  assert (zlen u = 28 + zlen payload) as Hul by apply udp_packet_len.
  split; [rewrite !length_app in *; lia|].
  replace (Z.of_nat (NetEthHdrSize n + IP_UDP_HDR_SIZE) + zlen payload) with (zlen (h ++ u))
    by (rewrite length_app; unfold IP_UDP_HDR_SIZE; lia).
  by rewrite (app_assoc h u tail'), NetSendPacket_ok.
Qed.
Definition zeros (ks : list nat) : list (list Z) := map (fun k => replicate k 0) ks.
Definition bootp_fields : list nat := [1; 1; 1; 1; 4; 2; 2; 4; 4; 4; 4; 6; 74; 128; 64]%nat.
(** The cleared transmit buffer with its Ethernet header: the places of the other headers, the
    fields of a message, and the rest. *)
Lemma cleared_buffer n : node_ok n -> exists tail, tail <> []
  /\ length (eth_hdr n NetBcastAddr (NetOurEther (cfg n)) PROT_IP ++ replicate 28 0 ++ concat (zeros bootp_fields) ++ tail) = PKTSIZE_ALIGN
  /\ exists b, bput (NetTxPacket n) 0 (replicate PKTSIZE 0) = Some b
    /\ NetSetEther n b NetBcastAddr PROT_IP
       = Some (eth_hdr n NetBcastAddr (NetOurEther (cfg n)) PROT_IP ++ replicate 28 0 ++ concat (zeros bootp_fields) ++ tail,
           NetEthHdrSize n).
Proof.
  intros Hn. pose proof (ok_tx n Hn) as Ht. pose proof (NetEthHdrSize_range n) as Hk. set (k := NetEthHdrSize n) in *.
  assert (concat (zeros bootp_fields) = replicate 300 0) as -> by done.
  exists (replicate (1190 - k) 0 ++ drop PKTSIZE (NetTxPacket n)).
  assert (length (drop PKTSIZE (NetTxPacket n)) = 18)%nat as Hd by (rewrite length_drop, Ht; done).
  split. { intros H. apply (f_equal length) in H. rewrite length_app, Hd in H. cbn in H. lia. }
  split. { rewrite !length_app, eth_hdr_len, !length_replicate, Hd by (done || apply (ok_ether n Hn)).
    fold k. unfold PKTSIZE_ALIGN. lia. }
  exists (replicate k 0 ++ replicate 28 0 ++ replicate 300 0 ++ replicate (1190 - k) 0 ++ drop PKTSIZE (NetTxPacket n)).
  split; [|apply NetSetEther_ok; [by rewrite length_replicate|done|apply (ok_ether n Hn)]].
  unfold bput. rewrite length_replicate, Ht. change (0 + PKTSIZE <=? PKTSIZE_ALIGN)%nat with true. cbn iota. f_equal.
  rewrite !app_assoc, <- !replicate_add. unfold PKTSIZE. rewrite take_0. cbn [app Nat.add].
  replace (k + 28 + 300 + (1190 - k))%nat with 1518%nat by lia. done.
Qed.
Ltac field_len :=
  cbn [take concat]; rewrite ?length_app, ?length_drop, ?length_replicate, ?length_app; cbn [length htons_bytes ip_bytes]; lia.
Ltac field i :=
  erewrite (bput_concat _ i);
  [ cbn [mbind option_bind insert list_insert]
  | reflexivity
  | field_len
  | unfold bp_op, bp_htype, bp_hlen, bp_hops, bp_id, bp_secs, bp_ciaddr, bp_yiaddr, bp_siaddr, bp_giaddr,
      bp_chaddr, bp_file, bp_vend; field_len ].
(** The transaction number of a request. *)
Definition xid_of (n : net) : Z :=
  let mac := NetOurEther (cfg n) in
  htonl (u32 ((mac !!! 2%nat ≪ 24 .| (mac !!! 3%nat ≪ 16) .| (mac !!! 4%nat ≪ 8) .| mac !!! 5%nat) + get_timer (lp n) 0)).
Definition secs_of (n : net) : Z := get_timer (lp n) 0 / 1000.
Definition armed (n : net) (iv : Z) : net :=
  with_lp n (net_set_udp_handler (NetSetTimeout (lp n) iv BootpTimeout_) DhcpHandler_).
Definition discover (n : net) (file : list Z) : list Z :=
  request_bytes (xid_of n) (secs_of n) (NetOurEther (cfg n)) (copy_filename file sizeof_bp_file)
    (DhcpExtended DHCP_DISCOVER 0 0).
Definition discovering (n : net) (h : dhcp) : dhcp :=
  set_state (set_request h (xid_of n) (s32 (BootpTry h + 1))) SELECTING.

Lemma field_file s k : (length s < k)%nat ->
  (s ++ [0]) ++ drop (length (s ++ [0])) (replicate k 0) = pad_to s k.
Proof.
  intros Hl. unfold pad_to. rewrite length_app, drop_replicate, <- app_assoc. f_equal. cbn [length app].
  replace (k - length s)%nat with (S (k - (length s + 1))) by lia. done.
Qed.
(** The written fields make up the message. *)
Lemma request_concat xid secs mac f ext : length mac = 6%nat -> length ext = 64%nat ->
  concat [[OP_BOOTREQUEST]; [HWT_ETHER]; [HWL_ETHER]; [0]; ip_bytes xid; htons_bytes secs;
    replicate 2 0; replicate 4 0; replicate 4 0; replicate 4 0; replicate 4 0;
    mac ++ drop (length mac) (replicate 6 0); replicate 74 0; f; ext ++ drop (length ext) (replicate 64 0)]
  = [OP_BOOTREQUEST; HWT_ETHER; HWL_ETHER; 0] ++ ip_bytes xid ++ htons_bytes secs ++ replicate 18 0
    ++ mac ++ replicate 74 0 ++ f ++ ext.
Proof.
  intros Hm Hx. rewrite !drop_ge by (rewrite length_replicate; lia). cbn [concat]. by rewrite !app_nil_r.
Qed.
Lemma mac_number mac : length mac = 6%nat ->
  match mac with [_; _; e2; e3; e4; e5] => Some (e2 ≪ 24 .| (e3 ≪ 16) .| (e4 ≪ 8) .| e5) | _ => None end
  = Some (mac !!! 2%nat ≪ 24 .| (mac !!! 3%nat ≪ 16) .| (mac !!! 4%nat ≪ 8) .| mac !!! 5%nat).
Proof. intros Hm. by explode mac Hm. Qed.
Lemma BootpRequest_ok n h : node_ok n -> exists tx, length tx = PKTSIZE_ALIGN
  /\ BootpRequest n h = Some (has_sent (armed n SELECT_TIMEOUT) (bootp_frame n (discover n (BootFile h))) tx, discovering n h).
Proof.
  intros Hn. destruct (cleared_buffer n Hn) as (tail & Hne & Hlen & b & Hb & He).
  unfold BootpRequest. rewrite Hb. cbn [mbind option_bind]. rewrite He. cbn [mbind option_bind]. clear b Hb He.
  pose proof (ok_ether n Hn) as Hm. set (p := eth_hdr n _ _ _) in *.
  assert (length p = NetEthHdrSize n) as Hp by by apply eth_hdr_len.
  set (file := copy_filename (BootFile h) sizeof_bp_file).
  assert (length file < 128)%nat as Hf
    by (pose proof (copy_filename_len (BootFile h) sizeof_bp_file eq_refl); unfold file, sizeof_bp_file in *; lia).
  set (gap := replicate 28 0) in *. rewrite (app_assoc p gap).
  assert (NetEthHdrSize n + IP_UDP_HDR_SIZE = length (p ++ gap))%nat as Hbp
    by (rewrite length_app, Hp; reflexivity).
  rewrite Hbp. set (q := p ++ gap) in *.
  unfold bootp_head, zeros, bootp_fields. cbn [map]. cbn [BootFile set_request set_state]. fold file.
  assert (length (DhcpExtended DHCP_DISCOVER 0 0) = 64%nat) as Hx by done.
  unfold discover. fold file. set (ext := DhcpExtended DHCP_DISCOVER 0 0) in *. clearbody ext.
  field 0%nat. field 1%nat. field 2%nat. field 3%nat. field 5%nat. unfold NetWriteIP.
  field 7%nat. field 8%nat. field 9%nat. field 10%nat. field 11%nat. field 13%nat. field 14%nat.
  rewrite mac_number by done. cbn [mbind option_bind]. fold (xid_of n). field 4%nat.
  rewrite field_file by done.
  pose proof (request_concat (xid_of n) (secs_of n) (NetOurEther (cfg n)) (pad_to file 128) ext Hm Hx) as Hc.
  match type of Hc with ?l = _ => match goal with |- context [concat ?F] => change (concat F) with l end end.
  rewrite Hc. fold (request_bytes (xid_of n) (secs_of n) (NetOurEther (cfg n)) file ext).
  set (payload := request_bytes _ _ _ _ _). fold (armed n SELECT_TIMEOUT). unfold q. rewrite <- app_assoc.
  assert (length payload = 300)%nat as Hpl.
  { unfold payload, request_bytes, pad_to. rewrite !length_app, !length_replicate. cbn [length ip_bytes htons_bytes]. lia. }
  assert (node_ok (armed n SELECT_TIMEOUT)) as Hna by by destruct Hn.
  destruct (send_bootp_ok (armed n SELECT_TIMEOUT) gap payload tail (length ext)) as (tx & Htx & Hs); try done.
  { lia. }
  { rewrite <- Hlen, !length_app, Hpl. reflexivity. }
  exists tx. split; [done|]. change (NetEthHdrSize (armed n SELECT_TIMEOUT)) with (NetEthHdrSize n) in Hs.
  unfold p. change (eth_hdr n NetBcastAddr (NetOurEther (cfg n)) PROT_IP)
    with (eth_hdr (armed n SELECT_TIMEOUT) NetBcastAddr (NetOurEther (cfg (armed n SELECT_TIMEOUT))) PROT_IP).
  rewrite Hs. reflexivity.
Qed.
Lemma DhcpExtended_len type server ip : length (DhcpExtended type server ip) = 64%nat.
Proof.
  unfold DhcpExtended, pad_to. rewrite length_app, length_replicate.
  assert (forall c x, (length (option_ip c x) <= 6)%nat) as H by (intros; unfold option_ip; case_if; cbn; lia).
  rewrite !length_app. pose proof (H 54 server). pose proof (H 50 ip). cbn [length]. unfold CONFIG_DHCP_MIN_EXT_LEN. lia.
Qed.
Definition dhcp_request (n : net) (xid server ip : Z) : list Z :=
  request_bytes xid (secs_of n) (NetOurEther (cfg n)) [] (DhcpExtended DHCP_REQUEST server ip).
Lemma DhcpSendRequestPkt_ok n h offer xid ip : node_ok n -> bget offer bp_id 4 = Some (ip_bytes xid) ->
  NetReadIP offer bp_yiaddr = Some ip -> exists tx, length tx = PKTSIZE_ALIGN
  /\ DhcpSendRequestPkt n h offer = Some (has_sent n (bootp_frame n (dhcp_request n xid (NetDHCPServerIP h) ip)) tx).
Proof.
  intros Hn Hid Hip. destruct (cleared_buffer n Hn) as (tail & Hne & Hlen & b & Hb & He).
  unfold DhcpSendRequestPkt. rewrite Hb. cbn [mbind option_bind]. rewrite He. cbn [mbind option_bind]. clear b Hb He.
  pose proof (ok_ether n Hn) as Hm. set (p := eth_hdr n _ _ _) in *.
  assert (length p = NetEthHdrSize n) as Hp by by apply eth_hdr_len.
  set (gap := replicate 28 0) in *. rewrite (app_assoc p gap).
  assert (NetEthHdrSize n + IP_UDP_HDR_SIZE = length (p ++ gap))%nat as Hbp by (rewrite length_app, Hp; reflexivity).
  rewrite Hbp. set (q := p ++ gap) in *.
  pose proof (DhcpExtended_len DHCP_REQUEST (NetDHCPServerIP h) ip) as Hx.
  unfold dhcp_request. unfold bootp_head, zeros, bootp_fields. cbn [map].
  field 0%nat. field 1%nat. field 2%nat. field 3%nat. field 5%nat. unfold NetWriteIP.
  field 10%nat. field 11%nat. rewrite Hid. cbn [mbind option_bind]. field 4%nat. rewrite Hip. cbn [mbind option_bind].
  set (ext := DhcpExtended DHCP_REQUEST _ _) in *. clearbody ext. field 14%nat.
  pose proof (request_concat xid (secs_of n) (NetOurEther (cfg n)) (pad_to [] 128) ext Hm Hx) as Hc.
  match type of Hc with ?l = _ => match goal with |- context [concat ?F] => change (concat F) with l end end.
  rewrite Hc. fold (request_bytes xid (secs_of n) (NetOurEther (cfg n)) [] ext).
  set (payload := request_bytes _ _ _ _ _). unfold q. rewrite <- app_assoc.
  assert (length payload = 300)%nat as Hpl.
  { unfold payload, request_bytes, pad_to. rewrite !length_app, !length_replicate. cbn [length ip_bytes htons_bytes]. lia. }
  destruct (send_bootp_ok n gap payload tail (length ext)) as (tx & Htx & Hs); try done.
  { lia. }
  { rewrite <- Hlen, !length_app, Hpl. reflexivity. }
  exists tx. split; [done|]. unfold p. exact Hs.
Qed.

(** ** The messages of a server *)
(** An offer or an acknowledgement; [r_mid] are the seconds, the flags and the old address of the
    client, [r_rest] is what is between the address of the server and the name of the file. *)
Record reply := mkreply {
  r_hops : Z;
  r_mid : list Z;
  r_yiaddr : Z;
  r_siaddr : Z;
  r_rest : list Z;
  r_file : list Z;
  r_opts : list dhcp_opt;
  r_pad : list Z }.
Definition magic_bytes : list Z := [99; 130; 83; 99].
Definition reply_head (xid : Z) (r : reply) : list Z :=
  [OP_BOOTREPLY; HWT_ETHER; HWL_ETHER; r_hops r] ++ ip_bytes xid ++ r_mid r ++ ip_bytes (r_yiaddr r)
  ++ ip_bytes (r_siaddr r) ++ r_rest r.
Definition reply_tail (r : reply) : list Z := magic_bytes ++ enc_opts (r_opts r) ++ 255 :: r_pad r.
Definition reply_bytes (xid : Z) (r : reply) : list Z := reply_head xid r ++ r_file r ++ reply_tail r.
(** The field with the name, after an option 67 was put into it. *)
Definition file_field (r : reply) : list Z := latest 67 put_file (r_opts r) (r_file r).
Record reply_ok (r : reply) : Prop := mk_reply_ok {
  rk_mid : length (r_mid r) = 8%nat;
  rk_rest : length (r_rest r) = 84%nat;
  rk_file : zlen (r_file r) = sizeof_bp_file;
  rk_nul : 0 ∈ r_file r;
  rk_yiaddr : 0 <= r_yiaddr r < 0x100000000;
  rk_siaddr : 0 <= r_siaddr r < 0x100000000;
  rk_opts : Forall opt_ok (r_opts r);
  rk_type : forall o, o ∈ r_opts r -> fst o = 53 -> snd o <> [];
  rk_size : (length (enc_opts (r_opts r)) < 548)%nat }.

Section reply.
Context (xid : Z) (r : reply) (Hr : reply_ok r) (Hxid : 0 <= xid < 0x100000000).
Lemma reply_head_len : length (reply_head xid r) = bp_file.
Proof. unfold reply_head. rewrite !length_app, (rk_mid r Hr), (rk_rest r Hr). done. Qed.
Lemma reply_head_read t : NetReadIP (reply_head xid r ++ t) bp_id = Some xid
  /\ bget (reply_head xid r ++ t) bp_id 4 = Some (ip_bytes xid)
  /\ NetReadIP (reply_head xid r ++ t) bp_yiaddr = Some (r_yiaddr r)
  /\ NetReadIP (reply_head xid r ++ t) bp_siaddr = Some (r_siaddr r).
Proof.
  destruct Hr. unfold reply_head. rewrite <- !app_assoc. set (h := [OP_BOOTREPLY; HWT_ETHER; HWL_ETHER; r_hops r]).
  split_and!.
  - change bp_id with (length h + 0)%nat. rewrite NetReadIP_at. by apply ip_bytes_read.
  - change bp_id with (length h). apply (bget_mid h (ip_bytes xid)).
  - assert (bp_yiaddr = length (h ++ ip_bytes xid ++ r_mid r) + 0)%nat as -> by (rewrite !length_app, rk_mid0; done).
    rewrite (app_assoc (ip_bytes xid)), (app_assoc h), NetReadIP_at. by apply ip_bytes_read.
  - assert (bp_siaddr = length (h ++ ip_bytes xid ++ r_mid r ++ ip_bytes (r_yiaddr r)) + 0)%nat as ->
      by (rewrite !length_app, rk_mid0; done).
    rewrite (app_assoc (r_mid r)), (app_assoc (ip_bytes xid)), (app_assoc h), NetReadIP_at. by apply ip_bytes_read.
Qed.
Lemma reply_check j : BootpCheckPkt xid (reply_bytes xid r ++ j) PORT_BOOTPC PORT_BOOTPS (zlen (reply_bytes xid r)) = Some 0.
Proof.
  unfold BootpCheckPkt. rewrite !Z.eqb_refl. cbn [negb orb]. unfold reply_bytes. rewrite <- app_assoc.
  destruct (reply_head_read ((r_file r ++ reply_tail r) ++ j)) as (-> & _).
  assert (236 <= zlen (reply_head xid r ++ r_file r ++ reply_tail r)) as Hl.
  { rewrite !length_app, reply_head_len. pose proof (rk_file r Hr). unfold bp_file, sizeof_bp_file in *. lia. }
  change (BOOTP_HDR_SIZE - OPT_FIELD_SIZE) with 236. case_if; [lia|]. cbn. by rewrite Z.eqb_refl.
Qed.
(** Where the options start. *)
Lemma vend_at f t : zlen f = sizeof_bp_file -> bp_vend = length (reply_head xid r ++ f)
  /\ NetReadIP (reply_head xid r ++ f ++ magic_bytes ++ t) bp_vend = Some (htonl BOOTP_VENDOR_MAGIC).
Proof.
  intros Hf. assert (bp_vend = length (reply_head xid r ++ f)) as H.
  { rewrite length_app, reply_head_len. unfold bp_vend, bp_file, sizeof_bp_file in *. lia. }
  split; [done|]. rewrite H, <- (Nat.add_0_r (length _)), (app_assoc (reply_head xid r)), NetReadIP_at. done.
Qed.
Lemma vendor_options_ok n h j : arrays_ok h ->
  vendor_options n h (reply_bytes xid r ++ j)
  = Some (opts_node n (r_opts r), opts_client h (r_opts r),
      reply_head xid r ++ file_field r ++ reply_tail r ++ j).
Proof.
  intros Ha. unfold vendor_options, reply_bytes, reply_tail. rewrite <- !app_assoc.
  destruct (vend_at (r_file r) (enc_opts (r_opts r) ++ (255 :: r_pad r) ++ j) (rk_file r Hr)) as [Hv ->].
  cbn [mbind option_bind]. rewrite Z.eqb_refl. unfold DhcpOptionsProcess.
  assert (bp_vend + 4 = length (reply_head xid r ++ r_file r ++ magic_bytes))%nat as ->
    by (rewrite Hv, !length_app; cbn [length magic_bytes]; lia).
  apply (options_loop_ok (r_opts r) _ n h (reply_head xid r) (r_file r) magic_bytes (r_pad r ++ j)); try done.
  - apply (rk_opts r Hr).
  - apply reply_head_len.
  - apply (rk_file r Hr).
  - pose proof (rk_size r Hr) as Hs. pose proof (enc_opts_len (r_opts r)). change (Z.to_nat BOOTP_HDR_SIZE) with 548%nat. lia.
  - pose proof (rk_size r Hr) as Hs. change (Z.to_nat BOOTP_HDR_SIZE) with 548%nat. lia.
Qed.
Lemma message_type_ok j : DhcpMessageType (reply_bytes xid r ++ j) bp_vend = Some (message_type (r_opts r)).
Proof.
  unfold DhcpMessageType, reply_bytes, reply_tail. rewrite <- !app_assoc.
  destruct (vend_at (r_file r) (enc_opts (r_opts r) ++ (255 :: r_pad r) ++ j) (rk_file r Hr)) as [Hv ->].
  cbn [mbind option_bind]. rewrite Z.eqb_refl. cbn [negb].
  assert (bp_vend + 4 = length (reply_head xid r ++ r_file r ++ magic_bytes))%nat as ->
    by (rewrite Hv, !length_app; cbn [length magic_bytes]; lia).
  pose proof (message_type_loop_ok (r_opts r) (length (reply_head xid r ++ r_file r ++ magic_bytes ++ enc_opts (r_opts r) ++ (255 :: r_pad r) ++ j))
    (reply_head xid r ++ r_file r ++ magic_bytes) (r_pad r ++ j) (rk_opts r Hr)) as H.
  rewrite <- !app_assoc in H. apply H; [|apply (rk_type r Hr)].
  pose proof (enc_opts_len (r_opts r)). rewrite !length_app. lia.
Qed.
End reply.

(** ** The two answers *)
Section exchange.
Context {Hooks : EnvHooks} {HooksOk : EnvHooksOk} (default_environment : list Z) (CONFIG_ENV_SIZE : Z).
Context (Hdup : forall s, strdup s = Some s) (eth_try_another : bool -> bool -> bool).
Abbreviation Handler := (DhcpHandler default_environment CONFIG_ENV_SIZE (fun _ => true)).
Abbreviation Var := (var default_environment CONFIG_ENV_SIZE).
Abbreviation Round := (dhcp_round default_environment CONFIG_ENV_SIZE (fun _ => true) eth_try_another).
Abbreviation Loop := (dhcp_loop default_environment CONFIG_ENV_SIZE (fun _ => true) eth_try_another).

(** What an offer makes of the node and the client. *)
Definition offered (n : net) (r : reply) : net :=
  with_lp (opts_node n (r_opts r)) (NetSetTimeout (lp n) TIMEOUT BootpTimeout_).
Definition requesting (h : dhcp) (r : reply) : dhcp := opts_client (set_state h REQUESTING) (r_opts r).
Lemma offer_ok frame n h r j sip : node_ok n -> reply_ok r -> arrays_ok h -> dhcp_state h = SELECTING ->
  0 <= BootpID h < 0x100000000 -> exists tx, length tx = PKTSIZE_ALIGN
  /\ Handler frame n h (reply_bytes (BootpID h) r ++ j) PORT_BOOTPC sip PORT_BOOTPS (zlen (reply_bytes (BootpID h) r))
     = Some (has_sent (offered n r)
         (bootp_frame (offered n r) (dhcp_request n (BootpID h) (NetDHCPServerIP (requesting h r)) (r_yiaddr r))) tx,
         requesting h r).
Proof.
  intros Hn Hr Ha Hs Hid. unfold DhcpHandler. rewrite reply_check by done. cbn [mbind option_bind]. rewrite Z.eqb_refl. cbn [negb].
  rewrite Hs. rewrite (vendor_options_ok _ _ Hr Hid n (set_state h REQUESTING) j) by done. cbn [mbind option_bind].
  destruct (reply_head_read (BootpID h) r Hr Hid (file_field r ++ reply_tail r ++ j)) as (_ & Hbid & Hip & _).
  change (lp (opts_node n (r_opts r))) with (lp n). fold (offered n r) (requesting h r).
  destruct (DhcpSendRequestPkt_ok (offered n r) (requesting h r) _ _ _ ltac:(by destruct Hn) Hbid Hip) as (tx & Htx & ->).
  by exists tx.
Qed.

(** What an acknowledgement makes of them; [g] is the environment afterwards. *)
Definition acked_node (n : net) (r : reply) (mac : list Z) : net :=
  let n := with_server (opts_node n (r_opts r)) mac in
  set_ip n (r_yiaddr r) (NetOurSubnetMask (cfg n)) (NetOurGatewayIP (cfg n)).
Definition boot_file (h : dhcp) (r : reply) : list Z :=
  match until_nul (file_field r) with [] => BootFile h | name => copy_filename name sizeof_BootFile end.
Definition bound (h : dhcp) (r : reply) (g : genv) : dhcp :=
  let h' := opts_client h (r_opts r) in
  let server := if r_siaddr r =? 0 then NetServerIP h' else r_siaddr r in
  set_state (set_bootfile (set_servers h' server (NetOurDNSIP h')) (boot_file h r) g) BOUND.
(** The environment has the name of the file, unless the change was refused. *)
Definition env_with_file (g g' : genv) (M : gmap (list Z) (list Z)) (file : list Z) : Prop :=
  env_ready g' = true /\ exists M', rep (env_htab g') M'
    /\ (M' = M \/ file <> [] /\ M' = <[codes "bootfile" := file]> M)
    /\ (file <> [] -> accepts (env_htab g) H_INTERACTIVE -> M' = <[codes "bootfile" := file]> M).
Lemma bootfile_settable : settable (codes "bootfile").
Proof. unfold settable, str_ok, char_ok. split_and!; by_computation. Qed.
Lemma put_string_nul size d arr : 0 ∈ put_string size d arr.
Proof. unfold put_string. rewrite elem_of_app, elem_of_cons. auto. Qed.
Lemma file_field_nul r : reply_ok r -> 0 ∈ file_field r.
Proof.
  intros Hr. pose proof (rk_nul r Hr) as Hn. unfold file_field, latest.
  generalize dependent (r_file r). induction (r_opts r) as [|o os IH]; intros file Hn; [done|]. apply IH.
  case_if; [|done]. unfold put_file. case_if; [apply put_string_nul|done].
Qed.
Lemma str_at_nul a f t : 0 ∈ f -> str_at (a ++ f ++ t) (length a) = Some (until_nul f).
Proof.
  intros (l1 & l2 & -> & Hl)%list_elem_of_split_l. rewrite <- !app_assoc. cbn [app].
  rewrite str_at_ok by done. by rewrite until_nul_app.
Qed.
Lemma ack_ok frame n h r j sip mac M : reply_ok r -> arrays_ok h -> dhcp_state h = REQUESTING ->
  0 <= BootpID h < 0x100000000 -> message_type (r_opts r) = DHCP_ACK -> bget frame et_src 6 = Some mac ->
  env_ready (env h) = true -> rep (env_htab (env h)) M ->
  room (env_htab (env h)) \/ is_Some (M !! codes "bootfile") ->
  exists g, env_with_file (env h) g M (boot_file h r)
    /\ Handler frame n h (reply_bytes (BootpID h) r ++ j) PORT_BOOTPC sip PORT_BOOTPS (zlen (reply_bytes (BootpID h) r))
     = net_auto_load default_environment CONFIG_ENV_SIZE (acked_node n r mac) (bound h r g).
Proof.
  intros Hr Ha Hs Hid Hty Hmac Hready Hrep Hroom. unfold DhcpHandler. rewrite reply_check by done.
  cbn [mbind option_bind]. rewrite Z.eqb_refl. cbn [negb]. rewrite Hs, message_type_ok by done. cbn [mbind option_bind].
  rewrite Hty, Z.eqb_refl. rewrite (vendor_options_ok _ _ Hr Hid n h j) by done. cbn [mbind option_bind].
  destruct (reply_head_read (BootpID h) r Hr Hid (file_field r ++ reply_tail r ++ j)) as (_ & _ & Hip & Hsi).
  unfold BootpCopyNetParams. rewrite Hsi. cbn [mbind option_bind]. rewrite Hmac. cbn [mbind option_bind].
  rewrite Hip. cbn [mbind option_bind].
  rewrite <- (reply_head_len (BootpID h) r Hr), str_at_nul by by apply file_field_nul. cbn [mbind option_bind].
  match goal with |- context [set_ip ?x ?a ?b ?c] => change (set_ip x a b c) with (acked_node n r mac) end.
  set (file := until_nul (file_field r)). set (h0 := opts_client h (r_opts r)).
  set (h1 := if (0 <? length file)%nat then _ else _).
  set (h2 := set_servers h0 (if r_siaddr r =? 0 then NetServerIP h0 else r_siaddr r) (NetOurDNSIP h0)).
  assert (h1 = set_bootfile h2 (boot_file h r) (env h)) as ->.
  { unfold h1, h2, h0, boot_file. fold file. destruct h, (r_siaddr r =? 0), file; reflexivity. }
  cbn [BootFile set_bootfile env]. unfold bound. fold h0 h2.
  destruct (boot_file h r) as [|c file'] eqn:Eb.
  - exists (env h). split; [|done]. split; [done|]. exists M. split; [done|]. split; [by left|done].
  - destruct (setenv_ok Hdup (env h) M (codes "bootfile") (Some (c :: file')) Hready Hrep bootfile_settable Hroom)
      as (rv & g & Hset & Hr' & Hres & Hacc). exists g. rewrite Hset. split; [|done]. split; [done|].
    destruct Hres as [[-> Hg]|[-> Hg]]; eexists; (split; [exact Hg|]); split; auto.
    intros _ Hc. by specialize (Hacc Hc).
Qed.

(** [autoload] is set and does not start with one of the characters for yes. *)
Definition no_autoload (M : gmap (list Z) (list Z)) : bool :=
  match M !! codes "autoload" with Some s => bool_decide (chr s ∉ codes "1yYtT") | None => false end.
Lemma net_auto_load_ok n h M : env_ready (env h) = true -> rep (env_htab (env h)) M ->
  exists s, TftpStart (Var (env h)) (BootFile h) (NetOurIP (cfg n)) (NetServerIP h) (with_nl (tf h) (lp n)) = Some s
    /\ net_auto_load default_environment CONFIG_ENV_SIZE n h
       = Some (if no_autoload M then (with_lp n (net_set_state (lp n) NETLOOP_SUCCESS), h)
               else (with_lp n (nl s), set_tf h s)).
Proof.
  intros Hr Hrep. destruct (TftpStart_some (Var (env h)) (BootFile h) (NetOurIP (cfg n)) (NetServerIP h)
    (with_nl (tf h) (lp n))) as [s Hs]. exists s. split; [done|]. unfold net_auto_load, getenv_yesno, run_tftp.
  rewrite (getenv_ok _ _ _ M) by (done || by_computation). cbn [mbind option_bind]. unfold no_autoload.
  rewrite Hs. destruct (M !! codes "autoload") as [v|]; [|done]. cbn [mbind option_bind].
  change (codes "1yYtT") with [49; 121; 89; 116; 84]. case_bool_decide as E.
  - replace (_ || _) with false; [done|]. symmetry. rewrite !elem_of_cons, elem_of_nil in E. lia.
  - replace (_ || _) with true; [done|]. symmetry. rewrite !elem_of_cons, elem_of_nil in E. lia.
Qed.

(** ** Rounds of the loop *)
(** The client waits in a state since [t0], for at most [delta] milliseconds. *)
Record waits (n : net) (h : dhcp) (st : dhcp_state_t) (t0 delta : Z) : Prop := mk_waits {
  w_node : node_ok n;
  w_arrays : arrays_ok h;
  w_loop : net_state (lp n) = NETLOOP_CONTINUE;
  w_handler : udp_packet_handler (lp n) = DhcpHandler_;
  w_start : timeStart (lp n) = u32 t0;
  w_delta : timeDelta (lp n) = delta;
  w_state : dhcp_state h = st;
  w_ip : NetOurIP (cfg n) = 0;
  w_arp : NetArpWaitPacketIP (aw n) = 0 }.
Definition at_time (n : net) (t : Z) : net := with_lp n (set_now (lp n) t).
(** A host [a] whose frames the client takes. *)
Record host (n a : net) : Prop := mk_host {
  a_vlan : same_vlan a n;
  a_vlan_range : 0 <= NetOurVLAN (cfg a) < 0x10000;
  a_ether : length (NetOurEther (cfg a)) = 6%nat;
  a_ip : 0 <= NetOurIP (cfg a) < 0x100000000 }.
(** A datagram in a frame to [mac], with anything behind it in the buffer. *)
Definition datagram_rx (a : net) (mac : list Z) (dst sport dport : Z) (payload junk : list Z) : option (list Z * Z) :=
  let f := udp_frame a mac dst sport dport payload in Some (f ++ junk, zlen f).
Record sendable (mac : list Z) (dst sport dport : Z) (payload : list Z) : Prop := mk_sendable {
  d_mac : length mac = 6%nat;
  d_dst : 0 <= dst < 0x100000000;
  d_sport : 0 <= sport < 0x10000;
  d_dport : 0 <= dport < 0x10000;
  d_len : 28 + zlen payload < 0x10000 }.

Definition in_time (t0 delta t : Z) : Prop := u32 (t - u32 t0) <= delta.
(** Nothing is waited for that is over. *)
Definition quiet (n : net) : Prop :=
  NetArpWaitPacketIP (aw n) = 0
  /\ (timeHandler (lp n) = None \/ get_timer (lp n) (timeStart (lp n)) <= timeDelta (lp n)).
Lemma check_quiet {H} getenv other n (h : H) f g : quiet n ->
  (n ← ArpTimeoutCheck getenv other n; timer f g n h) = Some (n, h).
Proof.
  intros [Ha Ht]. unfold ArpTimeoutCheck. rewrite Ha. change (0 =? 0) with true. cbn [mbind option_bind]. unfold timer.
  destruct (timeHandler (lp n)) as [x|]; [|done]. destruct Ht as [|Ht]; [done|]. case_if; [lia|done].
Qed.
Lemma waits_quiet n h st t0 delta t : waits n h st t0 delta -> in_time t0 delta t -> quiet (at_time n t).
Proof.
  intros [] Ht. split; [done|]. right. unfold get_timer, at_time. cbn [lp with_lp set_now timeDelta timeStart now].
  by rewrite w_start0, w_delta0.
Qed.
Lemma round_none n h t st t0 delta : waits n h st t0 delta -> in_time t0 delta t ->
  Round n h None t = Some (at_time n t, h).
Proof. intros Hw Ht. unfold dhcp_round, round. cbn [mbind option_bind]. by eapply check_quiet, waits_quiet. Qed.
Lemma round_handled n h a mac dst sport dport payload junk t st t0 delta n1 h1 :
  waits n h st t0 delta -> host n a -> sendable mac dst sport dport payload ->
  Handler (udp_frame a mac dst sport dport payload ++ junk) (at_time n t) h (payload ++ junk) dport
    (NetOurIP (cfg a)) sport (zlen payload) = Some (n1, h1) ->
  quiet n1 -> Round n h (datagram_rx a mac dst sport dport payload junk) t = Some (n1, h1).
Proof.
  intros [] [] [] Hh Hq. unfold dhcp_round, datagram_rx. cbn [fmap option_fmap option_map default fst].
  unfold round. set (f := udp_frame a mac dst sport dport payload) in *.
  assert (NetReceive (udp_handler default_environment CONFIG_ENV_SIZE (fun _ => true) eth_try_another (f ++ junk))
    (at_time n t) h (f ++ junk) (zlen f) = Some (n1, h1)) as Hrx.
  { unfold f, udp_frame. rewrite receive_udp; try done; [|by left]. unfold udp_handler.
    cbn [lp at_time with_lp set_now udp_packet_handler]. rewrite w_handler0. exact Hh. }
  unfold at_time in Hrx. unfold id. cbn [mbind option_bind from_option] in Hrx |- *. rewrite Hrx. by apply check_quiet.
Qed.

(** A datagram with other ports, one that is too short, or one of another transaction. *)
Definition unrelated (xid dport sport : Z) (payload : list Z) : Prop :=
  dport <> PORT_BOOTPC \/ sport <> PORT_BOOTPS \/ zlen payload < 236
  \/ 236 <= zlen payload /\ NetReadIP payload bp_id <> Some xid.
Lemma unrelated_filtered xid dport sport payload junk : unrelated xid dport sport payload ->
  exists r, BootpCheckPkt xid (payload ++ junk) dport sport (zlen payload) = Some r /\ r <> 0.
Proof.
  intros H. unfold BootpCheckPkt. case_if; [by exists (-1)|]. change (BOOTP_HDR_SIZE - OPT_FIELD_SIZE) with 236.
  case_if; [by exists (-2)|]. destruct H as [H|[H|[H|[Hl H]]]]; [lia..|].
  assert (forall k, (k < 236)%nat -> is_Some ((payload ++ junk) !! k)) as Hk
    by (intros k Hk; apply lookup_lt_is_Some; rewrite length_app; lia).
  destruct (Hk bp_op) as [op ->]; [unfold bp_op; lia|]. cbn [mbind option_bind]. case_if; [by exists (-3)|].
  destruct (Hk bp_htype) as [ht ->]; [unfold bp_htype; lia|]. cbn [mbind option_bind]. case_if; [by exists (-4)|].
  destruct (Hk bp_hlen) as [hl ->]; [unfold bp_hlen; lia|]. cbn [mbind option_bind]. case_if; [by exists (-5)|].
  destruct (NetReadIP_some payload bp_id) as [id Hid]; [unfold bp_id; lia|].
  assert (NetReadIP (payload ++ junk) bp_id = NetReadIP payload bp_id) as ->.
  { unfold NetReadIP, bget. rewrite length_app. rewrite !(proj2 (Nat.leb_le _ _)) by (unfold bp_id; lia).
    rewrite drop_app_le, take_app_le by (rewrite ?length_drop; unfold bp_id in *; lia). done. }
  rewrite Hid in H |- *. cbn [mbind option_bind]. case_if; [by exists (-6)|]. exfalso. apply H. f_equal. lia.
Qed.
(** What arrives besides the two answers: nothing, a datagram that is not for this exchange, or
    while the client requests, any other message of a server. *)
Inductive stray (n : net) (xid : Z) (st : dhcp_state_t) : option (list Z * Z) -> Prop :=
| stray_none : stray n xid st None
| stray_other a mac dst sport dport payload junk :
    host n a -> sendable mac dst sport dport payload -> unrelated xid dport sport payload ->
    stray n xid st (datagram_rx a mac dst sport dport payload junk)
| stray_reply a mac dst r junk :
    st = REQUESTING -> host n a -> sendable mac dst PORT_BOOTPS PORT_BOOTPC (reply_bytes xid r) -> reply_ok r ->
    message_type (r_opts r) <> DHCP_ACK ->
    stray n xid st (datagram_rx a mac dst PORT_BOOTPS PORT_BOOTPC (reply_bytes xid r) junk).
Definition strays (n : net) (xid : Z) (st : dhcp_state_t) (t0 delta : Z) (l : list (option (list Z * Z) * Z)) : Prop :=
  Forall (fun e => stray n xid st (fst e) /\ in_time t0 delta (snd e)) l.

Lemma host_vlan n n' a : NetOurVLAN (cfg n') = NetOurVLAN (cfg n) -> host n a -> host n' a.
Proof. intros H []. split; [|done..]. unfold same_vlan in *. congruence. Qed.
Lemma stray_vlan n n' xid st rx : NetOurVLAN (cfg n') = NetOurVLAN (cfg n) -> stray n xid st rx -> stray n' xid st rx.
Proof.
  intros H []; [constructor|eapply stray_other; try done; by apply (host_vlan n)
    |by eapply stray_reply; try done; apply (host_vlan n)].
Qed.
Lemma strays_vlan n n' xid st t0 delta l : NetOurVLAN (cfg n') = NetOurVLAN (cfg n) ->
  strays n xid st t0 delta l -> strays n' xid st t0 delta l.
Proof. intros H Hl. apply (Forall_impl _ _ _ Hl). intros e [Hs Ht]. split; [by apply (stray_vlan n)|done]. Qed.
Lemma waits_at n h st t0 delta t : waits n h st t0 delta -> waits (at_time n t) h st t0 delta.
Proof. intros []. split; try done. by destruct w_node0. Qed.
Lemma stray_round n h rx t st t0 delta : waits n h st t0 delta -> 0 <= BootpID h < 0x100000000 ->
  stray n (BootpID h) st rx -> in_time t0 delta t -> Round n h rx t = Some (at_time n t, h).
Proof.
  intros Hw Hid Hs Ht. pose proof (waits_quiet _ _ _ _ _ _ Hw Ht) as Hq.
  destruct Hs as [|a mac dst sport dport payload junk Ha Hsd Hu|a mac dst r junk Hst Ha Hsd Hr Hty].
  - by eapply round_none.
  - destruct (unrelated_filtered _ _ _ _ junk Hu) as (r & Hc & Hr).
    eapply round_handled; try done. unfold DhcpHandler. rewrite Hc. cbn [mbind option_bind]. case_if; [done|lia].
  - eapply round_handled; try done. unfold DhcpHandler. rewrite reply_check by done. cbn [mbind option_bind].
    rewrite Z.eqb_refl. cbn [negb]. rewrite (w_state _ _ _ _ _ Hw), Hst, message_type_ok by done.
    cbn [mbind option_bind]. case_if; [lia|done].
Qed.
Lemma strays_loop n h st t0 delta l l' : waits n h st t0 delta -> 0 <= BootpID h < 0x100000000 ->
  strays n (BootpID h) st t0 delta l -> exists t, Loop n h (l ++ l') = Loop (at_time n t) h l'.
Proof.
  intros Hw Hid Hl. assert (forall t, exists t', Loop (at_time n t) h (l ++ l') = Loop (at_time n t') h l') as H.
  { induction Hl as [|[rx tx] l [Hs Ht] _ IH]; intros t; [by exists t|]. cbn [app dhcp_loop fst snd] in *.
    change (net_state (lp (at_time n t))) with (net_state (lp n)). rewrite (w_loop _ _ _ _ _ Hw).
    rewrite (stray_round (at_time n t) h rx tx st t0 delta); [|by apply waits_at|done| |done].
    - cbn [mbind option_bind]. destruct (IH tx) as (t' & Ht'). exists t'. exact Ht'.
    - by apply (stray_vlan n). }
  destruct (H (now (lp n))) as (t' & Ht'). exists t'. rewrite <- Ht'. f_equal. by destruct n as [? ? ? ? ? ? ? ? ? []].
Qed.

(** ** The exchange *)
Definition no_ip (n : net) : net := set_ip n 0 (NetOurSubnetMask (cfg n)) (NetOurGatewayIP (cfg n)).
Lemma armed_timer (n : net) iv : 0 < iv < 0x10000 -> let l := NetSetTimeout (lp n) iv BootpTimeout_ in
  timeHandler l = Some BootpTimeout_ /\ timeStart l = u32 (now (lp n)) /\ timeDelta l = iv
  /\ net_state l = net_state (lp n) /\ udp_packet_handler l = udp_packet_handler (lp n)
  /\ now l = now (lp n) /\ NetBootFileXferSize l = NetBootFileXferSize (lp n).
Proof.
  intros Hiv l. unfold l, NetSetTimeout, get_timer, CONFIG_SYS_HZ. case_if; [lia|]. cbn. rewrite Z.sub_0_r.
  split_and!; try done. rewrite u32_small by lia. by rewrite Z.div_mul.
Qed.
Lemma htonl_range x : 0 <= x < 0x100000000 -> 0 <= htonl x < 0x100000000.
Proof.
  intros Hx. assert (exists a b c d, x = ((a * 256 + b) * 256 + c) * 256 + d /\ byte a /\ byte b /\ byte c /\ byte d)
    as (a & b & c & d & -> & ? & ? & ? & ?).
  { exists (x / 0x1000000), (x / 0x10000 mod 256), (x / 256 mod 256), (x mod 256). unfold byte. split_and!; zdm. }
  rewrite htonl_bytes by done. unfold byte in *. lia.
Qed.
Lemma xid_range n : 0 <= xid_of n < 0x100000000.
Proof. apply htonl_range, u32_range. Qed.
Lemma xid_no_ip n : xid_of (no_ip n) = xid_of n.
Proof. unfold xid_of, no_ip, set_ip. reflexivity. Qed.
Lemma discover_no_ip n file : discover (no_ip n) file = discover n file.
Proof.
  unfold discover. rewrite xid_no_ip. change (secs_of (no_ip n)) with (secs_of n).
  change (NetOurEther (cfg (no_ip n))) with (NetOurEther (cfg n)). reflexivity.
Qed.
Lemma discovering_no_ip n h : discovering (no_ip n) h = discovering n h.
Proof. unfold discovering. by rewrite xid_no_ip. Qed.
Lemma start_ok n h : node_ok n -> arrays_ok h -> net_state (lp n) = NETLOOP_CONTINUE -> NetArpWaitPacketIP (aw n) = 0 ->
  exists tx, let n0 := has_sent (armed (no_ip n) SELECT_TIMEOUT) (bootp_frame (no_ip n) (discover n (BootFile h))) tx in
  let h0 := discovering n (set_request h (BootpID h) 0) in
  dhcp_start n h = Some (n0, h0) /\ waits n0 h0 SELECTING (now (lp n)) SELECT_TIMEOUT.
Proof.
  intros Hn Ha Hl Harp. unfold dhcp_start. fold (no_ip n).
  destruct (BootpRequest_ok (no_ip n) (set_request h (BootpID h) 0)) as (tx & Htx & H); [by destruct Hn|].
  change (BootFile (set_request h (BootpID h) 0)) with (BootFile h) in H. exists tx. rewrite discover_no_ip, discovering_no_ip in H. cbv zeta.
  split; [rewrite H|].
  { done. }
  destruct (armed_timer n SELECT_TIMEOUT) as (H1 & H2 & H3 & H4 & _); [done|].
  split; try done. destruct Hn. by split.
Qed.
Lemma offer_waits n h r tx t : node_ok n -> arrays_ok h -> net_state (lp n) = NETLOOP_CONTINUE ->
  udp_packet_handler (lp n) = DhcpHandler_ -> NetOurIP (cfg n) = 0 -> NetArpWaitPacketIP (aw n) = 0 -> now (lp n) = t ->
  length tx = PKTSIZE_ALIGN -> forall f, waits (has_sent (offered n r) f tx) (requesting h r) REQUESTING t TIMEOUT.
Proof.
  intros Hn Ha Hl Hh Hip Harp Hnow Htx f. destruct (armed_timer n TIMEOUT) as (H1 & H2 & H3 & H4 & H5 & _); [done|].
  split; cbn [lp has_sent offered with_lp with_wire with_tx with_ipid]; try congruence; try done.
  - destruct Hn. by split.
  - by apply (opts_arrays (set_state h REQUESTING)).
Qed.
Lemma TftpStart_nl getenv file ip server s s' : TftpStart getenv file ip server s = Some s' ->
  exists ms, 1000 <= ms /\ nl s' = net_set_udp_handler (NetSetTimeout (nl s) ms TftpTimeout_) TftpHandler_.
Proof.
  unfold TftpStart. cbv zeta. destruct (boot_name _ _ _ _) as [[remote name]|]; [|done]. cbn [mbind option_bind].
  set (ms := if _ <? 1000 then 1000 else _). assert (1000 <= ms) as Hms by (unfold ms; case_if; lia). clearbody ms.
  set (s1 := mkst _ _ _ _ _). destruct (send_some s1 (rrq_some _)) as (p & -> & _). intros [= <-]. by exists ms.
Qed.
Lemma latest_app {A} code (f : list Z -> A -> A) os os' x : latest code f (os ++ os') x = latest code f os' (latest code f os x).
Proof. apply fold_left_app. Qed.
Lemma in_time_now t delta : 0 <= delta -> in_time t delta t.
Proof. intros Hd. unfold in_time. assert (u32 (t - u32 t) = 0) as -> by (unfold u32; zdm). done. Qed.
Lemma frame_source a mac dst sport dport payload junk : length mac = 6%nat -> length (NetOurEther (cfg a)) = 6%nat ->
  bget (udp_frame a mac dst sport dport payload ++ junk) et_src 6 = Some (NetOurEther (cfg a)).
Proof.
  intros Hm Ha. unfold udp_frame, eth_hdr. rewrite <- !app_assoc. change et_src with 6%nat.
  rewrite <- Hm at 1. rewrite <- Ha at 1. apply bget_mid.
Qed.
Lemma no_autoload_file M M' file : M' = M \/ file <> [] /\ M' = <[codes "bootfile" := file]> M ->
  no_autoload M' = no_autoload M.
Proof. intros [->|[_ ->]]; [done|]. unfold no_autoload. by rewrite lookup_insert_ne. Qed.

(** One round with an offer, one with an acknowledgement. *)
Lemma offer_round n h a mac dst r junk t t0 : waits n h SELECTING t0 SELECT_TIMEOUT -> 0 <= BootpID h < 0x100000000 ->
  host n a -> reply_ok r -> sendable mac dst PORT_BOOTPS PORT_BOOTPC (reply_bytes (BootpID h) r) -> exists tx,
  let n1 := has_sent (offered (at_time n t) r)
    (bootp_frame n (dhcp_request (at_time n t) (BootpID h) (NetDHCPServerIP (requesting h r)) (r_yiaddr r))) tx in
  Round n h (datagram_rx a mac dst PORT_BOOTPS PORT_BOOTPC (reply_bytes (BootpID h) r) junk) t = Some (n1, requesting h r)
  /\ waits n1 (requesting h r) REQUESTING t TIMEOUT /\ now (lp n1) = t.
Proof.
  intros Hw Hid Ha Hr Hs. pose proof (waits_at _ _ _ _ _ t Hw) as [Hn Harr Hl Hh _ _ Hst Hip Harp].
  destruct (offer_ok (udp_frame a mac dst PORT_BOOTPS PORT_BOOTPC (reply_bytes (BootpID h) r) ++ junk) (at_time n t) h r junk
    (NetOurIP (cfg a)) Hn Hr Harr Hst Hid) as (tx & Htx & Hres). exists tx. intros n1.
  assert (waits n1 (requesting h r) REQUESTING t TIMEOUT) as Hw1 by by apply offer_waits.
  assert (now (lp n1) = t) as Hnow by (by destruct (armed_timer (at_time n t) TIMEOUT) as (_ & _ & _ & _ & _ & H & _)).
  split; [|done]. eapply round_handled; try done.
  assert (n1 = at_time n1 t) as -> by (destruct n1 as [? ? ? ? ? ? ? ? ? []]; cbn in Hnow; by subst).
  eapply waits_quiet; [done|]. by apply in_time_now.
Qed.
(** The transfer has been started for the file from the server, or the loop ends. *)
Definition goes_on (n n' : net) (h' : dhcp) (tf0 : state) (M : gmap (list Z) (list Z)) (t : Z) : Prop :=
  if no_autoload M then net_state (lp n') = NETLOOP_SUCCESS /\ tf h' = tf0
  else exists nt, net_state nt = net_state (lp n) /\ now nt = t /\ NetBootFileXferSize nt = NetBootFileXferSize (lp n)
    /\ TftpStart (Var (env h')) (BootFile h') (NetOurIP (cfg n')) (NetServerIP h') (with_nl tf0 nt) = Some (tf h')
    /\ lp n' = nl (tf h').
Lemma ack_round n h a mac dst r junk t t0 M : waits n h REQUESTING t0 TIMEOUT -> 0 <= BootpID h < 0x100000000 ->
  in_time t0 TIMEOUT t -> host n a -> reply_ok r -> message_type (r_opts r) = DHCP_ACK ->
  sendable mac dst PORT_BOOTPS PORT_BOOTPC (reply_bytes (BootpID h) r) ->
  env_ready (env h) = true -> rep (env_htab (env h)) M ->
  room (env_htab (env h)) \/ is_Some (M !! codes "bootfile") -> exists n' h' g,
  Round n h (datagram_rx a mac dst PORT_BOOTPS PORT_BOOTPC (reply_bytes (BootpID h) r) junk) t = Some (n', h')
  /\ (exists l, n' = with_lp (acked_node n r (NetOurEther (cfg a))) l) /\ (exists s, h' = set_tf (bound h r g) s)
  /\ env_with_file (env h) g M (boot_file h r) /\ goes_on n n' h' (tf h) M t.
Proof.
  intros Hw Hid Ht Ha Hr Hty Hs Hready Hrep Hroom. set (frame := udp_frame a mac dst PORT_BOOTPS PORT_BOOTPC (reply_bytes (BootpID h) r) ++ junk).
  destruct (ack_ok frame (at_time n t) h r junk (NetOurIP (cfg a)) (NetOurEther (cfg a)) M Hr (w_arrays _ _ _ _ _ Hw)
    (w_state _ _ _ _ _ Hw) Hid Hty) as (g & Hg & Hres); [apply frame_source; [apply Hs|apply Ha]|done..|].
  set (n2 := acked_node (at_time n t) r (NetOurEther (cfg a))) in *. destruct Hg as (Hgr & M' & HrM & HM & Hacc).
  assert (env_with_file (env h) g M (boot_file h r)) as Hg by (split; [done|by exists M']).
  destruct (net_auto_load_ok n2 (bound h r g) M') as (s & Hs' & Hload); [done..|]. rewrite Hload in Hres.
  rewrite (no_autoload_file M M' _ HM) in Hres. unfold goes_on. destruct (no_autoload M).
  - exists (with_lp n2 (net_set_state (lp n2) NETLOOP_SUCCESS)), (bound h r g), g.
    split; [|split; [by eexists|split; [by exists (tf h)|done]]].
    eapply round_handled; try done. destruct (waits_quiet _ _ _ _ _ t Hw Ht) as [Hq1 Hq2]. by split.
  - destruct (TftpStart_nl _ _ _ _ _ _ Hs') as (ms & Hms & Hnl).
    exists (with_lp n2 (nl s)), (set_tf (bound h r g) s), g. split; [|split; [by eexists|split; [by exists s|]]].
    + eapply round_handled; try done. split; [exact (w_arp _ _ _ _ _ Hw)|]. right. cbn [lp with_lp]. rewrite Hnl.
      unfold NetSetTimeout. case_if; [lia|]. unfold get_timer. cbn. rewrite Z.sub_0_r.
      assert (u32 (t - u32 t) = 0) as -> by (unfold u32; zdm). apply Z.div_pos; [|lia]. apply u32_range.
    + split; [done|]. exists (lp n2). split_and!; try done.
Qed.

(** C19: A DHCP client gets an address.  [dhcp_start] broadcasts a request with the transaction number
    of the client.  An offer is answered with a request for the offered address, directed to the
    server that the options of the offer name, and an acknowledgement binds the client: it has the
    address, the last network mask, gateway and name of a file that the two messages contain, and
    the server that the acknowledgement names, under the Ethernet address the frame came from;
    [bootfile] is put into the environment; and unless [autoload] says no, the transfer of the
    file from this server is started, by the handler and the timer of TFTP.  Before the offer and
    before the acknowledgement any number of datagrams with other ports or of other exchanges can
    arrive, and other offers and refusals, as long as the timeouts do not run out. *)
Theorem dhcp_binds n h M a1 a2 mac1 mac2 dst1 dst2 offer ack junk1 junk2 l1 l2 t1 t2
  (xid := xid_of n) (opts := r_opts offer ++ r_opts ack)
  (Hn : node_ok n) (Harr : arrays_ok h) (Hst : net_state (lp n) = NETLOOP_CONTINUE)
  (Harp : NetArpWaitPacketIP (aw n) = 0)
  (Hready : env_ready (env h) = true) (Hrep : rep (env_htab (env h)) M)
  (Hroom : room (env_htab (env h)) \/ is_Some (M !! codes "bootfile"))
  (Ha1 : host n a1) (Ha2 : host n a2) (Hoffer : reply_ok offer) (Hack : reply_ok ack)
  (Htype : message_type (r_opts ack) = DHCP_ACK)
  (Hs1 : sendable mac1 dst1 PORT_BOOTPS PORT_BOOTPC (reply_bytes xid offer))
  (Hs2 : sendable mac2 dst2 PORT_BOOTPS PORT_BOOTPC (reply_bytes xid ack))
  (Hl1 : strays n xid SELECTING (now (lp n)) SELECT_TIMEOUT l1) (Ht1 : in_time (now (lp n)) SELECT_TIMEOUT t1)
  (Hl2 : strays n xid REQUESTING t1 TIMEOUT l2) (Ht2 : in_time t1 TIMEOUT t2) :
  exists n0 h0 n2 h2, dhcp_start n h = Some (n0, h0)
  /\ wire n0 = wire n ++ [bootp_frame (no_ip n) (discover n (BootFile h))]
  /\ Loop n0 h0 (l1 ++ (datagram_rx a1 mac1 dst1 PORT_BOOTPS PORT_BOOTPC (reply_bytes xid offer) junk1, t1)
       :: l2 ++ [(datagram_rx a2 mac2 dst2 PORT_BOOTPS PORT_BOOTPC (reply_bytes xid ack) junk2, t2)]) = Some (n2, h2)
  /\ wire n2 = wire n0 ++ [bootp_frame n0 (dhcp_request (at_time n t1) xid
       (latest 54 put_word (r_opts offer) (NetDHCPServerIP h)) (r_yiaddr offer))]
  /\ dhcp_state h2 = BOUND
  /\ cfg n2 = mkcfg (r_yiaddr ack) (latest 1 put_word opts (NetOurSubnetMask (cfg n)))
       (latest 3 put_word opts (NetOurGatewayIP (cfg n))) (NetOurEther (cfg n)) (NetOurVLAN (cfg n)) (NetOurNativeVLAN (cfg n))
  /\ NetServerEther n2 = NetOurEther (cfg a2)
  /\ NetServerIP h2 = (if r_siaddr ack =? 0 then NetServerIP h else r_siaddr ack)
  /\ BootFile h2 = boot_file h ack
  /\ env_with_file (env h) (env h2) M (boot_file h ack)
  /\ goes_on n n2 h2 (tf h) M t2.
Proof.
  destruct (start_ok n h Hn Harr Hst Harp) as (tx & Hstart & Hw0). cbv zeta in Hstart, Hw0.
  set (n0 := has_sent _ _ tx) in *. set (h0 := discovering n _) in *. exists n0, h0.
  pose proof (xid_range n) as Hxid. fold xid in Hxid.
  destruct (strays_loop n0 h0 SELECTING _ _ l1 ((datagram_rx a1 mac1 dst1 PORT_BOOTPS PORT_BOOTPC (reply_bytes xid offer) junk1, t1)
    :: l2 ++ [(datagram_rx a2 mac2 dst2 PORT_BOOTPS PORT_BOOTPC (reply_bytes xid ack) junk2, t2)]) Hw0 Hxid
    (strays_vlan n n0 _ _ _ _ _ eq_refl Hl1)) as (u1 & Hloop1).
  assert (waits (at_time n0 u1) h0 SELECTING (now (lp n)) SELECT_TIMEOUT) as Hw0' by by apply waits_at.
  destruct (offer_round (at_time n0 u1) h0 a1 mac1 dst1 offer junk1 t1 _ Hw0' Hxid (host_vlan n (at_time n0 u1) a1 eq_refl Ha1) Hoffer Hs1)
    as (tx1 & Hr1 & Hw1 & Hnow1). set (n1 := has_sent _ _ tx1) in *.
  destruct (strays_loop n1 (requesting h0 offer) REQUESTING t1 TIMEOUT l2
    [(datagram_rx a2 mac2 dst2 PORT_BOOTPS PORT_BOOTPC (reply_bytes xid ack) junk2, t2)] Hw1 Hxid
    (strays_vlan n n1 _ _ _ _ _ eq_refl Hl2)) as (u2 & Hloop2).
  assert (waits (at_time n1 u2) (requesting h0 offer) REQUESTING t1 TIMEOUT) as Hw1' by by apply waits_at.
  destruct (ack_round (at_time n1 u2) (requesting h0 offer) a2 mac2 dst2 ack junk2 t2 t1 M Hw1' Hxid Ht2
    (host_vlan n (at_time n1 u2) a2 eq_refl Ha2) Hack Htype Hs2 Hready Hrep Hroom)
    as (n2 & h2 & g & Hr2 & (l & ->) & (s & ->) & Hg & Hgo).
  change (BootpID h0) with xid in Hr1. change (BootpID (requesting h0 offer)) with xid in Hr2.
  eexists _, _. split; [exact Hstart|]. split; [done|]. split.
  { rewrite Hloop1. cbn [dhcp_loop]. rewrite (w_loop _ _ _ _ _ Hw0'), Hr1. cbn [mbind option_bind]. rewrite Hloop2.
    cbn [dhcp_loop]. rewrite (w_loop _ _ _ _ _ Hw1'), Hr2. cbn [mbind option_bind]. reflexivity. }
  split; [done|]. split; [done|]. split.
  { unfold opts. rewrite !latest_app. reflexivity. }
  split; [done|]. split; [done|]. split; [done|]. split; [exact Hg|].
  destruct (armed_timer (at_time (at_time n0 u1) t1) TIMEOUT) as (_ & _ & _ & _ & _ & _ & Hx1); [done|].
  destruct (armed_timer (no_ip n) SELECT_TIMEOUT) as (_ & _ & _ & _ & _ & _ & Hx0); [done|].
  unfold goes_on in *. destruct (no_autoload M); [exact Hgo|].
  destruct Hgo as (nt & G1 & G2 & G3 & G4). exists nt. split; [rewrite G1, (w_loop _ _ _ _ _ Hw1'); done|].
  split; [done|]. split; [|exact G4]. rewrite G3. exact (eq_trans Hx1 Hx0).
Qed.
End exchange.

(** ** An exchange on a small network *)
Definition ex_client : net := ex_node 0 0xcc 0 0.
Definition ex_server : net := ex_node 0x0101a8c0 0xaa 0 0.
Definition ex_dhcp : dhcp :=
  mkdhcp 0 0 INIT 0 0 0 0 (replicate 32 0) (replicate 64 0) [] (one_env one_table) idle10.
Definition ex_reply (ip : Z) (os : list dhcp_opt) : reply :=
  mkreply 0 (replicate 8 0) ip 0x0101a8c0 (replicate 84 0) (pad_to (codes "a.img") 128) os (replicate 20 0).
Definition ex_offer : reply := ex_reply 0x3201a8c0 [(53, [DHCP_OFFER]); (54, [192; 168; 1; 1])].
Definition ex_ack : reply :=
  ex_reply 0x3201a8c0 [(53, [DHCP_ACK]); (54, [192; 168; 1; 1]); (1, [255; 255; 255; 0]); (3, [192; 168; 1; 1])].
Definition ex_nak : reply := ex_reply 0 [(53, [DHCP_NAK])].
Lemma ex_reply_ok ip os : 0 <= ip < 0x100000000 -> Forall opt_ok os -> (forall o, o ∈ os -> fst o = 53 -> snd o <> []) ->
  (length (enc_opts os) < 548)%nat -> reply_ok (ex_reply ip os).
Proof. intros. split; try done. cbn. by_computation. Qed.
Ltac options_ok := repeat (apply Forall_cons; split; [split; cbn; intros; first [lia|done]|]); by apply Forall_nil.
Ltac types_ok := intros o Ho _; repeat (apply elem_of_cons in Ho as [->|Ho]; [done|]); by apply elem_of_nil in Ho.
Lemma ex_offer_ok : reply_ok ex_offer.
Proof. apply ex_reply_ok; [lia|options_ok|types_ok|cbn; lia]. Qed.
Lemma ex_ack_ok : reply_ok ex_ack.
Proof. apply ex_reply_ok; [lia|options_ok|types_ok|cbn; lia]. Qed.
Lemma ex_nak_ok : reply_ok ex_nak.
Proof. apply ex_reply_ok; [lia|options_ok|types_ok|cbn; lia]. Qed.
Lemma ex_host : host ex_client ex_server.
Proof. split; try done. Qed.
Definition ex_xid : Z := xid_of ex_client.
Definition ex_rx (r : reply) : option (list Z * Z) :=
  datagram_rx ex_server NetBcastAddr 0xffffffff PORT_BOOTPS PORT_BOOTPC (reply_bytes ex_xid r) [].
Lemma ex_sendable r : (r = ex_offer \/ r = ex_ack \/ r = ex_nak) ->
  sendable NetBcastAddr 0xffffffff PORT_BOOTPS PORT_BOOTPC (reply_bytes ex_xid r).
Proof. intros H. split; try done. destruct H as [->|[->| ->]]; cbn; lia. Qed.
Lemma ex_stray : stray ex_client ex_xid REQUESTING (ex_rx ex_nak).
Proof.
  assert (sendable NetBcastAddr 0xffffffff PORT_BOOTPS PORT_BOOTPC (reply_bytes ex_xid ex_nak)) as Hs
    by (apply ex_sendable; by right; right).
  exact (stray_reply ex_client ex_xid REQUESTING ex_server NetBcastAddr 0xffffffff ex_nak [] eq_refl ex_host Hs
    ex_nak_ok ltac:(done)).
Qed.
(** An offer, a refusal by another server, and an acknowledgement. *)
Lemma dhcp_binds_witness : exists n0 h0 n2 h2, dhcp_start ex_client ex_dhcp = Some (n0, h0)
  /\ dhcp_loop [] 0 (fun _ => true) no_other n0 h0
       [(None, 1500); (ex_rx ex_offer, 2000); (ex_rx ex_nak, 2500); (ex_rx ex_ack, 3000)] = Some (n2, h2)
  /\ dhcp_state h2 = BOUND /\ NetOurIP (cfg n2) = 0x3201a8c0 /\ NetOurSubnetMask (cfg n2) = 0x00ffffff
  /\ NetOurGatewayIP (cfg n2) = 0x0101a8c0 /\ BootFile h2 = codes "a.img" /\ NetServerIP h2 = 0x0101a8c0.
Proof.
  destruct (dhcp_binds [] 0 ltac:(done) no_other ex_client ex_dhcp one_var ex_server ex_server NetBcastAddr NetBcastAddr
    0xffffffff 0xffffffff ex_offer ex_ack [] [] [(None, 1500)] [(ex_rx ex_nak, 2500)] 2000 3000)
    as (n0 & h0 & n2 & h2 & H1 & _ & H2 & _ & H3 & H4 & _ & H5 & H6 & _).
  - apply ex_node_ok. lia.
  - done.
  - done.
  - done.
  - done.
  - exact one_table_rep.
  - left. exists 1. eexists. split; [by vm_compute|]. split; [by vm_compute|done].
  - exact ex_host.
  - exact ex_host.
  - exact ex_offer_ok.
  - exact ex_ack_ok.
  - done.
  - apply ex_sendable. by left.
  - apply ex_sendable. by right; left.
  - constructor; [|constructor]. split; [constructor|by vm_compute].
  - by vm_compute.
  - constructor; [|constructor]. split; [exact ex_stray|by vm_compute].
  - by vm_compute.
  - exists n0, h0, n2, h2. rewrite H4. by split_and!.
Defined.

(** ** Observations *)
(** A message with options that start with a pad: the pad is one byte, but the loop takes the byte
    behind it for its length, so the network mask is not seen. *)
Definition padded_message : list Z :=
  replicate 236 0 ++ magic_bytes ++ [0; 1; 4; 255; 255; 255; 0; 255] ++ replicate 64 0.
Lemma pad_hides_option : exists nh pkt, vendor_options ex_client ex_dhcp padded_message = Some (nh, pkt)
  /\ NetOurSubnetMask (cfg (fst nh)) = NetOurSubnetMask (cfg ex_client).
Proof. do 2 eexists. split; [|]; vm_compute; reflexivity. Qed.
(** Without the end of the options the search for the type of a message leaves the buffer. *)
Lemma type_search_overruns : DhcpMessageType (replicate 236 0 ++ magic_bytes ++ replicate 300 0) bp_vend = None.
Proof. by vm_compute. Qed.
(** While the client waits for offers, the type of a message is not looked at: a refusal is answered
    with a request for the address 0.0.0.0, which leaves out the option. *)
Definition selecting : dhcp := discovering ex_client ex_dhcp.
Lemma refusal_taken_for_offer : exists n h,
  DhcpHandler [] 0 (fun _ => true) [] ex_client selecting (reply_bytes ex_xid ex_nak) PORT_BOOTPC 0x0101a8c0 PORT_BOOTPS
    (zlen (reply_bytes ex_xid ex_nak)) = Some (n, h) /\ dhcp_state h = REQUESTING.
Proof. do 2 eexists. split; vm_compute; reflexivity. Qed.
(** While it waits for the acknowledgement, a refusal is ignored: the client waits until the timeout. *)
Lemma refusal_ignored : DhcpHandler [] 0 (fun _ => true) [] ex_client (set_state selecting REQUESTING)
    (reply_bytes ex_xid ex_nak) PORT_BOOTPC 0x0101a8c0 PORT_BOOTPS (zlen (reply_bytes ex_xid ex_nak))
  = Some (ex_client, set_state selecting REQUESTING).
Proof. by vm_compute. Qed.
