(* ===== verification/Nand.v ===== *)
(** * NAND flash: [drivers/mtd/mtdcore.c], [include/nand.h], [drivers/mtd/nand/nand_util.c]

    Reading, writing and erasing a NAND flash whose blocks may be bad: bad blocks are left
    out, and what does not fit in front of one goes on in the next good block.  The driver of
    the flash is an interface ([MtdDriver]).  The writing of whole pages with their spare bytes
    (YAFFS images) is not configured and not modelled. *)
From S2P Require Import Prelude Div64.

Definition EINVAL : Z := 22.
Definition EFBIG : Z := 27.
Definition EROFS : Z := 30.
Definition EUCLEAN : Z := 117.
Definition EOPNOTSUPP : Z := 95.

(** The fields of [struct mtd_info] that do not change, and its functions. *)
Class MtdDriver (C : Type) := {
  mtd_size : Z;
  erasesize : Z;
  writesize : Z;
  oobsize : Z;
  (** [flags & MTD_WRITEABLE] *)
  mtd_writeable : bool;
  bitflip_threshold : Z;
  ecc_strength : Z;
  (** An error, or the most bits that were corrected; the bytes that were stored in the buffer,
      whose number is [*retlen]. *)
  _read : C -> Z -> Z -> Z * list Z * C;
  (** The result and [*retlen]. *)
  _write : C -> Z -> list Z -> Z * Z * C;
  (** The address, the length and [scrub]. *)
  _erase : C -> Z -> Z -> bool -> Z * C;
  (** [None] is the null pointer. *)
  _block_isbad : option (C -> Z -> Z);
  _block_markbad : option (C -> Z -> Z * C);
  (** Spare bytes in the mode [MTD_OPS_AUTO_OOB], and how many there are for that. *)
  _write_oob : option (C -> Z -> list Z -> Z * C);
  oobavail : Z;
  (** The table of the bad blocks is given up, and made again. *)
  drop_bbt : C -> C;
  scan_bbt : C -> C }.

Section nand.
Context {C : Type} {Driver : MtdDriver C}.

(** ** [drivers/mtd/mtdcore.c] *)
(** The result, [*retlen], which was [retlen], and the bytes that were stored. *)
Definition mtd_read (c : C) (from len retlen : Z) : Z * Z * list Z * C :=
  if (from <? 0) || (mtd_size <? from) || (mtd_size - from <? len) then (- EINVAL, retlen, [], c)
  else if len =? 0 then (0, retlen, [], c)
  else
    let '(ret_code, d, c) := _read c from len in
    (if ret_code <? 0 then ret_code
     else if ecc_strength =? 0 then 0
     else if bitflip_threshold <=? ret_code then - EUCLEAN else 0, zlen d, d, c).
Definition mtd_write (c : C) (to : Z) (buf : list Z) : Z * Z * C :=
  let len := zlen buf in
  if (to <? 0) || (mtd_size <? to) || (mtd_size - to <? len) then (- EINVAL, 0, c)
  else if negb mtd_writeable then (- EROFS, 0, c)
  else if len =? 0 then (0, 0, c)
  else _write c to buf.
Definition mtd_erase (c : C) (addr len : Z) (scrub : bool) : Z * C :=
  if (mtd_size <? addr) || (mtd_size - addr <? len) then (- EINVAL, c)
  else if negb mtd_writeable then (- EROFS, c)
  else if len =? 0 then (0, c)
  else _erase c addr len scrub.
Definition mtd_block_isbad (c : C) (ofs : Z) : Z :=
  match _block_isbad with
  | None => 0
  | Some f => if (ofs <? 0) || (mtd_size <? ofs) then - EINVAL else f c ofs
  end.
Definition mtd_block_markbad (c : C) (ofs : Z) : Z * C :=
  match _block_markbad with
  | None => (- EOPNOTSUPP, c)
  | Some f =>
      if (ofs <? 0) || (mtd_size <? ofs) then (- EINVAL, c)
      else if negb mtd_writeable then (- EROFS, c) else f c ofs
  end.
(** The call with [oobbuf] and [MTD_OPS_AUTO_OOB]. *)
Definition mtd_write_oob (c : C) (to : Z) (oobbuf : list Z) : Z * C :=
  match _write_oob with
  | None => (- EOPNOTSUPP, c)
  | Some f => if negb mtd_writeable then (- EROFS, c) else f c to oobbuf
  end.

(** ** [include/nand.h]: the length is overwritten with [*retlen] *)
Definition nand_read (c : C) (ofs len : Z) : Z * Z * list Z * C := mtd_read c ofs len len.
Definition nand_write (c : C) (ofs : Z) (buf : list Z) : Z * Z * C := mtd_write c ofs buf.
Definition nand_block_isbad (c : C) (ofs : Z) : bool := negb (mtd_block_isbad c ofs =? 0).

(** ** Bad blocks *)
(** [len] bytes of a buffer, which must have them. *)
Definition bytes_of (buf : list Z) (len : Z) : option (list Z) :=
  if zlen buf <? len then None else Some (take (Z.to_nat len) buf).
Definition blocks : nat := Z.to_nat (mtd_size / erasesize).

(** The result and [*used]; [offset] and [len_excl_bad] are those of the loop. *)
Fixpoint check_skip_loop (fuel : nat) (c : C) (offset length used len_excl_bad ret : Z) : option (Z * Z) :=
  match fuel with
  | O => None
  | S fuel =>
      if len_excl_bad <? length then
        if mtd_size <=? offset then Some (-1, used)
        else
          let block_start := offset .& Z.lnot (erasesize - 1) in
          let block_off := offset .& (erasesize - 1) in
          let block_len := u32 (erasesize - block_off) in
          if negb (nand_block_isbad c block_start) then
            check_skip_loop fuel c (offset + block_len) length (u32 (used + block_len))
              (u32 (len_excl_bad + block_len)) ret
          else check_skip_loop fuel c (offset + block_len) length (u32 (used + block_len)) len_excl_bad 1
      else
        Some (ret, if length <? len_excl_bad then u32 (used - u32 (len_excl_bad - length)) else used)
  end.
Definition check_skip_len (c : C) (offset length : Z) : option (Z * Z) :=
  check_skip_loop (S (S blocks)) c offset length 0 0 0.

(** The position behind the last byte that is not 0xff. *)
Fixpoint last_set (buf : list Z) : Z :=
  match buf with
  | [] => 0
  | b :: r => let n := last_set r in if (n =? 0) && (b =? 0xff) then 0 else n + 1
  end.
Definition drop_ffs (buf : list Z) : Z :=
  let l := last_set buf in
  let l := u32 (l + writesize - 1) / writesize in
  let l := u32 (l * writesize) in
  Z.min l (zlen buf).

(** ** Writing *)
Definition WITH_DROP_FFS : Z := 2.
Context (CONFIG_CMD_NAND_TRIMFFS : bool).

(** The result, [*length], which was [length], and the flash.  The mask of a block has 32 bits. *)
Fixpoint write_skip_loop (fuel : nat) (c : C) (offset length left_to_write : Z) (p_buffer : list Z) (flags : Z)
    : option (Z * Z * C) :=
  match fuel with
  | O => None
  | S fuel =>
      if 0 <? left_to_write then
        let block_offset := offset .& (erasesize - 1) in
        if nand_block_isbad c (offset .& u32 (Z.lnot (erasesize - 1))) then
          write_skip_loop fuel c (offset + u32 (erasesize - block_offset)) length left_to_write p_buffer flags
        else
          let room := u32 (erasesize - block_offset) in
          let write_size := if left_to_write <? room then left_to_write else room in
          piece ← bytes_of p_buffer write_size;
          let truncated_write_size :=
            if CONFIG_CMD_NAND_TRIMFFS && negb (flags .& WITH_DROP_FFS =? 0) then drop_ffs piece else write_size in
          let '(rval, _, c) := nand_write c offset (take (Z.to_nat truncated_write_size) piece) in
          if negb (rval =? 0) then Some (rval, u32 (length - left_to_write), c)
          else
            write_skip_loop fuel c (offset + write_size) length (u32 (left_to_write - write_size))
              (drop (Z.to_nat write_size) p_buffer) flags
      else Some (0, length, c)
  end.
(** The result, [*length], [*actual] and the flash. *)
Definition nand_write_skip_bad (c : C) (offset length lim : Z) (buffer : list Z) (flags : Z)
    : option (Z * Z * Z * C) :=
  if negb (offset .& (writesize - 1) =? 0) then Some (- EINVAL, 0, 0, c)
  else
    '(need_skip, used_for_write) ← check_skip_len c offset length;
    if need_skip <? 0 then Some (- EINVAL, 0, used_for_write, c)
    else if lim <? used_for_write then Some (- EFBIG, 0, used_for_write, c)
    else if (need_skip =? 0) && (flags .& WITH_DROP_FFS =? 0) then
      d ← bytes_of buffer length;
      let '(rval, length, c) := nand_write c offset d in
      Some (rval, if rval =? 0 then length else 0, used_for_write, c)
    else
      '(rval, length, c) ← write_skip_loop (S (S blocks)) c offset length length buffer flags;
      Some (rval, length, used_for_write, c).

(** ** Reading *)
(** The result, [*length], the bytes that were stored one after the other, and the flash. *)
Fixpoint read_skip_loop (fuel : nat) (c : C) (offset length left_to_read : Z) : option (Z * Z * list Z * C) :=
  match fuel with
  | O => None
  | S fuel =>
      if 0 <? left_to_read then
        let block_offset := offset .& (erasesize - 1) in
        if nand_block_isbad c (offset .& u32 (Z.lnot (erasesize - 1))) then
          read_skip_loop fuel c (offset + u32 (erasesize - block_offset)) length left_to_read
        else
          let room := u32 (erasesize - block_offset) in
          let read_length := if left_to_read <? room then left_to_read else room in
          let '(rval, read_length, d, c) := nand_read c offset read_length in
          if negb (rval =? 0) && negb (rval =? - EUCLEAN) then Some (rval, u32 (length - left_to_read), d, c)
          else
            '(rval, length, rest, c) ←
              read_skip_loop fuel c (offset + read_length) length (u32 (left_to_read - read_length));
            Some (rval, length, d ++ rest, c)
      else Some (0, length, [], c)
  end.
(** Where a driver reads less than it was asked for, there are more rounds, a byte each at least. *)
Definition nand_read_skip_bad (c : C) (offset length lim : Z) : option (Z * Z * Z * list Z * C) :=
  if negb (offset .& (writesize - 1) =? 0) then Some (- EINVAL, 0, 0, [], c)
  else
    '(need_skip, used_for_read) ← check_skip_len c offset length;
    if need_skip <? 0 then Some (- EINVAL, 0, used_for_read, [], c)
    else if lim <? used_for_read then Some (- EFBIG, 0, used_for_read, [], c)
    else if need_skip =? 0 then
      let '(rval, length, d, c) := nand_read c offset length in
      if (rval =? 0) || (rval =? - EUCLEAN) then Some (0, length, used_for_read, d, c)
      else Some (rval, 0, used_for_read, d, c)
    else
      '(rval, length, d, c) ← read_skip_loop (S (S (Z.to_nat length + blocks))) c offset length length;
      Some (rval, length, used_for_read, d, c).

(** ** Erasing *)
Record nand_erase_options := mkerase {
  er_length : Z;
  er_offset : Z;
  jffs2 : bool;
  scrub : bool;
  spread : bool;
  er_lim : Z }.
Definition JFFS2_MAGIC_BITMASK : Z := 0x1985.
Definition JFFS2_NODETYPE_CLEANMARKER : Z := 0x2003.
(** The first eight bytes of the node, with [totlen] 8. *)
Definition cleanmarker : list Z :=
  [JFFS2_MAGIC_BITMASK .& 0xff; JFFS2_MAGIC_BITMASK ≫ 8; JFFS2_NODETYPE_CLEANMARKER .& 0xff;
   JFFS2_NODETYPE_CLEANMARKER ≫ 8; 8; 0; 0; 0].
Definition lldiv (dividend divisor : Z) : option Z := '(q, _) ← do_div dividend divisor; Some q.

Fixpoint erase_loop (fuel : nat) (c : C) (opts : nand_erase_options) (addr erase_length erased_length : Z)
    : option (Z * C) :=
  match fuel with
  | O => None
  | S fuel =>
      if erased_length <? erase_length then
        if negb (er_lim opts =? 0) && (er_offset opts + er_lim opts <=? addr) then Some (- EFBIG, c)
        else
          let ret := if scrub opts then 0 else mtd_block_isbad c addr in
          if 0 <? ret then
            erase_loop fuel c opts (addr + erasesize) erase_length
              (if spread opts then erased_length else u32 (erased_length + 1))
          else if ret <? 0 then Some (-1, c)
          else
            let '(result, c) := mtd_erase c addr erasesize (scrub opts) in
            let c := if (result =? 0) && (jffs2 opts && (8 <=? oobavail)) then snd (mtd_write_oob c addr cleanmarker)
                     else c in
            erase_loop fuel c opts (addr + erasesize) erase_length (u32 (erased_length + 1))
      else Some (0, if scrub opts then scan_bbt c else c)
  end.
(** The result, which is 0 even where erasing a block failed. *)
Definition nand_erase_opts (c : C) (opts : nand_erase_options) : option (Z * C) :=
  if negb (er_offset opts .& (erasesize - 1) =? 0) then Some (-1, c)
  else
    erase_length ← lldiv (u64 (er_length opts + erasesize - 1)) erasesize;
    let c := if scrub opts then drop_bbt c else c in
    erase_loop (S (S (Z.to_nat (u32 erase_length) + blocks))) c opts (er_offset opts) (u32 erase_length) 0.
End nand.
