(* ===== verification/NandSpec.v ===== *)
(** * NAND flash: what reading, writing and erasing around bad blocks do

    The laws of a driver ([MtdLaws]) and the specification: the good bytes of a range are those
    in good blocks, in order, and a write that succeeds makes them the bytes of the buffer. *)
From S2P Require Import Prelude Div64 Store Nand.

Class MtdLaws (C : Type) {Driver : MtdDriver C} := {
  cell : C -> Z -> Z;
  (** By the number of the block. *)
  bad : C -> Z -> bool;
  (** A flash no command of which fails on good blocks. *)
  healthy : C -> Prop;
  (** No command has failed so far, on good blocks; what fails does not come back and changes
      nothing any more, as with a loss of power. *)
  alive : C -> bool;
  geometry : exists kp kb n, writesize = 2 ^ kp /\ erasesize = 2 ^ kb /\ 0 <= kp <= kb
    /\ mtd_size = n * erasesize /\ 0 < n /\ mtd_size < 0x100000000;
  healthy_alive c : healthy c -> alive c = true;
  alive_writeable c : alive c = true -> mtd_writeable = true;
  isbad_ok : exists f, _block_isbad = Some f /\ forall c ofs, 0 <= ofs < mtd_size ->
    0 <= f c ofs /\ (f c ofs =? 0) = negb (bad c (ofs / erasesize));
  read_ok c from len : 0 <= from -> 0 < len -> from + len <= mtd_size ->
    let '(r, d, c') := _read c from len in
    zlen d <= len /\ (forall b, bad c' b = bad c b) /\ same_bytes (cell c') (cell c)
    /\ (0 <= r \/ r = - EUCLEAN -> d = bytes_at (cell c) from len) /\ (healthy c -> healthy c')
    /\ (alive c' = true -> alive c = true /\ 0 <= r);
  (** The pages that are written to are lost where the command fails, or where they were not
      erased. *)
  write_ok c to l : 0 <= to -> to mod writesize = 0 -> l <> [] -> to + zlen l <= mtd_size ->
    let stop := (to + zlen l + writesize - 1) / writesize * writesize in
    let '(r, n, c') := _write c to l in
    (forall b, bad c' b = bad c b) /\ (forall x, ~ (to <= x < stop) -> cell c' x = cell c x)
    /\ (r = 0 -> n = zlen l
        /\ ((forall x, to <= x < stop -> cell c x = 0xff) -> same_bytes (cell c') (store (cell c) to l)))
    /\ ((forall x, to <= x < to + zlen l -> bad c (x / erasesize) = false) ->
         (healthy c -> healthy c') /\ (alive c' = true -> alive c = true /\ r = 0))
    /\ (alive c = false -> same_bytes (cell c') (cell c));
  erase_ok c a : 0 <= a < mtd_size -> a mod erasesize = 0 ->
    let '(r, c') := _erase c a erasesize false in
    (forall b, bad c' b = bad c b) /\ (forall x, x / erasesize <> a / erasesize -> cell c' x = cell c x)
    /\ (r = 0 -> forall x, x / erasesize = a / erasesize -> cell c' x = 0xff)
    /\ (bad c (a / erasesize) = false -> (healthy c -> healthy c') /\ (alive c' = true -> alive c = true /\ r = 0))
    /\ (alive c = false -> same_bytes (cell c') (cell c)) }.

Lemma filter_all {A} (Q : A -> Prop) `{!forall x, Decision (Q x)} l : Forall Q l -> filter Q l = l.
Proof. induction 1 as [|x l Hx Hl IH]; [done|]. by rewrite filter_cons_True, IH. Qed.
Lemma filter_none {A} (Q : A -> Prop) `{!forall x, Decision (Q x)} l : Forall (fun x => ~ Q x) l -> filter Q l = [].
Proof. induction 1 as [|x l Hx Hl IH]; [done|]. by rewrite filter_cons_False. Qed.

Section laws.
Context {C : Type} {Driver : MtdDriver C} {Laws : MtdLaws C}.

(** ** Blocks and pages *)
Abbreviation size := (@mtd_size C Driver).
Abbreviation B := (@erasesize C Driver).
Abbreviation P := (@writesize C Driver).
Definition page_end (x : Z) : Z := (x + P - 1) / P * P.
Definition good (c : C) (x : Z) : Prop := bad c (x / B) = false.
#[export] Instance good_dec c x : Decision (good c x) := decide (bad c (x / B) = false).

Lemma nand_page_pos : 0 < P /\ P <= B /\ B mod P = 0.
Proof.
  destruct geometry as (kp & kb & n & Hp & Hb & Hk & _). rewrite Hp, Hb.
  split; [apply Z.pow_pos_nonneg; lia|]. split; [apply Z.pow_le_mono_r; lia|].
  replace kb with (kb - kp + kp) by lia. rewrite Z.pow_add_r by lia. apply Z_mod_mult.
Qed.
Lemma size_blocks : 0 < size < 0x100000000 /\ size mod B = 0 /\ 0 < B <= size.
Proof.
  destruct geometry as (kp & kb & n & Hp & Hb & Hk & Hs & Hn & Hlt). pose proof nand_page_pos as (H1 & H2 & _).
  rewrite Hs in *. split; [nia|]. split; [apply Z_mod_mult|nia].
Qed.
Lemma land_low x n : (exists k, 0 <= k /\ n = 2 ^ k) -> x .& (n - 1) = x mod n.
Proof. intros (k & Hk & ->). rewrite <- Z.land_ones by lia. f_equal. rewrite Z.ones_equiv. lia. Qed.
Lemma land_page x : x .& (P - 1) = x mod P.
Proof. apply land_low. destruct geometry as (kp & kb & n & Hp & Hb & Hk & _). exists kp. lia. Qed.
Lemma land_block x : x .& (B - 1) = x mod B.
Proof. apply land_low. destruct geometry as (kp & kb & n & Hp & Hb & Hk & _). exists kb. lia. Qed.
Lemma block_bits : exists k, 0 <= k < 32 /\ B = 2 ^ k.
Proof.
  destruct geometry as (kp & kb & n & Hp & Hb & Hk & _). pose proof size_blocks as (H1 & _ & H2).
  exists kb. split; [|done]. split; [lia|]. apply (Z.pow_lt_mono_r_iff 2); lia.
Qed.
(** Both masks give the start of the block, below 4 GiB. *)
Lemma land_start x : 0 <= x < 0x100000000 -> x .& u32 (Z.lnot (B - 1)) = x - x mod B.
Proof.
  intros Hx. destruct block_bits as (k & Hk & ->). rewrite land_align_down by lia.
  pose proof (Z.div_mod x (2 ^ k) ltac:(lia)). lia.
Qed.
Lemma land_start64 x : x .& Z.lnot (B - 1) = x - x mod B.
Proof.
  destruct block_bits as (k & Hk & ->).
  replace (2 ^ k - 1) with (Z.ones k) by (rewrite Z.ones_equiv; lia).
  rewrite <- Z.ldiff_land, Z.ldiff_ones_r, Z.shiftl_mul_pow2, Z.shiftr_div_pow2 by lia.
  pose proof (Z.div_mod x (2 ^ k) ltac:(lia)). lia.
Qed.

Lemma block_of x y : y / B = x / B <-> x - x mod B <= y < x - x mod B + B.
Proof.
  pose proof size_blocks as (_ & _ & H). pose proof (Z.div_mod x B ltac:(lia)) as Hx.
  split.
  - intros Hy. pose proof (Z.div_mod y B ltac:(lia)). pose proof (Z.mod_pos_bound y B ltac:(lia)). rewrite Hy in *. lia.
  - intros Hy. symmetry. apply (Z.div_unique_pos y B _ (y - (x - x mod B))); lia.
Qed.
Lemma next_block x : 0 <= x < size -> x - x mod B + B <= size.
Proof.
  pose proof size_blocks as (H1 & H2 & H3). intros Hx.
  pose proof (Z.div_mod x B ltac:(lia)). pose proof (Z.div_mod size B ltac:(lia)).
  rewrite H2 in *. assert (x / B < size / B) by (apply Z.div_lt_upper_bound; lia). nia.
Qed.
Lemma block_lt x : 0 <= x < size -> x / B < size / B.
Proof.
  pose proof size_blocks as (H1 & H2 & H3). intros Hx. apply Z.div_lt_upper_bound; [lia|].
  pose proof (Z.div_mod size B ltac:(lia)). lia.
Qed.
Lemma page_end_ok x : x <= page_end x < x + P /\ page_end x mod P = 0.
Proof.
  unfold page_end. pose proof nand_page_pos as (H & _). split; [|apply Z_mod_mult].
  pose proof (Z.div_mod (x + P - 1) P ltac:(lia)). pose proof (Z.mod_pos_bound (x + P - 1) P ltac:(lia)). lia.
Qed.
Lemma page_end_id x : x mod P = 0 -> page_end x = x.
Proof.
  unfold page_end. pose proof nand_page_pos as (H & _). intros Hx.
  replace (x + P - 1) with (P - 1 + x / P * P) by (pose proof (Z.div_mod x P ltac:(lia)); lia).
  rewrite Z.div_add, Z.div_small by lia. pose proof (Z.div_mod x P ltac:(lia)). lia.
Qed.
Lemma page_end_mono x y : x <= y -> page_end x <= page_end y.
Proof.
  unfold page_end. pose proof nand_page_pos as (H & _). intros Hx.
  apply Z.mul_le_mono_nonneg_r; [lia|]. apply Z.div_le_mono; lia.
Qed.
Lemma mod_page_block x : x mod B = 0 -> x mod P = 0.
Proof.
  pose proof nand_page_pos as (H1 & H2 & H3). pose proof size_blocks as (_ & _ & H4). intros Hx.
  apply Z.mod_divide in H3, Hx; [|lia|lia]. apply Z.mod_divide; [lia|]. by apply (Z.divide_trans _ B).
Qed.
(** The pages of a range in a block are in the block. *)
Lemma page_end_block x w : 0 <= w <= B - x mod B -> page_end (x + w) <= x - x mod B + B.
Proof.
  pose proof size_blocks as (_ & _ & H). intros Hw. etransitivity; [apply (page_end_mono _ (x - x mod B + B)); lia|].
  rewrite page_end_id; [lia|]. apply mod_page_block.
  replace (x - x mod B + B) with ((x / B + 1) * B) by (pose proof (Z.div_mod x B ltac:(lia)); lia). apply Z_mod_mult.
Qed.

Lemma isbad_bad c ofs : 0 <= ofs < size -> nand_block_isbad c ofs = bad c (ofs / B).
Proof.
  intros H. unfold nand_block_isbad, mtd_block_isbad. destruct isbad_ok as (f & -> & Hf).
  destruct (Hf c ofs H) as [_ E]. replace (_ || _) with false by (symmetry; apply orb_false_iff; lia).
  rewrite E. apply negb_involutive.
Qed.
Lemma start_bad c x : 0 <= x < size -> nand_block_isbad c (x - x mod B) = bad c (x / B).
Proof.
  intros H. pose proof size_blocks as (_ & _ & H3). pose proof (Z.mod_pos_bound x B ltac:(lia)).
  pose proof (Z.mod_le x B ltac:(lia) ltac:(lia)). rewrite isbad_bad by lia. f_equal. apply block_of. lia.
Qed.

(** ** The good bytes of a range *)
Definition goods (c : C) (off n : Z) : list Z := filter (good c) (seqZ off n).
Definition image (c : C) (off n : Z) : list Z := map (cell c) (goods c off n).

Lemma goods_app c off n m : 0 <= n -> 0 <= m -> goods c off (n + m) = goods c off n ++ goods c (off + n) m.
Proof. intros. unfold goods. by rewrite seqZ_app, filter_app by lia. Qed.
Lemma goods_nil c off : goods c off 0 = [].
Proof. done. Qed.
(** In a block all bytes are good or none is. *)
Lemma goods_good c off n : 0 <= n <= B - off mod B -> good c off -> goods c off n = seqZ off n.
Proof.
  pose proof size_blocks as (_ & _ & H). intros Hn Hg. pose proof (Z.mod_pos_bound off B ltac:(lia)).
  unfold goods. apply filter_all, Forall_forall. intros x Hx%elem_of_seqZ. unfold good.
  by rewrite (proj2 (block_of off x)) by lia.
Qed.
Lemma goods_bad c off n : 0 <= n <= B - off mod B -> ~ good c off -> goods c off n = [].
Proof.
  pose proof size_blocks as (_ & _ & H). intros Hn Hg. pose proof (Z.mod_pos_bound off B ltac:(lia)).
  unfold goods. apply filter_none, Forall_forall. intros x Hx%elem_of_seqZ. unfold good.
  by rewrite (proj2 (block_of off x)) by lia.
Qed.
Lemma goods_le c off n : 0 <= n -> zlen (goods c off n) <= n.
Proof.
  intros Hn. unfold goods. pose proof (length_filter (good c) (seqZ off n)). rewrite length_seqZ in *. lia.
Qed.

(** ** How much of the flash is needed *)
(** [used] bytes from [off] on are the least that have [len] good ones. *)
Definition fits (c : C) (off len used : Z) : Prop :=
  0 <= used /\ zlen (goods c off used) = len
  /\ (used = 0 \/ off + used <= size /\ good c (off + used - 1)).

Lemma fits_zero c off used : fits c off 0 used -> used = 0.
Proof.
  intros (H0 & Hl & [->|[_ Hg]]); [done|]. destruct (decide (used = 0)) as [|Hne]; [done|].
  assert (goods c off used = []) as Hn by (apply nil_length_inv; lia).
  exfalso. assert (off + used - 1 ∈ goods c off used) as Hin.
  { unfold goods. rewrite list_elem_of_filter, elem_of_seqZ. split; [done|lia]. }
  rewrite Hn in Hin. by apply elem_of_nil in Hin.
Qed.
Lemma fits_unique c off len u v : fits c off len u -> fits c off len v -> u = v.
Proof.
  intros Hu Hv. destruct (decide (u <= v)).
  - assert (fits c (off + u) 0 (v - u)) as H; [|apply fits_zero in H; lia].
    destruct Hu as (H1 & H2 & _), Hv as (H4 & H5 & H6).
    replace v with (u + (v - u)) in H5 by lia. rewrite goods_app, length_app in H5 by lia.
    split; [lia|]. split; [lia|]. destruct (decide (v = u)); [by left; lia|]. right.
    destruct H6 as [H6|H6]; [lia|]. by replace (off + u + (v - u)) with (off + v) by lia.
  - assert (fits c (off + v) 0 (u - v)) as H; [|apply fits_zero in H; lia].
    destruct Hv as (H1 & H2 & _), Hu as (H4 & H5 & H6).
    replace u with (v + (u - v)) in H5 by lia. rewrite goods_app, length_app in H5 by lia.
    split; [lia|]. split; [lia|]. right. destruct H6 as [H6|H6]; [lia|].
    by replace (off + v + (u - v)) with (off + u) by lia.
Qed.

(** The block at [off] is bad: it is left out. *)
Lemma fits_bad c off len used : 0 <= off < size -> 0 < len -> ~ good c off ->
  let b := B - off mod B in fits c off len used <-> b < used /\ fits c (off + b) len (used - b).
Proof.
  intros Ho Hlen Hg b. pose proof size_blocks as (_ & _ & HB). pose proof (Z.mod_pos_bound off B ltac:(lia)).
  split.
  - intros (H1 & H2 & H3). assert (b < used) as Hb.
    { destruct (decide (b < used)); [done|]. rewrite goods_bad in H2 by (done || lia). cbn in H2. lia. }
    split; [done|]. replace used with (b + (used - b)) in H2 by lia.
    rewrite goods_app, (goods_bad c off b) in H2 by (done || lia).
    split; [lia|]. split; [exact H2|]. right. destruct H3 as [H3|H3]; [lia|].
    by replace (off + b + (used - b)) with (off + used) by lia.
  - intros (Hb & H1 & H2 & H3). split; [lia|]. split.
    + replace used with (b + (used - b)) by lia. rewrite goods_app, (goods_bad c off b) by (done || lia). exact H2.
    + right. destruct H3 as [H3|H3]; [lia|]. by replace (off + b + (used - b)) with (off + used) in H3 by lia.
Qed.
(** The block at [off] is good: its rest, or as much of it as is asked for. *)
Lemma fits_good c off len used : 0 <= off < size -> 0 < len -> good c off ->
  let w := Z.min len (B - off mod B) in
  fits c off len used <-> w <= used /\ fits c (off + w) (len - w) (used - w).
Proof.
  intros Ho Hlen Hg w. pose proof size_blocks as (_ & _ & HB). pose proof (Z.mod_pos_bound off B ltac:(lia)).
  pose proof (next_block off Ho).
  assert (forall n, 0 <= n <= B - off mod B -> zlen (goods c off n) = n) as Hn.
  { intros n Hn. rewrite goods_good, length_seqZ by done. lia. }
  split.
  - intros (H1 & H2 & H3). assert (w <= used) as Hw.
    { destruct (decide (w <= used)); [done|]. rewrite Hn in H2 by lia. lia. }
    split; [done|]. replace used with (w + (used - w)) in H2 by lia. rewrite goods_app, length_app in H2 by lia.
    pose proof (Hn w ltac:(lia)). split; [lia|]. split; [lia|]. destruct (decide (used = w)); [by left; lia|].
    right. destruct H3 as [H3|H3]; [lia|]. by replace (off + w + (used - w)) with (off + used) by lia.
  - intros (Hw & H1 & H2 & H3). split; [lia|]. split.
    + replace used with (w + (used - w)) by lia. rewrite goods_app, length_app by lia.
      pose proof (Hn w ltac:(lia)). lia.
    + right. destruct (decide (used = w)) as [->|Hne].
      * split; [lia|]. unfold good. by rewrite (proj2 (block_of off (off + w - 1))) by lia.
      * destruct H3 as [H3|H3]; [lia|]. by replace (off + w + (used - w)) with (off + used) in H3 by lia.
Qed.

Lemma next_number x : 0 <= x -> (x - x mod B + B) / B = x / B + 1.
Proof.
  intros Hx. pose proof size_blocks as (_ & _ & HB).
  replace (x - x mod B + B) with ((x / B + 1) * B) by (pose proof (Z.div_mod x B ltac:(lia)); lia).
  apply Z.div_mul. lia.
Qed.
Lemma room_ok off : 0 <= off -> 0 < B - off mod B <= B /\ u32 (B - off mod B) = B - off mod B.
Proof.
  intros Ho. pose proof size_blocks as (_ & _ & HB). pose proof (Z.mod_pos_bound off B ltac:(lia)).
  split; [lia|]. apply u32_small. pose proof size_blocks. lia.
Qed.
(** The rounds that a loop at [off] can still take: one for each block, and the last ones. *)
Definition enough (fuel : nat) (off : Z) : Prop := 2 + Z.max 0 (size / B - off / B) <= Z.of_nat fuel.
Definition on_page (off : Z) : Prop := off mod P = 0.
Lemma enough_pos fuel off : enough fuel off -> exists n, fuel = S (S n).
Proof. unfold enough. intros H. destruct fuel as [|[|n]]; [lia|lia|by exists n]. Qed.
Lemma enough_blocks off : 0 <= off -> enough (S (S (@blocks C Driver))) off.
Proof.
  intros Ho. pose proof size_blocks as (Hs & _ & HB). unfold enough, blocks.
  pose proof (Z.div_pos off B Ho (proj1 HB)). pose proof (Z.div_pos size B ltac:(lia) (proj1 HB)).
  generalize dependent (size / B). generalize dependent (off / B). clear. lia.
Qed.
Lemma enough_more fuel fuel' off : enough fuel off -> (fuel <= fuel')%nat -> enough fuel' off.
Proof. unfold enough. generalize (size / B - off / B). lia. Qed.
(** The way from [off] to the end of its block. *)
Lemma block_step c off : 0 <= off < size -> exists w, 0 < w <= B /\ off + w <= size
  /\ (forall fuel, enough (S fuel) off -> enough fuel (off + w))
  /\ (~ good c off -> goods c off w = []
       /\ forall len used, 0 < len -> fits c off len used <-> w < used /\ fits c (off + w) len (used - w))
  /\ (good c off -> (forall n, 0 <= n <= w -> goods c off n = seqZ off n)
       /\ (forall len used, 0 < len ->
            fits c off len used <-> Z.min len w <= used /\ fits c (off + Z.min len w) (len - Z.min len w) (used - Z.min len w))
       /\ forall x, off <= x < off + w -> good c x)
  /\ (nand_block_isbad c (off .& Z.lnot (B - 1)) = bool_decide (~ good c off)
       /\ nand_block_isbad c (off .& u32 (Z.lnot (B - 1))) = bool_decide (~ good c off)
       /\ u32 (B - (off .& (B - 1))) = w)
  /\ on_page (off + w) /\ (forall n, n <= w -> page_end (off + n) <= off + w).
Proof.
  intros Ho. pose proof size_blocks as (Hs & _ & HB). pose proof (Z.mod_pos_bound off B (proj1 HB)) as Hm.
  destruct (room_ok off (proj1 Ho)) as [Hr Hu]. pose proof (next_block off Ho) as H1.
  pose proof (next_number off (proj1 Ho)) as H2. pose proof (block_lt off Ho) as H3.
  assert (off + (B - off mod B) = off - off mod B + B) as E by lia.
  pose proof (page_end_block off (B - off mod B) ltac:(lia)) as H4. rewrite <- E in *.
  pose proof (page_end_ok (off + (B - off mod B))) as H5.
  assert (bad c (off / B) = bool_decide (~ good c off)) as Eb.
  { case_bool_decide as Hg; [by apply not_false_iff_true in Hg|exact Hg]. }
  exists (B - off mod B). split; [exact Hr|]. split; [exact H1|]. split; [|split; [|split; [|split; [|split]]]].
  - intros fuel. unfold enough. rewrite H2. revert H3. generalize (size / B) (off / B). clear. lia.
  - intros Hg. split; [by apply goods_bad; [lia|]|]. intros len used Hlen. by apply (fits_bad c off len used Ho Hlen).
  - intros Hg. split; [intros n Hn; by apply goods_good|]. split.
    + intros len used Hlen. by apply (fits_good c off len used Ho Hlen).
    + intros x Hx. unfold good. rewrite (proj2 (block_of off x)); [done|]. clear - Hx Hm. lia.
  - rewrite land_start64, land_start, land_block by (clear - Ho Hs; lia). by rewrite !(start_bad c off Ho).
  - unfold on_page. replace (off + (B - off mod B)) with (page_end (off + (B - off mod B))) by (clear - H4 H5; lia).
    apply page_end_ok.
  - intros n Hn. etransitivity; [apply (page_end_mono _ (off + (B - off mod B))); clear - Hn; lia|exact H4].
Qed.

Lemma check_loop_ok c length : 0 <= length < 0x100000000 -> forall fuel off used excl ret,
  0 <= excl <= used -> used <= off -> excl <= length -> enough fuel off ->
  exists r u, check_skip_loop fuel c off length used excl ret = Some (r, u)
    /\ (r = -1 /\ zlen (goods c off (size - off)) < length - excl
        \/ exists v, u = used + v /\ fits c off (length - excl) v
             /\ (r = ret /\ (forall x, off <= x < off + v -> good c x) \/ r = 1)).
Proof.
  intros Hl. induction fuel as [|fuel IH]; intros off used excl ret He Hu Hle Hf; [by apply enough_pos in Hf as [? ?]|].
  cbn [check_skip_loop]. destruct (Z.ltb_spec excl length) as [Hlt|Hge].
  2:{ exists ret, used. replace (length <? excl) with false by lia. split; [done|]. right. exists 0.
      split; [lia|]. split; [|left; split; [done|lia]]. split; [lia|]. split; [|by left].
      change (goods c off 0) with (@nil Z). cbn. lia. }
  destruct (Z.leb_spec size off) as [Hs|Hs].
  { exists (-1), used. split; [done|]. left. split; [done|]. unfold goods. rewrite seqZ_nil by lia. cbn. lia. }
  assert (0 <= off < size) as Hin by lia.
  destruct (block_step c off Hin) as (w & Hw & Hin2 & Hf2 & Hbad & Hgood & (Hm & _ & Hr) & _).
  rewrite Hm, Hr. cbv zeta. pose proof size_blocks as (Hsize & _ & _). pose proof (enough_pos _ _ Hf) as [fuel2 Hf0].
  apply Hf2 in Hf. clear Hm Hr Hf2. case_bool_decide as Hg; cbn [negb].
  - rewrite u32_small by lia. destruct (IH (off + w) (used + w) excl 1) as (r & u & E & H); [lia|lia|lia|exact Hf|].
    exists r, u. split; [exact E|]. destruct H as [[-> H]|(v & -> & H & H')].
    + left. split; [done|]. replace (size - off) with (w + (size - (off + w))) by lia.
      rewrite goods_app, (proj1 (Hbad Hg)) by lia. exact H.
    + right. exists (w + v). split; [lia|]. split; [|right; tauto].
      apply (proj2 (Hbad Hg)); [lia|]. split; [|by replace (w + v - w) with v by lia].
      destruct (decide (v = 0)) as [->|]; [|destruct H; lia]. destruct H as (_ & H & _). rewrite goods_nil in H. cbn in H. lia.
  - destruct (Hgood Hg) as (HG & HF & Hx). clear Hbad Hgood.
    rewrite !u32_small by lia. destruct (decide (excl + w < length)) as [Hc|Hc].
    + destruct (IH (off + w) (used + w) (excl + w) ret) as (r & u & E & H); [lia|lia|lia|exact Hf|].
      exists r, u. split; [exact E|]. destruct H as [[-> H]|(v & -> & H & H')].
      * left. split; [done|]. replace (size - off) with (w + (size - (off + w))) by lia.
        rewrite goods_app, HG, length_app, length_seqZ by lia. lia.
      * right. exists (w + v). split; [lia|]. split.
        -- apply HF; [lia|]. rewrite Z.min_r by lia. split; [destruct H; lia|].
           replace (length - excl - w) with (length - (excl + w)) by lia. by replace (w + v - w) with v by lia.
        -- destruct H' as [[-> H']|]; [left; split; [done|]|by right]. intros x Hx2.
           destruct (decide (x < off + w)); [apply Hx; lia|apply H'; lia].
    + injection Hf0 as ->. cbn [check_skip_loop].
      replace (excl + w <? length) with false by lia. exists ret. eexists. split; [done|]. right.
      exists (length - excl). split; [|split].
      * destruct (Z.ltb_spec length (excl + w)); unwrap; lia.
      * apply HF; [lia|]. rewrite Z.min_l by lia. split; [lia|].
        rewrite Z.sub_diag. split; [lia|]. split; [done|]. by left.
      * left. split; [done|]. intros x Hx2. apply Hx. lia.
Qed.

(** The result 0 says that there is no bad block, and -1 that there are too few good bytes. *)
Lemma check_skip_ok c off length : 0 <= off -> 0 <= length < 0x100000000 ->
  exists r u, check_skip_len c off length = Some (r, u)
    /\ (r = -1 /\ zlen (goods c off (size - off)) < length
        \/ fits c off length u /\ (r = 0 /\ (forall x, off <= x < off + u -> good c x) \/ r = 1)).
Proof.
  intros Ho Hl. unfold check_skip_len.
  destruct (check_loop_ok c length Hl (S (S (@blocks C Driver))) off 0 0 0) as (r & u & E & H);
    [lia|lia|lia|by apply enough_blocks|].
  exists r, u. split; [exact E|]. rewrite Z.sub_0_r in H. destruct H as [H|(v & -> & H)]; [by left|right; exact H].
Qed.

Lemma fits_inside c off len used : 0 <= off -> 0 < len -> fits c off len used -> 0 <= off < size.
Proof.
  intros Ho Hl (Hu & Hg & H). split; [done|].
  destruct (decide (used = 0)) as [->|]; [rewrite goods_nil in Hg; cbn in Hg; lia|lia].
Qed.
Lemma check_fits c off len used : 0 <= off <= size -> 0 <= len < 0x100000000 -> fits c off len used ->
  exists r, check_skip_len c off len = Some (r, used) /\ (r = 0 /\ (forall x, off <= x < off + used -> good c x) \/ r = 1).
Proof.
  intros Ho Hlen Hfit. destruct (check_skip_ok c off len (proj1 Ho) Hlen) as (r & u & E & [[-> Hno]|[Hfit2 Hr]]).
  - exfalso. destruct Hfit as (Hu & <- & [->|[Hs _]]); [rewrite goods_nil in Hno; cbn in Hno; lia|].
    replace (size - off) with (used + (size - off - used)) in Hno by lia. rewrite goods_app, length_app in Hno by lia. lia.
  - exists r. by rewrite <- (fits_unique c off len u used Hfit2 Hfit).
Qed.

(** ** What an operation may change *)
(** Only good bytes from [off] up to [stop], and no block goes bad. *)
Definition kept (c c' : C) (off stop : Z) : Prop :=
  (forall b, bad c' b = bad c b) /\ forall x, ~ (off <= x < stop /\ good c x) -> cell c' x = cell c x.
Definition blank (c : C) (off stop : Z) : Prop := forall x, off <= x < stop -> good c x -> cell c x = 0xff.

Lemma kept_refl c off stop : kept c c off stop.
Proof. done. Qed.
Lemma kept_good c c' off stop x : kept c c' off stop -> good c' x <-> good c x.
Proof. intros [H _]. unfold good. by rewrite H. Qed.
Lemma kept_trans c c1 c2 off off' stop stop' top : kept c c1 off stop -> kept c1 c2 off' stop' ->
  off <= off' -> stop <= top -> stop' <= top -> kept c c2 off top.
Proof.
  intros H1 H2 Ho Hs Hs'. pose proof (fun x => kept_good c c1 off stop x H1) as Hg.
  destruct H1 as [Hb1 H1], H2 as [Hb2 H2]. split; [intros b; by rewrite Hb2|].
  intros x Hx. rewrite H2, H1; [done| |]; [|rewrite Hg]; intros [? ?]; apply Hx; (split; [lia|done]).
Qed.
Lemma kept_weaken c c' off off' stop top : kept c c' off' stop -> off <= off' -> stop <= top -> kept c c' off top.
Proof. intros [Hb H] Ho Hs. split; [done|]. intros x Hx. apply H. intros [? ?]. apply Hx. split; [lia|done]. Qed.
Lemma goods_ext c c' off n : (forall b, bad c' b = bad c b) -> goods c' off n = goods c off n.
Proof. intros H. unfold goods. apply list_filter_iff. intros x. unfold good. by rewrite H. Qed.
Lemma fits_ext c c' off len used : (forall b, bad c' b = bad c b) -> fits c off len used -> fits c' off len used.
Proof. intros H. unfold fits, good. by rewrite (goods_ext c c'), H. Qed.

(** How an operation ended, where a flash that is alive behind it says that it succeeded. *)
Definition outcome (c c' : C) (success : Prop) : Prop :=
  (healthy c -> healthy c') /\ (alive c' = true -> alive c = true /\ success)
  /\ (alive c = false -> same_bytes (cell c') (cell c)).
Lemma outcome_healthy c c' s : outcome c c' s -> healthy c -> s.
Proof. intros (H1 & H2 & _) Hc. by apply H2, healthy_alive, H1. Qed.
Lemma outcome_refl c (s : Prop) : s -> outcome c c s.
Proof. by intros Hs. Qed.
Lemma outcome_mono c c' (s s' : Prop) : outcome c c' s -> (s -> s') -> outcome c c' s'.
Proof. unfold outcome. tauto. Qed.
Lemma outcome_trans c c1 c2 s1 s2 : outcome c c1 s1 -> outcome c1 c2 s2 -> outcome c c2 (s1 /\ s2).
Proof.
  intros (H1 & H2 & H3) (H4 & H5 & H6). split; [tauto|]. split; [tauto|]. intros Hc.
  assert (alive c1 = false) as Hc1 by (destruct (alive c1); [|done]; destruct (H2 eq_refl); congruence).
  by rewrite (H6 Hc1), (H3 Hc).
Qed.

(** A write of good pages. *)
Lemma nand_write_ok c off l : 0 <= off -> on_page off -> off + zlen l <= size ->
  (forall x, off <= x < page_end (off + zlen l) -> good c x) ->
  exists r n c', nand_write c off l = (r, n, c') /\ kept c c' off (page_end (off + zlen l))
    /\ (r = 0 -> n = zlen l /\ (blank c off (page_end (off + zlen l)) -> same_bytes (cell c') (store (cell c) off l)))
    /\ outcome c c' (r = 0).
Proof.
  intros Ho Hp Hs Hg. unfold nand_write, mtd_write.
  replace (_ || _) with false by (symmetry; rewrite !orb_false_iff; lia).
  destruct mtd_writeable eqn:Ew; cbn [negb].
  2:{ exists (- EROFS), 0, c. split; [done|]. split; [apply kept_refl|]. split; [done|].
      split; [done|]. split; [|done]. intros Hh. apply alive_writeable in Hh. congruence. }
  destruct (Z.eqb_spec (zlen l) 0) as [Hl|Hl].
  { exists 0, 0, c. split; [done|]. split; [apply kept_refl|]. split; [|by apply outcome_refl]. intros _. split; [done|].
    intros _. destruct l; [|done]. symmetry. apply store_nil. }
  pose proof (write_ok c off l Ho Hp ltac:(by destruct l) Hs) as H. cbv zeta in H.
  change ((off + zlen l + writesize - 1) / writesize * writesize) with (page_end (off + zlen l)) in H.
  destruct (_write c off l) as [[r n] c']. destruct H as (Hb & Hk & Hok & Hh & Hd).
  pose proof (page_end_ok (off + zlen l)) as [Hpe _]. exists r, n, c'. split; [done|]. split; [|split].
  - split; [done|]. intros x Hx. apply Hk. intros Hin. apply Hx. split; [done|]. by apply Hg.
  - intros Hr. destruct (Hok Hr) as [-> Hst]. split; [done|]. intros Hbl. apply Hst. intros x Hx.
    apply Hbl; [done|]. by apply Hg.
  - destruct Hh as [Hh1 Hh2]; [intros x Hx; apply Hg; lia|]. by split.
Qed.

(** ** Dropping trailing 0xff *)
Lemma last_set_ok l : 0 <= last_set l <= zlen l /\ Forall (fun b => b = 0xff) (drop (Z.to_nat (last_set l)) l).
Proof.
  induction l as [|b l [IH1 IH2]]; [done|]. cbn [last_set length].
  destruct ((last_set l =? 0) && (b =? 0xff)) eqn:E.
  - split; [lia|]. apply andb_true_iff in E as [E1 E2]. apply Z.eqb_eq in E1, E2. rewrite E1 in IH2.
    cbn [Z.to_nat drop] in *. by apply Forall_cons.
  - split; [lia|]. replace (Z.to_nat (last_set l + 1)) with (S (Z.to_nat (last_set l))) by lia. exact IH2.
Qed.
Lemma page_half : 2 * B <= 0x100000000.
Proof.
  destruct block_bits as (k & Hk & E). rewrite E. change 0x100000000 with (2 * 2 ^ 31).
  apply Z.mul_le_mono_nonneg_l; [lia|]. apply Z.pow_le_mono_r; lia.
Qed.
(** What is left is a number of pages, or everything. *)
Lemma drop_ffs_ok l : zlen l <= B -> 0 <= drop_ffs l <= zlen l
  /\ Forall (fun b => b = 0xff) (drop (Z.to_nat (drop_ffs l)) l).
Proof.
  intros Hl. destruct (last_set_ok l) as [H1 H2]. pose proof page_half as Hh. pose proof nand_page_pos as (Hp & Hpb & _).
  unfold drop_ffs. pose proof (page_end_ok (last_set l)) as [H3 _]. unfold page_end in H3.
  rewrite (u32_small (last_set l + P - 1)) by lia. rewrite u32_small by lia.
  set (n := Z.min _ _). assert (last_set l <= n <= zlen l) as Hn by lia. split; [lia|].
  replace (Z.to_nat n) with (Z.to_nat (last_set l) + (Z.to_nat n - Z.to_nat (last_set l)))%nat by lia.
  rewrite <- drop_drop. by apply Forall_drop.
Qed.
(** The bytes that are not written are those of an erased page. *)
Lemma store_prefix f off l n : 0 <= n <= zlen l -> Forall (fun b => b = 0xff) (drop (Z.to_nat n) l) ->
  (forall x, off <= x < off + zlen l -> f x = 0xff) -> bytes_at (store f off (take (Z.to_nat n) l)) off (zlen l) = l.
Proof.
  intros Hn Hff Hf. apply range_lookup; [done|]. intros i d Hi. pose proof (lookup_lt_Some _ _ _ Hi) as Hil.
  unfold store. replace (off <=? off + Z.of_nat i) with true by lia.
  replace (Z.to_nat (off + Z.of_nat i - off)) with i by lia. destruct (decide (Z.of_nat i < n)).
  - by rewrite lookup_take_lt, Hi by lia.
  - rewrite lookup_ge_None_2 by (rewrite length_take; lia). rewrite Hf by lia.
    rewrite Forall_lookup in Hff. symmetry. apply (Hff (i - Z.to_nat n)%nat). rewrite lookup_drop. by rewrite <- Hi; f_equal; lia.
Qed.

(** ** Writing around bad blocks *)
Lemma bytes_of_ok l n : 0 <= n <= zlen l -> bytes_of l n = Some (take (Z.to_nat n) l).
Proof. intros H. unfold bytes_of. by replace (zlen l <? n) with false by lia. Qed.
Lemma image_app c off n m : 0 <= n -> 0 <= m -> image c off (n + m) = image c off n ++ image c (off + n) m.
Proof. intros. unfold image. by rewrite goods_app, map_app by done. Qed.

Section write.
Context (trimffs : bool) (flags : Z).
Abbreviation write_loop := (write_skip_loop trimffs).

Lemma write_piece_ok c off p w : 0 <= off -> on_page off -> off + w <= size -> 0 < w <= B -> w <= zlen p ->
  (forall x, off <= x < page_end (off + w) -> good c x) ->
  let piece := take (Z.to_nat w) p in
  let truncated := if trimffs && negb (flags .& WITH_DROP_FFS =? 0) then drop_ffs piece else w in
  exists r n c', nand_write c off (take (Z.to_nat truncated) piece) = (r, n, c') /\ kept c c' off (page_end (off + w))
    /\ (r = 0 -> blank c off (page_end (off + w)) -> bytes_at (cell c') off w = piece)
    /\ outcome c c' (r = 0).
Proof.
  intros Ho Hp Hs Hw Hl Hg piece truncated. assert (zlen piece = w) as Hpl by (unfold piece; rewrite length_take; lia).
  assert (0 <= truncated <= w /\ Forall (fun b => b = 0xff) (drop (Z.to_nat truncated) piece)) as [Ht Hff].
  { unfold truncated. case_if.
    - rewrite <- Hpl at 1. apply drop_ffs_ok. lia.
    - split; [lia|]. by rewrite drop_ge by lia. }
  assert (zlen (take (Z.to_nat truncated) piece) = truncated) as Htl by (rewrite length_take; lia).
  pose proof (page_end_mono (off + truncated) (off + w) ltac:(lia)) as Hm.
  destruct (nand_write_ok c off (take (Z.to_nat truncated) piece)) as (r & n & c' & E & Hk & Hok & Hh); [done|done|lia| |].
  { rewrite Htl. intros x Hx. apply Hg. lia. }
  rewrite Htl in Hk, Hok. exists r, n, c'. split; [exact E|]. split.
  { apply (kept_weaken c c' off off _ _ Hk); lia. }
  split; [|exact Hh]. intros Hr Hbl. destruct (Hok Hr) as [_ Hst]. rewrite Hst by (intros x Hx; apply Hbl; lia).
  pose proof (page_end_ok (off + w)) as [He _]. rewrite <- Hpl. apply store_prefix; [lia|done|].
  intros x Hx. apply Hbl; [lia|]. apply Hg. lia.
Qed.

Lemma nand_write_loop_ok length : 0 <= length < 0x100000000 -> forall fuel c off left used p,
  0 <= off -> on_page off -> 0 <= left <= length -> left <= zlen p -> fits c off left used ->
  enough fuel off ->
  exists r l' c', write_loop fuel c off length left p flags = Some (r, l', c')
    /\ kept c c' off (page_end (off + used))
    /\ (r = 0 -> l' = length /\ (blank c off (page_end (off + used)) -> image c' off used = take (Z.to_nat left) p))
    /\ outcome c c' (r = 0).
Proof.
  intros Hlen. induction fuel as [|fuel IH]; intros c off left used p Ho Hp Hleft Hl Hfit Hf;
    [by apply enough_pos in Hf as [? ?]|].
  cbn [write_skip_loop]. destruct (Z.ltb_spec 0 left) as [Hpos|Hzero].
  2:{ assert (left = 0) as -> by lia. apply fits_zero in Hfit as ->. exists 0, length, c.
      split; [done|]. split; [apply kept_refl|]. split; [|by apply outcome_refl]. intros _. split; [done|]. done. }
  pose proof (fits_inside c off left used Ho Hpos Hfit) as Hin.
  destruct (block_step c off Hin) as (w & Hw & Hin2 & Hf2 & Hbad & Hgood & (_ & Hm & Hr) & Hp2 & Hpages).
  pose proof (enough_pos _ _ Hf) as [fuel2 Hf0]. apply Hf2 in Hf. rewrite Hm, Hr. clear Hm Hr Hf2.
  pose proof size_blocks as (Hsize & _ & _). case_bool_decide as Hg.
  - clear Hgood.
    destruct (proj1 (proj2 (Hbad Hg) left used Hpos) Hfit) as [Hwu Hfit2].
    destruct (IH c (off + w) left (used - w) p) as (r & l' & c' & E & Hk & Hok & Hh); [lia|done|lia|lia|done|exact Hf|].
    replace (off + w + (used - w)) with (off + used) in Hk, Hok by lia.
    exists r, l', c'. split; [exact E|]. split; [|split; [|exact Hh]].
    + apply (kept_weaken c c' off (off + w) _ _ Hk); lia.
    + intros H0. destruct (Hok H0) as [H1 H2]. split; [exact H1|]. intros Hbl.
      rewrite <- H2 by (intros x Hx; apply Hbl; lia). replace used with (w + (used - w)) at 1 by lia.
      rewrite image_app by lia. unfold image at 1. rewrite (goods_ext c c') by apply Hk.
      by rewrite (proj1 (Hbad Hg)).
  - clear Hbad. destruct (Hgood Hg) as (HG & HF & Hx). clear Hgood.
    destruct (proj1 (HF left used Hpos) Hfit) as [Hwu Hfit2]. set (n := Z.min left w) in *.
    replace (if left <? w then left else w) with n by (unfold n; destruct (Z.ltb_spec left w); lia).
    assert (0 < n <= w /\ n <= left) as [Hn Hnl] by (unfold n; lia).
    rewrite bytes_of_ok by lia. cbn [mbind option_bind].
    pose proof (Hpages n ltac:(lia)) as Hpn. pose proof (page_end_ok (off + n)) as [Hpe _].
    destruct (write_piece_ok c off p n) as (r1 & m & c1 & -> & Hk1 & Hok1 & Hh1); [lia|done|lia|lia|lia| |].
    { intros x Hx2. apply Hx. lia. }
    pose proof (page_end_mono (off + n) (off + used) ltac:(lia)) as Hmono.
    destruct (Z.eqb_spec r1 0) as [->|Hr1]; cbn [negb].
    2:{ exists r1. do 2 eexists. split; [done|]. split; [|split; [done|]].
        - by apply (kept_weaken c c1 off off _ _ Hk1).
        - exact Hh1. }
    apply (fits_ext c c1) in Hfit2; [|apply Hk1]. rewrite (u32_small (left - n)) by lia.
    assert (n = w \/ (n = left /\ used = n)) as Hlast.
    { destruct (decide (n = w)); [by left|right]. assert (n = left) by (unfold n in *; lia).
      split; [done|]. replace (left - n) with 0 in Hfit2 by lia. apply fits_zero in Hfit2. lia. }
    assert (exists r l' c', write_loop fuel c1 (off + n) length (left - n) (drop (Z.to_nat n) p) flags = Some (r, l', c')
      /\ kept c1 c' (off + n) (page_end (off + used))
      /\ (r = 0 -> l' = length /\ (blank c1 (off + n) (page_end (off + used)) \/ used = n ->
           image c' (off + n) (used - n) = take (Z.to_nat (left - n)) (drop (Z.to_nat n) p)))
      /\ outcome c1 c' (r = 0)) as (r & l' & c' & E & Hk & Hok & Hh).
    { destruct Hlast as [Hlast|[Hlast Hu]].
      - destruct (IH c1 (off + n) (left - n) (used - n) (drop (Z.to_nat n) p)) as (r & l' & c' & E & Hk & Hok & Hh);
          [lia|by rewrite Hlast|lia|rewrite length_drop; lia|exact Hfit2|by rewrite Hlast|].
        replace (off + n + (used - n)) with (off + used) in Hk, Hok by lia.
        exists r, l', c'. split; [exact E|]. split; [exact Hk|]. split; [|exact Hh].
        intros H0. destruct (Hok H0) as [H1 H2]. split; [exact H1|]. intros [Hbl|Hu]; [by apply H2|].
        rewrite Hu, Z.sub_diag in *. destruct Hfit2 as (_ & Hz & _). rewrite goods_nil in Hz. cbn in Hz.
        by rewrite <- Hz.
      - injection Hf0 as ->. exists 0, length, c1. rewrite <- Hlast, Hu, Z.sub_diag. cbn [write_skip_loop].
        split; [done|]. split; [apply kept_refl|]. split; [|by apply outcome_refl].
        intros _. split; [done|]. intros _. done. }
    rewrite E. exists r, l', c'. split; [done|]. split; [|split].
    + apply (kept_trans c c1 c' off (off + n) _ _ _ Hk1 Hk); [lia|exact Hmono|lia].
    + intros H0. destruct (Hok H0) as [H1 H2]. split; [exact H1|]. intros Hbl.
      replace used with (n + (used - n)) at 1 by lia. rewrite image_app by lia.
      assert (image c' (off + n) (used - n) = take (Z.to_nat (left - n)) (drop (Z.to_nat n) p)) as ->.
      { apply H2. destruct Hlast as [Hlast|[_ Hu]]; [left|by right]. intros x Hx2 Hgx.
        rewrite (kept_good c c1 off _ x Hk1) in Hgx. destruct Hk1 as [_ Hk1]. rewrite Hk1 by (intros [? _]; lia).
        apply Hbl; [lia|done]. }
      replace (image c' off n) with (bytes_at (cell c') off n).
      * rewrite (bytes_at_ext _ (cell c1)).
        -- rewrite (Hok1 eq_refl) by (intros x Hx2; apply Hbl; lia).
           replace (Z.to_nat left) with (Z.to_nat n + Z.to_nat (left - n))%nat by lia. by rewrite take_take_drop.
        -- intros x Hx2. destruct Hk as [_ Hk]. apply Hk. lia.
      * unfold image. destruct Hk as [Hb _], Hk1 as [Hb1 _]. rewrite (goods_ext c c') by (intros b; by rewrite Hb).
        by rewrite HG by lia.
    + apply (outcome_mono _ _ _ _ (outcome_trans _ _ _ _ _ Hh1 Hh)). tauto.
Qed.

(** The last page of what is needed is in the last good block. *)
Lemma good_pages c off used : 0 <= off -> off + used <= size -> 0 < used ->
  (forall x, off <= x < off + used -> good c x) -> forall x, off <= x < page_end (off + used) -> good c x.
Proof.
  intros Ho Hs Hu Hg x Hx. destruct (decide (x < off + used)); [apply Hg; lia|].
  destruct (block_step c (off + used - 1) ltac:(lia)) as (w & Hw & _ & _ & _ & Hgood & _ & _ & Hp).
  destruct (Hgood (Hg (off + used - 1) ltac:(lia))) as (_ & _ & H). apply H.
  specialize (Hp 1 ltac:(lia)). replace (off + used - 1 + 1) with (off + used) in Hp by lia. lia.
Qed.

(** A write that is not refused. *)
Lemma write_skip_ok c off len lim buf used : 0 <= off <= size -> on_page off -> 0 <= len < 0x100000000 ->
  len <= zlen buf -> fits c off len used -> used <= lim ->
  exists r l c', nand_write_skip_bad trimffs c off len lim buf flags = Some (r, l, used, c')
    /\ kept c c' off (page_end (off + used))
    /\ (r = 0 -> l = len /\ (blank c off (page_end (off + used)) -> image c' off used = take (Z.to_nat len) buf))
    /\ outcome c c' (r = 0).
Proof.
  intros Ho Hp Hlen Hl Hfit Hlim. unfold nand_write_skip_bad. rewrite land_page.
  rewrite (Hp : off mod P = 0). cbn [Z.eqb negb].
  destruct (check_fits c off len used Ho Hlen Hfit) as (r0 & -> & Hr0). cbn [mbind option_bind].
  destruct (Z.ltb_spec r0 0); [lia|]. destruct (Z.ltb_spec lim used); [lia|]. case_if.
  - apply andb_true_iff in E as [E _]. apply Z.eqb_eq in E as ->. destruct Hr0 as [[_ Hg]|]; [|done].
    assert (used = len) as ->.
    { destruct Hfit as (Hu & Hf & _). unfold goods in Hf. rewrite filter_all, length_seqZ in Hf; [lia|].
      apply Forall_forall. intros x Hx%elem_of_seqZ. apply Hg. lia. }
    rewrite bytes_of_ok by lia. cbn [mbind option_bind].
    assert (zlen (take (Z.to_nat len) buf) = len) as Htl by (rewrite length_take; lia).
    assert (off + len <= size) as Hs by (destruct Hfit as (_ & _ & [?|[? _]]); lia).
    assert (forall x, off <= x < page_end (off + len) -> good c x) as Hg2.
    { destruct (decide (len = 0)) as [->|]; [|by apply good_pages; [lia|lia|lia|]].
      rewrite Z.add_0_r, page_end_id by exact Hp. lia. }
    destruct (nand_write_ok c off (take (Z.to_nat len) buf)) as (r & n & c' & -> & Hk & Hok & Hh);
      [lia|done|lia|by rewrite Htl|]. rewrite Htl in Hk, Hok.
    exists r, (if r =? 0 then n else 0), c'. split; [done|]. split; [exact Hk|]. split; [|exact Hh].
    intros ->. destruct (Hok eq_refl) as [-> Hst]. split; [done|]. intros Hbl.
    unfold image. rewrite (goods_ext c c') by apply Hk. unfold goods. rewrite filter_all.
    + change (bytes_at (cell c') off len = take (Z.to_nat len) buf). rewrite (Hst Hbl). rewrite <- Htl at 2.
      apply bytes_at_store.
    + apply Forall_forall. intros x Hx%elem_of_seqZ. apply Hg. lia.
  - destruct (nand_write_loop_ok len Hlen (S (S (@blocks C Driver))) c off len used buf) as (r & l & c' & E2 & Hrest);
      [lia|done|lia|lia|done|apply enough_blocks; lia|].
    rewrite E2. cbn [mbind option_bind]. exists r, l, c'. split; [done|]. exact Hrest.
Qed.
End write.

(** ** Reading around bad blocks *)
Definition unchanged (c c' : C) : Prop := (forall b, bad c' b = bad c b) /\ same_bytes (cell c') (cell c).
Lemma nand_read_ok c off n : 0 <= off -> 0 <= n -> off + n <= size ->
  exists r m d c', nand_read c off n = (r, m, d, c') /\ zlen d <= n /\ unchanged c c'
    /\ (r = 0 \/ r = - EUCLEAN -> m = n /\ d = bytes_at (cell c) off n)
    /\ outcome c c' (r = 0 \/ r = - EUCLEAN).
Proof.
  intros Ho Hn Hs. unfold nand_read, mtd_read.
  replace (_ || _) with false by (symmetry; rewrite !orb_false_iff; lia).
  destruct (Z.eqb_spec n 0) as [->|Hne].
  { exists 0, 0, [], c. split; [done|]. split; [done|]. split; [by split|]. split; [done|]. apply outcome_refl. by left. }
  pose proof (read_ok c off n Ho ltac:(lia) Hs) as H. destruct (_read c off n) as [[r d] c'].
  destruct H as (Hz & Hb & Hc & Hd & Hh & Ha). do 4 eexists. split; [done|]. split; [done|]. split; [by split|]. split.
  - intros Hr. assert (0 <= r \/ r = - EUCLEAN) as Hr2 by (destruct (Z.ltb_spec r 0); [right; unfold EUCLEAN in *; lia|by left]).
    rewrite (Hd Hr2). split; [by apply bytes_at_len|done].
  - split; [exact Hh|]. split; [|done]. intros Hc2. destruct (Ha Hc2) as [Hc3 Hr]. split; [done|].
    destruct (Z.ltb_spec r 0); [lia|]. case_if; [by left|]. case_if; [by right|by left].
Qed.
Lemma unchanged_trans c c1 c2 : unchanged c c1 -> unchanged c1 c2 -> unchanged c c2.
Proof. intros [H1 H2] [H3 H4]. split; [intros b; by rewrite H3|by rewrite H4]. Qed.
Lemma image_ext c c' off n : unchanged c c' -> image c' off n = image c off n.
Proof. intros [Hb Hc]. unfold image. rewrite (goods_ext c c') by done. apply map_ext. exact Hc. Qed.

Lemma read_loop_ok length : 0 <= length < 0x100000000 -> forall fuel c off left used,
  0 <= off -> 0 <= left <= length -> fits c off left used -> enough fuel off ->
  exists r l' d c', read_skip_loop fuel c off length left = Some (r, l', d, c') /\ zlen d <= left /\ unchanged c c'
    /\ (r = 0 -> l' = length /\ d = image c off used)
    /\ outcome c c' (r = 0).
Proof.
  intros Hlen. induction fuel as [|fuel IH]; intros c off left used Ho Hleft Hfit Hf; [by apply enough_pos in Hf as [? ?]|].
  cbn [read_skip_loop]. destruct (Z.ltb_spec 0 left) as [Hpos|Hzero].
  2:{ assert (left = 0) as -> by lia. apply fits_zero in Hfit as ->. exists 0, length, [], c.
      split; [done|]. split; [done|]. split; [by split|]. split; [done|]. by apply outcome_refl. }
  pose proof (fits_inside c off left used Ho Hpos Hfit) as Hin.
  destruct (block_step c off Hin) as (w & Hw & Hin2 & Hf2 & Hbad & Hgood & (_ & Hm & Hr) & _).
  pose proof (enough_pos _ _ Hf) as [fuel2 Hf0]. apply Hf2 in Hf. rewrite Hm, Hr. clear Hm Hr Hf2.
  pose proof size_blocks as (Hsize & _ & _). case_bool_decide as Hg.
  - destruct (proj1 (proj2 (Hbad Hg) left used Hpos) Hfit) as [Hwu Hfit2].
    destruct (IH c (off + w) left (used - w)) as (r & l' & d & c' & E & Hz & Hk & Hok & Hh); [lia|lia|done|exact Hf|].
    exists r, l', d, c'. split; [exact E|]. split; [exact Hz|]. split; [exact Hk|]. split; [|exact Hh]. intros H0.
    destruct (Hok H0) as [-> ->]. split; [done|]. replace used with (w + (used - w)) at 2 by lia.
    rewrite image_app by lia. unfold image at 2. by rewrite (proj1 (Hbad Hg)).
  - destruct (Hgood Hg) as (HG & HF & _). clear Hbad Hgood.
    destruct (proj1 (HF left used Hpos) Hfit) as [Hwu Hfit2]. set (n := Z.min left w) in *.
    replace (if left <? w then left else w) with n by (unfold n; destruct (Z.ltb_spec left w); lia).
    assert (0 < n <= w /\ n <= left) as [Hn Hnl] by (unfold n; lia).
    destruct (nand_read_ok c off n) as (r1 & m & d1 & c1 & -> & Hz1 & Hk1 & Hok1 & Hh1); [lia|lia|lia|].
    destruct (decide (r1 = 0 \/ r1 = - EUCLEAN)) as [Hr1|Hr1].
    2:{ replace (negb (r1 =? 0) && negb (r1 =? - EUCLEAN)) with true
          by (symmetry; rewrite andb_true_iff, !negb_true_iff, !Z.eqb_neq; tauto).
        do 4 eexists. split; [done|]. split; [lia|]. split; [exact Hk1|]. split; [intros ->; tauto|].
        apply (outcome_mono _ _ _ _ Hh1). tauto. }
    replace (negb (r1 =? 0) && negb (r1 =? - EUCLEAN)) with false
      by (symmetry; rewrite andb_false_iff, !negb_false_iff, !Z.eqb_eq; tauto).
    destruct (Hok1 Hr1) as [-> ->]. rewrite (u32_small (left - n)) by lia.
    apply (fits_ext c c1) in Hfit2; [|apply Hk1].
    assert (enough fuel (off + n) \/ left = n) as Hf3.
    { destruct (decide (left = n)); [by right|left]. assert (n = w) as -> by (unfold n in *; lia). exact Hf. }
    assert (exists r l' d c', read_skip_loop fuel c1 (off + n) length (left - n) = Some (r, l', d, c')
      /\ zlen d <= left - n /\ unchanged c1 c'
      /\ (r = 0 -> l' = length /\ d = image c1 (off + n) (used - n)) /\ outcome c1 c' (r = 0))
      as (r & l' & d & c' & E & Hz & Hk & Hok & Hh).
    { destruct Hf3 as [Hf3|Hlast]; [apply IH; [lia|lia|done|done]|]. injection Hf0 as ->. rewrite Hlast, Z.sub_diag in *.
      apply fits_zero in Hfit2 as ->. exists 0, length, [], c1. split; [done|].
      split; [done|]. split; [by split|]. split; [done|]. by apply outcome_refl. }
    rewrite E. cbn [mbind option_bind]. exists r, l'. do 2 eexists. split; [done|].
    split; [rewrite length_app; lia|]. split; [by apply (unchanged_trans c c1 c')|]. split.
    + intros H0. destruct (Hok H0) as [-> ->]. split; [done|]. rewrite (image_ext c c1) by done.
      replace used with (n + (used - n)) at 2 by lia. rewrite image_app by lia. f_equal. unfold image. by rewrite HG by lia.
    + apply (outcome_mono _ _ _ _ (outcome_trans _ _ _ _ _ Hh1 Hh)). tauto.
Qed.

Lemma read_skip_ok c off len lim used : 0 <= off <= size -> on_page off -> 0 <= len < 0x100000000 ->
  fits c off len used -> used <= lim ->
  exists r l d c', nand_read_skip_bad c off len lim = Some (r, l, used, d, c') /\ zlen d <= len /\ unchanged c c'
    /\ (r = 0 -> l = len /\ d = image c off used) /\ outcome c c' (r = 0).
Proof.
  intros Ho Hp Hlen Hfit Hlim. unfold nand_read_skip_bad. rewrite land_page.
  rewrite (Hp : off mod P = 0). cbn [Z.eqb negb].
  destruct (check_fits c off len used Ho Hlen Hfit) as (r0 & -> & Hr0). cbn [mbind option_bind].
  destruct (Z.ltb_spec r0 0); [lia|]. destruct (Z.ltb_spec lim used); [lia|]. case_if.
  - apply Z.eqb_eq in E as ->. destruct Hr0 as [[_ Hg]|]; [|done].
    assert (goods c off used = seqZ off used) as Hall.
    { apply filter_all, Forall_forall. intros x Hx%elem_of_seqZ. apply Hg. lia. }
    assert (used = len) as -> by (destruct Hfit as (? & Hf & _); rewrite Hall, length_seqZ in Hf; lia).
    assert (off + len <= size) as Hs by (destruct Hfit as (_ & _ & [?|[? _]]); lia).
    destruct (nand_read_ok c off len) as (r & m & d & c' & -> & Hz & Hk & Hok & Hh); [lia|lia|lia|].
    destruct (decide (r = 0 \/ r = - EUCLEAN)) as [Hr|Hr].
    + replace ((r =? 0) || (r =? - EUCLEAN)) with true by (symmetry; rewrite orb_true_iff, !Z.eqb_eq; tauto).
      destruct (Hok Hr) as [-> ->]. do 4 eexists. split; [done|]. split; [done|]. split; [exact Hk|]. split.
      * intros _. split; [done|]. unfold image. by rewrite Hall.
      * by apply (outcome_mono _ _ _ _ Hh).
    + replace ((r =? 0) || (r =? - EUCLEAN)) with false by (symmetry; rewrite orb_false_iff, !Z.eqb_neq; tauto).
      do 4 eexists. split; [done|]. split; [done|]. split; [exact Hk|]. split; [intros ->; tauto|].
      apply (outcome_mono _ _ _ _ Hh). tauto.
  - destruct (read_loop_ok len Hlen (S (S (Z.to_nat len + @blocks C Driver))) c off len used) as (r & l & d & c' & E2 & Hrest);
      [lia|lia|done|apply (enough_more _ _ _ (enough_blocks off (proj1 Ho))); lia|].
    rewrite E2. cbn [mbind option_bind]. exists r, l, d, c'. split; [done|]. exact Hrest.
Qed.

(** ** What is refused *)
Lemma write_skip_refused trimffs flags c off len lim buf : 0 <= off -> 0 <= len < 0x100000000 ->
  ~ on_page off \/ zlen (goods c off (size - off)) < len \/ (exists used, fits c off len used /\ lim < used) ->
  exists r u, nand_write_skip_bad trimffs c off len lim buf flags = Some (r, 0, u, c)
    /\ (r = - EINVAL \/ r = - EFBIG).
Proof.
  intros Ho Hlen Hno. unfold nand_write_skip_bad. rewrite land_page.
  destruct (Z.eqb_spec (off mod P) 0) as [Hp|Hp]; cbn [negb]; [|do 2 eexists; split; [done|by left]].
  destruct (check_skip_ok c off len Ho Hlen) as (r0 & u & -> & Hres). cbn [mbind option_bind].
  destruct Hres as [[-> _]|[Hfit Hr0]]; [do 2 eexists; split; [done|by left]|].
  destruct (Z.ltb_spec r0 0); [do 2 eexists; split; [done|by left]|].
  destruct Hno as [Hno|[Hno|(v & Hv & Hlim)]]; [done| |].
  - exfalso. destruct Hfit as (Hu & <- & [->|[Hs _]]); [rewrite goods_nil in Hno; cbn in Hno; lia|].
    replace (size - off) with (u + (size - off - u)) in Hno by lia. rewrite goods_app, length_app in Hno by lia. lia.
  - rewrite (fits_unique c off len u v Hfit Hv). destruct (Z.ltb_spec lim v); [|lia].
    do 2 eexists. split; [done|by right].
Qed.

(** ** Erasing around bad blocks *)
Lemma lldiv_ok n d : 0 <= n < 0x10000000000000000 -> 0 < d < 0x100000000 -> lldiv n d = Some (n / d).
Proof. intros Hn Hd. unfold lldiv. by rewrite do_div_ok. Qed.
Lemma block_aligned a : 0 <= a < size -> a mod B = 0 -> exists w, w = B /\ a + w <= size /\ (a + w) mod B = 0
  /\ (forall x, x / B = a / B <-> a <= x < a + w).
Proof.
  intros Ha Hm. exists B. split; [done|]. pose proof (next_block a Ha) as H. rewrite Hm in H. split; [lia|].
  split; [by rewrite <- Z.add_mod_idemp_l, Hm, Z.add_0_l, Z_mod_same_full by (pose proof size_blocks; lia)|].
  intros x. rewrite block_of, Hm. lia.
Qed.
(** The answer for a block that was not asked to be scrubbed. *)
Lemma block_answer c a : 0 <= a < size -> 0 <= mtd_block_isbad c a /\ (good c a <-> mtd_block_isbad c a = 0).
Proof.
  intros Ha. unfold mtd_block_isbad, good. destruct isbad_ok as (f & -> & Hf). destruct (Hf c a Ha) as [H0 E].
  replace (_ || _) with false by (symmetry; rewrite orb_false_iff; lia). split; [done|].
  destruct (Z.eqb_spec (f c a) 0); destruct (bad c (a / B)); naive_solver.
Qed.
Lemma mtd_erase_ok c a : 0 <= a < size -> a mod B = 0 -> exists r c', mtd_erase c a B false = (r, c')
  /\ (forall b, bad c' b = bad c b) /\ (forall x, x / B <> a / B -> cell c' x = cell c x)
  /\ (good c a -> outcome c c' (forall x, x / B = a / B -> cell c' x = 0xff)).
Proof.
  intros Ha Hm. unfold mtd_erase. destruct (block_aligned a Ha Hm) as (w & -> & Hs & _).
  replace (_ || _) with false by (symmetry; rewrite orb_false_iff; lia).
  destruct mtd_writeable eqn:Ew; cbn [negb].
  2:{ exists (- EROFS), c. split; [done|]. split; [done|]. split; [done|]. intros _. split; [done|]. split; [|done].
      intros Hc. apply alive_writeable in Hc. congruence. }
  replace (B =? 0) with false by (pose proof size_blocks; lia).
  pose proof (erase_ok c a Ha Hm) as H. destruct (_erase c a B false) as [r c']. destruct H as (Hb & Hk & Hff & Hh & Hd).
  exists r, c'. split; [done|]. split; [done|]. split; [done|]. intros Hg. destruct (Hh Hg) as [Hh1 Hh2].
  split; [done|]. split; [|done]. intros Hc. destruct (Hh2 Hc) as [Hc2 Hr]. split; [done|]. by apply Hff.
Qed.

Section erase.
Context (len off : Z).
Abbreviation opts := (mkerase len off false false false 0).
Lemma nand_erase_loop_ok el : 0 <= el < 0x100000000 -> forall fuel c addr done_, 0 <= addr -> addr mod B = 0 ->
  0 <= done_ <= el -> addr + (el - done_) * B <= size -> el - done_ < Z.of_nat fuel ->
  let stop := addr + (el - done_) * B in
  exists c', erase_loop fuel c opts addr el done_ = Some (0, c') /\ kept c c' addr stop
    /\ outcome c c' (blank c' addr stop).
Proof.
  pose proof size_blocks as (Hsize & _ & HB). intros Hel.
  induction fuel as [|fuel IH]; intros c addr n Ha Hm Hn Hs Hf stop; [lia|].
  cbn [erase_loop er_lim er_offset scrub spread jffs2 andb negb]. rewrite Z.eqb_refl. cbn [negb andb].
  destruct (Z.ltb_spec n el) as [Hlt|Hge].
  2:{ exists c. split; [done|]. split; [apply kept_refl|]. apply outcome_refl. intros x Hx. nia. }
  assert (addr < size) as Hin by nia.
  destruct (block_aligned addr (conj Ha Hin) Hm) as (w & -> & Hs2 & Hm2 & Hblk).
  destruct (block_answer c addr (conj Ha Hin)) as [Hans Hgood]. rewrite u32_small by lia.
  replace (if 0 <? mtd_block_isbad c addr then _ else _) with
    (let c1 := if 0 <? mtd_block_isbad c addr then c else snd (mtd_erase c addr B false) in
     erase_loop fuel c1 opts (addr + B) el (n + 1)).
  2:{ destruct (Z.ltb_spec 0 (mtd_block_isbad c addr)); [done|]. destruct (Z.ltb_spec (mtd_block_isbad c addr) 0); [lia|].
      destruct (mtd_erase c addr B false) as [r c1]. cbn [snd]. by rewrite andb_false_r. }
  cbv zeta. set (c1 := if 0 <? mtd_block_isbad c addr then c else snd (mtd_erase c addr B false)).
  assert (kept c c1 addr (addr + B) /\ outcome c c1 (blank c1 addr (addr + B))) as [Hk1 Hh1].
  { unfold c1. destruct (Z.ltb_spec 0 (mtd_block_isbad c addr)) as [Hbad|Hok].
    - split; [apply kept_refl|]. apply outcome_refl. intros x Hx Hg. exfalso.
      unfold good in *. rewrite (proj2 (Hblk x) Hx) in Hg. apply Hgood in Hg. lia.
    - assert (good c addr) as Hg by (apply Hgood; lia). 
      destruct (mtd_erase_ok c addr (conj Ha Hin) Hm) as (r & c' & -> & Hb & Hk & Hh). cbn [snd]. split.
      + split; [exact Hb|]. intros x Hx. apply Hk. intros Heq. apply Hx. split; [by apply Hblk|].
        unfold good. by rewrite Heq.
      + apply (outcome_mono _ _ _ _ (Hh Hg)). intros Hff x Hx _. apply Hff. by apply Hblk. }
  clearbody c1. destruct (IH c1 (addr + B) (n + 1)) as (c' & E & Hk & Hh); [lia|exact Hm2|lia|lia|lia|].
  replace (addr + B + (el - (n + 1)) * B) with stop in Hk, Hh by (unfold stop; lia).
  assert (addr + B <= stop) as Hle by (unfold stop; nia).
  exists c'. split; [exact E|]. split.
  - apply (kept_trans c c1 c' addr (addr + B) (addr + B) stop stop Hk1 Hk); lia.
  - apply (outcome_mono _ _ _ _ (outcome_trans _ _ _ _ _ Hh1 Hh)). intros [Hb1 Hb2] x Hx Hg. destruct (decide (addr + B <= x)); [apply Hb2; [lia|done]|].
    destruct Hk as [Hbad Hk]. rewrite Hk by lia. apply Hb1; [lia|]. unfold good in *. by rewrite <- Hbad.
Qed.

(** The blocks of the range, of which the last one counts whole. *)
Lemma nand_erase_ok c : 0 <= off -> off mod B = 0 -> 0 <= len -> off + (len + B - 1) / B * B <= size ->
  let stop := off + (len + B - 1) / B * B in
  exists c', nand_erase_opts c opts = Some (0, c') /\ kept c c' off stop
    /\ outcome c c' (blank c' off stop).
Proof.
  pose proof size_blocks as (Hsize & _ & HB). intros Ho Hm Hl Hs stop. unfold nand_erase_opts.
  cbn [er_length er_offset scrub]. rewrite land_block, Hm. cbn [Z.eqb negb].
  pose proof (Z.div_pos (len + B - 1) B ltac:(lia) (proj1 HB)) as Hdp.
  pose proof (Z.div_mod (len + B - 1) B ltac:(lia)) as Hdm.
  pose proof (Z.mod_pos_bound (len + B - 1) B (proj1 HB)) as Hmb.
  unfold u64. rewrite Z.mod_small by nia. rewrite lldiv_ok by nia. cbn [mbind option_bind].
  remember ((len + B - 1) / B) as n eqn:En. clear Hdm Hmb. assert (n <= n * B) as Hnb by nia. rewrite u32_small by lia.
  destruct (nand_erase_loop_ok n ltac:(lia) (S (S (Z.to_nat n + @blocks C Driver))) c off 0) as (c' & E & H);
    [done|done|lia|by rewrite Z.sub_0_r|lia|].
  rewrite Z.sub_0_r in H. by exists c'.
Qed.
End erase.
End laws.

(** ** A flash with bad blocks that can be computed *)
(** Programming an erased byte stores it, and any other byte loses bits. *)
Record toy_nand := mk_nand { cells : Z -> Z; bads : list Z; ok : bool }.
Definition program (f : Z -> Z) (a : Z) (l : list Z) : Z -> Z := fun x =>
  let v := store f a l x in
  if (a <=? x) && (x <? a + zlen l) then if f x =? 0xff then v else v .& f x else f x.
#[local] Instance toy_mtd : MtdDriver toy_nand := {
  mtd_size := 128; erasesize := 32; writesize := 8; oobsize := 0; mtd_writeable := true;
  bitflip_threshold := 1; ecc_strength := 0;
  _read c a n := (if ok c then 0 else -5, bytes_at (cells c) a n, c);
  _write c a l := if ok c then (0, zlen l, mk_nand (program (cells c) a l) (bads c) true) else (-5, 0, c);
  _erase c a n _ :=
    if ok c then (0, mk_nand (fun x => if (a <=? x) && (x <? a + n) then 0xff else cells c x) (bads c) true) else (-5, c);
  _block_isbad := Some (fun c a => if bool_decide (a / 32 ∈ bads c) then 1 else 0);
  _block_markbad := None; _write_oob := None; oobavail := 0; drop_bbt c := c; scan_bbt c := c }.
Lemma program_ok f a l : (forall x, ~ (a <= x < a + zlen l) -> program f a l x = f x)
  /\ ((forall x, a <= x < a + zlen l -> f x = 0xff) -> same_bytes (program f a l) (store f a l)).
Proof.
  split.
  - intros x Hx. unfold program. by replace ((a <=? x) && _) with false by (symmetry; rewrite andb_false_iff; lia).
  - intros Hf x. unfold program. case_if.
    + rewrite Hf by (apply andb_true_iff in E; lia). done.
    + rewrite store_outside; [done|]. apply andb_false_iff in E. lia.
Qed.
#[local] Instance toy_mtd_laws : MtdLaws toy_nand.
Proof.
  refine {| cell := cells; bad c b := bool_decide (b ∈ bads c); healthy c := ok c = true; alive := ok |}.
  - exists 3, 5, 4. done.
  - done.
  - done.
  - eexists. split; [done|]. intros c ofs _. cbn. by case_bool_decide.
  - intros c from len _ Hl _. cbn [_read toy_mtd]. split; [rewrite bytes_at_len; lia|]. split; [done|]. split; [done|]. split; [done|]. split; [done|]. by intros ->.
  - intros c to l Ho Hm Hl Hs. cbn. destruct (program_ok (cells c) to l) as [H1 H2].
    assert (to + zlen l <= (to + zlen l + 8 - 1) / 8 * 8) by zdm.
    destruct (ok c) eqn:Eok; cbn; rewrite ?Eok; (split; [done|]); (split; [intros x Hx; try (apply H1; lia); done|]);
      (split; [|by split]); [|done].
    intros _. split; [done|]. intros Hf. apply H2. intros x Hx. apply Hf. lia.
  - intros c a Ha Hm. cbn in *. assert (a = a / 32 * 32) as Ea by (pose proof (Z.div_mod a 32 ltac:(lia)); lia).
    destruct (ok c) eqn:Eok; cbn; rewrite ?Eok; (split; [done|]); [|by repeat split]. split; [|split; [|by repeat split]].
    + intros x Hx. replace ((a <=? x) && (x <? a + 32)) with false; [done|]. symmetry. apply andb_false_iff.
      destruct (decide (a <= x)); [|left; lia]. right. destruct (Z.ltb_spec x (a + 32)); [|done]. exfalso. apply Hx. zdm.
    + intros _ x Hx. replace ((a <=? x) && (x <? a + 32)) with true; [done|]. symmetry. apply andb_true_iff. zdm.
Defined.


(** Twelve bytes from the last page of the block 0 on; the blocks 1 and 3 are bad. *)
Definition holes : toy_nand := mk_nand (fun _ => 0xff) [1; 3] true.
Definition twelve : list Z := [1; 2; 3; 4; 5; 6; 7; 8; 9; 10; 0xff; 12].

(** ** Observations *)
(** A length that does not fit into the flash is refused with [*actual] not 0 but the rest of the flash. *)
Lemma refused_actual : nand_write_skip_bad false holes 24 60 100 (repeat 0 60) 0 = Some (- EINVAL, 0, 104, holes).
Proof. vm_compute. reflexivity. Qed.
(** Where erasing fails, [nand_erase_opts] says 0 all the same. *)
Lemma failure_hidden f : nand_erase_opts (mk_nand f [] false) (mkerase 64 0 false false false 0) = Some (0, mk_nand f [] false).
Proof. reflexivity. Qed.
(** A flash of 8 GiB with a bad block above 4 GiB; the state is where was written. *)
#[local] Instance big_mtd : MtdDriver (list Z) := {
  mtd_size := 0x200000000; erasesize := 0x20000; writesize := 0x800; oobsize := 0; mtd_writeable := true;
  bitflip_threshold := 1; ecc_strength := 0;
  _read c a n := (0, repeat 0xff (Z.to_nat n), c); _write c a l := (0, zlen l, a :: c); _erase c a n _ := (0, c);
  _block_isbad := Some (fun c a => if a =? 0x100020000 then 1 else 0);
  _block_markbad := None; _write_oob := None; oobavail := 0; drop_bbt c := c; scan_bbt c := c }.
(** The 32 bits of the mask give another block than the one at the offset: the bad block is
    written to. *)
Lemma bad_block_written :
  nand_write_skip_bad (C := list Z) false [] 0x100020000 4 0x40000 [1; 2; 3; 4] 0
  = Some (0, 4, 0x20004, [0x100020000]).
Proof. vm_compute. reflexivity. Qed.
