(* ===== verification/CmdNand.v ===== *)
(** * The command [nand]: [common/cmd_nand.c]

    Erasing, reading and writing a NAND flash from the command line: the offset and the size are
    numbers or the name of a partition, and the bytes come from memory or go there.  The commands
    work on one device ([CONFIG_SYS_MAX_NAND_DEVICE] is 1); what is printed is not modelled. *)
From S2P Require Import Prelude Ctype Mem CStr Hashtable Vsprintf EnvAttr EnvVar Cmdline Nand.

(** What the commands change: the environment, the flash and the memory; [keys] are the
    characters that will be typed. *)
Record machine (C : Type) := mkmach {
  menv : genv;
  chip : C;
  memory : mem;
  nand_curr_device : Z;
  keys : list Z }.
Arguments mkmach {C}.  Arguments menv {C}.  Arguments chip {C}.  Arguments memory {C}.
Arguments nand_curr_device {C}.  Arguments keys {C}.

Definition CONFIG_SYS_MAX_NAND_DEVICE : Z := 1.

Section cmd.
Context {Hooks : EnvHooks} {C : Type} {Driver : MtdDriver C} (malloc_ok : Z -> bool).
Context (CONFIG_CMD_NAND_TRIMFFS : bool).
(** Whether [nand_info[0]] has a name, and the offset and the size of a partition. *)
Context (has_name : bool) (get_part : list Z -> option (Z * Z)).
(** Printing a page; access to whole pages with their spare bytes, and to the spare bytes. *)
Context (nand_dump : C -> Z -> bool -> bool -> Z * C).
Context (raw_access oob_access : machine C -> Z -> Z -> Z -> bool -> option (Z * machine C)).
Abbreviation mach := (machine C).

Definition set_chip (m : mach) (c : C) : mach := mkmach (menv m) c (memory m) (nand_curr_device m) (keys m).
Definition set_memory (m : mach) (w : mem) : mach := mkmach (menv m) (chip m) w (nand_curr_device m) (keys m).
Definition set_menv (m : mach) (g : genv) : mach := mkmach g (chip m) (memory m) (nand_curr_device m) (keys m).

(** ** Memory *)
(** The bytes from [a] on, [n] of them where there are so many. *)
Fixpoint mem_bytes (w : mem) (a : Z) (n : nat) : list Z :=
  match n with
  | O => []
  | S n => match w !! a with Some b => b :: mem_bytes w (a + 1) n | None => [] end
  end.
Fixpoint mem_stores (w : mem) (a : Z) (l : list Z) : option mem :=
  match l with [] => Some w | b :: l => _ ← w !! a; mem_stores (<[a := b]> w) (a + 1) l end.

(** ** Devices and numbers *)
Definition no_device (dev : Z) : bool := (dev <? 0) || (CONFIG_SYS_MAX_NAND_DEVICE <=? dev) || negb has_name.
Definition set_dev (m : mach) (dev : Z) : Z * mach :=
  if no_device dev then (-1, m)
  else (0, mkmach (menv m) (chip m) (memory m) dev (keys m)).
(** The number, and whether the argument is one. *)
Definition str2off (p : list Z) : Z * bool :=
  let '(num, endptr) := simple_strtoull p 16 in (s64 num, bool_decide (p <> []) && bool_decide (endptr = [])).
Definition str2long (p : list Z) : Z * bool :=
  let '(num, endptr) := simple_strtoul p 16 in (num, bool_decide (p <> []) && bool_decide (endptr = [])).
(** The offset, the size and [*maxsize]; [None] for the error -1. *)
Definition arg_off (arg : list Z) : option (Z * Z * Z) :=
  let '(off, is_number) := str2off arg in
  if negb is_number then '(off, size) ← get_part arg; Some (off, size, size)
  else if mtd_size <=? u64 off then None
  else let maxsize := s64 (mtd_size - off) in Some (off, maxsize, maxsize).
Definition arg_off_size (argv : list (list Z)) : option (Z * Z * Z) :=
  match argv with
  | [] => Some (0, mtd_size, mtd_size)
  | arg :: rest =>
      '(off, size, maxsize) ← arg_off arg;
      match rest with
      | [] => Some (off, size, maxsize)
      | arg :: _ =>
          let '(size, is_number) := str2off arg in
          if negb is_number then None
          else if maxsize <? size then None
          else Some (off, size, maxsize)
      end
  end.

(** ** Bad blocks *)
Fixpoint count_bad (fuel : nat) (c : C) (offset maxoffset badblocks : Z) : option Z :=
  match fuel with
  | O => None
  | S fuel =>
      if offset <? maxoffset then
        count_bad fuel c (offset + erasesize) maxoffset (if nand_block_isbad c offset then badblocks + 1 else badblocks)
      else Some badblocks
  end.
Definition adjust_size_for_badblocks (c : C) (size offset : Z) : option Z :=
  badblocks ← count_bad (S (Z.to_nat (size / erasesize) + 1)) c offset (offset + size) 0;
  Some (if negb (badblocks =? 0) then size - u32 (badblocks * erasesize) else size).
Fixpoint adjust_off_loop (fuel : nat) (c : C) (start off_align off : Z) : option Z :=
  match fuel with
  | O => None
  | S fuel =>
      if start <? off_align then
        if nand_block_isbad c start then adjust_off_loop fuel c (start + erasesize) (off_align + erasesize) (off + erasesize)
        else adjust_off_loop fuel c (start + erasesize) off_align off
      else Some off
  end.
(** [ffs(x) - 1] of a power of two. *)
Definition adjust_off_for_badblocks (c : C) (off : Z) : option Z :=
  let off_align := off .& Z.lnot (2 ^ Z.log2 erasesize - 1) in
  let start := u32 (u32 (8 * 128 * writesize) + erasesize - 1) / erasesize in
  adjust_off_loop (S (S (blocks + blocks))) c (start * erasesize) off_align off.

(** ** The subcommands *)
Definition nand_print_and_set_info (m : mach) : option mach :=
  '(_, g) ← setenv_hex malloc_ok (menv m) (codes "nand_writesize") writesize;
  '(_, g) ← setenv_hex malloc_ok g (codes "nand_oobsize") oobsize;
  '(_, g) ← setenv_hex malloc_ok g (codes "nand_erasesize") erasesize;
  Some (set_menv m g).

(** [getc], which waits for ever where nothing is typed. *)
Definition getc (m : mach) : option (Z * mach) :=
  match keys m with
  | k :: l => Some (k, mkmach (menv m) (chip m) (memory m) (nand_curr_device m) l)
  | [] => None
  end.
(** "scrub" without "-y" asks; the flag is [opts.scrub], and [None] the return with -1. *)
Definition ask_scrub (m : mach) : option (bool * mach) :=
  '(k, m) ← getc m;
  if k =? 121 then '(k, m) ← getc m; Some (k =? 13, m) else Some (false, m).

(** [nand erase] and [nand scrub]. *)
Definition do_nand_erase (argv : list (list Z)) (cmd : list Z) (m : mach) : option (Z * mach) :=
  let arg2 := default [] (argv !! 2%nat) in
  let clean := (2 <? zlen argv) && bool_decide (arg2 = codes "clean") in
  let scrub_yes := (2 <? zlen argv) && bool_decide (arg2 = codes "-y") in
  let o := if clean || scrub_yes then 3%nat else 2%nat in
  let scrub := strncmp 5 cmd (codes "scrub") =? 0 in
  let suffix := drop 5 cmd in
  let form :=
    if bool_decide (suffix = []) then Some (false, 2)
    else if bool_decide (suffix = codes ".spread") then Some (true, 2)
    else if bool_decide (suffix = codes ".part") then Some (false, 1)
    else if bool_decide (suffix = codes ".chip") then Some (false, 0)
    else None in
  match form with
  | None => Some (CMD_RET_USAGE, m)
  | Some (spread, args) =>
      if negb (zlen argv =? Z.of_nat o + args) then Some (CMD_RET_USAGE, m)
      else
        match arg_off_size (drop o argv) with
        | None => Some (1, m)
        | Some (off, size, _) =>
            '(go, scrub, m) ←
              (if negb scrub then Some (true, false, m)
               else if scrub_yes then Some (true, true, m)
               else '(yes, m) ← ask_scrub m; Some (yes, true, m));
            if negb go then Some (-1, m)
            else
              '(ret, c) ← nand_erase_opts (chip m) (mkerase size off clean scrub spread 0);
              Some (if ret =? 0 then 0 else 1, set_chip m c)
        end
  end.

(** [nand read] and [nand write]. *)
Definition skip_suffix (s : option (list Z)) : bool :=
  match s with
  | None => true
  | Some s => bool_decide (s = codes ".jffs2") || bool_decide (s = codes ".e") || bool_decide (s = codes ".i")
              || bool_decide (s = codes ".skip")
  end.
Definition skip_access (read : bool) (m : mach) (addr off rwsize maxsize flags : Z) : option (Z * mach) :=
  if read then
    '(ret, _, _, d, c) ← nand_read_skip_bad (chip m) off rwsize maxsize;
    w ← mem_stores (memory m) addr d;
    Some (if ret =? 0 then 0 else 1, set_memory (set_chip m c) w)
  else
    '(ret, _, _, c) ← nand_write_skip_bad CONFIG_CMD_NAND_TRIMFFS (chip m) off rwsize maxsize
                        (mem_bytes (memory m) addr (Z.to_nat rwsize)) flags;
    Some (if ret =? 0 then 0 else 1, set_chip m c).
Definition do_nand_rw (argv : list (list Z)) (cmd : list Z) (m : mach) : option (Z * mach) :=
  if zlen argv <? 4 then Some (CMD_RET_USAGE, m)
  else
    let addr := fst (simple_strtoul (default [] (argv !! 2%nat)) 16) in
    let read := strncmp 4 cmd (codes "read") =? 0 in
    let s := match strchr cmd 46 with Some p => Some (drop p cmd) | None => None end in
    if bool_decide (s = Some (codes ".raw")) then
      match arg_off (default [] (argv !! 3%nat)) with
      | None => Some (1, m)
      | Some (off, size, _) =>
          let '(pagecount, is_number) :=
            match argv !! 4%nat with Some a => str2long a | None => (1, true) end in
          if negb is_number then Some (1, m)
          else if size <? u32 (pagecount * writesize) then Some (-1, m)
          else '(ret, m) ← raw_access m addr off pagecount read; Some (if ret =? 0 then 0 else 1, m)
      end
    else
      match arg_off_size (drop 3 argv) with
      | None => Some (1, m)
      | Some (off, size, maxsize) =>
          off ← (if bool_decide (s = Some (codes ".skip")) then adjust_off_for_badblocks (chip m) off else Some off);
          size ← (if zlen argv <? 5 then adjust_size_for_badblocks (chip m) size off else Some size);
          let rwsize := u32 size in
          if skip_suffix s then skip_access read m addr off rwsize maxsize 0
          else if CONFIG_CMD_NAND_TRIMFFS && bool_decide (s = Some (codes ".trimffs")) then
            if read then Some (1, m) else skip_access false m addr off rwsize maxsize WITH_DROP_FFS
          else if bool_decide (s = Some (codes ".oob")) then
            '(ret, m) ← oob_access m addr off rwsize read; Some (if ret =? 0 then 0 else 1, m)
          else Some (1, m)
      end.

Fixpoint markbad_loop (args : list (list Z)) (c : C) (ret : Z) : Z * C :=
  match args with
  | [] => (ret, c)
  | a :: args =>
      let '(r, c) := mtd_block_markbad c (fst (simple_strtoul a 16)) in
      markbad_loop args c (if negb (r =? 0) then 1 else ret)
  end.

Definition do_nand (flag : Z) (argv : list (list Z)) (m : mach) : option (Z * mach) :=
  let dev := nand_curr_device m in
  let repeat := negb (flag .& CMD_FLAG_REPEAT =? 0) in
  match argv with
  | _ :: cmd :: args =>
      let cmd_is name := bool_decide (cmd = codes name) in
      if repeat && negb (cmd_is "dump") then Some (0, m)
      else if cmd_is "info" then if has_name then m ← nand_print_and_set_info m; Some (0, m) else Some (0, m)
      else if cmd_is "device" then
        match args with
        | [] =>
            if (dev <? 0) || (CONFIG_SYS_MAX_NAND_DEVICE <=? dev) then Some (0, m)
            else m ← nand_print_and_set_info m; Some (0, m)
        | a :: _ => Some (0, snd (set_dev m (s32 (fst (simple_strtoul a 10)))))
        end
      else if no_device dev then Some (1, m)
      else if cmd_is "bad" then Some (0, m)
      else if (strncmp 5 cmd (codes "erase") =? 0) || (strncmp 5 cmd (codes "scrub") =? 0) then do_nand_erase argv cmd m
      else if strncmp 4 cmd (codes "dump") =? 0 then
        match args with
        | [] => Some (CMD_RET_USAGE, m)
        | a :: _ =>
            let '(ret, c) := nand_dump (chip m) (s32 (fst (simple_strtoul a 16))) (bool_decide (drop 4 cmd = codes ".oob")) repeat in
            Some (if ret =? 0 then 1 else 0, set_chip m c)
        end
      else if (strncmp 4 cmd (codes "read") =? 0) || (strncmp 5 cmd (codes "write") =? 0) then do_nand_rw argv cmd m
      else if cmd_is "markbad" then
        match args with
        | [] => Some (CMD_RET_USAGE, m)
        | _ => let '(ret, c) := markbad_loop args (chip m) 0 in Some (ret, set_chip m c)
        end
      else if cmd_is "biterr" then Some (1, m)
      else Some (CMD_RET_USAGE, m)
  | _ => Some (CMD_RET_USAGE, m)
  end.

(** The command in the table; it may reach a state without a meaning. *)
Definition lift_machine (f : mach -> option (Z * mach)) (s : option mach) : Z * option mach :=
  match s ≫= f with Some (r, m) => (r, Some m) | None => (0, None) end.
Definition nand_cmd : @cmd_tbl (option mach) :=
  mkcmd (codes "nand") (Z.of_nat CONFIG_SYS_MAXARGS) 1 (fun flag argv => lift_machine (do_nand flag argv)) false.
End cmd.
