(* ===== verification/CmdNandSpec.v ===== *)
(** * The command [nand]: what a command line does to the flash

    The hexadecimal numbers of a printed command read back, the line is split into the words it
    was made of, and erasing, reading and writing reach the functions of [Nand] with the range
    that was asked for. *)
From S2P Require Import Prelude Ctype Mem CStr Hashtable Vsprintf VsprintfSpec EnvAttr EnvVar Cmdline CmdSpec Shell.
From S2P Require Import Nand NandSpec CmdNand.

(** ** Numbers *)
(** The text of a number as "0x%x" prints it. *)
Definition hex_text (v : Z) (s : list Z) : Prop :=
  exists ds, s = 48 :: 120 :: reverse (map (dchar SMALL) ds) /\ is_digits 16 (u32 v) ds.

Lemma is_digits_long b num ds : 1 < b -> is_digits b num ds -> num <> 0 -> b ^ (zlen ds - 1) <= num.
Proof.
  intros Hb (Hf & Hv & Hne & Hl & _) Hn. destruct ds as [|d ds _] using rev_ind; [done|].
  apply Forall_app in Hf as [Hf Hd]. apply Forall_cons in Hd as [Hd _].
  rewrite value_app in Hv. cbn [value] in Hv. pose proof (value_nonneg b ds ltac:(lia) Hf).
  assert (d <> 0) by (intros ->; apply Hl; [done|by rewrite last_snoc]).
  rewrite length_app. cbn [length]. replace (Z.of_nat (length ds + 1) - 1) with (zlen ds) by lia.
  assert (0 < b ^ zlen ds) by (apply Z.pow_pos_nonneg; lia). nia.
Qed.
Lemma hex_len v s : hex_text v s -> zlen s <= 10.
Proof.
  intros (ds & -> & Hds). cbn [length]. rewrite length_reverse, length_map.
  destruct (decide (u32 v = 0)) as [H0|Hn].
  { destruct Hds as (_ & _ & _ & _ & Hz). by rewrite Hz. }
  pose proof (is_digits_long 16 _ ds ltac:(lia) Hds Hn) as Hp. pose proof (u32_range v) as Hr.
  destruct (decide (zlen ds <= 8)); [lia|]. assert (16 ^ 8 <= 16 ^ (zlen ds - 1)) by (apply Z.pow_le_mono_r; lia).
  change (16 ^ 8) with 0x100000000 in *. lia.
Qed.
Lemma hex_digits v s : hex_text v s -> exists c r, s = 48 :: 120 :: c :: r /\ isxdigit c = true
  /\ Forall (fun d => isxdigit d = true) (c :: r)
  /\ forall wrap, wraps wrap -> strto_digits wrap 16 (c :: r) 0 = (wrap (u32 v), []).
Proof.
  intros (ds & -> & Hds). assert (reverse (map (dchar SMALL) ds) = map (dchar SMALL) (reverse ds)) as ->
    by (symmetry; apply fmap_reverse).
  assert (Forall (fun d => 0 <= d < 16) (reverse ds)) as Hf by (apply Forall_reverse; apply Hds).
  assert (forall wrap, wraps wrap -> strto_digits wrap 16 (map (dchar SMALL) (reverse ds)) 0 = (wrap (u32 v), [])) as Hd.
  { intros wrap Hw. pose proof (strto_digits_ok wrap SMALL 16 (reverse ds) Hw ltac:(by right) ltac:(lia) Hf 0 [] I) as H.
    rewrite app_nil_r, horner_value, reverse_involutive, (proj1 Hw) in H.
    destruct Hds as (_ & Hv & _). by rewrite Hv, Z.mul_0_r, Z.add_0_r in H. }
  destruct (reverse ds) as [|e es] eqn:E.
  { exfalso. destruct Hds as (_ & _ & Hne & _). apply (f_equal reverse) in E. rewrite reverse_involutive in E. by subst. }
  exists (dchar SMALL e), (map (dchar SMALL) es). split; [done|].
  assert (Forall (fun d => isxdigit d = true) (map (dchar SMALL) (e :: es))) as Hx.
  { apply Forall_map. apply (Forall_impl _ _ _ Hf). intros d Hd2. apply (dchar_spec SMALL d); [by right|done]. }
  split; [by apply Forall_cons in Hx as [? _]|]. split; [exact Hx|exact Hd].
Qed.
Lemma hex_prefix c r : isxdigit c = true -> strto_prefix (48 :: 120 :: c :: r) 16 = (c :: r, 16).
Proof. intros H. unfold strto_prefix. cbn [chr hd tail Z.eqb Pos.eqb]. rewrite H. reflexivity. Qed.
Lemma hex_str2off v s : hex_text v s -> str2off s = (u32 v, true).
Proof.
  intros Hs. destruct (hex_digits v s Hs) as (c & r & -> & Hc & _ & Hd). unfold str2off, simple_strtoull.
  rewrite hex_prefix by done. rewrite (Hd u64 u64_wraps). pose proof (u32_range v).
  rewrite u64_small by lia. f_equal. unfold s64. rewrite u64_small by lia. case_if; lia.
Qed.
Lemma hex_strtoul v s : hex_text v s -> fst (simple_strtoul s 16) = u32 v.
Proof.
  intros Hs. destruct (hex_digits v s Hs) as (c & r & -> & Hc & _ & Hd). unfold simple_strtoul.
  rewrite hex_prefix by done. rewrite (Hd u32 u32_wraps). cbn [fst]. pose proof (u32_range v). by rewrite u32_small by lia.
Qed.
(** A character of a number is neither a blank nor special. *)
Definition harmless (c : Z) : Prop := isblank c = false /\ c <> 92 /\ c <> 36 /\ c <> 39 /\ c <> 59.
#[export] Instance harmless_dec c : Decision (harmless c).
Proof. unfold harmless. apply _. Defined.
Lemma xdigit_harmless c : isxdigit c = true -> harmless c.
Proof.
  intros H. assert (forall k, In k [9; 32; 92; 36; 39; 59] -> isxdigit k = false) as Hk.
  { intros k Hk. cbn in Hk. destruct Hk as [<-|[<-|[<-|[<-|[<-|[<-|[]]]]]]]; reflexivity. }
  assert (forall k, In k [9; 32; 92; 36; 39; 59] -> c <> k) as Hn by (intros k Hk2 ->; rewrite Hk in H; done).
  unfold harmless, isblank. split; [|split_and!; apply Hn; cbn; tauto].
  apply orb_false_iff. rewrite !Z.eqb_neq. split; apply Hn; cbn; tauto.
Qed.
Lemma hex_harmless v s : hex_text v s -> s <> [] /\ Forall harmless s.
Proof.
  intros Hs. destruct (hex_digits v s Hs) as (c & r & -> & _ & Hx & _). split; [done|].
  apply Forall_cons. split; [by_computation|]. apply Forall_cons. split; [by_computation|].
  apply (Forall_impl _ _ _ Hx). apply xdigit_harmless.
Qed.

(** ** The printed commands *)
Lemma number_hex v : exists s, number (u32 v) 16 (-1) (-1) SMALL = Some s /\ hex_text v (48 :: 120 :: s).
Proof.
  pose proof (u32_range v). destruct (number_plain (u32 v) 16 SMALL) as (ds & Hds & E); [by right; right|by right|lia|].
  eexists. split; [exact E|]. by exists ds.
Qed.
Lemma sprintf_erase off len : exists s1 s2, hex_text off s1 /\ hex_text len s2
  /\ sprintf "nand %s 0x%x 0x%x" [VStr (Some (codes "erase")); VInt off; VInt len]
     = Some (join_values [codes "nand"; codes "erase"; s1; s2]).
Proof.
  destruct (number_hex off) as (s1 & E1 & H1), (number_hex len) as (s2 & E2 & H2).
  exists (48 :: 120 :: s1), (48 :: 120 :: s2). split; [exact H1|]. split; [exact H2|].
  assert (sprintf "nand %s 0x%x 0x%x" [VStr (Some (codes "erase")); VInt off; VInt len]
    = (o1 ← number (u32 off) 16 (-1) (-1) SMALL; o2 ← number (u32 len) 16 (-1) (-1) SMALL;
       Some (((codes "nand erase 0x" ++ o1) ++ [32] ++ [48] ++ [120]) ++ o2))) as ->.
  { cbv -[number u32 app]. destruct (number (u32 off) _ _ _ _); [|reflexivity].
    destruct (number (u32 len) _ _ _ _); [|reflexivity]. f_equal. cbn [app]. by rewrite <- ?app_assoc. }
  rewrite E1, E2. cbn [mbind option_bind]. f_equal. rewrite <- !app_assoc. reflexivity.
Qed.
Lemma sprintf_access cmd buf off len : cmd = "read" \/ cmd = "write" ->
  exists s0 s1 s2, hex_text buf s0 /\ hex_text off s1 /\ hex_text len s2
  /\ sprintf "nand %s.jffs2 0x%x 0x%x 0x%x" [VStr (Some (codes cmd)); VInt buf; VInt off; VInt len]
     = Some (join_values [codes "nand"; codes cmd ++ codes ".jffs2"; s0; s1; s2]).
Proof.
  intros Hcmd. destruct (number_hex buf) as (s0 & E0 & H0), (number_hex off) as (s1 & E1 & H1), (number_hex len) as (s2 & E2 & H2).
  exists (48 :: 120 :: s0), (48 :: 120 :: s1), (48 :: 120 :: s2).
  split; [exact H0|]. split; [exact H1|]. split; [exact H2|].
  assert (sprintf "nand %s.jffs2 0x%x 0x%x 0x%x" [VStr (Some (codes cmd)); VInt buf; VInt off; VInt len]
    = (o0 ← number (u32 buf) 16 (-1) (-1) SMALL; o1 ← number (u32 off) 16 (-1) (-1) SMALL;
       o2 ← number (u32 len) 16 (-1) (-1) SMALL;
       Some ((((codes "nand " ++ codes cmd ++ codes ".jffs2 0x") ++ o0) ++ codes " 0x" ++ o1) ++ codes " 0x" ++ o2))) as ->.
  { destruct Hcmd as [-> | ->]; cbv -[number u32 app]; (destruct (number (u32 buf) _ _ _ _); [|reflexivity]);
      (destruct (number (u32 off) _ _ _ _); [|reflexivity]); (destruct (number (u32 len) _ _ _ _); [|reflexivity]);
      f_equal; cbn [app]; by rewrite <- ?app_assoc. }
  rewrite E0, E1, E2. cbn [mbind option_bind]. f_equal. rewrite <- !app_assoc. destruct Hcmd as [-> | ->]; reflexivity.
Qed.

(** ** Running a printed command *)
Lemma join_harmless l : Forall (Forall harmless) l -> Forall (fun c => c <> 92 /\ c <> 36 /\ c <> 39 /\ c <> 59) (join_values l).
Proof.
  induction 1 as [|w l Hw Hl IH]; [done|].
  assert (Forall (fun c => c <> 92 /\ c <> 36 /\ c <> 39 /\ c <> 59) w) as Hw2.
  { apply (Forall_impl _ _ _ Hw). intros c (_ & Hc). exact Hc. }
  cbn [join_values]. destruct l as [|w' l]; [done|]. apply Forall_app_2; [done|]. apply Forall_cons. split; [lia|exact IH].
Qed.
Lemma join_len l k : Forall (fun w => zlen w <= k) l -> 0 <= k -> zlen (join_values l) <= zlen l * (k + 1).
Proof.
  intros H Hk. induction H as [|w l Hw Hl IH]; [done|]. cbn [join_values]. destruct l as [|w' l].
  - cbn [length]. lia.
  - rewrite length_app. cbn [length] in *. nia.
Qed.

Section run.
Context {St : Type} (lookup : St -> list Z -> option (list Z)) (had_ctrlc : St -> bool).
Context (table : list (@cmd_tbl St)) (below : Z).
(** The words of the line are the arguments of the command that the first one names. *)
Lemma run_words e argv s : below <> 92 -> argv <> [] -> Forall (fun w => w <> [] /\ Forall harmless w) argv ->
  (length argv <= 16)%nat -> zlen (join_values argv) < 1000 ->
  find_cmd_tbl (default [] (head argv)) table = Some e -> is_bootd e = false -> maxargs e = 16 ->
  exists r, run_command lookup had_ctrlc id table below (join_values argv) 0 s = Some (r, snd (cmd e 0 argv s)).
Proof.
  intros Hb Hne Hw Hlen Htext He Hboot Hmax.
  assert (join_values argv = script_text [[Lit (join_values argv)]]) as Etext.
  { unfold script_text, segs_text. cbn. by rewrite app_nil_r. }
  assert (Forall (Forall harmless) argv) as Hh by (apply (Forall_impl _ _ _ Hw); tauto).
  rewrite Etext, run_ok; [| | |done|done].
  - cbn [exec]. unfold args, segs_val. cbn [map concat seg_val]. rewrite app_nil_r, (take_ge (join_values argv)) by lia.
    rewrite words_join.
    2:{ apply (Forall_impl _ _ _ Hw). intros w [H1 H2]. split; [done|]. apply (Forall_impl _ _ _ H2). by intros c [? _]. }
    rewrite take_ge by (unfold CONFIG_SYS_MAXARGS; lia). change (id s) with s.
    destruct argv as [|a argv]; [done|]. unfold cmd_process. rewrite He, Hboot, Hmax.
    replace (16 <? zlen (a :: argv)) with false by (cbn [length] in *; lia). cbn iota. change (CMD_RET_SUCCESS =? 0) with true.
    cbn iota. destruct (cmd e 0 (a :: argv) s) as [rc s']. cbn [snd]. case_if; by eexists.
  - apply Forall_cons. split; [|by apply Forall_nil]. split.
    + apply Forall_cons. split; [|by apply Forall_nil]. by apply join_harmless.
    + unfold segs_text. cbn [map concat seg_text]. rewrite app_nil_r. destruct argv as [|w l]; [done|].
      apply Forall_cons in Hw as [[Hw _] _]. cbn [join_values]. destruct w; [done|]. by destruct l.
  - rewrite <- Etext. unfold CONFIG_SYS_CBSIZE. lia.
Qed.
End run.

(** ** The subcommands *)
Section subcommands.
Context {Hooks : EnvHooks} {C : Type} {Driver : MtdDriver C} {Laws : MtdLaws C} (malloc_ok : Z -> bool).
Context (trimffs : bool) (get_part : list Z -> option (Z * Z)) (nand_dump : C -> Z -> bool -> bool -> Z * C).
Context (raw_access oob_access : machine C -> Z -> Z -> Z -> bool -> option (Z * machine C)).
Abbreviation do_nand := (do_nand malloc_ok trimffs true get_part nand_dump raw_access oob_access).
Abbreviation size := (@mtd_size C Driver).

Lemma arg_range s1 s2 off len : hex_text off s1 -> hex_text len s2 -> 0 <= off < size -> 0 <= len <= size - off ->
  arg_off_size get_part [s1; s2] = Some (off, len, size - off).
Proof.
  intros H1 H2 Ho Hl. pose proof size_blocks as (Hs & _ & _). unfold arg_off_size, arg_off.
  rewrite (hex_str2off off s1 H1), (hex_str2off len s2 H2). cbn [negb]. rewrite !u32_small, u64_small by lia.
  destruct (Z.leb_spec size off); [lia|]. cbn [mbind option_bind].
  assert (s64 (size - off) = size - off) as ->.
  { unfold s64. rewrite u64_small by lia. destruct (Z.ltb_spec (size - off) 0x8000000000000000); lia. }
  destruct (Z.ltb_spec (size - off) len); [lia|]. done.
Qed.
Lemma do_erase_ok m s1 s2 off len : nand_curr_device m = 0 -> hex_text off s1 -> hex_text len s2 ->
  0 <= off < size -> 0 <= len <= size - off ->
  do_nand 0 [codes "nand"; codes "erase"; s1; s2] m
  = '(ret, c) ← nand_erase_opts (chip m) (mkerase len off false false false 0);
    Some (if ret =? 0 then 0 else 1, set_chip m c).
Proof.
  intros Hdev H1 H2 Ho Hl. unfold CmdNand.do_nand. rewrite Hdev.
  transitivity (do_nand_erase get_part [codes "nand"; codes "erase"; s1; s2] (codes "erase") m); [reflexivity|].
  pose proof (arg_range s1 s2 off len H1 H2 Ho Hl) as Harg.
  destruct (hex_digits off s1 H1) as (c & r & -> & _). unfold do_nand_erase.
  change (default [] ([codes "nand"; codes "erase"; 48 :: 120 :: c :: r; s2] !! 2%nat)) with (48 :: 120 :: c :: r).
  rewrite (bool_decide_eq_false_2 (48 :: 120 :: c :: r = codes "clean")) by discriminate.
  rewrite (bool_decide_eq_false_2 (48 :: 120 :: c :: r = codes "-y")) by discriminate.
  rewrite !andb_false_r. cbn [orb]. change (drop 2 _) with [48 :: 120 :: c :: r; s2].
  change (bool_decide (drop 5 (codes "erase") = [])) with true. cbn iota zeta beta.
  rewrite Harg. reflexivity.
Qed.
Lemma do_access_ok m cmd s0 s1 s2 buf off len : cmd = "read" \/ cmd = "write" -> nand_curr_device m = 0 ->
  hex_text buf s0 -> hex_text off s1 -> hex_text len s2 -> 0 <= off < size -> 0 <= len <= size - off ->
  do_nand 0 [codes "nand"; codes cmd ++ codes ".jffs2"; s0; s1; s2] m
  = skip_access trimffs (bool_decide (cmd = "read")) m (u32 buf) off len (size - off) 0.
Proof.
  intros Hcmd Hdev H0 H1 H2 Ho Hl. unfold CmdNand.do_nand. rewrite Hdev. pose proof size_blocks as (Hs & _ & _).
  transitivity (do_nand_rw trimffs get_part raw_access oob_access
    [codes "nand"; codes cmd ++ codes ".jffs2"; s0; s1; s2] (codes cmd ++ codes ".jffs2") m);
    [by destruct Hcmd as [-> | ->]|].
  unfold do_nand_rw. change (drop 3 _) with [s1; s2]. rewrite (arg_range s1 s2 off len H1 H2 Ho Hl).
  change (default [] ([codes "nand"; codes cmd ++ codes ".jffs2"; s0; s1; s2] !! 2%nat)) with s0.
  rewrite (hex_strtoul buf s0 H0). change (zlen [codes "nand"; codes cmd ++ codes ".jffs2"; s0; s1; s2] <? 4) with false.
  change (zlen [codes "nand"; codes cmd ++ codes ".jffs2"; s0; s1; s2] <? 5) with false. cbn iota. cbv zeta.
  assert ((match strchr (codes cmd ++ codes ".jffs2") 46 with
           | Some p => Some (drop p (codes cmd ++ codes ".jffs2")) | None => None end) = Some (codes ".jffs2")) as ->
    by (by destruct Hcmd as [-> | ->]).
  change (bool_decide (Some (codes ".jffs2") = Some (codes ".raw"))) with false.
  change (bool_decide (Some (codes ".jffs2") = Some (codes ".skip"))) with false. cbn iota. cbn [mbind option_bind].
  change (skip_suffix (Some (codes ".jffs2"))) with true. cbn iota. rewrite (u32_small len) by lia.
  by destruct Hcmd as [-> | ->].
Qed.
End subcommands.
