(* ===== verification/EnvNand.v ===== *)
(** * The environment in serial NAND flash: [common/env_sfcnand.c]

    Two copies of the environment, one of which is active.  [saveenv] writes the copy that is not
    and marks the other one as obsolete afterwards, so that a loss of power leaves one of them.
    The flash is accessed by printing commands and running them ([sfc_nand_ops]). *)
From S2P Require Import Prelude Ctype Mem CStr Qsort Hashtable HashExport Crc Vsprintf EnvVar Cmdline.
From S2P Require Import Image EnvSave Nand CmdNand.

Definition ACTIVE_FLAG : Z := 1.
Definition OBSOLETE_FLAG : Z := 0.
Definition READ_OPS : Z := 0.
Definition WRITE_OPS : Z := 1.
Definition ERASE_OPS : Z := 2.
Definition X_COMMAND_LENGTH : Z := 128.

Section env.
Context {Hooks : EnvHooks} {C : Type} {Driver : MtdDriver C}.
Context (default_environment : list Z).
Context (CONFIG_ENV_SIZE CONFIG_ENV_SECT_SIZE CONFIG_ENV_OFFSET CONFIG_ENV_OFFSET_REDUND : Z).
(** The commands that there are, the interrupt, and the byte in front of a command on the stack. *)
Context (table : list (@cmd_tbl (option (machine C)))) (had_ctrlc : option (machine C) -> bool) (below : Z).
Abbreviation mach := (machine C).

(** With a flag behind the checksum the environment is a byte shorter. *)
Definition PLAIN_SIZE : Z := CONFIG_ENV_SIZE - 1.
Abbreviation ENV_SIZE := (EnvVar.ENV_SIZE PLAIN_SIZE).
(** An [env_t] of whole words. *)
Definition sizeof_env_t : Z := (CONFIG_ENV_SIZE + 3) / 4 * 4.

Definition lookup_var (s : option mach) (name : list Z) : option (list Z) :=
  m ← s; r ← getenv default_environment PLAIN_SIZE (menv m) name; r.

(** The result is 0 whatever the command does. *)
Definition sfc_nand_ops (ops offset len buf : Z) (m : mach) : option (Z * mach) :=
  let cmd := if ops =? READ_OPS then codes "read" else if ops =? WRITE_OPS then codes "write" else codes "erase" in
  command ←
    (if ops =? ERASE_OPS then sprintf "nand %s 0x%x 0x%x" [VStr (Some cmd); VInt offset; VInt len]
     else sprintf "nand %s.jffs2 0x%x 0x%x 0x%x" [VStr (Some cmd); VInt buf; VInt offset; VInt len]);
  if X_COMMAND_LENGTH <=? zlen command then None
  else
    '(_, s) ← run_command lookup_var had_ctrlc id table below command 0 (Some m);
    m ← s; Some (0, m).

(** ** Saving *)
Definition sector : Z :=
  if CONFIG_ENV_SECT_SIZE <? CONFIG_ENV_SIZE then
    let sector := CONFIG_ENV_SIZE / CONFIG_ENV_SECT_SIZE in
    if negb (CONFIG_ENV_SIZE mod CONFIG_ENV_SECT_SIZE =? 0) then sector + 1 else sector
  else 1.
(** What follows in the function where [ret] is 0. *)
Definition and_then (r : option (Z * mach)) (rest : mach -> option (Z * mach)) : option (Z * mach) :=
  '(ret, m) ← r; if negb (ret =? 0) then Some (ret, m) else rest m.

(** The flash from the erased new copy on: the new copy, the rest of its sector, and the old copy
    with its flag changed. *)
Definition save_copies (env_new saved_buffer tmp_tmp env_new_offset env_offset : Z) (m : mach) : option (Z * mach) :=
  let saved_size := CONFIG_ENV_SECT_SIZE - CONFIG_ENV_SIZE in
  let saved_offset := env_new_offset + CONFIG_ENV_SIZE in
  and_then (sfc_nand_ops ERASE_OPS env_new_offset (sector * CONFIG_ENV_SECT_SIZE) 0 m) (fun m =>
  and_then (sfc_nand_ops WRITE_OPS env_new_offset CONFIG_ENV_SIZE env_new m) (fun m =>
  and_then (if CONFIG_ENV_SIZE <? CONFIG_ENV_SECT_SIZE then sfc_nand_ops WRITE_OPS saved_offset saved_size saved_buffer m
            else Some (0, m)) (fun m =>
  '(_, m) ← sfc_nand_ops READ_OPS env_offset sizeof_env_t tmp_tmp m;
  w ← mem_stores (memory m) (tmp_tmp + 4) [OBSOLETE_FLAG];
  let m := set_memory m w in
  and_then (sfc_nand_ops ERASE_OPS env_offset (sector * CONFIG_ENV_SIZE) 0 m) (fun m =>
  sfc_nand_ops WRITE_OPS env_offset sizeof_env_t tmp_tmp m)))).
(** [valid] is [gd->env_valid]; [env_new] is on the stack, and [saved_buffer] and [tmp_tmp] are
    what [malloc] returned. *)
Definition saveenv (env_new saved_buffer tmp_tmp : Z) (m : mach) (valid : Z) : option (Z * mach * Z) :=
  '(len, _, data) ← hexport_r (env_htab (menv m)) 0 0 (Some ENV_SIZE) ENV_SIZE [];
  if len <? 0 then Some (1, m, valid)
  else
    w ← mem_stores (memory m) env_new (le32 (crc32 0 (env_new + 5) data) ++ [ACTIVE_FLAG] ++ data);
    let m := set_memory m w in
    let '(env_new_offset, env_offset) :=
      if valid =? 1 then (CONFIG_ENV_OFFSET_REDUND, CONFIG_ENV_OFFSET) else (CONFIG_ENV_OFFSET, CONFIG_ENV_OFFSET_REDUND) in
    '(ret, m) ←
      and_then
        (if CONFIG_ENV_SIZE <? CONFIG_ENV_SECT_SIZE then
           if saved_buffer =? 0 then Some (1, m)
           else sfc_nand_ops READ_OPS (env_new_offset + CONFIG_ENV_SIZE) (CONFIG_ENV_SECT_SIZE - CONFIG_ENV_SIZE) saved_buffer m
         else Some (0, m))
        (save_copies env_new saved_buffer tmp_tmp env_new_offset env_offset);
    Some (ret, m, if ret =? 0 then if valid =? 2 then 1 else 2 else valid).

(** ** Loading *)
(** The flag of an [env_t], its data, and whether its checksum is right. *)
Definition env_flags_of (ep : list Z) : Z := nth 4 ep 0.
Definition plain (ep : list Z) : list Z := take 4 ep ++ drop 5 ep.
Definition crc_ok (addr : Z) (ep : list Z) : bool :=
  crc32 0 (addr + 5) (take (Z.to_nat ENV_SIZE) (drop 5 ep)) =? le (take 4 ep).
(** [gd->env_valid], 0 where both checksums are wrong. *)
Definition choose (crc1_ok crc2_ok : bool) (flags1 flags2 : Z) : Z :=
  if negb crc1_ok && negb crc2_ok then 0
  else if crc1_ok && negb crc2_ok then 1
  else if negb crc1_ok && crc2_ok then 2
  else if (flags1 =? ACTIVE_FLAG) && (flags2 =? OBSOLETE_FLAG) then 1
  else if (flags1 =? OBSOLETE_FLAG) && (flags2 =? ACTIVE_FLAG) then 2
  else if flags1 =? flags2 then 2
  else if flags1 =? 0xff then 2
  else 2.
Definition default_env (m : mach) (valid : Z) (s : string) : option (mach * Z) :=
  g ← set_default_env default_environment PLAIN_SIZE (menv m) (Some (codes s)); Some (set_menv m g, valid).
(** [tmp_env1] and [tmp_env2] are what [malloc] returned. *)
Definition env_relocate_spec (tmp_env1 tmp_env2 : Z) (m : mach) (valid : Z) : option (mach * Z) :=
  if (tmp_env1 =? 0) || (tmp_env2 =? 0) then default_env m valid "!malloc() failed"
  else
    '(ret, m) ← sfc_nand_ops READ_OPS CONFIG_ENV_OFFSET CONFIG_ENV_SIZE tmp_env1 m;
    if negb (ret =? 0) then default_env m valid "!spi_flash_read() failed"
    else
      env1 ← load_bytes (memory m) tmp_env1 (Z.to_nat CONFIG_ENV_SIZE);
      '(ret, m) ← sfc_nand_ops READ_OPS CONFIG_ENV_OFFSET_REDUND CONFIG_ENV_SIZE tmp_env2 m;
      let crc1_ok := crc_ok tmp_env1 env1 in
      env1 ← load_bytes (memory m) tmp_env1 (Z.to_nat CONFIG_ENV_SIZE);
      env2 ← load_bytes (memory m) tmp_env2 (Z.to_nat CONFIG_ENV_SIZE);
      let valid2 := choose crc1_ok ((ret =? 0) && crc_ok tmp_env2 env2) (env_flags_of env1) (env_flags_of env2) in
      if valid2 =? 0 then default_env m valid "!bad CRC"
      else
        let '(ep, addr) := if valid2 =? 1 then (env1, tmp_env1) else (env2, tmp_env2) in
        '(ret, g) ← env_import default_environment PLAIN_SIZE (menv m) (addr + 1) (plain ep) false;
        let m := set_menv m g in
        if ret =? 0 then default_env m valid2 "env_import failed" else Some (m, valid2).
End env.
