(* ===== verification/EnvNandSpec.v ===== *)
(** * The environment in serial NAND flash: a loss of power while it is saved

    What the printed commands do to the flash, what [saveenv] leaves on it wherever the power
    goes off, and which copy the next start takes. *)
From S2P Require Import Prelude Ctype Mem CStr Qsort Hashtable HashSpec HashExport Crc Vsprintf EnvVar EnvSpec.
From S2P Require Import Cmdline CmdSpec Shell Image EnvSave Store Nand NandSpec CmdNand CmdNandSpec EnvNand.

(** ** Memory *)
Lemma mem_bytes_ok w a l : Mem.bytes_at w a l -> mem_bytes w a (length l) = l.
Proof.
  revert a. induction l as [|b l IH]; intros a; [done|]. intros [Hb Hl]. cbn [length mem_bytes]. by rewrite Hb, IH.
Qed.
Lemma mem_stores_ok w a l n : allocated w a n -> (length l <= n)%nat -> mem_stores w a l = Some (mwrite w a l).
Proof.
  revert w a n. induction l as [|b l IH]; intros w a n Ha Hn; [done|]. cbn [length mem_stores mwrite] in *.
  destruct (Ha 0 ltac:(lia)) as [v Hv]. rewrite Z.add_0_r in Hv. rewrite Hv. cbn [mbind option_bind].
  apply (IH _ _ (n - 1)%nat); [|lia]. intros i Hi. rewrite lookup_insert_ne by lia.
  replace (a + 1 + i) with (a + (1 + i)) by lia. apply Ha. lia.
Qed.
Lemma load_bytes_at w a l n : Mem.bytes_at w a l -> length l = n -> load_bytes w a n = Some l.
Proof.
  intros Hb <-. revert a Hb. induction l as [|b l IH]; intros a; [done|]. intros [Hb Hl]. cbn [length load_bytes]. unfold load.
  by rewrite Hb; cbn [mbind option_bind]; rewrite IH.
Qed.

Section flash.
Context {Hooks : EnvHooks} {C : Type} {Driver : MtdDriver C} {Laws : MtdLaws C} (malloc_ok : Z -> bool).
Context (trimffs : bool) (get_part : list Z -> option (Z * Z)) (nand_dump : C -> Z -> bool -> bool -> Z * C).
Context (raw_access oob_access : machine C -> Z -> Z -> Z -> bool -> option (Z * machine C)).
Context (default_environment : list Z) (CONFIG_ENV_SIZE : Z).
Context (table : list (@cmd_tbl (option (machine C)))) (had_ctrlc : option (machine C) -> bool) (below : Z).
Context (Hbelow : below <> 92).
Context (Hnand : find_cmd_tbl (codes "nand") table
  = Some (nand_cmd malloc_ok trimffs true get_part nand_dump raw_access oob_access)).
Abbreviation S := CONFIG_ENV_SIZE.
Abbreviation size := (@mtd_size C Driver).
Abbreviation B := (@erasesize C Driver).
Abbreviation sfc_nand_ops := (sfc_nand_ops default_environment CONFIG_ENV_SIZE table had_ctrlc below).

(** A short word without special characters. *)
Definition plain_word (w : list Z) : Prop := w <> [] /\ Forall harmless w /\ zlen w <= 12.
Lemma plain_hex v s : hex_text v s -> plain_word s.
Proof. intros H. destruct (hex_harmless v s H). pose proof (hex_len v s H). split; [done|]. split; [done|lia]. Qed.
#[local] Instance plain_word_dec w : Decision (plain_word w).
Proof. unfold plain_word. apply _. Defined.

(** A printed command does what [do_nand] does with its words. *)
Lemma run_nand argv m r m' : Forall plain_word (codes "nand" :: argv) -> (length argv <= 4)%nat ->
  do_nand malloc_ok trimffs true get_part nand_dump raw_access oob_access 0 (codes "nand" :: argv) m = Some (r, m') ->
  zlen (join_values (codes "nand" :: argv)) < X_COMMAND_LENGTH
  /\ exists r', run_command (lookup_var default_environment CONFIG_ENV_SIZE) had_ctrlc id table below
    (join_values (codes "nand" :: argv)) 0 (Some m) = Some (r', Some m').
Proof.
  intros Hw Hlen Hdo. assert (zlen (join_values (codes "nand" :: argv)) < X_COMMAND_LENGTH) as Htext.
  { assert (Forall (fun w => zlen w <= 12) (codes "nand" :: argv)) as Hk by (apply (Forall_impl _ _ _ Hw); intros w Hx; apply Hx).
    pose proof (join_len _ 12 Hk ltac:(lia)) as H. cbn [length] in H. unfold X_COMMAND_LENGTH. lia. }
  split; [exact Htext|]. unfold X_COMMAND_LENGTH in Htext.
  destruct (run_words (lookup_var default_environment CONFIG_ENV_SIZE) had_ctrlc table below
    (nand_cmd malloc_ok trimffs true get_part nand_dump raw_access oob_access) (codes "nand" :: argv) (Some m))
    as (r' & E); [done|done| |cbn [length]; lia|lia|done|done|done|].
  { apply (Forall_impl _ _ _ Hw). unfold plain_word. tauto. }
  exists r'. rewrite E. unfold nand_cmd. cbn [cmd]. unfold lift_machine. cbn [mbind option_bind]. by rewrite Hdo.
Qed.

Lemma ops_erase m off len : nand_curr_device m = 0 -> 0 <= off < size -> off mod B = 0 -> 0 <= len -> len mod B = 0 ->
  off + len <= size ->
  exists c', sfc_nand_ops ERASE_OPS off len 0 m = Some (0, set_chip m c') /\ kept (chip m) c' off (off + len)
    /\ outcome (chip m) c' (blank c' off (off + len)).
Proof.
  intros Hdev Ho Hm Hl Hml Hs. pose proof size_blocks as (_ & _ & HB).
  assert ((len + B - 1) / B * B = len) as Hlen.
  { pose proof (Z.div_mod len B ltac:(lia)) as Hd. rewrite Hml, Z.add_0_r in Hd.
    replace (len + B - 1) with (B - 1 + len / B * B) by lia. rewrite Z.div_add, Z.div_small by lia. lia. }
  destruct (nand_erase_ok len off (chip m)) as (c' & E & Hk & Hout); [lia|done|lia|lia|].
  rewrite Hlen in Hk, Hout. exists c'. split; [|done].
  destruct (sprintf_erase off len) as (s1 & s2 & H1 & H2 & Ef). unfold EnvNand.sfc_nand_ops.
  change (ERASE_OPS =? READ_OPS) with false. change (ERASE_OPS =? WRITE_OPS) with false.
  change (ERASE_OPS =? ERASE_OPS) with true. cbn iota zeta. rewrite Ef. cbn [mbind option_bind].
  destruct (run_nand [codes "erase"; s1; s2] m 0 (set_chip m c')) as (Htext & r' & Er).
  - repeat (apply Forall_cons; split; [first [by_computation|exact (plain_hex off s1 H1)|exact (plain_hex len s2 H2)]|]).
    by apply Forall_nil.
  - cbn [length]. lia.
  - rewrite (do_erase_ok malloc_ok trimffs get_part nand_dump raw_access oob_access m s1 s2 off len Hdev H1 H2 Ho ltac:(lia)).
    by rewrite E.
  - apply Z.leb_gt in Htext. by rewrite Htext, Er.
Qed.

(** ** A copy of the environment *)
(** Whole good blocks in the flash. *)
Definition region (c : C) (o : Z) : Prop := 0 <= o < size /\ o mod B = 0 /\ o + S <= size /\ forall x, o <= x < o + S -> good c x.
Definition copy (c : C) (o : Z) : list Z := Store.bytes_at (cell c) o S.
Context (HS : 0 < S < 0x40000000) (HSB : S mod B = 0) (HS4 : S mod 4 = 0).

Lemma region_ext c c' o : (forall b, bad c' b = bad c b) -> region c o -> region c' o.
Proof. intros Hb (H1 & H2 & H3 & H4). split; [done|]. split; [done|]. split; [done|]. intros x Hx. unfold good. rewrite Hb. by apply H4. Qed.
Lemma region_goods c o : region c o -> goods c o S = seqZ o S.
Proof. intros (_ & _ & _ & Hg). apply filter_all, Forall_forall. intros x Hx%elem_of_seqZ. apply Hg. lia. Qed.
Lemma region_fits c o : region c o -> fits c o S S.
Proof.
  intros Hr. pose proof (region_goods c o Hr) as Hg. destruct Hr as (H1 & _ & H3 & H4). split; [lia|].
  split; [rewrite Hg, length_seqZ; lia|]. right. split; [done|]. apply H4. lia.
Qed.
Lemma region_image c o : region c o -> image c o S = copy c o.
Proof. intros Hr. unfold image. by rewrite region_goods. Qed.
Lemma region_page c o : region c o -> on_page o /\ page_end (o + S) = o + S.
Proof.
  intros (_ & Hm & _ & _). pose proof size_blocks as (_ & _ & HB). split; [by apply mod_page_block|].
  apply page_end_id, mod_page_block. by rewrite <- Z.add_mod_idemp_l, Hm by lia.
Qed.

Lemma ops_write m o buf l : nand_curr_device m = 0 -> region (chip m) o -> 0 <= buf < 0x100000000 ->
  Mem.bytes_at (memory m) buf l -> zlen l = S ->
  exists c', sfc_nand_ops WRITE_OPS o S buf m = Some (0, set_chip m c') /\ kept (chip m) c' o (o + S)
    /\ outcome (chip m) c' (blank (chip m) o (o + S) -> copy c' o = l).
Proof.
  intros Hdev Hr Hb Hmem Hl. pose proof (region_fits _ _ Hr) as Hfit. pose proof (region_page _ _ Hr) as [Hp He].
  pose proof Hr as (Ho & _ & Hs & _).
  destruct (write_skip_ok trimffs 0 (chip m) o S (size - o) l S) as (r & n & c' & E & Hk & Hok & Hout);
    [lia|done|lia|lia|done|lia|]. rewrite He in Hk, Hok. exists c'. split; [|split; [exact Hk|]].
  2:{ apply (outcome_mono _ _ _ _ Hout). intros H0 Hbl. destruct (Hok H0) as [_ H]. specialize (H Hbl).
      rewrite take_ge in H by lia. rewrite <- (region_image c') by by apply (region_ext (chip m)), Hr; apply Hk. exact H. }
  destruct (sprintf_access "write" buf o S (or_intror eq_refl)) as (s0 & s1 & s2 & H0 & H1 & H2 & Ef).
  unfold EnvNand.sfc_nand_ops. change (WRITE_OPS =? READ_OPS) with false. change (WRITE_OPS =? WRITE_OPS) with true.
  change (WRITE_OPS =? ERASE_OPS) with false. cbn iota zeta. rewrite Ef. cbn [mbind option_bind].
  destruct (run_nand [codes "write" ++ codes ".jffs2"; s0; s1; s2] m (if r =? 0 then 0 else 1) (set_chip m c'))
    as (Htext & r' & Er).
  - repeat (apply Forall_cons; split;
      [first [by_computation|exact (plain_hex buf s0 H0)|exact (plain_hex o s1 H1)|exact (plain_hex S s2 H2)]|]).
    by apply Forall_nil.
  - cbn [length]. lia.
  - rewrite (do_access_ok malloc_ok trimffs get_part nand_dump raw_access oob_access m "write" s0 s1 s2 buf o S
      (or_intror eq_refl) Hdev H0 H1 H2 Ho ltac:(lia)).
    change (bool_decide ("write" = "read")) with false. unfold skip_access. rewrite u32_small by lia.
    replace (Z.to_nat S) with (length l) by lia. rewrite (mem_bytes_ok _ _ _ Hmem), E. done.
  - apply Z.leb_gt in Htext. by rewrite Htext, Er.
Qed.
Lemma ops_read m o buf : nand_curr_device m = 0 -> region (chip m) o -> 0 <= buf < 0x100000000 ->
  allocated (memory m) buf (Z.to_nat S) ->
  exists d c', sfc_nand_ops READ_OPS o S buf m = Some (0, set_memory (set_chip m c') (mwrite (memory m) buf d))
    /\ zlen d <= S /\ unchanged (chip m) c' /\ outcome (chip m) c' (d = copy (chip m) o).
Proof.
  intros Hdev Hr Hb Hmem. pose proof (region_fits _ _ Hr) as Hfit. pose proof (region_page _ _ Hr) as [Hp He].
  pose proof Hr as (Ho & _ & Hs & _).
  destruct (read_skip_ok (chip m) o S (size - o) S) as (r & n & d & c' & E & Hz & Hk & Hok & Hout);
    [lia|done|lia|done|lia|]. exists d, c'. split; [|split; [exact Hz|split; [exact Hk|]]].
  2:{ apply (outcome_mono _ _ _ _ Hout). intros H0. destruct (Hok H0) as [_ ->]. by apply region_image. }
  destruct (sprintf_access "read" buf o S (or_introl eq_refl)) as (s0 & s1 & s2 & H0 & H1 & H2 & Ef).
  unfold EnvNand.sfc_nand_ops. change (READ_OPS =? READ_OPS) with true.
  change (READ_OPS =? ERASE_OPS) with false. cbn iota zeta. rewrite Ef. cbn [mbind option_bind].
  destruct (run_nand [codes "read" ++ codes ".jffs2"; s0; s1; s2] m (if r =? 0 then 0 else 1)
    (set_memory (set_chip m c') (mwrite (memory m) buf d))) as (Htext & r' & Er).
  - repeat (apply Forall_cons; split;
      [first [by_computation|exact (plain_hex buf s0 H0)|exact (plain_hex o s1 H1)|exact (plain_hex S s2 H2)]|]).
    by apply Forall_nil.
  - cbn [length]. lia.
  - rewrite (do_access_ok malloc_ok trimffs get_part nand_dump raw_access oob_access m "read" s0 s1 s2 buf o S
      (or_introl eq_refl) Hdev H0 H1 H2 Ho ltac:(lia)).
    change (bool_decide ("read" = "read")) with true. unfold skip_access. rewrite u32_small by lia. rewrite E.
    cbn [mbind option_bind]. rewrite (mem_stores_ok _ _ _ _ Hmem) by lia. done.
  - apply Z.leb_gt in Htext. by rewrite Htext, Er.
Qed.

(** ** Saving *)
Definition apart (n o : Z) : Prop := n + S <= o \/ o + S <= n.
Lemma kept_copy c c' n o : kept c c' n (n + S) -> apart n o -> copy c' o = copy c o.
Proof. intros [_ Hk] Ha. apply bytes_at_ext. intros x Hx. apply Hk. unfold apart in Ha. lia. Qed.
Lemma same_copy c c' o : same_bytes (cell c') (cell c) -> copy c' o = copy c o.
Proof. intros H. apply bytes_at_ext. intros x _. apply H. Qed.
(** The copy with the flag of an obsolete one. *)
Definition retire (l : list Z) : list Z := take 4 l ++ [OBSOLETE_FLAG] ++ drop 5 l.

Lemma bytes_inj w a l l' : Mem.bytes_at w a l -> Mem.bytes_at w a l' -> length l = length l' -> l = l'.
Proof.
  revert a l'. induction l as [|b l IH]; intros a [|b' l']; [done|done|done|]. intros [Hb Hl] [Hb' Hl'] [= Hn].
  rewrite Hb in Hb'. injection Hb' as ->. f_equal. by apply (IH (a + 1)).
Qed.
Lemma allocated_bytes w a n : allocated w a n -> exists l, Mem.bytes_at w a l /\ length l = n.
Proof.
  revert a. induction n as [|n IH]; intros a Ha; [by exists []|].
  destruct (IH (a + 1)) as (l & Hl & Hn).
  { intros i Hi. replace (a + 1 + i) with (a + (1 + i)) by lia. apply Ha. lia. }
  destruct (Ha 0 ltac:(lia)) as [v Hv]. rewrite Z.add_0_r in Hv. exists (v :: l). cbn [Mem.bytes_at length]. by rewrite Hn.
Qed.
Lemma bytes_retire w a l : (5 <= length l)%nat -> Mem.bytes_at w a l ->
  Mem.bytes_at (mwrite w (a + 4) [OBSOLETE_FLAG]) a (retire l).
Proof.
  intros Hl Hb. unfold retire. assert (l = take 4 l ++ take 1 (drop 4 l) ++ drop 5 l) as El.
  { change 5%nat with (4 + 1)%nat. by rewrite <- drop_drop, take_drop, take_drop. }
  rewrite El in Hb. assert (length (take 4 l) = 4%nat) as H4 by (rewrite length_take; lia).
  assert (length (take 1 (drop 4 l)) = 1%nat) as H1 by (rewrite length_take, length_drop; lia).
  rewrite !bytes_at_app in *. rewrite H4, H1 in Hb. rewrite H4. destruct Hb as (Hb1 & _ & Hb3). split; [|split].
  - apply bytes_at_mwrite_disjoint; [cbn [length]; lia|done].
  - apply bytes_at_mwrite.
  - apply bytes_at_mwrite_disjoint; [cbn [length]; lia|exact Hb3].
Qed.

Lemma and_then_0 (m : machine C) rest : and_then (Some (0, m)) rest = rest m.
Proof. done. Qed.
Lemma save_ok m img n o env_new saved tmp : nand_curr_device m = 0 -> region (chip m) n -> region (chip m) o -> apart n o ->
  0 <= env_new < 0x100000000 -> 0 <= tmp < 0x100000000 -> 5 <= S ->
  Mem.bytes_at (memory m) env_new img -> zlen img = S -> allocated (memory m) tmp (Z.to_nat S) ->
  exists m', save_copies default_environment S S table had_ctrlc below env_new saved tmp n o m = Some (0, m')
    /\ menv m' = menv m /\ (forall b, bad (chip m') b = bad (chip m) b)
    /\ (forall x, ~ n <= x < n + S -> ~ o <= x < o + S -> cell (chip m') x = cell (chip m) x)
    /\ (copy (chip m') o = copy (chip m) o \/ copy (chip m') n = img)
    /\ outcome (chip m) (chip m') (copy (chip m') n = img /\ copy (chip m') o = retire (copy (chip m) o)).
Proof.
  intros Hdev Hn Ho Hap Hen Ht H5 Himg Hil Hal. unfold save_copies.
  assert (sector S S = 1) as -> by (unfold sector; by rewrite Z.ltb_irrefl). rewrite !Z.mul_1_l.
  assert (sizeof_env_t S = S) as ->.
  { unfold sizeof_env_t. apply Z_div_exact_full_2 in HS4; [|lia]. rewrite HS4 at 1.
    replace (4 * (S / 4) + 3) with (3 + S / 4 * 4) by lia. rewrite Z.div_add, Z.div_small by lia. lia. }
  pose proof Hn as (Hn1 & Hn2 & Hn3 & _). pose proof Ho as (Ho1 & Ho2 & Ho3 & _).
  destruct (ops_erase m n S Hdev Hn1 Hn2 ltac:(lia) HSB Hn3) as (c1 & -> & Hk1 & Ho_1). rewrite and_then_0. cbv beta.
  pose proof (region_ext _ c1 n (proj1 Hk1) Hn) as Hr1.
  destruct (ops_write (set_chip m c1) n env_new img Hdev Hr1 Hen Himg Hil) as (c2 & -> & Hk2 & Ho_2).
  rewrite and_then_0. cbv beta. rewrite Z.ltb_irrefl, and_then_0. cbv beta.
  assert (forall b, bad c2 b = bad (chip m) b) as Hb2.
  { intros b. destruct Hk1 as [Hb1 _], Hk2 as [Hb2 _]. by rewrite Hb2, Hb1. }
  pose proof (region_ext _ c2 o Hb2 Ho) as Hr2.
  destruct (ops_read (set_chip (set_chip m c1) c2) o tmp Hdev Hr2 Ht Hal) as (d & c3 & -> & Hd & Hk3 & Ho_3).
  cbn [mbind option_bind]. cbn [memory set_chip set_memory] in *.
  assert (allocated (mwrite (memory m) tmp d) tmp (Z.to_nat S)) as Hal2 by by apply allocated_mwrite.
  rewrite (mem_stores_ok _ (tmp + 4) [OBSOLETE_FLAG] 1); [|intros i Hi; replace (tmp + 4 + i) with (tmp + (4 + i)) by lia;
    apply Hal2; lia|done]. cbn [mbind option_bind].
  set (w := mwrite _ (tmp + 4) _). assert (forall b, bad c3 b = bad (chip m) b) as Hb3.
  { intros b. destruct Hk3 as [Hb3 _]. by rewrite Hb3. }
  set (m3 := set_memory (set_memory (set_chip (set_chip (set_chip m c1) c2) c3) _) w).
  assert (forall b, bad (chip m3) b = bad (chip m) b) as Hb3' by exact Hb3.
  pose proof (region_ext _ (chip m3) o Hb3' Ho) as Hr3.
  destruct (ops_erase m3 o S) as (c4 & -> & Hk4 & Ho_4); [done|done|done|lia|done|done|].
  rewrite and_then_0. cbv beta. change (chip m3) with c3 in *.
  pose proof (region_ext _ c4 o (proj1 Hk4) Hr3) as Hr4.
  assert (allocated w tmp (Z.to_nat S)) as Hal3 by by apply allocated_mwrite.
  destruct (allocated_bytes w tmp _ Hal3) as (l & Hl & Hll).
  destruct (ops_write (set_chip m3 c4) o tmp l) as (c5 & -> & Hk5 & Ho_5); [done|exact Hr4|done|exact Hl|lia|].
  change (chip (set_chip m3 c4)) with c4 in *.
  exists (set_chip (set_chip m3 c4) c5). split; [done|]. split; [done|]. change (chip (set_chip _ c5)) with c5.
  assert (copy c2 o = copy (chip m) o) as Eo.
  { rewrite (kept_copy c1 c2 n o Hk2 Hap). by apply kept_copy with (n := n). }
  assert (apart o n) as Hap2 by (unfold apart in *; tauto).
  assert (copy c5 n = copy c2 n) as En.
  { rewrite (kept_copy c4 c5 o n Hk5 Hap2), (kept_copy c3 c4 o n Hk4 Hap2). apply same_copy, Hk3. }
  assert (outcome (chip m) c2 (copy c2 n = img)) as Hnew
    by (apply (outcome_mono _ _ _ _ (outcome_trans _ _ _ _ _ Ho_1 Ho_2)); tauto).
  assert (outcome c2 c5 (copy c5 o = retire (copy (chip m) o))) as Hold.
  { apply (outcome_mono _ _ _ _ (outcome_trans _ _ _ _ _ (outcome_trans _ _ _ _ _ Ho_3 Ho_4) Ho_5)).
    intros [[Hread Hblank] Hwrite]. rewrite (Hwrite Hblank).
    change (d = copy c2 o) in Hread. rewrite Eo in Hread. subst d.
    assert (zlen (copy (chip m) o) = S) as Hcl by (apply bytes_at_len; lia).
    apply (bytes_inj w tmp _ _ Hl).
    - apply bytes_retire; [lia|]. apply bytes_at_mwrite.
    - unfold retire. rewrite !length_app, length_take, length_drop. cbn [length]. lia. }
  split; [|split; [|split]].
  - intros b. destruct Hk4 as [Hb4 _], Hk5 as [Hb5 _]. by rewrite Hb5, Hb4.
  - intros x Hxn Hxo. destruct Hk5 as [_ ->]; [|tauto]. destruct Hk4 as [_ ->]; [|tauto]. destruct Hk3 as [_ ->].
    destruct Hk2 as [_ ->]; [|tauto]. destruct Hk1 as [_ ->]; [done|tauto].
  - destruct (alive c2) eqn:Ea.
    + right. rewrite En. by apply Hnew.
    + left. rewrite <- Eo. apply same_copy. by apply Hold.
  - rewrite En. by apply (outcome_trans _ c2).
Qed.
(** ** The image *)
Context {HooksOk : EnvHooksOk}.
Abbreviation crc_ok := (crc_ok S).
Abbreviation import := (env_import default_environment (PLAIN_SIZE S)).
(** The variables of [M] with a flag, wherever the image is loaded. *)
Record holds (M : gmap (list Z) (list Z)) (flag : Z) (image : list Z) : Prop := {
  holds_crc addr : crc_ok addr image = true;
  holds_flag : env_flags_of image = flag;
  holds_import g addr : accepting (env_htab g) -> exists g1,
    import g addr (plain image) false = Some (1, g1) /\ env_ready g1 = true /\ rep (env_htab g1) M }.
Definition torn (image : list Z) : Prop := forall addr, crc_ok addr image = false.

Lemma torn_ok l : Forall byte l -> crc_ok 0 l = false -> torn l.
Proof.
  intros Hl H a. rewrite <- H. unfold EnvNand.crc_ok. f_equal. rewrite !crc32_ok; [done|by apply Forall_take, Forall_drop..].
Qed.
Lemma import_checked g addr img :
  crc32 0 (addr + 4) (take (Z.to_nat (EnvVar.ENV_SIZE (PLAIN_SIZE S))) (drop 4 img)) = le (take 4 img) ->
  import g addr img true = import g addr img false.
Proof. intros H. unfold env_import. by rewrite H, Z.eqb_refl. Qed.
Lemma retire_holds M flag l : 5 <= zlen l -> holds M flag l -> holds M OBSOLETE_FLAG (retire l).
Proof.
  intros Hl [Hc _ Hi]. assert (length (take 4 l) = 4%nat) as H4 by (rewrite length_take; lia).
  assert (take 4 (retire l) = take 4 l) as Et by by apply take_app_length'.
  assert (drop 5 (retire l) = drop 5 l) as Ed.
  { unfold retire. rewrite app_assoc. apply drop_app_length'. rewrite length_app, H4. done. }
  split.
  - intros a. unfold EnvNand.crc_ok. rewrite Ed, Et. apply Hc.
  - unfold env_flags_of, retire. rewrite app_nth2 by lia. by rewrite H4.
  - unfold plain. rewrite Ed, Et. exact Hi.
Qed.
Lemma new_image g M env_new : rep (env_htab g) M -> savable (PLAIN_SIZE S) M ->
  total_len 0 (map_to_list M) + 1 <= EnvVar.ENV_SIZE (PLAIN_SIZE S) ->
  (forall n, calloc_ok n = true) -> (forall s, strdup s = Some s) -> 5 < S -> exists len i data,
  hexport_r (env_htab g) 0 0 (Some (EnvVar.ENV_SIZE (PLAIN_SIZE S))) (EnvVar.ENV_SIZE (PLAIN_SIZE S)) [] = Some (len, i, data)
  /\ 0 <= len /\ let img := le32 (crc32 0 (env_new + 5) data) ++ [ACTIVE_FLAG] ++ data in zlen img = S /\ holds M ACTIVE_FLAG img.
Proof.
  clear HSB HS4. intros Hrep Hsav Hroom Hmem Hdup H5.
  pose proof (export_env_ok default_environment (PLAIN_SIZE S) g M (env_new + 1) Hrep Hsav Hmem Hdup
    ltac:(unfold PLAIN_SIZE; lia)) as H.
  destruct (Z.ltb_spec (EnvVar.ENV_SIZE (PLAIN_SIZE S)) (total_len 0 (map_to_list M) + 1)) as [?|_]; [lia|].
  destruct H as (image & He & (Hl & _ & Hcrc) & Himp). unfold export_env in He.
  destruct (hexport_r _ _ _ _ _ _) as [[[len i] data]|]; [|done]. cbn [mbind option_bind] in He.
  destruct (Z.ltb_spec len 0); [done|].
  assert (image = le32 (crc32 0 (env_new + 1 + 4) data) ++ data) as -> by congruence. exists len, i, data. split; [done|]. split; [done|].
  replace (env_new + 1 + 4) with (env_new + 5) in * by lia. set (h := le32 (crc32 0 (env_new + 5) data)) in *.
  assert (length h = 4%nat) as Hh by done. intros img. rewrite length_app, Hh in Hl.
  rewrite (drop_app_length' h), (take_app_length' h) in Hcrc by done.
  assert (take 4 img = h) as Et by by apply take_app_length'.
  assert (drop 5 img = data) as Ed by (unfold img; rewrite app_assoc; by apply drop_app_length').
  assert (take (Z.to_nat (EnvVar.ENV_SIZE (PLAIN_SIZE S))) data = data) as Er.
  { apply take_ge. unfold EnvVar.ENV_SIZE. lia. }
  split; [unfold img; rewrite !length_app, Hh; unfold PLAIN_SIZE in Hl; cbn [length]; lia|]. split.
  - intros a. unfold EnvNand.crc_ok. rewrite Ed, Et, Er, Hcrc. apply Z.eqb_refl.
  - unfold env_flags_of, img. rewrite app_nth2 by lia. by rewrite Hh.
  - intros g0 a Hacc. unfold plain. rewrite Ed, Et. rewrite <- import_checked; [by apply Himp|].
    rewrite (drop_app_length' h), (take_app_length' h), Er by done. apply Hcrc.
Qed.
(** ** Loading *)
(** Both copies, in good blocks. *)
Context (CONFIG_ENV_OFFSET CONFIG_ENV_OFFSET_REDUND : Z) (Hapart : apart CONFIG_ENV_OFFSET CONFIG_ENV_OFFSET_REDUND).
Definition regions (c : C) : Prop := region c CONFIG_ENV_OFFSET /\ region c CONFIG_ENV_OFFSET_REDUND.
Definition offset_of (valid : Z) : Z := if valid =? 1 then CONFIG_ENV_OFFSET else CONFIG_ENV_OFFSET_REDUND.
(** A buffer that [malloc] returned. *)
Definition buffer (w : mem) (a : Z) : Prop := 0 < a < 0x100000000 /\ allocated w a (Z.to_nat S).
Abbreviation env_relocate_spec :=
  (env_relocate_spec default_environment S CONFIG_ENV_OFFSET CONFIG_ENV_OFFSET_REDUND table had_ctrlc below).
Definition chosen (c : C) (t1 t2 : Z) : Z :=
  let env1 := copy c CONFIG_ENV_OFFSET in
  let env2 := copy c CONFIG_ENV_OFFSET_REDUND in
  choose (crc_ok t1 env1) (crc_ok t2 env2) (env_flags_of env1) (env_flags_of env2).

Lemma read_healthy m o buf : nand_curr_device m = 0 -> region (chip m) o -> buffer (memory m) buf -> healthy (chip m) ->
  exists c', sfc_nand_ops READ_OPS o S buf m
    = Some (0, set_memory (set_chip m c') (mwrite (memory m) buf (copy (chip m) o)))
    /\ unchanged (chip m) c' /\ healthy c'.
Proof.
  intros Hdev Hr [Hb Hal] Hh. destruct (ops_read m o buf Hdev Hr ltac:(lia) Hal) as (d & c' & E & _ & Hu & Ho).
  rewrite (outcome_healthy _ _ _ Ho Hh) in E. exists c'. split; [exact E|]. split; [exact Hu|]. by apply Ho.
Qed.
Lemma bind_some {A A' : Type} (x : A) (f : A -> option A') : (Some x ≫= f) = f x.
Proof. done. Qed.
Lemma relocate_eq t1 t2 m valid m1 m2 env1 env2 v g : 0 < t1 -> 0 < t2 ->
  sfc_nand_ops READ_OPS CONFIG_ENV_OFFSET S t1 m = Some (0, m1) -> load_bytes (memory m1) t1 (Z.to_nat S) = Some env1 ->
  sfc_nand_ops READ_OPS CONFIG_ENV_OFFSET_REDUND S t2 m1 = Some (0, m2) ->
  load_bytes (memory m2) t1 (Z.to_nat S) = Some env1 -> load_bytes (memory m2) t2 (Z.to_nat S) = Some env2 ->
  choose (crc_ok t1 env1) (crc_ok t2 env2) (env_flags_of env1) (env_flags_of env2) = v -> v = 1 \/ v = 2 ->
  import (menv m2) ((if v =? 1 then t1 else t2) + 1) (plain (if v =? 1 then env1 else env2)) false = Some (1, g) ->
  env_relocate_spec t1 t2 m valid = Some (set_menv m2 g, v).
Proof.
  intros H1 H2 E1 L1 E2 L1' L2 Hch Hv Hi. apply Z.lt_neq, not_eq_sym, Z.eqb_neq in H1, H2.
  unfold EnvNand.env_relocate_spec. rewrite H1, H2. cbv beta iota delta [orb].
  rewrite E1, bind_some. cbv beta iota. change (negb (0 =? 0)) with false. cbv iota. rewrite L1, bind_some. cbv beta iota.
  rewrite E2, bind_some. cbv beta iota. rewrite L1', bind_some. cbv beta iota. rewrite L2, bind_some. cbv beta iota zeta.
  change (0 =? 0) with true. rewrite andb_true_l, Hch.
  assert (v =? 0 = false) as -> by (apply Z.eqb_neq; clear -Hv; lia). cbv iota.
  destruct (v =? 1); cbv beta iota; rewrite Hi, bind_some; reflexivity.
Qed.
Lemma copy_length c o : length (copy c o) = Z.to_nat S.
Proof. pose proof (bytes_at_len (cell c) o S ltac:(lia)). unfold copy. lia. Qed.
Lemma nand_load_ok m t1 t2 v M flag : nand_curr_device m = 0 -> regions (chip m) -> healthy (chip m) ->
  buffer (memory m) t1 -> buffer (memory m) t2 -> apart t1 t2 -> accepting (env_htab (menv m)) ->
  chosen (chip m) t1 t2 = v -> v = 1 \/ v = 2 -> holds M flag (copy (chip m) (offset_of v)) ->
  forall valid, exists m', env_relocate_spec t1 t2 m valid = Some (m', v)
    /\ unchanged (chip m) (chip m') /\ env_ready (menv m') = true /\ rep (env_htab (menv m')) M.
Proof.
  intros Hdev [Hr1 Hr2] Hh Hb1 Hb2 Hap Hacc Hch Hv Hhold valid.
  destruct (read_healthy m CONFIG_ENV_OFFSET t1 Hdev Hr1 Hb1 Hh) as (c1 & E1 & Hu1 & Hh1).
  set (m1 := set_memory (set_chip m c1) _) in *.
  destruct (read_healthy m1 CONFIG_ENV_OFFSET_REDUND t2) as (c2 & E2 & Hu2 & _).
  { done. } { apply (region_ext (chip m)); [apply Hu1|done]. } { split; [apply Hb2|]. apply allocated_mwrite, Hb2. } { done. }
  change (chip m1) with c1 in *. rewrite (same_copy _ c1 CONFIG_ENV_OFFSET_REDUND) in E2 by apply Hu1.
  set (m2 := set_memory (set_chip m1 c2) _) in *.
  destruct (holds_import _ _ _ Hhold (menv m) ((if v =? 1 then t1 else t2) + 1) Hacc) as (g & Hg & Hready & Hrep).
  exists (set_menv m2 g). split; [|split; [|done]].
  - apply (relocate_eq t1 t2 m valid m1 m2 (copy (chip m) CONFIG_ENV_OFFSET) (copy (chip m) CONFIG_ENV_OFFSET_REDUND) v g).
    + apply Hb1.
    + apply Hb2.
    + exact E1.
    + apply load_bytes_at; [apply bytes_at_mwrite|apply copy_length].
    + exact E2.
    + apply load_bytes_at; [|apply copy_length]. apply bytes_at_mwrite_disjoint; [|apply bytes_at_mwrite].
      rewrite !copy_length. unfold apart in Hap. lia.
    + apply load_bytes_at; [apply bytes_at_mwrite|apply copy_length].
    + exact Hch.
    + exact Hv.
    + unfold offset_of in Hg. destruct (v =? 1); exact Hg.
  - split.
    + intros b. change (bad c2 b = bad (chip m) b). destruct Hu1 as [Ha _], Hu2 as [Hb _]. by rewrite Hb, Ha.
    + intros x. change (cell c2 x = cell (chip m) x). destruct Hu1 as [_ Ha], Hu2 as [_ Hb]. by rewrite Hb, Ha.
Qed.

(** The copy of [valid] is active and the one that the next start takes. *)
Definition current (c : C) (valid : Z) (M : gmap (list Z) (list Z)) : Prop :=
  holds M ACTIVE_FLAG (copy c (offset_of valid))
  /\ (valid = 2 \/ valid = 1 /\ (torn (copy c CONFIG_ENV_OFFSET_REDUND)
                              \/ env_flags_of (copy c CONFIG_ENV_OFFSET_REDUND) = OBSOLETE_FLAG)).
Lemma current_chosen c valid M t1 t2 : current c valid M -> chosen c t1 t2 = valid.
Proof.
  unfold current, chosen, choose. intros [[Hc Hf _] [->|[-> [Ht|Ho]]]]; cbn [offset_of Z.eqb Pos.eqb] in *.
  - rewrite Hc, Hf. destruct (crc_ok t1 _); [|done]. cbn [negb andb]. change (ACTIVE_FLAG =? OBSOLETE_FLAG) with false.
    rewrite andb_false_r. by repeat case_if.
  - rewrite Hc, (Ht t2). reflexivity.
  - rewrite Hc, Hf, Ho. destruct (crc_ok t2 _); reflexivity.
Qed.
(** ** A loss of power *)
(** What may be found later in a copy that was [before] and was to become [after]: one of them, or bytes
    that their checksum gives away. *)
Definition settled (before after now : list Z) : Prop := now = before \/ now = after \/ torn now.
(** The flash when the power is back. *)
Record restarted (c c' : C) : Prop := {
  restarted_unchanged : unchanged c c';
  restarted_healthy : healthy c' }.
Abbreviation saveenv :=
  (saveenv default_environment S S CONFIG_ENV_OFFSET CONFIG_ENV_OFFSET_REDUND table had_ctrlc below).

Lemma offset_swap valid : valid = 1 \/ valid = 2 ->
  (if valid =? 1 then (CONFIG_ENV_OFFSET_REDUND, CONFIG_ENV_OFFSET) else (CONFIG_ENV_OFFSET, CONFIG_ENV_OFFSET_REDUND))
  = (offset_of (3 - valid), offset_of valid) /\ (if valid =? 2 then 1 else 2) = 3 - valid.
Proof. by intros [->| ->]. Qed.
Lemma regions_of c valid : regions c -> region c (offset_of valid).
Proof. intros [H1 H2]. unfold offset_of. by case_if. Qed.
Lemma apart_of valid : valid = 1 \/ valid = 2 -> apart (offset_of (3 - valid)) (offset_of valid).
Proof.
  intros [->| ->].
  - change (apart CONFIG_ENV_OFFSET_REDUND CONFIG_ENV_OFFSET). unfold apart in *. clear -Hapart. lia.
  - exact Hapart.
Qed.
Lemma current_ext c c' valid M : (forall v, copy c' (offset_of v) = copy c (offset_of v)) -> current c valid M -> current c' valid M.
Proof.
  intros H. unfold current. rewrite H. pose proof (H 2) as H2. unfold offset_of at 1 2 in H2.
  cbn [Z.eqb Pos.eqb] in H2. by rewrite H2.
Qed.

(** What [saveenv] does to the flash, and in memory. *)
Lemma saveenv_ok m M valid env_new saved tmp : nand_curr_device m = 0 -> regions (chip m) -> 5 < S ->
  valid = 1 \/ valid = 2 -> buffer (memory m) env_new -> buffer (memory m) tmp ->
  rep (env_htab (menv m)) M -> savable (PLAIN_SIZE S) M ->
  total_len 0 (map_to_list M) + 1 <= EnvVar.ENV_SIZE (PLAIN_SIZE S) ->
  (forall n, calloc_ok n = true) -> (forall s, strdup s = Some s) ->
  exists m1 image, saveenv env_new saved tmp m valid = Some (0, m1, 3 - valid) /\ holds M ACTIVE_FLAG image
    /\ (forall b, bad (chip m1) b = bad (chip m) b)
    /\ (forall x, (forall v, ~ offset_of v <= x < offset_of v + S) -> cell (chip m1) x = cell (chip m) x)
    /\ (copy (chip m1) (offset_of valid) = copy (chip m) (offset_of valid) \/ copy (chip m1) (offset_of (3 - valid)) = image)
    /\ outcome (chip m) (chip m1) (copy (chip m1) (offset_of (3 - valid)) = image
                                   /\ copy (chip m1) (offset_of valid) = retire (copy (chip m) (offset_of valid))).
Proof.
  intros Hdev Hr H5 Hv [Hb1 Hal1] [Hb2 Hal2] Hrep Hsav Hroom Hmem Hdup.
  destruct (new_image (menv m) M env_new Hrep Hsav Hroom Hmem Hdup H5) as (len & i & data & He & Hlen & Hil & Himg).
  set (image := le32 _ ++ _) in *. unfold EnvNand.saveenv. rewrite He, bind_some. cbv beta iota.
  apply Z.ltb_ge in Hlen. rewrite Hlen. cbv iota. fold image.
  rewrite (mem_stores_ok _ _ _ _ Hal1) by (clear -Hil; lia). rewrite bind_some. cbv beta iota zeta.
  destruct (offset_swap valid Hv) as [-> ->]. cbv beta iota. rewrite Z.ltb_irrefl, and_then_0. 
  set (m' := set_memory m _).
  destruct (save_ok m' image (offset_of (3 - valid)) (offset_of valid) env_new saved tmp) as (m1 & E & _ & Hb & Hk & Hor & Hout).
  { done. } { by apply regions_of. } { by apply regions_of. } { by apply apart_of. } { lia. } { lia. } { lia. }
  { apply bytes_at_mwrite. } { done. } { by apply allocated_mwrite. }
  rewrite E, bind_some. cbv beta iota. rewrite Z.eqb_refl. exists m1, image. split; [reflexivity|].
  split; [exact Himg|]. split; [exact Hb|]. split; [|split; [exact Hor|exact Hout]].
  intros x Hx. apply Hk; apply Hx.
Qed.
Lemma retire_flag l : 5 <= zlen l -> env_flags_of (retire l) = OBSOLETE_FLAG.
Proof.
  intros Hl. assert (length (take 4 l) = 4%nat) as H4 by (rewrite length_take; lia).
  unfold env_flags_of, retire. rewrite app_nth2 by lia. by rewrite H4.
Qed.
(** With the new copy in place and the old one given up. *)
Lemma current_new c valid M image : valid = 1 \/ valid = 2 -> holds M ACTIVE_FLAG image ->
  copy c (offset_of (3 - valid)) = image ->
  torn (copy c (offset_of valid)) \/ env_flags_of (copy c (offset_of valid)) = OBSOLETE_FLAG -> current c (3 - valid) M.
Proof.
  intros Hv Hi Hn Ho. split; [by rewrite Hn|]. destruct Hv as [->| ->]; [by left|]. right. split; [done|exact Ho].
Qed.
(** With the old copy as it was. *)
Lemma current_old c c1 valid M : current c valid M -> copy c1 (offset_of valid) = copy c (offset_of valid) ->
  copy c1 (offset_of (3 - valid)) = copy c (offset_of (3 - valid)) \/ torn (copy c1 (offset_of (3 - valid))) ->
  current c1 valid M.
Proof.
  intros [Hh Hc] Eo En. split; [by rewrite Eo|]. destruct Hc as [->|[-> Hc]]; [by left|]. right. split; [done|].
  change (3 - 1) with 2 in En. unfold offset_of in En. cbn [Z.eqb Pos.eqb] in En.
  destruct En as [->|Ht]; [exact Hc|by left].
Qed.
Lemma loss_ok c c1 valid M M' image : valid = 1 \/ valid = 2 -> current c valid M -> holds M' ACTIVE_FLAG image ->
  copy c1 (offset_of valid) = copy c (offset_of valid) \/ copy c1 (offset_of (3 - valid)) = image ->
  settled (copy c (offset_of (3 - valid))) image (copy c1 (offset_of (3 - valid))) ->
  settled (copy c (offset_of valid)) (retire (copy c (offset_of valid))) (copy c1 (offset_of valid)) ->
  5 < S -> current c1 valid M \/ current c1 (3 - valid) M'.
Proof.
  intros Hv Hcur Hi Hor Hn Ho H5. assert (5 <= zlen (copy c (offset_of valid))) as Hl by (rewrite copy_length; lia).
  assert (copy c1 (offset_of valid) = copy c (offset_of valid) -> copy c1 (offset_of (3 - valid)) = image ->
    current c1 valid M \/ current c1 (3 - valid) M') as Hboth.
  { intros Eo En. destruct Hv as [->| ->].
    - right. split; [by rewrite En|by left].
    - left. split; [rewrite Eo; apply Hcur|by left]. }
  destruct Ho as [Eo|Ho].
  - destruct Hn as [En|[En|Ht]]; [|by apply Hboth|]; left; apply (current_old c); auto.
  - destruct Hor as [Eo|En].
    + destruct Hn as [En|[En|Ht]]; [|by apply Hboth|]; left; apply (current_old c); auto.
    + right. apply (current_new _ _ _ image); [done|done|done|]. destruct Ho as [->|Ht]; [right|by left]. by apply retire_flag.
Qed.

End flash.

(** ** A flash that loses its power *)
(** After [left] more commands that change it, the last of which is not completed (never, if
    [left] is negative). *)
Record fading := mk_fading { fcells : Z -> Z; left : Z }.
#[local] Instance fading_mtd : MtdDriver fading := {
  mtd_size := 128; erasesize := 32; writesize := 8; oobsize := 0; mtd_writeable := true;
  bitflip_threshold := 1; ecc_strength := 0;
  _read c a n := (if left c =? 0 then -5 else 0, Store.bytes_at (fcells c) a n, c);
  _write c a l :=
    if left c =? 0 then (-5, 0, c)
    else if left c =? 1 then (-5, 0, mk_fading (program (fcells c) a (take (length l / 2) l)) 0)
    else (0, zlen l, mk_fading (program (fcells c) a l) (left c - 1));
  _erase c a n _ :=
    if left c =? 0 then (-5, c)
    else let n' := if left c =? 1 then n / 2 else n in
         (if left c =? 1 then -5 else 0,
          mk_fading (fun x => if (a <=? x) && (x <? a + n') then 0xff else fcells c x) (left c - 1));
  _block_isbad := Some (fun _ _ => 0);
  _block_markbad := None; _write_oob := None; oobavail := 0; drop_bbt c := c; scan_bbt c := c }.
#[local] Instance fading_mtd_laws : MtdLaws fading.
Proof.
  refine {| cell := fcells; bad _ _ := false; healthy c := left c < 0; alive c := negb (left c =? 0) |}.
  - exists 3, 5, 4. done.
  - intros c Hc. lia.
  - done.
  - eexists. split; [done|]. done.
  - intros c from len _ Hl _. cbn [_read fading_mtd]. split; [rewrite bytes_at_len; lia|]. split; [done|]. split; [done|].
    split; [done|]. split; [done|]. by destruct (left c =? 0).
  - intros c to l Ho Hm Hl Hs. cbn. destruct (program_ok (fcells c) to l) as [H1 H2].
    destruct (program_ok (fcells c) to (take (length l / 2) l)) as [H3 _]. rewrite length_take in H3.
    assert (to + zlen l <= (to + zlen l + 8 - 1) / 8 * 8) by zdm.
    destruct (Z.eqb_spec (left c) 0) as [E0|E0]; [|destruct (Z.eqb_spec (left c) 1) as [E1|E1]].
    + cbn. rewrite E0. by split_and!.
    + split; [done|]. split; [intros x Hx; apply H3; lia|]. split; [done|]. split; [|lia]. intros _. cbn. split; [lia|done].
    + split; [done|]. split; [intros x Hx; apply H1; lia|]. split; [|split; [|lia]].
      * intros _. split; [done|]. intros Hf. apply H2. intros x Hx. apply Hf. lia.
      * intros _. cbn. lia.
  - intros c a Ha Hm. cbn in *. assert (a = a / 32 * 32) as Ea by (pose proof (Z.div_mod a 32 ltac:(lia)); lia).
    destruct (Z.eqb_spec (left c) 0) as [E0|E0]; [cbn; rewrite E0; by split_and!|]. cbn zeta.
    set (n := if left c =? 1 then 16 else 32). assert (0 <= n <= 32) as Hn by (unfold n; case_if; lia).
    assert ((if left c =? 1 then 32 / 2 else 32) = n) as -> by (unfold n; by case_if). cbn [fcells left].
    split; [done|]. split; [|split; [|split; [|lia]]].
    + intros x Hx. replace ((a <=? x) && (x <? a + n)) with false; [done|]. symmetry. apply andb_false_iff.
      destruct (decide (a <= x)); [|left; lia]. right. destruct (Z.ltb_spec x (a + n)); [|done]. exfalso. apply Hx. zdm.
    + intros Hr x Hx. replace ((a <=? x) && (x <? a + n)) with true; [done|]. symmetry. unfold n.
      destruct (left c =? 1); [done|]. apply andb_true_iff. zdm.
    + intros _. split; [lia|]. case_if; lia.
Defined.

(** ** The environment of one variable, on this flash *)
Definition fading_cmd : cmd_tbl :=
  nand_cmd (C := fading) (fun _ => true) false true (fun _ => None) (fun c _ _ _ => (1, c)) (fun _ _ _ _ _ => None) (fun _ _ _ _ _ => None).
Definition buffers : mem := mwrite ∅ 0x1000 (repeat 0x55 0x200).
Definition slow_var : gmap (list Z) (list Z) := {[ codes "baudrate" := codes "9600" ]}.
Definition slow_table : hsearch_data := enter "baudrate" "9600" fresh11.
Lemma slow_table_rep : rep slow_table slow_var.
Proof.
  destruct (enter_ok fresh11 ∅ (codes "baudrate") (codes "9600") 0) as (r & Hr & Hent & Hacc);
    [apply fresh11_rep|by repeat constructor|left; apply fresh11_rep|done|done|].
  assert (tab r = slow_table) as Ht by (unfold slow_table, enter; by rewrite Hr).
  destruct Hent as [(_ & Hrep & _)|(_ & _ & He & _)].
  - by rewrite <- Ht.
  - rewrite Hacc in He by (by split). by destruct He.
Qed.
Lemma rate_savable d : d = codes "9600" \/ d = codes "115200" ->
  let M := {[ codes "baudrate" := d ]} : gmap (list Z) (list Z) in
  savable 31 M /\ total_len 0 (map_to_list M) + 1 <= EnvVar.ENV_SIZE 31.
Proof.
  intros Hd M. unfold M. rewrite map_to_list_singleton. split; [split|].
  - apply map_non_empty_singleton.
  - intros k d' [<- <-]%lookup_singleton_Some. split; [by repeat constructor|].
    unfold valid; cbn [fst snd]. destruct Hd as [->| ->]; (split; [split; [by repeat constructor|intros _; by_computation]|]);
      (split_and!; [by repeat constructor|by repeat constructor|done| | |done]); by_computation.
  - rewrite map_size_singleton. done.
  - rewrite map_to_list_singleton. by destruct Hd as [->| ->].
  - by destruct Hd as [->| ->].
Qed.
(** The image of a table, and a flash with the one of [baudrate=9600] in its first block. *)
Definition image_of (h : hsearch_data) : list Z :=
  match hexport_r h 0 0 (Some 27) 27 [] with
  | Some (_, _, data) => le32 (crc32 0 5 data) ++ [ACTIVE_FLAG] ++ data
  | None => []
  end.
Definition slow_image : list Z := image_of slow_table.
Definition slow_machine (n : Z) : machine fading :=
  mkmach (EnvSpec.one_env one_table) (mk_fading (store (fun _ => 0xff) 0 slow_image) n) buffers 0 [].
Definition power_back (m : machine fading) : machine fading :=
  mkmach (EnvSpec.one_env no_table) (mk_fading (fcells (chip m)) (-1)) buffers 0 [].
Lemma fading_current n : current [] 32 0 64 (chip (slow_machine n)) 1 slow_var.
Proof.
  destruct (rate_savable (codes "9600") ltac:(by left)) as [Hs Hr].
  destruct (new_image [] 32 ltac:(lia) (EnvSpec.one_env slow_table) slow_var 0 slow_table_rep Hs Hr ltac:(done) ltac:(done) ltac:(lia))
    as (len & i & data & E & _ & Hl & Hh).
  assert (le32 (crc32 0 (0 + 5) data) ++ [ACTIVE_FLAG] ++ data = slow_image) as Ei.
  { unfold slow_image, image_of. change (hexport_r slow_table 0 0 (Some 27) 27 []) with
      (hexport_r (env_htab (EnvSpec.one_env slow_table)) 0 0 (Some (EnvVar.ENV_SIZE (PLAIN_SIZE 32))) (EnvVar.ENV_SIZE (PLAIN_SIZE 32)) []).
    by rewrite E. }
  rewrite Ei in Hh. split.
  - replace (copy 32 (chip (slow_machine n)) (offset_of 0 64 1)) with slow_image; [exact Hh|]. by vm_compute.
  - right. split; [done|]. left.
    assert (copy 32 (chip (slow_machine n)) 64 = repeat 0xff 32) as -> by (vm_compute; reflexivity).
    apply torn_ok; [by repeat constructor|]. vm_compute. reflexivity.
Qed.
Lemma fading_buffer n a : In a [0x1000; 0x1040; 0x1080; 0x10c0] -> buffer 32 (memory (slow_machine n)) a.
Proof.
  intros Ha. split; [cbn in Ha; lia|]. intros i Hi. cbn [memory slow_machine].
  unfold buffers. rewrite lookup_mwrite, repeat_length. cbn in Ha. rewrite decide_True by lia.
  apply lookup_lt_is_Some_2. rewrite repeat_length. lia.
Qed.


(** ** Observations *)
(** A flash that does nothing any more: the environment is saved, it is said, and in the other copy. *)
Lemma failed_save_succeeds :
  ('(r, m, valid) ← saveenv [] 32 32 0 64 [fading_cmd] (fun _ => false) 0 0x1000 0 0x1040 (slow_machine 0) 1;
   Some (r, copy 32 (chip m) 0, copy 32 (chip m) 64, valid)) = Some (0, slow_image, repeat 0xff 32, 2).
Proof. vm_compute. reflexivity. Qed.
(** One copy behind the other, and the block of the first one goes bad: what is meant for it is
    programmed over the second one, which was active, and no copy is left. *)
#[local] Existing Instance toy_mtd.
#[local] Existing Instance toy_mtd_laws.
Definition toy_cmd : cmd_tbl :=
  nand_cmd (C := toy_nand) (fun _ => true) false true (fun _ => None) (fun c _ _ _ => (1, c)) (fun _ _ _ _ _ => None) (fun _ _ _ _ _ => None).
Definition close_machine : machine toy_nand :=
  mkmach (EnvSpec.one_env one_table) (mk_nand (store (fun _ => 0xff) 32 slow_image) [0] true) buffers 0 [].
Lemma bad_block_loses_both :
  ('(r, m, valid) ← saveenv [] 32 32 0 32 [toy_cmd] (fun _ => false) 0 0x1000 0 0x1040 close_machine 2;
   Some (r, valid, crc_ok 32 0 (copy 32 (chip m) 32),
     match env_relocate_spec [] 32 0 32 [toy_cmd] (fun _ => false) 0 0x1080 0x10c0 m valid with Some (m', _) => found "baudrate" (env_htab (menv m')) | None => false end))
  = Some (0, 1, false, false).
Proof. vm_compute. reflexivity. Qed.
